(* ===== verification/_CoqProject ===== *)
-Q . S2P
Prelude.v
Errors.v
Platform.v
FrameBuffer.v
StringUtils.v
Logger.v
Console.v
Toml.v
Config.v
NetworkCfg.v
SocketSetup.v
CommandQueue.v
Scope.v
Pools.v
Protocol.v
TcpClient.v
Doubles.v
ServerMetrics.v
ClientMetrics.v
Maxima.v
MetricsText.v
RunManifest.v
RuntimeSampler.v
WriterLog.v
ServerWriter.v
ServerWriterProps.v
ServerMain.v
ClientWriter.v
ClientWriterProps.v
ChatClient.v
ChatClientMain.v
ClientWorld.v
ChatClientMainProps.v
NetClient.v
SendBuffer.v
Net.v
Ledger.v
IoMultiplexer.v
Acceptor.v
MetricsCallbacks.v
PacketDispatcher.v
Framing.v
Tick.v
ClientServer.v
NetSteps.v
Lifecycle.v
LifecycleProps.v
LifecycleRun.v
Echo.v
ChatSession.v
ChatUser.v
ChatRoom.v
ChatHandlers.v
ChatInvariant.v
GameLoop.v
ChatSteps.v
ChatRun.v
ChatProps.v
ChatSpec.v
ChatTick.v
ChatHearing.v
Conversation.v
ChatTypes.v
ChatConcurrent.v
ChatServer.v
ChatServerProps.v
ChatStop.v
