(* ===== verification/Prelude.v ===== *)
(** * highp-mmorpg: a verification development

    The program is a chat server for many clients on Windows I/O completion ports,
    written in C++, with its client and an echo server: a general library ([src/lib]),
    a network library ([src/network]), the packet factories ([src/protocol]) and the
    programs ([src/exec]).  This library models it by a shallow embedding, one file per
    component, and proves what makes each component correct.

    ** How the program works, and which file models what

    A connection is a slot of a pool, a [net::Client] (NetClient.v), with a frame
    buffer (FrameBuffer.v) in which the bytes of its stream accumulate.  Slots are
    shared by pointer; Net.v is the heap of slots together with the system and the
    state that event callbacks reach.  SendBuffer.v follows a message posted to a slot until
    the system has taken it.

    [IocpAcceptor] (Acceptor.v) posts accepts, whose overlapped structures come from
    [HybridObjectPool] (Pools.v) and are kept by scope guards (Scope.v).
    [IocpIoMultiplexer] (IoMultiplexer.v) is the completion port with its workers.
    [ServerLifeCycle] (Lifecycle.v) owns both and the pool of clients; it turns
    completions into calls of [ISessionEventReceiver], which the chat's [Server]
    (ChatServer.v; the settings of its [main]: ServerMain.v) implements by passing them to
    [GameLoop] (GameLoop.v), and the echo
    server (Echo.v) by sending back what it receives.

    A receive of the chat server goes to [PacketDispatcher::Receive] (PacketDispatcher.v,
    Framing.v), which cuts the stream into frames, validates them and pushes commands on
    the [MPSCCommandQueue] (CommandQueue.v).  The logic thread drains the queue in [Tick]
    (Tick.v) and calls the handlers of the payload types (ChatHandlers.v), which act
    on sessions, users and rooms (ChatSession.v, ChatUser.v, ChatRoom.v) and answer
    with the packets of the protocol (Protocol.v).

    On the other side, [WsaSession], [TcpClientSocket] and [PacketStream] (TcpClient.v)
    carry frames over a blocking socket; the chat client (ChatClient.v) sends what is
    typed, and shows on a second thread what it receives; both threads write to one console
    (Console.v), on which the prompt stays under the log.  Its [main] (ChatClientMain.v) makes
    the metrics and their writer and starts and stops these threads.  The echo client is in
    Echo.v.

    The settings come from TOML files and the environment: StringUtils.v, Toml.v,
    Config.v (the readers, at run time and at compile time) and NetworkCfg.v.  Errors.v
    has [fn::Result] and the error codes, Platform.v the constants, byte order and system
    calls, SocketSetup.v socket options and the listening socket, Logger.v the loggers.

    Both sides measure themselves: ServerMetrics.v, MetricsCallbacks.v and ClientMetrics.v
    are the counters, timing windows and callbacks, Maxima.v the interleavings of two
    threads that observe one maximum.  Writers print snapshots of them into files from a
    thread of their own: MetricsText.v (the texts of numbers, times and strings, on the
    doubles of Doubles.v), RunManifest.v (the settings of the writers and the manifest),
    RuntimeSampler.v (processor times), ServerWriter.v and ClientWriter.v (records, lines,
    summaries, the writers), WriterLog.v, ServerWriterProps.v and ClientWriterProps.v
    (what the files hold).

    ** How it is modelled

    Machine integers are [Z] with the wrap-around written out ([u32], [i64], ...);
    sizes are [Z]; a [double] is the standard library's binary floating-point number with
    its operations rounded as IEEE 754 says.  An operation whose behaviour may be undefined
    (an access outside a buffer, a null or dangling pointer, a signed overflow, a time
    the runtime cannot print) has a result in [ub], an [option] of which [None] is undefined
    behaviour, so that [... = Some ...] in a theorem says that the code is defined.
    Stateful code passes its state; a [std::function] is an [option] of a state
    transformer.  A thread that shares state is a state machine whose steps are the points
    where it looks at or changes what others share, and an operation that waits for it is
    cut at the wait.

    Loops are structural, or take fuel that is shown to be enough: [Receive_loop] gets one
    more unit than bytes accumulated, and each turn that goes on consumes at least a header
    of four bytes ([Receive_loop_received]); [SendAll] and [RecvExact] get the bytes to
    transfer, and each turn moves one at least ([transfers_terminate]); [Parse] gets one more
    than the length of the text, of which each line takes a character ([Parse_loop_spec]);
    [year_of] looks through the 1031 years that [gmtime_s] knows ([year_of_spec]).

    The operating system is a type with one transition function (class [WinSock]), and for
    the writers the calls of classes [Process] and [Host]; every theorem holds for every
    system, except where a hypothesis or a class ([TcpEnd]: a socket delivers its stream;
    [ReliableHost]: files keep what is written) names what is relied on, and each of these
    has an instance.  FlatBuffers is a class of which only the round trip of a packet is
    used, as a hypothesis on the packets concerned; [number_codec] (Protocol.v) is an instance
    that loses nothing.  The order in which an [unordered_map]
    is traversed is a parameter that visits each entry once.

    ** What the theorems show

    - Framing and dispatch (Framing.v, Tick.v): [Receive] refines a frame grammar; a
      stream cut into chunks in any way yields its packets, once and in order, and
      [Tick] gives them to the handlers of their tags, which may send and need only keep
      a contract (class [Handling]; ChatTick.v shows that the chat's handlers keep it);
      what happens to frames that do not fit.
    - From the prompt to the handlers and back (ClientServer.v, ChatClient.v, TcpClient.v,
      Echo.v): the lines typed are the packets the server handles; the server's packets are
      the lines shown; frames cross a stream that is cut anywhere; messages come back from
      the echo server; every transfer terminates.
    - The whole conversation (ChatTick.v, Conversation.v): ChatTick.v shows that a turn of the
      logic thread refines the specification of the chat and that the workers are silent;
      [conversation] composes the clients, the transport, the threads of the server, its
      specification and the clients' screens, for any number of users and any
      interleaving; [conversation_on_screen] evaluates one.
    - Buffers and queues (FrameBuffer.v, CommandQueue.v, Pools.v): the frame buffer
      refines a byte queue; all interleavings of the command queue are FIFO and its
      critical sections exclude each other; the pool lends no object twice.
    - Connections (NetClient.v, Ledger.v, NetSteps.v, Acceptor.v, Lifecycle*.v): a slot
      announces connection and disconnection alternately, and its send buffer holds one
      message; the socket ledger, read off
      the recorded system calls, says that every open socket has one owner.  The
      network layer is proved against the interface [ReceiverOk] (LifecycleProps.v,
      LifecycleRun.v), which the chat server (ChatSteps.v, ChatServerProps.v) and the echo
      server (Echo.v) discharge: [chat_server_accounting] and [echo_server_accounting] are
      about whole servers started by [main].  ChatStop.v is about the end of the chat server: what [Stop]
      closes and leaves, and the clients that outlive the lifecycle they call back.
    - The chat (ChatInvariant.v, ChatRun.v, ChatProps.v): the invariant of users and
      rooms under every run, what a join, a leave and a message change and send, and
      what a disconnection leaves behind.  ChatSpec.v has the specification, a machine
      of sockets, people and rooms without ids, maps or buffers, and the simulation by
      which the server implements it; ChatHearing.v derives from it that two people in a room
      hear each other, every message once and in order; ChatTypes.v shows that every field and every packet
      sent keeps to its type on runs of any length; ChatConcurrent.v takes the
      handlers and the workers apart lock by lock, shows that what ChatRun.v takes as a step
      is a run of the finer machine, and that its invariant holds under every interleaving.
    - The chat client as a program (ChatClientMainProps.v, from what ClientWorld.v says of its
      parts): under every interleaving of the threads of the user, the receiver and the
      writer it stays defined, and sent, received and counted agree at any time; it returns
      within [2 * lines typed + 15] rounds in which every thread steps, a number that is
      the sum of the steps left in every phase, with all threads joined, everything
      released and the three files written.
    - The console (Console.v): no line of the log that fits a row overwrites another or a
      prompt that fits one; a longer prompt leaves a row behind.
    - Settings (Toml.v, NetworkCfg.v): what is printed as TOML is read back, the two
      readers agree, and a file of settings gives the record.
    - Metrics (ClientMetrics.v, RunManifest.v, ServerWriterProps.v, ClientWriter.v,
      ClientWriterProps.v): every tracked request is answered, timed out or pending;
      manifests and lines read back as the objects meant; summaries cover what was
      observed; after a run, under any interleaving of the client writer's thread, the
      files hold the log, the manifest and the summary of the same snapshots.
    - Behaviour the code does not intend (a stop with clients connected, stuck and poisoned frame buffers, ghost
      users, aliased closed slots, lost accepts and workers, leaked sockets, a null
      listener, an overrun send buffer, lines without their brace, ...) is stated as
      theorems and lemmas of the same form.

    ** What is not modelled

    Most log lines of the servers, the switches of the platform headers, network paths as output roots, and the scratch
    program.  Sleeping, yielding and thread creation have no effect on the
    state; where interleaving matters (the command queue, two accepts, two observers, the
    client's threads, the writers, the chat's handlers) it is explicit.  Data races on plain
    fields shared by workers and the logic thread are otherwise not studied: operations on
    the heap of slots are taken as steps. *)

From stdpp Require Import base gmap sets list strings option.
From coqutil Require Import Byte Word.LittleEndianList.

Open Scope Z_scope.

(** ** Machine integers

    A [w]-bit unsigned integer is a [Z] in [[0, 2^w)]; every C++ operation that
    can leave that range is written with the wrap-around it has. *)

Definition wrap (w z : Z) : Z := z mod 2 ^ w.

Abbreviation u8 := (wrap 8).
Abbreviation u16 := (wrap 16).
Abbreviation u32 := (wrap 32).
Abbreviation u64 := (wrap 64).

(** Two's complement reading of a [w]-bit word, for casts to signed types and
    for signed atomics (whose [fetch_add] wraps). *)
Definition swrap (w z : Z) : Z := wrap w (z + 2 ^ (w - 1)) - 2 ^ (w - 1).

Abbreviation i32 := (swrap 32).
Abbreviation i64 := (swrap 64).

Definition INT_MAX : Z := 2 ^ 31 - 1.
Definition UINT32_MAX : Z := 2 ^ 32 - 1.

Lemma wrap_range w z : 0 <= w -> 0 <= wrap w z < 2 ^ w.
Proof. intros. apply Z.mod_pos_bound, Z.pow_pos_nonneg; lia. Qed.

Lemma wrap_small w z : 0 <= z < 2 ^ w -> wrap w z = z.
Proof. apply Z.mod_small. Qed.

Lemma wrap_idemp w z : wrap w (wrap w z) = wrap w z.
Proof. apply Zmod_mod. Qed.

Lemma swrap_small w z : 0 < w -> - 2 ^ (w - 1) <= z < 2 ^ (w - 1) -> swrap w z = z.
Proof.
  intros Hw Hz. unfold swrap. rewrite wrap_small; [lia|].
  assert (2 ^ w = 2 * 2 ^ (w - 1)) as ->; [|lia].
  rewrite <-Z.pow_succ_r by lia. f_equal; lia.
Qed.

Lemma swrap_range w z : 0 < w -> - 2 ^ (w - 1) <= swrap w z < 2 ^ (w - 1).
Proof.
  intros Hw. unfold swrap. pose proof (wrap_range w (z + 2 ^ (w - 1)) ltac:(lia)).
  assert (2 ^ w = 2 * 2 ^ (w - 1)) as Heq; [|lia].
  rewrite <-Z.pow_succ_r by lia. f_equal; lia.
Qed.

(** ** Undefined behaviour

    A C++ expression whose behaviour may be undefined (an access outside a
    buffer, a null dereference, a signed overflow) denotes an [option]: [None]
    is undefined behaviour.  The theorems that exclude it state [is_Some]. *)

Abbreviation ub A := (option A).

(** ** Sizes *)

(** [size()] of a container, a [size_t]. *)
Definition zlen {A} (l : list A) : Z := Z.of_nat (length l).

Lemma zlen_nonneg {A} (l : list A) : 0 <= zlen l.
Proof. unfold zlen; lia. Qed.

Lemma zlen_nil {A} : zlen (@nil A) = 0.
Proof. done. Qed.

Lemma zlen_cons {A} (x : A) l : zlen (x :: l) = zlen l + 1.
Proof. unfold zlen; simpl; lia. Qed.

Lemma zlen_app {A} (l k : list A) : zlen (l ++ k) = zlen l + zlen k.
Proof. unfold zlen; rewrite length_app; lia. Qed.

Lemma zlen_0 {A} (l : list A) : zlen l = 0 -> l = [].
Proof. destruct l; [done|]. rewrite zlen_cons. pose proof (zlen_nonneg l). lia. Qed.

(** ** Standard algorithms on vectors *)

Section Algorithms.
Context {A : Type}.
Implicit Types (f : A -> bool) (l : list A).

(** [std::find_if]: the index of the first match. *)
Fixpoint find_if f l : option nat :=
  match l with
  | [] => None
  | x :: l => if f x then Some 0%nat else S <$> find_if f l
  end.

(** [vector::erase(it)] at a valid index. *)
Fixpoint erase_at (i : nat) l : list A :=
  match l, i with
  | [], _ => []
  | _ :: l, O => l
  | x :: l, S i => x :: erase_at i l
  end.

(** [std::erase_if]. *)
Definition erase_if f l : list A := List.filter (fun x => negb (f x)) l.

(** A range-for loop that returns at the first match. *)
Fixpoint first_match f l : option A :=
  match l with
  | [] => None
  | x :: l => if f x then Some x else first_match f l
  end.

Lemma find_if_Some f l i :
  find_if f l = Some i ->
  exists x, l !! i = Some x /\ f x = true /\
    forall j y, (j < i)%nat -> l !! j = Some y -> f y = false.
Proof.
  revert i; induction l as [|x l IH]; intros i; simpl; [done|].
  destruct (f x) eqn:Hx.
  - intros [= <-]. exists x. split_and!; [done|done|]. intros; lia.
  - destruct (find_if f l) as [k|] eqn:Hk; intros [= <-].
    destruct (IH _ eq_refl) as (y & Hy & Hfy & Hmin). exists y. split_and!; [done|done|].
    intros [|j] z Hj; simpl; [by intros [= <-]|]. apply Hmin; lia.
Qed.

Lemma find_if_None f l : find_if f l = None <-> forall x, x ∈ l -> f x = false.
Proof.
  induction l as [|x l IH]; simpl; [set_solver|].
  destruct (f x) eqn:Hx.
  - split; [done|]. intros H. specialize (H x ltac:(set_solver)). congruence.
  - rewrite fmap_None, IH. set_solver.
Qed.

Lemma first_match_Some f l x : first_match f l = Some x -> x ∈ l /\ f x = true.
Proof.
  induction l as [|y l IH]; simpl; [done|].
  destruct (f y) eqn:Hy; [intros [= ->]; set_solver|]. set_solver.
Qed.

Lemma first_match_None f l : first_match f l = None <-> forall x, x ∈ l -> f x = false.
Proof.
  induction l as [|x l IH]; simpl; [set_solver|].
  destruct (f x) eqn:Hx; [|set_solver].
  split; [done|]. intros H. specialize (H x ltac:(set_solver)). congruence.
Qed.

(** The loop's result does not depend on the order of iteration when at most
    one element matches. *)
Lemma first_match_unique f l x :
  x ∈ l -> f x = true -> (forall y, y ∈ l -> f y = true -> y = x) ->
  first_match f l = Some x.
Proof.
  intros Hin Hf Huniq. destruct (first_match f l) as [y|] eqn:Hy.
  - apply first_match_Some in Hy as [??]. f_equal; eauto.
  - rewrite first_match_None in Hy. rewrite Hy in Hf by done. done.
Qed.

Lemma elem_of_erase_if f l x : x ∈ erase_if f l <-> x ∈ l /\ f x = false.
Proof.
  unfold erase_if. rewrite !list_elem_of_In, filter_In. destruct (f x); naive_solver.
Qed.

Lemma erase_if_sublist f l : erase_if f l `sublist_of` l.
Proof.
  induction l as [|x l IH]; simpl; [done|]. unfold erase_if in *; simpl.
  destruct (f x); simpl; by constructor.
Qed.

Lemma erase_at_sublist i l : erase_at i l `sublist_of` l.
Proof. revert i; induction l as [|x l IH]; intros [|i]; simpl; constructor; auto. Qed.

Lemma erase_at_perm i l x : l !! i = Some x -> l ≡ₚ x :: erase_at i l.
Proof.
  revert i; induction l as [|y l IH]; intros [|i]; simpl; [done|done|by intros [= ->]|].
  intros Hi. etrans; [|apply Permutation_swap]. constructor. by apply IH.
Qed.

Lemma erase_if_none f l : (forall x, x ∈ l -> f x = false) -> erase_if f l = l.
Proof.
  induction l as [|x l IH]; intros H; [done|]. unfold erase_if in *; simpl.
  rewrite H by set_solver. simpl. f_equal. apply IH. set_solver.
Qed.
End Algorithms.

Lemma Forall_weaken {A} (P Q : A -> Prop) l : Forall P l -> (forall x, P x -> Q x) -> Forall Q l.
Proof. intros HP HPQ. induction HP; constructor; auto. Qed.

Lemma Forall_elem {A} (P : A -> Prop) l x : Forall P l -> x ∈ l -> P x.
Proof. intros HP Hx. rewrite Forall_forall in HP. by apply HP, list_elem_of_In. Qed.

Lemma Forall_intro {A} (P : A -> Prop) l : (forall x, x ∈ l -> P x) -> Forall P l.
Proof. intros HP. apply Forall_forall. intros x Hx. by apply HP, list_elem_of_In. Qed.

Lemma NoDup_app_tail {A} (l k : list A) : NoDup (l ++ k) -> NoDup k.
Proof. induction l as [|x l IH]; [done|]. inversion 1; auto. Qed.

Lemma NoDup_snoc {A} (l : list A) x : NoDup l -> x ∉ l -> NoDup (l ++ [x]).
Proof.
  intros Hl Hx. rewrite Permutation_app_comm. by constructor.
Qed.

(** Erasing the one match found is erasing every match when keys are distinct. *)
Lemma erase_at_unique {A} (f : A -> Z) k (l : list A) i :
  NoDup (f <$> l) -> find_if (fun x => f x =? k) l = Some i ->
  erase_at i l = erase_if (fun x => f x =? k) l.
Proof.
  revert i. induction l as [|x l IH]; intros i Hnd Hf; [done|]. cbn in *.
  inversion Hnd as [|?? Hx Hnd']; subst. unfold erase_if in *. cbn.
  destruct (Z.eqb_spec (f x) k) as [<-|Hne]; cbn.
  - injection Hf as <-. symmetry. apply erase_if_none. intros y Hy. apply Z.eqb_neq. intros Heq.
    apply Hx. rewrite <-Heq. by apply list_elem_of_fmap_2.
  - destruct (find_if _ l) as [j|] eqn:Hj; [|done]. injection Hf as <-. cbn. f_equal. by apply IH.
Qed.

Lemma erase_if_idemp {A} f (l : list A) : erase_if f (erase_if f l) = erase_if f l.
Proof. apply erase_if_none. intros x Hx. by apply elem_of_erase_if in Hx as [_ ?]. Qed.

Lemma Forall_erase_if {A} (P : A -> Prop) f l : Forall P l -> Forall P (erase_if f l).
Proof. intros HP. apply Forall_intro. intros x Hx. apply elem_of_erase_if in Hx as [Hx _]. by eapply Forall_elem. Qed.

Lemma NoDup_fmap_erase_if {A B} (g : A -> B) f (l : list A) :
  NoDup (g <$> l) -> NoDup (g <$> erase_if f l).
Proof.
  intros Hnd. eapply sublist_NoDup; [exact Hnd|]. apply fmap_sublist, erase_if_sublist.
Qed.

Lemma zlen_erase_if {A} f (l : list A) : zlen (erase_if f l) <= zlen l.
Proof. pose proof (sublist_length _ _ (erase_if_sublist f l)). unfold zlen. lia. Qed.

Lemma list_insert_alter_Some {A} (f : A -> A) (l : list A) i x :
  l !! i = Some x -> <[i := f x]> l = alter f i l.
Proof.
  intros Hi. rewrite list_insert_alter. apply list_alter_ext; [|done].
  intros y Hy. by simplify_eq.
Qed.

(** ** Iteration over [std::unordered_map]

    The order in which a hash map is traversed is unspecified; it is a parameter
    of which only the documented contract is used: every entry is visited
    exactly once. *)

Class UMapOrder := {
  umap_order : forall {V : Type}, gmap Z V -> list (Z * V);
  umap_order_perm : forall (V : Type) (m : gmap Z V), umap_order m ≡ₚ map_to_list m
}.

(** One admissible order, used to evaluate the model. *)
#[export] Instance umap_order_canonical : UMapOrder | 100 :=
  {| umap_order := fun V m => map_to_list m;
     umap_order_perm := fun V m => Permutation_refl (map_to_list m) |}.

Lemma elem_of_umap_order `{UMapOrder} {V} (m : gmap Z V) k v :
  (k, v) ∈ umap_order m <-> m !! k = Some v.
Proof. rewrite umap_order_perm. apply elem_of_map_to_list. Qed.

(** ** Automation *)

Create HintDb highp.

#[export] Hint Resolve zlen_nonneg wrap_range erase_if_sublist erase_at_sublist : highp.

(** Case analysis on the boolean tests of a definition, keeping the equations. *)
Ltac case_bool :=
  match goal with
  | |- context [if ?b then _ else _] => let H := fresh "Hb" in destruct b eqn:H
  | H0 : context [if ?b then _ else _] |- _ => let H := fresh "Hb" in destruct b eqn:H
  end.

(** Turn boolean comparisons on [Z] in the context into propositions. *)
Ltac zbool :=
  repeat match goal with
  | H : (_ =? _)%Z = true |- _ => apply Z.eqb_eq in H
  | H : (_ =? _)%Z = false |- _ => apply Z.eqb_neq in H
  | H : (_ <? _)%Z = true |- _ => apply Z.ltb_lt in H
  | H : (_ <? _)%Z = false |- _ => apply Z.ltb_ge in H
  | H : (_ <=? _)%Z = true |- _ => apply Z.leb_le in H
  | H : (_ <=? _)%Z = false |- _ => apply Z.leb_gt in H
  | H : (_ >? _)%Z = _ |- _ => rewrite Z.gtb_ltb in H
  | H : (_ >=? _)%Z = _ |- _ => rewrite Z.geb_leb in H
  | H : (_ && _)%bool = true |- _ => apply andb_true_iff in H as [? ?]
  | H : (_ || _)%bool = false |- _ => apply orb_false_iff in H as [? ?]
  | H : negb _ = true |- _ => apply negb_true_iff in H
  | H : negb _ = false |- _ => apply negb_false_iff in H
  end.
