(* ===== verification/Errors.v ===== *)
(** * Error values: [fn::Result], [err::ENetworkError], [err::EPacketError]

    [lib/inc/functional/Result.hpp], [lib/inc/error/NetworkError.h],
    [lib/inc/error/PacketError.h], [lib/inc/error/Errors.hpp]. *)

From S2P Require Import Prelude.
From stdpp Require Import base list strings option.
Open Scope Z_scope.

(** ** Result

    The class stores a value, an error code and a flag; every constructor leaves
    the unused one default-initialised.  [Data] and [Err] read their field
    whatever the flag says. *)

Section Result.
Context {T E : Type}.

(** @src lib/inc/functional/Result.hpp 13-60 Result *)
Record Result := mkResult { _data : T; _err : E; _hasError : bool }.

Context `{Inhabited T, Inhabited E}.

(** @src lib/inc/functional/Result.hpp 29-31 Result::Ok *)
Definition Ok (data : T) : Result :=
  {| _data := data; _err := inhabitant; _hasError := false |}.

(** @src lib/inc/functional/Result.hpp 34-36 Result::Err *)
Definition Err (err : E) : Result :=
  {| _data := inhabitant; _err := err; _hasError := true |}.

(** @src lib/inc/functional/Result.hpp 39-39 Result::IsOk *)
Definition IsOk (r : Result) : bool := negb (_hasError r).

(** @src lib/inc/functional/Result.hpp 42-42 Result::HasErr *)
Definition HasErr (r : Result) : bool := _hasError r.
End Result.

Arguments Result : clear implicits.

(** [Result<void, E>]: the specialisation has no data field. *)

(** @src lib/inc/functional/Result.hpp 67-107 Result<void, E> *)
Definition ResultVoid (E : Type) : Type := Result unit E.

(** @src lib/inc/functional/Result.hpp 77-79 Result<void, E>::Ok *)
Definition OkVoid {E} `{Inhabited E} : ResultVoid E := Ok tt.

Lemma IsOk_HasErr {T E} (r : Result T E) : IsOk r = negb (HasErr r).
Proof. done. Qed.

(** ** Network errors *)

(** @src lib/inc/error/NetworkError.h 10-69 ENetworkError *)
Inductive ENetworkError :=
  | Unknown
  | WsaStartupFailed
  | WsaNotInitialized
  | WsaNetworkSubSystemFailed
  | WsaNotSupportedAddressFamily
  | WsaInvalidArgs
  | WsaLackFileDescriptor
  | WsaNoBufferSpace
  | WsaNotSupportedProtocol
  | WsaRecvFailed
  | WsaSendFailed
  | SocketInvalid
  | SocketCreateFailed
  | SocketBindFailed
  | SocketListenFailed
  | SocketAcceptFailed
  | SocketConnectFailed
  | SocketPostAcceptFailed
  | IocpCreateFailed
  | IocpConnectFailed
  | IocpInternalError
  | IocpIoFailed
  | ThreadWorkerCreateFailed
  | ThreadAccepterCreateFailed
  | ThreadWorkerFailed
  | ThreadAcceptFailed.

#[export] Instance ENetworkError_eq_dec : EqDecision ENetworkError.
Proof. solve_decision. Defined.

#[export] Instance ENetworkError_inhabited : Inhabited ENetworkError := populate Unknown.

(** @src lib/inc/error/NetworkError.h 76-116 toString *)
Definition NetworkError_toString (err : ENetworkError) : string :=
  match err with
  | WsaStartupFailed => "WSAStartup failed."
  | WsaNotInitialized => "WSAStartup failed: WSAStartup() is not called."
  | WsaNetworkSubSystemFailed => "WSAStartup failed: Network Subsystem failed."
  | WsaNotSupportedAddressFamily =>
      "WSAStartup failed: Not supported Address Family (e.g. AF_INET, AF_INET6)"
  | WsaInvalidArgs => "WSAStartup failed: Invalid Arguments."
  | WsaNoBufferSpace => "WSAStartup failed: Not enough buffer space for a socket."
  | WsaNotSupportedProtocol => "WSAStartup failed: Not supported protocol."
  | WsaRecvFailed => "WSARecv failed."
  | WsaSendFailed => "WSASend failed."
  | SocketInvalid => "Invalid socket."
  | SocketCreateFailed => "Create socket failed."
  | SocketBindFailed => "Bind failed."
  | SocketListenFailed => "Listen failed."
  | SocketAcceptFailed => "Accept failed."
  | SocketConnectFailed => "Connect failed."
  | SocketPostAcceptFailed => "Post accept failed."
  | IocpCreateFailed => "CreateIoCompletionPort failed."
  | IocpConnectFailed => "Connect to IOCP failed."
  | IocpInternalError => "IOCP internal error."
  | IocpIoFailed => "I/O operation failed."
  | ThreadWorkerCreateFailed => "Create worker thread failed."
  | ThreadAccepterCreateFailed => "Create accepter thread failed."
  | ThreadWorkerFailed => "Worker thread failed."
  | ThreadAcceptFailed => "Accept thread failed."
  | _ => "Unknown error."
  end.

(** Winsock error codes that [LogErrorByWSAStartupResult] tells apart. *)
Definition WSANOTINITIALISED : Z := 10093.
Definition WSAENETDOWN : Z := 10050.
Definition WSAEAFNOSUPPORT : Z := 10047.
Definition WSAEINVAL : Z := 10022.
Definition WSAEMFILE : Z := 10024.
Definition WSAENOBUFS : Z := 10055.
Definition WSAEPROTONOSUPPORT : Z := 10043.

(** @src lib/inc/error/Errors.hpp 71-83 LogErrorByWSAStartupResult *)
Definition LogErrorByWSAStartupResult (err : Z) : ResultVoid ENetworkError :=
  if err =? WSANOTINITIALISED then Err WsaNotInitialized
  else if err =? WSAENETDOWN then Err WsaNetworkSubSystemFailed
  else if err =? WSAEAFNOSUPPORT then Err WsaNotSupportedAddressFamily
  else if err =? WSAEINVAL then Err WsaInvalidArgs
  else if err =? WSAEMFILE then Err WsaLackFileDescriptor
  else if err =? WSAENOBUFS then Err WsaNoBufferSpace
  else if err =? WSAEPROTONOSUPPORT then Err WsaNotSupportedProtocol
  else Err WsaStartupFailed.

(** ** Packet errors *)

(** @src lib/inc/error/PacketError.h 4-12 EPacketError *)
Inductive EPacketError :=
  | PktUnknown
  | FbFailedVerify
  | FbFailedSerialize
  | FbGetPacket
  | FbFailedDeserialize
  | FbPayloadTypeNotFound.

#[export] Instance EPacketError_eq_dec : EqDecision EPacketError.
Proof. solve_decision. Defined.

#[export] Instance EPacketError_inhabited : Inhabited EPacketError := populate PktUnknown.

(** @src lib/inc/error/PacketError.h 14-25 toString *)
Definition PacketError_toString (err : EPacketError) : string :=
  match err with
  | FbFailedVerify => "PacketFlatbufferFailedVerify"
  | FbFailedSerialize => "PacketFlatbufferFailedSerialize"
  | FbGetPacket => "PacketFlatbufferGetPacket"
  | FbFailedDeserialize => "PacketFlatbufferFailedDeserialize"
  | FbPayloadTypeNotFound => "PacketFlatbufferPayloadTypeNotFound"
  | PktUnknown => "Unknown"
  end.

(** ** Properties *)

(** Which error codes share a diagnostic: only the two whose text is the
    fallback of the [switch]. *)
Lemma toString_inj e1 e2 :
  NetworkError_toString e1 = NetworkError_toString e2 <->
  e1 = e2 \/ (e1 = Unknown /\ e2 = WsaLackFileDescriptor)
          \/ (e1 = WsaLackFileDescriptor /\ e2 = Unknown).
Proof.
  split; [|naive_solver].
  destruct e1, e2; intros H; first [by auto | by vm_compute in H].
Qed.

Lemma HasErr_Ok {T E} `{Inhabited T, Inhabited E} (x : T) : HasErr (Ok (E:=E) x) = false.
Proof. done. Qed.

Lemma HasErr_Err {T E} `{Inhabited T, Inhabited E} (e : E) : HasErr (Err (T:=T) e) = true.
Proof. done. Qed.

