(* ===== verification/Platform.v ===== *)
(** * The platform: constants, byte memory, and the Winsock interface

    [network/inc/config/Const.h], [network/inc/platform.h],
    [network/inc/client/windows/EIoType.h], [.../OverlappedExt.h],
    [network/inc/util/NetworkUtil.hpp], [network/inc/transport/NetworkTransport.hpp].

    The operating system is not part of the program: it is a state type [OS] with
    one transition function, [os_call], of which nothing is assumed except where
    a lemma says so. *)

From S2P Require Import Prelude Errors.
From stdpp Require Import base list strings option.
From coqutil Require Import Byte Word.LittleEndianList.
Open Scope Z_scope.

(** ** Compile-time constants ([Const::Buffer], [Const::Io]) *)

(** @src network/inc/config/Const.h 14-14 Const::Buffer::recvBufferSize *)
Definition recvBufferSize : Z := 4096.

(** @src network/inc/config/Const.h 15-15 Const::Buffer::sendBufferSize *)
Definition sendBufferSize : Z := 1024.

(** @src network/inc/config/Const.h 16-16 Const::Buffer::addressBufferSize *)
Definition addressBufferSize : Z := 64.

(** @src network/inc/config/Const.h 18-18 Const::Buffer::maxFrameSize *)
Definition maxFrameSize : Z := 65536.

(** @src network/inc/config/Const.h 22-22 Const::Io::workerIoPendingCancelGracePeriodMs *)
Definition workerIoPendingCancelGracePeriodMs : Z := 100.

(** [PacketStream::kHeaderSize = sizeof(uint32_t)]. *)
(** @src network/inc/client/PacketStream.h 23-23 PacketStream::kHeaderSize *)
Definition kHeaderSize : Z := 4.

(** @src network/inc/platform.h 79-79 InvalidSocket *)
Definition InvalidSocket : Z := 2 ^ 64 - 1.

(** @src network/inc/platform.h 82-82 SocketError *)
Definition SocketError : Z := -1.

Definition INVALID_HANDLE_VALUE : Z := 2 ^ 64 - 1.
Definition ERROR_IO_PENDING : Z := 997.
Definition ERROR_OPERATION_ABORTED : Z := 995.

(** The port is an [unsigned short]; the second test is always true. *)
(** @src network/inc/util/NetworkUtil.hpp 9-11 IsValidPort *)
Definition IsValidPort (port : Z) : bool := (0 <? port) && (port <=? 65535).

(** ** I/O kinds *)

(** @src network/inc/client/windows/EIoType.h 10-22 EIoType *)
Inductive EIoType := IoAccept | IoRecv | IoSend | IoDisconnect.

#[export] Instance EIoType_eq_dec : EqDecision EIoType.
Proof. solve_decision. Defined.

(** @src network/inc/client/windows/EIoType.h 28-36 EIoTypeHelper::ToString *)
Definition EIoTypeHelper_ToString (t : EIoType) : string :=
  match t with
  | IoAccept => "Accept" | IoRecv => "Recv" | IoSend => "Send"
  | IoDisconnect => "Disconnect"
  end.

(** @src network/inc/transport/NetworkTransport.hpp 8-14 ETransport *)
Inductive ETransport := TCP | UDP.

Definition SOCK_STREAM : Z := 1.
Definition SOCK_DGRAM : Z := 2.
Definition IPPROTO_TCP : Z := 6.
Definition IPPROTO_UDP : Z := 17.

(** @src network/inc/transport/NetworkTransport.hpp 35-42 WindowsNetworkTransport::GetInfos *)
Definition GetInfos (transportType : ETransport) : Z * Z :=
  match transportType with
  | TCP => (SOCK_STREAM, IPPROTO_TCP)
  | UDP => (SOCK_DGRAM, IPPROTO_UDP)
  end.

(** ** Byte memory *)

(** [std::memcpy(dst.data() + off, src.data(), src.size())]: outside the
    destination the behaviour is undefined. *)
Definition memcpy_at (dst : list byte) (off : Z) (src : list byte) : ub (list byte) :=
  if (0 <=? off) && (off + zlen src <=? zlen dst) then
    Some (take (Z.to_nat off) dst ++ src ++ drop (Z.to_nat (off + zlen src)) dst)
  else None.

(** [std::memmove(buf.data(), buf.data() + off, n)]. *)
Definition memmove_front (buf : list byte) (off n : Z) : ub (list byte) :=
  if (0 <=? off) && (0 <=? n) && (off + n <=? zlen buf) then
    memcpy_at buf 0 (take (Z.to_nat n) (drop (Z.to_nat off) buf))
  else None.

(** The [uint32_t] whose object representation the first four bytes are, on the
    little-endian host, and back. *)
Definition load_u32 (bs : list byte) : Z := le_combine (take 4 bs).
Definition store_u32 (x : Z) : list byte := le_split 4 x.

(** [ntohl] and [htonl] on a little-endian host: the byte swap. *)
Definition bswap32 (x : Z) : Z := le_combine (rev (le_split 4 x)).
Definition htonl : Z -> Z := bswap32.
Definition ntohl : Z -> Z := bswap32.

Lemma memcpy_at_Some dst off src :
  0 <= off -> off + zlen src <= zlen dst ->
  memcpy_at dst off src =
    Some (take (Z.to_nat off) dst ++ src ++ drop (Z.to_nat (off + zlen src)) dst).
Proof.
  intros. unfold memcpy_at.
  rewrite (proj2 (Z.leb_le 0 off)), (proj2 (Z.leb_le _ (zlen dst))) by lia. done.
Qed.

Lemma memcpy_at_None dst off src :
  memcpy_at dst off src = None <-> (off < 0 \/ zlen dst < off + zlen src).
Proof.
  unfold memcpy_at.
  destruct (Z.leb_spec 0 off), (Z.leb_spec (off + zlen src) (zlen dst)); simpl;
    split; try done; lia.
Qed.

Lemma memcpy_at_length dst off src dst' :
  memcpy_at dst off src = Some dst' -> length dst' = length dst.
Proof.
  unfold memcpy_at. case_bool; [|done]. intros [= <-]. zbool. unfold zlen in *.
  rewrite !length_app, length_take, length_drop. lia.
Qed.

Lemma length_store_u32 x : length (store_u32 x) = 4%nat.
Proof. apply length_le_split. Qed.

Lemma load_u32_app bs cs : length bs = 4%nat -> load_u32 (bs ++ cs) = load_u32 bs.
Proof. intros. unfold load_u32. rewrite take_app_le by lia. done. Qed.

Lemma load_u32_range bs : 0 <= load_u32 bs < 2 ^ 32.
Proof.
  unfold load_u32. pose proof (le_combine_bound (take 4 bs)) as [? H]. split; [done|].
  eapply Z.lt_le_trans; [exact H|]. apply Z.pow_le_mono_r; [lia|].
  rewrite length_take. lia.
Qed.

Lemma bswap32_range x : 0 <= bswap32 x < 2 ^ 32.
Proof.
  unfold bswap32. pose proof (le_combine_bound (rev (le_split 4 x))) as H.
  by rewrite length_rev, length_le_split in H.
Qed.

(** The header written by a sender is read back by a receiver. *)
Lemma header_roundtrip n rest :
  0 <= n < 2 ^ 32 -> ntohl (load_u32 (store_u32 (htonl n) ++ rest)) = n.
Proof.
  intros Hn. rewrite load_u32_app by apply length_store_u32.
  unfold load_u32, store_u32, ntohl, htonl, bswap32.
  rewrite take_ge by (rewrite length_le_split; lia).
  assert (length (rev (le_split 4 n)) = 4%nat) as Hl
    by (rewrite length_rev; apply length_le_split).
  rewrite (split_le_combine' _ 4 Hl), (split_le_combine' _ 4 Hl), rev_involutive.
  rewrite le_combine_split. by apply Z.mod_small.
Qed.

(** ** The Winsock interface *)

(** The calls the program makes to the system, with the arguments it chooses. *)
Inductive syscall :=
  | SysWSAStartup
  | SysWSACleanup
  | SysSocket (type protocol : Z)
  | SysConnect (sock port : Z) (ip : string)
  | SysInetPton (ip : string)
  | SysSend (sock : Z) (data : list byte)
  | SysRecv (sock len : Z)
  | SysShutdown (sock : Z)
  | SysClosesocket (sock : Z)
  | SysBind (sock port : Z)
  | SysListen (sock backlog : Z)
  | SysSetsockopt (sock level opt : Z) (value : Z)
  | SysWSAIoctl (sock code : Z) (args : list Z)
  | SysWSARecv (sock len : Z)
  | SysWSASend (sock : Z) (data : list byte)
  | SysAcceptEx (listenSock acceptSock : Z) (overlapped : Z)
  | SysCancelIoEx (sock : Z) (overlapped : Z)
  | SysCreateIoCompletionPort (file iocp key : Z)
  | SysPostQueuedCompletionStatus (iocp bytes key : Z)
  | SysCloseHandle (handle : Z)
  | SysSteadyClockNow
  | SysSystemClockNow
  | SysHardwareConcurrency.

(** The return value, the thread's last error after the call, and the bytes the
    call wrote to its output buffer. *)
Record sysret := mkSysret { ret : Z; lastError : Z; outBytes : list byte }.

(** The system as the program sees it. *)
Class WinSock (OS : Type) := {
  os_call : syscall -> OS -> OS * sysret
}.

(** The state after some calls. *)
Definition run_calls {OS} `{WinSock OS} (cs : list syscall) (os : OS) : OS :=
  foldl (fun os c => (os_call c os).1) os cs.

Lemma run_calls_app {OS} `{WinSock OS} cs cs' (os : OS) : run_calls (cs ++ cs') os = run_calls cs' (run_calls cs os).
Proof. apply foldl_app. Qed.

(** [highp::time::Time::NowInNs64()]: a 64-bit nanosecond count. *)
(** @src lib/inc/time/time.h 28-31 Time::NowInNs64 *)
Definition NowInNs64 {OS} `{WinSock OS} (os : OS) : OS * Z :=
  let '(os, r) := os_call SysSteadyClockNow os in (os, i64 (ret r)).

(** [duration_cast] truncates towards zero. *)
(** @src lib/inc/time/time.h 17-20 Time::NowInSec *)
Definition NowInSec {OS} `{WinSock OS} (os : OS) : OS * Z :=
  let '(os, r) := os_call SysSteadyClockNow os in (os, Z.quot (i64 (ret r)) (10 ^ 9)).

(** @src lib/inc/time/time.h 12-15 Time::NowInMs *)
Definition NowInMs {OS} `{WinSock OS} (os : OS) : OS * Z :=
  let '(os, r) := os_call SysSteadyClockNow os in (os, Z.quot (i64 (ret r)) (10 ^ 6)).

(** The nanoseconds since the epoch, cut to 32 bits. *)
(** @src lib/inc/time/time.h 22-26 Time::NowInNs *)
Definition NowInNs {OS} `{WinSock OS} (os : OS) : OS * Z :=
  let '(os, r) := os_call SysSteadyClockNow os in (os, u32 (i64 (ret r))).

(** *** A scripted system

    It answers each call with the next result of a script (success with value 0
    once the script is exhausted) and records the calls.  It is used to evaluate
    the model on concrete runs. *)

Record ScriptOS := mkScriptOS { script : list sysret; calls : list syscall }.

#[export] Instance ScriptOS_WinSock : WinSock ScriptOS := {|
  os_call := fun c os =>
    match script os with
    | [] => (mkScriptOS [] (calls os ++ [c]), mkSysret 0 0 [])
    | r :: rs => (mkScriptOS rs (calls os ++ [c]), r)
    end |}.

Definition script_of (rs : list sysret) : ScriptOS := mkScriptOS rs [].
Definition sysok : sysret := mkSysret 0 0 [].
Definition syserr (e : Z) : sysret := mkSysret SocketError e [].
Definition sysval (v : Z) : sysret := mkSysret v 0 [].
