(* ===== verification/FrameBuffer.v ===== *)
(** * FrameBuffer: the per-connection accumulation buffer

    [network/inc/client/FrameBuffer.h], [network/src/client/FrameBuffer.cpp].
    The state is the fixed array and the fill count, as in the class; the
    abstract specification is a bounded byte queue, and the operations refine
    it with no access outside the array. *)

From S2P Require Import Prelude Errors Platform.
From stdpp Require Import base list option.
From coqutil Require Import Byte.
Open Scope Z_scope.

(** @src network/inc/client/FrameBuffer.h 12-30 FrameBuffer *)
Record FrameBuffer := mkFrameBuffer { _buf : list byte; _len : Z }.

(** The member initialisers: a zeroed array, nothing accumulated. *)
(** @src network/inc/client/FrameBuffer.h 28-29 FrameBuffer *)
Definition FrameBuffer_init : FrameBuffer :=
  {| _buf := replicate (Z.to_nat maxFrameSize) Byte.x00; _len := 0 |}.

(** @src network/src/client/FrameBuffer.cpp 7-23 FrameBuffer::Append *)
Definition FrameBuffer_Append (fb : FrameBuffer) (data : list byte) : ub (FrameBuffer * bool) :=
  let dataLen := zlen data in
  if (dataLen >? zlen (_buf fb)) || (_len fb >? u64 (zlen (_buf fb) - dataLen)) then
    Some (fb, false)
  else
    buf' ← memcpy_at (_buf fb) (_len fb) data;
    Some ({| _buf := buf'; _len := u64 (_len fb + dataLen) |}, true).

(** @src network/src/client/FrameBuffer.cpp 25-27 FrameBuffer::Data *)
Definition FrameBuffer_Data (fb : FrameBuffer) : list byte := take (Z.to_nat (_len fb)) (_buf fb).

(** @src network/src/client/FrameBuffer.cpp 29-41 FrameBuffer::Consume *)
Definition FrameBuffer_Consume (fb : FrameBuffer) (bytesTransferred : Z) : ub FrameBuffer :=
  if bytesTransferred >=? _len fb then
    Some {| _buf := _buf fb; _len := 0 |}
  else
    buf' ← memmove_front (_buf fb) bytesTransferred (u64 (_len fb - bytesTransferred));
    Some {| _buf := buf'; _len := u64 (_len fb - bytesTransferred) |}.

(** @src network/src/client/FrameBuffer.cpp 43-43 FrameBuffer::Size *)
Definition FrameBuffer_Size (fb : FrameBuffer) : Z := _len fb.

(** ** Invariant *)

(** The array keeps its size and the fill count stays inside it. *)
Definition FrameBuffer_inv (fb : FrameBuffer) : Prop :=
  zlen (_buf fb) = maxFrameSize /\ 0 <= _len fb <= maxFrameSize.

Lemma maxFrameSize_eq : maxFrameSize = 65536.
Proof. done. Qed.

Lemma FrameBuffer_init_inv : FrameBuffer_inv FrameBuffer_init.
Proof.
  split; [|simpl; rewrite maxFrameSize_eq; lia].
  unfold zlen, FrameBuffer_init. cbn [_buf]. rewrite length_replicate.
  rewrite maxFrameSize_eq. lia.
Qed.

Lemma FrameBuffer_init_Data : FrameBuffer_Data FrameBuffer_init = [].
Proof. done. Qed.

Lemma FrameBuffer_Data_length fb :
  FrameBuffer_inv fb -> zlen (FrameBuffer_Data fb) = _len fb.
Proof.
  intros [Hb Hl]. unfold FrameBuffer_Data, zlen in *. rewrite length_take. lia.
Qed.

Lemma FrameBuffer_Data_le fb :
  FrameBuffer_inv fb -> zlen (FrameBuffer_Data fb) <= maxFrameSize.
Proof. intros H. rewrite FrameBuffer_Data_length by done. apply H. Qed.

(** ** Operations against the abstract queue *)

Lemma FrameBuffer_Append_fits fb data :
  FrameBuffer_inv fb -> zlen (FrameBuffer_Data fb) + zlen data <= maxFrameSize ->
  exists fb', FrameBuffer_Append fb data = Some (fb', true) /\ FrameBuffer_inv fb' /\
    FrameBuffer_Data fb' = FrameBuffer_Data fb ++ data.
Proof.
  intros Hinv Hfit. rewrite FrameBuffer_Data_length in Hfit by done.
  destruct Hinv as [Hb Hl]. pose proof (zlen_nonneg data).
  unfold FrameBuffer_Append. rewrite Hb, maxFrameSize_eq in *.
  rewrite !wrap_small by lia. rewrite !Z.gtb_ltb.
  rewrite (proj2 (Z.ltb_ge _ _)), (proj2 (Z.ltb_ge _ (_len fb))) by lia. simpl.
  rewrite memcpy_at_Some by lia. eexists. split; [done|].
  assert (length (_buf fb) = Z.to_nat 65536) as Hb' by (unfold zlen in Hb; lia).
  unfold FrameBuffer_inv, FrameBuffer_Data, zlen in *. cbn [_buf _len]. split; [split|].
  - rewrite !length_app, length_take, length_drop. rewrite maxFrameSize_eq. lia.
  - rewrite maxFrameSize_eq. lia.
  - rewrite app_assoc, take_app_le by (rewrite length_app, length_take; lia).
    rewrite take_ge; [done|]. rewrite length_app, length_take. lia.
Qed.

Lemma FrameBuffer_Append_overflow fb data :
  FrameBuffer_inv fb -> maxFrameSize < zlen (FrameBuffer_Data fb) + zlen data ->
  FrameBuffer_Append fb data = Some (fb, false).
Proof.
  intros Hinv Hof. rewrite FrameBuffer_Data_length in Hof by done.
  destruct Hinv as [Hb Hl]. pose proof (zlen_nonneg data).
  unfold FrameBuffer_Append. rewrite Hb, maxFrameSize_eq in *. rewrite !Z.gtb_ltb.
  destruct (Z.ltb_spec 65536 (zlen data)); [done|].
  rewrite wrap_small by lia. rewrite (proj2 (Z.ltb_lt _ _)) by lia. done.
Qed.

Lemma FrameBuffer_Append_keeps fb data fb' ok :
  FrameBuffer_inv fb -> FrameBuffer_Append fb data = Some (fb', ok) -> FrameBuffer_inv fb'.
Proof.
  intros Hinv Happ. destruct (Z.le_gt_cases (zlen (FrameBuffer_Data fb) + zlen data) maxFrameSize).
  - destruct (FrameBuffer_Append_fits fb data Hinv) as (fb1 & Heq & ? & _); [done|]. by simplify_eq.
  - rewrite FrameBuffer_Append_overflow in Happ by done. by simplify_eq.
Qed.

Lemma FrameBuffer_Consume_spec fb n :
  FrameBuffer_inv fb -> 0 <= n ->
  exists fb', FrameBuffer_Consume fb n = Some fb' /\ FrameBuffer_inv fb' /\
    FrameBuffer_Data fb' = drop (Z.to_nat n) (FrameBuffer_Data fb).
Proof.
  intros [Hb Hl] Hn. unfold FrameBuffer_Consume. rewrite Z.geb_leb, maxFrameSize_eq in *.
  assert (length (_buf fb) = Z.to_nat 65536) as Hb' by (unfold zlen in Hb; lia).
  destruct (Z.leb_spec (_len fb) n).
  - eexists; split; [done|]. unfold FrameBuffer_inv, FrameBuffer_Data. cbn [_buf _len].
    split; [rewrite maxFrameSize_eq; split; [done|lia]|].
    rewrite drop_ge; [done|]. rewrite length_take. lia.
  - rewrite !wrap_small by lia. unfold memmove_front.
    rewrite Hb, !(proj2 (Z.leb_le _ _)) by lia. simpl.
    set (src := take _ (drop _ _)).
    assert (zlen src = _len fb - n) as Hs.
    { subst src. unfold zlen. rewrite length_take, length_drop. lia. }
    rewrite memcpy_at_Some by (rewrite ?Hs; lia). eexists; split; [done|].
    unfold FrameBuffer_inv, FrameBuffer_Data, zlen in *. cbn [_buf _len].
    rewrite maxFrameSize_eq. split; [split; [|lia]|].
    + rewrite !length_app, length_take, length_drop. lia.
    + rewrite take_0, app_nil_l, take_app_le, take_ge by lia. subst src.
      rewrite skipn_firstn_comm. f_equal. lia.
Qed.

(** ** The abstract specification: a bounded byte queue

    [append] adds at the end or refuses, leaving the queue as it was; [consume]
    drops from the front, at most everything; the array is not visible. *)

Module ByteQueue.
Definition append (q data : list byte) : list byte * bool :=
  if zlen q + zlen data <=? maxFrameSize then (q ++ data, true) else (q, false).

Definition consume (q : list byte) (n : Z) : list byte := drop (Z.to_nat n) q.
End ByteQueue.

(** The operations of the class, and what a caller observes of each. *)
Inductive FbOp := FbAppend (data : list byte) | FbConsume (n : Z) | FbData | FbSize.
Inductive FbObs := ObsAppend (ok : bool) | ObsConsume | ObsData (d : list byte) | ObsSize (n : Z).

Definition fb_step (fb : FrameBuffer) (op : FbOp) : ub (FrameBuffer * FbObs) :=
  match op with
  | FbAppend d => '(fb', ok) ← FrameBuffer_Append fb d; Some (fb', ObsAppend ok)
  | FbConsume n => fb' ← FrameBuffer_Consume fb n; Some (fb', ObsConsume)
  | FbData => Some (fb, ObsData (FrameBuffer_Data fb))
  | FbSize => Some (fb, ObsSize (FrameBuffer_Size fb))
  end.

Definition queue_step (q : list byte) (op : FbOp) : list byte * FbObs :=
  match op with
  | FbAppend d => let '(q', ok) := ByteQueue.append q d in (q', ObsAppend ok)
  | FbConsume n => (ByteQueue.consume q n, ObsConsume)
  | FbData => (q, ObsData q)
  | FbSize => (q, ObsSize (zlen q))
  end.

Fixpoint fb_run (fb : FrameBuffer) (ops : list FbOp) : ub (FrameBuffer * list FbObs) :=
  match ops with
  | [] => Some (fb, [])
  | op :: ops =>
      '(fb', o) ← fb_step fb op; '(fb'', os) ← fb_run fb' ops; Some (fb'', o :: os)
  end.

Fixpoint queue_run (q : list byte) (ops : list FbOp) : list byte * list FbObs :=
  match ops with
  | [] => (q, [])
  | op :: ops =>
      let '(q', o) := queue_step q op in
      let '(q'', os) := queue_run q' ops in (q'', o :: os)
  end.

(** A [size_t] argument is not negative. *)
Definition FbOp_wf (op : FbOp) : Prop :=
  match op with FbConsume n => 0 <= n | _ => True end.

Lemma fb_step_refines fb op :
  FrameBuffer_inv fb -> FbOp_wf op ->
  exists fb', fb_step fb op = Some (fb', (queue_step (FrameBuffer_Data fb) op).2) /\
    FrameBuffer_inv fb' /\ FrameBuffer_Data fb' = (queue_step (FrameBuffer_Data fb) op).1.
Proof.
  intros Hinv Hwf. destruct op as [d|n| |]; simpl.
  - unfold ByteQueue.append. destruct (Z.leb_spec (zlen (FrameBuffer_Data fb) + zlen d) maxFrameSize).
    + destruct (FrameBuffer_Append_fits fb d) as (fb' & -> & ? & ?); [done..|]. by exists fb'.
    + rewrite FrameBuffer_Append_overflow by done. by exists fb.
  - destruct (FrameBuffer_Consume_spec fb n) as (fb' & -> & ? & ?); [done..|]. by exists fb'.
  - by exists fb.
  - exists fb. unfold FrameBuffer_Size. by rewrite FrameBuffer_Data_length.
Qed.

(** C12: the frame buffer refines the bounded byte queue.  Every sequence of
    operations on a fresh buffer runs without touching memory outside the array,
    returns what the queue returns, and keeps the invariant. *)
Theorem FrameBuffer_refines_queue ops :
  Forall FbOp_wf ops ->
  exists fb', fb_run FrameBuffer_init ops = Some (fb', (queue_run [] ops).2) /\
    FrameBuffer_inv fb' /\ FrameBuffer_Data fb' = (queue_run [] ops).1.
Proof.
  rewrite <-FrameBuffer_init_Data. generalize FrameBuffer_init_inv.
  generalize FrameBuffer_init. intros fb Hinv Hwf. revert fb Hinv.
  induction Hwf as [|op ops Hop _ IH]; intros fb Hinv; [by exists fb|].
  destruct (fb_step_refines fb op) as (fb1 & Hs & Hinv1 & Hd); [done..|].
  destruct (IH fb1 Hinv1) as (fb2 & Hr & Hinv2 & Hd2). exists fb2.
  cbn [fb_run queue_run]. rewrite Hs. cbn. rewrite Hr, Hd in *. cbn.
  destruct (queue_step (FrameBuffer_Data fb) op) as [q o]; simpl in *.
  by destruct (queue_run q ops).
Qed.

Definition fb_demo : list FbOp :=
  [FbAppend [Byte.x01; Byte.x02; Byte.x03]; FbConsume 1; FbData; FbSize].

Lemma FrameBuffer_refines_queue_witness :
  Forall FbOp_wf fb_demo /\
  exists fb', fb_run FrameBuffer_init fb_demo =
      Some (fb', [ObsAppend true; ObsConsume; ObsData [Byte.x02; Byte.x03]; ObsSize 2]) /\
    FrameBuffer_inv fb' /\ FrameBuffer_Data fb' = [Byte.x02; Byte.x03].
Proof.
  assert (Forall FbOp_wf fb_demo) as Hwf by (repeat constructor; discriminate).
  split; [exact Hwf|]. exact (FrameBuffer_refines_queue fb_demo Hwf).
Defined.
