(* ===== verification/StringUtils.v ===== *)
(** * StringUtils: the text functions of the configuration readers

    [lib/inc/config/runTime/StringUtils.hpp] and the functions in which its
    compile-time twin, [lib/inc/config/compileTime/StringUtils.hpp], is written
    differently (the others have the same text).  A [std::string_view] is a list
    of characters.  Reading or cutting it outside its bounds has no result. *)

From S2P Require Import Prelude.
From Stdlib Require Import Ascii String.
From stdpp Require Import base numbers list strings option pretty.
Open Scope Z_scope.

Abbreviation sv := (list ascii).

(** A string literal. *)
Definition lit (s : string) : sv := list_ascii_of_string s.

(** [string_view::substr]: [pos] past the end throws [std::out_of_range], a count
    past the end is cut. *)
Definition substr (str : sv) (pos n : nat) : ub sv :=
  if (pos <=? length str)%nat then Some (take n (drop pos str)) else None.

(** [str.substr(pos)]. *)
Definition substr_from (str : sv) (pos : nat) : ub sv := substr str pos (length str).

(** ** Characters *)

(** @src lib/inc/config/runTime/StringUtils.hpp 9-11 StringUtils::IsWhitespace *)
Definition IsWhitespace (c : ascii) : bool :=
  (Ascii.eqb c " " || Ascii.eqb c "009" || Ascii.eqb c "013" || Ascii.eqb c "010")%char%bool.

Definition char_code (c : ascii) : Z := Z.of_N (N_of_ascii c).

(** @src lib/inc/config/runTime/StringUtils.hpp 13-15 StringUtils::IsDigit *)
Definition IsDigit (c : ascii) : bool := (48 <=? char_code c) && (char_code c <=? 57).

(** ** Trimming *)

(** The loop of [TrimLeft]; [rest] is what [str] has from [start] on. *)
(** @src lib/inc/config/runTime/StringUtils.hpp 18-21 StringUtils::TrimLeft *)
Fixpoint TrimLeft_loop (rest : sv) (start : nat) : nat :=
  match rest with
  | [] => start
  | c :: rest => if IsWhitespace c then TrimLeft_loop rest (S start) else start
  end.

(** @src lib/inc/config/runTime/StringUtils.hpp 17-23 StringUtils::TrimLeft *)
Definition TrimLeft (str : sv) : ub sv := substr_from str (TrimLeft_loop str 0).

(** @src lib/inc/config/runTime/StringUtils.hpp 26-29 StringUtils::TrimRight *)
Fixpoint TrimRight_loop (str : sv) (e : nat) : ub nat :=
  match e with
  | O => Some O
  | S e' => c ← str !! e'; if IsWhitespace c then TrimRight_loop str e' else Some e
  end.

(** @src lib/inc/config/runTime/StringUtils.hpp 25-31 StringUtils::TrimRight *)
Definition TrimRight (str : sv) : ub sv :=
  e ← TrimRight_loop str (length str); substr str 0 e.

(** @src lib/inc/config/runTime/StringUtils.hpp 33-35 StringUtils::Trim *)
Definition Trim (str : sv) : ub sv := l ← TrimLeft str; TrimRight l.

(** ** Searching *)

(** [str.find(c)]; [None] is [npos]. *)
(** @src lib/inc/config/runTime/StringUtils.hpp 37-43 StringUtils::Find *)
Definition Find (str : sv) (c : ascii) : option nat := find_if (fun x => Ascii.eqb x c) str.

(** [operator==] of two views. *)
Definition sv_eqb (a b : sv) : bool := bool_decide (a = b).

(** @src lib/inc/config/runTime/StringUtils.hpp 45-48 StringUtils::StartsWith *)
Definition StartsWith (str pre : sv) : ub bool :=
  if (length str <? length pre)%nat then Some false
  else s ← substr str 0 (length pre); Some (sv_eqb s pre).

(** ** Numbers and booleans *)

(** A signed result that does not fit its type is undefined behaviour. *)
Definition checked (w z : Z) : ub Z :=
  if (- 2 ^ (w - 1) <=? z) && (z <? 2 ^ (w - 1)) then Some z else None.

(** @src lib/inc/config/runTime/StringUtils.hpp 67-71 StringUtils::ParseInt *)
Fixpoint ParseSigned_loop (w : Z) (rest : sv) (result : Z) : ub (option Z) :=
  match rest with
  | [] => Some (Some result)
  | c :: rest =>
      if negb (IsDigit c) then Some None
      else r ← checked w (result * 10);
           r ← checked w (r + (char_code c - 48));
           ParseSigned_loop w rest r
  end.

(** [ParseInt] and [ParseLong] have the same text, at different types. *)
(** @src lib/inc/config/runTime/StringUtils.hpp 50-74 StringUtils::ParseInt *)
Definition ParseSigned (w : Z) (str : sv) : ub (option Z) :=
  str ← Trim str;
  match str with
  | [] => Some None
  | c :: tl =>
      let negative := Ascii.eqb c "-" in
      let start := if negative || Ascii.eqb c "+" then 1%nat else 0%nat in
      if (length str <=? start)%nat then Some None
      else r ← ParseSigned_loop w (drop start str) 0;
           match r with
           | None => Some None
           | Some result => v ← (if negative then checked w (- result) else Some result); Some (Some v)
           end
  end.

(** @src lib/inc/config/runTime/StringUtils.hpp 50-74 StringUtils::ParseInt *)
Definition ParseInt (str : sv) : ub (option Z) := ParseSigned 32 str.

(** [long] has 32 bits on Windows. *)
(** @src lib/inc/config/runTime/StringUtils.hpp 76-100 StringUtils::ParseLong *)
Definition ParseLong (str : sv) : ub (option Z) := ParseSigned 32 str.

(** @src lib/inc/config/runTime/StringUtils.hpp 102-107 StringUtils::ParseBool *)
Definition ParseBool (str : sv) : ub (option bool) :=
  str ← Trim str;
  Some (if sv_eqb str (lit "true") then Some true
        else if sv_eqb str (lit "false") then Some false else None).

(** [front()] and [back()] of a view. *)
Definition front (str : sv) : ub ascii := head str.
Definition back (str : sv) : ub ascii := last str.

Definition dquote : ascii := ascii_of_nat 34.
Definition squote : ascii := ascii_of_nat 39.

(** @src lib/inc/config/runTime/StringUtils.hpp 109-118 StringUtils::Unquote *)
Definition Unquote (str : sv) : ub sv :=
  str ← Trim str;
  if (2 <=? length str)%nat then
    f ← front str; b ← back str;
    if (Ascii.eqb f dquote && Ascii.eqb b dquote || Ascii.eqb f squote && Ascii.eqb b squote)%bool
    then substr str 1 (length str - 2) else Some str
  else Some str.

(** ** The compile-time versions that differ *)

(** @src lib/inc/config/compileTime/StringUtils.hpp 36-43 CompileTimeStringUtils::Find *)
Fixpoint CT_Find_loop (rest : sv) (c : ascii) (i : nat) : option nat :=
  match rest with
  | [] => None
  | x :: rest => if Ascii.eqb x c then Some i else CT_Find_loop rest c (S i)
  end.

(** @src lib/inc/config/compileTime/StringUtils.hpp 36-43 CompileTimeStringUtils::Find *)
Definition CT_Find (str : sv) (c : ascii) : option nat := CT_Find_loop str c 0.

(** The outer loop looks at the characters of [str], the inner one at [chars]. *)
(** @src lib/inc/config/compileTime/StringUtils.hpp 45-54 CompileTimeStringUtils::FindFirst *)
Fixpoint CT_FindFirst_loop (rest chars : sv) (i : nat) : option nat :=
  match rest with
  | [] => None
  | x :: rest =>
      match first_match (fun c => Ascii.eqb x c) chars with
      | Some _ => Some i
      | None => CT_FindFirst_loop rest chars (S i)
      end
  end.

(** @src lib/inc/config/compileTime/StringUtils.hpp 45-54 CompileTimeStringUtils::FindFirst *)
Definition CT_FindFirst (str chars : sv) : option nat := CT_FindFirst_loop str chars 0.

(** [for (i = ...; i < n; ++i) if (a[i] != b[i]) return false;] with [todo] turns left. *)
(** @src lib/inc/config/compileTime/StringUtils.hpp 66-69 CompileTimeStringUtils::Equals *)
Fixpoint CT_compare_loop (a b : sv) (i todo : nat) : ub bool :=
  match todo with
  | O => Some true
  | S todo =>
      x ← a !! i; y ← b !! i;
      if negb (Ascii.eqb x y) then Some false else CT_compare_loop a b (S i) todo
  end.

(** @src lib/inc/config/compileTime/StringUtils.hpp 56-62 CompileTimeStringUtils::StartsWith *)
Definition CT_StartsWith (str pre : sv) : ub bool :=
  if (length str <? length pre)%nat then Some false else CT_compare_loop str pre 0 (length pre).

(** @src lib/inc/config/compileTime/StringUtils.hpp 64-70 CompileTimeStringUtils::Equals *)
Definition CT_Equals (a b : sv) : ub bool :=
  if negb (length a =? length b)%nat then Some false else CT_compare_loop a b 0 (length a).

(** @src lib/inc/config/compileTime/StringUtils.hpp 124-129 CompileTimeStringUtils::ParseBool *)
Definition CT_ParseBool (str : sv) : ub (option bool) :=
  str ← Trim str;
  t ← CT_Equals str (lit "true");
  if (t : bool) then Some (Some true)
  else f ← CT_Equals str (lit "false");
       Some (if (f : bool) then Some false else None).

(** ** Trimming, specified *)

(** Text without white space at its front. *)
Fixpoint trim_front (str : sv) : sv :=
  match str with
  | [] => []
  | c :: rest => if IsWhitespace c then trim_front rest else str
  end.

Definition trim (str : sv) : sv := reverse (trim_front (reverse (trim_front str))).

(** Neither end is white space. *)
Definition trimmed (str : sv) : bool :=
  match head str, last str with
  | Some a, Some b => negb (IsWhitespace a) && negb (IsWhitespace b)
  | _, _ => true
  end.

Lemma substr_ok str pos n : (pos <= length str)%nat -> substr str pos n = Some (take n (drop pos str)).
Proof. intros. unfold substr. by rewrite (proj2 (Nat.leb_le _ _)). Qed.

Lemma substr_from_ok str pos : (pos <= length str)%nat -> substr_from str pos = Some (drop pos str).
Proof.
  intros. unfold substr_from. rewrite substr_ok by done. rewrite take_ge; [done|].
  rewrite length_drop. lia.
Qed.

Lemma TrimLeft_loop_shift rest n : TrimLeft_loop rest n = (n + TrimLeft_loop rest 0)%nat.
Proof.
  revert n; induction rest as [|c rest IH]; intros n; simpl; [lia|].
  destruct (IsWhitespace c); [|lia]. rewrite (IH (S n)), (IH 1%nat). lia.
Qed.

Lemma TrimLeft_loop_spec str :
  (TrimLeft_loop str 0 <= length str)%nat /\ drop (TrimLeft_loop str 0) str = trim_front str.
Proof.
  induction str as [|c str [IH1 IH2]]; simpl; [done|].
  destruct (IsWhitespace c); simpl; [|split; [lia|done]].
  rewrite TrimLeft_loop_shift; simpl. split; [lia|done].
Qed.

Lemma TrimLeft_spec str : TrimLeft str = Some (trim_front str).
Proof. unfold TrimLeft. destruct (TrimLeft_loop_spec str) as [H <-]. by apply substr_from_ok. Qed.

Lemma TrimRight_loop_app str k :
  TrimRight_loop (str ++ k) (length str) = TrimRight_loop str (length str).
Proof.
  assert (forall e, (e <= length str)%nat -> TrimRight_loop (str ++ k) e = TrimRight_loop str e) as H.
  { induction e as [|e IH]; intros He; [done|]. simpl. rewrite lookup_app_l by lia.
    destruct (str !! e); [|done]. simpl. by rewrite IH by lia. }
  by apply H.
Qed.

Lemma TrimRight_loop_le str n e : TrimRight_loop str n = Some e -> (e <= n)%nat.
Proof.
  revert e; induction n as [|n IH]; intros e; simpl; [by intros [= <-]|].
  destruct (str !! n); [|done]; simpl. case_match; [intros He%IH; lia|by intros [= <-]].
Qed.

Lemma TrimRight_spec str : TrimRight str = Some (reverse (trim_front (reverse str))).
Proof.
  induction str as [|c str IH] using rev_ind; [done|]. unfold TrimRight in *.
  rewrite length_app, Nat.add_comm; simpl. rewrite list_lookup_middle by done; simpl.
  rewrite reverse_app; simpl. destruct (IsWhitespace c); simpl.
  - rewrite TrimRight_loop_app. destruct (TrimRight_loop str (length str)) as [e|] eqn:He; [|done].
    simpl in *. rewrite <-IH. unfold substr; simpl. rewrite !drop_0. f_equal.
    apply take_app_le. by eapply TrimRight_loop_le.
  - rewrite reverse_cons, reverse_involutive. unfold substr; simpl. f_equal.
    apply take_ge. rewrite length_app; simpl. lia.
Qed.

Lemma Trim_spec str : Trim str = Some (trim str).
Proof. unfold Trim. rewrite TrimLeft_spec; simpl. by rewrite TrimRight_spec. Qed.

Lemma trim_front_id str c : head str = Some c -> IsWhitespace c = false -> trim_front str = str.
Proof. destruct str; [done|]. intros [= ->] Hc. simpl. by rewrite Hc. Qed.

Lemma trimmed_cons c str : trimmed (c :: str) = true ->
  IsWhitespace c = false /\ exists d, last (c :: str) = Some d /\ IsWhitespace d = false.
Proof.
  unfold trimmed. change (head (c :: str)) with (Some c).
  destruct (last (c :: str)) as [d|] eqn:Hl; [|by apply last_None in Hl].
  intros [Hc Hd]%andb_true_iff. apply negb_true_iff in Hc, Hd. eauto.
Qed.

Lemma trim_front_pad (p str : sv) :
  Forall (fun c => IsWhitespace c = true) p -> trim_front (p ++ str) = trim_front str.
Proof. induction 1 as [|c p Hc Hp IH]; [done|]. simpl. by rewrite Hc. Qed.

(** White space around trimmed text is what [Trim] removes. *)
Lemma trim_pad (l r str : sv) :
  Forall (fun c => IsWhitespace c = true) l -> Forall (fun c => IsWhitespace c = true) r ->
  trimmed str = true -> trim (l ++ str ++ r) = str.
Proof.
  intros Hl Hr Hs. unfold trim. rewrite trim_front_pad by done. destruct str as [|c str].
  - pose proof (trim_front_pad r [] Hr) as Hr'. rewrite app_nil_r in Hr'. cbn [app]. by rewrite Hr'.
  - apply trimmed_cons in Hs as (Hc & d & Hd & Hdw). rewrite (trim_front_id ((c :: str) ++ r) c) by done.
    rewrite reverse_app, trim_front_pad by by apply Forall_reverse.
    rewrite (trim_front_id _ d); [by rewrite reverse_involutive| |done].
    by rewrite head_reverse.
Qed.

Lemma trim_id str : trimmed str = true -> trim str = str.
Proof. intros H. rewrite <-(app_nil_r str) at 1. by apply (trim_pad [] []). Qed.

(** ** Numbers, specified *)

(** The decimal text of an integer. *)
Definition decimal (z : Z) : sv := lit (pretty z).

Lemma checked_Some w z : - 2 ^ (w - 1) <= z < 2 ^ (w - 1) -> checked w z = Some z.
Proof. intros. unfold checked. rewrite (proj2 (Z.leb_le _ _)), (proj2 (Z.ltb_lt _ _)) by lia. done. Qed.

Lemma checked_None w z : 2 ^ (w - 1) <= z -> checked w z = None.
Proof. intros. unfold checked. rewrite (proj2 (Z.ltb_ge z _)) by lia. by rewrite andb_false_r. Qed.

Lemma digit_char (x : N) : (x < 10)%N ->
  IsDigit (pretty_N_char x) = true /\ char_code (pretty_N_char x) - 48 = Z.of_N x.
Proof.
  intros. assert (x ∈ [0;1;2;3;4;5;6;7;8;9]%N) as Hx.
  { rewrite !elem_of_cons. lia. }
  rewrite !elem_of_cons, elem_of_nil in Hx. naive_solver.
Qed.

(** One digit either extends the number read or leaves the range of the type. *)
Lemma ParseSigned_loop_digit w (x : N) rest y :
  0 < w -> (x < 10)%N -> 0 <= y < 2 ^ (w - 1) ->
  ParseSigned_loop w (pretty_N_char x :: rest) y =
  if y * 10 + Z.of_N x <? 2 ^ (w - 1) then ParseSigned_loop w rest (y * 10 + Z.of_N x) else None.
Proof.
  intros Hw Hx Hy. destruct (digit_char x Hx) as [Hd Hc]. simpl. rewrite Hd, Hc; simpl.
  destruct (Z.ltb_spec (y * 10 + Z.of_N x) (2 ^ (w - 1))).
  - rewrite checked_Some by lia; simpl. by rewrite checked_Some by lia.
  - destruct (Z.lt_ge_cases (y * 10) (2 ^ (w - 1))).
    + rewrite checked_Some by lia; simpl. by rewrite checked_None by lia.
    + by rewrite checked_None by lia.
Qed.

Lemma ParseSigned_loop_go w (x : N) s :
  0 < w ->
  ParseSigned_loop w (lit (pretty_N_go x s)) 0 =
  if Z.of_N x <? 2 ^ (w - 1) then ParseSigned_loop w (lit s) (Z.of_N x) else None.
Proof.
  intros Hw. revert s. induction (N.lt_wf_0 x) as [x _ IH]; intros s.
  assert (0 < 2 ^ (w - 1)) by (apply Z.pow_pos_nonneg; lia).
  destruct (decide (x = 0%N)) as [->|Hx].
  { rewrite pretty_N_go_0. by rewrite (proj2 (Z.ltb_lt _ _)). }
  rewrite pretty_N_go_step, IH by (try apply N.div_lt; lia).
  change (lit (String ?c s)) with (c :: lit s).
  pose proof (N.div_mod x 10 ltac:(done)). pose proof (N.mod_lt x 10 ltac:(done)).
  destruct (Z.ltb_spec (Z.of_N (x / 10)) (2 ^ (w - 1))).
  - rewrite ParseSigned_loop_digit by lia.
    assert (Z.of_N (x / 10) * 10 + Z.of_N (x mod 10) = Z.of_N x) as -> by lia. done.
  - pose proof (N.Div0.mul_div_le x 10). rewrite (proj2 (Z.ltb_ge (Z.of_N x) _)) by lia. done.
Qed.

Lemma pretty_N_go_digits x s c :
  c ∈ lit (pretty_N_go x s) -> IsDigit c = true \/ c ∈ lit s.
Proof.
  revert s. induction (N.lt_wf_0 x) as [x _ IH]; intros s.
  destruct (decide (x = 0%N)) as [->|Hx]; [rewrite pretty_N_go_0; auto|].
  rewrite pretty_N_go_step by lia. intros Hc%IH; [|apply N.div_lt; lia].
  destruct Hc as [|[->|]%elem_of_cons]; auto. left. apply digit_char, N.mod_lt. done.
Qed.

Lemma pretty_N_digits (x : N) : Forall (fun c => IsDigit c = true) (lit (pretty x)).
Proof.
  apply Forall_intro. intros c. unfold pretty, pretty_N. case_decide.
  - intros [->|[]%elem_of_nil]%elem_of_cons. done.
  - intros [|[]%elem_of_nil]%pretty_N_go_digits. done.
Qed.

Lemma pretty_N_nonempty (x : N) : lit (pretty x) <> [].
Proof.
  unfold pretty, pretty_N. case_decide; [done|]. intros H0.
  assert (pretty_N_go x "" = "") as H1 by (by destruct (pretty_N_go x "")).
  pose proof (ParseSigned_loop_go (Z.of_N x + 2) x "" ltac:(lia)) as Hp. rewrite H1 in Hp.
  simpl in Hp. case_match eqn:Hlt; [injection Hp; lia|done].
Qed.

Lemma ParseSigned_loop_pretty w (x : N) :
  0 < w ->
  ParseSigned_loop w (lit (pretty x)) 0 = if Z.of_N x <? 2 ^ (w - 1) then Some (Some (Z.of_N x)) else None.
Proof.
  intros Hw. unfold pretty, pretty_N. case_decide as Hx; [|by apply ParseSigned_loop_go].
  subst. assert (0 < 2 ^ (w - 1)) by (apply Z.pow_pos_nonneg; lia).
  assert (lit "0" = [pretty_N_char 0]) as -> by done.
  rewrite ParseSigned_loop_digit by lia. done.
Qed.

Lemma digits_trimmed str : Forall (fun c => IsDigit c = true) str -> trimmed str = true.
Proof.
  assert (forall c, IsDigit c = true -> IsWhitespace c = false) as Hd.
  { intros c. unfold IsDigit, IsWhitespace. 
    repeat (match goal with |- context [Ascii.eqb c ?d] => destruct (Ascii.eqb_spec c d) as [->|] end); done. }
  intros Hs. unfold trimmed. destruct (head str) as [a|] eqn:Ha; [|done].
  destruct (last str) as [b|] eqn:Hb; [|done].
  rewrite (Hd a), (Hd b); [done| |];
    eapply (Forall_elem (fun c => IsDigit c = true)); eauto using head_Some_elem_of, last_Some_elem_of.
Qed.

Lemma decimal_pos z : 0 <= z -> decimal z = lit (pretty (Z.to_N z)).
Proof. intros. unfold decimal. by destruct z. Qed.

Lemma decimal_neg z : z < 0 -> decimal z = ("-"%char :: lit (pretty (Z.to_N (- z)))).
Proof. intros. unfold decimal. by destruct z. Qed.

Lemma decimal_trimmed z : trimmed (decimal z) = true.
Proof.
  destruct (Z.lt_ge_cases z 0).
  - rewrite decimal_neg by done. pose proof (pretty_N_digits (Z.to_N (- z))) as Hd.
    pose proof (pretty_N_nonempty (Z.to_N (- z))). apply digits_trimmed in Hd.
    destruct (lit (pretty (Z.to_N (- z)))) as [|c l]; [done|].
    apply trimmed_cons in Hd as (_ & d & Hl & Hd). unfold trimmed.
    rewrite last_cons, Hl. change (head (?a :: _)) with (Some a). by rewrite Hd.
  - rewrite decimal_pos by done. apply digits_trimmed, pretty_N_digits.
Qed.

Lemma ParseSigned_digits w x :
  0 < w ->
  ParseSigned w (lit (pretty x)) = if Z.of_N x <? 2 ^ (w - 1) then Some (Some (Z.of_N x)) else None.
Proof.
  intros Hw. unfold ParseSigned. pose proof (pretty_N_digits x) as Hd.
  rewrite Trim_spec, trim_id by by apply digits_trimmed. cbn [mbind option_bind].
  rewrite <-(ParseSigned_loop_pretty w x Hw).
  pose proof (pretty_N_nonempty x). destruct (lit (pretty x)) as [|c l]; [done|].
  apply Forall_cons in Hd as [Hc _].
  assert (Ascii.eqb c "-" = false /\ Ascii.eqb c "+" = false) as [-> ->].
  { split; match goal with |- Ascii.eqb c ?d = _ => destruct (Ascii.eqb_spec c d) end; by subst. }
  cbn [orb length Nat.leb drop]. destruct (ParseSigned_loop w (c :: l) 0) as [[?|]|]; done.
Qed.

Lemma ParseSigned_minus w x :
  1 < w ->
  ParseSigned w ("-"%char :: lit (pretty x)) = if Z.of_N x <? 2 ^ (w - 1) then Some (Some (- Z.of_N x)) else None.
Proof.
  intros Hw. unfold ParseSigned. pose proof (decimal_trimmed (- Z.of_N x)) as Ht.
  assert (trimmed ("-"%char :: lit (pretty x)) = true) as Ht'.
  { destruct x; [done|]. by rewrite decimal_neg in Ht by lia. }
  rewrite Trim_spec, trim_id by done. cbn [mbind option_bind].
  pose proof (ParseSigned_loop_pretty w x ltac:(lia)) as Hp. pose proof (pretty_N_nonempty x).
  destruct (lit (pretty x)) as [|c l]; [done|].
  change (Ascii.eqb "-" "-") with true. cbn [orb length Nat.leb drop]. rewrite Hp.
  destruct (Z.ltb_spec (Z.of_N x) (2 ^ (w - 1))); [|done]. cbn [mbind option_bind].
  by rewrite checked_Some by lia.
Qed.

Lemma ParseSigned_trim w str str' : trim str = trim str' -> ParseSigned w str = ParseSigned w str'.
Proof. intros H. unfold ParseSigned. by rewrite !Trim_spec, H. Qed.

Lemma ParseInt_number z : ParseInt (decimal z) = if Z.abs z <=? INT_MAX then Some (Some z) else None.
Proof.
  unfold ParseInt, INT_MAX. destruct (Z.lt_ge_cases z 0).
  - rewrite decimal_neg, ParseSigned_minus by done. case_bool; case_bool; zbool; repeat f_equal; lia.
  - rewrite decimal_pos, ParseSigned_digits by done. case_bool; case_bool; zbool; repeat f_equal; lia.
Qed.

(** Reading back a number: the decimal text of an integer, padded with white space,
    is parsed to that integer when its magnitude fits an [int], and its parse overflows
    (undefined behaviour) otherwise.  The least [int], whose magnitude does not fit, is
    in the second class. *)
Lemma ParseInt_decimal (l r : sv) (z : Z) :
  Forall (fun c => IsWhitespace c = true) l -> Forall (fun c => IsWhitespace c = true) r ->
  ParseInt (l ++ decimal z ++ r) = if Z.abs z <=? INT_MAX then Some (Some z) else None.
Proof.
  intros Hl Hr. rewrite <-ParseInt_number. apply ParseSigned_trim.
  rewrite trim_pad, trim_id; auto using decimal_trimmed.
Qed.

Lemma ParseInt_decimal_witness :
  ParseInt (lit "  -7 ") = Some (Some (-7)) /\ ParseInt (lit "-2147483648") = None.
Proof.
  split; [apply (ParseInt_decimal (lit "  ") (lit " ") (-7))|apply (ParseInt_decimal [] [] (-2147483648))];
    repeat constructor.
Defined.

(** ** The compile-time versions agree with the run-time ones *)

Lemma CT_Find_spec str c : CT_Find str c = Find str c.
Proof.
  unfold CT_Find, Find.
  assert (forall i, CT_Find_loop str c i = (fun k => i + k)%nat <$> find_if (fun x => Ascii.eqb x c) str) as H.
  { induction str as [|x str IH]; intros i; [done|]. cbn.
    destruct (Ascii.eqb x c); cbn; [by rewrite Nat.add_0_r|]. rewrite IH.
    destruct (find_if _ str); cbn; [by rewrite Nat.add_succ_r|done]. }
  rewrite H. by destruct (find_if _ str).
Qed.

Lemma CT_compare_loop_spec a b i todo :
  (i + todo <= length a)%nat -> (i + todo <= length b)%nat ->
  CT_compare_loop a b i todo = Some (sv_eqb (take todo (drop i a)) (take todo (drop i b))).
Proof.
  revert i. induction todo as [|todo IH]; intros i Ha Hb; [done|]. cbn [CT_compare_loop].
  destruct (lookup_lt_is_Some_2 a i ltac:(lia)) as [x Hx].
  destruct (lookup_lt_is_Some_2 b i ltac:(lia)) as [y Hy].
  rewrite Hx, Hy. cbn [mbind option_bind].
  rewrite (drop_S a x i Hx), (drop_S b y i Hy). cbn [take].
  unfold sv_eqb in *. destruct (Ascii.eqb_spec x y) as [->|Hne]; cbn [negb].
  - rewrite IH by lia. f_equal. apply bool_decide_ext. split; [by intros ->|by intros [= ->]].
  - f_equal. symmetry. apply bool_decide_eq_false_2. congruence.
Qed.

Lemma CT_Equals_spec a b : CT_Equals a b = Some (sv_eqb a b).
Proof.
  unfold CT_Equals. destruct (Nat.eqb_spec (length a) (length b)) as [Hl|Hl]; cbn [negb].
  - rewrite CT_compare_loop_spec by lia. by rewrite !drop_0, firstn_all, Hl, firstn_all.
  - f_equal. symmetry. apply bool_decide_eq_false_2. congruence.
Qed.

Lemma CT_StartsWith_spec str pre : CT_StartsWith str pre = StartsWith str pre.
Proof.
  unfold CT_StartsWith, StartsWith. destruct (Nat.ltb_spec (length str) (length pre)); [done|].
  rewrite CT_compare_loop_spec, substr_ok by lia. cbn [mbind option_bind].
  by rewrite !drop_0, firstn_all.
Qed.

Lemma CT_ParseBool_spec str : CT_ParseBool str = ParseBool str.
Proof.
  unfold CT_ParseBool, ParseBool. rewrite Trim_spec. cbn [mbind option_bind].
  rewrite !CT_Equals_spec. cbn [mbind option_bind].
  destruct (sv_eqb _ _); [done|]. by destruct (sv_eqb _ _).
Qed.
