(* ===== verification/Logger.v ===== *)
(** * Logger: what the program writes about itself

    [lib/inc/logger/{ILogger.h,Logger.hpp}], [lib/src/logger/TextLogger.cpp].

    A logger writes on a state [T].  The formatted overloads of [Logger] take their
    arguments already turned into text; [vformat] puts them in the places of the format
    string, which the compiler has checked against them. *)

From S2P Require Import Prelude.
From Stdlib Require Import Ascii String.
From stdpp Require Import base numbers list strings option.
Open Scope string_scope.

(** @src lib/inc/logger/ILogger.h 9-17 ILogger *)
Class ILogger (T : Type) := {
  log_Info : string -> T -> T;
  log_Debug : string -> T -> T;
  log_Warn : string -> T -> T;
  log_Error : string -> T -> T;
  log_Exception : string -> string -> T -> T
}.

(** ** Logger *)

(** [std::vformat]: an argument for each pair of braces, and doubled braces for one.  A
    format string with fewer arguments than places, or a single brace, does not compile. *)
Fixpoint vformat (fmt : string) (args : list string) : string :=
  match fmt with
  | EmptyString => EmptyString
  | String a fmt1 =>
      match fmt1 with
      | EmptyString => fmt
      | String b fmt2 =>
          if Ascii.eqb a "{" && Ascii.eqb b "}" then
            match args with x :: args => x +:+ vformat fmt2 args | [] => vformat fmt2 [] end
          else if (Ascii.eqb a "{" && Ascii.eqb b "{") || (Ascii.eqb a "}" && Ascii.eqb b "}") then
            String a (vformat fmt2 args)
          else String a (vformat fmt1 args)
      end
  end.

Section Logger.
Context {T : Type} `{ILogger T}.

(** @src lib/inc/logger/Logger.hpp 56-58 Logger::Info *)
Definition Logger_Info (msg : string) (t : T) : T := log_Info msg t.

(** @src lib/inc/logger/Logger.hpp 61-63 Logger::Debug *)
Definition Logger_Debug (msg : string) (t : T) : T := log_Debug msg t.

(** @src lib/inc/logger/Logger.hpp 66-68 Logger::Warn *)
Definition Logger_Warn (msg : string) (t : T) : T := log_Warn msg t.

(** @src lib/inc/logger/Logger.hpp 71-73 Logger::Error *)
Definition Logger_Error (msg : string) (t : T) : T := log_Error msg t.

(** [what] is the text of the exception. *)
(** @src lib/inc/logger/Logger.hpp 76-78 Logger::Exception *)
Definition Logger_Exception (msg what : string) (t : T) : T := log_Exception msg what t.

(** @src lib/inc/logger/Logger.hpp 81-84 Logger::Info *)
Definition Logger_Info_fmt (fmt : string) (args : list string) (t : T) : T := log_Info (vformat fmt args) t.

(** @src lib/inc/logger/Logger.hpp 87-90 Logger::Debug *)
Definition Logger_Debug_fmt (fmt : string) (args : list string) (t : T) : T := log_Debug (vformat fmt args) t.

(** @src lib/inc/logger/Logger.hpp 93-96 Logger::Warn *)
Definition Logger_Warn_fmt (fmt : string) (args : list string) (t : T) : T := log_Warn (vformat fmt args) t.

(** @src lib/inc/logger/Logger.hpp 99-102 Logger::Error *)
Definition Logger_Error_fmt (fmt : string) (args : list string) (t : T) : T := log_Error (vformat fmt args) t.
End Logger.

(** What is in an argument is not read as a format. *)
Lemma vformat_join name : vformat "'{}' joined the server" [name] = "'" +:+ name +:+ "' joined the server".
Proof. reflexivity. Qed.

(** ** TextLogger *)

(** What the standard output has been given, line by line. *)
Record Cout := mkCout { cout_lines : list string }.

Definition put_line (line : string) (c : Cout) : Cout := mkCout (cout_lines c ++ [line])%list.

(** @src lib/src/logger/TextLogger.cpp 5-7 TextLogger::Info *)
Definition TextLogger_Info (msg : string) : Cout -> Cout := put_line ("[INFO] " +:+ msg).

(** @src lib/src/logger/TextLogger.cpp 9-11 TextLogger::Debug *)
Definition TextLogger_Debug (msg : string) : Cout -> Cout := put_line ("[DEBUG] " +:+ msg).

(** @src lib/src/logger/TextLogger.cpp 13-15 TextLogger::Warn *)
Definition TextLogger_Warn (msg : string) : Cout -> Cout := put_line ("[WARN] " +:+ msg).

(** @src lib/src/logger/TextLogger.cpp 17-19 TextLogger::Error *)
Definition TextLogger_Error (msg : string) : Cout -> Cout := put_line ("[ERROR] " +:+ msg).

(** @src lib/src/logger/TextLogger.cpp 21-23 TextLogger::Exception *)
Definition TextLogger_Exception (msg what : string) : Cout -> Cout :=
  put_line ("[EXCEPTION] " +:+ msg +:+ ": " +:+ what).

#[export] Instance TextLogger : ILogger Cout := {|
  log_Info := TextLogger_Info; log_Debug := TextLogger_Debug; log_Warn := TextLogger_Warn;
  log_Error := TextLogger_Error; log_Exception := TextLogger_Exception |}.
