(* ===== verification/Console.v ===== *)
(** * Console: the log and the prompt of the chat client

    [ConsoleState] of [exec/chat/chat-client/ChatCli.{h,cpp}] and
    [PromptAwareTextLogger].  Two threads write to one console: the user's, which shows
    a prompt and reads a line, and the receiving one, which logs.  A lock makes each
    operation one step.  The console functions of Windows are a parameter
    ([ConsoleApi]) that answers from what has been written; [Terminal] is a concrete
    one, a grid of cells with a cursor. *)

From S2P Require Import Prelude Logger.
From Stdlib Require Import Ascii String.
From stdpp Require Import base numbers list strings option.
From coqutil Require Import Datatypes.RecordSetters.
Import DoubleBraceUpdate.
Open Scope Z_scope.

(** ** What is done to the output *)

(** Text given to the standard output, the three calls that change the screen, and the
    characters the console echoes while the user types. *)
Inductive OutAct :=
  | Put (text : string)
  | FillCharacter (ch : ascii) (len x y : Z)
  | FillAttribute (attr len x y : Z)
  | SetCursor (x y : Z)
  | Echo (text : string).

(** The fields of [CONSOLE_SCREEN_BUFFER_INFO] that are read. *)
Record BufferInfo := mkBufferInfo { dwCursorPositionY : Z; dwSizeX : Z; wAttributes : Z }.

(** [GetStdHandle] gives a usable handle or not; [GetConsoleScreenBufferInfo] fails
    when the output is not a console. *)
Class ConsoleApi := {
  std_handle : bool;
  screen_info : list OutAct -> option BufferInfo
}.

Definition nl : string := String (ascii_of_nat 10) EmptyString.
Definition cr : string := String (ascii_of_nat 13) EmptyString.
Definition space : ascii := ascii_of_nat 32.

(** ** ConsoleState *)

(** The prompt is kept so that a log line can be written around it; [_written] is what
    has been done to the output. *)
(** @src exec/chat/chat-client/ChatCli.h 19-22 ConsoleState *)
Record ConsoleState := mkConsoleState { _prompt : string; _promptVisible : bool; _written : list OutAct }.

Definition ConsoleState_init : ConsoleState := mkConsoleState "" false [].

Definition put (text : string) (k : ConsoleState) : ConsoleState := k {{ _written ::= fun o => o ++ [Put text] }}.

Section ConsoleState.
Context `{ConsoleApi}.
Implicit Types (k : ConsoleState).

(** @src exec/chat/chat-client/ChatCli.cpp 64-93 ConsoleState::ClearPromptLineUnlocked *)
Definition ClearPromptLineUnlocked k : ConsoleState :=
  if negb std_handle then put cr k
  else
    match screen_info (_written k) with
    | None => put cr k
    | Some bufferInfo =>
        let y := dwCursorPositionY bufferInfo in
        k {{ _written ::= fun o => o ++
               [FillCharacter space (u32 (dwSizeX bufferInfo)) 0 y;
                FillAttribute (wAttributes bufferInfo) (u32 (dwSizeX bufferInfo)) 0 y;
                SetCursor 0 y] }}
    end.

(** @src exec/chat/chat-client/ChatCli.cpp 95-97 ConsoleState::PrintPromptUnlocked *)
Definition PrintPromptUnlocked k : ConsoleState := put ("[INFO] " +:+ _prompt k)%string k.

Definition log_text (level message : string) : string := ("[" +:+ level +:+ "] " +:+ message)%string.

(** @src exec/chat/chat-client/ChatCli.cpp 37-49 ConsoleState::Log *)
Definition ConsoleState_Log (level message : string) k : ConsoleState :=
  let k := if _promptVisible k then ClearPromptLineUnlocked k else k in
  let k := put (log_text level message +:+ nl)%string k in
  if _promptVisible k then PrintPromptUnlocked k else k.

(** @src exec/chat/chat-client/ChatCli.cpp 51-57 ConsoleState::ShowPrompt *)
Definition ShowPrompt (prompt : string) k : ConsoleState :=
  let k := k {{ _prompt := prompt; _promptVisible := true }} in
  PrintPromptUnlocked k.

(** @src exec/chat/chat-client/ChatCli.cpp 59-62 ConsoleState::HidePrompt *)
Definition HidePrompt k : ConsoleState := k {{ _promptVisible := false }}.

(** ** PromptAwareTextLogger *)

(** @src exec/chat/chat-client/PromptAwareTextLogger.cpp 12-14 PromptAwareTextLogger::Info *)
Definition PromptAware_Info (msg : string) : ConsoleState -> ConsoleState := ConsoleState_Log "INFO" msg.

(** @src exec/chat/chat-client/PromptAwareTextLogger.cpp 16-18 PromptAwareTextLogger::Debug *)
Definition PromptAware_Debug (msg : string) : ConsoleState -> ConsoleState := ConsoleState_Log "DEBUG" msg.

(** @src exec/chat/chat-client/PromptAwareTextLogger.cpp 20-22 PromptAwareTextLogger::Warn *)
Definition PromptAware_Warn (msg : string) : ConsoleState -> ConsoleState := ConsoleState_Log "WARN" msg.

(** @src exec/chat/chat-client/PromptAwareTextLogger.cpp 24-26 PromptAwareTextLogger::Error *)
Definition PromptAware_Error (msg : string) : ConsoleState -> ConsoleState := ConsoleState_Log "ERROR" msg.

(** @src exec/chat/chat-client/PromptAwareTextLogger.cpp 28-30 PromptAwareTextLogger::Exception *)
Definition PromptAware_Exception (msg what : string) : ConsoleState -> ConsoleState :=
  ConsoleState_Log "EXCEPTION" (msg +:+ ": " +:+ what)%string.

#[export] Instance PromptAwareTextLogger : ILogger ConsoleState := {|
  log_Info := PromptAware_Info; log_Debug := PromptAware_Debug; log_Warn := PromptAware_Warn;
  log_Error := PromptAware_Error; log_Exception := PromptAware_Exception |}.

Definition echo (text : string) k : ConsoleState := k {{ _written ::= fun o => o ++ [Echo text] }}.

(** What happens at the console while a prompt is shown: a line is logged by some
    thread, or the user types. *)
Inductive ConsoleEvent := CeLog (level message : string) | CeType (text : string).

Definition console_event (e : ConsoleEvent) k : ConsoleState :=
  match e with CeLog level message => ConsoleState_Log level message k | CeType text => echo text k end.

Definition console_events (es : list ConsoleEvent) k : ConsoleState := foldl (fun k e => console_event e k) k es.

Lemma console_event_prompt e k : _prompt (console_event e k) = _prompt k /\ _promptVisible (console_event e k) = _promptVisible k.
Proof.
  destruct e as [level message|text]; [|by destruct k]. cbn [console_event]. unfold ConsoleState_Log.
  set (k1 := if _promptVisible k then _ else _).
  assert (_prompt k1 = _prompt k /\ _promptVisible k1 = _promptVisible k) as [E1 E2].
  { unfold k1, ClearPromptLineUnlocked. destruct k as [p [] o], std_handle; cbn; try done. by destruct (screen_info o). }
  rewrite <-E1, <-E2. clear E1 E2. by destruct k1 as [p [] o].
Qed.
End ConsoleState.

(** ** A console: rows of cells and a cursor *)

Module Terminal.
Record Screen := mkScreen { sc_rows : list (list ascii); sc_y : nat; sc_x : nat }.

Definition init : Screen := mkScreen [[]] 0 0.

(** Cells that were never written are blank. *)
Definition set_cells (x : nat) (cs row : list ascii) : list ascii :=
  take x (row ++ replicate (x - length row) space) ++ cs ++ drop (x + length cs) row.

Definition row_at (y : nat) (rows : list (list ascii)) : list ascii := default [] (rows !! y).

Definition set_row (y : nat) (row : list ascii) (rows : list (list ascii)) : list (list ascii) :=
  take y (rows ++ replicate (y - length rows) []) ++ [row] ++ drop (S y) rows.

(** The characters of a text: a line feed and a carriage return move the cursor, any
    other is shown, and the cursor goes on to the next row at the end of one. *)
Definition put_char (w : nat) (a : ascii) (s : Screen) : Screen :=
  if Ascii.eqb a (ascii_of_nat 10) then
    mkScreen (sc_rows s ++ replicate (S (S (sc_y s)) - length (sc_rows s)) []) (S (sc_y s)) 0
  else if Ascii.eqb a (ascii_of_nat 13) then mkScreen (sc_rows s) (sc_y s) 0
  else
    let rows := set_row (sc_y s) (set_cells (sc_x s) [a] (row_at (sc_y s) (sc_rows s))) (sc_rows s) in
    if (S (sc_x s) <? w)%nat then mkScreen rows (sc_y s) (S (sc_x s)) else mkScreen rows (S (sc_y s)) 0.

Definition put_text (w : nat) (text : string) (s : Screen) : Screen :=
  foldl (fun s a => put_char w a s) s (list_ascii_of_string text).

Definition act (w : nat) (s : Screen) (a : OutAct) : Screen :=
  match a with
  | Put text | Echo text => put_text w text s
  | FillCharacter ch len x y =>
      let y := Z.to_nat y in
      mkScreen (set_row y (set_cells (Z.to_nat x) (replicate (Z.to_nat len) ch) (row_at y (sc_rows s))) (sc_rows s))
        (sc_y s) (sc_x s)
  | FillAttribute _ _ _ _ => s
  | SetCursor x y => mkScreen (sc_rows s) (Z.to_nat y) (Z.to_nat x)
  end.

Definition render (w : nat) (acts : list OutAct) : Screen := foldl (act w) init acts.

(** The console of width [w] that shows what was written. *)
Definition console (w : nat) : ConsoleApi := {|
  std_handle := true;
  screen_info := fun acts => Some (mkBufferInfo (Z.of_nat (sc_y (render w acts))) (Z.of_nat w) 7) |}.
End Terminal.

(** ** What is on the screen *)

Section Screen.
Import Terminal.
Implicit Types (s : Screen) (lines : list string) (cur text : string).

Definition chars (text : string) : list ascii := list_ascii_of_string text.

(** Characters that take one cell. *)
Definition printable (a : ascii) : bool := let n := nat_of_ascii a in (32 <=? n)%nat && (n <? 127)%nat.

Definition printable_text (text : string) : Prop := Forall (fun a => printable a = true) (chars text).

(** A row reads [text] when blanks follow it. *)
Definition reads (row : list ascii) (text : string) : Prop := exists k, row = chars text ++ replicate k space.

(** The finished lines from the top, then the line the cursor is at the end of. *)
Definition shows s lines cur : Prop :=
  exists rows row, sc_rows s = rows ++ [row] /\ sc_y s = length rows /\ Forall2 reads rows lines /\
    reads row cur /\ sc_x s = length (chars cur).

Lemma string_app_assoc (a b c : string) : ((a +:+ b) +:+ c = a +:+ (b +:+ c))%string.
Proof. induction a as [|x a IH]; [done|]. apply (f_equal (String x)), IH. Qed.

Lemma string_app_nil (a : string) : (a +:+ "" = a)%string.
Proof. induction a as [|x a IH]; [done|]. apply (f_equal (String x)), IH. Qed.

Lemma chars_app a b : chars (a +:+ b) = chars a ++ chars b.
Proof. unfold chars. induction a as [|x a IH]; [done|]. apply (f_equal (cons x)), IH. Qed.

Lemma set_row_last rows row row' : set_row (length rows) row' (rows ++ [row]) = rows ++ [row'].
Proof.
  unfold set_row. rewrite length_app. replace (length rows - (length rows + length [row]))%nat with 0%nat by (cbn; lia).
  cbn [replicate]. rewrite app_nil_r, take_app_length. f_equal. rewrite drop_ge by (rewrite length_app; cbn; lia). done.
Qed.

Lemma row_at_last rows row : row_at (length rows) (rows ++ [row]) = row.
Proof. unfold row_at. by rewrite list_lookup_middle. Qed.

Lemma set_cells_end cs a k :
  set_cells (length cs) [a] (cs ++ replicate k space) = (cs ++ [a]) ++ replicate (k - 1) space.
Proof.
  unfold set_cells. rewrite length_app, length_replicate.
  replace (length cs - (length cs + k))%nat with 0%nat by lia. cbn [replicate]. rewrite app_nil_r, take_app_length.
  rewrite <-app_assoc. do 2 f_equal. rewrite drop_app_ge by (cbn; lia). rewrite drop_replicate. f_equal. cbn. lia.
Qed.

Lemma put_char_printable w a s lines cur :
  printable a = true -> (S (length (chars cur)) < w)%nat -> shows s lines cur ->
  shows (put_char w a s) lines (cur +:+ String a "").
Proof.
  intros Ha Hw (rows & row & Hr & Hy & Hl & [k ->] & Hx). unfold put_char.
  destruct (Ascii.eqb_spec a (ascii_of_nat 10)) as [->|_]; [done|].
  destruct (Ascii.eqb_spec a (ascii_of_nat 13)) as [->|_]; [done|].
  rewrite Hx, (proj2 (Nat.ltb_lt _ _) Hw), Hr, Hy, row_at_last, set_row_last, set_cells_end.
  exists rows, ((chars cur ++ [a]) ++ replicate (k - 1) space). split_and!; try done.
  - exists (k - 1)%nat. by rewrite chars_app.
  - cbn [sc_x]. rewrite chars_app, length_app. cbn. lia.
Qed.

Lemma put_text_cons w a text s : put_text w (String a text) s = put_text w text (put_char w a s).
Proof. done. Qed.

Lemma put_text_printable w text s lines cur :
  printable_text text -> (length (chars cur) + length (chars text) < w)%nat -> shows s lines cur ->
  shows (put_text w text s) lines (cur +:+ text).
Proof.
  revert s cur. induction text as [|a text IH]; intros s cur Hp Hw Hs.
  { by rewrite string_app_nil. }
  inversion Hp as [|?? Ha Hp']; subst. rewrite put_text_cons. cbn [chars list_ascii_of_string length] in Hw.
  replace (cur +:+ String a text)%string with ((cur +:+ String a "") +:+ text)%string by apply string_app_assoc.
  apply IH; [done| |].
  - rewrite chars_app, length_app. cbn. unfold chars in *. lia.
  - apply put_char_printable; [done| |done]. unfold chars in *. lia.
Qed.

Lemma put_text_app w t1 t2 s : put_text w (t1 +:+ t2) s = put_text w t2 (put_text w t1 s).
Proof. unfold put_text. rewrite <-foldl_app. f_equal. apply chars_app. Qed.

Lemma put_newline w s lines cur : shows s lines cur -> shows (put_text w nl s) (lines ++ [cur]) "".
Proof.
  intros (rows & row & Hr & Hy & Hl & Hcur & Hx). unfold put_text. cbn [nl list_ascii_of_string foldl].
  unfold put_char. rewrite Ascii.eqb_refl. exists (rows ++ [row]), []. cbn [sc_rows sc_y sc_x].
  rewrite Hr, Hy, !length_app. cbn [length].
  replace (S (S (length rows)) - (length rows + 1))%nat with 1%nat by lia.
  split_and!; [done|lia|by apply Forall2_app; [|repeat constructor]|by exists 0%nat|done].
Qed.

(** The row of the cursor is blanked and the cursor put at its start. *)
Lemma clear_row w s lines cur :
  (length (chars cur) < w)%nat -> shows s lines cur ->
  shows (foldl (act w) s [FillCharacter space (Z.of_nat w) 0 (Z.of_nat (sc_y s));
                          FillAttribute 7 (Z.of_nat w) 0 (Z.of_nat (sc_y s)); SetCursor 0 (Z.of_nat (sc_y s))]) lines "".
Proof.
  intros Hw (rows & row & Hr & Hy & Hl & [k ->] & Hx). cbn [foldl act]. rewrite !Nat2Z.id. cbn [sc_rows].
  rewrite Hr, Hy, row_at_last, set_row_last. exists rows, (replicate (w + (length (chars cur) + k - w)) space).
  split_and!; [|done|done|by eexists|done]. cbn [sc_rows]. apply (f_equal (fun r => rows ++ [r])).
  unfold set_cells. change (Z.to_nat 0) with 0%nat. rewrite Nat.sub_0_l. cbn [replicate take app].
  rewrite length_replicate, Nat.add_0_l. rewrite drop_app_ge by lia. rewrite drop_replicate, replicate_add.
  rewrite firstn_O. cbn [app]. do 2 f_equal. lia.
Qed.

(** ** The transcript *)

(** Lines and typed text after some events; a line of the log swallows what was typed. *)
Definition transcript (es : list ConsoleEvent) (v : list string * string) : list string * string :=
  foldl (fun '(lines, typed) e =>
    match e with
    | CeLog level message => (lines ++ [log_text level message], ""%string)
    | CeType text => (lines, (typed +:+ text)%string)
    end) v es.

(** What is logged and typed is printable and fits a row. *)
Fixpoint fitting (w : nat) (prompt typed : string) (es : list ConsoleEvent) : Prop :=
  match es with
  | [] => True
  | CeLog level message :: es =>
      printable_text (log_text level message) /\ (length (chars (log_text level message)) < w)%nat /\
      fitting w prompt "" es
  | CeType text :: es =>
      printable_text text /\
      (length (chars ("[INFO] " +:+ prompt)) + length (chars typed) + length (chars text) < w)%nat /\
      fitting w prompt (typed +:+ text) es
  end.

Lemma render_app w acts acts' : render w (acts ++ acts') = foldl (act w) (render w acts) acts'.
Proof. apply foldl_app. Qed.

Definition clear_acts (w : nat) (s : Screen) : list OutAct :=
  [FillCharacter space (Z.of_nat w) 0 (Z.of_nat (sc_y s)); FillAttribute 7 (Z.of_nat w) 0 (Z.of_nat (sc_y s));
   SetCursor 0 (Z.of_nat (sc_y s))].

Lemma Log_written w prompt acts level message :
  (Z.of_nat w < 2 ^ 15)%Z ->
  _written (ConsoleState_Log (H := console w) level message (mkConsoleState prompt true acts)) =
  acts ++ clear_acts w (render w acts) ++ [Put (log_text level message +:+ nl)%string] ++ [Put ("[INFO] " +:+ prompt)%string].
Proof. intros Hw. unfold clear_acts. rewrite <-(wrap_small 32 (Z.of_nat w)) by lia. by rewrite !app_assoc. Qed.

(** A line of the log takes the row of the prompt, which is shown again below it. *)
Lemma Log_visible w prompt acts level message lines cur :
  (Z.of_nat w < 2 ^ 15)%Z ->
  printable_text (log_text level message) -> (length (chars (log_text level message)) < w)%nat ->
  printable_text ("[INFO] " +:+ prompt) -> (length (chars ("[INFO] " +:+ prompt)) < w)%nat ->
  (length (chars cur) < w)%nat -> shows (render w acts) lines cur ->
  shows (render w (_written (ConsoleState_Log (H := console w) level message (mkConsoleState prompt true acts))))
    (lines ++ [log_text level message]) ("[INFO] " +:+ prompt).
Proof.
  intros Hw Hp1 Hl1 Hp2 Hl2 Hcur Hs. rewrite Log_written, render_app, foldl_app by done.
  pose proof (clear_row w _ _ _ Hcur Hs) as Hc. fold (clear_acts w (render w acts)) in Hc.
  generalize dependent (foldl (act w) (render w acts) (clear_acts w (render w acts))). intros s Hc.
  cbn [foldl act app]. rewrite (put_text_app w (log_text level message) nl).
  apply (put_text_printable w ("[INFO] " +:+ prompt)%string _ _ ""); [done|exact Hl2|].
  apply put_newline. by apply (put_text_printable w (log_text level message) _ _ "").
Qed.

(** C33: the prompt survives the log.  While a prompt is on the screen of a console, take
    any sequence of log lines and of typed characters that are printable, where each log
    line, and the prompt with what is typed behind it, is shorter than a row of the console
    (of less than 2^15 columns).  It leaves on the screen, from the top, what was there, the log lines one
    per row and in order, and on the row of the cursor the prompt followed by what was
    typed since the last of them; nothing is overwritten, whichever threads the lines come
    from.  (What was typed before a log line is no longer on the screen, though it is still
    read; and a prompt that has wrapped over two rows leaves one behind,
    [wrapped_prompt_stays].) *)
Theorem log_keeps_prompt w k lines typed es :
  (Z.of_nat w < 2 ^ 15)%Z -> _promptVisible k = true ->
  printable_text ("[INFO] " +:+ _prompt k) ->
  (length (chars ("[INFO] " +:+ _prompt k)) + length (chars typed) < w)%nat ->
  fitting w (_prompt k) typed es ->
  shows (render w (_written k)) lines (("[INFO] " +:+ _prompt k) +:+ typed) ->
  let '(lines', typed') := transcript es (lines, typed) in
  shows (render w (_written (console_events (H := console w) es k))) lines' (("[INFO] " +:+ _prompt k) +:+ typed').
Proof.
  intros Hw Hv Hp. revert k lines typed Hv Hp. induction es as [|e es IH]; intros k lines typed Hv Hp Hl Hf Hs; [done|].
  destruct (console_event_prompt (H := console w) e k) as [Ep Ev]. rewrite Hv in Ev.
  destruct k as [prompt visible acts]. cbn [_prompt _promptVisible _written] in *. subst visible.
  specialize (IH (console_event (H := console w) e (mkConsoleState prompt true acts))). rewrite Ep in IH.
  destruct e as [level message|text]; cbn [fitting] in Hf; destruct Hf as (Hpt & Hlt & Hf).
  - apply (IH (lines ++ [log_text level message]) ""%string); [done|done|cbn; lia|done|].
    rewrite string_app_nil. apply (Log_visible w prompt acts level message lines (("[INFO] " +:+ prompt) +:+ typed)%string); [done..|lia| |exact Hs].
    rewrite chars_app, length_app. lia.
  - apply (IH lines (typed +:+ text)%string); [done|done| |done|].
    + rewrite (chars_app typed), length_app. lia.
    + cbn [console_event echo]. rewrite <-string_app_assoc.
      change (_written (echo text (mkConsoleState prompt true acts))) with (acts ++ [Echo text]).
      rewrite render_app. cbn [foldl act]. apply put_text_printable; [done| |done].
      rewrite chars_app, length_app. lia.
Qed.

(** Without a console (the output redirected to a file, or no handle), the same writes go
    out with a carriage return before each line: nothing is lost. *)
Fixpoint put_texts (acts : list OutAct) : string :=
  match acts with
  | [] => ""%string
  | Put text :: acts => (text +:+ put_texts acts)%string
  | _ :: acts => put_texts acts
  end.

Definition redirected : ConsoleApi := {| std_handle := true; screen_info := fun _ => None |}.

Lemma put_texts_app acts acts' : put_texts (acts ++ acts') = (put_texts acts +:+ put_texts acts')%string.
Proof. induction acts as [|[] acts IH]; cbn [app put_texts]; try done. by rewrite IH, string_app_assoc. Qed.

Lemma redirected_log k level message :
  put_texts (_written (ConsoleState_Log (H := redirected) level message k)) =
  (put_texts (_written k) +:+
   (if _promptVisible k then cr +:+ log_text level message +:+ nl +:+ "[INFO] " +:+ _prompt k
    else log_text level message +:+ nl))%string.
Proof.
  destruct k as [prompt [] acts].
  - change (_written (ConsoleState_Log (H := redirected) level message (mkConsoleState prompt true acts)))
      with (((acts ++ [Put cr]) ++ [Put (log_text level message +:+ nl)%string]) ++ [Put ("[INFO] " +:+ prompt)%string]).
    rewrite !put_texts_app. cbn [put_texts _promptVisible _prompt _written]. by rewrite !string_app_nil, !string_app_assoc.
  - change (_written (ConsoleState_Log (H := redirected) level message (mkConsoleState prompt false acts)))
      with (acts ++ [Put (log_text level message +:+ nl)%string]).
    rewrite put_texts_app. cbn [put_texts _promptVisible _written]. by rewrite string_app_nil.
Qed.
End Screen.

(** ** Witness

    Bob's message arrives while alice is typing hers. *)

Definition demo_events : list ConsoleEvent := [CeType "hel"; CeLog "INFO" "[Chat] 1[bob]: hi"; CeType "lo"].

Lemma log_keeps_prompt_witness :
  shows (Terminal.render 40 (_written (console_events (H := Terminal.console 40) demo_events
      (ShowPrompt "[alice] > " ConsoleState_init))))
    ["[INFO] [Chat] 1[bob]: hi"%string] "[INFO] [alice] > lo".
Proof.
  refine (log_keeps_prompt 40 (ShowPrompt "[alice] > " ConsoleState_init) [] "" demo_events eq_refl eq_refl _ _ _ _).
  - vm_compute. repeat constructor.
  - vm_compute. repeat constructor.
  - cbn. repeat split; (vm_compute; repeat constructor).
  - exists [], (chars "[INFO] [alice] > "). split; [vm_compute; reflexivity|]. split; [vm_compute; reflexivity|].
    split; [constructor|]. split; [exists 0%nat; vm_compute; reflexivity|vm_compute; reflexivity].
Defined.

(** Only the row of the cursor is cleared.  On a console of 20 columns what alice types
    wraps; a line of the log then leaves the first row of her prompt above it. *)
Example wrapped_prompt_stays :
  let k := console_events (H := Terminal.console 20) [CeType "hello"; CeLog "INFO" "hi"] (ShowPrompt "[alice] > " ConsoleState_init) in
  string_of_list_ascii <$> take 2 (Terminal.sc_rows (Terminal.render 20 (_written k))) =
    ["[INFO] [alice] > hel"; "[INFO] hi           "]%string.
Proof. vm_compute. reflexivity. Qed.
