(* ===== verification/Toml.v ===== *)
(** * Toml: the entries and the parser of configuration text

    [lib/inc/config/runTime/TomlEntry.hpp] and [TomlParser.hpp], and their
    compile-time twins in [lib/inc/config/compileTime], which have a fixed array of
    entries and their own comparison loops.  Then the parser's specification: the
    text is read line by line, and a document printed line by line is read back. *)

From S2P Require Import Prelude StringUtils.
From Stdlib Require Import Ascii String.
From stdpp Require Import base numbers list strings option pretty.
Open Scope Z_scope.

(** ** Entries *)

(** @src lib/inc/config/compileTime/TomlEntry.hpp 5-9 TomlValueType *)
Inductive TomlValueType := TString | TInteger | TBoolean.

(** @src lib/inc/config/runTime/TomlEntry.hpp 8-12 TomlEntry *)
Record TomlEntry := mkTomlEntry { section : sv; key : sv; value : sv; ioType : TomlValueType }.

Definition newline : ascii := ascii_of_nat 10.
Definition cr : ascii := ascii_of_nat 13.

(** @src lib/inc/config/runTime/TomlEntry.hpp 14-16 TomlEntry::Matches *)
Definition Matches (e : TomlEntry) (sec k : sv) : bool := sv_eqb (section e) sec && sv_eqb (key e) k.

(** @src lib/inc/config/runTime/TomlEntry.hpp 18-27 TomlEntry::MatchesFullKey *)
Definition MatchesFullKey (e : TomlEntry) (fullKey : sv) : ub bool :=
  match Find fullKey "." with
  | None => Some (sv_eqb (section e) [] && sv_eqb (key e) fullKey)
  | Some dotPos =>
      sec ← substr fullKey 0 dotPos;
      k ← substr_from fullKey (dotPos + 1);
      Some (Matches e sec k)
  end.

(** @src lib/inc/config/compileTime/TomlEntry.hpp 17-28 CompileTimeTomlEntry::Matches *)
Definition CT_Matches (e : TomlEntry) (sec k : sv) : ub bool :=
  if (negb (length (section e) =? length sec)%nat || negb (length (key e) =? length k)%nat)%bool
  then Some false
  else a ← CT_compare_loop (section e) sec 0 (length (section e));
       if (a : bool) then CT_compare_loop (key e) k 0 (length (key e)) else Some false.

(** The search for the dot is the loop of [CompileTimeStringUtils::Find]. *)
(** @src lib/inc/config/compileTime/TomlEntry.hpp 31-51 CompileTimeTomlEntry::MatchesFullKey *)
Definition CT_MatchesFullKey (e : TomlEntry) (fullKey : sv) : ub bool :=
  match CT_Find_loop fullKey "." 0 with
  | None => if sv_eqb (section e) [] then CT_Matches e [] fullKey else Some false
  | Some dotPos =>
      sec ← substr fullKey 0 dotPos;
      k ← substr_from fullKey (dotPos + 1);
      CT_Matches e sec k
  end.

(** ** Parse results *)

(** @src lib/inc/config/runTime/TomlParser.hpp 11-12 TomlParseResult *)
Record TomlParseResult := mkTomlParseResult { entries : list TomlEntry }.

(** @src lib/inc/config/runTime/TomlParser.hpp 14-16 TomlParseResult::Add *)
Definition TomlParseResult_Add (entry : TomlEntry) (r : TomlParseResult) : TomlParseResult :=
  mkTomlParseResult (entries r ++ [entry]).

(** The loop of the four [Find] functions: the first entry with the key decides, also
    when its value has no reading of the type asked for. *)
(** @src lib/inc/config/runTime/TomlParser.hpp 18-25 TomlParseResult::FindString *)
Fixpoint find_loop {A} (matches : TomlEntry -> ub bool) (read : sv -> ub (option A))
    (l : list TomlEntry) : ub (option A) :=
  match l with
  | [] => Some None
  | e :: l => m ← matches e; if (m : bool) then read (value e) else find_loop matches read l
  end.

(** @src lib/inc/config/runTime/TomlParser.hpp 18-25 TomlParseResult::FindString *)
Definition FindString (fullKey : sv) (r : TomlParseResult) : ub (option sv) :=
  find_loop (fun e => MatchesFullKey e fullKey) (fun v => u ← Unquote v; Some (Some u)) (entries r).

(** @src lib/inc/config/runTime/TomlParser.hpp 27-34 TomlParseResult::FindInt *)
Definition FindInt (fullKey : sv) (r : TomlParseResult) : ub (option Z) :=
  find_loop (fun e => MatchesFullKey e fullKey) ParseInt (entries r).

(** @src lib/inc/config/runTime/TomlParser.hpp 36-43 TomlParseResult::FindLong *)
Definition FindLong (fullKey : sv) (r : TomlParseResult) : ub (option Z) :=
  find_loop (fun e => MatchesFullKey e fullKey) ParseLong (entries r).

(** @src lib/inc/config/runTime/TomlParser.hpp 45-52 TomlParseResult::FindBool *)
Definition FindBool (fullKey : sv) (r : TomlParseResult) : ub (option bool) :=
  find_loop (fun e => MatchesFullKey e fullKey) ParseBool (entries r).

(** @src lib/inc/config/runTime/TomlParser.hpp 54-56 TomlParseResult::Count *)
Definition TomlParseResult_Count (r : TomlParseResult) : nat := length (entries r).

(** ** The parser *)

(** @src lib/inc/config/runTime/TomlParser.hpp 98-110 TomlParser::ParseSection *)
Definition ParseSection (line : sv) : ub sv :=
  if (length line <? 3)%nat then Some [] else
  f ← front line;
  if negb (Ascii.eqb f "[") then Some [] else
  match Find line "]" with
  | None => Some []
  | Some closeBracket => s ← substr line 1 (closeBracket - 1); Trim s
  end.

(** @src lib/inc/config/runTime/TomlParser.hpp 128-134 TomlParser::ParseKeyValue *)
Definition value_type (value : sv) : TomlValueType :=
  if (sv_eqb value (lit "true") || sv_eqb value (lit "false"))%bool then TBoolean
  else match value with
       | [] => TString
       | c :: _ => if (IsDigit c || Ascii.eqb c "-" || Ascii.eqb c "+")%bool then TInteger else TString
       end.

(** @src lib/inc/config/runTime/TomlParser.hpp 112-142 TomlParser::ParseKeyValue *)
Definition ParseKeyValue (line currentSection : sv) : ub (option TomlEntry) :=
  match Find line "=" with
  | None => Some None
  | Some eqPos =>
      key ← substr line 0 eqPos;
      key ← Trim key;
      value ← substr_from line (eqPos + 1);
      value ← Trim value;
      value ← match Find value "#" with
              | None => Some value
              | Some commentPos => v ← substr value 0 commentPos; Trim v
              end;
      Some (Some (mkTomlEntry currentSection key value (value_type value)))
  end.

(** [while (lineEnd < content.size() && content[lineEnd] != newline) ++lineEnd;]
    where [rest] is the text from [lineEnd] on. *)
(** @src lib/inc/config/runTime/TomlParser.hpp 66-69 TomlParser::Parse *)
Fixpoint lineEnd_loop (rest : sv) (lineEnd : nat) : nat :=
  match rest with
  | [] => lineEnd
  | c :: rest => if Ascii.eqb c newline then lineEnd else lineEnd_loop rest (S lineEnd)
  end.

(** The loop over lines has the same text in both parsers; it is written once, for the
    functions it calls and the result it adds to. *)
Section Lines.
Context {R : Type} (parse_section : sv -> ub sv) (parse_key_value : sv -> sv -> ub (option TomlEntry))
  (add : TomlEntry -> R -> R).

(** One turn of the loop of [Parse] on the line from [lineStart]. *)
(** @src lib/inc/config/runTime/TomlParser.hpp 71-89 TomlParser::Parse *)
Definition Parse_line (content : sv) (lineStart lineEnd : nat) (currentSection : sv) (res : R)
    : ub (sv * R) :=
  actualEnd ← (if (lineStart <? lineEnd)%nat
               then c ← content !! (lineEnd - 1)%nat;
                    Some (if Ascii.eqb c cr then (lineEnd - 1)%nat else lineEnd)
               else Some lineEnd);
  line ← substr content lineStart (actualEnd - lineStart);
  line ← Trim line;
  match line with
  | [] => Some (currentSection, res)
  | c :: _ =>
      if Ascii.eqb c "#" then Some (currentSection, res)
      else if Ascii.eqb c "[" then s ← parse_section line; Some (s, res)
      else entry ← parse_key_value line currentSection;
           Some (currentSection, match entry with Some e => add e res | None => res end)
  end.

(** The loop of [Parse]; the fuel is one more than the size of the text. *)
(** @src lib/inc/config/runTime/TomlParser.hpp 64-92 TomlParser::Parse *)
Fixpoint Parse_loop (fuel : nat) (content : sv) (lineStart : nat) (currentSection : sv) (res : R)
    : ub R :=
  match fuel with
  | O => None
  | S fuel =>
      if (lineStart <? length content)%nat then
        let lineEnd := lineEnd_loop (drop lineStart content) lineStart in
        '(currentSection, res) ← Parse_line content lineStart lineEnd currentSection res;
        Parse_loop fuel content (lineEnd + 1) currentSection res
      else Some res
  end.
End Lines.

(** @src lib/inc/config/runTime/TomlParser.hpp 60-95 TomlParser::Parse *)
Definition Parse (content : sv) : ub TomlParseResult :=
  Parse_loop ParseSection ParseKeyValue TomlParseResult_Add
    (S (length content)) content 0 [] (mkTomlParseResult []).

(** ** The compile-time parser *)

(** A [std::array] of [MaxEntries] entries of which [count] are in use. *)
(** @src lib/inc/config/compileTime/TomlParser.hpp 9-11 CompileTimeTomlParseResult *)
Record CompileTimeTomlParseResult := mkCTResult { ct_entries : list TomlEntry; ct_count : nat }.

(** @src lib/inc/config/compileTime/TomlParser.hpp 10-11 CompileTimeTomlParseResult *)
Definition CTResult_init (MaxEntries : nat) : CompileTimeTomlParseResult :=
  mkCTResult (replicate MaxEntries (mkTomlEntry [] [] [] TString)) 0.

(** The parser ignores the returned flag. *)
(** @src lib/inc/config/compileTime/TomlParser.hpp 13-17 CompileTimeTomlParseResult::Add *)
Definition CTResult_Add (MaxEntries : nat) (entry : TomlEntry) (r : CompileTimeTomlParseResult)
    : CompileTimeTomlParseResult * bool :=
  if (MaxEntries <=? ct_count r)%nat then (r, false)
  else (mkCTResult (<[ct_count r := entry]> (ct_entries r)) (S (ct_count r)), true).

(** [for (i = ...; i < count; ++i)], with [todo] turns left. *)
(** @src lib/inc/config/compileTime/TomlParser.hpp 19-26 CompileTimeTomlParseResult::FindString *)
Fixpoint CT_find_loop {A} (matches : TomlEntry -> ub bool) (read : sv -> ub (option A))
    (l : list TomlEntry) (i todo : nat) : ub (option A) :=
  match todo with
  | O => Some None
  | S todo =>
      e ← l !! i; m ← matches e;
      if (m : bool) then read (value e) else CT_find_loop matches read l (S i) todo
  end.

(** @src lib/inc/config/compileTime/TomlParser.hpp 19-26 CompileTimeTomlParseResult::FindString *)
Definition CT_FindString (fullKey : sv) (r : CompileTimeTomlParseResult) : ub (option sv) :=
  CT_find_loop (fun e => CT_MatchesFullKey e fullKey) (fun v => u ← Unquote v; Some (Some u))
    (ct_entries r) 0 (ct_count r).

(** @src lib/inc/config/compileTime/TomlParser.hpp 28-35 CompileTimeTomlParseResult::FindInt *)
Definition CT_FindInt (fullKey : sv) (r : CompileTimeTomlParseResult) : ub (option Z) :=
  CT_find_loop (fun e => CT_MatchesFullKey e fullKey) ParseInt (ct_entries r) 0 (ct_count r).

(** @src lib/inc/config/compileTime/TomlParser.hpp 37-44 CompileTimeTomlParseResult::FindLong *)
Definition CT_FindLong (fullKey : sv) (r : CompileTimeTomlParseResult) : ub (option Z) :=
  CT_find_loop (fun e => CT_MatchesFullKey e fullKey) ParseLong (ct_entries r) 0 (ct_count r).

(** @src lib/inc/config/compileTime/TomlParser.hpp 46-53 CompileTimeTomlParseResult::FindBool *)
Definition CT_FindBool (fullKey : sv) (r : CompileTimeTomlParseResult) : ub (option bool) :=
  CT_find_loop (fun e => CT_MatchesFullKey e fullKey) CT_ParseBool (ct_entries r) 0 (ct_count r).

(** @src lib/inc/config/compileTime/TomlParser.hpp 101-110 CompileTimeTomlParser::ParseSection *)
Definition CT_ParseSection (line : sv) : ub sv :=
  if (length line <? 3)%nat then Some [] else
  f ← front line;
  if negb (Ascii.eqb f "[") then Some [] else
  match CT_Find line "]" with
  | None => Some []
  | Some closeBracket => s ← substr line 1 (closeBracket - 1); Trim s
  end.

(** @src lib/inc/config/compileTime/TomlParser.hpp 127-135 CompileTimeTomlParser::ParseKeyValue *)
Definition CT_value_type (value : sv) : ub TomlValueType :=
  t ← CT_Equals value (lit "true");
  b ← (if (t : bool) then Some true else CT_Equals value (lit "false"));
  Some (if (b : bool) then TBoolean
        else match value with
             | [] => TString
             | c :: _ => if (IsDigit c || Ascii.eqb c "-" || Ascii.eqb c "+")%bool then TInteger else TString
             end).

(** @src lib/inc/config/compileTime/TomlParser.hpp 112-143 CompileTimeTomlParser::ParseKeyValue *)
Definition CT_ParseKeyValue (line currentSection : sv) : ub (option TomlEntry) :=
  match CT_Find line "=" with
  | None => Some None
  | Some eqPos =>
      key ← substr line 0 eqPos;
      key ← Trim key;
      value ← substr_from line (eqPos + 1);
      value ← Trim value;
      value ← match CT_Find value "#" with
              | None => Some value
              | Some commentPos => v ← substr value 0 commentPos; Trim v
              end;
      ioType ← CT_value_type value;
      Some (Some (mkTomlEntry currentSection key value ioType))
  end.

(** @src lib/inc/config/compileTime/TomlParser.hpp 58-98 CompileTimeTomlParser::Parse *)
Definition CT_Parse (MaxEntries : nat) (content : sv) : ub CompileTimeTomlParseResult :=
  Parse_loop CT_ParseSection CT_ParseKeyValue (fun e r => fst (CTResult_Add MaxEntries e r))
    (S (length content)) content 0 [] (CTResult_init MaxEntries).

(** ** Reading line by line, specified *)

(** The lines of a text; a newline at its end opens no further line. *)
Fixpoint split_lines (s : sv) : list sv :=
  match s with
  | [] => []
  | c :: s =>
      if Ascii.eqb c newline then [] :: split_lines s
      else match split_lines s with [] => [[c]] | l :: ls => (c :: l) :: ls end
  end.

(** What is between the brackets of a section line. *)
Definition section_name (line : sv) : sv :=
  if (length line <? 3)%nat then []
  else match Find line "]" with None => [] | Some i => trim (take (i - 1) (drop 1 line)) end.

(** The text after the equals sign up to a hash sign. *)
Definition strip_comment (v : sv) : sv :=
  match Find v "#" with None => v | Some j => trim (take j v) end.

Definition line_entry (line sec : sv) : option TomlEntry :=
  i ← Find line "=";
  let v := strip_comment (trim (drop (i + 1) line)) in
  Some (mkTomlEntry sec (trim (take i line)) v (value_type v)).

Fixpoint read_lines (ls : list sv) (sec : sv) : list TomlEntry :=
  match ls with
  | [] => []
  | l :: ls =>
      match trim l with
      | [] => read_lines ls sec
      | c :: _ =>
          if Ascii.eqb c "#" then read_lines ls sec
          else if Ascii.eqb c "[" then read_lines ls (section_name (trim l))
          else option_list (line_entry (trim l) sec) ++ read_lines ls sec
      end
  end.

Lemma Find_lt str c i : Find str c = Some i -> (i < length str)%nat.
Proof. intros (x & Hx & _)%find_if_Some. by eapply lookup_lt_Some. Qed.

Lemma split_lines_step s : s <> [] ->
  split_lines s = take (lineEnd_loop s 0) s :: split_lines (drop (S (lineEnd_loop s 0)) s).
Proof.
  assert (forall r n, lineEnd_loop r n = (n + lineEnd_loop r 0)%nat) as Hn.
  { induction r as [|c r IH]; intros n; simpl; [lia|]. case_bool; [lia|]. rewrite (IH (S n)), (IH 1%nat). lia. }
  induction s as [|c s IH]; [done|]. intros _. cbn [split_lines lineEnd_loop].
  destruct (Ascii.eqb c newline); [done|]. rewrite Hn.
  destruct s as [|d s]; [done|]. rewrite IH by done. done.
Qed.

Lemma lineEnd_loop_spec rest n :
  (n <= lineEnd_loop rest n <= n + length rest)%nat /\ lineEnd_loop rest n = (n + lineEnd_loop rest 0)%nat.
Proof.
  revert n. induction rest as [|c rest IH]; intros n; simpl; [lia|]. case_bool; [lia|].
  destruct (IH (S n)), (IH 1%nat). lia.
Qed.

(** A carriage return before the newline is white space at the end of the line. *)
Lemma trim_snoc str c : IsWhitespace c = true -> trim (str ++ [c]) = trim str.
Proof.
  intros Hc. unfold trim.
  assert (trim_front (str ++ [c]) = trim_front str ++ [c] \/
          trim_front (str ++ [c]) = [] /\ trim_front str = []) as [->|[-> ->]]; [| |done].
  { induction str as [|d str IH]; simpl; [rewrite Hc; auto|]. case_bool; [done|auto]. }
  rewrite reverse_snoc. cbn [trim_front]. by rewrite Hc.
Qed.

Section LinesProps.
Context {R : Type} (parse_section : sv -> ub sv) (parse_key_value : sv -> sv -> ub (option TomlEntry))
  (add : TomlEntry -> R -> R).
Context (Hsection : forall line, head line = Some "["%char -> parse_section line = Some (section_name line))
  (Hkey : forall line sec, parse_key_value line sec = Some (line_entry line sec)).

(** What a line does to the current section and the result. *)
Definition line_effect (line sec : sv) (res : R) : sv * R :=
  match line with
  | [] => (sec, res)
  | c :: _ =>
      if Ascii.eqb c "#" then (sec, res)
      else if Ascii.eqb c "[" then (section_name line, res)
      else (sec, match line_entry line sec with Some e => add e res | None => res end)
  end.

Lemma Parse_line_spec content a n sec res :
  (a + n <= length content)%nat ->
  Parse_line parse_section parse_key_value add content a (a + n) sec res =
  Some (line_effect (trim (take n (drop a content))) sec res).
Proof.
  intros Hn. unfold Parse_line.
  assert (exists e, (if (a <? a + n)%nat
       then c ← content !! (a + n - 1)%nat; Some (if Ascii.eqb c cr then (a + n - 1)%nat else (a + n)%nat)
       else Some (a + n)%nat) = Some e /\ trim (take (e - a) (drop a content)) = trim (take n (drop a content)))
    as (e & -> & He).
  { destruct (Nat.ltb_spec a (a + n)); [|exists (a + n)%nat; split; [done|by rewrite Nat.add_comm, Nat.add_sub]].
    destruct (lookup_lt_is_Some_2 content (a + n - 1) ltac:(lia)) as [c Hc]. rewrite Hc. cbn [mbind option_bind].
    destruct (Ascii.eqb_spec c cr) as [->|]; eexists; split; [done| |done|].
    - destruct n as [|n]; [lia|]. replace (a + S n - 1 - a)%nat with n by lia.
      rewrite (take_S_r _ n cr), trim_snoc; [done|done|]. rewrite lookup_drop. rewrite <-Hc. f_equal. lia.
    - by replace (a + n - a)%nat with n by lia. }
  cbn [mbind option_bind]. rewrite substr_ok by lia. cbn [mbind option_bind]. rewrite Trim_spec, He.
  cbn [mbind option_bind]. unfold line_effect. destruct (trim (take n (drop a content))) as [|c l] eqn:Hl; [done|].
  destruct (Ascii.eqb c "#"); [done|]. destruct (Ascii.eqb_spec c "[") as [->|].
  - by rewrite Hsection.
  - by rewrite Hkey.
Qed.

Lemma Parse_loop_spec fuel content a sec res :
  (length content - a < fuel)%nat ->
  Parse_loop parse_section parse_key_value add fuel content a sec res =
  Some (foldl (fun r e => add e r) res (read_lines (split_lines (drop a content)) sec)).
Proof.
  revert a sec res. induction fuel as [|fuel IH]; intros a sec res Hf; [lia|].
  cbn [Parse_loop]. destruct (Nat.ltb_spec a (length content)) as [Ha|Ha].
  - destruct (lineEnd_loop_spec (drop a content) a) as [Hle ->]. rewrite length_drop in Hle.
    destruct (lineEnd_loop_spec (drop a content) 0) as [Hle' _]. rewrite length_drop in Hle'.
    rewrite Parse_line_spec by lia. cbn [mbind option_bind].
    rewrite (split_lines_step (drop a content)).
    2: { intros H%(f_equal length). rewrite length_drop in H. simpl in H. lia. }
    set (n := lineEnd_loop (drop a content) 0) in *. rewrite drop_drop.
    destruct (line_effect _ sec res) as [sec' res'] eqn:He. rewrite IH by lia.
    replace (a + n + 1)%nat with (a + S n)%nat by lia. f_equal. cbn [read_lines].
    unfold line_effect in He. destruct (trim (take n (drop a content))) as [|c l]; [by simplify_eq|].
    destruct (Ascii.eqb c "#"); [by simplify_eq|]. destruct (Ascii.eqb c "["); [by simplify_eq|].
    simplify_eq. rewrite foldl_app. by destruct (line_entry _ _).
  - by rewrite drop_ge.
Qed.
End LinesProps.

Lemma ParseSection_spec line : head line = Some "["%char -> ParseSection line = Some (section_name line).
Proof.
  intros Hh. unfold ParseSection, section_name, front. destruct (Nat.ltb_spec (length line) 3); [done|].
  rewrite Hh. cbn [mbind option_bind Ascii.eqb]. change (Ascii.eqb "[" "[") with true. cbn [negb].
  destruct (Find line "]"); [|done]. rewrite substr_ok by lia. cbn [mbind option_bind]. apply Trim_spec.
Qed.

Lemma ParseKeyValue_spec line sec : ParseKeyValue line sec = Some (line_entry line sec).
Proof.
  unfold ParseKeyValue, line_entry, strip_comment. destruct (Find line "=") as [i|] eqn:Hi; [|done].
  apply Find_lt in Hi. cbn [mbind option_bind].
  rewrite substr_ok, substr_from_ok by lia. cbn [mbind option_bind].
  rewrite !Trim_spec. cbn [mbind option_bind].
  destruct (Find (trim (drop (i + 1) line)) "#") as [j|] eqn:Hj; cbn [mbind option_bind]; [|done].
  rewrite substr_ok by lia. cbn [mbind option_bind]. by rewrite Trim_spec.
Qed.

Lemma CT_ParseSection_spec line : CT_ParseSection line = ParseSection line.
Proof. unfold CT_ParseSection, ParseSection. by rewrite CT_Find_spec. Qed.

Lemma CT_value_type_spec v : CT_value_type v = Some (value_type v).
Proof.
  unfold CT_value_type, value_type. rewrite !CT_Equals_spec. cbn [mbind option_bind].
  by destruct (sv_eqb v (lit "true")).
Qed.

Lemma CT_ParseKeyValue_spec line sec : CT_ParseKeyValue line sec = ParseKeyValue line sec.
Proof.
  unfold CT_ParseKeyValue, ParseKeyValue. rewrite CT_Find_spec. destruct (Find line "="); [|done].
  destruct (substr line 0 _); [|done]. cbn [mbind option_bind]. rewrite Trim_spec. cbn [mbind option_bind].
  destruct (substr_from _ _) as [v|]; [|done]. cbn [mbind option_bind]. rewrite Trim_spec. cbn [mbind option_bind].
  rewrite CT_Find_spec. destruct (match Find (trim v) "#" with Some _ => _ | None => _ end); [|done].
  cbn [mbind option_bind]. by rewrite CT_value_type_spec.
Qed.

Lemma foldl_Add l r : foldl (fun r e => TomlParseResult_Add e r) r l = mkTomlParseResult (entries r ++ l).
Proof.
  revert r. induction l as [|e l IH]; intros r; [destruct r; by rewrite app_nil_r|].
  cbn [foldl]. rewrite IH. cbn [entries TomlParseResult_Add]. by rewrite <-app_assoc.
Qed.

Lemma Parse_spec content : Parse content = Some (mkTomlParseResult (read_lines (split_lines content) [])).
Proof.
  unfold Parse. rewrite Parse_loop_spec by (auto using ParseSection_spec, ParseKeyValue_spec; lia).
  by rewrite foldl_Add.
Qed.

(** ** The compile-time result holds the first entries of the run-time result *)

(** The entries in use. *)
Definition ct_view (r : CompileTimeTomlParseResult) : list TomlEntry := take (ct_count r) (ct_entries r).

Lemma CT_Add_spec M e r :
  length (ct_entries r) = M -> (ct_count r <= M)%nat ->
  let r' := fst (CTResult_Add M e r) in
  length (ct_entries r') = M /\ (ct_count r' <= M)%nat /\ ct_view r' = take M (ct_view r ++ [e]).
Proof.
  intros Hl Hc. unfold CTResult_Add, ct_view. destruct (Nat.leb_spec M (ct_count r)) as [Hm|Hm]; cbn.
  - split_and!; [done|done|]. rewrite take_app_le, take_take by (rewrite length_take; lia). f_equal. lia.
  - rewrite length_insert. split_and!; [done|lia|].
    rewrite (take_ge (_ ++ _)) by (rewrite length_app, length_take; cbn; lia).
    rewrite (take_S_r _ _ e) by (apply list_lookup_insert_eq; lia). by rewrite take_insert_ge by lia.
Qed.

Lemma CT_Add_all M l r :
  length (ct_entries r) = M -> (ct_count r <= M)%nat ->
  let r' := foldl (fun r e => fst (CTResult_Add M e r)) r l in
  length (ct_entries r') = M /\ (ct_count r' <= M)%nat /\ ct_view r' = take M (ct_view r ++ l).
Proof.
  revert r. induction l as [|e l IH]; intros r Hl Hc; cbn [foldl].
  - split_and!; [done|done|]. rewrite app_nil_r, take_ge; [done|]. unfold ct_view. rewrite length_take. lia.
  - destruct (CT_Add_spec M e r Hl Hc) as (Hl' & Hc' & Hv).
    destruct (IH _ Hl' Hc') as (Hl2 & Hc2 & Hv2). split_and!; [done|done|]. rewrite Hv2, Hv.
    replace (ct_view r ++ e :: l) with ((ct_view r ++ [e]) ++ l) by by rewrite <-app_assoc.
    generalize (ct_view r ++ [e]) as k. intros k.
    destruct (Nat.le_ge_cases M (length k)).
    + rewrite !take_app_le by (rewrite ?length_take; lia). rewrite take_take. f_equal. lia.
    + by rewrite (take_ge k).
Qed.

Lemma CT_Parse_spec M content :
  exists r, CT_Parse M content = Some r /\ length (ct_entries r) = M /\ (ct_count r <= M)%nat /\
    ct_view r = take M (read_lines (split_lines content) []).
Proof.
  unfold CT_Parse. rewrite Parse_loop_spec; [| |intros; rewrite CT_ParseKeyValue_spec; apply ParseKeyValue_spec|lia].
  2: { intros. rewrite CT_ParseSection_spec. by apply ParseSection_spec. }
  eexists. split; [done|]. apply (CT_Add_all M _ (CTResult_init M)); cbn; [by rewrite length_replicate|lia].
Qed.

Lemma CT_Matches_spec e sec k : CT_Matches e sec k = Some (Matches e sec k).
Proof.
  unfold CT_Matches, Matches.
  destruct (Nat.eqb_spec (length (section e)) (length sec)) as [Hs|Hs];
    destruct (Nat.eqb_spec (length (key e)) (length k)) as [Hk|Hk]; cbn [negb orb].
  - rewrite !CT_compare_loop_spec by lia. cbn [mbind option_bind].
    rewrite !drop_0, Hs, Hk, !firstn_all, <-Hs, <-Hk, !firstn_all. by destruct (sv_eqb (section e) sec).
  - f_equal. symmetry. rewrite andb_false_iff. right. apply bool_decide_eq_false_2. congruence.
  - f_equal. symmetry. rewrite andb_false_iff. left. apply bool_decide_eq_false_2. congruence.
  - f_equal. symmetry. rewrite andb_false_iff. left. apply bool_decide_eq_false_2. congruence.
Qed.

Lemma CT_MatchesFullKey_spec e fullKey : CT_MatchesFullKey e fullKey = MatchesFullKey e fullKey.
Proof.
  unfold CT_MatchesFullKey, MatchesFullKey. fold (CT_Find fullKey "."). rewrite CT_Find_spec.
  destruct (Find fullKey ".").
  - destruct (substr _ _ _); [|done]. cbn [mbind option_bind]. destruct (substr_from _ _); [|done].
    apply CT_Matches_spec.
  - unfold sv_eqb. case_bool_decide as Hs; [|done]. rewrite CT_Matches_spec. unfold Matches, sv_eqb.
    by rewrite Hs.
Qed.

Lemma CT_find_loop_spec {A} m m' (read read' : sv -> ub (option A)) l i todo :
  (forall e, m e = m' e) -> (forall v, read v = read' v) -> (i + todo <= length l)%nat ->
  CT_find_loop m read l i todo = find_loop m' read' (take todo (drop i l)).
Proof.
  intros Hm Hr. revert i. induction todo as [|todo IH]; intros i Hi; [done|]. cbn [CT_find_loop].
  destruct (lookup_lt_is_Some_2 l i ltac:(lia)) as [e He]. rewrite He, (drop_S l e i He). cbn [mbind option_bind take find_loop].
  rewrite Hm. destruct (m' e) as [[]|]; cbn [mbind option_bind]; [done| |done]. apply IH. lia.
Qed.

(** C26: The compile-time parser agrees with the run-time one: on any text it returns, it
    keeps the first [MaxEntries] entries, and each of its look-ups gives what the
    run-time look-up gives on those entries. *)
Theorem compile_time_agrees (MaxEntries : nat) (content fullKey : sv) :
  exists c r, CT_Parse MaxEntries content = Some c /\ Parse content = Some r /\
    ct_count c = Nat.min MaxEntries (TomlParseResult_Count r) /\
    let kept := mkTomlParseResult (take MaxEntries (entries r)) in
    CT_FindString fullKey c = FindString fullKey kept /\ CT_FindInt fullKey c = FindInt fullKey kept /\
    CT_FindLong fullKey c = FindLong fullKey kept /\ CT_FindBool fullKey c = FindBool fullKey kept.
Proof.
  destruct (CT_Parse_spec MaxEntries content) as (c & Hp & Hl & Hc & Hv). exists c. eexists.
  split; [done|]. split; [apply Parse_spec|]. unfold TomlParseResult_Count. cbn [entries]. rewrite <-Hv.
  split.
  { rewrite <-length_take, <-Hv. unfold ct_view. rewrite length_take. lia. }
  unfold CT_FindString, CT_FindInt, CT_FindLong, CT_FindBool, FindString, FindInt, FindLong, FindBool.
  split_and!; (erewrite CT_find_loop_spec; [rewrite drop_0; reflexivity| | |lia]);
    auto using CT_MatchesFullKey_spec, CT_ParseBool_spec.
Qed.

(** ** Printed documents *)

(** [trim] at the end only. *)
Definition trim_back (str : sv) : sv := reverse (trim_front (reverse str)).

Lemma trim_front_nonspace a c b :
  IsWhitespace c = false -> trim_front (a ++ c :: b) = trim_front a ++ c :: b.
Proof. intros Hc. induction a as [|d a IH]; simpl; [by rewrite Hc|]. by case_bool. Qed.

Lemma trim_app_space s r : Forall (fun c => IsWhitespace c = true) r -> trim (s ++ r) = trim s.
Proof.
  induction r as [|c r IH] using rev_ind; [by rewrite app_nil_r|].
  intros [Hr Hc]%Forall_app. rewrite app_assoc, trim_snoc by by inversion Hc. by apply IH.
Qed.

Lemma trim_back_trim b : trim (trim_back b) = trim b.
Proof.
  assert (exists r, Forall (fun c => IsWhitespace c = true) r /\ b = trim_back b ++ r) as (r & Hr & Hb).
  { unfold trim_back. rewrite <-(reverse_involutive b). generalize (reverse b) as s. intros s.
    rewrite reverse_involutive. induction s as [|c s (r & Hr & IH)]; [by exists []|]. simpl. case_bool.
    - exists (r ++ [c]). split; [by apply Forall_app; auto|]. rewrite reverse_cons. rewrite IH at 1.
      by rewrite app_assoc.
    - exists []. by rewrite app_nil_r. }
  rewrite Hb at 2. by rewrite trim_app_space.
Qed.

(** Text that starts with a character [d] and has [c] further on. *)
Lemma trim_split (a b : sv) c :
  (forall d, head a = Some d -> IsWhitespace d = false) -> IsWhitespace c = false ->
  trim (a ++ c :: b) = a ++ c :: trim_back b.
Proof.
  intros Ha Hc. unfold trim, trim_back.
  rewrite trim_front_nonspace by done.
  assert (trim_front a = a) as ->.
  { destruct a as [|d a]; [done|]. apply (trim_front_id _ d); [done|]. by apply Ha. }
  rewrite reverse_app, reverse_cons, <-app_assoc. cbn [app].
  by rewrite trim_front_nonspace, reverse_app, reverse_cons, reverse_involutive, <-app_assoc by done.
Qed.

Lemma Find_app (a b : sv) c : c ∉ a -> Find (a ++ c :: b) c = Some (length a).
Proof.
  unfold Find. induction a as [|d a IH]; intros Hc; cbn; [by rewrite Ascii.eqb_refl|].
  apply not_elem_of_cons in Hc as [Hd Hc]. destruct (Ascii.eqb_spec d c); [congruence|]. by rewrite IH.
Qed.

Lemma Find_none (a : sv) c : c ∉ a -> Find a c = None.
Proof.
  intros Hc. apply find_if_None. intros x Hx. apply Ascii.eqb_neq. congruence.
Qed.

Lemma split_lines_app l rest : newline ∉ l -> split_lines (l ++ newline :: rest) = l :: split_lines rest.
Proof.
  induction l as [|c l IH]; intros Hn; [done|]. apply not_elem_of_cons in Hn as [Hc Hn].
  cbn [app split_lines]. destruct (Ascii.eqb_spec c newline); [congruence|]. by rewrite IH.
Qed.

(** A line of a document, with what a reader of the file means by it. *)
Inductive toml_line :=
  | LBlank
  | LComment (text : sv)
  | LSection (name : sv)
  | LEntry (k v : sv) (comment : option sv).

Definition print_line (l : toml_line) : sv :=
  match l with
  | LBlank => []
  | LComment text => lit "#" ++ text
  | LSection name => lit "[" ++ name ++ lit "]"
  | LEntry k v comment =>
      k ++ lit " = " ++ v ++ match comment with None => [] | Some c => lit " #" ++ c end
  end.

(** Every line is indented and ends in a newline, or in a carriage return and a newline. *)
Definition print_doc (indent : sv) (crlf : bool) (doc : list toml_line) : sv :=
  concat ((fun l => (indent ++ print_line l ++ (if crlf then [cr] else [])) ++ [newline]) <$> doc).

Definition lacks (c : ascii) (str : sv) : bool := negb (bool_decide (c ∈ str)).

(** A line whose parts can be told apart again. *)
Definition line_ok (l : toml_line) : bool :=
  lacks newline (print_line l) &&
  match l with
  | LBlank | LComment _ => true
  | LSection name => trimmed name && lacks "]" name
  | LEntry k v _ =>
      match k with [] => false | c :: _ => negb (Ascii.eqb c "#") && negb (Ascii.eqb c "[") end &&
      trimmed k && trimmed v && lacks "=" k && lacks "#" v
  end.

(** The entries of a document, each in the last section opened before it. *)
Fixpoint doc_entries (doc : list toml_line) (sec : sv) : list TomlEntry :=
  match doc with
  | [] => []
  | (LBlank | LComment _) :: doc => doc_entries doc sec
  | LSection name :: doc => doc_entries doc name
  | LEntry k v _ :: doc => mkTomlEntry sec k v (value_type v) :: doc_entries doc sec
  end.

Lemma lacks_not c str : lacks c str = true -> c ∉ str.
Proof. unfold lacks. intros H%negb_true_iff. by apply bool_decide_eq_false in H. Qed.

Lemma trim_indent l s r :
  Forall (fun c => IsWhitespace c = true) l -> Forall (fun c => IsWhitespace c = true) r ->
  trim (l ++ s ++ r) = trim s.
Proof.
  intros Hl Hr. rewrite app_assoc, trim_app_space by done. unfold trim. by rewrite trim_front_pad.
Qed.

Lemma trimmed_head a : trimmed a = true -> forall d, head a = Some d -> IsWhitespace d = false.
Proof. destruct a as [|c a]; [done|]. intros [Hc _]%trimmed_cons d [= <-]. done. Qed.

Lemma trim_space_back a : trimmed a = true -> trim (a ++ [" "%char]) = a.
Proof. intros Ha. rewrite trim_snoc by done. by apply trim_id. Qed.

Lemma strip_printed_comment v (comment : option sv) :
  trimmed v = true -> lacks "#" v = true ->
  strip_comment (trim (v ++ match comment with None => [] | Some c => lit " #" ++ c end)) = v.
Proof.
  intros Hv Hh%lacks_not. unfold strip_comment. destruct comment as [c|].
  - replace (v ++ lit " #" ++ c) with ((v ++ [" "%char]) ++ "#"%char :: c) by by rewrite <-app_assoc.
    destruct v as [|d v].
    { change (trim (([] ++ [" "%char]) ++ "#"%char :: c)) with (trim ([] ++ "#"%char :: c)).
      by rewrite trim_split by done. }
    rewrite trim_split by (first [done | intros ? [= <-]; by apply trimmed_cons in Hv as [? _]]).
    rewrite Find_app by (rewrite elem_of_app, list_elem_of_singleton; naive_solver).
    rewrite take_app_length. by apply trim_space_back.
  - rewrite app_nil_r, trim_id, Find_none by done. done.
Qed.

Lemma read_entry k v comment sec :
  line_ok (LEntry k v comment) = true ->
  head (trim (print_line (LEntry k v comment))) = head k /\
  line_entry (trim (print_line (LEntry k v comment))) sec = Some (mkTomlEntry sec k v (value_type v)).
Proof.
  unfold line_ok. cbn [print_line]. set (rest := match comment with None => [] | Some c => _ end).
  destruct k as [|d k]; [by rewrite andb_false_r|]. intros Hok. zbool.
  replace ((d :: k) ++ lit " = " ++ v ++ rest) with (((d :: k) ++ [" "%char]) ++ "="%char :: (" "%char :: v ++ rest))
    by by rewrite <-app_assoc.
  rewrite trim_split by (first [done | intros ? [= <-]; by apply (trimmed_head (d :: k))]).
  split; [done|]. unfold line_entry.
  rewrite Find_app by (rewrite elem_of_app, list_elem_of_singleton; intros [Hin|?]; [by apply (lacks_not "=" (d :: k))|done]).
  cbn [mbind option_bind]. rewrite take_app_length, trim_space_back by done.
  rewrite (drop_app_ge _ _ (length _ + 1)) by lia. rewrite Nat.add_comm, Nat.add_sub. cbn [drop].
  rewrite drop_0, trim_back_trim. replace (trim (" "%char :: v ++ rest)) with (trim (v ++ rest)) by done.
  unfold rest. by rewrite strip_printed_comment.
Qed.

Lemma read_section name :
  line_ok (LSection name) = true ->
  head (trim (print_line (LSection name))) = Some "["%char /\
  section_name (trim (print_line (LSection name))) = name.
Proof.
  unfold line_ok. intros Hok. zbool. cbn [print_line].
  assert (trim (lit "[" ++ name ++ lit "]") = lit "[" ++ name ++ lit "]") as ->.
  { change (lit "[" ++ name ++ lit "]") with (("["%char :: name) ++ "]"%char :: []).
    by rewrite trim_split by (first [done | by intros ? [= <-]]). }
  split; [done|]. unfold section_name. destruct name as [|c name]; [done|].
  rewrite (proj2 (Nat.ltb_ge _ _)) by (cbn; rewrite length_app; cbn; lia).
  change (lit "[" ++ (c :: name) ++ lit "]") with (("["%char :: c :: name) ++ "]"%char :: []).
  rewrite Find_app by (rewrite elem_of_cons; intros [?|?]; [done|by apply (lacks_not "]" (c :: name))]).
  cbn [length Nat.sub app drop].
  change (c :: name ++ ["]"%char]) with ((c :: name) ++ ["]"%char]).
  replace (S (length name)) with (length (c :: name)) by done. rewrite take_app_length. by apply trim_id.
Qed.

Lemma read_printed indent (tail : sv) l ls sec :
  Forall (fun c => IsWhitespace c = true) indent -> Forall (fun c => IsWhitespace c = true) tail ->
  line_ok l = true ->
  read_lines ((indent ++ print_line l ++ tail) :: ls) sec =
  match l with
  | LBlank | LComment _ => read_lines ls sec
  | LSection name => read_lines ls name
  | LEntry k v _ => mkTomlEntry sec k v (value_type v) :: read_lines ls sec
  end.
Proof.
  intros Hi Ht Hok. cbn [read_lines]. rewrite trim_indent by done. destruct l as [|text|name|k v c].
  - done.
  - cbn [print_line]. change (lit "#" ++ text) with ([] ++ "#"%char :: text). by rewrite trim_split.
  - destruct (read_section name Hok) as [Hh Hn].
    destruct (trim (print_line (LSection name))) as [|c l]; [done|]. injection Hh as ->. by rewrite Hn.
  - destruct (read_entry k v c sec Hok) as [Hh ->]. destruct k as [|d k].
    { unfold line_ok in Hok. by rewrite andb_false_r in Hok. }
    destruct (trim _) as [|d' l]; [done|]. injection Hh as ->.
    assert (Ascii.eqb d "#" = false /\ Ascii.eqb d "[" = false) as [-> ->] by (unfold line_ok in Hok; by zbool).
    done.
Qed.

Lemma read_doc indent (tail : sv) doc sec :
  Forall (fun c => IsWhitespace c = true) indent -> Forall (fun c => IsWhitespace c = true) tail ->
  forallb line_ok doc = true ->
  read_lines ((fun l => indent ++ print_line l ++ tail) <$> doc) sec = doc_entries doc sec.
Proof.
  intros Hi Ht. revert sec. induction doc as [|l doc IH]; intros sec Hok; [done|].
  cbn [forallb] in Hok. apply andb_true_iff in Hok as [Hl Hok]. rewrite fmap_cons, read_printed by done.
  destruct l; cbn [doc_entries]; by rewrite IH.
Qed.

Lemma split_printed indent (tail : sv) doc :
  newline ∉ indent -> newline ∉ tail -> forallb line_ok doc = true ->
  split_lines (concat ((fun l => (indent ++ print_line l ++ tail) ++ [newline]) <$> doc)) =
  (fun l => indent ++ print_line l ++ tail) <$> doc.
Proof.
  intros Hi Ht. induction doc as [|l doc IH]; intros Hok; [done|].
  cbn [forallb] in Hok. apply andb_true_iff in Hok as [Hl Hok].
  rewrite !fmap_cons. cbn [concat]. rewrite <-app_assoc. cbn [app]. rewrite split_lines_app.
  - by rewrite IH.
  - unfold line_ok in Hl. apply andb_true_iff in Hl as [Hl%lacks_not _]. rewrite !elem_of_app. naive_solver.
Qed.

Lemma Parse_print_doc indent crlf doc :
  Forall (fun c => IsWhitespace c = true) indent -> newline ∉ indent -> forallb line_ok doc = true ->
  Parse (print_doc indent crlf doc) = Some (mkTomlParseResult (doc_entries doc [])).
Proof.
  intros Hi Hn Hok. rewrite Parse_spec. unfold print_doc. rewrite split_printed, read_doc; [done|done| |done|done| |done].
  - destruct crlf; by repeat constructor.
  - destruct crlf; [|apply not_elem_of_nil]. by intros ->%list_elem_of_singleton || (rewrite list_elem_of_singleton; done).
Qed.

(** ** Looking a key up *)

Lemma MatchesFullKey_dot e sec k :
  lacks "." sec = true -> MatchesFullKey e (sec ++ "."%char :: k) = Some (Matches e sec k).
Proof.
  intros Hs%lacks_not. unfold MatchesFullKey. rewrite Find_app by done.
  rewrite substr_ok, substr_from_ok by (rewrite length_app; cbn; lia). cbn [mbind option_bind].
  rewrite drop_0, take_app_length, drop_app_ge by lia. by rewrite Nat.add_comm, Nat.add_sub.
Qed.

Lemma find_loop_first {A} (matches : TomlEntry -> ub bool) (m : TomlEntry -> bool)
    (read : sv -> ub (option A)) l :
  (forall e, matches e = Some (m e)) ->
  find_loop matches read l = match first_match m l with Some e => read (value e) | None => Some None end.
Proof.
  intros Hm. induction l as [|e l IH]; [done|]. cbn [find_loop first_match]. rewrite Hm.
  cbn [mbind option_bind]. by destruct (m e).
Qed.

(** The value of [key] in [section] in a document: that of the first such entry. *)
Definition doc_lookup (doc : list toml_line) (sec k : sv) : option sv :=
  value <$> first_match (fun e => Matches e sec k) (doc_entries doc []).

Lemma FindInt_doc doc sec k :
  lacks "." sec = true ->
  FindInt (sec ++ "."%char :: k) (mkTomlParseResult (doc_entries doc [])) =
  match doc_lookup doc sec k with Some v => ParseInt v | None => Some None end.
Proof.
  intros Hs. unfold FindInt, doc_lookup. cbn [entries].
  rewrite (find_loop_first _ (fun e => Matches e sec k)) by (intros; by apply MatchesFullKey_dot).
  by destruct (first_match _ _).
Qed.

(** Text between double quotes loses them; a value that is not quoted stays. *)
Definition unquote (v : sv) : sv :=
  match head v, last v with
  | Some a, Some b =>
      if ((2 <=? length v)%nat &&
          (Ascii.eqb a dquote && Ascii.eqb b dquote || Ascii.eqb a squote && Ascii.eqb b squote))%bool
      then take (length v - 2) (drop 1 v) else v
  | _, _ => v
  end.

Lemma Unquote_spec v : Unquote v = Some (unquote (trim v)).
Proof.
  unfold Unquote, unquote, front, back. rewrite Trim_spec. cbn [mbind option_bind].
  destruct (trim v) as [|a l] eqn:Hv; [done|]. 
  destruct (last (a :: l)) as [b|] eqn:Hl; [|by apply last_None in Hl].
  change (head (a :: l)) with (Some a).
  destruct (Nat.leb_spec 2 (length (a :: l))); [|done]. cbn [mbind option_bind andb].
  case_bool; [|done]. by rewrite substr_ok by lia.
Qed.

Lemma unquote_quoted s : unquote (dquote :: s ++ [dquote]) = s.
Proof.
  unfold unquote. change (head (dquote :: ?l)) with (Some dquote).
  replace (dquote :: s ++ [dquote]) with ((dquote :: s) ++ [dquote]) by done. rewrite last_snoc.
  rewrite (proj2 (Nat.leb_le _ _)) by (rewrite length_app; cbn; lia).
  change (Ascii.eqb dquote dquote) with true. cbn [andb orb]. rewrite length_app. cbn [length app drop].
  replace (S (length s) + 1 - 2)%nat with (length s) by lia. apply take_app_length.
Qed.

Lemma doc_values_trimmed doc sec e :
  forallb line_ok doc = true -> e ∈ doc_entries doc sec -> trimmed (value e) = true.
Proof.
  revert sec. induction doc as [|l doc IH]; intros sec Hok He; [by apply elem_of_nil in He|].
  cbn [forallb] in Hok. apply andb_true_iff in Hok as [Hl Hok].
  destruct l as [| | |k v c]; cbn [doc_entries] in He; eauto.
  apply elem_of_cons in He as [->|He]; [|eauto]. unfold line_ok in Hl. by zbool.
Qed.

(** C25: Printing and reading a configuration file: a document of blank lines, comments,
    sections and entries, indented and with either line ending, whose names, keys and
    values are trimmed and hold no character that ends them (in particular no value holds
    a hash sign, which starts the trailing comment), is parsed to exactly its
    entries in order, each with its section, its key, its value without the trailing
    comment, and the type its text has; and the text found under section.key is the value
    of the first entry of that section and key, without its quotes. *)
Theorem toml_roundtrip (indent : sv) (crlf : bool) (doc : list toml_line) :
  Forall (fun c => IsWhitespace c = true) indent -> newline ∉ indent -> forallb line_ok doc = true ->
  exists r, Parse (print_doc indent crlf doc) = Some r /\ entries r = doc_entries doc [] /\
    forall sec k, lacks "." sec = true ->
      FindString (sec ++ "."%char :: k) r = Some (unquote <$> doc_lookup doc sec k).
Proof.
  intros Hi Hn Hok. eexists. split_and!; [by apply Parse_print_doc|done|]. intros sec k Hs.
  unfold FindString, doc_lookup. cbn [entries].
  rewrite (find_loop_first _ (fun e => Matches e sec k)) by (intros; by apply MatchesFullKey_dot).
  destruct (first_match _ _) as [e|] eqn:He; [|done]. apply first_match_Some in He as [He _].
  cbn [fmap option_fmap option_map]. rewrite Unquote_spec, trim_id; [done|]. by eapply doc_values_trimmed.
Qed.

Lemma toml_roundtrip_witness :
  exists r, Parse (print_doc (lit "  ") true
    [LComment (lit " settings"); LSection (lit "server"); LEntry (lit "name") (dquote :: lit "a" ++ [dquote]) (Some (lit " [tcp]"));
     LBlank]) = Some r /\ entries r = [mkTomlEntry (lit "server") (lit "name") (dquote :: lit "a" ++ [dquote]) TString] /\
    FindString (lit "server.name") r = Some (Some (lit "a")).
Proof.
  destruct (toml_roundtrip (lit "  ") true
    [LComment (lit " settings"); LSection (lit "server"); LEntry (lit "name") (dquote :: lit "a" ++ [dquote]) (Some (lit " [tcp]"));
     LBlank]) as (r & Hp & He & Hf).
  - repeat constructor.
  - apply (bool_decide_unpack _). vm_compute. done.
  - vm_compute; reflexivity.
  - exists r. split; [done|]. split; [exact He|]. exact (Hf (lit "server") (lit "name") eq_refl).
Defined.
