(* ===== verification/Config.v ===== *)
(** * Config: typed access to a configuration, with overrides from the environment

    [lib/inc/config/runTime/Config.hpp] and [lib/inc/config/compileTime/Config.hpp].
    The environment is a function from names to values, and the file system one from
    paths to the text a stream on the file delivers ([None]: it cannot be opened). *)

From S2P Require Import Prelude StringUtils Toml.
From Stdlib Require Import Ascii String.
From stdpp Require Import base numbers list strings option pretty.
Open Scope Z_scope.

Abbreviation Environment := (sv -> option sv).
Abbreviation FileSystem := (sv -> option sv).

(** @src lib/inc/config/runTime/Config.hpp 21-26 Config *)
Record Config := mkConfig { config_result : TomlParseResult }.

(** [Config() = default]. *)
(** @src lib/inc/config/runTime/Config.hpp 23-23 Config::Config *)
Definition Config_init : Config := mkConfig (mkTomlParseResult []).

(** @src lib/inc/config/runTime/Config.hpp 41-43 Config::FromString *)
Definition FromString (content : sv) : ub Config := r ← Parse content; Some (mkConfig r).

Section Files.
Context (fs : FileSystem).

(** @src lib/inc/config/runTime/Config.hpp 29-38 Config::FromFile *)
Definition Config_FromFile (path : sv) : ub (option Config) :=
  match fs path with
  | None => Some None
  | Some buffer => r ← Parse buffer; Some (Some (mkConfig r))
  end.

(** @src lib/inc/config/runTime/Config.hpp 46-53 Config::Reload *)
Definition Reload (path : sv) (cfg : Config) : ub (Config * bool) :=
  newConfig ← Config_FromFile path;
  Some (match newConfig with
        | None => (cfg, false)
        | Some c => (mkConfig (config_result c), true)
        end).
End Files.

Section Accessors.
Context (env : Environment).

(** A name that is not set reads as the empty string, as one set to it does. *)
(** @src lib/inc/config/runTime/Config.hpp 129-145 Config::GetEnv *)
Definition GetEnv (name : option sv) : sv :=
  match name with None => [] | Some name => default [] (env name) end.

(** [if (envVar != nullptr) if (auto env = GetEnv(envVar); !env.empty()) ...]: the text
    that takes part in the look-up. *)
(** @src lib/inc/config/runTime/Config.hpp 60-64 Config::Str *)
Definition env_override (envVar : option sv) : option sv :=
  match envVar with
  | None => None
  | Some _ => match GetEnv envVar with [] => None | v => Some v end
  end.

(** @src lib/inc/config/runTime/Config.hpp 56-68 Config::Str *)
Definition Config_Str (cfg : Config) (key defaultValue : sv) (envVar : option sv) : ub sv :=
  match env_override envVar with
  | Some e => Some e
  | None => v ← FindString key (config_result cfg); Some (default defaultValue v)
  end.

(** [if (auto parsed = Parse...(env)) return parsed.value();] before the look-up. *)
(** @src lib/inc/config/runTime/Config.hpp 74-83 Config::Int *)
Definition override_or {A} (parse : sv -> ub (option A)) (envVar : option sv) (find : ub (option A))
    (defaultValue : A) : ub A :=
  parsed ← match env_override envVar with None => Some None | Some e => parse e end;
  match parsed with
  | Some v => Some v
  | None => v ← find; Some (default defaultValue v)
  end.

(** @src lib/inc/config/runTime/Config.hpp 70-84 Config::Int *)
Definition Config_Int (cfg : Config) (key : sv) (defaultValue : Z) (envVar : option sv) : ub Z :=
  override_or ParseInt envVar (FindInt key (config_result cfg)) defaultValue.

(** @src lib/inc/config/runTime/Config.hpp 86-100 Config::Long *)
Definition Config_Long (cfg : Config) (key : sv) (defaultValue : Z) (envVar : option sv) : ub Z :=
  override_or ParseLong envVar (FindLong key (config_result cfg)) defaultValue.

(** @src lib/inc/config/runTime/Config.hpp 102-116 Config::Bool *)
Definition Config_Bool (cfg : Config) (key : sv) (defaultValue : bool) (envVar : option sv) : ub bool :=
  override_or ParseBool envVar (FindBool key (config_result cfg)) defaultValue.
End Accessors.

(** @src lib/inc/config/runTime/Config.hpp 118-120 Config::EntryCount *)
Definition EntryCount (cfg : Config) : nat := TomlParseResult_Count (config_result cfg).

(** @src lib/inc/config/runTime/Config.hpp 122-124 Config::IsLoaded *)
Definition IsLoaded (cfg : Config) : bool := (0 <? TomlParseResult_Count (config_result cfg))%nat.

(** ** The compile-time accessor *)

(** @src lib/inc/config/compileTime/Config.hpp 11-18 CompileTimeConfig *)
Record CompileTimeConfig := mkCTConfig { ct_result : CompileTimeTomlParseResult }.

(** @src lib/inc/config/compileTime/Config.hpp 21-23 CompileTimeConfig::From *)
Definition CT_From (MaxEntries : nat) (tomlContent : sv) : ub CompileTimeConfig :=
  r ← CT_Parse MaxEntries tomlContent; Some (mkCTConfig r).

(** @src lib/inc/config/compileTime/Config.hpp 26-31 CompileTimeConfig::Str *)
Definition CT_Str (cfg : CompileTimeConfig) (key defaultValue : sv) : ub sv :=
  v ← CT_FindString key (ct_result cfg); Some (default defaultValue v).

(** @src lib/inc/config/compileTime/Config.hpp 33-38 CompileTimeConfig::Int *)
Definition CT_Int (cfg : CompileTimeConfig) (key : sv) (defaultValue : Z) : ub Z :=
  v ← CT_FindInt key (ct_result cfg); Some (default defaultValue v).

(** @src lib/inc/config/compileTime/Config.hpp 40-45 CompileTimeConfig::Long *)
Definition CT_Long (cfg : CompileTimeConfig) (key : sv) (defaultValue : Z) : ub Z :=
  v ← CT_FindLong key (ct_result cfg); Some (default defaultValue v).

(** @src lib/inc/config/compileTime/Config.hpp 47-52 CompileTimeConfig::Bool *)
Definition CT_Bool (cfg : CompileTimeConfig) (key : sv) (defaultValue : bool) : ub bool :=
  v ← CT_FindBool key (ct_result cfg); Some (default defaultValue v).

(** @src lib/inc/config/compileTime/Config.hpp 54-56 CompileTimeConfig::EntryCount *)
Definition CT_EntryCount (cfg : CompileTimeConfig) : nat := ct_count (ct_result cfg).

(** ** The value an accessor returns *)

(** The text of [key] in [section] in the file. *)
Definition file_text (cfg : Config) (sec k : sv) : option sv :=
  value <$> first_match (fun e => Matches e sec k) (entries (config_result cfg)).

Lemma Int_spec env cfg sec k d envVar :
  lacks "." sec = true ->
  Config_Int env cfg (sec ++ "."%char :: k) d envVar =
  (e ← match env_override env envVar with None => Some None | Some t => ParseInt t end;
   f ← match (e : option Z), file_text cfg sec k with None, Some t => ParseInt t | _, _ => Some None end;
   Some (match e, (f : option Z) with Some z, _ => z | None, Some z => z | None, None => d end)).
Proof.
  intros Hs. unfold Config_Int, override_or, FindInt, file_text.
  destruct (match env_override env envVar with None => _ | Some _ => _ end) as [[z|]|]; cbn [mbind option_bind];
    [done| |done].
  rewrite (find_loop_first _ (fun e => Matches e sec k)) by (intros; by apply MatchesFullKey_dot).
  destruct (first_match _ _) as [e|]; cbn [fmap option_fmap option_map]; [|done].
  destruct (ParseInt (value e)) as [[z|]|]; done.
Qed.

(** The documented priority of a setting: an integer in the environment variable wins;
    an unset, empty or malformed variable leaves the first entry of the file with that
    section and key; the default is taken when the file has no such entry, and also when
    that entry is malformed, whatever later entries say. *)
Lemma config_precedence (env : Environment) (cfg : Config) (sec k name : sv) (d : Z) :
  lacks "." sec = true ->
  let read := Config_Int env cfg (sec ++ "."%char :: k) d (Some name) in
  let from_env := match env name with None | Some [] => Some None | Some t => ParseInt t end in
  let from_file := match file_text cfg sec k with None => Some None | Some t => ParseInt t end in
  (forall z, from_env = Some (Some z) -> read = Some z) /\
  (forall z, from_env = Some None -> from_file = Some (Some z) -> read = Some z) /\
  (from_env = Some None -> from_file = Some None -> read = Some d).
Proof.
  intros Hs read from_env from_file. subst read. rewrite Int_spec by done.
  assert (match env_override env (Some name) with None => Some None | Some t => ParseInt t end = from_env) as ->.
  { unfold from_env, env_override, GetEnv. by destruct (env name) as [[|]|]. }
  subst from_file. split_and!.
  - intros z ->. by destruct (file_text cfg sec k).
  - intros z ->. destruct (file_text cfg sec k); [|done]. by intros ->.
  - intros ->. destruct (file_text cfg sec k); [|done]. by intros ->.
Qed.

Lemma config_precedence_witness :
  let cfg := mkConfig (mkTomlParseResult [mkTomlEntry (lit "server") (lit "port") (lit "9000") TInteger]) in
  let env t n := if sv_eqb n (lit "SERVER_PORT") then Some t else None in
  let port t := Config_Int (env t) cfg (lit "server.port") 8080 (Some (lit "SERVER_PORT")) in
  port (lit "80") = Some 80 /\ port (lit "http") = Some 9000 /\
  Config_Int (env []) Config_init (lit "server.port") 8080 (Some (lit "SERVER_PORT")) = Some 8080.
Proof.
  intros cfg env port. split_and!.
  - apply (proj1 (config_precedence (env (lit "80")) cfg (lit "server") (lit "port") (lit "SERVER_PORT") 8080 eq_refl)).
    vm_compute; reflexivity.
  - apply (proj1 (proj2 (config_precedence (env (lit "http")) cfg (lit "server") (lit "port") (lit "SERVER_PORT") 8080 eq_refl)));
      vm_compute; reflexivity.
  - apply (proj2 (proj2 (config_precedence (env []) Config_init (lit "server") (lit "port") (lit "SERVER_PORT") 8080 eq_refl)));
      vm_compute; reflexivity.
Defined.

(** ** A hash sign inside quotes

    [ParseKeyValue] looks for the comment before it looks at quotes, so that a quoted
    value ends at its first hash sign and keeps the opening quote. *)
Lemma quoted_hash_cut (a b sec : sv) :
  line_ok (LEntry (lit "name") (dquote :: a) (Some (b ++ [dquote]))) = true ->
  ParseKeyValue (lit "name = " ++ (dquote :: a ++ lit " #" ++ b ++ [dquote])) sec =
  Some (Some (mkTomlEntry sec (lit "name") (dquote :: a) (value_type (dquote :: a)))).
Proof.
  intros Hok. rewrite ParseKeyValue_spec. destruct (read_entry _ _ _ sec Hok) as [_ <-]. do 2 f_equal.
  symmetry. apply trim_id. unfold trimmed.
  assert (lit "name = " ++ dquote :: a ++ lit " #" ++ b ++ [dquote] =
          (lit "name = " ++ dquote :: a ++ lit " #" ++ b) ++ [dquote]) as ->.
  - cbn. by rewrite <-!app_assoc.
  - by rewrite last_snoc.
Qed.
