(* ===== verification/NetworkCfg.v ===== *)
(** * NetworkCfg: the runtime configuration record and how it is read

    [network/inc/config/NetworkCfg.h].  Every field is an [int], read through [Config]
    (Config.v) under a section and a key, with an environment variable that overrides it
    and a default.  The last part shows that a printed configuration is read back. *)

From S2P Require Import Prelude StringUtils Toml Config.
From Stdlib Require Import Ascii String.
From stdpp Require Import base numbers list strings option pretty.
Open Scope Z_scope.

(** @src network/inc/config/NetworkCfg.h 18-30 NetworkCfg::Server *)
Record ServerCfg := mkServerCfg { port : Z; maxClients : Z; backlog : Z; tickMs : Z }.

(** @src network/inc/config/NetworkCfg.h 32-38 NetworkCfg::Room *)
Record RoomCfg := mkRoomCfg { maxCapacity : Z }.

(** @src network/inc/config/NetworkCfg.h 40-50 NetworkCfg::Thread *)
Record ThreadCfg := mkThreadCfg {
  maxWorkerThreadMultiplier : Z; maxAcceptorThreadCount : Z; desirableIocpThreadCount : Z }.

(** @src network/inc/config/NetworkCfg.h 16-50 NetworkCfg *)
Record NetworkCfg := mkNetworkCfg { cfg_server : ServerCfg; cfg_room : RoomCfg; cfg_thread : ThreadCfg }.

(** @src network/inc/config/NetworkCfg.h 82-99 NetworkCfg::WithDefaults *)
Definition WithDefaults : NetworkCfg := {|
  cfg_server := {| port := 8080; maxClients := 1000; backlog := 10; tickMs := 16 |};
  cfg_room := {| maxCapacity := 100 |};
  cfg_thread := {| maxWorkerThreadMultiplier := 2; maxAcceptorThreadCount := 2;
                   desirableIocpThreadCount := -1 |} |}.

Section Read.
Context (env : Environment) (fs : FileSystem).

(** @src network/inc/config/NetworkCfg.h 62-79 NetworkCfg::FromCfg *)
Definition FromCfg (cfg : Config) : ub NetworkCfg :=
  let Int k d v := Config_Int env cfg (lit k) d (Some (lit v)) in
  port ← Int "server.port" 8080 "SERVER_PORT";
  maxClients ← Int "server.max_clients" 1000 "SERVER_MAX_CLIENTS";
  backlog ← Int "server.backlog" 10 "SERVER_BACKLOG";
  tickMs ← Int "server.tick_ms" 16 "SERVER_TICK_MS";
  maxCapacity ← Int "room.max_capacity" 100 "ROOM_MAX_CAPACITY";
  multiplier ← Int "thread.max_worker_thread_multiplier" 2 "THREAD_MAX_WORKER_THREAD_MULTIPLIER";
  acceptors ← Int "thread.max_acceptor_thread_count" 2 "THREAD_MAX_ACCEPTOR_THREAD_COUNT";
  iocp ← Int "thread.desirable_iocp_thread_count" (-1) "THREAD_DESIRABLE_IOCP_THREAD_COUNT";
  Some (mkNetworkCfg (mkServerCfg port maxClients backlog tickMs) (mkRoomCfg maxCapacity)
          (mkThreadCfg multiplier acceptors iocp)).

(** A file that cannot be opened throws [std::runtime_error], with the text on the left. *)
(** @src network/inc/config/NetworkCfg.h 53-59 NetworkCfg::FromFile *)
Definition FromFile (path : sv) : ub (sv + NetworkCfg) :=
  cfg ← Config_FromFile fs path;
  match cfg with
  | None => Some (inl (lit "Failed to load config file: " ++ path))
  | Some cfg => c ← FromCfg cfg; Some (inr c)
  end.
End Read.

(** ** Configuration files *)

(** The sections of a configuration file with their keys. *)
Definition cfg_table : list (string * list string) :=
  [("server", ["port"; "max_clients"; "backlog"; "tick_ms"]);
   ("room", ["max_capacity"]);
   ("thread", ["max_worker_thread_multiplier"; "max_acceptor_thread_count"; "desirable_iocp_thread_count"])].

(** The file in which [file] has the values; a key without one is left out. *)
Definition cfg_doc (file : string -> string -> option Z) : list toml_line :=
  cfg_table ≫= fun '(s, ks) =>
    LSection (lit s) :: omap (fun k => (fun z => LEntry (lit k) (decimal z) None) <$> file s k) ks.

Definition cfg_entry (file : string -> string -> option Z) (sk : string * string) : option TomlEntry :=
  (fun z => mkTomlEntry (lit sk.1) (lit sk.2) (decimal z) (value_type (decimal z))) <$> file sk.1 sk.2.

Lemma doc_entries_keys file s ks rest :
  doc_entries (omap (fun k => (fun z => LEntry (lit k) (decimal z) None) <$> file s k) ks ++ rest) (lit s) =
  omap (cfg_entry file) (pair s <$> ks) ++ doc_entries rest (lit s).
Proof.
  induction ks as [|k ks IH]; [done|]. rewrite fmap_cons. cbn [omap list_omap]. unfold cfg_entry at 1.
  cbn [fst snd]. destruct (file s k); cbn [fmap option_fmap option_map app doc_entries]; by rewrite IH.
Qed.

Lemma doc_entries_table file table sec :
  doc_entries (table ≫= fun '(s, ks) =>
    LSection (lit s) :: omap (fun k => (fun z => LEntry (lit k) (decimal z) None) <$> file s k) ks) sec =
  omap (cfg_entry file) (table ≫= fun '(s, ks) => pair s <$> ks).
Proof.
  revert sec. induction table as [|[s ks] table IH]; intros sec; [done|].
  cbn [mbind list_bind app doc_entries] in *. rewrite doc_entries_keys, IH. by rewrite omap_app.
Qed.

Lemma lit_inj s t : lit s = lit t -> s = t.
Proof.
  intros H%(f_equal string_of_list_ascii). unfold lit in H. by rewrite !string_of_list_ascii_of_string in H.
Qed.

Lemma first_cfg_entry file l s k :
  (s, k) ∈ l ->
  value <$> first_match (fun e => Matches e (lit s) (lit k)) (omap (cfg_entry file) l) = decimal <$> file s k.
Proof.
  induction l as [|[s' k'] l IH]; intros Hin; [by apply elem_of_nil in Hin|].
  assert (Hrest : (s, k) <> (s', k') -> (s, k) ∈ l) by (apply elem_of_cons in Hin; naive_solver).
  cbn [omap list_omap]. unfold cfg_entry at 1. cbn [fst snd].
  destruct (file s' k') as [z|] eqn:Hz; cbn [fmap option_fmap option_map first_match].
  - unfold Matches, sv_eqb. cbn [section key]. repeat case_bool_decide; cbn [andb].
    { repeat match goal with H : lit _ = lit _ |- _ => apply lit_inj in H end. subst. by rewrite Hz. }
    all: apply IH, Hrest; congruence.
  - destruct (decide ((s, k) = (s', k'))) as [Heq|Hne]; [|by apply IH, Hrest].
    injection Heq as <- <-. rewrite Hz. destruct (first_match _ _) as [e|] eqn:He; [exfalso|done].
    apply first_match_Some in He as [He Hm]. apply list_elem_of_omap in He as ([s2 k2] & _ & Hc).
    unfold cfg_entry in Hc. cbn [fst snd] in Hc. destruct (file s2 k2) eqn:Hf; [|done]. injection Hc as <-.
    unfold Matches, sv_eqb in Hm. cbn [section key] in Hm. apply andb_true_iff in Hm as [H1 H2].
    apply bool_decide_eq_true in H1, H2. apply lit_inj in H1, H2. congruence.
Qed.

Lemma decimal_lacks c z : IsDigit c = false -> c <> "-"%char -> lacks c (decimal z) = true.
Proof.
  intros Hc Hm. unfold lacks. apply negb_true_iff, bool_decide_eq_false. intros Hin.
  assert (forall x : N, c ∉ lit (pretty x)) as Hn.
  { intros x Hx. pose proof (Forall_elem _ _ _ (pretty_N_digits x) Hx). cbn in *. congruence. }
  destruct (Z.lt_ge_cases z 0).
  - rewrite decimal_neg in Hin by done. apply elem_of_cons in Hin as [|Hin]; [done|by eapply Hn].
  - rewrite decimal_pos in Hin by done. by eapply Hn.
Qed.

(** A key that can be printed in front of a number. *)
Definition key_ok (k : sv) : bool :=
  match k with [] => false | c :: _ => negb (Ascii.eqb c "#") && negb (Ascii.eqb c "[") end &&
  trimmed k && lacks "=" k && lacks newline k.

Lemma number_line_ok k z : key_ok k = true -> line_ok (LEntry k (decimal z) None) = true.
Proof.
  unfold key_ok, line_ok. cbn [print_line]. intros Hk.
  apply andb_true_iff in Hk as [Hk Hn]. apply andb_true_iff in Hk as [Hk He].
  apply andb_true_iff in Hk as [Hk Ht]. rewrite Hk, Ht, He, decimal_trimmed.
  rewrite (decimal_lacks "#" z) by done. rewrite !andb_true_r, app_nil_r.
  unfold lacks. apply negb_true_iff, bool_decide_eq_false. rewrite !elem_of_app.
  intros [Hin|[Hin|Hin]]; [by eapply lacks_not| |by eapply lacks_not, Hin; apply decimal_lacks].
  revert Hin. apply (bool_decide_unpack _). vm_compute. done.
Qed.

Lemma cfg_doc_ok file : forallb line_ok (cfg_doc file) = true.
Proof.
  unfold cfg_doc.
  assert (forallb (fun '(s, ks) => line_ok (LSection (lit s)) && forallb (fun k => key_ok (lit k)) ks) cfg_table = true)
    as Ht by (vm_compute; reflexivity).
  revert Ht. induction cfg_table as [|[s ks] table IH]; [done|]. cbn [forallb mbind list_bind].
  intros [[Hs Hks]%andb_true_iff Ht]%andb_true_iff. cbn [app forallb]. rewrite forallb_app.
  rewrite Hs, IH, andb_true_r by done. cbn [andb]. clear -Hks. induction ks as [|k ks IH]; [done|].
  cbn [forallb] in Hks. apply andb_true_iff in Hks as [Hk Hks]. cbn [omap list_omap].
  destruct (file s k) as [z|]; cbn [fmap option_fmap option_map forallb]; [|by apply IH].
  rewrite number_line_ok by done. by apply IH.
Qed.

(** The value of a setting: environment, then file, then default. *)
Definition setting (file : string -> string -> option Z) (over : string -> option Z) s k v d : Z :=
  default d (match over v with Some z => Some z | None => file s k end).

Definition int_range (o : option Z) : bool := match o with None => true | Some z => Z.abs z <=? INT_MAX end.

Section Settings.
Context (env : Environment) (file : string -> string -> option Z) (over : string -> option Z).
Context (Henv : forall v, env (lit v) = decimal <$> over v)
  (Hover : forall v, int_range (over v) = true) (Hfile : forall s k, int_range (file s k) = true).

Lemma Int_setting s k v d :
  (s, k) ∈ (cfg_table ≫= fun '(s, ks) => pair s <$> ks) -> lacks "." (lit s) = true ->
  Config_Int env (mkConfig (mkTomlParseResult (doc_entries (cfg_doc file) []))) (lit s ++ "."%char :: lit k) d
    (Some (lit v)) = Some (setting file over s k v d).
Proof.
  intros Hin Hs. rewrite Int_spec by done. unfold setting, env_override, GetEnv. rewrite Henv.
  unfold file_text. cbn [config_result entries]. unfold cfg_doc. rewrite doc_entries_table, first_cfg_entry by done.
  specialize (Hover v). specialize (Hfile s k). unfold int_range in *.
  destruct (over v) as [z|] eqn:Hv; cbn [fmap option_fmap option_map].
  - pose proof (ParseInt_number z) as Hp. rewrite Hover in Hp. destruct (decimal z) as [|c l]; [done|].
    change (default [] (Some (c :: l))) with (c :: l). cbv iota. rewrite Hp. by destruct (decimal <$> file s k).
  - cbn [mbind option_bind]. destruct (file s k) as [z|]; cbn [fmap option_fmap option_map]; [|done].
    by rewrite ParseInt_number, Hfile.
Qed.

Lemma FromCfg_settings :
  let get s k v d := setting file over s k v d in
  FromCfg env (mkConfig (mkTomlParseResult (doc_entries (cfg_doc file) []))) =
  Some (mkNetworkCfg
    (mkServerCfg (get "server" "port" "SERVER_PORT" 8080) (get "server" "max_clients" "SERVER_MAX_CLIENTS" 1000)
       (get "server" "backlog" "SERVER_BACKLOG" 10) (get "server" "tick_ms" "SERVER_TICK_MS" 16))
    (mkRoomCfg (get "room" "max_capacity" "ROOM_MAX_CAPACITY" 100))
    (mkThreadCfg (get "thread" "max_worker_thread_multiplier" "THREAD_MAX_WORKER_THREAD_MULTIPLIER" 2)
       (get "thread" "max_acceptor_thread_count" "THREAD_MAX_ACCEPTOR_THREAD_COUNT" 2)
       (get "thread" "desirable_iocp_thread_count" "THREAD_DESIRABLE_IOCP_THREAD_COUNT" (-1)))).
Proof.
  intros get. unfold FromCfg.
  assert (forall s k v d full, full = lit s ++ "."%char :: lit k ->
      (s, k) ∈ (cfg_table ≫= fun '(s, ks) => pair s <$> ks) -> lacks "." (lit s) = true ->
      Config_Int env (mkConfig (mkTomlParseResult (doc_entries (cfg_doc file) []))) full d (Some (lit v)) =
      Some (get s k v d)) as Hget.
  { intros ????? ->. apply Int_setting. }
  cbv zeta.
  rewrite (Hget "server" "port" "SERVER_PORT"), (Hget "server" "max_clients" "SERVER_MAX_CLIENTS"),
    (Hget "server" "backlog" "SERVER_BACKLOG"), (Hget "server" "tick_ms" "SERVER_TICK_MS"),
    (Hget "room" "max_capacity" "ROOM_MAX_CAPACITY"),
    (Hget "thread" "max_worker_thread_multiplier" "THREAD_MAX_WORKER_THREAD_MULTIPLIER"),
    (Hget "thread" "max_acceptor_thread_count" "THREAD_MAX_ACCEPTOR_THREAD_COUNT"),
    (Hget "thread" "desirable_iocp_thread_count" "THREAD_DESIRABLE_IOCP_THREAD_COUNT");
    first [done | apply (bool_decide_unpack _); vm_compute; done].
Qed.
End Settings.

(** C24: Reading the configuration: from a file that holds any of the settings (the keys
    left out have none), indented and with either line ending, and an environment that
    overrides any of them, all with decimal numbers in the range of int,
    [NetworkCfg::FromFile] returns every setting with the priority
    environment, file, default; a file that cannot be opened is reported by an exception. *)
Theorem network_cfg_roundtrip (env : Environment) (fs : FileSystem) (path indent : sv) (crlf : bool)
    (file : string -> string -> option Z) (over : string -> option Z) :
  (forall v, env (lit v) = decimal <$> over v) ->
  (forall v, int_range (over v) = true) -> (forall s k, int_range (file s k) = true) ->
  Forall (fun c => IsWhitespace c = true) indent -> newline ∉ indent ->
  (fs path = Some (print_doc indent crlf (cfg_doc file)) ->
   let get s k v d := setting file over s k v d in
   FromFile env fs path = Some (inr (mkNetworkCfg
    (mkServerCfg (get "server" "port" "SERVER_PORT" 8080) (get "server" "max_clients" "SERVER_MAX_CLIENTS" 1000)
       (get "server" "backlog" "SERVER_BACKLOG" 10) (get "server" "tick_ms" "SERVER_TICK_MS" 16))
    (mkRoomCfg (get "room" "max_capacity" "ROOM_MAX_CAPACITY" 100))
    (mkThreadCfg (get "thread" "max_worker_thread_multiplier" "THREAD_MAX_WORKER_THREAD_MULTIPLIER" 2)
       (get "thread" "max_acceptor_thread_count" "THREAD_MAX_ACCEPTOR_THREAD_COUNT" 2)
       (get "thread" "desirable_iocp_thread_count" "THREAD_DESIRABLE_IOCP_THREAD_COUNT" (-1)))))) /\
  (fs path = None -> FromFile env fs path = Some (inl (lit "Failed to load config file: " ++ path))).
Proof.
  intros Henv Hover Hfile Hi Hn. unfold FromFile, Config_FromFile. split; intros ->; [|done].
  rewrite Parse_print_doc by auto using cfg_doc_ok. cbn [mbind option_bind].
  by rewrite (FromCfg_settings env file over).
Qed.

Lemma network_cfg_roundtrip_witness :
  let file s k := if decide (s = "server" /\ k = "port") then Some 9000 else None in
  let over v := if decide (v = "SERVER_BACKLOG") then Some 5 else None in
  let env n := if sv_eqb n (lit "SERVER_BACKLOG") then Some (lit "5") else None in
  let fs p := if sv_eqb p (lit "a.toml") then Some (print_doc [] false (cfg_doc file)) else None in
  FromFile env fs (lit "a.toml") = Some (inr (mkNetworkCfg (mkServerCfg 9000 1000 5 16) (mkRoomCfg 100) (mkThreadCfg 2 2 (-1)))) /\
  FromFile env fs (lit "b.toml") = Some (inl (lit "Failed to load config file: b.toml")).
Proof.
  intros file over env fs.
  assert (forall v, env (lit v) = decimal <$> over v) as Henv.
  { intros v. unfold env, over, sv_eqb. case_decide as Hv; [subst v; reflexivity|].
    rewrite bool_decide_eq_false_2; [done|]. by intros ?%lit_inj. }
  assert (forall v, int_range (over v) = true) as Hover by (intros v; unfold over; by case_decide).
  assert (forall s k, int_range (file s k) = true) as Hfile by (intros s k; unfold file; by case_decide).
  split.
  - apply (proj1 (network_cfg_roundtrip env fs (lit "a.toml") [] false file over Henv Hover Hfile
      ltac:(constructor) (not_elem_of_nil _))). reflexivity.
  - apply (proj2 (network_cfg_roundtrip env fs (lit "b.toml") [] false file over Henv Hover Hfile
      ltac:(constructor) (not_elem_of_nil _))). reflexivity.
Defined.
