(* ===== verification/SocketSetup.v ===== *)
(** * Socket setup: options, the listening socket, its helper

    [network/src/socket/{SocketOptionBuilder,WindowsAsyncSocket,AsyncSocket,SocketHelper}.cpp]. *)

From S2P Require Import Prelude Errors Platform NetworkCfg.
From coqutil Require Import Byte Datatypes.RecordSetters.
From stdpp Require Import base list strings option.
Import DoubleBraceUpdate.
Open Scope Z_scope.

(** Winsock option levels and names. *)
Definition SOL_SOCKET : Z := 0xffff.
Definition IPPROTO_IP : Z := 0.
Definition SO_REUSEADDR : Z := 0x4.
Definition SO_KEEPALIVE : Z := 0x8.
Definition SO_BROADCAST : Z := 0x20.
Definition SO_LINGER : Z := 0x80.
Definition SO_SNDBUF : Z := 0x1001.
Definition SO_RCVBUF : Z := 0x1002.
Definition SO_SNDTIMEO : Z := 0x1005.
Definition SO_RCVTIMEO : Z := 0x1006.
Definition SO_UPDATE_ACCEPT_CONTEXT : Z := 0x700B.
Definition TCP_NODELAY : Z := 1.
Definition IP_TTL : Z := 4.
Definition SIO_KEEPALIVE_VALS : Z := 0x98000004.

(** [struct linger] and [struct tcp_keepalive]. *)
Record linger := mkLinger { l_onoff : Z; l_linger : Z }.
Record tcp_keepalive := mkKeepAlive { onoff : Z; keepalivetime : Z; keepaliveinterval : Z }.

(** The object representation of a [linger]: two [u_short]. *)
Definition linger_value (l : linger) : Z := u16 (l_onoff l) + 2 ^ 16 * u16 (l_linger l).

Section Options.
Context {OS : Type} `{WinSock OS}.
Implicit Types (os : OS) (sh : Z).

(** One [setsockopt], with success as the result. *)
Definition set_option sh (level opt value : Z) os : OS * bool :=
  let '(os, r) := os_call (SysSetsockopt sh level opt value) os in
  (os, negb (ret r =? SocketError)).

Definition bool_value (enable : bool) : Z := if enable then 1 else 0.

(** @src network/src/socket/SocketOptionBuilder.cpp 15-24 SocketOptionBuilder::SetReuseAddr *)
Definition SetReuseAddr sh (enable : bool) os : OS * bool :=
  set_option sh SOL_SOCKET SO_REUSEADDR (bool_value enable) os.

(** @src network/src/socket/SocketOptionBuilder.cpp 26-34 SocketOptionBuilder::SetSendBufferSize *)
Definition SetSendBufferSize sh (size : Z) os : OS * bool := set_option sh SOL_SOCKET SO_SNDBUF size os.

(** @src network/src/socket/SocketOptionBuilder.cpp 36-44 SocketOptionBuilder::SetRecvBufferSize *)
Definition SetRecvBufferSize sh (size : Z) os : OS * bool := set_option sh SOL_SOCKET SO_RCVBUF size os.

(** @src network/src/socket/SocketOptionBuilder.cpp 46-55 SocketOptionBuilder::SetBroadcast *)
Definition SetBroadcast sh (enable : bool) os : OS * bool :=
  set_option sh SOL_SOCKET SO_BROADCAST (bool_value enable) os.

(** @src network/src/socket/SocketOptionBuilder.cpp 61-69 SocketOptionBuilder::SetUpdateAcceptContext *)
Definition SetUpdateAcceptContext (acceptedSock listenSock : Z) os : OS * bool :=
  set_option acceptedSock SOL_SOCKET SO_UPDATE_ACCEPT_CONTEXT listenSock os.

(** @src network/src/socket/SocketOptionBuilder.cpp 75-84 SocketOptionBuilder::SetTcpNoDelay *)
Definition SetTcpNoDelay sh (enable : bool) os : OS * bool :=
  set_option sh IPPROTO_TCP TCP_NODELAY (bool_value enable) os.

(** @src network/src/socket/SocketOptionBuilder.cpp 86-110 SocketOptionBuilder::SetKeepAlive *)
Definition SetKeepAlive sh (config : tcp_keepalive) os : OS * bool :=
  let '(os, ok) := set_option sh SOL_SOCKET SO_KEEPALIVE (bool_value (negb (onoff config =? 0))) os in
  if negb ok then (os, false)
  else if onoff config =? 0 then (os, true)
  else
    let '(os, r) := os_call (SysWSAIoctl sh SIO_KEEPALIVE_VALS
                       [onoff config; keepalivetime config; keepaliveinterval config]) os in
    (os, negb (ret r =? SocketError)).

(** @src network/src/socket/SocketOptionBuilder.cpp 112-120 SocketOptionBuilder::SetLinger *)
Definition SetLinger sh (l : linger) os : OS * bool :=
  set_option sh SOL_SOCKET SO_LINGER (linger_value l) os.

(** @src network/src/socket/SocketOptionBuilder.cpp 122-130 SocketOptionBuilder::SetSendTimeout *)
Definition SetSendTimeout sh (timeoutMs : Z) os : OS * bool := set_option sh SOL_SOCKET SO_SNDTIMEO timeoutMs os.

(** @src network/src/socket/SocketOptionBuilder.cpp 132-140 SocketOptionBuilder::SetRecvTimeout *)
Definition SetRecvTimeout sh (timeoutMs : Z) os : OS * bool := set_option sh SOL_SOCKET SO_RCVTIMEO timeoutMs os.

(** @src network/src/socket/SocketOptionBuilder.cpp 142-150 SocketOptionBuilder::SetTtl *)
Definition SetTtl sh (ttl : Z) os : OS * bool := set_option sh IPPROTO_IP IP_TTL ttl os.

(** @src network/src/socket/SocketOptionBuilder.cpp 156-175 SocketOptionBuilder::ApplyGameServerDefaults *)
Definition ApplyGameServerDefaults sh os : OS * bool :=
  let '(os, ok) := SetReuseAddr sh true os in
  if negb ok then (os, false)
  else
    let '(os, ok) := SetTcpNoDelay sh true os in
    if negb ok then (os, false)
    else
      let '(os, ok) := SetKeepAlive sh (mkKeepAlive 1 30000 5000) os in
      if negb ok then (os, false)
      else
        let '(os, ok) := SetLinger sh (mkLinger 1 5) os in
        if negb ok then (os, false) else (os, true).

(** ** The listening socket *)

(** @src network/inc/socket/WindowsAsyncSocket.h 12-46 WindowsAsyncSocket *)
Record WindowsAsyncSocket := mkAsyncSocket { _socketHandle : Z; _wsaStarted : bool }.

(** @src network/src/socket/AsyncSocket.cpp 5-8 AsyncSocket::AsyncSocket *)
Definition AsyncSocket_init : WindowsAsyncSocket := mkAsyncSocket InvalidSocket false.

Implicit Types (s : WindowsAsyncSocket).

(** @src network/src/socket/WindowsAsyncSocket.cpp 16-28 WindowsAsyncSocket::Initialize *)
Definition Socket_Initialize s os : WindowsAsyncSocket * OS * ResultVoid ENetworkError :=
  if _wsaStarted s then (s, os, OkVoid)
  else
    let '(os, res) := os_call SysWSAStartup os in
    if negb (ret res =? 0) then (s, os, Err WsaStartupFailed)
    else (s {{ _wsaStarted := true }}, os, OkVoid).

(** @src network/src/socket/WindowsAsyncSocket.cpp 30-44 WindowsAsyncSocket::CreateSocket *)
Definition CreateSocket (transport : ETransport) s os : WindowsAsyncSocket * OS * ResultVoid ENetworkError :=
  let '(socketType, protocol) := GetInfos transport in
  let '(os, r) := os_call (SysSocket socketType protocol) os in
  let s := s {{ _socketHandle := ret r }} in
  if _socketHandle s =? InvalidSocket then (s, os, LogErrorByWSAStartupResult (lastError r))
  else (s, os, OkVoid).

(** A port of 0 is not bound and not reported. *)
(** @src network/src/socket/WindowsAsyncSocket.cpp 46-63 WindowsAsyncSocket::Bind *)
Definition Bind (port : Z) s os : OS * ResultVoid ENetworkError :=
  if negb (IsValidPort port) then (os, OkVoid)
  else
    let '(os, r) := os_call (SysBind (_socketHandle s) port) os in
    if negb (ret r =? 0) then (os, Err SocketBindFailed) else (os, OkVoid).

(** @src network/src/socket/WindowsAsyncSocket.cpp 65-75 WindowsAsyncSocket::Listen *)
Definition Listen (backlog : Z) s os : OS * ResultVoid ENetworkError :=
  if _socketHandle s =? InvalidSocket then (os, Err SocketInvalid)
  else
    let '(os, r) := os_call (SysListen (_socketHandle s) backlog) os in
    if negb (ret r =? 0) then (os, Err SocketListenFailed) else (os, OkVoid).

(** @src network/src/socket/WindowsAsyncSocket.cpp 77-89 WindowsAsyncSocket::Cleanup *)
Definition Cleanup s os : WindowsAsyncSocket * OS * ResultVoid ENetworkError :=
  let '(s, os) :=
    if negb (_socketHandle s =? InvalidSocket) then
      let '(os, _) := os_call (SysClosesocket (_socketHandle s)) os in
      (s {{ _socketHandle := InvalidSocket }}, os)
    else (s, os) in
  if _wsaStarted s then
    let '(os, _) := os_call SysWSACleanup os in (s {{ _wsaStarted := false }}, os, OkVoid)
  else (s, os, OkVoid).

(** @src network/src/socket/WindowsAsyncSocket.cpp 12-14 WindowsAsyncSocket::~WindowsAsyncSocket *)
Definition Socket_destroy s os : OS := let '(_, os, _) := Cleanup s os in os.

(** A null pointer is returned on failure; the socket object dies with its last
    owner.  The port is cut to an [unsigned short]. *)
(** @src network/src/socket/SocketHelper.cpp 7-41 SocketHelper::MakeDefaultListener *)
Definition MakeDefaultListener (netTransport : ETransport) (netCfg : NetworkCfg) os
    : option WindowsAsyncSocket * OS :=
  let s := AsyncSocket_init in
  let '(s, os, initializeRes) := Socket_Initialize s os in
  if HasErr initializeRes then (None, Socket_destroy s os)
  else
    let '(s, os, createSocketRes) := CreateSocket netTransport s os in
    if HasErr createSocketRes then (None, Socket_destroy s os)
    else
      let sh := _socketHandle s in
      let '(os, _) := SetReuseAddr sh true os in
      let '(os, _) := SetSendBufferSize sh sendBufferSize os in
      let '(os, bindRes) := Bind (u16 (port (cfg_server netCfg))) s os in
      if HasErr bindRes then (None, Socket_destroy s os)
      else
        let '(os, listenRes) := Listen (backlog (cfg_server netCfg)) s os in
        if HasErr listenRes then (None, Socket_destroy s os)
        else (Some s, os).

(** ** Properties *)

Lemma Cleanup_idemp s os :
  let '(s1, os1, _) := Cleanup s os in Cleanup s1 os1 = (s1, os1, OkVoid).
Proof.
  unfold Cleanup. destruct s as [h started]; cbn.
  destruct (Z.eqb_spec h InvalidSocket); cbn.
  - destruct started; cbn; [destruct (os_call _ _)|]; cbn; subst; done.
  - destruct (os_call _ _) as [os1 ?]; cbn. destruct started; cbn; [destruct (os_call _ _)|]; done.
Qed.
End Options.
