(* ===== verification/CommandQueue.v ===== *)
(** * MPSCCommandQueue: the double-buffered queue between threads

    [lib/inc/concurrency/MPSCCommandQueue.hpp].  The sequential operations first;
    then the program the threads run, with the mutex explicit, as a step relation
    over all interleavings of any number of producers and the one consumer. *)

From S2P Require Import Prelude.
From stdpp Require Import base list option functions relations.
Open Scope Z_scope.

Section Queue.
Context {T : Type}.

(** The mutex is the lock of the concurrent model below. *)
(** @src lib/inc/concurrency/MPSCCommandQueue.hpp 15-42 MPSCCommandQueue *)
Record MPSCCommandQueue := mkQueue { _writeQueue : list T }.

Definition MPSCCommandQueue_init : MPSCCommandQueue := {| _writeQueue := [] |}.

(** @src lib/inc/concurrency/MPSCCommandQueue.hpp 18-21 MPSCCommandQueue::Push *)
Definition MPSCCommandQueue_Push (q : MPSCCommandQueue) (item : T) : MPSCCommandQueue :=
  {| _writeQueue := _writeQueue q ++ [item] |}.

(** [std::swap(_writeQueue, out)]. *)
(** @src lib/inc/concurrency/MPSCCommandQueue.hpp 31-31 MPSCCommandQueue::DrainTo *)
Definition MPSCCommandQueue_swap (q : MPSCCommandQueue) (out : list T)
    : MPSCCommandQueue * list T :=
  ({| _writeQueue := out |}, _writeQueue q).

(** [out] is cleared, then exchanged with the write queue; both new values are
    returned. *)
(** @src lib/inc/concurrency/MPSCCommandQueue.hpp 25-32 MPSCCommandQueue::DrainTo *)
Definition MPSCCommandQueue_DrainTo (q : MPSCCommandQueue) (out : list T)
    : MPSCCommandQueue * list T :=
  let out := [] in MPSCCommandQueue_swap q out.

(** @src lib/inc/concurrency/MPSCCommandQueue.hpp 34-37 MPSCCommandQueue::Empty *)
Definition MPSCCommandQueue_Empty (q : MPSCCommandQueue) : bool :=
  match _writeQueue q with [] => true | _ => false end.

Lemma DrainTo_Push q out x :
  MPSCCommandQueue_DrainTo (MPSCCommandQueue_Push q x) out =
  (MPSCCommandQueue_init, _writeQueue q ++ [x]).
Proof. done. Qed.
End Queue.

Arguments MPSCCommandQueue : clear implicits.

(** ** All interleavings

    A producer runs [Push] once per item of its program: lock, append, unlock.
    The consumer runs [DrainTo] for ever: clear [out], lock, swap, unlock, then
    reads the batch.  [pushed] and [consumed] are ghost histories: the items in
    the order of their appends, and the batches handed to the consumer. *)

Section Concurrent.
Context {T : Type}.

Inductive ppc := PIdle | PLocked (item : T) | PPushed.
Inductive cpc := CIdle | CCleared | CLocked | CSwapped.
Inductive owner := Producer (p : nat) | Consumer.

Record cstate := mkCState {
  mutex : option owner;
  queue : MPSCCommandQueue T;
  out : list T;
  todo : nat -> list T;
  prods : nat -> ppc;
  cons : cpc;
  pushed : list (nat * T);
  consumed : list T;
}.

Inductive cstep : cstate -> cstate -> Prop :=
  | step_p_lock s p x rest :
      prods s p = PIdle -> todo s p = x :: rest -> mutex s = None ->
      cstep s (mkCState (Some (Producer p)) (queue s) (out s)
                 (<[p := rest]> (todo s)) (<[p := PLocked x]> (prods s)) (cons s)
                 (pushed s) (consumed s))
  | step_p_push s p x :
      prods s p = PLocked x ->
      cstep s (mkCState (mutex s) (MPSCCommandQueue_Push (queue s) x) (out s)
                 (todo s) (<[p := PPushed]> (prods s)) (cons s)
                 (pushed s ++ [(p, x)]) (consumed s))
  | step_p_unlock s p :
      prods s p = PPushed ->
      cstep s (mkCState None (queue s) (out s) (todo s) (<[p := PIdle]> (prods s)) (cons s)
                 (pushed s) (consumed s))
  | step_c_clear s :
      cons s = CIdle ->
      cstep s (mkCState (mutex s) (queue s) [] (todo s) (prods s) CCleared
                 (pushed s) (consumed s))
  | step_c_lock s :
      cons s = CCleared -> mutex s = None ->
      cstep s (mkCState (Some Consumer) (queue s) (out s) (todo s) (prods s) CLocked
                 (pushed s) (consumed s))
  | step_c_swap s :
      cons s = CLocked ->
      cstep s (mkCState (mutex s) (MPSCCommandQueue_swap (queue s) (out s)).1
                 (MPSCCommandQueue_swap (queue s) (out s)).2
                 (todo s) (prods s) CSwapped
                 (pushed s) (consumed s ++ (MPSCCommandQueue_swap (queue s) (out s)).2))
  | step_c_unlock s :
      cons s = CSwapped ->
      cstep s (mkCState None (queue s) (out s) (todo s) (prods s) CIdle
                 (pushed s) (consumed s)).

Definition cinit (progs : nat -> list T) : cstate :=
  mkCState None MPSCCommandQueue_init [] progs (fun _ => PIdle) CIdle [] [].

(** The items producer [p] has appended, in order. *)
Definition pushed_by (p : nat) (h : list (nat * T)) : list T :=
  snd <$> filter (fun e => e.1 = p) h.

(** What producer [p] still has to append. *)
Definition pending (s : cstate) (p : nat) : list T :=
  match prods s p with PLocked x => x :: todo s p | _ => todo s p end.

Definition holds (s : cstate) : option owner -> Prop := fun o =>
  (forall p, o = Some (Producer p) <-> prods s p <> PIdle) /\
  (o = Some Consumer <-> (cons s = CLocked \/ cons s = CSwapped)).

Record cinv (progs : nat -> list T) (s : cstate) : Prop := {
  inv_mutex : holds s (mutex s);
  inv_clear : cons s = CCleared \/ cons s = CLocked -> out s = [];
  inv_flow : snd <$> pushed s = consumed s ++ _writeQueue (queue s);
  inv_order : forall p, pushed_by p (pushed s) ++ pending s p = progs p;
}.

Lemma cinit_inv progs : cinv progs (cinit progs).
Proof.
  split; simpl; [|naive_solver|done|done].
  split; simpl; [intros p; split; [done|by intros []]|split; [done|by intros [|]]].
Qed.

(** Only the owner of the mutex is inside a critical section. *)
Lemma inv_producer_owns progs s p :
  cinv progs s -> prods s p <> PIdle -> mutex s = Some (Producer p).
Proof. intros H. apply (inv_mutex _ _ H). Qed.

Lemma inv_consumer_owns progs s :
  cinv progs s -> (cons s = CLocked \/ cons s = CSwapped) -> mutex s = Some Consumer.
Proof. intros H. apply (inv_mutex _ _ H). Qed.

Lemma pushed_by_snoc p q x h :
  pushed_by p (h ++ [(q, x)]) = pushed_by p h ++ (if decide (q = p) then [x] else []).
Proof.
  unfold pushed_by. rewrite list.filter_app, fmap_app. f_equal.
  unfold filter; simpl. by case_decide.
Qed.

Lemma cstep_inv_mutex progs s s' : cinv progs s -> cstep s s' -> holds s' (mutex s').
Proof.
  intros Hinv Hst. pose proof (inv_mutex _ _ Hinv) as [Hp Hc].
  assert (forall p, prods s p <> PIdle -> mutex s = Some (Producer p)) as Hown by (intros; by apply Hp).
  destruct Hst as [s p x rest H1 H2 H3|s p x H1|s p H1|s H1|s H1 H2|s H1|s H1]; unfold holds; simpl.
  all: try (rewrite H1 in Hc).
  - rewrite H3 in *. split; [|naive_solver]. intros q. destruct (decide (p = q)) as [->|].
    + rewrite fn_lookup_insert. naive_solver.
    + rewrite fn_lookup_insert_ne by done. rewrite <-Hp. naive_solver.
  - split; [|done]. intros q. destruct (decide (p = q)) as [->|].
    + rewrite fn_lookup_insert, Hp, H1. naive_solver.
    + rewrite fn_lookup_insert_ne by done. apply Hp.
  - rewrite (Hown p) in * by congruence. split; [|naive_solver]. intros q.
    destruct (decide (p = q)) as [->|]; [rewrite fn_lookup_insert; naive_solver|].
    rewrite fn_lookup_insert_ne, <-Hp by done. naive_solver.
  - naive_solver.
  - rewrite H2 in *. split; [|naive_solver]. intros p. rewrite <-Hp. naive_solver.
  - naive_solver.
  - rewrite (proj2 Hc) in * by auto. split; [|naive_solver]. intros p. rewrite <-Hp. naive_solver.
Qed.

Lemma cstep_inv_order progs s s' p :
  cinv progs s -> cstep s s' -> pushed_by p (pushed s') ++ pending s' p = progs p.
Proof.
  intros Hinv Hst. rewrite <-(inv_order _ _ Hinv p).
  destruct Hst as [s q x rest H1 H2 H3|s q x H1|s q H1|s H1|s H1 H2|s H1|s H1];
    unfold pending; simpl; try done.
  all: destruct (decide (q = p)) as [->|];
    rewrite ?fn_lookup_insert, ?fn_lookup_insert_ne by done; rewrite ?H1, ?H2; try done.
  all: rewrite pushed_by_snoc; case_decide; try done; rewrite ?app_nil_r; try done.
  by rewrite <-app_assoc.
Qed.

Lemma cstep_inv progs s s' : cinv progs s -> cstep s s' -> cinv progs s'.
Proof.
  intros Hinv Hst. split; [by eapply cstep_inv_mutex| | |intros; by eapply cstep_inv_order];
    pose proof (inv_clear _ _ Hinv) as Hout; pose proof (inv_flow _ _ Hinv) as Hflow;
    destruct Hst; simpl in *; try done; try naive_solver.
  - rewrite fmap_app, Hflow. by rewrite <-app_assoc.
  - by rewrite Hflow, (Hout ltac:(auto)), app_nil_r.
Qed.

Lemma reachable_inv progs s : rtc cstep (cinit progs) s -> cinv progs s.
Proof.
  intros Hr. assert (forall s0, cinv progs s0 -> rtc cstep s0 s -> cinv progs s) as H.
  { intros s0 H0 Hs0. induction Hs0; [done|]. eauto using cstep_inv. }
  eauto using cinit_inv.
Qed.

(** C22: under every interleaving of producers and consumer, what the consumer
    has received followed by what is still queued is exactly the sequence of
    items appended, no item lost, duplicated or reordered, and every
    producer's items appear in the order of its program. *)
Theorem MPSC_fifo progs s :
  rtc cstep (cinit progs) s ->
  snd <$> pushed s = consumed s ++ _writeQueue (queue s) /\
  (forall p, pushed_by p (pushed s) ++ pending s p = progs p).
Proof.
  intros Hr%reachable_inv. split; [apply (inv_flow _ _ Hr)|apply (inv_order _ _ Hr)].
Qed.

(** The mutex excludes: in every reachable state at most one thread is
    between its lock and its unlock, and it owns the mutex. *)
Lemma MPSC_mutual_exclusion progs s :
  rtc cstep (cinit progs) s ->
  (forall p q, prods s p <> PIdle -> prods s q <> PIdle -> p = q) /\
  (forall p, prods s p <> PIdle -> cons s <> CLocked /\ cons s <> CSwapped).
Proof.
  intros Hr%reachable_inv. split.
  - intros p q Hp Hq. apply (inv_producer_owns _ _ _ Hr) in Hp, Hq. congruence.
  - intros p Hp%(inv_producer_owns _ _ _ Hr). split; intros Hc;
      rewrite (inv_consumer_owns _ _ Hr) in Hp by auto; done.
Qed.
End Concurrent.

(** A run of two producers and the consumer in which a push happens between
    two drains. *)
Definition mpsc_progs (p : nat) : list Z :=
  match p with 0%nat => [1; 2] | 1%nat => [10] | _ => [] end.

Definition mpsc_reached (s : cstate (T:=Z)) : Prop :=
  consumed s = [1] /\ _writeQueue (queue s) = [10] /\ prods s 1%nat = PPushed.

Tactic Notation "mpsc_step" uconstr(H) :=
  eapply rtc_l; [apply H; vm_compute; reflexivity|];
  cbn [mutex queue out todo prods cons pushed consumed app MPSCCommandQueue_Push
       MPSCCommandQueue_swap _writeQueue fst snd MPSCCommandQueue_init].

Lemma mpsc_run : exists s, rtc cstep (cinit mpsc_progs) s /\ mpsc_reached s.
Proof.
  eexists. split.
  - mpsc_step (step_p_lock _ 0%nat 1 [2]).
    mpsc_step (step_p_push _ 0%nat 1).
    mpsc_step (step_p_unlock _ 0%nat).
    mpsc_step step_c_clear.
    mpsc_step step_c_lock.
    mpsc_step step_c_swap.
    mpsc_step step_c_unlock.
    mpsc_step (step_p_lock _ 1%nat 10 []).
    mpsc_step (step_p_push _ 1%nat 10).
    apply rtc_refl.
  - split_and!; vm_compute; reflexivity.
Qed.

Lemma MPSC_fifo_witness :
  exists s, rtc cstep (cinit mpsc_progs) s /\ mpsc_reached s /\
    snd <$> pushed s = consumed s ++ _writeQueue (queue s) /\
    (forall p, pushed_by p (pushed s) ++ pending s p = mpsc_progs p).
Proof.
  destruct mpsc_run as (s & Hr & Hs). exists s. split; [exact Hr|]. split; [exact Hs|].
  exact (MPSC_fifo mpsc_progs s Hr).
Defined.

Lemma MPSC_mutual_exclusion_witness :
  exists s, rtc cstep (cinit mpsc_progs) s /\ prods s 1%nat <> PIdle /\
    (forall p q, prods s p <> PIdle -> prods s q <> PIdle -> p = q) /\
    (forall p, prods s p <> PIdle -> cons s <> CLocked /\ cons s <> CSwapped).
Proof.
  destruct mpsc_run as (s & Hr & Hs). exists s. split; [exact Hr|].
  split; [destruct Hs as (_ & _ & Hp); rewrite Hp; discriminate|].
  exact (MPSC_mutual_exclusion mpsc_progs s Hr).
Defined.
