(* ===== verification/Scope.v ===== *)
(** * Scope guards: Defer, DeferContext, DeferredItemHolder

    [lib/inc/scope/*.hpp], [lib/src/scope/Defer.cpp].

    A deferred function acts on a state [S]; a guard is the functions registered
    with it, and destroying the guard runs them.  Items are addresses. *)

From S2P Require Import Prelude.
From coqutil Require Import Datatypes.RecordSetters.
From stdpp Require Import base gmap list option.
Import DoubleBraceUpdate.
Open Scope Z_scope.

Section Defer.
Context {S : Type}.

(** @src lib/inc/scope/Defer.h 8-28 Defer *)
Record Defer := mkDefer { defer_fns : list (S -> S) }.

(** @src lib/src/scope/Defer.cpp 7-11 Defer::Defer *)
Definition Defer_make (deferFn : S -> S) : Defer := mkDefer [deferFn].

(** @src lib/src/scope/Defer.cpp 23-25 Defer::Add *)
Definition Defer_Add (deferFn : S -> S) (d : Defer) : Defer := mkDefer (defer_fns d ++ [deferFn]).

(** The functions run in the reverse order of registration. *)
(** @src lib/src/scope/Defer.cpp 13-21 Defer::~Defer *)
Definition Defer_destroy (d : Defer) (s : S) : S := foldl (fun s f => f s) s (rev (defer_fns d)).

Lemma Defer_destroy_Add f d s : Defer_destroy (Defer_Add f d) s = Defer_destroy d (f s).
Proof. unfold Defer_destroy. cbn. by rewrite rev_app_distr. Qed.
End Defer.

Arguments Defer : clear implicits.

Section DeferContext.
Context {S : Type}.

(** [_item] is an address, [None] after a move. *)
(** @src lib/inc/scope/DeferContext.hpp 65-67 DeferContext *)
Record DeferContext := mkDeferContext {
  _item : option nat; _deferFns : list (option nat -> S -> S); _needReturn : bool }.

(** @src lib/inc/scope/DeferContext.hpp 15-19 DeferContext::DeferContext *)
Definition DeferContext_make (item : option nat) (deferFn : option nat -> S -> S) : DeferContext :=
  mkDeferContext item [deferFn] true.

(** @src lib/inc/scope/DeferContext.hpp 21-31 DeferContext::~DeferContext *)
Definition DeferContext_destroy (c : DeferContext) (s : S) : S :=
  if negb (_needReturn c) then s
  else foldl (fun s f => f (_item c) s) s (rev (_deferFns c)).

(** The new value of the target, and the source as the move leaves it.  The old
    value of the target is overwritten: its functions never run. *)
(** @src lib/inc/scope/DeferContext.hpp 46-56 DeferContext::MoveFrom *)
Definition MoveFrom (target from : DeferContext) : DeferContext * DeferContext :=
  (mkDeferContext (_item from) (_deferFns from) (_needReturn from),
   mkDeferContext None [] false).

(** @src lib/inc/scope/DeferContext.hpp 38-40 DeferContext::DeferContext *)
Definition DeferContext_move (from : DeferContext) : DeferContext * DeferContext :=
  MoveFrom (mkDeferContext None [] true) from.

(** @src lib/inc/scope/DeferContext.hpp 42-44 DeferContext::operator= *)
Definition DeferContext_assign (target from : DeferContext) : DeferContext * DeferContext :=
  MoveFrom target from.

(** @src lib/inc/scope/DeferContext.hpp 58-60 DeferContext::Defer *)
Definition DeferContext_Defer (deferFn : option nat -> S -> S) (c : DeferContext) : DeferContext :=
  c {{ _deferFns ::= fun fs => fs ++ [deferFn] }}.

(** @src lib/inc/scope/DeferContext.hpp 62-62 DeferContext::Get *)
Definition DeferContext_Get (c : DeferContext) : option nat := _item c.

(** ** DeferredItemHolder *)

(** @src lib/inc/scope/DeferredItemHolder.hpp 43-44 DeferredItemHolder *)
Record DeferredItemHolder := mkHolder { _items : gmap nat DeferContext }.

Definition DeferredItemHolder_init : DeferredItemHolder := mkHolder ∅.

(** [emplace] keeps the entry that is already there; the guard that was not moved
    is then destroyed by the caller's scope. *)
(** @src lib/inc/scope/DeferredItemHolder.hpp 11-15 DeferredItemHolder::Hold *)
Definition Hold (ctx : DeferContext) (h : DeferredItemHolder) : ub (DeferredItemHolder * DeferContext) :=
  key ← DeferContext_Get ctx;
  match _items h !! key with
  | Some _ => Some (h, ctx)
  | None => let '(c, from) := DeferContext_move ctx in Some (mkHolder (<[key := c]> (_items h)), from)
  end.

(** @src lib/inc/scope/DeferredItemHolder.hpp 17-27 DeferredItemHolder::Release *)
Definition Holder_Release (key : nat) (h : DeferredItemHolder) : DeferredItemHolder * option DeferContext :=
  match _items h !! key with
  | None => (h, None)
  | Some c => (mkHolder (delete key (_items h)), Some (DeferContext_move c).1)
  end.

(** The erased guard is destroyed. *)
(** @src lib/inc/scope/DeferredItemHolder.hpp 29-32 DeferredItemHolder::Erase *)
Definition Holder_Erase (key : nat) (h : DeferredItemHolder) (s : S) : DeferredItemHolder * S :=
  match _items h !! key with
  | None => (h, s)
  | Some c => (mkHolder (delete key (_items h)), DeferContext_destroy c s)
  end.

(** The keys, in the order in which the hash map is traversed. *)
Definition Holder_keys `{UMapOrder} (h : DeferredItemHolder) : list nat :=
  Z.to_nat ∘ fst <$> umap_order (kmap Z.of_nat (_items h) : gmap Z DeferContext).

(** @src lib/inc/scope/DeferredItemHolder.hpp 34-40 DeferredItemHolder::ForEach *)
Definition Holder_ForEach `{UMapOrder} {X} (fn : nat -> X -> X) (h : DeferredItemHolder) (s : X) : X :=
  foldl (fun s key => fn key s) s (Holder_keys h).

(** ** Lemmas *)

Lemma destroy_moved_from c s : DeferContext_destroy (DeferContext_move c).2 s = s.
Proof. done. Qed.

Lemma destroy_moved c s : DeferContext_destroy (DeferContext_move c).1 s = DeferContext_destroy c s.
Proof. done. Qed.

(** What is held comes back unchanged, and releasing twice yields nothing. *)
Lemma Hold_Release c h key h1 c1 :
  DeferContext_Get c = Some key -> _items h !! key = None -> Hold c h = Some (h1, c1) ->
  exists c', Holder_Release key h1 = (h, Some c') /\ c' = c /\ Holder_Release key h = (h, None).
Proof.
  intros Hk Hfree. unfold Hold. rewrite Hk. cbn [mbind option_bind]. rewrite Hfree.
  intros [= <- <-]. unfold Holder_Release. cbn [_items]. rewrite lookup_insert_eq, Hfree.
  eexists. split_and!; [|by destruct c|done].
  rewrite delete_insert_id by done. by destruct h, c.
Qed.
End DeferContext.

Arguments DeferContext : clear implicits.
Arguments DeferredItemHolder : clear implicits.
