(* ===== verification/Pools.v ===== *)
(** * Object pools

    [lib/inc/memory/{HybridObjectPool,LockObjectPool,ThreadLocalPool}.hpp].
    Objects are addresses, numbered in the order of their allocation; the vectors
    are used as stacks. *)

From S2P Require Import Prelude.
From coqutil Require Import Datatypes.RecordSetters.
From stdpp Require Import base gmap list option.
Import DoubleBraceUpdate.
Open Scope Z_scope.

(** [back()] and [pop_back()] of a vector that is not empty. *)
Definition pop_back {A} (l : list A) : option (list A * A) :=
  match rev l with [] => None | x :: r => Some (rev r, x) end.

Lemma pop_back_Some {A} (l : list A) l' x : pop_back l = Some (l', x) <-> l = l' ++ [x].
Proof.
  unfold pop_back. split.
  - destruct (rev l) as [|y r] eqn:Hr; intros [= <- <-].
    apply (f_equal (@rev A)) in Hr. by rewrite rev_involutive in Hr.
  - intros ->. rewrite rev_app_distr. cbn. by rewrite rev_involutive.
Qed.

Lemma pop_back_None {A} (l : list A) : pop_back l = None <-> l = [].
Proof.
  unfold pop_back. split; [|by intros ->]. destruct (rev l) eqn:Hr; [|done]. intros _.
  apply (f_equal (@rev A)) in Hr. by rewrite rev_involutive in Hr.
Qed.

(** ** HybridObjectPool *)

(** @src lib/inc/memory/HybridObjectPool.hpp 11-11 HybridObjectPoolConfig::LocalMaxCapacity *)
Definition LocalMaxCapacity : Z := 50 * 2.

(** @src lib/inc/memory/HybridObjectPool.hpp 12-12 HybridObjectPoolConfig::ChunkSize *)
Definition ChunkSize : Z := 50.

(** The shared vector, the vector of each thread, and the number of objects made. *)
(** @src lib/inc/memory/HybridObjectPool.hpp 20-47 HybridObjectPool *)
Record HybridObjectPool := mkHybridPool {
  _globalPool : list nat; locals : gmap nat (list nat); allocated : nat }.

Definition HybridObjectPool_init : HybridObjectPool := mkHybridPool [] ∅ 0.

(** @src lib/inc/memory/HybridObjectPool.hpp 44-47 HybridObjectPool::GetLocalStorage *)
Definition GetLocalStorage (hp : HybridObjectPool) (thread : nat) : list nat :=
  default [] (locals hp !! thread).

Definition set_local (thread : nat) (pool : list nat) (hp : HybridObjectPool) : HybridObjectPool :=
  mkHybridPool (_globalPool hp) (<[thread := pool]> (locals hp)) (allocated hp).

(** The chunk taken from the shared pool under the lock. *)
(** @src lib/inc/memory/HybridObjectPool.hpp 68-78 HybridObjectPool::Get *)
Definition fetch_chunk (global local : list nat) : list nat * list nat :=
  let size := i32 (zlen global) in
  if size >? 0 then
    let fetchCount := Z.min size ChunkSize in
    let from := Z.to_nat (zlen global - fetchCount) in
    (take from global, local ++ drop from global)
  else (global, local).

(** @src lib/inc/memory/HybridObjectPool.hpp 53-96 HybridObjectPool::Get *)
Definition HybridPool_Get (thread : nat) (hp : HybridObjectPool) : HybridObjectPool * nat :=
  let local := GetLocalStorage hp thread in
  match pop_back local with
  | Some (local, item) => (set_local thread local hp, item)
  | None =>
      let '(global, local) := fetch_chunk (_globalPool hp) local in
      match pop_back local with
      | None => (mkHybridPool global (<[thread := local]> (locals hp)) (S (allocated hp)), allocated hp)
      | Some (local, item) => (mkHybridPool global (<[thread := local]> (locals hp)) (allocated hp), item)
      end
  end.

(** @src lib/inc/memory/HybridObjectPool.hpp 98-114 HybridObjectPool::Return *)
Definition HybridPool_Return (thread : nat) (item : option nat) (hp : HybridObjectPool) : HybridObjectPool :=
  match item with
  | None => hp
  | Some item =>
      let local := GetLocalStorage hp thread ++ [item] in
      if zlen local >=? LocalMaxCapacity then
        let from := Z.to_nat (zlen local - ChunkSize) in
        mkHybridPool (_globalPool hp ++ drop from local) (<[thread := take from local]> (locals hp))
          (allocated hp)
      else set_local thread local hp
  end.

(** A thread ends: its storage is destroyed. *)
(** @src lib/inc/memory/HybridObjectPool.hpp 30-41 HybridObjectPool::LocalStorage::~LocalStorage *)
Definition LocalStorage_destroy (thread : nat) (hp : HybridObjectPool) : HybridObjectPool :=
  mkHybridPool (_globalPool hp ++ GetLocalStorage hp thread) (delete thread (locals hp)) (allocated hp).

(** *** Where the objects are *)

Definition locals_all (m : gmap nat (list nat)) : list nat := concat (snd <$> map_to_list m).

Lemma locals_all_split m t : locals_all m ≡ₚ default [] (m !! t) ++ locals_all (delete t m).
Proof.
  unfold locals_all. destruct (m !! t) as [l|] eqn:Hl; cbn.
  - by rewrite <-(map_to_list_delete m t l) by done.
  - by rewrite delete_id.
Qed.

Lemma locals_all_insert m t l : locals_all (<[t := l]> m) ≡ₚ l ++ locals_all (delete t m).
Proof.
  rewrite (locals_all_split (<[t := l]> m) t), lookup_insert_eq. cbn. by rewrite delete_insert_eq.
Qed.

(** Every object made is in exactly one place: the shared pool, one thread's pool,
    or lent out; and no thread's pool reaches the limit. *)
Definition pool_inv (hp : HybridObjectPool) (lent : list nat) : Prop :=
  _globalPool hp ++ locals_all (locals hp) ++ lent ≡ₚ seq 0 (allocated hp) /\
  map_Forall (fun _ l => zlen l < LocalMaxCapacity) (locals hp).

Lemma pool_inv_NoDup hp lent : pool_inv hp lent -> NoDup lent.
Proof.
  intros [Hp _]. assert (NoDup (_globalPool hp ++ locals_all (locals hp) ++ lent)) as Hnd.
  { rewrite Hp. apply NoDup_seq. }
  rewrite app_assoc in Hnd. by apply NoDup_app_tail in Hnd.
Qed.

Lemma fetch_chunk_spec global local g l :
  fetch_chunk global local = (g, l) ->
  g ++ l ≡ₚ global ++ local /\ zlen l <= zlen local + ChunkSize.
Proof.
  unfold fetch_chunk. assert (ChunkSize = 50) as Hc by done.
  destruct (Z.gtb_spec (i32 (zlen global)) 0); intros [= <- <-]; [|split; [done|lia]].
  assert (i32 (zlen global) <= zlen global) as Hle.
  { unfold swrap, wrap. pose proof (zlen_nonneg global).
    pose proof (Z.mod_le (zlen global + 2 ^ (32 - 1)) (2 ^ 32) ltac:(lia) ltac:(lia)). lia. }
  set (k := Z.to_nat _). split.
  - rewrite (Permutation_app_comm local), app_assoc, take_drop. done.
  - rewrite zlen_app. unfold zlen in *. rewrite length_drop. subst k. lia.
Qed.

Lemma Get_inv t hp lent :
  pool_inv hp lent -> pool_inv (HybridPool_Get t hp).1 ((HybridPool_Get t hp).2 :: lent).
Proof.
  intros [Hp Hcap]. pose proof (locals_all_split (locals hp) t) as Hsplit.
  assert (zlen (GetLocalStorage hp t) < LocalMaxCapacity) as Hlt.
  { unfold GetLocalStorage. destruct (locals hp !! t) as [l|] eqn:Hl; cbn; [by apply (Hcap t)|done]. }
  fold (GetLocalStorage hp t) in Hsplit. assert (LocalMaxCapacity = 100 /\ ChunkSize = 50) as [HL HC] by done.
  unfold HybridPool_Get. destruct (pop_back (GetLocalStorage hp t)) as [[l x]|] eqn:Hpop.
  - apply pop_back_Some in Hpop. rewrite Hpop in Hsplit, Hlt. rewrite zlen_app, zlen_cons, zlen_nil in Hlt.
    split; cbn [fst snd set_local _globalPool locals allocated].
    + rewrite locals_all_insert, <-Hp, Hsplit. solve_Permutation.
    + apply map_Forall_insert_2; [lia|done].
  - apply pop_back_None in Hpop. rewrite Hpop in *.
    destruct (fetch_chunk (_globalPool hp) []) as [g l] eqn:Hf.
    destruct (fetch_chunk_spec _ _ _ _ Hf) as [Hgl Hlen]. rewrite app_nil_r in Hgl. rewrite zlen_nil in Hlen.
    destruct (pop_back l) as [[l' x]|] eqn:Hpop'.
    + apply pop_back_Some in Hpop'. subst l. rewrite zlen_app, zlen_cons, zlen_nil in Hlen.
      split; cbn [fst snd _globalPool locals allocated].
      * rewrite locals_all_insert, <-Hp, Hsplit, <-Hgl. solve_Permutation.
      * apply map_Forall_insert_2; [lia|done].
    + apply pop_back_None in Hpop'. subst l. rewrite app_nil_r in Hgl.
      split; cbn [fst snd _globalPool locals allocated].
      * rewrite seq_S, <-Hp, locals_all_insert, Hsplit, Hgl. cbn. solve_Permutation.
      * apply map_Forall_insert_2; [done|done].
Qed.

Lemma Return_inv t x hp lent :
  pool_inv hp (x :: lent) -> pool_inv (HybridPool_Return t (Some x) hp) lent.
Proof.
  intros [Hp Hcap]. pose proof (locals_all_split (locals hp) t) as Hsplit.
  fold (GetLocalStorage hp t) in Hsplit. assert (LocalMaxCapacity = 100 /\ ChunkSize = 50) as [HL HC] by done.
  assert (zlen (GetLocalStorage hp t) < LocalMaxCapacity) as Hlt.
  { unfold GetLocalStorage. destruct (locals hp !! t) as [l|] eqn:Hl; cbn; [by apply (Hcap t)|done]. }
  unfold HybridPool_Return. set (local := GetLocalStorage hp t ++ [x]).
  assert (zlen local = zlen (GetLocalStorage hp t) + 1) as Hlen
    by (unfold local; rewrite zlen_app, zlen_cons, zlen_nil; lia).
  destruct (Z.geb_spec (zlen local) LocalMaxCapacity); split;
    cbn [_globalPool locals allocated set_local].
  - set (k := Z.to_nat _). rewrite locals_all_insert, <-Hp, Hsplit.
    trans (_globalPool hp ++ (take k local ++ drop k local) ++ locals_all (delete t (locals hp)) ++ lent);
      [solve_Permutation|]. rewrite take_drop. unfold local. solve_Permutation.
  - apply map_Forall_insert_2; [|done]. unfold zlen in *. rewrite length_take. lia.
  - rewrite locals_all_insert, <-Hp, Hsplit. unfold local. solve_Permutation.
  - apply map_Forall_insert_2; [lia|done].
Qed.

Lemma destroy_inv t hp lent : pool_inv hp lent -> pool_inv (LocalStorage_destroy t hp) lent.
Proof.
  intros [Hp Hcap]. split; cbn.
  - rewrite <-Hp, (locals_all_split (locals hp) t). fold (GetLocalStorage hp t). solve_Permutation.
  - by apply map_Forall_delete.
Qed.

(** *** Runs

    Threads take objects, return any object that is lent out, and end. *)
Inductive PoolOp := PGet (thread : nat) | PReturn (thread index : nat) | PExit (thread : nat).

Definition pool_step (s : HybridObjectPool * list nat) (op : PoolOp) : HybridObjectPool * list nat :=
  let '(hp, lent) := s in
  match op with
  | PGet t => let '(hp, x) := HybridPool_Get t hp in (hp, x :: lent)
  | PReturn t k =>
      match lent !! k with
      | Some x => (HybridPool_Return t (Some x) hp, erase_at k lent)
      | None => s
      end
  | PExit t => (LocalStorage_destroy t hp, lent)
  end.

Definition pool_run (ops : list PoolOp) : HybridObjectPool * list nat :=
  foldl pool_step (HybridObjectPool_init, []) ops.

#[export] Instance pool_inv_proper hp : Proper ((≡ₚ) ==> iff) (pool_inv hp).
Proof. intros lent lent' Hl. unfold pool_inv. by rewrite Hl. Qed.

Lemma pool_step_inv s op : pool_inv s.1 s.2 -> pool_inv (pool_step s op).1 (pool_step s op).2.
Proof.
  destruct s as [hp lent]. cbn. intros Hinv. destruct op as [t|t k|t]; cbn.
  - pose proof (Get_inv t hp lent Hinv) as Hg. by destruct (HybridPool_Get t hp).
  - destruct (lent !! k) as [x|] eqn:Hk; [|done]. cbn. apply Return_inv.
    by rewrite <-(erase_at_perm k lent x Hk).
  - by apply destroy_inv.
Qed.

(** C23: the hybrid pool never lends an object twice and never loses one.  Whatever
    sequence of [Get], [Return] (by any thread) and thread exits runs, the objects
    lent out are distinct, every object ever made is lent or in exactly one pool,
    and every thread's pool stays below its limit. *)
Theorem hybrid_pool_exclusive ops :
  let '(hp, lent) := pool_run ops in
  NoDup lent /\
  _globalPool hp ++ locals_all (locals hp) ++ lent ≡ₚ seq 0 (allocated hp) /\
  map_Forall (fun _ l => zlen l < LocalMaxCapacity) (locals hp).
Proof.
  assert (pool_inv (pool_run ops).1 (pool_run ops).2) as Hinv.
  { unfold pool_run. induction ops as [|op ops IH] using rev_ind; [by split|].
    rewrite foldl_snoc. by apply pool_step_inv. }
  destruct (pool_run ops) as [hp lent]. split; [by eapply pool_inv_NoDup|exact Hinv].
Qed.

(** ** ObjectPool *)

(** [_all] owns the objects; [next] numbers the allocations. *)
(** @src lib/inc/memory/LockObjectPool.hpp 98-106 ObjectPool *)
Record ObjectPool := mkObjectPool { _all : list nat; _available : list nat; op_next : nat }.

(** @src lib/inc/memory/LockObjectPool.hpp 40-47 ObjectPool::PreAllocate *)
Fixpoint PreAllocate (count : nat) (p : ObjectPool) : ObjectPool :=
  match count with
  | O => p
  | S count =>
      PreAllocate count
        (mkObjectPool (_all p ++ [op_next p]) (_available p ++ [op_next p]) (S (op_next p)))
  end.

(** @src lib/inc/memory/LockObjectPool.hpp 25-27 ObjectPool::ObjectPool *)
Definition ObjectPool_make (preAllocCount : nat) : ObjectPool := PreAllocate preAllocCount (mkObjectPool [] [] 0).

(** @src lib/inc/memory/LockObjectPool.hpp 54-65 ObjectPool::Acquire *)
Definition Acquire (p : ObjectPool) : ObjectPool * nat :=
  match pop_back (_available p) with
  | None => (mkObjectPool (_all p ++ [op_next p]) (_available p) (S (op_next p)), op_next p)
  | Some (available, obj) => (mkObjectPool (_all p) available (op_next p), obj)
  end.

(** @src lib/inc/memory/LockObjectPool.hpp 71-75 ObjectPool::Release *)
Definition Pool_Release (obj : option nat) (p : ObjectPool) : ObjectPool :=
  match obj with
  | None => p
  | Some obj => mkObjectPool (_all p) (_available p ++ [obj]) (op_next p)
  end.

(** @src lib/inc/memory/LockObjectPool.hpp 80-84 ObjectPool::Clear *)
Definition Pool_Clear (p : ObjectPool) : ObjectPool := mkObjectPool [] [] (op_next p).

(** @src lib/inc/memory/LockObjectPool.hpp 87-90 ObjectPool::AvailableCount *)
Definition AvailableCount (p : ObjectPool) : Z := zlen (_available p).

(** @src lib/inc/memory/LockObjectPool.hpp 93-96 ObjectPool::TotalCount *)
Definition TotalCount (p : ObjectPool) : Z := zlen (_all p).

(** Between two [Clear]s the objects owned are the available ones and those lent,
    each once. *)
Definition objects_inv (p : ObjectPool) (lent : list nat) : Prop :=
  NoDup (_all p) /\ _all p ≡ₚ _available p ++ lent /\ Forall (fun x => x < op_next p)%nat (_all p).

Lemma objects_inv_alloc p lent available lent' :
  objects_inv p lent -> op_next p :: _available p ++ lent ≡ₚ available ++ lent' ->
  objects_inv (mkObjectPool (_all p ++ [op_next p]) available (S (op_next p))) lent'.
Proof.
  intros (Hnd & Hp & Hlt) Hperm. split_and!; cbn.
  - apply NoDup_snoc; [done|]. intros Hin. pose proof (Forall_elem _ _ _ Hlt Hin). cbn in *. lia.
  - rewrite Hp, <-Hperm. solve_Permutation.
  - apply Forall_app. split; [|by repeat constructor]. eapply Forall_weaken; [exact Hlt|]. cbn. lia.
Qed.

Lemma PreAllocate_inv count p lent : objects_inv p lent -> objects_inv (PreAllocate count p) lent.
Proof.
  revert p. induction count as [|count IH]; intros p Hinv; [done|]. cbn. apply IH.
  eapply objects_inv_alloc; [exact Hinv|]. solve_Permutation.
Qed.

Lemma Acquire_inv p lent : objects_inv p lent -> objects_inv (Acquire p).1 ((Acquire p).2 :: lent).
Proof.
  intros Hinv. unfold Acquire. destruct (pop_back (_available p)) as [[l x]|] eqn:Hpop; cbn.
  - apply pop_back_Some in Hpop. destruct Hinv as (Hnd & Hp & Hlt). split_and!; cbn; try done.
    rewrite Hp, Hpop. solve_Permutation.
  - eapply objects_inv_alloc; [exact Hinv|]. solve_Permutation.
Qed.

Lemma Release_inv p x lent : objects_inv p (x :: lent) -> objects_inv (Pool_Release (Some x) p) lent.
Proof.
  intros (Hnd & Hp & Hlt). split_and!; cbn; try done. rewrite Hp. solve_Permutation.
Qed.

(** *** ThreadLocalPool: the same stacks, one pair per thread *)

(** @src lib/inc/memory/ThreadLocalPool.hpp 13-16 ThreadLocalPool::LocalStorage *)
Record LocalStorage := mkLocalStorage { tl_all : list nat; tl_available : list nat }.

(** @src lib/inc/memory/ThreadLocalPool.hpp 12-23 ThreadLocalPool *)
Record ThreadLocalPool := mkThreadLocalPool { tl_storage : gmap nat LocalStorage; tl_next : nat }.

(** @src lib/inc/memory/ThreadLocalPool.hpp 18-23 ThreadLocalPool::GetLocalStorage *)
Definition TL_GetLocalStorage (p : ThreadLocalPool) (thread : nat) : LocalStorage :=
  default (mkLocalStorage [] []) (tl_storage p !! thread).

(** @src lib/inc/memory/ThreadLocalPool.hpp 26-40 ThreadLocalPool::Acquire *)
Definition TL_Acquire (thread : nat) (p : ThreadLocalPool) : ThreadLocalPool * nat :=
  let local := TL_GetLocalStorage p thread in
  match pop_back (tl_available local) with
  | None =>
      (mkThreadLocalPool
         (<[thread := mkLocalStorage (tl_all local ++ [tl_next p]) (tl_available local)]> (tl_storage p))
         (S (tl_next p)), tl_next p)
  | Some (available, item) =>
      (mkThreadLocalPool (<[thread := mkLocalStorage (tl_all local) available]> (tl_storage p)) (tl_next p), item)
  end.

(** @src lib/inc/memory/ThreadLocalPool.hpp 42-50 ThreadLocalPool::Release *)
Definition TL_Release (thread : nat) (item : option nat) (p : ThreadLocalPool) : ThreadLocalPool :=
  match item with
  | None => p
  | Some item =>
      let local := TL_GetLocalStorage p thread in
      mkThreadLocalPool
        (<[thread := mkLocalStorage (tl_all local) (tl_available local ++ [item])]> (tl_storage p)) (tl_next p)
  end.

(** @src lib/inc/memory/ThreadLocalPool.hpp 52-56 ThreadLocalPool::Clear *)
Definition TL_Clear (thread : nat) (p : ThreadLocalPool) : ThreadLocalPool :=
  mkThreadLocalPool (<[thread := mkLocalStorage [] []]> (tl_storage p)) (tl_next p).

(** @src lib/inc/memory/ThreadLocalPool.hpp 59-62 ThreadLocalPool::GetAvailableCount *)
Definition TL_GetAvailableCount (thread : nat) (p : ThreadLocalPool) : Z :=
  zlen (tl_available (TL_GetLocalStorage p thread)).

(** @src lib/inc/memory/ThreadLocalPool.hpp 64-67 ThreadLocalPool::GetTotalCount *)
Definition TL_GetTotalCount (thread : nat) (p : ThreadLocalPool) : Z :=
  zlen (tl_all (TL_GetLocalStorage p thread)).
