(* ===== verification/Protocol.v ===== *)
(** * The chat protocol: schema types and packet factories

    [protocol/flatbuf/schemas/*.fbs] and [protocol/PacketFactory.h].

    The FlatBuffers runtime and the code [flatc] generates are not part of the
    repository: serialisation, verification and root access are the operations of
    the class [FlatBuffers].  A finished [FlatBufferBuilder] is the packet it
    holds.  Union tags and message types stay integers, because a received buffer
    may carry any value there. *)

From S2P Require Import Prelude Errors Platform.
From stdpp Require Import base gmap list strings option.
From coqutil Require Import Byte Word.LittleEndianList.
Open Scope Z_scope.

(** ** Enumerations *)

(** The [MessageType] values ([ushort]). *)
(** @src protocol/flatbuf/schemas/enum.fbs 3-22 MessageType *)
Inductive MessageTypeName :=
  | MT_None | CS_JoinRoom | CS_LeaveRoom | CS_SendMessage
  | SC_JoinedRoom | SC_LeftRoom
  | B_UserJoined | B_UserLeft | B_ChatMessage | SC_Error.

(** @src protocol/flatbuf/schemas/enum.fbs 4-21 MessageType *)
Definition MessageType (t : MessageTypeName) : Z :=
  match t with
  | MT_None => 0 | CS_JoinRoom => 1 | CS_LeaveRoom => 2 | CS_SendMessage => 3
  | SC_JoinedRoom => 100 | SC_LeftRoom => 101
  | B_UserJoined => 150 | B_UserLeft => 151 | B_ChatMessage => 152
  | SC_Error => 999
  end.

(** The tags of the [Payload] union, in declaration order after [NONE]. *)
(** @src protocol/flatbuf/schemas/packet.fbs 10-27 Payload *)
Inductive PayloadName :=
  | NONE | P_JoinRoomRequest | P_LeaveRoomRequest | P_SendMessageRequest
  | P_JoinedRoomResponse | P_LeftRoomResponse
  | P_UserJoinedBroadcast | P_UserLeftBroadcast | P_ChatMessageBroadcast
  | P_ErrorResponse.

#[export] Instance PayloadName_eq_dec : EqDecision PayloadName.
Proof. solve_decision. Defined.

(** @src protocol/flatbuf/schemas/packet.fbs 10-27 Payload *)
Definition PayloadTag (p : PayloadName) : Z :=
  match p with
  | NONE => 0 | P_JoinRoomRequest => 1 | P_LeaveRoomRequest => 2 | P_SendMessageRequest => 3
  | P_JoinedRoomResponse => 4 | P_LeftRoomResponse => 5
  | P_UserJoinedBroadcast => 6 | P_UserLeftBroadcast => 7 | P_ChatMessageBroadcast => 8
  | P_ErrorResponse => 9
  end.

(** [UserStatus::Online]. *)
(** @src protocol/flatbuf/schemas/enum.fbs 33-38 UserStatus *)
Definition UserStatus_Online : Z := 1.

(** ** Tables *)

(** @src protocol/flatbuf/schemas/common.fbs 4-7 Timestamp *)
Record Timestamp := mkTimestamp { seconds : Z; nanos : Z }.

(** @src protocol/flatbuf/schemas/user.fbs 5-10 User *)
Record UserTable := mkUserTable { ut_id : Z; ut_username : string; ut_status : Z }.

(** @src protocol/flatbuf/schemas/error.fbs 5-8 Error *)
Record ErrorTable := mkErrorTable { err_code : Z; err_message : option string }.

(** The bodies of the union; a [required] field is always present. *)
(** @src protocol/flatbuf/schemas/packet.fbs 10-27 Payload *)
Inductive PayloadBody :=
  | JoinRoomRequest (username : string)
  | LeaveRoomRequest (room_id : Z)
  | SendMessageRequest (room_id : Z) (username message : string)
  | JoinedRoomResponse (error : option ErrorTable)
  | LeftRoomResponse (error : option ErrorTable)
  | UserJoinedBroadcast (room_id : Z) (user : UserTable)
  | UserLeftBroadcast (user_id : Z) (username : string)
  | ChatMessageBroadcast (sender_id : Z) (username message : string) (timestamp : Timestamp)
  | ErrorResponse (error_code : Z) (message details : option string).

(** [PayloadTraits<T>::enum_value]. *)
Definition body_name (b : PayloadBody) : PayloadName :=
  match b with
  | JoinRoomRequest _ => P_JoinRoomRequest
  | LeaveRoomRequest _ => P_LeaveRoomRequest
  | SendMessageRequest _ _ _ => P_SendMessageRequest
  | JoinedRoomResponse _ => P_JoinedRoomResponse
  | LeftRoomResponse _ => P_LeftRoomResponse
  | UserJoinedBroadcast _ _ => P_UserJoinedBroadcast
  | UserLeftBroadcast _ _ => P_UserLeftBroadcast
  | ChatMessageBroadcast _ _ _ _ => P_ChatMessageBroadcast
  | ErrorResponse _ _ _ => P_ErrorResponse
  end.

(** A packet carries a tag and, unless the sender left it out, a body. *)
(** @src protocol/flatbuf/schemas/packet.fbs 30-34 Packet *)
Record Packet := mkPacket {
  type : Z; payload_type : Z; payload : option PayloadBody; sequence : Z }.

(** [packet->payload_as<T>()]: null unless the tag is [T]'s and a body is there. *)
Definition payload_as (n : PayloadName) (p : Packet) : option PayloadBody :=
  if payload_type p =? PayloadTag n then
    b ← payload p; if decide (body_name b = n) then Some b else None
  else None.

(** The text read through [c_str()] ends at the first null character. *)
Fixpoint c_str (s : string) : string :=
  match s with
  | EmptyString => EmptyString
  | String a s => if Ascii.eqb a Ascii.zero then EmptyString else String a (c_str s)
  end.

(** ** The FlatBuffers runtime *)

Class FlatBuffers := {
  (** [FinishPacketBuffer], then the builder's buffer. *)
  fb_finish : Packet -> list byte;
  (** [VerifyPacketBuffer]. *)
  fb_verify : list byte -> bool;
  (** [GetPacket]; [None] is a null pointer. *)
  fb_get : list byte -> option Packet
}.

(** What FlatBuffers documents of the buffer its builder produced for [p]: it
    passes the verifier and reads back as what was written. *)
Definition codec_ok `{FlatBuffers} (p : Packet) : Prop :=
  fb_verify (fb_finish p) = true /\ fb_get (fb_finish p) = Some p.

(** The frame that carries a payload on the wire: its length in network byte
    order, then the payload. *)
Definition frame_of (payload : list byte) : list byte :=
  store_u32 (htonl (zlen payload)) ++ payload.

Lemma zlen_frame_of payload : zlen (frame_of payload) = kHeaderSize + zlen payload.
Proof. unfold frame_of. rewrite zlen_app. unfold zlen at 1. by rewrite length_store_u32. Qed.

(** A sender allocates the frame, copies the header in and the payload after it. *)
Lemma frame_header_copy (header payload : list byte) :
  length header = 4%nat ->
  memcpy_at (replicate (Z.to_nat (kHeaderSize + zlen payload)) Byte.x00) 0 header =
  Some (header ++ replicate (length payload) Byte.x00).
Proof.
  intros Hh. unfold kHeaderSize, zlen at 1. set (n := length payload).
  replace (Z.to_nat (4 + Z.of_nat n)) with (4 + n)%nat by lia.
  rewrite memcpy_at_Some; [|lia|unfold zlen; rewrite Hh, length_replicate; lia].
  replace (Z.to_nat (0 + zlen header)) with 4%nat by (unfold zlen; lia).
  rewrite drop_replicate. replace (4 + n - 4)%nat with n by lia. done.
Qed.

Lemma frame_payload_copy (header payload : list byte) :
  length header = 4%nat ->
  memcpy_at (header ++ replicate (length payload) Byte.x00) kHeaderSize payload = Some (header ++ payload).
Proof.
  intros Hh. unfold kHeaderSize.
  rewrite memcpy_at_Some; [|lia|unfold zlen; rewrite length_app, Hh, length_replicate; lia].
  rewrite drop_ge by (rewrite length_app, Hh, length_replicate; unfold zlen; lia).
  rewrite app_nil_r, take_app_length' by (by rewrite Hh). done.
Qed.

(** ** Packet factories *)

(** [CreatePacket] and [FinishPacketBuffer] with the tag of the payload's type. *)
(** @src protocol/PacketFactory.h 19-38 finishTypedPacket *)
Definition finishTypedPacket (t : MessageTypeName) (b : PayloadBody) (sequence : Z) : Packet :=
  {| type := MessageType t; payload_type := PayloadTag (body_name b);
     payload := Some b; sequence := sequence |}.

(** The two clock readings: seconds, and the full nanosecond count cut to 32 bits. *)
(** @src protocol/PacketFactory.h 42-47 now *)
Definition now (sec ns : Z) : Timestamp := {| seconds := u64 sec; nanos := u32 ns |}.

(** @src protocol/PacketFactory.h 50-60 makeJoinRoomRequest *)
Definition makeJoinRoomRequest (nickname : string) (sequence : Z) : Packet :=
  finishTypedPacket CS_JoinRoom (JoinRoomRequest nickname) sequence.

(** @src protocol/PacketFactory.h 62-70 makeLeaveRoomRequest *)
Definition makeLeaveRoomRequest (roomId sequence : Z) : Packet :=
  finishTypedPacket CS_LeaveRoom (LeaveRoomRequest roomId) sequence.

(** @src protocol/PacketFactory.h 72-86 makeSendMessageRequest *)
Definition makeSendMessageRequest (roomId : Z) (username message : string) (sequence : Z) : Packet :=
  finishTypedPacket CS_SendMessage (SendMessageRequest roomId username message) sequence.

(** The schema's [User.id] is a [uint32]: the 64-bit id is cut. *)
(** @src protocol/PacketFactory.h 88-104 makeUserJoinedBroadcast *)
Definition makeUserJoinedBroadcast (roomId userId : Z) (userName : string) : Packet :=
  finishTypedPacket B_UserJoined
    (UserJoinedBroadcast roomId
       {| ut_id := u32 userId; ut_username := userName; ut_status := UserStatus_Online |}) 0.

(** @src protocol/PacketFactory.h 106-118 makeUserLeftBroadcast *)
Definition makeUserLeftBroadcast (userId : Z) (userName : string) : Packet :=
  finishTypedPacket B_UserLeft (UserLeftBroadcast (u32 userId) userName) 0.

(** @src protocol/PacketFactory.h 120-136 makeChatMessageBroadcast *)
Definition makeChatMessageBroadcast (senderId : Z) (username message : string)
    (timestamp : Timestamp) (sequence : Z) : Packet :=
  finishTypedPacket B_ChatMessage
    (ChatMessageBroadcast senderId username message timestamp) sequence.

(** @src protocol/PacketFactory.h 138-145 makeJoinedRoomResponse *)
Definition makeJoinedRoomResponse (sequence : Z) : Packet :=
  finishTypedPacket SC_JoinedRoom (JoinedRoomResponse None) sequence.

(** @src protocol/PacketFactory.h 147-154 makeLeftRoomResponse *)
Definition makeLeftRoomResponse (sequence : Z) : Packet :=
  finishTypedPacket SC_LeftRoom (LeftRoomResponse None) sequence.

(** ** Lemmas *)

#[export] Instance PayloadTag_inj : Inj (=) (=) PayloadTag.
Proof. intros [] []; simpl; congruence. Qed.

(** A factory's packet gives back its body under its own type and under no other. *)
Lemma payload_as_finishTypedPacket t b s n :
  payload_as n (finishTypedPacket t b s) = (if decide (body_name b = n) then Some b else None).
Proof.
  unfold payload_as, finishTypedPacket; simpl.
  destruct (Z.eqb_spec (PayloadTag (body_name b)) (PayloadTag n)) as [Heq|Hne]; simpl; [done|].
  rewrite decide_False; [done|]. congruence.
Qed.

Lemma payload_as_Some n p b :
  payload_as n p = Some b -> payload p = Some b /\ body_name b = n /\ payload_type p = PayloadTag n.
Proof.
  unfold payload_as. destruct (Z.eqb_spec (payload_type p) (PayloadTag n)); [|done].
  destruct (payload p) as [b'|]; simpl; [|done]. case_decide; naive_solver.
Qed.

(** ** A concrete codec for evaluation

    A lookup in a finite code book: packet number [i] of the book is written as
    the single byte [i].  A packet outside the book is written as the empty
    buffer, which the verifier refuses. *)

#[export] Instance Timestamp_eq_dec : EqDecision Timestamp.
Proof. solve_decision. Defined.

#[export] Instance UserTable_eq_dec : EqDecision UserTable.
Proof. solve_decision. Defined.

#[export] Instance ErrorTable_eq_dec : EqDecision ErrorTable.
Proof. solve_decision. Defined.

#[export] Instance PayloadBody_eq_dec : EqDecision PayloadBody.
Proof. solve_decision. Defined.

#[export] Instance Packet_eq_dec : EqDecision Packet.
Proof. solve_decision. Defined.

Definition book_finish (book : list Packet) (p : Packet) : list byte :=
  match find_if (fun q => bool_decide (q = p)) book with
  | Some i => [byte.of_Z (Z.of_nat i)]
  | None => []
  end.

Definition book_get (book : list Packet) (bs : list byte) : option Packet :=
  match bs with [b] => book !! Z.to_nat (byte.unsigned b) | _ => None end.

Definition book_codec (book : list Packet) : FlatBuffers := {|
  fb_finish := book_finish book;
  fb_verify := fun bs => bool_decide (is_Some (book_get book bs));
  fb_get := book_get book |}.

(** A codec that loses nothing: every packet is written as the bytes of a number that
    stands for it. *)

#[export] Instance Timestamp_countable : Countable Timestamp.
Proof. apply (inj_countable' (fun t => (seconds t, nanos t)) (fun '(s, k) => mkTimestamp s k)). by intros []. Defined.

#[export] Instance UserTable_countable : Countable UserTable.
Proof.
  apply (inj_countable' (fun u => (ut_id u, ut_username u, ut_status u)) (fun '(i, n, s) => mkUserTable i n s)). by intros [].
Defined.

#[export] Instance ErrorTable_countable : Countable ErrorTable.
Proof. apply (inj_countable' (fun e => (err_code e, err_message e)) (fun '(c, m) => mkErrorTable c m)). by intros []. Defined.

(** A body as its number and its fields. *)
Definition body_fields (b : PayloadBody) : nat * list positive :=
  match b with
  | JoinRoomRequest n => (0, [encode n])
  | LeaveRoomRequest r => (1, [encode r])
  | SendMessageRequest r n m => (2, [encode r; encode n; encode m])
  | JoinedRoomResponse e => (3, [encode e])
  | LeftRoomResponse e => (4, [encode e])
  | UserJoinedBroadcast r u => (5, [encode r; encode u])
  | UserLeftBroadcast i n => (6, [encode i; encode n])
  | ChatMessageBroadcast i n m t => (7, [encode i; encode n; encode m; encode t])
  | ErrorResponse c m d => (8, [encode c; encode m; encode d])
  end%nat.

Definition body_of_fields (x : nat * list positive) : option PayloadBody :=
  match x with
  | (0, [n]) => JoinRoomRequest <$> decode n
  | (1, [r]) => LeaveRoomRequest <$> decode r
  | (2, [r; n; m]) => r ← decode r; n ← decode n; m ← decode m; Some (SendMessageRequest r n m)
  | (3, [e]) => JoinedRoomResponse <$> decode e
  | (4, [e]) => LeftRoomResponse <$> decode e
  | (5, [r; u]) => r ← decode r; u ← decode u; Some (UserJoinedBroadcast r u)
  | (6, [i; n]) => i ← decode i; n ← decode n; Some (UserLeftBroadcast i n)
  | (7, [i; n; m; t]) =>
      i ← decode i; n ← decode n; m ← decode m; t ← decode t; Some (ChatMessageBroadcast i n m t)
  | (8, [c; m; d]) => c ← decode c; m ← decode m; d ← decode d; Some (ErrorResponse c m d)
  | _ => None
  end%nat.

#[export] Instance PayloadBody_countable : Countable PayloadBody.
Proof.
  apply (inj_countable body_fields body_of_fields). intros []; cbn [body_fields body_of_fields]; by rewrite !decode_encode.
Defined.

#[export] Instance Packet_countable : Countable Packet.
Proof.
  apply (inj_countable (fun p => [encode (type p); encode (payload_type p); encode (payload p); encode (sequence p)])
    (fun x => match x with
              | [t; k; b; s] => t ← decode t; k ← decode k; b ← decode b; s ← decode s; Some (mkPacket t k b s)
              | _ => None
              end)).
  intros []. cbn. by rewrite !decode_encode.
Defined.

Definition number_finish (p : Packet) : list byte :=
  let k := Z.pos (encode p) in le_split (S (Z.to_nat (Z.log2 k / 8))) k.

Definition number_get (bs : list byte) : option Packet :=
  match le_combine bs with Z.pos k => decode k | _ => None end.

Definition number_codec : FlatBuffers := {|
  fb_finish := number_finish;
  fb_verify := fun bs => bool_decide (is_Some (number_get bs));
  fb_get := number_get |}.

Lemma number_codec_ok p : codec_ok (H:=number_codec) p.
Proof.
  assert (number_get (number_finish p) = Some p) as Hg.
  { unfold number_get, number_finish. cbn zeta. rewrite le_combine_split, Z.mod_small; [apply decode_encode|].
    split; [done|]. pose proof (Z.log2_nonneg (Z.pos (encode p))).
    apply Z.log2_lt_pow2; [done|]. rewrite Nat2Z.inj_succ, Z2Nat.id by (apply Z.div_pos; lia).
    pose proof (Z.mod_pos_bound (Z.log2 (Z.pos (encode p))) 8 eq_refl).
    pose proof (Z.div_mod (Z.log2 (Z.pos (encode p))) 8 ltac:(done)). lia. }
  split; [|exact Hg]. cbn. by rewrite Hg.
Qed.
