(* ===== verification/TcpClient.v ===== *)
(** * TcpClient: the blocking socket of the clients and its framing

    [WsaSession], [TcpClientSocket] and [PacketStream]
    ([network/inc/client], [network/src/client]).  The loops of [SendAll] and
    [RecvExact] take fuel, the number of bytes to transfer: each turn that goes on
    transfers at least one.  [TcpEnd] states what a connected TCP socket promises;
    against it, frames sent are the frames of Protocol.v and frames received are
    read back, however the system cuts the stream. *)

From S2P Require Import Prelude Errors Platform Protocol.
From stdpp Require Import base numbers list strings option.
From coqutil Require Import Byte.
Open Scope Z_scope.

Definition WSAEINTR : Z := 10004.
Definition WSAENOTSOCK : Z := 10038.
Definition WSAESHUTDOWN : Z := 10058.

Section TcpClient.
Context {OS : Type} `{WinSock OS}.
Implicit Types (os : OS).

(** ** WsaSession *)

(** @src network/inc/client/WsaSession.h 31-33 WsaSession *)
Record WsaSession := mkWsaSession { wsa_isInitialized : bool }.

(** @src network/src/client/WsaSession.cpp 26-40 WsaSession::Initialize *)
Definition WsaSession_Initialize (s : WsaSession) os : WsaSession * OS * ResultVoid ENetworkError :=
  if wsa_isInitialized s then (s, os, OkVoid)
  else
    let '(os, startupResult) := os_call SysWSAStartup os in
    if negb (ret startupResult =? 0) then (s, os, Err WsaStartupFailed)
    else (mkWsaSession true, os, OkVoid).

(** @src network/src/client/WsaSession.cpp 42-49 WsaSession::Cleanup *)
Definition WsaSession_Cleanup (s : WsaSession) os : WsaSession * OS :=
  if negb (wsa_isInitialized s) then (s, os)
  else let '(os, _) := os_call SysWSACleanup os in (mkWsaSession false, os).

(** @src network/src/client/WsaSession.cpp 22-24 WsaSession::~WsaSession *)
Definition WsaSession_destroy (s : WsaSession) os : OS := (WsaSession_Cleanup s os).2.

(** On an error the session made here is destroyed when the function returns. *)
(** @src network/src/client/WsaSession.cpp 12-20 WsaSession::Create *)
Definition WsaSession_Create os : OS * Result (option WsaSession) ENetworkError :=
  let '(s, os, initializeRes) := WsaSession_Initialize (mkWsaSession false) os in
  if HasErr initializeRes then (WsaSession_destroy s os, Err (_err initializeRes))
  else (os, Ok (Some s)).

(** ** TcpClientSocket *)

(** [tcp_hasSession]: the shared pointer to the session is not null. *)
(** @src network/inc/client/TcpClientSocket.h 38-42 TcpClientSocket *)
Record TcpClientSocket := mkTcpClientSocket { tcp_hasSession : bool; _socketHandle : Z }.

(** @src network/src/client/TcpClientSocket.cpp 10-17 TcpClientSocket::TcpClientSocket *)
Definition TcpClientSocket_make (hasSession : bool) : TcpClientSocket := mkTcpClientSocket hasSession InvalidSocket.

(** @src network/src/client/TcpClientSocket.cpp 125-127 TcpClientSocket::IsConnected *)
Definition Tcp_IsConnected (t : TcpClientSocket) : bool := negb (_socketHandle t =? InvalidSocket).

(** @src network/src/client/TcpClientSocket.cpp 129-131 TcpClientSocket::GetSocketHandle *)
Definition Tcp_GetSocketHandle (t : TcpClientSocket) : Z := _socketHandle t.

(** @src network/src/client/TcpClientSocket.cpp 114-123 TcpClientSocket::Close *)
Definition Tcp_Close (t : TcpClientSocket) os : TcpClientSocket * OS * ResultVoid ENetworkError :=
  if _socketHandle t =? InvalidSocket then (t, os, OkVoid)
  else
    let '(os, _) := os_call (SysShutdown (_socketHandle t)) os in
    let '(os, _) := os_call (SysClosesocket (_socketHandle t)) os in
    (mkTcpClientSocket (tcp_hasSession t) InvalidSocket, os, OkVoid).

(** @src network/src/client/TcpClientSocket.cpp 19-21 TcpClientSocket::~TcpClientSocket *)
Definition Tcp_destroy (t : TcpClientSocket) os : OS := (Tcp_Close t os).1.2.

(** @src network/src/client/TcpClientSocket.cpp 23-56 TcpClientSocket::Connect *)
Definition Tcp_Connect (ipAddress : string) (port : Z) (t : TcpClientSocket) os
    : TcpClientSocket * OS * ResultVoid ENetworkError :=
  if negb (tcp_hasSession t) then (t, os, Err WsaNotInitialized)
  else
    let '(t, os, _) := Tcp_Close t os in
    if negb (IsValidPort port) then (t, os, Err WsaInvalidArgs)
    else
      let '(os, r) := os_call (SysSocket SOCK_STREAM IPPROTO_TCP) os in
      let t := mkTcpClientSocket (tcp_hasSession t) (ret r) in
      if ret r =? InvalidSocket then (t, os, Err SocketCreateFailed)
      else
        let '(os, r) := os_call (SysInetPton ipAddress) os in
        if negb (ret r =? 1) then let '(t, os, _) := Tcp_Close t os in (t, os, Err WsaInvalidArgs)
        else
          let '(os, r) := os_call (SysConnect (_socketHandle t) port ipAddress) os in
          if ret r =? SocketError then let '(t, os, _) := Tcp_Close t os in (t, os, Err SocketConnectFailed)
          else (t, os, OkVoid).

(** The loop of [SendAll] from [sentBytes] on; [None] only when the fuel runs out. *)
(** @src network/src/client/TcpClientSocket.cpp 63-82 TcpClientSocket::SendAll *)
Fixpoint SendAll_loop (fuel : nat) (t : TcpClientSocket) (data : list byte) (sentBytes : Z) os
    : option (OS * ResultVoid ENetworkError) :=
  if negb (sentBytes <? zlen data) then Some (os, OkVoid)
  else match fuel with
  | O => None
  | S fuel =>
      let remain := zlen data - sentBytes in
      let currentChunkSize := if remain <? INT_MAX then remain else INT_MAX in
      let '(os, r) := os_call (SysSend (_socketHandle t)
                        (take (Z.to_nat currentChunkSize) (drop (Z.to_nat sentBytes) data))) os in
      let sent := ret r in
      if (sent =? SocketError) || (sent <=? 0) then Some (os, Err WsaSendFailed)
      else SendAll_loop fuel t data (sentBytes + sent) os
  end.

(** @src network/src/client/TcpClientSocket.cpp 58-83 TcpClientSocket::SendAll *)
Definition SendAll (t : TcpClientSocket) (data : list byte) os : option (OS * ResultVoid ENetworkError) :=
  if negb (Tcp_IsConnected t) then Some (os, Err SocketInvalid)
  else SendAll_loop (length data) t data 0 os.

(** [RecvSome] into the part of [buffer] from [off] on (a subspan); the system's bytes
    are written there, which is undefined behaviour if they do not fit. *)
(** @src network/src/client/TcpClientSocket.cpp 85-112 TcpClientSocket::RecvSome *)
Definition RecvSome (t : TcpClientSocket) (buffer : list byte) (off : Z) os
    : ub (list byte * OS * Result Z ENetworkError) :=
  if negb (Tcp_IsConnected t) then Some (buffer, os, Err SocketInvalid)
  else if zlen buffer - off =? 0 then Some (buffer, os, Ok 0)
  else
    let '(os, r) := os_call (SysRecv (_socketHandle t) (i32 (zlen buffer - off))) os in
    if ret r =? SocketError then
      let wsaError := lastError r in
      if (wsaError =? WSAEINTR) || (wsaError =? WSAENOTSOCK) || (wsaError =? WSAESHUTDOWN)
      then Some (buffer, os, Err SocketInvalid)
      else Some (buffer, os, Err WsaRecvFailed)
    else
      buffer ← memcpy_at buffer off (outBytes r);
      Some (buffer, os, Ok (u64 (ret r))).

(** ** PacketStream *)

(** The stream refers to a socket owned elsewhere, which is passed to its operations. *)
(** @src network/inc/client/PacketStream.h 52-54 PacketStream *)
Record PacketStream := mkPacketStream { _maxFrameSize : Z }.

(** [if (payloadSize > 0)] tests the length after [htonl]. *)
(** @src network/src/client/PacketStream.cpp 14-31 PacketStream::SendFrame *)
Definition SendFrame (t : TcpClientSocket) (payload : list byte) os
    : ub (option (OS * ResultVoid ENetworkError)) :=
  let payloadSize := u32 (zlen payload) in
  let frame := replicate (Z.to_nat (kHeaderSize + zlen payload)) Byte.x00 in
  let payloadSize := htonl payloadSize in
  frame ← memcpy_at frame 0 (store_u32 payloadSize);
  frame ← (if 0 <? payloadSize then memcpy_at frame kHeaderSize payload else Some frame);
  Some (SendAll t frame os).

(** Filling [buffer] from [receivedBytes] on.  The outer [option] is undefined
    behaviour, or fuel that ran out. *)
(** @src network/src/client/PacketStream.cpp 85-101 PacketStream::RecvExact *)
Fixpoint RecvExact_loop (fuel : nat) (t : TcpClientSocket) (buffer : list byte) (receivedBytes : Z) os
    : ub (list byte * OS * ResultVoid ENetworkError) :=
  if negb (receivedBytes <? zlen buffer) then Some (buffer, os, OkVoid)
  else match fuel with
  | O => None
  | S fuel =>
      '(buffer, os, recvRes) ← RecvSome t buffer receivedBytes os;
      if HasErr recvRes then Some (buffer, os, Err (_err recvRes))
      else
        let chunkSize := _data recvRes in
        if chunkSize =? 0 then Some (buffer, os, Err SocketInvalid)
        else RecvExact_loop fuel t buffer (receivedBytes + chunkSize) os
  end.

(** @src network/src/client/PacketStream.cpp 83-102 PacketStream::RecvExact *)
Definition RecvExact (t : TcpClientSocket) (buffer : list byte) os
    : ub (list byte * OS * ResultVoid ENetworkError) :=
  RecvExact_loop (length buffer) t buffer 0 os.

(** [vector::resize]: cut, or extended with zeros. *)
Definition resize (v : list byte) (n : Z) : list byte :=
  take (Z.to_nat n) v ++ replicate (Z.to_nat n - length v) Byte.x00.

(** @src network/src/client/PacketStream.cpp 33-81 PacketStream::RecvFrame *)
Definition RecvFrame (ps : PacketStream) (t : TcpClientSocket) (outPayload : list byte) os
    : ub (list byte * OS * Result Z ENetworkError) :=
  if _maxFrameSize ps =? 0 then Some (outPayload, os, Err WsaInvalidArgs)
  else if _maxFrameSize ps >? maxFrameSize then Some (outPayload, os, Err WsaInvalidArgs)
  else
    '(buf, os, recvHeaderRes) ← RecvExact t (replicate (Z.to_nat kHeaderSize) Byte.x00) os;
    if HasErr recvHeaderRes then Some (outPayload, os, Err (_err recvHeaderRes))
    else
      let payloadSize := ntohl (load_u32 buf) in
      if payloadSize >? _maxFrameSize ps then Some (outPayload, os, Err WsaNoBufferSpace)
      else
        let outPayload := resize outPayload payloadSize in
        if payloadSize =? 0 then Some (outPayload, os, Ok 0)
        else
          '(outPayload, os, recvPayloadRes) ← RecvExact t outPayload os;
          if HasErr recvPayloadRes then Some (outPayload, os, Err (_err recvPayloadRes))
          else Some (outPayload, os, Ok payloadSize).
End TcpClient.

(** ** The transfer loops return

    Whatever the system answers: each turn of a loop transfers at least one byte or
    ends the loop.  Reading needs that [recv] stays within the length it is given. *)

Section Termination.
Context {OS : Type} `{WinSock OS}.
Implicit Types (os : OS) (t : TcpClientSocket).

Lemma SendAll_loop_total fuel t data sentBytes os :
  0 <= sentBytes -> zlen data - sentBytes <= Z.of_nat fuel -> is_Some (SendAll_loop fuel t data sentBytes os).
Proof.
  revert sentBytes os. induction fuel as [|fuel IH]; intros sentBytes os Hs Hf; cbn [SendAll_loop].
  - rewrite (proj2 (Z.ltb_ge _ _)) by lia. by eexists.
  - destruct (Z.ltb_spec sentBytes (zlen data)); cbn [negb]; [|by eexists].
    destruct (os_call _ os) as [os' r]. case_bool; [by eexists|]. zbool. apply IH; lia.
Qed.

Lemma SendAll_total t data os : is_Some (SendAll t data os).
Proof.
  unfold SendAll. case_bool; [by eexists|]. apply SendAll_loop_total; [done|]. unfold zlen. lia.
Qed.

(** What [recv] promises of any socket: it writes at most the length it is given. *)
Definition recv_bounded : Prop :=
  forall s len os, zlen (outBytes (os_call (SysRecv s len) os).2) <= Z.max 0 len.

Context (Hrecv : recv_bounded).

Lemma RecvSome_defined t buffer off os :
  0 <= off <= zlen buffer -> zlen buffer < 2 ^ 31 ->
  exists buffer' os' res, RecvSome t buffer off os = Some (buffer', os', res) /\ length buffer' = length buffer /\
    (HasErr res = false -> 0 <= _data res).
Proof.
  intros Ho Hb. unfold RecvSome.
  case_bool; [by eexists _, _, _|]. case_bool; [by eexists _, _, _|].
  rewrite swrap_small by lia.
  pose proof (Hrecv (_socketHandle t) (zlen buffer - off) os) as Hr.
  destruct (os_call _ os) as [os' r]. cbn [snd] in Hr.
  case_bool; [case_bool; by eexists _, _, _|].
  rewrite memcpy_at_Some by lia. cbn [mbind option_bind]. eexists _, _, _. split; [done|]. split.
  - eapply memcpy_at_length. apply memcpy_at_Some; lia.
  - intros _. cbn. pose proof (wrap_range 64 (ret r) ltac:(lia)). lia.
Qed.

Lemma RecvExact_loop_total fuel t buffer receivedBytes os :
  0 <= receivedBytes -> zlen buffer < 2 ^ 31 -> zlen buffer - receivedBytes <= Z.of_nat fuel ->
  exists buffer' os' res, RecvExact_loop fuel t buffer receivedBytes os = Some (buffer', os', res) /\
    length buffer' = length buffer.
Proof.
  revert buffer receivedBytes os. induction fuel as [|fuel IH]; intros buffer k os Hk Hb Hf; cbn [RecvExact_loop].
  - rewrite (proj2 (Z.ltb_ge _ _)) by lia. by eexists _, _, _.
  - destruct (Z.ltb_spec k (zlen buffer)); cbn [negb]; [|by eexists _, _, _].
    destruct (RecvSome_defined t buffer k os) as (b' & os' & res & -> & Hl & Hres); [lia..|].
    cbn [mbind option_bind]. destruct (HasErr res); [by eexists _, _, _|]. specialize (Hres eq_refl).
    case_bool; [by eexists _, _, _|]. zbool.
    assert (zlen b' = zlen buffer) as Hz by (unfold zlen; lia).
    destruct (IH b' (k + _data res) os') as (b2 & os2 & res2 & -> & Hl2); [lia..|].
    eexists _, _, _. split; [done|lia].
Qed.

Lemma RecvExact_total t buffer os :
  zlen buffer < 2 ^ 31 ->
  exists buffer' os' res, RecvExact t buffer os = Some (buffer', os', res) /\ length buffer' = length buffer.
Proof. intros. apply RecvExact_loop_total; [done|done|]. unfold zlen. lia. Qed.

Lemma resize_length v n : 0 <= n -> zlen (resize v n) = n.
Proof.
  intros Hn. unfold resize, zlen. rewrite length_app, length_take, length_replicate. lia.
Qed.

Lemma RecvFrame_total ps t out os :
  exists out' os' res, RecvFrame ps t out os = Some (out', os', res) /\
    (HasErr res = false -> _data res = zlen out' /\ zlen out' <= _maxFrameSize ps).
Proof.
  assert (forall e : ENetworkError, HasErr (Err (T:=Z) e) = false -> False) as Herr by done.
  unfold RecvFrame. case_bool; [eexists _, _, _; split; [done|]; by intros ?%Herr|].
  case_bool; [eexists _, _, _; split; [done|]; by intros ?%Herr|].
  destruct (RecvExact_total t (replicate (Z.to_nat kHeaderSize) Byte.x00) os) as (b & os1 & r1 & -> & _); [done|].
  cbn [mbind option_bind]. destruct (HasErr r1); [eexists _, _, _; split; [done|]; by intros ?%Herr|].
  pose proof (bswap32_range (load_u32 b)) as Hrange. fold (ntohl (load_u32 b)) in Hrange.
  case_bool; [eexists _, _, _; split; [done|]; by intros ?%Herr|]. rewrite Z.gtb_ltb in *. zbool.
  assert (maxFrameSize = 65536) by done.
  pose proof (resize_length out (ntohl (load_u32 b)) ltac:(lia)) as Hl.
  case_bool; zbool.
  - eexists _, _, _. split; [done|]. intros _. cbn. lia.
  - destruct (RecvExact_total t (resize out (ntohl (load_u32 b))) os1) as (b2 & os2 & r2 & -> & Hlen); [lia|].
    cbn [mbind option_bind]. assert (zlen b2 = ntohl (load_u32 b)) by (unfold zlen in *; lia).
    destruct (HasErr r2); [eexists _, _, _; split; [done|]; by intros ?%Herr|].
    eexists _, _, _. split; [done|]. intros _. cbn. lia.
Qed.

End Termination.

(** ** Frames *)

Lemma htonl_pos x : 0 < x < 2 ^ 32 -> 0 < htonl x.
Proof.
  intros Hx. pose proof (bswap32_range x). fold (htonl x) in *.
  assert (htonl x <> 0); [|lia]. intros H0.
  pose proof (header_roundtrip x [] ltac:(lia)) as Hr. rewrite H0 in Hr. vm_compute in Hr. lia.
Qed.

(** [SendFrame] passes the frame of the payload to [SendAll]. *)
Lemma SendFrame_frame {OS} `{WinSock OS} t payload (os : OS) :
  zlen payload < 2 ^ 32 -> SendFrame t payload os = Some (SendAll t (frame_of payload) os).
Proof.
  intros Hp. pose proof (zlen_nonneg payload). unfold SendFrame, frame_of. rewrite wrap_small by lia.
  rewrite frame_header_copy by apply length_store_u32. cbn [mbind option_bind].
  destruct payload as [|b payload].
  - by rewrite app_nil_r.
  - rewrite (proj2 (Z.ltb_lt _ _)) by (apply htonl_pos; rewrite zlen_cons in *; pose proof (zlen_nonneg payload); lia).
    by rewrite frame_payload_copy by apply length_store_u32.
Qed.

(** C35: The client's transfers terminate and stay in bounds: on any system, whatever it
    answers, [SendAll] and [SendFrame] return for data shorter than 2^32 bytes; and if [recv] writes no more than it is
    asked for, [RecvFrame] returns without leaving its buffers, and on success reports
    the size of the payload it delivered, which is within the stream's limit. *)
Theorem transfers_terminate {OS} `{WinSock OS} t data ps out (os : OS) :
  zlen data < 2 ^ 32 -> recv_bounded (OS:=OS) ->
  is_Some (SendAll t data os) /\
  (exists r, SendFrame t data os = Some (Some r)) /\
  exists out' os' res, RecvFrame ps t out os = Some (out', os', res) /\
    (HasErr res = false -> _data res = zlen out' /\ zlen out' <= _maxFrameSize ps).
Proof.
  intros Hd Hr. split_and!; [apply SendAll_total| |by apply RecvFrame_total].
  rewrite SendFrame_frame by done. destruct (SendAll_total t (frame_of data) os) as [r ->]. by exists r.
Qed.

(** ** A connected stream *)

(** What a connected TCP socket promises its user, as the only socket in use: [send]
    takes a non-empty front of the data, [recv] delivers a non-empty front of what the
    peer sends, and 0 bytes once the peer has closed and everything is delivered.
    Reading the clock does not touch the stream. *)
Class TcpEnd (OS : Type) `{WinSock OS} := {
  incoming : OS -> list byte;
  outgoing : OS -> list byte;
  tcp_send : forall s data os, data <> [] ->
    let '(os', r) := os_call (SysSend s data) os in
    0 < ret r <= zlen data /\ outgoing os' = outgoing os ++ take (Z.to_nat (ret r)) data /\
    incoming os' = incoming os;
  tcp_recv : forall s len os, 0 < len -> incoming os <> [] ->
    let '(os', r) := os_call (SysRecv s len) os in
    0 < ret r <= len /\ zlen (outBytes r) = ret r /\ incoming os = outBytes r ++ incoming os' /\
    outgoing os' = outgoing os;
  tcp_closed : forall s len os, 0 < len -> incoming os = [] ->
    let '(os', r) := os_call (SysRecv s len) os in
    ret r = 0 /\ outBytes r = [] /\ incoming os' = [] /\ outgoing os' = outgoing os;
  tcp_clock : forall os,
    let os' := (os_call SysSteadyClockNow os).1 in incoming os' = incoming os /\ outgoing os' = outgoing os
}.

Section Stream.
Context {OS : Type} `{TcpEnd OS}.
Implicit Types (os : OS) (t : TcpClientSocket).

Lemma SendAll_loop_stream fuel t data k os :
  (k <= length data)%nat -> (length data - k <= fuel)%nat ->
  exists os', SendAll_loop fuel t data (Z.of_nat k) os = Some (os', OkVoid) /\
    outgoing os' = outgoing os ++ drop k data /\ incoming os' = incoming os.
Proof.
  revert k os. induction fuel as [|fuel IH]; intros k os Hk Hf; cbn [SendAll_loop]; unfold zlen.
  - rewrite (proj2 (Z.ltb_ge _ _)) by lia. exists os. rewrite drop_ge by lia. by rewrite app_nil_r.
  - destruct (Z.ltb_spec (Z.of_nat k) (Z.of_nat (length data))); cbn [negb].
    2: { exists os. rewrite drop_ge by lia. by rewrite app_nil_r. }
    set (chunk := take _ (drop _ data)).
    assert (chunk `prefix_of` drop k data) as [rest Hrest].
    { unfold chunk. rewrite Nat2Z.id. eexists. symmetry. apply take_drop. }
    assert (0 < length chunk)%nat as Hlen.
    { unfold chunk. rewrite Nat2Z.id, length_take, length_drop. unfold INT_MAX. case_bool; lia. }
    pose proof (tcp_send (_socketHandle t) chunk os ltac:(by destruct chunk; cbn in *; [lia|])) as Hs.
    destruct (os_call _ os) as [os' r]. destruct Hs as (Hret & Hout & Hin).
    rewrite (proj2 (Z.eqb_neq _ SocketError)), (proj2 (Z.leb_gt _ _)) by (unfold SocketError; lia). cbn [orb].
    assert (length chunk <= length (drop k data))%nat by (rewrite Hrest, length_app; lia).
    rewrite length_drop in *. unfold zlen in Hret.
    replace (Z.of_nat k + ret r) with (Z.of_nat (k + Z.to_nat (ret r))) by lia.
    destruct (IH (k + Z.to_nat (ret r))%nat os') as (os2 & -> & Ho2 & Hi2); [lia..|].
    exists os2. split; [done|]. split; [|congruence].
    rewrite Ho2, Hout, <-app_assoc, <-drop_drop. f_equal.
    rewrite <-(take_drop (Z.to_nat (ret r)) (drop k data)) at 2. f_equal.
    rewrite Hrest. by rewrite take_app_le by lia.
Qed.

Lemma SendAll_stream t data os :
  Tcp_IsConnected t = true ->
  exists os', SendAll t data os = Some (os', OkVoid) /\
    outgoing os' = outgoing os ++ data /\ incoming os' = incoming os.
Proof.
  intros Hc. unfold SendAll. rewrite Hc. cbn [negb].
  by destruct (SendAll_loop_stream (length data) t data 0 os) as (os' & ? & ? & ?); [lia..|exists os'].
Qed.

Lemma RecvExact_loop_stream fuel t buffer k os bytes rest :
  Tcp_IsConnected t = true -> zlen buffer < 2 ^ 31 -> (length buffer - k <= fuel)%nat ->
  (k + length bytes = length buffer)%nat -> incoming os = bytes ++ rest ->
  exists os', RecvExact_loop fuel t buffer (Z.of_nat k) os = Some (take k buffer ++ bytes, os', OkVoid) /\
    incoming os' = rest /\ outgoing os' = outgoing os.
Proof.
  intros Hc. revert buffer k os bytes. induction fuel as [|fuel IH]; intros buffer k os bytes Hb Hf Hl Hin;
    cbn [RecvExact_loop].
  - unfold zlen. rewrite (proj2 (Z.ltb_ge _ _)) by lia. assert (bytes = []) as -> by (destruct bytes; cbn in *; [done|lia]).
    exists os. rewrite app_nil_r, take_ge by lia. done.
  - unfold zlen at 1. destruct (Z.ltb_spec (Z.of_nat k) (Z.of_nat (length buffer))); cbn [negb].
    2: { assert (bytes = []) as -> by (destruct bytes; cbn in *; [done|lia]).
         exists os. rewrite app_nil_r, take_ge by lia. done. }
    unfold RecvSome. rewrite Hc. cbn [negb]. rewrite (proj2 (Z.eqb_neq _ _)) by (unfold zlen; lia).
    rewrite swrap_small by (unfold zlen in *; lia).
    pose proof (tcp_recv (_socketHandle t) (zlen buffer - Z.of_nat k) os) as Hr.
    destruct (os_call _ os) as [os' r].
    destruct Hr as (Hret & Hout & Hsplit & Hog); [unfold zlen; lia|rewrite Hin; by destruct bytes; cbn in *; [lia|]|].
    rewrite (proj2 (Z.eqb_neq _ SocketError)) by (unfold SocketError; lia).
    rewrite memcpy_at_Some by (unfold zlen in *; lia). cbn [mbind option_bind HasErr Ok _hasError _data].
    rewrite wrap_small by (unfold zlen in *; lia). rewrite (proj2 (Z.eqb_neq _ 0)) by lia.
    assert (exists b2, bytes = outBytes r ++ b2 /\ incoming os' = b2 ++ rest) as (b2 & -> & Hin').
    { rewrite Hin in Hsplit. destruct (app_eq_inv _ _ _ _ Hsplit) as [(b2 & -> & ->)|(b2 & Hb2 & ->)]; [by exists b2|].
      assert (b2 = []) as ->; [|exists []; by rewrite app_nil_r in *].
      apply (f_equal length) in Hb2. rewrite length_app in Hb2. apply nil_length_inv. unfold zlen in *. lia. }
    rewrite length_app in Hl. rewrite Nat2Z.id.
    set (buffer' := take k buffer ++ outBytes r ++ _).
    assert (length buffer' = length buffer) as Hlb.
    { unfold buffer'. rewrite !length_app, length_take, length_drop. unfold zlen in *. lia. }
    replace (Z.of_nat k + ret r) with (Z.of_nat (k + length (outBytes r))) by (unfold zlen in *; lia).
    destruct (IH buffer' (k + length (outBytes r))%nat os' b2) as (os2 & -> & Hi2 & Ho2);
      [unfold zlen in *; lia..|done|].
    exists os2. split; [|split; congruence]. f_equal. f_equal. f_equal. unfold buffer'.
    rewrite app_assoc, take_app_le by (rewrite length_app, length_take; lia).
    rewrite take_ge by (rewrite length_app, length_take; lia). by rewrite app_assoc.
Qed.

Lemma RecvExact_stream t buffer os bytes rest :
  Tcp_IsConnected t = true -> zlen buffer < 2 ^ 31 -> length bytes = length buffer ->
  incoming os = bytes ++ rest ->
  exists os', RecvExact t buffer os = Some (bytes, os', OkVoid) /\
    incoming os' = rest /\ outgoing os' = outgoing os.
Proof.
  intros Hc Hb Hl Hin. unfold RecvExact. apply (RecvExact_loop_stream _ t buffer 0 os bytes rest); auto; lia.
Qed.

(** When the peer closes before the buffer is full, the read ends with [SocketInvalid]. *)
Lemma RecvExact_loop_closed fuel t buffer k os :
  Tcp_IsConnected t = true -> zlen buffer < 2 ^ 31 -> (length buffer - k <= fuel)%nat ->
  (k + length (incoming os) < length buffer)%nat ->
  exists b' os', RecvExact_loop fuel t buffer (Z.of_nat k) os = Some (b', os', Err SocketInvalid) /\
    incoming os' = [] /\ outgoing os' = outgoing os.
Proof.
  intros Hc. revert buffer k os. induction fuel as [|fuel IH]; intros buffer k os Hb Hf Hl; [lia|].
  cbn [RecvExact_loop]. rewrite (proj2 (Z.ltb_lt _ _)) by (unfold zlen; lia). cbn [negb].
  unfold RecvSome. rewrite Hc. cbn [negb]. rewrite (proj2 (Z.eqb_neq _ _)) by (unfold zlen; lia).
  rewrite swrap_small by (unfold zlen in *; lia).
  set (len := zlen buffer - Z.of_nat k). assert (0 < len) as Hlen by (unfold len, zlen; lia).
  destruct (decide (incoming os = [])) as [Hin|Hin].
  - pose proof (tcp_closed (_socketHandle t) len os Hlen Hin) as Hr.
    destruct (os_call _ os) as [os' r]. destruct Hr as (Hret & Hout & Hi & Ho).
    rewrite Hret, Hout. cbn [Z.eqb SocketError]. rewrite memcpy_at_Some by (unfold zlen; cbn; unfold len, zlen in Hlen; lia).
    cbn [mbind option_bind]. eexists _, os'. done.
  - pose proof (tcp_recv (_socketHandle t) len os Hlen Hin) as Hr.
    destruct (os_call _ os) as [os' r]. destruct Hr as (Hret & Hout & Hsplit & Hog). unfold len in Hret.
    rewrite (proj2 (Z.eqb_neq _ SocketError)) by (unfold SocketError; lia).
    rewrite memcpy_at_Some by (unfold zlen in *; lia). cbn [mbind option_bind HasErr Ok _hasError _data].
    rewrite wrap_small by (unfold zlen in *; lia). rewrite (proj2 (Z.eqb_neq _ 0)) by lia.
    replace (Z.of_nat k + ret r) with (Z.of_nat (k + length (outBytes r))) by (unfold zlen in *; lia).
    rewrite Hsplit, length_app in Hl.
    set (buffer' := take _ buffer ++ outBytes r ++ _).
    assert (length buffer' = length buffer) as Hlb.
    { unfold buffer'. rewrite !length_app, length_take, length_drop. unfold zlen in *. lia. }
    destruct (IH buffer' (k + length (outBytes r))%nat os') as (b2 & os2 & -> & Hi2 & Ho2);
      [unfold zlen in *; lia..|].
    eexists _, os2. split; [done|]. split; congruence.
Qed.

Lemma RecvFrame_stream ps t out os payload rest :
  Tcp_IsConnected t = true -> 0 < _maxFrameSize ps <= maxFrameSize -> zlen payload <= _maxFrameSize ps ->
  incoming os = frame_of payload ++ rest ->
  exists os', RecvFrame ps t out os = Some (payload, os', Ok (zlen payload)) /\
    incoming os' = rest /\ outgoing os' = outgoing os.
Proof.
  intros Hc Hm Hp Hin. assert (maxFrameSize = 65536) as H64 by done. pose proof (zlen_nonneg payload).
  unfold RecvFrame. rewrite (proj2 (Z.eqb_neq _ 0)), Z.gtb_ltb, (proj2 (Z.ltb_ge _ _)) by lia.
  unfold frame_of in Hin. rewrite <-app_assoc in Hin.
  destruct (RecvExact_stream t (replicate (Z.to_nat kHeaderSize) Byte.x00) os
    (store_u32 (htonl (zlen payload))) (payload ++ rest)) as (os1 & -> & Hi1 & Ho1); [done..| |].
  { exact Hin. }
  cbn [mbind option_bind HasErr OkVoid Ok _hasError].
  pose proof (header_roundtrip (zlen payload) [] ltac:(lia)) as Hh. rewrite app_nil_r in Hh. rewrite Hh.
  rewrite Z.gtb_ltb, (proj2 (Z.ltb_ge _ _)) by lia.
  pose proof (resize_length out (zlen payload) ltac:(lia)) as Hl.
  destruct (Z.eqb_spec (zlen payload) 0) as [Hz0|Hz0].
  - rewrite Hz0. exists os1. rewrite Hz0 in Hl. apply zlen_0 in Hz0 as ->, Hl. split; [|done]. by rewrite Hl.
  - destruct (RecvExact_stream t (resize out (zlen payload)) os1 payload rest) as (os2 & -> & Hi2 & Ho2);
      [done|lia|unfold zlen in *; lia|done|].
    exists os2. split; [done|]. split; congruence.
Qed.

(** The server closes between frames, or inside one. *)
Lemma RecvFrame_closed ps t out os :
  Tcp_IsConnected t = true -> 0 < _maxFrameSize ps <= maxFrameSize -> zlen (incoming os) < kHeaderSize ->
  exists os', RecvFrame ps t out os = Some (out, os', Err SocketInvalid) /\ incoming os' = [] /\ outgoing os' = outgoing os.
Proof.
  intros Hc Hm Hin. unfold RecvFrame. rewrite (proj2 (Z.eqb_neq _ 0)), Z.gtb_ltb, (proj2 (Z.ltb_ge _ _)) by lia.
  destruct (RecvExact_loop_closed 4 t (replicate 4 Byte.x00) 0 os) as (b' & os' & Hr & Hi & Ho);
    [done|done|cbn; lia|unfold zlen, kHeaderSize in Hin; cbn; lia|].
  change (replicate (Z.to_nat kHeaderSize) Byte.x00) with (replicate 4 Byte.x00).
  unfold RecvExact. change (length (replicate 4 Byte.x00)) with 4%nat. change (Z.of_nat 0) with 0 in Hr. rewrite Hr. by exists os'.
Qed.

(** *** Sequences of frames *)

Fixpoint send_frames t (payloads : list (list byte)) os : ub (option (OS * ResultVoid ENetworkError)) :=
  match payloads with
  | [] => Some (Some (os, OkVoid))
  | p :: payloads =>
      r ← SendFrame t p os;
      match r with
      | Some (os, r) => if HasErr r then Some (Some (os, r)) else send_frames t payloads os
      | None => Some None
      end
  end.

(** [n] frames, each into the vector that held the one before. *)
Fixpoint recv_frames ps t (n : nat) (out : list byte) os : ub (list (list byte) * OS) :=
  match n with
  | O => Some ([], os)
  | S n =>
      '(out, os, r) ← RecvFrame ps t out os;
      if HasErr r then Some ([], os) else '(rest, os) ← recv_frames ps t n out os; Some (out :: rest, os)
  end.

Definition frames (payloads : list (list byte)) : list byte := concat (frame_of <$> payloads).

Lemma send_frames_stream t payloads os :
  Tcp_IsConnected t = true -> Forall (fun p => zlen p < 2 ^ 32) payloads ->
  exists os', send_frames t payloads os = Some (Some (os', OkVoid)) /\
    outgoing os' = outgoing os ++ frames payloads /\ incoming os' = incoming os.
Proof.
  intros Hc Hp. revert os. induction Hp as [|p payloads Hp _ IH]; intros os; cbn [send_frames].
  - exists os. unfold frames. cbn. by rewrite app_nil_r.
  - rewrite SendFrame_frame by done. cbn [mbind option_bind].
    destruct (SendAll_stream t (frame_of p) os Hc) as (os1 & -> & Ho1 & Hi1). cbn [HasErr OkVoid Ok _hasError].
    destruct (IH os1) as (os2 & -> & Ho2 & Hi2). exists os2. split; [done|]. split; [|congruence].
    unfold frames in *. cbn. by rewrite Ho2, Ho1, app_assoc.
Qed.

Lemma recv_frames_stream ps t payloads out os rest :
  Tcp_IsConnected t = true -> 0 < _maxFrameSize ps <= maxFrameSize ->
  Forall (fun p => zlen p <= _maxFrameSize ps) payloads -> incoming os = frames payloads ++ rest ->
  exists os', recv_frames ps t (length payloads) out os = Some (payloads, os') /\ incoming os' = rest.
Proof.
  intros Hc Hm Hp. revert out os. induction Hp as [|p payloads Hp _ IH]; intros out os Hin; cbn [recv_frames length].
  - by exists os.
  - unfold frames in Hin. cbn in Hin. rewrite <-app_assoc in Hin.
    destruct (RecvFrame_stream ps t out os p _ Hc Hm Hp Hin) as (os1 & -> & Hi1 & _).
    cbn [mbind option_bind HasErr Ok _hasError]. destruct (IH p os1 Hi1) as (os2 & -> & Hi2). by exists os2.
Qed.
End Stream.

(** *** A stream that is cut as its schedule says *)

Record StreamOS := mkStreamOS { so_in : list byte; so_out : list byte; so_cuts : list nat }.

(** The next transfer moves at most one byte more than the next cut says. *)
Definition next_cut (os : StreamOS) (n : nat) : nat :=
  match so_cuts os with [] => n | c :: _ => Nat.min n (S c) end.

#[export] Instance StreamOS_WinSock : WinSock StreamOS := {|
  os_call := fun c os =>
    match c with
    | SysSend _ data =>
        let n := next_cut os (length data) in
        (mkStreamOS (so_in os) (so_out os ++ take n data) (tail (so_cuts os)), mkSysret (Z.of_nat n) 0 [])
    | SysRecv _ len =>
        let n := next_cut os (Nat.min (Z.to_nat len) (length (so_in os))) in
        (mkStreamOS (drop n (so_in os)) (so_out os) (tail (so_cuts os)), mkSysret (Z.of_nat n) 0 (take n (so_in os)))
    | _ => (os, sysok)
    end |}.

Lemma next_cut_bounds os n : (next_cut os n <= n)%nat /\ (0 < n -> 0 < next_cut os n)%nat.
Proof. unfold next_cut. destruct (so_cuts os); lia. Qed.

#[export] Program Instance StreamOS_TcpEnd : TcpEnd StreamOS := {|
  incoming := so_in; outgoing := so_out |}.
Next Obligation.
  intros s data os Hd. cbn. destruct (next_cut_bounds os (length data)) as [H1 H2].
  assert (0 < length data)%nat by (destruct data; cbn; [done|lia]).
  rewrite Nat2Z.id. unfold zlen. split_and!; [lia|lia|done|done].
Qed.
Next Obligation.
  intros s len os Hl Hin. cbn. set (m := Nat.min (Z.to_nat len) (length (so_in os))).
  destruct (next_cut_bounds os m) as [H1 H2].
  assert (0 < length (so_in os))%nat by (destruct (so_in os); cbn; [done|lia]).
  unfold zlen. rewrite length_take. split_and!; [lia|lia|lia|symmetry; apply take_drop|done].
Qed.
Next Obligation.
  intros s len os Hl Hin. cbn. rewrite Hin. cbn. rewrite Nat.min_0_r.
  assert (next_cut os 0 = 0)%nat as -> by (destruct (next_cut_bounds os 0); lia). done.
Qed.
Next Obligation. done. Qed.

Lemma StreamOS_recv_bounded : recv_bounded (OS:=StreamOS).
Proof.
  intros s len os. cbn. unfold zlen. rewrite length_take.
  destruct (next_cut_bounds os (Nat.min (Z.to_nat len) (length (so_in os)))). lia.
Qed.

(** Frames cross a connection: whatever payloads one end sends with [SendFrame], the
    other end, whose stream is what was sent, reads back with [RecvFrame], the same
    payloads in the same order, however either system cuts the stream; and after the
    last one a read reports the closed connection. *)
Lemma frames_cross {OS1 OS2} `{TcpEnd OS1, TcpEnd OS2} t1 t2 ps payloads (os1 : OS1) (os2 : OS2) out :
  Tcp_IsConnected t1 = true -> Tcp_IsConnected t2 = true -> 0 < _maxFrameSize ps <= maxFrameSize ->
  Forall (fun p => zlen p <= _maxFrameSize ps) payloads -> outgoing os1 = [] ->
  exists os1', send_frames t1 payloads os1 = Some (Some (os1', OkVoid)) /\
    (incoming os2 = outgoing os1' ->
     exists os2', recv_frames ps t2 (length payloads) out os2 = Some (payloads, os2') /\
       forall out', exists os3, RecvFrame ps t2 out' os2' = Some (out', os3, Err SocketInvalid)).
Proof.
  intros Hc1 Hc2 Hm Hp Hout.
  destruct (send_frames_stream t1 payloads os1 Hc1) as (os1' & Hs & Ho & _).
  { eapply Forall_weaken; [exact Hp|]. intros p Hl. cbn in Hl. assert (maxFrameSize = 65536) by done. lia. }
  exists os1'. split; [done|]. rewrite Ho, Hout, app_nil_l. intros Hin.
  destruct (recv_frames_stream ps t2 payloads out os2 []) as (os2' & Hr & Hi); [done..|by rewrite app_nil_r|].
  exists os2'. split; [done|]. intros out'. destruct (RecvFrame_closed ps t2 out' os2') as (os3 & Hf & _); [done..|by rewrite Hi|]. by exists os3.
Qed.

Definition demo_socket : TcpClientSocket := mkTcpClientSocket true 7.
Definition demo_payloads : list (list byte) := [[Byte.x01; Byte.x02; Byte.x03]; []; [Byte.xff]].

Lemma frames_cross_witness :
  exists os1', send_frames demo_socket demo_payloads (mkStreamOS [] [] [0; 2; 0]%nat) = Some (Some (os1', OkVoid)) /\
    exists os2', recv_frames (mkPacketStream 65536) demo_socket 3 [] (mkStreamOS (so_out os1') [] [1; 0; 3]%nat) =
      Some (demo_payloads, os2').
Proof.
  destruct (frames_cross demo_socket demo_socket (mkPacketStream 65536) demo_payloads
    (mkStreamOS [] [] [0; 2; 0]%nat) (mkStreamOS (concat (frame_of <$> demo_payloads)) [] [1; 0; 3]%nat) [])
    as (os1' & Hs & Hr); [reflexivity|reflexivity|vm_compute; split; [reflexivity|discriminate]|
      repeat constructor; vm_compute; discriminate|reflexivity|].
  exists os1'. split; [exact Hs|]. vm_compute in Hs. injection Hs as <-.
  destruct (Hr ltac:(vm_compute; reflexivity)) as (os2' & Hr2 & _). exists os2'. exact Hr2.
Defined.

Lemma transfers_terminate_witness :
  is_Some (SendAll demo_socket [Byte.x01] (mkStreamOS [] [] [])) /\
  exists out' os' res, RecvFrame (mkPacketStream 65536) demo_socket [] (mkStreamOS [Byte.x00] [] []) = Some (out', os', res).
Proof.
  destruct (transfers_terminate demo_socket [Byte.x01] (mkPacketStream 65536) [] (mkStreamOS [Byte.x00] [] [])
    ltac:(vm_compute; reflexivity) StreamOS_recv_bounded) as (_ & _ & out' & os' & res & Hr & _).
  split.
  - exact (proj1 (transfers_terminate demo_socket [Byte.x01] (mkPacketStream 65536) [] (mkStreamOS [] [] [])
      ltac:(vm_compute; reflexivity) StreamOS_recv_bounded)).
  - by exists out', os', res.
Defined.
