(* ===== verification/Doubles.v ===== *)
(** * Doubles: the floating-point arithmetic of the metrics

    A [double] is a number of the executable specification of IEEE 754 binary64
    ([SpecFloat]).  The metrics add, divide, compare and convert integers; every
    operation rounds to the nearest, ties to even.  What is proved here is about the
    order: [std::max] against it, whatever the operations before it produced. *)

From S2P Require Import Prelude.
From Stdlib Require Import SpecFloat.
From stdpp Require Import base numbers list option sets.
Open Scope Z_scope.

Abbreviation double := spec_float.

(** [static_cast<double>(z)]. *)
Definition d_of_Z (z : Z) : double := binary_normalize 53 1024 z 0 false.

Definition d_zero : double := S754_zero false.
Definition d_add : double -> double -> double := SFadd 53 1024.
Definition d_mul : double -> double -> double := SFmul 53 1024.
Definition d_div : double -> double -> double := SFdiv 53 1024.
Definition d_ltb : double -> double -> bool := SFltb.
Definition d_leb : double -> double -> bool := SFleb.

(** The literal [1e-7]: the quotient of two exact numbers is rounded once. *)
Definition d_1e_7 : double := d_div (d_of_Z 1) (d_of_Z 10000000).

(** [std::max(a, b)]: [(a < b) ? b : a]. *)
Definition d_max (a b : double) : double := if d_ltb a b then b else a.

(** ** The order *)

(** Where a number stands: the order is the lexicographic one of these triples. *)
Definition d_key (f : double) : Z * Z * Z :=
  match f with
  | S754_infinity true => (-2, 0, 0)
  | S754_finite true m e => (-1, - e, - Z.pos m)
  | S754_zero _ | S754_nan => (0, 0, 0)
  | S754_finite false m e => (1, e, Z.pos m)
  | S754_infinity false => (2, 0, 0)
  end.

Definition is_number (f : double) : bool := match f with S754_nan => false | _ => true end.

Definition key_le (a b : Z * Z * Z) : Prop :=
  a.1.1 < b.1.1 \/ a.1.1 = b.1.1 /\ (a.1.2 < b.1.2 \/ a.1.2 = b.1.2 /\ a.2 <= b.2).

(** Both comparisons at once, by cases on the classes and the signs. *)
Lemma SFcompare_key a b :
  is_number a = true -> is_number b = true ->
  (d_leb a b = true <-> key_le (d_key a) (d_key b)) /\ (d_ltb a b = true <-> ~ key_le (d_key b) (d_key a)).
Proof.
  unfold d_leb, d_ltb, SFleb, SFltb, key_le.
  destruct a as [sa|[]| |[] ma ea]; destruct b as [sb|[]| |[] mb eb]; intros Ha Hb; try discriminate;
    cbn [SFcompare d_key fst snd]; try (split; split; intros; first [lia|done]);
    destruct (Z.compare_spec ea eb); change (Pos.compare_cont Eq ma mb) with (Pos.compare ma mb);
    try destruct (Pos.compare_spec ma mb); cbn [CompOpp]; split; split; intros; first [lia|done].
Qed.

Lemma d_leb_key a b :
  is_number a = true -> is_number b = true -> (d_leb a b = true <-> key_le (d_key a) (d_key b)).
Proof. intros. by apply SFcompare_key. Qed.

Lemma d_ltb_key a b :
  is_number a = true -> is_number b = true -> (d_ltb a b = true <-> ~ key_le (d_key b) (d_key a)).
Proof. intros. by apply SFcompare_key. Qed.

Lemma key_le_dec a b : {key_le a b} + {~ key_le a b}.
Proof. unfold key_le. solve_decision. Defined.

Lemma key_le_trans a b c : key_le a b -> key_le b c -> key_le a c.
Proof. unfold key_le. lia. Qed.

Lemma d_ltb_nan a b : is_number a && is_number b = false -> d_ltb a b = false.
Proof. unfold d_ltb, SFltb. by destruct a as [|[]| |[]], b as [|[]| |[]]. Qed.

(** *** [std::max]

    A maximum that starts as a number stays one: what is not a number compares false. *)

Lemma d_max_number a b : is_number a = true -> is_number (d_max a b) = true.
Proof.
  intros Ha. unfold d_max. destruct (d_ltb a b) eqn:Hl; [|done].
  destruct (is_number b) eqn:Hb; [done|]. rewrite d_ltb_nan in Hl; [done|by rewrite Ha, Hb].
Qed.

Lemma d_max_l a b : is_number a = true -> d_leb a (d_max a b) = true.
Proof.
  intros Ha. apply d_leb_key; [done|by apply d_max_number|]. unfold d_max.
  destruct (d_ltb a b) eqn:Hl; [|unfold key_le; lia].
  destruct (is_number b) eqn:Hb; [|rewrite d_ltb_nan in Hl; [done|by rewrite Ha, Hb]].
  apply d_ltb_key in Hl; [|done..]. unfold key_le in *. lia.
Qed.

Lemma d_max_r a b : is_number a = true -> is_number b = true -> d_leb b (d_max a b) = true.
Proof.
  intros Ha Hb. apply d_leb_key; [done|by apply d_max_number|]. unfold d_max.
  destruct (d_ltb a b) eqn:Hl; [unfold key_le; lia|].
  destruct (key_le_dec (d_key b) (d_key a)) as [|Hn]; [done|]. by apply d_ltb_key in Hn; [rewrite Hn in Hl|..].
Qed.

Lemma d_max_one a b : d_max a b = a \/ d_max a b = b.
Proof. unfold d_max. destruct (d_ltb a b); auto. Qed.

Lemma d_leb_trans a b c : d_leb a b = true -> d_leb b c = true -> d_leb a c = true.
Proof.
  assert (forall x y, d_leb x y = true -> is_number x = true /\ is_number y = true) as Hn.
  { intros x y. unfold d_leb, SFleb. by destruct x as [|[]| |[]], y as [|[]| |[]]. }
  intros H1 H2. destruct (Hn _ _ H1) as [Ha Hb]. destruct (Hn _ _ H2) as [_ Hc].
  apply d_leb_key in H1, H2; [|done..]. apply d_leb_key; [done..|]. by eapply key_le_trans.
Qed.

(** *** The maximum of what was observed *)

Definition d_maxima (seen : list double) : double := foldl d_max d_zero seen.

Lemma d_maxima_snoc seen x : d_maxima (seen ++ [x]) = d_max (d_maxima seen) x.
Proof. unfold d_maxima. by rewrite foldl_app. Qed.

(** It is zero or one of the numbers seen, and none of them is greater. *)
Lemma d_maxima_spec seen :
  is_number (d_maxima seen) = true /\ (d_maxima seen = d_zero \/ d_maxima seen ∈ seen) /\
  (forall x, x ∈ seen -> is_number x = true -> d_leb x (d_maxima seen) = true).
Proof.
  induction seen as [|y seen (Hn & Hin & Hle)] using rev_ind.
  { split_and!; [done|by left|]. by intros x ?%elem_of_nil. }
  rewrite d_maxima_snoc. split_and!; [by apply d_max_number| |].
  - destruct (d_max_one (d_maxima seen) y) as [->| ->]; [|right; set_solver].
    destruct Hin as [|]; [by left|right; set_solver].
  - intros x [Hx| ->%list_elem_of_singleton]%elem_of_app Hxn; [|by apply d_max_r].
    eapply d_leb_trans; [by apply Hle|by apply d_max_l].
Qed.
