(* ===== verification/ServerMetrics.v ===== *)
(** * Server metrics: counters, gauges, timing windows

    [lib/inc/metrics/server/IServerMetrics.h], the two implementations
    [impl/AtomicServerMetrics] and [impl/NullServerMetrics],
    [lib/inc/metrics/TimingWindow.h] and [ServerMetricsSnapshot.h].

    Counters are [uint64_t] atomics and gauges [int64_t] atomics; both wrap.
    [ObserveMax] is not one atomic operation: its interleavings are studied in
    Maxima.v. *)

From S2P Require Import Prelude.
From stdpp Require Import base list option relations.
From coqutil Require Import Datatypes.RecordSetters.
Import DoubleBraceUpdate.
Open Scope Z_scope.

(** @src lib/inc/metrics/TimingWindow.h 6-9 TimingWindow *)
Record TimingWindow := mkTimingWindow {
  tw_count : Z; totalNanoseconds : Z; maxNanoseconds : Z }.

Definition TimingWindow_zero : TimingWindow := mkTimingWindow 0 0 0.

(** The values read from the atomics; the process samples and the timestamp of
    the snapshot are the writer's business. *)
(** @src lib/inc/metrics/server/ServerMetricsSnapshot.h 9-39 ServerMetricsSnapshot *)
Record ServerMetricsSnapshot := mkSnapshot {
  sn_capturedAt : Z;
  sn_acceptTotal : Z; sn_disconnectTotal : Z;
  sn_recvPacketsTotal : Z; sn_sendPacketsTotal : Z;
  sn_recvBytesTotal : Z; sn_sendBytesTotal : Z; sn_sendFailTotal : Z;
  sn_packetValidationTotal : Z; sn_packetValidationFailureTotal : Z;
  sn_connectedClients : Z; sn_pendingAcceptCount : Z; sn_pendingRecvCount : Z;
  sn_pendingSendCount : Z; sn_dispatcherQueueLength : Z; sn_runnableWorkerThreadCount : Z;
  sn_queueWait : TimingWindow; sn_dispatchProcess : TimingWindow;
  sn_tickDuration : TimingWindow; sn_tickLag : TimingWindow }.

(** ** The interface *)

(** @src lib/inc/metrics/server/IServerMetrics.h 7-42 IServerMetrics *)
Class IServerMetrics (M : Type) := {
  OnAcceptPosted : M -> M;
  OnAcceptPostFailed : M -> M;
  OnAcceptCompleted : M -> M;
  OnAcceptCompletionFailed : M -> M;
  OnClientConnected : M -> M;
  OnClientDisconnected : M -> M;
  OnRecvPosted : M -> M;
  OnRecvPostFailed : M -> M;
  OnRecvCompleted : Z -> bool -> M -> M;
  OnSendPosted : M -> M;
  OnSendPostFailed : M -> M;
  OnSendCompleted : Z -> bool -> M -> M;
  OnWorkerDispatchBegin : M -> M;
  OnWorkerDispatchEnd : M -> M;
  OnPacketValidationSucceeded : M -> M;
  OnPacketValidationFailed : M -> M;
  OnQueuePushed : Z -> M -> M;
  OnQueueDrained : Z -> M -> M;
  ObserveQueueWait : Z -> M -> M;
  ObserveDispatchProcess : Z -> M -> M;
  ObserveTickDuration : Z -> M -> M;
  ObserveTickLag : Z -> M -> M;
  TakeSnapshot : Z -> M -> M * ServerMetricsSnapshot
}.

(** ** AtomicServerMetrics *)

(** @src lib/inc/metrics/server/impl/AtomicServerMetrics.h 55-76 AtomicServerMetrics *)
Record AtomicServerMetrics := mkAtomicServerMetrics {
  _acceptTotal : Z; _disconnectTotal : Z;
  _recvPacketsTotal : Z; _sendPacketsTotal : Z;
  _recvBytesTotal : Z; _sendBytesTotal : Z; _sendFailTotal : Z;
  _packetValidationTotal : Z; _packetValidationFailureTotal : Z;
  _connectedClients : Z; _pendingAcceptCount : Z; _pendingRecvCount : Z;
  _pendingSendCount : Z; _dispatcherQueueLength : Z; _runnableWorkerThreadCount : Z;
  _queueWait : TimingWindow; _dispatchProcess : TimingWindow;
  _tickDuration : TimingWindow; _tickLag : TimingWindow }.

Definition AtomicServerMetrics_init : AtomicServerMetrics :=
  mkAtomicServerMetrics 0 0 0 0 0 0 0 0 0 0 0 0 0 0 0
    TimingWindow_zero TimingWindow_zero TimingWindow_zero TimingWindow_zero.

(** [fetch_add] on a [uint64_t] counter. *)
Definition fetch_add_u64 (delta v : Z) : Z := u64 (v + delta).

(** @src lib/src/metrics/server/impl/AtomicServerMetrics.cpp 6-8 AtomicServerMetrics::Increment *)
Definition Increment (delta value : Z) : Z := i64 (value + delta).

(** @src lib/src/metrics/server/impl/AtomicServerMetrics.cpp 10-12 AtomicServerMetrics::Decrement *)
Definition Decrement (delta value : Z) : Z := i64 (value - delta).

(** @src lib/src/metrics/server/impl/AtomicServerMetrics.cpp 14-18 AtomicServerMetrics::ObserveMax *)
Definition ObserveMax (value currentMax : Z) : Z :=
  if value >? currentMax then value else currentMax.

(** @src lib/src/metrics/server/impl/AtomicServerMetrics.cpp 20-24 AtomicServerMetrics::ObserveWindow *)
Definition ObserveWindow (nanoseconds : Z) (w : TimingWindow) : TimingWindow :=
  w {{ tw_count ::= fetch_add_u64 1;
       totalNanoseconds ::= fetch_add_u64 nanoseconds;
       maxNanoseconds ::= ObserveMax nanoseconds }}.

(** The three exchanges: the window read, and what remains. *)
(** @src lib/src/metrics/server/impl/AtomicServerMetrics.cpp 26-32 AtomicServerMetrics::DrainWindow *)
Definition DrainWindow (w : TimingWindow) : TimingWindow * TimingWindow :=
  ({| tw_count := tw_count w; totalNanoseconds := totalNanoseconds w;
      maxNanoseconds := maxNanoseconds w |},
   {| tw_count := 0; totalNanoseconds := 0; maxNanoseconds := 0 |}).

(** @src lib/src/metrics/server/impl/AtomicServerMetrics.cpp 34-36 AtomicServerMetrics::OnAcceptPosted *)
Definition Atomic_OnAcceptPosted (m : AtomicServerMetrics) := m {{ _pendingAcceptCount ::= Increment 1 }}.

(** @src lib/src/metrics/server/impl/AtomicServerMetrics.cpp 41-44 AtomicServerMetrics::OnAcceptCompleted *)
Definition Atomic_OnAcceptCompleted (m : AtomicServerMetrics) :=
  m {{ _pendingAcceptCount ::= Decrement 1; _acceptTotal ::= fetch_add_u64 1 }}.

(** @src lib/src/metrics/server/impl/AtomicServerMetrics.cpp 46-48 AtomicServerMetrics::OnAcceptCompletionFailed *)
Definition Atomic_OnAcceptCompletionFailed (m : AtomicServerMetrics) :=
  m {{ _pendingAcceptCount ::= Decrement 1 }}.

(** @src lib/src/metrics/server/impl/AtomicServerMetrics.cpp 50-52 AtomicServerMetrics::OnClientConnected *)
Definition Atomic_OnClientConnected (m : AtomicServerMetrics) := m {{ _connectedClients ::= Increment 1 }}.

(** @src lib/src/metrics/server/impl/AtomicServerMetrics.cpp 54-57 AtomicServerMetrics::OnClientDisconnected *)
Definition Atomic_OnClientDisconnected (m : AtomicServerMetrics) :=
  m {{ _connectedClients ::= Decrement 1; _disconnectTotal ::= fetch_add_u64 1 }}.

(** @src lib/src/metrics/server/impl/AtomicServerMetrics.cpp 59-61 AtomicServerMetrics::OnRecvPosted *)
Definition Atomic_OnRecvPosted (m : AtomicServerMetrics) := m {{ _pendingRecvCount ::= Increment 1 }}.

(** @src lib/src/metrics/server/impl/AtomicServerMetrics.cpp 66-74 AtomicServerMetrics::OnRecvCompleted *)
Definition Atomic_OnRecvCompleted (bytesTransferred : Z) (countPayload : bool) (m : AtomicServerMetrics) :=
  let m := m {{ _pendingRecvCount ::= Decrement 1 }} in
  if negb countPayload then m
  else m {{ _recvPacketsTotal ::= fetch_add_u64 1; _recvBytesTotal ::= fetch_add_u64 bytesTransferred }}.

(** @src lib/src/metrics/server/impl/AtomicServerMetrics.cpp 76-78 AtomicServerMetrics::OnSendPosted *)
Definition Atomic_OnSendPosted (m : AtomicServerMetrics) := m {{ _pendingSendCount ::= Increment 1 }}.

(** @src lib/src/metrics/server/impl/AtomicServerMetrics.cpp 80-82 AtomicServerMetrics::OnSendPostFailed *)
Definition Atomic_OnSendPostFailed (m : AtomicServerMetrics) := m {{ _sendFailTotal ::= fetch_add_u64 1 }}.

(** @src lib/src/metrics/server/impl/AtomicServerMetrics.cpp 84-92 AtomicServerMetrics::OnSendCompleted *)
Definition Atomic_OnSendCompleted (bytesTransferred : Z) (countPayload : bool) (m : AtomicServerMetrics) :=
  let m := m {{ _pendingSendCount ::= Decrement 1 }} in
  if negb countPayload then m
  else m {{ _sendPacketsTotal ::= fetch_add_u64 1; _sendBytesTotal ::= fetch_add_u64 bytesTransferred }}.

(** @src lib/src/metrics/server/impl/AtomicServerMetrics.cpp 94-96 AtomicServerMetrics::OnWorkerDispatchBegin *)
Definition Atomic_OnWorkerDispatchBegin (m : AtomicServerMetrics) :=
  m {{ _runnableWorkerThreadCount ::= Increment 1 }}.

(** @src lib/src/metrics/server/impl/AtomicServerMetrics.cpp 98-100 AtomicServerMetrics::OnWorkerDispatchEnd *)
Definition Atomic_OnWorkerDispatchEnd (m : AtomicServerMetrics) :=
  m {{ _runnableWorkerThreadCount ::= Decrement 1 }}.

(** @src lib/src/metrics/server/impl/AtomicServerMetrics.cpp 102-104 AtomicServerMetrics::OnPacketValidationSucceeded *)
Definition Atomic_OnPacketValidationSucceeded (m : AtomicServerMetrics) :=
  m {{ _packetValidationTotal ::= fetch_add_u64 1 }}.

(** @src lib/src/metrics/server/impl/AtomicServerMetrics.cpp 106-109 AtomicServerMetrics::OnPacketValidationFailed *)
Definition Atomic_OnPacketValidationFailed (m : AtomicServerMetrics) :=
  m {{ _packetValidationTotal ::= fetch_add_u64 1; _packetValidationFailureTotal ::= fetch_add_u64 1 }}.

(** The [size_t] count is cast to [int64_t]. *)
(** @src lib/src/metrics/server/impl/AtomicServerMetrics.cpp 111-113 AtomicServerMetrics::OnQueuePushed *)
Definition Atomic_OnQueuePushed (count : Z) (m : AtomicServerMetrics) :=
  m {{ _dispatcherQueueLength ::= Increment (i64 count) }}.

(** @src lib/src/metrics/server/impl/AtomicServerMetrics.cpp 115-117 AtomicServerMetrics::OnQueueDrained *)
Definition Atomic_OnQueueDrained (count : Z) (m : AtomicServerMetrics) :=
  m {{ _dispatcherQueueLength ::= Decrement (i64 count) }}.

(** @src lib/src/metrics/server/impl/AtomicServerMetrics.cpp 119-124 AtomicServerMetrics::ObserveQueueWait *)
Definition Atomic_ObserveQueueWait (duration : Z) (m : AtomicServerMetrics) :=
  if duration <? 0 then m else m {{ _queueWait ::= ObserveWindow duration }}.

(** @src lib/src/metrics/server/impl/AtomicServerMetrics.cpp 126-131 AtomicServerMetrics::ObserveDispatchProcess *)
Definition Atomic_ObserveDispatchProcess (duration : Z) (m : AtomicServerMetrics) :=
  if duration <? 0 then m else m {{ _dispatchProcess ::= ObserveWindow duration }}.

(** @src lib/src/metrics/server/impl/AtomicServerMetrics.cpp 133-138 AtomicServerMetrics::ObserveTickDuration *)
Definition Atomic_ObserveTickDuration (duration : Z) (m : AtomicServerMetrics) :=
  if duration <? 0 then m else m {{ _tickDuration ::= ObserveWindow duration }}.

(** @src lib/src/metrics/server/impl/AtomicServerMetrics.cpp 140-145 AtomicServerMetrics::ObserveTickLag *)
Definition Atomic_ObserveTickLag (duration : Z) (m : AtomicServerMetrics) :=
  if duration <? 0 then m else m {{ _tickLag ::= ObserveWindow duration }}.

(** @src lib/src/metrics/server/impl/AtomicServerMetrics.cpp 147-174 AtomicServerMetrics::TakeSnapshot *)
Definition Atomic_TakeSnapshot (capturedAt : Z) (m : AtomicServerMetrics)
    : AtomicServerMetrics * ServerMetricsSnapshot :=
  let '(queueWait, queueWait') := DrainWindow (_queueWait m) in
  let '(dispatchProcess, dispatchProcess') := DrainWindow (_dispatchProcess m) in
  let '(tickDuration, tickDuration') := DrainWindow (_tickDuration m) in
  let '(tickLag, tickLag') := DrainWindow (_tickLag m) in
  (m {{ _queueWait := queueWait'; _dispatchProcess := dispatchProcess';
        _tickDuration := tickDuration'; _tickLag := tickLag' }},
   {| sn_capturedAt := capturedAt;
      sn_acceptTotal := _acceptTotal m; sn_disconnectTotal := _disconnectTotal m;
      sn_recvPacketsTotal := _recvPacketsTotal m; sn_sendPacketsTotal := _sendPacketsTotal m;
      sn_recvBytesTotal := _recvBytesTotal m; sn_sendBytesTotal := _sendBytesTotal m;
      sn_sendFailTotal := _sendFailTotal m;
      sn_packetValidationTotal := _packetValidationTotal m;
      sn_packetValidationFailureTotal := _packetValidationFailureTotal m;
      sn_connectedClients := _connectedClients m; sn_pendingAcceptCount := _pendingAcceptCount m;
      sn_pendingRecvCount := _pendingRecvCount m; sn_pendingSendCount := _pendingSendCount m;
      sn_dispatcherQueueLength := _dispatcherQueueLength m;
      sn_runnableWorkerThreadCount := _runnableWorkerThreadCount m;
      sn_queueWait := queueWait; sn_dispatchProcess := dispatchProcess;
      sn_tickDuration := tickDuration; sn_tickLag := tickLag |}).

(** [OnAcceptPostFailed] and [OnRecvPostFailed] have empty bodies. *)
(** @src lib/inc/metrics/server/impl/AtomicServerMetrics.h 11-41 AtomicServerMetrics *)
Definition AtomicServerMetrics_methods : IServerMetrics AtomicServerMetrics := {|
  OnAcceptPosted := Atomic_OnAcceptPosted;
  OnAcceptPostFailed := fun m => m;
  OnAcceptCompleted := Atomic_OnAcceptCompleted;
  OnAcceptCompletionFailed := Atomic_OnAcceptCompletionFailed;
  OnClientConnected := Atomic_OnClientConnected;
  OnClientDisconnected := Atomic_OnClientDisconnected;
  OnRecvPosted := Atomic_OnRecvPosted;
  OnRecvPostFailed := fun m => m;
  OnRecvCompleted := Atomic_OnRecvCompleted;
  OnSendPosted := Atomic_OnSendPosted;
  OnSendPostFailed := Atomic_OnSendPostFailed;
  OnSendCompleted := Atomic_OnSendCompleted;
  OnWorkerDispatchBegin := Atomic_OnWorkerDispatchBegin;
  OnWorkerDispatchEnd := Atomic_OnWorkerDispatchEnd;
  OnPacketValidationSucceeded := Atomic_OnPacketValidationSucceeded;
  OnPacketValidationFailed := Atomic_OnPacketValidationFailed;
  OnQueuePushed := Atomic_OnQueuePushed;
  OnQueueDrained := Atomic_OnQueueDrained;
  ObserveQueueWait := Atomic_ObserveQueueWait;
  ObserveDispatchProcess := Atomic_ObserveDispatchProcess;
  ObserveTickDuration := Atomic_ObserveTickDuration;
  ObserveTickLag := Atomic_ObserveTickLag;
  TakeSnapshot := Atomic_TakeSnapshot |}.

#[export] Existing Instance AtomicServerMetrics_methods.

(** ** NullServerMetrics *)

(** @src lib/inc/metrics/server/impl/NullServerMetrics.h 6-6 NullServerMetrics *)
Inductive NullServerMetrics := Null.

(** A value-initialised snapshot. *)
Definition Snapshot_zero : ServerMetricsSnapshot :=
  mkSnapshot 0 0 0 0 0 0 0 0 0 0 0 0 0 0 0 0
    TimingWindow_zero TimingWindow_zero TimingWindow_zero TimingWindow_zero.

(** @src lib/inc/metrics/server/impl/NullServerMetrics.h 8-76 NullServerMetrics *)
Definition NullServerMetrics_methods : IServerMetrics NullServerMetrics := {|
  OnAcceptPosted := fun m => m;
  OnAcceptPostFailed := fun m => m;
  OnAcceptCompleted := fun m => m;
  OnAcceptCompletionFailed := fun m => m;
  OnClientConnected := fun m => m;
  OnClientDisconnected := fun m => m;
  OnRecvPosted := fun m => m;
  OnRecvPostFailed := fun m => m;
  OnRecvCompleted := fun _ _ m => m;
  OnSendPosted := fun m => m;
  OnSendPostFailed := fun m => m;
  OnSendCompleted := fun _ _ m => m;
  OnWorkerDispatchBegin := fun m => m;
  OnWorkerDispatchEnd := fun m => m;
  OnPacketValidationSucceeded := fun m => m;
  OnPacketValidationFailed := fun m => m;
  OnQueuePushed := fun _ m => m;
  OnQueueDrained := fun _ m => m;
  ObserveQueueWait := fun _ m => m;
  ObserveDispatchProcess := fun _ m => m;
  ObserveTickDuration := fun _ m => m;
  ObserveTickLag := fun _ m => m;
  TakeSnapshot := fun _ m => (m, Snapshot_zero) |}.

#[export] Existing Instance NullServerMetrics_methods.
