(* ===== verification/ClientMetrics.v ===== *)
(** * ClientMetrics: the metrics of a chat client

    [lib/inc/metrics/client/IClientMetrics.h], [ClientMetricsSnapshot.h], and the two
    implementations [impl/AtomicClientMetrics] and [impl/NoopClientMetrics].  A request
    that expects a response is tracked under its sequence number until a packet with
    that number and the expected type arrives or its deadline passes.

    The methods are operations of one thread at a time here; the compare-and-swap loop
    behind the maxima is studied under interleaving in Maxima.v.  Durations are
    nanoseconds. *)

From S2P Require Import Prelude Platform Doubles ServerMetrics.
From stdpp Require Import base numbers gmap list strings option.
From coqutil Require Import Datatypes.RecordSetters.
Import DoubleBraceUpdate.
Open Scope Z_scope.

(** ** Snapshots *)

(** @src lib/inc/metrics/client/ClientMetricsSnapshot.h 10-16 ClientDisconnectReason *)
Inductive ClientDisconnectReason := ReasonNone | ReasonTimeout | ServerClose | RecvFail | LocalClose.

#[export] Instance ClientDisconnectReason_eq_dec : EqDecision ClientDisconnectReason.
Proof. solve_decision. Defined.

(** @src lib/inc/metrics/client/ClientMetricsSnapshot.h 18-32 ToString *)
Definition DisconnectReason_ToString (reason : ClientDisconnectReason) : string :=
  match reason with
  | ReasonTimeout => "timeout"
  | ServerClose => "server close"
  | RecvFail => "recv fail"
  | LocalClose => "local close"
  | ReasonNone => "none"
  end.

(** The process samples [processCpuPercent] and [threadCount] are added by the writer. *)
(** @src lib/inc/metrics/client/ClientMetricsSnapshot.h 34-67 ClientMetricsSnapshot *)
Record ClientMetricsSnapshot := mkClientSnapshot {
  cs_capturedAt : Z;
  cs_connectSuccessTotal : Z; cs_connectFailureTotal : Z; cs_disconnectTotal : Z;
  cs_sendPacketsTotal : Z; cs_recvPacketsTotal : Z; cs_sendBytesTotal : Z; cs_recvBytesTotal : Z;
  cs_sendFailTotal : Z; cs_responseTimeoutTotal : Z;
  cs_packetValidationTotal : Z; cs_packetValidationFailureTotal : Z;
  cs_disconnectTimeoutTotal : Z; cs_disconnectServerCloseTotal : Z;
  cs_disconnectRecvFailTotal : Z; cs_disconnectLocalCloseTotal : Z;
  cs_connected : Z; cs_pendingRequestCount : Z;
  cs_connectLatency : TimingWindow; cs_requestRtt : TimingWindow;
  cs_lastConnectLatencyMs : double; cs_currentSessionUptimeMs : Z;
  cs_lastSessionUptimeMs : Z; cs_maxSessionUptimeMs : Z; cs_timeSinceLastRecvMs : Z;
  cs_lastDisconnectReason : ClientDisconnectReason }.

Definition ClientSnapshot_zero : ClientMetricsSnapshot :=
  mkClientSnapshot 0 0 0 0 0 0 0 0 0 0 0 0 0 0 0 0 0 0 TimingWindow_zero TimingWindow_zero d_zero 0 0 0 0 ReasonNone.

(** ** The interface

    A method may read the clock, so it takes and returns the system. *)

(** @src lib/inc/metrics/client/IClientMetrics.h 10-34 IClientMetrics *)
Class IClientMetrics (M OS : Type) := {
  cm_ObserveConnectLatency : Z -> bool -> M * OS -> M * OS;
  cm_OnConnected : M * OS -> M * OS;
  cm_OnDisconnected : ClientDisconnectReason -> M * OS -> M * OS;
  cm_OnSendCompleted : Z -> M * OS -> M * OS;
  cm_OnSendFailed : M * OS -> M * OS;
  cm_OnRecvCompleted : Z -> M * OS -> M * OS;
  cm_OnPacketValidationSucceeded : M * OS -> M * OS;
  cm_OnPacketValidationFailed : M * OS -> M * OS;
  cm_TrackRequest : Z -> Z -> Z -> M * OS -> ub (M * OS);
  cm_ResolveRequest : Z -> Z -> M * OS -> M * OS;
  cm_TakeSnapshot : M * OS -> M * OS * ClientMetricsSnapshot
}.

(** ** AtomicClientMetrics *)

(** @src lib/inc/metrics/client/impl/AtomicClientMetrics.h 42-46 AtomicClientMetrics::PendingRequest *)
Record PendingRequest := mkPendingRequest { responseType : Z; sentAtNs : Z; deadlineNs : Z }.

#[export] Instance PendingRequest_eq_dec : EqDecision PendingRequest.
Proof. solve_decision. Defined.

(** @src lib/inc/metrics/client/impl/AtomicClientMetrics.h 57-88 AtomicClientMetrics *)
Record AtomicClientMetrics := mkAtomicClientMetrics {
  _connectSuccessTotal : Z; _connectFailureTotal : Z; c_disconnectTotal : Z;
  c_sendPacketsTotal : Z; c_recvPacketsTotal : Z; c_sendBytesTotal : Z; c_recvBytesTotal : Z;
  c_sendFailTotal : Z; _responseTimeoutTotal : Z;
  c_packetValidationTotal : Z; c_packetValidationFailureTotal : Z;
  _disconnectTimeoutTotal : Z; _disconnectServerCloseTotal : Z;
  _disconnectRecvFailTotal : Z; _disconnectLocalCloseTotal : Z;
  _connected : Z; _lastConnectLatencyNs : Z; _sessionStartedAtNs : Z;
  _lastSessionUptimeNs : Z; _maxSessionUptimeNs : Z; _lastRecvAtNs : Z;
  _lastDisconnectReason : ClientDisconnectReason;
  _connectLatency : TimingWindow; _requestRtt : TimingWindow;
  _pendingRequests : gmap Z PendingRequest }.

Definition AtomicClientMetrics_init : AtomicClientMetrics :=
  mkAtomicClientMetrics 0 0 0 0 0 0 0 0 0 0 0 0 0 0 0 0 0 0 0 0 0 ReasonNone
    TimingWindow_zero TimingWindow_zero ∅.

Section Atomic.
Context {OS : Type} `{WinSock OS} `{UMapOrder}.
Implicit Types (m : AtomicClientMetrics) (os : OS).

(** @src lib/src/metrics/client/impl/AtomicClientMetrics.cpp 35-39 AtomicClientMetrics::NowSteadyNanoseconds *)
Definition NowSteadyNanoseconds os : OS * Z :=
  let '(os, r) := os_call SysSteadyClockNow os in (os, u64 (i64 (ret r))).

(** The loop of [ObserveMax] with no other thread between its load and its exchange:
    the exchange succeeds, or (it is the weak one) it fails for no reason and is tried
    again with the same values. *)
(** @src lib/src/metrics/client/impl/AtomicClientMetrics.cpp 10-19 AtomicClientMetrics::ObserveMax *)
Definition Cm_ObserveMax (value currentMax : Z) : Z := if currentMax <? value then value else currentMax.

(** @src lib/src/metrics/client/impl/AtomicClientMetrics.cpp 21-25 AtomicClientMetrics::ObserveWindow *)
Definition Cm_ObserveWindow (nanoseconds : Z) (w : TimingWindow) : TimingWindow :=
  w {{ tw_count ::= fetch_add_u64 1;
       totalNanoseconds ::= fetch_add_u64 nanoseconds;
       maxNanoseconds ::= Cm_ObserveMax nanoseconds }}.

(** The window read, and what remains. *)
(** @src lib/src/metrics/client/impl/AtomicClientMetrics.cpp 27-33 AtomicClientMetrics::DrainWindow *)
Definition Cm_DrainWindow (w : TimingWindow) : TimingWindow * TimingWindow :=
  (mkTimingWindow (tw_count w) (totalNanoseconds w) (maxNanoseconds w), mkTimingWindow 0 0 0).

(** @src lib/src/metrics/client/impl/AtomicClientMetrics.cpp 41-59 AtomicClientMetrics::ObserveDisconnectReason *)
Definition ObserveDisconnectReason (reason : ClientDisconnectReason) m : AtomicClientMetrics :=
  match reason with
  | ReasonTimeout => m {{ _disconnectTimeoutTotal ::= fetch_add_u64 1 }}
  | ServerClose => m {{ _disconnectServerCloseTotal ::= fetch_add_u64 1 }}
  | RecvFail => m {{ _disconnectRecvFailTotal ::= fetch_add_u64 1 }}
  | LocalClose => m {{ _disconnectLocalCloseTotal ::= fetch_add_u64 1 }}
  | ReasonNone => m
  end.

(** @src lib/src/metrics/client/impl/AtomicClientMetrics.cpp 61-75 AtomicClientMetrics::ObserveConnectLatency *)
Definition Cm_ObserveConnectLatency (duration : Z) (success : bool) m : AtomicClientMetrics :=
  if duration <? 0 then m
  else
    let durationNs := u64 duration in
    let m := m {{ _connectLatency ::= Cm_ObserveWindow durationNs }} in
    let m := m {{ _lastConnectLatencyNs := durationNs }} in
    if success then m {{ _connectSuccessTotal ::= fetch_add_u64 1 }}
    else m {{ _connectFailureTotal ::= fetch_add_u64 1 }}.

(** @src lib/src/metrics/client/impl/AtomicClientMetrics.cpp 77-82 AtomicClientMetrics::OnConnected *)
Definition Cm_OnConnected (s : AtomicClientMetrics * OS) : AtomicClientMetrics * OS :=
  let '(m, os) := s in
  let '(os, nowNs) := NowSteadyNanoseconds os in
  (m {{ _connected := 1; _sessionStartedAtNs := nowNs; _lastRecvAtNs := nowNs }}, os).

(** @src lib/src/metrics/client/impl/AtomicClientMetrics.cpp 84-99 AtomicClientMetrics::OnDisconnected *)
Definition Cm_OnDisconnected (reason : ClientDisconnectReason) (s : AtomicClientMetrics * OS)
    : AtomicClientMetrics * OS :=
  let '(m, os) := s in
  let '(os, nowNs) := NowSteadyNanoseconds os in
  let m := m {{ _connected := 0; c_disconnectTotal ::= fetch_add_u64 1; _lastDisconnectReason := reason }} in
  let m := ObserveDisconnectReason reason m in
  let sessionStartedAtNs := _sessionStartedAtNs m in
  let m := m {{ _sessionStartedAtNs := 0 }} in
  if (sessionStartedAtNs =? 0) || (nowNs <? sessionStartedAtNs) then (m, os)
  else
    let sessionUptimeNs := nowNs - sessionStartedAtNs in
    (m {{ _lastSessionUptimeNs := sessionUptimeNs; _maxSessionUptimeNs ::= Cm_ObserveMax sessionUptimeNs }}, os).

(** @src lib/src/metrics/client/impl/AtomicClientMetrics.cpp 101-104 AtomicClientMetrics::OnSendCompleted *)
Definition Cm_OnSendCompleted (bytesTransferred : Z) m : AtomicClientMetrics :=
  m {{ c_sendPacketsTotal ::= fetch_add_u64 1; c_sendBytesTotal ::= fetch_add_u64 bytesTransferred }}.

(** @src lib/src/metrics/client/impl/AtomicClientMetrics.cpp 106-108 AtomicClientMetrics::OnSendFailed *)
Definition Cm_OnSendFailed m : AtomicClientMetrics := m {{ c_sendFailTotal ::= fetch_add_u64 1 }}.

(** @src lib/src/metrics/client/impl/AtomicClientMetrics.cpp 110-114 AtomicClientMetrics::OnRecvCompleted *)
Definition Cm_OnRecvCompleted (bytesTransferred : Z) (s : AtomicClientMetrics * OS) : AtomicClientMetrics * OS :=
  let '(m, os) := s in
  let m := m {{ c_recvPacketsTotal ::= fetch_add_u64 1; c_recvBytesTotal ::= fetch_add_u64 bytesTransferred }} in
  let '(os, nowNs) := NowSteadyNanoseconds os in
  (m {{ _lastRecvAtNs := nowNs }}, os).

(** @src lib/src/metrics/client/impl/AtomicClientMetrics.cpp 116-118 AtomicClientMetrics::OnPacketValidationSucceeded *)
Definition Cm_OnPacketValidationSucceeded m : AtomicClientMetrics :=
  m {{ c_packetValidationTotal ::= fetch_add_u64 1 }}.

(** @src lib/src/metrics/client/impl/AtomicClientMetrics.cpp 120-123 AtomicClientMetrics::OnPacketValidationFailed *)
Definition Cm_OnPacketValidationFailed m : AtomicClientMetrics :=
  m {{ c_packetValidationTotal ::= fetch_add_u64 1; c_packetValidationFailureTotal ::= fetch_add_u64 1 }}.

(** [duration_cast<nanoseconds>] of a positive millisecond count multiplies an
    [int64_t]: out of range, the behaviour is undefined. *)
(** @src lib/src/metrics/client/impl/AtomicClientMetrics.cpp 134-137 AtomicClientMetrics::TrackRequest *)
Definition timeout_ns (timeout : Z) : ub Z :=
  if 0 <? timeout then
    if timeout * 1000000 <? 2 ^ 63 then Some (timeout * 1000000) else None
  else Some 0.

(** @src lib/src/metrics/client/impl/AtomicClientMetrics.cpp 125-145 AtomicClientMetrics::TrackRequest *)
Definition Cm_TrackRequest (sequence responseType timeout : Z) (s : AtomicClientMetrics * OS)
    : ub (AtomicClientMetrics * OS) :=
  let '(m, os) := s in
  if (sequence =? 0) || (responseType =? 0) then Some (m, os)
  else
    let '(os, nowNs) := NowSteadyNanoseconds os in
    timeoutNs ← timeout_ns timeout;
    let request := mkPendingRequest responseType nowNs (if 0 <? timeoutNs then u64 (nowNs + timeoutNs) else 0) in
    Some (m {{ _pendingRequests ::= insert sequence request }}, os).

(** @src lib/src/metrics/client/impl/AtomicClientMetrics.cpp 147-171 AtomicClientMetrics::ResolveRequest *)
Definition Cm_ResolveRequest (sequence receivedType : Z) (s : AtomicClientMetrics * OS) : AtomicClientMetrics * OS :=
  let '(m, os) := s in
  if sequence =? 0 then (m, os)
  else
    let '(os, nowNs) := NowSteadyNanoseconds os in
    match _pendingRequests m !! sequence with
    | None => (m, os)
    | Some found =>
        if negb (responseType found =? receivedType) then (m, os)
        else
          let m := if sentAtNs found <=? nowNs
                   then m {{ _requestRtt ::= Cm_ObserveWindow (nowNs - sentAtNs found) }} else m in
          (m {{ _pendingRequests ::= delete sequence }}, os)
    end.

(** @src lib/src/metrics/client/impl/AtomicClientMetrics.cpp 177-177 AtomicClientMetrics::ExpireTimedOutRequests *)
Definition expired (nowNs : Z) (r : PendingRequest) : bool :=
  negb (deadlineNs r =? 0) && (deadlineNs r <=? nowNs).

(** The loop visits the entries in the order of the map and erases as it goes. *)
(** @src lib/src/metrics/client/impl/AtomicClientMetrics.cpp 173-184 AtomicClientMetrics::ExpireTimedOutRequests *)
Definition ExpireTimedOutRequests (nowNs : Z) m : AtomicClientMetrics :=
  foldl (fun m '(k, r) =>
    if expired nowNs r
    then m {{ _responseTimeoutTotal ::= fetch_add_u64 1; _pendingRequests ::= delete k }} else m)
    m (umap_order (_pendingRequests m)).

(** @src lib/src/metrics/client/impl/AtomicClientMetrics.cpp 186-239 AtomicClientMetrics::TakeSnapshot *)
Definition Cm_TakeSnapshot (s : AtomicClientMetrics * OS) : AtomicClientMetrics * OS * ClientMetricsSnapshot :=
  let '(m, os) := s in
  let '(os, nowNs) := NowSteadyNanoseconds os in
  let m := ExpireTimedOutRequests nowNs m in
  let '(os, capturedAt) := os_call SysSystemClockNow os in
  let '(connectLatency, connectLatency') := Cm_DrainWindow (_connectLatency m) in
  let '(requestRtt, requestRtt') := Cm_DrainWindow (_requestRtt m) in
  (m {{ _connectLatency := connectLatency'; _requestRtt := requestRtt' }}, os,
   {| cs_capturedAt := ret capturedAt;
      cs_connectSuccessTotal := _connectSuccessTotal m; cs_connectFailureTotal := _connectFailureTotal m;
      cs_disconnectTotal := c_disconnectTotal m;
      cs_sendPacketsTotal := c_sendPacketsTotal m; cs_recvPacketsTotal := c_recvPacketsTotal m;
      cs_sendBytesTotal := c_sendBytesTotal m; cs_recvBytesTotal := c_recvBytesTotal m;
      cs_sendFailTotal := c_sendFailTotal m; cs_responseTimeoutTotal := _responseTimeoutTotal m;
      cs_packetValidationTotal := c_packetValidationTotal m;
      cs_packetValidationFailureTotal := c_packetValidationFailureTotal m;
      cs_disconnectTimeoutTotal := _disconnectTimeoutTotal m;
      cs_disconnectServerCloseTotal := _disconnectServerCloseTotal m;
      cs_disconnectRecvFailTotal := _disconnectRecvFailTotal m;
      cs_disconnectLocalCloseTotal := _disconnectLocalCloseTotal m;
      cs_connected := _connected m; cs_pendingRequestCount := u32 (Z.of_nat (size (_pendingRequests m)));
      cs_connectLatency := connectLatency; cs_requestRtt := requestRtt;
      cs_lastConnectLatencyMs := d_div (d_of_Z (_lastConnectLatencyNs m)) (d_of_Z 1000000);
      cs_currentSessionUptimeMs :=
        if (0 <? _connected m) && (0 <? _sessionStartedAtNs m) && (_sessionStartedAtNs m <=? nowNs)
        then (nowNs - _sessionStartedAtNs m) / 1000000 else 0;
      cs_lastSessionUptimeMs := _lastSessionUptimeNs m / 1000000;
      cs_maxSessionUptimeMs := _maxSessionUptimeNs m / 1000000;
      cs_timeSinceLastRecvMs :=
        if (0 <? _lastRecvAtNs m) && (_lastRecvAtNs m <=? nowNs) then (nowNs - _lastRecvAtNs m) / 1000000 else 0;
      cs_lastDisconnectReason := _lastDisconnectReason m |}).

(** @src lib/inc/metrics/client/impl/AtomicClientMetrics.h 14-33 AtomicClientMetrics *)
Definition AtomicClientMetrics_methods : IClientMetrics AtomicClientMetrics OS := {|
  cm_ObserveConnectLatency := fun d ok '(m, os) => (Cm_ObserveConnectLatency d ok m, os);
  cm_OnConnected := Cm_OnConnected;
  cm_OnDisconnected := Cm_OnDisconnected;
  cm_OnSendCompleted := fun k '(m, os) => (Cm_OnSendCompleted k m, os);
  cm_OnSendFailed := fun '(m, os) => (Cm_OnSendFailed m, os);
  cm_OnRecvCompleted := Cm_OnRecvCompleted;
  cm_OnPacketValidationSucceeded := fun '(m, os) => (Cm_OnPacketValidationSucceeded m, os);
  cm_OnPacketValidationFailed := fun '(m, os) => (Cm_OnPacketValidationFailed m, os);
  cm_TrackRequest := Cm_TrackRequest;
  cm_ResolveRequest := Cm_ResolveRequest;
  cm_TakeSnapshot := Cm_TakeSnapshot |}.

#[export] Existing Instance AtomicClientMetrics_methods.

(** ** NoopClientMetrics *)

(** @src lib/inc/metrics/client/impl/NoopClientMetrics.h 6-6 NoopClientMetrics *)
Inductive NoopClientMetrics := Noop.

(** @src lib/inc/metrics/client/impl/NoopClientMetrics.h 8-27 NoopClientMetrics *)
Definition NoopClientMetrics_methods : IClientMetrics NoopClientMetrics OS := {|
  cm_ObserveConnectLatency := fun _ _ s => s;
  cm_OnConnected := fun s => s;
  cm_OnDisconnected := fun _ s => s;
  cm_OnSendCompleted := fun _ s => s;
  cm_OnSendFailed := fun s => s;
  cm_OnRecvCompleted := fun _ s => s;
  cm_OnPacketValidationSucceeded := fun s => s;
  cm_OnPacketValidationFailed := fun s => s;
  cm_TrackRequest := fun _ _ _ s => Some s;
  cm_ResolveRequest := fun _ _ s => s;
  cm_TakeSnapshot := fun s => (s, ClientSnapshot_zero) |}.

#[export] Existing Instance NoopClientMetrics_methods.
End Atomic.

(** ** Every request is accounted for *)

(** The expired entries leave the map, each counted once. *)
Lemma expire_loop {UO : UMapOrder} now l m :
  NoDup l.*1 -> (forall k r, (k, r) ∈ l -> _pendingRequests m !! k = Some r) ->
  let m' := foldl (fun m '(k, r) =>
    if expired now r
    then m {{ _responseTimeoutTotal ::= fetch_add_u64 1; _pendingRequests ::= delete k }} else m) m l in
  _pendingRequests m' = filter (fun kr => ~ (kr ∈ l /\ expired now kr.2 = true)) (_pendingRequests m) /\
  u64 (_responseTimeoutTotal m' + Z.of_nat (size (_pendingRequests m'))) =
    u64 (_responseTimeoutTotal m + Z.of_nat (size (_pendingRequests m))) /\
  _requestRtt m' = _requestRtt m.
Proof.
  revert m. induction l as [|[k r] l IH]; intros m Hnd Hin; cbn [foldl].
  - split_and!; [|done|done]. symmetry. apply map_filter_id. intros i x _ [Hx _]. by apply elem_of_nil in Hx.
  - cbn in Hnd. inversion Hnd as [|?? Hk Hnd']; subst.
    assert (Hkr : _pendingRequests m !! k = Some r) by (apply Hin, elem_of_cons; by left).
    assert (Hout : forall r', (k, r') ∉ l).
    { intros r' Hr'. apply Hk. apply list_elem_of_fmap. by exists (k, r'). }
    destruct (expired now r) eqn:He.
    + set (m1 := m {{ _responseTimeoutTotal ::= fetch_add_u64 1; _pendingRequests ::= delete k }}).
      assert (_pendingRequests m1 = delete k (_pendingRequests m) /\ _requestRtt m1 = _requestRtt m /\
        _responseTimeoutTotal m1 = u64 (_responseTimeoutTotal m + 1)) as (Hp & Hr1 & Ht) by (by destruct m).
      destruct (IH m1 Hnd') as (H1 & H2 & H3).
      { intros k' r' Hl. rewrite Hp, lookup_delete_ne; [apply Hin, elem_of_cons; by right|].
        intros <-. by apply (Hout r'). }
      split_and!; [|rewrite H2, Hp, Ht|by rewrite H3].
      * rewrite H1, Hp. apply map_eq. intros i. apply option_eq. intros x.
        rewrite !map_lookup_filter_Some, lookup_delete_Some. split.
        -- intros ((Hne & Hx) & Hnot). split; [done|]. intros [[Heq|Hl]%elem_of_cons Hex]; [by simplify_eq|by apply Hnot].
        -- intros (Hx & Hnot). split; [split; [|done]|].
           ++ intros <-. apply Hnot. rewrite Hkr in Hx. injection Hx as <-. split; [by left|done].
           ++ intros [Hl Hex]. apply Hnot. split; [by right|done].
      * rewrite map_size_delete_Some by (by exists r).
        assert (size (_pendingRequests m) <> 0)%nat by (apply map_size_ne_0_lookup; by exists k, r).
        unfold wrap. rewrite Zplus_mod_idemp_l. f_equal. lia.
    + destruct (IH m Hnd') as (H1 & H2 & H3).
      { intros k' r' Hl. apply Hin, elem_of_cons. by right. }
      split_and!; [|done|done]. rewrite H1. apply map_filter_ext. intros i x Hx. split; intros Hnot [Hl Hex]; apply Hnot.
      * split; [|done]. apply elem_of_cons in Hl as [Heq|Hl]; [|done]. cbn in Hex. injection Heq as -> ->. congruence.
      * split; [by right|done].
Qed.

Lemma Expire_spec {UO : UMapOrder} now m :
  let m' := ExpireTimedOutRequests now m in
  _pendingRequests m' = filter (fun kr => expired now kr.2 = false) (_pendingRequests m) /\
  u64 (_responseTimeoutTotal m' + Z.of_nat (size (_pendingRequests m'))) =
    u64 (_responseTimeoutTotal m + Z.of_nat (size (_pendingRequests m))) /\
  _requestRtt m' = _requestRtt m.
Proof.
  destruct (expire_loop now (umap_order (_pendingRequests m)) m) as (H1 & H2 & H3).
  - rewrite umap_order_perm. apply NoDup_fst_map_to_list.
  - intros k r Hk. by apply elem_of_umap_order.
  - split; [|done]. unfold ExpireTimedOutRequests. rewrite H1. apply map_filter_ext. intros i x Hx. cbn.
    rewrite elem_of_umap_order. split.
    + intros Hn. apply not_true_is_false. intros He. by apply Hn.
    + intros He [_ He']. congruence.
Qed.

(** The operations on requests, the clock being a system call. *)
Inductive RequestOp :=
  | OpTrack (sequence responseType timeout : Z)
  | OpResolve (sequence receivedType : Z)
  | OpSnapshot.

(** What an operation does to the tally of requests: how many it opens (a request that
    reuses a pending number replaces it), answers, and reports in a drained window. *)
Record Tally := mkTally { opened : Z; answered : Z; reported : Z }.

(** A clock that does not go back, and of which the calls of the metrics read. *)
Class SteadyClock (OS : Type) `{WinSock OS} := {
  clock : OS -> Z;
  clock_range : forall os, 0 <= clock os;
  clock_steady : forall os, let '(os', t) := NowSteadyNanoseconds os in clock os <= t /\ clock os' = t;
  clock_other : forall os, clock (os_call SysSystemClockNow os).1 = clock os
}.

Section Requests.
Context {OS : Type} `{SteadyClock OS} {UO : UMapOrder}.
Implicit Types (s : AtomicClientMetrics * OS) (t : Tally).

Definition request_step (op : RequestOp) s t : ub (AtomicClientMetrics * OS * Tally) :=
  let pending := _pendingRequests s.1 in
  match op with
  | OpTrack seq ty timeout =>
      s' ← Cm_TrackRequest seq ty timeout s;
      let new := negb (seq =? 0) && negb (ty =? 0) && bool_decide (pending !! seq = None) in
      Some (s', mkTally (opened t + Z.b2z new) (answered t) (reported t))
  | OpResolve seq ty =>
      let hit := match pending !! seq with Some r => negb (seq =? 0) && (responseType r =? ty) | None => false end in
      Some (Cm_ResolveRequest seq ty s, mkTally (opened t) (answered t + Z.b2z hit) (reported t))
  | OpSnapshot =>
      let '(s', snap) := Cm_TakeSnapshot s in
      Some (s', mkTally (opened t) (answered t) (reported t + tw_count (cs_requestRtt snap)))
  end.

Fixpoint request_run (ops : list RequestOp) s t : ub (AtomicClientMetrics * OS * Tally) :=
  match ops with
  | [] => Some (s, t)
  | op :: ops => '(s, t) ← request_step op s t; request_run ops s t
  end.

(** Requests opened are answered, timed out or pending; those answered are in a window. *)
Definition accounted s t : Prop :=
  u64 (opened t) =
    u64 (answered t + _responseTimeoutTotal s.1 + Z.of_nat (size (_pendingRequests s.1))) /\
  u64 (answered t) = u64 (reported t + tw_count (_requestRtt s.1)) /\
  map_Forall (fun _ r => sentAtNs r <= clock s.2) (_pendingRequests s.1).

Lemma u64_congr a b c : u64 a = u64 b -> u64 (a + c) = u64 (b + c).
Proof. unfold wrap. intros Hab. by rewrite <-Zplus_mod_idemp_l, Hab, Zplus_mod_idemp_l. Qed.

Lemma track_accounted seq ty timeout s t s' t' :
  accounted s t -> request_step (OpTrack seq ty timeout) s t = Some (s', t') -> accounted s' t'.
Proof.
  destruct s as [m os]. intros (Hop & Han & Hsent) Hs. cbn [fst snd] in *.
  unfold request_step, Cm_TrackRequest in Hs. cbn [fst] in Hs.
  destruct (seq =? 0); cbn [orb negb andb] in Hs.
  { cbn [mbind option_bind Z.b2z] in Hs. injection Hs as <- <-. destruct t. split_and!; cbn in *; [by rewrite Z.add_0_r|done|done]. }
  destruct (ty =? 0); cbn [orb negb andb] in Hs.
  { cbn [mbind option_bind Z.b2z] in Hs. injection Hs as <- <-. destruct t. split_and!; cbn in *; [by rewrite Z.add_0_r|done|done]. }
  pose proof (clock_steady os) as Hc. destruct (NowSteadyNanoseconds os) as [os' now].
  destruct (timeout_ns timeout) as [tn|]; [|done]. cbn [mbind option_bind] in Hs. injection Hs as <- <-.
  match goal with |- accounted (?x, _) _ => set (m' := x) end.
  assert (exists r, _pendingRequests m' = <[seq := r]> (_pendingRequests m) /\ sentAtNs r = now /\
    _responseTimeoutTotal m' = _responseTimeoutTotal m /\ _requestRtt m' = _requestRtt m) as (r & Hp & Hr & Ht & Hw)
    by (destruct m; eexists; split_and!; done).
  split_and!; cbn [fst snd opened answered reported].
  - rewrite Hp, Ht. case_bool_decide as Hfresh.
    + rewrite map_size_insert_None by done. cbn [Z.b2z]. rewrite (u64_congr _ _ 1 Hop). f_equal. lia.
    + rewrite map_size_insert_Some; [by rewrite Z.add_0_r|]. by apply not_eq_None_Some.
  - by rewrite Hw.
  - rewrite Hp. destruct Hc as [Hle ->]. apply map_Forall_insert_2; [cbn; lia|].
    intros k x Hx. specialize (Hsent k x Hx). cbn in *. lia.
Qed.

Lemma resolve_accounted seq ty s t s' t' :
  accounted s t -> request_step (OpResolve seq ty) s t = Some (s', t') -> accounted s' t'.
Proof.
  destruct s as [m os]. intros (Hop & Han & Hsent) Hs. cbn [fst snd] in *.
  unfold request_step, Cm_ResolveRequest in Hs. cbn [fst] in Hs.
  assert (forall os', clock os <= clock os' -> map_Forall (fun _ r => sentAtNs r <= clock os') (_pendingRequests m)) as Hmono.
  { intros os' Hle k x Hx. specialize (Hsent k x Hx). cbn in *. lia. }
  destruct (seq =? 0) eqn:Hz.
  { injection Hs as <- <-. assert (match _pendingRequests m !! seq with Some _ => false | None => false end = false) as Hf
      by (by destruct (_pendingRequests m !! seq)). cbn [negb andb]. rewrite Hf. cbn [Z.b2z].
    split_and!; cbn [fst snd opened answered reported]; rewrite ?Z.add_0_r; done. }
  pose proof (clock_steady os) as Hc. destruct (NowSteadyNanoseconds os) as [os' now]. destruct Hc as [Hle Hc].
  destruct (_pendingRequests m !! seq) as [r|] eqn:Hr.
  2: { injection Hs as <- <-. cbn [Z.b2z]. split_and!; cbn [fst snd opened answered reported]; rewrite ?Z.add_0_r; [done..|].
       apply Hmono. lia. }
  destruct (responseType r =? ty); cbn [negb andb] in Hs.
  2: { injection Hs as <- <-. cbn [Z.b2z]. split_and!; cbn [fst snd opened answered reported]; rewrite ?Z.add_0_r; [done..|].
       apply Hmono. lia. }
  assert ((sentAtNs r <=? now) = true) as Hsn by (apply Z.leb_le; specialize (Hsent seq r Hr); cbn in *; lia).
  rewrite Hsn in Hs. injection Hs as <- <-. cbn [Z.b2z].
  match goal with |- accounted (?x, _) _ => set (m' := x) end.
  assert (_pendingRequests m' = delete seq (_pendingRequests m) /\ _responseTimeoutTotal m' = _responseTimeoutTotal m /\
    tw_count (_requestRtt m') = u64 (tw_count (_requestRtt m) + 1)) as (Hp & Ht & Hw) by (by destruct m as [??????????????????????? [] ?]).
  split_and!; cbn [fst snd opened answered reported].
  - rewrite Hp, Ht, map_size_delete_Some by (by exists r).
    assert (size (_pendingRequests m) <> 0)%nat by (apply map_size_ne_0_lookup; by exists seq, r).
    rewrite Hop. f_equal. lia.
  - rewrite Hw. unfold wrap at 2. unfold wrap at 2. rewrite Zplus_mod_idemp_r. fold (wrap 64 (reported t + (tw_count (_requestRtt m) + 1))).
    rewrite (u64_congr _ _ 1 Han). f_equal. lia.
  - rewrite Hp. intros k x [_ Hx]%lookup_delete_Some. specialize (Hsent k x Hx). cbn in *. lia.
Qed.

Lemma snapshot_accounted s t s' t' :
  accounted s t -> request_step OpSnapshot s t = Some (s', t') -> accounted s' t'.
Proof.
  destruct s as [m os]. intros (Hop & Han & Hsent) Hs. cbn [fst snd] in *.
  unfold request_step, Cm_TakeSnapshot in Hs.
  pose proof (clock_steady os) as Hc. destruct (NowSteadyNanoseconds os) as [os1 now]. destruct Hc as [Hle Hc].
  pose proof (Expire_spec now m) as (Hp & Ht & Hr).
  set (m1 := ExpireTimedOutRequests now m) in *.
  pose proof (clock_other os1) as Ho. destruct (os_call SysSystemClockNow os1) as [os2 cap]. cbn [fst] in Ho.
  unfold Cm_DrainWindow in Hs. injection Hs as <- <-.
  match goal with |- accounted (?x, _) _ => set (m' := x) end.
  assert (_pendingRequests m' = _pendingRequests m1 /\ _responseTimeoutTotal m' = _responseTimeoutTotal m1 /\
    _requestRtt m' = mkTimingWindow 0 0 0) as (Hp' & Ht' & Hw') by (by destruct m1).
  split_and!; cbn [fst snd opened answered reported cs_requestRtt tw_count].
  - rewrite Hp', Ht', Hop, <-!Z.add_assoc, !(Z.add_comm (answered t)). symmetry. by apply u64_congr.
  - rewrite Hw', Hr. cbn [tw_count]. rewrite Han. f_equal. lia.
  - rewrite Hp', Hp. intros k x Hx. apply map_lookup_filter_Some in Hx as [Hx _]. specialize (Hsent k x Hx).
    cbn in *. lia.
Qed.

Lemma request_run_accounted ops : forall s t s' t',
  accounted s t -> request_run ops s t = Some (s', t') -> accounted s' t'.
Proof.
  induction ops as [|op ops IH]; intros s t s' t' Ha Hr; [by injection Hr as <- <-|].
  cbn [request_run] in Hr. destruct (request_step op s t) as [[s1 t1]|] eqn:Hs; [|done]. cbn [mbind option_bind] in Hr.
  eapply IH, Hr. destruct op; eauto using track_accounted, resolve_accounted, snapshot_accounted.
Qed.

Lemma accounted_init os : accounted (AtomicClientMetrics_init, os) (mkTally 0 0 0).
Proof. split_and!; [done|done|]. apply map_Forall_empty. Qed.

(** C34: Requests are accounted for exactly once, on a clock that never runs backwards.  Whatever requests are sent, packets
    resolved and snapshots taken, in any order and with any sequence numbers, in a run
    that is defined, the requests opened (a request that takes the place of a pending one
    with its sequence number opens none) are those answered, timed out or still pending (as counters, which wrap); each
    answered one is in exactly one round-trip window, drained or current; and a snapshot
    leaves no request whose deadline has passed. *)
Theorem requests_accounted ops os s' t' :
  request_run ops (AtomicClientMetrics_init, os) (mkTally 0 0 0) = Some (s', t') ->
  u64 (opened t') =
    u64 (answered t' + _responseTimeoutTotal s'.1 + Z.of_nat (size (_pendingRequests s'.1))) /\
  u64 (answered t') = u64 (reported t' + tw_count (_requestRtt s'.1)) /\
  let s'' := (Cm_TakeSnapshot s').1 in
  map_Forall (fun _ r => deadlineNs r = 0 \/ clock s''.2 < deadlineNs r) (_pendingRequests s''.1).
Proof.
  intros Hr. destruct (request_run_accounted ops _ _ _ _ (accounted_init os) Hr) as (Ho & Ha & _).
  split_and!; [done|done|]. destruct s' as [m os']. unfold Cm_TakeSnapshot.
  pose proof (clock_steady os') as Hc. destruct (NowSteadyNanoseconds os') as [os1 now]. destruct Hc as [_ Hc].
  pose proof (clock_other os1) as Hoth. destruct (os_call SysSystemClockNow os1) as [os2 cap]. cbn [fst] in Hoth.
  destruct (Expire_spec now m) as (Hp & _ & _). set (m1 := ExpireTimedOutRequests now m) in *.
  unfold Cm_DrainWindow. cbn [fst snd]. intros k r Hk.
  assert (_pendingRequests m1 !! k = Some r) as Hk1 by (by destruct m1). rewrite Hp in Hk1.
  apply map_lookup_filter_Some in Hk1 as [_ He]. unfold expired in He. cbn in He.
  apply andb_false_iff in He as [He|He]; zbool; [by left|right; lia].
Qed.
End Requests.

(** A clock that counts its readings, and stops in the year 2116. *)
Record CountingOS := mkCountingOS { readings : Z }.

Definition counted (os : CountingOS) : Z := Z.max 0 (Z.min (readings os) (2 ^ 62)).

#[export] Instance CountingOS_WinSock : WinSock CountingOS := {|
  os_call := fun c os =>
    match c with
    | SysSteadyClockNow => let os := mkCountingOS (readings os + 1) in (os, sysval (counted os))
    | _ => (os, sysok)
    end |}.

#[export] Program Instance CountingOS_clock : SteadyClock CountingOS := {| clock := counted |}.
Next Obligation. intros os. unfold counted. lia. Qed.
Next Obligation.
  intros os. cbn. unfold counted; cbn [readings].
  rewrite swrap_small, wrap_small by lia. split; [lia|done].
Qed.
Next Obligation. done. Qed.

Lemma requests_accounted_witness :
  let ops := [OpTrack 1 2 1000; OpTrack 2 4 0; OpResolve 1 2; OpSnapshot; OpResolve 9 9] in
  match request_run ops (AtomicClientMetrics_init, mkCountingOS 5) (mkTally 0 0 0) with
  | Some (s', t') => opened t' = 2 /\ u64 (answered t') = u64 (reported t' + tw_count (_requestRtt s'.1))
  | None => False
  end.
Proof.
  intros ops. destruct (request_run ops _ _) as [[s' t']|] eqn:Hr; [|vm_compute in Hr; discriminate Hr].
  split.
  - vm_compute in Hr. injection Hr as <- <-. reflexivity.
  - exact (proj1 (proj2 (requests_accounted ops (mkCountingOS 5) s' t' Hr))).
Defined.
