(* ===== verification/Maxima.v ===== *)
(** * Maxima: the two ways of keeping a maximum in an atomic, under interleaving

    [AtomicServerMetrics::ObserveMax] loads and then stores;
    [AtomicClientMetrics::ObserveMax] exchanges in a loop.  Several threads observe
    values on one cell; a schedule says which thread takes the next atomic step (and,
    for the weak exchange, whether it fails for no reason).  The loop keeps the exact
    maximum and ends; the load and store can lose it. *)

From S2P Require Import Prelude ServerMetrics ClientMetrics.
From stdpp Require Import base numbers list option.
Open Scope Z_scope.

(** ** The server: load, then store *)

(** Where a thread that observes [v] is. *)
Inductive SThread := SLoad (v : Z) | SStore (v : Z) | SDone (v : Z).

(** The next atomic step of a thread on the cell. *)
(** @src lib/src/metrics/server/impl/AtomicServerMetrics.cpp 14-18 AtomicServerMetrics::ObserveMax *)
Definition server_turn (th : SThread) (cell : Z) : SThread * Z :=
  match th with
  | SLoad v => if v >? cell then (SStore v, cell) else (SDone v, cell)
  | SStore v => (SDone v, v)
  | SDone v => (SDone v, cell)
  end.

Definition server_step (st : list SThread * Z) (i : nat) : list SThread * Z :=
  match st.1 !! i with
  | Some th => let '(th, cell) := server_turn th st.2 in (<[i := th]> st.1, cell)
  | None => st
  end.

Definition server_run (st : list SThread * Z) (schedule : list nat) : list SThread * Z :=
  foldl server_step st schedule.

(** ** The client: exchange in a loop *)

Inductive CThread := CLoad (v : Z) | CExchange (v observed : Z) | CDone (v : Z).

(** The test of the loop on the value observed last. *)
Definition client_loop (v observed : Z) : CThread := if observed <? v then CExchange v observed else CDone v.

(** @src lib/src/metrics/client/impl/AtomicClientMetrics.cpp 10-19 AtomicClientMetrics::ObserveMax *)
Definition client_turn (spurious : bool) (th : CThread) (cell : Z) : CThread * Z :=
  match th with
  | CLoad v => (client_loop v cell, cell)
  | CExchange v observed =>
      if (cell =? observed) && negb spurious then (CDone v, v) else (client_loop v cell, cell)
  | CDone v => (CDone v, cell)
  end.

Definition client_step (st : list CThread * Z) (t : nat * bool) : list CThread * Z :=
  match st.1 !! t.1 with
  | Some th => let '(th, cell) := client_turn t.2 th st.2 in (<[t.1 := th]> st.1, cell)
  | None => st
  end.

Definition client_run (st : list CThread * Z) (schedule : list (nat * bool)) : list CThread * Z :=
  foldl client_step st schedule.

(** Without interruption both are the functions the metrics are modelled with. *)
Lemma server_alone v cell : server_run ([SLoad v], cell) [0; 0]%nat = ([SDone v], ServerMetrics.ObserveMax v cell).
Proof. unfold server_run, ServerMetrics.ObserveMax, server_step. cbn. by destruct (v >? cell). Qed.

Lemma client_alone v cell :
  client_run ([CLoad v], cell) [(0, false); (0, false)]%nat = ([CDone v], Cm_ObserveMax v cell).
Proof.
  unfold client_run, Cm_ObserveMax, client_step. cbn. unfold client_loop.
  destruct (cell <? v); cbn; [by rewrite Z.eqb_refl|done].
Qed.

(** ** The exchange keeps the maximum *)

Definition observed_by (th : CThread) : Z := match th with CLoad v | CExchange v _ | CDone v => v end.

(** A thread that has ended left its value in the cell or found a greater one; one that
    is about to exchange has observed a smaller one. *)
Definition thread_ok (cell : Z) (th : CThread) : bool :=
  match th with CLoad _ => true | CExchange v observed => observed <? v | CDone v => v <=? cell end.

Fixpoint maximum (init : Z) (vs : list Z) : Z :=
  match vs with [] => init | v :: vs => Z.max v (maximum init vs) end.

Lemma maximum_ge init vs : init <= maximum init vs /\ forall v, v ∈ vs -> v <= maximum init vs.
Proof.
  induction vs as [|x vs [IH1 IH2]]; cbn; [split; [lia|by intros v ?%elem_of_nil]|].
  split; [lia|]. intros v [->|Hv]%elem_of_cons; [lia|]. specialize (IH2 v Hv). lia.
Qed.

Lemma maximum_le init vs m : init <= m -> (forall v, v ∈ vs -> v <= m) -> maximum init vs <= m.
Proof.
  intros Hi Hv. induction vs as [|x vs IH]; cbn; [done|].
  pose proof (Hv x ltac:(apply elem_of_cons; by left)). assert (maximum init vs <= m); [|lia].
  apply IH. intros v ?. apply Hv, elem_of_cons. by right.
Qed.

(** The values observed are those given; the cell lies between the initial value and the
    maximum. *)
Definition max_inv (init : Z) (vs : list Z) (st : list CThread * Z) : Prop :=
  observed_by <$> st.1 = vs /\ init <= st.2 <= maximum init vs /\ Forall (fun th => thread_ok st.2 th = true) st.1.

Lemma client_turn_ok s th cell :
  thread_ok cell th = true ->
  let '(th', cell') := client_turn s th cell in
  observed_by th' = observed_by th /\ cell <= cell' <= Z.max cell (observed_by th) /\ thread_ok cell' th' = true.
Proof.
  assert (forall v, observed_by (client_loop v cell) = v /\ cell <= cell <= Z.max cell v /\
    thread_ok cell (client_loop v cell) = true) as Hloop.
  { intros v. unfold client_loop. destruct (Z.ltb_spec cell v); cbn; split_and!; try done; lia. }
  destruct th as [v|v obs|v]; cbn; intros Hth; [by apply Hloop| |split_and!; try done; lia].
  apply Z.ltb_lt in Hth. destruct (Z.eqb_spec cell obs) as [->|]; cbn; [destruct s; cbn|]; try by apply Hloop.
  split_and!; try done; try lia.
Qed.

Lemma client_step_inv init vs st t : max_inv init vs st -> max_inv init vs (client_step st t) /\ st.2 <= (client_step st t).2.
Proof.
  destruct st as [ths cell]. intros (Hobs & Hcell & Hok). unfold client_step. cbn [fst snd] in *.
  destruct (ths !! t.1) as [th|] eqn:Hth; [|split; [done|cbn; lia]].
  pose proof (client_turn_ok t.2 th cell (Forall_elem _ _ _ Hok (list_elem_of_lookup_2 _ _ _ Hth))) as Ht.
  destruct (client_turn t.2 th cell) as [th' cell']. destruct Ht as (Ho & Hc & Hok').
  assert (observed_by th ∈ vs) as Hin.
  { rewrite <-Hobs. apply list_elem_of_fmap_2. by eapply list_elem_of_lookup_2. }
  destruct (maximum_ge init vs) as [_ Hge]. specialize (Hge _ Hin).
  split; [|cbn; lia]. split_and!; cbn [fst snd]; [|lia|lia|].
  - rewrite list_fmap_insert, Ho, list_insert_id; [done|]. by rewrite list_lookup_fmap, Hth.
  - apply Forall_insert; [|done]. eapply Forall_weaken; [exact Hok|]. intros x. destruct x; cbn; [done|done|].
    intros Hx%Z.leb_le. apply Z.leb_le. lia.
Qed.

Lemma client_run_inv init vs schedule : forall st, max_inv init vs st -> max_inv init vs (client_run st schedule).
Proof.
  induction schedule as [|t schedule IH]; intros st Hi; [done|]. cbn. apply IH. by apply client_step_inv.
Qed.

(** ** The loop ends

    A turn has an effect unless its thread has ended or its exchange fails for no reason.
    The weight of a state falls with every turn that has an effect: an exchange that
    succeeds ends its thread and makes at most every other one try once more. *)

Definition has_effect (st : list CThread * Z) (t : nat * bool) : bool :=
  match st.1 !! t.1 with
  | Some (CLoad _) => true
  | Some (CExchange _ observed) => negb ((st.2 =? observed) && t.2)
  | Some (CDone _) | None => false
  end.

Fixpoint effects (st : list CThread * Z) (schedule : list (nat * bool)) : nat :=
  match schedule with
  | [] => 0
  | t :: schedule => Nat.b2n (has_effect st t) + effects (client_step st t) schedule
  end.

Definition weight (n : nat) (cell : Z) (th : CThread) : nat :=
  match th with
  | CLoad _ => n + 3
  | CExchange _ observed => if cell =? observed then n + 1 else n + 2
  | CDone _ => 0
  end.

Definition total (st : list CThread * Z) : nat := sum_list_with (weight (length st.1) st.2) st.1.

Lemma sum_insert (f : CThread -> nat) l i x y :
  l !! i = Some x -> (sum_list_with f (<[i := y]> l) + f x = sum_list_with f l + f y)%nat.
Proof.
  revert i. induction l as [|z l IH]; intros [|i] Hi; simpl in *; try done; [simplify_eq; lia|].
  specialize (IH i Hi). lia.
Qed.

Lemma weight_cell n c c' th : (weight n c' th <= weight n c th + 1)%nat.
Proof. destruct th; cbn; repeat case_match; lia. Qed.

Lemma sum_cell n c c' l : (sum_list_with (weight n c') l <= sum_list_with (weight n c) l + length l)%nat.
Proof. induction l as [|x l IH]; cbn; [lia|]. pose proof (weight_cell n c c' x). lia. Qed.

Lemma client_loop_weight n v cell : (weight n cell (client_loop v cell) <= n + 1)%nat.
Proof. unfold client_loop. case_match; cbn [weight]; [rewrite Z.eqb_refl; lia|lia]. Qed.

Lemma client_step_total st t :
  (total (client_step st t) + Nat.b2n (has_effect st t) <= total st)%nat.
Proof.
  destruct st as [ths cell]. unfold total, client_step, has_effect. cbn [fst snd].
  destruct (ths !! t.1) as [th|] eqn:Hth; [|cbn; lia]. set (n := length ths).
  pose proof (fun y => sum_insert (weight n cell) ths t.1 th y Hth) as Hs.
  destruct th as [v|v obs|v]; cbn [client_turn].
  - cbn [fst snd Nat.b2n]. rewrite length_insert. specialize (Hs (client_loop v cell)).
    pose proof (client_loop_weight n v cell). cbn [weight] in Hs. fold n. lia.
  - destruct (Z.eqb_spec cell obs) as [<-|Hne]; cbn [andb].
    + destruct t.2; cbn [negb fst snd Nat.b2n]; rewrite length_insert.
      * specialize (Hs (client_loop v cell)). pose proof (client_loop_weight n v cell).
        cbn [weight] in Hs. rewrite Z.eqb_refl in Hs. fold n. lia.
      * specialize (Hs (CDone v)). cbn [weight] in Hs. rewrite Z.eqb_refl in Hs.
        pose proof (sum_cell n cell v (<[t.1 := CDone v]> ths)) as Hc. rewrite length_insert in Hc.
        fold n in Hc |- *. lia.
    + cbn [negb fst snd Nat.b2n]. rewrite length_insert. specialize (Hs (client_loop v cell)).
      pose proof (client_loop_weight n v cell). cbn [weight] in Hs.
      rewrite (proj2 (Z.eqb_neq _ _) Hne) in Hs. fold n. lia.
  - cbn [fst snd Nat.b2n]. rewrite list_insert_id by done. fold n. lia.
Qed.

Lemma effects_bound schedule : forall st, (effects st schedule <= total st)%nat.
Proof.
  induction schedule as [|t schedule IH]; intros st; cbn [effects]; [lia|].
  pose proof (client_step_total st t). specialize (IH (client_step st t)). lia.
Qed.

Definition start (vs : list Z) (init : Z) : list CThread * Z := (CLoad <$> vs, init).

Lemma start_total vs init : total (start vs init) = (length vs * (length vs + 3))%nat.
Proof.
  unfold total, start. cbn [fst snd]. rewrite length_fmap. generalize (length vs) at 1 3 as n. intros n.
  induction vs as [|v vs IH]; cbn; [done|]. rewrite IH. done.
Qed.

Lemma start_inv vs init : max_inv init vs (start vs init).
Proof.
  split_and!; [| |apply (proj1 (maximum_ge _ _))|]; cbn [start fst snd].
  - rewrite <-list_fmap_compose. apply list_fmap_id.
  - lia.
  - apply Forall_intro. intros x Hx. apply list_elem_of_fmap in Hx as (v & -> & _). done.
Qed.

Definition ended (th : CThread) : bool := match th with CDone _ => true | _ => false end.

(** The client's maximum is exact and its loop ends: however any number of threads
    that observe values interleave, and whichever exchanges fail for no reason, the cell
    never falls and never leaves the range of the values; no thread takes more than a
    bounded number of turns that have an effect; and once all have ended, the cell is the
    maximum of its first value and the values observed. *)
Lemma exchange_max_exact (vs : list Z) (init : Z) (schedule : list (nat * bool)) :
  let st := client_run (start vs init) schedule in
  init <= st.2 <= maximum init vs /\
  (effects (start vs init) schedule <= length vs * (length vs + 3))%nat /\
  (forallb ended st.1 = true -> st.2 = maximum init vs).
Proof.
  intros st. destruct (client_run_inv init vs schedule _ (start_inv vs init)) as (Hobs & Hcell & Hok).
  fold st in Hobs, Hcell, Hok. split_and!; [lia|lia| |].
  { rewrite <-(start_total vs init). apply effects_bound. }
  intros Hend. assert (maximum init vs <= st.2); [|lia]. apply maximum_le; [lia|].
  intros v Hv. rewrite <-Hobs in Hv. apply list_elem_of_fmap in Hv as (th & -> & Hth).
  pose proof (Forall_elem _ _ _ Hok Hth) as Hv. rewrite forallb_forall in Hend.
  pose proof (Hend th (proj1 (list_elem_of_In _ _) Hth)). destruct th; cbn in *; [done|done|]. by apply Z.leb_le.
Qed.

(** The server's maximum can lose a value: two workers that observe two values above
    the cell can both load before either stores, and if the greater is stored first the
    cell ends with the smaller one, although both have ended. *)
Lemma load_store_max_lost (init v1 v2 : Z) :
  init < v1 < v2 ->
  server_run ([SLoad v1; SLoad v2], init) [0; 1; 1; 0]%nat = ([SDone v1; SDone v2], v1).
Proof.
  intros Hv. unfold server_run, server_step. cbn.
  rewrite !Z.gtb_ltb, (proj2 (Z.ltb_lt _ _)) by lia. cbn. rewrite Z.gtb_ltb, (proj2 (Z.ltb_lt _ _)) by lia. done.
Qed.

Lemma load_store_max_lost_witness :
  server_run ([SLoad 3; SLoad 8], 1) [0; 1; 1; 0]%nat = ([SDone 3; SDone 8], 3).
Proof. apply (load_store_max_lost 1 3 8). lia. Defined.

Lemma exchange_max_exact_witness :
  (client_run (start [3; 8] 1) [(0, false); (1, false); (1, false); (0, false)]%nat).2 = 8.
Proof.
  exact (proj2 (proj2 (exchange_max_exact [3; 8] 1 [(0, false); (1, false); (1, false); (0, false)]%nat)) eq_refl).
Defined.
