(* ===== verification/MetricsText.v ===== *)
(** * MetricsText: the texts and numbers of the metrics

    [lib/src/metrics/server/ServerMetricsSupport.cpp] and the conversions of
    [lib/inc/metrics/TimingWindow.h]: environment variables, JSON strings, numbers and
    times.  Characters are classified as in the C locale. *)

From S2P Require Import Prelude StringUtils Config Doubles Platform ServerMetrics.
From Stdlib Require Import Ascii String SpecFloat.
From stdpp Require Import base numbers list strings option pretty.
Open Scope Z_scope.

(** ** Environment variables *)

Definition isspace (c : ascii) : bool :=
  (9 <=? char_code c) && (char_code c <=? 13) || (char_code c =? 32).

Fixpoint erase_front (value : sv) : sv :=
  match value with
  | [] => []
  | c :: rest => if isspace c then erase_front rest else value
  end.

(** [pop_back] while the last character is white space. *)
Definition erase_back (value : sv) : sv := reverse (erase_front (reverse value)).

(** @src lib/src/metrics/server/ServerMetricsSupport.cpp 19-31 Trim *)
Definition ms_Trim (value : sv) : sv := erase_back (erase_front value).

(** [std::tolower]. *)
Definition tolower (c : ascii) : ascii :=
  if (65 <=? char_code c) && (char_code c <=? 90) then ascii_of_N (N_of_ascii c + 32) else c.

(** @src lib/src/metrics/server/ServerMetricsSupport.cpp 33-38 ToLower *)
Definition ToLower (value : sv) : sv := tolower <$> value.

(** @src lib/src/metrics/server/ServerMetricsSupport.cpp 40-55 ParseBool *)
Definition ms_ParseBool (value : sv) (fallback : bool) : bool :=
  let value := ToLower (ms_Trim value) in
  let same s := sv_eqb value (lit s) in
  match value with
  | [] => fallback
  | _ =>
      if same "1"%string || same "true"%string || same "yes"%string || same "on"%string then true
      else if same "0"%string || same "false"%string || same "no"%string || same "off"%string then false
      else fallback
  end.

(** The longest run of digits at the front, and what follows it. *)
Fixpoint span_digits (s : sv) : sv * sv :=
  match s with
  | c :: rest => if IsDigit c then let '(ds, r) := span_digits rest in (c :: ds, r) else ([], s)
  | [] => ([], [])
  end.

(** The number that digits stand for; [acc] is what stands before them. *)
Fixpoint digits_value (acc : Z) (s : sv) : option Z :=
  match s with
  | [] => Some acc
  | c :: s => if IsDigit c then digits_value (acc * 10 + (char_code c - 48)) s else None
  end.

(** [std::from_chars] for an unsigned 64-bit number: its value and what follows it, or
    no number, or one out of range. *)
Definition from_chars (s : sv) : option (Z * sv) :=
  let '(ds, rest) := span_digits s in
  match ds, digits_value 0 ds with
  | _ :: _, Some v => if v <? 2 ^ 64 then Some (v, rest) else None
  | _, _ => None
  end.

(** @src lib/src/metrics/server/ServerMetricsSupport.cpp 57-72 ParseUnsigned *)
Definition ParseUnsigned (value : sv) (fallback : Z) : Z :=
  let value := ms_Trim value in
  match value with
  | [] => fallback
  | _ => match from_chars value with Some (parsed, []) => parsed | _ => fallback end
  end.

(** @src lib/src/metrics/server/ServerMetricsSupport.cpp 74-89 ReadEnv *)
Definition ReadEnv (env : Environment) (name : sv) : option sv :=
  match env name with
  | None => None
  | Some rawValue => match ms_Trim rawValue with [] => None | result => Some result end
  end.

(** A path is its text; the empty path stands for none. *)
(** @src lib/src/metrics/server/ServerMetricsSupport.cpp 91-97 ReadEnvPath *)
Definition ReadEnvPath (env : Environment) (name : sv) : sv := default [] (ReadEnv env name).

Definition backslash : ascii := ascii_of_nat 92.

(** A character that a file name cannot have, or white space. *)
(** @src lib/src/metrics/server/ServerMetricsSupport.cpp 101-112 SanitizePathComponent *)
Definition invalid_in_path (c : ascii) : bool :=
  (char_code c <? 32) ||
  existsb (Ascii.eqb c) ["<"; ">"; ":"; dquote; "/"; backslash; "|"; "?"; "*"]%char || isspace c.

(** @src lib/src/metrics/server/ServerMetricsSupport.cpp 99-119 SanitizePathComponent *)
Definition SanitizePathComponent (value : sv) : sv :=
  (fun c => if invalid_in_path c then "_"%char else c) <$> value.

(** ** Text of JSON strings *)

Definition hex_digit (n : Z) : ascii :=
  ascii_of_N (Z.to_N (if n <? 10 then 48 + n else 87 + n)).

(** [std::hex << n] for a byte. *)
Definition hex_text (n : Z) : sv :=
  if n <? 16 then [hex_digit n] else [hex_digit (n / 16); hex_digit (n mod 16)].

(** [std::setw(w) << std::setfill('0')]. *)
Definition setw0 (w : nat) (text : sv) : sv := replicate (w - length text) "0"%char ++ text.

(** @src lib/src/metrics/server/ServerMetricsSupport.cpp 202-230 JsonEscape *)
Definition escape_char (c : ascii) : sv :=
  let n := char_code c in
  if n =? 92 then [backslash; backslash]
  else if n =? 34 then [backslash; dquote]
  else if n =? 8 then [backslash; "b"%char]
  else if n =? 12 then [backslash; "f"%char]
  else if n =? 10 then [backslash; "n"%char]
  else if n =? 13 then [backslash; "r"%char]
  else if n =? 9 then [backslash; "t"%char]
  else if n <? 32 then [backslash; "u"%char] ++ setw0 4 (hex_text n)
  else [c].

(** @src lib/src/metrics/server/ServerMetricsSupport.cpp 199-234 JsonEscape *)
Definition JsonEscape (value : sv) : sv := concat (escape_char <$> value).

(** ** Numbers *)

(** [num / den] rounded to the nearest integer, ties to even. *)
Definition round_half_even (num den : Z) : Z :=
  let q := num / den in
  let r := num mod den in
  if 2 * r <? den then q else if den <? 2 * r then q + 1 else if Z.even q then q else q + 1.

(** The magnitude of a finite number in units of [10 ^ -precision]. *)
Definition scaled (m e : Z) (precision : nat) : Z :=
  if 0 <=? e then m * 2 ^ e * 10 ^ Z.of_nat precision
  else round_half_even (m * 10 ^ Z.of_nat precision) (2 ^ (- e)).

(** [precision] decimal digits of [n]. *)
Fixpoint fraction_digits (precision : nat) (n : Z) : sv :=
  match precision with
  | O => []
  | S p => fraction_digits p (n / 10) ++ [ascii_of_N (Z.to_N (48 + n mod 10))]
  end.

Definition fixed_text (negative : bool) (n : Z) (precision : nat) : sv :=
  (if negative then ["-"%char] else []) ++ decimal (n / 10 ^ Z.of_nat precision) ++
  match precision with O => [] | _ => "."%char :: fraction_digits precision (n mod 10 ^ Z.of_nat precision) end.

(** [std::fixed << std::setprecision(precision) << value]. *)
Definition stream_fixed (value : double) (precision : nat) : sv :=
  match value with
  | S754_zero s => fixed_text s 0 precision
  | S754_finite s m e => fixed_text s (scaled (Z.pos m) e precision) precision
  | S754_infinity s => lit (if s then "-inf" else "inf")
  | S754_nan => lit "nan"
  end.

Definition erase_zeros (text : sv) : sv :=
  let fix go (r : sv) : sv :=
    match r with c :: r' => if Ascii.eqb c "0" then go r' else r | [] => [] end in
  reverse (go (reverse text)).

Definition erase_point (text : sv) : sv :=
  match reverse text with c :: r => if Ascii.eqb c "." then reverse r else text | [] => [] end.

(** @src lib/src/metrics/server/ServerMetricsSupport.cpp 236-256 FormatNumber *)
Definition FormatNumber (value : double) (precision : nat) : sv :=
  let result := stream_fixed value precision in
  let result :=
    match Find result "." with Some _ => erase_point (erase_zeros result) | None => result end in
  if sv_eqb result (lit "-0") then lit "0" else result.

(** @src lib/inc/metrics/TimingWindow.h 11-18 TimingWindow::AverageMilliseconds *)
Definition AverageMilliseconds (w : TimingWindow) : double :=
  if tw_count w =? 0 then d_zero
  else d_div (d_div (d_of_Z (totalNanoseconds w)) (d_of_Z 1000000)) (d_of_Z (tw_count w)).

(** @src lib/inc/metrics/TimingWindow.h 20-22 TimingWindow::MaxMilliseconds *)
Definition MaxMilliseconds (w : TimingWindow) : double :=
  d_div (d_of_Z (maxNanoseconds w)) (d_of_Z 1000000).

(** @src lib/src/metrics/server/ServerMetricsSupport.cpp 258-260 TimingAverageMs *)
Definition TimingAverageMs (window : TimingWindow) : double := AverageMilliseconds window.

(** @src lib/src/metrics/server/ServerMetricsSupport.cpp 262-264 TimingMaxMs *)
Definition TimingMaxMs (window : TimingWindow) : double := MaxMilliseconds window.

(** [std::chrono::duration<double>(elapsed).count()] of nanoseconds. *)
Definition seconds_of (elapsed : Z) : double := d_div (d_of_Z elapsed) (d_of_Z (10 ^ 9)).

(** @src lib/src/metrics/server/ServerMetricsSupport.cpp 266-274 ToPerSecond *)
Definition ToPerSecond (delta elapsed : Z) : double :=
  let seconds := seconds_of elapsed in
  if d_leb seconds d_zero then d_zero else d_div (d_of_Z delta) seconds.

(** @src lib/src/metrics/server/ServerMetricsSupport.cpp 276-281 ComputeRate *)
Definition ComputeRate (current prior elapsed : Z) : double :=
  ToPerSecond (if current >=? prior then current - prior else 0) elapsed.

(** @src lib/src/metrics/server/ServerMetricsSupport.cpp 121-126 FileTimeToUint64 *)
Definition FileTimeToUint64 (dwLowDateTime dwHighDateTime : Z) : Z :=
  Z.lor dwLowDateTime (Z.shiftl dwHighDateTime 32).

(** ** Times

    [std::chrono::system_clock] counts ticks of 100 nanoseconds since 1970. *)

Definition ticks_per_second : Z := 10 ^ 7.

Definition leap (y : Z) : bool := (y mod 4 =? 0) && negb (y mod 100 =? 0) || (y mod 400 =? 0).
Definition year_days (y : Z) : Z := if leap y then 366 else 365.
Definition month_days (y : Z) : list Z := [31; if leap y then 29 else 28; 31; 30; 31; 30; 31; 31; 30; 31; 30; 31].

(** The year that has day [d] counted from the first day of year [y], and the day in it. *)
Fixpoint year_of (fuel : nat) (y d : Z) : Z * Z :=
  match fuel with
  | O => (y, d)
  | S fuel => if d <? year_days y then (y, d) else year_of fuel (y + 1) (d - year_days y)
  end.

Fixpoint month_of (ms : list Z) (m d : Z) : Z * Z :=
  match ms with
  | [] => (m, d)
  | n :: ms => if d <? n then (m, d) else month_of ms (m + 1) (d - n)
  end.

(** [std::tm]: month and day counted from one, and the year in full. *)
Record tm := mkTm { tm_year : Z; tm_mon : Z; tm_mday : Z; tm_hour : Z; tm_min : Z; tm_sec : Z }.

(** The years from 1970 that [gmtime_s] knows: it fails before them and after 3000. *)
Definition years_known : nat := 1031.
Definition gmtime_end : Z := 32535216000.

(** [gmtime_s]; on failure it leaves a structure that [put_time] may not be given. *)
Definition gmtime (t : Z) : ub tm :=
  if (0 <=? t) && (t <? gmtime_end) then
    let '(y, d) := year_of years_known 1970 (t / 86400) in
    let '(m, d) := month_of (month_days y) 1 d in
    let s := t mod 86400 in
    Some (mkTm y m (d + 1) (s / 3600) (s / 60 mod 60) (s mod 60))
  else None.

Definition dec2 (n : Z) : sv := setw0 2 (decimal n).

(** The whole seconds of a time point, and the milliseconds after them: both casts
    truncate towards zero. *)
(** @src lib/src/metrics/server/ServerMetricsSupport.cpp 129-131 FormatUtcTime *)
Definition split_time (tp : Z) : Z * Z :=
  let seconds := Z.quot tp ticks_per_second in
  (seconds, Z.quot (tp - seconds * ticks_per_second) 10000).

(** @src lib/src/metrics/server/ServerMetricsSupport.cpp 128-140 FormatUtcTime *)
Definition FormatUtcTime (tp : Z) : ub sv :=
  let '(seconds, fractional) := split_time tp in
  utc ← gmtime seconds;
  Some (decimal (tm_year utc) ++ "-"%char :: dec2 (tm_mon utc) ++ "-"%char :: dec2 (tm_mday utc) ++
        "T"%char :: dec2 (tm_hour utc) ++ ":"%char :: dec2 (tm_min utc) ++ ":"%char :: dec2 (tm_sec utc) ++
        "."%char :: setw0 3 (decimal fractional) ++ ["Z"%char]).

(** @src lib/src/metrics/server/ServerMetricsSupport.cpp 142-157 FormatCompactTimestamp *)
Definition FormatCompactTimestamp (tp : Z) : ub sv :=
  let '(seconds, fractional) := split_time tp in
  utc ← gmtime seconds;
  Some (decimal (tm_year utc) ++ dec2 (tm_mon utc) ++ dec2 (tm_mday utc) ++
        "-"%char :: dec2 (tm_hour utc) ++ dec2 (tm_min utc) ++ dec2 (tm_sec utc) ++
        (if fractional >? 0 then "-"%char :: setw0 3 (decimal fractional) else [])).

(** ** Reading back

    What a reader of the files does with the texts above. *)

(** *** Digits *)

Lemma digits_value_app acc a b :
  digits_value acc (a ++ b) = (v ← digits_value acc a; digits_value v b).
Proof. revert acc. induction a as [|c a IH]; intros acc; [done|]. simpl. by case_match. Qed.

Lemma digits_value_go x s : digits_value 0 (lit (pretty_N_go x s)) = digits_value (Z.of_N x) (lit s).
Proof.
  revert s. induction (N.lt_wf_0 x) as [x _ IH]; intros s.
  destruct (decide (x = 0%N)) as [->|Hx]; [by rewrite pretty_N_go_0|].
  rewrite pretty_N_go_step, IH by (try apply N.div_lt; lia).
  destruct (digit_char (x `mod` 10)) as [Hd Hc]; [by apply N.mod_lt|].
  change (lit (String ?c s)) with (c :: lit s). cbn [digits_value]. rewrite Hd, Hc.
  pose proof (N.div_mod x 10 ltac:(done)). f_equal. lia.
Qed.

Lemma decimal_value n : 0 <= n -> digits_value 0 (decimal n) = Some n.
Proof.
  intros Hn. rewrite decimal_pos by done. unfold pretty, pretty_N. case_decide as Hz.
  - assert (n = 0) as -> by lia. done.
  - rewrite digits_value_go. cbn. by rewrite Z2N.id.
Qed.

Lemma decimal_digits n : 0 <= n -> Forall (fun c => IsDigit c = true) (decimal n) /\ decimal n <> [].
Proof. intros Hn. rewrite decimal_pos by done. split; [apply pretty_N_digits|apply pretty_N_nonempty]. Qed.

Lemma span_digits_app ds rest :
  Forall (fun c => IsDigit c = true) ds ->
  match rest with [] => True | c :: _ => IsDigit c = false end -> span_digits (ds ++ rest) = (ds, rest).
Proof.
  intros Hd Hr. induction Hd as [|c ds Hc Hd IH]; simpl.
  - destruct rest; [done|]. simpl. by rewrite Hr.
  - by rewrite Hc, IH.
Qed.

Lemma zeros_value k s : digits_value 0 (replicate k "0"%char ++ s) = digits_value 0 s.
Proof. induction k as [|k IH]; [done|]. simpl. exact IH. Qed.

Lemma setw0_value w n : 0 <= n -> digits_value 0 (setw0 w (decimal n)) = Some n.
Proof. intros. unfold setw0. rewrite zeros_value. by apply decimal_value. Qed.

(** *** Environment values *)

(** [ParseUnsigned] reads back every number of its type, and falls back on greater ones. *)
Lemma ParseUnsigned_decimal n fallback :
  0 <= n -> ParseUnsigned (decimal n) fallback = if n <? 2 ^ 64 then n else fallback.
Proof.
  intros Hn. destruct (decimal_digits n Hn) as [Hd Hne].
  assert (forall c, IsDigit c = true -> isspace c = false) as Hsp.
  { intros c. unfold IsDigit, isspace. intros [Hc%Z.leb_le _]%andb_true_iff.
    apply orb_false_iff. rewrite andb_false_iff, !Z.leb_gt, Z.eqb_neq. lia. }
  assert (forall ds, Forall (fun c => IsDigit c = true) ds -> erase_front ds = ds) as Hef.
  { intros ds Hds. destruct Hds; [done|]. simpl. by rewrite Hsp. }
  unfold ParseUnsigned, ms_Trim, erase_back.
  rewrite (Hef _ Hd), Hef, reverse_involutive by by apply Forall_reverse.
  assert (from_chars (decimal n) = if n <? 2 ^ 64 then Some (n, []) else None) as ->.
  { unfold from_chars. rewrite <-(app_nil_r (decimal n)) at 1. rewrite span_digits_app by done.
    pose proof (decimal_value n Hn) as Hv. destruct (decimal n); [done|]. by rewrite Hv. }
  destruct (decimal n); [done|]. by case_bool.
Qed.

(** *** JSON strings *)

Definition hex_value (c : ascii) : option Z :=
  let n := char_code c in
  if IsDigit c then Some (n - 48) else if (97 <=? n) && (n <=? 102) then Some (n - 87) else None.

(** The character after a backslash, for the escapes of one letter. *)
Definition unescape (c : ascii) : option ascii :=
  let n := char_code c in
  if (n =? 34) || (n =? 47) || (n =? 92) then Some c
  else if n =? 98 then Some "008"%char else if n =? 102 then Some "012"%char
  else if n =? 110 then Some "010"%char else if n =? 114 then Some "013"%char
  else if n =? 116 then Some "009"%char else None.

(** The rest of a string after its opening quote, by the grammar of JSON, with what
    follows it; control characters must be escaped, and [\u] escapes are read below 128. *)
Fixpoint read_string (s : sv) : option (sv * sv) :=
  match s with
  | [] => None
  | c :: s =>
      if Ascii.eqb c dquote then Some ([], s)
      else if Ascii.eqb c backslash then
        match s with
        | e :: s =>
            if Ascii.eqb e "u"%char then
              match s with
              | a :: b :: c :: d :: s =>
                  a ← hex_value a; b ← hex_value b; c ← hex_value c; d ← hex_value d;
                  let n := ((a * 16 + b) * 16 + c) * 16 + d in
                  if n <? 128 then '(t, k) ← read_string s; Some (ascii_of_N (Z.to_N n) :: t, k) else None
              | _ => None
              end
            else x ← unescape e; '(t, k) ← read_string s; Some (x :: t, k)
        | [] => None
        end
      else if char_code c <? 32 then None
      else '(t, k) ← read_string s; Some (c :: t, k)
  end.

Lemma read_escape_char c s :
  read_string (escape_char c ++ s) = ('(t, k) ← read_string s; Some (c :: t, k)).
Proof. by destruct c as [[] [] [] [] [] [] [] []]. Qed.

Lemma read_escape value k : read_string (JsonEscape value ++ dquote :: k) = Some (value, k).
Proof.
  induction value as [|c value IH]; [done|]. unfold JsonEscape in *. cbn [fmap list_fmap concat].
  rewrite <-app_assoc, read_escape_char. by rewrite IH.
Qed.

(** *** Numbers *)

(** A decimal number: its digits as one integer, and how many of them follow the point. *)
Definition read_decimal (t : sv) : option (Z * nat) :=
  let '(negative, t) := match t with c :: r => if Ascii.eqb c "-" then (true, r) else (false, t) | [] => (false, t) end in
  let sign := if negative then -1 else 1 in
  match span_digits t with
  | (((_ :: _) as i), []) => v ← digits_value 0 i; Some (sign * v, O)
  | (((_ :: _) as i), c :: f) =>
      match Ascii.eqb c ".", f with
      | true, _ :: _ => v ← digits_value 0 (i ++ f); Some (sign * v, length f)
      | _, _ => None
      end
  | _ => None
  end.

Lemma round_half_even_nearest num den : 0 < den -> 2 * Z.abs (round_half_even num den * den - num) <= den.
Proof.
  intros Hd. unfold round_half_even. pose proof (Z.div_mod num den ltac:(lia)).
  pose proof (Z.mod_pos_bound num den Hd). set (q := num / den) in *. set (r := num mod den) in *.
  repeat case_bool; zbool; lia.
Qed.

(** The magnitude [m * 2 ^ e] as a fraction. *)
Definition magnitude_num (m e : Z) : Z := m * 2 ^ Z.max 0 e.
Definition magnitude_den (e : Z) : Z := 2 ^ Z.max 0 (- e).

Lemma scaled_nearest m e p :
  2 * Z.abs (scaled m e p * magnitude_den e - magnitude_num m e * 10 ^ Z.of_nat p) <= magnitude_den e.
Proof.
  unfold scaled, magnitude_num, magnitude_den. destruct (Z.leb_spec 0 e).
  - rewrite (Z.max_l 0 (- e)), (Z.max_r 0 e) by lia. change (2 ^ 0) with 1.
    replace (_ - _) with 0 by lia. done.
  - rewrite (Z.max_r 0 (- e)), (Z.max_l 0 e) by lia. change (2 ^ 0) with 1. rewrite Z.mul_1_r.
    apply round_half_even_nearest. apply Z.pow_pos_nonneg; lia.
Qed.

Lemma scaled_nonneg m e p : 0 <= m -> 0 <= scaled m e p.
Proof.
  intros Hm. unfold scaled. assert (0 <= 10 ^ Z.of_nat p) by (apply Z.pow_nonneg; lia).
  destruct (Z.leb_spec 0 e).
  - assert (0 <= 2 ^ e) by (apply Z.pow_nonneg; lia). apply Z.mul_nonneg_nonneg; [apply Z.mul_nonneg_nonneg|]; lia.
  - assert (0 < 2 ^ (- e)) by (apply Z.pow_pos_nonneg; lia).
    assert (0 <= m * 10 ^ Z.of_nat p / 2 ^ (- e)) by (apply Z.div_pos; [apply Z.mul_nonneg_nonneg|]; lia).
    unfold round_half_even. repeat case_bool; lia.
Qed.

Lemma last_digit n : IsDigit (ascii_of_N (Z.to_N (48 + n mod 10))) = true /\
  char_code (ascii_of_N (Z.to_N (48 + n mod 10))) - 48 = n mod 10.
Proof.
  pose proof (Z.mod_pos_bound n 10 ltac:(lia)). assert (n mod 10 ∈ [0;1;2;3;4;5;6;7;8;9]) as Hx.
  { rewrite !elem_of_cons. lia. }
  rewrite !elem_of_cons, elem_of_nil in Hx. destruct_or! Hx; first [by rewrite Hx|done].
Qed.

Lemma fraction_digits_spec p : forall n, 0 <= n < 10 ^ Z.of_nat p ->
  length (fraction_digits p n) = p /\ Forall (fun c => IsDigit c = true) (fraction_digits p n) /\
  forall acc, digits_value acc (fraction_digits p n) = Some (acc * 10 ^ Z.of_nat p + n).
Proof.
  induction p as [|p IH]; intros n Hn; cbn [fraction_digits].
  { split_and!; [done|constructor|]. intros acc. cbn. f_equal. lia. }
  rewrite Nat2Z.inj_succ, Z.pow_succ_r in * by lia.
  destruct (IH (n / 10)) as (Hl & Hd & Hv).
  { split; [apply Z.div_pos; lia|]. apply Z.div_lt_upper_bound; lia. }
  destruct (last_digit n) as [Hc Hcv]. split_and!.
  - rewrite length_app, Hl. cbn. lia.
  - apply Forall_app. split; [done|by constructor].
  - intros acc. rewrite digits_value_app, Hv. cbn [mbind option_bind digits_value]. rewrite Hc, Hcv.
    pose proof (Z.div_mod n 10 ltac:(lia)). f_equal. lia.
Qed.

(** Dropping the zeros at the end of a fraction, and its point when nothing is left. *)
Lemma erase_zeros_snoc_0 t : erase_zeros (t ++ ["0"%char]) = erase_zeros t.
Proof. unfold erase_zeros. by rewrite reverse_snoc. Qed.

Lemma erase_zeros_snoc t c : c <> "0"%char -> erase_zeros (t ++ [c]) = t ++ [c].
Proof.
  intros Hc. unfold erase_zeros. rewrite reverse_snoc.
  by rewrite (proj2 (Ascii.eqb_neq c "0") Hc), reverse_cons, reverse_involutive.
Qed.

Lemma erase_fraction (i f : sv) :
  Forall (fun c => IsDigit c = true) f ->
  exists g k, f = g ++ replicate k "0"%char /\
    erase_point (erase_zeros (i ++ "."%char :: f)) = i ++ match g with [] => [] | _ => "."%char :: g end.
Proof.
  induction f as [|c f IH] using rev_ind; intros Hf.
  - exists [], 0%nat. split; [done|]. rewrite erase_zeros_snoc by done.
    unfold erase_point. by rewrite reverse_snoc, reverse_involutive, app_nil_r.
  - apply Forall_app in Hf as [Hf [Hc _]%Forall_cons].
    replace (i ++ "."%char :: f ++ [c]) with ((i ++ "."%char :: f) ++ [c]) by (by rewrite <-app_assoc).
    destruct (decide (c = "0"%char)) as [->|Hne].
    + destruct (IH Hf) as (g & k & -> & Hg). exists g, (S k). rewrite erase_zeros_snoc_0.
      split; [by rewrite replicate_S_end, app_assoc|done].
    + exists (f ++ [c]), 0%nat. split; [by rewrite app_nil_r|]. rewrite erase_zeros_snoc by done.
      unfold erase_point. rewrite reverse_snoc.
      destruct (Ascii.eqb_spec c ".") as [->|_]; [by vm_compute in Hc|]. rewrite <-app_assoc. by destruct f.
Qed.

Lemma Find_app_point (i f : sv) : exists k, Find (i ++ "."%char :: f) "." = Some k.
Proof.
  unfold Find. destruct (find_if _ _) as [k|] eqn:Hk; [by exists k|].
  exfalso. eapply find_if_None in Hk; [|apply elem_of_app; right; left]. by rewrite Ascii.eqb_refl in Hk.
Qed.

Definition sign_of (negative : bool) : Z := if negative then -1 else 1.

(** Reading digits, a point and more digits, after an optional sign. *)
Lemma read_decimal_text (negative : bool) (i g : sv) v :
  Forall (fun c => IsDigit c = true) i -> i <> [] -> Forall (fun c => IsDigit c = true) g ->
  digits_value 0 (i ++ g) = Some v ->
  read_decimal ((if negative then ["-"%char] else []) ++ i ++ match g with [] => [] | _ => "."%char :: g end) =
  Some (sign_of negative * v, length g).
Proof.
  intros Hi Hne Hg Hv.
  set (t := i ++ match g with [] => [] | _ => "."%char :: g end).
  assert (forall sign : Z,
    match span_digits t with
    | (((_ :: _) as i), []) => v ← digits_value 0 i; Some (sign * v, O)
    | (((_ :: _) as i), c :: f) =>
        match Ascii.eqb c ".", f with
        | true, _ :: _ => v ← digits_value 0 (i ++ f); Some (sign * v, length f)
        | _, _ => None
        end
    | _ => None
    end = Some (sign * v, length g)) as Hread.
  { intros sign. subst t. rewrite span_digits_app; [|done|by destruct g].
    destruct i as [|c0 i]; [done|]. destruct g as [|c g]; cbv beta iota.
    - rewrite app_nil_r in Hv. by rewrite Hv.
    - rewrite Ascii.eqb_refl. by rewrite Hv. }
  destruct negative; cbn [app]; unfold read_decimal; [apply Hread|].
  assert (exists c r, t = c :: r /\ Ascii.eqb c "-" = false) as (c & r & Ht & Hc).
  { subst t. destruct i as [|c i]; [done|]. exists c. eexists. split; [done|].
    destruct (Ascii.eqb_spec c "-") as [->|]; [|done]. by apply Forall_cons in Hi as [Hi%(f_equal negb) _]. }
  rewrite Ht, Hc, <-Ht. apply Hread.
Qed.

(** What [FormatNumber] prints of [n] in units of [10 ^ -p] reads back as [n]. *)
Lemma FormatNumber_fixed value negative n p :
  0 <= n -> stream_fixed value (S p) = fixed_text negative n (S p) ->
  exists r k, read_decimal (FormatNumber value (S p)) = Some (r, k) /\ (k <= S p)%nat /\
    r * 10 ^ Z.of_nat (S p - k) = sign_of negative * n.
Proof.
  intros Hn Hfix. unfold FormatNumber. rewrite Hfix. unfold fixed_text.
  assert (0 < 10 ^ Z.of_nat (S p)) as Hpow by (apply Z.pow_pos_nonneg; lia).
  set (i := decimal (n / 10 ^ Z.of_nat (S p))). set (f := fraction_digits (S p) _).
  destruct (decimal_digits (n / 10 ^ Z.of_nat (S p))) as [Hi Hine]; [by apply Z.div_pos; lia|]. fold i in Hi, Hine.
  destruct (fraction_digits_spec (S p) (n mod 10 ^ Z.of_nat (S p))) as (Hl & Hf & Hv);
    [by apply Z.mod_pos_bound|]. fold f in Hl, Hf, Hv.
  set (s := if negative then ["-"%char] else []).
  rewrite app_assoc. destruct (Find_app_point (s ++ i) f) as [k0 ->].
  destruct (erase_fraction (s ++ i) f Hf) as (g & k & Hg & ->). rewrite <-app_assoc.
  rewrite Hg in Hf, Hl. apply Forall_app in Hf as [Hgd _]. rewrite length_app, length_replicate in Hl.
  assert (digits_value 0 i = Some (n / 10 ^ Z.of_nat (S p))) as Hiv by (apply decimal_value, Z.div_pos; lia).
  assert (exists v, digits_value 0 (i ++ g) = Some v /\ v * 10 ^ Z.of_nat k = n) as (v & Hgv & Hvn).
  { specialize (Hv (n / 10 ^ Z.of_nat (S p))). rewrite Hg, digits_value_app in Hv.
    rewrite digits_value_app, Hiv. cbn [mbind option_bind].
    destruct (digits_value _ g) as [v|]; [|done]. exists v. split; [done|]. cbn [mbind option_bind] in Hv.
    assert (forall acc, digits_value acc (replicate k "0"%char) = Some (acc * 10 ^ Z.of_nat k)) as Hz.
    { clear. induction k as [|k IH]; intros acc; [cbn; f_equal; lia|]. cbn [replicate digits_value].
      change (IsDigit "0") with true. change (char_code "0" - 48) with 0. rewrite IH, Nat2Z.inj_succ, Z.pow_succ_r by lia.
      f_equal. lia. }
    rewrite Hz in Hv. injection Hv as Hv. rewrite Hv.
    pose proof (Z.div_mod n (10 ^ Z.of_nat (S p)) ltac:(lia)). lia. }
  destruct (sv_eqb _ _) eqn:Hz.
  - apply bool_decide_eq_true in Hz. exists 0, 0%nat. split; [done|]. split; [lia|].
    pose proof (read_decimal_text negative i g v Hi Hine Hgd Hgv) as Hr. fold s in Hr. rewrite Hz in Hr.
    assert (read_decimal (lit "-0") = Some (0, 0%nat)) as Hz0 by done. rewrite Hz0 in Hr. injection Hr as Hr _. destruct negative; cbn [sign_of] in *; lia.
  - exists (sign_of negative * v), (length g). split; [by apply read_decimal_text|]. split; [lia|].
    replace (S p - length g)%nat with k by lia. lia.
Qed.

(** The printed number is the decimal nearest to the double, to [p] places. *)
Lemma FormatNumber_nearest s m e p :
  exists r k, read_decimal (FormatNumber (S754_finite s m e) (S p)) = Some (r, k) /\ (k <= S p)%nat /\
    2 * Z.abs (r * 10 ^ Z.of_nat (S p - k) * magnitude_den e -
               sign_of s * magnitude_num (Z.pos m) e * 10 ^ Z.of_nat (S p)) <= magnitude_den e.
Proof.
  destruct (FormatNumber_fixed (S754_finite s m e) s (scaled (Z.pos m) e (S p)) p) as (r & k & Hr & Hk & He);
    [by apply scaled_nonneg|done|].
  exists r, k. split; [done|]. split; [done|]. rewrite He.
  pose proof (scaled_nearest (Z.pos m) e (S p)) as Hs. destruct s; cbn [sign_of]; lia.
Qed.

(** *** Times *)

Definition digits_n (n : nat) (t : sv) : option (Z * sv) :=
  if (length t <? n)%nat then None else v ← digits_value 0 (take n t); Some (v, drop n t).

Definition expect (c : ascii) (t : sv) : option sv :=
  match t with x :: t => if Ascii.eqb x c then Some t else None | [] => None end.

(** The days of [n] years from [y] on. *)
Fixpoint days_from (y : Z) (n : nat) : Z :=
  match n with O => 0 | S n => year_days y + days_from (y + 1) n end.

Definition Zsum (l : list Z) : Z := foldr Z.add 0 l.

Lemma Zsum_cons x l : Zsum (x :: l) = x + Zsum l.
Proof. done. Qed.

(** The seconds since 1970 of a date and a time of day. *)
Definition epoch_seconds (u : tm) : Z :=
  (days_from 1970 (Z.to_nat (tm_year u - 1970)) +
   Zsum (take (Z.to_nat (tm_mon u - 1)) (month_days (tm_year u))) + (tm_mday u - 1)) * 86400 +
  tm_hour u * 3600 + tm_min u * 60 + tm_sec u.

(** The time of day, and the milliseconds if there is something between them and it. *)
Definition read_utc (t : sv) : option Z :=
  '(y, t) ← digits_n 4 t; t ← expect "-" t; '(m, t) ← digits_n 2 t; t ← expect "-" t; '(d, t) ← digits_n 2 t;
  t ← expect "T" t; '(h, t) ← digits_n 2 t; t ← expect ":" t; '(mi, t) ← digits_n 2 t; t ← expect ":" t;
  '(s, t) ← digits_n 2 t; t ← expect "." t; '(ms, t) ← digits_n 3 t; t ← expect "Z" t;
  match t with [] => Some (epoch_seconds (mkTm y m d h mi s) * 1000 + ms) | _ => None end.

Definition read_compact (t : sv) : option Z :=
  '(y, t) ← digits_n 4 t; '(m, t) ← digits_n 2 t; '(d, t) ← digits_n 2 t;
  t ← expect "-" t; '(h, t) ← digits_n 2 t; '(mi, t) ← digits_n 2 t; '(s, t) ← digits_n 2 t;
  let seconds := epoch_seconds (mkTm y m d h mi s) * 1000 in
  match t with
  | [] => Some seconds
  | _ => t ← expect "-" t; '(ms, t) ← digits_n 3 t; match t with [] => Some (seconds + ms) | _ => None end
  end.

Lemma length_pretty_go w x s :
  (x < 10 ^ N.of_nat w)%N -> (length (lit (pretty_N_go x s)) <= w + length (lit s))%nat.
Proof.
  revert x s. induction w as [|w IH]; intros x s Hx.
  - assert (x = 0%N) as -> by (cbn in Hx; lia). rewrite pretty_N_go_0. lia.
  - destruct (decide (x = 0%N)) as [->|Hx0]; [rewrite pretty_N_go_0; lia|]. rewrite pretty_N_go_step by lia.
    rewrite Nat2N.inj_succ, N.pow_succ_r' in Hx. etrans; [apply IH, N.Div0.div_lt_upper_bound; lia|].
    change (lit (String ?c s)) with (c :: lit s). cbn [length]. lia.
Qed.

Lemma length_setw0 w n : (0 < w)%nat -> 0 <= n < 10 ^ Z.of_nat w -> length (setw0 w (decimal n)) = w.
Proof.
  intros Hw Hn. unfold setw0. rewrite length_app, length_replicate.
  assert (length (decimal n) <= w)%nat; [|lia]. rewrite decimal_pos by lia. unfold pretty, pretty_N.
  case_decide; [cbn; lia|]. pose proof (length_pretty_go w (Z.to_N n) "") as Hl. cbn [lit list_ascii_of_string length] in Hl.
  rewrite Nat.add_0_r in Hl. apply Hl. apply N2Z.inj_lt. rewrite N2Z.inj_pow, Z2N.id, nat_N_Z by lia. apply Hn.
Qed.

Lemma digits_n_app n a v t :
  length a = n -> digits_value 0 a = Some v -> digits_n n (a ++ t) = Some (v, t).
Proof.
  intros <- Hv. unfold digits_n. rewrite length_app, (proj2 (Nat.ltb_ge _ _)) by lia.
  by rewrite take_app_length, Hv, drop_app_length.
Qed.

Lemma digits_n_setw0 w n t :
  (0 < w)%nat -> 0 <= n < 10 ^ Z.of_nat w -> digits_n w (setw0 w (decimal n) ++ t) = Some (n, t).
Proof. intros. apply digits_n_app; [by apply length_setw0|apply setw0_value; lia]. Qed.

Lemma year_of_spec fuel : forall y d, 0 <= d < days_from y fuel ->
  exists k d', year_of fuel y d = (y + Z.of_nat k, d') /\ (k < fuel)%nat /\
    d = days_from y k + d' /\ 0 <= d' < year_days (y + Z.of_nat k).
Proof.
  induction fuel as [|fuel IH]; intros y d Hd; cbn [year_of days_from] in *; [lia|].
  destruct (Z.ltb_spec d (year_days y)).
  - exists 0%nat, d. rewrite Z.add_0_r. split_and!; [done|lia|done|lia|lia].
  - destruct (IH (y + 1) (d - year_days y)) as (k & d' & -> & Hk & Hdk & Hd'); [lia|].
    exists (S k), d'. cbn [days_from]. replace (y + Z.of_nat (S k)) with (y + 1 + Z.of_nat k) by lia.
    split_and!; [done|lia|lia|lia|lia].
Qed.

Lemma month_of_spec ms : forall m d, 0 <= d < Zsum ms ->
  exists k d' n, month_of ms m d = (m + Z.of_nat k, d') /\ (k < length ms)%nat /\
    d = Zsum (take k ms) + d' /\ ms !! k = Some n /\ 0 <= d' < n.
Proof.
  induction ms as [|n ms IH]; intros m d Hd; [cbn in Hd; lia|]. rewrite Zsum_cons in Hd. cbn [month_of].
  destruct (Z.ltb_spec d n).
  - exists 0%nat, d, n. rewrite Z.add_0_r. split_and!; [done|cbn; lia|done|done|lia|lia].
  - destruct (IH (m + 1) (d - n)) as (k & d' & n' & -> & Hk & Hdk & Hn & Hd'); [lia|].
    exists (S k), d', n'. cbn [take firstn]. rewrite Zsum_cons.
    replace (m + Z.of_nat (S k)) with (m + 1 + Z.of_nat k) by lia. split_and!; [done|cbn; lia|lia|done|lia|lia].
Qed.

Lemma month_days_bound y : Zsum (month_days y) = year_days y /\ Forall (fun n => n <= 31) (month_days y).
Proof. unfold year_days, month_days. by destruct (leap y); split; [|repeat constructor..]. Qed.

(** The broken-down time is in range and is the date it came from. *)
Lemma gmtime_spec t : 0 <= t < gmtime_end ->
  exists u, gmtime t = Some u /\ epoch_seconds u = t /\
    (exists k, (k < years_known)%nat /\ tm_year u = 1970 + Z.of_nat k) /\
    0 <= tm_mon u < 100 /\ 0 <= tm_mday u < 100 /\ 0 <= tm_hour u < 100 /\ 0 <= tm_min u < 100 /\ 0 <= tm_sec u < 100.
Proof.
  intros Ht. unfold gmtime. rewrite (proj2 (Z.leb_le 0 t)), (proj2 (Z.ltb_lt t gmtime_end)) by lia. cbn [andb].
  assert (days_from 1970 years_known * 86400 = gmtime_end) as Hend by (vm_compute; reflexivity).
  destruct (year_of_spec years_known 1970 (t / 86400)) as (k & d & -> & Hk & Hdk & Hd).
  { split; [apply Z.div_pos; lia|]. apply Z.div_lt_upper_bound; lia. }
  destruct (month_days_bound (1970 + Z.of_nat k)) as [Hsum Hms].
  destruct (month_of_spec (month_days (1970 + Z.of_nat k)) 1 d) as (j & d' & n & -> & Hj & Hdj & Hn & Hd'); [lia|].
  pose proof (Forall_lookup_1 _ _ _ _ Hms Hn) as Hn31. cbn in Hn31.
  assert (length (month_days (1970 + Z.of_nat k)) = 12%nat) as Hlen by done.
  eexists. split; [done|]. unfold epoch_seconds. cbn [tm_year tm_mon tm_mday tm_hour tm_min tm_sec].
  replace (Z.to_nat (1970 + Z.of_nat k - 1970)) with k by lia. replace (Z.to_nat (1 + Z.of_nat j - 1)) with j by lia.
  split; [|split; [exists k; split; [exact Hk|reflexivity]|]].
  - rewrite Z.add_simpl_r, <-Z.add_assoc. clear -Hdk Hdj Ht. Z.to_euclidean_division_equations. lia.
  - pose proof (Z.mod_pos_bound t 86400 ltac:(lia)). split_and!; try lia; Z.to_euclidean_division_equations; lia.
Qed.

Lemma year_width : forallb (fun k => (length (decimal (1970 + Z.of_nat k)) =? 4)%nat) (seq 0 years_known) = true.
Proof. vm_compute. reflexivity. Qed.

Lemma digits_n_year k t : (k < years_known)%nat ->
  digits_n 4 (decimal (1970 + Z.of_nat k) ++ t) = Some (1970 + Z.of_nat k, t).
Proof.
  intros Hk. pose proof year_width as Hw. rewrite forallb_forall in Hw.
  specialize (Hw k ltac:(apply in_seq; lia)). apply Nat.eqb_eq in Hw.
  apply digits_n_app; [done|apply decimal_value; lia].
Qed.

Lemma split_time_spec tp : 0 <= tp < gmtime_end * ticks_per_second ->
  let '(s, ms) := split_time tp in 0 <= s < gmtime_end /\ 0 <= ms < 1000 /\ s * 1000 + ms = tp / 10000.
Proof.
  intros Htp. unfold split_time, ticks_per_second, gmtime_end in *.
  rewrite !Z.quot_div_nonneg by (Z.to_euclidean_division_equations; lia). Z.to_euclidean_division_equations. lia.
Qed.

(** Both formats keep a time to the millisecond. *)
Lemma FormatUtcTime_reads tp : 0 <= tp < gmtime_end * ticks_per_second ->
  exists text, FormatUtcTime tp = Some text /\ read_utc text = Some (tp / 10000).
Proof.
  intros Htp. apply split_time_spec in Htp. unfold FormatUtcTime. destruct (split_time tp) as [s ms].
  destruct Htp as (Hs & Hms & <-). destruct (gmtime_spec s Hs) as (u & -> & Hu & (k & Hk & Hy) & ?&?&?&?&?).
  cbn [mbind option_bind]. eexists. split; [done|]. unfold read_utc, dec2. rewrite Hy, digits_n_year by done.
  cbn [mbind option_bind expect Ascii.eqb Bool.eqb].
  repeat (rewrite digits_n_setw0 by (cbn; lia); cbn [mbind option_bind expect Ascii.eqb Bool.eqb]).
  f_equal. rewrite <-Hu, <-Hy. by destruct u.
Qed.

Lemma FormatCompactTimestamp_reads tp : 0 <= tp < gmtime_end * ticks_per_second ->
  exists text, FormatCompactTimestamp tp = Some text /\ read_compact text = Some (tp / 10000).
Proof.
  intros Htp. apply split_time_spec in Htp. unfold FormatCompactTimestamp. destruct (split_time tp) as [s ms].
  destruct Htp as (Hs & Hms & <-). destruct (gmtime_spec s Hs) as (u & -> & Hu & (k & Hk & Hy) & ?&?&?&?&?).
  cbn [mbind option_bind]. eexists. split; [done|]. unfold read_compact, dec2. rewrite Hy, digits_n_year by done.
  cbn [mbind option_bind expect Ascii.eqb Bool.eqb].
  repeat (rewrite digits_n_setw0 by (cbn; lia); cbn [mbind option_bind expect Ascii.eqb Bool.eqb]).
  rewrite <-Hy. assert (mkTm (tm_year u) (tm_mon u) (tm_mday u) (tm_hour u) (tm_min u) (tm_sec u) = u) as -> by (by destruct u).
  rewrite Hu. destruct (Z.gtb_spec ms 0).
  - cbn [expect Ascii.eqb Bool.eqb mbind option_bind]. rewrite <-(app_nil_r (setw0 3 _)), digits_n_setw0 by (cbn; lia). done.
  - assert (ms = 0) as -> by lia. f_equal. lia.
Qed.
