(* ===== verification/RunManifest.v ===== *)
(** * RunManifest: what a run of the program is called and where its metrics go

    [lib/src/metrics/RunManifest.cpp], [ClientMetricsConfig.cpp] and
    [ServerMetricsConfig.cpp], with the JSON object that the manifest is written as.  A
    path is its text; joining two of them follows [std::filesystem] on Windows for a
    second part that has neither a root nor a separator, as every part here. *)

From S2P Require Import Prelude StringUtils Config Doubles Platform MetricsText ClientMetrics.
From Stdlib Require Import Ascii String SpecFloat.
From stdpp Require Import base numbers list strings option pretty.
From coqutil Require Import Datatypes.RecordSetters.
Import DoubleBraceUpdate.
Open Scope Z_scope.

(** ** Paths *)

(** A separator is added unless the first part is empty, ends with one, or is a drive. *)
Definition needs_separator (p : sv) : bool :=
  match last p with
  | None => false
  | Some c => negb (Ascii.eqb c "/" || Ascii.eqb c backslash || (Ascii.eqb c ":" && (length p =? 2)%nat))
  end.

(** [p / part]. *)
Definition path_append (p part : sv) : sv :=
  p ++ (if needs_separator p then [backslash] else []) ++ part.

(** The identifier of the process. *)
Class Process (OS : Type) := { GetCurrentProcessId : OS -> Z }.

(** ** Configuration *)

(** Times in milliseconds. *)
(** @src lib/inc/metrics/server/ServerMetricsConfig.h 8-12 ServerMetricsConfig *)
Record ServerMetricsConfig := mkServerMetricsConfig {
  sc_enabled : bool; sc_outputRoot : sv; sc_runId : sv; sc_snapshotInterval : Z }.

(** @src lib/inc/metrics/client/ClientMetricsConfig.h 8-13 ClientMetricsConfig *)
Record ClientMetricsConfig := mkClientMetricsConfig {
  cc_enabled : bool; cc_outputRoot : sv; cc_runId : sv; cc_snapshotInterval : Z; cc_responseTimeout : Z }.

(** @src lib/inc/metrics/server/ServerMetricsConfig.h 9-12 ServerMetricsConfig *)
Definition ServerMetricsConfig_default : ServerMetricsConfig :=
  mkServerMetricsConfig true (lit "artifacts/load-tests") [] 1000.

(** @src lib/inc/metrics/client/ClientMetricsConfig.h 9-13 ClientMetricsConfig *)
Definition ClientMetricsConfig_default : ClientMetricsConfig :=
  mkClientMetricsConfig true (lit "artifacts/load-tests") [] 1000 3000.

(** [if (auto value = ReadEnv(name)) ...]: what a variable makes of a setting. *)
Definition env_setting {A} (env : Environment) (name : string) (read : sv -> A) (unset : A) : A :=
  match ReadEnv env (lit name) with Some value => read value | None => unset end.

(** @src lib/src/metrics/server/ServerMetricsConfig.cpp 9-24 ServerMetricsConfig::FromEnvironment *)
Definition ServerConfig_FromEnvironment (env : Environment) : ServerMetricsConfig :=
  let config := ServerMetricsConfig_default in
  let config := config {{ sc_enabled ::=
    fun b => env_setting env "HIGHP_METRICS_ENABLED" (fun v => ms_ParseBool v b) b }} in
  let config := config {{ sc_outputRoot ::=
    fun root => match ReadEnvPath env (lit "HIGHP_METRICS_OUTPUT_ROOT") with [] => root | value => value end }} in
  config {{ sc_runId ::= fun id => env_setting env "HIGHP_METRICS_RUN_ID" SanitizePathComponent id }}.

(** @src lib/src/metrics/client/ClientMetricsConfig.cpp 18-43 ClientMetricsConfig::FromEnvironment *)
Definition ClientConfig_FromEnvironment (env : Environment) : ClientMetricsConfig :=
  let config := ClientMetricsConfig_default in
  let config := config {{ cc_enabled ::=
    fun b => env_setting env "HIGHP_METRICS_ENABLED" (fun v => ms_ParseBool v b) b }} in
  let config := config {{ cc_outputRoot ::=
    fun root => match ReadEnvPath env (lit "HIGHP_METRICS_OUTPUT_ROOT") with [] => root | value => value end }} in
  let config := config {{ cc_runId ::= fun id => env_setting env "HIGHP_METRICS_RUN_ID" SanitizePathComponent id }} in
  config {{ cc_responseTimeout ::= fun t =>
    env_setting env "HIGHP_CLIENT_METRICS_RESPONSE_TIMEOUT_MS"
      (fun v => let timeoutMs := ParseUnsigned v (u64 t) in i64 (Z.min timeoutMs (2 ^ 63 - 1))) t }}.

Section RunId.
Context {OS : Type} `{WinSock OS} `{Process OS}.

(** The name of a run that was given none: when it started, and the process. *)
(** @src lib/src/metrics/server/ServerMetricsConfig.cpp 35-39 ServerMetricsConfig::ResolveRunId *)
Definition default_run_id (os : OS) : ub (OS * sv) :=
  let '(os, now) := os_call SysSystemClockNow os in
  stamp ← FormatCompactTimestamp (ret now);
  Some (os, stamp ++ lit "-p" ++ decimal (GetCurrentProcessId os)).

(** Both configurations have the same text. *)
(** @src lib/src/metrics/client/ClientMetricsConfig.cpp 49-59 ClientMetricsConfig::ResolveRunId *)
Definition ResolveRunId (runId : sv) (os : OS) : ub (OS * sv) :=
  match runId with [] => default_run_id os | _ => Some (os, SanitizePathComponent runId) end.

(** @src lib/src/metrics/client/ClientMetricsConfig.cpp 45-47 ClientMetricsConfig::ResolveOutputDirectory *)
Definition ResolveOutputDirectory (outputRoot runId : sv) (os : OS) : ub (OS * sv) :=
  '(os, id) ← ResolveRunId runId os; Some (os, path_append outputRoot id).
End RunId.

(** ** Manifest *)

(** @src lib/inc/metrics/RunManifest.h 10-28 RunManifest *)
Record RunManifest := mkRunManifest {
  runId : sv; scenarioName : sv; serverName : sv; gitCommit : sv; gitBranch : sv;
  buildType : sv; machineInfo : sv; targetHost : sv; outputRoot : sv;
  startedAt : option Z; finishedAt : option Z;
  targetPort : Z; plannedClients : Z; messageSizeBytes : Z; sendIntervalMs : Z; durationSec : Z }.

(** @src lib/src/metrics/RunManifest.cpp 9-14 RunManifest::OutputDirectory *)
Definition OutputDirectory (m : RunManifest) : sv :=
  let resolvedRunId := match runId m with [] => lit "run" | id => SanitizePathComponent id end in
  path_append (outputRoot m) resolvedRunId.

Definition nl : ascii := ascii_of_nat 10.
Definition quoted (s : sv) : sv := dquote :: s ++ [dquote].

(** A line of the object: two spaces, the quoted name, a colon and a space, the quoted value. *)
Definition text_line (name : string) (value : sv) : sv :=
  lit "  " ++ quoted (lit name) ++ lit ": " ++ quoted (JsonEscape value) ++ lit "," ++ [nl].

(** [oss << "  \"name\": " << value << ",\n"], the last line without the comma. *)
Definition number_line (name : string) (value : Z) (comma : bool) : sv :=
  lit "  " ++ quoted (lit name) ++ lit ": " ++ decimal value ++ (if comma then lit "," else []) ++ [nl].

(** [time ? FormatUtcTime( *time) : std::string{}]. *)
Definition optional_time (time : option Z) : ub sv :=
  match time with Some tp => FormatUtcTime tp | None => Some [] end.

(** @src lib/src/metrics/RunManifest.cpp 16-38 RunManifest::ToJson *)
Definition ToJson (m : RunManifest) : ub sv :=
  started ← optional_time (startedAt m);
  finished ← optional_time (finishedAt m);
  Some (lit "{" ++ [nl] ++
    text_line "run_id" (runId m) ++
    text_line "scenario_name" (scenarioName m) ++
    text_line "server_name" (serverName m) ++
    text_line "git_commit" (gitCommit m) ++
    text_line "git_branch" (gitBranch m) ++
    text_line "build_type" (buildType m) ++
    text_line "machine_info" (machineInfo m) ++
    text_line "target_host" (targetHost m) ++
    text_line "output_root" (outputRoot m) ++
    text_line "output_dir" (OutputDirectory m) ++
    text_line "started_at" started ++
    text_line "finished_at" finished ++
    number_line "target_port" (targetPort m) true ++
    number_line "planned_clients" (plannedClients m) true ++
    number_line "message_size_bytes" (messageSizeBytes m) true ++
    number_line "send_interval_ms" (sendIntervalMs m) true ++
    number_line "duration_sec" (durationSec m) false ++
    lit "}" ++ [nl]).

(** ** JSON objects

    A reader of flat objects: names and values in order, a value being a string or the
    text of a number. *)

Inductive json_value := JText (s : sv) | JRaw (s : sv).

Definition json_space (c : ascii) : bool :=
  (Ascii.eqb c " " || Ascii.eqb c "009" || Ascii.eqb c "010" || Ascii.eqb c "013")%char%bool.

Fixpoint skip_space (s : sv) : sv :=
  match s with c :: r => if json_space c then skip_space r else s | [] => [] end.

(** Part of a number. *)
Definition raw_char (c : ascii) : bool :=
  negb (json_space c || Ascii.eqb c "," || Ascii.eqb c "}" || Ascii.eqb c "{" || Ascii.eqb c ":" || Ascii.eqb c dquote).

Fixpoint span_raw (s : sv) : sv * sv :=
  match s with
  | c :: r => if raw_char c then let '(t, k) := span_raw r in (c :: t, k) else ([], s)
  | [] => ([], [])
  end.

Definition read_value (s : sv) : option (json_value * sv) :=
  match s with
  | [] => None
  | c :: r =>
      if Ascii.eqb c dquote then '(t, k) ← read_string r; Some (JText t, k)
      else match span_raw s with ([], _) => None | (t, k) => Some (JRaw t, k) end
  end.

Fixpoint read_members (fuel : nat) (s : sv) : option (list (sv * json_value) * sv) :=
  match fuel with
  | O => None
  | S fuel =>
      s ← expect dquote (skip_space s); '(name, s) ← read_string s;
      s ← expect ":" (skip_space s); '(v, s) ← read_value (skip_space s);
      match skip_space s with
      | [] => None
      | c :: s =>
          if Ascii.eqb c "}" then Some ([(name, v)], s)
          else if Ascii.eqb c "," then '(ms, k) ← read_members fuel s; Some ((name, v) :: ms, k)
          else None
      end
  end.

(** The members of an object that is all the text. *)
Definition read_object (s : sv) : option (list (sv * json_value)) :=
  s ← expect "{" (skip_space s); '(ms, k) ← read_members (length s) s;
  match skip_space k with [] => Some ms | _ => None end.

(** *** Writing objects *)

Definition value_text (v : json_value) : sv := match v with JText s => quoted (JsonEscape s) | JRaw s => s end.

(** A member after its indentation [lead], [sp] between its colon and its value. *)
Definition member_text (lead sp : sv) (m : sv * json_value) : sv :=
  lead ++ quoted m.1 ++ ":"%char :: sp ++ value_text m.2.

Fixpoint members_text (lead sp : sv) (ms : list (sv * json_value)) : sv :=
  match ms with
  | [] => []
  | [m] => member_text lead sp m
  | m :: ms => member_text lead sp m ++ ","%char :: members_text lead sp ms
  end.

(** A member that can be written: a name without characters to escape, and a number's
    text not empty and without the characters that end it. *)
Definition member_ok (m : sv * json_value) : Prop :=
  JsonEscape m.1 = m.1 /\
  match m.2 with JText _ => True | JRaw s => s <> [] /\ Forall (fun c => raw_char c = true) s end.

Definition all_space (s : sv) : Prop := Forall (fun c => json_space c = true) s.

Lemma skip_space_app l s : all_space l -> skip_space (l ++ s) = skip_space s.
Proof. induction 1 as [|c l Hc Hl IH]; [done|]. simpl. by rewrite Hc. Qed.

Lemma span_raw_app t k :
  Forall (fun c => raw_char c = true) t -> match k with [] => True | c :: _ => raw_char c = false end ->
  span_raw (t ++ k) = (t, k).
Proof.
  intros Ht Hk. induction Ht as [|c t Hc Ht IH]; simpl.
  - destruct k; [done|]. simpl. by rewrite Hk.
  - by rewrite Hc, IH.
Qed.

Lemma raw_not_space c : raw_char c = true -> json_space c = false /\ Ascii.eqb c dquote = false.
Proof. unfold raw_char. rewrite negb_true_iff, !orb_false_iff. tauto. Qed.

Lemma read_value_text v k :
  match v with JText _ => True | JRaw s => s <> [] /\ Forall (fun c => raw_char c = true) s end ->
  match k with [] => True | c :: _ => raw_char c = false end ->
  skip_space (value_text v ++ k) = value_text v ++ k /\ read_value (value_text v ++ k) = Some (v, k).
Proof.
  destruct v as [s|s]; cbn [value_text]; intros Hv Hk.
  - unfold quoted. cbn [app]. rewrite <-app_assoc. split; [done|]. unfold read_value.
    rewrite Ascii.eqb_refl. cbn [app]. by rewrite read_escape.
  - destruct Hv as [Hne Hs]. pose proof (span_raw_app s k Hs Hk) as Hsp. destruct s as [|c s]; [done|].
    apply Forall_cons in Hs as [Hc _]. destruct (raw_not_space c Hc) as [Hcs Hcq].
    cbn [app] in *. split; [simpl; by rewrite Hcs|]. unfold read_value. by rewrite Hcq, Hsp.
Qed.

(** One member, up to the comma or the brace that follows it. *)
Lemma read_member lead sp m fuel (tail : sv) c k :
  all_space lead -> all_space sp -> all_space tail -> member_ok m -> json_space c = false -> raw_char c = false ->
  read_members (S fuel) (member_text lead sp m ++ tail ++ c :: k) =
  if Ascii.eqb c "}" then Some ([m], k)
  else if Ascii.eqb c "," then '(ms, k) ← read_members fuel k; Some (m :: ms, k) else None.
Proof.
  intros Hlead Hsp Htail [Hname Hv] Hcs Hcr. destruct m as [name v]. cbn [fst snd] in *.
  assert (match tail ++ c :: k with [] => True | x :: _ => raw_char x = false end) as Hnext.
  { destruct Htail as [|x tail Hx _]; [exact Hcr|]. cbn. unfold raw_char. by rewrite Hx. }
  cbn [read_members]. unfold member_text. cbn [fst snd].
  rewrite <-!app_assoc. rewrite skip_space_app by done.
  unfold quoted. cbn [app]. cbn [skip_space]. change (json_space dquote) with false. cbv iota.
  cbn [expect]. rewrite Ascii.eqb_refl. cbn [mbind option_bind]. rewrite <-!app_assoc. cbn [app].
  rewrite <-Hname at 1. rewrite read_escape. cbn [mbind option_bind].
  cbn [skip_space]. change (json_space ":") with false. cbv iota. cbn [expect]. rewrite Ascii.eqb_refl.
  cbn [mbind option_bind]. rewrite skip_space_app by done.
  destruct (read_value_text v (tail ++ c :: k) Hv Hnext) as [-> ->]. cbn [mbind option_bind].
  rewrite skip_space_app by done. cbn [skip_space]. rewrite Hcs. done.
Qed.

Lemma members_text_cons lead sp m m' ms :
  members_text lead sp (m :: m' :: ms) = member_text lead sp m ++ ","%char :: members_text lead sp (m' :: ms).
Proof. done. Qed.

Lemma read_members_text lead sp tail ms : forall fuel k,
  all_space lead -> all_space sp -> all_space tail -> ms <> [] -> Forall member_ok ms -> (length ms <= fuel)%nat ->
  read_members fuel (members_text lead sp ms ++ tail ++ "}"%char :: k) = Some (ms, k).
Proof.
  induction ms as [|m ms IH]; intros fuel k Hl Hs Ht Hne Hok Hf; [done|].
  apply Forall_cons in Hok as [Hm Hok]. destruct fuel as [|fuel]; [cbn in Hf; lia|].
  destruct ms as [|m' ms]; [by apply (read_member lead sp m fuel tail)|].
  rewrite members_text_cons, <-app_assoc. cbn [app].
  pose proof (read_member lead sp m fuel [] "," (members_text lead sp (m' :: ms) ++ tail ++ "}"%char :: k) Hl Hs) as Hr.
  cbn [app] in Hr. rewrite Hr by (done || constructor). rewrite IH; [done|done..|cbn [length] in *; lia].
Qed.

Lemma members_text_length lead sp ms : (length ms <= length (members_text lead sp ms))%nat.
Proof.
  induction ms as [|m [|m' ms] IH]; [done| |].
  - cbn [members_text]. unfold member_text, quoted. rewrite length_app. cbn. lia.
  - rewrite members_text_cons, length_app. cbn [length] in *. lia.
Qed.

(** An object is read back as its members, however it is indented. *)
Lemma read_object_text lead sp tail rest ms :
  all_space lead -> all_space sp -> all_space tail -> all_space rest -> ms <> [] -> Forall member_ok ms ->
  read_object ("{"%char :: members_text lead sp ms ++ tail ++ "}"%char :: rest) = Some ms.
Proof.
  intros Hl Hs Ht Hr Hne Hok. unfold read_object. cbn [skip_space]. change (json_space "{") with false. cbv iota.
  cbn [expect]. rewrite Ascii.eqb_refl. cbn [mbind option_bind].
  rewrite read_members_text; [|done..|].
  - cbn [mbind option_bind]. rewrite <-(app_nil_r rest), skip_space_app by done. done.
  - rewrite length_app. pose proof (members_text_length lead sp ms). lia.
Qed.

(** Without its closing brace the text is no object. *)
Lemma read_members_open lead sp ms : forall fuel,
  all_space lead -> all_space sp -> Forall member_ok ms -> read_members fuel (members_text lead sp ms) = None.
Proof.
  induction ms as [|m ms IH]; intros fuel Hl Hs Hok; [by destruct fuel|].
  apply Forall_cons in Hok as [Hm Hok]. destruct fuel as [|fuel]; [done|]. destruct ms as [|m' ms].
  - destruct Hm as [Hname Hv]. destruct m as [name v]. cbn [members_text read_members] in *. unfold member_text, quoted.
    cbn [fst snd app] in *. rewrite skip_space_app by done.
    cbn [skip_space]. change (json_space dquote) with false. cbv iota. cbn [expect]. rewrite Ascii.eqb_refl.
    cbn [mbind option_bind]. rewrite <-app_assoc. cbn [app]. rewrite <-Hname at 1. rewrite read_escape. cbn [mbind option_bind].
    cbn [skip_space]. change (json_space ":") with false. cbv iota. cbn [expect]. rewrite Ascii.eqb_refl.
    cbn [mbind option_bind]. rewrite skip_space_app by done.
    destruct (read_value_text v [] Hv I) as [Hsk Hrv]. rewrite app_nil_r in Hsk, Hrv. by rewrite Hsk, Hrv.
  - rewrite members_text_cons.
    pose proof (read_member lead sp m fuel [] "," (members_text lead sp (m' :: ms)) Hl Hs) as Hr.
    cbn [app] in Hr. rewrite Hr by (done || constructor). by rewrite IH.
Qed.

Lemma read_object_open lead sp ms :
  all_space lead -> all_space sp -> Forall member_ok ms -> read_object ("{"%char :: members_text lead sp ms) = None.
Proof.
  intros Hl Hs Hok. unfold read_object. cbn [skip_space]. change (json_space "{") with false. cbv iota.
  cbn [expect]. rewrite Ascii.eqb_refl. cbn [mbind option_bind]. by rewrite read_members_open.
Qed.

(** *** Texts of numbers *)

Lemma digit_raw c : IsDigit c = true -> raw_char c = true.
Proof.
  intros Hc. destruct (raw_char c) eqn:Hr; [done|]. exfalso. revert Hc. unfold raw_char, json_space in Hr.
  apply negb_false_iff in Hr.
  repeat match goal with
  | H : _ || _ = true |- _ => apply orb_true_iff in H as [H|H]
  | H : Ascii.eqb c _ = true |- _ => apply Ascii.eqb_eq in H; subst c; by vm_compute
  end.
Qed.

Lemma digits_raw (s : sv) : Forall (fun c => IsDigit c = true) s -> Forall (fun c => raw_char c = true) s.
Proof. intros Hs. eapply Forall_impl; [exact Hs|exact digit_raw]. Qed.

Lemma fixed_raw (negative : bool) n p :
  0 <= n ->
  let result := erase_point (erase_zeros (fixed_text negative n (S p))) in
  Forall (fun c => raw_char c = true) result /\ result <> [].
Proof.
  intros Hn. cbv zeta. unfold fixed_text. assert (0 < 10 ^ Z.of_nat (S p)) by (apply Z.pow_pos_nonneg; lia).
  destruct (decimal_digits (n / 10 ^ Z.of_nat (S p))) as [Hi Hine]; [by apply Z.div_pos; lia|].
  destruct (fraction_digits_spec (S p) (n mod 10 ^ Z.of_nat (S p))) as (_ & Hf & _); [by apply Z.mod_pos_bound|].
  rewrite app_assoc. destruct (erase_fraction ((if negative then ["-"%char] else []) ++ decimal (n / 10 ^ Z.of_nat (S p)))
    (fraction_digits (S p) (n mod 10 ^ Z.of_nat (S p))) Hf) as (g & k & Hg & Heq). cbv zeta in Heq |- *.
  replace (match S p with O => [] | S _ => "."%char :: fraction_digits (S p) (n mod 10 ^ Z.of_nat (S p)) end)
    with ("."%char :: fraction_digits (S p) (n mod 10 ^ Z.of_nat (S p))) by done.
  rewrite Heq. rewrite Hg in Hf. apply Forall_app in Hf as [Hgd _]. split.
  - rewrite !Forall_app. split_and!; [by destruct negative; repeat constructor|by apply digits_raw|].
    apply digits_raw in Hgd. destruct g; [constructor|]. by constructor.
  - destruct negative; [done|]. cbn [app]. by destruct (decimal _).
Qed.

Lemma FormatNumber_raw v p :
  Forall (fun c => raw_char c = true) (FormatNumber v (S p)) /\ FormatNumber v (S p) <> [].
Proof.
  assert (forall negative n, 0 <= n -> stream_fixed v (S p) = fixed_text negative n (S p) ->
    Forall (fun c => raw_char c = true) (FormatNumber v (S p)) /\ FormatNumber v (S p) <> []) as Hfix.
  { intros negative n Hn Hs. unfold FormatNumber. rewrite Hs.
    assert (exists k, Find (fixed_text negative n (S p)) "." = Some k) as [k ->].
    { unfold fixed_text. rewrite app_assoc. apply Find_app_point. }
    destruct (fixed_raw negative n p Hn) as [Hr Hne].
    destruct (sv_eqb _ _); [split; [by repeat constructor|done]|done]. }
  destruct v as [s|s| |s m e].
  - by apply (Hfix s 0).
  - destruct s; (split; [by repeat constructor|done]).
  - split; [by repeat constructor|done].
  - apply (Hfix s (scaled (Z.pos m) e (S p))); [by apply scaled_nonneg|done].
Qed.

(** ** What the manifest says *)

Lemma decimal_raw n : Forall (fun c => raw_char c = true) (decimal n) /\ decimal n <> [].
Proof.
  assert (forall x, 0 <= x -> Forall (fun c => raw_char c = true) (decimal x)) as Hp.
  { intros x Hx. by apply digits_raw, decimal_digits. }
  destruct (Z.lt_ge_cases n 0) as [Hn|Hn]; [|split; [by apply Hp|by apply decimal_digits]].
  rewrite decimal_neg by done. rewrite <-(decimal_pos (- n)) by lia. split; [|done]. constructor; [done|apply Hp; lia].
Qed.

(** The members, in the order written; [started] and [finished] are the texts of the times. *)
Definition manifest_members (m : RunManifest) (started finished : sv) : list (sv * json_value) :=
  (fun nv => (lit nv.1, nv.2)) <$>
  [("run_id", JText (runId m)); ("scenario_name", JText (scenarioName m)); ("server_name", JText (serverName m));
   ("git_commit", JText (gitCommit m)); ("git_branch", JText (gitBranch m)); ("build_type", JText (buildType m));
   ("machine_info", JText (machineInfo m)); ("target_host", JText (targetHost m));
   ("output_root", JText (outputRoot m)); ("output_dir", JText (OutputDirectory m));
   ("started_at", JText started); ("finished_at", JText finished);
   ("target_port", JRaw (decimal (targetPort m))); ("planned_clients", JRaw (decimal (plannedClients m)));
   ("message_size_bytes", JRaw (decimal (messageSizeBytes m)));
   ("send_interval_ms", JRaw (decimal (sendIntervalMs m))); ("duration_sec", JRaw (decimal (durationSec m)))]%string.

(** The texts of a time that is known or not yet. *)
Definition time_reads (time : option Z) (text : sv) : Prop :=
  match time with Some tp => read_utc text = Some (tp / 10000) | None => text = [] end.

Lemma optional_time_reads time :
  match time with Some tp => 0 <= tp < gmtime_end * ticks_per_second | None => True end ->
  exists text, optional_time time = Some text /\ time_reads time text.
Proof. destruct time as [tp|]; intros Ht; [by apply FormatUtcTime_reads|by exists []]. Qed.

(** A line of the manifest is a member, the line break before it being its indentation. *)
Lemma text_line_member name value r :
  nl :: text_line name value ++ r =
  member_text (nl :: lit "  ") (lit " ") (lit name, JText value) ++ ","%char :: nl :: r.
Proof. unfold text_line, member_text, quoted. cbn [fst snd value_text]. by rewrite <-!app_assoc. Qed.

Lemma number_line_member name value r :
  nl :: number_line name value true ++ r =
  member_text (nl :: lit "  ") (lit " ") (lit name, JRaw (decimal value)) ++ ","%char :: nl :: r.
Proof. unfold number_line, member_text, quoted. cbn [fst snd value_text]. by rewrite <-!app_assoc. Qed.

Lemma last_line_member name value r :
  nl :: number_line name value false ++ r =
  member_text (nl :: lit "  ") (lit " ") (lit name, JRaw (decimal value)) ++ nl :: r.
Proof. unfold number_line, member_text, quoted. cbn [fst snd value_text]. by rewrite <-!app_assoc. Qed.

(** C28: The manifest reads back.  Whatever bytes the names of a run consist of (quotes,
    backslashes and control characters included), the text that [ToJson] writes is one
    JSON object whose members, in order, are the fields: the same strings, the numbers in
    decimal, the directory of the run, and its times to the millisecond. *)
Theorem manifest_reads_back (m : RunManifest) :
  (forall tp, startedAt m = Some tp \/ finishedAt m = Some tp -> 0 <= tp < gmtime_end * ticks_per_second) ->
  exists text started finished,
    ToJson m = Some text /\ read_object text = Some (manifest_members m started finished) /\
    time_reads (startedAt m) started /\ time_reads (finishedAt m) finished.
Proof.
  intros Ht.
  destruct (optional_time_reads (startedAt m)) as (started & Hs & Hsr); [case_match; auto|].
  destruct (optional_time_reads (finishedAt m)) as (finished & Hf & Hfr); [case_match; auto|].
  eexists _, started, finished. unfold ToJson. rewrite Hs, Hf. cbn [mbind option_bind].
  split; [done|]. split; [|done].
  match goal with |- read_object ?t = _ =>
    assert (t = "{"%char :: members_text (nl :: lit "  ") (lit " ") (manifest_members m started finished) ++
      [nl] ++ "}"%char :: [nl]) as -> end.
  - unfold manifest_members. cbn [fmap list_fmap fst snd].
    repeat (rewrite members_text_cons, <-app_assoc; cbn [app]). cbn [members_text].
    change (lit "{" ++ [nl] ++ ?r) with ("{"%char :: nl :: r).
    repeat (rewrite text_line_member || rewrite number_line_member). by rewrite last_line_member.
  - apply read_object_text; [by repeat constructor..|done|].
    repeat (apply Forall_cons; split; [split; [by vm_compute|first [exact I|split; apply decimal_raw]]|]). constructor.
Qed.

Definition demo_manifest : RunManifest :=
  mkRunManifest (lit "run 1") (lit "a\b") (quoted (lit "x")) [nl] [] (lit "Debug") [] (lit "127.0.0.1")
    (lit "C:") (Some 17000000001234567) None 8080 (-1) 0 0 0.

Lemma manifest_reads_back_witness :
  exists text started, ToJson demo_manifest = Some text /\ started = lit "2023-11-14T22:13:20.123Z" /\
    read_object text = Some (manifest_members demo_manifest started []).
Proof.
  destruct (manifest_reads_back demo_manifest) as (text & started & finished & Ht & Hr & _ & Hf).
  - intros tp [[= <-]|[=]]. vm_compute. split; [discriminate|reflexivity].
  - cbn in Hf. subst finished. exists text, started. split; [exact Ht|]. split; [|exact Hr].
    vm_compute in Ht. injection Ht as <-. vm_compute in Hr. by injection Hr as <-.
Defined.

(** ** Settings from the environment *)

Lemma isspace_dec c : IsDigit c = true -> isspace c = false.
Proof.
  unfold IsDigit, isspace. intros [Hc%Z.leb_le _]%andb_true_iff.
  apply orb_false_iff. rewrite andb_false_iff, !Z.leb_gt, Z.eqb_neq. lia.
Qed.

Lemma ms_Trim_decimal n : 0 <= n -> ms_Trim (decimal n) = decimal n.
Proof.
  intros Hn. destruct (decimal_digits n Hn) as [Hd _].
  assert (forall ds, Forall (fun c => IsDigit c = true) ds -> erase_front ds = ds) as Hef.
  { intros ds Hds. destruct Hds; [done|]. simpl. by rewrite isspace_dec. }
  unfold ms_Trim, erase_back. rewrite (Hef _ Hd), Hef, reverse_involutive by by apply Forall_reverse. done.
Qed.

Lemma response_timeout_decimal env n :
  env (lit "HIGHP_CLIENT_METRICS_RESPONSE_TIMEOUT_MS") = Some (decimal n) -> 0 <= n ->
  cc_responseTimeout (ClientConfig_FromEnvironment env) =
    if n <? 2 ^ 64 then Z.min n (2 ^ 63 - 1) else cc_responseTimeout ClientMetricsConfig_default.
Proof.
  intros He Hn. unfold ClientConfig_FromEnvironment. cbn [cc_responseTimeout].
  transitivity (env_setting env "HIGHP_CLIENT_METRICS_RESPONSE_TIMEOUT_MS"
    (fun v => i64 (Z.min (ParseUnsigned v (u64 3000)) (2 ^ 63 - 1))) 3000); [done|].
  unfold env_setting, ReadEnv. rewrite He, ms_Trim_decimal by done.
  pose proof (ParseUnsigned_decimal n (u64 3000) Hn) as Hp.
  destruct (decimal n) eqn:Hd; [by destruct (decimal_digits n Hn)|]. rewrite Hp. case_bool; zbool; [|done].
  apply swrap_small; lia.
Qed.

(** C38: Every timeout up to 9,223,372,036,854 milliseconds that the environment sets is
    the one the client uses, and tracking a request with it succeeds.  A greater one, up
    to the range of [uint64_t], is accepted too (cut to the greatest [int64_t]), and then
    the first request tracked converts it to nanoseconds out of range; one beyond that
    range leaves the default. *)
Theorem response_timeout_range {OS} `{WinSock OS} env n sequence responseType (s : AtomicClientMetrics * OS) :
  env (lit "HIGHP_CLIENT_METRICS_RESPONSE_TIMEOUT_MS") = Some (decimal n) -> 0 <= n ->
  sequence <> 0 -> responseType <> 0 ->
  let timeout := cc_responseTimeout (ClientConfig_FromEnvironment env) in
  (n <= 9223372036854 -> timeout = n /\ is_Some (Cm_TrackRequest sequence responseType timeout s)) /\
  (9223372036854 < n < 2 ^ 64 -> Cm_TrackRequest sequence responseType timeout s = None) /\
  (2 ^ 64 <= n -> timeout = 3000).
Proof.
  intros He Hn Hs Hr. cbv zeta. rewrite (response_timeout_decimal env n He Hn).
  destruct s as [m os]. unfold Cm_TrackRequest. rewrite (proj2 (Z.eqb_neq _ _) Hs), (proj2 (Z.eqb_neq _ _) Hr). cbn [orb].
  destruct (NowSteadyNanoseconds os) as [os' now]. unfold timeout_ns. split_and!; intros Hrange.
  - rewrite (proj2 (Z.ltb_lt n (2 ^ 64))), Z.min_l by lia. split; [done|].
    case_bool; zbool; [rewrite (proj2 (Z.ltb_lt _ _)) by lia|]; by eexists.
  - rewrite (proj2 (Z.ltb_lt n (2 ^ 64))), (proj2 (Z.ltb_lt 0 _)), (proj2 (Z.ltb_ge _ _)) by lia. done.
  - by rewrite (proj2 (Z.ltb_ge n (2 ^ 64))) by lia.
Qed.

Lemma response_timeout_range_witness :
  let env n name := if sv_eqb name (lit "HIGHP_CLIENT_METRICS_RESPONSE_TIMEOUT_MS") then Some (decimal n) else None in
  let timeout n := cc_responseTimeout (ClientConfig_FromEnvironment (env n)) in
  timeout 250 = 250 /\
  Cm_TrackRequest 1 2 (timeout 9223372036855) (AtomicClientMetrics_init, script_of []) = None.
Proof.
  intros env timeout. split.
  - apply (proj1 (response_timeout_range (env 250) 250 1 2 (AtomicClientMetrics_init, script_of [])
      ltac:(vm_compute; reflexivity) ltac:(lia) ltac:(lia) ltac:(lia))). lia.
  - apply (proj1 (proj2 (response_timeout_range (env 9223372036855) 9223372036855 1 2 (AtomicClientMetrics_init, script_of [])
      ltac:(vm_compute; reflexivity) ltac:(lia) ltac:(lia) ltac:(lia)))). lia.
Defined.

(** A run's name becomes one part of a path: no separator, drive or white space is left in
    it.  Two dots are left, and name the directory above. *)
Lemma sanitized_part value :
  length (SanitizePathComponent value) = length value /\
  Forall (fun c => invalid_in_path c = false) (SanitizePathComponent value) /\
  SanitizePathComponent (SanitizePathComponent value) = SanitizePathComponent value.
Proof.
  assert (Forall (fun c => invalid_in_path c = false) (SanitizePathComponent value)) as Hv.
  { unfold SanitizePathComponent. induction value as [|c value IH]; [constructor|]. cbn. constructor; [|done].
    by destruct (invalid_in_path c) eqn:Hc. }
  split_and!; [by unfold SanitizePathComponent; rewrite length_fmap|done|].
  unfold SanitizePathComponent at 1. induction Hv as [|c l Hc Hl IH]; [done|]. cbn. by rewrite Hc, IH.
Qed.

Lemma sanitized_dots : SanitizePathComponent (lit "..") = lit "..".
Proof. done. Qed.
