(* ===== verification/RuntimeSampler.v ===== *)
(** * RuntimeSampler: processor time of the process and of the logic thread

    [lib/src/metrics/server/writer/RuntimeSampler.cpp] and the counts of
    [ServerMetricsSupport.cpp].  The times are in units of 100 nanoseconds, as the system
    counts them; percentages are doubles.  The system's answers are a parameter. *)

From S2P Require Import Prelude StringUtils Platform Doubles MetricsText RunManifest.
From Stdlib Require Import String SpecFloat.
From stdpp Require Import base numbers list option.
From coqutil Require Import Datatypes.RecordSetters.
Import DoubleBraceUpdate.
Open Scope Z_scope.

(** A [FILETIME]: its low and its high half. *)
Abbreviation FILETIME := (Z * Z)%type.

(** What becomes of a stream that is opened, written and checked. *)
Inductive WriteResult := NotOpened | NotGood | Written.

(** The calls of the metrics to the system: processor times in kernel and user mode, the
    handle of a thread (zero for none), a handle to the list of threads with their owners,
    numbers of processors; then directories, files, and starting a thread, which answers
    with an exception and its message, or one of unknown type. *)
Class Host (OS : Type) := {
  GetProcessTimes : OS -> OS * option (FILETIME * FILETIME);
  OpenThread : Z -> OS -> OS * Z;
  GetThreadTimes : Z -> OS -> OS * option (FILETIME * FILETIME);
  CreateToolhelp32Snapshot : OS -> OS * (Z * list Z);
  GetActiveProcessorCount : OS -> OS * Z;
  GetSystemInfo : OS -> OS * Z;
  create_directories : sv -> OS -> OS * option sv;
  stream_write : bool -> sv -> sv -> OS -> OS * WriteResult;
  start_thread : OS -> OS * option (option sv)
}.

(** @src lib/inc/metrics/server/writer/RuntimeSampler.h 9-13 RuntimeSample *)
Record RuntimeSample := mkRuntimeSample {
  rt_processCpuPercent : double; rt_logicThreadCpuPercent : double; rt_threadCount : Z }.

Definition RuntimeSample_zero : RuntimeSample := mkRuntimeSample d_zero d_zero 0.

(** @src lib/inc/metrics/server/writer/RuntimeSampler.h 21-29 RuntimeSampler *)
Record RuntimeSampler := mkRuntimeSampler {
  _logicThreadId : Z;
  _lastSampleAt : Z;
  _lastProcessKernel100ns : Z; _lastProcessUser100ns : Z;
  _lastLogicThreadKernel100ns : Z; _lastLogicThreadUser100ns : Z;
  _lastLogicThreadIdSampled : Z;
  _hasBaseline : bool }.

(** @src lib/inc/metrics/server/writer/RuntimeSampler.h 22-29 RuntimeSampler *)
Definition RuntimeSampler_init : RuntimeSampler := mkRuntimeSampler 0 0 0 0 0 0 0 false.

(** @src lib/src/metrics/server/writer/RuntimeSampler.cpp 110-112 RuntimeSampler::SetLogicThreadId *)
Definition Sampler_SetLogicThreadId (threadId : Z) (r : RuntimeSampler) : RuntimeSampler :=
  r {{ _logicThreadId := threadId }}.

(** @src lib/src/metrics/server/writer/RuntimeSampler.cpp 114-122 RuntimeSampler::Reset *)
Definition Sampler_Reset (r : RuntimeSampler) : RuntimeSampler :=
  mkRuntimeSampler (_logicThreadId r) 0 0 0 0 0 0 false.

Section Sampling.
Context {OS : Type} `{WinSock OS} `{Process OS} `{Host OS}.
Implicit Types (r : RuntimeSampler) (os : OS).

(** @src lib/src/metrics/server/ServerMetricsSupport.cpp 176-183 CountProcessThreads *)
Fixpoint count_owned (processId : Z) (entries : list Z) (count : Z) : Z :=
  match entries with
  | [] => count
  | th32OwnerProcessID :: entries =>
      count_owned processId entries (if th32OwnerProcessID =? processId then u32 (count + 1) else count)
  end.

(** What the deferred functions do to a handle when its scope is left. *)
(** @src lib/src/metrics/server/writer/RuntimeSampler.cpp 37-41 RuntimeSampler::Sample *)
Definition close_deferred (handle : Z) os : OS :=
  if negb (handle =? 0) && negb (handle =? INVALID_HANDLE_VALUE) then (os_call (SysCloseHandle handle) os).1 else os.

(** @src lib/src/metrics/server/ServerMetricsSupport.cpp 159-186 CountProcessThreads *)
Definition CountProcessThreads os : OS * Z :=
  let processId := GetCurrentProcessId os in
  match CreateToolhelp32Snapshot os with
  | (os, (snapshot, entries)) =>
      if snapshot =? INVALID_HANDLE_VALUE then (os, 0) else
      let count := count_owned processId entries 0 in
      (close_deferred snapshot os, count)
  end.

(** @src lib/src/metrics/server/ServerMetricsSupport.cpp 188-197 GetProcessorCount *)
Definition GetProcessorCount os : OS * Z :=
  let '(os, count) := GetActiveProcessorCount os in
  let '(os, count) := if count =? 0 then GetSystemInfo os else (os, count) in
  (os, if count =? 0 then 1 else count).

Definition of_filetime (t : FILETIME) : Z := FileTimeToUint64 t.1 t.2.

(** The times of the logic thread, if it is known and the system tells them. *)
(** @src lib/src/metrics/server/writer/RuntimeSampler.cpp 31-53 RuntimeSampler::Sample *)
Definition sample_thread (logicThreadId : Z) os : OS * option (Z * Z) :=
  if logicThreadId =? 0 then (os, None)
  else
    let '(os, thread) := OpenThread logicThreadId os in
    if thread =? 0 then (os, None)
    else
      let '(os, times) := GetThreadTimes thread os in
      let os := close_deferred thread os in
      (os, (fun '(k, u) => (of_filetime k, of_filetime u)) <$> times).

(** [static_cast<double>(delta) * 1e-7]. *)
Definition seconds_100ns (delta : Z) : double := d_mul (d_of_Z delta) d_1e_7.

(** The share of one processor that the time since the last sample is, in percent. *)
(** @src lib/src/metrics/server/writer/RuntimeSampler.cpp 69-74 RuntimeSampler::Sample *)
Definition cpu_percent (lastKernel lastUser kernel user : Z) (elapsedSeconds : double) (processorCount : Z) : double :=
  let processDelta := u64 (u64 (kernel - lastKernel) + u64 (user - lastUser)) in
  let processSeconds := seconds_100ns processDelta in
  d_mul (d_div (d_div processSeconds elapsedSeconds) (d_of_Z processorCount)) (d_of_Z 100).

(** @src lib/src/metrics/server/writer/RuntimeSampler.cpp 67-74 RuntimeSampler::Sample *)
Definition process_percent r : Z -> Z -> double -> Z -> double :=
  cpu_percent (_lastProcessKernel100ns r) (_lastProcessUser100ns r).

(** @src lib/src/metrics/server/writer/RuntimeSampler.cpp 84-89 RuntimeSampler::Sample *)
Definition logic_percent r (kernel user : Z) (elapsedSeconds : double) : double :=
  let logicDelta :=
    u64 (u64 (kernel - _lastLogicThreadKernel100ns r) + u64 (user - _lastLogicThreadUser100ns r)) in
  d_mul (d_div (seconds_100ns logicDelta) elapsedSeconds) (d_of_Z 100).

(** @src lib/src/metrics/server/writer/RuntimeSampler.cpp 8-108 RuntimeSampler::Sample *)
Definition Sample r os : RuntimeSampler * OS * RuntimeSample :=
  let '(os, now) := NowInNs64 os in
  match GetProcessTimes os with
  | (os, None) =>
      (mkRuntimeSampler (_logicThreadId r) now 0 0 0 0 0 false, os, RuntimeSample_zero)
  | (os, Some (kernel, user)) =>
      let processKernel := of_filetime kernel in
      let processUser := of_filetime user in
      let logicThreadId := _logicThreadId r in
      let '(os, logic) := sample_thread logicThreadId os in
      let '(os, processorCount) := GetProcessorCount os in
      if negb (_hasBaseline r) then
        let '(logicKernel, logicUser) := default (0, 0) logic in
        (mkRuntimeSampler logicThreadId now processKernel processUser logicKernel logicUser logicThreadId true,
         os, RuntimeSample_zero)
      else
        let elapsedSeconds := seconds_of (now - _lastSampleAt r) in
        let positive := d_ltb d_zero elapsedSeconds in
        let cpu := if positive then process_percent r processKernel processUser elapsedSeconds processorCount else d_zero in
        let logicCpu :=
          match logic with
          | Some (k, u) =>
              if positive && (_lastLogicThreadIdSampled r =? logicThreadId)
              then logic_percent r k u elapsedSeconds else d_zero
          | None => d_zero
          end in
        let r := r {{ _lastSampleAt := now; _lastProcessKernel100ns := processKernel; _lastProcessUser100ns := processUser }} in
        let r :=
          match logic with
          | Some (k, u) =>
              r {{ _lastLogicThreadKernel100ns := k; _lastLogicThreadUser100ns := u;
                   _lastLogicThreadIdSampled := logicThreadId }}
          | None => r
          end in
        let '(os, threadCount) := CountProcessThreads os in
        (r, os, mkRuntimeSample cpu logicCpu threadCount)
  end.
(** When the logic thread could not be queried for the baseline, the baseline counts it at
    zero under its own identifier: the next sample that can query it takes all the time the
    thread ever used for time used since the last sample. *)
Lemma missed_baseline r os os1 now os2 kernel user os3 os4 processors :
  _hasBaseline r = false -> NowInNs64 os = (os1, now) -> GetProcessTimes os1 = (os2, Some (kernel, user)) ->
  sample_thread (_logicThreadId r) os2 = (os3, None) -> GetProcessorCount os3 = (os4, processors) ->
  exists r', Sample r os = (r', os4, RuntimeSample_zero) /\ _hasBaseline r' = true /\
    _lastLogicThreadIdSampled r' = _logicThreadId r' /\
    forall k u elapsedSeconds,
      logic_percent r' k u elapsedSeconds = d_mul (d_div (seconds_100ns (u64 (u64 k + u64 u))) elapsedSeconds) (d_of_Z 100).
Proof.
  intros Hb Hn Hp Ht Hc. unfold Sample. rewrite Hn, Hp, Ht, Hc, Hb. cbn [negb default from_option].
  eexists. split; [done|]. split; [done|]. split; [done|]. intros k u e. unfold logic_percent.
  cbn [_lastLogicThreadKernel100ns _lastLogicThreadUser100ns]. by rewrite !Z.sub_0_r.
Qed.
End Sampling.
