(* ===== verification/WriterLog.v ===== *)
(** * WriterLog: what the metrics writers leave in files

    Shared by the two writers: the system that keeps files ([ReliableHost], with an
    instance that keeps them in memory), the log as the lines of a list of records, and
    the lemmas on the manifest's times. *)

From S2P Require Import Prelude StringUtils Platform MetricsText RunManifest RuntimeSampler.
From Stdlib Require Import Ascii String.
From stdpp Require Import base numbers list strings option.
Open Scope Z_scope.

(** ** The log *)

Section Log.
Context {R : Type} (build : R -> option R -> ub sv).
Implicit Types (p r : R) (records : list R).

(** The text of the lines of some records, the first compared with [p]. *)
Fixpoint log_text p records : option sv :=
  match records with
  | [] => Some []
  | r :: records => line ← build r (Some p); rest ← log_text r records; Some (line ++ nl :: rest)
  end.

(** Each record with the one before it. *)
Fixpoint chain p records : list (R * option R) :=
  match records with [] => [] | r :: records => (r, Some p) :: chain r records end.

Fixpoint last_record p records : R :=
  match records with [] => p | r :: records => last_record r records end.

Lemma log_text_snoc records : forall p r text line,
  log_text p records = Some text -> build r (Some (last_record p records)) = Some line ->
  log_text p (records ++ [r]) = Some (text ++ line ++ [nl]).
Proof.
  induction records as [|r0 records IH]; intros p r text line Ht Hl; cbn [log_text last_record app] in *.
  - injection Ht as <-. by rewrite Hl.
  - destruct (build r0 (Some p)) as [l0|]; [|done]. cbn [mbind option_bind] in *.
    destruct (log_text r0 records) as [rest|] eqn:Hr; [|done]. cbn [mbind option_bind] in Ht. injection Ht as <-.
    rewrite (IH r0 r rest line) by done. cbn [mbind option_bind]. by rewrite <-app_assoc.
Qed.

Lemma chain_snoc records : forall p r, chain p (records ++ [r]) = chain p records ++ [(r, Some (last_record p records))].
Proof. induction records as [|r0 records IH]; intros p r; [done|]. cbn. by rewrite IH. Qed.

Lemma last_record_snoc records : forall p r, last_record p (records ++ [r]) = r.
Proof. induction records as [|r0 records IH]; intros p r; [done|]. cbn. by rewrite IH. Qed.

(** The file that was [old], after the lines of the records: none leave it alone. *)
Definition log_file (old : option sv) records (text : sv) : option sv :=
  match records with [] => old | _ => Some (default [] old ++ text) end.

Lemma log_file_snoc old records r text : log_file old (records ++ [r]) text = Some (default [] old ++ text).
Proof. by destruct records. Qed.

Definition log_holds (old : option sv) p records (file : option sv) : Prop :=
  exists text, log_text p records = Some text /\ file = log_file old records text.

Lemma log_holds_nil old p : log_holds old p [] old.
Proof. by exists []. Qed.

(** A line at the end of the file. *)
Lemma log_holds_snoc old p records file r line :
  log_holds old p records file -> build r (Some (last_record p records)) = Some line ->
  log_holds old p (records ++ [r]) (Some (default [] file ++ line ++ [nl])).
Proof.
  intros (text & Ht & ->) Hl. exists (text ++ line ++ [nl]). split; [by apply log_text_snoc|].
  rewrite log_file_snoc. f_equal. destruct records as [|r0 records]; cbn [log_file].
  - injection Ht as <-. done.
  - change ((default [] old ++ text) ++ line ++ [nl] = default [] old ++ text ++ line ++ [nl]). by rewrite <-app_assoc.
Qed.
End Log.

(** ** Files *)

(** What is relied on of a system with room for the files: directories are made, threads
    start, and a text is written to its file, after what it holds or in its place; nothing
    else changes a file.  The clock shows a time that [gmtime_s] knows. *)
Class ReliableHost (OS : Type) `{WinSock OS} `{Process OS} `{Host OS} := {
  file_of : OS -> sv -> option sv;
  rh_os_call : forall c os, file_of (os_call c os).1 = file_of os;
  rh_process_times : forall os, file_of (GetProcessTimes os).1 = file_of os;
  rh_open_thread : forall t os, file_of (OpenThread t os).1 = file_of os;
  rh_thread_times : forall t os, file_of (GetThreadTimes t os).1 = file_of os;
  rh_threads : forall os, file_of (CreateToolhelp32Snapshot os).1 = file_of os;
  rh_processors : forall os, file_of (GetActiveProcessorCount os).1 = file_of os;
  rh_system_info : forall os, file_of (GetSystemInfo os).1 = file_of os;
  rh_directories : forall dir os, (create_directories dir os).2 = None /\ file_of (create_directories dir os).1 = file_of os;
  rh_thread : forall os, (start_thread os).2 = None /\ file_of (start_thread os).1 = file_of os;
  rh_write : forall append path text os,
    (stream_write append path text os).2 = Written /\
    file_of (stream_write append path text os).1 path =
      Some ((if append then default [] (file_of os path) else []) ++ text) /\
    forall other, other <> path -> file_of (stream_write append path text os).1 other = file_of os other;
  rh_clock : forall os, 0 <= ret (os_call SysSystemClockNow os).2 < gmtime_end * ticks_per_second
}.

(** *** Times and paths *)

Lemma path_append_inj dir a b : path_append dir a = path_append dir b -> a = b.
Proof. unfold path_append. intros He. by apply app_inv_head, app_inv_head in He. Qed.

Definition valid_time (time : option Z) : Prop :=
  match time with Some tp => 0 <= tp < gmtime_end * ticks_per_second | None => True end.

Lemma ToJson_total mf : valid_time (startedAt mf) -> valid_time (finishedAt mf) -> is_Some (ToJson mf).
Proof.
  intros Hs Hf. unfold ToJson. destruct (optional_time_reads _ Hs) as (a & -> & _).
  destruct (optional_time_reads _ Hf) as (b & -> & _). by eexists.
Qed.

Section Files.
Context {OS : Type} `{ReliableHost OS}.
Implicit Types (os : OS).

Lemma NowInNs64_files os : file_of (NowInNs64 os).1 = file_of os.
Proof. unfold NowInNs64. pose proof (rh_os_call SysSteadyClockNow os). by destruct (os_call _ os). Qed.

Lemma close_deferred_files h os : file_of (close_deferred h os) = file_of os.
Proof. unfold close_deferred. case_bool; [apply rh_os_call|done]. Qed.

Lemma GetProcessorCount_files os : file_of (GetProcessorCount os).1 = file_of os.
Proof.
  unfold GetProcessorCount. pose proof (rh_processors os) as Hp.
  destruct (GetActiveProcessorCount os) as [os1 n]. cbn [fst] in Hp. case_bool; [|done].
  pose proof (rh_system_info os1) as Hi. destruct (GetSystemInfo os1) as [os2 k]. cbn [fst] in *. by rewrite Hi.
Qed.

Lemma CountProcessThreads_files os : file_of (CountProcessThreads os).1 = file_of os.
Proof.
  unfold CountProcessThreads. pose proof (rh_threads os) as Ht.
  destruct (CreateToolhelp32Snapshot os) as [os1 [h es]]. cbn [fst] in Ht. case_bool; [done|]. cbn [fst].
  by rewrite close_deferred_files.
Qed.

Lemma clock_now os : exists os' now, os_call SysSystemClockNow os = (os', now) /\ file_of os' = file_of os /\
  valid_time (Some (ret now)).
Proof.
  pose proof (rh_os_call SysSystemClockNow os) as Hf. pose proof (rh_clock os) as Hr.
  destruct (os_call SysSystemClockNow os) as [os' now]. by exists os', now.
Qed.

Lemma ResolveRunId_total id os : exists os' id', ResolveRunId id os = Some (os', id') /\ file_of os' = file_of os.
Proof.
  destruct id as [|c id]; [|by eexists os, _]. cbn [ResolveRunId]. unfold default_run_id.
  destruct (clock_now os) as (os' & now & -> & Hf & Hv). destruct (FormatCompactTimestamp_reads _ Hv) as (text & -> & _).
  by eexists os', _.
Qed.
End Files.

(** A system with files in memory, whose clocks stand still. *)
Record FileOS := mkFileOS { fo_files : sv -> option sv; fo_now : Z }.

#[export] Instance FileOS_WinSock : WinSock FileOS := {|
  os_call := fun c os =>
    (os, match c with SysSystemClockNow => sysval (fo_now os mod (gmtime_end * ticks_per_second)) | _ => sysok end) |}.

#[export] Instance FileOS_Process : Process FileOS := {| GetCurrentProcessId := fun _ => 42 |}.

#[export] Instance FileOS_Host : Host FileOS := {|
  GetProcessTimes := fun os => (os, Some ((10000000, 0), (0, 1)));
  OpenThread := fun _ os => (os, 0);
  GetThreadTimes := fun _ os => (os, None);
  CreateToolhelp32Snapshot := fun os => (os, (8, [42; 7; 42]));
  GetActiveProcessorCount := fun os => (os, 4);
  GetSystemInfo := fun os => (os, 4);
  create_directories := fun _ os => (os, None);
  stream_write := fun append path text os =>
    (mkFileOS (fun q => if sv_eqb q path
                        then Some ((if append then default [] (fo_files os path) else []) ++ text)
                        else fo_files os q) (fo_now os), Written);
  start_thread := fun os => (os, None) |}.

#[export] Program Instance FileOS_reliable : ReliableHost FileOS := {| file_of := fo_files |}.
Next Obligation. done. Qed.
Next Obligation. done. Qed.
Next Obligation. done. Qed.
Next Obligation. done. Qed.
Next Obligation. done. Qed.
Next Obligation. done. Qed.
Next Obligation. done. Qed.
Next Obligation. done. Qed.
Next Obligation. done. Qed.
Next Obligation.
  intros append path text os. cbn. split; [done|]. split.
  - unfold sv_eqb. by rewrite bool_decide_eq_true_2.
  - intros other Hne. unfold sv_eqb. by rewrite bool_decide_eq_false_2.
Qed.
Next Obligation. intros os. apply Z.mod_pos_bound. done. Qed.
