(* ===== verification/ServerWriter.v ===== *)
(** * ServerWriter: the files of the server's metrics

    [lib/src/metrics/server/ServerMetricsWriter.cpp], [writer/SnapshotRecord.h],
    [writer/JsonFields.hpp] and [writer/SummaryAccumulator.cpp].  A stream is the text
    written to it so far.  The writer's thread is a state machine whose steps are the
    points where it looks at what [Stop] changes; [Stop] is cut where it waits for it. *)

From S2P Require Import Prelude StringUtils Platform Doubles MetricsText RunManifest RuntimeSampler ServerMetrics.
From Stdlib Require Import Ascii String SpecFloat.
From stdpp Require Import base numbers list strings option.
From coqutil Require Import Datatypes.RecordSetters.
Import DoubleBraceUpdate.
Open Scope Z_scope.

(** ** Records *)

(** @src lib/inc/metrics/server/writer/SnapshotRecord.h 7-36 SnapshotRecord *)
Record SnapshotRecord := mkSnapshotRecord {
  r_capturedAt : Z; r_capturedAtSteady : Z;
  r_acceptTotal : Z; r_disconnectTotal : Z; r_recvPacketsTotal : Z; r_sendPacketsTotal : Z;
  r_recvBytesTotal : Z; r_sendBytesTotal : Z; r_sendFailTotal : Z;
  r_packetValidationTotal : Z; r_packetValidationFailureTotal : Z;
  r_connectedClients : Z; r_pendingAcceptCount : Z; r_pendingRecvCount : Z; r_pendingSendCount : Z;
  r_dispatcherQueueLength : Z; r_runnableWorkerThreadCount : Z;
  r_queueWaitMsAvg : double; r_queueWaitMsMax : double;
  r_dispatchProcessMsAvg : double; r_dispatchProcessMsMax : double;
  r_tickDurationMsAvg : double; r_tickDurationMsMax : double;
  r_tickLagMsAvg : double; r_tickLagMsMax : double;
  r_processCpuPercent : double; r_logicThreadCpuPercent : double;
  r_threadCount : Z }.

(** @src lib/inc/metrics/server/writer/SnapshotRecord.h 8-35 SnapshotRecord *)
Definition SnapshotRecord_zero : SnapshotRecord :=
  mkSnapshotRecord 0 0 0 0 0 0 0 0 0 0 0 0 0 0 0 0 0
    d_zero d_zero d_zero d_zero d_zero d_zero d_zero d_zero d_zero d_zero 0.

(** The record of a snapshot, the time it was taken at and the processor times. *)
(** @src lib/src/metrics/server/ServerMetricsWriter.cpp 189-219 ServerMetricsWriter::CaptureAndWriteSnapshot *)
Definition make_record (snapshot : ServerMetricsSnapshot) (steady : Z) (runtime : RuntimeSample) : SnapshotRecord := {|
  r_capturedAt := sn_capturedAt snapshot; r_capturedAtSteady := steady;
  r_acceptTotal := sn_acceptTotal snapshot; r_disconnectTotal := sn_disconnectTotal snapshot;
  r_recvPacketsTotal := sn_recvPacketsTotal snapshot; r_sendPacketsTotal := sn_sendPacketsTotal snapshot;
  r_recvBytesTotal := sn_recvBytesTotal snapshot; r_sendBytesTotal := sn_sendBytesTotal snapshot;
  r_sendFailTotal := sn_sendFailTotal snapshot; r_packetValidationTotal := sn_packetValidationTotal snapshot;
  r_packetValidationFailureTotal := sn_packetValidationFailureTotal snapshot;
  r_connectedClients := sn_connectedClients snapshot; r_pendingAcceptCount := sn_pendingAcceptCount snapshot;
  r_pendingRecvCount := sn_pendingRecvCount snapshot; r_pendingSendCount := sn_pendingSendCount snapshot;
  r_dispatcherQueueLength := sn_dispatcherQueueLength snapshot;
  r_runnableWorkerThreadCount := sn_runnableWorkerThreadCount snapshot;
  r_queueWaitMsAvg := TimingAverageMs (sn_queueWait snapshot); r_queueWaitMsMax := TimingMaxMs (sn_queueWait snapshot);
  r_dispatchProcessMsAvg := TimingAverageMs (sn_dispatchProcess snapshot);
  r_dispatchProcessMsMax := TimingMaxMs (sn_dispatchProcess snapshot);
  r_tickDurationMsAvg := TimingAverageMs (sn_tickDuration snapshot);
  r_tickDurationMsMax := TimingMaxMs (sn_tickDuration snapshot);
  r_tickLagMsAvg := TimingAverageMs (sn_tickLag snapshot); r_tickLagMsMax := TimingMaxMs (sn_tickLag snapshot);
  r_processCpuPercent := rt_processCpuPercent runtime; r_logicThreadCpuPercent := rt_logicThreadCpuPercent runtime;
  r_threadCount := rt_threadCount runtime |}.

(** ** JsonFields *)

(** [os << DQ << name << DQ : << value], with the value's text. *)
Definition json_field (name : string) (value : sv) : sv := quoted (lit name) ++ ":"%char :: value.

(** @src lib/inc/metrics/server/writer/JsonFields.hpp 10-18 JsonTimestamp *)
Definition JsonTimestamp (name : string) (tp : Z) : ub sv :=
  text ← FormatUtcTime tp; Some (json_field name (quoted (JsonEscape text))).

(** @src lib/inc/metrics/server/writer/JsonFields.hpp 20-27 JsonCounter *)
Definition JsonCounter (name : string) (v : Z) : sv := json_field name (decimal v).

(** @src lib/inc/metrics/server/writer/JsonFields.hpp 29-36 JsonGauge *)
Definition JsonGauge (name : string) (v : Z) : sv := json_field name (decimal v).

(** @src lib/inc/metrics/server/writer/JsonFields.hpp 38-45 JsonNumber *)
Definition JsonNumber (name : string) (v : double) : sv := json_field name (FormatNumber v 3).

(** @src lib/inc/metrics/server/writer/JsonFields.hpp 47-54 JsonUint *)
Definition JsonUint (name : string) (v : Z) : sv := json_field name (decimal v).

(** The writer with the stream it refers to. *)
(** @src lib/inc/metrics/server/writer/JsonFields.hpp 72-74 JsonObjectWriter *)
Record JsonObjectWriter := mkJsonObjectWriter { _os : sv; _first : bool }.

(** @src lib/inc/metrics/server/writer/JsonFields.hpp 58-58 JsonObjectWriter::JsonObjectWriter *)
Definition JsonObjectWriter_make (os : sv) : JsonObjectWriter := mkJsonObjectWriter (os ++ lit "{") true.

(** The stream that the destructor leaves. *)
(** @src lib/inc/metrics/server/writer/JsonFields.hpp 59-59 JsonObjectWriter::~JsonObjectWriter *)
Definition JsonObjectWriter_destroy (json : JsonObjectWriter) : sv := _os json ++ lit "}".

(** @src lib/inc/metrics/server/writer/JsonFields.hpp 64-70 JsonObjectWriter::operator<< *)
Definition json_put (json : JsonObjectWriter) (field : sv) : JsonObjectWriter :=
  mkJsonObjectWriter (_os json ++ (if _first json then [] else lit ",") ++ field) false.

(** ** SummaryAccumulator *)

(** @src lib/inc/metrics/server/writer/SummaryAccumulator.h 25-49 SummaryAccumulator *)
Record SummaryAccumulator := mkSummary {
  _snapshots : Z;
  _acceptPerSecSum : double; _recvPacketsPerSecSum : double; _sendPacketsPerSecSum : double;
  _maxAcceptPerSec : double; _maxRecvPacketsPerSec : double; _maxSendPacketsPerSec : double;
  _queueWaitMsSum : double; _dispatchProcessMsSum : double; _tickDurationMsSum : double; _tickLagMsSum : double;
  _processCpuPercentSum : double; _logicThreadCpuPercentSum : double;
  _maxConnectedClients : Z; _maxDispatcherQueueLength : Z; _maxPendingSendCount : Z;
  _maxQueueWaitMs : double; _maxDispatchProcessMs : double; _maxTickDurationMs : double; _maxTickLagMs : double;
  _maxProcessCpuPercent : double; _maxLogicThreadCpuPercent : double;
  _maxThreadCount : Z; _disconnectTotal : Z; _packetValidationFailureTotal : Z }.

(** What [Reset] leaves, which is also the initial state. *)
(** @src lib/src/metrics/server/writer/SummaryAccumulator.cpp 127-153 SummaryAccumulator::Reset *)
Definition Summary_Reset : SummaryAccumulator :=
  mkSummary 0 d_zero d_zero d_zero d_zero d_zero d_zero d_zero d_zero d_zero d_zero d_zero d_zero
    0 0 0 d_zero d_zero d_zero d_zero d_zero d_zero 0 0 0.

(** [system_clock] counts units of 100 nanoseconds. *)
(** @src lib/src/metrics/server/writer/SummaryAccumulator.cpp 34-37 SummaryAccumulator::Observe *)
Definition elapsed_system (record : SnapshotRecord) (previous : option SnapshotRecord) : Z :=
  match previous with
  | None => 10 ^ 9
  | Some p => (r_capturedAt record - r_capturedAt p) * 100
  end.

(** @src lib/src/metrics/server/writer/SummaryAccumulator.cpp 38-43 SummaryAccumulator::Observe *)
Definition rate_system (total : SnapshotRecord -> Z) (record : SnapshotRecord) (previous : option SnapshotRecord) : double :=
  match previous with
  | None => d_zero
  | Some p => ComputeRate (total record) (total p) (elapsed_system record previous)
  end.

(** @src lib/src/metrics/server/writer/SummaryAccumulator.cpp 17-70 SummaryAccumulator::Observe *)
Definition Summary_Observe (record : SnapshotRecord) (previous : option SnapshotRecord) (s : SummaryAccumulator)
    : SummaryAccumulator :=
  let acceptPerSec := rate_system r_acceptTotal record previous in
  let recvPacketsPerSec := rate_system r_recvPacketsTotal record previous in
  let sendPacketsPerSec := rate_system r_sendPacketsTotal record previous in {|
  _snapshots := u64 (_snapshots s + 1);
  _maxConnectedClients := Z.max (_maxConnectedClients s) (r_connectedClients record);
  _maxDispatcherQueueLength := Z.max (_maxDispatcherQueueLength s) (r_dispatcherQueueLength record);
  _maxPendingSendCount := Z.max (_maxPendingSendCount s) (r_pendingSendCount record);
  _maxQueueWaitMs := d_max (_maxQueueWaitMs s) (r_queueWaitMsMax record);
  _maxDispatchProcessMs := d_max (_maxDispatchProcessMs s) (r_dispatchProcessMsMax record);
  _maxTickDurationMs := d_max (_maxTickDurationMs s) (r_tickDurationMsMax record);
  _maxTickLagMs := d_max (_maxTickLagMs s) (r_tickLagMsMax record);
  _maxProcessCpuPercent := d_max (_maxProcessCpuPercent s) (r_processCpuPercent record);
  _maxLogicThreadCpuPercent := d_max (_maxLogicThreadCpuPercent s) (r_logicThreadCpuPercent record);
  _maxThreadCount := Z.max (_maxThreadCount s) (r_threadCount record);
  _disconnectTotal := r_disconnectTotal record;
  _packetValidationFailureTotal := r_packetValidationFailureTotal record;
  _acceptPerSecSum := d_add (_acceptPerSecSum s) acceptPerSec;
  _recvPacketsPerSecSum := d_add (_recvPacketsPerSecSum s) recvPacketsPerSec;
  _sendPacketsPerSecSum := d_add (_sendPacketsPerSecSum s) sendPacketsPerSec;
  _maxAcceptPerSec := d_max (_maxAcceptPerSec s) acceptPerSec;
  _maxRecvPacketsPerSec := d_max (_maxRecvPacketsPerSec s) recvPacketsPerSec;
  _maxSendPacketsPerSec := d_max (_maxSendPacketsPerSec s) sendPacketsPerSec;
  _queueWaitMsSum := d_add (_queueWaitMsSum s) (r_queueWaitMsAvg record);
  _dispatchProcessMsSum := d_add (_dispatchProcessMsSum s) (r_dispatchProcessMsAvg record);
  _tickDurationMsSum := d_add (_tickDurationMsSum s) (r_tickDurationMsAvg record);
  _tickLagMsSum := d_add (_tickLagMsSum s) (r_tickLagMsAvg record);
  _processCpuPercentSum := d_add (_processCpuPercentSum s) (r_processCpuPercent record);
  _logicThreadCpuPercentSum := d_add (_logicThreadCpuPercentSum s) (r_logicThreadCpuPercent record) |}.

(** @src lib/src/metrics/server/writer/SummaryAccumulator.cpp 155-158 SummaryAccumulator::Average *)
Definition Summary_Average (s : SummaryAccumulator) (sum : double) : double :=
  d_div sum (if _snapshots s =? 0 then d_of_Z 1 else d_of_Z (_snapshots s)).

(** @src lib/src/metrics/server/writer/SummaryAccumulator.cpp 112-121 SummaryAccumulator::BuildMarkdown *)
Definition server_bottleneck (s : SummaryAccumulator) : string :=
  if (_maxDispatcherQueueLength s >? 0) && d_ltb d_zero (_maxTickLagMs s) then "Queue / Logic"
  else if _maxPendingSendCount s >? 0 then "Transport / Send"
  else if d_leb (d_of_Z 80) (_maxProcessCpuPercent s) then "Runtime / CPU"
  else "none observed".

(** [oss << "- name: " << text << "\n"]. *)
Definition md_line (name : string) (text : sv) : sv := lit "- " ++ lit name ++ lit ": " ++ text ++ [nl].

(** A double in a summary. *)
Definition md_number (name : string) (v : double) : sv := md_line name (FormatNumber v 3).

(** The lines above the results, which both summaries have. *)
(** @src lib/src/metrics/server/writer/SummaryAccumulator.cpp 76-86 SummaryAccumulator::BuildMarkdown *)
Definition md_heading (title kind default_name : string) (m : RunManifest) (outputDir started finished : sv) : sv :=
  lit title ++ [nl; nl] ++
  md_line "run_id" (match runId m with [] => lit "run" | id => id end) ++
  md_line kind (match serverName m with [] => lit default_name | name => name end) ++
  md_line "output_dir" outputDir ++
  md_line "started_at" started ++
  md_line "finished_at" finished ++ [nl] ++
  lit "Core Results" ++ [nl].

(** @src lib/src/metrics/server/writer/SummaryAccumulator.cpp 72-125 SummaryAccumulator::BuildMarkdown *)
Definition Summary_BuildMarkdown (s : SummaryAccumulator) (m : RunManifest) (outputDir : sv) : ub sv :=
  started ← optional_time (startedAt m);
  finished ← optional_time (finishedAt m);
  let avg := Summary_Average s in
  Some (md_heading "Server Metrics Summary" "server_name" "server" m outputDir started finished ++
    md_line "max connected clients" (decimal (_maxConnectedClients s)) ++
    md_number "avg accept/sec" (avg (_acceptPerSecSum s)) ++
    md_number "max accept/sec" (_maxAcceptPerSec s) ++
    md_number "avg recv packets/sec" (avg (_recvPacketsPerSecSum s)) ++
    md_number "max recv packets/sec" (_maxRecvPacketsPerSec s) ++
    md_number "avg send packets/sec" (avg (_sendPacketsPerSecSum s)) ++
    md_number "max send packets/sec" (_maxSendPacketsPerSec s) ++
    md_number "avg queue wait ms" (avg (_queueWaitMsSum s)) ++
    md_number "max queue wait ms" (_maxQueueWaitMs s) ++
    md_number "avg dispatch process ms" (avg (_dispatchProcessMsSum s)) ++
    md_number "max dispatch process ms" (_maxDispatchProcessMs s) ++
    md_number "avg tick duration ms" (avg (_tickDurationMsSum s)) ++
    md_number "max tick duration ms" (_maxTickDurationMs s) ++
    md_number "avg tick lag ms" (avg (_tickLagMsSum s)) ++
    md_number "max tick lag ms" (_maxTickLagMs s) ++
    md_line "max pending send count" (decimal (_maxPendingSendCount s)) ++
    md_line "packet validation failure total" (decimal (_packetValidationFailureTotal s)) ++
    md_line "disconnect total" (decimal (_disconnectTotal s)) ++
    md_number "avg process CPU percent" (avg (_processCpuPercentSum s)) ++
    md_number "max process CPU percent" (_maxProcessCpuPercent s) ++
    md_number "avg logic thread CPU percent" (avg (_logicThreadCpuPercentSum s)) ++
    md_number "max logic thread CPU percent" (_maxLogicThreadCpuPercent s) ++
    md_line "max thread count" (decimal (_maxThreadCount s)) ++
    md_line "bottleneck guess" (lit (server_bottleneck s))).

(** ** ServerMetricsWriter *)

(** Whole seconds, truncated. *)
(** @src lib/src/metrics/server/ServerMetricsWriter.cpp 242-249 ServerMetricsWriter::BuildSnapshotJson *)
Definition elapsed_steady (record : SnapshotRecord) (previous : option SnapshotRecord) : Z :=
  match previous with
  | None => 1
  | Some p => Z.quot (r_capturedAtSteady record - r_capturedAtSteady p) (10 ^ 9)
  end * 10 ^ 9.

(** @src lib/src/metrics/server/ServerMetricsWriter.cpp 251-253 ServerMetricsWriter::BuildSnapshotJson *)
Definition rate_steady (total : SnapshotRecord -> Z) (record : SnapshotRecord) (previous : option SnapshotRecord) : double :=
  match previous with
  | None => d_zero
  | Some p => ComputeRate (total record) (total p) (elapsed_steady record previous)
  end.

(** The object with its fields, before its destructor runs. *)
(** @src lib/src/metrics/server/ServerMetricsWriter.cpp 255-293 ServerMetricsWriter::BuildSnapshotJson *)
Definition snapshot_object (record : SnapshotRecord) (previous : option SnapshotRecord) : ub JsonObjectWriter :=
  let rate total := rate_steady total record previous in
  ts ← JsonTimestamp "ts" (r_capturedAt record);
  Some (foldl json_put (JsonObjectWriter_make [])
    [ts;
     JsonCounter "accept_total" (r_acceptTotal record);
     JsonNumber "accept_per_sec" (rate r_acceptTotal);
     JsonCounter "disconnect_total" (r_disconnectTotal record);
     JsonNumber "disconnect_per_sec" (rate r_disconnectTotal);
     JsonCounter "recv_packets_total" (r_recvPacketsTotal record);
     JsonNumber "recv_packets_per_sec" (rate r_recvPacketsTotal);
     JsonCounter "send_packets_total" (r_sendPacketsTotal record);
     JsonNumber "send_packets_per_sec" (rate r_sendPacketsTotal);
     JsonCounter "recv_bytes_total" (r_recvBytesTotal record);
     JsonNumber "recv_bytes_per_sec" (rate r_recvBytesTotal);
     JsonCounter "send_bytes_total" (r_sendBytesTotal record);
     JsonNumber "send_bytes_per_sec" (rate r_sendBytesTotal);
     JsonCounter "send_fail_total" (r_sendFailTotal record);
     JsonCounter "packet_validation_total" (r_packetValidationTotal record);
     JsonCounter "packet_validation_failure_total" (r_packetValidationFailureTotal record);
     JsonGauge "connected_clients" (r_connectedClients record);
     JsonGauge "pending_accept_count" (r_pendingAcceptCount record);
     JsonGauge "pending_recv_count" (r_pendingRecvCount record);
     JsonGauge "pending_send_count" (r_pendingSendCount record);
     JsonGauge "dispatcher_queue_length" (r_dispatcherQueueLength record);
     JsonGauge "runnable_worker_thread_count" (r_runnableWorkerThreadCount record);
     JsonNumber "queue_wait_ms_avg" (r_queueWaitMsAvg record);
     JsonNumber "queue_wait_ms_max" (r_queueWaitMsMax record);
     JsonNumber "dispatch_process_ms_avg" (r_dispatchProcessMsAvg record);
     JsonNumber "dispatch_process_ms_max" (r_dispatchProcessMsMax record);
     JsonNumber "tick_duration_ms_avg" (r_tickDurationMsAvg record);
     JsonNumber "tick_duration_ms_max" (r_tickDurationMsMax record);
     JsonNumber "tick_lag_ms_avg" (r_tickLagMsAvg record);
     JsonNumber "tick_lag_ms_max" (r_tickLagMsMax record);
     JsonNumber "process_cpu_percent" (r_processCpuPercent record);
     JsonNumber "logic_thread_cpu_percent" (r_logicThreadCpuPercent record);
     JsonUint "thread_count" (r_threadCount record)]).

(** [return oss.str();]: the text is copied before the locals, and so the object, are
    destroyed. *)
(** @src lib/src/metrics/server/ServerMetricsWriter.cpp 238-295 ServerMetricsWriter::BuildSnapshotJson *)
Definition Server_BuildSnapshotJson (record : SnapshotRecord) (previous : option SnapshotRecord) : ub sv :=
  json ← snapshot_object record previous; Some (_os json).

(** Where the writer's thread is: none, at the test of its loop, asleep, about to capture,
    at its end. *)
Inductive WriterThread := WNone | WTop | WSleep | WCapture | WEnded.

(** @src lib/inc/metrics/server/ServerMetricsWriter.h 48-64 ServerMetricsWriter *)
Record ServerMetricsWriter := mkServerMetricsWriter {
  sw_config : ServerMetricsConfig; sw_manifest : RunManifest;
  sw_sampler : RuntimeSampler; sw_summary : SummaryAccumulator; sw_previous : SnapshotRecord;
  sw_outputDirectory : sv; sw_manifestPath : sv; sw_snapshotPath : sv; sw_summaryPath : sv;
  sw_thread : WriterThread; sw_stop : bool; sw_running : bool; sw_lastError : sv }.

(** @src lib/src/metrics/server/ServerMetricsWriter.cpp 20-28 ServerMetricsWriter::ServerMetricsWriter *)
Definition ServerMetricsWriter_make (config : ServerMetricsConfig) (manifest : RunManifest) : ServerMetricsWriter :=
  mkServerMetricsWriter config manifest RuntimeSampler_init Summary_Reset SnapshotRecord_zero
    [] [] [] [] WNone false false [].

(** @src lib/src/metrics/server/ServerMetricsWriter.cpp 123-125 ServerMetricsWriter::SetLogicThreadId *)
Definition Writer_SetLogicThreadId (threadId : Z) (w : ServerMetricsWriter) : ServerMetricsWriter :=
  w {{ sw_sampler ::= Sampler_SetLogicThreadId threadId }}.

Section Writer.
Context {M OS : Type} `{WinSock OS} `{Process OS} `{Host OS} `{IServerMetrics M}.
(** The writer, the metrics it reads, which the server's threads change too, and the system. *)
Implicit Types (w : ServerMetricsWriter) (m : M) (os : OS).

(** @src lib/src/metrics/server/ServerMetricsWriter.cpp 154-168 ServerMetricsWriter::InitializeArtifacts *)
Definition Writer_InitializeArtifacts w os : ServerMetricsWriter * OS * bool :=
  let dir := OutputDirectory (sw_manifest w) in
  let w := w {{ sw_outputDirectory := dir;
                sw_manifestPath := path_append dir (lit "manifest.json");
                sw_snapshotPath := path_append dir (lit "server-metrics.jsonl");
                sw_summaryPath := path_append dir (lit "summary.md") }} in
  match create_directories dir os with
  | (os, Some message) =>
      (w {{ sw_lastError := lit "failed to create metrics output directory: " ++ message }}, os, false)
  | (os, None) => (w, os, true)
  end.

(** @src lib/src/metrics/server/ServerMetricsWriter.cpp 170-184 ServerMetricsWriter::WriteManifest *)
Definition Writer_WriteManifest w os : ub (ServerMetricsWriter * OS * bool) :=
  json ← ToJson (sw_manifest w);
  Some (match stream_write false (sw_manifestPath w) json os with
        | (os, NotOpened) => (w {{ sw_lastError := lit "failed to open manifest file" }}, os, false)
        | (os, NotGood) => (w {{ sw_lastError := lit "failed to write manifest file" }}, os, false)
        | (os, Written) => (w, os, true)
        end).

(** [_metrics->TakeSnapshot()]: the snapshot carries the time. *)
Definition take_snapshot m os : M * OS * ServerMetricsSnapshot :=
  let '(os, capturedAt) := os_call SysSystemClockNow os in
  let '(m, snapshot) := TakeSnapshot (ret capturedAt) m in (m, os, snapshot).

(** The previous record's address is never null. *)
(** @src lib/src/metrics/server/ServerMetricsWriter.cpp 186-236 ServerMetricsWriter::CaptureAndWriteSnapshot *)
Definition Writer_Capture w m os : ub (ServerMetricsWriter * M * OS * bool) :=
  let '(m, os, snapshot) := take_snapshot m os in
  let '(os, steady) := NowInNs64 os in
  let '(sampler, os, runtime) := Sample (sw_sampler w) os in
  let w := w {{ sw_sampler := sampler }} in
  let record := make_record snapshot steady runtime in
  let previous := Some (sw_previous w) in
  line ← Server_BuildSnapshotJson record previous;  (* it does not depend on the file, which is opened before *)
  Some (match stream_write true (sw_snapshotPath w) (line ++ [nl]) os with
        | (os, NotOpened) => (w {{ sw_lastError := lit "failed to open metrics snapshot file" }}, m, os, false)
        | (os, NotGood) => (w {{ sw_lastError := lit "failed to write metrics snapshot" }}, m, os, false)
        | (os, Written) =>
            (w {{ sw_summary ::= Summary_Observe record previous; sw_previous := record }}, m, os, true)
        end).

(** What [Start] resets.  The previous record is not among it. *)
(** @src lib/src/metrics/server/ServerMetricsWriter.cpp 40-47 ServerMetricsWriter::Start *)
Definition Writer_reset w : ServerMetricsWriter :=
  w {{ sw_summary := Summary_Reset; sw_sampler ::= Sampler_Reset;
       sw_manifest ::= (fun mf => mf {{ startedAt := None; finishedAt := None }});
       sw_outputDirectory := []; sw_manifestPath := []; sw_snapshotPath := []; sw_summaryPath := [] }}.

(** Creating the files and the first snapshot. *)
(** @src lib/src/metrics/server/ServerMetricsWriter.cpp 56-75 ServerMetricsWriter::Start *)
Definition Writer_open w m os : ub (ServerMetricsWriter * M * OS * bool) :=
  '(os, id) ← ResolveRunId (sc_runId (sw_config w)) os;
  let '(os, now) := os_call SysSystemClockNow os in
  let w := w {{ sw_manifest ::= (fun mf => mf {{
      outputRoot := sc_outputRoot (sw_config w); runId := id;
      serverName ::= (fun name => match name with [] => lit "server" | _ => name end);
      startedAt := Some (ret now) }}) }} in
  let '(w, os, created) := Writer_InitializeArtifacts w os in
  if negb created then Some (w, m, os, false)
  else
    '(w, os, written) ← Writer_WriteManifest w os;
    if negb written then Some (w, m, os, false) else Writer_Capture w m os.

(** Assigning a new thread would first stop and join one that has not ended; [running] is
    false only when there is none ([Stop] joins it, and its last step clears the flag). *)
(** @src lib/src/metrics/server/ServerMetricsWriter.cpp 34-95 ServerMetricsWriter::Start *)
Definition Writer_Start w m os : ub (ServerMetricsWriter * M * OS * bool) :=
  let w := w {{ sw_lastError := [] }} in
  if sw_running w then Some (w, m, os, true)
  else
    let w := Writer_reset w in
    if negb (sc_enabled (sw_config w)) then
      '(os, dir) ← ResolveOutputDirectory (sc_outputRoot (sw_config w)) (sc_runId (sw_config w)) os;
      '(os, id) ← ResolveRunId (sc_runId (sw_config w)) os;
      Some (w {{ sw_outputDirectory := dir;
                 sw_manifest ::= (fun mf => mf {{ outputRoot := sc_outputRoot (sw_config w); runId := id }}) }}, m, os, true)
    else
      '(w, m, os, opened) ← Writer_open w m os;
      if negb (opened : bool) then Some (w, m, os, false)
      else
        let w := w {{ sw_running := true }} in
        Some (match start_thread os with
              | (os, None) => (w {{ sw_thread := WTop; sw_stop := false }}, m, os, true)
              | (os, Some what) =>
                  (w {{ sw_running := false;
                        sw_lastError := lit "failed to start metrics writer thread" ++
                          match what with Some what => lit ": " ++ what | None => [] end }}, m, os, false)
              end).

(** [_running.store(false)] at the end of the thread. *)
Definition thread_exit w : ServerMetricsWriter := w {{ sw_running := false; sw_thread := WEnded }}.

(** One step of the writer's thread. *)
(** @src lib/src/metrics/server/ServerMetricsWriter.cpp 139-152 ServerMetricsWriter::ThreadMain *)
Definition Writer_step w m os : ub (ServerMetricsWriter * M * OS) :=
  let goes_on := negb (sw_stop w) && sw_running w in
  match sw_thread w with
  | WTop => Some (if goes_on then w {{ sw_thread := WSleep }} else thread_exit w, m, os)
  | WSleep => Some (if goes_on then w {{ sw_thread := WCapture }} else thread_exit w, m, os)
  | WCapture =>
      '(w, m, os, captured) ← Writer_Capture w m os;
      Some (if (captured : bool) then w {{ sw_thread := WTop }} else thread_exit w, m, os)
  | WNone | WEnded => Some (w, m, os)
  end.

(** [Stop] up to the join; [false]: it returns. *)
(** @src lib/src/metrics/server/ServerMetricsWriter.cpp 98-105 ServerMetricsWriter::Stop *)
Definition Writer_Stop_begin w : ServerMetricsWriter * bool :=
  let joinable := match sw_thread w with WNone => false | _ => true end in
  if negb (sw_running w) && negb joinable then (w, false)
  else (w {{ sw_running := false; sw_stop ::= orb joinable }}, true).

(** [Stop] after the join; [None] while the thread has not ended. *)
(** @src lib/src/metrics/server/ServerMetricsWriter.cpp 105-121 ServerMetricsWriter::Stop *)
Definition Writer_Stop_end w m os : ub (option (ServerMetricsWriter * M * OS)) :=
  match sw_thread w with
  | WNone | WEnded =>
      let w := w {{ sw_thread := WNone }} in
      if sc_enabled (sw_config w) then
        let '(w, os) :=
          match finishedAt (sw_manifest w) with
          | Some _ => (w, os)
          | None =>
              let '(os, now) := os_call SysSystemClockNow os in
              (w {{ sw_manifest ::= (fun mf => mf {{ finishedAt := Some (ret now) }}) }}, os)
          end in
        '(w, m, os, _) ← Writer_Capture w m os;
        '(w, os, _) ← Writer_WriteManifest w os;
        text ← Summary_BuildMarkdown (sw_summary w) (sw_manifest w) (sw_outputDirectory w);
        Some (Some (w, m, (stream_write false (sw_summaryPath w) text os).1))
      else Some (Some (w, m, os))
  | _ => Some None
  end.
End Writer.
