(* ===== verification/ServerWriterProps.v ===== *)
(** * ServerWriterProps: what the server's metrics files hold

    The lines of snapshots, the summary's maxima, and the files of a run. *)

From S2P Require Import Prelude StringUtils Platform Doubles MetricsText RunManifest RuntimeSampler WriterLog ServerMetrics ServerWriter.
From Stdlib Require Import Ascii String SpecFloat.
From stdpp Require Import base numbers list strings option.
From coqutil Require Import Datatypes.RecordSetters.
Import DoubleBraceUpdate.
Open Scope Z_scope.

(** ** A snapshot's line *)

(** The members of the object, in the order written. *)
Definition server_members (record : SnapshotRecord) (previous : option SnapshotRecord) (ts : sv) : list (sv * json_value) :=
  let total name z := (lit name, JRaw (decimal z)) in
  let number name v := (lit name, JRaw (FormatNumber v 3)) in
  let rate name t := number name (rate_steady t record previous) in
  [(lit "ts", JText ts);
   total "accept_total" (r_acceptTotal record); rate "accept_per_sec" r_acceptTotal;
   total "disconnect_total" (r_disconnectTotal record); rate "disconnect_per_sec" r_disconnectTotal;
   total "recv_packets_total" (r_recvPacketsTotal record); rate "recv_packets_per_sec" r_recvPacketsTotal;
   total "send_packets_total" (r_sendPacketsTotal record); rate "send_packets_per_sec" r_sendPacketsTotal;
   total "recv_bytes_total" (r_recvBytesTotal record); rate "recv_bytes_per_sec" r_recvBytesTotal;
   total "send_bytes_total" (r_sendBytesTotal record); rate "send_bytes_per_sec" r_sendBytesTotal;
   total "send_fail_total" (r_sendFailTotal record); total "packet_validation_total" (r_packetValidationTotal record);
   total "packet_validation_failure_total" (r_packetValidationFailureTotal record);
   total "connected_clients" (r_connectedClients record); total "pending_accept_count" (r_pendingAcceptCount record);
   total "pending_recv_count" (r_pendingRecvCount record); total "pending_send_count" (r_pendingSendCount record);
   total "dispatcher_queue_length" (r_dispatcherQueueLength record);
   total "runnable_worker_thread_count" (r_runnableWorkerThreadCount record);
   number "queue_wait_ms_avg" (r_queueWaitMsAvg record); number "queue_wait_ms_max" (r_queueWaitMsMax record);
   number "dispatch_process_ms_avg" (r_dispatchProcessMsAvg record);
   number "dispatch_process_ms_max" (r_dispatchProcessMsMax record);
   number "tick_duration_ms_avg" (r_tickDurationMsAvg record);
   number "tick_duration_ms_max" (r_tickDurationMsMax record);
   number "tick_lag_ms_avg" (r_tickLagMsAvg record); number "tick_lag_ms_max" (r_tickLagMsMax record);
   number "process_cpu_percent" (r_processCpuPercent record);
   number "logic_thread_cpu_percent" (r_logicThreadCpuPercent record);
   total "thread_count" (r_threadCount record)]%string.

(** Putting fields one by one separates them by commas. *)
Lemma json_put_members ms : forall json m,
  _os (foldl json_put json (member_text [] [] <$> m :: ms)) =
  _os json ++ (if _first json then [] else lit ",") ++ members_text [] [] (m :: ms).
Proof.
  induction ms as [|m' ms IH]; intros json m; [done|].
  rewrite members_text_cons, fmap_cons. cbn [foldl]. rewrite IH. unfold json_put. cbn [_os _first].
  by rewrite <-!app_assoc.
Qed.

Lemma snapshot_object_text record previous ts :
  FormatUtcTime (r_capturedAt record) = Some ts ->
  exists json, snapshot_object record previous = Some json /\
    _os json = "{"%char :: members_text [] [] (server_members record previous ts).
Proof.
  intros Hts. unfold snapshot_object, JsonTimestamp. rewrite Hts. cbn [mbind option_bind].
  eexists. split; [done|]. exact (json_put_members (tail (server_members record previous ts)) (JsonObjectWriter_make []) (lit "ts", JText ts)).
Qed.

Lemma server_members_ok record previous ts : Forall member_ok (server_members record previous ts).
Proof.
  unfold server_members. cbv zeta.
  assert (forall name z, JsonEscape (lit name) = lit name -> member_ok (lit name, JRaw (decimal z))) as Htotal.
  { intros name z Hn. split; [done|]. split; apply decimal_raw. }
  assert (forall name v, JsonEscape (lit name) = lit name -> member_ok (lit name, JRaw (FormatNumber v 3))) as Hnumber.
  { intros name v Hn. split; [done|]. split; apply FormatNumber_raw. }
  constructor; [split; [by vm_compute|exact I]|].
  repeat (constructor; [(apply Htotal || apply Hnumber); by vm_compute|]). constructor.
Qed.

(** The lines of the server's metrics lack their closing brace.  [BuildSnapshotJson]
    copies the text of its stream before the object on it is destroyed, and only the
    destructor writes the brace: no line reads as a JSON object, whatever was measured.
    With the brace it reads as the object meant: the time to the millisecond, every total
    in decimal, and every number as [FormatNumber] prints it. *)
Lemma server_snapshot_lacks_brace record previous :
  0 <= r_capturedAt record < gmtime_end * ticks_per_second ->
  exists line json ts,
    Server_BuildSnapshotJson record previous = Some line /\ read_object line = None /\
    snapshot_object record previous = Some json /\ JsonObjectWriter_destroy json = line ++ lit "}" /\
    read_object (JsonObjectWriter_destroy json) = Some (server_members record previous ts) /\
    read_utc ts = Some (r_capturedAt record / 10000).
Proof.
  intros Ht. destruct (FormatUtcTime_reads _ Ht) as (ts & Hts & Hr).
  destruct (snapshot_object_text record previous ts Hts) as (json & Hj & Ho).
  exists (_os json), json, ts. unfold Server_BuildSnapshotJson, JsonObjectWriter_destroy. rewrite Hj. cbn [mbind option_bind].
  pose proof (server_members_ok record previous ts) as Hok.
  split_and!; [done| |done|done| |done]; rewrite Ho.
  - apply read_object_open; [constructor..|done].
  - apply (read_object_text [] [] [] [] (server_members record previous ts)); [constructor..|discriminate|done].
Qed.

Lemma server_snapshot_lacks_brace_witness :
  exists line, Server_BuildSnapshotJson SnapshotRecord_zero (Some SnapshotRecord_zero) = Some line /\
    read_object line = None /\ length line = 794%nat.
Proof.
  destruct (server_snapshot_lacks_brace SnapshotRecord_zero (Some SnapshotRecord_zero)) as (line & json & ts & Hl & Hr & _).
  - vm_compute. split; [discriminate|reflexivity].
  - exists line. split; [exact Hl|]. split; [exact Hr|]. vm_compute in Hl. by injection Hl as <-.
Defined.

(** Between snapshots less than a second apart every rate of the line is zero, whatever
    was counted: the time between them is cut to whole seconds. *)
Lemma rate_steady_short total record p :
  0 <= r_capturedAtSteady record - r_capturedAtSteady p < 10 ^ 9 -> rate_steady total record (Some p) = d_zero.
Proof.
  intros Ht. unfold rate_steady, elapsed_steady. rewrite Z.quot_small by done. unfold ComputeRate.
  by destruct (if total record >=? total p then _ else _).
Qed.

(** ** The summary *)

(** A record with the one before it. *)
Abbreviation observation := (SnapshotRecord * option SnapshotRecord)%type.

Definition summary_of (obs : list observation) : SummaryAccumulator :=
  foldl (fun s o => Summary_Observe o.1 o.2 s) Summary_Reset obs.

(** The maxima of integers and of doubles, each with what it is the maximum of. *)
Definition gauges : list ((SummaryAccumulator -> Z) * (SnapshotRecord -> Z)) :=
  [(_maxConnectedClients, r_connectedClients); (_maxDispatcherQueueLength, r_dispatcherQueueLength);
   (_maxPendingSendCount, r_pendingSendCount); (_maxThreadCount, r_threadCount)].

Definition numbers : list ((SummaryAccumulator -> double) * (observation -> double)) :=
  [(_maxQueueWaitMs, fun o => r_queueWaitMsMax o.1); (_maxDispatchProcessMs, fun o => r_dispatchProcessMsMax o.1);
   (_maxTickDurationMs, fun o => r_tickDurationMsMax o.1); (_maxTickLagMs, fun o => r_tickLagMsMax o.1);
   (_maxProcessCpuPercent, fun o => r_processCpuPercent o.1);
   (_maxLogicThreadCpuPercent, fun o => r_logicThreadCpuPercent o.1);
   (_maxAcceptPerSec, fun o => rate_system r_acceptTotal o.1 o.2);
   (_maxRecvPacketsPerSec, fun o => rate_system r_recvPacketsTotal o.1 o.2);
   (_maxSendPacketsPerSec, fun o => rate_system r_sendPacketsTotal o.1 o.2)].

Lemma summary_of_snoc obs o : summary_of (obs ++ [o]) = Summary_Observe o.1 o.2 (summary_of obs).
Proof. unfold summary_of. by rewrite foldl_app. Qed.

Lemma summary_gauge obs g : g ∈ gauges -> g.1 (summary_of obs) = foldl Z.max 0 (g.2 ∘ fst <$> obs).
Proof.
  intros Hg. induction obs as [|o obs IH] using rev_ind.
  - repeat (apply elem_of_cons in Hg as [->|Hg]; [done|]). by apply elem_of_nil in Hg.
  - rewrite summary_of_snoc, fmap_app, foldl_app, <-IH.
    repeat (apply elem_of_cons in Hg as [->|Hg]; [done|]). by apply elem_of_nil in Hg.
Qed.

Lemma summary_number obs n : n ∈ numbers -> n.1 (summary_of obs) = d_maxima (n.2 <$> obs).
Proof.
  intros Hn. induction obs as [|o obs IH] using rev_ind.
  - repeat (apply elem_of_cons in Hn as [->|Hn]; [done|]). by apply elem_of_nil in Hn.
  - rewrite summary_of_snoc, fmap_app. cbn [fmap list_fmap]. rewrite d_maxima_snoc, <-IH.
    repeat (apply elem_of_cons in Hn as [->|Hn]; [done|]). by apply elem_of_nil in Hn.
Qed.

Lemma foldl_max_spec (zs : list Z) :
  (foldl Z.max 0 zs = 0 \/ foldl Z.max 0 zs ∈ zs) /\ (forall z, z ∈ zs -> z <= foldl Z.max 0 zs).
Proof.
  induction zs as [|z zs [Hin Hle]] using rev_ind.
  { split; [by left|]. by intros z ?%elem_of_nil. }
  rewrite foldl_app. cbn [foldl]. split.
  - destruct (Z.max_spec (foldl Z.max 0 zs) z) as [[_ ->]|[_ ->]]; rewrite elem_of_app, list_elem_of_singleton; tauto.
  - intros x [Hx| ->%list_elem_of_singleton]%elem_of_app; [specialize (Hle x Hx)|]; lia.
Qed.

(** The summary covers what was observed.  After any records, each with the one
    before it, every maximum of the summary is zero or one of the observed values, and no
    observed value exceeds it (for doubles: no value that is a number, and the maximum is
    one itself, whatever the divisions before it produced); the number of snapshots is
    counted, and the totals are those of the last record. *)
Lemma summary_covers obs :
  let s := summary_of obs in
  (forall g, g ∈ gauges ->
     (g.1 s = 0 \/ exists o, o ∈ obs /\ g.1 s = g.2 o.1) /\ forall o, o ∈ obs -> g.2 o.1 <= g.1 s) /\
  (forall n, n ∈ numbers ->
     is_number (n.1 s) = true /\ (n.1 s = d_zero \/ exists o, o ∈ obs /\ n.1 s = n.2 o) /\
     forall o, o ∈ obs -> is_number (n.2 o) = true -> d_leb (n.2 o) (n.1 s) = true) /\
  _snapshots s = u64 (Z.of_nat (length obs)) /\
  (forall seen o, obs = seen ++ [o] ->
     _disconnectTotal s = r_disconnectTotal o.1 /\ _packetValidationFailureTotal s = r_packetValidationFailureTotal o.1).
Proof.
  cbv zeta. split_and!.
  - intros g Hg. rewrite (summary_gauge obs g Hg). destruct (foldl_max_spec (g.2 ∘ fst <$> obs)) as [Hin Hle]. split.
    + destruct Hin as [|(o & Ho & Hin)%list_elem_of_fmap]; [by left|right; by exists o].
    + intros o Ho. apply Hle. apply list_elem_of_fmap. by exists o.
  - intros n Hn. rewrite (summary_number obs n Hn). destruct (d_maxima_spec (n.2 <$> obs)) as (Hnum & Hin & Hle).
    split_and!; [done| |].
    + destruct Hin as [|(o & Ho & Hin)%list_elem_of_fmap]; [by left|right; by exists o].
    + intros o Ho. apply Hle. apply list_elem_of_fmap. by exists o.
  - induction obs as [|o obs IH] using rev_ind; [done|]. rewrite summary_of_snoc.
    transitivity (u64 (_snapshots (summary_of obs) + 1)); [done|]. rewrite IH, length_app. cbn [length].
    unfold u64, wrap. rewrite Zplus_mod_idemp_l. f_equal. lia.
  - intros seen o ->. by rewrite summary_of_snoc.
Qed.

(** ** The files of a run *)

Section Files.
Context {M OS : Type} `{ReliableHost OS} `{IServerMetrics M}.
(** A snapshot carries the time it is given, or none. *)
Context (Htime : forall t m, sn_capturedAt (TakeSnapshot t m).2 = t \/ sn_capturedAt (TakeSnapshot t m).2 = 0).
Implicit Types (w : ServerMetricsWriter) (m : M) (os : OS).

Lemma sample_thread_files t os : file_of (sample_thread t os).1 = file_of os.
Proof.
  unfold sample_thread. case_bool; [done|]. pose proof (rh_open_thread t os) as Ho.
  destruct (OpenThread t os) as [os1 h]. cbn [fst] in Ho. case_bool; [done|].
  pose proof (rh_thread_times h os1) as Ht. destruct (GetThreadTimes h os1) as [os2 ts]. cbn [fst] in *.
  by rewrite close_deferred_files, Ht.
Qed.

Lemma Sample_files r os : file_of (Sample r os).1.2 = file_of os.
Proof.
  unfold Sample. pose proof (NowInNs64_files os) as Hn. destruct (NowInNs64 os) as [os1 now]. cbn [fst] in Hn.
  pose proof (rh_process_times os1) as Hp. destruct (GetProcessTimes os1) as [os2 [[k u]|]]; cbn [fst] in Hp; [|by rewrite <-Hn].
  pose proof (sample_thread_files (_logicThreadId r) os2) as Ht. destruct (sample_thread _ os2) as [os3 logic]. cbn [fst] in Ht.
  pose proof (GetProcessorCount_files os3) as Hc. destruct (GetProcessorCount os3) as [os4 pc]. cbn [fst] in Hc.
  case_bool; [destruct (default (0, 0) logic); cbn [fst snd]; congruence|].
  pose proof (CountProcessThreads_files os4) as Hk. destruct (CountProcessThreads os4) as [os5 tc]. cbn [fst snd] in *. congruence.
Qed.

(** What a capture leaves alone. *)
Definition same_run w w' : Prop :=
  sw_config w' = sw_config w /\ sw_manifest w' = sw_manifest w /\ sw_outputDirectory w' = sw_outputDirectory w /\
  sw_manifestPath w' = sw_manifestPath w /\ sw_snapshotPath w' = sw_snapshotPath w /\
  sw_summaryPath w' = sw_summaryPath w /\ sw_thread w' = sw_thread w /\ sw_stop w' = sw_stop w /\
  sw_running w' = sw_running w.

(** The log [old] has grown by the lines of [records], the first compared with [p]. *)
Definition logged (old : option sv) (p : SnapshotRecord) (records : list SnapshotRecord) w os : Prop :=
  log_holds Server_BuildSnapshotJson old p records (file_of os (sw_snapshotPath w)) /\
  sw_previous w = last_record p records /\ sw_summary w = summary_of (chain p records).

(** A capture adds one line. *)
Lemma capture_logs w m os :
  exists w' m' os' record line, Writer_Capture w m os = Some (w', m', os', true) /\ same_run w w' /\
    Server_BuildSnapshotJson record (Some (sw_previous w)) = Some line /\ sw_previous w' = record /\
    sw_summary w' = Summary_Observe record (Some (sw_previous w)) (sw_summary w) /\
    file_of os' (sw_snapshotPath w) = Some (default [] (file_of os (sw_snapshotPath w)) ++ line ++ [nl]) /\
    forall other, other <> sw_snapshotPath w -> file_of os' other = file_of os other.
Proof.
  unfold Writer_Capture, take_snapshot. pose proof (rh_os_call SysSystemClockNow os) as Hc.
  pose proof (rh_clock os) as Hr. destruct (os_call SysSystemClockNow os) as [os1 t]. cbn [fst snd] in *.
  pose proof (Htime (ret t) m) as Hs. destruct (TakeSnapshot (ret t) m) as [m1 snap]. cbn [snd] in Hs.
  pose proof (NowInNs64_files os1) as Hn. destruct (NowInNs64 os1) as [os2 steady]. cbn [fst] in Hn.
  pose proof (Sample_files (sw_sampler w) os2) as Hf. destruct (Sample (sw_sampler w) os2) as [[sampler os3] rt].
  cbn [fst snd] in Hf. set (record := make_record snap steady rt).
  assert (0 <= r_capturedAt record < gmtime_end * ticks_per_second) as Hcap.
  { change (0 <= sn_capturedAt snap < gmtime_end * ticks_per_second). destruct Hs as [->| ->]; [done|].
    unfold gmtime_end, ticks_per_second. lia. }
  destruct (FormatUtcTime_reads _ Hcap) as (ts & Hts & _).
  set (w1 := w {{ sw_sampler := sampler }}).
  destruct (snapshot_object_text record (Some (sw_previous w)) ts Hts) as (json & Hj & _).
  assert (Server_BuildSnapshotJson record (Some (sw_previous w)) = Some (_os json)) as Hline
    by (unfold Server_BuildSnapshotJson; by rewrite Hj).
  replace (sw_previous w1) with (sw_previous w) by (by destruct w). rewrite Hline. cbn [mbind option_bind].
  replace (sw_snapshotPath w1) with (sw_snapshotPath w) by (by destruct w).
  pose proof (rh_write true (sw_snapshotPath w) (_os json ++ [nl]) os3) as (Hw & Hfile & Hother).
  destruct (stream_write true _ _ os3) as [os4 res]. cbn [fst snd] in *. subst res.
  eexists _, m1, os4, record, (_os json). split; [done|]. rewrite Hf, Hn, Hc in *.
  split_and!; [by destruct w|done|by destruct w|by destruct w|done|done].
Qed.

Lemma capture_logged old p records w m os :
  logged old p records w os ->
  exists w' m' os' record, Writer_Capture w m os = Some (w', m', os', true) /\ same_run w w' /\
    logged old p (records ++ [record]) w' os' /\
    forall other, other <> sw_snapshotPath w -> file_of os' other = file_of os other.
Proof.
  intros (Hlog & Hp & Hs).
  destruct (capture_logs w m os) as (w' & m' & os' & r & line & Hc & Hsame & Hl & Hr & Hsum & Hf & Ho).
  exists w', m', os', r. split_and!; [done|done| |done]. rewrite Hp in Hl. split_and!.
  - destruct Hsame as (_ & _ & _ & _ & -> & _). rewrite Hf. by apply log_holds_snoc.
  - by rewrite last_record_snoc.
  - by rewrite Hsum, Hp, Hs, chain_snoc, summary_of_snoc.
Qed.

(** *** The thread *)

Fixpoint Writer_steps (k : nat) w m os : ub (ServerMetricsWriter * M * OS) :=
  match k with
  | O => Some (w, m, os)
  | S k => '(w, m, os) ← Writer_step w m os; Writer_steps k w m os
  end.

Definition same_files w w' : Prop :=
  sw_config w' = sw_config w /\ sw_manifest w' = sw_manifest w /\ sw_outputDirectory w' = sw_outputDirectory w /\
  sw_manifestPath w' = sw_manifestPath w /\ sw_snapshotPath w' = sw_snapshotPath w /\ sw_summaryPath w' = sw_summaryPath w.

(** The thread is at the test of its loop, and nobody asked it to stop. *)
Definition going w : Prop := sw_thread w = WTop /\ sw_stop w = false /\ sw_running w = true.

Lemma logged_thread old p records w os t :
  logged old p records w os -> logged old p records (w {{ sw_thread := t }}) os.
Proof. by destruct w. Qed.

Lemma logged_ext old p records w w' os :
  sw_snapshotPath w' = sw_snapshotPath w -> sw_previous w' = sw_previous w -> sw_summary w' = sw_summary w ->
  logged old p records w os -> logged old p records w' os.
Proof. unfold logged. by intros -> -> ->. Qed.

Lemma turn_logged old p records w m os :
  going w -> logged old p records w os ->
  exists w' m' os' record, Writer_steps 3 w m os = Some (w', m', os') /\ same_files w w' /\ going w' /\
    logged old p (records ++ [record]) w' os' /\ forall other, other <> sw_snapshotPath w -> file_of os' other = file_of os other.
Proof.
  intros (Ht & Hs & Hr) Hlog. cbn [Writer_steps].
  assert (Writer_step w m os = Some (w {{ sw_thread := WSleep }}, m, os)) as ->
    by (unfold Writer_step; by rewrite Ht, Hs, Hr). cbn [mbind option_bind].
  set (w1 := w {{ sw_thread := WSleep }}).
  assert (Writer_step w1 m os = Some (w {{ sw_thread := WCapture }}, m, os)) as ->.
  { assert (sw_thread w1 = WSleep /\ sw_stop w1 = false /\ sw_running w1 = true) as (E1 & E2 & E3) by (by destruct w).
    unfold Writer_step. rewrite E1, E2, E3. by destruct w. } cbn [mbind option_bind].
  set (w2 := w {{ sw_thread := WCapture }}).
  destruct (capture_logged old p records w2 m os) as (w' & m' & os' & r & Hc & Hsame & Hl & Ho); [by apply logged_thread|].
  assert (Writer_step w2 m os = Some (w' {{ sw_thread := WTop }}, m', os')) as ->.
  { unfold Writer_step. replace (sw_thread w2) with WCapture by (by destruct w). by rewrite Hc. } cbn [mbind option_bind].
  exists (w' {{ sw_thread := WTop }}), m', os', r. destruct Hsame as (E1 & E2 & E3 & E4 & E5 & E6 & E7 & E8 & E9).
  subst w1 w2. split; [done|]. split; [|split; [|split; [by apply logged_thread|by destruct w]]].
  - unfold same_files. destruct w, w'; cbn in *; split_and!; congruence.
  - unfold going. destruct w, w'; cbn in *; split_and!; first [done|congruence].
Qed.

Lemma turns_logged k : forall old p records w m os,
  going w -> logged old p records w os ->
  exists w' m' os' more, Writer_steps (3 * k) w m os = Some (w', m', os') /\ length more = k /\ same_files w w' /\ going w' /\
    logged old p (records ++ more) w' os' /\ forall other, other <> sw_snapshotPath w -> file_of os' other = file_of os other.
Proof.
  induction k as [|k IH]; intros old p records w m os Hg Hl.
  - exists w, m, os, []. rewrite app_nil_r. done.
  - destruct (turn_logged old p records w m os Hg Hl) as (w1 & m1 & os1 & r & Hrun & Hsame & Hg1 & Hl1 & Ho1).
    destruct (IH old p (records ++ [r]) w1 m1 os1 Hg1 Hl1) as (w2 & m2 & os2 & more & Hrun2 & Hlen & Hsame2 & Hg2 & Hl2 & Ho2).
    exists w2, m2, os2, (r :: more). rewrite <-app_assoc in Hl2.
    assert (forall a b w m os, Writer_steps (a + b) w m os = ('(w, m, os) ← Writer_steps a w m os; Writer_steps b w m os)) as Hsteps.
    { clear. induction a as [|a IHa]; intros b w m os; [done|]. cbn [Nat.add Writer_steps].
      destruct (Writer_step w m os) as [[[w1 m1] os1]|]; [|done]. cbn [mbind option_bind]. apply IHa. }
    replace (3 * S k)%nat with (3 + 3 * k)%nat by lia. rewrite Hsteps, Hrun. cbn [mbind option_bind].
    destruct Hsame as (E1 & E2 & E3 & E4 & E5 & E6), Hsame2 as (F1 & F2 & F3 & F4 & F5 & F6).
    split; [done|]. split; [cbn; lia|]. split; [split_and!; congruence|]. split; [done|]. split; [done|].
    intros other Hne. rewrite Ho2 by congruence. by apply Ho1.
Qed.

(** *** Start and stop *)

Lemma WriteManifest_writes w os :
  valid_time (startedAt (sw_manifest w)) -> valid_time (finishedAt (sw_manifest w)) ->
  exists os' json, Writer_WriteManifest w os = Some (w, os', true) /\ ToJson (sw_manifest w) = Some json /\
    file_of os' (sw_manifestPath w) = Some json /\
    forall other, other <> sw_manifestPath w -> file_of os' other = file_of os other.
Proof.
  intros Hs Hf. destruct (ToJson_total _ Hs Hf) as [json Hj]. unfold Writer_WriteManifest. rewrite Hj.
  cbn [mbind option_bind]. pose proof (rh_write false (sw_manifestPath w) json os) as (Hw & Hfile & Ho).
  destruct (stream_write false _ _ os) as [os' res]. cbn [fst snd] in *. subst res. exists os', json. done.
Qed.

(** The files are those of the manifest's directory. *)
Definition has_paths w : Prop :=
  sw_outputDirectory w = OutputDirectory (sw_manifest w) /\
  sw_manifestPath w = path_append (OutputDirectory (sw_manifest w)) (lit "manifest.json") /\
  sw_snapshotPath w = path_append (OutputDirectory (sw_manifest w)) (lit "server-metrics.jsonl") /\
  sw_summaryPath w = path_append (OutputDirectory (sw_manifest w)) (lit "summary.md").

Lemma InitializeArtifacts_makes w os :
  exists w' os', Writer_InitializeArtifacts w os = (w', os', true) /\ file_of os' = file_of os /\ has_paths w' /\
    sw_manifest w' = sw_manifest w /\ sw_config w' = sw_config w /\ sw_previous w' = sw_previous w /\
    sw_summary w' = sw_summary w.
Proof.
  unfold Writer_InitializeArtifacts. destruct (rh_directories (OutputDirectory (sw_manifest w)) os) as [Hn Hf].
  destruct (create_directories _ os) as [os' res]. cbn [fst snd] in *. subst res.
  eexists _, os'. split; [done|]. split; [done|]. unfold has_paths. by destruct w.
Qed.

Lemma paths_differ w : has_paths w ->
  sw_snapshotPath w <> sw_manifestPath w /\ sw_summaryPath w <> sw_manifestPath w /\ sw_summaryPath w <> sw_snapshotPath w.
Proof. intros (_ & -> & -> & ->). by split_and!; intros He%path_append_inj. Qed.

Lemma Writer_open_logs w m os :
  finishedAt (sw_manifest w) = None -> sw_summary w = Summary_Reset ->
  exists w' m' os' r, Writer_open w m os = Some (w', m', os', true) /\ sw_config w' = sw_config w /\ has_paths w' /\
    valid_time (startedAt (sw_manifest w')) /\ is_Some (startedAt (sw_manifest w')) /\
    finishedAt (sw_manifest w') = None /\
    logged (file_of os (sw_snapshotPath w')) (sw_previous w) [r] w' os'.
Proof.
  intros Hfin Hsum. unfold Writer_open.
  destruct (ResolveRunId_total (sc_runId (sw_config w)) os) as (os1 & id & -> & Hf1). cbn [mbind option_bind].
  destruct (clock_now os1) as (os2 & now & -> & Hf2 & Hnow).
  set (w1 := w {{ sw_manifest ::= _ }}).
  assert (startedAt (sw_manifest w1) = Some (ret now) /\ finishedAt (sw_manifest w1) = None /\
    sw_config w1 = sw_config w /\ sw_previous w1 = sw_previous w /\ sw_summary w1 = sw_summary w) as (A1 & A2 & A3 & A4 & A5)
    by (subst w1; destruct w as [? [] ? ? ? ? ? ? ? ? ? ? ?]; cbn in *; subst; done).
  destruct (InitializeArtifacts_makes w1 os2) as (w2 & os3 & -> & Hf3 & Hpaths & B1 & B2 & B3 & B4). cbn [negb].
  destruct (WriteManifest_writes w2 os3) as (os4 & json & -> & _ & _ & Ho4); [by rewrite B1, A1|by rewrite B1, A2|].
  cbn [mbind option_bind negb].
  destruct (capture_logs w2 m os4) as (w3 & m3 & os5 & r & line & Hc & Hsame & Hl & Hr & Hs & Hfile & _).
  exists w3, m3, os5, r. split; [done|]. destruct Hsame as (C1 & C2 & C3 & C4 & C5 & C6 & _).
  destruct (paths_differ w2 Hpaths) as (Hne & _ & _).
  split; [congruence|]. split; [unfold has_paths in *; rewrite C2, C3, C4, C5, C6; exact Hpaths|].
  split; [by rewrite C2, B1, A1|]. split; [by rewrite C2, B1, A1; eexists|]. split; [by rewrite C2, B1|]. unfold logged. rewrite C5. split_and!.
  - rewrite Hfile, Ho4, Hf3, Hf2, Hf1 by done. apply (log_holds_snoc _ _ _ []); [by apply log_holds_nil|].
    cbn [last_record]. by rewrite <-A4, <-B3.
  - done.
  - cbn [chain]. rewrite Hs, B4, A5, Hsum, B3, A4, <-Hr. done.
Qed.

(** [Stop] after the join. *)
Lemma Stop_end_logs old p records w m os :
  sw_thread w = WEnded -> sc_enabled (sw_config w) = true -> has_paths w ->
  valid_time (startedAt (sw_manifest w)) -> finishedAt (sw_manifest w) = None -> logged old p records w os ->
  exists w' m' os' r json summary,
    Writer_Stop_end w m os = Some (Some (w', m', os')) /\ has_paths w' /\ is_Some (finishedAt (sw_manifest w')) /\
    startedAt (sw_manifest w') = startedAt (sw_manifest w) /\
    sw_snapshotPath w' = sw_snapshotPath w /\
    logged old p (records ++ [r]) w' os' /\
    ToJson (sw_manifest w') = Some json /\ file_of os' (sw_manifestPath w') = Some json /\
    Summary_BuildMarkdown (sw_summary w') (sw_manifest w') (sw_outputDirectory w') = Some summary /\
    file_of os' (sw_summaryPath w') = Some summary.
Proof.
  intros Ht He Hp Hst Hfin Hlog. unfold Writer_Stop_end. rewrite Ht.
  set (w0 := w {{ sw_thread := WNone }}).
  assert (sc_enabled (sw_config w0) = true /\ finishedAt (sw_manifest w0) = None) as [-> ->] by (by destruct w).
  destruct (clock_now os) as (os1 & now & -> & Hf1 & Hnow).
  set (w1 := w0 {{ sw_manifest ::= _ }}).
  assert (startedAt (sw_manifest w1) = startedAt (sw_manifest w) /\ finishedAt (sw_manifest w1) = Some (ret now) /\
    has_paths w1 /\ OutputDirectory (sw_manifest w1) = OutputDirectory (sw_manifest w) /\ logged old p records w1 os1)
    as (A1 & A2 & A3 & A4 & A5).
  { unfold logged, has_paths in *. rewrite Hf1. subst w0 w1. by destruct w as [? [] ? ? ? ? ? ? ? ? ? ? ?]. }
  destruct (capture_logged old p records w1 m os1 A5) as (w2 & m2 & os2 & r & -> & Hsame & Hlog2 & _). cbn [mbind option_bind].
  destruct Hsame as (C1 & C2 & C3 & C4 & C5 & C6 & _).
  assert (has_paths w2) as Hp2 by (unfold has_paths in *; rewrite C2, C3, C4, C5, C6; exact A3).
  destruct (paths_differ w2 Hp2) as (Hne1 & Hne2 & Hne3).
  destruct (WriteManifest_writes w2 os2) as (os3 & json & -> & Hj & Hf3 & Ho3); [by rewrite C2, A1|by rewrite C2, A2|].
  cbn [mbind option_bind].
  assert (exists summary, Summary_BuildMarkdown (sw_summary w2) (sw_manifest w2) (sw_outputDirectory w2) = Some summary)
    as [summary Hsum].
  { unfold Summary_BuildMarkdown. rewrite C2, A1, A2. destruct (optional_time_reads _ Hst) as (a & -> & _).
    destruct (optional_time_reads (Some (ret now)) Hnow) as (b & -> & _). by eexists. }
  rewrite Hsum. cbn [mbind option_bind].
  pose proof (rh_write false (sw_summaryPath w2) summary os3) as (_ & Hf4 & Ho4).
  destruct (stream_write false _ _ os3) as [os4 res]. cbn [fst snd] in *.
  exists w2, m2, os4, r, json, summary. destruct Hlog2 as (Hfile & Hrest).
  split; [done|]. split; [done|]. split; [by rewrite C2, A2; eexists|]. split; [by rewrite C2|].
  split; [rewrite C5; subst w0 w1; by destruct w|].
  split; [split; [|done]; rewrite Ho4, Ho3 by done; exact Hfile|].
  split; [done|]. split; [by rewrite Ho4 by done|]. done.
Qed.

(** C27: The files of a run.  With a system that writes what it is given, a server whose
    metrics are enabled starts its writer; after any number of turns of the thread, [Stop]
    ends it, and then the files of the run's directory hold: the log, after what it held
    before, with one line per snapshot taken (the one at the start, one per turn, and the
    last one), each compared with the one before it; the manifest, with both times; and
    the summary of exactly those snapshots. *)
Theorem server_log_of_run w m os k :
  sc_enabled (sw_config w) = true -> sw_running w = false ->
  exists w1 m1 os1 w2 m2 os2 w3 w4 w5 m5 os5,
    Writer_Start w m os = Some (w1, m1, os1, true) /\
    Writer_steps (3 * k) w1 m1 os1 = Some (w2, m2, os2) /\
    Writer_Stop_begin w2 = (w3, true) /\ Writer_step w3 m2 os2 = Some (w4, m2, os2) /\
    Writer_Stop_end w4 m2 os2 = Some (Some (w5, m5, os5)) /\
    let dir := OutputDirectory (sw_manifest w5) in
    let log := path_append dir (lit "server-metrics.jsonl") in
    exists records text json summary,
      length records = (k + 2)%nat /\ log_text Server_BuildSnapshotJson (sw_previous w) records = Some text /\
      file_of os5 log = Some (default [] (file_of os log) ++ text) /\
      ToJson (sw_manifest w5) = Some json /\ is_Some (startedAt (sw_manifest w5)) /\ is_Some (finishedAt (sw_manifest w5)) /\
      file_of os5 (path_append dir (lit "manifest.json")) = Some json /\
      Summary_BuildMarkdown (summary_of (chain (sw_previous w) records)) (sw_manifest w5) dir = Some summary /\
      file_of os5 (path_append dir (lit "summary.md")) = Some summary.
Proof.
  intros He Hr.
  set (w0 := Writer_reset (w {{ sw_lastError := [] }})).
  assert (sw_running (w {{ sw_lastError := [] }}) = false /\ sc_enabled (sw_config w0) = true /\
    finishedAt (sw_manifest w0) = None /\ sw_summary w0 = Summary_Reset /\ sw_previous w0 = sw_previous w)
    as (A1 & A2 & A3 & A4 & A5) by (by destruct w as [? [] ? ? ? ? ? ? ? ? ? ? ?]).
  destruct (Writer_open_logs w0 m os A3 A4) as (wa & ma & osa & r0 & Hopen & B1 & Hp & Hst & Hss & Hfin & Hlog).
  rewrite A5 in Hlog. set (old := file_of os (sw_snapshotPath wa)) in *.
  destruct (rh_thread osa) as [Htn Htf].
  set (w1 := wa {{ sw_running := true }} {{ sw_thread := WTop; sw_stop := false }}).
  assert (Writer_Start w m os = Some (w1, ma, (start_thread osa).1, true)) as Hstart.
  { unfold Writer_Start. rewrite A1. fold w0. rewrite A2. cbn [negb]. rewrite Hopen. cbn [mbind option_bind negb].
    destruct (start_thread osa) as [os1 res]. cbn [fst snd] in *. by subst res. }
  assert (going w1 /\ logged old (sw_previous w) [r0] w1 (start_thread osa).1) as [Hg1 Hlog1].
  { unfold logged in *. rewrite Htf. by destruct wa. }
  destruct (turns_logged k old (sw_previous w) [r0] w1 ma _ Hg1 Hlog1)
    as (w2 & m2 & os2 & more & Hrun & Hlen & Hsame & (Ht2 & Hs2 & Hr2) & Hlog2 & _).
  set (w3 := w2 {{ sw_running := false; sw_stop ::= orb true }}).
  assert (Writer_Stop_begin w2 = (w3, true)) as Hbegin by (unfold Writer_Stop_begin; by rewrite Ht2, Hr2).
  set (w4 := thread_exit w3).
  assert (Writer_step w3 m2 os2 = Some (w4, m2, os2)) as Hstep.
  { unfold Writer_step. replace (sw_thread w3) with (sw_thread w2) by (by destruct w2). rewrite Ht2.
    replace (sw_running w3) with false by (by destruct w2). by rewrite andb_false_r. }
  destruct Hsame as (C1 & C2 & C3 & C4 & C5 & C6).
  assert (sw_manifest w4 = sw_manifest wa /\ sw_config w4 = sw_config wa /\ has_paths w4 /\ sw_snapshotPath w4 = sw_snapshotPath wa /\
    logged old (sw_previous w) ([r0] ++ more) w4 os2) as (D1 & D2 & D3 & D4 & D5).
  { assert (sw_manifest w4 = sw_manifest w2 /\ sw_config w4 = sw_config w2 /\ sw_outputDirectory w4 = sw_outputDirectory w2 /\
      sw_manifestPath w4 = sw_manifestPath w2 /\ sw_snapshotPath w4 = sw_snapshotPath w2 /\
      sw_summaryPath w4 = sw_summaryPath w2) as (F1 & F2 & F3 & F4 & F5 & F6) by (by destruct w2).
    assert (same_files wa w1) as (G1 & G2 & G3 & G4 & G5 & G6) by (by destruct wa).
    split; [congruence|]. split; [congruence|]. split; [unfold has_paths in *; split_and!; destruct Hp as (?&?&?&?); congruence|].
    split; [congruence|]. eapply logged_ext; [| | |exact Hlog2]; by destruct w2. }
  destruct (Stop_end_logs old (sw_previous w) ([r0] ++ more) w4 m2 os2)
    as (w5 & m5 & os5 & r & json & summary & Hend & Hp5 & Hf5 & Hs5 & Hsp & Hlog5 & Hj & Hjf & Hsum & Hsf);
    [by destruct w2|by rewrite D2, B1|done|by rewrite D1|by rewrite D1|done|].
  exists w1, ma, (start_thread osa).1, w2, m2, os2, w3, w4, w5, m5, os5.
  do 5 (split; [done|]). cbv zeta. destruct Hp5 as (P1 & P2 & P3 & P4). rewrite <-P1, <-P2, <-P3, <-P4 in *.
  destruct Hlog5 as ((text & Htext & Hfile) & _ & Hsummary). rewrite log_file_snoc in Hfile. exists (([r0] ++ more) ++ [r]), text, json, summary.
  split; [rewrite !length_app; cbn; lia|]. split; [done|]. split; [by rewrite Hfile; unfold old; rewrite Hsp, D4|].
  split; [done|]. split; [by rewrite Hs5, D1|]. split; [done|]. split; [done|]. split; [by rewrite <-Hsummary|done].
Qed.
End Files.

Lemma server_log_of_run_witness :
  let w := ServerMetricsWriter_make (ServerMetricsConfig_default {{ sc_runId := lit "r1" }}) demo_manifest in
  exists (w5 : ServerMetricsWriter) (os5 : FileOS) records text,
    length records = 4%nat /\ log_text Server_BuildSnapshotJson SnapshotRecord_zero records = Some text /\
    file_of os5 (path_append (OutputDirectory (sw_manifest w5)) (lit "server-metrics.jsonl")) = Some text.
Proof.
  intros w.
  destruct (server_log_of_run (M:=AtomicServerMetrics) ltac:(intros t m; left; reflexivity) w AtomicServerMetrics_init
    (mkFileOS (fun _ => None) 17000000001234567) 2 eq_refl eq_refl)
    as (w1 & m1 & os1 & w2 & m2 & os2 & w3 & w4 & w5 & m5 & os5 & Hs & Hr & Hb & Hst & He &
        records & text & json & summary & Hlen & Ht & Hf & _).
  exists w5, os5, records, text. split; [exact Hlen|]. split; [exact Ht|exact Hf].
Defined.
