(* ===== verification/ServerMain.v ===== *)
(** * Chat server: the settings [main] starts from

    [exec/chat/chat-server/chat-server/main.cpp] up to the callbacks: the configuration
    file, the metrics the environment asks for, the manifest and the writer.  What is built
    of them and started is in ChatServer.v. *)

From S2P Require Import Prelude StringUtils Config Errors Platform Toml NetworkCfg ServerMetrics MetricsText RunManifest.
From S2P Require Import RuntimeSampler ServerWriter.
From Stdlib Require Import Ascii String.
From stdpp Require Import base gmap list strings option.
Open Scope Z_scope.

(** The port, an [int] in the settings, is narrowed. *)
(** @src exec/chat/chat-server/chat-server/main.cpp 42-50 main *)
Definition serverManifest (debug : bool) (c : NetworkCfg) : RunManifest :=
  mkRunManifest [] [] (lit "chat-server") [] [] (lit (if debug then "Debug" else "Release")) [] []
    (lit "artifacts/load-tests") None None (u16 (port (cfg_server c))) 0 0 0 0.

(** Nobody catches the exception of [FromFile], on the left. *)
(** @src exec/chat/chat-server/chat-server/main.cpp 29-55 main *)
Definition server_settings (env : Environment) (fs : FileSystem) (debug : bool)
    : ub (sv + NetworkCfg * (AtomicServerMetrics + NullServerMetrics) * ServerMetricsWriter) :=
  r ← FromFile env fs (lit "config.runtime.toml");
  match r with
  | inl what => Some (inl what)
  | inr c =>
      let metricsConfig := ServerConfig_FromEnvironment env in
      let metrics := if sc_enabled metricsConfig then inl AtomicServerMetrics_init else inr Null in
      Some (inr (c, metrics, ServerMetricsWriter_make metricsConfig (serverManifest debug c)))
  end.

(** Without its file the server ends before anything is made. *)
Lemma settings_need_file env fs debug :
  fs (lit "config.runtime.toml") = None ->
  server_settings env fs debug = Some (inl (lit "Failed to load config file: config.runtime.toml")).
Proof. intros Hf. unfold server_settings, FromFile, Config_FromFile. by rewrite Hf. Qed.

(** The manifest names a port whatever the settings say, the one listened on if it is one. *)
Lemma manifest_port env fs debug c metrics w :
  server_settings env fs debug = Some (inr (c, metrics, w)) ->
  0 <= targetPort (sw_manifest w) < 2 ^ 16 /\
  (0 <= port (cfg_server c) < 2 ^ 16 -> targetPort (sw_manifest w) = port (cfg_server c)) /\
  metrics = if sc_enabled (ServerConfig_FromEnvironment env) then inl AtomicServerMetrics_init else inr Null.
Proof.
  unfold server_settings. destruct (FromFile env fs _) as [[what|c']|]; [done| |done]. cbn [mbind option_bind].
  intros [= <- <- <-]. cbn [ServerMetricsWriter_make sw_manifest serverManifest targetPort].
  split; [apply wrap_range; lia|]. split; [intros; by apply wrap_small|done].
Qed.
