(* ===== verification/ClientWriter.v ===== *)
(** * ClientWriter: the files of a client's metrics

    [lib/src/metrics/client/ClientMetricsWriter.cpp].  It is built like the server's
    writer (ServerWriter.v), with its own records, line and summary; its first snapshot is
    only kept to compare the next one with. *)

From S2P Require Import Prelude StringUtils Config Platform Doubles MetricsText RunManifest RuntimeSampler ServerMetrics.
From S2P Require Import ServerWriter ClientMetrics.
From Stdlib Require Import Ascii String SpecFloat.
From stdpp Require Import base numbers list strings option.
From coqutil Require Import Datatypes.RecordSetters.
Import DoubleBraceUpdate.
Open Scope Z_scope.

(** ** Records *)

(** @src lib/inc/metrics/client/ClientMetricsWriter.h 75-106 ClientMetricsWriter::SnapshotRecord *)
Record ClientRecord := mkClientRecord {
  c_capturedAt : Z;
  c_connectSuccess : Z; c_connectFailure : Z; c_disconnect : Z;
  c_sendPackets : Z; c_recvPackets : Z; c_sendBytes : Z; c_recvBytes : Z; c_sendFail : Z;
  c_responseTimeout : Z; c_packetValidation : Z; c_packetValidationFailure : Z;
  c_disconnectTimeout : Z; c_disconnectServerClose : Z; c_disconnectRecvFail : Z; c_disconnectLocalClose : Z;
  c_connected : Z; c_pendingRequestCount : Z;
  c_connectLatencyMsAvg : double; c_connectLatencyMsMax : double;
  c_requestRttMsAvg : double; c_requestRttMsMax : double; c_lastConnectLatencyMs : double;
  c_currentSessionUptimeMs : Z; c_lastSessionUptimeMs : Z; c_maxSessionUptimeMs : Z; c_timeSinceLastRecvMs : Z;
  c_lastDisconnectReason : ClientDisconnectReason;
  c_processCpuPercent : double; c_threadCount : Z }.

(** @src lib/inc/metrics/client/ClientMetricsWriter.h 76-105 ClientMetricsWriter::SnapshotRecord *)
Definition ClientRecord_zero : ClientRecord :=
  mkClientRecord 0 0 0 0 0 0 0 0 0 0 0 0 0 0 0 0 0 0 d_zero d_zero d_zero d_zero d_zero 0 0 0 0 ReasonNone d_zero 0.

(** @src lib/src/metrics/client/ClientMetricsWriter.cpp 208-240 ClientMetricsWriter::CaptureAndWriteSnapshot *)
Definition make_client_record (snapshot : ClientMetricsSnapshot) (cpu : double) (threads : Z) : ClientRecord := {|
  c_capturedAt := cs_capturedAt snapshot;
  c_connectSuccess := cs_connectSuccessTotal snapshot; c_connectFailure := cs_connectFailureTotal snapshot;
  c_disconnect := cs_disconnectTotal snapshot;
  c_sendPackets := cs_sendPacketsTotal snapshot; c_recvPackets := cs_recvPacketsTotal snapshot;
  c_sendBytes := cs_sendBytesTotal snapshot; c_recvBytes := cs_recvBytesTotal snapshot;
  c_sendFail := cs_sendFailTotal snapshot; c_responseTimeout := cs_responseTimeoutTotal snapshot;
  c_packetValidation := cs_packetValidationTotal snapshot;
  c_packetValidationFailure := cs_packetValidationFailureTotal snapshot;
  c_disconnectTimeout := cs_disconnectTimeoutTotal snapshot;
  c_disconnectServerClose := cs_disconnectServerCloseTotal snapshot;
  c_disconnectRecvFail := cs_disconnectRecvFailTotal snapshot;
  c_disconnectLocalClose := cs_disconnectLocalCloseTotal snapshot;
  c_connected := cs_connected snapshot; c_pendingRequestCount := cs_pendingRequestCount snapshot;
  c_connectLatencyMsAvg := TimingAverageMs (cs_connectLatency snapshot);
  c_connectLatencyMsMax := TimingMaxMs (cs_connectLatency snapshot);
  c_requestRttMsAvg := TimingAverageMs (cs_requestRtt snapshot); c_requestRttMsMax := TimingMaxMs (cs_requestRtt snapshot);
  c_lastConnectLatencyMs := cs_lastConnectLatencyMs snapshot;
  c_currentSessionUptimeMs := cs_currentSessionUptimeMs snapshot; c_lastSessionUptimeMs := cs_lastSessionUptimeMs snapshot;
  c_maxSessionUptimeMs := cs_maxSessionUptimeMs snapshot; c_timeSinceLastRecvMs := cs_timeSinceLastRecvMs snapshot;
  c_lastDisconnectReason := cs_lastDisconnectReason snapshot;
  c_processCpuPercent := cpu; c_threadCount := threads |}.

(** ** The line of a snapshot *)

(** @src lib/src/metrics/client/ClientMetricsWriter.cpp 486-495 ClientMetricsWriter::ToPerSecond *)
Definition Client_ToPerSecond (delta elapsed : Z) : double :=
  let seconds := seconds_of elapsed in
  if d_leb seconds d_zero then d_zero else d_div (d_of_Z delta) seconds.

(** @src lib/src/metrics/client/ClientMetricsWriter.cpp 319-326 ClientMetricsWriter::BuildSnapshotJson *)
Definition client_rate (total : ClientRecord -> Z) (record : ClientRecord) (previous : option ClientRecord) : double :=
  match previous with
  | None => d_zero
  | Some p =>
      let elapsed := (c_capturedAt record - c_capturedAt p) * 100 in
      Client_ToPerSecond (if total record >=? total p then total record - total p else 0) elapsed
  end.

(** [oss << DQ << name << DQ : << value << ,]. *)
Definition comma_field (name : string) (value : sv) : sv := json_field name value ++ lit ",".

(** @src lib/src/metrics/client/ClientMetricsWriter.cpp 316-371 ClientMetricsWriter::BuildSnapshotJson *)
Definition Client_BuildSnapshotJson (record : ClientRecord) (previous : option ClientRecord) : ub sv :=
  let rate total := FormatNumber (client_rate total record previous) 3 in
  let number v := FormatNumber v 3 in
  ts ← FormatUtcTime (c_capturedAt record);
  Some (lit "{" ++
    comma_field "ts" (quoted (JsonEscape ts)) ++
    comma_field "connect_success_total" (decimal (c_connectSuccess record)) ++
    comma_field "connect_failure_total" (decimal (c_connectFailure record)) ++
    comma_field "disconnect_total" (decimal (c_disconnect record)) ++
    comma_field "send_packets_total" (decimal (c_sendPackets record)) ++
    comma_field "send_packets_per_sec" (rate c_sendPackets) ++
    comma_field "recv_packets_total" (decimal (c_recvPackets record)) ++
    comma_field "recv_packets_per_sec" (rate c_recvPackets) ++
    comma_field "send_bytes_total" (decimal (c_sendBytes record)) ++
    comma_field "send_bytes_per_sec" (rate c_sendBytes) ++
    comma_field "recv_bytes_total" (decimal (c_recvBytes record)) ++
    comma_field "recv_bytes_per_sec" (rate c_recvBytes) ++
    comma_field "send_fail_total" (decimal (c_sendFail record)) ++
    comma_field "response_timeout_total" (decimal (c_responseTimeout record)) ++
    comma_field "packet_validation_total" (decimal (c_packetValidation record)) ++
    comma_field "packet_validation_failure_total" (decimal (c_packetValidationFailure record)) ++
    comma_field "disconnect_timeout_total" (decimal (c_disconnectTimeout record)) ++
    comma_field "disconnect_server_close_total" (decimal (c_disconnectServerClose record)) ++
    comma_field "disconnect_recv_fail_total" (decimal (c_disconnectRecvFail record)) ++
    comma_field "disconnect_local_close_total" (decimal (c_disconnectLocalClose record)) ++
    comma_field "connected" (decimal (c_connected record)) ++
    comma_field "pending_request_count" (decimal (c_pendingRequestCount record)) ++
    comma_field "connect_latency_ms_last" (number (c_lastConnectLatencyMs record)) ++
    comma_field "connect_latency_ms_avg" (number (c_connectLatencyMsAvg record)) ++
    comma_field "connect_latency_ms_max" (number (c_connectLatencyMsMax record)) ++
    comma_field "request_rtt_ms_avg" (number (c_requestRttMsAvg record)) ++
    comma_field "request_rtt_ms_max" (number (c_requestRttMsMax record)) ++
    comma_field "current_session_uptime_ms" (decimal (c_currentSessionUptimeMs record)) ++
    comma_field "last_session_uptime_ms" (decimal (c_lastSessionUptimeMs record)) ++
    comma_field "max_session_uptime_ms" (decimal (c_maxSessionUptimeMs record)) ++
    comma_field "time_since_last_recv_ms" (decimal (c_timeSinceLastRecvMs record)) ++
    comma_field "last_disconnect_reason"
      (quoted (JsonEscape (lit (DisconnectReason_ToString (c_lastDisconnectReason record))))) ++
    comma_field "process_cpu_percent" (number (c_processCpuPercent record)) ++
    json_field "thread_count" (decimal (c_threadCount record)) ++
    lit "}").

(** ** The summary *)

(** @src lib/inc/metrics/client/ClientMetricsWriter.h 42-73 ClientMetricsWriter::SummaryStats *)
Record SummaryStats := mkSummaryStats {
  ss_snapshots : Z;
  ss_avgConnectLatencyMsSum : double; ss_avgRequestRttMsSum : double;
  ss_sendPacketsPerSecSum : double; ss_recvPacketsPerSecSum : double;
  ss_sendBytesPerSecSum : double; ss_recvBytesPerSecSum : double; ss_processCpuPercentSum : double;
  ss_maxConnectLatencyMs : double; ss_maxRequestRttMs : double;
  ss_maxSendPacketsPerSec : double; ss_maxRecvPacketsPerSec : double;
  ss_maxSendBytesPerSec : double; ss_maxRecvBytesPerSec : double; ss_maxProcessCpuPercent : double;
  ss_maxSessionUptimeMs : Z; ss_maxTimeSinceLastRecvMs : Z; ss_maxPendingRequestCount : Z; ss_maxThreadCount : Z;
  ss_connectSuccess : Z; ss_connectFailure : Z; ss_disconnect : Z; ss_sendFail : Z; ss_responseTimeout : Z;
  ss_packetValidationFailure : Z; ss_disconnectTimeout : Z; ss_disconnectServerClose : Z;
  ss_disconnectRecvFail : Z; ss_disconnectLocalClose : Z;
  ss_lastDisconnectReason : ClientDisconnectReason }.

(** @src lib/inc/metrics/client/ClientMetricsWriter.h 43-72 ClientMetricsWriter::SummaryStats *)
Definition SummaryStats_zero : SummaryStats :=
  mkSummaryStats 0 d_zero d_zero d_zero d_zero d_zero d_zero d_zero d_zero d_zero d_zero d_zero d_zero d_zero d_zero
    0 0 0 0 0 0 0 0 0 0 0 0 0 0 ReasonNone.

(** @src lib/src/metrics/client/ClientMetricsWriter.cpp 373-426 ClientMetricsWriter::ObserveSummary *)
Definition ObserveSummary (record : ClientRecord) (previous : option ClientRecord) (s : SummaryStats) : SummaryStats :=
  let sendPacketsPerSec := client_rate c_sendPackets record previous in
  let recvPacketsPerSec := client_rate c_recvPackets record previous in
  let sendBytesPerSec := client_rate c_sendBytes record previous in
  let recvBytesPerSec := client_rate c_recvBytes record previous in {|
  ss_snapshots := u64 (ss_snapshots s + 1);
  ss_avgConnectLatencyMsSum := d_add (ss_avgConnectLatencyMsSum s) (c_connectLatencyMsAvg record);
  ss_avgRequestRttMsSum := d_add (ss_avgRequestRttMsSum s) (c_requestRttMsAvg record);
  ss_maxConnectLatencyMs := d_max (ss_maxConnectLatencyMs s) (c_connectLatencyMsMax record);
  ss_maxRequestRttMs := d_max (ss_maxRequestRttMs s) (c_requestRttMsMax record);
  ss_maxSessionUptimeMs := Z.max (ss_maxSessionUptimeMs s) (c_maxSessionUptimeMs record);
  ss_maxTimeSinceLastRecvMs := Z.max (ss_maxTimeSinceLastRecvMs s) (c_timeSinceLastRecvMs record);
  ss_maxPendingRequestCount := Z.max (ss_maxPendingRequestCount s) (c_pendingRequestCount record);
  ss_maxProcessCpuPercent := d_max (ss_maxProcessCpuPercent s) (c_processCpuPercent record);
  ss_maxThreadCount := Z.max (ss_maxThreadCount s) (c_threadCount record);
  ss_processCpuPercentSum := d_add (ss_processCpuPercentSum s) (c_processCpuPercent record);
  ss_connectSuccess := c_connectSuccess record; ss_connectFailure := c_connectFailure record;
  ss_disconnect := c_disconnect record; ss_sendFail := c_sendFail record;
  ss_responseTimeout := c_responseTimeout record; ss_packetValidationFailure := c_packetValidationFailure record;
  ss_disconnectTimeout := c_disconnectTimeout record; ss_disconnectServerClose := c_disconnectServerClose record;
  ss_disconnectRecvFail := c_disconnectRecvFail record; ss_disconnectLocalClose := c_disconnectLocalClose record;
  ss_lastDisconnectReason := c_lastDisconnectReason record;
  ss_sendPacketsPerSecSum := d_add (ss_sendPacketsPerSecSum s) sendPacketsPerSec;
  ss_recvPacketsPerSecSum := d_add (ss_recvPacketsPerSecSum s) recvPacketsPerSec;
  ss_sendBytesPerSecSum := d_add (ss_sendBytesPerSecSum s) sendBytesPerSec;
  ss_recvBytesPerSecSum := d_add (ss_recvBytesPerSecSum s) recvBytesPerSec;
  ss_maxSendPacketsPerSec := d_max (ss_maxSendPacketsPerSec s) sendPacketsPerSec;
  ss_maxRecvPacketsPerSec := d_max (ss_maxRecvPacketsPerSec s) recvPacketsPerSec;
  ss_maxSendBytesPerSec := d_max (ss_maxSendBytesPerSec s) sendBytesPerSec;
  ss_maxRecvBytesPerSec := d_max (ss_maxRecvBytesPerSec s) recvBytesPerSec |}.

(** @src lib/src/metrics/client/ClientMetricsWriter.cpp 473-480 ClientMetricsWriter::BuildSummaryMarkdown *)
Definition client_bottleneck (s : SummaryStats) : string :=
  if (ss_responseTimeout s >? 0) || (ss_maxTimeSinceLastRecvMs s >=? 3000) then "Response / Network"
  else if ss_packetValidationFailure s >? 0 then "Protocol"
  else if d_leb (d_of_Z 80) (ss_maxProcessCpuPercent s) then "Runtime / CPU"
  else "none observed".

(** @src lib/src/metrics/client/ClientMetricsWriter.cpp 428-484 ClientMetricsWriter::BuildSummaryMarkdown *)
Definition Client_BuildSummaryMarkdown (s : SummaryStats) (m : RunManifest) (outputDirectory : sv) : ub sv :=
  let snapshotCount := if ss_snapshots s =? 0 then d_of_Z 1 else d_of_Z (ss_snapshots s) in
  let avg sum := d_div sum snapshotCount in
  started ← optional_time (startedAt m);
  finished ← optional_time (finishedAt m);
  Some (md_heading "Client Metrics Summary" "client_name" "client" m outputDirectory started finished ++
    md_line "connect success total" (decimal (ss_connectSuccess s)) ++
    md_line "connect failure total" (decimal (ss_connectFailure s)) ++
    md_number "avg connect latency ms" (avg (ss_avgConnectLatencyMsSum s)) ++
    md_number "max connect latency ms" (ss_maxConnectLatencyMs s) ++
    md_number "avg request RTT ms" (avg (ss_avgRequestRttMsSum s)) ++
    md_number "max request RTT ms" (ss_maxRequestRttMs s) ++
    md_number "avg send packets/sec" (avg (ss_sendPacketsPerSecSum s)) ++
    md_number "max send packets/sec" (ss_maxSendPacketsPerSec s) ++
    md_number "avg recv packets/sec" (avg (ss_recvPacketsPerSecSum s)) ++
    md_number "max recv packets/sec" (ss_maxRecvPacketsPerSec s) ++
    md_number "avg send bytes/sec" (avg (ss_sendBytesPerSecSum s)) ++
    md_number "max send bytes/sec" (ss_maxSendBytesPerSec s) ++
    md_number "avg recv bytes/sec" (avg (ss_recvBytesPerSecSum s)) ++
    md_number "max recv bytes/sec" (ss_maxRecvBytesPerSec s) ++
    md_line "max session uptime ms" (decimal (ss_maxSessionUptimeMs s)) ++
    md_line "max time since last recv ms" (decimal (ss_maxTimeSinceLastRecvMs s)) ++
    md_line "max pending request count" (decimal (ss_maxPendingRequestCount s)) ++
    md_line "send fail total" (decimal (ss_sendFail s)) ++
    md_line "response timeout total" (decimal (ss_responseTimeout s)) ++
    md_line "packet validation failure total" (decimal (ss_packetValidationFailure s)) ++
    md_line "disconnect total" (decimal (ss_disconnect s)) ++
    md_line "disconnect reasons"
      (lit "timeout=" ++ decimal (ss_disconnectTimeout s) ++ lit ", server close=" ++ decimal (ss_disconnectServerClose s) ++
       lit ", recv fail=" ++ decimal (ss_disconnectRecvFail s) ++ lit ", local close=" ++ decimal (ss_disconnectLocalClose s)) ++
    md_line "last disconnect reason" (lit (DisconnectReason_ToString (ss_lastDisconnectReason s))) ++
    md_number "avg process CPU percent" (avg (ss_processCpuPercentSum s)) ++
    md_number "max process CPU percent" (ss_maxProcessCpuPercent s) ++
    md_line "max thread count" (decimal (ss_maxThreadCount s)) ++
    md_line "bottleneck guess" (lit (client_bottleneck s))).

(** ** ClientMetricsWriter *)

(** @src lib/inc/metrics/client/ClientMetricsWriter.h 122-143 ClientMetricsWriter *)
Record ClientMetricsWriter := mkClientMetricsWriter {
  cw_config : ClientMetricsConfig; cw_manifest : RunManifest;
  cw_outputDirectory : sv; cw_manifestPath : sv; cw_snapshotPath : sv; cw_summaryPath : sv;
  cw_thread : WriterThread; cw_stop : bool; cw_running : bool; cw_lastError : sv;
  cw_previous : ClientRecord; cw_hasPrevious : bool; cw_summary : SummaryStats;
  cw_lastRuntimeSampleAt : Z; cw_lastProcessKernel100ns : Z; cw_lastProcessUser100ns : Z;
  cw_hasRuntimeBaseline : bool }.

(** The configuration that stands for one that was not given. *)
(** @src lib/src/metrics/client/ClientMetricsWriter.cpp 35-40 ClientMetricsWriter::ClientMetricsWriter *)
Definition is_default_config (config : ClientMetricsConfig) : bool :=
  let defaultConfig := ClientMetricsConfig_default in
  eqb (cc_enabled config) (cc_enabled defaultConfig) &&
  sv_eqb (cc_outputRoot config) (cc_outputRoot defaultConfig) &&
  sv_eqb (cc_runId config) [] &&
  (cc_snapshotInterval config =? cc_snapshotInterval defaultConfig) &&
  (cc_responseTimeout config =? cc_responseTimeout defaultConfig).

(** A null pointer to the metrics is replaced by [NoopClientMetrics]; [main] passes one. *)
(** @src lib/src/metrics/client/ClientMetricsWriter.cpp 24-47 ClientMetricsWriter::ClientMetricsWriter *)
Definition ClientMetricsWriter_make (env : Environment) (config : ClientMetricsConfig) (manifest : RunManifest)
    : ClientMetricsWriter :=
  let config := if is_default_config config then ClientConfig_FromEnvironment env else config in
  let config := config {{ cc_snapshotInterval ::= fun i => if i <=? 0 then 1000 else i }} in
  mkClientMetricsWriter config manifest [] [] [] [] WNone false false [] ClientRecord_zero false SummaryStats_zero 0 0 0 false.

Section Writer.
Context {M OS : Type} `{WinSock OS} `{Process OS} `{Host OS} `{IClientMetrics M OS}.
Implicit Types (w : ClientMetricsWriter) (m : M) (os : OS).

(** @src lib/src/metrics/client/ClientMetricsWriter.cpp 269-314 ClientMetricsWriter::SampleRuntime *)
Definition SampleRuntime w os : ClientMetricsWriter * OS * (double * Z) :=
  let '(os, now) := NowInNs64 os in
  match GetProcessTimes os with
  | (os, None) =>
      (w {{ cw_hasRuntimeBaseline := false; cw_lastRuntimeSampleAt := now;
            cw_lastProcessKernel100ns := 0; cw_lastProcessUser100ns := 0 }}, os, (d_zero, 0))
  | (os, Some (kernel, user)) =>
      let processKernel := of_filetime kernel in
      let processUser := of_filetime user in
      let elapsedSeconds := seconds_of (now - cw_lastRuntimeSampleAt w) in
      let '(os, cpu) :=
        if cw_hasRuntimeBaseline w && d_ltb d_zero elapsedSeconds then
          let '(os, processors) := GetProcessorCount os in
          (os, cpu_percent (cw_lastProcessKernel100ns w) (cw_lastProcessUser100ns w) processKernel processUser
                 elapsedSeconds processors)
        else (os, d_zero) in
      let '(os, threadCount) := CountProcessThreads os in
      (w {{ cw_hasRuntimeBaseline := true; cw_lastRuntimeSampleAt := now;
            cw_lastProcessKernel100ns := processKernel; cw_lastProcessUser100ns := processUser }}, os,
       (cpu, threadCount))
  end.

(** @src lib/src/metrics/client/ClientMetricsWriter.cpp 174-188 ClientMetricsWriter::InitializeArtifacts *)
Definition Client_InitializeArtifacts w os : ClientMetricsWriter * OS * bool :=
  let dir := OutputDirectory (cw_manifest w) in
  let w := w {{ cw_outputDirectory := dir;
                cw_manifestPath := path_append dir (lit "manifest.json");
                cw_snapshotPath := path_append dir (lit "client-metrics.jsonl");
                cw_summaryPath := path_append dir (lit "summary.md") }} in
  match create_directories dir os with
  | (os, Some message) =>
      (w {{ cw_lastError := lit "failed to create client metrics output directory: " ++ message }}, os, false)
  | (os, None) => (w, os, true)
  end.

(** @src lib/src/metrics/client/ClientMetricsWriter.cpp 190-204 ClientMetricsWriter::WriteManifest *)
Definition Client_WriteManifest w os : ub (ClientMetricsWriter * OS * bool) :=
  json ← ToJson (cw_manifest w);
  Some (match stream_write false (cw_manifestPath w) json os with
        | (os, NotOpened) => (w {{ cw_lastError := lit "failed to open manifest file" }}, os, false)
        | (os, NotGood) => (w {{ cw_lastError := lit "failed to write manifest file" }}, os, false)
        | (os, Written) => (w, os, true)
        end).

(** The record of now. *)
(** @src lib/src/metrics/client/ClientMetricsWriter.cpp 207-240 ClientMetricsWriter::CaptureAndWriteSnapshot *)
Definition capture_record w m os : ClientMetricsWriter * M * OS * ClientRecord :=
  let '(m, os, snapshot) := cm_TakeSnapshot (m, os) in
  let '(w, os, (cpu, threads)) := SampleRuntime w os in
  (w, m, os, make_client_record snapshot cpu threads).

(** Writing a record: there always is a previous one here, at worst the record itself. *)
(** @src lib/src/metrics/client/ClientMetricsWriter.cpp 250-266 ClientMetricsWriter::CaptureAndWriteSnapshot *)
Definition write_record (record : ClientRecord) w os : ub (ClientMetricsWriter * OS * bool) :=
  let previous := if cw_hasPrevious w then Some (cw_previous w) else None in
  line ← Client_BuildSnapshotJson record previous;
  Some (match stream_write true (cw_snapshotPath w) (line ++ [nl]) os with
        | (os, NotOpened) => (w {{ cw_lastError := lit "failed to open client metrics snapshot file" }}, os, false)
        | (os, NotGood) => (w {{ cw_lastError := lit "failed to write client metrics snapshot" }}, os, false)
        | (os, Written) =>
            (w {{ cw_summary ::= ObserveSummary record previous; cw_previous := record; cw_hasPrevious := true }}, os, true)
        end).

(** @src lib/src/metrics/client/ClientMetricsWriter.cpp 206-267 ClientMetricsWriter::CaptureAndWriteSnapshot *)
Definition Client_Capture (finalSnapshot : bool) w m os : ub (ClientMetricsWriter * M * OS * bool) :=
  let '(w, m, os, record) := capture_record w m os in
  let first := negb (cw_hasPrevious w) in
  let w := if first then w {{ cw_previous := record; cw_hasPrevious := true }} else w in
  if first && negb finalSnapshot then Some (w, m, os, true)
  else '(w, os, written) ← write_record record w os; Some (w, m, os, written).

(** @src lib/src/metrics/client/ClientMetricsWriter.cpp 60-72 ClientMetricsWriter::Start *)
Definition Client_reset w : ClientMetricsWriter :=
  w {{ cw_previous := ClientRecord_zero; cw_hasPrevious := false; cw_summary := SummaryStats_zero;
       cw_lastRuntimeSampleAt := 0; cw_lastProcessKernel100ns := 0; cw_lastProcessUser100ns := 0;
       cw_hasRuntimeBaseline := false;
       cw_manifest ::= (fun mf => mf {{ startedAt := None; finishedAt := None }});
       cw_outputDirectory := []; cw_manifestPath := []; cw_snapshotPath := []; cw_summaryPath := [] }}.

(** @src lib/src/metrics/client/ClientMetricsWriter.cpp 81-100 ClientMetricsWriter::Start *)
Definition Client_open w m os : ub (ClientMetricsWriter * M * OS * bool) :=
  '(os, id) ← ResolveRunId (cc_runId (cw_config w)) os;
  let '(os, now) := os_call SysSystemClockNow os in
  let w := w {{ cw_manifest ::= (fun mf => mf {{
      outputRoot := cc_outputRoot (cw_config w); runId := id;
      serverName ::= (fun name => match name with [] => lit "client" | _ => name end);
      startedAt := Some (ret now) }}) }} in
  let '(w, os, created) := Client_InitializeArtifacts w os in
  if negb created then Some (w, m, os, false)
  else
    '(w, os, written) ← Client_WriteManifest w os;
    if negb written then Some (w, m, os, false) else Client_Capture false w m os.

(** Under the mutex, as [Stop]. *)
(** @src lib/src/metrics/client/ClientMetricsWriter.cpp 53-118 ClientMetricsWriter::Start *)
Definition Client_Start w m os : ub (ClientMetricsWriter * M * OS * bool) :=
  let w := w {{ cw_lastError := [] }} in
  if cw_running w then Some (w, m, os, true)
  else
    let w := Client_reset w in
    if negb (cc_enabled (cw_config w)) then
      '(os, dir) ← ResolveOutputDirectory (cc_outputRoot (cw_config w)) (cc_runId (cw_config w)) os;
      '(os, id) ← ResolveRunId (cc_runId (cw_config w)) os;
      Some (w {{ cw_outputDirectory := dir;
                 cw_manifest ::= (fun mf => mf {{ outputRoot := cc_outputRoot (cw_config w); runId := id }}) }}, m, os, true)
    else
      '(w, m, os, opened) ← Client_open w m os;
      if negb (opened : bool) then Some (w, m, os, false)
      else
        let w := w {{ cw_running := true }} in
        Some (match start_thread os with
              | (os, None) => (w {{ cw_thread := WTop; cw_stop := false }}, m, os, true)
              | (os, Some what) =>
                  (w {{ cw_running := false;
                        cw_lastError := lit "failed to start client metrics writer thread" ++
                          match what with Some what => lit ": " ++ what | None => [] end }}, m, os, false)
              end).

Definition client_thread_exit w : ClientMetricsWriter := w {{ cw_running := false; cw_thread := WEnded }}.

(** @src lib/src/metrics/client/ClientMetricsWriter.cpp 159-172 ClientMetricsWriter::ThreadMain *)
Definition Client_step w m os : ub (ClientMetricsWriter * M * OS) :=
  let goes_on := negb (cw_stop w) && cw_running w in
  match cw_thread w with
  | WTop => Some (if goes_on then w {{ cw_thread := WSleep }} else client_thread_exit w, m, os)
  | WSleep => Some (if goes_on then w {{ cw_thread := WCapture }} else client_thread_exit w, m, os)
  | WCapture =>
      '(w, m, os, captured) ← Client_Capture false w m os;
      Some (if (captured : bool) then w {{ cw_thread := WTop }} else client_thread_exit w, m, os)
  | WNone | WEnded => Some (w, m, os)
  end.

(** @src lib/src/metrics/client/ClientMetricsWriter.cpp 121-129 ClientMetricsWriter::Stop *)
Definition Client_Stop_begin w : ClientMetricsWriter * bool :=
  let joinable := match cw_thread w with WNone => false | _ => true end in
  if negb (cw_running w) && negb joinable then (w, false)
  else (w {{ cw_running := false; cw_stop ::= orb joinable }}, true).

(** @src lib/src/metrics/client/ClientMetricsWriter.cpp 133-135 ClientMetricsWriter::Stop *)
Definition stamp_finished w os : ClientMetricsWriter * OS :=
  match finishedAt (cw_manifest w) with
  | Some _ => (w, os)
  | None =>
      let '(os, now) := os_call SysSystemClockNow os in
      (w {{ cw_manifest ::= (fun mf => mf {{ finishedAt := Some (ret now) }}) }}, os)
  end.

(** @src lib/src/metrics/client/ClientMetricsWriter.cpp 129-144 ClientMetricsWriter::Stop *)
Definition Client_Stop_end w m os : ub (option (ClientMetricsWriter * M * OS)) :=
  match cw_thread w with
  | WNone | WEnded =>
      let w := w {{ cw_thread := WNone }} in
      if cc_enabled (cw_config w) then
        let '(w, os) := stamp_finished w os in
        '(w, m, os, _) ← Client_Capture true w m os;
        '(w, os, _) ← Client_WriteManifest w os;
        text ← Client_BuildSummaryMarkdown (cw_summary w) (cw_manifest w) (cw_outputDirectory w);
        Some (Some (w, m, (stream_write false (cw_summaryPath w) text os).1))
      else Some (Some (w, m, os))
  | _ => Some None
  end.
End Writer.

(** ** What a line says *)

(** The members of the object, in the order written. *)
Definition client_members (record : ClientRecord) (previous : option ClientRecord) (ts : sv) : list (sv * json_value) :=
  let total name z := (lit name, JRaw (decimal z)) in
  let number name v := (lit name, JRaw (FormatNumber v 3)) in
  let rate name t := number name (client_rate t record previous) in
  [(lit "ts", JText ts);
   total "connect_success_total" (c_connectSuccess record); total "connect_failure_total" (c_connectFailure record);
   total "disconnect_total" (c_disconnect record);
   total "send_packets_total" (c_sendPackets record); rate "send_packets_per_sec" c_sendPackets;
   total "recv_packets_total" (c_recvPackets record); rate "recv_packets_per_sec" c_recvPackets;
   total "send_bytes_total" (c_sendBytes record); rate "send_bytes_per_sec" c_sendBytes;
   total "recv_bytes_total" (c_recvBytes record); rate "recv_bytes_per_sec" c_recvBytes;
   total "send_fail_total" (c_sendFail record); total "response_timeout_total" (c_responseTimeout record);
   total "packet_validation_total" (c_packetValidation record);
   total "packet_validation_failure_total" (c_packetValidationFailure record);
   total "disconnect_timeout_total" (c_disconnectTimeout record);
   total "disconnect_server_close_total" (c_disconnectServerClose record);
   total "disconnect_recv_fail_total" (c_disconnectRecvFail record);
   total "disconnect_local_close_total" (c_disconnectLocalClose record);
   total "connected" (c_connected record); total "pending_request_count" (c_pendingRequestCount record);
   number "connect_latency_ms_last" (c_lastConnectLatencyMs record);
   number "connect_latency_ms_avg" (c_connectLatencyMsAvg record);
   number "connect_latency_ms_max" (c_connectLatencyMsMax record);
   number "request_rtt_ms_avg" (c_requestRttMsAvg record); number "request_rtt_ms_max" (c_requestRttMsMax record);
   total "current_session_uptime_ms" (c_currentSessionUptimeMs record);
   total "last_session_uptime_ms" (c_lastSessionUptimeMs record);
   total "max_session_uptime_ms" (c_maxSessionUptimeMs record);
   total "time_since_last_recv_ms" (c_timeSinceLastRecvMs record);
   (lit "last_disconnect_reason", JText (lit (DisconnectReason_ToString (c_lastDisconnectReason record))));
   number "process_cpu_percent" (c_processCpuPercent record); total "thread_count" (c_threadCount record)]%string.

Lemma client_members_ok record previous ts : Forall member_ok (client_members record previous ts).
Proof.
  unfold client_members. cbv zeta.
  assert (forall name z, JsonEscape (lit name) = lit name -> member_ok (lit name, JRaw (decimal z))) as Htotal.
  { intros name z Hn. split; [done|]. split; apply decimal_raw. }
  assert (forall name v, JsonEscape (lit name) = lit name -> member_ok (lit name, JRaw (FormatNumber v 3))) as Hnumber.
  { intros name v Hn. split; [done|]. split; apply FormatNumber_raw. }
  assert (forall name t, JsonEscape (lit name) = lit name -> member_ok (lit name, JText t)) as Htext.
  { intros name t Hn. by split. }
  repeat (constructor; [(apply Htotal || apply Hnumber || apply Htext); by vm_compute|]). constructor.
Qed.

Lemma comma_field_member name value r :
  comma_field name value ++ r = member_text [] [] (lit name, JRaw value) ++ ","%char :: r.
Proof. unfold comma_field. by rewrite <-app_assoc. Qed.

Lemma comma_field_text name value r :
  comma_field name (quoted (JsonEscape value)) ++ r = member_text [] [] (lit name, JText value) ++ ","%char :: r.
Proof. unfold comma_field. by rewrite <-app_assoc. Qed.

Lemma members_text_before m m' ms r :
  members_text [] [] (m :: m' :: ms) ++ r = member_text [] [] m ++ ","%char :: (members_text [] [] (m' :: ms) ++ r).
Proof. by rewrite members_text_cons, <-app_assoc. Qed.

Lemma client_line_text record previous ts :
  FormatUtcTime (c_capturedAt record) = Some ts ->
  Client_BuildSnapshotJson record previous = Some ("{"%char :: members_text [] [] (client_members record previous ts) ++ lit "}").
Proof.
  intros Hts. unfold Client_BuildSnapshotJson. rewrite Hts. cbn [mbind option_bind].
  unfold client_members. cbv zeta. repeat rewrite members_text_before. cbn [members_text].
  rewrite !comma_field_text. repeat rewrite comma_field_member. reflexivity.
Qed.

(** C29: The lines of a client's metrics read back.  Each line that [BuildSnapshotJson]
    makes is one JSON object with the names and values meant, in order: the time to the
    millisecond, every total in decimal, the reason of the last disconnection as a string,
    and every number as [FormatNumber] prints it. *)
Theorem client_snapshot_reads_back record previous :
  0 <= c_capturedAt record < gmtime_end * ticks_per_second ->
  exists line ts, Client_BuildSnapshotJson record previous = Some line /\
    read_object line = Some (client_members record previous ts) /\ read_utc ts = Some (c_capturedAt record / 10000).
Proof.
  intros Ht. destruct (FormatUtcTime_reads _ Ht) as (ts & Hts & Hr).
  eexists _, ts. split; [by apply client_line_text|]. split; [|done].
  apply (read_object_text [] [] [] [] (client_members record previous ts));
    [constructor..|discriminate|apply client_members_ok].
Qed.

Lemma client_snapshot_reads_back_witness :
  exists line ts, Client_BuildSnapshotJson ClientRecord_zero None = Some line /\
    read_object line = Some (client_members ClientRecord_zero None ts) /\ length line = 880%nat.
Proof.
  destruct (client_snapshot_reads_back ClientRecord_zero None) as (line & ts & Hl & Hr & _).
  - vm_compute. split; [discriminate|reflexivity].
  - exists line, ts. split; [exact Hl|]. split; [exact Hr|]. vm_compute in Hl. by injection Hl as <-.
Defined.
