(* ===== verification/ClientWriterProps.v ===== *)
(** * ClientWriterProps: what the client's metrics files hold

    The files of a run of the client's writer, as ServerWriterProps.v has them of the
    server's: here the first snapshot is not logged. *)

From S2P Require Import Prelude StringUtils Config Platform Doubles MetricsText RunManifest RuntimeSampler WriterLog.
From S2P Require Import ServerWriter ClientMetrics ClientWriter.
From Stdlib Require Import Ascii String.
From stdpp Require Import base numbers list strings option.
From coqutil Require Import Datatypes.RecordSetters.
Import DoubleBraceUpdate.
Open Scope Z_scope.

(** The summary of some records, each with the one before it. *)
Definition client_summary_of (obs : list (ClientRecord * option ClientRecord)) : SummaryStats :=
  foldl (fun s o => ObserveSummary o.1 o.2 s) SummaryStats_zero obs.

Section Files.
Context {M OS : Type} `{ReliableHost OS} `{IClientMetrics M OS}.
(** Taking a snapshot touches no file and reads the clock. *)
Context (Hsnap : forall s : M * OS, file_of (cm_TakeSnapshot s).1.2 = file_of s.2 /\
  0 <= cs_capturedAt (cm_TakeSnapshot s).2 < gmtime_end * ticks_per_second).
Implicit Types (w : ClientMetricsWriter) (m : M) (os : OS).

Lemma SampleRuntime_files w os : file_of (SampleRuntime w os).1.2 = file_of os.
Proof.
  unfold SampleRuntime. pose proof (NowInNs64_files os) as Hn. destruct (NowInNs64 os) as [os1 now]. cbn [fst] in Hn.
  pose proof (rh_process_times os1) as Hp. destruct (GetProcessTimes os1) as [os2 [[k u]|]]; cbn [fst] in Hp; [|by rewrite <-Hn].
  cbv zeta. set (goes := _ && _).
  pose proof (GetProcessorCount_files os2) as Hc. destruct (GetProcessorCount os2) as [os3 pc]. cbn [fst] in Hc.
  destruct goes.
  - pose proof (CountProcessThreads_files os3) as Hk. destruct (CountProcessThreads os3) as [os4 tc]. cbn [fst snd] in *. congruence.
  - pose proof (CountProcessThreads_files os2) as Hk. destruct (CountProcessThreads os2) as [os4 tc]. cbn [fst snd] in *. congruence.
Qed.

(** What a capture leaves alone. *)
Definition same_files w w' : Prop :=
  cw_config w' = cw_config w /\ cw_manifest w' = cw_manifest w /\ cw_outputDirectory w' = cw_outputDirectory w /\
  cw_manifestPath w' = cw_manifestPath w /\ cw_snapshotPath w' = cw_snapshotPath w /\ cw_summaryPath w' = cw_summaryPath w.

Definition same_thread w w' : Prop :=
  cw_thread w' = cw_thread w /\ cw_stop w' = cw_stop w /\ cw_running w' = cw_running w.

Lemma same_files_trans w1 w2 w3 : same_files w1 w2 -> same_files w2 w3 -> same_files w1 w3.
Proof. unfold same_files. intros (?&?&?&?&?&?) (?&?&?&?&?&?). split_and!; congruence. Qed.

(** The log [old] has grown by the lines of [records], the first compared with [p]. *)
Definition logged (old : option sv) (p : ClientRecord) (records : list ClientRecord) w os : Prop :=
  log_holds Client_BuildSnapshotJson old p records (file_of os (cw_snapshotPath w)) /\
  cw_hasPrevious w = true /\ cw_previous w = last_record p records /\
  cw_summary w = client_summary_of (chain p records).

Lemma client_logged_ext old p records w w' os :
  cw_snapshotPath w' = cw_snapshotPath w -> cw_hasPrevious w' = cw_hasPrevious w -> cw_previous w' = cw_previous w ->
  cw_summary w' = cw_summary w -> logged old p records w os -> logged old p records w' os.
Proof. unfold logged. by intros -> -> -> ->. Qed.

(** The record of the metrics as they are in [m]. *)
Definition shows m (record : ClientRecord) : Prop :=
  exists os cpu threads, record = make_client_record (cm_TakeSnapshot (m, os)).2 cpu threads.

(** The record taken now. *)
Lemma capture_record_spec w m os :
  exists w' m' os' record, capture_record w m os = (w', m', os', record) /\ same_files w w' /\ same_thread w w' /\
    cw_hasPrevious w' = cw_hasPrevious w /\ cw_previous w' = cw_previous w /\ cw_summary w' = cw_summary w /\
    file_of os' = file_of os /\ 0 <= c_capturedAt record < gmtime_end * ticks_per_second /\
    shows m record /\ m' = (cm_TakeSnapshot (m, os)).1.1.
Proof.
  unfold capture_record, shows. destruct (Hsnap (m, os)) as [Hf Ht].
  destruct (cm_TakeSnapshot (m, os)) as [[m1 os1] snap] eqn:Hsn. cbn [fst snd] in *.
  pose proof (SampleRuntime_files w os1) as Hs.
  assert (forall w' os' r, SampleRuntime w os1 = (w', os', r) -> same_files w w' /\ same_thread w w' /\
    cw_hasPrevious w' = cw_hasPrevious w /\ cw_previous w' = cw_previous w /\ cw_summary w' = cw_summary w) as Hw.
  { clear. intros w' os' r. unfold SampleRuntime. destruct (NowInNs64 os1) as [os2 now].
    destruct (GetProcessTimes os2) as [os3 [[k u]|]]; [|intros [= <- _ _]; by destruct w].
    destruct (if _ && _ then _ else _) as [os4 cpu]. destruct (CountProcessThreads os4) as [os5 tc].
    intros [= <- _ _]. by destruct w. }
  destruct (SampleRuntime w os1) as [[w' os'] [cpu threads]]. cbn [fst snd] in *.
  destruct (Hw _ _ _ eq_refl) as (W1 & W2 & W3 & W4 & W5).
  eexists w', m1, os', _. split; [done|]. do 5 (split; [done|]). split; [congruence|]. split; [exact Ht|]. split; [|done].
  exists os, cpu, threads. by rewrite Hsn.
Qed.

(** A record is written as one more line. *)
Lemma write_record_logged old p records record w os :
  0 <= c_capturedAt record < gmtime_end * ticks_per_second -> logged old p records w os ->
  exists w' os', write_record record w os = Some (w', os', true) /\ same_files w w' /\ same_thread w w' /\
    logged old p (records ++ [record]) w' os' /\
    forall other, other <> cw_snapshotPath w -> file_of os' other = file_of os other.
Proof.
  intros Ht (Hlog & Hhas & Hp & Hs). destruct (FormatUtcTime_reads _ Ht) as (ts & Hts & _).
  unfold write_record. rewrite Hhas, Hp.
  pose proof (client_line_text record (Some (last_record p records)) ts Hts) as Hline.
  destruct (Client_BuildSnapshotJson record (Some (last_record p records))) as [line|] eqn:Hl; [|done].
  cbn [mbind option_bind]. pose proof (rh_write true (cw_snapshotPath w) (line ++ [nl]) os) as (Hw & Hfile & Hother).
  destruct (stream_write true _ _ os) as [os' res]. cbn [fst snd] in *. subst res.
  eexists _, os'. split; [done|]. split; [by destruct w|]. split; [by destruct w|]. split; [|done].
  unfold logged. rewrite last_record_snoc, chain_snoc. unfold client_summary_of. rewrite foldl_app. cbn [foldl fst snd].
  fold (client_summary_of (chain p records)). rewrite <-Hs.
  assert (log_holds Client_BuildSnapshotJson old p (records ++ [record]) (file_of os' (cw_snapshotPath w))) as Hh
    by (rewrite Hfile; by apply log_holds_snoc).
  by destruct w.
Qed.

Lemma client_capture_logged old p records final w m os :
  logged old p records w os ->
  exists w' m' os' record, Client_Capture final w m os = Some (w', m', os', true) /\ same_files w w' /\ same_thread w w' /\
    logged old p (records ++ [record]) w' os' /\
    (forall other, other <> cw_snapshotPath w -> file_of os' other = file_of os other) /\
    shows m record /\ m' = (cm_TakeSnapshot (m, os)).1.1.
Proof.
  intros Hlog. unfold Client_Capture.
  destruct (capture_record_spec w m os) as (w1 & m1 & os1 & r & -> & Hf1 & Ht1 & Hh & Hp & Hs & Hfiles & Hr & Hshows & Hm).
  pose proof Hf1 as (_ & _ & _ & _ & Hpath & _).
  assert (logged old p records w1 os1) as Hlog1
    by (eapply (client_logged_ext _ _ _ w); [done..|]; unfold logged in *; by rewrite Hfiles).
  pose proof (proj1 (proj2 Hlog1)) as Hhas. rewrite Hhas. cbn [negb andb].
  destruct (write_record_logged old p records r w1 os1 Hr Hlog1) as (w2 & os2 & -> & Hf2 & Ht2 & Hlog2 & Ho).
  cbn [mbind option_bind]. exists w2, m1, os2, r. split; [done|]. split; [by eapply same_files_trans|].
  split; [unfold same_thread in *; destruct Ht1 as (?&?&?), Ht2 as (?&?&?); split_and!; congruence|].
  split; [done|]. split; [|done]. intros other Hne. rewrite Ho by congruence. by rewrite Hfiles.
Qed.

(** The first capture only keeps its record. *)
Lemma first_capture w m os :
  cw_hasPrevious w = false -> cw_summary w = SummaryStats_zero ->
  exists w' m' os' first, Client_Capture false w m os = Some (w', m', os', true) /\ same_files w w' /\ same_thread w w' /\
    file_of os' = file_of os /\ logged (file_of os (cw_snapshotPath w)) first [] w' os' /\
    m' = (cm_TakeSnapshot (m, os)).1.1.
Proof.
  intros Hh Hz. unfold Client_Capture.
  destruct (capture_record_spec w m os) as (w1 & m1 & os1 & r & -> & Hf1 & Ht1 & Hh1 & _ & Hs1 & Hfiles & _ & _ & Hm).
  rewrite Hh1, Hh. cbn [negb andb]. eexists _, m1, os1, r. split; [done|].
  pose proof Hf1 as (_ & _ & _ & _ & Hpath & _).
  split; [by destruct w1|]. split; [by destruct w1|]. split; [done|]. split; [|done]. unfold logged.
  rewrite <-Hfiles, <-Hpath. assert (cw_summary w1 = SummaryStats_zero) as Hz1 by congruence.
  split; [destruct w1; apply log_holds_nil|]. by destruct w1.
Qed.

(** *** The thread *)

(** What happens while the writer runs: its thread takes a step, or something else changes
    the metrics and the system. *)
Inductive Action := Turn | Other (f : M * OS -> M * OS).

Definition harmless (a : Action) : Prop :=
  match a with Turn => True | Other f => forall s, file_of (f s).2 = file_of s.2 end.

Fixpoint turns (actions : list Action) : nat :=
  match actions with [] => O | Turn :: actions => S (turns actions) | Other _ :: actions => turns actions end.

Fixpoint Client_run (actions : list Action) w m os : ub (ClientMetricsWriter * M * OS) :=
  match actions with
  | [] => Some (w, m, os)
  | Turn :: actions => '(w, m, os) ← Client_step w m os; Client_run actions w m os
  | Other f :: actions => let '(m, os) := f (m, os) in Client_run actions w m os
  end.

(** The steps a thread that is to stop still takes. *)
Definition rank (t : WriterThread) : nat := match t with WCapture => 2 | WTop | WSleep => 1 | WNone | WEnded => 0 end.

Definition goes_on w : bool := negb (cw_stop w) && cw_running w.

(** What every action keeps, and how the thread comes to its end. *)
Definition follows w w' (taken : nat) : Prop :=
  same_files w w' /\ (cw_thread w <> WNone -> cw_thread w' <> WNone) /\
  (goes_on w = false -> goes_on w' = false /\ rank (cw_thread w') = (rank (cw_thread w) - taken)%nat).

Lemma follows_trans w1 w2 w3 j k : follows w1 w2 j -> follows w2 w3 k -> follows w1 w3 (j + k).
Proof.
  intros (F1 & T1 & R1) (F2 & T2 & R2). split; [by eapply same_files_trans|]. split; [auto|].
  intros Hg. destruct (R1 Hg) as [Hg2 Hr2]. destruct (R2 Hg2) as [Hg3 Hr3]. split; [done|]. lia.
Qed.

Lemma follows_id w : rank (cw_thread w) = O -> follows w w 1.
Proof. intros Hr. split; [done|]. split; [done|]. intros Hg. by rewrite Hr. Qed.

Lemma follows_thread w t : goes_on w = true -> t <> WNone -> follows w (w {{ cw_thread := t }}) 1.
Proof. intros Hg Ht. split; [by destruct w|]. split; [by destruct w|]. rewrite Hg. discriminate. Qed.

Lemma follows_exit w : rank (cw_thread w) = 1%nat -> follows w (client_thread_exit w) 1.
Proof.
  intros Hr. split; [by destruct w|]. split; [by destruct w|]. intros _. rewrite Hr. destruct w. split; [|done].
  unfold goes_on. cbn. apply andb_false_r.
Qed.

Lemma step_logged old p records w m os :
  logged old p records w os ->
  exists w' m' os' more, Client_step w m os = Some (w', m', os') /\ follows w w' 1 /\ logged old p (records ++ more) w' os'.
Proof.
  intros Hlog. unfold Client_step. fold (goes_on w). destruct (cw_thread w) eqn:Ht.
  1, 5: by (exists w, m, os, []; rewrite app_nil_r; split; [done|]; split; [apply follows_id; by rewrite Ht|done]).
  3: { destruct (client_capture_logged old p records false w m os Hlog) as (w' & m' & os' & r & -> & Hf & (_ & Hs & Hr) & Hl & _).
    cbn [mbind option_bind]. eexists _, m', os', [r]. split; [done|]. split; [|apply (client_logged_ext _ _ _ w'); by destruct w'].
    split; [unfold same_files in *; by destruct w'|]. split; [by destruct w'|]. rewrite Ht.
    unfold goes_on. rewrite <-Hs, <-Hr. by destruct w'. }
  all: exists (if goes_on w then w {{ cw_thread := match cw_thread w with WTop => WSleep | _ => WCapture end }}
               else client_thread_exit w), m, os, []; rewrite Ht, app_nil_r.
  all: destruct (goes_on w) eqn:Hg; (split; [done|]; split; [|apply (client_logged_ext _ _ _ w); by destruct w]).
  all: first [by apply follows_thread|apply follows_exit; by rewrite Ht].
Qed.

Lemma run_logged actions : forall old p records w m os,
  Forall harmless actions -> logged old p records w os ->
  exists w' m' os' more, Client_run actions w m os = Some (w', m', os') /\ follows w w' (turns actions) /\
    logged old p (records ++ more) w' os'.
Proof.
  induction actions as [|a actions IH]; intros old p records w m os Ha Hlog.
  - exists w, m, os, []. rewrite app_nil_r. split; [done|]. split; [|done]. unfold follows, turns. cbn. split; [done|].
    split; [done|]. intros Hg. split; [done|lia].
  - inversion_clear Ha as [|? ? Hone Has]. destruct a as [|f]; cbn [Client_run turns].
    + destruct (step_logged old p records w m os Hlog) as (w1 & m1 & os1 & more1 & -> & Hf1 & Hl1). cbn [mbind option_bind].
      destruct (IH old p (records ++ more1) w1 m1 os1 Has Hl1) as (w2 & m2 & os2 & more2 & Hrun & Hf2 & Hl2).
      exists w2, m2, os2, (more1 ++ more2). split; [done|]. rewrite app_assoc. split; [|done].
      exact (follows_trans _ _ _ _ _ Hf1 Hf2).
    + specialize (Hone (m, os)). destruct (f (m, os)) as [m1 os1]. cbn [snd] in Hone.
      destruct (IH old p records w m1 os1 Has) as (w2 & m2 & os2 & more & Hrun & Hf2 & Hl2);
        [unfold logged in *; by rewrite Hone|]. by exists w2, m2, os2, more.
Qed.

(** *** Start and stop *)

(** The files are those of the manifest's directory. *)
Definition has_paths w : Prop :=
  cw_outputDirectory w = OutputDirectory (cw_manifest w) /\
  cw_manifestPath w = path_append (OutputDirectory (cw_manifest w)) (lit "manifest.json") /\
  cw_snapshotPath w = path_append (OutputDirectory (cw_manifest w)) (lit "client-metrics.jsonl") /\
  cw_summaryPath w = path_append (OutputDirectory (cw_manifest w)) (lit "summary.md").

Lemma has_paths_same w w' : same_files w w' -> has_paths w -> has_paths w'.
Proof. unfold has_paths. by intros (_ & -> & -> & -> & -> & ->). Qed.

Lemma client_paths_differ w : has_paths w ->
  cw_snapshotPath w <> cw_manifestPath w /\ cw_summaryPath w <> cw_manifestPath w /\ cw_summaryPath w <> cw_snapshotPath w.
Proof. intros (_ & -> & -> & ->). by split_and!; intros He%path_append_inj. Qed.

Lemma Client_InitializeArtifacts_makes w os :
  exists w' os', Client_InitializeArtifacts w os = (w', os', true) /\ file_of os' = file_of os /\ has_paths w' /\
    cw_manifest w' = cw_manifest w /\ cw_config w' = cw_config w /\ cw_hasPrevious w' = cw_hasPrevious w /\
    cw_summary w' = cw_summary w.
Proof.
  unfold Client_InitializeArtifacts. destruct (rh_directories (OutputDirectory (cw_manifest w)) os) as [Hn Hf].
  destruct (create_directories _ os) as [os' res]. cbn [fst snd] in *. subst res.
  eexists _, os'. split; [done|]. split; [done|]. unfold has_paths. by destruct w.
Qed.

Lemma Client_WriteManifest_writes w os :
  valid_time (startedAt (cw_manifest w)) -> valid_time (finishedAt (cw_manifest w)) ->
  exists os' json, Client_WriteManifest w os = Some (w, os', true) /\ ToJson (cw_manifest w) = Some json /\
    file_of os' (cw_manifestPath w) = Some json /\
    forall other, other <> cw_manifestPath w -> file_of os' other = file_of os other.
Proof.
  intros Hs Hf. destruct (ToJson_total _ Hs Hf) as [json Hj]. unfold Client_WriteManifest. rewrite Hj.
  cbn [mbind option_bind]. pose proof (rh_write false (cw_manifestPath w) json os) as (Hw & Hfile & Ho).
  destruct (stream_write false _ _ os) as [os' res]. cbn [fst snd] in *. subst res. exists os', json. done.
Qed.

Lemma Client_open_logs w m os :
  finishedAt (cw_manifest w) = None -> cw_hasPrevious w = false -> cw_summary w = SummaryStats_zero ->
  exists w' m' os' first, Client_open w m os = Some (w', m', os', true) /\ cw_config w' = cw_config w /\ has_paths w' /\
    valid_time (startedAt (cw_manifest w')) /\ is_Some (startedAt (cw_manifest w')) /\ finishedAt (cw_manifest w') = None /\
    logged (file_of os (cw_snapshotPath w')) first [] w' os'.
Proof.
  intros Hfin Hhas Hsum. unfold Client_open.
  destruct (ResolveRunId_total (cc_runId (cw_config w)) os) as (os1 & id & -> & Hf1). cbn [mbind option_bind].
  destruct (clock_now os1) as (os2 & now & -> & Hf2 & Hnow).
  set (w1 := w {{ cw_manifest ::= _ }}).
  assert (startedAt (cw_manifest w1) = Some (ret now) /\ finishedAt (cw_manifest w1) = None /\
    cw_config w1 = cw_config w /\ cw_hasPrevious w1 = false /\ cw_summary w1 = SummaryStats_zero) as (A1 & A2 & A3 & A4 & A5)
    by (subst w1; destruct w as [? [] ? ? ? ? ? ? ? ? ? ? ? ? ? ? ?]; cbn in *; subst; done).
  destruct (Client_InitializeArtifacts_makes w1 os2) as (w2 & os3 & -> & Hf3 & Hpaths & B1 & B2 & B3 & B4). cbn [negb].
  destruct (Client_WriteManifest_writes w2 os3) as (os4 & json & -> & _ & _ & Ho4); [by rewrite B1, A1|by rewrite B1, A2|].
  cbn [mbind option_bind negb].
  destruct (first_capture w2 m os4) as (w3 & m3 & os5 & r & Hc & Hsame & _ & Hf5 & Hlog & _); [congruence..|].
  exists w3, m3, os5, r. split; [done|]. pose proof Hsame as (C1 & C2 & C3 & C4 & C5 & C6).
  destruct (client_paths_differ w2 Hpaths) as (Hne & _ & _).
  split; [congruence|]. split; [by eapply has_paths_same|]. rewrite C2, B1, A1, A2.
  split; [done|]. split; [by eexists|]. split; [done|]. by rewrite C5, <-Hf1, <-Hf2, <-Hf3, <-Ho4.
Qed.

(** [Stop] after the join. *)
Lemma Client_Stop_end_logs old p records w m os :
  cw_thread w = WEnded -> cc_enabled (cw_config w) = true -> has_paths w ->
  valid_time (startedAt (cw_manifest w)) -> finishedAt (cw_manifest w) = None -> logged old p records w os ->
  exists w' m' os' r json summary,
    Client_Stop_end w m os = Some (Some (w', m', os')) /\ has_paths w' /\ is_Some (finishedAt (cw_manifest w')) /\
    cw_thread w' = WNone /\ startedAt (cw_manifest w') = startedAt (cw_manifest w) /\ cw_snapshotPath w' = cw_snapshotPath w /\
    logged old p (records ++ [r]) w' os' /\ shows m r /\
    ToJson (cw_manifest w') = Some json /\ file_of os' (cw_manifestPath w') = Some json /\
    Client_BuildSummaryMarkdown (cw_summary w') (cw_manifest w') (cw_outputDirectory w') = Some summary /\
    file_of os' (cw_summaryPath w') = Some summary.
Proof.
  intros Ht He Hp Hst Hfin Hlog. unfold Client_Stop_end, stamp_finished. rewrite Ht.
  set (w0 := w {{ cw_thread := WNone }}).
  assert (cc_enabled (cw_config w0) = true /\ finishedAt (cw_manifest w0) = None) as [-> ->] by (by destruct w).
  destruct (clock_now os) as (os1 & now & -> & Hf1 & Hnow).
  set (w1 := w0 {{ cw_manifest ::= _ }}).
  assert (startedAt (cw_manifest w1) = startedAt (cw_manifest w) /\ finishedAt (cw_manifest w1) = Some (ret now) /\
    has_paths w1 /\ logged old p records w1 os1) as (A1 & A2 & A3 & A4).
  { unfold logged, has_paths in *. rewrite Hf1. subst w0 w1. by destruct w as [? [] ? ? ? ? ? ? ? ? ? ? ? ? ? ? ?]. }
  destruct (client_capture_logged old p records true w1 m os1 A4) as (w2 & m2 & os2 & r & -> & Hsame & (Hth & _) & Hlog2 & _ & Hshows & _).
  cbn [mbind option_bind]. pose proof Hsame as (_ & C2 & _ & _ & C5 & _).
  pose proof (has_paths_same _ _ Hsame A3) as Hp2. destruct (client_paths_differ w2 Hp2) as (Hne1 & Hne2 & Hne3).
  destruct (Client_WriteManifest_writes w2 os2) as (os3 & json & -> & Hj & Hf3 & Ho3); [by rewrite C2, A1|by rewrite C2, A2|].
  cbn [mbind option_bind].
  assert (exists summary, Client_BuildSummaryMarkdown (cw_summary w2) (cw_manifest w2) (cw_outputDirectory w2) = Some summary)
    as [summary Hsum].
  { unfold Client_BuildSummaryMarkdown. rewrite C2, A1, A2. destruct (optional_time_reads _ Hst) as (a & -> & _).
    destruct (optional_time_reads (Some (ret now)) Hnow) as (b & -> & _). by eexists. }
  rewrite Hsum. cbn [mbind option_bind].
  pose proof (rh_write false (cw_summaryPath w2) summary os3) as (_ & Hf4 & Ho4).
  destruct (stream_write false _ _ os3) as [os4 res]. cbn [fst snd] in *.
  exists w2, m2, os4, r, json, summary. destruct Hlog2 as (Hfile & Hrest).
  split; [done|]. split; [done|]. split; [by rewrite C2, A2; eexists|].
  split; [rewrite Hth; subst w0 w1; by destruct w|]. split; [by rewrite C2|].
  split; [rewrite C5; subst w0 w1; by destruct w|].
  split; [split; [|done]; rewrite Ho4, Ho3 by done; exact Hfile|].
  split; [done|]. split; [done|]. split; [by rewrite Ho4 by done|]. done.
Qed.

Lemma Client_Start_logs w m os :
  cc_enabled (cw_config w) = true -> cw_running w = false ->
  exists w' m' os' first, Client_Start w m os = Some (w', m', os', true) /\ cw_thread w' = WTop /\
    cc_enabled (cw_config w') = true /\ has_paths w' /\
    valid_time (startedAt (cw_manifest w')) /\ is_Some (startedAt (cw_manifest w')) /\ finishedAt (cw_manifest w') = None /\
    logged (file_of os (cw_snapshotPath w')) first [] w' os'.
Proof.
  intros He Hr. set (w0 := Client_reset (w {{ cw_lastError := [] }})).
  assert (cw_running (w {{ cw_lastError := [] }}) = false /\ cc_enabled (cw_config w0) = true /\
    finishedAt (cw_manifest w0) = None /\ cw_hasPrevious w0 = false /\ cw_summary w0 = SummaryStats_zero)
    as (A1 & A2 & A3 & A4 & A5) by (by destruct w as [? [] ? ? ? ? ? ? ? ? ? ? ? ? ? ? ?]).
  destruct (Client_open_logs w0 m os A3 A4 A5) as (wa & ma & osa & first & Hopen & B1 & Hp & Hst & Hss & Hfin & Hlog).
  destruct (rh_thread osa) as [Htn Htf]. unfold Client_Start. rewrite A1. fold w0. rewrite A2. cbn [negb]. rewrite Hopen.
  cbn [mbind option_bind negb]. destruct (start_thread osa) as [os1 res]. cbn [fst snd] in *. subst res.
  eexists _, ma, os1, first. split; [done|]. rewrite <-B1 in A2. unfold has_paths, logged in *. rewrite Htf. by destruct wa.
Qed.

(** [Stop] up to the join: two more steps, and the thread has ended. *)
Lemma Stop_begin_ends old p records w os :
  cw_thread w <> WNone -> logged old p records w os ->
  exists w', Client_Stop_begin w = (w', true) /\ same_files w w' /\ logged old p records w' os /\
    forall w2 k, follows w' w2 k -> (2 <= k)%nat -> cw_thread w2 = WEnded.
Proof.
  intros Ht Hlog. exists (w {{ cw_running := false; cw_stop := true }}).
  split; [unfold Client_Stop_begin; destruct w as [? ? ? ? ? ? [] ? ? ? ? ? ? ? ? ? ?]; cbn in *; try done; by rewrite andb_false_r|].
  split; [by destruct w|]. split; [by apply (client_logged_ext _ _ _ w); destruct w|].
  intros w2 k (_ & Hne & Hrank) Hk. destruct (Hrank ltac:(by destruct w)) as [_ Hr].
  specialize (Hne ltac:(by destruct w)).
  assert (rank (cw_thread (w {{ cw_running := false; cw_stop := true }})) <= 2)%nat
    by (generalize (cw_thread (w {{ cw_running := false; cw_stop := true }})); intros []; cbn; lia).
  destruct (cw_thread w2); cbn in *; done || lia.
Qed.

(** C31: The files of a client's run.  With a system that writes what it is given and
    metrics that touch no file, the writer of a client whose metrics are enabled starts;
    whatever happens then, with its thread's steps at any points, and [Stop] after it,
    which the thread's next two steps answer, the files of the run's directory hold: the
    log, after what it held before, with a line for every snapshot but the first, each
    compared with the one before it; the manifest, with both times; and the summary of
    exactly those snapshots, the last of which shows the metrics as [Stop] found them. *)
Theorem client_files_of_run w m os before after :
  cc_enabled (cw_config w) = true -> cw_running w = false ->
  Forall harmless before -> Forall harmless after -> (2 <= turns after)%nat ->
  exists w1 m1 os1 w2 m2 os2 w3 w4 m4 os4 w5 m5 os5,
    Client_Start w m os = Some (w1, m1, os1, true) /\ Client_run before w1 m1 os1 = Some (w2, m2, os2) /\
    Client_Stop_begin w2 = (w3, true) /\ Client_run after w3 m2 os2 = Some (w4, m4, os4) /\
    Client_Stop_end w4 m4 os4 = Some (Some (w5, m5, os5)) /\
    let dir := OutputDirectory (cw_manifest w5) in
    let log := path_append dir (lit "client-metrics.jsonl") in
    exists first records last text json summary,
      shows m4 last /\ log_text Client_BuildSnapshotJson first (records ++ [last]) = Some text /\
      file_of os5 log = Some (default [] (file_of os log) ++ text) /\
      ToJson (cw_manifest w5) = Some json /\ is_Some (startedAt (cw_manifest w5)) /\ is_Some (finishedAt (cw_manifest w5)) /\
      file_of os5 (path_append dir (lit "manifest.json")) = Some json /\
      Client_BuildSummaryMarkdown (client_summary_of (chain first (records ++ [last]))) (cw_manifest w5) dir = Some summary /\
      file_of os5 (path_append dir (lit "summary.md")) = Some summary.
Proof.
  intros He Hr Hb Ha Hturns.
  destruct (Client_Start_logs w m os He Hr) as (w1 & m1 & os1 & first & Hstart & Ht1 & He1 & Hp1 & Hst & Hss & Hfin & Hlog1).
  destruct (run_logged before _ _ _ w1 m1 os1 Hb Hlog1) as (w2 & m2 & os2 & more1 & Hrun1 & (Hf2 & Ht2 & _) & Hlog2).
  destruct (Stop_begin_ends _ _ _ w2 os2 (Ht2 ltac:(congruence)) Hlog2) as (w3 & Hbegin & Hf3 & Hlog3 & Hend).
  destruct (run_logged after _ _ _ w3 m2 os2 Ha Hlog3) as (w4 & m4 & os4 & more2 & Hrun2 & Hf4 & Hlog4).
  pose proof (Hend w4 _ Hf4 Hturns) as Ht4. destruct Hf4 as (Hf4 & _).
  pose proof (same_files_trans _ _ _ Hf2 (same_files_trans _ _ _ Hf3 Hf4)) as Hsame. pose proof Hsame as (C1 & C2 & _ & _ & C5 & _).
  destruct (Client_Stop_end_logs _ _ _ w4 m4 os4 Ht4
    ltac:(by rewrite C1) (has_paths_same _ _ Hsame Hp1) ltac:(by rewrite C2) ltac:(by rewrite C2) Hlog4) as (w5 & m5 & os5 & r & json & summary & Hstop & Hp5 & Hf5 & _ & Hs5 & Hsp & Hlog5 & Hshows & Hj & Hjf & Hsum & Hsf).
  exists w1, m1, os1, w2, m2, os2, w3, w4, m4, os4, w5, m5, os5. do 5 (split; [done|]). cbv zeta.
  destruct Hp5 as (P1 & P2 & P3 & P4). rewrite <-P1, <-P2, <-P3, <-P4 in *.
  destruct Hlog5 as ((text & Htext & Hfile) & _ & _ & Hsummary). rewrite log_file_snoc in Hfile.
  exists first, (more1 ++ more2), r, text, json, summary.
  split; [done|]. split; [done|]. split; [by rewrite Hfile, Hsp, C5|]. split; [done|]. split; [by rewrite Hs5, C2|].
  split; [done|]. split; [done|]. rewrite Hsummary in Hsum. by split.
Qed.
End Files.

(** The metrics of the client keep to what the writer relies on. *)
Lemma Cm_TakeSnapshot_files {OS} `{ReliableHost OS} `{UMapOrder} (s : AtomicClientMetrics * OS) :
  file_of (cm_TakeSnapshot s).1.2 = file_of s.2 /\
  0 <= cs_capturedAt (cm_TakeSnapshot s).2 < gmtime_end * ticks_per_second.
Proof.
  destruct s as [m os]. cbn. unfold NowSteadyNanoseconds.
  pose proof (rh_os_call SysSteadyClockNow os) as Hs. destruct (os_call SysSteadyClockNow os) as [os1 t]. cbn [fst] in Hs.
  pose proof (rh_os_call SysSystemClockNow os1) as Hc. pose proof (rh_clock os1) as Hr.
  destruct (os_call SysSystemClockNow os1) as [os2 now]. cbn [fst snd] in *.
  cbn. split; [congruence|done].
Qed.

(** A connection is made and a packet sent while the writer runs. *)
Definition demo_actions : list (Action (M:=AtomicClientMetrics) (OS:=FileOS)) :=
  [Turn; Other (cm_ObserveConnectLatency 2000000 true); Turn; Turn; Turn; Other (cm_OnSendCompleted 5); Turn].

Lemma client_files_of_run_witness :
  let w := ClientMetricsWriter_make (fun _ => None) (ClientMetricsConfig_default {{ cc_runId := lit "r1" }}) demo_manifest in
  exists (w5 : ClientMetricsWriter) (os5 : FileOS) first records last text,
    log_text Client_BuildSnapshotJson first (records ++ [last]) = Some text /\
    file_of os5 (path_append (OutputDirectory (cw_manifest w5)) (lit "client-metrics.jsonl")) = Some text.
Proof.
  intros w.
  destruct (client_files_of_run (M:=AtomicClientMetrics) Cm_TakeSnapshot_files w AtomicClientMetrics_init
    (mkFileOS (fun _ => None) 17000000001234567) demo_actions [Turn; Turn] eq_refl eq_refl)
    as (w1 & m1 & os1 & w2 & m2 & os2 & w3 & w4 & m4 & os4 & w5 & m5 & os5 & _ & _ & _ & _ & _ &
        first & records & last & text & json & summary & _ & Ht & Hf & _).
  - unfold demo_actions. repeat (apply List.Forall_cons; [first [exact I|intros [? ?]; reflexivity]|]). constructor.
  - repeat constructor.
  - cbn; lia.
  - exists w5, os5, first, records, last, text. split; [exact Ht|exact Hf].
Defined.
