(* ===== verification/ChatClient.v ===== *)
(** * ChatClient: the chat client and its command line

    [exec/chat/chat-client]: [Client], [PacketSender], [PacketReceiver] and [ChatCli]; the
    console they write to is in [Console].

    Two threads share a [Client]: the one that connects, sends and disconnects, and the
    one that receives.  The receiving thread is a state machine ([RecvThread]) whose
    steps are the points where it looks at or changes what the other one shares;
    [Disconnect] is cut where it waits for that thread. *)

From S2P Require Import Prelude Errors Platform Protocol Logger Console TcpClient ClientMetrics.
From Stdlib Require Import Ascii String.
From stdpp Require Import base numbers list strings option pretty.
From coqutil Require Import Byte Datatypes.RecordSetters.
Import DoubleBraceUpdate.
Open Scope Z_scope.

(** ** Client *)

(** @src exec/chat/chat-client/Client.h 26-29 Client::RequestTracking *)
Record RequestTracking := mkRequestTracking { rt_sequence : Z; rt_responseType : Z }.

(** Where the receiving thread is: no thread, at the test of its loop, in [RecvFrame],
    back from a failed one, decided to report the connection lost, at its end. *)
Inductive RecvThread :=
  | RNone
  | RTop
  | RRecv
  | RFail (e : ENetworkError)
  | RClose (reason : ClientDisconnectReason)
  | REnded.

(** @src exec/chat/chat-client/Client.h 52-67 Client *)
Record ChatClient := mkChatClient {
  _responseTimeout : Z;
  _wsaSession : option WsaSession;
  _tcpClientSocket : option TcpClientSocket;
  _packetStream : option PacketStream;
  _recvThread : RecvThread; stop_requested : bool;
  _isConnected : bool;
  _nextSequence : Z }.

(** @src exec/chat/chat-client/Client.cpp 25-32 Client::Client *)
Definition ChatClient_make (responseTimeout : Z) : ChatClient :=
  mkChatClient responseTimeout None None None RNone false false 1.

(** @src exec/chat/chat-client/Client.cpp 8-22 toDisconnectMessage *)
Definition toDisconnectMessage (reason : ClientDisconnectReason) : string :=
  match reason with
  | ReasonTimeout => "Disconnected from server (timeout)."
  | ServerClose => "Disconnected from server (server close)."
  | RecvFail => "Disconnected from server (recv fail)."
  | LocalClose => "Disconnected from server."
  | ReasonNone => "Disconnected from server (unknown)."
  end.

Section Client.
Context {M OS L : Type} `{WinSock OS} `{IClientMetrics M OS} `{FlatBuffers}.
(** Whether the pointer to the metrics is set, and the callback for received packets
    with the state it changes. *)
Context (hasMetrics : bool) (cb : Packet -> L -> ub L).
Implicit Types (c : ChatClient) (s : M * OS).

(** [if (_metrics) _metrics->...;]. *)
Definition measure (f : M * OS -> M * OS) s : M * OS := if hasMetrics then f s else s.

(** [steady_clock::now()], in nanoseconds. *)
Definition steady_now s : M * OS * Z := let '(os, t) := NowInNs64 s.2 in ((s.1, os), t).

Definition on_os {R} (f : OS -> OS * R) s : M * OS * R := let '(os, r) := f s.2 in ((s.1, os), r).

(** Closing the socket that [c] owns, if any. *)
Definition close_socket c s : ChatClient * (M * OS) :=
  match _tcpClientSocket c with
  | None => (c, s)
  | Some t => let '(t, os, _) := Tcp_Close t s.2 in (c {{ _tcpClientSocket := Some t }}, (s.1, os))
  end.

(** [_packetStream.reset(); _tcpClientSocket.reset(); _wsaSession.reset();]: the socket
    is closed if it is open, and the last owner of the session cleans up. *)
(** @src exec/chat/chat-client/Client.cpp 96-98 Client::Disconnect *)
Definition reset_connection c s : ChatClient * (M * OS) :=
  let os := match _tcpClientSocket c with Some t => Tcp_destroy t s.2 | None => s.2 end in
  let os := match _wsaSession c with Some w => WsaSession_destroy w os | None => os end in
  (c {{ _packetStream := None; _tcpClientSocket := None; _wsaSession := None }}, (s.1, os)).

Definition joinable c : bool := match _recvThread c with RNone => false | _ => true end.

(** [Disconnect] up to the join. *)
(** @src exec/chat/chat-client/Client.cpp 81-90 Client::Disconnect *)
Definition Disconnect_begin c s : ChatClient * (M * OS) * bool :=
  let wasConnected := _isConnected c in
  let c := c {{ _isConnected := false }} in
  let c := if joinable c then c {{ stop_requested := true }} else c in
  let '(c, s) := close_socket c s in
  (c, s, wasConnected).

(** [Disconnect] from the join on; [None] while the thread to join has not ended. *)
(** @src exec/chat/chat-client/Client.cpp 92-105 Client::Disconnect *)
Definition Disconnect_end (reason : ClientDisconnectReason) (wasConnected : bool) c s
    : option (ChatClient * (M * OS)) :=
  match _recvThread c with
  | RNone | REnded =>
      let c := c {{ _recvThread := RNone }} in
      let '(c, s) := reset_connection c s in
      Some (c, if wasConnected then measure (cm_OnDisconnected reason) s else s)
  | _ => None
  end.

(** [Connect] when no connection is up (otherwise it disconnects first). *)
(** @src exec/chat/chat-client/Client.cpp 45-78 Client::Connect *)
Definition Connect_fresh (ipAddress : string) (port : Z) c s : ChatClient * (M * OS) * bool :=
  let '(s, connectStartedAt) := steady_now s in
  let latency ok s :=
    measure (fun s => let '(s, t) := steady_now s in cm_ObserveConnectLatency (t - connectStartedAt) ok s) s in
  let '(s, sessionRes) := on_os WsaSession_Create s in
  match _data sessionRes with
  | None => (c, latency false s, false)
  | Some wsaSession =>
      let '(socket, os, r) := Tcp_Connect ipAddress port (TcpClientSocket_make true) s.2 in
      let s := (s.1, os) in
      if HasErr r then
        let s := latency false s in
        let os := Tcp_destroy socket s.2 in
        let os := WsaSession_destroy wsaSession os in
        (c, (s.1, os), false)
      else
        let '(c, s) := reset_connection c s in
        let c := c {{ _wsaSession := Some wsaSession; _tcpClientSocket := Some socket;
                      _packetStream := Some (mkPacketStream maxFrameSize) }} in
        let c := c {{ _isConnected := true }} in
        let s := latency true s in
        (c, measure cm_OnConnected s, true)
  end.

(** The operations that wait for the receiving thread: [join] is what it does until it
    ends.  Connecting anew disconnects first. *)
Section Join.
Context (join : ChatClient * (M * OS) -> ChatClient * (M * OS)).

(** @src exec/chat/chat-client/Client.cpp 81-106 Client::Disconnect *)
Definition ChatClient_Disconnect (reason : ClientDisconnectReason) c s : option (ChatClient * (M * OS)) :=
  let '(c, s, wasConnected) := Disconnect_begin c s in
  let '(c, s) := join (c, s) in
  Disconnect_end reason wasConnected c s.

(** @src exec/chat/chat-client/Client.cpp 40-79 Client::Connect *)
Definition ChatClient_Connect (ipAddress : string) (port : Z) c s : option (ChatClient * (M * OS) * bool) :=
  '(c, s) ← (if _isConnected c then ChatClient_Disconnect LocalClose c s else Some (c, s));
  Some (Connect_fresh ipAddress port c s).

(** @src exec/chat/chat-client/Client.cpp 34-38 Client::~Client *)
Definition ChatClient_destroy c s : option (ChatClient * (M * OS)) :=
  if _isConnected c || joinable c || bool_decide (is_Some (_tcpClientSocket c)) || bool_decide (is_Some (_wsaSession c))
  then ChatClient_Disconnect LocalClose c s else Some (c, s).
End Join.

(** @src exec/chat/chat-client/Client.cpp 108-110 Client::NextSequence *)
Definition NextSequence c : ChatClient * Z := (c {{ _nextSequence := u32 (_nextSequence c + 1) }}, _nextSequence c).

(** [None]: undefined behaviour (a timeout out of range).  The inner [option] of
    [SendFrame] is fuel that does not run out ([SendAll_total]). *)
(** @src exec/chat/chat-client/Client.cpp 112-139 Client::Send *)
Definition ChatClient_Send (builder : Packet) (tracking : RequestTracking) c s : ub (M * OS) :=
  match _tcpClientSocket c, _packetStream c with
  | Some t, Some _ =>
      if negb (Tcp_IsConnected t) then Some s
      else
        let buf := fb_finish builder in
        let size := zlen buf in
        sent ← SendFrame t buf s.2;
        '(os, r) ← sent;
        let s := (s.1, os) in
        if HasErr r then Some (measure cm_OnSendFailed s)
        else if hasMetrics then
          let s := cm_OnSendCompleted size s in
          if negb (rt_sequence tracking =? 0) && negb (rt_responseType tracking =? MessageType MT_None)
          then cm_TrackRequest (rt_sequence tracking) (rt_responseType tracking) (_responseTimeout c) s
          else Some s
        else Some s
  | _, _ => Some s
  end.

(** A second call would first stop and join the thread of the first; [main] makes one. *)
(** @src exec/chat/chat-client/Client.cpp 141-143 Client::StartRecvLoop *)
Definition StartRecvLoop c : ChatClient := c {{ _recvThread := RTop; stop_requested := false }}.

(** What the thread does with a frame it received. *)
(** @src exec/chat/chat-client/Client.cpp 167-191 Client::StartRecvLoop *)
Definition recv_packet (recvBuffer : list byte) s (l : L) : ub (M * OS * L) :=
  match recvBuffer with
  | [] => Some (s, l)
  | _ =>
      let s := measure (cm_OnRecvCompleted (zlen recvBuffer)) s in
      if negb (fb_verify recvBuffer) then Some (measure cm_OnPacketValidationFailed s, l)
      else
        match fb_get recvBuffer with
        | None => Some (s, l)
        | Some pkt =>
            let s := measure cm_OnPacketValidationSucceeded s in
            let s := measure (cm_ResolveRequest (sequence pkt) (type pkt)) s in
            l ← cb pkt l; Some (s, l)
        end
  end.

(** One step of the receiving thread. *)
(** @src exec/chat/chat-client/Client.cpp 142-193 Client::StartRecvLoop *)
Definition recv_step c s (l : L) : ub (ChatClient * (M * OS) * L) :=
  match _recvThread c with
  | RTop =>
      Some (c {{ _recvThread := if negb (stop_requested c) && _isConnected c then RRecv else REnded }}, s, l)
  | RRecv =>
      ps ← _packetStream c; t ← _tcpClientSocket c;
      '(recvBuffer, os, res) ← RecvFrame ps t [] s.2;
      let s := (s.1, os) in
      if HasErr res then Some (c {{ _recvThread := RFail (_err res) }}, s, l)
      else
        '(s, l) ← recv_packet recvBuffer s l;
        Some (c {{ _recvThread := RTop }}, s, l)
  | RFail e =>
      let reason := if decide (e = SocketInvalid) then ServerClose else RecvFail in
      Some (c {{ _recvThread := if negb (stop_requested c) && _isConnected c then RClose reason else REnded }}, s, l)
  | RClose reason =>
      let c := c {{ _isConnected := false }} in
      let '(c, s) := close_socket c s in
      Some (c {{ _recvThread := REnded }}, measure (cm_OnDisconnected reason) s, l)
  | RNone | REnded => Some (c, s, l)
  end.

(** ** PacketSender *)

(** @src exec/chat/chat-client/PacketSender.cpp 7-14 sendJoinRoom *)
Definition sendJoinRoom (nickname : string) c s : ub (ChatClient * (M * OS)) :=
  let '(c, sequence) := NextSequence c in
  s ← ChatClient_Send (makeJoinRoomRequest nickname sequence)
        (mkRequestTracking sequence (MessageType SC_JoinedRoom)) c s;
  Some (c, s).

(** @src exec/chat/chat-client/PacketSender.cpp 16-23 sendLeave *)
Definition sendLeave c s : ub (ChatClient * (M * OS)) :=
  let '(c, sequence) := NextSequence c in
  s ← ChatClient_Send (makeLeaveRoomRequest 0 sequence)
        (mkRequestTracking sequence (MessageType SC_LeftRoom)) c s;
  Some (c, s).

(** @src exec/chat/chat-client/PacketSender.cpp 25-32 sendMessage *)
Definition sendMessage (username message : string) c s : ub (ChatClient * (M * OS)) :=
  let '(c, sequence) := NextSequence c in
  s ← ChatClient_Send (makeSendMessageRequest 0 username message sequence)
        (mkRequestTracking sequence (MessageType B_ChatMessage)) c s;
  Some (c, s).
End Client.

(** ** PacketReceiver

    The names of enumerators are generated code.  A field read through a null pointer is
    undefined behaviour: a response of a type the payload does not have, or an error
    without a message. *)

Section Receiver.
Context (EnumNameErrorCode EnumNameMessageType : Z -> string).

(** A line for the log: the level it is logged at and its text. *)
Inductive LineLevel := LInfo | LWarn | LError.
Definition log_line : Type := LineLevel * string.

Definition info (text : string) : ub (option log_line) := Some (Some (LInfo, text)).

(** [if (err = resp->error(); err != nullptr) Warn(... err->message()->c_str()) else Info]. *)
(** @src exec/chat/chat-client/PacketReceiver.cpp 15-24 onPacketReceived *)
Definition response_line (prefix : string) (error : option ErrorTable) : ub (option log_line) :=
  match error with
  | Some err => m ← err_message err; Some (Some (LWarn, prefix +:+ " err=" +:+ c_str m))%string
  | None => info (prefix +:+ " ok")
  end.

(** The line for a packet, if any. *)
(** @src exec/chat/chat-client/PacketReceiver.cpp 14-81 onPacketReceived *)
Definition packet_line (packet : Packet) : ub (option log_line) :=
  let t := type packet in
  if t =? MessageType SC_JoinedRoom then
    resp ← payload_as P_JoinedRoomResponse packet;
    match resp with JoinedRoomResponse error => response_line "[JoinedRoom]" error | _ => None end
  else if t =? MessageType SC_LeftRoom then
    resp ← payload_as P_LeftRoomResponse packet;
    match resp with LeftRoomResponse error => response_line "[LeftRoom]" error | _ => None end
  else if t =? MessageType B_UserJoined then
    bc ← payload_as P_UserJoinedBroadcast packet;
    match bc with
    | UserJoinedBroadcast roomId user =>
        info ("[UserJoined] user=" +:+ c_str (ut_username user) +:+ " roomId=" +:+ pretty roomId)
    | _ => None
    end
  else if t =? MessageType B_UserLeft then
    bc ← payload_as P_UserLeftBroadcast packet;
    match bc with UserLeftBroadcast _ username => info ("[UserLeft] user=" +:+ c_str username) | _ => None end
  else if t =? MessageType B_ChatMessage then
    bc ← payload_as P_ChatMessageBroadcast packet;
    match bc with
    | ChatMessageBroadcast senderId username message _ =>
        info ("[Chat] " +:+ pretty senderId +:+ "[" +:+ c_str username +:+ "]: " +:+ c_str message)
    | _ => None
    end
  else if t =? MessageType SC_Error then
    match payload_as P_ErrorResponse packet with
    | Some (ErrorResponse code message _) =>
        Some (Some (LError, "[ServerError] code=" +:+ EnumNameErrorCode code +:+ ", message=" +:+
                match message with Some m => c_str m | None => "" end))%string
    | _ => Some None
    end
  else if (t =? MessageType MT_None) || (t =? MessageType CS_JoinRoom) || (t =? MessageType CS_LeaveRoom) ||
          (t =? MessageType CS_SendMessage) then
    Some (Some (LError, "[Invalid] type=" +:+ EnumNameMessageType t))%string
  else Some (Some (LWarn, "[Unknown] type=" +:+ EnumNameMessageType t))%string.

Definition log_at {T} `{ILogger T} (line : log_line) (log : T) : T :=
  match line with
  | (LInfo, text) => Logger_Info text log
  | (LWarn, text) => Logger_Warn text log
  | (LError, text) => Logger_Error text log
  end.

Definition log_lines {T} `{ILogger T} (lines : list log_line) (log : T) : T := foldl (fun log line => log_at line log) log lines.

(** @src exec/chat/chat-client/PacketReceiver.cpp 8-82 onPacketReceived *)
Definition onPacketReceived {T} `{ILogger T} (packet : option Packet) (log : T) : ub T :=
  match packet with
  | None => Some (Logger_Warn "[Invalid] packet is null" log)
  | Some packet => line ← packet_line packet; Some (log_lines (option_list line) log)
  end.
End Receiver.

(** ** ChatCli *)

(** @src exec/chat/chat-client/ChatCli.h 49-54 ChatCli *)
Record ChatCli := mkChatCli { _console : ConsoleState; _nickname : string; _joined : bool }.

(** @src exec/chat/chat-client/ChatCli.cpp 99-108 ChatCli::ChatCli *)
Definition ChatCli_make (console : ConsoleState) : ChatCli := mkChatCli console "" false.

(** @src exec/chat/chat-client/ChatCli.h 40-40 ChatCli::Action *)
Inductive Action := Continue | Quit.

(** @src exec/chat/chat-client/ChatCli.cpp 19-19 Command *)
Inductive Command := CmdQuit | CmdHelp | CmdJoin | CmdLeave | CmdUnknown.

(** @src exec/chat/chat-client/ChatCli.cpp 21-34 parseCommand *)
Definition parseCommand (cmd : string) : Command :=
  if String.eqb cmd "/quit" then CmdQuit
  else if String.eqb cmd "/help" then CmdHelp
  else if String.eqb cmd "/join" then CmdJoin
  else if String.eqb cmd "/leave" then CmdLeave
  else CmdUnknown.

(** @src exec/chat/chat-client/ChatCli.cpp 211-217 ChatCli::BuildPrompt *)
Definition BuildPrompt (cli : ChatCli) : string :=
  if _joined cli then ("[" +:+ _nickname cli +:+ "] > ")%string else "[not joined] > "%string.

(** [_logger->...]: the logger writes to the console. *)
Definition logger (f : ConsoleState -> ConsoleState) (cli : ChatCli) : ChatCli := cli {{ _console ::= f }}.

Section Prompt.
Context `{ConsoleApi}.

(** @src exec/chat/chat-client/ChatCli.cpp 207-209 ChatCli::PrintPrompt *)
Definition PrintPrompt (cli : ChatCli) : ChatCli := cli {{ _console ::= ShowPrompt (BuildPrompt cli) }}.

(** @src exec/chat/chat-client/ChatCli.cpp 198-205 ChatCli::PrintHelp *)
Definition PrintHelp (cli : ChatCli) : ChatCli :=
  let cli := logger (Logger_Info "Commands:") cli in
  let cli := logger (Logger_Info "  /join   - Join the server") cli in
  let cli := logger (Logger_Info "  /leave  - Leave the server") cli in
  let cli := logger (Logger_Info "  /help   - Show this help") cli in
  let cli := logger (Logger_Info "  /quit   - Disconnect and exit") cli in
  logger (Logger_Info "  <text>  - Send chat message") cli.

(** [PromptNickname] up to the read. *)
(** @src exec/chat/chat-client/ChatCli.cpp 111-111 ChatCli::PromptNickname *)
Definition ShowNicknamePrompt (cli : ChatCli) : ChatCli := cli {{ _console ::= ShowPrompt "Enter nickname: " }}.

(** [PromptNickname] from the read on; [None] is the end of the input, which leaves the
    nickname empty. *)
(** @src exec/chat/chat-client/ChatCli.cpp 112-119 ChatCli::PromptNickname *)
Definition ReadNickname (input : option string) (cli : ChatCli) : ChatCli :=
  let cli := cli {{ _nickname := default "" input }} in
  let cli := cli {{ _console ::= HidePrompt }} in
  let cli := if bool_decide (_nickname cli = "") then cli {{ _nickname := "guest" }} else cli in
  logger (Logger_Info_fmt "Nickname set to '{}'" [_nickname cli]) cli.

(** @src exec/chat/chat-client/ChatCli.cpp 110-120 ChatCli::PromptNickname *)
Definition PromptNickname (input : option string) (cli : ChatCli) : ChatCli := ReadNickname input (ShowNicknamePrompt cli).
End Prompt.

Section Cli.
Context {M OS : Type} `{WinSock OS} `{IClientMetrics M OS} `{FlatBuffers} `{ConsoleApi}.
Context (hasMetrics : bool).
Implicit Types (cli : ChatCli) (c : ChatClient) (s : M * OS).

(** @src exec/chat/chat-client/ChatCli.cpp 149-186 ChatCli::HandleCommand *)
Definition HandleCommand (line : string) cli c s : ub (ChatCli * ChatClient * (M * OS) * Action) :=
  match parseCommand line with
  | CmdQuit => Some (cli, c, s, Quit)
  | CmdHelp => Some (PrintHelp cli, c, s, Continue)
  | CmdJoin =>
      if _joined cli then Some (logger (Logger_Warn "Already joined.") cli, c, s, Continue)
      else '(c, s) ← sendJoinRoom hasMetrics (_nickname cli) c s;
           let cli := cli {{ _joined := true }} in
           Some (logger (Logger_Info_fmt "'{}' joined the server" [_nickname cli]) cli, c, s, Continue)
  | CmdLeave =>
      if negb (_joined cli) then Some (logger (Logger_Warn "Not joined.") cli, c, s, Continue)
      else '(c, s) ← sendLeave hasMetrics c s;
           let cli := cli {{ _joined := false }} in
           Some (logger (Logger_Info_fmt "'{}' left the server" [_nickname cli]) cli, c, s, Continue)
  | CmdUnknown => Some (logger (Logger_Warn "Unknown command. Type /help for usage.") cli, c, s, Continue)
  end.

(** @src exec/chat/chat-client/ChatCli.cpp 188-196 ChatCli::HandleChat *)
Definition HandleChat (line : string) cli c s : ub (ChatCli * ChatClient * (M * OS) * Action) :=
  if negb (_joined cli) then Some (logger (Logger_Warn "Not joined. Use /join first.") cli, c, s, Continue)
  else '(c, s) ← sendMessage hasMetrics (_nickname cli) line c s; Some (cli, c, s, Continue).

(** What a line does once it is read. *)
(** @src exec/chat/chat-client/ChatCli.cpp 136-145 ChatCli::Run *)
Definition handle_line (line : string) cli c s : ub (ChatCli * ChatClient * (M * OS) * Action) :=
  match line with
  | EmptyString => Some (cli, c, s, Continue)
  | String first _ => if Ascii.eqb first "/"%char then HandleCommand line cli c s else HandleChat line cli c s
  end.

(** The lines typed, up to the end of the input. *)
(** @src exec/chat/chat-client/ChatCli.cpp 125-146 ChatCli::Run *)
Fixpoint ChatCli_loop (input : list string) cli c s : ub (ChatCli * ChatClient * (M * OS)) :=
  let cli := PrintPrompt cli in
  match input with
  | [] => Some (cli {{ _console ::= HidePrompt }}, c, s)
  | line :: input =>
      let cli := cli {{ _console ::= HidePrompt }} in
      '(cli, c, s, action) ← handle_line line cli c s;
      match action with
      | Quit => Some (cli, c, s)
      | Continue => ChatCli_loop input cli c s
      end
  end.

(** @src exec/chat/chat-client/ChatCli.cpp 122-147 ChatCli::Run *)
Definition ChatCli_Run (input : list string) cli c s : ub (ChatCli * ChatClient * (M * OS)) :=
  let cli := PrintHelp cli in
  ChatCli_loop input cli c s.
End Cli.

(** ** What is typed is what is sent *)

(** The packets that lines typed at the prompt stand for: [joined] and [seq] are the
    state of the command line and the next sequence number. *)
Fixpoint typed (nickname : string) (joined : bool) (seq : Z) (input : list string) : list Packet :=
  match input with
  | [] => []
  | line :: input =>
      match line with
      | EmptyString => typed nickname joined seq input
      | String first _ =>
          if Ascii.eqb first "/"%char then
            match parseCommand line with
            | CmdQuit => []
            | CmdJoin =>
                if joined then typed nickname joined seq input
                else makeJoinRoomRequest nickname seq :: typed nickname true (u32 (seq + 1)) input
            | CmdLeave =>
                if joined then makeLeaveRoomRequest 0 seq :: typed nickname false (u32 (seq + 1)) input
                else typed nickname joined seq input
            | CmdHelp | CmdUnknown => typed nickname joined seq input
            end
          else if joined
          then makeSendMessageRequest 0 nickname line seq :: typed nickname joined (u32 (seq + 1)) input
          else typed nickname joined seq input
      end
  end.

(** What a client's metrics promise while it sends and receives: they do not touch the
    stream, and a request can be tracked. *)
Class QuietMetrics (M OS : Type) `{TcpEnd OS} `{IClientMetrics M OS} := {
  quiet_send : forall k (s : M * OS), outgoing (cm_OnSendCompleted k s).2 = outgoing s.2;
  quiet_track : forall seq ty timeout (s : M * OS), timeout * 1000000 < 2 ^ 63 ->
    exists s', cm_TrackRequest seq ty timeout s = Some s' /\ outgoing s'.2 = outgoing s.2;
  quiet_recv : forall k (s : M * OS), incoming (cm_OnRecvCompleted k s).2 = incoming s.2;
  quiet_valid : forall (s : M * OS), incoming (cm_OnPacketValidationSucceeded s).2 = incoming s.2;
  quiet_resolve : forall seq ty (s : M * OS), incoming (cm_ResolveRequest seq ty s).2 = incoming s.2
}.

#[export] Instance Noop_quiet {OS} `{TcpEnd OS} : QuietMetrics NoopClientMetrics OS.
Proof. split; try done. intros. by eexists. Qed.

#[export] Instance Atomic_quiet {OS} `{TcpEnd OS} `{UMapOrder} : QuietMetrics AtomicClientMetrics OS.
Proof.
  assert (forall os, incoming (NowSteadyNanoseconds os).1 = incoming os /\ outgoing (NowSteadyNanoseconds os).1 = outgoing os)
    as Hclock.
  { intros os. unfold NowSteadyNanoseconds. pose proof (tcp_clock os). by destruct (os_call SysSteadyClockNow os). }
  split; cbn [cm_OnSendCompleted cm_TrackRequest cm_OnRecvCompleted cm_OnPacketValidationSucceeded cm_ResolveRequest
    AtomicClientMetrics_methods].
  - by intros k [m os].
  - intros seq ty timeout [m os] Ht. unfold Cm_TrackRequest. case_bool; [by eexists|].
    destruct (Hclock os) as [_ Hc]. destruct (NowSteadyNanoseconds os) as [os' now].
    unfold timeout_ns. destruct (0 <? timeout); [rewrite (proj2 (Z.ltb_lt _ _)) by lia|]; by eexists.
  - intros k [m os]. unfold Cm_OnRecvCompleted. destruct (Hclock os) as [Hc _]. by destruct (NowSteadyNanoseconds os).
  - by intros [m os].
  - intros seq ty [m os]. unfold Cm_ResolveRequest. case_bool; [done|].
    destruct (Hclock os) as [Hc _]. destruct (NowSteadyNanoseconds os) as [os' now]. by repeat case_match.
Qed.

Section Sending.
Context {M OS : Type} `{QuietMetrics M OS} `{FlatBuffers} `{ConsoleApi}.
Context (hasMetrics : bool).
Implicit Types (cli : ChatCli) (c : ChatClient) (s : M * OS).

(** A client with an open socket, its stream, and a timeout that can be counted. *)
Definition connected_client c : Prop :=
  (exists t, _tcpClientSocket c = Some t /\ Tcp_IsConnected t = true) /\
  is_Some (_packetStream c) /\ _responseTimeout c * 1000000 < 2 ^ 63.

Lemma ChatClient_Send_stream p tracking c s :
  connected_client c -> zlen (fb_finish p) < 2 ^ 32 ->
  exists s', ChatClient_Send hasMetrics p tracking c s = Some s' /\
    outgoing s'.2 = outgoing s.2 ++ frame_of (fb_finish p).
Proof.
  intros ((t & Ht & Hc) & [ps Hps] & Hto) Hp. unfold ChatClient_Send. rewrite Ht, Hps, Hc. cbn [negb].
  rewrite SendFrame_frame by done. cbn [mbind option_bind].
  destruct (SendAll_stream t (frame_of (fb_finish p)) s.2 Hc) as (os' & -> & Ho & _).
  cbn [mbind option_bind HasErr OkVoid Ok _hasError].
  destruct hasMetrics; [|by eexists]. set (s1 := cm_OnSendCompleted _ _).
  assert (outgoing s1.2 = outgoing s.2 ++ frame_of (fb_finish p)) as Hs1 by (unfold s1; by rewrite quiet_send).
  case_bool; [|by eexists].
  destruct (quiet_track (rt_sequence tracking) (rt_responseType tracking) _ s1 Hto) as (s2 & -> & Hs2).
  exists s2. split; [done|]. by rewrite Hs2.
Qed.

(** One request takes one sequence number and goes out as one frame. *)
Lemma request_stream (make : Z -> Packet) ty c s :
  connected_client c -> zlen (fb_finish (make (_nextSequence c))) < 2 ^ 32 ->
  exists c' s',
    (let '(c, sequence) := NextSequence c in
     s ← ChatClient_Send hasMetrics (make sequence) (mkRequestTracking sequence ty) c s; Some (c, s)) = Some (c', s') /\
    connected_client c' /\ _nextSequence c' = u32 (_nextSequence c + 1) /\
    outgoing s'.2 = outgoing s.2 ++ frame_of (fb_finish (make (_nextSequence c))).
Proof.
  intros Hc Hp. unfold NextSequence. cbn beta iota.
  set (c' := c {{ _nextSequence := _ }}).
  assert (connected_client c' /\ _nextSequence c' = u32 (_nextSequence c + 1)) as [Hc' Hn] by (by destruct c).
  destruct (ChatClient_Send_stream (make (_nextSequence c)) (mkRequestTracking (_nextSequence c) ty) c' s Hc' Hp)
    as (s' & -> & Ho). exists c', s'. done.
Qed.

Lemma frames_cons p ps : frames (p :: ps) = frame_of p ++ frames ps.
Proof. done. Qed.

Lemma logger_fields f cli : _nickname (logger f cli) = _nickname cli /\ _joined (logger f cli) = _joined cli.
Proof. by destruct cli. Qed.

Lemma PrintHelp_fields cli : _nickname (PrintHelp cli) = _nickname cli /\ _joined (PrintHelp cli) = _joined cli.
Proof. unfold PrintHelp. split; by repeat (etrans; [apply logger_fields|]). Qed.

(** A joined flag that changes, and the line logged about it. *)
Lemma joined_fields f b cli :
  _nickname (logger f (cli {{ _joined := b }})) = _nickname cli /\ _joined (logger f (cli {{ _joined := b }})) = b.
Proof. by destruct cli. Qed.

Lemma ChatCli_loop_stream input : forall nick joined seq cli c s,
  _nickname cli = nick -> _joined cli = joined -> _nextSequence c = seq -> connected_client c ->
  Forall (fun p => zlen (fb_finish p) < 2 ^ 32) (typed nick joined seq input) ->
  exists cli' c' s', ChatCli_loop hasMetrics input cli c s = Some (cli', c', s') /\
    outgoing s'.2 = outgoing s.2 ++ frames (fb_finish <$> typed nick joined seq input).
Proof.
  induction input as [|line input IH]; intros nick joined seq cli c s Hn Hj Hq Hc Hsz; cbn [ChatCli_loop typed] in *.
  { eexists _, _, s. split; [done|]. unfold frames. cbn. by rewrite app_nil_r. }
  set (cli1 := _ {{ _console ::= HidePrompt }}).
  assert (_nickname cli1 = nick /\ _joined cli1 = joined) as [Hn1 Hj1] by (by destruct cli).
  clearbody cli1. destruct line as [|first line]; cbn [handle_line mbind option_bind]; [by apply IH|].
  assert (forall cli' c' s' p ps, _nickname cli' = nick -> ps = typed nick (_joined cli') (u32 (seq + 1)) input ->
    Forall (fun p => zlen (fb_finish p) < 2 ^ 32) (p :: ps) -> _nextSequence c' = u32 (seq + 1) -> connected_client c' ->
    outgoing s'.2 = outgoing s.2 ++ frame_of (fb_finish p) ->
    exists cli2 c2 s2, ChatCli_loop hasMetrics input cli' c' s' = Some (cli2, c2, s2) /\
      outgoing s2.2 = outgoing s.2 ++ frames (fb_finish <$> p :: ps)) as Hsent.
  { intros cli' c' s' p ps Hn' -> Hsz' Hq' Hc' Ho. apply Forall_cons in Hsz' as [_ Hsz'].
    destruct (IH nick (_joined cli') _ cli' c' s' Hn' eq_refl Hq' Hc' Hsz') as (cli2 & c2 & s2 & Hrun & Ho2).
    exists cli2, c2, s2. split; [done|]. rewrite Ho2, Ho, fmap_cons, frames_cons. by rewrite app_assoc. }
  destruct (Ascii.eqb first "/"%char).
  - unfold HandleCommand. destruct (parseCommand (String first line)); cbn [mbind option_bind].
    + eexists _, _, s. split; [done|]. unfold frames. cbn. by rewrite app_nil_r.
    + destruct (PrintHelp_fields cli1). apply IH; try done; congruence.
    + rewrite Hj1. destruct joined; cbn [mbind option_bind].
      * destruct (logger_fields (Logger_Warn "Already joined.") cli1). apply IH; try done; congruence.
      * pose proof Hsz as Hsz'. apply Forall_cons in Hsz' as [Hp _]. unfold sendJoinRoom. rewrite Hn1. rewrite <-Hq in Hp.
        destruct (request_stream (makeJoinRoomRequest nick) (MessageType SC_JoinedRoom) c s Hc Hp)
          as (c' & s' & -> & Hc' & Hq' & Ho). rewrite Hq in *. cbn [mbind option_bind].
        match goal with |- context [logger ?f (_ {{ _joined := true }})] => destruct (joined_fields f true cli1) as [E1 E2] end.
        apply Hsent; [congruence|by rewrite E2|done..].
    + rewrite Hj1. destruct joined; cbn [negb mbind option_bind].
      * pose proof Hsz as Hsz'. apply Forall_cons in Hsz' as [Hp _]. unfold sendLeave. rewrite <-Hq in Hp.
        destruct (request_stream (makeLeaveRoomRequest 0) (MessageType SC_LeftRoom) c s Hc Hp)
          as (c' & s' & -> & Hc' & Hq' & Ho). rewrite Hq in *. cbn [mbind option_bind].
        match goal with |- context [logger ?f (_ {{ _joined := false }})] => destruct (joined_fields f false cli1) as [E1 E2] end.
        apply Hsent; [congruence|by rewrite E2|done..].
      * destruct (logger_fields (Logger_Warn "Not joined.") cli1). apply IH; try done; congruence.
    + match goal with |- context [logger ?f cli1] => destruct (logger_fields f cli1) end. apply IH; try done; congruence.
  - unfold HandleChat. rewrite Hj1. destruct joined; cbn [negb mbind option_bind].
    + pose proof Hsz as Hsz'. apply Forall_cons in Hsz' as [Hp _]. unfold sendMessage. rewrite Hn1. rewrite <-Hq in Hp.
      destruct (request_stream (makeSendMessageRequest 0 nick (String first line)) (MessageType B_ChatMessage) c s Hc Hp)
        as (c' & s' & -> & Hc' & Hq' & Ho). rewrite Hq in *. cbn [mbind option_bind].
      apply Hsent; [done|by rewrite Hj1|done..].
    + match goal with |- context [logger ?f cli1] => destruct (logger_fields f cli1) end. apply IH; try done; congruence.
Qed.

Lemma ChatCli_Run_stream input cli c s :
  connected_client c ->
  Forall (fun p => zlen (fb_finish p) < 2 ^ 32) (typed (_nickname cli) (_joined cli) (_nextSequence c) input) ->
  exists cli' c' s', ChatCli_Run hasMetrics input cli c s = Some (cli', c', s') /\
    outgoing s'.2 = outgoing s.2 ++
      frames (fb_finish <$> typed (_nickname cli) (_joined cli) (_nextSequence c) input).
Proof. intros Hc Hsz. destruct (PrintHelp_fields cli). by apply ChatCli_loop_stream. Qed.
End Sending.

(** ** What the server sends is what is shown *)

(** The packets the server makes. *)
Inductive server_packet : Packet -> Prop :=
  | sp_joined sequence : server_packet (makeJoinedRoomResponse sequence)
  | sp_left sequence : server_packet (makeLeftRoomResponse sequence)
  | sp_user_joined roomId userId userName : server_packet (makeUserJoinedBroadcast roomId userId userName)
  | sp_user_left userId userName : server_packet (makeUserLeftBroadcast userId userName)
  | sp_chat senderId username message timestamp sequence :
      server_packet (makeChatMessageBroadcast senderId username message timestamp sequence).

Section Receiving.
Context (EnumNameErrorCode EnumNameMessageType : Z -> string).

Abbreviation line_of := (packet_line EnumNameErrorCode EnumNameMessageType).

Lemma server_packet_line p : server_packet p -> exists line, line_of p = Some (Some line).
Proof. destruct 1; by eexists. Qed.

(** A packet of a response type whose payload is of another type passes the verifier; its
    payload reads as a null pointer, which is dereferenced. *)
Lemma mismatched_response_undefined code message details sequence :
  line_of (mkPacket (MessageType SC_JoinedRoom) (PayloadTag P_ErrorResponse)
             (Some (ErrorResponse code message details)) sequence) = None.
Proof. done. Qed.

Context {M OS T : Type} `{QuietMetrics M OS} `{FlatBuffers} `{ILogger T}.
Context (hasMetrics : bool).
Implicit Types (c : ChatClient) (s : M * OS) (l : T).

(** The callback [main] installs. *)
(** @src exec/chat/chat-client/main.cpp 70-72 main *)
Definition show_packet (packet : Packet) (l : T) : ub T :=
  onPacketReceived EnumNameErrorCode EnumNameMessageType (Some packet) l.

Abbreviation thread_step := (recv_step hasMetrics show_packet).

(** [k] turns of the receiving thread: the test of its loop, then a frame. *)
Fixpoint recv_turns (k : nat) c s l : ub (ChatClient * (M * OS) * T) :=
  match k with
  | O => Some (c, s, l)
  | S k => '(c, s, l) ← thread_step c s l; '(c, s, l) ← thread_step c s l; recv_turns k c s l
  end.

Lemma recv_turns_app j k : forall c s l,
  recv_turns (j + k) c s l = ('(c, s, l) ← recv_turns j c s l; recv_turns k c s l).
Proof.
  induction j as [|j IH]; intros c s l; [done|]. cbn [recv_turns Nat.add].
  destruct (thread_step c s l) as [[[c1 s1] l1]|]; [|done]. cbn [mbind option_bind].
  destruct (thread_step c1 s1 l1) as [[[c2 s2] l2]|]; [|done]. cbn [mbind option_bind]. apply IH.
Qed.

Definition receiving c : Prop :=
  _recvThread c = RTop /\ stop_requested c = false /\ _isConnected c = true /\
  (exists t, _tcpClientSocket c = Some t /\ Tcp_IsConnected t = true) /\
  _packetStream c = Some (mkPacketStream maxFrameSize).

(** A packet that fits a frame and survives the codec. *)
Definition receivable (p : Packet) : Prop := codec_ok p /\ 0 < zlen (fb_finish p) <= maxFrameSize.

Lemma recv_one p rest line c s l :
  receiving c -> receivable p -> line_of p = Some (Some line) -> incoming s.2 = frame_of (fb_finish p) ++ rest ->
  exists s', ('(c, s, l) ← thread_step c s l; thread_step c s l) = Some (c, s', log_at line l) /\ incoming s'.2 = rest.
Proof.
  intros (Htop & Hstop & Hcon & (t & Ht & Hct) & Hps) ([Hv Hg] & Hsz) Hline Hin.
  set (c1 := c {{ _recvThread := RRecv }}).
  assert (thread_step c s l = Some (c1, s, l)) as -> by (unfold recv_step; by rewrite Htop, Hstop, Hcon).
  cbn [mbind option_bind].
  assert (_recvThread c1 = RRecv /\ _packetStream c1 = _packetStream c /\ _tcpClientSocket c1 = _tcpClientSocket c /\
    c1 {{ _recvThread := RTop }} = c) as (Ec1 & Ec2 & Ec3 & Ec4) by (destruct c; cbn in *; by subst).
  unfold recv_step. rewrite Ec1, Ec2, Ec3, Ec4, Ht, Hps. cbn [mbind option_bind].
  destruct (RecvFrame_stream (mkPacketStream maxFrameSize) t [] s.2 (fb_finish p) rest Hct) as (os' & -> & Hi & _);
    [by cbn|cbn; lia|done|].
  cbn [mbind option_bind HasErr Ok _hasError]. unfold recv_packet.
  destruct (fb_finish p) as [|b bs] eqn:Hf; [unfold zlen in Hsz; cbn in Hsz; lia|]. rewrite Hv, Hg. cbn [negb].
  unfold show_packet, onPacketReceived. rewrite Hline. cbn [mbind option_bind option_list].
  eexists. split; [done|]. unfold measure.
  destruct hasMetrics; [|done]. by rewrite quiet_resolve, quiet_valid, quiet_recv.
Qed.

(** Each packet of the server, in order, with the line it is shown as. *)
Lemma recv_turns_lines ps rest : forall c s l,
  receiving c -> Forall receivable ps -> Forall server_packet ps ->
  incoming s.2 = frames (fb_finish <$> ps) ++ rest ->
  exists s' lines, recv_turns (length ps) c s l = Some (c, s', log_lines lines l) /\ incoming s'.2 = rest /\
    Forall2 (fun p line => line_of p = Some (Some line)) ps lines.
Proof.
  induction ps as [|p ps IH]; intros c s l Hc Hr Hs Hin.
  - exists s, []. split_and!; [done|done|constructor].
  - apply Forall_cons in Hr as [Hrp Hr]. apply Forall_cons in Hs as [Hsp Hs].
    rewrite fmap_cons, frames_cons, <-app_assoc in Hin.
    destruct (server_packet_line p Hsp) as [line Hline].
    destruct (recv_one p _ line c s l Hc Hrp Hline Hin) as (s1 & Hrun & Hi).
    destruct (IH c s1 (log_at line l) Hc Hr Hs Hi) as (s2 & lines & Hrun2 & Hi2 & Hl).
    exists s2, (line :: lines). split_and!; [|done|by constructor].
    cbn [recv_turns length]. destruct (thread_step c s l) as [[[c1 s1'] l1]|]; [|done].
    cbn [mbind option_bind] in *. rewrite Hrun. cbn [mbind option_bind]. by rewrite Hrun2.
Qed.

(** The server closes the connection: the loop ends with one report. *)
Lemma recv_closed c s l :
  receiving c -> zlen (incoming s.2) < kHeaderSize ->
  exists c' s1, recv_turns 2 c s l = Some (c', measure hasMetrics (cm_OnDisconnected ServerClose) s1, l) /\
    _recvThread c' = REnded /\ _isConnected c' = false.
Proof.
  intros (Htop & Hstop & Hcon & (t & Ht & Hct) & Hps) Hin.
  set (c1 := c {{ _recvThread := RRecv }}). set (c2 := c1 {{ _recvThread := RFail SocketInvalid }}).
  set (c3 := c2 {{ _recvThread := RClose ServerClose }}).
  assert (thread_step c s l = Some (c1, s, l)) as Hs1 by (unfold recv_step; by rewrite Htop, Hstop, Hcon).
  destruct (RecvFrame_closed (mkPacketStream maxFrameSize) t [] s.2 Hct) as (os' & Hrf & _); [by cbn|done|].
  assert (thread_step c1 s l = Some (c2, (s.1, os'), l)) as Hs2.
  { unfold recv_step. replace (_recvThread c1) with RRecv by (by destruct c).
    replace (_packetStream c1) with (_packetStream c) by (by destruct c).
    replace (_tcpClientSocket c1) with (_tcpClientSocket c) by (by destruct c).
    rewrite Hps, Ht. cbn [mbind option_bind]. by rewrite Hrf. }
  assert (thread_step c2 (s.1, os') l = Some (c3, (s.1, os'), l)) as Hs3.
  { unfold recv_step. replace (_recvThread c2) with (RFail SocketInvalid) by (by destruct c).
    replace (stop_requested c2) with (stop_requested c) by (by destruct c).
    replace (_isConnected c2) with (_isConnected c) by (by destruct c). by rewrite Hstop, Hcon. }
  cbn [recv_turns]. rewrite Hs1. cbn [mbind option_bind]. rewrite Hs2. cbn [mbind option_bind]. rewrite Hs3.
  cbn [mbind option_bind]. unfold recv_step. replace (_recvThread c3) with (RClose ServerClose) by (by destruct c).
  cbn zeta. set (c4 := c3 {{ _isConnected := false }}). assert (_isConnected c4 = false) as Hc4 by (by destruct c).
  unfold close_socket. destruct (_tcpClientSocket c4) as [t4|]; [destruct (Tcp_Close t4 _) as [[t5 os5] r5]|];
    cbn [mbind option_bind]; eexists _, _; (split; [done|]); by destruct c.
Qed.

(** C32: What the server sends is shown.  When the stream of a connected client carries
    packets the server makes and then the connection closes, the receiving thread hands
    each of them, once and in order, to the log as the line it stands for, and then ends:
    it marks the client disconnected and reports the disconnection as one by the server. *)
Theorem replies_shown ps c s l :
  receiving c -> Forall receivable ps -> Forall server_packet ps -> incoming s.2 = frames (fb_finish <$> ps) ->
  exists c' s1 lines,
    recv_turns (length ps + 2) c s l = Some (c', measure hasMetrics (cm_OnDisconnected ServerClose) s1, log_lines lines l) /\
    Forall2 (fun p line => line_of p = Some (Some line)) ps lines /\
    _recvThread c' = REnded /\ _isConnected c' = false.
Proof.
  intros Hc Hr Hs Hin.
  destruct (recv_turns_lines ps [] c s l Hc Hr Hs) as (s1 & lines & Hrun & Hi & Hl); [by rewrite app_nil_r|].
  destruct (recv_closed c s1 (log_lines lines l) Hc) as (c' & s2 & Hrun2 & He & Hn); [by rewrite Hi|].
  exists c', s2, lines. rewrite recv_turns_app, Hrun. cbn [mbind option_bind]. by rewrite Hrun2.
Qed.
End Receiving.

Section ReceivingWitness.
Definition demo_reply : list Packet :=
  [makeJoinedRoomResponse 1; makeUserJoinedBroadcast 1 2 "bob"; makeChatMessageBroadcast 2 "bob" "hi" (mkTimestamp 0 0) 7].
#[local] Instance reply_codec : FlatBuffers := book_codec demo_reply.

#[local] Instance reply_console : ConsoleApi := redirected.

Lemma replies_shown_witness :
  exists c' s' k',
    recv_turns (fun _ => ""%string) (fun _ => ""%string) true 5
      (mkChatClient 1000 None (Some demo_socket) (Some (mkPacketStream maxFrameSize)) RTop false true 1)
      (Noop, mkStreamOS (frames (fb_finish <$> demo_reply)) [] [2; 0; 1]%nat) ConsoleState_init = Some (c', s', k') /\
    put_texts (_written k') =
      ("[INFO] [JoinedRoom] ok" +:+ nl +:+ "[INFO] [UserJoined] user=bob roomId=1" +:+ nl +:+
       "[INFO] [Chat] 2[bob]: hi" +:+ nl)%string /\
    _isConnected c' = false.
Proof.
  destruct (replies_shown (fun _ => ""%string) (fun _ => ""%string) true demo_reply
    (mkChatClient 1000 None (Some demo_socket) (Some (mkPacketStream maxFrameSize)) RTop false true 1)
    (Noop, mkStreamOS (frames (fb_finish <$> demo_reply)) [] [2; 0; 1]%nat) ConsoleState_init)
    as (c' & s1 & lines & Hrun & Hl & _ & Hc).
  - split_and!; [done..|exists demo_socket; done|done].
  - repeat constructor; by vm_compute.
  - repeat constructor.
  - done.
  - eexists c', _, _. split; [exact Hrun|]. split; [|exact Hc].
    inversion Hl as [|? x1 ? l1 E1 Hl1]; subst. inversion Hl1 as [|? x2 ? l2 E2 Hl2]; subst.
    inversion Hl2 as [|? x3 ? l3 E3 Hl3]; subst. inversion Hl3; subst.
    injection E1 as <-. injection E2 as <-. injection E3 as <-. vm_compute. reflexivity.
Defined.
End ReceivingWitness.

(** ** A lost connection can be reported twice *)

Section Race.
Context {OS L : Type} `{WinSock OS} `{UMapOrder} `{FlatBuffers} (cb : Packet -> L -> ub L).

Lemma OnDisconnected_total reason (s : AtomicClientMetrics * OS) :
  c_disconnectTotal (Cm_OnDisconnected reason s).1 = u64 (c_disconnectTotal s.1 + 1).
Proof.
  destruct s as [m os]. unfold Cm_OnDisconnected. destruct (NowSteadyNanoseconds os) as [os' now].
  case_match; by destruct m, reason.
Qed.

Lemma close_socket_state c (s : AtomicClientMetrics * OS) :
  let '(c', s') := close_socket c s in
  s'.1 = s.1 /\ _recvThread c' = _recvThread c /\ stop_requested c' = stop_requested c /\ _isConnected c' = _isConnected c.
Proof.
  unfold close_socket. destruct (_tcpClientSocket c); [|done]. destruct (Tcp_Close _ _) as [[t' os'] r]. by destruct c.
Qed.

Lemma Disconnect_begin_connected c (s : AtomicClientMetrics * OS) :
  _isConnected c = true ->
  exists c' s', Disconnect_begin c s = (c', s', true) /\ s'.1 = s.1 /\ _recvThread c' = _recvThread c /\
    _isConnected c' = false /\ stop_requested c' = joinable c || stop_requested c.
Proof.
  intros Hcon. unfold Disconnect_begin. rewrite Hcon. set (c0 := _ {{ _isConnected := false }}). cbn zeta.
  set (c1 := if joinable c0 then _ else _).
  assert (_recvThread c1 = _recvThread c /\ _isConnected c1 = false /\ stop_requested c1 = joinable c || stop_requested c)
    as (Ec1 & Ec2 & Ec3) by (unfold c1, c0; by destruct c as [? ? ? ? [] ? ? ?]).
  pose proof (close_socket_state c1 s) as Hcl. destruct (close_socket c1 s) as [c' s'].
  destruct Hcl as (? & ? & ? & ?). exists c', s'. split_and!; congruence.
Qed.

Lemma recv_step_close c (s : AtomicClientMetrics * OS) (l : L) reason :
  _recvThread c = RClose reason ->
  exists c' s', recv_step true cb c s l = Some (c', s', l) /\
    c_disconnectTotal s'.1 = u64 (c_disconnectTotal s.1 + 1) /\ _recvThread c' = REnded.
Proof.
  intros Hr. unfold recv_step. rewrite Hr. cbn zeta. pose proof (close_socket_state (c {{ _isConnected := false }}) s) as Hcl.
  destruct (close_socket _ s) as [c' s']. destruct Hcl as (Hs & _). eexists _, _. split; [done|].
  unfold measure. cbn [cm_OnDisconnected AtomicClientMetrics_methods]. rewrite OnDisconnected_total, Hs.
  by destruct c'.
Qed.

Lemma recv_step_unconnected c (s : AtomicClientMetrics * OS) (l : L) e :
  _recvThread c = RFail e -> _isConnected c = false ->
  recv_step true cb c s l = Some (c {{ _recvThread := REnded }}, s, l).
Proof. intros Hr Hc. unfold recv_step. rewrite Hr, Hc. by rewrite andb_false_r. Qed.

Lemma Disconnect_end_reports reason c (s : AtomicClientMetrics * OS) :
  _recvThread c = REnded ->
  exists c' s', Disconnect_end true reason true c s = Some (c', s') /\
    c_disconnectTotal s'.1 = u64 (c_disconnectTotal s.1 + 1).
Proof.
  intros Hr. unfold Disconnect_end, reset_connection. rewrite Hr. eexists _, _. split; [done|].
  unfold measure. cbn [cm_OnDisconnected AtomicClientMetrics_methods]. by rewrite OnDisconnected_total.
Qed.

(** A connection that is lost while the user disconnects can be reported twice.  The
    receiving thread tests whether the client is connected and then acts on it; if
    [Disconnect] runs up to its join in between, both report, and the count of
    disconnections grows by two for one connection; if [Disconnect] comes before the
    test, it grows by one. *)
Lemma disconnect_reported_twice c (s : AtomicClientMetrics * OS) (l : L) e :
  _recvThread c = RFail e -> stop_requested c = false -> _isConnected c = true ->
  (exists c1 s1 c2 s2 c3 s3 c4 s4,
     recv_step true cb c s l = Some (c1, s1, l) /\ Disconnect_begin c1 s1 = (c2, s2, true) /\
     recv_step true cb c2 s2 l = Some (c3, s3, l) /\ Disconnect_end true LocalClose true c3 s3 = Some (c4, s4) /\
     c_disconnectTotal s4.1 = u64 (u64 (c_disconnectTotal s.1 + 1) + 1)) /\
  (exists c1 s1 c2 s2 c3 s3,
     Disconnect_begin c s = (c1, s1, true) /\ recv_step true cb c1 s1 l = Some (c2, s2, l) /\
     Disconnect_end true LocalClose true c2 s2 = Some (c3, s3) /\
     c_disconnectTotal s3.1 = u64 (c_disconnectTotal s.1 + 1)).
Proof.
  intros He Hstop Hcon. split.
  - set (c1 := c {{ _recvThread := RClose (if decide (e = SocketInvalid) then ServerClose else RecvFail) }}).
    assert (recv_step true cb c s l = Some (c1, s, l)) as Hfail by (unfold recv_step; by rewrite He, Hstop, Hcon).
    destruct (Disconnect_begin_connected c1 s) as (c2 & s2 & Hb & Hs2 & Hr2 & _ & _); [by destruct c|].
    destruct (recv_step_close c2 s2 l _ Hr2) as (c3 & s3 & Hc & Hs3 & Hr3).
    destruct (Disconnect_end_reports LocalClose c3 s3 Hr3) as (c4 & s4 & Hd & Hs4).
    exists c1, s, c2, s2, c3, s3, c4, s4. by rewrite Hs4, Hs3, Hs2.
  - destruct (Disconnect_begin_connected c s Hcon) as (c1 & s1 & Hb & Hs1 & Hr1 & Hcon1 & _).
    rewrite He in Hr1. pose proof (recv_step_unconnected c1 s1 l e Hr1 Hcon1) as Hstep.
    destruct (Disconnect_end_reports LocalClose (c1 {{ _recvThread := REnded }}) s1) as (c3 & s3 & Hd & Hs3); [by destruct c1|].
    eexists c1, s1, _, s1, c3, s3. rewrite Hstep. by rewrite Hs3, Hs1.
Qed.
End Race.

(** A codec no packet gets through, for a thread that receives none. *)
#[local] Instance closed_codec : FlatBuffers :=
  {| fb_finish := fun _ => []; fb_verify := fun _ => false; fb_get := fun _ => None |}.

Lemma disconnect_reported_twice_witness :
  (exists s4 : AtomicClientMetrics * CountingOS, c_disconnectTotal s4.1 = 2) /\
  exists s3 : AtomicClientMetrics * CountingOS, c_disconnectTotal s3.1 = 1.
Proof.
  destruct (disconnect_reported_twice (fun _ (_ : unit) => Some ()) 
    (mkChatClient 1000 None (Some (mkTcpClientSocket true 7)) (Some (mkPacketStream 65536)) (RFail SocketInvalid) false true 1)
    (AtomicClientMetrics_init, mkCountingOS 5) () SocketInvalid eq_refl eq_refl eq_refl)
    as [(c1 & s1 & c2 & s2 & c3 & s3 & c4 & s4 & _ & _ & _ & _ & H4) (d1 & r1 & d2 & r2 & d3 & r3 & _ & _ & _ & H3)].
  split; [exists s4; exact H4|]. exists r3. exact H3.
Defined.
