(* ===== verification/ChatClientMain.v ===== *)
(** * ChatClientMain: the chat client's [main]

    [exec/chat/chat-client/main.cpp]: the console with its logger, the metrics, their
    writer, the client and the command line, started in this order and stopped in the
    opposite one.  Three threads run: the one of [main], which becomes the user's, the
    receiving one of [Client], and the writer's.  [main] is a state machine here: a step
    ends where it waits for the user or for a thread, or where another thread may come
    in between two of its calls. *)

From S2P Require Import Prelude StringUtils Config Errors Platform Protocol Logger Console TcpClient MetricsText RunManifest RuntimeSampler.
From S2P Require Import ServerWriter ClientMetrics ClientWriter ChatClient.
From Stdlib Require Import Ascii String.
From stdpp Require Import base numbers list strings option.
From coqutil Require Import Byte Datatypes.RecordSetters.
Import DoubleBraceUpdate.
Open Scope Z_scope.

(** ** The metrics behind one pointer *)

(** A call through [IClientMetrics] runs the method of the object that was made. *)
Definition either {A B OS R} (f : A * OS -> A * OS * R) (g : B * OS -> B * OS * R) (s : (A + B) * OS) : (A + B) * OS * R :=
  match s.1 with
  | inl a => let '(a, os, r) := f (a, s.2) in (inl a, os, r)
  | inr b => let '(b, os, r) := g (b, s.2) in (inr b, os, r)
  end.

Definition either_ {A B OS} (f : A * OS -> A * OS) (g : B * OS -> B * OS) (s : (A + B) * OS) : (A + B) * OS :=
  (either (fun s => (f s, tt)) (fun s => (g s, tt)) s).1.

#[export] Instance either_metrics {A B OS} `{FA : IClientMetrics A OS, FB : IClientMetrics B OS} : IClientMetrics (A + B) OS := {|
  cm_ObserveConnectLatency := fun d ok => either_ (cm_ObserveConnectLatency d ok) (cm_ObserveConnectLatency d ok);
  cm_OnConnected := either_ cm_OnConnected cm_OnConnected;
  cm_OnDisconnected := fun reason => either_ (cm_OnDisconnected reason) (cm_OnDisconnected reason);
  cm_OnSendCompleted := fun k => either_ (cm_OnSendCompleted k) (cm_OnSendCompleted k);
  cm_OnSendFailed := either_ cm_OnSendFailed cm_OnSendFailed;
  cm_OnRecvCompleted := fun k => either_ (cm_OnRecvCompleted k) (cm_OnRecvCompleted k);
  cm_OnPacketValidationSucceeded := either_ cm_OnPacketValidationSucceeded cm_OnPacketValidationSucceeded;
  cm_OnPacketValidationFailed := either_ cm_OnPacketValidationFailed cm_OnPacketValidationFailed;
  cm_TrackRequest := fun seq ty timeout s =>
    match s.1 with
    | inl a => '(a, os) ← cm_TrackRequest seq ty timeout (a, s.2); Some (inl a, os)
    | inr b => '(b, os) ← cm_TrackRequest seq ty timeout (b, s.2); Some (inr b, os)
    end;
  cm_ResolveRequest := fun seq ty => either_ (cm_ResolveRequest seq ty) (cm_ResolveRequest seq ty);
  cm_TakeSnapshot := either cm_TakeSnapshot cm_TakeSnapshot |}.

Definition Metrics : Type := AtomicClientMetrics + NoopClientMetrics.

(** ** [main] *)

(** Where [main] is: before starting the writer, before connecting, before the prompt for
    the nickname and waiting for it, before the help, before a prompt and waiting for a
    line, before disconnecting, waiting for the receiving thread, before stopping the
    writer, waiting for its thread, and returned with a code. *)
Inductive MainPhase :=
  | MStart | MConnect | MNickname | MReadNickname | MHelp | MPrompt | MRead
  | MQuit | MJoinThread (wasConnected : bool)
  | MStopWriter (code : Z) | MWaitWriter (code : Z) | MDone (code : Z).

(** What the threads share, and what the user will type. *)
Record Program (OS : Type) := mkProgram {
  p_cli : ChatCli; p_client : ChatClient; p_writer : ClientMetricsWriter;
  p_shared : Metrics * OS; p_input : list string; p_phase : MainPhase }.
Arguments mkProgram {OS}. Arguments p_cli {OS}. Arguments p_client {OS}. Arguments p_writer {OS}.
Arguments p_shared {OS}. Arguments p_input {OS}. Arguments p_phase {OS}.

Section Main.
Context {OS : Type} `{WinSock OS} `{Process OS} `{Host OS} `{UMapOrder} `{FlatBuffers} `{ConsoleApi}.
Context (EnumNameErrorCode EnumNameMessageType : Z -> string).
Implicit Types (p : Program OS) (os : OS).

Definition ipAddress : string := "127.0.0.1".
Definition port : Z := 8080.

(** @src exec/chat/chat-client/main.cpp 34-43 main *)
Definition metricsManifest (debug : bool) : RunManifest :=
  mkRunManifest [] [] (lit "chat-client") [] [] (lit (if debug then "Debug" else "Release")) [] (lit ipAddress) (lit "artifacts/load-tests")
    None None port 0 0 0 0.

(** The objects, up to the start of the writer; [ChatCli] is made later, of the same console. *)
(** @src exec/chat/chat-client/main.cpp 16-48 main *)
Definition main_setup (env : Environment) (debug : bool) (input : list string) os : Program OS :=
  let console := Logger_Info "Chat Client starting..." ConsoleState_init in
  let metricsConfig := ClientConfig_FromEnvironment env in
  let metrics := if cc_enabled metricsConfig then inl AtomicClientMetrics_init else inr Noop in
  let metricsWriter := ClientMetricsWriter_make env metricsConfig (metricsManifest debug) in
  mkProgram (ChatCli_make console) (ChatClient_make (cc_responseTimeout metricsConfig)) metricsWriter
    (metrics, os) input MStart.

(** A step of [main].  Waiting is a step that changes nothing; a client that is not
    connected and has no thread is destroyed without a trace, as is a stopped writer. *)
(** @src exec/chat/chat-client/main.cpp 49-78 main *)
Definition user_step p : ub (Program OS) :=
  let '(mkProgram cli c w s input phase) := p in
  match phase with
  | MStart =>
      '(w, m, os, started) ← Client_Start w s.1 s.2;
      let cli := if (started : bool) then cli
                 else logger (Logger_Error_fmt "Failed to start client metrics writer: {}" [string_of_list_ascii (cw_lastError w)]) cli in
      Some (mkProgram cli c w (m, os) input MConnect)
  | MConnect =>
      '(c, s, connected) ← ChatClient_Connect true id ipAddress port c s;
      if (connected : bool) then Some (mkProgram cli (StartRecvLoop c) w s input MNickname)
      else
        let cli := logger (Logger_Error "Failed to connect to server.") cli in
        '(c, s) ← ChatClient_destroy true id c s;
        Some (mkProgram cli c w s input (MStopWriter (-1)))
  | MNickname => Some (mkProgram (ShowNicknamePrompt cli) c w s input MReadNickname)
  | MReadNickname => Some (mkProgram (ReadNickname (head input) cli) c w s (tail input) MHelp)
  | MHelp => Some (mkProgram (PrintHelp cli) c w s input MPrompt)
  | MPrompt => Some (mkProgram (PrintPrompt cli) c w s input MRead)
  | MRead =>
      let cli := cli {{ _console ::= HidePrompt }} in
      match input with
      | [] => Some (mkProgram cli c w s [] MQuit)
      | line :: input =>
          '(cli, c, s, action) ← handle_line true line cli c s;
          Some (mkProgram cli c w s input (match action with Quit => MQuit | Continue => MPrompt end))
      end
  | MQuit =>
      let '(c, s, wasConnected) := Disconnect_begin c s in
      Some (mkProgram cli c w s input (MJoinThread wasConnected))
  | MJoinThread wasConnected =>
      match Disconnect_end true LocalClose wasConnected c s with
      | None => Some p
      | Some (c, s) =>
          '(c, s) ← ChatClient_destroy true id c s;
          Some (mkProgram cli c w s input (MStopWriter 0))
      end
  | MStopWriter code =>
      let '(w, waits) := Client_Stop_begin w in
      Some (mkProgram cli c w s input (if waits then MWaitWriter code else MDone code))
  | MWaitWriter code =>
      r ← Client_Stop_end w s.1 s.2;
      match r with
      | None => Some p
      | Some (w, m, os) => Some (mkProgram cli c w (m, os) input (MDone code))
      end
  | MDone _ => Some p
  end.

(** The three threads. *)
Inductive MainEvent := MUser | MRecv | MWriter.

#[export] Instance MainEvent_eq_dec : EqDecision MainEvent.
Proof. solve_decision. Defined.

Definition main_step (e : MainEvent) p : ub (Program OS) :=
  match e with
  | MUser => user_step p
  | MRecv =>
      let '(mkProgram cli c w s input phase) := p in
      '(c, s, console) ← recv_step true (show_packet EnumNameErrorCode EnumNameMessageType) c s (_console cli);
      Some (mkProgram (cli {{ _console := console }}) c w s input phase)
  | MWriter =>
      let '(mkProgram cli c w s input phase) := p in
      '(w, m, os) ← Client_step w s.1 s.2; Some (mkProgram cli c w (m, os) input phase)
  end.

Fixpoint main_run (es : list MainEvent) p : ub (Program OS) :=
  match es with [] => Some p | e :: es => p ← main_step e p; main_run es p end.

Lemma main_run_app es es' p : main_run (es ++ es') p = (p ← main_run es p; main_run es' p).
Proof.
  revert p. induction es as [|e es IH]; intros p; [done|]. cbn [main_run app].
  destruct (main_step e p); cbn [mbind option_bind]; [apply IH|done].
Qed.
End Main.
