(* ===== verification/ClientWorld.v ===== *)
(** * ClientWorld: what the parts of the chat client do to the system

    For the proof about the whole client (ChatClientMainProps.v): the writer moves no
    bytes of the connection and counts nothing; the client and its metrics touch no
    file; and what each method of the metrics counts. *)

From S2P Require Import Prelude StringUtils Config Errors Platform Protocol Logger Console TcpClient MetricsText RunManifest RuntimeSampler.
From S2P Require Import WriterLog ServerWriter ClientMetrics ClientWriter ClientWriterProps ChatClient ChatClientMain.
From Stdlib Require Import Ascii String.
From stdpp Require Import base numbers list strings option.
From coqutil Require Import Byte Datatypes.RecordSetters.
Import DoubleBraceUpdate.
Open Scope Z_scope.

(** ** The system *)

Definition streams {OS} `{TcpEnd OS} (os : OS) : list byte * list byte := (incoming os, outgoing os).

(** A system on which a connection and files are both relied on: only [send] and [recv]
    move bytes. *)
Class ClientHost (OS : Type) `{WinSock OS} `{!TcpEnd OS} `{Process OS} `{Host OS} `{!ReliableHost OS} := {
  ch_call : forall c os, match c with SysSend _ _ | SysRecv _ _ => True | _ => streams (os_call c os).1 = streams os end;
  ch_process_times : forall os, streams (GetProcessTimes os).1 = streams os;
  ch_threads : forall os, streams (CreateToolhelp32Snapshot os).1 = streams os;
  ch_processors : forall os, streams (GetActiveProcessorCount os).1 = streams os;
  ch_system_info : forall os, streams (GetSystemInfo os).1 = streams os;
  ch_directories : forall dir os, streams (create_directories dir os).1 = streams os;
  ch_thread : forall os, streams (start_thread os).1 = streams os;
  ch_write : forall append path text os, streams (stream_write append path text os).1 = streams os
}.

(** ** What is counted *)

(** Packets sent, received, validated and refused, and disconnections. *)
Definition counts (a : AtomicClientMetrics) : Z * Z * Z * Z * Z :=
  (c_sendPacketsTotal a, c_recvPacketsTotal a, c_packetValidationTotal a, c_packetValidationFailureTotal a, c_disconnectTotal a).

Section Seen.
Context {OS : Type} `{ClientHost OS} `{UMapOrder}.
Implicit Types (a : AtomicClientMetrics) (s : Metrics * OS) (os : OS).

(** The counts of the metrics in use, and the streams. *)
Definition see s : option (Z * Z * Z * Z * Z) * (list byte * list byte) :=
  (match s.1 with inl a => Some (counts a) | inr _ => None end, streams s.2).

Lemma steady_streams os : streams (NowSteadyNanoseconds os).1 = streams os.
Proof. unfold NowSteadyNanoseconds. pose proof (ch_call SysSteadyClockNow os). by destruct (os_call _ os). Qed.

Lemma NowInNs64_streams os : streams (NowInNs64 os).1 = streams os.
Proof. unfold NowInNs64. pose proof (ch_call SysSteadyClockNow os). by destruct (os_call _ os). Qed.

Ltac seen := unfold see, measure, counts; cbn; unfold either_, either; cbn; try done.

Lemma see_latency d ok s : see (cm_ObserveConnectLatency d ok s) = see s.
Proof. destruct s as [[a|[]] os]; seen. unfold Cm_ObserveConnectLatency. repeat case_match; by destruct a. Qed.

Lemma see_connected s : see (cm_OnConnected s) = see s.
Proof.
  destruct s as [[a|[]] os]; seen. pose proof (steady_streams os) as Hs.
  destruct (NowSteadyNanoseconds os) as [os' now]. cbn in *. rewrite Hs. by destruct a.
Qed.

Lemma see_disconnected reason s k j v x d io :
  see s = (Some (k, j, v, x, d), io) -> see (cm_OnDisconnected reason s) = (Some (k, j, v, x, u64 (d + 1)), io).
Proof.
  destruct s as [[a|[]] os]; seen. intros [= <- <- <- <- <- <-]. pose proof (steady_streams os) as Hs.
  destruct (NowSteadyNanoseconds os) as [os' now]. cbn in Hs. rewrite <-Hs.
  destruct a, reason; cbn; destruct (_ || _); done.
Qed.

Lemma see_sent n s k j v x d io :
  see s = (Some (k, j, v, x, d), io) -> see (cm_OnSendCompleted n s) = (Some (u64 (k + 1), j, v, x, d), io).
Proof. destruct s as [[a|[]] os]; seen. intros [= <- <- <- <- <- <-]. by destruct a. Qed.

Lemma see_received n s k j v x d io :
  see s = (Some (k, j, v, x, d), io) -> see (cm_OnRecvCompleted n s) = (Some (k, u64 (j + 1), v, x, d), io).
Proof.
  destruct s as [[a|[]] os]; seen. intros [= <- <- <- <- <- <-]. pose proof (steady_streams os) as Hs.
  destruct (NowSteadyNanoseconds os) as [os' now]. cbn in Hs. rewrite <-Hs. by destruct a.
Qed.

Lemma see_valid s k j v x d io :
  see s = (Some (k, j, v, x, d), io) -> see (cm_OnPacketValidationSucceeded s) = (Some (k, j, u64 (v + 1), x, d), io).
Proof. destruct s as [[a|[]] os]; seen. intros [= <- <- <- <- <- <-]. by destruct a. Qed.

Lemma see_track seq ty timeout s :
  timeout * 1000000 < 2 ^ 63 -> exists s', cm_TrackRequest seq ty timeout s = Some s' /\ see s' = see s.
Proof.
  intros Ht. destruct s as [[a|[]] os]; cbn; [|by eexists]. unfold Cm_TrackRequest. case_bool; [by eexists|].
  pose proof (steady_streams os) as Hs. destruct (NowSteadyNanoseconds os) as [os' now]. cbn in Hs.
  unfold timeout_ns. destruct (0 <? timeout); [rewrite (proj2 (Z.ltb_lt _ _)) by lia|]; cbn; (eexists; split; [done|]);
    unfold see; cbn; rewrite Hs; by destruct a.
Qed.

Lemma see_resolve seq ty s : see (cm_ResolveRequest seq ty s) = see s.
Proof.
  destruct s as [[a|[]] os]; seen. unfold Cm_ResolveRequest. case_bool; [done|].
  pose proof (steady_streams os) as Hs. destruct (NowSteadyNanoseconds os) as [os' now]. cbn in Hs.
  destruct (_pendingRequests a !! seq) as [r|]; cbn; [|by rewrite Hs].
  destruct (negb _); cbn; [by rewrite Hs|]. destruct (_ <=? _); cbn; rewrite Hs; by destruct a.
Qed.

Lemma expire_counts now a : counts (ExpireTimedOutRequests now a) = counts a.
Proof.
  unfold ExpireTimedOutRequests. generalize (umap_order (_pendingRequests a)). intros l. revert a.
  induction l as [|[k r] l IH]; intros a; [done|]. cbn [foldl]. rewrite IH. case_match; [by destruct a|done].
Qed.

Lemma see_snapshot s : see (cm_TakeSnapshot s).1 = see s.
Proof.
  destruct s as [[a|[]] os]; seen. unfold Cm_TakeSnapshot.
  pose proof (steady_streams os) as Hs. destruct (NowSteadyNanoseconds os) as [os1 now]. cbn in Hs.
  pose proof (expire_counts now a) as He. pose proof (ch_call SysSystemClockNow os1) as Hc.
  destruct (os_call SysSystemClockNow os1) as [os2 r]. unfold counts in He.
  destruct (ExpireTimedOutRequests now a). cbn in *. by rewrite Hc, Hs, He.
Qed.

(** ** The writer counts nothing and moves no bytes *)

Implicit Types (w : ClientMetricsWriter) (m : Metrics).

Lemma close_deferred_streams h os : streams (close_deferred h os) = streams os.
Proof. unfold close_deferred. case_bool; [apply (ch_call (SysCloseHandle h))|done]. Qed.

Lemma GetProcessorCount_streams os : streams (GetProcessorCount os).1 = streams os.
Proof.
  unfold GetProcessorCount. pose proof (ch_processors os) as Hp.
  destruct (GetActiveProcessorCount os) as [os1 n]. cbn [fst] in Hp. case_bool; [|done].
  pose proof (ch_system_info os1) as Hi. destruct (GetSystemInfo os1) as [os2 k]. cbn [fst] in *. by rewrite Hi.
Qed.

Lemma CountProcessThreads_streams os : streams (CountProcessThreads os).1 = streams os.
Proof.
  unfold CountProcessThreads. pose proof (ch_threads os) as Ht.
  destruct (CreateToolhelp32Snapshot os) as [os1 [h es]]. cbn [fst] in Ht. case_bool; [done|]. cbn [fst].
  by rewrite close_deferred_streams.
Qed.

Lemma SampleRuntime_streams w os : streams (SampleRuntime w os).1.2 = streams os.
Proof.
  unfold SampleRuntime. pose proof (NowInNs64_streams os) as Hn. destruct (NowInNs64 os) as [os1 now]. cbn [fst] in Hn.
  pose proof (ch_process_times os1) as Hp. destruct (GetProcessTimes os1) as [os2 [[k u]|]]; cbn [fst] in Hp; [|by rewrite <-Hn].
  cbv zeta. set (goes := _ && _).
  pose proof (GetProcessorCount_streams os2) as Hc. destruct (GetProcessorCount os2) as [os3 pc]. cbn [fst] in Hc.
  destruct goes.
  - pose proof (CountProcessThreads_streams os3) as Hk. destruct (CountProcessThreads os3) as [os4 tc]. cbn [fst snd] in *. congruence.
  - pose proof (CountProcessThreads_streams os2) as Hk. destruct (CountProcessThreads os2) as [os4 tc]. cbn [fst snd] in *. congruence.
Qed.

Lemma see_os m os os' : streams os' = streams os -> see (m, os') = see (m, os).
Proof. unfold see. cbn. by intros ->. Qed.

Lemma see_capture_record w m os w' m' os' r : capture_record w m os = (w', m', os', r) -> see (m', os') = see (m, os).
Proof.
  unfold capture_record. pose proof (see_snapshot (m, os)) as Hs. destruct (cm_TakeSnapshot (m, os)) as [[m1 os1] snap].
  pose proof (SampleRuntime_streams w os1) as Hr. destruct (SampleRuntime w os1) as [[w1 os2] [cpu t]]. cbn [fst snd] in *.
  intros [= <- <- <- <-]. by rewrite (see_os _ _ _ Hr).
Qed.

Lemma write_streams append path text os : streams (stream_write append path text os).1 = streams os.
Proof. apply ch_write. Qed.

Lemma see_write_record r w m os w' os' b : write_record r w os = Some (w', os', b) -> see (m, os') = see (m, os).
Proof.
  unfold write_record. destruct (Client_BuildSnapshotJson _ _) as [line|]; [|done]. cbn [mbind option_bind].
  pose proof (write_streams true (cw_snapshotPath w) (line ++ [nl]) os) as Hw.
  destruct (stream_write _ _ _ os) as [os1 []]; intros [= <- <- <-]; by apply see_os.
Qed.

Lemma see_capture final w m os w' m' os' b : Client_Capture final w m os = Some (w', m', os', b) -> see (m', os') = see (m, os).
Proof.
  unfold Client_Capture. destruct (capture_record w m os) as [[[w1 m1] os1] r] eqn:Hc. apply see_capture_record in Hc.
  cbv zeta. case_match; [by intros [= <- <- <- <-]|].
  destruct (write_record r _ os1) as [[[w2 os2] written]|] eqn:Hw; [|done]. cbn [mbind option_bind].
  intros [= <- <- <- <-]. rewrite <-Hc. by eapply see_write_record.
Qed.

Lemma see_writer_step w m os w' m' os' : Client_step w m os = Some (w', m', os') -> see (m', os') = see (m, os).
Proof.
  unfold Client_step. destruct (cw_thread w); try (by intros [= <- <- <-]).
  destruct (Client_Capture false w m os) as [[[[w1 m1] os1] b]|] eqn:Hc; [|done]. cbn [mbind option_bind].
  intros [= <- <- <-]. by eapply see_capture.
Qed.

Lemma see_WriteManifest w m os w' os' b : Client_WriteManifest w os = Some (w', os', b) -> see (m, os') = see (m, os).
Proof.
  unfold Client_WriteManifest. destruct (ToJson (cw_manifest w)) as [json|]; [|done]. cbn [mbind option_bind].
  pose proof (write_streams false (cw_manifestPath w) json os) as Hw.
  destruct (stream_write _ _ _ os) as [os1 []]; intros [= <- <- <-]; by apply see_os.
Qed.

Lemma clock_streams os : streams (os_call SysSystemClockNow os).1 = streams os.
Proof. apply (ch_call SysSystemClockNow). Qed.

Lemma ResolveRunId_streams id os os' id' : ResolveRunId id os = Some (os', id') -> streams os' = streams os.
Proof.
  destruct id; [|by intros [= <- <-]]. cbn [ResolveRunId]. unfold default_run_id.
  pose proof (clock_streams os) as Hs. destruct (os_call SysSystemClockNow os) as [os1 now]. cbn [fst] in Hs.
  destruct (FormatCompactTimestamp (ret now)); [|done]. cbn [mbind option_bind]. by intros [= <- <-].
Qed.

Lemma see_open w m os w' m' os' b : Client_open w m os = Some (w', m', os', b) -> see (m', os') = see (m, os).
Proof.
  unfold Client_open. destruct (ResolveRunId _ os) as [[os1 id]|] eqn:Hr; [|done]. cbn [mbind option_bind].
  apply ResolveRunId_streams in Hr. pose proof (clock_streams os1) as Hs.
  destruct (os_call SysSystemClockNow os1) as [os2 now]. cbn [fst] in Hs. cbv zeta. set (w1 := w {{ cw_manifest ::= _ }}).
  unfold Client_InitializeArtifacts. pose proof (ch_directories (OutputDirectory (cw_manifest w1)) os2) as Hd.
  destruct (create_directories _ os2) as [os3 [e|]]; cbn [fst] in Hd; cbn [negb].
  { intros [= <- <- <- <-]. apply see_os. congruence. }
  destruct (Client_WriteManifest _ os3) as [[[w4 os4] written]|] eqn:Hw; [|done]. cbn [mbind option_bind].
  apply (see_WriteManifest _ m) in Hw. assert (see (m, os3) = see (m, os)) as Hm by (apply see_os; congruence).
  destruct written; cbn [negb]; [|by intros [= <- <- <- <-]; congruence]. intros Hc%see_capture. congruence.
Qed.

Lemma see_start w m os w' m' os' b : Client_Start w m os = Some (w', m', os', b) -> see (m', os') = see (m, os).
Proof.
  unfold Client_Start. cbv zeta. case_match; [by intros [= <- <- <- <-]|]. case_match.
  - unfold ResolveOutputDirectory. destruct (ResolveRunId _ os) as [[os1 id]|] eqn:Hr; [|done]. cbn [mbind option_bind].
    destruct (ResolveRunId _ os1) as [[os2 id2]|] eqn:Hr2; [|done]. cbn [mbind option_bind]. intros [= <- <- <- <-].
    apply ResolveRunId_streams in Hr, Hr2. apply see_os. congruence.
  - destruct (Client_open _ m os) as [[[[w1 m1] os1] opened]|] eqn:Ho; [|done]. cbn [mbind option_bind]. apply see_open in Ho.
    destruct opened; cbn [negb]; [|by intros [= <- <- <- <-]].
    pose proof (ch_thread os1) as Ht. destruct (start_thread os1) as [os2 [what|]]; intros [= <- <- <- <-];
      rewrite <-Ho; by apply see_os.
Qed.

Lemma stamp_streams w os : streams (stamp_finished w os).2 = streams os.
Proof.
  unfold stamp_finished. case_match; [done|]. pose proof (clock_streams os) as Hs. by destruct (os_call SysSystemClockNow os).
Qed.

Lemma see_stop w m os w' m' os' : Client_Stop_end w m os = Some (Some (w', m', os')) -> see (m', os') = see (m, os).
Proof.
  unfold Client_Stop_end. cbv zeta. destruct (cw_thread w); try done; (case_match; [|by intros [= <- <- <-]]).
  all: pose proof (stamp_streams (w {{ cw_thread := WNone }}) os) as Hs; destruct (stamp_finished _ os) as [w1 os1]; cbn [snd] in Hs.
  all: destruct (Client_Capture true w1 m os1) as [[[[w2 m2] os2] b]|] eqn:Hc; [|done]; cbn [mbind option_bind].
  all: destruct (Client_WriteManifest w2 os2) as [[[w3 os3] b3]|] eqn:Hw; [|done]; cbn [mbind option_bind].
  all: destruct (Client_BuildSummaryMarkdown _ _ _) as [text|]; [|done]; cbn [mbind option_bind]; intros [= <- <- <-].
  all: rewrite (see_os _ os3) by apply write_streams; apply (see_WriteManifest _ m2) in Hw; apply see_capture in Hc.
  all: rewrite (see_os _ _ _ Hs) in Hc; congruence.
Qed.
End Seen.

(** ** The client touches no file *)

Section ClientFiles.
Context {OS : Type} `{WinSock OS} `{Process OS} `{Host OS} `{!ReliableHost OS} `{UMapOrder} `{FlatBuffers} `{ConsoleApi}.
Implicit Types (s : Metrics * OS) (os : OS) (t : TcpClientSocket).

Definition same_file os os' : Prop := file_of os' = file_of os.

Lemma call_file call os os' r : os_call call os = (os', r) -> same_file os os'.
Proof. intros He. pose proof (rh_os_call call os) as Hf. by rewrite He in Hf. Qed.

Lemma same_file_trans os1 os2 os3 : same_file os1 os2 -> same_file os2 os3 -> same_file os1 os3.
Proof. unfold same_file. congruence. Qed.

Ltac kept := repeat first [done | eapply same_file_trans; [eassumption|]].

(** The next call of the system in the goal. *)
Ltac call :=
  match goal with
  | |- context [os_call ?c ?os] =>
      let E := fresh "E" in destruct (os_call c os) eqn:E; apply call_file in E
  end.

Lemma Tcp_Close_file t os t' os' r : Tcp_Close t os = (t', os', r) -> same_file os os'.
Proof. unfold Tcp_Close. case_bool; [by intros [= <- <- <-]|]. call. call. intros [= <- <- <-]. kept. Qed.

Ltac close :=
  match goal with
  | |- context [Tcp_Close ?t ?os] =>
      let E := fresh "E" in destruct (Tcp_Close t os) as [[? ?] ?] eqn:E; apply Tcp_Close_file in E
  end.

Lemma Tcp_Connect_file ip port t os t' os' r : Tcp_Connect ip port t os = (t', os', r) -> same_file os os'.
Proof.
  unfold Tcp_Connect. case_bool; [by intros [= <- <- <-]|]. close. case_bool; [intros [= <- <- <-]; kept|].
  call. cbv zeta. case_bool; [intros [= <- <- <-]; kept|]. call.
  case_bool; [close; intros [= <- <- <-]; kept|]. call.
  case_bool; [close|]; intros [= <- <- <-]; kept.
Qed.

Lemma Tcp_destroy_file t os : same_file os (Tcp_destroy t os).
Proof. unfold Tcp_destroy. close. done. Qed.

Lemma Wsa_destroy_file w os : same_file os (WsaSession_destroy w os).
Proof. unfold WsaSession_destroy, WsaSession_Cleanup. case_bool; [done|]. by call. Qed.

Lemma Wsa_Create_file os os' r : WsaSession_Create os = (os', r) -> same_file os os'.
Proof.
  unfold WsaSession_Create, WsaSession_Initialize. cbn [wsa_isInitialized]. call. case_bool; intros [= <- <-]; kept.
Qed.

Lemma SendAll_file t data os os' r : SendAll t data os = Some (os', r) -> same_file os os'.
Proof.
  unfold SendAll. case_bool; [by intros [= <- <-]|]. generalize 0, (length data). intros k fuel. revert k os.
  induction fuel as [|fuel IH]; intros k os; cbn [SendAll_loop]; (case_bool; [by intros [= <- <-]|]); [done|]. call.
  case_bool; [intros [= <- <-]; kept|]. intros Hr%IH. kept.
Qed.

Lemma RecvExact_file t buffer os b os' r : RecvExact t buffer os = Some (b, os', r) -> same_file os os'.
Proof.
  unfold RecvExact. generalize 0, (length buffer). intros k fuel. revert k buffer os.
  induction fuel as [|fuel IH]; intros k buffer os; cbn [RecvExact_loop]; (case_bool; [by intros [= <- <- <-]|]); [done|].
  destruct (RecvSome t buffer k os) as [[[b1 os1] r1]|] eqn:Hr; [|done]. cbn [mbind option_bind].
  assert (same_file os os1) as Hf1.
  { revert Hr. unfold RecvSome. case_bool; [by intros [= <- <- <-]|]. case_bool; [by intros [= <- <- <-]|]. call.
    case_bool; [case_bool; intros [= <- <- <-]; kept|]. destruct (memcpy_at _ _ _); [|done]. cbn [mbind option_bind].
    intros [= <- <- <-]. kept. }
  case_bool; [intros [= <- <- <-]; kept|]. case_bool; [intros [= <- <- <-]; kept|]. intros Hi%IH. kept.
Qed.

Lemma RecvFrame_file ps t out os b os' r : RecvFrame ps t out os = Some (b, os', r) -> same_file os os'.
Proof.
  unfold RecvFrame. case_bool; [by intros [= <- <- <-]|]. case_bool; [by intros [= <- <- <-]|].
  destruct (RecvExact t _ os) as [[[b1 os1] r1]|] eqn:Hf1; [|done]. cbn [mbind option_bind]. apply RecvExact_file in Hf1.
  case_bool; [intros [= <- <- <-]; kept|]. cbv zeta. case_bool; [intros [= <- <- <-]; kept|].
  case_bool; [intros [= <- <- <-]; kept|].
  destruct (RecvExact t _ os1) as [[[b2 os2] r2]|] eqn:Hf2; [|done]. cbn [mbind option_bind]. apply RecvExact_file in Hf2.
  case_bool; intros [= <- <- <-]; kept.
Qed.

(** *** Metrics *)

Lemma clock_file os os' now : NowSteadyNanoseconds os = (os', now) -> same_file os os'.
Proof. unfold NowSteadyNanoseconds. call. by intros [= <- <-]. Qed.

Ltac clock :=
  match goal with
  | |- context [NowSteadyNanoseconds ?os] =>
      let E := fresh "E" in destruct (NowSteadyNanoseconds os) eqn:E; apply clock_file in E
  end.

(** Every method, on both kinds of metrics. *)
Ltac method := intros [[a|[]] os]; cbn; unfold either_, either; cbn; try done.

Lemma latency_file d ok s : same_file s.2 (cm_ObserveConnectLatency d ok s).2.
Proof. revert s. method. Qed.

Lemma connected_file s : same_file s.2 (cm_OnConnected s).2.
Proof. revert s. method. by clock. Qed.

Lemma disconnected_file reason s : same_file s.2 (cm_OnDisconnected reason s).2.
Proof. revert s. method. clock. by case_bool. Qed.

Lemma sent_file n s : same_file s.2 (cm_OnSendCompleted n s).2.
Proof. revert s. method. Qed.

Lemma send_failed_file s : same_file s.2 (cm_OnSendFailed s).2.
Proof. revert s. method. Qed.

Lemma received_file n s : same_file s.2 (cm_OnRecvCompleted n s).2.
Proof. revert s. method. by clock. Qed.

Lemma valid_file s : same_file s.2 (cm_OnPacketValidationSucceeded s).2.
Proof. revert s. method. Qed.

Lemma invalid_file s : same_file s.2 (cm_OnPacketValidationFailed s).2.
Proof. revert s. method. Qed.

Lemma track_file seq ty timeout s s' : cm_TrackRequest seq ty timeout s = Some s' -> same_file s.2 s'.2.
Proof.
  destruct s as [[a|[]] os]; cbn; [|by intros [= <-]]. unfold Cm_TrackRequest. case_bool; [by intros [= <-]|]. clock.
  destruct (timeout_ns timeout); [|done]. by intros [= <-].
Qed.

Lemma resolve_file seq ty s : same_file s.2 (cm_ResolveRequest seq ty s).2.
Proof.
  revert s. method. unfold Cm_ResolveRequest. case_bool; [done|]. clock. destruct (_pendingRequests a !! seq); cbn; [|done].
  by destruct (negb _).
Qed.

(** *** The client *)

Implicit Types (c : ChatClient).

Lemma steady_file s s' now : steady_now s = (s', now) -> same_file s.2 s'.2.
Proof. unfold steady_now, NowInNs64. destruct s as [m os]. cbn. call. by intros [= <- <-]. Qed.

Lemma close_socket_file c s : same_file s.2 (close_socket c s).2.2.
Proof. unfold close_socket. destruct (_tcpClientSocket c); [close|]; done. Qed.

Lemma reset_file c s : same_file s.2 (reset_connection c s).2.2.
Proof.
  unfold reset_connection. cbn. destruct (_tcpClientSocket c) as [t|], (_wsaSession c) as [w|]; try done;
    [|apply Tcp_destroy_file|apply Wsa_destroy_file]. eapply same_file_trans; [apply Tcp_destroy_file|apply Wsa_destroy_file].
Qed.

Lemma Disconnect_begin_file c s : same_file s.2 (Disconnect_begin c s).1.2.2.
Proof.
  unfold Disconnect_begin. cbv zeta. match goal with |- context [close_socket ?c ?s] => pose proof (close_socket_file c s) as Hc;
    destruct (close_socket c s) as [c1 s1] end. exact Hc.
Qed.

Lemma Disconnect_end_file reason was c s c' s' : Disconnect_end true reason was c s = Some (c', s') -> same_file s.2 s'.2.
Proof.
  unfold Disconnect_end. cbv zeta. destruct (_recvThread c); try done.
  all: match goal with |- context [reset_connection ?c ?s] => pose proof (reset_file c s) as Hr;
    destruct (reset_connection c s) as [c1 s1] end.
  all: cbn in Hr; intros [= <- <-]; destruct was; [|done]; unfold measure.
  all: eapply same_file_trans; [exact Hr|]; apply disconnected_file.
Qed.

Lemma Connect_fresh_file ip port c s : same_file s.2 (Connect_fresh true ip port c s).1.2.2.
Proof.
  unfold Connect_fresh. destruct (steady_now s) as [s1 now] eqn:Hs1. apply steady_file in Hs1. cbv zeta.
  unfold on_os. destruct (WsaSession_Create s1.2) as [os2 r2] eqn:Hw. apply Wsa_Create_file in Hw.
  set (latency := fun (ok : bool) (s : Metrics * OS) =>
    measure true (fun s => let '(s, t) := steady_now s in cm_ObserveConnectLatency (t - now) ok s) s).
  assert (forall ok s, same_file s.2 (latency ok s).2) as Hlat.
  { intros ok s0. unfold latency, measure. destruct (steady_now s0) as [s9 now9] eqn:Hs9. apply steady_file in Hs9.
    eapply same_file_trans; [exact Hs9|apply latency_file]. }
  destruct (_data r2) as [wsa|]; [|cbn; eapply same_file_trans; [|apply Hlat]; cbn; kept].
  destruct (Tcp_Connect _ _ _ _) as [[t3 os3] r3] eqn:Ht. apply Tcp_Connect_file in Ht. cbn [snd] in Ht.
  assert (same_file s.2 os3) as Hf3 by kept. case_bool; cbn [fst snd].
  - eapply same_file_trans; [|apply Wsa_destroy_file]. eapply same_file_trans; [|apply Tcp_destroy_file].
    eapply same_file_trans; [exact Hf3|apply (Hlat false (s1.1, os3))].
  - pose proof (reset_file c (s1.1, os3)) as Hr. destruct (reset_connection c _) as [c4 s4]. cbn [fst snd] in Hr |- *.
    unfold measure. eapply same_file_trans; [|apply connected_file]. eapply same_file_trans; [|apply Hlat]. kept.
Qed.

Lemma ChatClient_Send_file packet tracking c s s' : ChatClient_Send true packet tracking c s = Some s' -> same_file s.2 s'.2.
Proof.
  unfold ChatClient_Send. destruct (_tcpClientSocket c) as [t|]; [|by intros [= <-]].
  destruct (_packetStream c); [|by intros [= <-]]. case_bool; [by intros [= <-]|]. cbv zeta.
  destruct (SendFrame t _ s.2) as [[[os1 r]|]|] eqn:Hs; [|done|done]. cbn [mbind option_bind].
  assert (same_file s.2 os1) as Hf1.
  { revert Hs. unfold SendFrame. cbv zeta. destruct (memcpy_at _ _ _) as [f1|]; [|done]. cbn [mbind option_bind].
    match goal with |- context [mbind _ ?x] => destruct x; [|done] end. cbn [mbind option_bind]. intros [= Hs]. by apply SendAll_file in Hs. }
  case_bool; [intros [= <-]; unfold measure; eapply same_file_trans; [exact Hf1|apply (send_failed_file (s.1, os1))]|].
  assert (same_file s.2 (cm_OnSendCompleted (zlen (fb_finish packet)) (s.1, os1)).2) as Hf2
    by (eapply same_file_trans; [exact Hf1|apply (sent_file _ (s.1, os1))]).
  case_bool; [|by intros [= <-]]. intros Ht%track_file. kept.
Qed.

Lemma handle_line_file line (cli : ChatCli) c s cli' c' s' action :
  handle_line true line cli c s = Some (cli', c', s', action) -> same_file s.2 s'.2.
Proof.
  unfold handle_line, HandleCommand, HandleChat, sendJoinRoom, sendLeave, sendMessage, NextSequence.
  destruct line as [|first line]; [by intros [= <- <- <- <-]|]. case_bool.
  - destruct (parseCommand _); try (by intros [= <- <- <- <-]); (case_bool; [by intros [= <- <- <- <-]|]).
    all: match goal with |- context [ChatClient_Send true ?p ?t ?c ?s] => destruct (ChatClient_Send true p t c s) eqn:Hs; [|done] end.
    all: cbn [mbind option_bind]; intros [= <- <- <- <-]; by apply ChatClient_Send_file in Hs.
  - case_bool; [by intros [= <- <- <- <-]|].
    match goal with |- context [ChatClient_Send true ?p ?t ?c ?s] => destruct (ChatClient_Send true p t c s) eqn:Hs; [|done] end.
    cbn [mbind option_bind]. intros [= <- <- <- <-]. by apply ChatClient_Send_file in Hs.
Qed.

Lemma recv_step_file {L} (cb : Packet -> L -> ub L) c s l c' s' l' :
  recv_step true cb c s l = Some (c', s', l') -> same_file s.2 s'.2.
Proof.
  unfold recv_step. destruct (_recvThread c); try (by intros [= <- <- <-]).
  - destruct (_packetStream c) as [ps|]; [|done]. destruct (_tcpClientSocket c) as [t|]; [|done]. cbn [mbind option_bind].
    destruct (RecvFrame ps t [] s.2) as [[[b os1] r]|] eqn:Hr; [|done]. cbn [mbind option_bind]. apply RecvFrame_file in Hr.
    case_bool; [by intros [= <- <- <-]|]. unfold recv_packet, measure. destruct b as [|b bs]; [by intros [= <- <- <-]|].
    set (s1 := cm_OnRecvCompleted _ _).
    assert (same_file s.2 s1.2) as Hf1 by (eapply same_file_trans; [exact Hr|apply (received_file _ (s.1, os1))]).
    case_bool; [cbn [mbind option_bind]; intros [= <- <- <-]; eapply same_file_trans; [exact Hf1|apply invalid_file]|].
    destruct (fb_get _) as [pkt|]; cbn [mbind option_bind]; [|by intros [= <- <- <-]].
    destruct (cb pkt l); [|done]. cbn [mbind option_bind]. intros [= <- <- <-].
    eapply same_file_trans; [|apply resolve_file]. eapply same_file_trans; [exact Hf1|apply valid_file].
  - cbv zeta. match goal with |- context [close_socket ?c ?s] => pose proof (close_socket_file c s) as Hc;
      destruct (close_socket c s) as [c1 s1] end. intros [= <- <- <-]. unfold measure.
    eapply same_file_trans; [exact Hc|apply disconnected_file].
Qed.
End ClientFiles.

(** ** A system with a connection and files in memory *)

Record ClientOS := mkClientOS { co_stream : StreamOS; co_files : FileOS }.

#[export] Instance ClientOS_WinSock : WinSock ClientOS := {|
  os_call := fun c os =>
    match c with
    | SysSend _ _ | SysRecv _ _ =>
        let '(stream, r) := os_call c (co_stream os) in (mkClientOS stream (co_files os), r)
    | SysSystemClockNow => (os, (os_call c (co_files os)).2)
    | SysSocket _ _ => (os, sysval 7)
    | SysInetPton _ => (os, sysval 1)
    | _ => (os, sysok)
    end |}.

#[export] Program Instance ClientOS_TcpEnd : TcpEnd ClientOS := {|
  incoming := fun os => so_in (co_stream os); outgoing := fun os => so_out (co_stream os) |}.
Next Obligation. intros s data os Hd. exact (tcp_send s data (co_stream os) Hd). Qed.
Next Obligation. intros s len os Hl Hin. exact (tcp_recv s len (co_stream os) Hl Hin). Qed.
Next Obligation. intros s len os Hl Hin. exact (tcp_closed s len (co_stream os) Hl Hin). Qed.
Next Obligation. done. Qed.

#[export] Instance ClientOS_Process : Process ClientOS := {| GetCurrentProcessId := fun _ => 42 |}.

Definition on_files {A} (f : FileOS -> FileOS * A) (os : ClientOS) : ClientOS * A :=
  let '(files, r) := f (co_files os) in (mkClientOS (co_stream os) files, r).

#[export] Instance ClientOS_Host : Host ClientOS := {|
  GetProcessTimes := on_files GetProcessTimes;
  OpenThread := fun t => on_files (OpenThread t);
  GetThreadTimes := fun t => on_files (GetThreadTimes t);
  CreateToolhelp32Snapshot := on_files CreateToolhelp32Snapshot;
  GetActiveProcessorCount := on_files GetActiveProcessorCount;
  GetSystemInfo := on_files GetSystemInfo;
  create_directories := fun dir => on_files (create_directories dir);
  stream_write := fun append path text => on_files (stream_write append path text);
  start_thread := on_files start_thread |}.

#[export] Program Instance ClientOS_reliable : ReliableHost ClientOS := {| file_of := fun os => fo_files (co_files os) |}.
Next Obligation. intros [] os; try done; cbn; by case_match. Qed.
Next Obligation. done. Qed.
Next Obligation. done. Qed.
Next Obligation. done. Qed.
Next Obligation. done. Qed.
Next Obligation. done. Qed.
Next Obligation. done. Qed.
Next Obligation. done. Qed.
Next Obligation. done. Qed.
Next Obligation. intros append path text os. exact (rh_write append path text (co_files os)). Qed.
Next Obligation. intros os. exact (rh_clock (co_files os)). Qed.

#[export] Program Instance ClientOS_ClientHost : ClientHost ClientOS.
Next Obligation. by intros [] os. Qed.
Next Obligation. done. Qed.
Next Obligation. done. Qed.
Next Obligation. done. Qed.
Next Obligation. done. Qed.
Next Obligation. done. Qed.
Next Obligation. done. Qed.
Next Obligation. done. Qed.
