(* ===== verification/ChatClientMainProps.v ===== *)
(** * ChatClientMainProps: a run of the whole chat client

    The client, its command line, its two other threads and the files of its metrics, from
    the start of [main] to its return, under every interleaving. *)

From S2P Require Import Prelude StringUtils Config Errors Platform Protocol Logger Console TcpClient MetricsText RunManifest RuntimeSampler.
From S2P Require Import WriterLog ServerWriter ClientMetrics ClientWriter ClientWriterProps ChatClient ChatClientMain ClientWorld.
From Stdlib Require Import Ascii String.
From stdpp Require Import base numbers list strings option.
From coqutil Require Import Byte Datatypes.RecordSetters.
Import DoubleBraceUpdate.
Open Scope Z_scope.

Lemma frames_snoc l x : frames (l ++ [x]) = frames l ++ frame_of x.
Proof. unfold frames. rewrite fmap_app, concat_app. cbn. by rewrite app_nil_r. Qed.

Section Run.
Context {OS : Type} `{ClientHost OS} `{UMapOrder} `{FlatBuffers} `{ConsoleApi}.
Context (EnumNameErrorCode EnumNameMessageType : Z -> string).
(** What the server sends, what the user's lines stand for, and the stream and the files at
    the start. *)
Context (ps ts : list Packet) (out0 : list byte) (os0 : OS).
Context (Hps : Forall receivable ps) (Hserver : Forall server_packet ps).
Context (Hts : Forall (fun p => zlen (fb_finish p) < 2 ^ 32) ts).
Implicit Types (s : Metrics * OS) (os : OS) (c : ChatClient) (t : TcpClientSocket) (cli : ChatCli).

(** ** Traffic *)

(** [k] packets of the user are sent, [j] of the server received, and [d] disconnections
    counted. *)
Definition traffic s (k j : nat) (d : Z) : Prop :=
  see s = (Some (u64 (Z.of_nat k), u64 (Z.of_nat j), u64 (Z.of_nat j), 0, d),
           (frames (fb_finish <$> drop j ps), out0 ++ frames (fb_finish <$> take k ts))) /\
  (k <= length ts)%nat /\ (j <= length ps)%nat.

Lemma u64_succ (n : nat) : u64 (u64 (Z.of_nat n) + 1) = u64 (Z.of_nat (S n)).
Proof. unfold wrap. rewrite Zplus_mod_idemp_l. f_equal. lia. Qed.

Lemma traffic_see s s' k j d : see s' = see s -> traffic s k j d -> traffic s' k j d.
Proof. unfold traffic. by intros ->. Qed.

Lemma see_inv s s' : s'.1 = s.1 -> streams s'.2 = streams s.2 -> see s' = see s.
Proof. unfold see. by intros -> ->. Qed.

Lemma traffic_streams s k j d : traffic s k j d ->
  incoming s.2 = frames (fb_finish <$> drop j ps) /\ outgoing s.2 = out0 ++ frames (fb_finish <$> take k ts).
Proof. intros [Hs _]. unfold see, streams in Hs. by injection Hs. Qed.

Lemma traffic_disconnected reason s k j d :
  0 <= d -> d + 1 < 2 ^ 64 -> traffic s k j d -> traffic (cm_OnDisconnected reason s) k j (d + 1).
Proof. intros H0d Hd [Hs Hb]. split; [|done]. rewrite (see_disconnected _ _ _ _ _ _ _ _ Hs). by rewrite (wrap_small 64 (d + 1)) by lia. Qed.

(** ** The socket *)

Lemma call_streams call os os' r :
  os_call call os = (os', r) -> match call with SysSend _ _ | SysRecv _ _ => True | _ => streams os' = streams os end.
Proof. intros He. pose proof (ch_call call os) as Hs. rewrite He in Hs. exact Hs. Qed.

Lemma Tcp_Close_spec t os :
  exists t' os', Tcp_Close t os = (t', os', OkVoid) /\ Tcp_IsConnected t' = false /\ streams os' = streams os.
Proof.
  unfold Tcp_Close. destruct (Z.eqb_spec (_socketHandle t) InvalidSocket) as [He|Hne].
  { exists t, os. split; [done|]. split; [|done]. unfold Tcp_IsConnected. by rewrite He. }
  destruct (os_call (SysShutdown _) os) as [os1 r1] eqn:E1. destruct (os_call (SysClosesocket _) os1) as [os2 r2] eqn:E2.
  apply call_streams in E1, E2. cbn beta iota in E1, E2. eexists _, os2. split; [done|]. split; [done|congruence].
Qed.

Lemma Tcp_Connect_spec ip port t os :
  exists t' os' r, Tcp_Connect ip port t os = (t', os', r) /\ streams os' = streams os /\
    (HasErr r = false -> Tcp_IsConnected t' = true).
Proof.
  unfold Tcp_Connect. case_bool; [by eexists _, _, _|].
  destruct (Tcp_Close_spec t os) as (t1 & os1 & -> & _ & Hs1). case_bool; [by eexists _, _, _|].
  destruct (os_call (SysSocket _ _) os1) as [os2 r2] eqn:E2. apply call_streams in E2. cbn beta iota in E2. cbv zeta.
  destruct (Z.eqb_spec (ret r2) InvalidSocket) as [|Hsock]; [eexists _, _, _; split; [done|]; split; [congruence|done]|].
  set (t2 := mkTcpClientSocket _ _).
  destruct (os_call (SysInetPton _) os2) as [os3 r3] eqn:E3. apply call_streams in E3. cbn beta iota in E3.
  case_bool.
  { destruct (Tcp_Close_spec t2 os3) as (t4 & os4 & -> & _ & Hs4). eexists _, _, _. split; [done|]. split; [congruence|done]. }
  destruct (os_call (SysConnect _ _ _) os3) as [os4 r4] eqn:E4. apply call_streams in E4. cbn beta iota in E4.
  case_bool.
  { destruct (Tcp_Close_spec t2 os4) as (t5 & os5 & -> & _ & Hs5). eexists _, _, _. split; [done|]. split; [congruence|done]. }
  eexists _, _, _. split; [done|]. split; [congruence|]. intros _. unfold Tcp_IsConnected. cbn.
  by rewrite (proj2 (Z.eqb_neq _ _)).
Qed.

Lemma close_socket_spec c t s :
  _tcpClientSocket c = Some t ->
  exists t' s', close_socket c s = (c {{ _tcpClientSocket := Some t' }}, s') /\ Tcp_IsConnected t' = false /\ see s' = see s.
Proof.
  intros Ht. unfold close_socket. rewrite Ht. destruct (Tcp_Close_spec t s.2) as (t' & os' & -> & Hc & Hs).
  eexists t', _. split; [done|]. split; [done|]. by apply see_inv.
Qed.

(** The socket and the session are released. *)
Definition released c : Prop := _tcpClientSocket c = None /\ _wsaSession c = None /\ _packetStream c = None.

Lemma Wsa_destroy_streams w os : streams (WsaSession_destroy w os) = streams os.
Proof.
  unfold WsaSession_destroy, WsaSession_Cleanup. case_bool; [done|]. destruct (os_call SysWSACleanup os) as [os1 r] eqn:E.
  by apply call_streams in E.
Qed.

Lemma Tcp_destroy_streams t os : streams (Tcp_destroy t os) = streams os.
Proof. unfold Tcp_destroy. by destruct (Tcp_Close_spec t os) as (t' & os' & -> & _ & ?). Qed.

Lemma reset_spec c s :
  exists c' s', reset_connection c s = (c', s') /\ released c' /\ see s' = see s /\
    _isConnected c' = _isConnected c /\ _recvThread c' = _recvThread c /\ stop_requested c' = stop_requested c /\
    _nextSequence c' = _nextSequence c /\ _responseTimeout c' = _responseTimeout c.
Proof.
  unfold reset_connection. eexists _, _. split; [done|]. split; [by destruct c|]. split.
  - apply see_inv; [done|]. cbn. destruct (_tcpClientSocket c), (_wsaSession c); rewrite ?Wsa_destroy_streams, ?Tcp_destroy_streams; done.
  - by destruct c.
Qed.

(** ** Connecting *)

Definition timeout_fits c : Prop := _responseTimeout c * 1000000 < 2 ^ 63.

(** A client that [main] has just made. *)
Definition fresh c : Prop :=
  released c /\ _isConnected c = false /\ _recvThread c = RNone /\ stop_requested c = false /\
  _nextSequence c = 1 /\ timeout_fits c.

Definition up c : Prop :=
  exists t, _tcpClientSocket c = Some t /\ Tcp_IsConnected t = true.

Lemma Connect_fresh_spec ip port c s :
  fresh c -> exists c' s' ok, Connect_fresh true ip port c s = (c', s', ok) /\ see s' = see s /\
    if ok : bool then _packetStream c' = Some (mkPacketStream maxFrameSize) /\ up c' /\ _isConnected c' = true /\
      _recvThread c' = RNone /\ stop_requested c' = false /\ _nextSequence c' = 1 /\ timeout_fits c'
    else c' = c.
Proof.
  intros (Hrel & Hcon & Hth & Hst & Hseq & Hto). unfold Connect_fresh.
  assert (forall now ok s, see (measure true (fun s => let '(s, t) := steady_now s in cm_ObserveConnectLatency (t - now) ok s) s) = see s)
    as Hlat.
  { intros now ok s0. unfold measure, steady_now. pose proof (NowInNs64_streams s0.2) as Hn.
    destruct (NowInNs64 s0.2) as [os1 t1]. cbn [fst] in Hn. rewrite see_latency. by apply see_inv. }
  unfold steady_now at 1, on_os. pose proof (NowInNs64_streams s.2) as Hn. destruct (NowInNs64 s.2) as [os1 now]. cbn [fst] in Hn.
  cbv zeta. cbn [fst snd]. unfold WsaSession_Create, WsaSession_Initialize. cbn [wsa_isInitialized].
  destruct (os_call SysWSAStartup os1) as [os2 r2] eqn:E2. apply call_streams in E2. cbn beta iota in E2.
  case_bool; cbn [HasErr Err OkVoid Ok _hasError _data].
  { eexists _, _, false. split; [done|]. split; [|done]. rewrite Hlat. apply see_inv; [done|]. cbn. congruence. }
  cbn [fst snd]. destruct (Tcp_Connect_spec ip port (TcpClientSocket_make true) os2) as (t3 & os3 & r3 & -> & Hs3 & Hup).
  destruct (HasErr r3) eqn:Hr.
  - eexists _, _, false. split; [done|]. split; [|done]. cbn [fst snd]. set (s4 := measure _ _ _).
    assert (see s4 = see s) as Hs4 by (unfold s4; rewrite Hlat; apply see_inv; [done|cbn; congruence]).
    transitivity (see s4); [|done]. apply see_inv; [done|]. cbn. by rewrite Wsa_destroy_streams, Tcp_destroy_streams.
  - destruct (reset_spec c (s.1, os3)) as (c4 & s4 & -> & _ & Hs4 & R1 & R2 & R3 & R4 & R5).
    eexists _, _, true. split; [done|]. split.
    + unfold measure at 1. rewrite see_connected, Hlat, Hs4. apply see_inv; [done|]. cbn. congruence.
    + unfold up, timeout_fits in *. specialize (Hup eq_refl). destruct c4. cbn in *. split; [done|]. split; [by exists t3|].
      split_and!; try done; congruence.
Qed.
(** ** The receiving thread *)

Abbreviation show := (show_packet EnumNameErrorCode EnumNameMessageType).

(** Until the user leaves: connected with a thread, or ended by the server. *)
Definition live c (d : Z) : Prop :=
  stop_requested c = false /\ _packetStream c = Some (mkPacketStream maxFrameSize) /\ timeout_fits c /\
  exists t, _tcpClientSocket c = Some t /\
    if _isConnected c
    then Tcp_IsConnected t = true /\ d = 0 /\ match _recvThread c with RNone | REnded => False | _ => True end
    else Tcp_IsConnected t = false /\ d = 1 /\ _recvThread c = REnded.

(** A frame received, or the end of the stream. *)
Lemma recv_frame_ok t s k j d (l : ConsoleState) :
  Tcp_IsConnected t = true -> traffic s k j d ->
  exists buf os res, RecvFrame (mkPacketStream maxFrameSize) t [] s.2 = Some (buf, os, res) /\
    if HasErr res then traffic (s.1, os) k j d
    else exists s' l', recv_packet true show buf (s.1, os) l = Some (s', l') /\ traffic s' k (S j) d.
Proof.
  intros Ht Htr. destruct (traffic_streams _ _ _ _ Htr) as [Hin Hout]. destruct Htr as (Hsee & Hk & Hj).
  destruct (drop j ps) as [|p rest] eqn:Hd.
  - destruct (RecvFrame_closed (mkPacketStream maxFrameSize) t [] s.2 Ht) as (os' & Hr & Hi & Ho); [done|by rewrite Hin|].
    eexists _, os', _. split; [exact Hr|]. cbn. split; [|done]. rewrite Hd in *. etrans; [|exact Hsee].
    apply see_inv; [done|]. unfold streams. cbn. by rewrite Hi, Ho, Hin.
  - assert (ps !! j = Some p) as Hp.
    { rewrite <-(Nat.add_0_r j), <-lookup_drop, Hd. done. }
    pose proof (Forall_lookup_1 _ _ _ _ Hps Hp) as [[Hv Hg] Hsz]. pose proof (Forall_lookup_1 _ _ _ _ Hserver Hp) as Hsp.
    rewrite fmap_cons, frames_cons in Hin.
    destruct (RecvFrame_stream (mkPacketStream maxFrameSize) t [] s.2 (fb_finish p) (frames (fb_finish <$> rest)) Ht)
      as (os' & -> & Hi & Ho); [done|cbn; lia|done|].
    eexists _, os', _. split; [done|]. cbn [HasErr Ok _hasError]. unfold recv_packet.
    destruct (fb_finish p) as [|b bs] eqn:Hf; [unfold zlen in Hsz; cbn in Hsz; lia|]. rewrite Hv, Hg. cbn [negb].
    destruct (server_packet_line EnumNameErrorCode EnumNameMessageType p Hsp) as [line Hline].
    unfold show_packet, onPacketReceived. rewrite Hline. cbn [mbind option_bind]. eexists _, _. split; [done|].
    unfold measure. assert (drop (S j) ps = rest) as Hrest.
    { rewrite <-Nat.add_1_r, <-drop_drop, Hd. done. }
    split; [|apply lookup_lt_Some in Hp; lia]. rewrite see_resolve, Hrest.
    assert (see (s.1, os') = (Some (u64 (Z.of_nat k), u64 (Z.of_nat j), u64 (Z.of_nat j), 0, d),
      (frames (fb_finish <$> rest), out0 ++ frames (fb_finish <$> take k ts)))) as Hs0.
    { unfold see in *. cbn [fst snd] in *. injection Hsee as Hm _ _. rewrite Hm. unfold streams. by rewrite Hi, Ho, Hout. }
    erewrite see_valid; [|by erewrite see_received]. by rewrite !u64_succ.
Qed.

Lemma recv_live c s k j d (l : ConsoleState) :
  live c d -> traffic s k j d ->
  exists c' s' l' j' d', recv_step true show c s l = Some (c', s', l') /\ live c' d' /\ traffic s' k j' d' /\
    _nextSequence c' = _nextSequence c /\ (_isConnected c' = true -> _isConnected c = true).
Proof.
  intros (Hstop & Hstr & Hto & t & Ht & Hcase) Htr.
  destruct c as [to wsa sock str th stop con seq]. cbn in Hstop, Hstr, Ht, Hcase. subst stop str sock. unfold timeout_fits in Hto. cbn in Hto.
  destruct con.
  2: { destruct Hcase as (Hc & Hd & Hth). cbn in Hth. subst th d. cbn [recv_step _recvThread].
    eexists _, s, l, j, 1. split; [done|]. split; [|done]. split; [done|]. split; [done|]. split; [done|]. by exists t. }
  destruct Hcase as (Hc & Hd & Hth). cbn in Hth. subst d. destruct th as [| | |e|reason|]; try done; cbn [recv_step _recvThread].
  - eexists _, s, l, j, 0. split; [done|]. split; [|done]. split; [done|]. split; [done|]. split; [done|]. by exists t.
  - cbn [_packetStream _tcpClientSocket mbind option_bind].
    destruct (recv_frame_ok t s k j 0 l Hc Htr) as (buf & os & res & -> & Hres). cbn [mbind option_bind].
    destruct (HasErr res).
    + eexists _, _, l, j, 0. split; [done|]. split; [|done]. split; [done|]. split; [done|]. split; [done|]. by exists t.
    + destruct Hres as (s' & l' & -> & Htr'). cbn [mbind option_bind].
      eexists _, s', l', (S j), 0. split; [done|]. split; [|done]. split; [done|]. split; [done|]. split; [done|]. by exists t.
  - eexists _, s, l, j, 0. split; [done|]. split; [|done]. split; [done|]. split; [done|]. split; [done|]. by exists t.
  - destruct (close_socket_spec (mkChatClient to wsa (Some t) (Some (mkPacketStream maxFrameSize)) (RClose reason) false false seq) t s eq_refl)
      as (t' & s' & Hcl & Hct' & Hs').
    change ((mkChatClient to wsa (Some t) (Some (mkPacketStream maxFrameSize)) (RClose reason) false true seq)
      {{ _isConnected := false }}) with
      (mkChatClient to wsa (Some t) (Some (mkPacketStream maxFrameSize)) (RClose reason) false false seq).
    cbv zeta. rewrite Hcl. unfold measure. eexists _, _, l, j, 1. split; [done|]. split.
    + split; [done|]. split; [done|]. split; [done|]. by exists t'.
    + split; [|done]. apply (traffic_disconnected reason s' k j 0); [done|done|]. by eapply traffic_see.
Qed.

(** ** Leaving *)

(** The user has left; the thread may still have to report the end of the connection. *)
Definition leaving c (was : bool) (d : Z) : Prop :=
  stop_requested c = true /\ _isConnected c = false /\ _packetStream c = Some (mkPacketStream maxFrameSize) /\
  (exists t, _tcpClientSocket c = Some t /\ Tcp_IsConnected t = false) /\
  match _recvThread c with
  | RNone => False
  | REnded => if was then 0 <= d <= 1 else d = 1
  | _ => was = true /\ d = 0
  end.

(** The steps the thread still takes. *)
Definition recv_rank c : nat := match _recvThread c with RRecv => 2 | RTop | RFail _ | RClose _ => 1 | RNone | REnded => 0 end.

Lemma leave_begin c s d :
  live c d -> exists c' s' was, Disconnect_begin c s = (c', s', was) /\ leaving c' was d /\ see s' = see s.
Proof.
  intros (Hstop & Hstr & Hto & t & Ht & Hcase).
  destruct c as [to wsa sock str th stop con seq]. cbn in Hstop, Hstr, Ht, Hcase. subst stop str sock.
  assert (forall th', th' <> RNone -> exists t' s',
    Disconnect_begin (mkChatClient to wsa (Some t) (Some (mkPacketStream maxFrameSize)) th' false con seq) s =
      (mkChatClient to wsa (Some t') (Some (mkPacketStream maxFrameSize)) th' true false seq, s', con) /\
    Tcp_IsConnected t' = false /\ see s' = see s) as Hbegin.
  { intros th' Hne. unfold Disconnect_begin. cbv zeta.
    destruct (close_socket_spec (mkChatClient to wsa (Some t) (Some (mkPacketStream maxFrameSize)) th' true false seq) t s eq_refl)
      as (t' & s' & Hcl & Hc & Hs). exists t', s'. split; [|done].
    replace (if joinable _ then _ else _) with
      (mkChatClient to wsa (Some t) (Some (mkPacketStream maxFrameSize)) th' true false seq) by (by destruct th').
    by rewrite Hcl. }
  assert (th <> RNone) as Hne by (destruct con; destruct Hcase as (_ & _ & Hth); by destruct th).
  destruct (Hbegin th Hne) as (t' & s' & -> & Hc & Hs). eexists _, s', con. split; [done|]. split; [|done].
  split; [done|]. split; [done|]. split; [done|]. split; [by exists t'|]. cbn [_recvThread].
  destruct con; destruct Hcase as (_ & Hd & Hth); [by destruct th|by rewrite Hth].
Qed.

(** A closed socket receives nothing. *)
Lemma recv_frame_closed t os :
  Tcp_IsConnected t = false -> RecvFrame (mkPacketStream maxFrameSize) t [] os = Some ([], os, Err SocketInvalid).
Proof.
  intros Ht. unfold RecvFrame, RecvExact. change (length (replicate (Z.to_nat kHeaderSize) Byte.x00)) with 4%nat.
  cbn [RecvExact_loop]. unfold RecvSome. rewrite Ht. reflexivity.
Qed.

Lemma recv_leaving c was s k j d (l : ConsoleState) :
  leaving c was d -> traffic s k j d ->
  exists c' s' d', recv_step true show c s l = Some (c', s', l) /\ leaving c' was d' /\ traffic s' k j d' /\
    recv_rank c' = (recv_rank c - 1)%nat.
Proof.
  intros (Hstop & Hcon & Hstr & (t & Ht & Hct) & Hth) Htr.
  destruct c as [to wsa sock str th stop con seq]. cbn in Hstop, Hstr, Ht, Hcon, Hth. subst stop str sock con.
  destruct th as [| | |e|reason|]; try done; cbn [recv_step _recvThread].
  - destruct Hth as [-> ->]. eexists _, s, 0. split; [done|]. split; [|done]. do 3 (split; [done|]). split; [by exists t|done].
  - destruct Hth as [-> ->]. cbn [_packetStream _tcpClientSocket mbind option_bind]. rewrite recv_frame_closed by done.
    cbn [mbind option_bind]. eexists _, _, 0. split; [done|]. split; [do 3 (split; [done|]); split; [by exists t|done]|].
    split; [by destruct s|done].
  - destruct Hth as [-> ->]. eexists _, s, 0. split; [done|]. split; [|done]. do 3 (split; [done|]). split; [by exists t|done].
  - destruct Hth as [-> ->].
    destruct (close_socket_spec (mkChatClient to wsa (Some t) (Some (mkPacketStream maxFrameSize)) (RClose reason) true false seq) t s eq_refl)
      as (t' & s' & Hcl & Hct' & Hs').
    change ((mkChatClient to wsa (Some t) (Some (mkPacketStream maxFrameSize)) (RClose reason) true false seq)
      {{ _isConnected := false }}) with
      (mkChatClient to wsa (Some t) (Some (mkPacketStream maxFrameSize)) (RClose reason) true false seq).
    cbv zeta. rewrite Hcl. unfold measure. eexists _, _, 1. split; [done|].
    split; [do 3 (split; [done|]); split; [by exists t'|done]|].
    split; [|done]. apply (traffic_disconnected reason s' k j 0); [done|done|]. by eapply traffic_see.
  - eexists _, s, d. split; [done|]. split; [|done]. do 3 (split; [done|]). split; [by exists t|done].
Qed.

(** Joined, and everything released. *)
Definition gone c : Prop := released c /\ _isConnected c = false /\ _recvThread c = RNone.

Lemma leave_end c was s k j d :
  leaving c was d -> traffic s k j d -> recv_rank c = O ->
  exists c' s' d', Disconnect_end true LocalClose was c s = Some (c', s') /\ gone c' /\ traffic s' k j d' /\ 1 <= d' <= 2.
Proof.
  intros (Hstop & Hcon & Hstr & _ & Hth) Htr Hrank. unfold recv_rank in Hrank. unfold Disconnect_end.
  destruct (_recvThread c) eqn:Hr; try done. cbv zeta.
  destruct (reset_spec (c {{ _recvThread := RNone }}) s) as (c' & s' & -> & Hrel & Hsee & R1 & R2 & _).
  assert (gone c') as Hgone by (split; [done|]; rewrite R1, R2; by destruct c).
  apply (traffic_see _ s') in Htr; [|done]. unfold measure. destruct was.
  - exists c', (cm_OnDisconnected LocalClose s'), (d + 1). split; [done|]. split; [done|].
    split; [apply traffic_disconnected; [lia|lia|done]|lia].
  - exists c', s', d. split; [done|]. split; [done|]. split; [done|lia].
Qed.

Lemma leave_waits c was s d : leaving c was d -> recv_rank c <> O -> Disconnect_end true LocalClose was c s = None.
Proof. intros (_ & _ & _ & _ & Hth) Hr. unfold Disconnect_end, recv_rank in *. by destruct (_recvThread c). Qed.

Lemma destroy_gone c s : gone c -> ChatClient_destroy true id c s = Some (c, s).
Proof. intros ((Hs & Hw & _) & Hc & Hr). unfold ChatClient_destroy, joinable. by rewrite Hs, Hw, Hc, Hr. Qed.

(** ** The lines typed *)

(** While the connection is up, the packets still to be sent are those of the lines left. *)
Definition remaining cli c (input : list string) (k : nat) : Prop :=
  _isConnected c = true -> typed (_nickname cli) (_joined cli) (_nextSequence c) input = drop k ts.

Lemma send_live p tracking c s k j d :
  live c d -> traffic s k j d -> (_isConnected c = true -> ts !! k = Some p) ->
  exists s' k', ChatClient_Send true p tracking c s = Some s' /\ traffic s' k' j d /\ (_isConnected c = true -> k' = S k).
Proof.
  intros (Hstop & Hstr & Hto & t & Ht & Hcase) Htr Hp. unfold ChatClient_Send. rewrite Ht, Hstr.
  destruct (_isConnected c); destruct Hcase as (Hc & _); rewrite Hc; cbn [negb]; [|by exists s, k].
  specialize (Hp eq_refl). pose proof (Forall_lookup_1 _ _ _ _ Hts Hp) as Hsz. cbn beta in Hsz.
  rewrite SendFrame_frame by done. cbn [mbind option_bind].
  destruct (SendAll_stream t (frame_of (fb_finish p)) s.2 Hc) as (os' & -> & Ho & Hi).
  cbn [mbind option_bind HasErr OkVoid Ok _hasError]. destruct (traffic_streams _ _ _ _ Htr) as [Hin Hout].
  destruct Htr as (Hsee & Hk & Hj).
  assert (see (s.1, os') = (Some (u64 (Z.of_nat k), u64 (Z.of_nat j), u64 (Z.of_nat j), 0, d),
    (frames (fb_finish <$> drop j ps), out0 ++ frames (fb_finish <$> take (S k) ts)))) as Hs0.
  { unfold see in *. cbn [fst snd] in *. injection Hsee as Hm _ _. rewrite Hm. unfold streams. rewrite Hi, Ho, Hin, Hout.
    rewrite (take_S_r _ _ _ Hp), fmap_app, <-app_assoc. change (fb_finish <$> [p]) with [fb_finish p]. by rewrite frames_snoc. }
  assert (traffic (cm_OnSendCompleted (zlen (fb_finish p)) (s.1, os')) (S k) j d) as Htr'.
  { split; [by rewrite (see_sent _ _ _ _ _ _ _ _ Hs0), u64_succ|]. apply lookup_lt_Some in Hp. lia. }
  case_bool; [|by exists (cm_OnSendCompleted (zlen (fb_finish p)) (s.1, os')), (S k)].
  destruct (see_track (rt_sequence tracking) (rt_responseType tracking) (_responseTimeout c)
    (cm_OnSendCompleted (zlen (fb_finish p)) (s.1, os')) Hto) as (s2 & -> & Hs2).
  exists s2, (S k). split; [done|]. split; [by eapply traffic_see|done].
Qed.

(** A request takes a number and the next packet. *)
Lemma request_live (make : Z -> Packet) ty c s k j d rest :
  live c d -> traffic s k j d -> (_isConnected c = true -> drop k ts = make (_nextSequence c) :: rest) ->
  exists c' s' k',
    (let '(c, sequence) := NextSequence c in
     s ← ChatClient_Send true (make sequence) (mkRequestTracking sequence ty) c s; Some (c, s)) = Some (c', s') /\
    live c' d /\ traffic s' k' j d /\ _nextSequence c' = u32 (_nextSequence c + 1) /\ _isConnected c' = _isConnected c /\
    (_isConnected c = true -> drop k' ts = rest).
Proof.
  intros Hlive Htr Hnext. unfold NextSequence. cbn beta iota. set (c' := c {{ _nextSequence := _ }}).
  assert (live c' d /\ _nextSequence c' = u32 (_nextSequence c + 1) /\ _isConnected c' = _isConnected c) as (Hlive' & Hn & Hc)
    by (unfold live, timeout_fits in *; by destruct c).
  destruct (send_live (make (_nextSequence c)) (mkRequestTracking (_nextSequence c) ty) c' s k j d Hlive' Htr)
    as (s' & k' & -> & Htr' & Hk').
  { rewrite Hc. intros E. specialize (Hnext E). by rewrite <-(Nat.add_0_r k), <-lookup_drop, Hnext. }
  cbn [mbind option_bind]. exists c', s', k'. split; [done|]. do 4 (split; [done|]). intros E. rewrite Hc in Hk'.
  rewrite (Hk' E), <-Nat.add_1_r, <-drop_drop, (Hnext E). done.
Qed.

Lemma handle_line_live line input cli c s k j d :
  live c d -> traffic s k j d -> remaining cli c (line :: input) k ->
  exists cli' c' s' action k', handle_line true line cli c s = Some (cli', c', s', action) /\ live c' d /\ traffic s' k' j d /\
    (action = Continue -> remaining cli' c' input k').
Proof.
  intros Hlive Htr Hrem. unfold remaining in *. cbn [typed] in Hrem.
  assert (forall f, _nickname (logger f cli) = _nickname cli /\ _joined (logger f cli) = _joined cli) as Hlog
    by (intros f; apply logger_fields).
  destruct line as [|first line]; cbn [handle_line]; [by exists cli, c, s, Continue, k|].
  destruct (Ascii.eqb first "/"%char).
  - unfold HandleCommand. destruct (parseCommand (String first line)).
    + by exists cli, c, s, Quit, k.
    + destruct (PrintHelp_fields cli) as [E1 E2]. exists (PrintHelp cli), c, s, Continue, k. by rewrite E1, E2.
    + destruct (_joined cli) eqn:Hj.
      * destruct (Hlog (Logger_Warn "Already joined.")) as [E1 E2]. eexists _, c, s, Continue, k. split; [done|]. by rewrite E1, E2, ?Hj.
      * unfold sendJoinRoom. edestruct (request_live (makeJoinRoomRequest (_nickname cli)) (MessageType SC_JoinedRoom) c s k j d)
          as (c' & s' & k' & -> & Hlive' & Htr' & Hn & Hc & Hd); [done|done|by intros E; symmetry; apply Hrem|].
        cbn [mbind option_bind]. eexists _, c', s', Continue, k'. split; [done|]. split; [done|]. split; [done|]. intros _ E.
        match goal with |- context [logger ?f (_ {{ _joined := true }})] => destruct (joined_fields f true cli) as [E1 E2] end.
        rewrite E1, E2, Hn. rewrite Hc in E. by rewrite (Hd E).
    + destruct (_joined cli) eqn:Hj; cbn [negb].
      * unfold sendLeave. edestruct (request_live (makeLeaveRoomRequest 0) (MessageType SC_LeftRoom) c s k j d)
          as (c' & s' & k' & -> & Hlive' & Htr' & Hn & Hc & Hd); [done|done|by intros E; symmetry; apply Hrem|].
        cbn [mbind option_bind]. eexists _, c', s', Continue, k'. split; [done|]. split; [done|]. split; [done|]. intros _ E.
        match goal with |- context [logger ?f (_ {{ _joined := false }})] => destruct (joined_fields f false cli) as [E1 E2] end.
        rewrite E1, E2, Hn. rewrite Hc in E. by rewrite (Hd E).
      * destruct (Hlog (Logger_Warn "Not joined.")) as [E1 E2]. eexists _, c, s, Continue, k. split; [done|]. by rewrite E1, E2, ?Hj.
    + eexists _, c, s, Continue, k. split; [done|]. split; [done|]. split; [done|]. intros _.
      match goal with |- context [logger ?f cli] => destruct (Hlog f) as [E1 E2] end. by rewrite E1, E2.
  - unfold HandleChat. destruct (_joined cli) eqn:Hj; cbn [negb].
    + unfold sendMessage. edestruct (request_live (makeSendMessageRequest 0 (_nickname cli) (String first line)) (MessageType B_ChatMessage) c s k j d)
        as (c' & s' & k' & -> & Hlive' & Htr' & Hn & Hc & Hd); [done|done|by intros E; symmetry; apply Hrem|].
      cbn [mbind option_bind]. eexists _, c', s', Continue, k'. split; [done|]. split; [done|]. split; [done|]. intros _ E.
      rewrite ?Hj, Hn. rewrite Hc in E. by rewrite (Hd E).
    + eexists _, c, s, Continue, k. split; [done|]. split; [done|]. split; [done|]. intros _.
      match goal with |- context [logger ?f cli] => destruct (Hlog f) as [E1 E2] end. by rewrite E1, E2, ?Hj.
Qed.

(** ** The writer *)

Lemma Metrics_snapshot s :
  file_of (cm_TakeSnapshot s).1.2 = file_of s.2 /\ 0 <= cs_capturedAt (cm_TakeSnapshot s).2 < gmtime_end * ticks_per_second.
Proof.
  destruct s as [[a|[]] os]; [|done]. pose proof (Cm_TakeSnapshot_files (a, os)) as [Hf Ht].
  cbn [cm_TakeSnapshot either_metrics]. unfold either. cbn [fst snd].
  by destruct (cm_TakeSnapshot (a, os)) as [[a' os'] snap].
Qed.

Definition record_counts (r : ClientRecord) : Z * Z * Z * Z * Z :=
  (c_sendPackets r, c_recvPackets r, c_packetValidation r, c_packetValidationFailure r, c_disconnect r).

Lemma shows_counts (m : Metrics) r : shows m r -> match m with inl a => record_counts r = counts a | inr _ => True end.
Proof.
  intros (os & cpu & threads & ->). destruct m as [a|b]; [|done]. cbn. unfold either. cbn. unfold Cm_TakeSnapshot.
  destruct (NowSteadyNanoseconds os) as [os1 now]. pose proof (expire_counts now a) as He.
  destruct (os_call SysSystemClockNow os1) as [os2 r]. by rewrite <-He.
Qed.

(** Started, with its files; the log is what it was at the start, and lines of this run. *)
Definition running (w : ClientMetricsWriter) os : Prop :=
  cc_enabled (cw_config w) = true /\ has_paths w /\ cw_thread w <> WNone /\
  (valid_time (startedAt (cw_manifest w)) /\ is_Some (startedAt (cw_manifest w)) /\ finishedAt (cw_manifest w) = None) /\
  exists first records, logged (file_of os0 (cw_snapshotPath w)) first records w os.

Lemma running_file w os os' : same_file os os' -> running w os -> running w os'.
Proof. unfold running, logged. by intros ->. Qed.

Lemma running_same old p records w w' os os' :
  same_files w w' -> cw_thread w' <> WNone -> logged old p records w' os' -> old = file_of os0 (cw_snapshotPath w) ->
  running w os -> running w' os'.
Proof.
  intros Hsame Ht Hlog -> (He & Hp & _ & Hm & _). pose proof Hsame as (C1 & C2 & _ & _ & C5 & _). unfold running.
  rewrite C1, C2, C5. split; [done|]. split; [by eapply has_paths_same|]. split; [done|]. split; [done|]. by exists p, records.
Qed.

Lemma writer_turn w (m : Metrics) os :
  running w os -> exists w' m' os', Client_step w m os = Some (w', m', os') /\ running w' os' /\ follows w w' 1 /\
    see (m', os') = see (m, os).
Proof.
  intros Hrun. pose proof Hrun as (_ & _ & Ht & _ & first & records & Hlog).
  destruct (step_logged Metrics_snapshot _ first records w m os Hlog) as (w' & m' & os' & more & Hstep & Hf & Hlog').
  exists w', m', os'. split; [done|]. pose proof Hf as (Hsame & Hne & _).
  split; [|split; [done|by eapply see_writer_step]]. by eapply running_same; [exact Hsame|auto|exact Hlog'| |exact Hrun].
Qed.

Lemma writer_starts w (m : Metrics) os :
  cc_enabled (cw_config w) = true -> cw_running w = false -> file_of os = file_of os0 ->
  exists w' m' os', Client_Start w m os = Some (w', m', os', true) /\ running w' os' /\ see (m', os') = see (m, os).
Proof.
  intros He Hr Hf. destruct (Client_Start_logs Metrics_snapshot w m os He Hr)
    as (w' & m' & os' & first & Hstart & Ht & He' & Hp & Hv & Hs & Hn & Hlog).
  exists w', m', os'. split; [done|]. split; [|by eapply see_start]. split; [done|]. split; [done|].
  split; [congruence|]. split; [done|]. rewrite Hf in Hlog. by exists first, [].
Qed.

Lemma writer_stops w os :
  running w os -> exists w', Client_Stop_begin w = (w', true) /\ running w' os /\ goes_on w' = false.
Proof.
  intros Hrun. pose proof Hrun as (_ & _ & Ht & _ & first & records & Hlog).
  exists (w {{ cw_running := false; cw_stop := true }}). split; [|split].
  - unfold Client_Stop_begin. destruct w as [? ? ? ? ? ? [] ? ? ? ? ? ? ? ? ? ?]; cbn in *; try done; by rewrite andb_false_r.
  - eapply (running_same _ first records w); [by destruct w|by destruct w| |done|done]. by apply (client_logged_ext _ _ _ w); destruct w.
  - by destruct w.
Qed.

(** The files of the finished run. *)
Definition written (w : ClientMetricsWriter) s : Prop :=
  cw_thread w = WNone /\ has_paths w /\ is_Some (startedAt (cw_manifest w)) /\ is_Some (finishedAt (cw_manifest w)) /\
  exists first records last text json summary,
    match s.1 with inl a => record_counts last = counts a | inr _ => True end /\
    log_text Client_BuildSnapshotJson first (records ++ [last]) = Some text /\
    file_of s.2 (cw_snapshotPath w) = Some (default [] (file_of os0 (cw_snapshotPath w)) ++ text) /\
    ToJson (cw_manifest w) = Some json /\ file_of s.2 (cw_manifestPath w) = Some json /\
    Client_BuildSummaryMarkdown (client_summary_of (chain first (records ++ [last]))) (cw_manifest w) (cw_outputDirectory w) = Some summary /\
    file_of s.2 (cw_summaryPath w) = Some summary.

Lemma writer_finishes w s :
  running w s.2 -> cw_thread w = WEnded ->
  exists w' m' os', Client_Stop_end w s.1 s.2 = Some (Some (w', m', os')) /\ written w' (m', os') /\ see (m', os') = see s.
Proof.
  intros (He & Hp & _ & (Hv & Hs & Hn) & first & records & Hlog) Ht. destruct s as [m os]. cbn [fst snd] in *.
  destruct (Client_Stop_end_logs Metrics_snapshot _ first records w m os Ht He Hp Hv Hn Hlog)
    as (w' & m' & os' & r & json & summary & Hend & Hp' & Hf' & Hth & Hs' & Hpath & Hlog' & Hshows & Hj & Hjf & Hsum & Hsf).
  exists w', m', os'. pose proof (see_stop _ _ _ _ _ _ Hend) as Hsee. split; [done|]. split; [|done].
  destruct Hlog' as ((text & Htext & Hfile) & _ & _ & Hsummary). rewrite log_file_snoc in Hfile.
  split; [done|]. split; [done|]. split; [by rewrite Hs'|]. split; [done|].
  exists first, records, r, text, json, summary. split; [|cbn [snd]; by rewrite Hfile, <-Hsummary, Hpath].
  apply shows_counts in Hshows. unfold see in Hsee. cbn [fst snd] in *. destruct m' as [a'|b']; [|done].
  destruct m as [a|b]; [|done]. rewrite Hshows. apply (f_equal fst) in Hsee. by apply (inj Some) in Hsee.
Qed.

(** ** The program *)

(** The nickname the first line gives. *)
Definition nickname_of (input : list string) : string :=
  match input with [] | EmptyString :: _ => "guest" | name :: _ => name end.

(** Before the nickname is read: nothing is sent yet. *)
Definition unnamed cli c (input : list string) : Prop :=
  _joined cli = false /\ _nextSequence c = 1 /\ typed (nickname_of input) false 1 (tail input) = ts.

Definition code_ok (code d : Z) (k : nat) : Prop := (code = 0 /\ 1 <= d <= 2) \/ (code = -1 /\ d = 0 /\ k = O).

Definition stage (p : Program OS) (k : nat) (d : Z) : Prop :=
  let '(mkProgram cli c w s input phase) := p in
  match phase with
  | MStart => fresh c /\ unnamed cli c input /\ k = O /\ d = 0 /\
      cc_enabled (cw_config w) = true /\ cw_running w = false /\ cw_thread w = WNone /\ file_of s.2 = file_of os0
  | MConnect => fresh c /\ unnamed cli c input /\ k = O /\ d = 0 /\ running w s.2
  | MNickname | MReadNickname => live c d /\ unnamed cli c input /\ k = O /\ running w s.2
  | MHelp | MPrompt | MRead => live c d /\ remaining cli c input k /\ running w s.2
  | MQuit => live c d /\ running w s.2
  | MJoinThread was => leaving c was d /\ running w s.2
  | MStopWriter code => gone c /\ code_ok code d k /\ running w s.2
  | MWaitWriter code => gone c /\ code_ok code d k /\ running w s.2 /\ goes_on w = false
  | MDone code => gone c /\ code_ok code d k /\ written w s
  end.

Definition inv (p : Program OS) : Prop := exists k j d, traffic (p_shared p) k j d /\ stage p k d.

(** How far the program is from its end, and the thread whose step brings it closer. *)
Definition left (p : Program OS) : nat :=
  let '(mkProgram cli c w s input phase) := p in
  match phase with
  | MStart => 2 * length input + 15
  | MConnect => 2 * length input + 14
  | MNickname => 2 * length input + 13
  | MReadNickname => 2 * length input + 12
  | MHelp => 2 * length input + 11
  | MPrompt => 2 * length input + 10
  | MRead => 2 * length input + 9
  | MQuit => 8
  | MJoinThread _ => 5 + recv_rank c
  | MStopWriter _ => 4
  | MWaitWriter _ => 1 + rank (cw_thread w)
  | MDone _ => 0
  end.

Definition mover (p : Program OS) : MainEvent :=
  let '(mkProgram cli c w s input phase) := p in
  match phase with
  | MJoinThread _ => if decide (recv_rank c = O) then MUser else MRecv
  | MWaitWriter _ => if decide (rank (cw_thread w) = O) then MUser else MWriter
  | _ => MUser
  end.

(** A step keeps the invariant and brings the end no further away, and one of the mover
    brings it closer. *)
Definition moves (e : MainEvent) (p p' : Program OS) : Prop :=
  inv p' /\ (left p' <= left p)%nat /\ (e = mover p -> left p <> O -> (left p' < left p)%nat) /\
  (left p' = left p -> mover p' = mover p).

Lemma moves_still e p : inv p -> e <> mover p \/ left p = O -> moves e p p.
Proof. intros Hi He. split; [done|]. split; [done|]. split; [|done]. intros -> Hl. by destruct He. Qed.

Lemma moves_closer e p p' : inv p' -> (left p' < left p)%nat -> moves e p p'.
Proof. intros Hi Hl. split; [done|]. split; [lia|]. split; [done|]. lia. Qed.

Lemma rank_le (th : WriterThread) : (rank th <= 2)%nat.
Proof. destruct th; cbn; lia. Qed.

Abbreviation step := (main_step EnumNameErrorCode EnumNameMessageType).

Lemma stage_running (p : Program OS) k d :
  stage p k d -> cw_thread (p_writer p) <> WNone -> running (p_writer p) (p_shared p).2.
Proof. destruct p as [cli c w s input []]; cbn; tauto || (intros (? & ? & Ht & _) ?; contradiction) || tauto. Qed.

Lemma writer_moves (p : Program OS) : inv p -> exists p', step MWriter p = Some p' /\ moves MWriter p p'.
Proof.
  intros (k & j & d & Htr & Hst). destruct p as [cli c w s input phase]. cbn [p_shared] in Htr. cbn [main_step].
  assert (cw_thread w = WNone \/ cw_thread w <> WNone) as [Ht|Ht] by (destruct (cw_thread w); (by left) || by right).
  - unfold Client_step. rewrite Ht. cbn [mbind option_bind]. destruct s as [m os]. eexists; split; [done|].
    apply moves_still; [by exists k, j, d|]. left. destruct phase; cbn [mover]; try done; [by case_decide|]. by rewrite Ht.
  - pose proof (stage_running _ k d Hst Ht) as Hrun. cbn [p_writer p_shared] in Hrun.
    destruct (writer_turn w s.1 s.2 Hrun) as (w' & m' & os' & -> & Hrun' & (Hsame & Hne & Hrank) & Hsee).
    cbn [mbind option_bind]. eexists; split; [done|]. split.
    + exists k, j, d. split; [eapply traffic_see; [|exact Htr]; by destruct s|].
      destruct phase; cbn [stage] in *; try tauto. by destruct Hst as (_ & _ & Hw & _).
    + destruct phase; cbn [left mover] in *; try (split; [lia|]; split; [done|done]).
      * split; [lia|]. split; [by case_decide|done].
      * destruct Hst as (_ & _ & _ & Hg). destruct (Hrank Hg) as [_ Hr]. rewrite Hr. split; [lia|].
        repeat case_decide; split; try done; intros; lia.
Qed.

(** *** The receiving thread *)

Lemma recv_idle c s (l : ConsoleState) : _recvThread c = RNone -> recv_step true show c s l = Some (c, s, l).
Proof. intros Hr. unfold recv_step. by rewrite Hr. Qed.

Lemma console_fields console cli : _nickname (cli {{ _console := console }}) = _nickname cli /\ _joined (cli {{ _console := console }}) = _joined cli.
Proof. by destruct cli. Qed.

Lemma recv_moves (p : Program OS) : inv p -> exists p', step MRecv p = Some p' /\ moves MRecv p p'.
Proof.
  intros (k & j & d & Htr & Hst). destruct p as [cli c w s input phase]. cbn [p_shared] in Htr. cbn [main_step].
  assert (_recvThread c = RNone -> exists p',
    ('(c, s, console) ← recv_step true show c s (_console cli);
     Some (mkProgram (cli {{ _console := console }}) c w s input phase)) = Some p' /\ moves MRecv (mkProgram cli c w s input phase) p') as Hidle.
  { intros Hr. rewrite recv_idle by done. cbn [mbind option_bind].
    assert (cli {{ _console := _console cli }} = cli) as -> by (by destruct cli).
    eexists; split; [done|]. apply moves_still; [by exists k, j, d|]. left. unfold recv_rank.
    destruct phase; cbn [mover]; try done; [unfold recv_rank; by rewrite Hr|by case_decide]. }
  assert (live c d -> exists c' s' console j' d', recv_step true show c s (_console cli) = Some (c', s', console) /\
    live c' d' /\ traffic s' k j' d' /\ _nextSequence c' = _nextSequence c /\ (_isConnected c' = true -> _isConnected c = true) /\
    same_file s.2 s'.2) as Hlive.
  { intros Hl. destruct (recv_live c s k j d (_console cli) Hl Htr) as (c' & s' & console & j' & d' & Hr & ? & ? & ? & ?).
    exists c', s', console, j', d'. do 5 (split; [done|]). by eapply recv_step_file. }
  destruct phase; cbn [stage] in Hst; try (apply Hidle; (destruct Hst as ((_ & _ & ? & _) & _) || destruct Hst as ((_ & _ & ?) & _)); done).
  1, 2: destruct Hst as (Hl & (U1 & U2 & U3) & -> & Hrun).
  3, 4, 5: destruct Hst as (Hl & Hrem & Hrun).
  6: destruct Hst as (Hl & Hrun).
  1-6: destruct (Hlive Hl) as (c' & s' & console & j' & d' & -> & Hl' & Htr' & Hn & Hc & Hf); cbn [mbind option_bind];
    (eexists; split; [done|]); (split; [|split; [done|split; [done|done]]]);
    destruct (console_fields console cli) as [E1 E2]; pose proof (running_file _ _ _ Hf Hrun) as Hrun'.
  1, 2: exists O, j', d'; split; [done|]; cbn [stage]; split; [done|]; split; [split; [congruence|]; split; [congruence|done]|done].
  1, 2, 3: exists k, j', d'; split; [done|]; cbn [stage]; split; [done|]; split; [|done]; intros E; rewrite E1, E2, Hn; auto.
  1: by exists k, j', d'.
  destruct Hst as [Hl Hrun].
  destruct (recv_leaving c wasConnected s k j d (_console cli) Hl Htr) as (c' & s' & d' & Hr & Hl' & Htr' & Hrank).
  pose proof (recv_step_file _ _ _ _ _ _ _ Hr) as Hf. rewrite Hr. cbn [mbind option_bind]. eexists; split; [done|].
  split; [exists k, j, d'; split; [done|]; split; [done|by eapply running_file]|]. cbn [left mover].
  split; [lia|]. repeat case_decide; split; try done; intros; lia.
Qed.

(** *** The user's thread *)

Lemma ReadNickname_fields input cli :
  _nickname (ReadNickname (head input) cli) = nickname_of input /\ _joined (ReadNickname (head input) cli) = _joined cli.
Proof. unfold ReadNickname. destruct cli. by destruct input as [|[|] input]. Qed.

(** A step to the next phase with less left. *)
Lemma advances (p p' : Program OS) k j d :
  traffic (p_shared p') k j d -> stage p' k d -> (left p' < left p)%nat -> moves MUser p p'.
Proof. intros. apply moves_closer; [by exists k, j, d|done]. Qed.

Lemma start_moves cli c w s input k j d :
  traffic s k j d -> stage (mkProgram cli c w s input MStart) k d ->
  exists p', user_step (mkProgram cli c w s input MStart) = Some p' /\ moves MUser (mkProgram cli c w s input MStart) p'.
Proof.
  intros Htr (Hf & Hu & -> & -> & He & Hr & Ht & Hfile). cbn [user_step].
  destruct (writer_starts w s.1 s.2 He Hr Hfile) as (w' & m' & os' & -> & Hrun & Hsee). cbn [mbind option_bind].
  eexists; split; [done|]. apply (advances _ _ 0 j 0); [|done|cbn; lia].
  eapply traffic_see; [|exact Htr]. by destruct s.
Qed.

Lemma connect_moves cli c w s input k j d :
  traffic s k j d -> stage (mkProgram cli c w s input MConnect) k d ->
  exists p', user_step (mkProgram cli c w s input MConnect) = Some p' /\ moves MUser (mkProgram cli c w s input MConnect) p'.
Proof.
  intros Htr (Hf & (U1 & U2 & U3) & -> & -> & Hrun). cbn [user_step]. unfold ChatClient_Connect.
  pose proof Hf as (Hrel & Hcon & Hth & Hst & Hseq & Hto). rewrite Hcon. cbn [mbind option_bind].
  destruct (Connect_fresh_spec ipAddress port c s Hf) as (c' & s' & ok & Hc & Hsee & Hok).
  pose proof (Connect_fresh_file ipAddress port c s) as Hfile. rewrite Hc in *. cbn [fst snd] in Hfile.
  pose proof (running_file _ _ _ Hfile Hrun) as Hrun'. apply (traffic_see _ s') in Htr; [|done]. destruct ok.
  - eexists; split; [done|]. destruct Hok as (Hps' & (t & Ht & Hup) & Hcon' & Hth' & Hst' & Hseq' & Hto').
    apply (advances _ _ 0 j 0); [done| |cbn; lia]. cbn [stage].
    assert (live (StartRecvLoop c') 0 /\ _nextSequence (StartRecvLoop c') = 1) as [Hl Hs1].
    { unfold live, timeout_fits in *. destruct c'. cbn in *. subst. split; [|done]. do 3 (split; [done|]). by exists t. }
    split; [done|]. by split.
  - subst c'. assert (gone c) as Hgone by (by split). rewrite destroy_gone by done. cbn [mbind option_bind].
    eexists; split; [done|]. apply (advances _ _ 0 j 0); [done| |cbn; lia]. cbn [stage]. split; [done|]. split; [by right|done].
Qed.

Lemma read_moves cli c w s input k j d :
  traffic s k j d -> stage (mkProgram cli c w s input MRead) k d ->
  exists p', user_step (mkProgram cli c w s input MRead) = Some p' /\ moves MUser (mkProgram cli c w s input MRead) p'.
Proof.
  intros Htr (Hl & Hrem & Hrun). cbn [user_step]. cbv zeta. destruct input as [|line input].
  - eexists; split; [done|]. by apply (advances _ _ k j d); [| |cbn; lia].
  - assert (remaining (cli {{ _console ::= HidePrompt }}) c (line :: input) k) as Hrem' by (unfold remaining in *; by destruct cli).
    destruct (handle_line_live line input _ c s k j d Hl Htr Hrem') as (cli' & c' & s' & action & k' & Hh & Hl' & Htr' & Hnext).
    pose proof (handle_line_file _ _ _ _ _ _ _ _ Hh) as Hf. rewrite Hh. cbn [mbind option_bind].
    eexists; split; [done|]. pose proof (running_file _ _ _ Hf Hrun).
    destruct action; (apply (advances _ _ k' j d); [done| |cbn; lia]); [split; [done|]; split; [by apply Hnext|done]|done].
Qed.

Lemma join_moves cli c w s input was k j d :
  traffic s k j d -> stage (mkProgram cli c w s input (MJoinThread was)) k d ->
  exists p', user_step (mkProgram cli c w s input (MJoinThread was)) = Some p' /\
    moves MUser (mkProgram cli c w s input (MJoinThread was)) p'.
Proof.
  intros Htr Hstage. pose proof Hstage as [Hl Hrun]. cbn [user_step]. destruct (decide (recv_rank c = O)) as [Hr|Hr].
  - destruct (leave_end c was s k j d Hl Htr Hr) as (c' & s' & d' & He & Hg & Htr' & Hd).
    pose proof (Disconnect_end_file _ _ _ _ _ _ He) as Hf. rewrite He, destroy_gone by done. cbn [mbind option_bind].
    eexists; split; [done|]. apply (advances _ _ k j d'); [done| |cbn; lia].
    split; [done|]. split; [by left|by eapply running_file].
  - rewrite (leave_waits c was s d Hl Hr). eexists; split; [done|]. apply moves_still; [by exists k, j, d|].
    left. cbn [mover]. by case_decide.
Qed.

Lemma wait_moves cli c w s input code k j d :
  traffic s k j d -> stage (mkProgram cli c w s input (MWaitWriter code)) k d ->
  exists p', user_step (mkProgram cli c w s input (MWaitWriter code)) = Some p' /\
    moves MUser (mkProgram cli c w s input (MWaitWriter code)) p'.
Proof.
  intros Htr Hstage. pose proof Hstage as (Hg & Hcode & Hrun & Hgo). cbn [user_step].
  destruct (decide (rank (cw_thread w) = O)) as [Hr|Hr].
  - assert (cw_thread w = WEnded) as Ht by (destruct Hrun as (_ & _ & Hne & _); by destruct (cw_thread w)).
    destruct (writer_finishes w s Hrun Ht) as (w' & m' & os' & -> & Hw & Hsee). cbn [mbind option_bind].
    eexists; split; [done|]. apply (advances _ _ k j d); [by eapply traffic_see|by split_and!|cbn; lia].
  - unfold Client_Stop_end. destruct (cw_thread w) eqn:Ht; try done; cbn [mbind option_bind];
      (eexists; split; [done|]; apply moves_still; [by exists k, j, d|]; left; cbn [mover]; by rewrite Ht).
Qed.

Lemma user_moves (p : Program OS) : inv p -> exists p', step MUser p = Some p' /\ moves MUser p p'.
Proof.
  intros (k & j & d & Htr & Hst). destruct p as [cli c w s input phase]. cbn [p_shared] in Htr. cbn [main_step].
  destruct phase; [by eapply start_moves|by eapply connect_moves| | | | |by eapply read_moves| |by eapply join_moves| |
    by eapply wait_moves|]; cbn [user_step stage] in *.
  - destruct Hst as (Hl & (U1 & U2 & U3) & -> & Hrun). eexists; split; [done|]. apply (advances _ _ 0 j d); [done| |cbn; lia].
    split; [done|]. split; [|done]. split; [by destruct cli|done].
  - destruct Hst as (Hl & (U1 & U2 & U3) & -> & Hrun). eexists; split; [done|].
    apply (advances _ _ 0 j d); [done| |cbn; destruct input; cbn; lia]. split; [done|]. split; [|done]. intros _.
    destruct (ReadNickname_fields input cli) as [-> ->]. by rewrite U1, U2, U3.
  - destruct Hst as (Hl & Hrem & Hrun). eexists; split; [done|]. apply (advances _ _ k j d); [done| |cbn; lia].
    split; [done|]. split; [|done]. unfold remaining in *. by destruct (PrintHelp_fields cli) as [-> ->].
  - destruct Hst as (Hl & Hrem & Hrun). eexists; split; [done|]. apply (advances _ _ k j d); [done| |cbn; lia].
    split; [done|]. split; [|done]. unfold remaining in *. by destruct cli.
  - destruct Hst as (Hl & Hrun). destruct (leave_begin c s d Hl) as (c' & s' & was & Hb & Hl' & Hsee).
    pose proof (Disconnect_begin_file c s) as Hf. rewrite Hb in *. cbn [fst snd] in Hf. eexists; split; [done|].
    apply (advances _ _ k j d); [by eapply traffic_see|split; [done|by eapply running_file]|].
    cbn. unfold recv_rank. destruct (_recvThread c'); lia.
  - destruct Hst as (Hg & Hcode & Hrun). destruct (writer_stops w s.2 Hrun) as (w' & -> & Hrun' & Hgo).
    eexists; split; [done|]. apply (advances _ _ k j d); [done|by split_and!|]. cbn. pose proof (rank_le (cw_thread w')). lia.
  - eexists; split; [done|]. apply moves_still; [by exists k, j, d|by right].
Qed.

(** *** Every run *)

Lemma event_moves e (p : Program OS) : inv p -> exists p', step e p = Some p' /\ moves e p p'.
Proof. destruct e; [apply user_moves|apply recv_moves|apply writer_moves]. Qed.

Lemma run_moves es : forall p : Program OS, inv p ->
  exists p', main_run EnumNameErrorCode EnumNameMessageType es p = Some p' /\ inv p' /\ (left p' <= left p)%nat /\
    (mover p ∈ es -> left p <> O -> (left p' < left p)%nat).
Proof.
  induction es as [|e es IH]; intros p Hp; [exists p; split_and!; [done..|]; by intros ?%not_elem_of_nil|].
  cbn [main_run]. destruct (event_moves e p Hp) as (p1 & -> & Hp1 & Hle & Hlt & Hsame). cbn [mbind option_bind].
  destruct (IH p1 Hp1) as (p2 & Hrun & Hp2 & Hle2 & Hlt2). exists p2. split; [done|]. split; [done|]. split; [lia|].
  intros [He|Hin]%elem_of_cons Hne; [specialize (Hlt (eq_sym He) Hne); lia|].
  destruct (decide (left p1 = left p)) as [Heq|]; [|lia]. rewrite <-(Hsame Heq) in Hin. specialize (Hlt2 Hin). lia.
Qed.

(** A schedule with [n] rounds: parts in each of which every thread takes a step. *)
Inductive rounds : nat -> list MainEvent -> Prop :=
  | rounds_0 es : rounds O es
  | rounds_S n es es' : MUser ∈ es -> MRecv ∈ es -> MWriter ∈ es -> rounds n es' -> rounds (S n) (es ++ es').

Lemma rounds_end n es : rounds n es -> forall p : Program OS, inv p ->
  exists p', main_run EnumNameErrorCode EnumNameMessageType es p = Some p' /\ inv p' /\ (left p' <= left p - n)%nat.
Proof.
  induction 1 as [es|n es es' Hu Hr Hw _ IH]; intros p Hp.
  - destruct (run_moves es p Hp) as (p' & Hrun & Hp' & Hle & _). exists p'. split_and!; [done|done|lia].
  - destruct (run_moves es p Hp) as (p1 & Hrun & Hp1 & Hle & Hlt). destruct (IH p1 Hp1) as (p2 & Hrun2 & Hp2 & Hle2).
    exists p2. rewrite main_run_app, Hrun. cbn [mbind option_bind]. split; [done|]. split; [done|].
    specialize (Hlt ltac:(by destruct (mover p))). lia.
Qed.

Lemma stage_bounds (p : Program OS) k d : stage p k d -> 0 <= d <= 2.
Proof.
  assert (forall c, live c d -> 0 <= d <= 2) as Hlive
    by (intros c (_ & _ & _ & t & _ & Hc); destruct (_isConnected c); lia).
  assert (forall code, code_ok code d k -> 0 <= d <= 2) as Hcode by (unfold code_ok; lia).
  destruct p as [cli c w s input []]; cbn [stage]; intros Hst.
  1, 2: lia.
  1-6: apply (Hlive c); tauto.
  - destruct Hst as [(_ & _ & _ & _ & Hth) _]. destruct (_recvThread c), wasConnected; try done; lia.
  - apply (Hcode code); tauto.
  - apply (Hcode code); tauto.
  - apply (Hcode code); tauto.
Qed.
End Run.

(** *** The user alone *)

(** With no other thread in between, the steps from the help to the end of the prompt are
    [ChatCli::Run] (ChatClient.v). *)
Lemma user_alone_loop {OS} `{WinSock OS} `{Process OS} `{Host OS} `{UMapOrder} `{FlatBuffers} `{ConsoleApi} e1 e2 w input :
  forall (cli : ChatCli) c (s : Metrics * OS) cli' c' s', ChatCli_loop true input cli c s = Some (cli', c', s') ->
  exists k rest, (k <= 2 * length input + 2)%nat /\
    main_run e1 e2 (replicate k MUser) (mkProgram cli c w s input MPrompt) = Some (mkProgram cli' c' w s' rest MQuit).
Proof.
  induction input as [|line input IH]; intros cli c s cli' c' s'; cbn [ChatCli_loop].
  { intros [= <- <- <-]. by exists 2%nat, []. }
  cbv zeta. destruct (handle_line true line _ c s) as [[[[cli1 c1] s1] action]|] eqn:Hh; [|done]. cbn [mbind option_bind].
  destruct action.
  - intros (k & rest & Hk & Hrun)%IH. exists (S (S k)), rest. split; [cbn; lia|].
    cbn [replicate main_run main_step user_step mbind option_bind]. cbv zeta. by rewrite Hh.
  - intros [= <- <- <-]. exists 2%nat, input. split; [cbn; lia|].
    cbn [replicate main_run main_step user_step mbind option_bind]. cbv zeta. by rewrite Hh.
Qed.

Lemma user_alone {OS} `{WinSock OS} `{Process OS} `{Host OS} `{UMapOrder} `{FlatBuffers} `{ConsoleApi} e1 e2 w input
    (cli : ChatCli) c (s : Metrics * OS) cli' c' s' :
  ChatCli_Run true input cli c s = Some (cli', c', s') ->
  exists k rest, (k <= 2 * length input + 3)%nat /\
    main_run e1 e2 (replicate k MUser) (mkProgram cli c w s input MHelp) = Some (mkProgram cli' c' w s' rest MQuit).
Proof. intros (k & rest & Hk & Hrun)%(user_alone_loop e1 e2 w). exists (S k), rest. by split; [lia|]. Qed.

(** C5: a run of the whole chat client, on a system ([ClientHost]) where a connection that
    was made delivers what is sent until the peer closes it, where files and directories can
    be created and written, and threads started.  Let the client's metrics be enabled with a
    response timeout that is below 2^63 nanoseconds (a longer one, which the configuration
    accepts, makes the first tracked request undefined), let the server send packets it
    makes, of at most a frame's size and read back by FlatBuffers, and let the lines the user types stand for packets
    shorter than 2^32 bytes.  Then under every interleaving of the threads of the user, the receiver and the metrics writer, [main]
    is defined; at any time what was sent is a prefix of the packets the lines stand for
    and what was received a prefix of what the server sent, and the metrics count
    exactly these, and at most two disconnections.  [main] returns: after as many rounds
    of steps as are needed for the lines typed, both threads are joined, the socket and the
    session are released, and the log, the manifest and the summary are in their files,
    where the last snapshot shows the final counts; with code 0 and a disconnection
    counted, or, if no connection could be made, with code -1 and nothing sent. *)
Theorem client_program {OS} `{ClientHost OS} `{UMapOrder} `{FlatBuffers} `{ConsoleApi} EnumNameErrorCode EnumNameMessageType
    env debug input ps (os : OS) n es :
  let ts := typed (nickname_of input) false 1 (tail input) in
  cc_enabled (ClientConfig_FromEnvironment env) = true ->
  cc_responseTimeout (ClientConfig_FromEnvironment env) * 1000000 < 2 ^ 63 ->
  Forall (fun p => zlen (fb_finish p) < 2 ^ 32) ts ->
  Forall receivable ps -> Forall server_packet ps -> incoming os = frames (fb_finish <$> ps) ->
  rounds n es ->
  exists p k j d a,
    main_run EnumNameErrorCode EnumNameMessageType es (main_setup env debug input os) = Some p /\
    (k <= length ts)%nat /\ outgoing (p_shared p).2 = outgoing os ++ frames (fb_finish <$> take k ts) /\
    (j <= length ps)%nat /\ incoming (p_shared p).2 = frames (fb_finish <$> drop j ps) /\
    (p_shared p).1 = inl a /\ counts a = (u64 (Z.of_nat k), u64 (Z.of_nat j), u64 (Z.of_nat j), 0, d) /\ 0 <= d <= 2 /\
    ((2 * length input + 15 <= n)%nat -> exists code,
       p_phase p = MDone code /\ gone (p_client p) /\ code_ok code d k /\ written os (p_writer p) (p_shared p)).
Proof.
  intros ts He Hto Hts Hps Hserver Hin Hrounds.
  assert (inv ps ts (outgoing os) os (main_setup env debug input os)) as Hinv.
  { exists O, O, 0. unfold main_setup. rewrite He. split.
    - split; [|split; apply Nat.le_0_l]. unfold see, streams. cbn [fst snd p_shared drop take]. rewrite Hin. cbn. by rewrite app_nil_r.
    - split; [done|]. split; [done|]. split; [done|]. split; [done|]. split; [|done].
      unfold ClientMetricsWriter_make. cbn [cw_config]. case_bool; by destruct (ClientConfig_FromEnvironment env). }
  destruct (rounds_end EnumNameErrorCode EnumNameMessageType ps ts (outgoing os) os Hps Hserver Hts n es Hrounds _ Hinv)
    as (p & Hrun & (k & j & d & Htr & Hst) & Hleft).
  assert (0 <= d <= 2) as Hd by (by eapply stage_bounds).
  assert (incoming (p_shared p).2 = frames (fb_finish <$> drop j ps) /\
    outgoing (p_shared p).2 = outgoing os ++ frames (fb_finish <$> take k ts)) as [Hi Ho] by (by eapply traffic_streams).
  destruct Htr as (Hsee & Hk & Hj). unfold see in Hsee. apply (f_equal fst) in Hsee. cbn [fst] in Hsee.
  destruct (p_shared p).1 as [a|b] eqn:Ha; [|done]. apply (inj Some) in Hsee.
  exists p, k, j, d, a. do 8 (split; [done|]). intros Hn.
  assert (left p = O) as Hl0 by (cbn [main_setup left] in Hleft; lia).
  destruct p as [cli c w s inp phase]. cbn [left] in Hl0.
  destruct phase; try lia. exists code. cbn [stage] in Hst. by destruct Hst as (? & ? & ?).
Qed.

(** ** A run *)

Section RunWitness.
Definition demo_input : list string := ["alice"; "/join"; "hi"; "/quit"].
#[local] Instance run_codec : FlatBuffers := book_codec (demo_reply ++ typed "alice" false 1 (tail demo_input)).
#[local] Instance run_console : ConsoleApi := redirected.

Definition demo_os : ClientOS :=
  mkClientOS (mkStreamOS (frames (fb_finish <$> demo_reply)) [] [2; 0; 1]%nat) (mkFileOS (fun _ => None) 17000000001234567).

Definition demo_rounds : list MainEvent := concat (replicate 23 [MUser; MRecv; MWriter]).

Lemma demo_rounds_ok n : rounds n (concat (replicate n [MUser; MRecv; MWriter])).
Proof.
  induction n as [|n IH]; cbn [replicate concat]; [constructor|].
  by apply (rounds_S n [MUser; MRecv; MWriter]); [rewrite !elem_of_cons; tauto..|].
 Qed.

(** On this system the connection is made, and everything is sent and received. *)
Example demo_run :
  option_map (fun p => (p_phase p, length (so_in (co_stream (p_shared p).2)),
    match (p_shared p).1 with inl a => counts a | inr _ => (0, 0, 0, 0, 0) end))
    (main_run (fun _ => ""%string) (fun _ => ""%string) demo_rounds (main_setup (fun _ => None) false demo_input demo_os)) =
  Some (MDone 0, O, (2, 3, 3, 0, 1)).
Proof. vm_compute. reflexivity. Qed.

Lemma client_program_witness :
  exists p code a k d,
    main_run (fun _ => ""%string) (fun _ => ""%string) demo_rounds (main_setup (fun _ => None) false demo_input demo_os) = Some p /\
    p_phase p = MDone code /\ code_ok code d k /\ (p_shared p).1 = inl a /\ c_disconnectTotal a = d.
Proof.
  destruct (client_program (fun _ => ""%string) (fun _ => ""%string) (fun _ => None) false demo_input demo_reply demo_os 23 demo_rounds)
    as (p & k & j & d & a & Hrun & _ & _ & _ & _ & Ha & Hc & _ & Hend).
  - reflexivity.
  - reflexivity.
  - repeat (apply List.Forall_cons; [by vm_compute|]). constructor.
  - repeat (apply List.Forall_cons; [by vm_compute|]). constructor.
  - repeat constructor.
  - reflexivity.
  - exact (demo_rounds_ok 23).
  - destruct Hend as (code & Hp & _ & Hcode & _); [vm_compute; lia|].
    exists p, code, a, k, d. unfold counts in Hc. injection Hc as _ _ _ _ Hd. by split_and!.
Defined.
End RunWitness.
