(* ===== verification/NetClient.v ===== *)
(** * net::Client: one connection slot

    [network/inc/client/windows/Client.h], [OverlappedExt.h],
    [network/src/client/windows/Client.cpp].

    A [std::function<void()>] member is an [option (W -> W)], where [W] is the
    state its closure reaches (the lifecycle's counter and the metrics); calling
    an empty one is guarded in the source by a test, and by [emit] here.  The
    overlapped structures keep the fields the program reads or writes: the I/O
    kind, the length of the descriptor and the buffer. *)

From S2P Require Import Prelude Errors Platform FrameBuffer.
From stdpp Require Import base list strings option.
From coqutil Require Import Byte Datatypes.RecordSetters.
Import DoubleBraceUpdate.
Open Scope Z_scope.

(** [if (f) { f(); }] for a [std::function<void()>]. *)
Definition emit {W} (f : option (W -> W)) (w : W) : W :=
  match f with Some f => f w | None => w end.

(** @src network/inc/client/windows/OverlappedExt.h 43-49 RecvOverlapped *)
Record RecvOverlapped := mkRecvOverlapped {
  recv_ioType : EIoType; recv_len : Z; recv_buf : list byte }.

(** @src network/inc/client/windows/OverlappedExt.h 23-41 SendOverlapped *)
Record SendOverlapped := mkSendOverlapped {
  send_ioType : EIoType; send_len : Z; send_buf : list byte }.

(** @src network/inc/client/windows/Client.h 26-33 Client::EventCallbacks *)
Record ClientCallbacks (W : Type) := mkClientCallbacks {
  onConnected : option (W -> W);
  onDisconnected : option (W -> W);
  onRecvPosted : option (W -> W);
  onRecvPostFailed : option (W -> W);
  onSendPosted : option (W -> W);
  onSendPostFailed : option (W -> W) }.

Arguments mkClientCallbacks {W}.
Arguments onConnected {W}.
Arguments onDisconnected {W}.
Arguments onRecvPosted {W}.
Arguments onRecvPostFailed {W}.
Arguments onSendPosted {W}.
Arguments onSendPostFailed {W}.

Definition ClientCallbacks_none {W} : ClientCallbacks W :=
  mkClientCallbacks None None None None None None.

(** @src network/inc/client/windows/Client.h 89-101 Client *)
Record Client (W : Type) := mkClient {
  socket : Z;
  recvOverlapped : RecvOverlapped;
  sendOverlapped : SendOverlapped;
  _frameBuf : FrameBuffer;
  _callbacks : ClientCallbacks W;
  _connectionEstablished : bool;
  _connectionEventCounted : bool }.

Arguments mkClient {W}.
Arguments socket {W}.
Arguments recvOverlapped {W}.
Arguments sendOverlapped {W}.
Arguments _frameBuf {W}.
Arguments _callbacks {W}.
Arguments _connectionEstablished {W}.
Arguments _connectionEventCounted {W}.

Section Client.
Context {OS W : Type} `{WinSock OS}.
Implicit Types (c : Client W) (os : OS) (w : W).

(** The constructor zeroes both overlapped structures, so the I/O kind is the
    enumerator 0, [Accept], until an operation is posted. *)
(** @src network/src/client/windows/Client.cpp 6-9 Client::Client *)
Definition Client_init : Client W :=
  {| socket := InvalidSocket;
     recvOverlapped := mkRecvOverlapped IoAccept 0 (replicate (Z.to_nat recvBufferSize) Byte.x00);
     sendOverlapped := mkSendOverlapped IoAccept 0 (replicate (Z.to_nat sendBufferSize) Byte.x00);
     _frameBuf := FrameBuffer_init;
     _callbacks := ClientCallbacks_none;
     _connectionEstablished := false;
     _connectionEventCounted := false |}.

(** @src network/src/client/windows/Client.cpp 15-17 Client::UseCallbacks *)
Definition Client_UseCallbacks (callbacks : ClientCallbacks W) c : Client W :=
  c {{ _callbacks := callbacks }}.

(** @src network/inc/client/windows/Client.h 86-86 Client::IsConnected *)
Definition IsConnected c : bool := negb (socket c =? InvalidSocket).

(** @src network/src/client/windows/Client.cpp 24-33 Client::EmitConnectedEvent *)
Definition EmitConnectedEvent c w : Client W * W :=
  if negb (_connectionEstablished c) || _connectionEventCounted c then (c, w)
  else
    let c := c {{ _connectionEventCounted := true }} in
    (c, emit (onConnected (_callbacks c)) w).

(** @src network/src/client/windows/Client.cpp 19-22 Client::MarkConnectionEstablished *)
Definition MarkConnectionEstablished c w : Client W * W :=
  EmitConnectedEvent (c {{ _connectionEstablished := true }}) w.

(** @src network/src/client/windows/Client.cpp 35-47 Client::EmitDisconnectedEvent *)
Definition EmitDisconnectedEvent c w : Client W * W :=
  if negb (_connectionEstablished c) || negb (_connectionEventCounted c) then
    (c {{ _connectionEstablished := false; _connectionEventCounted := false }}, w)
  else
    let c := c {{ _connectionEventCounted := false; _connectionEstablished := false }} in
    (c, emit (onDisconnected (_callbacks c)) w).

(** @src network/src/client/windows/Client.cpp 49-53 Client::EmitRecvPosted *)
Definition EmitRecvPosted c w : W := emit (onRecvPosted (_callbacks c)) w.

(** @src network/src/client/windows/Client.cpp 55-59 Client::EmitRecvPostFailed *)
Definition EmitRecvPostFailed c w : W := emit (onRecvPostFailed (_callbacks c)) w.

(** @src network/src/client/windows/Client.cpp 61-65 Client::EmitSendPosted *)
Definition EmitSendPosted c w : W := emit (onSendPosted (_callbacks c)) w.

(** @src network/src/client/windows/Client.cpp 67-71 Client::EmitSendPostFailed *)
Definition EmitSendPostFailed c w : W := emit (onSendPostFailed (_callbacks c)) w.

(** [result == SOCKET_ERROR && WSAGetLastError() != ERROR_IO_PENDING]. *)
Definition post_failed (r : sysret) : bool :=
  (ret r =? SocketError) && negb (lastError r =? ERROR_IO_PENDING).

(** @src network/src/client/windows/Client.cpp 73-97 Client::PostRecv *)
Definition PostRecv c os w : Client W * OS * W * ResultVoid ENetworkError :=
  let c := c {{ recvOverlapped ::= fun o =>
                  mkRecvOverlapped IoRecv (zlen (recv_buf o)) (recv_buf o) }} in
  let '(os, result) := os_call (SysWSARecv (socket c) (recv_len (recvOverlapped c))) os in
  if post_failed result then (c, os, EmitRecvPostFailed c w, Err WsaRecvFailed)
  else (c, os, EmitRecvPosted c w, OkVoid).

(** [CopyMemory] is not guarded by the size of the buffer. *)
(** @src network/src/client/windows/Client.cpp 99-125 Client::PostSend *)
Definition PostSend (data : list byte) c os w : ub (Client W * OS * W * ResultVoid ENetworkError) :=
  let len := u32 (zlen data) in
  buf ← memcpy_at (send_buf (sendOverlapped c)) 0 (take (Z.to_nat len) data);
  let c := c {{ sendOverlapped := mkSendOverlapped IoSend len buf }} in
  let '(os, result) := os_call (SysWSASend (socket c) (take (Z.to_nat len) buf)) os in
  Some (if post_failed result then (c, os, EmitSendPostFailed c w, Err WsaSendFailed)
        else (c, os, EmitSendPosted c w, OkVoid)).

(** The frame buffer is not touched. *)
(** @src network/src/client/windows/Client.cpp 127-151 Client::Close *)
Definition Close (isFireAndForget : bool) c os w : Client W * OS * W :=
  let '(c, w) := EmitDisconnectedEvent c w in
  if socket c =? InvalidSocket then (c, os, w)
  else
    let '(os, _) := os_call (SysShutdown (socket c)) os in
    let '(os, _) := os_call (SysClosesocket (socket c)) os in
    (c {{ socket := InvalidSocket }}, os, w).

(** @src network/src/client/windows/Client.cpp 11-13 Client::~Client *)
Definition Client_destroy c os w : OS * W :=
  let '(_, os, w) := Close true c os w in (os, w).

(** ** Invariant *)

(** The buffers keep their size and a counted connection is established. *)
Definition Client_inv c : Prop :=
  zlen (recv_buf (recvOverlapped c)) = recvBufferSize /\
  zlen (send_buf (sendOverlapped c)) = sendBufferSize /\
  FrameBuffer_inv (_frameBuf c) /\
  (_connectionEventCounted c = true -> _connectionEstablished c = true).

Lemma Client_init_inv : Client_inv Client_init.
Proof. split_and!; [done|done|apply FrameBuffer_init_inv|done]. Qed.

Lemma Client_UseCallbacks_inv cb c : Client_inv c -> Client_inv (Client_UseCallbacks cb c).
Proof. by destruct c. Qed.

Lemma EmitConnectedEvent_inv c w : Client_inv c -> Client_inv (EmitConnectedEvent c w).1.
Proof.
  intros (? & ? & ? & ?). unfold EmitConnectedEvent.
  destruct (_connectionEstablished c) eqn:?, (_connectionEventCounted c) eqn:?;
    split_and!; simpl; naive_solver.
Qed.

Lemma MarkConnectionEstablished_inv c w :
  Client_inv c -> Client_inv (MarkConnectionEstablished c w).1.
Proof.
  intros (? & ? & ? & ?). apply EmitConnectedEvent_inv. by split_and!.
Qed.

Lemma EmitDisconnectedEvent_spec c w :
  EmitDisconnectedEvent c w =
    (c {{ _connectionEstablished := false; _connectionEventCounted := false }},
     if _connectionEstablished c && _connectionEventCounted c
     then emit (onDisconnected (_callbacks c)) w else w).
Proof. unfold EmitDisconnectedEvent. by destruct c as [?????[] []]. Qed.

(** A slot after [Close], and what [Close] does to the callbacks' state. *)
Definition closed c : Client W :=
  c {{ _connectionEstablished := false; _connectionEventCounted := false;
       socket := InvalidSocket }}.

Definition disconnected_w c w : W :=
  if _connectionEstablished c && _connectionEventCounted c
  then emit (onDisconnected (_callbacks c)) w else w.

Lemma Close_client b c os w : (Close b c os w).1.1 = closed c.
Proof.
  unfold Close, closed. rewrite EmitDisconnectedEvent_spec. destruct c as [s ??????]; simpl.
  destruct (Z.eqb_spec s InvalidSocket) as [->|Hs]; simpl; [done|].
  destruct (os_call _ _) as [os1 ?]. by destruct (os_call _ _).
Qed.

Lemma Close_w b c os w : (Close b c os w).2 = disconnected_w c w.
Proof.
  unfold Close, disconnected_w. rewrite EmitDisconnectedEvent_spec. destruct c as [s ??????]; simpl.
  destruct (s =? InvalidSocket); [done|].
  destruct (os_call _ _) as [os1 ?]. by destruct (os_call _ _).
Qed.

Lemma Close_inv b c os w : Client_inv c -> Client_inv (Close b c os w).1.1.
Proof. intros (? & ? & ? & ?). rewrite Close_client. by split_and!. Qed.

(** A second [Close] does nothing: no system call, no event. *)
Lemma Close_idemp b b' c os w :
  let '(c1, os1, w1) := Close b c os w in Close b' c1 os1 w1 = (c1, os1, w1).
Proof.
  pose proof (Close_client b c os w) as Hc. destruct (Close b c os w) as [[c1 os1] w1].
  simpl in Hc. subst c1. reflexivity.
Qed.

Lemma PostRecv_client c os w :
  (PostRecv c os w).1.1.1 =
    c {{ recvOverlapped ::= fun o => mkRecvOverlapped IoRecv (zlen (recv_buf o)) (recv_buf o) }}.
Proof. unfold PostRecv. destruct (os_call _ _) as [? r]. by destruct (post_failed r). Qed.

Lemma PostRecv_inv c os w : Client_inv c -> Client_inv (PostRecv c os w).1.1.1.
Proof. intros (? & ? & ? & ?). rewrite PostRecv_client. by split_and!. Qed.

(** [PostSend] is defined exactly on the data that fit the send buffer. *)
Lemma PostSend_defined data c os w :
  Client_inv c -> zlen data < 2 ^ 32 ->
  is_Some (PostSend data c os w) <-> zlen data <= sendBufferSize.
Proof.
  intros (? & Hs & ? & ?) Hd. pose proof (zlen_nonneg data) as Hd0. unfold PostSend.
  rewrite wrap_small by lia. rewrite take_ge by (unfold zlen; lia).
  destruct (memcpy_at _ 0 data) as [buf|] eqn:Hm; simpl.
  - assert (zlen data <= sendBufferSize).
    { rewrite <-Hs. assert (memcpy_at (send_buf (sendOverlapped c)) 0 data <> None) as Hne by congruence.
      rewrite memcpy_at_None in Hne. lia. }
    split; [done|]. intros _. destruct (os_call _ _). by eexists.
  - apply memcpy_at_None in Hm. split; [by intros []|]. lia.
Qed.

(** What [PostSend] does with data that fit: the whole data go to [WSASend]. *)
Lemma PostSend_spec data c os w :
  Client_inv c -> zlen data <= sendBufferSize ->
  exists c', Client_inv c' /\ socket c' = socket c /\ _frameBuf c' = _frameBuf c /\
    _callbacks c' = _callbacks c /\
    _connectionEstablished c' = _connectionEstablished c /\
    _connectionEventCounted c' = _connectionEventCounted c /\
    PostSend data c os w =
      (let '(os', r) := os_call (SysWSASend (socket c) data) os in
       Some (if post_failed r then (c', os', EmitSendPostFailed c w, Err WsaSendFailed)
             else (c', os', EmitSendPosted c w, OkVoid))).
Proof.
  intros (? & Hs & ? & ?) Hd. pose proof (zlen_nonneg data) as Hd0. unfold PostSend.
  assert (sendBufferSize = 1024) as Hsz by done.
  rewrite wrap_small by lia. rewrite take_ge by (unfold zlen; lia).
  rewrite memcpy_at_Some by lia. simpl. replace (Z.to_nat (zlen data)) with (length data) by (unfold zlen; lia).
  rewrite take_app_length.
  eexists (mkClient _ _ (mkSendOverlapped IoSend (zlen data) _) _ _ _ _).
  split_and!; [..|destruct (os_call _ _); reflexivity]; try done.
  split_and!; try done. simpl. unfold zlen in *. rewrite length_app, length_drop. lia.
Qed.
End Client.

#[export] Hint Resolve Client_init_inv EmitConnectedEvent_inv MarkConnectionEstablished_inv
  Close_inv PostRecv_inv : highp.

(** ** Connection events

    The operations other components perform on a slot, in any order.  Recording
    the connection events shows what the [_connectionEstablished] and
    [_connectionEventCounted] flags are for. *)

Inductive ConnEvent := EvConnected | EvDisconnected.

Definition recording : ClientCallbacks (list ConnEvent) :=
  mkClientCallbacks (Some (fun l => l ++ [EvConnected])) (Some (fun l => l ++ [EvDisconnected]))
    None None None None.

(** [OpAssign] is [client->socket = ctx.acceptSocket]. *)
Inductive ClientOp :=
  | OpAssign (s : Z) | OpMark | OpPostRecv | OpPostSend (data : list byte) | OpClose (b : bool).

Definition client_step {OS W} `{WinSock OS} (st : Client W * OS * W) (op : ClientOp)
    : ub (Client W * OS * W) :=
  let '(c, os, w) := st in
  match op with
  | OpAssign s => Some (c {{ socket := s }}, os, w)
  | OpMark => let '(c, w) := MarkConnectionEstablished c w in Some (c, os, w)
  | OpPostRecv => let '(c, os, w, _) := PostRecv c os w in Some (c, os, w)
  | OpPostSend d => '(c, os, w, _) ← PostSend d c os w; Some (c, os, w)
  | OpClose b => Some (Close b c os w)
  end.

Definition client_run {OS W} `{WinSock OS} (st : Client W * OS * W) (ops : list ClientOp)
    : ub (Client W * OS * W) :=
  foldl (fun st op => s ← st; client_step s op) (Some st) ops.

(** The sends of the program fit the buffer. *)
Definition ClientOp_wf (op : ClientOp) : Prop :=
  match op with OpPostSend d => zlen d <= sendBufferSize | _ => True end.

(** The history is [n] complete connections, and one more exactly when the
    counted flag is set. *)
Definition alternating (n : nat) (counted : bool) : list ConnEvent :=
  concat (replicate n [EvConnected; EvDisconnected]) ++ (if counted then [EvConnected] else []).

Lemma alternating_close n : alternating n true ++ [EvDisconnected] = alternating (S n) false.
Proof.
  unfold alternating. rewrite app_nil_r, <-app_assoc, replicate_S_end, concat_app. done.
Qed.

Definition events_ok {OS} (st : Client (list ConnEvent) * OS * list ConnEvent) : Prop :=
  let '(c, _, w) := st in
  Client_inv c /\ _callbacks c = recording /\
  exists n, w = alternating n (_connectionEventCounted c).

Section Events.
Context {OS : Type} `{WinSock OS}.

Lemma client_step_events (st : Client (list ConnEvent) * OS * list ConnEvent) op :
  events_ok st -> ClientOp_wf op ->
  exists st', client_step st op = Some st' /\ events_ok st'.
Proof.
  destruct st as [[c os] w]. intros (Hinv & Hcb & n & Hw) Hwf. destruct op as [s| | |d|b]; simpl.
  - eexists; split; [done|]. split; [by destruct Hinv|]. by split; [|exists n].
  - destruct (MarkConnectionEstablished c w) as [c' w'] eqn:Hm. eexists; split; [done|].
    pose proof (MarkConnectionEstablished_inv c w Hinv) as Hi. rewrite Hm in Hi.
    split; [done|]. unfold MarkConnectionEstablished, EmitConnectedEvent in Hm.
    destruct c as [????? est cnt]; simpl in *. subst.
    destruct cnt; simplify_eq/=; (split; [done|]); exists n; [done|].
    unfold alternating. by rewrite app_nil_r.
  - pose proof (PostRecv_inv c os w Hinv) as Hi. pose proof (PostRecv_client c os w) as Hc.
    assert ((PostRecv c os w).1.2 = w) as Hw'.
    { unfold PostRecv. destruct (os_call _ _) as [? r]. destruct c; simpl in *. subst.
      by destruct (post_failed r). }
    destruct (PostRecv c os w) as [[[c' os'] w'] r]. simpl in *. subst c' w'.
    eexists; split; [done|]. split; [done|]. by split; [|exists n].
  - destruct (PostSend_spec d c os w Hinv Hwf) as (c' & Hi & _ & _ & Hcb' & _ & Hcnt & ->).
    destruct (os_call _ _) as [os' r]. unfold EmitSendPosted, EmitSendPostFailed.
    rewrite Hcb. destruct (post_failed r); (eexists; split; [done|]); (split; [done|]);
      rewrite Hcb', Hcnt; by split; [|exists n].
  - eexists; split; [done|]. pose proof (Close_inv b c os w Hinv) as Hi.
    pose proof (Close_client b c os w) as Hc. pose proof (Close_w b c os w) as Hw'.
    destruct (Close b c os w) as [[c' os'] w']. simpl in *. subst c' w'.
    split; [done|]. split; [done|]. unfold disconnected_w. simpl. rewrite Hcb. destruct Hinv as (_ & _ & _ & Himp).
    destruct (_connectionEventCounted c) eqn:Hc; [rewrite (Himp eq_refl)|rewrite andb_false_r];
      simpl; subst w; [exists (S n); apply alternating_close|by exists n].
Qed.

(** Connection events of a slot alternate.  Whatever sequence of assignments,
    [MarkConnectionEstablished], [PostRecv], [PostSend] (of data that fit) and
    [Close] a slot goes through, whatever the system answers, the run is defined
    and the events seen by the callbacks are connected, disconnected, connected,
    ..., with one connection open exactly when the counted flag is set. *)
Lemma connection_events_alternate (os : OS) ops :
  Forall ClientOp_wf ops ->
  exists c' os' n,
    client_run (Client_UseCallbacks recording Client_init, os, []) ops =
      Some (c', os', alternating n (_connectionEventCounted c')).
Proof.
  assert (forall st, events_ok st -> Forall ClientOp_wf ops ->
    exists st', client_run st ops = Some st' /\ events_ok st') as Hrun.
  { induction ops as [|op ops IH]; intros st Hst Hwf; [by exists st|].
    inversion Hwf; subst. destruct (client_step_events st op) as (st1 & Hs & Hst1); [done..|].
    destruct (IH st1) as (st2 & Hr & Hst2); [done..|]. exists st2. split; [|done].
    unfold client_run in *. simpl. by rewrite Hs. }
  intros Hwf. destruct (Hrun (Client_UseCallbacks recording Client_init, os, []))
    as ([[c' os'] w'] & Hr & _ & _ & n & ->); [|done|by exists c', os', n].
  split; [apply Client_UseCallbacks_inv, Client_init_inv|]. split; [done|]. by exists 0%nat.
Qed.
End Events.

Definition demo_ops : list ClientOp :=
  [OpAssign 7; OpPostRecv; OpMark; OpMark; OpPostSend [Byte.x01]; OpClose true; OpClose true;
   OpClose true; OpAssign 8; OpMark].

Lemma connection_events_alternate_witness :
  Forall ClientOp_wf demo_ops /\
  exists c' os' n,
    client_run (Client_UseCallbacks recording Client_init, script_of [], []) demo_ops =
      Some (c', os', alternating n (_connectionEventCounted c')).
Proof.
  assert (Forall ClientOp_wf demo_ops) as Hwf by (repeat constructor; discriminate).
  split; [exact Hwf|]. exact (connection_events_alternate (script_of []) demo_ops Hwf).
Defined.
