(* ===== verification/SendBuffer.v ===== *)
(** * SendBuffer: sends in flight

    [Client::PostSend] copies the message into the one send buffer of the connection and
    gives [WSASend] a pointer to it; the buffer belongs to the system until it has taken
    the bytes, which may be after the call returned ([ERROR_IO_PENDING]).  The other files
    show what is given to the system; here is what the system then finds in the buffer. *)

From S2P Require Import Prelude Errors Platform FrameBuffer Protocol NetClient.
From stdpp Require Import base list strings option.
From coqutil Require Import Byte Datatypes.RecordSetters.
Import DoubleBraceUpdate.
Open Scope Z_scope.

(** The server posts a message, or the system takes the bytes of the oldest send. *)
Inductive SendEvent := Post (data : list byte) | Taken.

(** The connection, the lengths of the sends in flight, which [WSASend] noted when it was
    called, and what has left the buffer. *)
Record Flight (OS W : Type) := mkFlight {
  fl_client : Client W; fl_os : OS; fl_w : W; fl_pending : list Z; fl_wire : list byte }.
Arguments mkFlight {OS W}. Arguments fl_client {OS W}. Arguments fl_os {OS W}. Arguments fl_w {OS W}.
Arguments fl_pending {OS W}. Arguments fl_wire {OS W}.

Section Flight.
Context {OS W : Type} `{WinSock OS}.
Implicit Types (f : Flight OS W) (c : Client W).

(** The bytes the system finds for a send of that length. *)
Definition in_buffer c (len : Z) : list byte := take (Z.to_nat len) (send_buf (sendOverlapped c)).

Definition flight_step (ev : SendEvent) f : ub (Flight OS W) :=
  match ev with
  | Post data =>
      '(c, os, w, r) ← PostSend data (fl_client f) (fl_os f) (fl_w f);
      Some (mkFlight c os w (if HasErr r then fl_pending f else fl_pending f ++ [send_len (sendOverlapped c)]) (fl_wire f))
  | Taken =>
      match fl_pending f with
      | [] => Some f
      | len :: pending =>
          Some (mkFlight (fl_client f) (fl_os f) (fl_w f) pending (fl_wire f ++ in_buffer (fl_client f) len))
      end
  end.

Fixpoint flight (evs : list SendEvent) f : ub (Flight OS W) :=
  match evs with
  | [] => Some f
  | ev :: evs => f ← flight_step ev f; flight evs f
  end.

(** No message is posted while one is in flight. *)
Fixpoint spaced (busy : bool) (evs : list SendEvent) : bool :=
  match evs with
  | [] => true
  | Post _ :: evs => negb busy && spaced true evs
  | Taken :: evs => spaced false evs
  end.

Definition posted (evs : list SendEvent) : list byte :=
  evs ≫= fun ev => match ev with Post data => data | Taken => [] end.

Definition post_fits (ev : SendEvent) : Prop := match ev with Post data => zlen data <= sendBufferSize | Taken => True end.

(** A system that accepts every send. *)
Definition accepting : Prop := forall sock data (os : OS), post_failed (os_call (SysWSASend sock data) os).2 = false.

(** One post: the message lies at the front of the buffer, over what was there. *)
Lemma Post_step data f :
  accepting -> Client_inv (fl_client f) -> zlen data <= sendBufferSize ->
  exists c os w, flight_step (Post data) f = Some (mkFlight c os w (fl_pending f ++ [zlen data]) (fl_wire f)) /\
    Client_inv c /\ send_buf (sendOverlapped c) = data ++ drop (length data) (send_buf (sendOverlapped (fl_client f))).
Proof.
  intros Hacc (Hr & Hs & Hfb & Hcnt) Hd. pose proof (zlen_nonneg data). assert (sendBufferSize = 1024) as Hsz by done.
  destruct f as [c os w pending wire]. cbn [fl_client fl_os fl_w fl_pending fl_wire] in *.
  cbn [flight_step fl_client fl_os fl_w fl_pending fl_wire]. unfold PostSend.
  rewrite wrap_small by lia. rewrite take_ge by (unfold zlen; lia). rewrite memcpy_at_Some by lia.
  cbn [mbind option_bind]. set (c1 := c {{ sendOverlapped := _ }}).
  match goal with |- context [os_call (SysWSASend ?s ?d) os] =>
    pose proof (Hacc s d os) as Hok; destruct (os_call (SysWSASend s d) os) as [os1 r] end. cbn [snd] in Hok. rewrite Hok. cbn [mbind option_bind HasErr OkVoid Ok _hasError].
  assert (sendOverlapped c1 = mkSendOverlapped IoSend (zlen data) (data ++ drop (length data) (send_buf (sendOverlapped c)))) as Ho
    by (subst c1; replace (Z.to_nat (0 + zlen data)) with (length data) by (unfold zlen; lia); by destruct c).
  rewrite Ho. cbn [send_len]. eexists _, _, _. split; [reflexivity|]. rewrite Ho. cbn [send_buf]. split; [|done].
  split_and!; [by destruct c| |by destruct c|by destruct c]. rewrite Ho. cbn [send_buf].
  unfold zlen in *. rewrite length_app, length_drop. lia.
Qed.

(** While sends are spaced, what has left and what is in flight is what was posted. *)
Definition in_order f (sent : list byte) : Prop :=
  Client_inv (fl_client f) /\
  ((fl_pending f = [] /\ fl_wire f = sent) \/
   (exists len, fl_pending f = [len] /\ fl_wire f ++ in_buffer (fl_client f) len = sent)).

Lemma spaced_in_order evs : forall f sent,
  accepting -> in_order f sent -> Forall post_fits evs -> spaced (negb (bool_decide (fl_pending f = []))) evs = true ->
  exists f', flight evs f = Some f' /\ in_order f' (sent ++ posted evs).
Proof.
  induction evs as [|ev evs IH]; intros f sent Hacc Hin Hfit Hsp.
  { exists f. unfold posted. cbn. by rewrite app_nil_r. }
  inversion Hfit as [|?? Hf Hfit']; subst. destruct Hin as [Hc Hin]. destruct ev as [data|].
  - cbn [spaced] in Hsp. apply andb_true_iff in Hsp as [Hbusy Hsp]. case_bool_decide as Hp; [|done].
    destruct Hin as [[_ Hw]|(len & Hp' & _)]; [|congruence].
    destruct (Post_step data f Hacc Hc Hf) as (c1 & os1 & w1 & Hstep & Hc1 & Hbuf). rewrite Hp in Hstep.
    cbn [flight]. rewrite Hstep. cbn [mbind option_bind]. unfold posted. cbn [mbind list_bind]. rewrite app_assoc.
    apply IH; [done| |done|exact Hsp]. split; [exact Hc1|]. right. exists (zlen data). split; [done|].
    cbn [fl_wire fl_client]. unfold in_buffer. rewrite Hbuf, Hw. unfold zlen. by rewrite Nat2Z.id, take_app_length.
  - cbn [spaced] in Hsp. cbn [flight]. unfold posted. cbn [mbind list_bind app]. change (evs ≫= _) with (posted evs).
    unfold flight_step. destruct Hin as [[Hp Hw]|(len & Hp & Hw)]; rewrite Hp; cbn [mbind option_bind].
    + apply IH; [done|split; [done|by left]|done|]. by rewrite Hp.
    + apply IH; [done|split; [done|by left]|done|exact Hsp].
Qed.

(** C15: The send buffer of a connection holds one message.  Let the system accept every
    send, and let each message posted fit the send buffer of 1024 bytes (what is longer is
    copied beyond it, which is undefined).  When no message is posted before the system
    took the previous one, what leaves the connection is what was posted, in order, whether
    a message is shorter or longer than the one before it.  [PostSend] does not wait for
    that: when two frames of the same length are posted before the system took the first,
    the second leaves twice and the first never does. *)
Theorem send_buffer_holds_one c os w :
  accepting -> Client_inv c ->
  (forall evs, Forall post_fits evs -> spaced false evs = true ->
    exists f, flight (evs ++ [Taken]) (mkFlight c os w [] []) = Some f /\ fl_pending f = [] /\ fl_wire f = posted evs) /\
  (forall d1 d2, zlen d1 = zlen d2 -> zlen d2 <= sendBufferSize ->
    exists f, flight [Post d1; Post d2; Taken; Taken] (mkFlight c os w [] []) = Some f /\ fl_wire f = d2 ++ d2).
Proof.
  intros Hacc Hc. split.
  - intros evs Hfit Hsp.
    destruct (spaced_in_order evs (mkFlight c os w [] []) [] Hacc) as (f & Hf & _ & Hin);
      [split; [done|by left]|done|exact Hsp|].
    assert (forall evs2 f0, flight (evs ++ evs2) f0 = (f ← flight evs f0; flight evs2 f)) as Happ.
    { intros evs2. clear. induction evs as [|ev evs IH]; intros f0; [done|]. cbn [flight app].
      destruct (flight_step ev f0); cbn [mbind option_bind]; [apply IH|done]. }
    rewrite Happ, Hf. cbn [mbind option_bind flight flight_step]. destruct Hin as [[Hp Hw]|(len & Hp & Hw)]; rewrite Hp;
      eexists; (split; [reflexivity|]); by split.
  - intros d1 d2 Hlen Hfit. cbn [flight].
    destruct (Post_step d1 (mkFlight c os w [] []) Hacc Hc) as (c1 & os1 & w1 & -> & Hc1 & _); [lia|]. cbn [mbind option_bind fl_pending fl_wire app].
    destruct (Post_step d2 (mkFlight c1 os1 w1 [zlen d1] []) Hacc Hc1 Hfit) as (c2 & os2 & w2 & -> & _ & Hbuf).
    cbn [mbind option_bind flight_step fl_pending fl_client fl_os fl_w fl_wire app].
    eexists. split; [reflexivity|]. cbn [fl_wire]. unfold in_buffer. rewrite Hbuf, Hlen. unfold zlen.
    by rewrite Nat2Z.id, take_app_length.
Qed.
End Flight.

(** ** Two replies

    Two frames of one length, to a connection that was just made, on a system that accepts
    every call. *)

Section Witness.
#[local] Instance accepting_os : WinSock unit := {| os_call := fun _ os => (os, sysok) |}.

Definition reply1 : list byte := frame_of [Byte.x01; Byte.x01].
Definition reply2 : list byte := frame_of [Byte.x02; Byte.x02].

Lemma send_buffer_holds_one_witness :
  (exists f, flight [Post reply1; Taken; Post reply2; Taken] (mkFlight (Client_init (W:=unit)) tt tt [] []) = Some f /\
    fl_wire f = reply1 ++ reply2) /\
  (exists f, flight [Post reply1; Post reply2; Taken; Taken] (mkFlight (Client_init (W:=unit)) tt tt [] []) = Some f /\
    fl_wire f = reply2 ++ reply2).
Proof.
  destruct (send_buffer_holds_one (OS:=unit) (W:=unit) Client_init tt tt) as [Hspaced Hboth];
    [intros ???; reflexivity|exact Client_init_inv|].
  split; [|apply Hboth; [reflexivity|vm_compute; discriminate]].
  destruct (Hspaced [Post reply1; Taken; Post reply2]) as (f & Hf & _ & Hw); [repeat constructor; vm_compute; discriminate|reflexivity|].
  exists f. split; [exact Hf|exact Hw].
Defined.
End Witness.
