(* ===== verification/Net.v ===== *)
(** * The shared state of the network layer

    A [std::shared_ptr<Client>] is an index into the heap of [Client] objects, so
    that every holder of the pointer (the pool, a session, a queued command) sees
    the same object.  [net_w] is what the event callbacks reach and [net_os] the
    system.  Dereferencing an index outside the heap is undefined behaviour. *)

From S2P Require Import Prelude Errors Platform FrameBuffer NetClient.
From stdpp Require Import base list option.
From coqutil Require Import Byte Datatypes.RecordSetters.
Import DoubleBraceUpdate.
Open Scope Z_scope.

Record Net (OS W : Type) := mkNet { net_os : OS; net_w : W; clients : list (Client W) }.

Arguments mkNet {OS W}.
Arguments net_os {OS W}.
Arguments net_w {OS W}.
Arguments clients {OS W}.

(** [if (f) { f(arg); }] for a [std::function<void(T)>]. *)
Definition emit1 {T W} (f : option (T -> W -> W)) (arg : T) (w : W) : W :=
  match f with Some f => f arg w | None => w end.

Section Net.
Context {OS W : Type} `{WinSock OS}.
Implicit Types (n : Net OS W) (c : Client W).

Definition set_client (i : nat) c n : Net OS W :=
  mkNet (net_os n) (net_w n) (<[i := c]> (clients n)).

Definition with_w (f : W -> W) n : Net OS W :=
  mkNet (net_os n) (f (net_w n)) (clients n).

Definition net_call (call : syscall) n : Net OS W * sysret :=
  let '(os, r) := os_call call (net_os n) in (mkNet os (net_w n) (clients n), r).

(** [client->Close(b)] through a pointer. *)
Definition Net_Close (i : nat) (b : bool) n : ub (Net OS W) :=
  c ← clients n !! i;
  let '(c, os, w) := Close b c (net_os n) (net_w n) in
  Some (mkNet os w (<[i := c]> (clients n))).

(** [client->PostRecv()] through a pointer. *)
Definition Net_PostRecv (i : nat) n : ub (Net OS W * ResultVoid ENetworkError) :=
  c ← clients n !! i;
  let '(c, os, w, r) := PostRecv c (net_os n) (net_w n) in
  Some (mkNet os w (<[i := c]> (clients n)), r).

(** [client->PostSend(data)] through a pointer. *)
Definition Net_PostSend (i : nat) (data : list byte) n : ub (Net OS W * ResultVoid ENetworkError) :=
  c ← clients n !! i;
  '(c, os, w, r) ← PostSend data c (net_os n) (net_w n);
  Some (mkNet os w (<[i := c]> (clients n)), r).

(** [client->MarkConnectionEstablished()] through a pointer. *)
Definition Net_Mark (i : nat) n : ub (Net OS W) :=
  c ← clients n !! i;
  let '(c, w) := MarkConnectionEstablished c (net_w n) in
  Some (mkNet (net_os n) w (<[i := c]> (clients n))).

(** [client->FrameBuf().Consume(k)] through a pointer. *)
Definition Net_Consume (i : nat) (k : Z) n : ub (Net OS W) :=
  c ← clients n !! i;
  fb ← FrameBuffer_Consume (_frameBuf c) k;
  Some (set_client i (c {{ _frameBuf := fb }}) n).

Definition Net_inv n : Prop := Forall Client_inv (clients n).

Lemma Net_inv_lookup n i c : Net_inv n -> clients n !! i = Some c -> Client_inv c.
Proof. intros Hn Hi. unfold Net_inv in Hn. rewrite Forall_lookup in Hn. eauto. Qed.

Lemma Net_inv_insert os w n i c :
  Net_inv n -> Client_inv c -> Net_inv (mkNet os w (<[i := c]> (clients n))).
Proof. intros. by apply Forall_insert. Qed.

Lemma set_client_inv n i c : Net_inv n -> Client_inv c -> Net_inv (set_client i c n).
Proof. apply Net_inv_insert. Qed.

Lemma set_client_lookup n i c c0 :
  clients n !! i = Some c0 -> clients (set_client i c n) !! i = Some c.
Proof. intros Hi. simpl. apply list_lookup_insert_eq. by eapply lookup_lt_Some. Qed.

Lemma Client_inv_frameBuf c fb :
  Client_inv c -> FrameBuffer_inv fb -> Client_inv (c {{ _frameBuf := fb }}).
Proof. destruct c. intros (?&?&?&?) ?. by split_and!. Qed.

Lemma Client_inv_socket c s : Client_inv c -> Client_inv (c {{ socket := s }}).
Proof. by destruct c. Qed.

Lemma Net_Close_spec n i b c :
  clients n !! i = Some c -> Net_inv n ->
  exists n', Net_Close i b n = Some n' /\ Net_inv n' /\
    clients n' = <[i := closed c]> (clients n) /\ net_w n' = disconnected_w c (net_w n).
Proof.
  intros Hi Hn. unfold Net_Close. rewrite Hi. cbn [mbind option_bind].
  pose proof (Close_client b c (net_os n) (net_w n)) as Hc.
  pose proof (Close_w b c (net_os n) (net_w n)) as Hw.
  pose proof (Close_inv b c (net_os n) (net_w n) (Net_inv_lookup _ _ _ Hn Hi)) as Hinv.
  destruct (Close b c _ _) as [[c' os'] w']. cbn [fst snd] in *.
  eexists; split; [done|]. cbn [clients net_w]. subst c'. split; [|done].
  by apply Net_inv_insert.
Qed.

Lemma Net_PostRecv_spec n i c :
  clients n !! i = Some c -> Net_inv n ->
  exists n' r, Net_PostRecv i n = Some (n', r) /\ Net_inv n' /\
    clients n' = <[i := c {{ recvOverlapped ::= fun o =>
                     mkRecvOverlapped IoRecv (zlen (recv_buf o)) (recv_buf o) }}]> (clients n) /\
    net_w n' = (if HasErr r then EmitRecvPostFailed c (net_w n) else EmitRecvPosted c (net_w n)).
Proof.
  intros Hi Hn. unfold Net_PostRecv. rewrite Hi. cbn [mbind option_bind].
  pose proof (PostRecv_client c (net_os n) (net_w n)) as Hc.
  pose proof (PostRecv_inv c (net_os n) (net_w n) (Net_inv_lookup _ _ _ Hn Hi)) as Hinv.
  assert ((PostRecv c (net_os n) (net_w n)).1.2 =
    (if HasErr (PostRecv c (net_os n) (net_w n)).2 then EmitRecvPostFailed c (net_w n)
     else EmitRecvPosted c (net_w n))) as Hw.
  { unfold PostRecv. destruct (os_call _ _) as [? r]. destruct c. by destruct (post_failed r). }
  destruct (PostRecv c _ _) as [[[c' os'] w'] r]. cbn [fst snd] in *.
  eexists _, r; split; [done|]. cbn [clients net_w]. subst c'. split; [|done].
  by apply Net_inv_insert.
Qed.

Lemma Net_PostSend_spec n i data c :
  clients n !! i = Some c -> Net_inv n -> zlen data <= sendBufferSize ->
  exists n' r c', Net_PostSend i data n = Some (n', r) /\ Net_inv n' /\
    clients n' = <[i := c']> (clients n) /\ socket c' = socket c /\ _frameBuf c' = _frameBuf c /\
    _callbacks c' = _callbacks c /\
    _connectionEstablished c' = _connectionEstablished c /\
    _connectionEventCounted c' = _connectionEventCounted c /\
    net_os n' = (os_call (SysWSASend (socket c) data) (net_os n)).1.
Proof.
  intros Hi Hn Hd. unfold Net_PostSend. rewrite Hi. cbn [mbind option_bind].
  destruct (PostSend_spec data c (net_os n) (net_w n)) as (c' & Hc' & ? & ? & ? & ? & ? & ->);
    [by eapply Net_inv_lookup|done|].
  destruct (os_call _ _) as [os' r].
  destruct (post_failed r); cbn; (eexists _, _, c'; split_and!; [done| |done..]);
    by apply Net_inv_insert.
Qed.

Lemma Net_Mark_spec n i c :
  clients n !! i = Some c -> Net_inv n ->
  exists n', Net_Mark i n = Some n' /\ Net_inv n' /\ net_os n' = net_os n /\
    clients n' = <[i := c {{ _connectionEstablished := true; _connectionEventCounted := true }}]>
                   (clients n) /\
    net_w n' = (if _connectionEventCounted c then net_w n
                else emit (onConnected (_callbacks c)) (net_w n)).
Proof.
  intros Hi Hn. unfold Net_Mark. rewrite Hi. cbn [mbind option_bind].
  pose proof (MarkConnectionEstablished_inv c (net_w n) (Net_inv_lookup _ _ _ Hn Hi)) as Hinv.
  unfold MarkConnectionEstablished, EmitConnectedEvent in *.
  destruct c as [s ro so fb cb est cnt]; cbn in *.
  destruct cnt; cbn in *; (eexists; split; [done|]); cbn; split_and!; try done;
    by apply Net_inv_insert.
Qed.

Lemma Net_Consume_spec n i k c :
  clients n !! i = Some c -> Net_inv n -> 0 <= k ->
  exists fb', Net_Consume i k n = Some (set_client i (c {{ _frameBuf := fb' }}) n) /\
    FrameBuffer_inv fb' /\
    FrameBuffer_Data fb' = drop (Z.to_nat k) (FrameBuffer_Data (_frameBuf c)).
Proof.
  intros Hi Hn Hk. unfold Net_Consume. rewrite Hi. cbn [mbind option_bind].
  destruct (FrameBuffer_Consume_spec (_frameBuf c) k) as (fb' & -> & ? & ?); [|done|].
  - by apply (Net_inv_lookup _ _ _ Hn Hi).
  - by exists fb'.
Qed.
(** The socket of a slot. *)
Definition socket_of n client : Z :=
  match clients n !! client with Some c => socket c | None => InvalidSocket end.

(** ** The same connections *)

(** Two states with the same connections: the same slots, with the same sockets,
    frame buffers, callbacks and flags; only the I/O buffers may differ. *)
Definition same_conn (c c' : Client W) : Prop :=
  socket c' = socket c /\ _frameBuf c' = _frameBuf c /\ _callbacks c' = _callbacks c /\
  _connectionEstablished c' = _connectionEstablished c /\
  _connectionEventCounted c' = _connectionEventCounted c.

Definition same_conns n n' : Prop := Forall2 same_conn (clients n) (clients n').

Lemma same_conn_refl c : same_conn c c.
Proof. by split_and!. Qed.

#[export] Instance same_conns_preorder : PreOrder same_conns.
Proof.
  split.
  - intros n. apply Forall_Forall2_diag, Forall_true, same_conn_refl.
  - intros n1 n2 n3 H12 H23. unfold same_conns in *. eapply Forall2_trans; [|exact H12|exact H23].
    intros c1 c2 c3 (?&?&?&?&?) (?&?&?&?&?). unfold same_conn. split_and!; congruence.
Qed.

Lemma same_conns_socket n n' i : same_conns n n' -> socket_of n' i = socket_of n i.
Proof.
  intros Hs. unfold socket_of. destruct (clients n !! i) as [c|] eqn:Hc.
  - destruct (Forall2_lookup_l _ _ _ _ _ Hs Hc) as (c' & -> & Hsock & _). done.
  - apply Forall2_length in Hs. apply lookup_ge_None in Hc. by rewrite lookup_ge_None_2 by lia.
Qed.

Lemma same_conns_length n n' : same_conns n n' -> length (clients n') = length (clients n).
Proof. intros Hs. symmetry. by eapply Forall2_length. Qed.

#[export] Instance socket_of_proper : Proper (same_conns ==> eq ==> eq) socket_of.
Proof. intros n n' Hs i ? <-. symmetry. by apply same_conns_socket. Qed.

(** A send only touches the I/O buffer of its slot. *)
Lemma Net_PostSend_same i data n n' r : Net_PostSend i data n = Some (n', r) -> same_conns n n'.
Proof.
  unfold Net_PostSend. destruct (clients n !! i) as [c|] eqn:Hc; [|done]. cbn [mbind option_bind]. unfold PostSend.
  destruct (memcpy_at _ _ _) as [buf|]; [|done]. cbn [mbind option_bind].
  destruct (os_call _ _) as [os res]. destruct (post_failed res); cbn; intros [= <- _]; unfold same_conns; cbn [clients].
  all: rewrite <-(list_insert_id _ _ _ Hc) at 1; apply Forall2_insert;
    [apply Forall_Forall2_diag, Forall_true, same_conn_refl|by destruct c].
Qed.
End Net.

#[export] Hint Resolve Net_inv_insert set_client_inv Client_inv_frameBuf : highp.
