(* ===== verification/Ledger.v ===== *)
(** * The socket ledger

    Which sockets the program has created and not yet closed, read off the calls it
    has made to the system, against who owns them.  A system whose calls are
    recorded is [Traced]; any system becomes one by [TraceOS].

    [net_ledger] is the balance of a socket less the connection slots that hold it.
    Every operation on a slot leaves it unchanged: a slot never closes a socket it
    keeps, nor forgets one it has not closed. *)

From S2P Require Import Prelude Errors Platform FrameBuffer NetClient Net.
From coqutil Require Import Byte Datatypes.RecordSetters.
From stdpp Require Import base gmap list strings option.
Import DoubleBraceUpdate.
Open Scope Z_scope.

Class Traced (OS : Type) `{WinSock OS} := {
  trace : OS -> list (syscall * sysret);
  trace_call : forall c os, trace (os_call c os).1 = trace os ++ [(c, (os_call c os).2)]
}.

(** Any system, with its calls recorded. *)
Record TraceOS (OS : Type) := mkTraceOS { inner : OS; history : list (syscall * sysret) }.

Arguments mkTraceOS {OS}.
Arguments inner {OS}.
Arguments history {OS}.

#[export] Instance TraceOS_WinSock OS `{WinSock OS} : WinSock (TraceOS OS) := {|
  os_call := fun c os =>
    let '(os', r) := os_call c (inner os) in (mkTraceOS os' (history os ++ [(c, r)]), r) |}.

#[export] Instance TraceOS_Traced OS `{WinSock OS} : Traced (TraceOS OS).
Proof.
  refine {| trace := history |}. intros c os. cbn. by destruct (os_call c (inner os)).
Defined.

(** ** Sums *)

Definition zsum {A} (f : A -> Z) (l : list A) : Z := foldr (fun x acc => f x + acc) 0 l.

Arguments zsum : simpl never.

Lemma zsum_app {A} (f : A -> Z) l k : zsum f (l ++ k) = zsum f l + zsum f k.
Proof. unfold zsum. induction l as [|x l IH]; cbn; [|rewrite IH]; lia. Qed.

Lemma zsum_perm {A} (f : A -> Z) l k : l ≡ₚ k -> zsum f l = zsum f k.
Proof. unfold zsum. induction 1; cbn; lia. Qed.

Lemma zsum_ext {A} (f g : A -> Z) l : (forall x, x ∈ l -> f x = g x) -> zsum f l = zsum g l.
Proof.
  unfold zsum. intros Hfg. induction l as [|x l IH]; cbn; [done|]. rewrite Hfg by set_solver.
  f_equal. apply IH. set_solver.
Qed.

Lemma zsum_insert {A} (f : A -> Z) (l : list A) i x y :
  l !! i = Some x -> zsum f (<[i := y]> l) = zsum f l - f x + f y.
Proof.
  intros Hi. rewrite (insert_take_drop _ _ _ (lookup_lt_Some _ _ _ Hi)).
  rewrite <-(take_drop_middle _ _ _ Hi) at 3. rewrite !zsum_app. unfold zsum. cbn. lia.
Qed.

Lemma zsum_nonneg {A} (f : A -> Z) l : (forall x, 0 <= f x) -> 0 <= zsum f l.
Proof. unfold zsum. intros Hf. induction l as [|x l IH]; cbn; [lia|]. specialize (Hf x). lia. Qed.

(** ** The balance of a socket *)

Definition is_sock (s s' : Z) : Z := if s =? s' then 1 else 0.

Arguments is_sock : simpl never.

Lemma is_sock_ne s s' : s <> s' -> is_sock s s' = 0.
Proof. intros. unfold is_sock. by destruct (Z.eqb_spec s s'). Qed.

Definition call_delta (s : Z) (e : syscall * sysret) : Z :=
  match e.1 with
  | SysSocket _ _ => is_sock s (ret e.2)
  | SysClosesocket s' => - is_sock s s'
  | _ => 0
  end.

Definition balance (tr : list (syscall * sysret)) (s : Z) : Z := zsum (call_delta s) tr.

Section Ledger.
Context {OS W : Type} `{Traced OS}.
Implicit Types (n : Net OS W) (c : Client W) (os : OS).

Definition os_balance os (s : Z) : Z := balance (trace os) s.

Lemma os_balance_call call os s :
  os_balance (os_call call os).1 s = os_balance os s + call_delta s (call, (os_call call os).2).
Proof. unfold os_balance, balance. rewrite trace_call, zsum_app. unfold zsum at 2. cbn. lia. Qed.

(** A call that neither creates nor closes a socket. *)
Definition neutral (call : syscall) : Prop :=
  match call with SysSocket _ _ | SysClosesocket _ => False | _ => True end.

Lemma os_balance_neutral call os s : neutral call -> os_balance (os_call call os).1 s = os_balance os s.
Proof. intros Hc. rewrite os_balance_call. destruct call; cbn in *; try done; lia. Qed.

Lemma os_balance_close s' os s :
  os_balance (os_call (SysClosesocket s') os).1 s = os_balance os s - is_sock s s'.
Proof. rewrite os_balance_call. cbn. lia. Qed.

(** The slots that hold [s]. *)
Definition slots n (s : Z) : Z := zsum (fun c => is_sock s (socket c)) (clients n).

Definition net_ledger n (s : Z) : Z := os_balance (net_os n) s - slots n s.

Lemma slots_insert n i c c' os w s :
  clients n !! i = Some c ->
  slots (mkNet os w (<[i := c']> (clients n))) s = slots n s - is_sock s (socket c) + is_sock s (socket c').
Proof. intros Hi. unfold slots. cbn. by rewrite (zsum_insert _ _ _ _ _ Hi). Qed.

Lemma ledger_with_w f n s : net_ledger (with_w f n) s = net_ledger n s.
Proof. done. Qed.

Lemma ledger_neutral call n s : neutral call -> net_ledger (net_call call n).1 s = net_ledger n s.
Proof.
  intros Hc. unfold net_ledger, net_call.
  pose proof (os_balance_neutral call (net_os n) s Hc) as Hb.
  destruct (os_call call (net_os n)) as [os r]. cbn in *. by rewrite Hb.
Qed.

Lemma ledger_same_socket n i c c' os w s :
  clients n !! i = Some c -> socket c' = socket c -> os_balance os s = os_balance (net_os n) s ->
  net_ledger (mkNet os w (<[i := c']> (clients n))) s = net_ledger n s.
Proof.
  intros Hi Hs Hb. unfold net_ledger. rewrite (slots_insert n i c) by done. cbn. rewrite Hs, Hb. lia.
Qed.

Lemma ledger_Close n i b n' s :
  s <> InvalidSocket -> Net_Close i b n = Some n' -> net_ledger n' s = net_ledger n s.
Proof.
  intros Hs. unfold Net_Close. destruct (clients n !! i) as [c|] eqn:Hi; [|done]. cbn.
  unfold Close. rewrite EmitDisconnectedEvent_spec. destruct c as [sk ro so fb cb est cnt]. cbn.
  destruct (Z.eqb_spec sk InvalidSocket) as [->|Hsk]; cbn.
  - intros [= <-]. by apply (ledger_same_socket n i _ _ _ _ s Hi).
  - pose proof (os_balance_neutral (SysShutdown sk) (net_os n) s I) as H1.
    destruct (os_call (SysShutdown sk) (net_os n)) as [os1 r1]. cbn in *.
    pose proof (os_balance_close sk os1 s) as H2.
    destruct (os_call (SysClosesocket sk) os1) as [os2 r2]. cbn in *.
    intros [= <-]. unfold net_ledger. rewrite (slots_insert n i _ _ _ _ s Hi). cbn [net_os socket].
    rewrite H2, H1, (is_sock_ne s (RecordSetters.constant _ _)) by done. lia.
Qed.

Lemma ledger_PostRecv n i n' r s :
  Net_PostRecv i n = Some (n', r) -> net_ledger n' s = net_ledger n s.
Proof.
  unfold Net_PostRecv. destruct (clients n !! i) as [c|] eqn:Hi; [|done]. cbn. unfold PostRecv.
  pose proof (fun len => os_balance_neutral (SysWSARecv (socket c) len) (net_os n) s I) as Hb.
  destruct c as [sk ro so fb cb est cnt]. cbn in *. specialize (Hb (zlen (recv_buf ro))).
  destruct (os_call _ _) as [os1 r1]. cbn in *.
  destruct (post_failed r1); intros [= <- <-]; by apply (ledger_same_socket n i _ _ _ _ s Hi).
Qed.

Lemma ledger_PostSend n i data n' r s :
  Net_PostSend i data n = Some (n', r) -> net_ledger n' s = net_ledger n s.
Proof.
  unfold Net_PostSend. destruct (clients n !! i) as [c|] eqn:Hi; [|done]. cbn. unfold PostSend.
  destruct (memcpy_at _ _ _) as [buf|]; [|done]. cbn.
  destruct c as [sk ro so fb cb est cnt]. cbn in *.
  pose proof (os_balance_neutral (SysWSASend sk (take (Z.to_nat (u32 (zlen data))) buf)) (net_os n) s I) as Hb.
  destruct (os_call _ _) as [os1 r1]. cbn in *.
  destruct (post_failed r1); intros [= <- <-]; by apply (ledger_same_socket n i _ _ _ _ s Hi).
Qed.

Lemma ledger_Mark n i n' s : Net_Mark i n = Some n' -> net_ledger n' s = net_ledger n s.
Proof.
  unfold Net_Mark. destruct (clients n !! i) as [c|] eqn:Hi; [|done]. cbn.
  destruct (MarkConnectionEstablished c (net_w n)) as [c' w'] eqn:Hm. intros [= <-].
  apply (ledger_same_socket n i c _ _ _ s Hi); [|done].
  unfold MarkConnectionEstablished, EmitConnectedEvent in Hm.
  destruct c as [sk ro so fb cb est cnt]. cbn in Hm. by destruct cnt; cbn in Hm; simplify_eq.
Qed.

Lemma ledger_set_client n i c c' s :
  clients n !! i = Some c -> socket c' = socket c -> net_ledger (set_client i c' n) s = net_ledger n s.
Proof. intros. by apply (ledger_same_socket n i c). Qed.

Lemma ledger_Consume n i k n' s : Net_Consume i k n = Some n' -> net_ledger n' s = net_ledger n s.
Proof.
  unfold Net_Consume. destruct (clients n !! i) as [c|] eqn:Hi; [|done]. cbn.
  destruct (FrameBuffer_Consume _ _) as [fb|]; [|done]. cbn. intros [= <-].
  apply (ledger_set_client n i c); [done|]. by destruct c.
Qed.
End Ledger.

#[export] Hint Resolve ledger_Close ledger_PostRecv ledger_PostSend ledger_Mark ledger_Consume : highp.
