(* ===== verification/IoMultiplexer.v ===== *)
(** * IocpIoMultiplexer: the completion port and its workers

    [network/inc/io/windows/IocpIoMultiplexer.h],
    [network/src/io/windows/IocpIoMultiplexer.cpp].

    What [GetQueuedCompletionStatus] answers is an input of the loop.  A
    completion key is null or the address of a client; an overlapped pointer
    leads to one of the overlapped structures of the program. *)

From S2P Require Import Prelude Errors Platform FrameBuffer NetClient Net.
From coqutil Require Import Byte Datatypes.RecordSetters.
From stdpp Require Import base gmap list strings option.
Import DoubleBraceUpdate.
Open Scope Z_scope.

(** Where an [LPOVERLAPPED] points. *)
Inductive OverlappedPtr := OvAccept (item : nat) | OvRecv (client : nat) | OvSend (client : nat).

(** @src network/inc/io/windows/IocpIoMultiplexer.h 21-40 CompletionEvent *)
Record CompletionEvent := mkCompletionEvent {
  ev_ioType : EIoType;
  ev_target : option nat;
  ev_overlapped : option OverlappedPtr;
  ev_bytesTransferred : Z;
  ev_success : bool;
  ev_errorCode : Z }.

(** @src network/inc/io/windows/IocpIoMultiplexer.h 64-67 IocpIoMultiplexer::EventCallbacks *)
Record IocpCallbacks (W : Type) := mkIocpCallbacks {
  onWorkerDispatchBegin : option (W -> W);
  onWorkerDispatchEnd : option (W -> W) }.

Arguments mkIocpCallbacks {W}.
Arguments onWorkerDispatchBegin {W}.
Arguments onWorkerDispatchEnd {W}.

(** [_workerThreads] is the number of threads.  [H] names the functions a completion
    handler can be bound to. *)
(** @src network/inc/io/windows/IocpIoMultiplexer.h 174-191 IocpIoMultiplexer *)
Record IocpIoMultiplexer (W H : Type) := mkIocpIoMultiplexer {
  _handle : Z;
  _workerThreads : nat;
  _isRunning : bool;
  mx_callbacks : IocpCallbacks W;
  _completionHandler : option H }.

Arguments mkIocpIoMultiplexer {W H}.
Arguments _handle {W H}.
Arguments _workerThreads {W H}.
Arguments _isRunning {W H}.
Arguments mx_callbacks {W H}.
Arguments _completionHandler {W H}.

(** What one call of [GetQueuedCompletionStatus] leaves in its output variables,
    and the thread's last error. *)
Record Dequeued := mkDequeued {
  dq_ok : bool; dq_bytes : Z; dq_key : option nat; dq_overlapped : option OverlappedPtr;
  dq_lastError : Z }.

Section Multiplexer.
Context {OS W H X : Type} `{WinSock OS}.
Implicit Types (mx : IocpIoMultiplexer W H) (os : OS) (x : X) (dq : Dequeued).

(** @src network/src/io/windows/IocpIoMultiplexer.cpp 8-13 IocpIoMultiplexer::IocpIoMultiplexer *)
Definition Iocp_make (handler : option H) : IocpIoMultiplexer W H :=
  mkIocpIoMultiplexer INVALID_HANDLE_VALUE 0 false (mkIocpCallbacks None None) handler.

(** @src network/src/io/windows/IocpIoMultiplexer.cpp 38-40 IocpIoMultiplexer::UseCallbacks *)
Definition Iocp_UseCallbacks (callbacks : IocpCallbacks W) mx : IocpIoMultiplexer W H :=
  mx {{ mx_callbacks := callbacks }}.

(** @src network/src/io/windows/IocpIoMultiplexer.cpp 80-82 IocpIoMultiplexer::SetCompletionHandler *)
Definition SetCompletionHandler (handler : option H) mx : IocpIoMultiplexer W H :=
  mx {{ _completionHandler := handler }}.

(** @src network/src/io/windows/IocpIoMultiplexer.cpp 84-84 IocpIoMultiplexer::GetHandle *)
Definition Iocp_GetHandle mx : Z := _handle mx.

(** @src network/src/io/windows/IocpIoMultiplexer.cpp 86-86 IocpIoMultiplexer::IsRunning *)
Definition Iocp_IsRunning mx : bool := _isRunning mx.

(** A null handle is 0; the loop starts no thread when the count is negative. *)
(** @src network/src/io/windows/IocpIoMultiplexer.cpp 17-36 IocpIoMultiplexer::Initialize *)
Definition Iocp_Initialize (workerThreadCount : Z) mx os
    : IocpIoMultiplexer W H * OS * ResultVoid ENetworkError :=
  let '(os, r) := os_call (SysCreateIoCompletionPort INVALID_HANDLE_VALUE 0 0) os in
  let mx := mx {{ _handle := ret r }} in
  if _handle mx =? 0 then (mx, os, Err IocpCreateFailed)
  else
    (mx {{ _isRunning := true; _workerThreads ::= fun k => (k + Z.to_nat workerThreadCount)%nat }},
     os, OkVoid).

(** One wake-up message per worker, then the join. *)
Fixpoint post_wakeups (count : nat) (handle : Z) os : OS :=
  match count with
  | O => os
  | S count =>
      let '(os, _) := os_call (SysPostQueuedCompletionStatus handle 0 0) os in
      post_wakeups count handle os
  end.

(** @src network/src/io/windows/IocpIoMultiplexer.cpp 42-60 IocpIoMultiplexer::Shutdown *)
Definition Iocp_Shutdown mx os : IocpIoMultiplexer W H * OS :=
  if negb (_isRunning mx) then (mx, os)
  else
    let mx := mx {{ _isRunning := false }} in
    let os := post_wakeups (_workerThreads mx) (_handle mx) os in
    let mx := mx {{ _workerThreads := 0%nat }} in
    if negb (_handle mx =? INVALID_HANDLE_VALUE) then
      let '(os, _) := os_call (SysCloseHandle (_handle mx)) os in
      (mx {{ _handle := INVALID_HANDLE_VALUE }}, os)
    else (mx, os).

(** @src network/src/io/windows/IocpIoMultiplexer.cpp 15-15 IocpIoMultiplexer::~IocpIoMultiplexer *)
Definition Iocp_destroy mx os : OS := (Iocp_Shutdown mx os).2.

(** @src network/src/io/windows/IocpIoMultiplexer.cpp 62-78 IocpIoMultiplexer::PostCompletion *)
Definition PostCompletion (bytes key : Z) mx os : OS * ResultVoid ENetworkError :=
  let '(os, r) := os_call (SysPostQueuedCompletionStatus (_handle mx) bytes key) os in
  if ret r =? 0 then (os, Err IocpInternalError) else (os, OkVoid).

(** @src network/inc/io/windows/IocpIoMultiplexer.h 120-133 IocpIoMultiplexer::AssociateSocket *)
Definition AssociateSocket (sock completionKey : Z) mx os : OS * ResultVoid ENetworkError :=
  let '(os, r) := os_call (SysCreateIoCompletionPort sock (_handle mx) completionKey) os in
  if (ret r =? 0) || negb (ret r =? _handle mx) then (os, Err IocpConnectFailed) else (os, OkVoid).

(** ** The worker loop *)

(** How the loop reaches the overlapped structures and the callbacks' state, and
    what the handlers do. *)
Context (ioType_at : OverlappedPtr -> X -> ub EIoType) (on_w : (W -> W) -> X -> X)
        (call_handler : H -> CompletionEvent -> X -> ub X).

(** [ioType] is value-initialised, the enumerator 0, when there is no overlapped
    structure to read it from. *)
(** @src network/src/io/windows/IocpIoMultiplexer.cpp 120-131 IocpIoMultiplexer::WorkerLoop *)
Definition make_event dq x : ub CompletionEvent :=
  ioType ← match dq_overlapped dq with None => Some IoAccept | Some ext => ioType_at ext x end;
  Some {| ev_ioType := ioType;
          ev_target := dq_key dq;
          ev_overlapped := dq_overlapped dq;
          ev_bytesTransferred := dq_bytes dq;
          ev_success := dq_ok dq;
          ev_errorCode := if dq_ok dq then 0 else dq_lastError dq |}.

(** The guard runs [onWorkerDispatchEnd] at the end of the turn. *)
(** @src network/src/io/windows/IocpIoMultiplexer.cpp 120-149 IocpIoMultiplexer::WorkerLoop *)
Definition WorkerLoop_dispatch mx dq x : ub X :=
  event ← make_event dq x;
  let x := on_w (emit (onWorkerDispatchBegin (mx_callbacks mx))) x in
  x ← match _completionHandler mx with Some handler => call_handler handler event x | None => Some x end;
  Some (on_w (emit (onWorkerDispatchEnd (mx_callbacks mx))) x).

(** The two [break]s. *)
(** @src network/src/io/windows/IocpIoMultiplexer.cpp 100-118 IocpIoMultiplexer::WorkerLoop *)
Definition WorkerLoop_exits dq : bool :=
  match dq_key dq, dq_overlapped dq with
  | None, None => true
  | _, _ => negb (dq_ok dq) && (dq_lastError dq =? ERROR_OPERATION_ABORTED)
  end.

(** The state, and whether the worker goes on. *)
(** @src network/src/io/windows/IocpIoMultiplexer.cpp 90-149 IocpIoMultiplexer::WorkerLoop *)
Definition WorkerLoop_turn mx dq x : ub (X * bool) :=
  if WorkerLoop_exits dq then Some (x, false)
  else x ← WorkerLoop_dispatch mx dq x; Some (x, true).

(** [turns] gives, for each test of the loop condition, whether a stop was
    requested and whether the multiplexer runs, and then what was dequeued.  The
    result says whether the worker still waits for a completion. *)
(** @src network/src/io/windows/IocpIoMultiplexer.cpp 88-151 IocpIoMultiplexer::WorkerLoop *)
Fixpoint WorkerLoop mx (turns : list (bool * bool * Dequeued)) x : ub (X * bool) :=
  match turns with
  | [] => Some (x, true)
  | (stop_requested, isRunning, dq) :: turns =>
      if stop_requested || negb isRunning then Some (x, false)
      else
        '(x, goes_on) ← WorkerLoop_turn mx dq x;
        if goes_on : bool then WorkerLoop mx turns x else Some (x, false)
  end.

(** ** All workers

    While the server runs, each completion is dequeued by some worker that is
    still in its loop; when there is none it stays in the port. *)
Definition serve1 mx (s : nat * X) dq : ub (nat * X) :=
  match s.1 with
  | O => Some s
  | S others =>
      '(x, goes_on) ← WorkerLoop_turn mx dq s.2;
      Some (if goes_on : bool then S others else others, x)
  end.

Fixpoint serve mx (dqs : list Dequeued) (s : nat * X) : ub (nat * X) :=
  match dqs with [] => Some s | dq :: dqs => s ← serve1 mx s dq; serve mx dqs s end.

(** ** Properties *)

Lemma Iocp_Shutdown_idemp mx os :
  let '(mx1, os1) := Iocp_Shutdown mx os in Iocp_Shutdown mx1 os1 = (mx1, os1).
Proof.
  unfold Iocp_Shutdown. destruct mx as [h k running cb hd]; cbn.
  destruct running; cbn; [|done]. destruct (negb _); cbn; [|done]. by destruct (os_call _ _).
Qed.

Lemma serve_no_worker mx dqs x : serve mx dqs (0%nat, x) = Some (0%nat, x).
Proof. induction dqs; [done|]. cbn. done. Qed.

Definition aborted dq : bool := negb (dq_ok dq) && (dq_lastError dq =? ERROR_OPERATION_ABORTED).

Lemma aborted_exits dq : aborted dq = true -> WorkerLoop_exits dq = true.
Proof. unfold WorkerLoop_exits, aborted. by destruct (dq_key dq), (dq_overlapped dq). Qed.

(** C36: cancelled operations use up the workers.  A worker that dequeues a
    completion with [ERROR_OPERATION_ABORTED] leaves its loop, whatever the
    completion belonged to; once as many of them have been dequeued as there are
    workers, nothing that completes afterwards reaches the completion handler
    although the multiplexer runs. *)
Theorem aborted_completions_exhaust_workers mx workers dqs rest x :
  Forall (fun dq => aborted dq = true) dqs -> (workers <= length dqs)%nat ->
  serve mx (dqs ++ rest) (workers, x) = Some (0%nat, x).
Proof.
  intros Ha. revert workers. induction Ha as [|dq dqs Hdq Ha IH]; intros [|k] Hk.
  - apply serve_no_worker.
  - cbn in Hk. lia.
  - apply serve_no_worker.
  - cbn. unfold WorkerLoop_turn. rewrite aborted_exits by done. cbn. apply IH. cbn in Hk. lia.
Qed.

(** A completion that does not end the worker is dispatched. *)
Lemma WorkerLoop_turn_dispatch mx dq x :
  WorkerLoop_exits dq = false ->
  WorkerLoop_turn mx dq x = (x ← WorkerLoop_dispatch mx dq x; Some (x, true)).
Proof. unfold WorkerLoop_turn. by intros ->. Qed.

Fixpoint dispatch_all mx (dqs : list Dequeued) x : ub X :=
  match dqs with [] => Some x | dq :: dqs => x ← WorkerLoop_dispatch mx dq x; dispatch_all mx dqs x end.

(** As long as no operation is cancelled and no shutdown message arrives,
    every completion is dispatched, once and in order, and no worker is lost. *)
Lemma completions_served_in_order mx workers dqs x :
  Forall (fun dq => WorkerLoop_exits dq = false) dqs ->
  serve mx dqs (S workers, x) = (x' ← dispatch_all mx dqs x; Some (S workers, x')).
Proof.
  intros Hd. revert x. induction Hd as [|dq dqs Hdq Hd IH]; intros x; [done|].
  cbn. rewrite WorkerLoop_turn_dispatch by done.
  destruct (WorkerLoop_dispatch mx dq x) as [x'|]; cbn; [apply IH|done].
Qed.
End Multiplexer.

(** *** Concrete runs

    Two workers; the handler counts the events it is given. *)

Definition counting_mx : IocpIoMultiplexer unit unit :=
  mkIocpIoMultiplexer 7 2 true (mkIocpCallbacks None None) (Some tt).

Definition count_event (_ : unit) (_ : CompletionEvent) (x : nat) : ub nat := Some (S x).

Definition recv_done (client : nat) : Dequeued := mkDequeued true 8 (Some client) (Some (OvRecv client)) 0.
Definition recv_cancelled (client : nat) : Dequeued :=
  mkDequeued false 0 (Some client) (Some (OvRecv client)) ERROR_OPERATION_ABORTED.

Lemma aborted_completions_exhaust_workers_witness :
  serve (fun _ _ => Some IoRecv) (fun _ x => x) count_event counting_mx
    ([recv_cancelled 0; recv_cancelled 1] ++ [recv_done 2]) (2%nat, 0%nat) = Some (0%nat, 0%nat).
Proof.
  apply (aborted_completions_exhaust_workers (fun _ _ => Some IoRecv) (fun _ x => x) count_event counting_mx 2
           [recv_cancelled 0; recv_cancelled 1] [recv_done 2] 0%nat).
  - by repeat constructor.
  - done.
Defined.

Lemma completions_served_in_order_witness :
  serve (fun _ _ => Some IoRecv) (fun _ x => x) count_event counting_mx
    [recv_done 0; recv_done 1; recv_done 2] (2%nat, 0%nat) = Some (2%nat, 3%nat).
Proof.
  apply (completions_served_in_order (fun _ _ => Some IoRecv) (fun _ x => x) count_event counting_mx 1
           [recv_done 0; recv_done 1; recv_done 2] 0%nat).
  by repeat constructor.
Defined.
