(* ===== verification/Acceptor.v ===== *)
(** * IocpAcceptor: asynchronous accepts

    [network/inc/acceptor/IocpAcceptor.h], [network/src/acceptor/IocpAcceptor.cpp].

    The overlapped structures of the accepts are objects of the hybrid pool,
    identified by their number; [AcceptMem] is that pool, the memory of its objects
    and the thread that runs.  An accept that is under way is kept in the holder by
    the guard that returns its object to the pool.  The accept callback acts on a
    state [X], which holds the system and the callbacks' state. *)

From S2P Require Import Prelude Errors Platform FrameBuffer NetClient Net Ledger SocketSetup Scope Pools.
From coqutil Require Import Byte Datatypes.RecordSetters.
From stdpp Require Import base gmap list strings option.
Import DoubleBraceUpdate.
Open Scope Z_scope.

(** The fields the program reads or writes. *)
(** @src network/inc/client/windows/OverlappedExt.h 51-57 AcceptOverlapped *)
Record AcceptOverlapped := mkAcceptOverlapped { ao_ioType : EIoType; ao_clientSocket : Z }.

(** The addresses are only read for logging. *)
(** @src network/inc/acceptor/AcceptContext.h 9-21 AcceptContext *)
Record AcceptContext := mkAcceptContext { acceptSocket : Z; listenSocket : Z }.

(** @src network/inc/acceptor/IocpAcceptor.h 37-42 IocpAcceptor::EventCallbacks *)
Record AcceptorCallbacks (W : Type) := mkAcceptorCallbacks {
  onAcceptPosted : option (W -> W);
  onAcceptPostFailed : option (W -> W);
  onAcceptCompleted : option (W -> W);
  onAcceptCompletionFailed : option (W -> W) }.

Arguments mkAcceptorCallbacks {W}.
Arguments onAcceptPosted {W}.
Arguments onAcceptPostFailed {W}.
Arguments onAcceptCompleted {W}.
Arguments onAcceptCompletionFailed {W}.

(** The pool of overlapped structures, which every thread shares, their memory, and
    the current thread. *)
Record AcceptMem := mkAcceptMem {
  am_thread : nat; am_pool : HybridObjectPool; am_objs : gmap nat AcceptOverlapped }.

Definition AcceptMem_init : AcceptMem := mkAcceptMem 0 HybridObjectPool_init ∅.

(** A function pointer is whether it is loaded. *)
(** @src network/inc/acceptor/IocpAcceptor.h 134-148 IocpAcceptor *)
Record IocpAcceptor (W : Type) := mkIocpAcceptor {
  _listenSocket : Z;
  ac_iocpHandle : Z;
  _fnAcceptEx : bool;
  _fnGetAcceptExSockAddrs : bool;
  ac_callbacks : AcceptorCallbacks W;
  _acceptOverlappedHolder : DeferredItemHolder AcceptMem }.

Arguments mkIocpAcceptor {W}.
Arguments _listenSocket {W}.
Arguments ac_iocpHandle {W}.
Arguments _fnAcceptEx {W}.
Arguments _fnGetAcceptExSockAddrs {W}.
Arguments ac_callbacks {W}.
Arguments _acceptOverlappedHolder {W}.

Definition SIO_GET_EXTENSION_FUNCTION_POINTER : Z := 0xC8000006.
Definition guidAcceptEx : Z := 1.
Definition guidGetAcceptExSockAddrs : Z := 2.

(** [[](T* x) { HybridObjectPool::Return(x); }]. *)
Definition return_item (item : option nat) (m : AcceptMem) : AcceptMem :=
  m {{ am_pool ::= HybridPool_Return (am_thread m) item }}.

Section Acceptor.
Context {OS W A : Type} `{WinSock OS} `{UMapOrder}.
Implicit Types (a : IocpAcceptor W) (m : AcceptMem) (n : Net OS W) (x : Net OS W * A).

(** @src network/src/acceptor/IocpAcceptor.cpp 10-17 IocpAcceptor::IocpAcceptor *)
Definition Acceptor_make : IocpAcceptor W :=
  mkIocpAcceptor InvalidSocket INVALID_HANDLE_VALUE false false
    (mkAcceptorCallbacks None None None None) DeferredItemHolder_init.

(** @src network/src/acceptor/IocpAcceptor.cpp 47-49 IocpAcceptor::UseCallbacks *)
Definition Acceptor_UseCallbacks (callbacks : AcceptorCallbacks W) a : IocpAcceptor W :=
  a {{ ac_callbacks := callbacks }}.

(** [WSAIoctl] stores the pointer when it succeeds. *)
(** @src network/src/acceptor/IocpAcceptor.cpp 51-90 IocpAcceptor::LoadAcceptExFunctions *)
Definition LoadAcceptExFunctions a n : IocpAcceptor W * Net OS W * ResultVoid ENetworkError :=
  let '(n, r) := net_call (SysWSAIoctl (_listenSocket a) SIO_GET_EXTENSION_FUNCTION_POINTER [guidAcceptEx]) n in
  if ret r =? SocketError then (a, n, Err SocketPostAcceptFailed)
  else
    let a := a {{ _fnAcceptEx := true }} in
    let '(n, r) := net_call (SysWSAIoctl (_listenSocket a) SIO_GET_EXTENSION_FUNCTION_POINTER
                               [guidGetAcceptExSockAddrs]) n in
    if ret r =? SocketError then (a, n, Err SocketPostAcceptFailed)
    else (a {{ _fnGetAcceptExSockAddrs := true }}, n, OkVoid).

(** @src network/src/acceptor/IocpAcceptor.cpp 23-45 IocpAcceptor::Initialize *)
Definition Acceptor_Initialize (listenSocket iocpHandle : Z) a n
    : IocpAcceptor W * Net OS W * ResultVoid ENetworkError :=
  let a := a {{ _listenSocket := listenSocket; ac_iocpHandle := iocpHandle }} in
  let '(n, result) := net_call (SysCreateIoCompletionPort (_listenSocket a) (ac_iocpHandle a) 0) n in
  if (ret result =? 0) || negb (ret result =? ac_iocpHandle a) then (a, n, Err SocketCreateFailed)
  else
    let '(a, n, loadAcceptExRes) := LoadAcceptExFunctions a n in
    if HasErr loadAcceptExRes then (a, n, loadAcceptExRes) else (a, n, OkVoid).

(** The two guards of the scope, the overlapped item and the new socket, are
    destroyed in that order on every path that leaves it. *)
(** @src network/src/acceptor/IocpAcceptor.cpp 92-152 IocpAcceptor::PostAccept *)
Definition PostAccept a m n : ub (IocpAcceptor W * AcceptMem * Net OS W * ResultVoid ENetworkError) :=
  let '(n, r) := net_call (SysSocket SOCK_STREAM IPPROTO_TCP) n in
  let acceptSocket := ret r in
  if acceptSocket =? InvalidSocket then
    Some (a, m, with_w (emit (onAcceptPostFailed (ac_callbacks a))) n, Err SocketCreateFailed)
  else
    let '(pool, item) := HybridPool_Get (am_thread m) (am_pool m) in
    let overlappedItem := DeferContext_make (Some item) return_item in
    let m := m {{ am_pool := pool;
                  am_objs ::= insert item (mkAcceptOverlapped IoAccept acceptSocket) }} in
    if negb (_fnAcceptEx a) then None
    else
      let '(n, r) := net_call (SysAcceptEx (_listenSocket a) acceptSocket (Z.of_nat item)) n in
      if (ret r =? 0) && negb (lastError r =? ERROR_IO_PENDING) then
        let n := with_w (emit (onAcceptPostFailed (ac_callbacks a))) n in
        let m := DeferContext_destroy overlappedItem m in
        let '(n, _) := net_call (SysClosesocket acceptSocket) n in
        Some (a, m, n, Err SocketPostAcceptFailed)
      else
        let n := with_w (emit (onAcceptPosted (ac_callbacks a))) n in
        '(holder, overlappedItem) ← Hold overlappedItem (_acceptOverlappedHolder a);
        let m := DeferContext_destroy overlappedItem m in
        Some (a {{ _acceptOverlappedHolder := holder }}, m, n, OkVoid).

(** @src network/src/acceptor/IocpAcceptor.cpp 155-160 IocpAcceptor::PostAccepts *)
Fixpoint PostAccepts_loop (count : nat) a m n
    : ub (IocpAcceptor W * AcceptMem * Net OS W * ResultVoid ENetworkError) :=
  match count with
  | O => Some (a, m, n, OkVoid)
  | S count =>
      '(a, m, n, postAcceptRes) ← PostAccept a m n;
      if HasErr postAcceptRes then Some (a, m, n, postAcceptRes) else PostAccepts_loop count a m n
  end.

(** @src network/src/acceptor/IocpAcceptor.cpp 154-163 IocpAcceptor::PostAccepts *)
Definition PostAccepts (count : Z) a m n
    : ub (IocpAcceptor W * AcceptMem * Net OS W * ResultVoid ENetworkError) :=
  PostAccepts_loop (Z.to_nat count) a m n.

Definition accept_failed a m x : IocpAcceptor W * AcceptMem * (Net OS W * A) * ResultVoid ENetworkError :=
  (a, m, (with_w (emit (onAcceptCompletionFailed (ac_callbacks a))) x.1, x.2), Err SocketAcceptFailed).

(** The guard of the released item is destroyed when the function returns, and
    before it the guard that closes the socket still recorded in the item. *)
Definition accept_leave (overlapped : nat) (overlappedItem : DeferContext AcceptMem) m x
    : AcceptMem * (Net OS W * A) :=
  let sock := default InvalidSocket (ao_clientSocket <$> am_objs m !! overlapped) in
  let n := if negb (sock =? InvalidSocket) then (net_call (SysClosesocket sock) x.1).1 else x.1 in
  (DeferContext_destroy overlappedItem m, (n, x.2)).

(** [_acceptCallback], fixed by the constructor, is the first argument. *)
(** @src network/src/acceptor/IocpAcceptor.cpp 165-239 IocpAcceptor::OnAcceptComplete *)
Definition OnAcceptComplete
    (acceptCallback : option (AcceptContext -> Net OS W * A -> ub (Net OS W * A)))
    (overlapped : option nat) a m x
    : ub (IocpAcceptor W * AcceptMem * (Net OS W * A) * ResultVoid ENetworkError) :=
  match overlapped with
  | None => Some (accept_failed a m x)
  | Some overlapped =>
      ov ← am_objs m !! overlapped;
      if negb (bool_decide (ao_ioType ov = IoAccept)) then Some (accept_failed a m x)
      else
        let '(holder, overlappedItem) := Holder_Release overlapped (_acceptOverlappedHolder a) in
        let a := a {{ _acceptOverlappedHolder := holder }} in
        match overlappedItem with
        | None => Some (accept_failed a m x)
        | Some overlappedItem =>
            let '(os, result) := SetUpdateAcceptContext (ao_clientSocket ov) (_listenSocket a) (net_os x.1) in
            let x := (mkNet os (net_w x.1) (clients x.1), x.2) in
            if negb result then
              let '(a, m, x, r) := accept_failed a m x in
              let '(m, x) := accept_leave overlapped overlappedItem m x in
              Some (a, m, x, r)
            else if negb (_fnGetAcceptExSockAddrs a) then None
            else
              x ← match acceptCallback with
                  | Some f => f (mkAcceptContext (ao_clientSocket ov) (_listenSocket a)) x
                  | None => Some x
                  end;
              let m := m {{ am_objs ::= alter (fun o => o {{ ao_clientSocket := InvalidSocket }}) overlapped }} in
              let n := with_w (emit (onAcceptCompleted (ac_callbacks a))) x.1 in
              '(a, m, n, postAcceptRes) ← PostAccept a m n;
              let '(m, x) := accept_leave overlapped overlappedItem m (n, x.2) in
              if HasErr postAcceptRes then Some (a, m, x, postAcceptRes) else Some (a, m, x, OkVoid)
        end
  end.

(** The accepts that are under way stay in the holder, and their sockets open. *)
(** @src network/src/acceptor/IocpAcceptor.cpp 241-255 IocpAcceptor::Shutdown *)
Definition Acceptor_Shutdown a n : IocpAcceptor W * Net OS W :=
  let n := Holder_ForEach (fun item n => (net_call (SysCancelIoEx (_listenSocket a) (Z.of_nat item)) n).1)
             (_acceptOverlappedHolder a) n in
  (a {{ _fnAcceptEx := false; _fnGetAcceptExSockAddrs := false }}, n).

(** The destructor, and then that of the holder, which destroys every guard. *)
(** @src network/src/acceptor/IocpAcceptor.cpp 19-21 IocpAcceptor::~IocpAcceptor *)
Definition Acceptor_destroy a m n : AcceptMem * Net OS W :=
  let '(a, n) := Acceptor_Shutdown a n in
  (foldl (fun m key => (Holder_Erase key (_acceptOverlappedHolder a) m).2) m
     (Holder_keys (_acceptOverlappedHolder a)), n).
End Acceptor.

(** ** Invariant

    The objects lent by the pool are those of the accepts under way, and [extra],
    the ones a function holds at that moment.  Each accept under way has an open
    socket of its own. *)

Definition held_keys {W} (a : IocpAcceptor W) : list nat := (map_to_list (_items (_acceptOverlappedHolder a))).*1.

Definition sock_of (m : AcceptMem) (item : nat) : Z :=
  default InvalidSocket (ao_clientSocket <$> am_objs m !! item).

Definition pending_item (m : AcceptMem) (item : nat) (c : DeferContext AcceptMem) : Prop :=
  c = DeferContext_make (Some item) return_item /\
  exists s, am_objs m !! item = Some (mkAcceptOverlapped IoAccept s) /\ s <> InvalidSocket.

Definition acceptor_inv {W} (extra : list nat) (a : IocpAcceptor W) (m : AcceptMem) : Prop :=
  pool_inv (am_pool m) (extra ++ held_keys a) /\
  map_Forall (pending_item m) (_items (_acceptOverlappedHolder a)).

(** The accepts under way whose socket is [s]. *)
Definition held {W} (a : IocpAcceptor W) (m : AcceptMem) (s : Z) : Z :=
  zsum (fun k => is_sock s (sock_of m k)) (held_keys a).

Lemma held_keys_insert {W} (a : IocpAcceptor W) k c :
  _items (_acceptOverlappedHolder a) !! k = None ->
  held_keys (a {{ _acceptOverlappedHolder := mkHolder (<[k := c]> (_items (_acceptOverlappedHolder a))) }})
    ≡ₚ k :: held_keys a.
Proof. intros Hk. destruct a. unfold held_keys. cbn in *. by rewrite map_to_list_insert. Qed.

Lemma held_keys_delete {W} (a : IocpAcceptor W) k c :
  _items (_acceptOverlappedHolder a) !! k = Some c ->
  held_keys a ≡ₚ
    k :: held_keys (a {{ _acceptOverlappedHolder := mkHolder (delete k (_items (_acceptOverlappedHolder a))) }}).
Proof. intros Hk. destruct a. unfold held_keys. cbn in *. by rewrite <-(map_to_list_delete _ _ _ Hk). Qed.

Lemma elem_of_held_keys {W} (a : IocpAcceptor W) k :
  k ∈ held_keys a <-> is_Some (_items (_acceptOverlappedHolder a) !! k).
Proof.
  unfold held_keys. rewrite list_elem_of_fmap. split.
  - intros ([k' c] & -> & Hin). apply elem_of_map_to_list in Hin. by eexists.
  - intros [c Hc]. exists (k, c). split; [done|]. by apply elem_of_map_to_list.
Qed.

Lemma sock_of_insert_ne m pool k o k' :
  k' <> k -> sock_of (m {{ am_pool := pool; am_objs ::= insert k o }}) k' = sock_of m k'.
Proof. intros. destruct m. unfold sock_of. cbn. by rewrite lookup_insert_ne. Qed.

Lemma pending_item_mono m m' k c :
  am_objs m' !! k = am_objs m !! k -> pending_item m k c -> pending_item m' k c.
Proof. unfold pending_item. by intros ->. Qed.

Lemma held_ext {W} (a : IocpAcceptor W) m m' s :
  (forall k, k ∈ held_keys a -> am_objs m' !! k = am_objs m !! k) -> held a m' s = held a m s.
Proof. intros Hk. apply zsum_ext. intros k Hin. unfold sock_of. by rewrite Hk. Qed.

Section AcceptorProps.
Context {OS W A : Type} `{Traced OS} `{UMapOrder}.
Implicit Types (a : IocpAcceptor W) (m : AcceptMem) (n : Net OS W) (x : Net OS W * A).

(** What an operation of the acceptor may change: the holder, the pool, the
    sockets; [delta] accepts more are under way. *)
Record accept_frame (extra : list nat) (delta : Z) a m n a' m' n' : Prop := {
  af_inv : acceptor_inv extra a' m';
  af_acceptor : a' = a {{ _acceptOverlappedHolder := _acceptOverlappedHolder a' }};
  af_thread : am_thread m' = am_thread m;
  af_objs : forall k, k ∈ extra -> am_objs m' !! k = am_objs m !! k;
  af_clients : clients n' = clients n;
  af_pending : zlen (held_keys a') = zlen (held_keys a) + delta;
  af_ledger : forall s, s <> InvalidSocket -> net_ledger n' s - held a' m' s = net_ledger n s - held a m s }.

Lemma net_call_split call n :
  net_call call n = (mkNet (os_call call (net_os n)).1 (net_w n) (clients n), (os_call call (net_os n)).2).
Proof. unfold net_call. by destruct (os_call _ _). Qed.

Lemma accept_frame_refl extra a m n n' :
  acceptor_inv extra a m -> clients n' = clients n ->
  (forall s, s <> InvalidSocket -> net_ledger n' s = net_ledger n s) ->
  accept_frame extra 0 a m n a m n'.
Proof.
  intros Hinv Hc Hl. constructor; try done; [by destruct a|lia|]. intros s Hs. by rewrite Hl.
Qed.

Lemma ledger_socket type protocol n s :
  net_ledger (net_call (SysSocket type protocol) n).1 s =
  net_ledger n s + is_sock s (ret (os_call (SysSocket type protocol) (net_os n)).2).
Proof. rewrite net_call_split. unfold net_ledger. cbn [fst net_os]. rewrite os_balance_call. cbn. unfold slots. cbn. lia. Qed.

Lemma ledger_closesocket sock n s :
  net_ledger (net_call (SysClosesocket sock) n).1 s = net_ledger n s - is_sock s sock.
Proof. rewrite net_call_split. unfold net_ledger. cbn [fst net_os]. rewrite os_balance_close. unfold slots. cbn. lia. Qed.

(** An object just taken from the pool is neither held nor in [extra]. *)
Lemma Get_fresh extra a m :
  acceptor_inv extra a m ->
  let '(pool, item) := HybridPool_Get (am_thread m) (am_pool m) in
  pool_inv pool (item :: extra ++ held_keys a) /\ (item ∉ extra) /\
  _items (_acceptOverlappedHolder a) !! item = None.
Proof.
  intros [Hp _]. pose proof (Get_inv (am_thread m) _ _ Hp) as Hg.
  destruct (HybridPool_Get _ _) as [pool item]. cbn in Hg. split; [done|].
  pose proof (pool_inv_NoDup _ _ Hg) as Hnd. inversion Hnd as [|?? Hni _]; subst.
  rewrite elem_of_app in Hni. split; [tauto|].
  apply eq_None_not_Some. rewrite <-elem_of_held_keys. tauto.
Qed.

Lemma accept_frame_held extra a m n n' pool item sock :
  acceptor_inv extra a m -> item ∉ extra -> _items (_acceptOverlappedHolder a) !! item = None ->
  pool_inv pool (item :: extra ++ held_keys a) -> sock <> InvalidSocket -> clients n' = clients n ->
  (forall s, s <> InvalidSocket -> net_ledger n' s = net_ledger n s + is_sock s sock) ->
  accept_frame extra 1 a m n
    (a {{ _acceptOverlappedHolder :=
            mkHolder (<[item := DeferContext_make (Some item) return_item]> (_items (_acceptOverlappedHolder a))) }})
    (m {{ am_pool := pool; am_objs ::= insert item (mkAcceptOverlapped IoAccept sock) }}) n'.
Proof.
  intros [Hp Hpend] Hne Hfree Hg Hs Hc Hl.
  pose proof (held_keys_insert a item (DeferContext_make (Some item) return_item) Hfree) as Hk.
  assert (forall k, k <> item -> am_objs (m {{ am_pool := pool;
    am_objs ::= insert item (mkAcceptOverlapped IoAccept sock) }}) !! k = am_objs m !! k) as Hobj.
  { intros k Hki. destruct m. cbn. by rewrite lookup_insert_ne. }
  constructor; [split| | | | | |].
  - rewrite Hk. destruct m. cbn. by rewrite <-Permutation_middle.
  - destruct a. cbn in *. apply map_Forall_insert_2.
    + split; [done|]. exists sock. split; [|done]. destruct m. cbn. by rewrite lookup_insert_eq.
    + intros k c Hkc. eapply pending_item_mono; [|by apply Hpend]. apply Hobj. congruence.
  - by destruct a.
  - by destruct m.
  - intros k Hk'. apply Hobj. by intros ->.
  - done.
  - unfold zlen. rewrite Hk. cbn. lia.
  - intros s Hsi. rewrite Hl by done. unfold held at 1. rewrite (zsum_perm _ _ _ Hk).
    assert (zsum (λ k, is_sock s (sock_of (m {{ am_pool := pool;
      am_objs ::= insert item (mkAcceptOverlapped IoAccept sock) }}) k)) (held_keys a) = held a m s) as Heq.
    { apply (held_ext a). intros k Hin. apply Hobj. intros ->. apply elem_of_held_keys in Hin.
      rewrite Hfree in Hin. by destruct Hin. }
    unfold zsum in *. cbn [foldr]. rewrite Heq.
    assert (sock_of (m {{ am_pool := pool; am_objs ::= insert item (mkAcceptOverlapped IoAccept sock) }}) item
      = sock) as -> by (destruct m; unfold sock_of; cbn; by rewrite lookup_insert_eq). lia.
Qed.

Lemma accept_frame_returned extra a m n n' pool item o :
  acceptor_inv extra a m -> item ∉ extra -> _items (_acceptOverlappedHolder a) !! item = None ->
  pool_inv pool (item :: extra ++ held_keys a) -> clients n' = clients n ->
  (forall s, s <> InvalidSocket -> net_ledger n' s = net_ledger n s) ->
  accept_frame extra 0 a m n a
    (return_item (Some item) (m {{ am_pool := pool; am_objs ::= insert item o }})) n'.
Proof.
  intros [Hp Hpend] Hne Hfree Hg Hc Hl.
  assert (forall k, k <> item -> am_objs (return_item (Some item) (m {{ am_pool := pool;
    am_objs ::= insert item o }})) !! k = am_objs m !! k) as Hobj.
  { intros k Hki. destruct m. cbn. by rewrite lookup_insert_ne. }
  constructor; [split| | | | | |].
  - change (am_pool _) with (HybridPool_Return (am_thread m) (Some item) pool). by apply Return_inv.
  - intros k c Hkc. eapply pending_item_mono; [|by apply Hpend]. apply Hobj. congruence.
  - by destruct a.
  - by destruct m.
  - intros k Hk'. apply Hobj. by intros ->.
  - done.
  - lia.
  - intros s Hsi. rewrite Hl by done. f_equal. apply held_ext. intros k Hin. apply Hobj.
    intros ->. apply elem_of_held_keys in Hin. rewrite Hfree in Hin. by destruct Hin.
Qed.

Lemma PostAccept_spec extra a m n :
  acceptor_inv extra a m -> _fnAcceptEx a = true ->
  exists a' m' n' r, PostAccept a m n = Some (a', m', n', r) /\
    accept_frame extra (if HasErr r then 0 else 1) a m n a' m' n' /\
    net_w n' = emit (if HasErr r then onAcceptPostFailed (ac_callbacks a)
                     else onAcceptPosted (ac_callbacks a)) (net_w n).
Proof.
  intros Hinv Hfn. unfold PostAccept.
  pose proof (ledger_socket SOCK_STREAM IPPROTO_TCP n) as Hl1. rewrite net_call_split in *.
  destruct (os_call (SysSocket _ _) (net_os n)) as [os1 r1]. cbn [fst snd] in *.
  set (n1 := mkNet os1 _ _) in *.
  destruct (Z.eqb_spec (ret r1) InvalidSocket) as [Hbad|Hok].
  - eexists _, _, _, _. split; [done|]. split; [|done]. apply accept_frame_refl; [done|done|].
    intros s Hs. rewrite ledger_with_w, Hl1, Hbad, is_sock_ne by done. lia.
  - pose proof (Get_fresh extra a m Hinv) as Hg.
    destruct (HybridPool_Get _ _) as [pool item]. destruct Hg as (Hg & Hne & Hfree). rewrite Hfn. cbn [negb].
    pose proof (fun s => ledger_neutral (SysAcceptEx (_listenSocket a) (ret r1) (Z.of_nat item)) n1 s I) as Hl2.
    rewrite net_call_split in *. destruct (os_call (SysAcceptEx _ _ _) _) as [os2 r2]. cbn [fst snd] in *.
    set (n2 := mkNet os2 _ _) in *.
    destruct ((ret r2 =? 0) && _).
    + pose proof (ledger_closesocket (ret r1) (with_w (emit (onAcceptPostFailed (ac_callbacks a))) n2)) as Hl3.
      rewrite net_call_split in *. destruct (os_call (SysClosesocket _) _) as [os3 r3]. cbn [fst snd] in *.
      eexists _, _, _, _. split; [done|]. split; [|done].
      cbn [HasErr Err _hasError].
      change (DeferContext_destroy _ ?m0) with (return_item (Some item) m0).
      apply accept_frame_returned; try done. intros s Hs. rewrite Hl3, ledger_with_w, Hl2, Hl1. lia.
    + unfold Hold. cbn [DeferContext_Get DeferContext_make _item mbind option_bind]. rewrite Hfree.
      eexists _, _, _, _. split; [done|]. split; [|done].
      cbn [HasErr OkVoid Ok _hasError].
      apply accept_frame_held; try done. intros s Hs. by rewrite ledger_with_w, Hl2, Hl1.
Qed.

(** *** Completion *)

Definition loaded a : Prop := _fnAcceptEx a = true /\ _fnGetAcceptExSockAddrs a = true.

(** A property of everything but the system. *)
Implicit Type (P : W -> list (Client W) -> A -> Prop).
Definition holds P x : Prop := P (net_w x.1) (clients x.1) x.2.

(** What the acceptor asks of its callback: on the states [P], it returns, in a
    state of [P], and the socket it is given becomes its own: the callback closes it
    or stores it in one slot. *)
Class TakesSocket P (f : AcceptContext -> Net OS W * A -> ub (Net OS W * A)) : Prop :=
  takes_socket : forall ctx x,
    acceptSocket ctx <> InvalidSocket -> holds P x ->
    exists x', f ctx x = Some x' /\ holds P x' /\
      forall s, s <> InvalidSocket ->
        net_ledger x'.1 s = net_ledger x.1 s - is_sock s (acceptSocket ctx).

(** The acceptor's own notifications do not disturb [P]. *)
Definition notifies_ok P a : Prop :=
  forall w cl d, P w cl d ->
    P (emit (onAcceptPosted (ac_callbacks a)) w) cl d /\ P (emit (onAcceptPostFailed (ac_callbacks a)) w) cl d /\
    P (emit (onAcceptCompleted (ac_callbacks a)) w) cl d /\
    P (emit (onAcceptCompletionFailed (ac_callbacks a)) w) cl d.

Definition released a (item : nat) : IocpAcceptor W :=
  a {{ _acceptOverlappedHolder := mkHolder (delete item (_items (_acceptOverlappedHolder a))) }}.

Lemma released_inv a m item c :
  acceptor_inv [] a m -> _items (_acceptOverlappedHolder a) !! item = Some c ->
  acceptor_inv [item] (released a item) m /\ item ∉ held_keys (released a item).
Proof.
  intros [Hp Hpend] Hc. pose proof (held_keys_delete a item c Hc) as Hk. fold (released a item) in Hk. split.
  - split; [cbn; by rewrite <-Hk|]. destruct a. cbn in *. by apply map_Forall_delete.
  - rewrite elem_of_held_keys. destruct a. cbn. rewrite lookup_delete_eq. by intros [].
Qed.

Lemma held_released a m item c s :
  _items (_acceptOverlappedHolder a) !! item = Some c ->
  held a m s = is_sock s (sock_of m item) + held (released a item) m s.
Proof.
  intros Hc. unfold held. rewrite (zsum_perm _ _ _ (held_keys_delete a item c Hc)). done.
Qed.

(** Leaving [OnAcceptComplete]: the object goes back to the pool, and the socket
    still recorded in it, if any, is closed. *)
Lemma accept_leave_spec a m item n (d : A) :
  acceptor_inv [item] a m ->
  let '(m', (n', d')) := accept_leave item (DeferContext_make (Some item) return_item) m (n, d) in
  acceptor_inv [] a m' /\ am_objs m' = am_objs m /\ d' = d /\ clients n' = clients n /\ net_w n' = net_w n /\
  forall s, s <> InvalidSocket -> net_ledger n' s = net_ledger n s - is_sock s (sock_of m item).
Proof.
  intros [Hp Hpend]. unfold accept_leave. cbn [fst snd]. fold (sock_of m item). split_and!; try done.
  - split; [|done]. cbn [app]. change (am_pool _) with (HybridPool_Return (am_thread m) (Some item) (am_pool m)).
    by apply Return_inv.
  - destruct (negb _); [|done]. by rewrite net_call_split.
  - destruct (negb _); [|done]. by rewrite net_call_split.
  - intros s Hs. destruct (Z.eqb_spec (sock_of m item) InvalidSocket) as [Heq|Hne]; cbn [negb].
    + rewrite Heq, is_sock_ne by done. lia.
    + apply ledger_closesocket.
Qed.

(** The object of the completed accept, while the function runs. *)
Lemma inv_alter item a m :
  acceptor_inv [item] a m -> item ∉ held_keys a ->
  acceptor_inv [item] a (m {{ am_objs ::= alter (fun o => o {{ ao_clientSocket := InvalidSocket }}) item }}) /\
  forall s, held a (m {{ am_objs ::= alter (fun o => o {{ ao_clientSocket := InvalidSocket }}) item }}) s = held a m s.
Proof.
  intros [Hp Hpend] Hni.
  assert (forall k, k ∈ held_keys a -> am_objs (m {{ am_objs ::=
    alter (fun o => o {{ ao_clientSocket := InvalidSocket }}) item }}) !! k = am_objs m !! k) as Hobj.
  { intros k Hk. destruct m. cbn. rewrite lookup_alter_ne; [done|]. congruence. }
  split; [split|].
  - by destruct m.
  - intros k c Hkc. eapply pending_item_mono; [|by apply Hpend]. apply Hobj, elem_of_held_keys. by eexists.
  - intros s. by apply held_ext.
Qed.

(** What completing one accept may change. *)
Record complete_frame P (delta : Z) a m x a' m' x' : Prop := {
  cf_inv : acceptor_inv [] a' m';
  cf_acceptor : a' = a {{ _acceptOverlappedHolder := _acceptOverlappedHolder a' }};
  cf_app : holds P x';
  cf_pending : zlen (held_keys a') = zlen (held_keys a) + delta;
  cf_ledger : forall s, s <> InvalidSocket ->
    net_ledger x'.1 s - held a' m' s = net_ledger x.1 s - held a m s }.

Lemma SetUpdateAcceptContext_ledger sock lsock n s :
  let os := (SetUpdateAcceptContext sock lsock (net_os n)).1 in
  net_ledger (mkNet os (net_w n) (clients n)) s = net_ledger n s.
Proof.
  unfold SetUpdateAcceptContext, set_option. unfold net_ledger.
  pose proof (os_balance_neutral (SysSetsockopt sock SOL_SOCKET SO_UPDATE_ACCEPT_CONTEXT lsock) (net_os n) s I) as Hb.
  destruct (os_call _ _) as [os r]. cbn in *. by rewrite Hb.
Qed.

(** The part after the socket has been handed over. *)
Lemma complete_repost P a m n (d : A) item c a1 m1 :
  acceptor_inv [] a m -> _items (_acceptOverlappedHolder a) !! item = Some c -> loaded a ->
  a1 = released a item -> notifies_ok P a -> holds P (n, d) ->
  m1 = m {{ am_objs ::= alter (fun o => o {{ ao_clientSocket := InvalidSocket }}) item }} ->
  exists a' m' n' r, PostAccept a1 m1 n = Some (a', m', n', r) /\
    let '(m2, x2) := accept_leave item (DeferContext_make (Some item) return_item) m' (n', d) in
    acceptor_inv [] a' m2 /\ a' = a {{ _acceptOverlappedHolder := _acceptOverlappedHolder a' }} /\
    holds P x2 /\ zlen (held_keys a') = zlen (held_keys a) + (if HasErr r then -1 else 0) /\
    forall s, s <> InvalidSocket ->
      net_ledger x2.1 s - held a' m2 s = net_ledger n s - held (released a item) m s.
Proof.
  intros Hinv Hc [Hfn _] -> Hok HP ->. destruct (released_inv a m item c Hinv Hc) as [Hr Hni].
  destruct (inv_alter item (released a item) m Hr Hni) as [Hr' Hheld].
  destruct (PostAccept_spec [item] (released a item) _ n Hr') as (a' & m' & n' & r & Hpost & [] & Hw);
    [by destruct a|].
  exists a', m', n', r. split; [done|].
  pose proof (accept_leave_spec a' m' item n' d af_inv0) as Hleave.
  destruct (accept_leave item _ m' (n', d)) as [m2 [n2 d2]].
  destruct Hleave as (Hinv2 & Hobjs & -> & Hcl & Hw2 & Hl). cbn [fst snd] in *.
  assert (sock_of m' item = InvalidSocket) as Hsock.
  { unfold sock_of. rewrite af_objs0 by set_solver. destruct m. cbn. rewrite lookup_alter_eq.
    by destruct (am_objs0 !! item). }
  split_and!; [done| | | |].
  - rewrite af_acceptor0. by destruct a, a'.
  - unfold holds in *. cbn [fst snd] in *. rewrite Hcl, af_clients0, Hw2, Hw.
    assert (ac_callbacks (released a item) = ac_callbacks a) as -> by (by destruct a).
    destruct (HasErr r); by apply (Hok _ _ _ HP).
  - rewrite af_pending0. unfold zlen. rewrite (held_keys_delete a item c Hc). unfold released. cbn.
    destruct (HasErr r); lia.
  - intros s Hs. rewrite Hl, Hsock, is_sock_ne by done.
    assert (held a' m2 s = held a' m' s) as -> by (apply held_ext; intros; by rewrite Hobjs).
    specialize (af_ledger0 s Hs). rewrite Hheld in af_ledger0. lia.
Qed.

Lemma OnAcceptComplete_spec P f `{!TakesSocket P f} item a m x :
  acceptor_inv [] a m -> loaded a -> item ∈ held_keys a -> notifies_ok P a -> holds P x ->
  exists a' m' x' r, OnAcceptComplete (Some f) (Some item) a m x = Some (a', m', x', r) /\
    complete_frame P (if HasErr r then -1 else 0) a m x a' m' x'.
Proof.
  intros Hinv Hloaded [c Hc]%elem_of_held_keys Hok HP.
  destruct (proj2 Hinv item c Hc) as (-> & sock & Hobj & Hsock).
  destruct (released_inv a m item _ Hinv Hc) as [Hr Hni].
  assert (sock_of m item = sock) as Hso by (unfold sock_of; by rewrite Hobj).
  unfold OnAcceptComplete. rewrite Hobj. cbn [mbind option_bind ao_ioType ao_clientSocket].
  rewrite bool_decide_true by done. cbn [negb]. unfold Holder_Release. rewrite Hc. fold (released a item).
  change (DeferContext_move _).1 with (DeferContext_make (Some item) return_item).
  pose proof (SetUpdateAcceptContext_ledger sock (_listenSocket (released a item)) x.1) as Hl0.
  destruct (SetUpdateAcceptContext _ _ _) as [os ok]. cbn [fst] in Hl0. set (x1 := (mkNet os _ _, x.2)).
  destruct ok; cbn [negb].
  - assert (_fnGetAcceptExSockAddrs (released a item) = true) as -> by (by destruct a; destruct Hloaded).
    cbn [negb]. destruct (takes_socket (mkAcceptContext sock (_listenSocket (released a item))) x1 Hsock HP)
      as (x2 & -> & HP2 & Hl2). cbn [mbind option_bind acceptSocket] in *.
    set (n2 := with_w _ x2.1). assert (holds P (n2, x2.2)) as HP2'.
    { unfold holds, n2. cbn [fst snd with_w net_w clients]. assert (ac_callbacks (released a item) = ac_callbacks a) as -> by (by destruct a).
      by apply (Hok _ _ _ HP2). }
    destruct (complete_repost P a m n2 x2.2 item _ _ _ Hinv Hc Hloaded eq_refl Hok HP2' eq_refl)
      as (a' & m' & n' & r & -> & Hend). cbn [mbind option_bind fst snd] in *.
    destruct (accept_leave item _ m' _) as [m3 x3]. destruct Hend as (? & ? & ? & ? & Hl).
    eexists a', m3, x3, (if HasErr r then r else OkVoid). split; [by destruct (HasErr r)|].
    constructor; try done; [by destruct (HasErr r) eqn:He; rewrite ?He|]. intros s Hs. rewrite Hl by done. subst n2.
    rewrite ledger_with_w, Hl2, (held_released a m item _ s Hc), Hso by done. cbn [fst x1]. rewrite Hl0. lia.
  - pose proof (accept_leave_spec (released a item) m item
      (with_w (emit (onAcceptCompletionFailed (ac_callbacks (released a item)))) x1.1) x1.2 Hr) as Hleave.
    unfold accept_failed. destruct (accept_leave item _ m _) as [m' [n' d']].
    destruct Hleave as (? & Hobjs & -> & Hcl & Hw2 & Hl).
    eexists _, _, _, _. split; [done|]. constructor; cbn [fst snd HasErr Err _hasError]; try done.
    + unfold holds. cbn [fst snd]. rewrite Hcl, Hw2. cbn [with_w net_w clients].
      assert (ac_callbacks (released a item) = ac_callbacks a) as -> by (by destruct a).
      by apply (Hok _ _ _ HP).
    + unfold zlen. rewrite (held_keys_delete a item _ Hc). unfold released. cbn. lia.
    + intros s Hs. rewrite Hl, ledger_with_w by done. cbn [fst x1]. rewrite Hl0.
      assert (held (released a item) m' s = held (released a item) m s) as ->
        by (apply held_ext; intros; by rewrite Hobjs).
      rewrite (held_released a m item _ s Hc). lia.
Qed.

(** *** Runs *)

Lemma accept_frame_trans extra d1 d2 a m n a1 m1 n1 a2 m2 n2 :
  accept_frame extra d1 a m n a1 m1 n1 -> accept_frame extra d2 a1 m1 n1 a2 m2 n2 ->
  accept_frame extra (d1 + d2) a m n a2 m2 n2.
Proof.
  intros [] []. constructor; try done.
  - rewrite af_acceptor1, af_acceptor0. by destruct a, a1, a2.
  - congruence.
  - intros k Hk. by rewrite af_objs1, af_objs0.
  - congruence.
  - lia.
  - intros s Hs. by rewrite af_ledger1, af_ledger0.
Qed.

Lemma frame_fnAcceptEx extra d a m n a' m' n' :
  accept_frame extra d a m n a' m' n' -> _fnAcceptEx a' = _fnAcceptEx a.
Proof. intros []. rewrite af_acceptor0. by destruct a. Qed.

(** The notifications of posting keep [Q]. *)
Definition posting_keeps (Q : W -> Prop) a : Prop :=
  forall w, Q w -> Q (emit (onAcceptPosted (ac_callbacks a)) w) /\ Q (emit (onAcceptPostFailed (ac_callbacks a)) w).

Lemma PostAccepts_loop_spec count a m n :
  acceptor_inv [] a m -> _fnAcceptEx a = true ->
  exists a' m' n' r k, PostAccepts_loop count a m n = Some (a', m', n', r) /\
    accept_frame [] k a m n a' m' n' /\ (HasErr r = false -> k = Z.of_nat count) /\ 0 <= k <= Z.of_nat count /\
    forall Q : W -> Prop, posting_keeps Q a -> Q (net_w n) -> Q (net_w n').
Proof.
  revert a m n. induction count as [|count IH]; intros a m n Hinv Hfn; cbn.
  - eexists _, _, _, _, 0. split; [done|]. split; [|done]. by apply accept_frame_refl.
  - destruct (PostAccept_spec [] a m n Hinv Hfn) as (a1 & m1 & n1 & r1 & -> & Hf & Hw). cbn [mbind option_bind].
    pose proof (frame_fnAcceptEx _ _ _ _ _ _ _ _ Hf) as Hfn1. rewrite Hfn in Hfn1.
    assert (ac_callbacks a1 = ac_callbacks a) as Hcb by (rewrite (af_acceptor _ _ _ _ _ _ _ _ Hf); by destruct a).
    assert (forall Q : W -> Prop, posting_keeps Q a -> Q (net_w n) -> Q (net_w n1)) as HQ1.
    { intros Q HQ Hn. rewrite Hw. destruct (HasErr r1); by apply HQ. }
    destruct (HasErr r1) eqn:Hr1.
    + eexists _, _, _, _, 0. split; [done|]. split; [done|]. rewrite Hr1. split; [done|]. split; [lia|done].
    + destruct (IH a1 m1 n1) as (a2 & m2 & n2 & r2 & k & -> & Hf2 & Hk & ? & HQ2); [by apply Hf|done|].
      eexists _, _, _, _, (1 + k). split; [done|]. split; [by eapply accept_frame_trans|].
      split; [intros; rewrite Hk by done; lia|]. split; [lia|].
      intros Q HQ Hn. apply HQ2; [unfold posting_keeps in *; by rewrite Hcb|by apply HQ1].
Qed.

Lemma net_call_neutral call n :
  neutral call ->
  let '(n', _) := net_call call n in
  clients n' = clients n /\ net_w n' = net_w n /\ forall s, net_ledger n' s = net_ledger n s.
Proof.
  intros Hc. pose proof (fun s => ledger_neutral call n s Hc) as Hl. rewrite net_call_split in *. by cbn in *.
Qed.

(** [Initialize] touches no socket; when it succeeds the functions are loaded. *)
Lemma Acceptor_Initialize_spec lsock iocp a n :
  let '(a', n', r) := Acceptor_Initialize lsock iocp a n in
  _acceptOverlappedHolder a' = _acceptOverlappedHolder a /\ ac_callbacks a' = ac_callbacks a /\
  clients n' = clients n /\ net_w n' = net_w n /\
  (forall s, net_ledger n' s = net_ledger n s) /\ (HasErr r = false -> loaded a').
Proof.
  unfold Acceptor_Initialize, LoadAcceptExFunctions. destruct a.
  cbn [_listenSocket ac_iocpHandle RecordSetters.constant RecordSetters.compose].
  pose proof (net_call_neutral (SysCreateIoCompletionPort lsock iocp 0) n I) as Hn1.
  destruct (net_call _ n) as [n1 r1]. destruct Hn1 as (Hc1 & Hw1 & Hl1). cbn.
  destruct (_ || _); [split_and!; try done; by destruct (_ : bool)|].
  pose proof (net_call_neutral (SysWSAIoctl lsock SIO_GET_EXTENSION_FUNCTION_POINTER [guidAcceptEx]) n1 I) as Hn2.
  destruct (net_call _ n1) as [n2 r2]. destruct Hn2 as (Hc2 & Hw2 & Hl2).
  destruct (_ =? _); [cbn; split_and!; [done|done|congruence|congruence|intros; by rewrite Hl2|done]|].
  pose proof (net_call_neutral (SysWSAIoctl lsock SIO_GET_EXTENSION_FUNCTION_POINTER
                [guidGetAcceptExSockAddrs]) n2 I) as Hn3.
  destruct (net_call _ n2) as [n3 r3]. destruct Hn3 as (Hc3 & Hw3 & Hl3).
  destruct (_ =? _); cbn; (split_and!; [done|done|congruence|congruence|intros; by rewrite Hl3, Hl2|done]).
Qed.

(** The system completes accepts that are under way: each event is the worker that
    runs and the position of the accept.  The result counts the completions that
    reported an error. *)
Fixpoint accept_run (f : AcceptContext -> Net OS W * A -> ub (Net OS W * A)) (events : list (nat * nat)) a m x
    : ub (IocpAcceptor W * AcceptMem * (Net OS W * A) * nat) :=
  match events with
  | [] => Some (a, m, x, 0%nat)
  | (thread, k) :: events =>
      match held_keys a !! k with
      | None => accept_run f events a m x
      | Some item =>
          '(a, m, x, r) ← OnAcceptComplete (Some f) (Some item) a (m {{ am_thread := thread }}) x;
          '(a, m, x, failures) ← accept_run f events a m x;
          Some (a, m, x, if HasErr r then S failures else failures)
      end
  end.

Lemma acceptor_inv_thread extra a m t :
  acceptor_inv extra a m -> acceptor_inv extra a (m {{ am_thread := t }}).
Proof. by destruct m. Qed.

Lemma accept_run_spec P f `{!TakesSocket P f} events a m x :
  acceptor_inv [] a m -> loaded a -> notifies_ok P a -> holds P x ->
  exists a' m' x' failures, accept_run f events a m x = Some (a', m', x', failures) /\
    complete_frame P (- Z.of_nat failures) a m x a' m' x'.
Proof.
  revert a m x. induction events as [|[t k] events IH]; intros a m x Hinv Hl Hok HP;
    cbn [accept_run].
  - eexists _, _, _, _. split; [done|]. constructor; try done; [by destruct a|cbn; lia].
  - destruct (held_keys a !! k) as [item|] eqn:Hk; [|by apply IH].
    destruct (OnAcceptComplete_spec P f item a (m {{ am_thread := t }}) x)
      as (a1 & m1 & x1 & r & -> & []); [by apply acceptor_inv_thread|done|by eapply list_elem_of_lookup_2|done|done|].
    cbn [mbind option_bind].
    assert (loaded a1 /\ notifies_ok P a1) as [Hl1 Hok1] by (rewrite cf_acceptor0; by destruct a).
    destruct (IH a1 m1 x1) as (a2 & m2 & x2 & fl & -> & []); [done..|].
    cbn [mbind option_bind]. eexists _, _, _, _. split; [done|]. constructor; try done.
    + rewrite cf_acceptor1, cf_acceptor0. by destruct a, a1, a2.
    + rewrite cf_pending1, cf_pending0. destruct (HasErr r); lia.
    + intros s Hs. rewrite cf_ledger1, cf_ledger0 by done. by destruct m.
Qed.

(** The acceptor as [ServerLifeCycle::Start] sets it up. *)
Definition acceptor_start (lsock iocp count : Z) n
    : ub (IocpAcceptor W * AcceptMem * Net OS W * ResultVoid ENetworkError) :=
  let '(a, n, r) := Acceptor_Initialize lsock iocp Acceptor_make n in
  if HasErr r then Some (a, AcceptMem_init, n, r) else PostAccepts count a AcceptMem_init n.

Lemma acceptor_start_spec lsock iocp count n :
  exists a m n' r, acceptor_start lsock iocp count n = Some (a, m, n', r) /\ acceptor_inv [] a m /\
    clients n' = clients n /\ (HasErr r = false -> loaded a /\ zlen (held_keys a) = Z.max 0 count) /\
    forall s, s <> InvalidSocket -> net_ledger n' s - held a m s = net_ledger n s.
Proof.
  unfold acceptor_start. pose proof (Acceptor_Initialize_spec lsock iocp Acceptor_make n) as Hi.
  destruct (Acceptor_Initialize lsock iocp Acceptor_make n) as [[a0 n0] r0]. destruct Hi as (Hh & _ & Hc & _ & Hl & Hload).
  assert (held_keys a0 = []) as Hnil by (unfold held_keys; by rewrite Hh).
  assert (acceptor_inv [] a0 AcceptMem_init) as Hinv.
  { split; [|by rewrite Hh]. cbn. rewrite Hnil. by split. }
  destruct (HasErr r0) eqn:Hr0.
  - eexists _, _, _, _. split; [done|]. split_and!; try done; [by rewrite Hr0|].
    intros s Hs. rewrite Hl. unfold held. rewrite Hnil. unfold zsum. cbn. lia.
  - destruct (Hload eq_refl) as [Hfn Hfn2]. unfold PostAccepts.
    destruct (PostAccepts_loop_spec (Z.to_nat count) a0 AcceptMem_init n0 Hinv Hfn)
      as (a & m & n' & r & k & -> & [] & Hk & _).
    eexists _, _, _, _. split; [done|]. split_and!; [done|congruence| |].
    + intros Hr. split; [rewrite af_acceptor0; by destruct a0|]. rewrite af_pending0, Hnil, Hk, zlen_nil by done. lia.
    + intros s Hs. rewrite af_ledger0, Hl by done. unfold held. rewrite Hnil. unfold zsum. cbn. lia.
Qed.

(** C14: accepts never leak a socket and never misplace an overlapped structure.
    After a successful start with [count] accepts, whatever accepts complete in
    whatever order on whatever worker and whatever the system answers, every step is
    defined; the objects lent by the pool are exactly those of the accepts under way;
    a socket is open and not in a slot exactly when an accept under way holds it; and
    the number of accepts under way is [count] less the failed completions. *)
Theorem accept_sockets_accounted P f lsock iocp count n a m n1 r (d : A) events :
  TakesSocket P f ->
  acceptor_start lsock iocp count n = Some (a, m, n1, r) -> HasErr r = false ->
  notifies_ok P a -> holds P (n1, d) ->
  exists a' m' x' failures, accept_run f events a m (n1, d) = Some (a', m', x', failures) /\
    acceptor_inv [] a' m' /\ holds P x' /\
    zlen (held_keys a') = Z.max 0 count - Z.of_nat failures /\
    forall s, s <> InvalidSocket ->
      os_balance (net_os x'.1) s - slots x'.1 s - held a' m' s = os_balance (net_os n) s - slots n s.
Proof.
  intros Hf Hs Hr Hok HP. destruct (acceptor_start_spec lsock iocp count n) as (?&?&?&?& Hs' & Hinv & _ & Hload & Hl).
  simplify_eq. destruct (Hload Hr) as [Hloaded Hcount].
  destruct (accept_run_spec P f events a m (n1, d) Hinv Hloaded Hok HP) as (a' & m' & x' & fl & -> & []).
  eexists _, _, _, _. split; [done|]. split_and!; [done|done|lia|].
  intros s Hs'. specialize (cf_ledger0 s Hs'). cbn [fst] in cf_ledger0. rewrite Hl in cf_ledger0 by done.
  exact cf_ledger0.
Qed.

(** a failed accept is never replaced.  Once as many completions have failed
    as there were accepts under way, no accept is under way and nothing the system
    does makes the server accept again. *)
Lemma failed_accepts_not_replaced P f a m x events a' m' x' failures more :
  TakesSocket P f -> acceptor_inv [] a m -> loaded a -> notifies_ok P a -> holds P x ->
  accept_run f events a m x = Some (a', m', x', failures) -> failures = length (held_keys a) ->
  held_keys a' = [] /\ accept_run f more a' m' x' = Some (a', m', x', 0%nat).
Proof.
  intros Hf Hinv Hl Hok HP Hrun ->. destruct (accept_run_spec P f events a m x Hinv Hl Hok HP) as (?&?&?&?& Hrun' & []).
  simplify_eq. assert (held_keys a' = []) as Hnil.
  { apply zlen_0. rewrite cf_pending0. unfold zlen. lia. }
  split; [done|]. induction more as [|[t k] more IH]; cbn; [done|]. by rewrite Hnil.
Qed.

(** *** The end of an acceptor *)

Lemma Holder_keys_perm a : Holder_keys (_acceptOverlappedHolder a) ≡ₚ held_keys a.
Proof.
  unfold Holder_keys, held_keys. rewrite umap_order_perm, (map_to_list_kmap Z.of_nat).
  rewrite <-list_fmap_compose. apply Permutation_refl', list_fmap_ext. intros _ [k c] _. cbn. lia.
Qed.

Lemma erase_all_pool (items : gmap nat (DeferContext AcceptMem)) m keys lent :
  map_Forall (fun k c => c = DeferContext_make (Some k) return_item) items ->
  Forall (fun k => is_Some (items !! k)) keys -> pool_inv (am_pool m) (keys ++ lent) ->
  let m' := foldl (fun m key => (Holder_Erase key (mkHolder items) m).2) m keys in
  pool_inv (am_pool m') lent /\ am_objs m' = am_objs m.
Proof.
  intros Hit. revert m. induction keys as [|k keys IH]; intros m Hk Hp; [done|]. cbn [foldl].
  inversion Hk as [|?? [c Hc] Hk']; subst.
  assert ((Holder_Erase k (mkHolder items) m).2 = return_item (Some k) m) as ->.
  { unfold Holder_Erase. cbn [_items]. rewrite Hc. by rewrite (Hit k c Hc). }
  destruct (IH (return_item (Some k) m) Hk') as [Hp' Ho']; [|split; [done|]; by rewrite Ho'; destruct m].
  change (am_pool _) with (HybridPool_Return (am_thread m) (Some k) (am_pool m)). by apply Return_inv.
Qed.

Lemma cancel_ledger lsock keys n s :
  let n' := foldl (fun n key => (net_call (SysCancelIoEx lsock (Z.of_nat key)) n).1) n keys in
  os_balance (net_os n') s = os_balance (net_os n) s /\ clients n' = clients n.
Proof.
  revert n. induction keys as [|k keys IH]; intros n; [done|]. cbn [foldl]. cbn zeta.
  destruct (IH (net_call (SysCancelIoEx lsock (Z.of_nat k)) n).1) as [-> ->].
  rewrite net_call_split. cbn. by rewrite os_balance_neutral.
Qed.

(** destroying an acceptor leaks the sockets of the accepts under way.  Every
    overlapped structure goes back to the pool, but no socket is closed, so that each
    socket an accept held stays open and belongs to nobody. *)
Lemma acceptor_destroy_leaks a m n :
  acceptor_inv [] a m ->
  let '(m', n') := Acceptor_destroy a m n in
  pool_inv (am_pool m') [] /\
  forall s, s <> InvalidSocket -> net_ledger n' s = net_ledger n s.
Proof.
  intros [Hp Hpend]. unfold Acceptor_destroy, Acceptor_Shutdown, Holder_ForEach.
  assert (_acceptOverlappedHolder (a {{ _fnAcceptEx := false; _fnGetAcceptExSockAddrs := false }})
    = _acceptOverlappedHolder a) as -> by (by destruct a).
  split.
  - destruct (_acceptOverlappedHolder a) as [items] eqn:Hh. apply (erase_all_pool items).
    + intros k c Hc. by destruct (Hpend k c Hc).
    + apply Forall_intro. intros k Hk. rewrite <-Hh, Holder_keys_perm, elem_of_held_keys, Hh in Hk. done.
    + rewrite app_nil_r, <-Hh, Holder_keys_perm. done.
  - intros s Hs. unfold net_ledger, slots.
    by destruct (cancel_ledger (_listenSocket a) (Holder_keys (_acceptOverlappedHolder a)) n s) as [-> ->].
Qed.
End AcceptorProps.

(** *** Concrete runs

    One accept is posted; its socket is 100.  The callback closes what it is given,
    as the server does when every slot is taken. *)

Abbreviation DemoNet := (Net (TraceOS ScriptOS) unit).

Definition refuse (ctx : AcceptContext) (x : DemoNet * unit) : ub (DemoNet * unit) :=
  Some ((net_call (SysClosesocket (acceptSocket ctx)) x.1).1, x.2).

#[export] Instance refuse_TakesSocket : TakesSocket (fun _ _ _ => True) refuse.
Proof.
  intros ctx x Hs _. eexists. split; [done|]. split; [done|]. intros s _. apply ledger_closesocket.
Qed.

Definition demo_net (rest : list sysret) : DemoNet :=
  mkNet (mkTraceOS (script_of ([sysval 7; sysok; sysok; sysval 100; mkSysret 0 ERROR_IO_PENDING []] ++ rest)) []) tt [].

Definition demo_started (rest : list sysret) : IocpAcceptor unit * AcceptMem * DemoNet :=
  match acceptor_start 5 7 1 (demo_net rest) with
  | Some (a, m, n, _) => (a, m, n)
  | None => (Acceptor_make, AcceptMem_init, demo_net rest)
  end.

Lemma demo_start_eq rest :
  let '(a, m, n) := demo_started rest in acceptor_start 5 7 1 (demo_net rest) = Some (a, m, n, OkVoid).
Proof. reflexivity. Qed.

Lemma demo_inv rest : let '(a, m, n) := demo_started rest in acceptor_inv [] a m.
Proof.
  pose proof (demo_start_eq rest) as Heq.
  destruct (acceptor_start_spec 5 7 1 (demo_net rest)) as (a' & m' & n' & r' & Hs & Hinv & _).
  destruct (demo_started rest) as [[a m] n]. by simplify_eq.
Qed.

Definition demo_good : list sysret := [sysok; sysok; sysval 101; mkSysret 0 ERROR_IO_PENDING []].

Lemma accept_sockets_accounted_witness :
  let '(a, m, n) := demo_started demo_good in
  exists a' m' x' failures, accept_run refuse [(1, 0)]%nat a m (n, tt) = Some (a', m', x', failures) /\
    acceptor_inv [] a' m' /\ True /\ zlen (held_keys a') = Z.max 0 1 - Z.of_nat failures /\
    forall s, s <> InvalidSocket ->
      os_balance (net_os x'.1) s - slots x'.1 s - held a' m' s =
      os_balance (net_os (demo_net demo_good)) s - slots (demo_net demo_good) s.
Proof.
  apply (accept_sockets_accounted (fun _ _ _ => True) refuse 5 7 1 (demo_net demo_good)
           (demo_started demo_good).1.1 (demo_started demo_good).1.2 (demo_started demo_good).2 OkVoid tt [(1, 0)]%nat).
  - apply refuse_TakesSocket.
  - reflexivity.
  - reflexivity.
  - done.
  - exact I.
Defined.

Definition demo_bad : list sysret := [syserr 64].

Lemma failed_accepts_not_replaced_witness :
  let '(a, m, n) := demo_started demo_bad in
  exists a' m' x', accept_run refuse [(1, 0)]%nat a m (n, tt) = Some (a', m', x', 1%nat) /\
    held_keys a' = [] /\ accept_run refuse [(2, 0)]%nat a' m' x' = Some (a', m', x', 0%nat).
Proof.
  eexists _, _, _. split; [vm_compute; reflexivity|].
  eapply (failed_accepts_not_replaced (fun _ _ _ => True) refuse (demo_started demo_bad).1.1
            (demo_started demo_bad).1.2 ((demo_started demo_bad).2, tt) [(1, 0)]%nat _ _ _ 1%nat [(2, 0)]%nat).
  - apply refuse_TakesSocket.
  - exact (demo_inv demo_bad).
  - split; reflexivity.
  - done.
  - exact I.
  - vm_compute; reflexivity.
  - reflexivity.
Defined.

Lemma acceptor_destroy_leaks_witness :
  let '(a, m, n) := demo_started demo_bad in
  let '(m', n') := Acceptor_destroy a m n in
  pool_inv (am_pool m') [] /\ (forall s, s <> InvalidSocket -> net_ledger n' s = net_ledger n s) /\
  net_ledger n 100 = 1.
Proof.
  pose proof (acceptor_destroy_leaks (demo_started demo_bad).1.1 (demo_started demo_bad).1.2
                (demo_started demo_bad).2 (demo_inv demo_bad)) as Hleak.
  change (demo_started demo_bad) with
    ((demo_started demo_bad).1.1, (demo_started demo_bad).1.2, (demo_started demo_bad).2).
  cbv beta iota. destruct (Acceptor_destroy _ _ _) as [m' n']. destruct Hleak as [Hp Hl].
  split; [exact Hp|]. split; [exact Hl|]. vm_compute; reflexivity.
Defined.
