(* ===== verification/MetricsCallbacks.v ===== *)
(** * Metrics callbacks: binding event callbacks to the metrics object

    [lib/inc/metrics/server/ServerMetricsCallbacks.h] and its implementation.

    The closures own a [std::shared_ptr<IServerMetrics>]: here, a way to apply a
    method to the metrics object inside the callbacks' state [W] ([MetricsRef]),
    or null.  With a null pointer the members become empty functions that do
    nothing, not absent ones. *)

From S2P Require Import Prelude ServerMetrics NetClient Net.
From stdpp Require Import base list option.
Open Scope Z_scope.

(** [if (f) { f(a, b); }]. *)
Definition emit2 {S T W} (f : option (S -> T -> W -> W)) (a : S) (b : T) (w : W) : W :=
  match f with Some f => f a b w | None => w end.

(** @src lib/inc/metrics/server/ServerMetricsCallbacks.h 9-19 AcceptorMetricsCallbacks *)
Record AcceptorMetricsCallbacks (W : Type) := mkAcceptorMetricsCallbacks {
  mc_onAcceptPosted : option (W -> W);
  mc_onAcceptPostFailed : option (W -> W);
  mc_onAcceptCompleted : option (W -> W);
  mc_onAcceptCompletionFailed : option (W -> W) }.

Arguments mkAcceptorMetricsCallbacks {W}.
Arguments mc_onAcceptPosted {W}.
Arguments mc_onAcceptPostFailed {W}.
Arguments mc_onAcceptCompleted {W}.
Arguments mc_onAcceptCompletionFailed {W}.

(** @src lib/inc/metrics/server/ServerMetricsCallbacks.h 21-39 ConnectionMetricsCallbacks *)
Record ConnectionMetricsCallbacks (W : Type) := mkConnectionMetricsCallbacks {
  mc_onClientConnected : option (W -> W);
  mc_onClientDisconnected : option (W -> W);
  mc_onRecvPosted : option (W -> W);
  mc_onRecvPostFailed : option (W -> W);
  mc_onRecvCompleted : option (Z -> bool -> W -> W);
  mc_onSendPosted : option (W -> W);
  mc_onSendPostFailed : option (W -> W);
  mc_onSendCompleted : option (Z -> bool -> W -> W) }.

Arguments mkConnectionMetricsCallbacks {W}.
Arguments mc_onClientConnected {W}.
Arguments mc_onClientDisconnected {W}.
Arguments mc_onRecvPosted {W}.
Arguments mc_onRecvPostFailed {W}.
Arguments mc_onRecvCompleted {W}.
Arguments mc_onSendPosted {W}.
Arguments mc_onSendPostFailed {W}.
Arguments mc_onSendCompleted {W}.

(** @src lib/inc/metrics/server/ServerMetricsCallbacks.h 41-47 WorkerMetricsCallbacks *)
Record WorkerMetricsCallbacks (W : Type) := mkWorkerMetricsCallbacks {
  mc_onWorkerDispatchBegin : option (W -> W);
  mc_onWorkerDispatchEnd : option (W -> W) }.

Arguments mkWorkerMetricsCallbacks {W}.
Arguments mc_onWorkerDispatchBegin {W}.
Arguments mc_onWorkerDispatchEnd {W}.

(** @src lib/inc/metrics/server/ServerMetricsCallbacks.h 49-63 DispatcherMetricsCallbacks *)
Record DispatcherMetricsCallbacks (W : Type) := mkDispatcherMetricsCallbacks {
  mc_onPacketValidationSucceeded : option (W -> W);
  mc_onPacketValidationFailed : option (W -> W);
  mc_onQueuePushed : option (Z -> W -> W);
  mc_onQueueDrained : option (Z -> W -> W);
  mc_observeQueueWait : option (Z -> W -> W);
  mc_observeDispatchProcess : option (Z -> W -> W) }.

Arguments mkDispatcherMetricsCallbacks {W}.
Arguments mc_onPacketValidationSucceeded {W}.
Arguments mc_onPacketValidationFailed {W}.
Arguments mc_onQueuePushed {W}.
Arguments mc_onQueueDrained {W}.
Arguments mc_observeQueueWait {W}.
Arguments mc_observeDispatchProcess {W}.

(** @src lib/inc/metrics/server/ServerMetricsCallbacks.h 65-71 LogicMetricsCallbacks *)
Record LogicMetricsCallbacks (W : Type) := mkLogicMetricsCallbacks {
  mc_observeTickDuration : option (Z -> W -> W);
  mc_observeTickLag : option (Z -> W -> W) }.

Arguments mkLogicMetricsCallbacks {W}.
Arguments mc_observeTickDuration {W}.
Arguments mc_observeTickLag {W}.

(** @src lib/inc/metrics/server/ServerMetricsCallbacks.h 73-79 ServerMetricsCallbacks *)
Record ServerMetricsCallbacks (W : Type) := mkServerMetricsCallbacks {
  smc_acceptor : AcceptorMetricsCallbacks W;
  smc_connection : ConnectionMetricsCallbacks W;
  smc_worker : WorkerMetricsCallbacks W;
  smc_dispatcher : DispatcherMetricsCallbacks W;
  smc_logic : LogicMetricsCallbacks W }.

Arguments mkServerMetricsCallbacks {W}.
Arguments smc_acceptor {W}.
Arguments smc_connection {W}.
Arguments smc_worker {W}.
Arguments smc_dispatcher {W}.
Arguments smc_logic {W}.

Section Callbacks.
Context {W : Type}.

(** ** Guarded calls *)

(** @src lib/src/metrics/server/ServerMetricsCallbacks.cpp 51-55 AcceptorMetricsCallbacks::AcceptPosted *)
Definition AcceptPosted (cb : AcceptorMetricsCallbacks W) : W -> W := emit (mc_onAcceptPosted cb).

(** @src lib/src/metrics/server/ServerMetricsCallbacks.cpp 57-61 AcceptorMetricsCallbacks::AcceptPostFailed *)
Definition AcceptPostFailed (cb : AcceptorMetricsCallbacks W) : W -> W := emit (mc_onAcceptPostFailed cb).

(** @src lib/src/metrics/server/ServerMetricsCallbacks.cpp 63-67 AcceptorMetricsCallbacks::AcceptCompleted *)
Definition AcceptCompleted (cb : AcceptorMetricsCallbacks W) : W -> W := emit (mc_onAcceptCompleted cb).

(** @src lib/src/metrics/server/ServerMetricsCallbacks.cpp 69-73 AcceptorMetricsCallbacks::AcceptCompletionFailed *)
Definition AcceptCompletionFailed (cb : AcceptorMetricsCallbacks W) : W -> W := emit (mc_onAcceptCompletionFailed cb).

(** @src lib/src/metrics/server/ServerMetricsCallbacks.cpp 75-79 ConnectionMetricsCallbacks::ClientConnected *)
Definition ClientConnected (cb : ConnectionMetricsCallbacks W) : W -> W := emit (mc_onClientConnected cb).

(** @src lib/src/metrics/server/ServerMetricsCallbacks.cpp 81-85 ConnectionMetricsCallbacks::ClientDisconnected *)
Definition ClientDisconnected (cb : ConnectionMetricsCallbacks W) : W -> W := emit (mc_onClientDisconnected cb).

(** @src lib/src/metrics/server/ServerMetricsCallbacks.cpp 87-91 ConnectionMetricsCallbacks::RecvPosted *)
Definition RecvPosted (cb : ConnectionMetricsCallbacks W) : W -> W := emit (mc_onRecvPosted cb).

(** @src lib/src/metrics/server/ServerMetricsCallbacks.cpp 93-97 ConnectionMetricsCallbacks::RecvPostFailed *)
Definition RecvPostFailed (cb : ConnectionMetricsCallbacks W) : W -> W := emit (mc_onRecvPostFailed cb).

(** @src lib/src/metrics/server/ServerMetricsCallbacks.cpp 99-103 ConnectionMetricsCallbacks::RecvCompleted *)
Definition RecvCompleted (cb : ConnectionMetricsCallbacks W) (bytesTransferred : Z) (countPayload : bool) : W -> W := emit2 (mc_onRecvCompleted cb) bytesTransferred countPayload.

(** @src lib/src/metrics/server/ServerMetricsCallbacks.cpp 105-109 ConnectionMetricsCallbacks::SendPosted *)
Definition SendPosted (cb : ConnectionMetricsCallbacks W) : W -> W := emit (mc_onSendPosted cb).

(** @src lib/src/metrics/server/ServerMetricsCallbacks.cpp 111-115 ConnectionMetricsCallbacks::SendPostFailed *)
Definition SendPostFailed (cb : ConnectionMetricsCallbacks W) : W -> W := emit (mc_onSendPostFailed cb).

(** @src lib/src/metrics/server/ServerMetricsCallbacks.cpp 117-121 ConnectionMetricsCallbacks::SendCompleted *)
Definition SendCompleted (cb : ConnectionMetricsCallbacks W) (bytesTransferred : Z) (countPayload : bool) : W -> W := emit2 (mc_onSendCompleted cb) bytesTransferred countPayload.

(** @src lib/src/metrics/server/ServerMetricsCallbacks.cpp 123-127 WorkerMetricsCallbacks::WorkerDispatchBegin *)
Definition WorkerDispatchBegin (cb : WorkerMetricsCallbacks W) : W -> W := emit (mc_onWorkerDispatchBegin cb).

(** @src lib/src/metrics/server/ServerMetricsCallbacks.cpp 129-133 WorkerMetricsCallbacks::WorkerDispatchEnd *)
Definition WorkerDispatchEnd (cb : WorkerMetricsCallbacks W) : W -> W := emit (mc_onWorkerDispatchEnd cb).

(** @src lib/src/metrics/server/ServerMetricsCallbacks.cpp 135-139 DispatcherMetricsCallbacks::PacketValidationSucceeded *)
Definition PacketValidationSucceeded (cb : DispatcherMetricsCallbacks W) : W -> W := emit (mc_onPacketValidationSucceeded cb).

(** @src lib/src/metrics/server/ServerMetricsCallbacks.cpp 141-145 DispatcherMetricsCallbacks::PacketValidationFailed *)
Definition PacketValidationFailed (cb : DispatcherMetricsCallbacks W) : W -> W := emit (mc_onPacketValidationFailed cb).

(** @src lib/src/metrics/server/ServerMetricsCallbacks.cpp 147-151 DispatcherMetricsCallbacks::QueuePushed *)
Definition QueuePushed (cb : DispatcherMetricsCallbacks W) (v : Z) : W -> W := emit1 (mc_onQueuePushed cb) v.

(** @src lib/src/metrics/server/ServerMetricsCallbacks.cpp 153-157 DispatcherMetricsCallbacks::QueueDrained *)
Definition QueueDrained (cb : DispatcherMetricsCallbacks W) (v : Z) : W -> W := emit1 (mc_onQueueDrained cb) v.

(** @src lib/src/metrics/server/ServerMetricsCallbacks.cpp 159-163 DispatcherMetricsCallbacks::QueueWait *)
Definition QueueWait (cb : DispatcherMetricsCallbacks W) (v : Z) : W -> W := emit1 (mc_observeQueueWait cb) v.

(** @src lib/src/metrics/server/ServerMetricsCallbacks.cpp 165-169 DispatcherMetricsCallbacks::DispatchProcess *)
Definition DispatchProcess (cb : DispatcherMetricsCallbacks W) (v : Z) : W -> W := emit1 (mc_observeDispatchProcess cb) v.

(** @src lib/src/metrics/server/ServerMetricsCallbacks.cpp 171-175 LogicMetricsCallbacks::TickDuration *)
Definition TickDuration (cb : LogicMetricsCallbacks W) (v : Z) : W -> W := emit1 (mc_observeTickDuration cb) v.

(** @src lib/src/metrics/server/ServerMetricsCallbacks.cpp 177-181 LogicMetricsCallbacks::TickLag *)
Definition TickLag (cb : LogicMetricsCallbacks W) (v : Z) : W -> W := emit1 (mc_observeTickLag cb) v.

(** ** Binding *)

Context {M : Type} `{IServerMetrics M}.

(** A non-null [std::shared_ptr<IServerMetrics>] applies a method to the object. *)
Definition MetricsRef : Type := (M -> M) -> W -> W.
Implicit Types (metrics : option MetricsRef).

(** @src lib/src/metrics/server/ServerMetricsCallbacks.cpp 6-15 BindVoidMetric *)
Definition BindVoidMetric metrics (method : M -> M) : option (W -> W) :=
  match metrics with None => None | Some ref => Some (fun w => ref method w) end.

(** @src lib/src/metrics/server/ServerMetricsCallbacks.cpp 17-26 BindSizeTMetric *)
Definition BindSizeTMetric metrics (method : Z -> M -> M) : option (Z -> W -> W) :=
  match metrics with None => None | Some ref => Some (fun value w => ref (method value) w) end.

(** @src lib/src/metrics/server/ServerMetricsCallbacks.cpp 28-37 BindSizeTBoolMetric *)
Definition BindSizeTBoolMetric metrics (method : Z -> bool -> M -> M) : option (Z -> bool -> W -> W) :=
  match metrics with
  | None => None
  | Some ref => Some (fun bytesTransferred countPayload w => ref (method bytesTransferred countPayload) w)
  end.

(** @src lib/src/metrics/server/ServerMetricsCallbacks.cpp 39-48 BindDurationMetric *)
Definition BindDurationMetric metrics (method : Z -> M -> M) : option (Z -> W -> W) :=
  match metrics with None => None | Some ref => Some (fun duration w => ref (method duration) w) end.

Definition noop0 : option (W -> W) := Some (fun w => w).
Definition noop1 : option (Z -> W -> W) := Some (fun _ w => w).
Definition noop2 : option (Z -> bool -> W -> W) := Some (fun _ _ w => w).

(** @src lib/src/metrics/server/ServerMetricsCallbacks.cpp 272-283 MakeNoopAcceptorMetricsCallbacks *)
Definition MakeNoopAcceptorMetricsCallbacks : AcceptorMetricsCallbacks W :=
  mkAcceptorMetricsCallbacks noop0 noop0 noop0 noop0.

(** @src lib/src/metrics/server/ServerMetricsCallbacks.cpp 285-304 MakeNoopConnectionMetricsCallbacks *)
Definition MakeNoopConnectionMetricsCallbacks : ConnectionMetricsCallbacks W :=
  mkConnectionMetricsCallbacks noop0 noop0 noop0 noop0 noop2 noop0 noop0 noop2.

(** @src lib/src/metrics/server/ServerMetricsCallbacks.cpp 306-313 MakeNoopWorkerMetricsCallbacks *)
Definition MakeNoopWorkerMetricsCallbacks : WorkerMetricsCallbacks W :=
  mkWorkerMetricsCallbacks noop0 noop0.

(** @src lib/src/metrics/server/ServerMetricsCallbacks.cpp 315-330 MakeNoopDispatcherMetricsCallbacks *)
Definition MakeNoopDispatcherMetricsCallbacks : DispatcherMetricsCallbacks W :=
  mkDispatcherMetricsCallbacks noop0 noop0 noop1 noop1 noop1 noop1.

(** @src lib/src/metrics/server/ServerMetricsCallbacks.cpp 332-339 MakeNoopLogicMetricsCallbacks *)
Definition MakeNoopLogicMetricsCallbacks : LogicMetricsCallbacks W :=
  mkLogicMetricsCallbacks noop1 noop1.

(** @src lib/src/metrics/server/ServerMetricsCallbacks.cpp 341-349 MakeNoopServerMetricsCallbacks *)
Definition MakeNoopServerMetricsCallbacks : ServerMetricsCallbacks W :=
  mkServerMetricsCallbacks MakeNoopAcceptorMetricsCallbacks MakeNoopConnectionMetricsCallbacks
    MakeNoopWorkerMetricsCallbacks MakeNoopDispatcherMetricsCallbacks MakeNoopLogicMetricsCallbacks.

(** @src lib/src/metrics/server/ServerMetricsCallbacks.cpp 183-196 BindAcceptorMetricsCallbacks *)
Definition BindAcceptorMetricsCallbacks metrics : AcceptorMetricsCallbacks W :=
  match metrics with
  | None => MakeNoopAcceptorMetricsCallbacks
  | Some _ => {|
      mc_onAcceptPosted := BindVoidMetric metrics OnAcceptPosted;
      mc_onAcceptPostFailed := BindVoidMetric metrics OnAcceptPostFailed;
      mc_onAcceptCompleted := BindVoidMetric metrics OnAcceptCompleted;
      mc_onAcceptCompletionFailed := BindVoidMetric metrics OnAcceptCompletionFailed |}
  end.

(** @src lib/src/metrics/server/ServerMetricsCallbacks.cpp 198-216 BindConnectionMetricsCallbacks *)
Definition BindConnectionMetricsCallbacks metrics : ConnectionMetricsCallbacks W :=
  match metrics with
  | None => MakeNoopConnectionMetricsCallbacks
  | Some _ => {|
      mc_onClientConnected := BindVoidMetric metrics OnClientConnected;
      mc_onClientDisconnected := BindVoidMetric metrics OnClientDisconnected;
      mc_onRecvPosted := BindVoidMetric metrics OnRecvPosted;
      mc_onRecvPostFailed := BindVoidMetric metrics OnRecvPostFailed;
      mc_onRecvCompleted := BindSizeTBoolMetric metrics OnRecvCompleted;
      mc_onSendPosted := BindVoidMetric metrics OnSendPosted;
      mc_onSendPostFailed := BindVoidMetric metrics OnSendPostFailed;
      mc_onSendCompleted := BindSizeTBoolMetric metrics OnSendCompleted |}
  end.

(** @src lib/src/metrics/server/ServerMetricsCallbacks.cpp 218-228 BindWorkerMetricsCallbacks *)
Definition BindWorkerMetricsCallbacks metrics : WorkerMetricsCallbacks W :=
  match metrics with
  | None => MakeNoopWorkerMetricsCallbacks
  | Some _ => {|
      mc_onWorkerDispatchBegin := BindVoidMetric metrics OnWorkerDispatchBegin;
      mc_onWorkerDispatchEnd := BindVoidMetric metrics OnWorkerDispatchEnd |}
  end.

(** @src lib/src/metrics/server/ServerMetricsCallbacks.cpp 230-248 BindDispatcherMetricsCallbacks *)
Definition BindDispatcherMetricsCallbacks metrics : DispatcherMetricsCallbacks W :=
  match metrics with
  | None => MakeNoopDispatcherMetricsCallbacks
  | Some _ => {|
      mc_onPacketValidationSucceeded := BindVoidMetric metrics OnPacketValidationSucceeded;
      mc_onPacketValidationFailed := BindVoidMetric metrics OnPacketValidationFailed;
      mc_onQueuePushed := BindSizeTMetric metrics OnQueuePushed;
      mc_onQueueDrained := BindSizeTMetric metrics OnQueueDrained;
      mc_observeQueueWait := BindDurationMetric metrics ObserveQueueWait;
      mc_observeDispatchProcess := BindDurationMetric metrics ObserveDispatchProcess |}
  end.

(** @src lib/src/metrics/server/ServerMetricsCallbacks.cpp 250-260 BindLogicMetricsCallbacks *)
Definition BindLogicMetricsCallbacks metrics : LogicMetricsCallbacks W :=
  match metrics with
  | None => MakeNoopLogicMetricsCallbacks
  | Some _ => {|
      mc_observeTickDuration := BindDurationMetric metrics ObserveTickDuration;
      mc_observeTickLag := BindDurationMetric metrics ObserveTickLag |}
  end.

(** @src lib/src/metrics/server/ServerMetricsCallbacks.cpp 262-270 BindServerMetricsCallbacks *)
Definition BindServerMetricsCallbacks metrics : ServerMetricsCallbacks W := {|
  smc_acceptor := BindAcceptorMetricsCallbacks metrics;
  smc_connection := BindConnectionMetricsCallbacks metrics;
  smc_worker := BindWorkerMetricsCallbacks metrics;
  smc_dispatcher := BindDispatcherMetricsCallbacks metrics;
  smc_logic := BindLogicMetricsCallbacks metrics |}.
End Callbacks.
