(* ===== verification/PacketDispatcher.v ===== *)
(** * PacketDispatcher: frame assembly, validation, queueing, dispatch

    [network/inc/server/PacketDispatcher.hpp], [network/src/server/PacketDispatcher.cpp].

    [Receive] runs on an I/O worker and turns the bytes of a connection into
    queued commands; [Tick] runs on the logic thread and hands the commands to
    the registered handlers.  A handler acts on the network state and on the
    application's own state [A].  Framing.v specifies [Receive]; Tick.v [Tick]. *)

From S2P Require Import Prelude Errors Platform FrameBuffer CommandQueue Protocol NetClient Net.
From stdpp Require Import base gmap list strings option.
From coqutil Require Import Byte Datatypes.RecordSetters.
Import DoubleBraceUpdate.
Open Scope Z_scope.

(** @src network/inc/server/PacketDispatcher.hpp 22-27 PacketCommand *)
Record PacketCommand := mkPacketCommand {
  cmd_client : nat; cmd_payloadType : Z; cmd_data : list byte; cmd_enqueuedAtNs : Z }.

(** @src network/inc/server/PacketDispatcher.hpp 29-36 PacketDispatcherCallbacks *)
Record PacketDispatcherCallbacks (W : Type) := mkPacketDispatcherCallbacks {
  onPacketValidationSucceeded : option (W -> W);
  onPacketValidationFailed : option (W -> W);
  onQueuePushed : option (Z -> W -> W);
  onQueueDrained : option (Z -> W -> W);
  onQueueWait : option (Z -> W -> W);
  onDispatchProcess : option (Z -> W -> W) }.

Arguments mkPacketDispatcherCallbacks {W}.
Arguments onPacketValidationSucceeded {W}.
Arguments onPacketValidationFailed {W}.
Arguments onQueuePushed {W}.
Arguments onQueueDrained {W}.
Arguments onQueueWait {W}.
Arguments onDispatchProcess {W}.

Definition PacketDispatcherCallbacks_none {W} : PacketDispatcherCallbacks W :=
  mkPacketDispatcherCallbacks None None None None None None.

(** A [std::function] taking the client pointer and the packet. *)
(** @src network/inc/server/PacketDispatcher.hpp 40-40 PacketDispatcher::DispatchFn *)
Definition DispatchFn (OS W A : Type) : Type := nat -> Packet -> Net OS W * A -> ub (Net OS W * A).

(** @src network/inc/server/PacketDispatcher.hpp 91-95 PacketDispatcher *)
Record PacketDispatcher (OS W A : Type) := mkPacketDispatcher {
  pd_callbacks : PacketDispatcherCallbacks W;
  _handlers : gmap Z (DispatchFn OS W A);
  _commandQueue : MPSCCommandQueue PacketCommand;
  _tickBatch : list PacketCommand }.

Arguments mkPacketDispatcher {OS W A}.
Arguments pd_callbacks {OS W A}.
Arguments _handlers {OS W A}.
Arguments _commandQueue {OS W A}.
Arguments _tickBatch {OS W A}.

Section PacketDispatcher.
Context {OS W A : Type} `{WinSock OS} `{FlatBuffers}.
Implicit Types (d : PacketDispatcher OS W A) (n : Net OS W) (i : nat).

(** @src network/src/server/PacketDispatcher.cpp 12-14 PacketDispatcher::PacketDispatcher *)
Definition PacketDispatcher_init : PacketDispatcher OS W A :=
  mkPacketDispatcher PacketDispatcherCallbacks_none ∅ MPSCCommandQueue_init [].

(** @src network/src/server/PacketDispatcher.cpp 16-18 PacketDispatcher::UseCallbacks *)
Definition PacketDispatcher_UseCallbacks (callbacks : PacketDispatcherCallbacks W) d
    : PacketDispatcher OS W A :=
  d {{ pd_callbacks := callbacks }}.

(** The handler receives the body only when [payload_as] is not null. *)
(** @src network/inc/server/PacketDispatcher.hpp 60-75 PacketDispatcher::RegisterHandler *)
Definition RegisterHandler (T : PayloadName)
    (Handle : nat -> Packet -> PayloadBody -> Net OS W * A -> ub (Net OS W * A)) d
    : PacketDispatcher OS W A :=
  d {{ _handlers ::= insert (PayloadTag T)
         (fun client packet st =>
            match payload_as T packet with
            | None => Some st
            | Some payload => Handle client packet payload st
            end) }}.

(** @src network/src/server/PacketDispatcher.cpp 176-198 PacketDispatcher::ParsePacket *)
Definition ParsePacket (data : list byte) : Result (option Packet) EPacketError :=
  if negb (fb_verify data) then Err FbFailedVerify
  else
    let packet := fb_get data in
    match packet with
    | None => Err FbGetPacket
    | Some _ => Ok packet
    end.

(** @src network/src/server/PacketDispatcher.cpp 141-159 PacketDispatcher::PushCommand *)
Definition PushCommand i (payloadType : Z) (rawPayload : list byte) d n
    : PacketDispatcher OS W A * Net OS W :=
  let '(os, enqueuedAtNs) := NowInNs64 (net_os n) in
  let n := mkNet os (net_w n) (clients n) in
  let cmd := mkPacketCommand i payloadType rawPayload enqueuedAtNs in
  let d := d {{ _commandQueue ::= fun q => MPSCCommandQueue_Push q cmd }} in
  (d, with_w (emit1 (onQueuePushed (pd_callbacks d)) 1) n).

(** The [while (true)] of [Receive].  Each turn reads the accumulated bytes again;
    [Consume], deferred to the end of the turn, follows [PushCommand] and [Close].
    Every turn that continues consumes at least the four header bytes. *)
(** @src network/src/server/PacketDispatcher.cpp 33-97 PacketDispatcher::Receive *)
Fixpoint Receive_loop (fuel : nat) d i n : ub (PacketDispatcher OS W A * Net OS W) :=
  match fuel with
  | O => None
  | S fuel =>
      c ← clients n !! i;
      let buf := FrameBuffer_Data (_frameBuf c) in
      if zlen buf <? kHeaderSize then Some (d, n)
      else
        let payloadLen := ntohl (load_u32 buf) in
        if payloadLen >? maxFrameSize then
          let n := with_w (emit (onPacketValidationFailed (pd_callbacks d))) n in
          n ← Net_Close i true n;
          Some (d, n)
        else
          let frameSize := u64 (kHeaderSize + payloadLen) in
          if zlen buf <? frameSize then Some (d, n)
          else
            let payload := take (Z.to_nat payloadLen) (drop (Z.to_nat kHeaderSize) buf) in
            let parseResult := ParsePacket payload in
            if HasErr parseResult then
              let n := with_w (emit (onPacketValidationFailed (pd_callbacks d))) n in
              n ← Net_Close i true n;
              n ← Net_Consume i frameSize n;
              Some (d, n)
            else
              let n := with_w (emit (onPacketValidationSucceeded (pd_callbacks d))) n in
              packet ← _data parseResult;
              let '(d, n) := PushCommand i (payload_type packet) payload d n in
              n ← Net_Consume i frameSize n;
              Receive_loop fuel d i n
  end.

(** @src network/src/server/PacketDispatcher.cpp 20-98 PacketDispatcher::Receive *)
Definition Receive d i (data : list byte) n : ub (PacketDispatcher OS W A * Net OS W) :=
  c ← clients n !! i;
  '(fb, ok) ← FrameBuffer_Append (_frameBuf c) data;
  let n := set_client i (c {{ _frameBuf := fb }}) n in
  if negb ok then
    let n := with_w (emit (onPacketValidationFailed (pd_callbacks d))) n in
    n ← Net_Close i true n;
    Some (d, n)
  else Receive_loop (S (Z.to_nat (FrameBuffer_Size fb))) d i n.

(** @src network/src/server/PacketDispatcher.cpp 161-174 PacketDispatcher::DispatchPacket *)
Definition DispatchPacket i (packet : Packet) d (st : Net OS W * A)
    : ub (Net OS W * A * ResultVoid EPacketError) :=
  match _handlers d !! payload_type packet with
  | None => Some (st, Err FbPayloadTypeNotFound)
  | Some fn => st ← fn i packet st; Some (st, OkVoid)
  end.

Definition net_now (st : Net OS W * A) : Net OS W * A * Z :=
  let '(os, t) := NowInNs64 (net_os st.1) in
  (mkNet os (net_w st.1) (clients st.1), st.2, t).

(** The body of the loop of [Tick]; the clock is read for the queue wait even
    when nobody listens, and after dispatch only when somebody does. *)
(** @src network/src/server/PacketDispatcher.cpp 107-138 PacketDispatcher::Tick *)
Definition Tick_command d (cmd : PacketCommand) (st : Net OS W * A) : ub (Net OS W * A) :=
  let st :=
    if cmd_enqueuedAtNs cmd >? 0 then
      let '(st, t) := net_now st in
      (with_w (emit1 (onQueueWait (pd_callbacks d)) (i64 (t - cmd_enqueuedAtNs cmd))) st.1, st.2)
    else st in
  match fb_get (cmd_data cmd) with
  | None => Some st
  | Some packet =>
      let '(st, dispatchStartNs) := net_now st in
      '(st, dispatchResult) ← DispatchPacket (cmd_client cmd) packet d st;
      let st :=
        match onDispatchProcess (pd_callbacks d) with
        | Some f =>
            let '(st, t) := net_now st in (with_w (f (i64 (t - dispatchStartNs))) st.1, st.2)
        | None => st
        end in
      if HasErr dispatchResult then
        n ← Net_Close (cmd_client cmd) true st.1; Some (n, st.2)
      else Some st
  end.

(** @src network/src/server/PacketDispatcher.cpp 107-138 PacketDispatcher::Tick *)
Fixpoint Tick_commands d (cmds : list PacketCommand) (st : Net OS W * A) : ub (Net OS W * A) :=
  match cmds with
  | [] => Some st
  | cmd :: cmds => st ← Tick_command d cmd st; Tick_commands d cmds st
  end.

(** @src network/src/server/PacketDispatcher.cpp 100-139 PacketDispatcher::Tick *)
Definition Tick d (st : Net OS W * A) : ub (PacketDispatcher OS W A * (Net OS W * A)) :=
  let '(q, batch) := MPSCCommandQueue_DrainTo (_commandQueue d) (_tickBatch d) in
  let d := d {{ _commandQueue := q; _tickBatch := batch }} in
  let st := (with_w (emit1 (onQueueDrained (pd_callbacks d)) (zlen batch)) st.1, st.2) in
  st ← Tick_commands d batch st;
  Some (d, st).

Lemma DispatchPacket_handler i packet d st fn :
  _handlers d !! payload_type packet = Some fn ->
  DispatchPacket i packet d st = (st ← fn i packet st; Some (st, OkVoid)).
Proof. intros Hfn. unfold DispatchPacket, DispatchFn in *. by rewrite Hfn. Qed.
End PacketDispatcher.
