(* ===== verification/Framing.v ===== *)
(** * Framing: what PacketDispatcher::Receive does with a byte stream

    The frame loop is specified by the relation [decodes] on plain byte lists,
    which knows nothing of the fixed array, the fuel or the callbacks; [Receive]
    refines it.  From there: reassembly of any chunking of a stream, and the
    frames and slots from which nothing is ever delivered. *)

From S2P Require Import Prelude Errors Platform FrameBuffer CommandQueue Protocol NetClient Net.
From S2P Require Import PacketDispatcher.
From stdpp Require Import base gmap list strings option.
From coqutil Require Import Byte Datatypes.RecordSetters.
Import DoubleBraceUpdate.
Open Scope Z_scope.

(** ** Specification of the frame loop *)

Section Decoding.
Context `{FlatBuffers}.

(** The parts of an accumulated buffer that starts with a frame. *)
Definition frame_len (buf : list byte) : Z := ntohl (load_u32 buf).
Definition frame_body (buf : list byte) : list byte :=
  take (Z.to_nat (frame_len buf)) (drop (Z.to_nat kHeaderSize) buf).
Definition frame_rest (buf : list byte) : list byte :=
  drop (Z.to_nat (kHeaderSize + frame_len buf)) buf.

(** [decodes buf acc rest rejected]: the frames accepted from the front of [buf],
    in order, what stays in the buffer, and whether the connection is refused. *)
Inductive decodes : list byte -> list (Packet * list byte) -> list byte -> bool -> Prop :=
  | dec_header buf :
      zlen buf < kHeaderSize -> decodes buf [] buf false
  | dec_oversize buf :
      kHeaderSize <= zlen buf -> maxFrameSize < frame_len buf -> decodes buf [] buf true
  | dec_partial buf :
      kHeaderSize <= zlen buf -> frame_len buf <= maxFrameSize ->
      zlen buf < kHeaderSize + frame_len buf -> decodes buf [] buf false
  | dec_invalid buf :
      kHeaderSize + frame_len buf <= zlen buf -> frame_len buf <= maxFrameSize ->
      HasErr (ParsePacket (frame_body buf)) = true ->
      decodes buf [] (frame_rest buf) true
  | dec_frame buf p acc rest rejected :
      kHeaderSize + frame_len buf <= zlen buf -> frame_len buf <= maxFrameSize ->
      ParsePacket (frame_body buf) = Ok (Some p) ->
      decodes (frame_rest buf) acc rest rejected ->
      decodes buf ((p, frame_body buf) :: acc) rest rejected.

Lemma frame_len_nonneg buf : 0 <= frame_len buf < 2 ^ 32.
Proof. apply bswap32_range. Qed.

Lemma ParsePacket_cases data :
  HasErr (ParsePacket data) = true \/ exists p, ParsePacket data = Ok (Some p).
Proof.
  unfold ParsePacket. destruct (fb_verify data); simpl; [|by left].
  destruct (fb_get data); simpl; eauto.
Qed.

Lemma decodes_det buf acc1 rest1 r1 acc2 rest2 r2 :
  decodes buf acc1 rest1 r1 -> decodes buf acc2 rest2 r2 ->
  acc1 = acc2 /\ rest1 = rest2 /\ r1 = r2.
Proof.
  intros Hd1. revert acc2 rest2 r2.
  induction Hd1 as [buf|buf|buf|buf|buf p acc rest r Hc Hl Hp Hd IH]; intros acc2 rest2 r2 Hd2;
    pose proof (frame_len_nonneg buf); inversion Hd2; subst; try done; try lia;
    try match goal with
    | Ha : ParsePacket _ = Ok _, Hb : HasErr (ParsePacket _) = true |- _ => by rewrite Ha in Hb
    end.
  unfold Ok in *. simplify_eq.
  match goal with Hr : decodes (frame_rest buf) _ rest2 _, Hq : _ = mkResult _ _ _ |- _ =>
    rewrite Hp in Hq; simplify_eq; by destruct (IH _ _ _ Hr) as (-> & -> & ->) end.
Qed.

(** What a wait leaves in the buffer is an incomplete frame. *)
Lemma decodes_rest buf acc rest : decodes buf acc rest false -> decodes rest [] rest false.
Proof. remember false as v eqn:Hv. induction 1; simplify_eq; auto; by constructor. Qed.
End Decoding.

Section Receive.
Context {OS W A : Type} `{WinSock OS} `{FlatBuffers}.
Implicit Types (d : PacketDispatcher OS W A) (n : Net OS W) (c : Client W) (i : nat).

(** A queued command without its timestamp. *)
Definition cmd_view (cmd : PacketCommand) : nat * Z * list byte :=
  (cmd_client cmd, cmd_payloadType cmd, cmd_data cmd).

Definition queued d : list (nat * Z * list byte) := cmd_view <$> _writeQueue (_commandQueue d).

Definition view_of i (acc : list (Packet * list byte)) : list (nat * Z * list byte) :=
  (fun '(p, body) => (i, payload_type p, body)) <$> acc.

(** The callbacks' state after one accepted frame, and after a whole [Receive]. *)
Definition accepted_w d (w : W) : W :=
  emit1 (onQueuePushed (pd_callbacks d)) 1 (emit (onPacketValidationSucceeded (pd_callbacks d)) w).

Definition received_w d c (accepted : nat) (rejected : bool) (w : W) : W :=
  let w := Nat.iter accepted (accepted_w d) w in
  if rejected then disconnected_w c (emit (onPacketValidationFailed (pd_callbacks d)) w) else w.

(** The effect of [Receive]: only the queue of the dispatcher and the slot of the
    client change. *)
Definition received d i c n (acc : list (Packet * list byte)) (rest : list byte)
    (rejected : bool) d' n' : Prop :=
  Net_inv n' /\
  pd_callbacks d' = pd_callbacks d /\ _handlers d' = _handlers d /\ _tickBatch d' = _tickBatch d /\
  queued d' = queued d ++ view_of i acc /\
  (exists fb', FrameBuffer_Data fb' = rest /\
     clients n' = <[i := (if rejected then closed else fun c => c) (c {{ _frameBuf := fb' }})]>
                    (clients n)) /\
  net_w n' = received_w d c (length acc) rejected (net_w n).

Lemma iter_comm {T} k (f : T -> T) x : Nat.iter k f (f x) = f (Nat.iter k f x).
Proof. induction k; simpl; congruence. Qed.

Lemma received_nil d i c n :
  Net_inv n -> clients n !! i = Some c ->
  received d i c n [] (FrameBuffer_Data (_frameBuf c)) false d n.
Proof.
  intros Hn Hi. split_and!; try done.
  - unfold queued. by rewrite app_nil_r.
  - exists (_frameBuf c). split; [done|]. rewrite list_insert_id; [done|]. by destruct c.
Qed.

(** One turn that refuses the connection, before the deferred [Consume]. *)
Lemma reject_turn d i c n :
  Net_inv n -> clients n !! i = Some c ->
  exists n', Net_Close i true (with_w (emit (onPacketValidationFailed (pd_callbacks d))) n) = Some n' /\
    Net_inv n' /\ clients n' = <[i := closed c]> (clients n) /\
    net_w n' = received_w d c 0 true (net_w n).
Proof.
  intros Hn Hi.
  destruct (Net_Close_spec (with_w (emit (onPacketValidationFailed (pd_callbacks d))) n) i true c)
    as (n' & -> & ? & ? & ?); [done..|]. by exists n'.
Qed.

(** One turn that accepts a frame. *)
Lemma accept_turn d i c n ty body k :
  Net_inv n -> clients n !! i = Some c -> 0 <= k ->
  exists d1 n1 fb1,
    (let '(d', n') := PushCommand i ty body d
       (with_w (emit (onPacketValidationSucceeded (pd_callbacks d))) n) in
     n'' ← Net_Consume i k n'; Some (d', n'')) = Some (d1, n1) /\
    Net_inv n1 /\ clients n1 = <[i := c {{ _frameBuf := fb1 }}]> (clients n) /\
    FrameBuffer_Data fb1 = drop (Z.to_nat k) (FrameBuffer_Data (_frameBuf c)) /\
    pd_callbacks d1 = pd_callbacks d /\ _handlers d1 = _handlers d /\ _tickBatch d1 = _tickBatch d /\
    queued d1 = queued d ++ [(i, ty, body)] /\ net_w n1 = accepted_w d (net_w n).
Proof.
  intros Hn Hi Hk. unfold PushCommand. destruct (NowInNs64 _) as [os t]; cbn zeta beta iota.
  set (n0 := with_w _ (mkNet os _ _)).
  destruct (Net_Consume_spec n0 i k c) as (fb1 & -> & Hfb & Hdata); [done..|].
  eexists _, _, fb1. split; [done|]. split_and!; try done.
  - apply set_client_inv; [done|]. apply Client_inv_frameBuf; [|done]. by eapply Net_inv_lookup.
  - unfold queued. destruct d. cbn. by rewrite fmap_app.
Qed.

Lemma received_cons d i c n p body acc rest rejected d1 n1 fb1 d' n' :
  clients n !! i = Some c ->
  clients n1 = <[i := c {{ _frameBuf := fb1 }}]> (clients n) ->
  pd_callbacks d1 = pd_callbacks d -> _handlers d1 = _handlers d -> _tickBatch d1 = _tickBatch d ->
  queued d1 = queued d ++ [(i, payload_type p, body)] -> net_w n1 = accepted_w d (net_w n) ->
  received d1 i (c {{ _frameBuf := fb1 }}) n1 acc rest rejected d' n' ->
  received d i c n ((p, body) :: acc) rest rejected d' n'.
Proof.
  intros Hi Hcl Hcb Hh Hb Hq Hw (Hinv & Hcb' & Hh' & Hb' & Hq' & (fb' & Hfb & Hcl') & Hw').
  split_and!; try congruence.
  - rewrite Hq', Hq, <-app_assoc. done.
  - exists fb'. split; [done|]. rewrite Hcl', Hcl, list_insert_insert_eq. by destruct c.
  - rewrite Hw', Hw. unfold received_w.
    replace (accepted_w d1) with (accepted_w d) by (unfold accepted_w; by rewrite Hcb).
    rewrite iter_comm, Hcb. by destruct c.
Qed.

Lemma Receive_loop_received fuel d i n c :
  Net_inv n -> clients n !! i = Some c ->
  zlen (FrameBuffer_Data (_frameBuf c)) < Z.of_nat fuel ->
  exists acc rest rejected d' n',
    decodes (FrameBuffer_Data (_frameBuf c)) acc rest rejected /\
    Receive_loop fuel d i n = Some (d', n') /\ received d i c n acc rest rejected d' n'.
Proof.
  revert d n c. induction fuel as [|fuel IH]; intros d n c Hn Hi Hfuel.
  { pose proof (zlen_nonneg (FrameBuffer_Data (_frameBuf c))). lia. }
  cbn [Receive_loop]. rewrite Hi. cbn [mbind option_bind].
  set (buf := FrameBuffer_Data (_frameBuf c)) in *. fold (frame_len buf).
  pose proof (frame_len_nonneg buf). assert (kHeaderSize = 4) as Hk by done.
  destruct (Z.ltb_spec (zlen buf) kHeaderSize).
  { exists [], buf, false, d, n. split_and!; [by constructor|done|by apply received_nil]. }
  rewrite Z.gtb_ltb. destruct (Z.ltb_spec maxFrameSize (frame_len buf)).
  { destruct (reject_turn d i c n Hn Hi) as (n' & -> & ? & ? & ?). cbn.
    exists [], buf, true, d, n'. split_and!; [by constructor|done|].
    split_and!; try done; [unfold queued; by rewrite app_nil_r|].
    exists (_frameBuf c). by destruct c. }
  rewrite wrap_small by (rewrite maxFrameSize_eq in *; lia).
  destruct (Z.ltb_spec (zlen buf) (kHeaderSize + frame_len buf)).
  { exists [], buf, false, d, n. split_and!; [by constructor|done|by apply received_nil]. }
  fold (frame_body buf). destruct (ParsePacket_cases (frame_body buf)) as [Herr|[p Hp]].
  - rewrite Herr. destruct (reject_turn d i c n Hn Hi) as (n1 & -> & Hn1 & Hcl & Hw). cbn [mbind option_bind].
    destruct (Net_Consume_spec n1 i (kHeaderSize + frame_len buf) (closed c))
      as (fb' & -> & Hfb & Hd); [|done|lia|].
    { rewrite Hcl. apply list_lookup_insert_eq. by eapply lookup_lt_Some. }
    exists [], (frame_rest buf), true, d. eexists. split_and!; [by constructor|done|].
    split_and!; try done.
    + apply set_client_inv; [done|]. apply Client_inv_frameBuf; [|done].
      eapply Net_inv_lookup; [exact Hn1|]. rewrite Hcl. apply list_lookup_insert_eq.
      by eapply lookup_lt_Some.
    + unfold queued. by rewrite app_nil_r.
    + exists fb'. split; [by destruct c|]. cbn. rewrite Hcl, list_insert_insert_eq. by destruct c.
  - rewrite Hp. cbn [HasErr _hasError Ok _data mbind option_bind].
    destruct (accept_turn d i c n (payload_type p) (frame_body buf) (kHeaderSize + frame_len buf))
      as (d1 & n1 & fb1 & Heq & Hn1 & Hcl & Hd1 & Hcb & Hh & Hb & Hq & Hw); [done|done|lia|].
    destruct (PushCommand _ _ _ _ _) as [dp np]. destruct (Net_Consume _ _ np); [|done].
    cbn in Heq. simplify_eq. cbn [mbind option_bind].
    assert (FrameBuffer_Data (_frameBuf (c {{ _frameBuf := fb1 }})) = frame_rest buf) as Hrest
      by (etrans; [|exact Hd1]; by destruct c).
    destruct (IH d1 n1 (c {{ _frameBuf := fb1 }})) as (acc & rest & rej & d' & n' & Hdec & Hrun & Hrec).
    { done. }
    { rewrite Hcl. apply list_lookup_insert_eq. by eapply lookup_lt_Some. }
    { rewrite Hrest. unfold frame_rest, zlen in *. rewrite length_drop. lia. }
    rewrite Hrest in Hdec.
    exists ((p, frame_body buf) :: acc), rest, rej, d', n'. split_and!; [by econstructor|done|].
    by eapply received_cons.
Qed.

Lemma received_frameBuf d i c n fb acc rest rejected d' n' :
  clients n !! i = Some c ->
  received d i (c {{ _frameBuf := fb }}) (set_client i (c {{ _frameBuf := fb }}) n)
    acc rest rejected d' n' ->
  received d i c n acc rest rejected d' n'.
Proof.
  intros Hi (Hinv & Hcb & Hh & Hb & Hq & (fb' & Hfb & Hcl) & Hw).
  split_and!; try done.
  exists fb'. split; [done|]. rewrite Hcl. cbn. rewrite list_insert_insert_eq. by destruct c.
Qed.

Lemma Receive_fits d i n c data :
  Net_inv n -> clients n !! i = Some c ->
  zlen (FrameBuffer_Data (_frameBuf c)) + zlen data <= maxFrameSize ->
  exists acc rest rejected d' n',
    decodes (FrameBuffer_Data (_frameBuf c) ++ data) acc rest rejected /\
    Receive d i data n = Some (d', n') /\ received d i c n acc rest rejected d' n'.
Proof.
  intros Hn Hi Hfit. unfold Receive. rewrite Hi. cbn [mbind option_bind].
  destruct (Net_inv_lookup _ _ _ Hn Hi) as (? & ? & Hfb & ?).
  destruct (FrameBuffer_Append_fits (_frameBuf c) data Hfb Hfit) as (fb & -> & Hfb' & Hdata).
  cbn [mbind option_bind negb].
  assert (_frameBuf (c {{ _frameBuf := fb }}) = fb) as Hproj by (by destruct c).
  destruct (Receive_loop_received (S (Z.to_nat (FrameBuffer_Size fb))) d i
      (set_client i (c {{ _frameBuf := fb }}) n) (c {{ _frameBuf := fb }}))
    as (acc & rest & rej & d' & n' & Hdec & Hrun & Hrec).
  - apply set_client_inv; [done|]. apply Client_inv_frameBuf; [|done]. by eapply Net_inv_lookup.
  - by eapply set_client_lookup.
  - rewrite Hproj, FrameBuffer_Data_length by done. unfold FrameBuffer_Size. destruct Hfb'. lia.
  - rewrite Hproj, Hdata in Hdec. exists acc, rest, rej, d', n'. split_and!; [done|done|].
    by eapply received_frameBuf.
Qed.

Lemma Receive_overflow d i n c data :
  Net_inv n -> clients n !! i = Some c ->
  maxFrameSize < zlen (FrameBuffer_Data (_frameBuf c)) + zlen data ->
  exists n', Receive d i data n = Some (d, n') /\
    received d i c n [] (FrameBuffer_Data (_frameBuf c)) true d n'.
Proof.
  intros Hn Hi Hof. unfold Receive. rewrite Hi. cbn [mbind option_bind].
  destruct (Net_inv_lookup _ _ _ Hn Hi) as (? & ? & Hfb & ?).
  rewrite (FrameBuffer_Append_overflow (_frameBuf c) data Hfb Hof). cbn [mbind option_bind negb].
  assert (c {{ _frameBuf := _frameBuf c }} = c) as Hsame by (by destruct c).
  rewrite Hsame.
  destruct (reject_turn d i c (set_client i c n)) as (n' & -> & ? & Hcl & Hw).
  { apply set_client_inv; [done|]. by eapply Net_inv_lookup. }
  { by eapply set_client_lookup. }
  exists n'. split; [done|]. split_and!; try done; [unfold queued; by rewrite app_nil_r|].
  exists (_frameBuf c). split; [done|]. rewrite Hcl. cbn. rewrite list_insert_insert_eq. by destruct c.
Qed.

(** C11: [Receive] is total and does exactly what the frame grammar says.  On
    data that fit behind the bytes already accumulated it queues one command per
    complete valid frame, in order, keeps the incomplete remainder, and closes the
    client exactly when the grammar refuses the stream; on data that do not fit
    it closes the client and queues nothing.  No other slot changes. *)
Theorem Receive_refines_decodes d i n c data :
  Net_inv n -> clients n !! i = Some c ->
  (zlen (FrameBuffer_Data (_frameBuf c)) + zlen data <= maxFrameSize ->
   exists acc rest rejected d' n',
     decodes (FrameBuffer_Data (_frameBuf c) ++ data) acc rest rejected /\
     Receive d i data n = Some (d', n') /\ received d i c n acc rest rejected d' n') /\
  (maxFrameSize < zlen (FrameBuffer_Data (_frameBuf c)) + zlen data ->
   exists n', Receive d i data n = Some (d, n') /\
     received d i c n [] (FrameBuffer_Data (_frameBuf c)) true d n').
Proof.
  intros Hn Hi. split; [by apply Receive_fits|by apply Receive_overflow].
Qed.
End Receive.

(** ** Streams of frames

    A sender writes the frames of its packets one after the other; the transport
    delivers the bytes in chunks that ignore the frame boundaries. *)

Section Stream.
Context `{FlatBuffers}.

Definition stream (ps : list Packet) : list byte := concat ((fun p => frame_of (fb_finish p)) <$> ps).

(** A packet the receiver can take: its codec round-trips and its frame leaves
    room for one more chunk of the receive buffer. *)
Definition sendable (p : Packet) : Prop :=
  codec_ok p /\ kHeaderSize + zlen (fb_finish p) + recvBufferSize <= maxFrameSize.

Definition accepted_as (p : Packet) : Packet * list byte := (p, fb_finish p).

Lemma frame_len_prefix payload s k :
  s `prefix_of` frame_of payload ++ k -> kHeaderSize <= zlen s -> zlen payload < 2 ^ 32 ->
  frame_len s = zlen payload.
Proof.
  intros [z Hz] Hs Hp. unfold frame_len.
  rewrite <-(header_roundtrip (zlen payload) (payload ++ k)) by (pose proof (zlen_nonneg payload); lia).
  unfold frame_of in Hz. rewrite <-app_assoc in Hz. rewrite Hz. f_equal. unfold load_u32.
  rewrite take_app_le; [done|]. unfold zlen, kHeaderSize in Hs. lia.
Qed.

Lemma ParsePacket_codec p : codec_ok p -> ParsePacket (fb_finish p) = Ok (Some p).
Proof. intros [Hv Hg]. unfold ParsePacket. by rewrite Hv, Hg. Qed.

Lemma frame_parts payload k :
  zlen payload < 2 ^ 32 ->
  frame_len (frame_of payload ++ k) = zlen payload /\
  frame_body (frame_of payload ++ k) = payload /\ frame_rest (frame_of payload ++ k) = k.
Proof.
  intros Hp. pose proof (zlen_nonneg payload) as Hp0. pose proof (zlen_frame_of payload) as Hz.
  assert (frame_len (frame_of payload ++ k) = zlen payload) as Hlen.
  { apply (frame_len_prefix payload _ k); [done| |done].
    rewrite zlen_app. pose proof (zlen_nonneg k). lia. }
  unfold frame_body, frame_rest. rewrite Hlen. split_and!; [done| |].
  - unfold frame_of. rewrite <-app_assoc, drop_app_length' by (by rewrite length_store_u32).
    rewrite take_app_length'; [done|]. unfold zlen. lia.
  - apply drop_app_length'. unfold zlen in *. lia.
Qed.

(** Every prefix of a stream decodes to whole packets and an incomplete rest. *)
Lemma decodes_prefix ps s k :
  Forall sendable ps -> stream ps = s ++ k ->
  exists ps1 ps2 rest, ps = ps1 ++ ps2 /\ s = stream ps1 ++ rest /\
    decodes s (accepted_as <$> ps1) rest false /\
    zlen rest + recvBufferSize <= maxFrameSize /\ (k = [] -> ps2 = []).
Proof.
  assert (maxFrameSize = 65536 /\ recvBufferSize = 4096 /\ kHeaderSize = 4) as (Hm & Hr & Hh) by done.
  intros Hps. revert s k. induction Hps as [|p ps [Hp Hb] _ IH]; intros s k Hs.
  { symmetry in Hs. apply app_eq_nil in Hs as [-> ->].
    exists [], [], []. split_and!; [done|done|by constructor|rewrite zlen_nil; lia|done]. }
  set (f := frame_of (fb_finish p)).
  assert (stream (p :: ps) = f ++ stream ps) as Hst by done. rewrite Hst in Hs.
  pose proof (zlen_frame_of (fb_finish p)) as Hf. fold f in Hf.
  destruct (decide (zlen s < zlen f)) as [Hlt|Hge].
  - exists [], (p :: ps), s. split_and!; [done|done| |lia|].
    + destruct (decide (zlen s < kHeaderSize)); [by constructor|].
      assert (frame_len s = zlen (fb_finish p)) as Hl.
      { apply (frame_len_prefix _ _ (stream ps)); [by exists k|lia|lia]. }
      apply dec_partial; lia.
    + intros ->. rewrite app_nil_r in Hs. subst s. rewrite zlen_app in Hlt.
      pose proof (zlen_nonneg (stream ps)). lia.
  - assert (exists s', s = f ++ s') as [s' ->].
    { exists (drop (length f) s). apply (f_equal (take (length s))) in Hs as Ht.
      rewrite take_app_length in Ht. rewrite <-Ht at 1.
      apply (f_equal (drop (length f))) in Hs. rewrite drop_app_length in Hs.
      unfold zlen in *. rewrite drop_app_le in Hs by lia. rewrite Hs, app_assoc. 
      rewrite take_app_le, take_ge by (rewrite length_app, length_drop; lia). done. }
    rewrite <-app_assoc in Hs. apply app_inv_head in Hs.
    destruct (IH s' k Hs) as (ps1 & ps2 & rest & -> & -> & Hdec & Hrest & Hk).
    exists (p :: ps1), ps2, rest. split_and!; [done|by rewrite app_assoc| |done|done].
    destruct (frame_parts (fb_finish p) (stream ps1 ++ rest)) as (Hl & Hbody & Hrst); [lia|].
    fold f in Hl, Hbody, Hrst. cbn [fmap list_fmap].
    replace (accepted_as p) with (p, frame_body (f ++ stream ps1 ++ rest)) by (by rewrite Hbody).
    apply dec_frame; [| |by rewrite Hbody; apply ParsePacket_codec|by rewrite Hrst].
    + rewrite Hl, zlen_app. pose proof (zlen_nonneg (stream ps1 ++ rest)). lia.
    + rewrite Hl. lia.
Qed.
End Stream.

Section Reassembly.
Context {OS W A : Type} `{WinSock OS} `{FlatBuffers}.
Implicit Types (d : PacketDispatcher OS W A) (n : Net OS W) (c : Client W) (i : nat).

(** [Receive] on the chunks of a connection, in the order of their completions. *)
Fixpoint receive_all d i (chunks : list (list byte)) n : ub (PacketDispatcher OS W A * Net OS W) :=
  match chunks with
  | [] => Some (d, n)
  | ch :: chunks => '(d, n) ← Receive d i ch n; receive_all d i chunks n
  end.

Lemma stream_app ps qs : stream (ps ++ qs) = stream ps ++ stream qs.
Proof. unfold stream. by rewrite fmap_app, concat_app. Qed.

Lemma received_w_trans d d1 c fb k k' (w : W) :
  pd_callbacks d1 = pd_callbacks d ->
  received_w d1 (c {{ _frameBuf := fb }}) k' false (received_w d c k false w) =
  received_w d c (k + k') false w.
Proof.
  intros Hcb. unfold received_w.
  replace (accepted_w d1) with (accepted_w d) by (unfold accepted_w; by rewrite Hcb).
  by rewrite Nat.add_comm, Nat.iter_add.
Qed.

Lemma received_trans d i c n acc1 rest1 d1 n1 acc2 rest2 d2 n2 fb1 :
  FrameBuffer_Data fb1 = rest1 ->
  clients n1 = <[i := c {{ _frameBuf := fb1 }}]> (clients n) ->
  received d i c n acc1 rest1 false d1 n1 ->
  received d1 i (c {{ _frameBuf := fb1 }}) n1 acc2 rest2 false d2 n2 ->
  received d i c n (acc1 ++ acc2) rest2 false d2 n2.
Proof.
  intros Hfb1 Hcl1 (_ & Hcb1 & Hh1 & Hb1 & Hq1 & _ & Hw1)
    (Hinv & Hcb2 & Hh2 & Hb2 & Hq2 & (fb2 & Hfb2 & Hcl2) & Hw2).
  split_and!; try congruence.
  - rewrite Hq2, Hq1. unfold view_of. by rewrite fmap_app, app_assoc.
  - exists fb2. split; [done|]. rewrite Hcl2, Hcl1, list_insert_insert_eq. by destruct c.
  - rewrite Hw2, Hw1, length_app. by apply received_w_trans.
Qed.

Lemma receive_all_stream chunks : forall d i n c ps,
  Net_inv n -> clients n !! i = Some c -> Forall sendable ps ->
  Forall (fun ch => zlen ch <= recvBufferSize) chunks ->
  FrameBuffer_Data (_frameBuf c) ++ concat chunks = stream ps ->
  decodes (FrameBuffer_Data (_frameBuf c)) [] (FrameBuffer_Data (_frameBuf c)) false ->
  zlen (FrameBuffer_Data (_frameBuf c)) + recvBufferSize <= maxFrameSize ->
  exists d' n', receive_all d i chunks n = Some (d', n') /\
    received d i c n (accepted_as <$> ps) [] false d' n'.
Proof.
  induction chunks as [|ch chunks IH]; intros d i n c ps Hn Hi Hps Hch Hst Hdec Hroom.
  - simpl in *. rewrite app_nil_r in Hst. exists d, n. split; [done|].
    destruct (decodes_prefix ps (stream ps) [] Hps) as (ps1 & ps2 & rest & -> & Heq & Hd & _ & Hnil);
      [by rewrite app_nil_r|].
    rewrite (Hnil eq_refl), app_nil_r in *. rewrite Hst in Hdec.
    destruct (decodes_det _ _ _ _ _ _ _ Hdec Hd) as (Ha & Hr & _).
    symmetry in Ha. apply fmap_nil_inv in Ha as ->. simpl in *.
    replace ([] : list byte) with (FrameBuffer_Data (_frameBuf c)) by done. by apply received_nil.
  - inversion Hch as [|?? Hc1 Hc2]; subst. simpl in Hst. rewrite app_assoc in Hst. symmetry in Hst.
    destruct (decodes_prefix ps _ _ Hps Hst) as (ps1 & ps2 & rest & -> & Heq & Hd & Hrm & _).
    destruct (Receive_fits d i n c ch Hn Hi) as (acc & rest' & rej & d1 & n1 & Hd1 & Hrun & Hrec); [lia|].
    destruct (decodes_det _ _ _ _ _ _ _ Hd1 Hd) as (-> & -> & ->).
    pose proof Hrec as (Hn1 & _ & _ & _ & _ & (fb1 & Hfb1 & Hcl1) & _).
    assert (_frameBuf (c {{ _frameBuf := fb1 }}) = fb1) as Hproj by (by destruct c).
    rewrite Forall_app in Hps. destruct Hps as [Hps1 Hps2].
    destruct (IH d1 i n1 (c {{ _frameBuf := fb1 }}) ps2) as (d2 & n2 & Hrun2 & Hrec2);
      try rewrite !Hproj, ?Hfb1; try done.
    { rewrite Hcl1. apply list_lookup_insert_eq. by eapply lookup_lt_Some. }
    { rewrite stream_app, Heq, <-app_assoc in Hst. by apply app_inv_head in Hst. }
    { by eapply decodes_rest. }
    exists d2, n2. cbn [receive_all]. rewrite Hrun. cbn. split; [done|].
    rewrite fmap_app. by eapply received_trans.
Qed.

(** C1: frame reassembly.  However the bytes of a sequence of packets, which FlatBuffers
    reads back and which have at most 61436 bytes each (what with a header leaves room for
    a whole chunk in the frame buffer), are cut into chunks of the receive buffer, on a connection whose frame buffer is empty,
    [Receive] queues one command per packet, in the
    order sent, with the packet's own tag and bytes, leaves the frame buffer
    empty, keeps the connection and reports each packet as valid. *)
Theorem stream_reassembly d i n c ps chunks :
  Net_inv n -> clients n !! i = Some c -> FrameBuffer_Data (_frameBuf c) = [] ->
  Forall sendable ps -> Forall (fun ch => zlen ch <= recvBufferSize) chunks ->
  concat chunks = stream ps ->
  exists d' n' fb', receive_all d i chunks n = Some (d', n') /\
    queued d' = queued d ++ ((fun p => (i, payload_type p, fb_finish p)) <$> ps) /\
    clients n' = <[i := c {{ _frameBuf := fb' }}]> (clients n) /\ FrameBuffer_Data fb' = [] /\
    net_w n' = Nat.iter (length ps) (accepted_w d) (net_w n).
Proof.
  intros Hn Hi Hempty Hps Hch Hst.
  destruct (receive_all_stream chunks d i n c ps) as (d' & n' & Hrun & Hrec); try rewrite Hempty; try done.
  { by constructor. }
  destruct Hrec as (_ & _ & _ & _ & Hq & (fb' & Hfb & Hcl) & Hw). exists d', n', fb'.
  split_and!; [done| |done|done|].
  - rewrite Hq. unfold view_of. by rewrite <-list_fmap_compose.
  - rewrite Hw. unfold received_w. by rewrite length_fmap.
Qed.

(** *** Frames that can never be delivered

    [stuck buf]: the accumulated bytes start with a header whose frame cannot fit
    the frame buffer.  The receiver accepts lengths up to [maxFrameSize] but the
    buffer must hold the four header bytes too. *)
Definition stuck (buf : list byte) : Prop :=
  kHeaderSize <= zlen buf /\ maxFrameSize < kHeaderSize + frame_len buf.

Lemma frame_len_app buf k : kHeaderSize <= zlen buf -> frame_len (buf ++ k) = frame_len buf.
Proof.
  intros Hb. unfold frame_len, load_u32. rewrite take_app_le; [done|]. unfold zlen, kHeaderSize in Hb. lia.
Qed.

Lemma stuck_app buf k : stuck buf -> stuck (buf ++ k).
Proof.
  intros [Hb Hl]. split; [rewrite zlen_app; pose proof (zlen_nonneg k); lia|]. by rewrite frame_len_app.
Qed.

Lemma decodes_stuck buf acc rest rejected :
  stuck buf -> zlen buf <= maxFrameSize -> decodes buf acc rest rejected ->
  acc = [] /\ rest = buf /\ rejected = bool_decide (maxFrameSize < frame_len buf).
Proof.
  intros [Hb Hl] Hz Hd. inversion Hd; subst; try lia; split_and!; try done; symmetry.
  - by apply bool_decide_eq_true.
  - apply bool_decide_eq_false. lia.
Qed.

(** One [Receive] on a stuck slot. *)
Lemma Receive_stuck d i n c data :
  Net_inv n -> clients n !! i = Some c -> stuck (FrameBuffer_Data (_frameBuf c)) ->
  exists d' n' c', Receive d i data n = Some (d', n') /\ Net_inv n' /\
    queued d' = queued d /\ pd_callbacks d' = pd_callbacks d /\
    clients n' = <[i := c']> (clients n) /\ stuck (FrameBuffer_Data (_frameBuf c')) /\
    frame_len (FrameBuffer_Data (_frameBuf c')) = frame_len (FrameBuffer_Data (_frameBuf c)) /\
    (maxFrameSize < frame_len (FrameBuffer_Data (_frameBuf c)) -> socket c' = InvalidSocket).
Proof.
  intros Hn Hi Hst. pose proof Hst as [Hb _].
  destruct (decide (zlen (FrameBuffer_Data (_frameBuf c)) + zlen data <= maxFrameSize)).
  - destruct (Receive_fits d i n c data) as (acc & rest & rej & d' & n' & Hdec & Hrun & Hrec); [done..|].
    destruct (decodes_stuck _ _ _ _ (stuck_app _ data Hst)
      ltac:(rewrite zlen_app; lia) Hdec) as (-> & -> & Hrej).
    destruct Hrec as (Hn' & Hcb & _ & _ & Hq & (fb' & Hfb & Hcl) & _).
    set (c' := (if rej then closed else _) _) in Hcl.
    assert (_frameBuf c' = fb') as Hproj by (by destruct rej, c).
    exists d', n', c'. rewrite Hproj, Hfb.
    split_and!; [done|done| |done|exact Hcl|by apply stuck_app|by apply frame_len_app|].
    + rewrite Hq. apply app_nil_r.
    + intros Hlen. rewrite frame_len_app, bool_decide_eq_true_2 in Hrej by done. subst rej. by destruct c.
  - destruct (Receive_overflow d i n c data) as (n' & Hrun & Hrec); [done|done|lia|].
    destruct Hrec as (Hn' & _ & _ & _ & _ & (fb' & Hfb & Hcl) & _).
    set (c' := closed _) in Hcl. assert (_frameBuf c' = fb') as Hproj by (by destruct c).
    exists d, n', c'. by rewrite Hproj, Hfb.
Qed.

(** a frame of 65533 to 65536 payload bytes passes the length test of [Receive]
    but can never be delivered: once its header is in the frame buffer, no
    further bytes, the complete payload included, make [Receive] queue anything. *)
Lemma stuck_frame_never_delivered d i n c chunks :
  Net_inv n -> clients n !! i = Some c ->
  kHeaderSize <= zlen (FrameBuffer_Data (_frameBuf c)) ->
  maxFrameSize - kHeaderSize < frame_len (FrameBuffer_Data (_frameBuf c)) <= maxFrameSize ->
  exists d' n', receive_all d i chunks n = Some (d', n') /\ queued d' = queued d.
Proof.
  intros Hn Hi Hb [Hl _]. assert (stuck (FrameBuffer_Data (_frameBuf c))) as Hst by (split; lia).
  clear Hb Hl. revert d n c Hn Hi Hst. induction chunks as [|ch chunks IH]; intros d n c Hn Hi Hst.
  { by exists d, n. }
  destruct (Receive_stuck d i n c ch) as (d1 & n1 & c1 & Hrun & Hn1 & Hq & _ & Hcl & Hst1 & _); [done..|].
  destruct (IH d1 n1 c1) as (d2 & n2 & Hrun2 & Hq2); [done| |done|].
  { rewrite Hcl. apply list_lookup_insert_eq. by eapply lookup_lt_Some. }
  exists d2, n2. cbn [receive_all]. rewrite Hrun. cbn. by rewrite Hrun2, Hq2.
Qed.

(** *** Slot reuse

    What happens on a pool slot when the next connection is accepted on it and
    sends its first bytes. *)
Definition reconnect_and_receive i (conn : Z * list byte) (st : PacketDispatcher OS W A * Net OS W)
    : ub (PacketDispatcher OS W A * Net OS W) :=
  let '(d, n) := st in
  c ← clients n !! i;
  let n := set_client i (c {{ socket := conn.1 }}) n in
  '(n, _) ← Net_PostRecv i n;
  n ← Net_Mark i n;
  Receive d i conn.2 n.

Fixpoint reconnects i (conns : list (Z * list byte)) (st : PacketDispatcher OS W A * Net OS W)
    : ub (PacketDispatcher OS W A * Net OS W) :=
  match conns with
  | [] => Some st
  | conn :: conns => st ← reconnect_and_receive i conn st; reconnects i conns st
  end.

Definition poisoned (c : Client W) : Prop :=
  kHeaderSize <= zlen (FrameBuffer_Data (_frameBuf c)) /\
  maxFrameSize < frame_len (FrameBuffer_Data (_frameBuf c)).

Lemma reconnect_poisoned d i n c conn :
  Net_inv n -> clients n !! i = Some c -> poisoned c ->
  exists d' n' c', reconnect_and_receive i conn (d, n) = Some (d', n') /\ Net_inv n' /\
    queued d' = queued d /\ clients n' !! i = Some c' /\ poisoned c' /\ socket c' = InvalidSocket.
Proof.
  intros Hn Hi [Hp1 Hp2]. unfold reconnect_and_receive. rewrite Hi. cbn [mbind option_bind].
  pose proof (lookup_lt_Some _ _ _ Hi) as Hlt.
  set (c1 := c {{ socket := conn.1 }}).
  destruct (Net_PostRecv_spec (set_client i c1 n) i c1) as (n2 & r & -> & Hn2 & Hcl2 & _).
  { by eapply set_client_lookup. }
  { apply set_client_inv; [done|]. by destruct (Net_inv_lookup _ _ _ Hn Hi). }
  cbn [mbind option_bind]. set (c2 := c1 {{ recvOverlapped ::= _ }}) in Hcl2.
  destruct (Net_Mark_spec n2 i c2) as (n3 & -> & Hn3 & _ & Hcl3 & _); [|done|].
  { rewrite Hcl2. apply list_lookup_insert_eq. cbn. by rewrite length_insert. }
  cbn [mbind option_bind]. set (c3 := c2 {{ _connectionEstablished := true; _connectionEventCounted := true }}) in Hcl3.
  assert (_frameBuf c3 = _frameBuf c) as Hfb by (by destruct c).
  assert (clients n3 !! i = Some c3) as Hi3.
  { rewrite Hcl3, Hcl2. apply list_lookup_insert_eq. cbn. by rewrite !length_insert. }
  assert (kHeaderSize = 4) by done.
  destruct (Receive_stuck d i n3 c3 conn.2) as (d' & n' & c' & -> & Hn' & Hq & _ & Hcl & [Hst1 Hst2] & Hlen & Hsock);
    [done|done|rewrite Hfb; split; lia|].
  rewrite Hfb in *. exists d', n', c'. split_and!; try done.
  - rewrite Hcl. apply list_lookup_insert_eq. by eapply lookup_lt_Some.
  - split; [done|by rewrite Hlen].
  - by apply Hsock.
Qed.

(** A slot is poisoned for good by one oversized header.  After a client was
    refused for a length above the limit, [Close] leaves the header in the frame
    buffer; every later connection on that slot, whatever it sends, is closed at
    its first received bytes and none of its packets is queued. *)
Lemma oversize_header_poisons_slot d i n c conns :
  Net_inv n -> clients n !! i = Some c -> poisoned c -> conns <> [] ->
  exists d' n' c', reconnects i conns (d, n) = Some (d', n') /\
    queued d' = queued d /\ clients n' !! i = Some c' /\ poisoned c' /\ socket c' = InvalidSocket.
Proof.
  intros Hn Hi Hp Hne. revert d n c Hn Hi Hp. induction conns as [|conn conns IH]; [done|].
  intros d n c Hn Hi Hp.
  destruct (reconnect_poisoned d i n c conn) as (d1 & n1 & c1 & Hrun & Hn1 & Hq & Hi1 & Hp1 & Hs1); [done..|].
  cbn [reconnects]. rewrite Hrun. cbn.
  destruct conns as [|conn' conns]; [by exists d1, n1, c1|].
  destruct (IH ltac:(done) d1 n1 c1) as (d2 & n2 & c2 & Hrun2 & Hq2 & ?); [done..|].
  exists d2, n2, c2. split; [exact Hrun2|]. split; [congruence|done].
Qed.
End Reassembly.

(** ** Witnesses

    Two packets of a two-entry code book, cut in the middle of the first header. *)

Definition demo_p1 : Packet := makeJoinRoomRequest "alice" 1.
Definition demo_p2 : Packet := makeSendMessageRequest 0 "alice" "hi" 2.
#[local] Instance demo_codec : FlatBuffers := book_codec [demo_p1; demo_p2].

Definition demo_net : Net ScriptOS unit := mkNet (script_of []) tt [Client_init].
Definition demo_dispatcher : PacketDispatcher ScriptOS unit unit := PacketDispatcher_init.

Definition demo_chunks : list (list byte) :=
  [take 3 (stream [demo_p1; demo_p2]); drop 3 (stream [demo_p1; demo_p2])].

Lemma demo_net_inv : Net_inv demo_net.
Proof. constructor; [apply Client_init_inv|constructor]. Qed.

Lemma demo_sendable : Forall sendable [demo_p1; demo_p2].
Proof. repeat constructor; by vm_compute. Qed.

Lemma Receive_refines_decodes_witness :
  exists acc rest rejected d' n',
    decodes (FrameBuffer_Data FrameBuffer_init ++ stream [demo_p1]) acc rest rejected /\
    Receive demo_dispatcher 0 (stream [demo_p1]) demo_net = Some (d', n') /\
    received demo_dispatcher 0 Client_init demo_net acc rest rejected d' n'.
Proof.
  refine (proj1 (Receive_refines_decodes demo_dispatcher 0 demo_net Client_init (stream [demo_p1])
    demo_net_inv eq_refl) _).
  change (FrameBuffer_Data (_frameBuf Client_init)) with ([] : list byte). by vm_compute.
Defined.

Lemma stream_reassembly_witness :
  exists d' n' fb', receive_all demo_dispatcher 0 demo_chunks demo_net = Some (d', n') /\
    queued d' = [(0%nat, 1, [Byte.x00]); (0%nat, 3, [Byte.x01])] /\
    clients n' = [Client_init {{ _frameBuf := fb' }}] /\ FrameBuffer_Data fb' = [] /\
    net_w n' = tt.
Proof.
  destruct (stream_reassembly demo_dispatcher 0 demo_net Client_init [demo_p1; demo_p2] demo_chunks)
    as (d' & n' & fb' & Hrun & Hq & Hcl & Hfb & Hw).
  - exact demo_net_inv.
  - reflexivity.
  - reflexivity.
  - exact demo_sendable.
  - repeat constructor; by vm_compute.
  - reflexivity.
  - exists d', n', fb'. split_and!; done.
Defined.

(** A frame buffer that holds just the header of a frame of [len] bytes. *)
Definition header_client (len : Z) : Client unit :=
  Client_init {{ _frameBuf := mkFrameBuffer
    (store_u32 (htonl len) ++ replicate (Z.to_nat (maxFrameSize - kHeaderSize)) Byte.x00) 4 }}.

Lemma header_client_data len :
  FrameBuffer_Data (_frameBuf (header_client len)) = store_u32 (htonl len).
Proof.
  unfold header_client, FrameBuffer_Data. cbn [_frameBuf _buf _len constant].
  change (Z.to_nat 4) with 4%nat. apply take_app_length'. by rewrite length_store_u32.
Qed.

Lemma header_client_inv len : Client_inv (header_client len).
Proof.
  split_and!; [done|done| |done]. split; [|done].
  change (zlen (store_u32 (htonl len) ++
    replicate (Z.to_nat (maxFrameSize - kHeaderSize)) Byte.x00) = maxFrameSize).
  unfold zlen. rewrite length_app, length_store_u32, length_replicate. done.
Qed.

Lemma header_client_len len :
  0 <= len < 2 ^ 32 -> frame_len (FrameBuffer_Data (_frameBuf (header_client len))) = len.
Proof.
  intros Hl. rewrite header_client_data. unfold frame_len.
  rewrite <-(app_nil_r (store_u32 _)). by apply header_roundtrip.
Qed.

Definition header_net (len : Z) : Net ScriptOS unit :=
  mkNet (script_of []) tt [header_client len].

Lemma header_net_inv len : Net_inv (header_net len).
Proof. constructor; [apply header_client_inv|constructor]. Qed.

Lemma stuck_frame_never_delivered_witness :
  frame_len (FrameBuffer_Data (_frameBuf (header_client 65536))) = 65536 /\
  exists d' n', receive_all demo_dispatcher 0 [[Byte.x01]; [Byte.x02]] (header_net 65536) = Some (d', n') /\
    queued d' = queued demo_dispatcher.
Proof.
  assert (frame_len (FrameBuffer_Data (_frameBuf (header_client 65536))) = 65536) as Hl
    by (apply header_client_len; lia).
  split; [exact Hl|].
  apply (stuck_frame_never_delivered demo_dispatcher 0 (header_net 65536) (header_client 65536)).
  - apply header_net_inv.
  - reflexivity.
  - rewrite header_client_data. by vm_compute.
  - rewrite Hl. by vm_compute.
Defined.

Lemma oversize_header_poisons_slot_witness :
  poisoned (header_client 65537) /\
  exists d' n' c', reconnects 0 [(7, stream [demo_p1]); (8, stream [demo_p2])]
      (demo_dispatcher, header_net 65537) = Some (d', n') /\
    queued d' = queued demo_dispatcher /\ clients n' !! 0%nat = Some c' /\ poisoned c' /\
    socket c' = InvalidSocket.
Proof.
  assert (poisoned (header_client 65537)) as Hp.
  { split; [rewrite header_client_data; by vm_compute|].
    rewrite header_client_len by lia. by vm_compute. }
  split; [exact Hp|].
  apply (oversize_header_poisons_slot demo_dispatcher 0 (header_net 65537) (header_client 65537)).
  - apply header_net_inv.
  - reflexivity.
  - exact Hp.
  - discriminate.
Defined.
