(* ===== verification/Tick.v ===== *)
(** * Tick: what the logic thread does with the queued commands

    [PacketDispatcher::Tick] and [DispatchPacket].  Together with Framing.v this
    gives the end-to-end statement: what a peer sends is what the handlers see. *)

From S2P Require Import Prelude Errors Platform FrameBuffer CommandQueue Protocol NetClient Net.
From S2P Require Import PacketDispatcher Framing.
From stdpp Require Import base gmap list strings option.
From coqutil Require Import Byte Datatypes.RecordSetters.
Import DoubleBraceUpdate.
Open Scope Z_scope.

Section Tick.
Context {OS W A : Type} `{WinSock OS} `{FlatBuffers}.
Implicit Types (d : PacketDispatcher OS W A) (n : Net OS W) (i : nat) (s : Net OS W * A).

(** ** What the dispatcher asks of the handlers *)

(** With the application's state in [I], which may depend on the number of slots, a
    registered handler returns for any packet of any slot, keeps [I] and the network
    sound, and leaves the connections as they are: it may send, but closes nothing. *)
Class Handling (hs : gmap Z (DispatchFn OS W A)) (I : nat -> A -> Prop) : Prop :=
  handler_returns t fn i p n a :
    hs !! t = Some fn -> Net_inv n -> I (length (clients n)) a -> (i < length (clients n))%nat ->
    exists n' a', fn i p (n, a) = Some (n', a') /\ Net_inv n' /\ same_conns n n' /\ I (length (clients n)) a'.

(** ** What happens to the packets *)

(** Between two handlers the clock is read and the callbacks are told. *)
Definition observed s s' : Prop :=
  s'.2 = s.2 /\ clients s'.1 = clients s.1 /\
  exists k, net_os s'.1 = run_calls (replicate k SysSteadyClockNow) (net_os s.1).

(** One state leads to the other by giving each packet of the list, in its order, to
    the handler of its tag, or, where the tag has none, by closing the connection. *)
Inductive handled (hs : gmap Z (DispatchFn OS W A)) i : list Packet -> Net OS W * A -> Net OS W * A -> Prop :=
  | handled_nil s s' : observed s s' -> handled hs i [] s s'
  | handled_by p ps fn s s1 s2 s' :
      observed s s1 -> hs !! payload_type p = Some fn -> fn i p s1 = Some s2 ->
      handled hs i ps s2 s' -> handled hs i (p :: ps) s s'
  | handled_refused p ps s s1 n2 s' :
      observed s s1 -> hs !! payload_type p = None -> Net_Close i true s1.1 = Some n2 ->
      handled hs i ps (n2, s1.2) s' -> handled hs i (p :: ps) s s'.

#[export] Instance observed_preorder : PreOrder observed.
Proof.
  split; [intros s; split; [done|]; split; [done|by exists 0%nat]|].
  intros s1 s2 s3 (Ha & Hc & k & Ho) (Ha' & Hc' & k' & Ho'). split; [congruence|]. split; [congruence|].
  exists (k + k')%nat. by rewrite replicate_add, run_calls_app, <-Ho.
Qed.

Lemma observed_w f s : observed s (with_w f s.1, s.2).
Proof. split; [done|]. split; [done|]. by exists 0%nat. Qed.

Lemma observed_now s : let '(s', _) := net_now s in observed s s'.
Proof.
  unfold net_now, NowInNs64. destruct (os_call SysSteadyClockNow (net_os s.1)) as [os r] eqn:Ho.
  split; [done|]. split; [done|]. exists 1%nat. cbn. by rewrite Ho.
Qed.

Lemma handled_before hs i ps s0 s s' : observed s0 s -> handled hs i ps s s' -> handled hs i ps s0 s'.
Proof.
  intros Ho Hh. destruct Hh as [s s' Ho'|p ps fn s s1 s2 s' Ho'|p ps s s1 n2 s' Ho'].
  - constructor. by etrans.
  - eapply handled_by; [etrans; [exact Ho|exact Ho']|done..].
  - eapply handled_refused; [etrans; [exact Ho|exact Ho']|done..].
Qed.

Lemma observed_net s s' : observed s s' -> Net_inv s.1 -> Net_inv s'.1.
Proof. intros (_ & Hc & _). unfold Net_inv. by rewrite Hc. Qed.

Lemma observed_same s s' : observed s s' -> same_conns s.1 s'.1.
Proof. intros (_ & Hc & _). unfold same_conns. rewrite Hc. apply Forall_Forall2_diag, Forall_true, same_conn_refl. Qed.

(** The reads of the clock and the callbacks around one packet. *)
Lemma observed_wait d cmd s :
  observed s (if cmd_enqueuedAtNs cmd >? 0 then
    let '(s1, t) := net_now s in
    (with_w (emit1 (onQueueWait (pd_callbacks d)) (i64 (t - cmd_enqueuedAtNs cmd))) s1.1, s1.2)
  else s).
Proof.
  destruct (_ >? 0); [|done]. pose proof (observed_now s) as Hn. destruct (net_now s) as [s1 t].
  etrans; [exact Hn|apply observed_w].
Qed.

Lemma observed_process d t0 s :
  observed s (match onDispatchProcess (pd_callbacks d) with
    | Some f => let '(s1, t) := net_now s in (with_w (f (i64 (t - t0))) s1.1, s1.2)
    | None => s
    end).
Proof.
  destruct (onDispatchProcess _) as [f|]; [|done]. pose proof (observed_now s) as Hn. destruct (net_now s) as [s1 t].
  etrans; [exact Hn|apply observed_w].
Qed.

Section Handlers.
Context (hs : gmap Z (DispatchFn OS W A)) (I : nat -> A -> Prop) `{!Handling hs I}.

(** One command whose bytes decode to [p]: the handler of the tag sees [p]; the client is
    closed exactly when there is none. *)
Lemma Tick_command_handled d cmd p n a :
  _handlers d = hs -> fb_get (cmd_data cmd) = Some p ->
  Net_inv n -> I (length (clients n)) a -> (cmd_client cmd < length (clients n))%nat ->
  exists n' a', Tick_command d cmd (n, a) = Some (n', a') /\
    (forall ps s', handled hs (cmd_client cmd) ps (n', a') s' -> handled hs (cmd_client cmd) (p :: ps) (n, a) s') /\
    Net_inv n' /\ I (length (clients n)) a' /\ length (clients n') = length (clients n) /\
    (hs !! payload_type p <> None -> same_conns n n') /\
    (hs !! payload_type p = None -> clients n' = alter closed (cmd_client cmd) (clients n)).
Proof.
  intros Hh Hget Hn Ha Hlt. unfold Tick_command. rewrite Hget. pose proof (observed_wait d cmd (n, a)) as Hw.
  match goal with |- context [net_now ?s] => remember s as s1 eqn:E1 end. clear E1.
  pose proof (observed_now s1) as Hnow. destruct (net_now s1) as [s2 t]. assert (observed (n, a) s2) as Ho by (by etrans).
  clear Hw Hnow s1. destruct s2 as [n2 a2]. pose proof Ho as (Ha2 & Hc2 & _). cbn [fst snd] in Ha2, Hc2. subst a2.
  pose proof (observed_net _ _ Ho Hn) as Hn2. cbn [fst] in Hn2. unfold DispatchPacket. rewrite Hh.
  destruct (hs !! payload_type p) as [fn|] eqn:Hlook.
  - destruct (handler_returns (payload_type p) fn (cmd_client cmd) p n2 a Hlook Hn2) as (n3 & a3 & Hfn & Hn3 & Hs3 & Ha3); [by rewrite Hc2..|].
    rewrite Hfn. cbn [mbind option_bind HasErr OkVoid Ok _hasError]. pose proof (observed_process d t (n3, a3)) as Hp.
    set (s4 := match onDispatchProcess _ with Some _ => _ | None => _ end) in *. clearbody s4. destruct s4 as [n4 a4].
    pose proof Hp as (Ha4 & Hc4 & _). cbn [fst snd] in Ha4, Hc4. subst a4.
    pose proof (observed_net _ _ Hp Hn3) as Hn4. pose proof (observed_same _ _ Hp) as Hs4. cbn [fst] in Hn4, Hs4.
    assert (same_conns n n4) as Hs.
    { etrans; [exact (observed_same _ _ Ho)|]. etrans; [exact Hs3|exact Hs4]. }
    exists n4, a3. rewrite Hc2 in Ha3. split_and!; [done| |done|done|by apply same_conns_length|done|done].
    intros ps s' Hrest. eapply handled_by; [exact Ho|exact Hlook|exact Hfn|]. eapply handled_before; [exact Hp|exact Hrest].
  - cbn [mbind option_bind HasErr Err _hasError]. pose proof (observed_process d t (n2, a)) as Hp.
    set (s4 := match onDispatchProcess _ with Some _ => _ | None => _ end) in *. clearbody s4. destruct s4 as [n4 a4].
    pose proof Hp as (Ha4 & Hc4 & _). cbn [fst snd] in Ha4, Hc4. subst a4.
    pose proof (observed_net _ _ Hp Hn2) as Hn4. cbn [fst snd] in *. rewrite Hc2 in Hc4.
    destruct (lookup_lt_is_Some_2 _ _ Hlt) as [c Hc].
    destruct (Net_Close_spec n4 (cmd_client cmd) true c) as (n' & Hcl & Hn' & Hcl' & _); [by rewrite Hc4|done|].
    rewrite Hcl. cbn [mbind option_bind]. exists n', a. rewrite Hc4 in Hcl'.
    split_and!; [done| |done|done|by rewrite Hcl', length_insert|done|].
    + intros ps s' Hrest. eapply handled_refused; [etrans; [exact Ho|exact Hp]|exact Hlook|exact Hcl|exact Hrest].
    + intros _. rewrite Hcl'. by apply list_insert_alter_Some.
Qed.

Lemma Tick_commands_handled d i ps : forall cmds n a,
  _handlers d = hs -> cmd_view <$> cmds = view_of i (accepted_as <$> ps) -> Forall sendable ps ->
  Net_inv n -> I (length (clients n)) a -> (i < length (clients n))%nat ->
  exists s', Tick_commands d cmds (n, a) = Some s' /\ handled hs i ps (n, a) s' /\
    I (length (clients n)) s'.2 /\ (Forall (fun p => hs !! payload_type p <> None) ps -> same_conns n s'.1).
Proof.
  induction ps as [|p ps IH]; intros cmds n a Hh Hv Hps Hn Ha Hi.
  { apply fmap_nil_inv in Hv as ->. exists (n, a). split; [done|]. split; [by constructor|]. by split. }
  destruct cmds as [|cmd cmds]; [done|]. cbn in Hv. injection Hv as Hc Hty Hd Hv.
  inversion Hps as [|?? [[_ Hget] _] Hps']; subst i.
  destruct (Tick_command_handled d cmd p n a) as (n1 & a1 & Hrun & Hstep & Hn1 & Ha1 & Hl1 & Hs1 & _);
    [done|by rewrite Hd|done|done|done|].
  destruct (IH cmds n1 a1) as (s' & Hrun' & Hrest & Ha' & Hs'); [done|done|done|done|by rewrite Hl1|by rewrite Hl1|].
  exists s'. cbn [Tick_commands]. rewrite Hrun. cbn [mbind option_bind]. rewrite Hl1 in Ha'. split_and!; [done|by apply Hstep|done|].
  intros Hall. inversion Hall; subst. etrans; [by apply Hs1|by apply Hs'].
Qed.

Lemma receive_all_handled d i n c ps chunks a :
  _handlers d = hs -> Net_inv n -> I (length (clients n)) a ->
  clients n !! i = Some c -> FrameBuffer_Data (_frameBuf c) = [] ->
  Forall sendable ps -> Forall (fun ch => zlen ch <= recvBufferSize) chunks ->
  concat chunks = stream ps -> queued d = [] ->
  exists d1 n1 d2 s2 fb',
    receive_all d i chunks n = Some (d1, n1) /\
    clients n1 = <[i := c {{ _frameBuf := fb' }}]> (clients n) /\ FrameBuffer_Data fb' = [] /\
    Tick d1 (n1, a) = Some (d2, s2) /\ queued d2 = [] /\ handled hs i ps (n1, a) s2 /\
    I (length (clients n)) s2.2 /\ (Forall (fun p => hs !! payload_type p <> None) ps -> same_conns n1 s2.1).
Proof.
  intros Hh Hn Ha Hi Hempty Hps Hch Hst Hqe.
  destruct (receive_all_stream chunks d i n c ps) as (d1 & n1 & Hrun & Hrec); try rewrite Hempty; try done.
  { by constructor. }
  destruct Hrec as (Hn1 & _ & Hh1 & _ & Hq1 & (fb' & Hfb & Hcl1) & _). rewrite Hqe in Hq1.
  set (dt := d1 {{ _commandQueue := MPSCCommandQueue_init;
                   _tickBatch := _writeQueue (_commandQueue d1) }}).
  set (nt := with_w (emit1 (onQueueDrained (pd_callbacks dt))
                       (zlen (_writeQueue (_commandQueue d1)))) n1).
  assert (length (clients nt) = length (clients n)) as Hl by (cbn; by rewrite Hcl1, length_insert).
  destruct (Tick_commands_handled dt i ps (_writeQueue (_commandQueue d1)) nt a)
    as (s2 & Hrun2 & Hhand & Ha2 & Hsame).
  - destruct d1. cbn in *. by rewrite Hh1.
  - exact Hq1.
  - done.
  - done.
  - by rewrite Hl.
  - rewrite Hl. by eapply lookup_lt_Some.
  - rewrite Hl in Ha2. exists d1, n1, dt, s2, fb'. split_and!; [done|done|done| |by destruct d1| |done|exact Hsame].
    + change (Tick d1 (n1, a)) with
        (st ← Tick_commands dt (_writeQueue (_commandQueue d1)) (nt, a); Some (dt, st)).
      by rewrite Hrun2.
    + eapply handled_before; [|exact Hhand]. apply (observed_w (emit1 _ _) (n1, a)).
Qed.
End Handlers.

(** C2: end-to-end delivery.  Let the handlers registered with the dispatcher keep their
    contract ([Handling]: with the application's state in an invariant they return and
    keep it, and they may send but close no connection, as those of the chat do).  Let a
    connection with an empty frame buffer receive, while nothing else is queued, the bytes
    of packets that FlatBuffers reads back, of at most 61436 bytes each, in chunks of the
    receive buffer cut in any way.
    Then receiving and the next [Tick] return, and [Tick] calls for each packet, once and
    in the order sent, the registered handler of its tag with the packet that was sent, on
    the state the handler before it left, and closes the connection for each packet whose
    tag has no handler; in between only the clock is read and the callbacks are called.
    The queue and the frame buffer are empty afterwards, and every connection is as it was
    when each tag has a handler. *)
Theorem end_to_end_delivery d I i n c ps chunks a :
  Handling (_handlers d) I -> Net_inv n -> I (length (clients n)) a ->
  clients n !! i = Some c -> FrameBuffer_Data (_frameBuf c) = [] ->
  Forall sendable ps -> Forall (fun ch => zlen ch <= recvBufferSize) chunks ->
  concat chunks = stream ps -> queued d = [] ->
  exists d1 n1 d2 s2 fb',
    receive_all d i chunks n = Some (d1, n1) /\
    clients n1 = <[i := c {{ _frameBuf := fb' }}]> (clients n) /\ FrameBuffer_Data fb' = [] /\
    Tick d1 (n1, a) = Some (d2, s2) /\ queued d2 = [] /\ handled (_handlers d) i ps (n1, a) s2 /\
    I (length (clients n)) s2.2 /\
    (Forall (fun p => _handlers d !! payload_type p <> None) ps -> same_conns n1 s2.1).
Proof. intros Hh. by apply (receive_all_handled (_handlers d) I). Qed.

(** ** Handlers that act on the application's state only *)

Abbreviation AppHandler := (nat -> Packet -> A -> A).

Definition lift_handler (h : AppHandler) : DispatchFn OS W A :=
  fun i p st => Some (st.1, h i p st.2).

(** What the application sees of one packet. *)
Definition deliver (hs : gmap Z AppHandler) i (p : Packet) (a : A) : A :=
  match hs !! payload_type p with Some h => h i p a | None => a end.

#[export] Instance lift_handling (hs : gmap Z AppHandler) : Handling (lift_handler <$> hs) (fun _ _ => True).
Proof.
  intros t fn i p n a. rewrite lookup_fmap. destruct (hs !! t) as [h|]; [|done]. intros [= <-] Hn _ _. by exists n, (h i p a).
Qed.

(** They see the packets in order. *)
Lemma handled_lift hs i ps s s' :
  handled (lift_handler <$> hs) i ps s s' -> s'.2 = foldl (fun a p => deliver hs i p a) s.2 ps.
Proof.
  induction 1 as [s s' (? & _)|p ps fn s s1 s2 s' (Ha & _) Hl Hfn _ IH|p ps s s1 n2 s' (Ha & _) Hl _ _ IH]; [done|..];
    rewrite IH; cbn [foldl]; f_equal; unfold deliver; rewrite lookup_fmap in Hl; destruct (hs !! payload_type p) as [h|]; try done.
  injection Hl as <-. unfold lift_handler in Hfn. injection Hfn as <-. cbn [snd]. by rewrite Ha.
Qed.

Lemma receive_all_delivers d hs i n c ps chunks a :
  Net_inv n -> clients n !! i = Some c -> FrameBuffer_Data (_frameBuf c) = [] ->
  Forall sendable ps -> Forall (fun ch => zlen ch <= recvBufferSize) chunks ->
  concat chunks = stream ps -> queued d = [] -> _handlers d = lift_handler <$> hs ->
  exists d1 n1 d2 n2,
    receive_all d i chunks n = Some (d1, n1) /\
    Tick d1 (n1, a) = Some (d2, (n2, foldl (fun a p => deliver hs i p a) a ps)) /\
    queued d2 = [].
Proof.
  intros Hn Hi Hempty Hps Hch Hst Hq Hh.
  destruct (receive_all_handled (lift_handler <$> hs) (fun _ _ => True) d i n c ps chunks a)
    as (d1 & n1 & d2 & [n2 a2] & fb' & Hrun & _ & _ & Htick & Hq2 & Hhand & _); try done.
  apply handled_lift in Hhand. cbn [snd] in Hhand. subst a2. by exists d1, n1, d2, n2.
Qed.
End Tick.

(** A handler for [JoinRoomRequest] that records what it is given, and none for
    [SendMessageRequest]. *)
Definition demo_handlers : gmap Z (nat -> Packet -> list (nat * Packet) -> list (nat * Packet)) :=
  {[ PayloadTag P_JoinRoomRequest := fun i p log => log ++ [(i, p)] ]}.

Definition demo_tick_dispatcher : PacketDispatcher ScriptOS unit (list (nat * Packet)) :=
  PacketDispatcher_init {{ _handlers := lift_handler <$> demo_handlers }}.
