(* ===== verification/ClientServer.v ===== *)
(** * ClientServer: the two programs together

    The chat client of ChatClient.v writes to a stream; what arrives of it, cut as the
    transport pleases, is read by the server's [PacketDispatcher] (Framing.v, Tick.v). *)

From S2P Require Import Prelude Errors Platform FrameBuffer CommandQueue Protocol TcpClient ClientMetrics Console ChatClient.
From S2P Require Import NetClient Net PacketDispatcher Framing Tick.
From Stdlib Require Import String.
From stdpp Require Import base gmap list strings option.
From coqutil Require Import Byte Datatypes.RecordSetters.
Import DoubleBraceUpdate.
Open Scope Z_scope.

Lemma stream_frames `{FlatBuffers} ps : stream ps = frames (fb_finish <$> ps).
Proof. unfold stream, frames. by rewrite <-list_fmap_compose. Qed.

Section ClientServer.
Context {M COS : Type} `{QuietMetrics M COS} {OS W A : Type} `{!WinSock OS} `{FlatBuffers} `{ConsoleApi}.

(** Typed lines reach the server.  Whatever lines a user types into a connected
    client, [ChatCli.Run] returns, and once the bytes it sent have arrived, in chunks of
    any sizes, the next [Tick] of a server whose handlers act on the state of the
    application only (Conversation.v is about the chat's own) gives them, in the order typed,
    exactly the packets that the lines stand for: a join while not joined, a leave or a
    message while joined, each with the next sequence number; nothing for empty lines,
    help, unknown commands, or lines after the one that quits. *)
Lemma typed_lines_handled hasMetrics input cli cl (s : M * COS)
    (d : PacketDispatcher OS W A) hs i (n : Net OS W) c a :
  let ps := typed (_nickname cli) (_joined cli) (_nextSequence cl) input in
  connected_client cl -> outgoing s.2 = [] -> Forall sendable ps ->
  Net_inv n -> clients n !! i = Some c -> FrameBuffer_Data (_frameBuf c) = [] ->
  queued d = [] -> _handlers d = lift_handler <$> hs ->
  exists cli' cl' s', ChatCli_Run hasMetrics input cli cl s = Some (cli', cl', s') /\
  forall chunks, Forall (fun ch => zlen ch <= recvBufferSize) chunks -> concat chunks = outgoing s'.2 ->
  exists d1 n1 d2 n2,
    receive_all d i chunks n = Some (d1, n1) /\
    Tick d1 (n1, a) = Some (d2, (n2, foldl (fun a p => deliver hs i p a) a ps)) /\ queued d2 = [].
Proof.
  intros ps Hcl Hout Hps Hn Hi Hempty Hq Hh.
  destruct (ChatCli_Run_stream hasMetrics input cli cl s Hcl) as (cli' & cl' & s' & Hrun & Ho).
  { eapply Forall_weaken; [exact Hps|]. intros p [_ Hp]. cbn in Hp |- *.
    assert (maxFrameSize = 65536 /\ 0 <= kHeaderSize /\ 0 <= recvBufferSize) by done. lia. }
  exists cli', cl', s'. split; [done|]. intros chunks Hch Hcat.
  rewrite Ho, Hout, app_nil_l, <-stream_frames in Hcat.
  destruct (receive_all_delivers d hs i n c ps chunks a) as (d1 & n1 & d2 & n2 & Hrecv & Htick & Hdrained); try done.
  by exists d1, n1, d2, n2.
Qed.
End ClientServer.

#[local] Existing Instance demo_codec.
#[local] Instance demo_console : ConsoleApi := Terminal.console 80.

Definition demo_cli : ChatCli := PromptNickname (Some "alice"%string) (ChatCli_make ConsoleState_init).
Definition demo_client : ChatClient :=
  mkChatClient 1000 None (Some demo_socket) (Some (mkPacketStream maxFrameSize)) RTop false true 1.
Definition demo_input : list string := ["hello?"; "/join"; ""; "/join"; "hi"; "/quit"; "unsaid"]%string.

Lemma typed_lines_handled_witness :
  typed (_nickname demo_cli) (_joined demo_cli) (_nextSequence demo_client) demo_input = [demo_p1; demo_p2] /\
  exists d1 n1 d2 n2, receive_all demo_tick_dispatcher 0 demo_chunks demo_net = Some (d1, n1) /\
    Tick d1 (n1, []) = Some (d2, (n2, [(0%nat, demo_p1)])) /\ queued d2 = [].
Proof.
  split; [vm_compute; reflexivity|].
  destruct (typed_lines_handled true demo_input demo_cli demo_client (Noop, mkStreamOS [] [] [2; 0; 5]%nat)
    demo_tick_dispatcher demo_handlers 0 demo_net Client_init []) as (cli' & cl' & s' & Hrun & Hall).
  - split_and!; [exists demo_socket; split; reflexivity|eexists; reflexivity|reflexivity].
  - reflexivity.
  - exact demo_sendable.
  - exact demo_net_inv.
  - reflexivity.
  - reflexivity.
  - reflexivity.
  - reflexivity.
  - assert (outgoing s'.2 = stream [demo_p1; demo_p2]) as Ho by (vm_compute in Hrun; injection Hrun as _ _ <-; reflexivity).
    destruct (Hall demo_chunks) as (d1 & n1 & d2 & n2 & Hr & Ht & Hq); [repeat constructor; by vm_compute|by rewrite Ho|].
    exists d1, n1, d2, n2. split_and!; [exact Hr|exact Ht|exact Hq].
Defined.
