(* ===== verification/NetSteps.v ===== *)
(** * Steps of the network layer

    Whatever the application does to the connections is a sequence of a few
    operations: it closes a connection, posts a receive or a send, moves bytes in a
    frame buffer, reads the clock, and notifies the callbacks of a component.
    [net_step] is one of them; an invariant of the network layer is proved once, by
    induction on the steps, and holds for every handler whose effect is shown to be
    such a sequence. *)

From S2P Require Import Prelude Errors Platform FrameBuffer CommandQueue Protocol NetClient Net Ledger PacketDispatcher.
From coqutil Require Import Byte Datatypes.RecordSetters.
From stdpp Require Import base gmap list strings option relations.
Import DoubleBraceUpdate.
Open Scope Z_scope.

Section NetSteps.
Context {OS W : Type} `{WinSock OS}.
(** The notifications that may occur. *)
Context (notify : (W -> W) -> Prop).
Implicit Types (n : Net OS W) (i : nat).

Inductive net_step : Net OS W -> Net OS W -> Prop :=
  | step_notify n f : notify f -> net_step n (with_w f n)
  | step_call n call : neutral call -> net_step n (net_call call n).1
  | step_close n i b n' : Net_Close i b n = Some n' -> net_step n n'
  | step_recv n i n' r : Net_PostRecv i n = Some (n', r) -> net_step n n'
  | step_send n i data n' r :
      zlen data <= sendBufferSize -> Net_PostSend i data n = Some (n', r) -> net_step n n'
  | step_buffer n i c fb :
      clients n !! i = Some c -> (FrameBuffer_inv (_frameBuf c) -> FrameBuffer_inv fb) ->
      net_step n (set_client i (c {{ _frameBuf := fb }}) n).

Definition net_steps : relation (Net OS W) := rtc net_step.

#[export] Instance net_steps_preorder : PreOrder net_steps.
Proof. unfold net_steps. apply _. Qed.

Lemma steps_one n n' : net_step n n' -> net_steps n n'.
Proof. apply rtc_once. Qed.

(** The notifications of a component, and calls through an optional callback. *)
Lemma notify_emit f : (forall g, f = Some g -> notify g) -> notify (fun w => w) -> notify (emit f).
Proof. intros Hf Hid. destruct f as [g|]; [by apply Hf|exact Hid]. Qed.

Lemma steps_with_w f n : notify f -> net_steps n (with_w f n).
Proof. intros. by apply steps_one, step_notify. Qed.

Lemma steps_call call n os r :
  neutral call -> os_call call (net_os n) = (os, r) -> net_steps n (mkNet os (net_w n) (clients n)).
Proof.
  intros Hc Ho. replace (mkNet os (net_w n) (clients n)) with (net_call call n).1;
    [by apply steps_one, step_call|]. unfold net_call. by rewrite Ho.
Qed.

Lemma steps_consume n i k n' : 0 <= k -> Net_Consume i k n = Some n' -> net_steps n n'.
Proof.
  intros Hk. unfold Net_Consume. destruct (clients n !! i) as [c|] eqn:Hi; [|done]. cbn.
  destruct (FrameBuffer_Consume (_frameBuf c) k) as [fb|] eqn:Hfb; [|done]. cbn. intros [= <-].
  apply steps_one, step_buffer; [done|]. intros Hinv.
  destruct (FrameBuffer_Consume_spec (_frameBuf c) k Hinv Hk) as (fb' & Heq & ? & _). by simplify_eq.
Qed.
End NetSteps.

(** ** Receive is a sequence of steps *)

Section Receive.
Context {OS W A : Type} `{WinSock OS} `{FlatBuffers}.
Context (notify : (W -> W) -> Prop).
Implicit Types (d : PacketDispatcher OS W A) (n : Net OS W) (i : nat).

(** The dispatcher's callbacks are among the notifications. *)
Record dispatcher_notifies d : Prop := {
  dn_ok : notify (emit (onPacketValidationSucceeded (pd_callbacks d)));
  dn_failed : notify (emit (onPacketValidationFailed (pd_callbacks d)));
  dn_pushed : forall k, notify (emit1 (onQueuePushed (pd_callbacks d)) k);
  dn_drained : forall k, notify (emit1 (onQueueDrained (pd_callbacks d)) k);
  dn_wait : forall k, notify (emit1 (onQueueWait (pd_callbacks d)) k);
  dn_process : forall k, notify (emit1 (onDispatchProcess (pd_callbacks d)) k) }.

Lemma dispatcher_notifies_ext d d' :
  pd_callbacks d' = pd_callbacks d -> dispatcher_notifies d -> dispatcher_notifies d'.
Proof. intros Heq []. constructor; by rewrite Heq. Qed.

Lemma PushCommand_steps i t raw d n :
  dispatcher_notifies d ->
  let '(d', n') := PushCommand i t raw d n in
  net_steps notify n n' /\ pd_callbacks d' = pd_callbacks d.
Proof.
  intros Hd. unfold PushCommand, NowInNs64.
  destruct (os_call SysSteadyClockNow (net_os n)) as [os r] eqn:Ho. destruct d. cbn. split; [|done].
  etrans; [by eapply (steps_call notify SysSteadyClockNow)|]. apply steps_with_w, (dn_pushed _ Hd).
Qed.

Lemma Receive_loop_steps fuel d i n d' n' :
  dispatcher_notifies d -> Receive_loop fuel d i n = Some (d', n') ->
  net_steps notify n n' /\ pd_callbacks d' = pd_callbacks d.
Proof.
  revert d n. induction fuel as [|fuel IH]; intros d n Hd; [done|]. cbn [Receive_loop].
  destruct (clients n !! i) as [c|]; [|done]. cbn [mbind option_bind].
  destruct (_ <? kHeaderSize); [by intros [= <- <-]|].
  set (payloadLen := ntohl _). assert (0 <= payloadLen) as Hpl by apply bswap32_range.
  assert (0 <= u64 (kHeaderSize + payloadLen)) as Hfs by (apply wrap_range; lia).
  destruct (_ >? maxFrameSize).
  { destruct (Net_Close i true _) as [n1|] eqn:Hc; [|done]. cbn. intros [= <- <-]. split; [|done].
    etrans; [apply steps_with_w, (dn_failed _ Hd)|]. by eapply steps_one, step_close. }
  destruct (_ <? u64 _); [by intros [= <- <-]|]. destruct (HasErr _).
  - destruct (Net_Close i true _) as [n1|] eqn:Hc; [|done]. cbn [mbind option_bind].
    destruct (Net_Consume i _ n1) as [n2|] eqn:Hc2; [|done]. cbn. intros [= <- <-]. split; [|done].
    etrans; [apply steps_with_w, (dn_failed _ Hd)|]. etrans; [by eapply steps_one, step_close|].
    by eapply steps_consume.
  - destruct (_data _) as [packet|]; [|done]. cbn [mbind option_bind].
    set (n0 := with_w _ n).
    pose proof (PushCommand_steps i (payload_type packet)
      (take (Z.to_nat payloadLen) (drop (Z.to_nat kHeaderSize) (FrameBuffer_Data (_frameBuf c)))) d n0 Hd) as Hp.
    destruct (PushCommand _ _ _ d n0) as [d1 n1]. destruct Hp as [Hp Hcb].
    destruct (Net_Consume i _ n1) as [n2|] eqn:Hc2; [|done]. cbn [mbind option_bind]. intros Hloop.
    destruct (IH d1 n2) as [Hs Hcb2]; [by eapply dispatcher_notifies_ext|done|].
    split; [|congruence]. etrans; [apply steps_with_w, (dn_ok _ Hd)|]. etrans; [exact Hp|].
    etrans; [by eapply steps_consume|]. exact Hs.
Qed.

Lemma Receive_steps d i data n d' n' :
  dispatcher_notifies d -> Receive d i data n = Some (d', n') ->
  net_steps notify n n' /\ pd_callbacks d' = pd_callbacks d.
Proof.
  intros Hd. unfold Receive. destruct (clients n !! i) as [c|] eqn:Hi; [|done]. cbn [mbind option_bind].
  destruct (FrameBuffer_Append (_frameBuf c) data) as [[fb ok]|] eqn:Hap; [|done]. cbn [mbind option_bind].
  assert (net_steps notify n (set_client i (c {{ _frameBuf := fb }}) n)) as Hs0.
  { apply steps_one, step_buffer; [done|]. intros Hinv.
    by eapply FrameBuffer_Append_keeps. }
  destruct ok; cbn [negb].
  - intros [Hs Hcb]%Receive_loop_steps; [|done]. split; [by etrans|done].
  - destruct (Net_Close i true _) as [n1|] eqn:Hc; [|done]. cbn. intros [= <- <-]. split; [|done].
    etrans; [exact Hs0|]. etrans; [apply steps_with_w, (dn_failed _ Hd)|]. by eapply steps_one, step_close.
Qed.
End Receive.
