(* ===== verification/Lifecycle.v ===== *)
(** * ServerLifeCycle: accepts, completions and the pool of connections

    [network/inc/server/ServerLifecycle.h], [network/src/ServerLifecycle.cpp],
    [network/inc/server/ISessionEventReceiver.h].

    The closures a client is given reach the lifecycle object: its counter of
    connected clients and its callbacks, and through them the metrics [M].  That is
    [LcShared], the state [W] of the network layer.  The pool is a list of indices
    into the heap of clients.  A value of [ub] is also [None] where the standard
    library throws and nothing catches. *)

From S2P Require Import Prelude Errors Platform FrameBuffer NetworkCfg SocketSetup Scope Pools NetClient Net.
From S2P Require Import Ledger IoMultiplexer Acceptor.
From coqutil Require Import Byte Datatypes.RecordSetters.
From stdpp Require Import base gmap list strings option.
Import DoubleBraceUpdate.
Open Scope Z_scope.

(** @src network/inc/server/ServerLifecycle.h 32-38 ServerLifeCycle::EventCallbacks *)
Record LifeCycleCallbacks (M : Type) := mkLifeCycleCallbacks {
  lcb_client : ClientCallbacks M;
  lcb_acceptor : AcceptorCallbacks M;
  lcb_iocp : IocpCallbacks M;
  onRecvCompleted : option (Z -> bool -> M -> M);
  onSendCompleted : option (Z -> bool -> M -> M) }.

Arguments mkLifeCycleCallbacks {M}.
Arguments lcb_client {M}.
Arguments lcb_acceptor {M}.
Arguments lcb_iocp {M}.
Arguments onRecvCompleted {M}.
Arguments onSendCompleted {M}.

Definition LifeCycleCallbacks_none {M} : LifeCycleCallbacks M :=
  mkLifeCycleCallbacks ClientCallbacks_none (mkAcceptorCallbacks None None None None)
    (mkIocpCallbacks None None) None None.

Record LcShared (M : Type) := mkLcShared {
  _connectedClientCount : Z; lc_callbacks : LifeCycleCallbacks M; lc_metrics : M }.

Arguments mkLcShared {M}.
Arguments _connectedClientCount {M}.
Arguments lc_callbacks {M}.
Arguments lc_metrics {M}.

(** The application as the network layer sees it: each method gets a client. *)
(** @src network/inc/server/ISessionEventReceiver.h 11-25 ISessionEventReceiver *)
Record ISessionEventReceiver (X : Type) := mkReceiver {
  OnAccept : nat -> X -> ub X;
  OnRecv : nat -> list byte -> X -> ub X;
  OnSend : nat -> Z -> X -> ub X;
  OnDisconnect : nat -> X -> ub X }.

Arguments mkReceiver {X}.
Arguments OnAccept {X}.
Arguments OnRecv {X}.
Arguments OnSend {X}.
Arguments OnDisconnect {X}.

(** The multiplexer's handler is bound to [OnCompletion] of this object. *)
Inductive LcHandler := BoundOnCompletion.

(** [_handler], fixed by the constructor, is an argument of the operations. *)
(** @src network/inc/server/ServerLifecycle.h 108-119 ServerLifeCycle *)
Record ServerLifeCycle (M : Type) := mkServerLifeCycle {
  _iocp : option (IocpIoMultiplexer (LcShared M) LcHandler);
  _acceptor : option (IocpAcceptor (LcShared M));
  _clientPool : list nat;
  lc_config : NetworkCfg }.

Arguments mkServerLifeCycle {M}.
Arguments _iocp {M}.
Arguments _acceptor {M}.
Arguments _clientPool {M}.
Arguments lc_config {M}.

Section Lifecycle.
Context {OS M A : Type} `{WinSock OS} `{UMapOrder}.

Abbreviation W := (LcShared M).
Abbreviation X := (Net OS W * A)%type.
Implicit Types (lc : ServerLifeCycle M) (m : AcceptMem) (n : Net OS W) (x : X) (i client : nat).

(** @src network/src/ServerLifecycle.cpp 8-15 ServerLifeCycle::ServerLifeCycle *)
Definition LifeCycle_make : ServerLifeCycle M := mkServerLifeCycle None None [] WithDefaults.

(** A metrics callback, seen from the state the lifecycle object adds. *)
Definition on_metrics (f : M -> M) (w : W) : W := w {{ lc_metrics ::= f }}.

Definition lift_acceptor (cb : AcceptorCallbacks M) : AcceptorCallbacks W := {|
  onAcceptPosted := on_metrics <$> onAcceptPosted cb;
  onAcceptPostFailed := on_metrics <$> onAcceptPostFailed cb;
  onAcceptCompleted := on_metrics <$> onAcceptCompleted cb;
  onAcceptCompletionFailed := on_metrics <$> onAcceptCompletionFailed cb |}.

Definition lift_iocp (cb : IocpCallbacks M) : IocpCallbacks W := {|
  onWorkerDispatchBegin := on_metrics <$> onWorkerDispatchBegin cb;
  onWorkerDispatchEnd := on_metrics <$> onWorkerDispatchEnd cb |}.

(** A closure over [this]: the callback is looked up when it is called. *)
Definition via (get : ClientCallbacks M -> option (M -> M)) (w : W) : W :=
  on_metrics (emit (get (lcb_client (lc_callbacks w)))) w.

(** The counter is a [size_t]; the test and the subtraction are two operations. *)
(** @src network/src/ServerLifecycle.cpp 19-56 ServerLifeCycle::BuildClientCallbacks *)
Definition BuildClientCallbacks : ClientCallbacks W := {|
  onConnected := Some (fun w => via onConnected (w {{ _connectedClientCount ::= fun k => u64 (k + 1) }}));
  onDisconnected := Some (fun w =>
    let w := if _connectedClientCount w >? 0 then w {{ _connectedClientCount ::= fun k => u64 (k - 1) }} else w in
    via onDisconnected w);
  onRecvPosted := Some (via onRecvPosted);
  onRecvPostFailed := Some (via onRecvPostFailed);
  onSendPosted := Some (via onSendPosted);
  onSendPostFailed := Some (via onSendPostFailed) |}.

(** @src network/src/ServerLifecycle.cpp 58-72 ServerLifeCycle::UseCallbacks *)
Definition LifeCycle_UseCallbacks (callbacks : LifeCycleCallbacks M) lc n : ServerLifeCycle M * Net OS W :=
  let n := with_w (fun w => w {{ lc_callbacks := callbacks }}) n in
  let lc := lc {{ _iocp ::= fmap (Iocp_UseCallbacks (lift_iocp (lcb_iocp callbacks)));
                  _acceptor ::= fmap (Acceptor_UseCallbacks (lift_acceptor (lcb_acceptor callbacks))) }} in
  (lc, foldl (fun n i => mkNet (net_os n) (net_w n) (alter (Client_UseCallbacks BuildClientCallbacks) i (clients n)))
         n (_clientPool lc)).

(** @src network/src/ServerLifecycle.cpp 111-114 ServerLifeCycle::Start *)
Fixpoint alloc_clients (count : nat) lc n : ServerLifeCycle M * Net OS W :=
  match count with
  | O => (lc, n)
  | S count =>
      alloc_clients count
        (lc {{ _clientPool ::= fun pool => pool ++ [length (clients n)] }})
        (mkNet (net_os n) (net_w n) (clients n ++ [Client_UseCallbacks BuildClientCallbacks Client_init]))
  end.

(** Assigning a [unique_ptr] destroys the object it owned.  A null listening socket is
    dereferenced; [reserve] throws on the conversion of a negative number. *)
(** @src network/src/ServerLifecycle.cpp 74-124 ServerLifeCycle::Start *)
Definition LifeCycle_Start (listenSocket : option WindowsAsyncSocket) (config : NetworkCfg) lc m n
    : ub (ServerLifeCycle M * AcceptMem * Net OS W * ResultVoid ENetworkError) :=
  let lc := lc {{ lc_config := config }} in
  let os := match _iocp lc with Some old => Iocp_destroy old (net_os n) | None => net_os n end in
  let iocp := Iocp_UseCallbacks (lift_iocp (lcb_iocp (lc_callbacks (net_w n))))
                (Iocp_make (Some BoundOnCompletion)) in
  let '(os, hardware) := os_call SysHardwareConcurrency os in
  let workerCount := u32 (ret hardware * maxWorkerThreadMultiplier (cfg_thread config)) in
  let '(iocp, os, iocpInitRes) := Iocp_Initialize (i32 workerCount) iocp os in
  let lc := lc {{ _iocp := Some iocp }} in
  let n := mkNet os (net_w n) (clients n) in
  if HasErr iocpInitRes then Some (lc, m, n, iocpInitRes)
  else
    let '(m, n) := match _acceptor lc with Some old => Acceptor_destroy old m n | None => (m, n) end in
    let acceptor := Acceptor_UseCallbacks (lift_acceptor (lcb_acceptor (lc_callbacks (net_w n)))) Acceptor_make in
    listener ← listenSocket;
    let '(acceptor, n, acceptorInitRes) :=
      Acceptor_Initialize (_socketHandle listener) (Iocp_GetHandle iocp) acceptor n in
    let lc := lc {{ _acceptor := Some acceptor }} in
    if HasErr acceptorInitRes then Some (lc, m, n, Err IocpCreateFailed)
    else if maxClients (cfg_server config) <? 0 then None
    else
      let '(lc, n) := alloc_clients (Z.to_nat (maxClients (cfg_server config))) lc n in
      '(acceptor, m, n, postAcceptsRes) ← PostAccepts (backlog (cfg_server config)) acceptor m n;
      let lc := lc {{ _acceptor := Some acceptor }} in
      if HasErr postAcceptsRes then Some (lc, m, n, Err ThreadAcceptFailed) else Some (lc, m, n, OkVoid).

(** [client->Close(force)] unless the pointer is null or the slot is closed. *)
(** @src network/src/ServerLifecycle.cpp 141-145 ServerLifeCycle::CloseClient *)
Definition CloseClient (client : option nat) (force : bool) n : ub (Net OS W) :=
  match client with
  | None => Some n
  | Some i =>
      c ← clients n !! i;
      if negb (socket c =? InvalidSocket) then Net_Close i force n else Some n
  end.

(** [_clientPool.clear()] destroys the clients to which [held] knows no other
    [shared_ptr]; a destructor closes its connection. *)
Fixpoint clear_pool (held : nat -> bool) (pool : list nat) n : ub (Net OS W) :=
  match pool with
  | [] => Some n
  | i :: pool => n ← if held i then Some n else Net_Close i true n; clear_pool held pool n
  end.

(** @src network/src/ServerLifecycle.cpp 126-139 ServerLifeCycle::Stop *)
Definition LifeCycle_Stop (held : nat -> bool) lc m n : ub (ServerLifeCycle M * AcceptMem * Net OS W) :=
  let '(m, n) :=
    match _acceptor lc with
    | Some a => let '(a, n) := Acceptor_Shutdown a n in Acceptor_destroy a m n
    | None => (m, n)
    end in
  let os :=
    match _iocp lc with
    | Some mx => let '(mx, os) := Iocp_Shutdown mx (net_os n) in Iocp_destroy mx os
    | None => net_os n
    end in
  n ← clear_pool held (_clientPool lc) (mkNet os (net_w n) (clients n));
  Some (lc {{ _acceptor := None; _iocp := None; _clientPool := [] }}, m,
        with_w (fun w => w {{ _connectedClientCount := 0 }}) n).

(** The closures of a lifecycle object that is gone: a client that lives on has them still,
    and a call uses memory that was freed, which a counter that no [size_t] holds records. *)
Definition freed_used : Z := -1.

Definition dangling : ClientCallbacks W :=
  let used := Some (fun w => w {{ _connectedClientCount := freed_used }}) in
  {| onConnected := used; onDisconnected := used; onRecvPosted := used; onRecvPostFailed := used;
     onSendPosted := used; onSendPostFailed := used |}.

Definition dangle n : Net OS W := mkNet (net_os n) (net_w n) (Client_UseCallbacks dangling <$> clients n).

(** @src network/src/ServerLifecycle.cpp 17-17 ServerLifeCycle::~ServerLifeCycle *)
Definition LifeCycle_destroy (held : nat -> bool) lc m n : ub (AcceptMem * Net OS W) :=
  '(_, m, n) ← LifeCycle_Stop held lc m n; Some (m, dangle n).

(** [make_unique] and the assignment to the pointer that owned [old]: the old lifecycle is
    stopped, and the new one has a counter and callbacks of its own. *)
Definition fresh_lifecycle (held : nat -> bool) (old : option (ServerLifeCycle M)) m n : ub (AcceptMem * Net OS W) :=
  '(m, n) ← match old with Some old => LifeCycle_destroy held old m n | None => Some (m, n) end;
  Some (m, with_w (fun w => mkLcShared 0 LifeCycleCallbacks_none (lc_metrics w)) n).

(** @src network/src/ServerLifecycle.cpp 147-149 ServerLifeCycle::GetConnectedClientCount *)
Definition GetConnectedClientCount n : Z := _connectedClientCount (net_w n).

(** @src network/src/ServerLifecycle.cpp 151-153 ServerLifeCycle::IsRunning *)
Definition LifeCycle_IsRunning lc : bool :=
  match _iocp lc with Some mx => Iocp_IsRunning mx | None => false end.

(** The first pool entry whose slot is free; the entries are never null. *)
(** @src network/src/ServerLifecycle.cpp 268-277 ServerLifeCycle::FindAvailableClient *)
Definition FindAvailableClient lc n : option nat :=
  first_match (fun i => match clients n !! i with Some c => socket c =? InvalidSocket | None => false end)
    (_clientPool lc).

(** The address of a client, as a completion key. *)
Definition client_key (i : nat) : Z := Z.of_nat i + 1.

Context (handler : option (ISessionEventReceiver X)).

(** @src network/src/ServerLifecycle.cpp 181-214 ServerLifeCycle::SetupClient *)
Definition SetupClient lc (ctx : AcceptContext) x : ub X :=
  let '(n, d) := x in
  match FindAvailableClient lc n with
  | None => Some ((net_call (SysClosesocket (acceptSocket ctx)) n).1, d)
  | Some client =>
      c ← clients n !! client;
      let n := set_client client (c {{ socket := acceptSocket ctx }}) n in
      iocp ← _iocp lc;
      let '(os, associateRes) := AssociateSocket (acceptSocket ctx) (client_key client) iocp (net_os n) in
      let n := mkNet os (net_w n) (clients n) in
      if HasErr associateRes then n ← Net_Close client true n; Some (n, d)
      else
        '(n, postRes) ← Net_PostRecv client n;
        if HasErr postRes then n ← Net_Close client true n; Some (n, d)
        else
          n ← Net_Mark client n;
          match handler with Some h => OnAccept h client (n, d) | None => Some (n, d) end
  end.

Definition on_completed (f : option (Z -> bool -> M -> M)) (bytes : Z) (count : bool) (w : W) : W :=
  on_metrics (fun mt => match f with Some f => f bytes count mt | None => mt end) w.

(** @src network/src/ServerLifecycle.cpp 216-250 ServerLifeCycle::HandleRecv *)
Definition HandleRecv (event : CompletionEvent) x : ub X :=
  client ← ev_target event;
  let '(n, d) := x in
  let payload := ev_success event && (ev_bytesTransferred event >? 0) in
  let n := with_w (fun w => on_completed (onRecvCompleted (lc_callbacks w)) (ev_bytesTransferred event) payload w) n in
  if negb (ev_success event) || (ev_bytesTransferred event =? 0) then
    '(n, d) ← match handler with Some h => OnDisconnect h client (n, d) | None => Some (n, d) end;
    n ← CloseClient (Some client) true n;
    Some (n, d)
  else
    ov ← ev_overlapped event;
    buf ← match ov with
          | OvRecv j => recv_buf ∘ recvOverlapped <$> clients n !! j
          | _ => None
          end;
    if zlen buf <? ev_bytesTransferred event then None
    else
      let data := take (Z.to_nat (ev_bytesTransferred event)) buf in
      '(n, d) ← match handler with Some h => OnRecv h client data (n, d) | None => Some (n, d) end;
      '(n, postRes) ← Net_PostRecv client n;
      if HasErr postRes then n ← CloseClient (Some client) true n; Some (n, d) else Some (n, d).

(** @src network/src/ServerLifecycle.cpp 252-266 ServerLifeCycle::HandleSend *)
Definition HandleSend (event : CompletionEvent) x : ub X :=
  match ev_target event with
  | None => Some x
  | Some client =>
      let '(n, d) := x in
      let payload := ev_success event && (ev_bytesTransferred event >? 0) in
      let n := with_w (fun w => on_completed (onSendCompleted (lc_callbacks w)) (ev_bytesTransferred event) payload w) n in
      match handler with Some h => OnSend h client (ev_bytesTransferred event) (n, d) | None => Some (n, d) end
  end.

(** The success of an accept is not looked at. *)
(** @src network/src/ServerLifecycle.cpp 155-179 ServerLifeCycle::OnCompletion *)
Definition OnCompletion (event : CompletionEvent) lc m x : ub (ServerLifeCycle M * AcceptMem * X) :=
  match ev_ioType event with
  | IoAccept =>
      match _acceptor lc with
      | None => Some (lc, m, x)
      | Some acceptor =>
          overlapped ← match ev_overlapped event with
                       | None => Some None
                       | Some (OvAccept item) => Some (Some item)
                       | Some _ => None
                       end;
          '(acceptor, m, x, _) ← OnAcceptComplete (Some (SetupClient lc)) overlapped acceptor m x;
          Some (lc {{ _acceptor := Some acceptor }}, m, x)
      end
  | IoRecv => x ← HandleRecv event x; Some (lc, m, x)
  | IoSend => x ← HandleSend event x; Some (lc, m, x)
  | IoDisconnect => Some (lc, m, x)
  end.

(** Reading [ioType] through an [OverlappedBase*]. *)
Definition ioType_of (p : OverlappedPtr) (s : ServerLifeCycle M * AcceptMem * X) : ub EIoType :=
  let '(_, m, (n, _)) := s in
  match p with
  | OvAccept item => ao_ioType <$> am_objs m !! item
  | OvRecv i => recv_ioType ∘ recvOverlapped <$> clients n !! i
  | OvSend i => send_ioType ∘ sendOverlapped <$> clients n !! i
  end.

(** A worker's turn on the lifecycle, on the thread it runs on. *)
Definition LifeCycle_worker (thread : nat) (mx : IocpIoMultiplexer W LcHandler) (dq : Dequeued)
    (s : ServerLifeCycle M * AcceptMem * X) : ub (ServerLifeCycle M * AcceptMem * X * bool) :=
  let '(lc, m, x) := s in
  WorkerLoop_turn ioType_of
    (fun f '(lc, m, (n, d)) => (lc, m, (with_w f n, d)))
    (fun _ event '(lc, m, x) => OnCompletion event lc m x)
    mx dq (lc, m {{ am_thread := thread }}, x).
End Lifecycle.
