(* ===== verification/LifecycleProps.v ===== *)
(** * ServerLifeCycle: the counter of connections and the ownership of sockets

    The network layer is proved against an interface, [ReceiverOk]: the application's
    methods return, and what they do to the connections is a sequence of [net_step]s.
    Then, from a successful start, through every interleaving of accepts, receives,
    sends and work of the logic thread, the counter equals the number of slots that
    announced a connection and every open socket has one owner. *)

From S2P Require Import Prelude Errors Platform FrameBuffer NetworkCfg SocketSetup Scope Pools NetClient Net.
From S2P Require Import Ledger IoMultiplexer Acceptor PacketDispatcher NetSteps Lifecycle.
From coqutil Require Import Byte Datatypes.RecordSetters.
From stdpp Require Import base gmap list strings option relations.
Import DoubleBraceUpdate.
Open Scope Z_scope.

Section Counting.
Context {OS M : Type} `{Traced OS}.
Abbreviation W := (LcShared M).
Implicit Types (n : Net OS W) (c : Client W) (w : W).

(** A notification that leaves the counter alone. *)
Definition keeps_count (f : W -> W) : Prop := forall w, _connectedClientCount (f w) = _connectedClientCount w.

Definition counted c : Z := if _connectionEventCounted c then 1 else 0.

(** The clients are sound, they call the lifecycle back, and the counter is the
    number of those that announced their connection. *)
Definition lc_inv w (cl : list (Client W)) : Prop :=
  Forall Client_inv cl /\ Forall (fun c => _callbacks c = BuildClientCallbacks) cl /\
  _connectedClientCount w = zsum counted cl /\ zlen cl < 2 ^ 64.

Definition lc_ok n : Prop := lc_inv (net_w n) (clients n).

Lemma counted_bounds cl : 0 <= zsum counted cl <= zlen cl.
Proof.
  induction cl as [|c cl IH]; [done|]. rewrite zlen_cons. unfold zsum in *. cbn [foldr].
  unfold counted at 1 3. destruct (_connectionEventCounted c); lia.
Qed.

Lemma counted_pos cl i c : cl !! i = Some c -> _connectionEventCounted c = true -> 1 <= zsum counted cl.
Proof.
  intros Hi Hc. pose proof (zsum_insert counted cl i c (c {{ _connectionEventCounted := false }}) Hi) as Hs.
  pose proof (counted_bounds (<[i := c {{ _connectionEventCounted := false }}]> cl)).
  assert (counted c = 1) as Hc1 by (unfold counted; by rewrite Hc).
  assert (counted (c {{ _connectionEventCounted := false }}) = 0) as Hc0 by (by destruct c). lia.
Qed.

Lemma via_count get w : _connectedClientCount (via get w) = _connectedClientCount w.
Proof. by destruct w. Qed.

Lemma on_metrics_keeps f : keeps_count (on_metrics f).
Proof. intros w. by destruct w. Qed.

Lemma emit_lift_keeps (f : option (M -> M)) : keeps_count (emit (on_metrics <$> f)).
Proof. destruct f; [apply on_metrics_keeps|by intros w]. Qed.

(** Replacing one client. *)
Lemma lc_inv_insert w w' cl i c c' :
  lc_inv w cl -> cl !! i = Some c -> Client_inv c' -> _callbacks c' = _callbacks c ->
  _connectedClientCount w' = _connectedClientCount w - counted c + counted c' ->
  lc_inv w' (<[i := c']> cl).
Proof.
  intros (Hinv & Hcb & Hk & Hlen) Hi Hc' Hcbs Hw. split_and!.
  - by apply Forall_insert.
  - apply Forall_insert; [done|]. rewrite Hcbs. by apply (Forall_lookup_1 _ _ _ _ Hcb Hi).
  - rewrite (zsum_insert _ _ _ _ _ Hi). lia.
  - unfold zlen in *. by rewrite length_insert.
Qed.

Lemma lc_inv_callbacks w cl i c : lc_inv w cl -> cl !! i = Some c -> _callbacks c = BuildClientCallbacks.
Proof. intros (_ & Hcb & _) Hi. by apply (Forall_lookup_1 _ _ _ _ Hcb Hi). Qed.

Lemma lc_inv_client w cl i c : lc_inv w cl -> cl !! i = Some c -> Client_inv c.
Proof. intros (Hc & _) Hi. by apply (Forall_lookup_1 _ _ _ _ Hc Hi). Qed.

Lemma disconnected_count w cl i c :
  lc_inv w cl -> cl !! i = Some c ->
  _connectedClientCount (disconnected_w c w) = _connectedClientCount w - counted c.
Proof.
  intros Hinv Hi. unfold disconnected_w, counted.
  pose proof (lc_inv_client _ _ _ _ Hinv Hi) as (_ & _ & _ & Hest).
  destruct (_connectionEventCounted c) eqn:Hc; [|rewrite andb_false_r; lia].
  rewrite Hest, (lc_inv_callbacks _ _ _ _ Hinv Hi) by done. cbn [andb emit onDisconnected BuildClientCallbacks].
  pose proof (counted_pos _ _ _ Hi Hc). destruct Hinv as (_ & _ & Hk & Hlen).
  pose proof (counted_bounds cl). rewrite via_count, Z.gtb_ltb, (proj2 (Z.ltb_lt _ _)) by lia.
  destruct w as [k cb mt]. cbn in *. rewrite wrap_small; lia.
Qed.

Lemma Net_Close_lc n i b n' :
  lc_ok n -> Net_Close i b n = Some n' -> lc_ok n' /\ length (clients n') = length (clients n).
Proof.
  intros Hok Hclose. destruct (clients n !! i) as [c|] eqn:Hi; [|unfold Net_Close in Hclose; by rewrite Hi in Hclose].
  destruct (Net_Close_spec n i b c Hi) as (n1 & Heq & Hn1 & Hcl & Hw); [apply Hok|]. simplify_eq.
  split; [|by rewrite Hcl, length_insert]. unfold lc_ok. rewrite Hcl.
  eapply (lc_inv_insert (net_w n)); [exact Hok|exact Hi| | |].
  - apply (Net_inv_lookup n' i); [done|]. rewrite Hcl. apply list_lookup_insert_eq. by eapply lookup_lt_Some.
  - by destruct c.
  - rewrite Hw, (disconnected_count _ _ _ _ Hok Hi). assert (counted (closed c) = 0) as -> by (by destruct c). lia.
Qed.

Lemma PostRecv_lc n i n' r :
  lc_ok n -> Net_PostRecv i n = Some (n', r) -> lc_ok n' /\ length (clients n') = length (clients n).
Proof.
  intros Hok Hp. destruct (clients n !! i) as [c|] eqn:Hi; [|unfold Net_PostRecv in Hp; by rewrite Hi in Hp].
  destruct (Net_PostRecv_spec n i c Hi) as (n1 & r1 & Heq & Hn1 & Hcl & Hw); [apply Hok|]. simplify_eq.
  split; [|by rewrite Hcl, length_insert]. unfold lc_ok. rewrite Hcl.
  eapply (lc_inv_insert (net_w n)); [exact Hok|exact Hi| | |].
  - apply (Net_inv_lookup n' i); [done|]. rewrite Hcl. apply list_lookup_insert_eq. by eapply lookup_lt_Some.
  - by destruct c.
  - assert (_connectedClientCount (net_w n') = _connectedClientCount (net_w n)) as ->.
    { rewrite Hw. unfold EmitRecvPosted, EmitRecvPostFailed. rewrite (lc_inv_callbacks _ _ _ _ Hok Hi).
      destruct (HasErr r); apply via_count. }
    destruct c. unfold counted. cbn. lia.
Qed.

Lemma PostSend_lc n i data n' r :
  lc_ok n -> zlen data <= sendBufferSize -> Net_PostSend i data n = Some (n', r) ->
  lc_ok n' /\ length (clients n') = length (clients n).
Proof.
  intros Hok Hd Hp. destruct (clients n !! i) as [c|] eqn:Hi; [|unfold Net_PostSend in Hp; by rewrite Hi in Hp].
  destruct (Net_PostSend_spec n i data c Hi) as (n1 & r1 & c' & Heq & Hn1 & Hcl & _ & _ & Hcb & _ & Hcnt & _);
    [apply Hok|done|]. simplify_eq.
  split; [|by rewrite Hcl, length_insert].
  assert (_connectedClientCount (net_w n') = _connectedClientCount (net_w n)) as Hcount.
  { revert Hp. unfold Net_PostSend. rewrite Hi. cbn [mbind option_bind]. unfold PostSend.
    destruct (memcpy_at _ _ _) as [buf|]; [|done]. cbn [mbind option_bind].
    unfold EmitSendPosted, EmitSendPostFailed. pose proof (lc_inv_callbacks _ _ _ _ Hok Hi) as Hb.
    destruct c. cbn in *. destruct (os_call _ _) as [os1 r1]. rewrite Hb.
    destruct (post_failed r1); intros [= <- <-]; apply via_count. }
  unfold lc_ok. rewrite Hcl. eapply (lc_inv_insert (net_w n)); [exact Hok|exact Hi| |done|].
  - apply (Net_inv_lookup n' i); [done|]. rewrite Hcl. apply list_lookup_insert_eq. by eapply lookup_lt_Some.
  - rewrite Hcount. unfold counted. rewrite Hcnt. lia.
Qed.

Lemma Mark_lc n i n' :
  lc_ok n -> Net_Mark i n = Some n' -> lc_ok n' /\ length (clients n') = length (clients n).
Proof.
  intros Hok Hp. destruct (clients n !! i) as [c|] eqn:Hi; [|unfold Net_Mark in Hp; by rewrite Hi in Hp].
  destruct (Net_Mark_spec n i c Hi) as (n1 & Heq & Hn1 & _ & Hcl & Hw); [apply Hok|]. simplify_eq.
  split; [|by rewrite Hcl, length_insert]. unfold lc_ok. rewrite Hcl.
  pose proof (counted_bounds (clients n')) as Hb. rewrite Hcl, (zsum_insert _ _ _ _ _ Hi) in Hb.
  assert (zlen (<[i:=c {{ _connectionEstablished := true; _connectionEventCounted := true }}]> (clients n))
    = zlen (clients n)) as Hl by (unfold zlen; by rewrite length_insert).
  pose proof (counted_bounds (clients n)) as Hb0.
  assert (counted (c {{ _connectionEstablished := true; _connectionEventCounted := true }}) = 1) as Hc1 by (by destruct c).
  eapply (lc_inv_insert (net_w n)); [exact Hok|exact Hi| | |].
  - apply (Net_inv_lookup n' i); [done|]. rewrite Hcl. apply list_lookup_insert_eq. by eapply lookup_lt_Some.
  - by destruct c.
  - rewrite Hw, Hc1. rewrite Hc1, Hl in Hb.
    assert (counted c = if _connectionEventCounted c then 1 else 0) as Hcc by done.
    destruct (_connectionEventCounted c); [lia|].
    rewrite (lc_inv_callbacks _ _ _ _ Hok Hi). cbn [emit onConnected BuildClientCallbacks]. rewrite via_count.
    destruct Hok as (_ & _ & Hk & Hlen). destruct (net_w n) as [k cb mt]. cbn in *.
    rewrite wrap_small by lia. lia.
Qed.

(** What every step keeps. *)
Lemma net_step_lc n n' :
  net_step keeps_count n n' -> lc_ok n ->
  lc_ok n' /\ length (clients n') = length (clients n) /\
  forall s, s <> InvalidSocket -> net_ledger n' s = net_ledger n s.
Proof.
  intros Hstep Hok. destruct Hstep as [n f Hf|n call Hcall|n i b n' Hc|n i n' r Hr|n i data n' r Hd Hr|n i c fb Hi Hfb].
  - split; [|done]. destruct Hok as (?&?&Hk&?). split_and!; try done. cbn. by rewrite (Hf (net_w n)).
  - pose proof (fun s => ledger_neutral call n s Hcall) as Hl. unfold net_call in *.
    destruct (os_call call (net_os n)). by split_and!.
  - destruct (Net_Close_lc n i b n' Hok Hc). split_and!; try done. intros. by eapply ledger_Close.
  - destruct (PostRecv_lc n i n' r Hok Hr). split_and!; try done. intros. by eapply ledger_PostRecv.
  - destruct (PostSend_lc n i data n' r Hok Hd Hr). split_and!; try done. intros. by eapply ledger_PostSend.
  - split_and!; [|cbn; by rewrite length_insert|intros; by apply (ledger_set_client n i c); [|destruct c]].
    unfold lc_ok. cbn. eapply (lc_inv_insert (net_w n)); [exact Hok|exact Hi| | |].
    + apply Client_inv_frameBuf; [|apply Hfb]; apply (lc_inv_client _ _ _ _ Hok Hi).
    + by destruct c.
    + destruct c. unfold counted. cbn. lia.
Qed.

Lemma net_steps_lc n n' :
  net_steps keeps_count n n' -> lc_ok n ->
  lc_ok n' /\ length (clients n') = length (clients n) /\
  forall s, s <> InvalidSocket -> net_ledger n' s = net_ledger n s.
Proof.
  induction 1 as [n|n1 n2 n3 Hstep _ IH]; intros Hok; [done|].
  destruct (net_step_lc _ _ Hstep Hok) as (Hok2 & Hl2 & Hs2). destruct (IH Hok2) as (? & Hl3 & Hs3).
  split_and!; [done|congruence|]. intros s Hs. by rewrite Hs3, Hs2.
Qed.
End Counting.

(** ** The application's side of the interface *)

Section Interface.
Context {OS M A : Type} `{Traced OS} `{UMapOrder}.
Abbreviation W := (LcShared M).
Abbreviation X := (Net OS W * A)%type.
Implicit Types (n : Net OS W) (d : A) (i : nat).

(** Each method, called in a state of [P] (a receive: with data in [D]), returns in a
    state of [P]; what it does to the connections is a sequence of steps. *)
Class ReceiverOk (P : nat -> A -> Prop) (D : list byte -> Prop) (h : ISessionEventReceiver X) : Prop := {
  ok_OnAccept : forall i n d, (i < length (clients n))%nat -> lc_ok n -> P (length (clients n)) d ->
    exists n' d', OnAccept h i (n, d) = Some (n', d') /\ net_steps keeps_count n n' /\ P (length (clients n)) d';
  ok_OnRecv : forall i data n d, D data -> (i < length (clients n))%nat -> lc_ok n -> P (length (clients n)) d ->
    exists n' d', OnRecv h i data (n, d) = Some (n', d') /\ net_steps keeps_count n n' /\ P (length (clients n)) d';
  ok_OnSend : forall i bytes n d, (i < length (clients n))%nat -> lc_ok n -> P (length (clients n)) d ->
    exists n' d', OnSend h i bytes (n, d) = Some (n', d') /\ net_steps keeps_count n n' /\ P (length (clients n)) d';
  ok_OnDisconnect : forall i n d, (i < length (clients n))%nat -> lc_ok n -> P (length (clients n)) d ->
    exists n' d', OnDisconnect h i (n, d) = Some (n', d') /\ net_steps keeps_count n n' /\ P (length (clients n)) d' }.

Context (P : nat -> A -> Prop) (D : list byte -> Prop) (h : ISessionEventReceiver X) `{!ReceiverOk P D h}.

(** The state of a running server, apart from the acceptor and the system. *)
Definition running (pool : list nat) (w : W) (cl : list (Client W)) d : Prop :=
  lc_inv w cl /\ P (length cl) d /\ Forall (fun i => (i < length cl)%nat) pool.

Lemma running_steps pool n n' d d' :
  running pool (net_w n) (clients n) d -> net_steps keeps_count n n' -> P (length (clients n)) d' ->
  running pool (net_w n') (clients n') d' /\
  forall s, s <> InvalidSocket -> net_ledger n' s = net_ledger n s.
Proof.
  intros (Hok & HP & Hpool) Hs HP'. destruct (net_steps_lc n n' Hs Hok) as (Hok' & Hlen & Hl).
  split; [|done]. unfold running. rewrite Hlen. by split_and!.
Qed.

Lemma running_elem pool w cl d i : running pool w cl d -> i ∈ pool -> exists c, cl !! i = Some c.
Proof. intros (_ & _ & Hp) Hi. apply lookup_lt_is_Some_2. exact (Forall_elem _ _ _ Hp Hi). Qed.

(** Storing a new socket in a free slot makes the slot its owner. *)
Lemma take_socket pool n d i c sock :
  running pool (net_w n) (clients n) d -> clients n !! i = Some c -> socket c = InvalidSocket ->
  running pool (net_w n) (clients (set_client i (c {{ socket := sock }}) n)) d /\
  forall s, s <> InvalidSocket ->
    net_ledger (set_client i (c {{ socket := sock }}) n) s = net_ledger n s - is_sock s sock.
Proof.
  intros (Hok & HP & Hpool) Hi Hc. split.
  - split_and!; cbn; rewrite ?length_insert; try done.
    eapply (lc_inv_insert (net_w n)); [exact Hok|exact Hi| | |].
    + apply Client_inv_socket. by apply (lc_inv_client _ _ _ _ Hok Hi).
    + by destruct c.
    + destruct c. unfold counted. cbn. lia.
  - intros s Hs. unfold net_ledger, set_client. rewrite (slots_insert n i c _ _ _ s Hi). cbn [net_os].
    rewrite Hc, (is_sock_ne s InvalidSocket) by done.
    assert (socket (c {{ socket := sock }}) = sock) as -> by (by destruct c). lia.
Qed.

Lemma AssociateSocket_steps sock key (mx : IocpIoMultiplexer W LcHandler) n :
  net_steps keeps_count n (mkNet (AssociateSocket sock key mx (net_os n)).1 (net_w n) (clients n)).
Proof.
  unfold AssociateSocket.
  destruct (os_call (SysCreateIoCompletionPort sock (_handle mx) key) (net_os n)) as [os r] eqn:Ho.
  replace ((if _ : bool then (os, _) else (os, _)).1) with os by (by destruct (_ || _)).
  by eapply (steps_call keeps_count (SysCreateIoCompletionPort sock (_handle mx) key)).
Qed.

Lemma Net_Close_returns n i b c : clients n !! i = Some c -> exists n', Net_Close i b n = Some n'.
Proof. intros Hi. unfold Net_Close. rewrite Hi. cbn. destruct (Close b c _ _) as [[c' os'] w']. by eexists. Qed.

Lemma net_steps_slot n n' i c :
  lc_ok n -> net_steps keeps_count n n' -> clients n !! i = Some c -> exists c', clients n' !! i = Some c'.
Proof.
  intros Hok Hs Hi. destruct (net_steps_lc n n' Hs Hok) as (_ & Hlen & _).
  apply lookup_lt_is_Some_2. rewrite Hlen. by eapply lookup_lt_Some.
Qed.

Lemma FindAvailableClient_spec lc n d i :
  running (_clientPool lc) (net_w n) (clients n) d -> FindAvailableClient lc n = Some i ->
  exists c, clients n !! i = Some c /\ socket c = InvalidSocket.
Proof.
  intros Hrun Hf. apply first_match_Some in Hf as [Hin Hf].
  destruct (running_elem _ _ _ _ _ Hrun Hin) as [c Hc]. rewrite Hc in Hf. zbool. by exists c.
Qed.

(** Setting up stops: the slot is closed again. *)
Lemma running_close pool n d i c :
  running pool (net_w n) (clients n) d -> clients n !! i = Some c ->
  exists n', Net_Close i true n = Some n' /\ running pool (net_w n') (clients n') d /\
    forall s, s <> InvalidSocket -> net_ledger n' s = net_ledger n s.
Proof.
  intros Hrun Hi. destruct (Net_Close_returns n i true c Hi) as [n' Hc]. exists n'. split; [done|].
  apply (running_steps pool n n' d d Hrun); [|apply Hrun]. by eapply steps_one, step_close.
Qed.

Lemma PostRecv_returns n i c : clients n !! i = Some c -> exists n' r, Net_PostRecv i n = Some (n', r).
Proof. intros Hi. unfold Net_PostRecv. rewrite Hi. cbn. destruct (PostRecv c _ _) as [[[c' os'] w'] r]. by eexists _, _. Qed.

Lemma running_mark pool n d i c :
  running pool (net_w n) (clients n) d -> clients n !! i = Some c ->
  exists n', Net_Mark i n = Some n' /\ running pool (net_w n') (clients n') d /\
    length (clients n') = length (clients n) /\
    forall s, s <> InvalidSocket -> net_ledger n' s = net_ledger n s.
Proof.
  intros (Hok & HP & Hp) Hi. destruct (Net_Mark_spec n i c Hi) as (n' & Hm & _); [apply Hok|].
  exists n'. split; [done|]. destruct (Mark_lc n i n' Hok Hm) as [Hok' Hlen].
  unfold running. rewrite Hlen. split_and!; try done. intros. by eapply ledger_Mark.
Qed.

(** [SetupClient] takes over the accepted socket: a free slot owns it, or it is
    closed. *)
Lemma SetupClient_takes lc mx :
  _iocp lc = Some mx -> TakesSocket (running (_clientPool lc)) (SetupClient (Some h) lc).
Proof.
  intros Hmx ctx [n d] Hsock Hrun. unfold holds in *. cbn [fst snd] in *. unfold SetupClient.
  destruct (FindAvailableClient lc n) as [i|] eqn:Hf.
  2:{ eexists. split; [done|]. split; [by rewrite net_call_split|]. intros s _. apply ledger_closesocket. }
  destruct (FindAvailableClient_spec lc n d i Hrun Hf) as (c & Hi & Hc). rewrite Hi. cbn [mbind option_bind].
  rewrite Hmx. cbn [mbind option_bind].
  destruct (take_socket _ n d i c (acceptSocket ctx) Hrun Hi Hc) as [Hrun1 Hl1].
  pose proof (set_client_lookup n i (c {{ socket := acceptSocket ctx }}) c Hi) as Hi1.
  set (n1 := set_client i _ n) in *.
  pose proof (AssociateSocket_steps (acceptSocket ctx) (client_key i) mx n1) as Hst.
  destruct (AssociateSocket _ _ mx (net_os n1)) as [os associateRes]. cbn [fst] in Hst.
  set (n2 := mkNet os _ _) in *.
  destruct (running_steps _ n1 n2 d d Hrun1 Hst) as [Hrun2 Hl2]; [apply Hrun1|].
  assert (clients n2 !! i = Some (c {{ socket := acceptSocket ctx }})) as Hi2 by done.
  destruct (HasErr associateRes).
  { destruct (running_close _ n2 d i _ Hrun2 Hi2) as (n3 & -> & Hrun3 & Hl3). cbn [mbind option_bind].
    eexists. split; [done|]. split; [done|]. intros s Hs. cbn [fst]. by rewrite Hl3, Hl2, Hl1. }
  destruct (PostRecv_returns n2 i _ Hi2) as (n3 & postRes & Hpost). rewrite Hpost. cbn [mbind option_bind].
  assert (net_steps keeps_count n2 n3) as Hst3 by (by eapply steps_one, step_recv).
  destruct (running_steps _ n2 n3 d d Hrun2 Hst3) as [Hrun3 Hl3]; [apply Hrun2|].
  destruct (net_steps_slot n2 n3 i _ (proj1 Hrun2) Hst3 Hi2) as [c3 Hi3].
  destruct (HasErr postRes).
  { destruct (running_close _ n3 d i _ Hrun3 Hi3) as (n4 & -> & Hrun4 & Hl4). cbn [mbind option_bind].
    eexists. split; [done|]. split; [done|]. intros s Hs. cbn [fst]. by rewrite Hl4, Hl3, Hl2, Hl1. }
  destruct (running_mark _ n3 d i c3 Hrun3 Hi3) as (n4 & -> & Hrun4 & Hlen4 & Hl4). cbn [mbind option_bind].
  destruct (ok_OnAccept i n4 d) as (n5 & d5 & -> & Hst5 & HP5);
    [rewrite Hlen4; by eapply lookup_lt_Some|apply Hrun4|apply Hrun4|].
  destruct (running_steps _ n4 n5 d d5 Hrun4 Hst5 HP5) as [Hrun5 Hl5].
  eexists. split; [done|]. split; [done|]. intros s Hs. cbn [fst]. by rewrite Hl5, Hl4, Hl3, Hl2, Hl1.
Qed.

(** *** Receive and send completions *)

Lemma completed_steps (get : W -> option (Z -> bool -> M -> M)) bytes count n :
  net_steps keeps_count n (with_w (fun w => on_completed (get w) bytes count w) n).
Proof. apply steps_with_w. intros w. by destruct w. Qed.

Lemma CloseClient_running pool n d i c :
  running pool (net_w n) (clients n) d -> clients n !! i = Some c ->
  exists n', CloseClient (Some i) true n = Some n' /\ running pool (net_w n') (clients n') d /\
    forall s, s <> InvalidSocket -> net_ledger n' s = net_ledger n s.
Proof.
  intros Hrun Hi. unfold CloseClient. rewrite Hi. cbn [mbind option_bind].
  destruct (negb _); [by apply (running_close pool n d i c)|by exists n].
Qed.

Definition handled pool (n : Net OS W) (x' : X) : Prop :=
  running pool (net_w x'.1) (clients x'.1) x'.2 /\
  forall s, s <> InvalidSocket -> net_ledger x'.1 s = net_ledger n s.

(** A receive completion as the system reports it: at most a buffer of bytes. *)
Lemma HandleRecv_running pool n d i c ok bytes :
  running pool (net_w n) (clients n) d -> clients n !! i = Some c -> bytes <= recvBufferSize ->
  (ok = true -> D (take (Z.to_nat bytes) (recv_buf (recvOverlapped c)))) ->
  exists x', HandleRecv (Some h) (mkCompletionEvent IoRecv (Some i) (Some (OvRecv i)) bytes ok 0) (n, d) = Some x' /\
    handled pool n x'.
Proof.
  intros Hrun Hi Hb HD. unfold HandleRecv.
  cbn [ev_target ev_success ev_bytesTransferred ev_overlapped mbind option_bind].
  pose proof (completed_steps (fun w => onRecvCompleted (lc_callbacks w)) bytes (ok && (bytes >? 0)) n) as Hst.
  set (n1 := with_w _ n) in *.
  destruct (running_steps pool n n1 d d Hrun Hst) as [Hrun1 Hl1]; [apply Hrun|].
  assert (clients n1 !! i = Some c) as Hi1 by done. pose proof (lookup_lt_Some _ _ _ Hi1) as Hlt.
  destruct (negb ok || (bytes =? 0)) eqn:Hend.
  - destruct (ok_OnDisconnect i n1 d Hlt) as (n2 & d2 & -> & Hst2 & HP2); [apply Hrun1|apply Hrun1|].
    cbn [mbind option_bind].
    destruct (running_steps pool n1 n2 d d2 Hrun1 Hst2 HP2) as [Hrun2 Hl2].
    destruct (net_steps_slot n1 n2 i c (proj1 Hrun1) Hst2 Hi1) as [c2 Hi2].
    destruct (CloseClient_running pool n2 d2 i c2 Hrun2 Hi2) as (n3 & -> & Hrun3 & Hl3). cbn [mbind option_bind].
    eexists. split; [done|]. split; [done|]. intros s Hs. cbn [fst]. by rewrite Hl3, Hl2, Hl1.
  - apply orb_false_iff in Hend as [Hend _]. apply negb_false_iff in Hend. specialize (HD Hend).
    rewrite Hi1. cbn [fmap option_fmap option_map mbind option_bind].
    assert (zlen (recv_buf (recvOverlapped c)) = recvBufferSize) as Hz by apply (lc_inv_client _ _ _ _ (proj1 Hrun1) Hi1).
    unfold compose. rewrite Hz, (proj2 (Z.ltb_ge _ _)) by lia.
    destruct (ok_OnRecv i (take (Z.to_nat bytes) (recv_buf (recvOverlapped c))) n1 d HD Hlt)
      as (n2 & d2 & -> & Hst2 & HP2); [apply Hrun1|apply Hrun1|]. cbn [mbind option_bind].
    destruct (running_steps pool n1 n2 d d2 Hrun1 Hst2 HP2) as [Hrun2 Hl2].
    destruct (net_steps_slot n1 n2 i c (proj1 Hrun1) Hst2 Hi1) as [c2 Hi2].
    destruct (PostRecv_returns n2 i c2 Hi2) as (n3 & r & Hpost). rewrite Hpost. cbn [mbind option_bind].
    assert (net_steps keeps_count n2 n3) as Hst3 by (by eapply steps_one, step_recv).
    destruct (running_steps pool n2 n3 d2 d2 Hrun2 Hst3) as [Hrun3 Hl3]; [apply Hrun2|].
    destruct (net_steps_slot n2 n3 i c2 (proj1 Hrun2) Hst3 Hi2) as [c3 Hi3].
    destruct (HasErr r).
    + destruct (CloseClient_running pool n3 d2 i c3 Hrun3 Hi3) as (n4 & -> & Hrun4 & Hl4). cbn [mbind option_bind].
      eexists. split; [done|]. split; [done|]. intros s Hs. cbn [fst]. by rewrite Hl4, Hl3, Hl2, Hl1.
    + eexists. split; [done|]. split; [done|]. intros s Hs. cbn [fst]. by rewrite Hl3, Hl2, Hl1.
Qed.

Lemma HandleSend_running pool n d i c ok bytes :
  running pool (net_w n) (clients n) d -> clients n !! i = Some c ->
  exists x', HandleSend (Some h) (mkCompletionEvent IoSend (Some i) (Some (OvSend i)) bytes ok 0) (n, d) = Some x' /\
    handled pool n x'.
Proof.
  intros Hrun Hi. unfold HandleSend. cbn [ev_target ev_success ev_bytesTransferred].
  pose proof (completed_steps (fun w => onSendCompleted (lc_callbacks w)) bytes (ok && (bytes >? 0)) n) as Hst.
  set (n1 := with_w _ n) in *.
  destruct (running_steps pool n n1 d d Hrun Hst) as [Hrun1 Hl1]; [apply Hrun|].
  destruct (ok_OnSend i bytes n1 d) as (n2 & d2 & -> & Hst2 & HP2);
    [by eapply lookup_lt_Some|apply Hrun1|apply Hrun1|].
  destruct (running_steps pool n1 n2 d d2 Hrun1 Hst2 HP2) as [Hrun2 Hl2].
  eexists. split; [done|]. split; [done|]. intros s Hs. cbn [fst]. by rewrite Hl2, Hl1.
Qed.
End Interface.
