(* ===== verification/LifecycleRun.v ===== *)
(** * A running server

    The events of a server that has been started: an accept completes, a receive or a
    send completes, the logic thread works.  [server_accounting] is proved for every
    sequence of them, against the interface [ReceiverOk]. *)

From S2P Require Import Prelude Errors Platform FrameBuffer NetworkCfg SocketSetup Scope Pools NetClient Net.
From S2P Require Import Ledger IoMultiplexer Acceptor PacketDispatcher NetSteps Lifecycle LifecycleProps.
From coqutil Require Import Byte Datatypes.RecordSetters.
From stdpp Require Import base gmap list strings option relations.
Import DoubleBraceUpdate.
Open Scope Z_scope.

(** [LAccept thread k]: the [k]-th accept under way completes, on that worker.
    [LRecv i ok data]: the receive of slot [i] completes, with [data] in its buffer.
    [LSend i ok bytes]: its send completes.  [LLogic]: the logic thread works. *)
Inductive LcEvent :=
  | LAccept (thread k : nat) | LRecv (i : nat) (ok : bool) (data : list byte)
  | LSend (i : nat) (ok : bool) (bytes : Z) | LLogic.

Section Run.
Context {OS M A : Type} `{Traced OS} `{UMapOrder}.
Abbreviation W := (LcShared M).
Abbreviation X := (Net OS W * A)%type.
Abbreviation S := (ServerLifeCycle M * AcceptMem * X)%type.
Context (h : ISessionEventReceiver X) (logic : X -> ub X).
Implicit Types (lc : ServerLifeCycle M) (m : AcceptMem) (n : Net OS W) (d : A) (i : nat).

(** The system writes the bytes it received into the buffer of the receive. *)
Definition fill_recv i (data : list byte) n : ub (Net OS W) :=
  c ← clients n !! i;
  buf ← memcpy_at (recv_buf (recvOverlapped c)) 0 data;
  Some (set_client i (c {{ recvOverlapped ::= fun o => mkRecvOverlapped (recv_ioType o) (recv_len o) buf }}) n).

(** An event about a slot that is not in the pool, an accept that is not under way,
    or more bytes than a receive asked for, does not occur. *)
Definition lc_step (s : S) (ev : LcEvent) : ub S :=
  let '(lc, m, (n, d)) := s in
  match ev with
  | LAccept thread k =>
      match _acceptor lc ≫= fun a => held_keys a !! k with
      | None => Some s
      | Some item =>
          OnCompletion (Some h) (mkCompletionEvent IoAccept None (Some (OvAccept item)) 0 true 0)
            lc (m {{ am_thread := thread }}) (n, d)
      end
  | LRecv i ok data =>
      if bool_decide (i ∈ _clientPool lc) && (zlen data <=? recvBufferSize) then
        n ← fill_recv i data n;
        OnCompletion (Some h) (mkCompletionEvent IoRecv (Some i) (Some (OvRecv i)) (zlen data) ok 0) lc m (n, d)
      else Some s
  | LSend i ok bytes =>
      if bool_decide (i ∈ _clientPool lc) then
        OnCompletion (Some h) (mkCompletionEvent IoSend (Some i) (Some (OvSend i)) bytes ok 0) lc m (n, d)
      else Some s
  | LLogic => '(n, d) ← logic (n, d); Some (lc, m, (n, d))
  end.

Fixpoint lc_run (s : S) (evs : list LcEvent) : ub S :=
  match evs with [] => Some s | ev :: evs => s ← lc_step s ev; lc_run s evs end.

(** The logic thread keeps to the interface as well. *)
Class LogicOk (P : nat -> A -> Prop) : Prop :=
  ok_logic : forall n d, lc_ok n -> P (length (clients n)) d ->
    exists n' d', logic (n, d) = Some (n', d') /\ net_steps keeps_count n n' /\ P (length (clients n)) d'.

Context (P : nat -> A -> Prop) (D : list byte -> Prop) `{!ReceiverOk P D h} `{!LogicOk P}.

(** The events the application takes: what is received satisfies [D]. *)
Definition event_ok (ev : LcEvent) : Prop := match ev with LRecv _ true data => D data | _ => True end.

(** A server that runs. *)
Record server_inv (s : S) : Prop := {
  si_iocp : is_Some (_iocp s.1.1);
  si_acceptor : exists a cb, _acceptor s.1.1 = Some a /\ acceptor_inv [] a s.1.2 /\ loaded a /\
    ac_callbacks a = lift_acceptor cb;
  si_running : running P (_clientPool s.1.1) (net_w s.2.1) (clients s.2.1) s.2.2 }.

(** The open sockets nobody in the server owns. *)
Definition unowned (s : S) (sock : Z) : Z :=
  net_ledger s.2.1 sock - match _acceptor s.1.1 with Some a => held a s.1.2 sock | None => 0 end.

Lemma lift_notifies_ok pool (a : IocpAcceptor W) cb :
  ac_callbacks a = lift_acceptor cb -> notifies_ok (running P pool) a.
Proof.
  intros Hcb w cl d (Hinv & HP & Hp). rewrite Hcb.
  assert (forall f : option (M -> M), running P pool (emit (on_metrics <$> f) w) cl d) as Hemit.
  { intros f. split_and!; try done. destruct Hinv as (?&?&Hk&?). split_and!; try done.
    by rewrite (emit_lift_keeps f). }
  split_and!; apply Hemit.
Qed.

Lemma fill_recv_running pool n d i c data :
  running P pool (net_w n) (clients n) d -> clients n !! i = Some c -> zlen data <= recvBufferSize ->
  exists n' c', fill_recv i data n = Some n' /\ running P pool (net_w n') (clients n') d /\
    clients n' !! i = Some c' /\ take (length data) (recv_buf (recvOverlapped c')) = data /\
    forall s, net_ledger n' s = net_ledger n s.
Proof.
  intros (Hok & HP & Hp) Hi Hd. unfold fill_recv. rewrite Hi. cbn [mbind option_bind].
  pose proof (lc_inv_client _ _ _ _ Hok Hi) as (Hrb & Hsb & Hfb & Hest).
  rewrite memcpy_at_Some by lia. cbn [mbind option_bind].
  set (buf := take _ _ ++ _ ++ _). assert (zlen buf = recvBufferSize) as Hz.
  { rewrite <-Hrb. unfold zlen. f_equal. eapply memcpy_at_length. apply memcpy_at_Some; lia. }
  eexists _, _. split; [done|]. split; [|split; [by eapply set_client_lookup|split]].
  - split_and!; cbn; rewrite ?length_insert; try done.
    eapply (lc_inv_insert (net_w n)); [exact Hok|exact Hi| | |].
    + destruct c. by split_and!.
    + by destruct c.
    + destruct c. unfold counted. cbn. lia.
  - destruct c. unfold buf. cbn. change (Z.to_nat 0) with 0%nat. rewrite take_0, app_nil_l. apply take_app_length.
  - intros s. apply (ledger_set_client n i c); [done|]. by destruct c.
Qed.

Lemma server_inv_handled lc m n d x' a cb :
  server_inv (lc, m, (n, d)) -> handled P (_clientPool lc) n x' ->
  _acceptor lc = Some a -> acceptor_inv [] a m -> loaded a -> ac_callbacks a = lift_acceptor cb ->
  server_inv (lc, m, x') /\
  forall s, s <> InvalidSocket -> unowned (lc, m, x') s = unowned (lc, m, (n, d)) s.
Proof.
  intros Hinv [Hrun Hl] Ha Hai Hload Hcb. split.
  - constructor; [apply Hinv|by exists a, cb|done].
  - intros s Hs. unfold unowned. cbn [fst snd]. by rewrite Hl.
Qed.

Lemma lc_step_ok s ev :
  server_inv s -> event_ok ev ->
  exists s', lc_step s ev = Some s' /\ server_inv s' /\ _clientPool s'.1.1 = _clientPool s.1.1 /\
    forall sock, sock <> InvalidSocket -> unowned s' sock = unowned s sock.
Proof.
  destruct s as [[lc m] [n d]]. intros Hinv Hev.
  pose proof Hinv as [[mx Hmx] (a & cb & Ha & Hai & Hload & Hcb) Hrun]. cbn [fst snd] in *.
  destruct ev as [t k|i ok data|i ok bytes|]; cbn [lc_step].
  - rewrite Ha. cbn [mbind option_bind]. destruct (held_keys a !! k) as [item|] eqn:Hk; [|by eexists].
    unfold OnCompletion. cbn [ev_ioType ev_overlapped]. rewrite Ha. cbn [mbind option_bind].
    pose proof (SetupClient_takes P D h lc mx Hmx) as Htakes.
    destruct (OnAcceptComplete_spec (running P (_clientPool lc)) (SetupClient (Some h) lc) item a
      (m {{ am_thread := t }}) (n, d)) as (a' & m' & x' & r & -> & []);
      [by apply acceptor_inv_thread|done|by eapply list_elem_of_lookup_2|by eapply lift_notifies_ok|done|].
    cbn [mbind option_bind]. eexists. split; [done|]. cbn [fst snd]. split_and!; [|by destruct lc|].
    + constructor; cbn [fst snd]; [by destruct lc; eexists| |by destruct lc].
      exists a', cb. assert (loaded a' /\ ac_callbacks a' = lift_acceptor cb) as [? ?]
        by (rewrite cf_acceptor; by destruct a). destruct lc. by split_and!.
    + intros sock Hsock. unfold unowned. cbn [fst snd]. rewrite Ha.
      assert (_acceptor (lc {{ _acceptor := Some a' }}) = Some a') as -> by (by destruct lc).
      rewrite (cf_ledger sock Hsock). by destruct m.
  - destruct (bool_decide (i ∈ _clientPool lc)) eqn:Hin; [|by eexists]. apply bool_decide_eq_true in Hin.
    destruct (Z.leb_spec (zlen data) recvBufferSize) as [Hd|]; [|by eexists]. cbn [andb].
    destruct (running_elem P _ _ _ _ _ Hrun Hin) as [c Hc].
    destruct (fill_recv_running _ n d i c data Hrun Hc Hd) as (n1 & c1 & -> & Hrun1 & Hc1 & Hb1 & Hl1).
    cbn [mbind option_bind]. unfold OnCompletion. cbn [ev_ioType].
    destruct (HandleRecv_running P D h _ n1 d i c1 ok (zlen data) Hrun1 Hc1 Hd) as (x' & -> & Hh).
    { intros ->. unfold zlen. by rewrite Nat2Z.id, Hb1. }
    cbn [mbind option_bind]. eexists. split; [done|].
    assert (handled P (_clientPool lc) n x') as Hh'.
    { destruct Hh as [? Hl]. split; [done|]. intros s Hs. by rewrite Hl, Hl1. }
    by destruct (server_inv_handled lc m n d x' a cb Hinv Hh' Ha Hai Hload Hcb).
  - destruct (bool_decide (i ∈ _clientPool lc)) eqn:Hin; [|by eexists]. apply bool_decide_eq_true in Hin.
    destruct (running_elem P _ _ _ _ _ Hrun Hin) as [c Hc]. unfold OnCompletion. cbn [ev_ioType].
    destruct (HandleSend_running P D h _ n d i c ok bytes Hrun Hc) as (x' & -> & Hh). cbn [mbind option_bind].
    eexists. split; [done|]. by destruct (server_inv_handled lc m n d x' a cb Hinv Hh Ha Hai Hload Hcb).
  - destruct (ok_logic n d) as (n' & d' & -> & Hst & HP'); [apply Hrun|apply Hrun|]. cbn [mbind option_bind].
    eexists. split; [done|]. pose proof (running_steps P _ n n' d d' Hrun Hst HP') as Hh.
    by destruct (server_inv_handled lc m n d (n', d') a cb Hinv Hh Ha Hai Hload Hcb).
Qed.

Lemma lc_run_ok s evs :
  server_inv s -> Forall event_ok evs ->
  exists s', lc_run s evs = Some s' /\ server_inv s' /\ _clientPool s'.1.1 = _clientPool s.1.1 /\
    forall sock, sock <> InvalidSocket -> unowned s' sock = unowned s sock.
Proof.
  revert s. induction evs as [|ev evs IH]; intros s Hinv Hevs; [by exists s|]. cbn.
  apply Forall_cons in Hevs as [Hev Hevs]. destruct (lc_step_ok s ev Hinv Hev) as (s1 & -> & Hinv1 & Hp1 & Hu1). cbn.
  destruct (IH s1 Hinv1 Hevs) as (s2 & -> & Hinv2 & Hp2 & Hu2). exists s2. split_and!; [done|done|congruence|].
  intros sock Hs. by rewrite Hu2, Hu1.
Qed.

(** *** Starting *)

Definition fresh_client : Client W := Client_UseCallbacks BuildClientCallbacks Client_init.

Lemma alloc_clients_eq count lc n :
  alloc_clients count lc n =
    (lc {{ _clientPool ::= fun pool => pool ++ seq (length (clients n)) count }},
     mkNet (net_os n) (net_w n) (clients n ++ replicate count fresh_client)).
Proof.
  revert lc n. induction count as [|count IH]; intros lc n; cbn [alloc_clients].
  - cbn. rewrite app_nil_r. destruct lc, n. cbn. by rewrite app_nil_r.
  - rewrite IH. destruct lc. cbn. rewrite length_app, <-!app_assoc. cbn.
    by replace (length (clients n) + 1)%nat with (1 + length (clients n))%nat by lia.
Qed.

Lemma fresh_client_inv : Client_inv fresh_client.
Proof. apply Client_UseCallbacks_inv, Client_init_inv. Qed.

Lemma zsum_replicate_0 {B} (f : B -> Z) k b : f b = 0 -> zsum f (replicate k b) = 0.
Proof. intros Hb. induction k as [|k IH]; [done|]. unfold zsum in *. cbn. lia. Qed.

Lemma fresh_pool_inv count w :
  _connectedClientCount w = 0 -> Z.of_nat count < 2 ^ 64 -> lc_inv w (replicate count fresh_client).
Proof.
  intros Hw Hc. split_and!.
  - apply Forall_replicate, fresh_client_inv.
  - by apply Forall_replicate.
  - by rewrite zsum_replicate_0.
  - unfold zlen. by rewrite length_replicate.
Qed.

Lemma fresh_slots count os w s :
  s <> InvalidSocket -> slots (mkNet (OS:=OS) os w (replicate count fresh_client)) s = 0.
Proof. intros Hs. apply zsum_replicate_0. by apply is_sock_ne. Qed.

Lemma start_iocp_balance os cb k s :
  let '(os1, r) := os_call SysHardwareConcurrency os in
  os_balance (Iocp_Initialize (i32 (u32 (ret r * k))) (Iocp_UseCallbacks cb (Iocp_make (W:=W) (Some BoundOnCompletion))) os1).1.2 s
    = os_balance os s.
Proof.
  pose proof (os_balance_neutral SysHardwareConcurrency os s I) as H1'.
  destruct (os_call SysHardwareConcurrency os) as [os1 r]. cbn [fst] in H1'. unfold Iocp_Initialize.
  pose proof (os_balance_neutral (SysCreateIoCompletionPort INVALID_HANDLE_VALUE 0 0) os1 s I) as H2'.
  destruct (os_call (SysCreateIoCompletionPort _ _ _) os1) as [os2 r2]. cbn [fst] in H2'.
  destruct (_ =? 0); cbn [fst snd]; congruence.
Qed.

Lemma LifeCycle_Start_ok listener config n d lc m n' r :
  LifeCycle_Start listener config LifeCycle_make AcceptMem_init n = Some (lc, m, n', r) -> HasErr r = false ->
  clients n = [] -> _connectedClientCount (net_w n) = 0 -> maxClients (cfg_server config) <= INT_MAX ->
  P (Z.to_nat (maxClients (cfg_server config))) d ->
  server_inv (lc, m, (n', d)) /\ _clientPool lc = seq 0 (Z.to_nat (maxClients (cfg_server config))) /\
  forall s, s <> InvalidSocket -> unowned (lc, m, (n', d)) s = os_balance (net_os n) s.
Proof.
  intros Hstart Hr Hcl Hcount Hmax HP. unfold LifeCycle_Start in Hstart.
  change (_iocp (LifeCycle_make {{ lc_config := config }})) with
    (@None (IocpIoMultiplexer W LcHandler)) in Hstart. cbv iota in Hstart.
  pose proof (start_iocp_balance (net_os n) (lift_iocp (lcb_iocp (lc_callbacks (net_w n))))
    (maxWorkerThreadMultiplier (cfg_thread config))) as Hb.
  destruct (os_call SysHardwareConcurrency (net_os n)) as [os1 hw].
  destruct (Iocp_Initialize _ _ os1) as [[mx os2] r2]. cbn [fst snd] in Hb.
  destruct (HasErr r2) eqn:Hr2; [injection Hstart as <- <- <- <-; congruence|].
  change (_acceptor (LifeCycle_make {{ lc_config := config; _iocp := Some mx }})) with
    (@None (IocpAcceptor W)) in Hstart. cbv iota in Hstart.
  set (n2 := mkNet os2 _ _) in *. set (a0 := Acceptor_UseCallbacks _ Acceptor_make) in *.
  destruct listener as [listenSocket|]; [|done]. cbn [mbind option_bind] in Hstart.
  pose proof (Acceptor_Initialize_spec (_socketHandle listenSocket) (Iocp_GetHandle mx) a0 n2) as Hi.
  destruct (Acceptor_Initialize _ _ a0 n2) as [[a1 n3] r3]. destruct Hi as (Hh & Hcb & Hc3 & Hw3 & Hl3 & Hload3).
  destruct (HasErr r3) eqn:Hr3; [injection Hstart as <- <- <- <-; done|]. destruct (Hload3 eq_refl) as [Hfn Hfn2].
  destruct (Z.ltb_spec (maxClients (cfg_server config)) 0); [done|].
  rewrite alloc_clients_eq, Hc3 in Hstart. cbn [clients n2] in Hstart. rewrite Hcl, app_nil_l in Hstart.
  set (count := Z.to_nat _) in *. set (n4 := mkNet _ _ (replicate count fresh_client)) in *.
  assert (held_keys a1 = []) as Hnil by (unfold held_keys; by rewrite Hh).
  assert (acceptor_inv [] a1 AcceptMem_init) as Hai.
  { split; [|by rewrite Hh]. cbn. rewrite Hnil. by split. }
  unfold PostAccepts in Hstart.
  destruct (PostAccepts_loop_spec (Z.to_nat (backlog (cfg_server config))) a1 AcceptMem_init n4 Hai Hfn)
    as (a5 & m5 & n5 & r5 & k & Hpost & [] & _ & _ & Hkeep).
  rewrite Hpost in Hstart. cbn [mbind option_bind] in Hstart.
  destruct (HasErr r5); injection Hstart as <- <- <- <-; [done|].
  assert (_connectedClientCount (net_w n5) = 0) as Hw5.
  { apply (Hkeep (fun w => _connectedClientCount w = 0)); [|cbn; by rewrite Hw3].
    intros w Hw. rewrite Hcb. cbn. by rewrite !emit_lift_keeps. }
  assert (clients n5 = replicate count fresh_client) as Hcl5 by done.
  split_and!; [| |].
  - constructor; cbn [fst snd].
    + by eexists.
    + exists a5, (lcb_acceptor (lc_callbacks (net_w n2))).
      assert (loaded a5 /\ ac_callbacks a5 = ac_callbacks a1) as [? ->] by (rewrite af_acceptor; by destruct a1).
      by rewrite Hcb.
    + rewrite Hcl5. split_and!.
      * apply fresh_pool_inv; [done|]. unfold INT_MAX in *. lia.
      * by rewrite length_replicate.
      * rewrite length_replicate. cbn. apply Forall_intro. intros i Hin. apply elem_of_seq in Hin. lia.
  - done.
  - intros s Hs. unfold unowned. cbn [fst snd].
    change (_acceptor _) with (Some a5). cbv iota. rewrite af_ledger by done.
    unfold held. rewrite Hnil. unfold net_ledger, n4 at 2. rewrite fresh_slots by done. cbn [net_os zsum foldr].
    specialize (Hl3 s). unfold net_ledger in Hl3. unfold slots in Hl3. rewrite Hc3 in Hl3. cbn [net_os n2] in Hl3.
    rewrite Hb in Hl3. change (zsum _ []) with 0. cbn [n4 net_os]. lia.
Qed.

(** *** From the start on

    [set] is what the application does once the lifecycle has started. *)

Lemma started_run size listener config n d lc m n1 r set d1 evs :
  (forall k d, P k d -> k = size) -> Z.to_nat (maxClients (cfg_server config)) = size ->
  LifeCycle_Start listener config LifeCycle_make AcceptMem_init n = Some (lc, m, n1, r) -> HasErr r = false ->
  clients n = [] -> _connectedClientCount (net_w n) = 0 -> maxClients (cfg_server config) <= INT_MAX ->
  P size d -> keeps_count set -> P size d1 -> Forall event_ok evs ->
  exists s, lc_run (lc, m, (with_w set n1, d1)) evs = Some s /\ server_inv s /\ _clientPool s.1.1 = seq 0 size /\
    forall sock, sock <> InvalidSocket -> unowned s sock = os_balance (net_os n) sock.
Proof.
  intros HPsize Hsize Hstart Hr Hcl Hcount Hmax HP Hset HP1 Hevs. subst size.
  destruct (LifeCycle_Start_ok listener config n d lc m n1 r Hstart Hr) as (Hinv & Hpool & Hunowned); [done..|].
  assert (server_inv (lc, m, (with_w set n1, d1))) as Hinv2.
  { destruct Hinv as [Hio Hac Hrun]. constructor; [done|done|]. cbn [fst snd] in *.
    pose proof (HPsize _ _ (proj1 (proj2 Hrun))) as Hk.
    destruct (running_steps P (_clientPool lc) n1 (with_w set n1) d d1 Hrun) as [? _];
      [by apply steps_with_w|by rewrite Hk|done]. }
  destruct (lc_run_ok (lc, m, (with_w set n1, d1)) evs Hinv2 Hevs) as (s & Hrun & Hinv' & Hpool' & Hun').
  exists s. split; [done|]. split; [done|]. split; [by rewrite Hpool'|]. intros sock Hs.
  by rewrite (Hun' sock Hs), <-(Hunowned sock Hs).
Qed.

(** What the invariant says of the counter and of the sockets. *)
Lemma server_inv_accounts size s base :
  (forall k d, P k d -> k = size) -> server_inv s ->
  (forall sock, sock <> InvalidSocket -> unowned s sock = base sock) ->
  GetConnectedClientCount s.2.1 = zsum counted (clients s.2.1) /\ length (clients s.2.1) = size /\
  exists a, _acceptor s.1.1 = Some a /\ forall sock, sock <> InvalidSocket ->
    os_balance (net_os s.2.1) sock = base sock + slots s.2.1 sock + held a s.1.2 sock.
Proof.
  intros HPsize [_ (a & cb & Ha & _) ((_ & _ & Hcount & _) & HP & _)] Hun. split; [done|].
  split; [by apply (HPsize _ _ HP)|]. exists a. split; [done|]. intros sock Hs. specialize (Hun sock Hs).
  unfold unowned, net_ledger in Hun. rewrite Ha in Hun. lia.
Qed.

Lemma started_accounts size listener config n d lc m n1 r set d1 evs :
  (forall k d, P k d -> k = size) -> Z.to_nat (maxClients (cfg_server config)) = size ->
  LifeCycle_Start listener config LifeCycle_make AcceptMem_init n = Some (lc, m, n1, r) -> HasErr r = false ->
  clients n = [] -> _connectedClientCount (net_w n) = 0 -> maxClients (cfg_server config) <= INT_MAX ->
  P size d -> keeps_count set -> P size d1 -> Forall event_ok evs ->
  exists lc' m' n' d', lc_run (lc, m, (with_w set n1, d1)) evs = Some (lc', m', (n', d')) /\
    GetConnectedClientCount n' = zsum counted (clients n') /\
    zlen (clients n') = Z.max 0 (maxClients (cfg_server config)) /\
    exists a, _acceptor lc' = Some a /\ forall s, s <> InvalidSocket ->
      os_balance (net_os n') s = os_balance (net_os n) s + slots n' s + held a m' s.
Proof.
  intros HPsize Hsize Hstart Hr Hcl Hcount Hmax HP Hset HP1 Hevs.
  destruct (started_run size listener config n d lc m n1 r set d1 evs) as ([[lc' m'] [n' d']] & Hrun & Hinv & _ & Hun);
    [done..|].
  destruct (server_inv_accounts size _ _ HPsize Hinv Hun) as (Hk & Hlen & Hacc).
  exists lc', m', n', d'. split; [done|]. split; [done|]. split; [|done]. unfold zlen. cbn [fst snd] in Hlen. lia.
Qed.
End Run.

(** ** Two workers accept at the same time

    [SetupClient] looks for a free slot and then stores the socket in it; nothing
    keeps another worker from looking in between. *)

Section Race.
Context {OS M : Type} `{Traced OS} `{UMapOrder}.
Abbreviation W := (LcShared M).
Implicit Types (lc : ServerLifeCycle M) (n : Net OS W).

(** Where each of two workers stands: before the search, with the slot it found, or
    done. *)
Inductive SetupPc := Searching (sock : Z) | Found (sock : Z) (slot : option nat) | Stored.

(** [FindAvailableClient()], and [client->socket = ctx.acceptSocket]. *)
(** @src network/src/ServerLifecycle.cpp 182-189 ServerLifeCycle::SetupClient *)
Definition setup_step lc (pc : SetupPc) n : SetupPc * Net OS W :=
  match pc with
  | Searching sock => (Found sock (FindAvailableClient lc n), n)
  | Found sock (Some i) =>
      match clients n !! i with
      | Some c => (Stored, set_client i (c {{ socket := sock }}) n)
      | None => (Stored, n)
      end
  | Found sock None => (Stored, (net_call (SysClosesocket sock) n).1)
  | Stored => (Stored, n)
  end.

(** [true] is a step of the first worker. *)
Fixpoint setup_run lc (schedule : list bool) (s : SetupPc * SetupPc * Net OS W) : SetupPc * SetupPc * Net OS W :=
  match schedule with
  | [] => s
  | first :: schedule =>
      let '(p, q, n) := s in
      setup_run lc schedule
        (if first : bool then let '(p, n) := setup_step lc p n in (p, q, n)
         else let '(q, n) := setup_step lc q n in (p, q, n))
  end.

(** Two accepts that complete at the same time can lose a connection.  When both
    workers search before either stores, both find the same slot: the second store
    overwrites the first, and the first socket stays open with no slot that holds it. *)
Lemma concurrent_accepts_collide lc n i c s1 s2 :
  FindAvailableClient lc n = Some i -> clients n !! i = Some c -> socket c = InvalidSocket ->
  s1 <> s2 -> s1 <> InvalidSocket ->
  let '(p, q, n') := setup_run lc [true; false; true; false] (Searching s1, Searching s2, n) in
  p = Stored /\ q = Stored /\ slots n' s1 = slots n s1 /\
  os_balance (net_os n') s1 = os_balance (net_os n) s1 /\
  exists c', clients n' !! i = Some c' /\ socket c' = s2.
Proof.
  intros Hf Hi Hc Hne Hs1. unfold setup_run, setup_step. rewrite Hf, Hi.
  pose proof (set_client_lookup n i (c {{ socket := s1 }}) c Hi) as Hi1. rewrite Hi1.
  pose proof (set_client_lookup (set_client i (c {{ socket := s1 }}) n) i
    ((c {{ socket := s1 }}) {{ socket := s2 }}) _ Hi1) as Hi2.
  split; [done|]. split; [done|]. split; [|split; [done|]].
  - unfold set_client at 1. rewrite (slots_insert _ i _ _ _ _ s1 Hi1).
    unfold set_client. rewrite (slots_insert n i c _ _ _ s1 Hi).
    assert (socket (c {{ socket := s1 }}) = s1) as -> by (by destruct c).
    assert (socket ((c {{ socket := s1 }}) {{ socket := s2 }}) = s2) as -> by (by destruct c).
    rewrite Hc, (is_sock_ne s1 s2), (is_sock_ne s1 InvalidSocket) by done. lia.
  - eexists. split; [exact Hi2|]. by destruct c.
Qed.

(** One worker after the other keeps both connections. *)
Lemma sequential_accepts_distinct lc n i j c d s1 s2 :
  FindAvailableClient lc n = Some i -> clients n !! i = Some c ->
  FindAvailableClient lc (set_client i (c {{ socket := s1 }}) n) = Some j -> clients n !! j = Some d -> i <> j ->
  let '(_, _, n') := setup_run lc [true; true; false; false] (Searching s1, Searching s2, n) in
  socket <$> clients n' !! i = Some s1 /\ socket <$> clients n' !! j = Some s2.
Proof.
  intros Hf Hi Hf2 Hj Hne. unfold setup_run, setup_step. rewrite Hf, Hi, Hf2.
  assert (clients (set_client i (c {{ socket := s1 }}) n) !! j = Some d) as Hj1
    by (cbn; by rewrite list_lookup_insert_ne).
  rewrite Hj1. split.
  - cbn. rewrite list_lookup_insert_ne, list_lookup_insert_eq by (done || by eapply lookup_lt_Some). by destruct c.
  - rewrite (set_client_lookup _ j _ d Hj1). by destruct d.
Qed.
End Race.

Definition race_net : Net (TraceOS ScriptOS) (LcShared unit) :=
  mkNet (mkTraceOS (script_of []) []) (mkLcShared 0 LifeCycleCallbacks_none tt) [fresh_client; fresh_client].

Lemma concurrent_accepts_collide_witness :
  let lc := mkServerLifeCycle None None [0; 1]%nat WithDefaults in
  let '(p, q, n') := setup_run lc [true; false; true; false] (Searching 100, Searching 101, race_net) in
  p = Stored /\ q = Stored /\ slots n' 100 = slots race_net 100 /\
  os_balance (net_os n') 100 = os_balance (net_os race_net) 100 /\
  exists c', clients n' !! 0%nat = Some c' /\ socket c' = 101.
Proof.
  apply (concurrent_accepts_collide (mkServerLifeCycle None None [0; 1]%nat WithDefaults) race_net 0 fresh_client 100 101).
  - reflexivity.
  - reflexivity.
  - reflexivity.
  - lia.
  - vm_compute; discriminate.
Defined.
