(* ===== verification/Echo.v ===== *)
(** * Echo: the echo server and its client

    [exec/echo/echo-server], [exec/echo/echo-client]: a second application of the network
    library.  The server discharges the interface [ReceiverOk] of the network layer for
    data that fit the buffer of a send; the client talks to it in frames. *)

From S2P Require Import Prelude Errors Platform Logger FrameBuffer NetworkCfg SocketSetup Scope Pools Protocol TcpClient.
From S2P Require Import NetClient Net Ledger IoMultiplexer Acceptor NetSteps Lifecycle LifecycleProps LifecycleRun.
From Stdlib Require Import String.
From coqutil Require Import Byte Datatypes.RecordSetters.
From stdpp Require Import base gmap list strings option pretty relations.
Import DoubleBraceUpdate.
Open Scope Z_scope.

(** ** The server *)

(** @src exec/echo/echo-server/Server.h 74-77 Server *)
Record EchoServer (M : Type) := mkEchoServer { es_config : NetworkCfg; es_lifecycle : option (ServerLifeCycle M) }.

Arguments mkEchoServer {M}.
Arguments es_config {M}.
Arguments es_lifecycle {M}.

Section Server.
Context {OS M : Type} `{WinSock OS} `{UMapOrder}.
Abbreviation W := (LcShared M).
Abbreviation X := (Net OS W * unit)%type.
Implicit Types (es : EchoServer M) (m : AcceptMem) (n : Net OS W) (x : X) (client : nat).

(** @src exec/echo/echo-server/Server.cpp 7-15 Server::Server *)
Definition EchoServer_make (config : NetworkCfg) : EchoServer M := mkEchoServer config None.

(** Only a log line. *)
(** @src exec/echo/echo-server/Server.cpp 40-43 Server::OnAccept *)
Definition Echo_OnAccept client x : ub X := Some x.

(** @src exec/echo/echo-server/Server.cpp 45-61 Server::OnRecv *)
Definition Echo_OnRecv client (data : list byte) x : ub X :=
  '(n, sendRes) ← Net_PostSend client data x.1;
  if HasErr sendRes then n ← CloseClient (Some client) true n; Some (n, x.2)
  else
    '(n, recvRes) ← Net_PostRecv client n;
    if HasErr recvRes then n ← CloseClient (Some client) true n; Some (n, x.2) else Some (n, x.2).

(** Only a log line. *)
(** @src exec/echo/echo-server/Server.cpp 63-67 Server::OnSend *)
Definition Echo_OnSend client (bytesTransferred : Z) x : ub X := Some x.

(** Only a log line. *)
(** @src exec/echo/echo-server/Server.cpp 69-72 Server::OnDisconnect *)
Definition Echo_OnDisconnect client x : ub X := Some x.

(** @src exec/echo/echo-server/Server.h 52-60 Server *)
Definition Echo_receiver : ISessionEventReceiver X :=
  mkReceiver Echo_OnAccept Echo_OnRecv Echo_OnSend Echo_OnDisconnect.

(** @src exec/echo/echo-server/Server.cpp 17-31 Server::Start *)
Definition Echo_Start (held : nat -> bool) (listenSocket : option WindowsAsyncSocket) es m n
    : ub (EchoServer M * AcceptMem * Net OS W * ResultVoid ENetworkError) :=
  '(m, n) ← fresh_lifecycle held (es_lifecycle es) m n;
  '(lifecycle, m, n, lifecycleStartRes) ← LifeCycle_Start listenSocket (es_config es) LifeCycle_make m n;
  Some (es {{ es_lifecycle := Some lifecycle }}, m, n,
        if HasErr lifecycleStartRes then lifecycleStartRes else OkVoid).

(** [reset] runs the destructor, which stops what is stopped. *)
(** @src exec/echo/echo-server/Server.cpp 33-38 Server::Stop *)
Definition Echo_Stop (held : nat -> bool) es m n : ub (EchoServer M * AcceptMem * Net OS W) :=
  match es_lifecycle es with
  | None => Some (es, m, n)
  | Some lifecycle =>
      '(lifecycle, m, n) ← LifeCycle_Stop held lifecycle m n;
      '(m, n) ← LifeCycle_destroy held lifecycle m n;
      Some (es {{ es_lifecycle := None }}, m, n)
  end.

(** @src exec/echo/echo-server/Server.cpp 5-5 Server::~Server *)
Definition Echo_destroy (held : nat -> bool) es m n : ub (AcceptMem * Net OS W) :=
  '(_, m, n) ← Echo_Stop held es m n; Some (m, n).

(** Up to the wait for the console. *)
(** @src exec/echo/echo-server/main.cpp 14-27 main *)
Definition echo_main_start (c : NetworkCfg) (os : OS) (metrics : M)
    : ub (EchoServer M * AcceptMem * Net OS W * ResultVoid ENetworkError) :=
  let '(listenSocket, os) := MakeDefaultListener TCP c os in
  Echo_Start (fun _ => false) listenSocket (EchoServer_make c) AcceptMem_init
    (mkNet os (mkLcShared 0 LifeCycleCallbacks_none metrics) []).
End Server.

(** ** Accounting *)

Section Accounting.
Context {OS M : Type} `{Traced OS} `{UMapOrder}.
Abbreviation W := (LcShared M).
Implicit Types (n : Net OS W) (i k : nat).

(** What can be sent back: data that fit the buffer of a send. *)
Definition echoable (data : list byte) : Prop := zlen data <= sendBufferSize.

Lemma CloseClient_steps i n :
  lc_ok n -> (i < length (clients n))%nat ->
  exists n', CloseClient (Some i) true n = Some n' /\ net_steps keeps_count n n'.
Proof.
  intros Hok Hi. apply lookup_lt_is_Some_2 in Hi as [c Hc]. unfold CloseClient. rewrite Hc. cbn [mbind option_bind].
  destruct (socket c =? InvalidSocket); cbn [negb]; [by exists n|].
  destruct (Net_Close_spec n i true c Hc (proj1 Hok)) as (n' & Heq & _). exists n'. split; [done|].
  by eapply steps_one, step_close.
Qed.

#[export] Instance Echo_ReceiverOk size : ReceiverOk (fun k (_ : unit) => k = size) echoable (Echo_receiver (OS:=OS) (M:=M)).
Proof.
  constructor; cbn [OnAccept OnRecv OnSend OnDisconnect Echo_receiver].
  - intros i n d Hi Hok Hk. by exists n, d.
  - intros i data n d Hdata Hi Hok Hk. unfold Echo_OnRecv. cbn [fst snd].
    destruct (lookup_lt_is_Some_2 _ _ Hi) as [c Hc].
    destruct (Net_PostSend_spec n i data c Hc (proj1 Hok) Hdata) as (n1 & r1 & c1 & Hsend & _).
    rewrite Hsend. cbn [mbind option_bind].
    assert (net_steps keeps_count n n1) as Hst1 by (by eapply steps_one, step_send).
    destruct (net_steps_lc n n1 Hst1 Hok) as (Hok1 & Hlen1 & _).
    destruct (HasErr r1).
    { destruct (CloseClient_steps i n1 Hok1) as (n2 & -> & Hst2); [by rewrite Hlen1|].
      exists n2, d. split; [done|]. split; [by etrans|done]. }
    rewrite <-Hlen1 in Hi. destruct (lookup_lt_is_Some_2 _ _ Hi) as [c1' Hc1].
    destruct (PostRecv_returns n1 i c1' Hc1) as (n2 & r2 & Hrecv). rewrite Hrecv. cbn [mbind option_bind].
    assert (net_steps keeps_count n n2) as Hst2 by (etrans; [done|]; by eapply steps_one, step_recv).
    destruct (HasErr r2); [|by exists n2, d].
    destruct (net_steps_lc n n2 Hst2 Hok) as (Hok2 & Hlen2 & _).
    destruct (CloseClient_steps i n2 Hok2) as (n3 & -> & Hst3); [by rewrite Hlen2, <-Hlen1|].
    exists n3, d. split; [done|]. split; [by etrans|done].
  - intros i bytes n d Hi Hok Hk. by exists n, d.
  - intros i n d Hi Hok Hk. by exists n, d.
Qed.

(** The echo server has no logic thread. *)
Definition no_logic (x : Net OS W * unit) : ub (Net OS W * unit) := Some x.

#[export] Instance no_logic_ok P : LogicOk no_logic P.
Proof. intros n d Hok HP. by exists n, d. Qed.
End Accounting.

(** ** What the server answers *)

Section Answers.
Context {OS M : Type} `{Traced OS} `{UMapOrder}.
Abbreviation W := (LcShared M).
Abbreviation X := (Net OS W * unit)%type.
Implicit Types (lc : ServerLifeCycle M) (m : AcceptMem) (n : Net OS W) (d : unit) (i : nat) (s : Z).

(** The bytes handed to [WSASend] for a socket, and the receives posted on it. *)
Definition sent_data s (calls : list (syscall * sysret)) : list byte :=
  concat ((fun cr => match cr.1 with SysWSASend s' data => if s' =? s then data else [] | _ => [] end) <$> calls).

Definition recv_posts s (calls : list (syscall * sysret)) : Z :=
  zsum (fun cr => match cr.1 with SysWSARecv s' _ => if s' =? s then 1 else 0 | _ => 0 end) calls.

(** The system takes every send and receive that is posted. *)
Definition takes_posts : Prop :=
  forall os s, (forall len, post_failed (os_call (SysWSARecv s len) os).2 = false) /\
    (forall data, post_failed (os_call (SysWSASend s data) os).2 = false).

Context (Hposts : takes_posts).

Lemma PostRecv_taken n i c :
  clients n !! i = Some c -> Client_inv c ->
  exists n' c', Net_PostRecv i n = Some (n', OkVoid) /\ clients n' !! i = Some c' /\ socket c' = socket c /\
    net_os n' = run_calls [SysWSARecv (socket c) recvBufferSize] (net_os n).
Proof.
  intros Hi (Hb & _). unfold Net_PostRecv. rewrite Hi. cbn [mbind option_bind]. unfold PostRecv.
  set (c1 := c {{ recvOverlapped ::= _ }}).
  assert (socket c1 = socket c /\ recv_len (recvOverlapped c1) = recvBufferSize) as [-> ->] by (by destruct c).
  destruct (Hposts (net_os n) (socket c)) as [Hr _]. specialize (Hr recvBufferSize).
  destruct (os_call (SysWSARecv _ _) (net_os n)) as [os r] eqn:Ho. cbn [snd] in Hr. rewrite Hr.
  eexists _, c1. split; [done|]. cbn. rewrite list_lookup_insert_eq by (by eapply lookup_lt_Some).
  rewrite Ho. by destruct c.
Qed.

Lemma PostSend_taken n i c data :
  clients n !! i = Some c -> Client_inv c -> echoable data ->
  exists n' c', Net_PostSend i data n = Some (n', OkVoid) /\ clients n' !! i = Some c' /\ socket c' = socket c /\
    net_os n' = run_calls [SysWSASend (socket c) data] (net_os n).
Proof.
  intros Hi Hc Hd. unfold Net_PostSend. rewrite Hi. cbn [mbind option_bind].
  destruct (PostSend_spec data c (net_os n) (net_w n) Hc Hd) as (c' & _ & Hs & _ & _ & _ & _ & ->).
  destruct (Hposts (net_os n) (socket c)) as [_ Hr]. specialize (Hr data).
  destruct (os_call (SysWSASend _ _) (net_os n)) as [os r] eqn:Ho. cbn [snd] in Hr. rewrite Hr. cbn [mbind option_bind].
  eexists _, c'. split; [done|]. cbn. rewrite list_lookup_insert_eq by (by eapply lookup_lt_Some). by rewrite Ho.
Qed.

(** The calls that answer one receive. *)
Definition echo_calls s (data : list byte) : list syscall :=
  [SysWSASend s data; SysWSARecv s recvBufferSize; SysWSARecv s recvBufferSize].

Lemma echo_handled n d i c data :
  lc_ok n -> clients n !! i = Some c -> data <> [] -> echoable data ->
  take (length data) (recv_buf (recvOverlapped c)) = data ->
  exists n' c', HandleRecv (Some Echo_receiver)
      (mkCompletionEvent IoRecv (Some i) (Some (OvRecv i)) (zlen data) true 0) (n, d) = Some (n', d) /\
    lc_ok n' /\ clients n' !! i = Some c' /\ socket c' = socket c /\
    net_os n' = run_calls (echo_calls (socket c) data) (net_os n).
Proof.
  intros Hok Hi Hne Hd Hbuf. unfold HandleRecv.
  cbn [ev_target ev_success ev_bytesTransferred ev_overlapped mbind option_bind negb orb].
  destruct (Z.eqb_spec (zlen data) 0) as [Hz|_]; [by apply zlen_0 in Hz|].
  pose proof (completed_steps (fun w => onRecvCompleted (lc_callbacks w)) (zlen data) (true && (zlen data >? 0)) n) as Hst.
  set (n0 := with_w _ n) in *. destruct (net_steps_lc n n0 Hst Hok) as (Hok0 & _).
  assert (clients n0 !! i = Some c) as Hi0 by done. rewrite Hi0. cbn [fmap option_fmap option_map mbind option_bind].
  pose proof (lc_inv_client _ _ _ _ Hok Hi) as Hc. unfold compose. rewrite (proj1 Hc).
  unfold echoable, sendBufferSize in *. rewrite (proj2 (Z.ltb_ge _ _)) by (unfold recvBufferSize; lia).
  replace (Z.to_nat (zlen data)) with (length data) by (unfold zlen; lia). rewrite Hbuf.
  cbn [OnRecv Echo_receiver]. unfold Echo_OnRecv. cbn [fst snd].
  destruct (PostSend_taken n0 i c data Hi0 Hc Hd) as (n1 & c1 & Hsend & Hi1 & Hs1 & Ho1). rewrite Hsend.
  cbn [mbind option_bind HasErr OkVoid Ok _hasError].
  destruct (net_steps_lc n0 n1) as (Hok1 & _); [by eapply steps_one, step_send|done|].
  destruct (PostRecv_taken n1 i c1 Hi1 (lc_inv_client _ _ _ _ Hok1 Hi1)) as (n2 & c2 & Hr2 & Hi2 & Hs2 & Ho2).
  rewrite Hr2. cbn [mbind option_bind HasErr OkVoid Ok _hasError].
  destruct (net_steps_lc n1 n2) as (Hok2 & _); [by eapply steps_one, step_recv|done|].
  destruct (PostRecv_taken n2 i c2 Hi2 (lc_inv_client _ _ _ _ Hok2 Hi2)) as (n3 & c3 & Hr3 & Hi3 & Hs3 & Ho3).
  rewrite Hr3. cbn [mbind option_bind HasErr OkVoid Ok _hasError].
  destruct (net_steps_lc n2 n3) as (Hok3 & _); [by eapply steps_one, step_recv|done|].
  exists n3, c3. split; [done|]. split; [done|]. split; [done|]. split; [congruence|].
  rewrite Ho3, Ho2, Ho1, Hs2, Hs1. by rewrite <-!run_calls_app.
Qed.

Lemma sent_data_app s l k : sent_data s (l ++ k) = sent_data s l ++ sent_data s k.
Proof. unfold sent_data. by rewrite fmap_app, concat_app. Qed.

Lemma echo_calls_trace s data (os : OS) :
  let os' := run_calls (echo_calls s data) os in
  sent_data s (trace os') = sent_data s (trace os) ++ data /\ recv_posts s (trace os') = recv_posts s (trace os) + 2.
Proof.
  unfold echo_calls, run_calls. cbn [foldl]. rewrite !trace_call, <-!app_assoc. unfold recv_posts.
  rewrite sent_data_app, zsum_app. unfold zsum at 2, sent_data at 2. cbn. rewrite Z.eqb_refl.
  split; [by rewrite app_nil_r|lia].
Qed.

(** The receive of a slot completes with [data]. *)
Lemma echo_step lc m n d i c data :
  lc_ok n -> i ∈ _clientPool lc -> clients n !! i = Some c -> data <> [] -> echoable data ->
  exists n' c', lc_step Echo_receiver no_logic (lc, m, (n, d)) (LRecv i true data) = Some (lc, m, (n', d)) /\
    lc_ok n' /\ clients n' !! i = Some c' /\ socket c' = socket c /\
    net_os n' = run_calls (echo_calls (socket c) data) (net_os n).
Proof.
  intros Hok Hin Hi Hne Hd. cbn [lc_step]. rewrite bool_decide_eq_true_2 by done.
  assert (zlen data <= recvBufferSize) as Hr by (unfold echoable, sendBufferSize, recvBufferSize in *; lia).
  rewrite (proj2 (Z.leb_le _ _)) by done. cbn [andb].
  destruct (fill_recv_running (fun _ (_ : unit) => True) [] n d i c data) as (n1 & c1 & Hfill & (Hok1 & _) & Hi1 & Hb1 & _);
    [by split_and!|done|done|].
  rewrite Hfill. cbn [mbind option_bind]. unfold OnCompletion. cbn [ev_ioType].
  destruct (echo_handled n1 d i c1 data Hok1 Hi1 Hne Hd Hb1) as (n2 & c2 & -> & Hok2 & Hi2 & Hs2 & Ho2).
  cbn [mbind option_bind]. exists n2, c2. split; [done|]. split; [done|]. split; [done|].
  unfold fill_recv in Hfill. rewrite Hi in Hfill. cbn [mbind option_bind] in Hfill.
  destruct (memcpy_at _ 0 data) as [buf|]; [|done]. cbn [mbind option_bind] in Hfill. injection Hfill as <-.
  cbn in Hi1. rewrite list_lookup_insert_eq in Hi1 by (by eapply lookup_lt_Some). injection Hi1 as <-.
  destruct c. by rewrite Hs2, Ho2.
Qed.

(** When the stream of a connection arrives in any non-empty pieces that fit the buffer of
    a send, and the system takes what is posted, the data handed to [WSASend] on that
    socket are exactly the pieces, in order.  Every piece also posts two receives, one by
    [OnRecv] and one by the network library after it: the receives outstanding on the
    connection's single buffer grow with each piece. *)
Lemma echo_answers lc m n d i c chunks :
  lc_ok n -> i ∈ _clientPool lc -> clients n !! i = Some c ->
  Forall (fun data => data <> [] /\ echoable data) chunks ->
  exists n', lc_run Echo_receiver no_logic (lc, m, (n, d)) (LRecv i true <$> chunks) = Some (lc, m, (n', d)) /\
    sent_data (socket c) (trace (net_os n')) = sent_data (socket c) (trace (net_os n)) ++ concat chunks /\
    recv_posts (socket c) (trace (net_os n')) = recv_posts (socket c) (trace (net_os n)) + 2 * zlen chunks.
Proof.
  intros Hok Hin Hi Hch. revert n c Hok Hi. induction Hch as [|data chunks [Hne Hd] _ IH]; intros n c Hok Hi.
  - exists n. cbn [concat]. rewrite app_nil_r. split; [done|]. split; [done|]. change (zlen []) with 0. lia.
  - destruct (echo_step lc m n d i c data Hok Hin Hi Hne Hd) as (n1 & c1 & Hstep & Hok1 & Hi1 & Hs1 & Ho1).
    destruct (IH n1 c1 Hok1 Hi1) as (n2 & Hrun & Hsent & Hrecv). rewrite Hs1, Ho1 in *.
    destruct (echo_calls_trace (socket c) data (net_os n)) as [Ht1 Ht2]. rewrite Ht1 in Hsent. rewrite Ht2 in Hrecv.
    exists n2. rewrite fmap_cons. cbn [lc_run]. rewrite Hstep. cbn [mbind option_bind]. split; [done|].
    rewrite zlen_cons. cbn [concat]. rewrite app_assoc. split; [done|lia].
Qed.
End Answers.

(** C37: A long receive overruns the echo server's send buffer.  The buffer of a receive has
    4096 bytes and that of a send 1024, and [PostSend] copies without a test: whenever a
    receive completes with more than 1024 bytes, which any peer can cause, the behaviour
    of the server is undefined. *)
Theorem echo_long_receive {OS M} `{Traced OS} `{UMapOrder} (n : Net OS (LcShared M)) d i c bytes :
  lc_ok n -> clients n !! i = Some c -> sendBufferSize < bytes <= recvBufferSize ->
  HandleRecv (Some Echo_receiver) (mkCompletionEvent IoRecv (Some i) (Some (OvRecv i)) bytes true 0) (n, d) = None.
Proof.
  intros Hok Hi Hb. unfold HandleRecv.
  cbn [ev_target ev_success ev_bytesTransferred ev_overlapped mbind option_bind negb orb].
  assert (sendBufferSize = 1024 /\ recvBufferSize = 4096) as [Hs Hr] by done.
  rewrite (proj2 (Z.eqb_neq bytes 0)) by lia.
  set (n0 := with_w _ n). assert (clients n0 !! i = Some c) as Hi0 by done.
  rewrite Hi0. cbn [fmap option_fmap option_map mbind option_bind].
  pose proof (lc_inv_client _ _ _ _ Hok Hi) as Hc. unfold compose. rewrite (proj1 Hc), (proj2 (Z.ltb_ge _ _)) by lia.
  set (data := take _ _). assert (zlen data = bytes) as Hz.
  { pose proof (proj1 Hc) as Hl. unfold data, zlen in *. rewrite length_take. lia. }
  cbn [OnRecv Echo_receiver]. unfold Echo_OnRecv, Net_PostSend. cbn [fst]. rewrite Hi0. cbn [mbind option_bind].
  destruct (PostSend data c _ _) eqn:Hp; [|done].
  pose proof (proj1 (PostSend_defined data c _ _ Hc ltac:(lia)) (mk_is_Some _ _ Hp)). lia.
Qed.

(** C30: The echo server accounts for its connections.  Once [main] has started the
    server, whatever accepts, receives of at most 1024 bytes and sends complete, in any
    order and with whatever results, every operation is defined; the counter of connected
    clients is the number of slots that announced a connection; and a socket that the
    server opened is still open exactly when one slot or one accept under way holds it. *)
Theorem echo_server_accounting {OS M} `{Traced OS} `{UMapOrder} c (os : OS) (metrics : M) es m n r lc evs :
  maxClients (cfg_server c) <= INT_MAX ->
  echo_main_start c os metrics = Some (es, m, n, r) -> HasErr r = false -> es_lifecycle es = Some lc ->
  Forall (event_ok echoable) evs ->
  exists lc' m' n', lc_run Echo_receiver no_logic (lc, m, (n, tt)) evs = Some (lc', m', (n', tt)) /\
    GetConnectedClientCount n' = zsum counted (clients n') /\
    zlen (clients n') = Z.max 0 (maxClients (cfg_server c)) /\
    exists a, _acceptor lc' = Some a /\ forall s, s <> InvalidSocket ->
      os_balance (net_os n') s =
        os_balance (MakeDefaultListener TCP c os).2 s + slots n' s + held a m' s.
Proof.
  intros Hmax Hmain Hr Hlc Hevs. unfold echo_main_start in Hmain.
  destruct (MakeDefaultListener TCP c os) as [listener os1]. cbn [snd] in *.
  unfold Echo_Start, fresh_lifecycle in Hmain. cbn [es_lifecycle EchoServer_make es_config mbind option_bind] in Hmain.
  set (n0 := with_w _ _) in *.
  destruct (LifeCycle_Start listener c LifeCycle_make AcceptMem_init n0) as [[[[lc1 m1] n1] r1]|] eqn:Hstart; [|done].
  cbn [mbind option_bind] in Hmain.
  destruct (HasErr r1) eqn:Hr1; [injection Hmain as <- <- <- <-; congruence|].
  injection Hmain as <- <- <- <-. injection Hlc as ->.
  destruct (started_accounts Echo_receiver no_logic (fun k (_ : unit) => k = Z.to_nat (maxClients (cfg_server c))) echoable
    (Z.to_nat (maxClients (cfg_server c))) listener c n0 tt lc m1 n1 r1 id tt evs)
    as (lc' & m' & n' & [] & Hrun & Hrest); try done.
  exists lc', m', n'. replace (with_w id n1) with n1 in Hrun by (by destruct n1). by split.
Qed.

(** ** The client *)

(** @src exec/echo/echo-client/EchoClient.h 55-62 EchoClient *)
Record EchoClient := mkEchoClient {
  ec_wsaSession : option WsaSession; ec_socket : option TcpClientSocket; ec_packetStream : option PacketStream }.

(** @src exec/echo/echo-client/EchoClient.cpp 7-10 EchoClient::EchoClient *)
Definition EchoClient_make : EchoClient := mkEchoClient None None None.

Section Client.
Context {OS T : Type} `{WinSock OS} `{ILogger T}.
Implicit Types (ec : EchoClient) (s : OS * T).

Definition info (msg : string) s : OS * T := (s.1, Logger_Info msg s.2).
Definition error (msg : string) s : OS * T := (s.1, Logger_Error msg s.2).

(** The session's last owner cleans up. *)
(** @src exec/echo/echo-client/EchoClient.cpp 43-55 EchoClient::Disconnect *)
Definition EchoClient_Disconnect ec s : EchoClient * (OS * T) * bool :=
  match ec_socket ec with
  | None => (ec, s, false)
  | Some t =>
      let '(t, os, _) := Tcp_Close t s.1 in
      let os := Tcp_destroy t os in
      let os := match ec_wsaSession ec with Some w => WsaSession_destroy w os | None => os end in
      (EchoClient_make, info "Disconnected from server." (os, s.2), true)
  end.

(** @src exec/echo/echo-client/EchoClient.cpp 12-14 EchoClient::~EchoClient *)
Definition EchoClient_destroy ec s : OS * T := (EchoClient_Disconnect ec s).1.2.

(** On a failure the socket and then the session are destroyed. *)
(** @src exec/echo/echo-client/EchoClient.cpp 16-41 EchoClient::Connect *)
Definition EchoClient_Connect (ipAddress : string) (port : Z) ec s : EchoClient * (OS * T) * bool :=
  let '(ec, s, _) := EchoClient_Disconnect ec s in
  let address := (ipAddress +:+ ":" +:+ pretty port)%string in
  let '(os, sessionRes) := WsaSession_Create s.1 in
  let s := (os, s.2) in
  match _data sessionRes with
  | None => (ec, error "Failed to initialize WSA session." s, false)
  | Some wsaSession =>
      let s := info ("Connecting to " +:+ address) s in
      let '(socket, os, connectRes) := Tcp_Connect ipAddress port (TcpClientSocket_make true) s.1 in
      let s := (os, s.2) in
      if HasErr connectRes then
        let s := error "Connect failed." s in
        (ec, (WsaSession_destroy wsaSession (Tcp_destroy socket s.1), s.2), false)
      else
        (mkEchoClient (Some wsaSession) (Some socket) (Some (mkPacketStream maxFrameSize)),
         info ("Connected to " +:+ address) s, true)
  end.

(** [None]: undefined behaviour, or fuel, which [transfers_terminate] excludes. *)
(** @src exec/echo/echo-client/EchoClient.cpp 57-89 EchoClient::Send *)
Definition EchoClient_Send (message : string) ec s : ub (OS * T) :=
  match ec_socket ec, ec_packetStream ec with
  | Some t, Some ps =>
      if negb (Tcp_IsConnected t) then Some (error "Not connected to server." s)
      else
        sent ← SendFrame t (list_byte_of_string message) s.1;
        '(os, sendRes) ← sent;
        let s := (os, s.2) in
        if HasErr sendRes then Some (error "Send failed." s)
        else
          let s := info ("Sent: " +:+ message) s in
          '(recvBuffer, os, recvRes) ← RecvFrame ps t [] s.1;
          let s := (os, s.2) in
          if HasErr recvRes then Some (error "Recv failed." s)
          else
            match recvBuffer with
            | [] => Some (info "Received: " s)
            | _ => Some (info ("Received: " +:+ string_of_list_byte recvBuffer) s)
            end
  | _, _ => Some (error "Not connected to server." s)
  end.

(** The messages one after another. *)
(** @src exec/echo/echo-client/main.cpp 21-24 main *)
Fixpoint send_messages (messages : list string) ec s : ub (OS * T) :=
  match messages with
  | [] => Some s
  | msg :: messages => s ← EchoClient_Send msg ec s; send_messages messages ec s
  end.

(** @src exec/echo/echo-client/main.cpp 12-31 main *)
Definition echo_client_main s : ub (OS * T * Z) :=
  let s := info "hello, echo clientSocket 1!" s in
  let '(ec, s, result) := EchoClient_Connect "127.0.0.1" 8080 EchoClient_make s in
  if negb result then
    let s := error "echo clientSocket connect failed." s in Some (EchoClient_destroy ec s, -1)
  else
    s ← send_messages ((fun i => "Hello from echo clientSocket! #" +:+ pretty (i + 1)%nat)%string <$> seq 0 5) ec s;
    let '(ec, s, _) := EchoClient_Disconnect ec s in Some (EchoClient_destroy ec s, 0).
End Client.

(** ** There and back *)

Definition message_bytes (messages : list string) : list (list byte) := list_byte_of_string <$> messages.

(** What the client writes about a message that comes back. *)
Definition echo_lines (messages : list string) : list string :=
  concat ((fun msg => ["[INFO] Sent: " +:+ msg; "[INFO] Received: " +:+ msg]%string) <$> messages).

Definition connected (ec : EchoClient) : Prop :=
  exists t, ec_socket ec = Some t /\ Tcp_IsConnected t = true /\ ec_packetStream ec = Some (mkPacketStream maxFrameSize).

Section There.
Context {OS : Type} `{TcpEnd OS}.
Implicit Types (ec : EchoClient) (os : OS) (out : Cout).

Lemma EchoClient_Send_back msg ec os out rest :
  connected ec -> zlen (list_byte_of_string msg) <= maxFrameSize ->
  incoming os = frame_of (list_byte_of_string msg) ++ rest ->
  exists os' out', EchoClient_Send msg ec (os, out) = Some (os', out') /\
    outgoing os' = outgoing os ++ frame_of (list_byte_of_string msg) /\ incoming os' = rest /\
    cout_lines out' = cout_lines out ++ echo_lines [msg].
Proof.
  intros (t & Ht & Hc & Hps) Hlen Hin. unfold EchoClient_Send. rewrite Ht, Hps, Hc. cbn [negb fst].
  assert (maxFrameSize = 65536) as Hm by done. rewrite SendFrame_frame by lia. cbn [mbind option_bind].
  destruct (SendAll_stream t (frame_of (list_byte_of_string msg)) os Hc) as (os1 & -> & Ho1 & Hi1).
  cbn [mbind option_bind HasErr OkVoid Ok _hasError fst snd info].
  destruct (RecvFrame_stream (mkPacketStream maxFrameSize) t [] os1 (list_byte_of_string msg) rest Hc)
    as (os2 & -> & Hi2 & Ho2); [cbn; lia|done|by rewrite Hi1|].
  cbn [mbind option_bind HasErr Ok _hasError fst snd].
  exists os2, (TextLogger_Info ("Received: " +:+ msg) (TextLogger_Info ("Sent: " +:+ msg) out)).
  split; [|split; [congruence|split; [done|cbn; by rewrite <-app_assoc]]].
  pose proof (string_of_list_byte_of_string msg) as Hs.
  destruct (list_byte_of_string msg) as [|b bs]; [by rewrite <-Hs|]. by rewrite Hs.
Qed.

Lemma send_messages_back messages ec os out rest :
  connected ec -> Forall (fun p => zlen p <= maxFrameSize) (message_bytes messages) ->
  incoming os = frames (message_bytes messages) ++ rest ->
  exists os' out', send_messages messages ec (os, out) = Some (os', out') /\
    outgoing os' = outgoing os ++ frames (message_bytes messages) /\ incoming os' = rest /\
    cout_lines out' = cout_lines out ++ echo_lines messages.
Proof.
  intros Hc. revert os out. induction messages as [|msg messages IH]; intros os out Hlen Hin.
  - exists os, out. by rewrite !app_nil_r.
  - unfold message_bytes, frames in *. cbn [fmap list_fmap concat] in *. apply Forall_cons in Hlen as [Hmsg Hlen].
    rewrite <-app_assoc in Hin.
    destruct (EchoClient_Send_back msg ec os out _ Hc Hmsg Hin) as (os1 & out1 & Hs & Ho1 & Hi1 & Hl1).
    destruct (IH os1 out1 Hlen Hi1) as (os2 & out2 & Hrest & Ho2 & Hi2 & Hl2).
    exists os2, out2. cbn [send_messages]. rewrite Hs. cbn [mbind option_bind].
    split; [done|]. split; [by rewrite Ho2, Ho1, <-app_assoc|]. split; [done|].
    rewrite Hl2, Hl1, <-app_assoc. done.
Qed.
End There.

(** C8: Messages come back.  A client connected to the echo server sends messages of at
    most 65536 bytes, one after another; their frames reach the server in any pieces of 1
    to 1024 bytes, and the system takes what the server posts.  Then what the server sends
    on that connection lets every call of the client return: it prints every message as
    sent and as received, in order, has sent exactly those frames, and leaves nothing
    unread. *)
Theorem echo_roundtrip {OS1 OS2 M} `{TcpEnd OS1} `{Traced OS2} `{UMapOrder}
    (lc : ServerLifeCycle M) m (n : Net OS2 (LcShared M)) i c messages chunks ec (os : OS1) (out : Cout) :
  takes_posts (OS:=OS2) -> lc_ok n -> i ∈ _clientPool lc -> clients n !! i = Some c ->
  Forall (fun data => data <> [] /\ echoable data) chunks ->
  connected ec -> Forall (fun p => zlen p <= maxFrameSize) (message_bytes messages) ->
  concat chunks = frames (message_bytes messages) ->
  exists n',
    lc_run Echo_receiver no_logic (lc, m, (n, tt)) (LRecv i true <$> chunks) = Some (lc, m, (n', tt)) /\
    sent_data (socket c) (trace (net_os n')) = sent_data (socket c) (trace (net_os n)) ++ concat chunks /\
    (incoming os = concat chunks ->
     exists os' out', send_messages messages ec (os, out) = Some (os', out') /\
       outgoing os' = outgoing os ++ concat chunks /\ incoming os' = [] /\
       cout_lines out' = cout_lines out ++ echo_lines messages).
Proof.
  intros Hposts Hok Hin Hi Hch Hc Hlen Hcat.
  destruct (echo_answers Hposts lc m n tt i c chunks Hok Hin Hi Hch) as (n' & Hrun & Hsent & _).
  exists n'. split; [done|]. split; [done|]. intros Hos. rewrite Hcat in *.
  apply send_messages_back; [done..|]. by rewrite Hos, app_nil_r.
Qed.

(** *** A concrete server and client *)

(** A system that takes everything. *)
Inductive WillingOS := willing.

#[export] Instance WillingOS_WinSock : WinSock WillingOS := {| os_call := fun _ os => (os, sysok) |}.

Definition echo_slot : Client (LcShared unit) := fresh_client {{ socket := 100 }}.

Definition echo_net : Net (TraceOS WillingOS) (LcShared unit) :=
  mkNet (mkTraceOS willing []) (mkLcShared 0 LifeCycleCallbacks_none tt) [echo_slot].

Definition echo_lc : ServerLifeCycle unit := mkServerLifeCycle None None [0%nat] WithDefaults.

Lemma echo_net_ok : lc_ok echo_net.
Proof.
  split_and!; [| |vm_compute; reflexivity|vm_compute; reflexivity]; (constructor; [|constructor]).
  - split_and!; [vm_compute; reflexivity|vm_compute; reflexivity|apply FrameBuffer_init_inv|done].
  - reflexivity.
Qed.

Lemma willing_takes : takes_posts (OS:=TraceOS WillingOS).
Proof. intros os s. by split. Qed.

Definition echo_client : EchoClient :=
  mkEchoClient (Some (mkWsaSession true)) (Some (mkTcpClientSocket true 7)) (Some (mkPacketStream maxFrameSize)).

Definition echo_stream : list byte := frames (message_bytes ["hi"; ""; "there"]%string).

(** The frames cut after one, six and eight bytes. *)
Definition echo_chunks : list (list byte) :=
  [take 1 echo_stream; take 5 (drop 1 echo_stream); take 2 (drop 6 echo_stream); drop 8 echo_stream].

Lemma echo_roundtrip_witness :
  exists os' out', send_messages ["hi"; ""; "there"]%string echo_client
      (mkStreamOS echo_stream [] [2; 0; 1]%nat, mkCout []) = Some (os', out') /\
    cout_lines out' = ["[INFO] Sent: hi"; "[INFO] Received: hi"; "[INFO] Sent: "; "[INFO] Received: ";
                       "[INFO] Sent: there"; "[INFO] Received: there"]%string.
Proof.
  destruct (echo_roundtrip echo_lc AcceptMem_init echo_net 0 echo_slot ["hi"; ""; "there"]%string echo_chunks echo_client
    (mkStreamOS echo_stream [] [2; 0; 1]%nat) (mkCout [])) as (n' & _ & _ & Hback).
  - exact willing_takes.
  - exact echo_net_ok.
  - apply elem_of_cons. by left.
  - reflexivity.
  - repeat constructor; vm_compute; discriminate.
  - by exists (mkTcpClientSocket true 7).
  - repeat constructor; vm_compute; discriminate.
  - vm_compute. reflexivity.
  - destruct Hback as (os' & out' & Hs & _ & _ & Hl).
    + vm_compute. reflexivity.
    + exists os', out'. split; [exact Hs|]. rewrite Hl. reflexivity.
Defined.

(** The peer sends 1025 bytes at once. *)
Lemma echo_long_receive_witness :
  HandleRecv (Some Echo_receiver) (mkCompletionEvent IoRecv (Some 0%nat) (Some (OvRecv 0)) 1025 true 0) (echo_net, tt) = None.
Proof.
  apply (echo_long_receive echo_net tt 0 echo_slot 1025).
  - exact echo_net_ok.
  - reflexivity.
  - vm_compute. split; [reflexivity|discriminate].
Defined.

(** The listener (socket 5), the completion port (7), the first accept (socket 100);
    then its completion, the accept that follows (socket 101) and what comes after. *)
Definition echo_os : TraceOS ScriptOS :=
  mkTraceOS (script_of
    ([sysok; sysval 5; sysok; sysok; sysok; sysok] ++ [sysval 2; sysval 7; sysval 7; sysok; sysok] ++
     [sysval 100; mkSysret 0 ERROR_IO_PENDING []] ++ [sysok; sysval 7; sysok; sysval 101; mkSysret 0 ERROR_IO_PENDING []])) [].

Definition echo_cfg : NetworkCfg := mkNetworkCfg (mkServerCfg 8080 2 1 16) (mkRoomCfg 10) (mkThreadCfg 2 2 (-1)).

Definition echo_events : list LcEvent :=
  [LAccept 1 0; LRecv 0 true echo_stream; LSend 0 true 19; LRecv 0 false []].

Lemma echo_main_started :
  match echo_main_start echo_cfg echo_os tt with
  | Some (es, _, _, r) => negb (HasErr r) && bool_decide (is_Some (es_lifecycle es))
  | None => false
  end = true.
Proof. vm_compute. reflexivity. Qed.

Lemma echo_server_accounting_witness :
  exists lc m n lc' m' (n' : Net (TraceOS ScriptOS) (LcShared unit)),
    lc_run Echo_receiver no_logic (lc, m, (n, tt)) echo_events = Some (lc', m', (n', tt)) /\
    GetConnectedClientCount n' = zsum counted (clients n') /\ zlen (clients n') = 2.
Proof.
  pose proof echo_main_started as Hs.
  destruct (echo_main_start echo_cfg echo_os tt) as [[[[es m] n] r]|] eqn:Hmain; [|discriminate Hs].
  apply andb_true_iff in Hs as [Hr Hlc]. apply negb_true_iff in Hr. apply bool_decide_eq_true in Hlc as [lc Hlc].
  destruct (echo_server_accounting echo_cfg echo_os tt es m n r lc echo_events) as (lc' & m' & n' & Hrun & Hc & Hz & _).
  - vm_compute; discriminate.
  - exact Hmain.
  - exact Hr.
  - exact Hlc.
  - repeat constructor; vm_compute; discriminate.
  - exists lc, m, n, lc', m', n'. split; [exact Hrun|]. split; [exact Hc|exact Hz].
Defined.
