(* ===== verification/ChatSession.v ===== *)
(** * Chat server: sessions

    [exec/chat/chat-server/chat-server/Session.{h,cpp}], [SessionManager.{h,cpp}].

    A [std::shared_ptr<Session>] is the session itself, which never changes after
    construction; its [_tcpClient] is the index of a pool slot.  A shared pointer
    does not dangle: reading the socket behind it is total. *)

From S2P Require Import Prelude Errors Platform FrameBuffer Protocol NetClient Net.
From stdpp Require Import base gmap list strings option.
From coqutil Require Import Byte Datatypes.RecordSetters.
Import DoubleBraceUpdate.
Open Scope Z_scope.

(** @src exec/chat/chat-server/chat-server/Session.h 21-24 Session *)
Record Session := mkSession { _tcpClient : nat; _sessionId : Z }.

#[export] Instance Session_eq_dec : EqDecision Session.
Proof. solve_decision. Defined.

(** @src exec/chat/chat-server/chat-server/SessionManager.h 24-28 SessionManager *)
Record SessionManager := mkSessionManager { _sessionCounter : Z; _sessions : gmap Z Session }.

(** @src exec/chat/chat-server/chat-server/SessionManager.cpp 3-5 SessionManager::SessionManager *)
Definition SessionManager_init : SessionManager := mkSessionManager 0 ∅.

Section Session.
Context {OS W : Type} `{WinSock OS} `{FlatBuffers} `{UMapOrder}.
Implicit Types (n : Net OS W) (s : Session) (sm : SessionManager) (client : nat).

(** @src exec/chat/chat-server/chat-server/Session.cpp 19-50 Session::Send *)
Definition Session_Send s (builder : Packet) n : ub (Net OS W) :=
  c ← clients n !! _tcpClient s;
  if negb (IsConnected c) then Some n
  else
    let buf := fb_finish builder in
    let size := zlen buf in
    if size >? UINT32_MAX then Some n
    else
      let frameSize := u64 (4 + size) in
      if frameSize >? sendBufferSize then Some n
      else
        let frame := replicate (Z.to_nat frameSize) Byte.x00 in
        let payloadSize := htonl (u32 size) in
        frame ← memcpy_at frame 0 (store_u32 payloadSize);
        frame ← memcpy_at frame 4 buf;
        '(n, _) ← Net_PostSend (_tcpClient s) frame n;
        Some n.

(** Sessions are compared by the current value of their sockets. *)
(** @src exec/chat/chat-server/chat-server/Session.cpp 52-54 Session::IsSameSession *)
Definition IsSameSession n s client : bool := socket_of n (_tcpClient s) =? socket_of n client.

(** @src exec/chat/chat-server/chat-server/SessionManager.cpp 7-17 SessionManager::CreateSession *)
Definition CreateSession client sm : SessionManager * Session :=
  let sessionId := _sessionCounter sm in
  let session := mkSession client sessionId in
  (mkSessionManager (u64 (_sessionCounter sm + 1)) (<[sessionId := session]> (_sessions sm)), session).

(** @src exec/chat/chat-server/chat-server/SessionManager.cpp 19-27 SessionManager::GetSession *)
Definition GetSession (sessionId : Z) sm : option Session := _sessions sm !! sessionId.

(** @src exec/chat/chat-server/chat-server/SessionManager.cpp 29-37 SessionManager::GetSessionByClient *)
Definition GetSessionByClient n client sm : option Session :=
  first_match (fun s => IsSameSession n s client) (snd <$> umap_order (_sessions sm)).

(** @src exec/chat/chat-server/chat-server/SessionManager.cpp 39-42 SessionManager::RemoveSession *)
Definition RemoveSession (sessionId : Z) sm : SessionManager * bool :=
  (mkSessionManager (_sessionCounter sm) (delete sessionId (_sessions sm)),
   bool_decide (is_Some (_sessions sm !! sessionId))).

(** @src exec/chat/chat-server/chat-server/SessionManager.cpp 44-51 SessionManager::RemoveByClient *)
Definition RemoveByClient n client sm : SessionManager * bool :=
  let oldSize := size (_sessions sm) in
  let sessions := filter (fun e => IsSameSession n e.2 client = false) (_sessions sm) in
  (mkSessionManager (_sessionCounter sm) sessions, negb (oldSize =? size sessions)%nat).

(** ** What a send puts on the wire *)

(** The frame goes out when the peer is connected and the frame fits. *)
Definition send_calls n (builder : Packet) s : list syscall :=
  if negb (socket_of n (_tcpClient s) =? InvalidSocket) &&
     (zlen (frame_of (fb_finish builder)) <=? sendBufferSize)
  then [SysWSASend (socket_of n (_tcpClient s)) (frame_of (fb_finish builder))] else [].

Lemma send_frame buf :
  zlen (frame_of buf) <= sendBufferSize ->
  (frame ← memcpy_at (replicate (Z.to_nat (u64 (4 + zlen buf))) Byte.x00) 0
             (store_u32 (htonl (u32 (zlen buf))));
   memcpy_at frame 4 buf) = Some (frame_of buf).
Proof.
  rewrite zlen_frame_of. unfold sendBufferSize. intros Hf. assert (kHeaderSize = 4) as H4 by done.
  pose proof (zlen_nonneg buf). rewrite !wrap_small by lia. rewrite <-H4.
  rewrite frame_header_copy by apply length_store_u32. cbn [mbind option_bind].
  by rewrite frame_payload_copy by apply length_store_u32.
Qed.

Lemma Session_Send_spec s builder n :
  Net_inv n -> (_tcpClient s < length (clients n))%nat ->
  exists n', Session_Send s builder n = Some n' /\ Net_inv n' /\ same_conns n n' /\
    net_os n' = run_calls (send_calls n builder s) (net_os n).
Proof.
  intros Hn Hlt. destruct (lookup_lt_is_Some_2 _ _ Hlt) as [c Hc].
  unfold Session_Send, send_calls, socket_of, IsConnected. rewrite Hc. cbn [mbind option_bind].
  destruct (socket c =? InvalidSocket); cbn [negb andb]; [by exists n|].
  rewrite zlen_frame_of, !Z.gtb_ltb. unfold UINT32_MAX, kHeaderSize.
  pose proof (zlen_nonneg (fb_finish builder)). assert (sendBufferSize = 1024) by done.
  destruct (Z.ltb_spec (2 ^ 32 - 1) (zlen (fb_finish builder))).
  { rewrite (proj2 (Z.leb_gt _ _)) by lia. by exists n. }
  rewrite wrap_small by lia.
  destruct (Z.leb_spec (4 + zlen (fb_finish builder)) sendBufferSize) as [Hfit|Hbig].
  - rewrite (proj2 (Z.ltb_ge _ _)) by lia.
    pose proof (send_frame (fb_finish builder)) as Hfr.
    rewrite zlen_frame_of, (wrap_small 64) in Hfr by (unfold kHeaderSize; lia). specialize (Hfr Hfit).
    destruct (memcpy_at (replicate _ _) 0 _) as [f1|]; cbn [mbind option_bind] in *; [|done].
    rewrite Hfr. cbn [mbind option_bind].
    destruct (Net_PostSend_spec n (_tcpClient s) (frame_of (fb_finish builder)) c)
      as (n' & r & c' & -> & Hn' & Hcl & Hsock & Hfb & Hcb & Hest & Hcnt & Hos);
      [done|done|rewrite zlen_frame_of; unfold kHeaderSize; lia|].
    exists n'. split_and!; [done|done| |done]. unfold same_conns. rewrite Hcl.
    rewrite <-(list_insert_id _ _ _ Hc) at 1.
    apply Forall2_insert; [|by split_and!]. apply Forall_Forall2_diag, Forall_true, same_conn_refl.
  - rewrite (proj2 (Z.ltb_lt _ _)) by lia. by exists n.
Qed.

Lemma Session_Send_same s builder n n' : Session_Send s builder n = Some n' -> same_conns n n'.
Proof.
  unfold Session_Send. destruct (clients n !! _tcpClient s) as [c|]; [|done]. cbn [mbind option_bind].
  destruct (negb _); [by intros [= <-]|]. destruct (_ >? UINT32_MAX); [by intros [= <-]|].
  destruct (_ >? sendBufferSize); [by intros [= <-]|].
  destruct (memcpy_at (replicate _ _) 0 _) as [f1|]; [|done]. cbn [mbind option_bind].
  destruct (memcpy_at f1 4 _) as [f2|]; [|done]. cbn [mbind option_bind].
  destruct (Net_PostSend (_tcpClient s) f2 n) as [[n1 r]|] eqn:Hp; [|done]. cbn. intros [= <-].
  by eapply Net_PostSend_same.
Qed.
End Session.
