(* ===== verification/ChatUser.v ===== *)
(** * Chat server: users

    [exec/chat/chat-server/chat-server/User.{h,cpp}], [UserManager.{h,cpp}].
    A user never changes after construction, so a pointer to one is its value. *)

From S2P Require Import Prelude Errors Platform FrameBuffer Protocol NetClient Net ChatSession.
From stdpp Require Import base gmap list strings option.
From coqutil Require Import Byte.
Open Scope Z_scope.

(** @src exec/chat/chat-server/chat-server/User.h 31-34 User *)
Record User := mkUser { _session : Session; _id : Z; _userName : string; _roomId : Z }.

#[export] Instance User_eq_dec : EqDecision User.
Proof. solve_decision. Defined.

(** The room id is narrowed to [uint32_t]. *)
(** @src exec/chat/chat-server/chat-server/User.cpp 5-14 User::User *)
Definition User_make (session : Session) (id : Z) (username : string) (roomId : Z) : User :=
  {| _session := session; _id := id; _userName := username; _roomId := u32 roomId |}.

(** @src exec/chat/chat-server/chat-server/UserManager.h 38-42 UserManager *)
Record UserManager := mkUserManager { _userIdCounter : Z; _users : gmap Z User }.

(** @src exec/chat/chat-server/chat-server/UserManager.cpp 5-10 UserManager::UserManager *)
Definition UserManager_init : UserManager := mkUserManager 0 ∅.

Section User.
Context {OS W : Type} `{WinSock OS} `{FlatBuffers} `{UMapOrder}.
Implicit Types (n : Net OS W) (u : User) (um : UserManager) (client : nat).

(** @src exec/chat/chat-server/chat-server/User.cpp 16-18 User::Send *)
Definition User_Send u (builder : Packet) n : ub (Net OS W) := Session_Send (_session u) builder n.

(** @src exec/chat/chat-server/chat-server/User.cpp 20-22 User::IsSameClient *)
Definition IsSameClient n u client : bool := IsSameSession n (_session u) client.

(** @src exec/chat/chat-server/chat-server/User.cpp 24-28 User::IsSameUser *)
Definition IsSameUser (u user : User) : bool :=
  (_id u =? _id user) && String.eqb (_userName u) (_userName user).

(** @src exec/chat/chat-server/chat-server/UserManager.cpp 77-84 UserManager::GetUserByClient *)
Definition GetUserByClient n client um : option User :=
  first_match (fun u => IsSameClient n u client) (snd <$> umap_order (_users um)).

(** [None] is the null pointer of the two refusals. *)
(** @src exec/chat/chat-server/chat-server/UserManager.cpp 12-41 UserManager::CreateUser *)
Definition CreateUser n client (username : string) (roomId : Z) (sm : SessionManager) um
    : UserManager * option User :=
  match GetSessionByClient n client sm with
  | None => (um, None)
  | Some session =>
      match GetUserByClient n client um with
      | Some _ => (um, None)
      | None =>
          let userId := _userIdCounter um in
          let user := User_make session userId username roomId in
          (mkUserManager (u64 (userId + 1)) (<[userId := user]> (_users um)), Some user)
      end
  end.

(** @src exec/chat/chat-server/chat-server/UserManager.cpp 47-49 UserManager::RemoveUserByUserId *)
Definition RemoveUserByUserId (userId : Z) um : UserManager :=
  mkUserManager (_userIdCounter um) (delete userId (_users um)).

(** @src exec/chat/chat-server/chat-server/UserManager.cpp 43-45 UserManager::RemoveUser *)
Definition RemoveUser (user : User) um : UserManager := RemoveUserByUserId (_id user) um.

(** @src exec/chat/chat-server/chat-server/UserManager.cpp 51-53 UserManager::IsUserExist *)
Definition IsUserExist (userId : Z) um : bool := bool_decide (is_Some (_users um !! userId)).

(** @src exec/chat/chat-server/chat-server/UserManager.cpp 55-60 UserManager::GetUser *)
Definition GetUser (userId : Z) um : option User := _users um !! userId.

(** @src exec/chat/chat-server/chat-server/UserManager.cpp 62-64 UserManager::GetUserCount *)
Definition GetUserCount um : Z := Z.of_nat (size (_users um)).

(** @src exec/chat/chat-server/chat-server/UserManager.cpp 66-75 UserManager::GetAllUsers *)
Definition GetAllUsers um : list User := snd <$> umap_order (_users um).

(** ** Lemmas *)

Lemma elem_of_GetAllUsers um u : u ∈ GetAllUsers um <-> exists k, _users um !! k = Some u.
Proof.
  unfold GetAllUsers. rewrite list_elem_of_fmap. split.
  - intros ([k v] & -> & Hin). exists k. by apply elem_of_umap_order.
  - intros [k Hk]. exists (k, u). split; [done|]. by apply elem_of_umap_order.
Qed.

Lemma GetUserByClient_Some n client um u :
  GetUserByClient n client um = Some u ->
  (exists k, _users um !! k = Some u) /\ IsSameClient n u client = true.
Proof.
  intros Hg. apply first_match_Some in Hg as [Hin Hs]. by rewrite <-elem_of_GetAllUsers.
Qed.

Lemma GetUserByClient_None n client um :
  GetUserByClient n client um = None <->
  forall k u, _users um !! k = Some u -> IsSameClient n u client = false.
Proof.
  unfold GetUserByClient. rewrite first_match_None. setoid_rewrite elem_of_GetAllUsers. naive_solver.
Qed.

(** The order of the hash map does not matter when one user matches. *)
Lemma GetUserByClient_unique n client um k u :
  _users um !! k = Some u -> IsSameClient n u client = true ->
  (forall k' u', _users um !! k' = Some u' -> IsSameClient n u' client = true -> u' = u) ->
  GetUserByClient n client um = Some u.
Proof.
  intros Hk Hs Huniq. apply first_match_unique; [apply elem_of_GetAllUsers; eauto|done|].
  intros y Hy. apply elem_of_GetAllUsers in Hy as [k' Hk']. eauto.
Qed.

Lemma GetSessionByClient_Some n client sm s :
  GetSessionByClient n client sm = Some s ->
  (exists k, _sessions sm !! k = Some s) /\ IsSameSession n s client = true.
Proof.
  intros Hg. apply first_match_Some in Hg as [Hin Hs]. split; [|done].
  apply list_elem_of_fmap in Hin as ([k v] & -> & Hin). exists k. by apply elem_of_umap_order.
Qed.

Lemma GetSessionByClient_is_Some n client sm k s :
  _sessions sm !! k = Some s -> IsSameSession n s client = true ->
  is_Some (GetSessionByClient n client sm).
Proof.
  intros Hk Hs. destruct (GetSessionByClient n client sm) eqn:Hg; [done|].
  unfold GetSessionByClient in Hg. rewrite first_match_None in Hg.
  rewrite Hg in Hs; [done|]. apply list_elem_of_fmap. exists (k, s). split; [done|].
  by apply elem_of_umap_order.
Qed.
End User.
