(* ===== verification/ChatRoom.v ===== *)
(** * Chat server: rooms

    [exec/chat/chat-server/chat-server/room/Room.{h,cpp}], [RoomManager.{h,cpp}].
    A pointer to a room is its position in [_rooms]: rooms are only appended while
    the server runs ([DestroyRoom] has no caller). *)

From S2P Require Import Prelude Errors Platform FrameBuffer Protocol NetClient Net.
From S2P Require Import ChatSession ChatUser.
From stdpp Require Import base gmap list strings option.
From coqutil Require Import Byte.
Open Scope Z_scope.

(** @src exec/chat/chat-server/chat-server/room/Room.h 38-41 Room *)
Record Room := mkRoom { r_users : list User; r_roomId : Z }.

(** @src exec/chat/chat-server/chat-server/room/RoomManager.h 31-34 RoomManager *)
Record RoomManager := mkRoomManager {
  _rooms : list Room; _roomCounter : Z; _maxRoomCapacity : Z }.

Section Room.
Context {OS W : Type} `{WinSock OS} `{FlatBuffers}.
Implicit Types (n : Net OS W) (r : Room) (u : User) (rm : RoomManager).

(** @src exec/chat/chat-server/chat-server/room/Room.cpp 8-14 Room::Room *)
Definition Room_make (roomId : Z) : Room := mkRoom [] roomId.

(** The range-for loops that send one packet to a list of users. *)
Fixpoint send_all (builder : Packet) (us : list User) n : ub (Net OS W) :=
  match us with
  | [] => Some n
  | u :: us => n ← User_Send u builder n; send_all builder us n
  end.

(** @src exec/chat/chat-server/chat-server/room/Room.cpp 16-35 Room::Join *)
Definition Room_Join (user : option User) r n : ub (Room * Net OS W) :=
  match user with
  | None => Some (r, n)
  | Some user =>
      let pkt := makeUserJoinedBroadcast (r_roomId r) (_id user) (_userName user) in
      n ← send_all pkt (r_users r) n;
      Some (mkRoom (r_users r ++ [user]) (r_roomId r), n)
  end.

(** @src exec/chat/chat-server/chat-server/room/Room.cpp 37-68 Room::Leave *)
Definition Room_Leave (userId : Z) r n : ub (Room * Net OS W) :=
  if bool_decide (r_users r = []) then Some (r, n)
  else
    match find_if (fun u => _id u =? userId) (r_users r) with
    | None => Some (r, n)
    | Some found =>
        user ← r_users r !! found;
        let username := _userName user in
        let users := erase_at found (r_users r) in
        let pkt := makeUserLeftBroadcast userId username in
        n ← send_all pkt (erase_if (fun u => _id u =? userId) users) n;
        Some (mkRoom users (r_roomId r), n)
    end.

(** [now] reads the clock twice, for the seconds and for the nanoseconds (in this
    order here; C++ leaves the order of the two arguments open). *)
(** @src exec/chat/chat-server/chat-server/room/Room.cpp 70-90 Room::BroadcastChatMessage *)
Definition BroadcastChatMessage (senderId userId : Z) (username chatMessage : string) (sequence : Z)
    r n : ub (Net OS W) :=
  let '(os, sec) := NowInSec (net_os n) in
  let '(os, ns) := NowInNs os in
  let n := mkNet os (net_w n) (clients n) in
  let pkt := makeChatMessageBroadcast senderId username chatMessage (now sec ns) sequence in
  send_all pkt (erase_if (fun u => _id u =? userId) (r_users r)) n.

(** @src exec/chat/chat-server/chat-server/room/Room.cpp 92-95 Room::GetUserCount *)
Definition Room_GetUserCount r : Z := zlen (r_users r).

(** @src exec/chat/chat-server/chat-server/room/Room.cpp 97-102 Room::Kick *)
Definition Room_Kick (userId : Z) r : Room :=
  mkRoom (erase_if (fun u => _id u =? userId) (r_users r)) (r_roomId r).

(** @src exec/chat/chat-server/chat-server/room/Room.cpp 104-109 Room::KickByDisconnected *)
Definition KickByDisconnected n (client : nat) r : Room :=
  mkRoom (erase_if (fun u => IsSameClient n u client) (r_users r)) (r_roomId r).

(** ** RoomManager *)

(** @src exec/chat/chat-server/chat-server/room/RoomManager.cpp 12-15 RoomManager::RoomManager *)
Fixpoint RoomManager_fill (count : nat) rm : RoomManager :=
  match count with
  | O => rm
  | S count =>
      let roomId := _roomCounter rm in
      RoomManager_fill count
        (mkRoomManager (_rooms rm ++ [Room_make roomId]) (u32 (_roomCounter rm + 1))
           (_maxRoomCapacity rm))
  end.

(** @src exec/chat/chat-server/chat-server/room/RoomManager.cpp 5-16 RoomManager::RoomManager *)
Definition RoomManager_make (initRoomCount maxRoomCapacity : Z) : RoomManager :=
  RoomManager_fill (Z.to_nat (u16 initRoomCount)) (mkRoomManager [] 0 maxRoomCapacity).

(** The new room's position is returned. *)
(** @src exec/chat/chat-server/chat-server/room/RoomManager.cpp 18-29 RoomManager::CreateRoom *)
Definition CreateRoom (roomIdOverride : option Z) rm : RoomManager * nat :=
  let '(roomId, counter) :=
    match roomIdOverride with
    | Some id => (id, _roomCounter rm)
    | None => (_roomCounter rm, u32 (_roomCounter rm + 1))
    end in
  (mkRoomManager (_rooms rm ++ [Room_make roomId]) counter (_maxRoomCapacity rm),
   length (_rooms rm)).

(** @src exec/chat/chat-server/chat-server/room/RoomManager.cpp 31-46 RoomManager::GetOrCreateAvailableRoom *)
Definition GetOrCreateAvailableRoom rm : RoomManager * nat :=
  match find_if (fun r => Room_GetUserCount r <? _maxRoomCapacity rm) (_rooms rm) with
  | Some room => (rm, room)
  | None =>
      let roomId := _roomCounter rm in
      (mkRoomManager (_rooms rm ++ [Room_make roomId]) (u32 (_roomCounter rm + 1))
         (_maxRoomCapacity rm),
       length (_rooms rm))
  end.

(** @src exec/chat/chat-server/chat-server/room/RoomManager.cpp 48-58 RoomManager::DestroyRoom *)
Definition DestroyRoom (roomId : Z) rm : RoomManager * bool :=
  let oldSize := length (_rooms rm) in
  let rooms := erase_if (fun r => r_roomId r =? roomId) (_rooms rm) in
  (mkRoomManager rooms (_roomCounter rm) (_maxRoomCapacity rm), negb (oldSize =? length rooms)%nat).

(** @src exec/chat/chat-server/chat-server/room/RoomManager.cpp 60-67 RoomManager::IsRoomExist *)
Definition IsRoomExist (roomId : Z) rm : bool := existsb (fun r => r_roomId r =? roomId) (_rooms rm).

(** @src exec/chat/chat-server/chat-server/room/RoomManager.cpp 69-83 RoomManager::GetRoom *)
Definition GetRoom (roomId : Z) rm : option nat := find_if (fun r => r_roomId r =? roomId) (_rooms rm).

(** @src exec/chat/chat-server/chat-server/room/RoomManager.cpp 85-90 RoomManager::KickDisconnected *)
Definition KickDisconnected n (client : nat) rm : RoomManager :=
  mkRoomManager (KickByDisconnected n client <$> _rooms rm) (_roomCounter rm) (_maxRoomCapacity rm).

(** A method of the room behind a pointer that updates it. *)
Definition on_room (room : nat) (f : Room -> Net OS W -> ub (Room * Net OS W)) rm n
    : ub (RoomManager * Net OS W) :=
  r ← _rooms rm !! room;
  '(r, n) ← f r n;
  Some (mkRoomManager (<[room := r]> (_rooms rm)) (_roomCounter rm) (_maxRoomCapacity rm), n).
End Room.
