(* ===== verification/ChatHandlers.v ===== *)
(** * Chat server: packet handlers

    [exec/chat/chat-server/chat-server/handlers/{JoinRoom,LeaveRoom,ChatMessage}Handler.cpp]
    and [SelfHandlerRegistry.{h,cpp}], over the three managers they share. *)

From S2P Require Import Prelude Errors Platform FrameBuffer CommandQueue Protocol NetClient Net.
From S2P Require Import PacketDispatcher ChatSession ChatUser ChatRoom.
From stdpp Require Import base gmap list strings option.
From coqutil Require Import Byte Datatypes.RecordSetters.
Import DoubleBraceUpdate.
Open Scope Z_scope.

(** The managers, each behind a [shared_ptr] held by the handlers and the loop. *)
Record ChatState := mkChatState {
  sessions : SessionManager; users : UserManager; rooms : RoomManager }.

Section Handlers.
Context {OS W : Type} `{WinSock OS} `{FlatBuffers} `{UMapOrder}.
Implicit Types (client : nat) (packet : Packet).

(** The payload pointer has the type the dispatcher registered the handler for. *)
Abbreviation Handler := (nat -> Packet -> PayloadBody -> Net OS W * ChatState -> ub (Net OS W * ChatState)).

(** @src exec/chat/chat-server/chat-server/handlers/JoinRoomHandler.cpp 16-43 JoinRoomHandler::Handle *)
Definition JoinRoomHandler_Handle : Handler := fun client packet payload '(n, st) =>
  match payload with
  | JoinRoomRequest username =>
      let '(rm, room) := GetOrCreateAvailableRoom (rooms st) in
      r ← _rooms rm !! room;
      let '(um, newUser) :=
        CreateUser n client (c_str username) (r_roomId r) (sessions st) (users st) in
      match newUser with
      | None => Some (n, mkChatState (sessions st) um rm)
      | Some user =>
          '(rm, n) ← on_room room (Room_Join newUser) rm n;
          let resp := makeJoinedRoomResponse (sequence packet) in
          n ← User_Send user resp n;
          Some (n, mkChatState (sessions st) um rm)
      end
  | _ => None
  end.

(** [room] is dereferenced without a test. *)
(** @src exec/chat/chat-server/chat-server/handlers/LeaveRoomHandler.cpp 16-41 LeaveRoomHandler::Handle *)
Definition LeaveRoomHandler_Handle : Handler := fun client packet payload '(n, st) =>
  match payload with
  | LeaveRoomRequest _ =>
      match GetUserByClient n client (users st) with
      | None => Some (n, st)
      | Some user =>
          room ← GetRoom (_roomId user) (rooms st);
          '(rm, n) ← on_room room (Room_Leave (_id user)) (rooms st) n;
          let resp := makeLeftRoomResponse (sequence packet) in
          n ← User_Send user resp n;
          Some (n, mkChatState (sessions st) (RemoveUserByUserId (_id user) (users st)) rm)
      end
  | _ => None
  end.

(** The room and the name come from the user record, not from the request. *)
(** @src exec/chat/chat-server/chat-server/handlers/ChatMessageHandler.cpp 14-44 ChatMessageHandler::Handle *)
Definition ChatMessageHandler_Handle : Handler := fun client packet payload '(n, st) =>
  match payload with
  | SendMessageRequest _ _ message =>
      match GetUserByClient n client (users st) with
      | None => Some (n, st)
      | Some user =>
          match GetRoom (_roomId user) (rooms st) with
          | None => Some (n, st)
          | Some room =>
              r ← _rooms (rooms st) !! room;
              n ← BroadcastChatMessage (u32 (_id user)) (_id user) (_userName user) message
                    (sequence packet) r n;
              Some (n, st)
          end
      end
  | _ => None
  end.

(** ** Registration *)

Abbreviation Dispatcher := (PacketDispatcher OS W ChatState).

(** A factory registers one handler with the dispatcher it is given. *)
(** @src exec/chat/chat-server/chat-server/SelfHandlerRegistry.h 18-22 SelfHandlerRegistry::FactoryFn *)
Definition FactoryFn : Type := Dispatcher -> Dispatcher.

(** @src exec/chat/chat-server/chat-server/SelfHandlerRegistry.h 34-35 SelfHandlerRegistry *)
Record SelfHandlerRegistry := mkRegistry { _factories : list FactoryFn }.

(** @src exec/chat/chat-server/chat-server/SelfHandlerRegistry.cpp 7-9 SelfHandlerRegistry::Add *)
Definition Registry_Add (fn : FactoryFn) (reg : SelfHandlerRegistry) : SelfHandlerRegistry :=
  mkRegistry (_factories reg ++ [fn]).

(** @src exec/chat/chat-server/chat-server/SelfHandlerRegistry.cpp 11-21 SelfHandlerRegistry::RegisterAll *)
Definition Registry_RegisterAll (d : Dispatcher) (reg : SelfHandlerRegistry) : Dispatcher :=
  foldl (fun d fn => fn d) d (_factories reg).

(** @src exec/chat/chat-server/chat-server/SelfHandlerRegistry.h 49-68 registerSelf *)
Definition registerSelf (T : PayloadName) (handler : Handler) (isEnable : bool)
    (reg : SelfHandlerRegistry) : SelfHandlerRegistry * bool :=
  if negb isEnable then (reg, false)
  else (Registry_Add (RegisterHandler T handler) reg, true).

(** The three static initialisers; their order across translation units is open. *)
Definition chat_handlers : list (PayloadName * Handler) :=
  [(P_JoinRoomRequest, JoinRoomHandler_Handle); (P_LeaveRoomRequest, LeaveRoomHandler_Handle);
   (P_SendMessageRequest, ChatMessageHandler_Handle)].

Definition static_registry (order : list (PayloadName * Handler)) : SelfHandlerRegistry :=
  foldl (fun reg '(T, h) => (registerSelf T h true reg).1) (mkRegistry []) order.
End Handlers.
