(* ===== verification/ChatInvariant.v ===== *)
(** * Chat server: the invariant of sessions, users and rooms

    Every user is stored under its id and names an existing room; room ids are
    distinct; a member of a room is a stored user of that room, once; no room is
    over capacity.  Each operation of the server preserves it and is defined. *)

From S2P Require Import Prelude Errors Platform FrameBuffer CommandQueue Protocol NetClient Net.
From S2P Require Import PacketDispatcher ChatSession ChatUser ChatRoom ChatHandlers.
From coqutil Require Import Byte.
From stdpp Require Import base gmap list strings option.
Open Scope Z_scope.

Section Sending.
Context {OS W : Type} `{WinSock OS} `{FlatBuffers}.
Implicit Types (n : Net OS W).

Definition session_ok n (s : Session) : Prop := (_tcpClient s < length (clients n))%nat.
Definition user_ok n (u : User) : Prop := session_ok n (_session u).

(** The system calls of one packet sent to a list of users. *)
Definition broadcast_calls n (p : Packet) (us : list User) : list syscall :=
  us ≫= fun u => send_calls n p (_session u).

Lemma session_ok_same n n' s : same_conns n n' -> session_ok n s -> session_ok n' s.
Proof. intros Hs. unfold session_ok. by rewrite (same_conns_length n n'). Qed.

Lemma send_calls_same n n' p s : same_conns n n' -> send_calls n' p s = send_calls n p s.
Proof. intros Hs. unfold send_calls. by rewrite !(same_conns_socket n n'). Qed.

Lemma send_all_spec p us n :
  Net_inv n -> Forall (user_ok n) us ->
  exists n', send_all p us n = Some n' /\ Net_inv n' /\ same_conns n n' /\
    net_os n' = run_calls (broadcast_calls n p us) (net_os n).
Proof.
  intros Hn Hus. revert n Hn Hus. induction us as [|u us IH]; intros n Hn Hus.
  { by exists n. }
  inversion Hus as [|?? Hu Hus']; subst. cbn [send_all]. unfold User_Send.
  destruct (Session_Send_spec (_session u) p n Hn Hu) as (n1 & -> & Hn1 & Hs1 & Hos1).
  cbn [mbind option_bind]. destruct (IH n1 Hn1) as (n2 & -> & Hn2 & Hs2 & Hos2).
  { eapply Forall_weaken; [exact Hus'|]. intros u'. by apply session_ok_same. }
  exists n2. split_and!; [done|done|by etrans|].
  rewrite Hos2, Hos1. unfold broadcast_calls. cbn [mbind list_bind]. rewrite run_calls_app. f_equal.
  clear -Hs1. induction us as [|u' us IH]; [done|]. cbn [mbind list_bind].
  by rewrite (send_calls_same n n1) by done; f_equal.
Qed.
End Sending.

Section Invariant.
Context {OS W : Type} `{WinSock OS} `{FlatBuffers} `{UMapOrder}.
Implicit Types (n : Net OS W) (st : ChatState) (um : gmap Z User) (r : Room) (rm : RoomManager).

Definition room_inv um (cap : Z) r : Prop :=
  NoDup (_id <$> r_users r) /\
  Forall (fun u => um !! _id u = Some u /\ _roomId u = r_roomId r) (r_users r) /\
  zlen (r_users r) <= Z.max 1 cap.

Definition room_ids rm : list Z := r_roomId <$> _rooms rm.

Definition rooms_inv um rm : Prop :=
  NoDup (room_ids rm) /\
  0 <= _roomCounter rm /\
  Forall (fun r => 0 <= r_roomId r < _roomCounter rm) (_rooms rm) /\
  Forall (room_inv um (_maxRoomCapacity rm)) (_rooms rm).

Definition users_inv n (rm : RoomManager) (m : UserManager) : Prop :=
  0 <= _userIdCounter m /\
  forall k u, _users m !! k = Some u ->
    _id u = k /\ 0 <= k < _userIdCounter m /\ user_ok n u /\ _roomId u ∈ room_ids rm.

Definition chat_inv n st : Prop :=
  Net_inv n /\
  (forall k s, _sessions (sessions st) !! k = Some s -> session_ok n s) /\
  users_inv n (rooms st) (users st) /\
  rooms_inv (_users (users st)) (rooms st).

(** ** Rooms *)

Lemma rooms_inv_mono um um' rm :
  (forall k u, um !! k = Some u -> um' !! k = Some u) -> rooms_inv um rm -> rooms_inv um' rm.
Proof.
  intros Hsub (Hnd & Hc & Hids & Hrooms). split_and!; try done.
  eapply Forall_weaken; [exact Hrooms|]. intros r (Hn & Hm & Hcap). split_and!; try done.
  eapply Forall_weaken; [exact Hm|]. intros u [Hu ?]. split; auto.
Qed.

Lemma room_ids_insert rm i r r' :
  _rooms rm !! i = Some r -> r_roomId r' = r_roomId r ->
  room_ids (mkRoomManager (<[i := r']> (_rooms rm)) (_roomCounter rm) (_maxRoomCapacity rm)) = room_ids rm.
Proof.
  intros Hi Hid. unfold room_ids. cbn [_rooms]. rewrite list_fmap_insert, Hid. apply list_insert_id.
  by rewrite list_lookup_fmap, Hi.
Qed.

(** Replacing a room by one with the same id that satisfies the invariant. *)
Lemma rooms_inv_insert um rm i r r' :
  rooms_inv um rm -> _rooms rm !! i = Some r -> r_roomId r' = r_roomId r ->
  room_inv um (_maxRoomCapacity rm) r' ->
  rooms_inv um (mkRoomManager (<[i := r']> (_rooms rm)) (_roomCounter rm) (_maxRoomCapacity rm)).
Proof.
  intros (Hnd & Hc & Hids & Hrooms) Hi Hid Hr'.
  split_and!; cbn [_rooms _roomCounter _maxRoomCapacity].
  - by erewrite room_ids_insert.
  - done.
  - apply Forall_insert; [done|]. rewrite Hid. rewrite Forall_lookup in Hids. by apply (Hids i).
  - by apply Forall_insert.
Qed.

Lemma GetRoom_spec rm roomId :
  roomId ∈ room_ids rm ->
  exists i r, GetRoom roomId rm = Some i /\ _rooms rm !! i = Some r /\ r_roomId r = roomId.
Proof.
  intros (r & Hid & Hr)%list_elem_of_fmap. unfold GetRoom. destruct (find_if _ _) as [i|] eqn:Hf.
  - apply find_if_Some in Hf as (r' & Hi & Heq & _). zbool. eauto.
  - rewrite find_if_None in Hf. specialize (Hf r Hr). zbool. done.
Qed.

(** A new empty room, numbered by the counter. *)
Lemma rooms_inv_snoc um rm :
  rooms_inv um rm -> _roomCounter rm + 1 < 2 ^ 32 ->
  rooms_inv um (mkRoomManager (_rooms rm ++ [Room_make (_roomCounter rm)]) (u32 (_roomCounter rm + 1))
                  (_maxRoomCapacity rm)).
Proof.
  intros (Hnd & Hc0 & Hids & Hrooms) Hc. rewrite wrap_small by lia.
  split_and!; cbn [_rooms _roomCounter _maxRoomCapacity].
  - unfold room_ids. cbn [_rooms]. rewrite fmap_app. apply NoDup_snoc; [done|]. intros Hx.
    apply list_elem_of_fmap in Hx as (r & Heq & Hr). pose proof (Forall_elem _ _ _ Hids Hr) as Hlt.
    cbn in Heq, Hlt. lia.
  - lia.
  - apply Forall_app. split; [|repeat constructor; cbn; lia].
    eapply Forall_weaken; [exact Hids|]. cbn. lia.
  - apply Forall_app. split; [done|]. constructor; [|constructor]. split_and!; [constructor|constructor|].
    unfold zlen; cbn; lia.
Qed.

(** The room a newcomer is put into: the first with a free place, or a new one. *)
Lemma GetOrCreateAvailableRoom_spec um rm :
  rooms_inv um rm -> _roomCounter rm + 1 < 2 ^ 32 ->
  exists rm' i r, GetOrCreateAvailableRoom rm = (rm', i) /\ _rooms rm' !! i = Some r /\
    rooms_inv um rm' /\ zlen (r_users r) + 1 <= Z.max 1 (_maxRoomCapacity rm') /\
    (forall id, id ∈ room_ids rm -> id ∈ room_ids rm') /\
    _maxRoomCapacity rm' = _maxRoomCapacity rm /\
    _roomCounter rm <= _roomCounter rm' <= _roomCounter rm + 1.
Proof.
  intros Hinv Hc. unfold GetOrCreateAvailableRoom.
  destruct (find_if _ _) as [i|] eqn:Hf.
  - apply find_if_Some in Hf as (r & Hi & Hfree & _). zbool. unfold Room_GetUserCount in Hfree.
    exists rm, i, r. split_and!; try done; lia.
  - assert (0 <= _roomCounter rm) as Hc0 by apply Hinv.
    eexists _, _, (Room_make (_roomCounter rm)). split; [done|]. cbn [_rooms _roomCounter _maxRoomCapacity].
    split; [by rewrite list_lookup_middle|]. split; [by apply rooms_inv_snoc|].
    rewrite wrap_small by lia. split_and!; [unfold zlen; cbn; lia| |done|lia|lia].
    intros id Hid. unfold room_ids. cbn [_rooms]. rewrite fmap_app. set_solver.
Qed.

(** The rooms afterwards are the rooms before, and at most one empty room. *)
Lemma GetOrCreateAvailableRoom_rooms rm rm' i r :
  GetOrCreateAvailableRoom rm = (rm', i) -> r ∈ _rooms rm' -> r ∈ _rooms rm \/ r_users r = [].
Proof.
  unfold GetOrCreateAvailableRoom. destruct (find_if _ _); intros [= <- <-]; [by left|].
  cbn [_rooms]. intros [Hr|Hr%list_elem_of_singleton]%elem_of_app; [by left|]. right. by subst.
Qed.

Lemma Room_Join_spec um cap u r n :
  Net_inv n -> Forall (user_ok n) (r_users r) -> room_inv um cap r ->
  um !! _id u = Some u -> _roomId u = r_roomId r -> Forall (fun v => _id v <> _id u) (r_users r) ->
  zlen (r_users r) + 1 <= Z.max 1 cap ->
  exists r' n', Room_Join (Some u) r n = Some (r', n') /\
    r_users r' = r_users r ++ [u] /\ r_roomId r' = r_roomId r /\ room_inv um cap r' /\
    Net_inv n' /\ same_conns n n' /\
    net_os n' = run_calls (broadcast_calls n
      (makeUserJoinedBroadcast (r_roomId r) (_id u) (_userName u)) (r_users r)) (net_os n).
Proof.
  intros Hn Hok (Hnd & Hm & Hcap) Hu Hid Hfresh Hroom. unfold Room_Join.
  destruct (send_all_spec (makeUserJoinedBroadcast (r_roomId r) (_id u) (_userName u)) (r_users r) n)
    as (n' & -> & Hn' & Hs & Hos); [done..|].
  eexists _, n'. split_and!; try done.
  split_and!; cbn [r_users r_roomId].
  - rewrite fmap_app. apply NoDup_snoc; [done|]. intros Hx.
    apply list_elem_of_fmap in Hx as (v & Heq & Hv). by apply (Forall_elem _ _ _ Hfresh Hv).
  - apply Forall_app. split; [done|]. by repeat constructor.
  - rewrite zlen_app, zlen_cons, zlen_nil. lia.
Qed.

Lemma room_inv_erase um cap f r :
  room_inv um cap r -> room_inv um cap (mkRoom (erase_if f (r_users r)) (r_roomId r)).
Proof.
  intros (Hnd & Hm & Hcap). split_and!; cbn.
  - by apply NoDup_fmap_erase_if.
  - by apply Forall_erase_if.
  - pose proof (zlen_erase_if f (r_users r)). lia.
Qed.

(** What [Leave] sends: a notice to the others when the user was a member. *)
Definition leave_calls n (u : User) r : list syscall :=
  if bool_decide (u ∈ r_users r)
  then broadcast_calls n (makeUserLeftBroadcast (_id u) (_userName u))
         (erase_if (fun v => _id v =? _id u) (r_users r))
  else [].

Lemma Room_Leave_spec um cap u r n :
  Net_inv n -> Forall (user_ok n) (r_users r) -> room_inv um cap r -> um !! _id u = Some u ->
  exists n', Room_Leave (_id u) r n =
      Some (mkRoom (erase_if (fun v => _id v =? _id u) (r_users r)) (r_roomId r), n') /\
    Net_inv n' /\ same_conns n n' /\ net_os n' = run_calls (leave_calls n u r) (net_os n).
Proof.
  intros Hn Hok (Hnd & Hm & _) Hu.
  assert (forall v, v ∈ r_users r -> _id v = _id u -> v = u) as Huniq.
  { intros v Hv Heq. destruct (Forall_elem _ _ _ Hm Hv) as [Hv' _]. rewrite Heq in Hv'. congruence. }
  unfold Room_Leave, leave_calls. case_bool_decide as He.
  { destruct r as [us id]; cbn in *. subst us. exists n. by rewrite bool_decide_eq_false_2 by set_solver. }
  destruct (find_if (fun v => _id v =? _id u) (r_users r)) as [i|] eqn:Hf.
  - pose proof (find_if_Some _ _ _ Hf) as (v & Hi & Heq & _). zbool.
    pose proof (list_elem_of_lookup_2 _ _ _ Hi) as Hv.
    assert (v = u) as -> by auto. rewrite Hi. cbn [mbind option_bind].
    rewrite (erase_at_unique _ _ _ _ Hnd Hf), erase_if_idemp.
    destruct (send_all_spec (makeUserLeftBroadcast (_id u) (_userName u))
      (erase_if (fun v => _id v =? _id u) (r_users r)) n) as (n' & -> & Hn' & Hs & Hos);
      [done|by apply Forall_erase_if|].
    exists n'. rewrite bool_decide_eq_true_2 by done. by split_and!.
  - rewrite find_if_None in Hf. exists n. rewrite erase_if_none by done.
    rewrite bool_decide_eq_false_2; [by destruct r|].
    intros Hin. specialize (Hf u Hin). zbool. done.
Qed.

(** ** Handlers *)

Lemma chat_inv_same n n' st : same_conns n n' -> Net_inv n' -> chat_inv n st -> chat_inv n' st.
Proof.
  intros Hs Hn' (_ & Hsess & (Hc & Hu) & Hr). split; [done|]. split; [|split; [split; [done|]|done]].
  - intros k s Hk. eapply session_ok_same; [done|]. by eapply Hsess.
  - intros k u Hk. destruct (Hu k u Hk) as (? & ? & ? & ?). split_and!; try done; try lia.
    by eapply session_ok_same.
Qed.

Lemma members_ok n st r :
  chat_inv n st -> r ∈ _rooms (rooms st) ->
  Forall (user_ok n) (r_users r) /\ Forall (fun u => _id u < _userIdCounter (users st)) (r_users r).
Proof.
  intros (_ & _ & (_ & Hu) & (_ & _ & _ & Hrooms)) Hr.
  destruct (Forall_elem _ _ _ Hrooms Hr) as (_ & Hm & _).
  split; (eapply Forall_weaken; [exact Hm|]); intros u [Hk _]; destruct (Hu _ _ Hk) as (? & ? & ? & ?);
    [done|lia].
Qed.

(** The state in which the room for a newcomer has been found. *)
Lemma chat_inv_available n st rm' i r :
  chat_inv n st -> _roomCounter (rooms st) + 1 < 2 ^ 32 ->
  GetOrCreateAvailableRoom (rooms st) = (rm', i) -> _rooms rm' !! i = Some r ->
  chat_inv n (mkChatState (sessions st) (users st) rm') /\
  zlen (r_users r) + 1 <= Z.max 1 (_maxRoomCapacity rm') /\
  _roomCounter (rooms st) <= _roomCounter rm' <= _roomCounter (rooms st) + 1.
Proof.
  intros (Hn & Hsess & (Hc & Hu) & Hr) Hcnt Hgo Hi.
  destruct (GetOrCreateAvailableRoom_spec _ _ Hr Hcnt)
    as (rm2 & i2 & r2 & Hgo2 & Hi2 & Hr2 & Hfree & Hids & _ & Hcs).
  rewrite Hgo in Hgo2. simplify_eq. split; [|lia].
  split; [done|]. split; [done|]. split; [split; [done|]|done]. cbn [users rooms].
  intros k u Hk. destruct (Hu k u Hk) as (? & ? & ? & ?). split; [done|]. split; [done|].
  split; [done|]. by apply Hids.
Qed.

(** A client with a session and no user: it becomes a member of the room found. *)
Lemma Join_accepted n st client packet username rm i r s :
  chat_inv n st -> _roomCounter (rooms st) + 1 < 2 ^ 32 -> _userIdCounter (users st) + 1 < 2 ^ 64 ->
  GetOrCreateAvailableRoom (rooms st) = (rm, i) -> _rooms rm !! i = Some r ->
  GetSessionByClient n client (sessions st) = Some s ->
  GetUserByClient n client (users st) = None ->
  let u := mkUser s (_userIdCounter (users st)) (c_str username) (r_roomId r) in
  exists n' st',
    JoinRoomHandler_Handle client packet (JoinRoomRequest username) (n, st) = Some (n', st') /\
    chat_inv n' st' /\ same_conns n n' /\
    st' = mkChatState (sessions st)
            (mkUserManager (_userIdCounter (users st) + 1) (<[_id u := u]> (_users (users st))))
            (mkRoomManager (<[i := mkRoom (r_users r ++ [u]) (r_roomId r)]> (_rooms rm))
               (_roomCounter rm) (_maxRoomCapacity rm)) /\
    net_os n' =
      run_calls (broadcast_calls n (makeUserJoinedBroadcast (r_roomId r) (_id u) (_userName u)) (r_users r)
                 ++ send_calls n (makeJoinedRoomResponse (sequence packet)) s) (net_os n).
Proof.
  intros Hinv Hrc Huc Hgo Hi Hs Hu u.
  destruct (chat_inv_available n st rm i r Hinv Hrc Hgo Hi) as (Hinv' & Hfree & Hcs).
  destruct (members_ok _ _ r Hinv') as [Hok Hlt]; [by eapply list_elem_of_lookup_2|]. cbn in Hlt.
  destruct Hinv' as (Hn & Hsess & (Hc & Hus) & Hrooms). cbn [sessions users rooms] in *.
  assert (_users (users st) !! _id u = None) as Hfresh.
  { destruct (_users (users st) !! _id u) as [v|] eqn:Hv; [|done].
    destruct (Hus _ _ Hv) as (_ & ? & _). cbn in *. lia. }
  assert (rooms_inv (<[_id u := u]> (_users (users st))) rm) as Hrooms'.
  { eapply rooms_inv_mono; [|exact Hrooms]. intros k v Hk. rewrite lookup_insert_ne; [done|congruence]. }
  assert (0 <= r_roomId r < 2 ^ 32) as Hid.
  { destruct Hrooms as (_ & _ & Hids & _).
    pose proof (Forall_elem _ _ _ Hids (list_elem_of_lookup_2 _ _ _ Hi)). cbn in *. lia. }
  assert (session_ok n s) as Hsok.
  { apply GetSessionByClient_Some in Hs as [[k Hk] _]. by eapply Hsess. }
  destruct (Room_Join_spec (<[_id u := u]> (_users (users st))) (_maxRoomCapacity rm) u r n)
    as (r' & n1 & Hj & Hru & Hrid & Hr' & Hn1 & Hsame1 & Hos1); try done.
  { destruct Hrooms' as (_ & _ & _ & Hr). apply (Forall_elem _ _ _ Hr). by eapply list_elem_of_lookup_2. }
  { apply lookup_insert_eq. }
  { eapply Forall_weaken; [exact Hlt|]. cbn. lia. }
  destruct (Session_Send_spec s (makeJoinedRoomResponse (sequence packet)) n1) as
    (n2 & Hsend & Hn2 & Hsame2 & Hos2); [done|by eapply session_ok_same|].
  eexists n2, _. split; [|split; [|split; [by etrans|split; [done|]]]].
  - unfold JoinRoomHandler_Handle. rewrite Hgo, Hi. cbn [mbind option_bind].
    unfold CreateUser. rewrite Hs, Hu. rewrite (wrap_small 64) by lia. unfold User_make.
    rewrite (wrap_small 32) by done. fold u. unfold on_room. rewrite Hi. cbn [mbind option_bind].
    rewrite Hj. cbn [mbind option_bind]. unfold User_Send. cbn [_session u]. rewrite Hsend. cbn.
    by destruct r'; cbn in *; subst.
  - apply (chat_inv_same n n2); [by etrans|done|]. split; [done|]. split; [done|]. split; [split|].
    + cbn. lia.
    + cbn [users rooms _users _userIdCounter]. intros k v Hk.
      rewrite (room_ids_insert rm i r) by done.
      apply lookup_insert_Some in Hk as [[<- <-]|[Hne Hk]].
      * cbn. split_and!; try done; try lia. apply list_elem_of_fmap. exists r.
        split; [done|]. by eapply list_elem_of_lookup_2.
      * destruct (Hus _ _ Hk) as (? & ? & ? & ?). split_and!; try done; lia.
    + cbn [users rooms _users]. apply rooms_inv_insert with r; try done.
      destruct r' as [us' id']; cbn in *; subst. exact Hr'.
  - rewrite Hos2, Hos1, run_calls_app. by rewrite (send_calls_same n n1).
Qed.

(** A client without a session, or with a user already: nothing changes but, at
    most, an empty room is created. *)
Lemma Join_refused n st client packet username rm i :
  chat_inv n st -> _roomCounter (rooms st) + 1 < 2 ^ 32 ->
  GetOrCreateAvailableRoom (rooms st) = (rm, i) ->
  GetSessionByClient n client (sessions st) = None \/ is_Some (GetUserByClient n client (users st)) ->
  JoinRoomHandler_Handle client packet (JoinRoomRequest username) (n, st) =
    Some (n, mkChatState (sessions st) (users st) rm) /\
  chat_inv n (mkChatState (sessions st) (users st) rm).
Proof.
  intros Hinv Hrc Hgo Href.
  destruct (GetOrCreateAvailableRoom_spec (_users (users st)) (rooms st))
    as (rm2 & i2 & r & Hgo2 & Hi & _); [by apply Hinv|done|].
  rewrite Hgo in Hgo2. simplify_eq.
  destruct (chat_inv_available n st _ _ r Hinv Hrc Hgo Hi) as (Hinv' & _). split; [|done].
  unfold JoinRoomHandler_Handle. rewrite Hgo, Hi. cbn [mbind option_bind]. unfold CreateUser.
  destruct Href as [->|[u Hu]]; [done|]. destruct (GetSessionByClient _ _ _); [|done]. by rewrite Hu.
Qed.

Lemma rooms_inv_fmap um rm (f : Room -> Room) :
  (forall r, r_roomId (f r) = r_roomId r) ->
  (forall r, room_inv um (_maxRoomCapacity rm) r -> room_inv um (_maxRoomCapacity rm) (f r)) ->
  rooms_inv um rm ->
  rooms_inv um (mkRoomManager (f <$> _rooms rm) (_roomCounter rm) (_maxRoomCapacity rm)) /\
  room_ids (mkRoomManager (f <$> _rooms rm) (_roomCounter rm) (_maxRoomCapacity rm)) = room_ids rm.
Proof.
  intros Hid Hf (Hnd & Hc & Hids & Hrooms).
  assert (room_ids (mkRoomManager (f <$> _rooms rm) (_roomCounter rm) (_maxRoomCapacity rm)) = room_ids rm) as Heq.
  { unfold room_ids. cbn [_rooms]. rewrite <-list_fmap_compose. apply list_fmap_ext. intros ? r _. apply Hid. }
  split; [|done]. split_and!; cbn [_rooms _roomCounter _maxRoomCapacity]; try done.
  - by rewrite Heq.
  - apply Forall_fmap. eapply Forall_weaken; [exact Hids|]. intros r. cbn. by rewrite Hid.
  - apply Forall_fmap. eapply Forall_weaken; [exact Hrooms|]. auto.
Qed.

(** Forgetting a user that no room holds. *)
Lemma rooms_inv_delete um rm k :
  (forall r u, r ∈ _rooms rm -> u ∈ r_users r -> _id u <> k) ->
  rooms_inv um rm -> rooms_inv (delete k um) rm.
Proof.
  intros Hno (Hnd & Hc & Hids & Hrooms). split_and!; try done.
  apply Forall_intro. intros r Hr. destruct (Forall_elem _ _ _ Hrooms Hr) as (Hn & Hm & Hcap).
  split_and!; try done. apply Forall_intro. intros u Hu. destruct (Forall_elem _ _ _ Hm Hu) as [Hk ?].
  split; [|done]. rewrite lookup_delete_ne; [done|]. intros ->. by eapply Hno.
Qed.

Lemma Leave_spec n st client packet roomId u :
  chat_inv n st -> GetUserByClient n client (users st) = Some u ->
  exists i r n' st', _rooms (rooms st) !! i = Some r /\ r_roomId r = _roomId u /\
    LeaveRoomHandler_Handle client packet (LeaveRoomRequest roomId) (n, st) = Some (n', st') /\
    chat_inv n' st' /\ same_conns n n' /\
    st' = mkChatState (sessions st) (RemoveUserByUserId (_id u) (users st))
            (mkRoomManager (<[i := mkRoom (erase_if (fun v => _id v =? _id u) (r_users r)) (r_roomId r)]>
               (_rooms (rooms st))) (_roomCounter (rooms st)) (_maxRoomCapacity (rooms st))) /\
    net_os n' = run_calls (leave_calls n u r ++
      send_calls n (makeLeftRoomResponse (sequence packet)) (_session u)) (net_os n).
Proof.
  intros Hinv Hg. pose proof Hinv as (Hn & Hsess & (Hc & Hus) & Hrooms).
  destruct (GetUserByClient_Some _ _ _ _ Hg) as [[k Hk] _].
  destruct (Hus _ _ Hk) as (Hidk & Hlt & Hok & Hroom). rewrite <-Hidk in Hk.
  destruct (GetRoom_spec _ _ Hroom) as (i & r & Hget & Hi & Hid).
  pose proof (list_elem_of_lookup_2 _ _ _ Hi) as Hr.
  destruct (members_ok _ _ r Hinv Hr) as [Hmok _].
  pose proof Hrooms as (Hnd & _ & _ & Hrs).
  destruct (Room_Leave_spec (_users (users st)) (_maxRoomCapacity (rooms st)) u r n)
    as (n1 & Hleave & Hn1 & Hs1 & Hos1); [done|done|by apply (Forall_elem _ _ _ Hrs)|done|].
  destruct (Session_Send_spec (_session u) (makeLeftRoomResponse (sequence packet)) n1) as
    (n2 & Hsend & Hn2 & Hs2 & Hos2); [done|by eapply session_ok_same|].
  eexists i, r, n2, _. do 2 (split; [done|]). split; [|split; [|split; [by etrans|split; [done|]]]].
  - unfold LeaveRoomHandler_Handle. rewrite Hg, Hget. cbn [mbind option_bind]. unfold on_room.
    rewrite Hi. cbn [mbind option_bind]. rewrite Hleave. cbn [mbind option_bind].
    unfold User_Send. rewrite Hsend. done.
  - apply (chat_inv_same n n2); [by etrans|done|]. split; [done|]. split; [done|]. split; [split; [done|]|].
    + cbn [users rooms RemoveUserByUserId _users _userIdCounter]. intros k' v Hv.
      rewrite (room_ids_insert _ i r) by done. apply lookup_delete_Some in Hv as [_ Hv].
      by apply Hus.
    + cbn [users rooms RemoveUserByUserId _users]. apply rooms_inv_delete.
      2:{ eapply rooms_inv_insert; [done|done|done|]. apply room_inv_erase. by apply (Forall_elem _ _ _ Hrs). }
      cbn [_rooms]. intros r' v Hr' Hv Heq. apply list_elem_of_lookup in Hr' as [j Hj].
      destruct (decide (j = i)) as [->|Hne].
      * rewrite list_lookup_insert_eq in Hj by (by eapply lookup_lt_Some). simplify_eq. cbn in Hv.
        apply elem_of_erase_if in Hv as [_ Hv]. zbool. done.
      * rewrite list_lookup_insert_ne in Hj by done.
        destruct (Forall_elem _ _ _ Hrs (list_elem_of_lookup_2 _ _ _ Hj)) as (_ & Hm & _).
        destruct (Forall_elem _ _ _ Hm Hv) as [Hv1 Hv2]. rewrite Heq, Hk in Hv1. injection Hv1 as <-.
        apply Hne. apply (NoDup_lookup (room_ids (rooms st)) j i (r_roomId r)); [done|..];
          unfold room_ids; rewrite list_lookup_fmap; [rewrite Hj|by rewrite Hi].
        cbn. by rewrite Hid, Hv2.
  - rewrite Hos2, Hos1, run_calls_app. by rewrite (send_calls_same n n1).
Qed.

(** The clock readings and the packet of a broadcast. *)
Definition chat_packet (u : User) (message : string) (seq : Z) n : Net OS W * Packet :=
  let '(os, sec) := NowInSec (net_os n) in
  let '(os, ns) := NowInNs os in
  (mkNet os (net_w n) (clients n),
   makeChatMessageBroadcast (u32 (_id u)) (_userName u) message (now sec ns) seq).

Lemma Message_spec n st client packet roomId name message u :
  chat_inv n st -> GetUserByClient n client (users st) = Some u ->
  exists r n', r ∈ _rooms (rooms st) /\ r_roomId r = _roomId u /\
    ChatMessageHandler_Handle client packet (SendMessageRequest roomId name message) (n, st) = Some (n', st) /\
    chat_inv n' st /\ same_conns n n' /\
    let '(n1, p) := chat_packet u message (sequence packet) n in
    net_os n' = run_calls (broadcast_calls n p (erase_if (fun v => _id v =? _id u) (r_users r))) (net_os n1).
Proof.
  intros Hinv Hg. pose proof Hinv as (Hn & Hsess & (Hc & Hus) & Hrooms).
  destruct (GetUserByClient_Some _ _ _ _ Hg) as [[k Hk] _].
  destruct (Hus _ _ Hk) as (_ & _ & _ & Hroom).
  destruct (GetRoom_spec _ _ Hroom) as (i & r & Hget & Hi & Hid).
  pose proof (list_elem_of_lookup_2 _ _ _ Hi) as Hr.
  destruct (members_ok _ _ r Hinv Hr) as [Hmok _].
  unfold ChatMessageHandler_Handle, BroadcastChatMessage, chat_packet.
  rewrite Hg, Hget, Hi. cbn [mbind option_bind].
  destruct (NowInSec (net_os n)) as [os1 sec]. destruct (NowInNs os1) as [os2 ns].
  set (n1 := mkNet os2 (net_w n) (clients n)).
  set (p := makeChatMessageBroadcast _ _ _ _ _).
  destruct (send_all_spec p (erase_if (fun v => _id v =? _id u) (r_users r)) n1)
    as (n' & Hsend & Hn' & Hs & Hos); [done|by apply Forall_erase_if|].
  exists r, n'. rewrite Hsend. split_and!; try done.
  by apply (chat_inv_same n n').
Qed.
End Invariant.
