(* ===== verification/GameLoop.v ===== *)
(** * Chat server: GameLoop

    [exec/chat/chat-server/chat-server/GameLoop.{h,cpp}] and the [LogicThread] it
    owns.  The managers are shared with the handlers and passed along as the
    application state; [Connect], [Receive] and [Disconnect] run on I/O workers,
    [Update] on the logic thread. *)

From S2P Require Import Prelude Errors Platform FrameBuffer CommandQueue Protocol NetClient Net.
From S2P Require Import PacketDispatcher Framing ChatSession ChatUser ChatRoom ChatHandlers.
From coqutil Require Import Byte Datatypes.RecordSetters.
From stdpp Require Import base gmap list strings option.
Import DoubleBraceUpdate.
Open Scope Z_scope.

(** @src exec/chat/chat-server/chat-server/GameLoop.h 23-28 GameLoop::EventCallbacks *)
Record GameLoopCallbacks (W : Type) := mkGameLoopCallbacks {
  glcb_dispatcher : PacketDispatcherCallbacks W;
  onTickDuration : option (Z -> W -> W);
  onTickLag : option (Z -> W -> W);
  onLogicThreadStarted : option (Z -> W -> W) }.

Arguments mkGameLoopCallbacks {W}.
Arguments glcb_dispatcher {W}.
Arguments onTickDuration {W}.
Arguments onTickLag {W}.
Arguments onLogicThreadStarted {W}.

(** [_logicThread] is whether a thread is joinable. *)
(** @src exec/chat/chat-server/chat-server/GameLoop.h 51-59 GameLoop *)
Record GameLoop (OS W : Type) := mkGameLoop {
  gl_tickMs : Z;
  _dispatcher : PacketDispatcher OS W ChatState;
  _logicThread : bool;
  gl_hasStopped : bool;
  gl_callbacks : GameLoopCallbacks W }.

Arguments mkGameLoop {OS W}.
Arguments gl_tickMs {OS W}.
Arguments _dispatcher {OS W}.
Arguments _logicThread {OS W}.
Arguments gl_hasStopped {OS W}.
Arguments gl_callbacks {OS W}.

Section GameLoop.
Context {OS W : Type} `{WinSock OS} `{FlatBuffers} `{UMapOrder}.
Implicit Types (gl : GameLoop OS W) (n : Net OS W) (st : ChatState) (client : nat).

(** The constructor registers the handlers of the registry with the dispatcher. *)
(** @src exec/chat/chat-server/chat-server/GameLoop.cpp 11-29 GameLoop::GameLoop *)
Definition GameLoop_make (packetDispatcher : PacketDispatcher OS W ChatState)
    (registry : SelfHandlerRegistry) (tickMs : Z) : GameLoop OS W :=
  {| gl_tickMs := tickMs;
     _dispatcher := Registry_RegisterAll packetDispatcher registry;
     _logicThread := false;
     gl_hasStopped := false;
     gl_callbacks := mkGameLoopCallbacks PacketDispatcherCallbacks_none None None None |}.

(** @src exec/chat/chat-server/chat-server/GameLoop.cpp 37-40 GameLoop::UseCallbacks *)
Definition GameLoop_UseCallbacks (callbacks : GameLoopCallbacks W) gl : GameLoop OS W :=
  gl {{ gl_callbacks := callbacks;
        _dispatcher ::= PacketDispatcher_UseCallbacks (glcb_dispatcher callbacks) }}.

(** @src exec/chat/chat-server/chat-server/GameLoop.cpp 42-56 GameLoop::Connect *)
Definition GameLoop_Connect client gl st : ChatState :=
  if gl_hasStopped gl then st
  else
    let '(sm, _) := CreateSession client (sessions st) in
    mkChatState sm (users st) (rooms st).

(** @src lib/inc/thread/LogicThread.cpp 10-15 LogicThread::Exit *)
Definition LogicThread_Exit (joinable : bool) : bool := false.

(** @src lib/inc/thread/LogicThread.cpp 5-8 LogicThread::Exec *)
Definition LogicThread_Exec (joinable : bool) : bool :=
  let joinable := LogicThread_Exit joinable in true.

(** @src exec/chat/chat-server/chat-server/GameLoop.cpp 58-64 GameLoop::Start *)
Definition GameLoop_Start gl : GameLoop OS W := gl {{ _logicThread ::= LogicThread_Exec }}.

(** @src exec/chat/chat-server/chat-server/GameLoop.cpp 66-76 GameLoop::Stop *)
Definition GameLoop_Stop gl : GameLoop OS W :=
  if gl_hasStopped gl then gl
  else gl {{ gl_hasStopped := true; _logicThread ::= LogicThread_Exit }}.

(** @src exec/chat/chat-server/chat-server/GameLoop.cpp 78-88 GameLoop::Receive *)
Definition GameLoop_Receive client (data : list byte) gl n : ub (GameLoop OS W * Net OS W) :=
  if gl_hasStopped gl then Some (gl, n)
  else
    '(d, n) ← Receive (_dispatcher gl) client data n;
    Some (gl {{ _dispatcher := d }}, n).

(** The users of the client stay in the user manager. *)
(** @src exec/chat/chat-server/chat-server/GameLoop.cpp 128-138 GameLoop::Disconnect *)
Definition GameLoop_Disconnect client n st : ChatState :=
  let rm := KickDisconnected n client (rooms st) in
  let '(sm, _) := RemoveByClient n client (sessions st) in
  mkChatState sm (users st) rm.

(** One turn of the loop of [Update]; the result says whether it ends with a yield
    (late) or with a sleep until the next tick. *)
(** @src exec/chat/chat-server/chat-server/GameLoop.cpp 102-125 GameLoop::Update *)
Definition Update_turn gl (s : Net OS W * ChatState) : ub (GameLoop OS W * (Net OS W * ChatState) * bool) :=
  let '(s, tickStart) := net_now s in
  let targetNextTick := tickStart + gl_tickMs gl * 10 ^ 6 in
  '(d, s) ← Tick (_dispatcher gl) s;
  let '(s, tickEnd) := net_now s in
  let cb := gl_callbacks gl in
  let n := with_w (emit1 (onTickDuration cb) (tickEnd - tickStart)) s.1 in
  let n := with_w (emit1 (onTickLag cb)
             (if tickEnd >? targetNextTick then tickEnd - targetNextTick else 0)) n in
  Some (gl {{ _dispatcher := d }}, (n, s.2), targetNextTick <? tickEnd).

(** [turns] turns before the stop token is seen, then the deferred last [Tick]. *)
(** @src exec/chat/chat-server/chat-server/GameLoop.cpp 97-125 GameLoop::Update *)
Fixpoint Update_loop (turns : nat) gl (s : Net OS W * ChatState)
    : ub (GameLoop OS W * (Net OS W * ChatState)) :=
  match turns with
  | O => '(d, s) ← Tick (_dispatcher gl) s; Some (gl {{ _dispatcher := d }}, s)
  | S turns => '(gl, s, _) ← Update_turn gl s; Update_loop turns gl s
  end.

(** @src exec/chat/chat-server/chat-server/GameLoop.cpp 90-126 GameLoop::Update *)
Definition GameLoop_Update (threadId : Z) (turns : nat) gl (s : Net OS W * ChatState)
    : ub (GameLoop OS W * (Net OS W * ChatState)) :=
  let n := with_w (emit1 (onLogicThreadStarted (gl_callbacks gl)) threadId) s.1 in
  Update_loop turns gl (n, s.2).

(** [Stop] where it is called: [Exit] asks the logic thread to stop and joins it, after
    [turns] more turns and the last [Tick]. *)
(** @src exec/chat/chat-server/chat-server/GameLoop.cpp 66-76 GameLoop::Stop *)
Definition GameLoop_join (turns : nat) gl (s : Net OS W * ChatState) : ub (GameLoop OS W * (Net OS W * ChatState)) :=
  if negb (gl_hasStopped gl) && _logicThread gl then
    '(gl, s) ← Update_loop turns gl s; Some (GameLoop_Stop gl, s)
  else Some (GameLoop_Stop gl, s).

(** ** Registration *)

Definition dispatch_of (T : PayloadName)
    (h : nat -> Packet -> PayloadBody -> Net OS W * ChatState -> ub (Net OS W * ChatState))
    : DispatchFn OS W ChatState :=
  fun client packet s =>
    match payload_as T packet with None => Some s | Some payload => h client packet payload s end.

Lemma RegisterHandler_eq T h (d : PacketDispatcher OS W ChatState) :
  _handlers (RegisterHandler T h d) = <[PayloadTag T := dispatch_of T h]> (_handlers d).
Proof. by destruct d. Qed.

Lemma RegisterAll_registerSelf (order : list (PayloadName * _)) reg (d : PacketDispatcher OS W ChatState) :
  Registry_RegisterAll d (foldl (fun reg '(T, h) => (registerSelf T h true reg).1) reg order) =
  foldl (fun d '(T, h) => RegisterHandler T h d) (Registry_RegisterAll d reg) order.
Proof.
  revert reg. induction order as [|[T h] order IH]; intros reg; [done|]. cbn [foldl].
  rewrite IH. unfold Registry_RegisterAll, registerSelf, Registry_Add. cbn. by rewrite foldl_app.
Qed.

(** Whatever the order of the static initialisers, each tag gets its handler. *)
Lemma static_registry_handlers (order : list (PayloadName * _)) (d : PacketDispatcher OS W ChatState) T h :
  NoDup (fst <$> order) -> (T, h) ∈ order ->
  _handlers (Registry_RegisterAll d (static_registry order)) !! PayloadTag T = Some (dispatch_of T h).
Proof.
  intros Hnd Hin. unfold static_registry. rewrite RegisterAll_registerSelf.
  change (Registry_RegisterAll d (mkRegistry [])) with d.
  induction order as [|[T0 h0] o IH] using rev_ind; [set_solver|].
  rewrite foldl_snoc, RegisterHandler_eq. rewrite fmap_app, Permutation_app_comm in Hnd.
  inversion Hnd as [|?? Hn0 Hnd']; subst. apply elem_of_app in Hin as [Hin|Hin].
  - rewrite lookup_insert_ne; [by apply IH|]. intros ->%(inj PayloadTag).
    apply Hn0. apply list_elem_of_fmap. by exists (T, h).
  - apply list_elem_of_singleton in Hin as [= -> ->]. apply lookup_insert_eq.
Qed.

(** A dispatcher filled by the registry alone has no other handler. *)
Lemma static_registry_only (order : list (PayloadName * _)) t fn :
  _handlers (Registry_RegisterAll (OS:=OS) (W:=W) PacketDispatcher_init (static_registry order)) !! t = Some fn ->
  exists T h, (T, h) ∈ order /\ t = PayloadTag T /\ fn = dispatch_of T h.
Proof.
  unfold static_registry. rewrite RegisterAll_registerSelf.
  change (Registry_RegisterAll PacketDispatcher_init (mkRegistry []))
    with (PacketDispatcher_init : PacketDispatcher OS W ChatState).
  induction order as [|[T h] o IH] using rev_ind; [done|]. rewrite foldl_snoc, RegisterHandler_eq.
  intros [[<- <-]|[_ Hl]]%lookup_insert_Some.
  - exists T, h. split; [set_solver|done].
  - destruct (IH Hl) as (T' & h' & Hin & -> & ->). exists T', h'. split; [set_solver|done].
Qed.

(** Registration leaves the queue alone. *)
Lemma static_registry_queue (order : list (PayloadName * _)) (d : PacketDispatcher OS W ChatState) :
  _commandQueue (Registry_RegisterAll d (static_registry order)) = _commandQueue d.
Proof.
  unfold static_registry. rewrite RegisterAll_registerSelf.
  change (Registry_RegisterAll d (mkRegistry [])) with d.
  induction order as [|[T h] o IH] using rev_ind; [done|]. rewrite foldl_snoc.
  etrans; [|exact IH]. by destruct (foldl _ d o).
Qed.

Lemma static_registry_batch (order : list (PayloadName * _)) (d : PacketDispatcher OS W ChatState) :
  _tickBatch (Registry_RegisterAll d (static_registry order)) = _tickBatch d.
Proof.
  unfold static_registry. rewrite RegisterAll_registerSelf.
  change (Registry_RegisterAll d (mkRegistry [])) with d.
  induction order as [|[T h] o IH] using rev_ind; [done|]. rewrite foldl_snoc.
  etrans; [|exact IH]. by destruct (foldl _ d o).
Qed.
End GameLoop.
