(* ===== verification/ChatSteps.v ===== *)
(** * Chat server: what the logic does to the connections

    The handlers and [Tick] return in every state in which each session, user and
    room member belongs to a slot of the heap and each user names an existing room,
    whatever the counters have wrapped to; and their effect on the connections is a
    sequence of [net_step]s. *)

From S2P Require Import Prelude Errors Platform FrameBuffer CommandQueue Protocol NetClient Net Ledger.
From S2P Require Import PacketDispatcher NetSteps Framing ChatSession ChatUser ChatRoom ChatHandlers ChatInvariant GameLoop.
From coqutil Require Import Byte Datatypes.RecordSetters.
From stdpp Require Import base gmap list strings option relations.
Import DoubleBraceUpdate.
Open Scope Z_scope.

Section ChatSteps.
Context {OS W : Type} `{WinSock OS} `{FlatBuffers} `{UMapOrder}.
Context (notify : (W -> W) -> Prop).
Implicit Types (n : Net OS W) (st : ChatState) (k : nat).

(** Steps that keep the heap sound. *)
Definition sound_steps n n' : Prop :=
  net_steps notify n n' /\ Net_inv n' /\ length (clients n') = length (clients n).

Lemma sound_refl n : Net_inv n -> sound_steps n n.
Proof. intros. by split_and!. Qed.

Lemma sound_trans n1 n2 n3 : sound_steps n1 n2 -> sound_steps n2 n3 -> sound_steps n1 n3.
Proof. intros (? & ? & ?) (? & ? & ?). split_and!; [by etrans|done|congruence]. Qed.

Lemma sound_with_w f n : Net_inv n -> notify f -> sound_steps n (with_w f n).
Proof. intros. split_and!; [by apply steps_with_w|done|done]. Qed.

Lemma sound_call call n os r :
  Net_inv n -> neutral call -> os_call call (net_os n) = (os, r) ->
  sound_steps n (mkNet os (net_w n) (clients n)).
Proof. intros. split_and!; [by eapply steps_call|done|done]. Qed.

Lemma sound_now {A} n (a : A) :
  Net_inv n -> let '(n', a', _) := net_now (n, a) in sound_steps n n' /\ a' = a.
Proof.
  intros Hn. unfold net_now, NowInNs64. cbn [fst snd].
  destruct (os_call SysSteadyClockNow (net_os n)) as [os r] eqn:Ho. split; [|done].
  by eapply (sound_call SysSteadyClockNow).
Qed.

Lemma sound_close n i b :
  Net_inv n -> (i < length (clients n))%nat -> exists n', Net_Close i b n = Some n' /\ sound_steps n n'.
Proof.
  intros Hn Hi. destruct (lookup_lt_is_Some_2 _ _ Hi) as [c Hc].
  destruct (Net_Close_spec n i b c Hc Hn) as (n' & Hcl & Hn' & Heq & _). exists n'. split; [done|].
  split_and!; [by eapply steps_one, step_close|done|by rewrite Heq, length_insert].
Qed.

(** ** Sending *)

Lemma Session_Send_steps s builder n n' : Session_Send s builder n = Some n' -> net_steps notify n n'.
Proof.
  unfold Session_Send. destruct (clients n !! _tcpClient s) as [c|]; [|done]. cbn [mbind option_bind].
  destruct (negb _); [by intros [= <-]|]. destruct (_ >? UINT32_MAX); [by intros [= <-]|].
  destruct (u64 (4 + zlen (fb_finish builder)) >? sendBufferSize) eqn:Hsz; [by intros [= <-]|].
  destruct (memcpy_at (replicate _ _) 0 _) as [f1|] eqn:H1'; [|done]. cbn [mbind option_bind].
  destruct (memcpy_at f1 4 _) as [f2|] eqn:H2'; [|done]. cbn [mbind option_bind].
  destruct (Net_PostSend (_tcpClient s) f2 n) as [[n1 r]|] eqn:Hp; [|done]. cbn. intros [= <-].
  eapply steps_one, step_send; [|exact Hp]. zbool.
  apply memcpy_at_length in H1', H2'. unfold zlen. rewrite H2', H1', length_replicate.
  pose proof (wrap_range 64 (4 + zlen (fb_finish builder)) ltac:(lia)). lia.
Qed.

Lemma Session_Send_sound s builder n :
  Net_inv n -> (_tcpClient s < length (clients n))%nat ->
  exists n', Session_Send s builder n = Some n' /\ sound_steps n n'.
Proof.
  intros Hn Hs. destruct (Session_Send_spec s builder n Hn Hs) as (n' & Heq & Hn' & Hsame & _).
  exists n'. split; [done|]. split_and!; [by eapply Session_Send_steps|done|by apply same_conns_length].
Qed.

Definition member_ok k (u : User) : Prop := (_tcpClient (_session u) < k)%nat.

Lemma send_all_sound builder us n :
  Net_inv n -> Forall (member_ok (length (clients n))) us ->
  exists n', send_all builder us n = Some n' /\ sound_steps n n'.
Proof.
  revert n. induction us as [|u us IH]; intros n Hn Hus; [by exists n; split; [|apply sound_refl]|].
  inversion Hus as [|?? Hu Hus']; subst. cbn [send_all]. unfold User_Send.
  destruct (Session_Send_sound (_session u) builder n Hn Hu) as (n1 & -> & Hs1). cbn [mbind option_bind].
  destruct (IH n1) as (n2 & -> & Hs2); [apply Hs1|by rewrite (proj2 (proj2 Hs1))|].
  exists n2. split; [done|]. by eapply sound_trans.
Qed.

(** ** What a handler leaves alone

    The handlers send, and change nothing else of the connections. *)

Lemma send_all_same builder us n n' : send_all builder us n = Some n' -> same_conns n n'.
Proof.
  revert n. induction us as [|u us IH]; intros n; [by intros [= <-]|]. cbn [send_all]. unfold User_Send.
  destruct (Session_Send _ _ n) as [n1|] eqn:Hs; [|done]. cbn [mbind option_bind]. intros Hrest.
  etrans; [by eapply Session_Send_same|by apply IH].
Qed.

Lemma on_room_same j f rm rm' n n' :
  (forall r r' n1, f r n = Some (r', n1) -> same_conns n n1) -> on_room j f rm n = Some (rm', n') -> same_conns n n'.
Proof.
  intros Hf. unfold on_room. destruct (_rooms rm !! j) as [r|]; [|done]. cbn [mbind option_bind].
  destruct (f r n) as [[r' n1]|] eqn:Hr; [|done]. cbn. intros [= _ <-]. by eapply Hf.
Qed.

Lemma Room_Join_same u r r' n n' : Room_Join u r n = Some (r', n') -> same_conns n n'.
Proof.
  unfold Room_Join. destruct u as [u|]; [|by intros [= _ <-]].
  destruct (send_all _ _ n) as [n1|] eqn:Hs; [|done]. cbn. intros [= _ <-]. by eapply send_all_same.
Qed.

Lemma Room_Leave_same id r r' n n' : Room_Leave id r n = Some (r', n') -> same_conns n n'.
Proof.
  unfold Room_Leave. case_bool_decide; [by intros [= _ <-]|]. destruct (find_if _ _) as [j|]; [|by intros [= _ <-]].
  destruct (r_users r !! j) as [u|]; [|done]. cbn [mbind option_bind].
  destruct (send_all _ _ n) as [n1|] eqn:Hs; [|done]. cbn. intros [= _ <-]. by eapply send_all_same.
Qed.

Lemma reply_same (r : ub (RoomManager * Net OS W)) n n' u p st' (mk : RoomManager -> ChatState) :
  (forall rm1 n1, r = Some (rm1, n1) -> same_conns n n1) ->
  ('(rm, n) ← r; n ← User_Send u p n; Some (n, mk rm)) = Some (n', st') -> same_conns n n'.
Proof.
  intros Hr. destruct r as [[rm1 n1]|]; [|done]. cbn [mbind option_bind]. unfold User_Send.
  destruct (Session_Send _ _ n1) as [n2|] eqn:Hs; [|done]. cbn. intros [= <- _].
  etrans; [by eapply Hr|by eapply Session_Send_same].
Qed.

Lemma dispatch_keeps T h i p n st n' st' :
  (T, h) ∈ chat_handlers -> dispatch_of T h i p (n, st) = Some (n', st') -> same_conns n n'.
Proof.
  intros Hin. unfold dispatch_of. destruct (payload_as T p) as [b|] eqn:Hb; [|by intros [= <- _]].
  unfold chat_handlers in Hin. rewrite !elem_of_cons, elem_of_nil in Hin.
  destruct Hin as [[= -> ->]|[[= -> ->]|[[= -> ->]|[]]]]; destruct b; try done.
  - unfold JoinRoomHandler_Handle. destruct (GetOrCreateAvailableRoom (rooms st)) as [rm j].
    destruct (_rooms rm !! j) as [r|]; [|done]. cbn [mbind option_bind].
    destruct (CreateUser _ _ _ _ _ _) as [um [u|]]; [|by intros [= <- _]].
    apply (reply_same _ n n' u _ st' (fun rm => mkChatState (sessions st) um rm)).
    intros rm1 n1. apply on_room_same. intros r1 r' n2. apply Room_Join_same.
  - unfold LeaveRoomHandler_Handle. destruct (GetUserByClient _ _ _) as [u|]; [|by intros [= <- _]].
    destruct (GetRoom _ _) as [j|]; [|done]. cbn [mbind option_bind].
    apply (reply_same _ n n' u _ st' (fun rm => mkChatState (sessions st) (RemoveUserByUserId (_id u) (users st)) rm)).
    intros rm1 n1. apply on_room_same. intros r1 r' n2. apply Room_Leave_same.
  - unfold ChatMessageHandler_Handle. destruct (GetUserByClient _ _ _) as [u|]; [|by intros [= <- _]].
    destruct (GetRoom _ _) as [j|]; [|by intros [= <- _]]. destruct (_rooms _ !! j) as [r|]; [|done].
    cbn [mbind option_bind]. unfold BroadcastChatMessage. destruct (NowInSec _) as [os1 sec]. destruct (NowInNs os1) as [os2 ns].
    destruct (send_all _ _ _) as [n1|] eqn:Hs; [|done]. cbn. intros [= <- _]. by apply send_all_same in Hs.
Qed.

(** ** The state of the application *)

Definition room_ok k (r : Room) : Prop := 0 <= r_roomId r < 2 ^ 32 /\ Forall (member_ok k) (r_users r).

Record chat_ok k st : Prop := {
  co_sessions : forall id s, _sessions (sessions st) !! id = Some s -> (_tcpClient s < k)%nat;
  co_users : forall id u, _users (users st) !! id = Some u -> member_ok k u /\ _roomId u ∈ room_ids (rooms st);
  co_rooms : Forall (room_ok k) (_rooms (rooms st));
  co_counter : 0 <= _roomCounter (rooms st) < 2 ^ 32 }.

Lemma connect_chat_ok k gl i st : chat_ok k st -> (i < k)%nat -> chat_ok k (GameLoop_Connect (OS:=OS) (W:=W) i gl st).
Proof.
  intros [] Hi. unfold GameLoop_Connect. destruct (gl_hasStopped gl); [done|]. constructor; cbn; try done.
  intros id s Hs. apply lookup_insert_Some in Hs as [[_ <-]|[_ Hs]]; [done|]. by eapply co_sessions0.
Qed.

Lemma disconnect_chat_ok k i n st : chat_ok k st -> chat_ok k (GameLoop_Disconnect i n st).
Proof.
  intros []. constructor; cbn; try done.
  - intros id s Hs. apply map_lookup_filter_Some in Hs as [Hs _]. by eapply co_sessions0.
  - intros id u Hu. destruct (co_users0 id u Hu) as [? Hin]. split; [done|].
    unfold room_ids in *. cbn. by rewrite <-list_fmap_compose.
  - apply Forall_fmap. eapply Forall_weaken; [exact co_rooms0|]. intros r [? Hm]. split; [done|].
    cbn. by apply Forall_erase_if.
Qed.

(** The room found for a newcomer. *)
Lemma available_ok k st rm i :
  chat_ok k st -> GetOrCreateAvailableRoom (rooms st) = (rm, i) ->
  exists r, _rooms rm !! i = Some r /\ chat_ok k (mkChatState (sessions st) (users st) rm).
Proof.
  intros Hok. unfold GetOrCreateAvailableRoom. destruct (find_if _ _) as [j|] eqn:Hf; intros [= <- <-].
  - apply find_if_Some in Hf as (r & Hi & _). exists r. split; [done|]. by destruct st.
  - destruct Hok. eexists. split; [cbn [_rooms]; by rewrite list_lookup_middle|]. constructor; cbn; try done.
    + intros id u Hu. destruct (co_users0 id u Hu) as [? Hin]. split; [done|].
      unfold room_ids in *. cbn. rewrite fmap_app. set_solver.
    + apply Forall_app. split; [done|]. constructor; [|constructor]. split; [done|constructor].
    + apply wrap_range. lia.
Qed.

(** ** Handlers *)

Definition handled_ok n (r : ub (Net OS W * ChatState)) : Prop :=
  exists n' st', r = Some (n', st') /\ sound_steps n n' /\ chat_ok (length (clients n)) st'.

Lemma join_sound i packet username n st :
  Net_inv n -> chat_ok (length (clients n)) st ->
  handled_ok n (JoinRoomHandler_Handle i packet (JoinRoomRequest username) (n, st)).
Proof.
  intros Hn Hok. unfold JoinRoomHandler_Handle.
  destruct (GetOrCreateAvailableRoom (rooms st)) as [rm j] eqn:Hgo.
  destruct (available_ok _ st rm j Hok Hgo) as (r & Hj & Hok'). rewrite Hj. cbn [mbind option_bind].
  unfold CreateUser. destruct (GetSessionByClient n i (sessions st)) as [s|] eqn:Hs;
    [|by eexists _, _; split; [|split; [apply sound_refl|]]].
  destruct (GetUserByClient n i (users st)); [by eexists _, _; split; [|split; [apply sound_refl|]]|].
  assert (_tcpClient s < length (clients n))%nat as Hlt.
  { apply GetSessionByClient_Some in Hs as [[id Hid] _]. by eapply co_sessions. }
  destruct Hok' as [Hses Hus Hrooms Hctr]. cbn [sessions users rooms] in *.
  assert (room_ok (length (clients n)) r) as [Hrid Hmem]
    by (eapply Forall_elem; [exact Hrooms|by eapply list_elem_of_lookup_2]).
  set (u := User_make s _ _ _). unfold on_room. rewrite Hj. cbn [mbind option_bind]. unfold Room_Join.
  destruct (send_all_sound (makeUserJoinedBroadcast (r_roomId r) (_id u) (_userName u)) (r_users r) n Hn Hmem)
    as (n1 & -> & Hs1). cbn [mbind option_bind].
  unfold User_Send. destruct (Session_Send_sound (_session u) (makeJoinedRoomResponse (sequence packet)) n1)
    as (n2 & -> & Hs2); [apply Hs1|by rewrite (proj2 (proj2 Hs1))|]. cbn [mbind option_bind].
  eexists _, _. split; [done|]. split; [by eapply sound_trans|]. constructor; cbn [sessions users rooms]; try done.
  - cbn [_users]. rewrite (room_ids_insert rm j r) by done. intros id v Hv.
    apply lookup_insert_Some in Hv as [[_ <-]|[_ Hv]]; [|by eapply Hus].
    split; [exact Hlt|]. cbn. rewrite wrap_small by done. unfold room_ids. apply list_elem_of_fmap.
    exists r. split; [done|]. by eapply list_elem_of_lookup_2.
  - cbn. apply Forall_insert; [done|]. split; [done|]. cbn. apply Forall_app. split; [done|]. by repeat constructor.
Qed.

Lemma Room_Leave_sound userId r n :
  Net_inv n -> room_ok (length (clients n)) r ->
  exists r' n', Room_Leave userId r n = Some (r', n') /\ sound_steps n n' /\
    room_ok (length (clients n)) r' /\ r_roomId r' = r_roomId r.
Proof.
  intros Hn [Hid Hm]. unfold Room_Leave. case_bool_decide.
  { eexists _, _. split; [done|]. split; [by apply sound_refl|done]. }
  destruct (find_if _ _) as [j|] eqn:Hf.
  2:{ eexists _, _. split; [done|]. split; [by apply sound_refl|done]. }
  apply find_if_Some in Hf as (u & Hj & _). rewrite Hj. cbn [mbind option_bind].
  assert (Forall (member_ok (length (clients n))) (erase_at j (r_users r))) as Hm'.
  { apply Forall_intro. intros v Hv. eapply Forall_elem; [exact Hm|].
    by eapply (elem_of_sublist _ _ v Hv), erase_at_sublist. }
  destruct (send_all_sound (makeUserLeftBroadcast userId (_userName u))
    (erase_if (fun v => _id v =? userId) (erase_at j (r_users r))) n Hn) as (n' & -> & Hs);
    [by apply Forall_erase_if|].
  eexists _, _. split; [done|]. by split_and!.
Qed.

Lemma leave_sound i packet roomId n st :
  Net_inv n -> chat_ok (length (clients n)) st ->
  handled_ok n (LeaveRoomHandler_Handle i packet (LeaveRoomRequest roomId) (n, st)).
Proof.
  intros Hn Hok. pose proof Hok as [Hses Hus Hrooms Hctr]. unfold LeaveRoomHandler_Handle.
  destruct (GetUserByClient n i (users st)) as [u|] eqn:Hu;
    [|by eexists _, _; split; [|split; [apply sound_refl|]]].
  apply GetUserByClient_Some in Hu as [[id Hu] _]. destruct (Hus id u Hu) as [Hlt Hroom].
  destruct (GetRoom_spec _ _ Hroom) as (j & r & -> & Hj & Hid). cbn [mbind option_bind].
  unfold on_room. rewrite Hj. cbn [mbind option_bind].
  destruct (Room_Leave_sound (_id u) r n Hn) as (r' & n1 & -> & Hs1 & Hr' & Hrid);
    [eapply Forall_elem; [exact Hrooms|by eapply list_elem_of_lookup_2]|]. cbn [mbind option_bind].
  unfold User_Send. destruct (Session_Send_sound (_session u) (makeLeftRoomResponse (sequence packet)) n1)
    as (n2 & -> & Hs2); [apply Hs1|by rewrite (proj2 (proj2 Hs1))|]. cbn [mbind option_bind].
  eexists _, _. split; [done|]. split; [by eapply sound_trans|]. constructor; cbn [sessions users rooms]; try done.
  - cbn [_users RemoveUserByUserId]. rewrite (room_ids_insert (rooms st) j r) by done. intros k v Hv.
    apply lookup_delete_Some in Hv as [_ Hv]. by eapply Hus.
  - cbn. by apply Forall_insert.
Qed.

Lemma message_sound i packet roomId name msg n st :
  Net_inv n -> chat_ok (length (clients n)) st ->
  handled_ok n (ChatMessageHandler_Handle i packet (SendMessageRequest roomId name msg) (n, st)).
Proof.
  intros Hn Hok. unfold ChatMessageHandler_Handle.
  destruct (GetUserByClient n i (users st)) as [u|] eqn:Hu;
    [|by eexists _, _; split; [|split; [apply sound_refl|]]].
  destruct (GetRoom (_roomId u) (rooms st)) as [j|] eqn:Hg;
    [|by eexists _, _; split; [|split; [apply sound_refl|]]].
  apply find_if_Some in Hg as (r & Hj & _). rewrite Hj. cbn [mbind option_bind].
  unfold BroadcastChatMessage, NowInSec, NowInNs.
  destruct (os_call SysSteadyClockNow (net_os n)) as [os1 r1] eqn:Ho1.
  destruct (os_call SysSteadyClockNow os1) as [os2 r2] eqn:Ho2.
  pose proof (sound_call SysSteadyClockNow n os1 r1 Hn I Ho1) as Hs1.
  pose proof (sound_call SysSteadyClockNow (mkNet os1 (net_w n) (clients n)) os2 r2 Hn I Ho2) as Hs2.
  cbn [net_os net_w clients] in Hs2.
  set (pkt := makeChatMessageBroadcast _ _ _ _ _).
  destruct (send_all_sound pkt (erase_if (fun v => _id v =? _id u) (r_users r)) (mkNet os2 (net_w n) (clients n)))
    as (n3 & -> & Hs3); [done| |].
  { apply Forall_erase_if. apply (Forall_elem _ _ r (co_rooms _ _ Hok)). by eapply list_elem_of_lookup_2. }
  cbn [mbind option_bind]. eexists _, _. split; [done|]. split; [|done].
  eapply sound_trans; [exact Hs1|]. by eapply sound_trans.
Qed.

Lemma dispatch_sound T h i p n st :
  (T, h) ∈ chat_handlers -> Net_inv n -> chat_ok (length (clients n)) st ->
  handled_ok n (dispatch_of T h i p (n, st)).
Proof.
  intros Hin Hn Hok. unfold dispatch_of. destruct (payload_as T p) as [b|] eqn:Hb.
  2:{ eexists _, _. split; [done|]. split; [by apply sound_refl|done]. }
  apply payload_as_Some in Hb as (_ & Hname & _).
  unfold chat_handlers in Hin. rewrite !elem_of_cons, elem_of_nil in Hin.
  destruct Hin as [[= -> ->]|[[= -> ->]|[[= -> ->]|[]]]]; destruct b; try done.
  - by apply join_sound.
  - by apply leave_sound.
  - by apply message_sound.
Qed.

(** ** The dispatcher *)

Abbreviation Dispatcher := (PacketDispatcher OS W ChatState).
Implicit Types (d : Dispatcher).

Record dispatcher_ok k d : Prop := {
  do_notifies : dispatcher_notifies notify d;
  do_handlers : forall t fn, _handlers d !! t = Some fn ->
    exists T h, (T, h) ∈ chat_handlers /\ fn = dispatch_of T h;
  do_queue : Forall (fun cmd => (cmd_client cmd < k)%nat) (_writeQueue (_commandQueue d));
  do_batch : Forall (fun cmd => (cmd_client cmd < k)%nat) (_tickBatch d) }.

Lemma DispatchPacket_sound i p d n st :
  dispatcher_ok (length (clients n)) d -> Net_inv n -> chat_ok (length (clients n)) st ->
  exists n' st' r, DispatchPacket i p d (n, st) = Some (n', st', r) /\ sound_steps n n' /\
    chat_ok (length (clients n)) st'.
Proof.
  intros Hd Hn Hok. destruct (_handlers d !! payload_type p) as [fn|] eqn:Hfn.
  - rewrite (DispatchPacket_handler _ _ _ _ _ Hfn).
    destruct (do_handlers _ _ Hd _ _ Hfn) as (T & h & Hin & ->).
    destruct (dispatch_sound T h i p n st Hin Hn Hok) as (n' & st' & -> & Hs & Hok'). cbn. by eexists _, _, _.
  - unfold DispatchPacket. unfold DispatchFn in *. rewrite Hfn. eexists _, _, _. split; [done|].
    split; [by apply sound_refl|done].
Qed.

Lemma Tick_command_sound d cmd n st :
  dispatcher_ok (length (clients n)) d -> Net_inv n -> chat_ok (length (clients n)) st ->
  (cmd_client cmd < length (clients n))%nat ->
  exists n' st', Tick_command d cmd (n, st) = Some (n', st') /\ sound_steps n n' /\
    chat_ok (length (clients n)) st'.
Proof.
  intros Hd Hn Hok Hi. unfold Tick_command. set (s1 := if _ >? 0 then _ else _).
  assert (sound_steps n s1.1 /\ s1.2 = st) as [Hs1 Hst1].
  { subst s1. destruct (_ >? 0); [|split; [by apply sound_refl|done]].
    pose proof (sound_now n st Hn) as Hnow. destruct (net_now (n, st)) as [[n1 st1] t]. destruct Hnow as [Hs ->].
    split; [|done]. eapply sound_trans; [exact Hs|]. apply sound_with_w; [apply Hs|].
    apply (dn_wait _ _ (do_notifies _ _ Hd)). }
  clearbody s1. destruct s1 as [n1 st1]. cbn [fst snd] in *. subst st1.
  destruct (fb_get (cmd_data cmd)) as [packet|]; [|by eexists _, _].
  pose proof (sound_now n1 st (proj1 (proj2 Hs1))) as Hnow. destruct (net_now (n1, st)) as [[n2 st2] t2].
  destruct Hnow as [Hs2 ->]. pose proof (sound_trans _ _ _ Hs1 Hs2) as Hs12.
  pose proof (proj2 (proj2 Hs12)) as Hlen2.
  destruct (DispatchPacket_sound (cmd_client cmd) packet d n2 st) as (n3 & st3 & r & -> & Hs3 & Hok3);
    [by rewrite Hlen2|apply Hs2|by rewrite Hlen2|]. cbn [mbind option_bind].
  rewrite Hlen2 in Hok3. pose proof (sound_trans _ _ _ Hs12 Hs3) as Hs123.
  set (s4 := match onDispatchProcess _ with Some _ => _ | None => _ end).
  assert (sound_steps n3 s4.1 /\ s4.2 = st3) as [Hs4 Hst4].
  { subst s4. pose proof (dn_process _ _ (do_notifies _ _ Hd)) as Hproc.
    destruct (onDispatchProcess (pd_callbacks d)) as [f|]; [|split; [apply sound_refl, Hs3|done]].
    pose proof (sound_now n3 st3 (proj1 (proj2 Hs3))) as Hnow. destruct (net_now (n3, st3)) as [[n4 st4] t].
    destruct Hnow as [Hs ->]. split; [|done]. eapply sound_trans; [exact Hs|].
    apply sound_with_w; [apply Hs|apply (Hproc _)]. }
  clearbody s4. destruct s4 as [n4 st4]. cbn [fst snd] in *. subst st4.
  pose proof (sound_trans _ _ _ Hs123 Hs4) as Hs1234.
  destruct (HasErr r); [|by eexists _, _].
  destruct (sound_close n4 (cmd_client cmd) true) as (n5 & -> & Hs5); [apply Hs4|by rewrite (proj2 (proj2 Hs1234))|].
  cbn [mbind option_bind]. eexists _, _. split; [done|]. split; [by eapply sound_trans|done].
Qed.

Lemma Tick_commands_sound d cmds n st :
  dispatcher_ok (length (clients n)) d -> Net_inv n -> chat_ok (length (clients n)) st ->
  Forall (fun cmd => (cmd_client cmd < length (clients n))%nat) cmds ->
  exists n' st', Tick_commands d cmds (n, st) = Some (n', st') /\ sound_steps n n' /\
    chat_ok (length (clients n)) st'.
Proof.
  intros Hd Hn Hok Hc. revert n st Hd Hn Hok Hc. induction cmds as [|cmd cmds IH]; intros n st Hd Hn Hok Hc.
  { eexists _, _. split; [done|]. split; [by apply sound_refl|done]. }
  inversion Hc as [|?? Hi Hc']; subst. cbn [Tick_commands].
  destruct (Tick_command_sound d cmd n st Hd Hn Hok Hi) as (n1 & st1 & -> & Hs1 & Hok1). cbn [mbind option_bind].
  pose proof (proj2 (proj2 Hs1)) as Hlen.
  destruct (IH n1 st1) as (n2 & st2 & -> & Hs2 & Hok2); [by rewrite Hlen|apply Hs1|by rewrite Hlen..|].
  rewrite Hlen in Hok2. eexists _, _. split; [done|]. split; [by eapply sound_trans|done].
Qed.

Lemma Tick_sound d n st :
  dispatcher_ok (length (clients n)) d -> Net_inv n -> chat_ok (length (clients n)) st ->
  exists d' n' st', Tick d (n, st) = Some (d', (n', st')) /\ sound_steps n n' /\
    dispatcher_ok (length (clients n)) d' /\ chat_ok (length (clients n)) st'.
Proof.
  intros Hd Hn Hok. unfold Tick, MPSCCommandQueue_DrainTo, MPSCCommandQueue_swap. cbn [fst snd].
  set (batch := _writeQueue (_commandQueue d)). set (d1 := d {{ _commandQueue := _; _tickBatch := _ }}).
  assert (pd_callbacks d1 = pd_callbacks d /\ _handlers d1 = _handlers d) as [Hcb Hh] by (by destruct d).
  assert (dispatcher_ok (length (clients n)) d1) as Hd1.
  { destruct Hd. constructor.
    - by eapply dispatcher_notifies_ext.
    - by rewrite Hh.
    - destruct d. cbn. constructor.
    - destruct d. done. }
  set (n1 := with_w _ n).
  assert (sound_steps n n1) as Hs1.
  { apply sound_with_w; [done|]. rewrite Hcb. apply (dn_drained _ _ (do_notifies _ _ Hd)). }
  destruct (Tick_commands_sound d1 batch n1 st) as (n2 & st2 & -> & Hs2 & Hok2); [done|done|done|apply Hd|].
  cbn [mbind option_bind]. eexists _, _, _. split; [done|]. split; [by eapply sound_trans|done].
Qed.

Lemma Receive_loop_batch fuel : forall d i n d' n',
  Receive_loop fuel d i n = Some (d', n') -> _tickBatch d' = _tickBatch d.
Proof.
  induction fuel as [|fuel IH]; intros d i n d' n'; [done|]. cbn [Receive_loop].
  destruct (clients n !! i) as [c|]; [|done]. cbn [mbind option_bind].
  destruct (_ <? kHeaderSize); [by intros [= <- <-]|]. set (payloadLen := ntohl _).
  destruct (_ >? maxFrameSize).
  { destruct (Net_Close i true _) as [n1|]; [|done]. cbn. by intros [= <- <-]. }
  destruct (_ <? u64 _); [by intros [= <- <-]|]. destruct (HasErr _).
  - destruct (Net_Close i true _) as [n1|]; [|done]. cbn [mbind option_bind].
    destruct (Net_Consume i _ n1) as [n2|]; [|done]. cbn. by intros [= <- <-].
  - destruct (_data _) as [packet|]; [|done]. cbn [mbind option_bind].
    unfold PushCommand. destruct (NowInNs64 _) as [os t].
    match goal with |- context [Net_Consume i ?k ?n1] => destruct (Net_Consume i k n1) as [n2|]; [|done] end.
    cbn [mbind option_bind]. intros ->%IH. by destruct d.
Qed.

Lemma Receive_batch d i data n d' n' : Receive d i data n = Some (d', n') -> _tickBatch d' = _tickBatch d.
Proof.
  unfold Receive. destruct (clients n !! i) as [c|]; [|done]. cbn [mbind option_bind].
  destruct (FrameBuffer_Append _ _) as [[fb ok]|]; [|done]. cbn [mbind option_bind]. case_bool.
  - destruct (Net_Close _ _ _) as [n1|]; [|done]. by intros [= <- _].
  - by intros ?%Receive_loop_batch.
Qed.

Lemma Receive_sound d i data n :
  dispatcher_ok (length (clients n)) d -> Net_inv n -> (i < length (clients n))%nat ->
  exists d' n', Receive d i data n = Some (d', n') /\ sound_steps n n' /\ dispatcher_ok (length (clients n)) d'.
Proof.
  intros Hd Hn Hi. destruct (lookup_lt_is_Some_2 _ _ Hi) as [c Hc].
  assert (exists acc rest rej d' n', Receive d i data n = Some (d', n') /\ received d i c n acc rest rej d' n')
    as (acc & rest & rej & d' & n' & Hrec & Hn' & Hcb & Hh & _ & Hq & (fb & _ & Hcl) & _).
  { destruct (Z.le_gt_cases (zlen (FrameBuffer_Data (_frameBuf c)) + zlen data) maxFrameSize).
    - destruct (Receive_fits d i n c data) as (acc & rest & rej & d' & n' & _ & ? & ?); [done..|].
      by exists acc, rest, rej, d', n'.
    - destruct (Receive_overflow d i n c data) as (n' & ? & ?); [done..|]. by eexists _, _, _, _, _. }
  exists d', n'. split; [done|].
  destruct (Receive_steps notify d i data n d' n' (do_notifies _ _ Hd) Hrec) as [Hs _].
  split; [split_and!; [done|done|by rewrite Hcl, length_insert]|]. destruct Hd. constructor.
  - by eapply dispatcher_notifies_ext.
  - by rewrite Hh.
  - assert (Forall (fun v => (v.1.1 < length (clients n))%nat) (queued d')) as Hv.
    { rewrite Hq. apply Forall_app. split.
      - unfold queued. apply Forall_fmap. exact do_queue0.
      - unfold view_of. apply Forall_fmap, Forall_intro. intros [p b] _. exact Hi. }
    unfold queued in Hv. by apply Forall_fmap in Hv.
  - by rewrite (Receive_batch _ _ _ _ _ _ Hrec).
Qed.

(** ** The game loop *)

Record loop_ok k (gl : GameLoop OS W) : Prop := {
  lo_dispatcher : dispatcher_ok k (_dispatcher gl);
  lo_duration : forall t, notify (emit1 (onTickDuration (gl_callbacks gl)) t);
  lo_lag : forall t, notify (emit1 (onTickLag (gl_callbacks gl)) t) }.

Lemma loop_ok_dispatcher k gl d : loop_ok k gl -> dispatcher_ok k d -> loop_ok k (gl {{ _dispatcher := d }}).
Proof. intros [] ?. constructor; by destruct gl. Qed.

Lemma GameLoop_Receive_sound gl i data n :
  loop_ok (length (clients n)) gl -> Net_inv n -> (i < length (clients n))%nat ->
  exists gl' n', GameLoop_Receive i data gl n = Some (gl', n') /\ sound_steps n n' /\ loop_ok (length (clients n)) gl'.
Proof.
  intros Hl Hn Hi. unfold GameLoop_Receive. destruct (gl_hasStopped gl).
  { eexists _, _. split; [done|]. split; [by apply sound_refl|done]. }
  destruct (Receive_sound (_dispatcher gl) i data n (lo_dispatcher _ _ Hl) Hn Hi) as (d' & n' & -> & Hs & Hd').
  cbn [mbind option_bind]. eexists _, _. split; [done|]. split; [done|]. by apply loop_ok_dispatcher.
Qed.

Lemma Update_turn_sound gl n st :
  loop_ok (length (clients n)) gl -> Net_inv n -> chat_ok (length (clients n)) st ->
  exists gl' n' st' late, Update_turn gl (n, st) = Some (gl', (n', st'), late) /\ sound_steps n n' /\
    loop_ok (length (clients n)) gl' /\ chat_ok (length (clients n)) st'.
Proof.
  intros Hl Hn Hok. unfold Update_turn.
  pose proof (sound_now n st Hn) as Hnow. destruct (net_now (n, st)) as [[n1 st1] t1]. destruct Hnow as [Hs1 ->].
  pose proof (proj2 (proj2 Hs1)) as Hlen1.
  destruct (Tick_sound (_dispatcher gl) n1 st) as (d' & n2 & st2 & -> & Hs2 & Hd' & Hok2);
    [rewrite Hlen1; apply Hl|apply Hs1|by rewrite Hlen1|]. cbn [mbind option_bind]. rewrite Hlen1 in Hd', Hok2.
  pose proof (sound_now n2 st2 (proj1 (proj2 Hs2))) as Hnow. destruct (net_now (n2, st2)) as [[n3 st3] t3].
  destruct Hnow as [Hs3 ->]. cbn [fst snd].
  eexists _, _, _, _. split; [done|]. split; [|split; [by apply loop_ok_dispatcher|done]].
  eapply sound_trans; [by eapply sound_trans; [|eapply sound_trans]|].
  eapply sound_trans; (apply sound_with_w; [apply Hs3|]); [apply (lo_duration _ _ Hl)|apply (lo_lag _ _ Hl)].
Qed.
End ChatSteps.
