(* ===== verification/ChatRun.v ===== *)
(** * Chat server: runs

    Every interleaving of connections, packets (well-formed or hostile), closes and
    disconnections, as a sequence of the operations the server performs, from the
    initial state. *)

From S2P Require Import Prelude Errors Platform FrameBuffer CommandQueue Protocol NetClient Net.
From S2P Require Import PacketDispatcher ChatSession ChatUser ChatRoom ChatHandlers ChatInvariant GameLoop.
From coqutil Require Import Byte Datatypes.RecordSetters.
From stdpp Require Import base gmap list strings option.
Import DoubleBraceUpdate.
Open Scope Z_scope.

(** The operations, by the pool slot they concern.
    [CAccept]: a socket is assigned to the slot and the session opened
    ([ServerLifeCycle::SetupClient], [Server::OnAccept]).
    [CPacket]: the logic thread dispatches a packet of the client ([Tick]'s body).
    [CDisconnect]: the peer is gone ([HandleRecv], [Server::OnDisconnect]).
    [CClose]: the dispatcher refuses the connection ([Receive]). *)
Inductive ChatOp :=
  | CAccept (i : nat) (s : Z) | CPacket (i : nat) (p : Packet)
  | CDisconnect (i : nat) | CClose (i : nat).

Definition op_client (op : ChatOp) : nat :=
  match op with CAccept i _ | CPacket i _ | CDisconnect i | CClose i => i end.

Section Run.
Context {OS W : Type} `{WinSock OS} `{FlatBuffers} `{UMapOrder}.
Implicit Types (gl : GameLoop OS W) (n : Net OS W) (st : ChatState).

Definition chat_step gl (s : Net OS W * ChatState) (op : ChatOp) : ub (Net OS W * ChatState) :=
  let '(n, st) := s in
  match op with
  | CAccept i sock =>
      c ← clients n !! i;
      let n := set_client i (c {{ socket := sock }}) n in
      n ← Net_Mark i n;
      Some (n, GameLoop_Connect i gl st)
  | CPacket i p =>
      '(n, st, r) ← DispatchPacket i p (_dispatcher gl) (n, st);
      if HasErr r then n ← Net_Close i true n; Some (n, st) else Some (n, st)
  | CDisconnect i =>
      let st := GameLoop_Disconnect i n st in
      n ← Net_Close i true n;
      Some (n, st)
  | CClose i => n ← Net_Close i true n; Some (n, st)
  end.

Fixpoint chat_run gl (s : Net OS W * ChatState) (ops : list ChatOp) : ub (Net OS W * ChatState) :=
  match ops with
  | [] => Some s
  | op :: ops => s ← chat_step gl s op; chat_run gl s ops
  end.

(** The loop the server builds: the three handlers registered, in some order. *)
Definition chat_loop (order : list (PayloadName * _)) (tickMs : Z) : GameLoop OS W :=
  GameLoop_make PacketDispatcher_init (static_registry order) tickMs.

Definition ChatState_init (initRoomCount maxRoomCapacity : Z) : ChatState :=
  mkChatState SessionManager_init UserManager_init (RoomManager_make initRoomCount maxRoomCapacity).

(** ** The initial state *)

Lemma RoomManager_fill_inv um k rm :
  rooms_inv um rm -> _roomCounter rm + Z.of_nat k < 2 ^ 32 ->
  rooms_inv um (RoomManager_fill k rm) /\
  _roomCounter (RoomManager_fill k rm) = _roomCounter rm + Z.of_nat k /\
  _maxRoomCapacity (RoomManager_fill k rm) = _maxRoomCapacity rm.
Proof.
  revert rm. induction k as [|k IH]; intros rm Hinv Hk; [cbn; split_and!; [done|lia|done]|].
  cbn [RoomManager_fill].
  assert (0 <= _roomCounter rm) as Hc0 by apply Hinv.
  destruct (IH (mkRoomManager (_rooms rm ++ [Room_make (_roomCounter rm)]) (u32 (_roomCounter rm + 1))
    (_maxRoomCapacity rm))) as (Hi & Hc & Hm).
  - by apply rooms_inv_snoc; [|lia].
  - cbn. rewrite wrap_small by lia. lia.
  - split_and!; [done| |done]. rewrite Hc. cbn. rewrite wrap_small by lia. lia.
Qed.

Lemma ChatState_init_inv n count cap :
  Net_inv n -> 0 <= count < 2 ^ 16 ->
  chat_inv n (ChatState_init count cap) /\ _roomCounter (rooms (ChatState_init count cap)) = count.
Proof.
  intros Hn Hc. unfold ChatState_init, RoomManager_make. rewrite wrap_small by done.
  destruct (RoomManager_fill_inv ∅ (Z.to_nat count) (mkRoomManager [] 0 cap)) as (Hi & Hcnt & _).
  { split_and!; try done; constructor. }
  { cbn. lia. }
  split; [|cbn in *; lia]. split; [done|]. split; [by intros ??|]. split; [|done]. by split; [|intros ??].
Qed.

(** ** Each operation *)

(** What survives an operation: the invariant, the slots, and counters that grow
    by at most one. *)
Definition step_ok (s s' : Net OS W * ChatState) : Prop :=
  chat_inv s'.1 s'.2 /\ length (clients s'.1) = length (clients s.1) /\
  _userIdCounter (users s'.2) <= _userIdCounter (users s.2) + 1 /\
  _roomCounter (rooms s'.2) <= _roomCounter (rooms s.2) + 1 /\
  _maxRoomCapacity (rooms s'.2) = _maxRoomCapacity (rooms s.2).

Lemma chat_inv_clients n n' st :
  length (clients n') = length (clients n) -> Net_inv n' -> chat_inv n st -> chat_inv n' st.
Proof.
  intros Hl Hn' (_ & Hsess & (Hc & Hu) & Hr). unfold chat_inv, users_inv, user_ok, session_ok in *.
  by rewrite Hl.
Qed.

Lemma close_ok i n st :
  chat_inv n st -> (i < length (clients n))%nat ->
  exists n', Net_Close i true n = Some n' /\ step_ok (n, st) (n', st).
Proof.
  intros Hinv Hi. destruct (lookup_lt_is_Some_2 _ _ Hi) as [c Hc].
  destruct (Net_Close_spec n i true c) as (n' & -> & Hn' & Hcl & _); [done|by apply Hinv|].
  assert (length (clients n') = length (clients n)) as Hl by (by rewrite Hcl, length_insert).
  exists n'. split; [done|]. split_and!; cbn; try done; try lia. by eapply chat_inv_clients.
Qed.

Lemma disconnect_inv i n st : chat_inv n st -> chat_inv n (GameLoop_Disconnect i n st).
Proof.
  intros (Hn & Hsess & (Hc & Hu) & Hr).
  destruct (rooms_inv_fmap (_users (users st)) (rooms st) (KickByDisconnected n i)) as [Hr' Hids];
    [done|intros r; apply room_inv_erase|done|].
  split; [done|]. split; [|split; [split; [done|]|done]].
  - cbn. intros k s Hk. apply map_lookup_filter_Some in Hk as [Hk _]. by eapply Hsess.
  - intros k u Hk. destruct (Hu k u Hk) as (? & ? & ? & Hin). rewrite <-Hids in Hin.
    split; [done|]. split; [done|]. split; [done|]. exact Hin.
Qed.

Lemma connect_inv i gl n st :
  chat_inv n st -> (i < length (clients n))%nat -> chat_inv n (GameLoop_Connect i gl st).
Proof.
  intros (Hn & Hsess & Hu & Hr) Hi. unfold GameLoop_Connect. destruct (gl_hasStopped gl); [done|].
  split; [done|]. split; [|done]. cbn. intros k s Hk.
  apply lookup_insert_Some in Hk as [[_ <-]|[_ Hk]]; [done|]. by eapply Hsess.
Qed.

Lemma accept_ok i sock gl n st :
  chat_inv n st -> (i < length (clients n))%nat ->
  exists s', chat_step gl (n, st) (CAccept i sock) = Some s' /\ step_ok (n, st) s'.
Proof.
  intros Hinv Hi. destruct (lookup_lt_is_Some_2 _ _ Hi) as [c Hc]. cbn [chat_step]. rewrite Hc.
  cbn [mbind option_bind].
  destruct (Net_Mark_spec (set_client i (c {{ socket := sock }}) n) i (c {{ socket := sock }}))
    as (n' & -> & Hn' & _ & Hcl & _).
  { by eapply set_client_lookup. }
  { apply set_client_inv; [by apply Hinv|]. by destruct (Net_inv_lookup n i c) as (?&?&?&?); [apply Hinv|..]. }
  cbn [mbind option_bind]. eexists; split; [done|].
  assert (length (clients n') = length (clients n)) as Hl by (rewrite Hcl; cbn; by rewrite !length_insert).
  split_and!; cbn; try done; unfold GameLoop_Connect; try (by destruct (gl_hasStopped gl); cbn; lia).
  apply (connect_inv i gl n'); [|by rewrite Hl]. by eapply chat_inv_clients.
Qed.

Lemma step_ok_same n n' st st' :
  chat_inv n' st' -> same_conns n n' ->
  _userIdCounter (users st') <= _userIdCounter (users st) + 1 ->
  _roomCounter (rooms st') <= _roomCounter (rooms st) + 1 ->
  _maxRoomCapacity (rooms st') = _maxRoomCapacity (rooms st) ->
  step_ok (n, st) (n', st').
Proof. intros. split_and!; cbn; try done. by apply same_conns_length. Qed.

Definition counters_free st : Prop :=
  _roomCounter (rooms st) + 1 < 2 ^ 32 /\ _userIdCounter (users st) + 1 < 2 ^ 64.

Lemma join_ok i packet username n st :
  chat_inv n st -> counters_free st ->
  exists s', JoinRoomHandler_Handle i packet (JoinRoomRequest username) (n, st) = Some s' /\
    step_ok (n, st) s'.
Proof.
  intros Hinv [Hrc Huc].
  destruct (GetOrCreateAvailableRoom_spec (_users (users st)) (rooms st))
    as (rm & j & r & Hgo & Hj & _ & _ & _ & Hcap & Hcs); [by apply Hinv|done|].
  destruct (GetSessionByClient n i (sessions st)) as [s|] eqn:Hs;
    [destruct (GetUserByClient n i (users st)) as [u|] eqn:Hu|].
  2:{ destruct (Join_accepted n st i packet username rm j r s) as (n' & st' & Hrun & Hinv' & Hsame & -> & _);
        [done..|]. eexists; split; [exact Hrun|]. apply step_ok_same; cbn; try done; lia. }
  all: destruct (Join_refused n st i packet username rm j) as [Hrun Hinv'];
    [done|done|done|rewrite ?Hu; eauto|].
  all: eexists; split; [exact Hrun|]; apply step_ok_same; cbn; try done; lia.
Qed.

Lemma leave_ok i packet roomId n st :
  chat_inv n st ->
  exists s', LeaveRoomHandler_Handle i packet (LeaveRoomRequest roomId) (n, st) = Some s' /\
    step_ok (n, st) s'.
Proof.
  intros Hinv. destruct (GetUserByClient n i (users st)) as [u|] eqn:Hu.
  - destruct (Leave_spec n st i packet roomId u Hinv Hu)
      as (j & r & n' & st' & _ & _ & Hrun & Hinv' & Hsame & -> & _).
    eexists; split; [exact Hrun|]. apply step_ok_same; cbn; try done; lia.
  - unfold LeaveRoomHandler_Handle. rewrite Hu. eexists; split; [done|].
    apply step_ok_same; try done; lia.
Qed.

Lemma message_ok i packet roomId name msg n st :
  chat_inv n st ->
  exists s', ChatMessageHandler_Handle i packet (SendMessageRequest roomId name msg) (n, st) = Some s' /\
    step_ok (n, st) s'.
Proof.
  intros Hinv. destruct (GetUserByClient n i (users st)) as [u|] eqn:Hu.
  - destruct (Message_spec n st i packet roomId name msg u Hinv Hu)
      as (r & n' & _ & _ & Hrun & Hinv' & Hsame & _).
    eexists; split; [exact Hrun|]. apply step_ok_same; cbn; try done; lia.
  - unfold ChatMessageHandler_Handle. rewrite Hu. eexists; split; [done|].
    apply step_ok_same; try done; lia.
Qed.

(** A registered handler is only given bodies of its own type. *)
Lemma dispatch_ok T h i p n st :
  (T, h) ∈ chat_handlers -> chat_inv n st -> counters_free st ->
  exists s', dispatch_of T h i p (n, st) = Some s' /\ step_ok (n, st) s'.
Proof.
  intros Hin Hinv Hfree. unfold dispatch_of. destruct (payload_as T p) as [b|] eqn:Hb.
  2:{ eexists; split; [done|]. apply step_ok_same; try done; lia. }
  apply payload_as_Some in Hb as (_ & Hname & _).
  unfold chat_handlers in Hin. rewrite !elem_of_cons, elem_of_nil in Hin.
  destruct Hin as [[= -> ->]|[[= -> ->]|[[= -> ->]|[]]]]; destruct b; try done.
  - by apply join_ok.
  - by apply leave_ok.
  - by apply message_ok.
Qed.

Lemma chat_step_ok order tickMs n st op :
  order ≡ₚ chat_handlers -> chat_inv n st -> counters_free st ->
  (op_client op < length (clients n))%nat ->
  exists s', chat_step (chat_loop order tickMs) (n, st) op = Some s' /\ step_ok (n, st) s'.
Proof.
  intros Hord Hinv Hfree Hi. destruct op as [i sock|i p|i|i]; cbn [op_client] in Hi.
  - by apply accept_ok.
  - cbn [chat_step]. unfold DispatchPacket. cbn [_dispatcher chat_loop GameLoop_make].
    destruct (_handlers _ !! payload_type p) as [fn|] eqn:Hfn.
    + apply static_registry_only in Hfn as (T & h & Hin & _ & ->). rewrite Hord in Hin.
      destruct (dispatch_ok T h i p n st Hin Hinv Hfree) as ([n' st'] & -> & Hok).
      cbn. by eexists.
    + cbn [mbind option_bind HasErr Err _hasError].
      destruct (close_ok i n st Hinv Hi) as (n' & -> & Hok). cbn. by eexists.
  - cbn [chat_step]. destruct (close_ok i n _ (disconnect_inv i n st Hinv) Hi) as (n' & -> & Hok).
    cbn [mbind option_bind]. eexists; split; [done|]. exact Hok.
  - cbn [chat_step]. destruct (close_ok i n st Hinv Hi) as (n' & -> & Hok). cbn. by eexists.
Qed.

Lemma chat_run_ok order tickMs ops n st :
  order ≡ₚ chat_handlers -> chat_inv n st ->
  Forall (fun op => op_client op < length (clients n))%nat ops ->
  _roomCounter (rooms st) + zlen ops + 1 < 2 ^ 32 ->
  _userIdCounter (users st) + zlen ops + 1 < 2 ^ 64 ->
  exists n' st', chat_run (chat_loop order tickMs) (n, st) ops = Some (n', st') /\ chat_inv n' st' /\
    _maxRoomCapacity (rooms st') = _maxRoomCapacity (rooms st).
Proof.
  intros Hord. revert n st. induction ops as [|op ops IH]; intros n st Hinv Hops Hrc Huc.
  { by exists n, st. }
  rewrite zlen_cons in *. pose proof (zlen_nonneg ops). inversion Hops; subst.
  destruct (chat_step_ok order tickMs n st op) as ([n1 st1] & Hs & Hinv1 & Hl & Hu1 & Hr1 & Hcap1);
    [done|done|split; lia|done|]. cbn in *.
  destruct (IH n1 st1) as (n2 & st2 & Hrun & Hinv2 & Hcap2); [done|by rewrite Hl|lia|lia|].
  exists n2, st2. rewrite Hs. cbn. split_and!; [done|done|congruence].
Qed.

Lemma chat_run_app gl s ops1 ops2 :
  chat_run gl s (ops1 ++ ops2) = (s' ← chat_run gl s ops1; chat_run gl s' ops2).
Proof.
  revert s. induction ops1 as [|op ops1 IH]; intros s; [done|]. cbn.
  destruct (chat_step gl s op) as [s'|]; cbn; [apply IH|done].
Qed.

(** A packet of one of the three request types is handed to its handler. *)
Lemma chat_step_packet order tickMs s i t b seq h :
  order ≡ₚ chat_handlers -> (body_name b, h) ∈ chat_handlers ->
  chat_step (chat_loop order tickMs) s (CPacket i (finishTypedPacket t b seq)) =
    h i (finishTypedPacket t b seq) b s.
Proof.
  intros Hord Hin. destruct s as [n st].
  assert (_handlers (_dispatcher (chat_loop order tickMs)) !! PayloadTag (body_name b) =
    Some (dispatch_of (body_name b) h)) as Hh.
  { apply static_registry_handlers; [|by rewrite Hord]. rewrite Hord. cbn. repeat constructor; set_solver. }
  cbn [chat_step]. rewrite (DispatchPacket_handler i (finishTypedPacket t b seq) _ _ _ Hh).
  unfold dispatch_of. rewrite payload_as_finishTypedPacket, decide_True by done.
  destruct (h i _ b (n, st)) as [[n' st']|]; done.
Qed.

(** The chat server is safe on every run.  From the initial state, any sequence
    of fewer than about four billion connections, packets (of any tag and body,
    hostile ones included), refusals and disconnections, on any slots, is
    executed without undefined behaviour (in particular the unchecked room
    pointer of [LeaveRoomHandler] is never null), whatever the system answers
    and whatever order hash maps and static initialisers take; and sessions, users
    and rooms stay consistent. *)
Lemma chat_server_safe order tickMs n ops count cap :
  order ≡ₚ chat_handlers -> Net_inv n -> 0 <= count < 2 ^ 16 ->
  Forall (fun op => op_client op < length (clients n))%nat ops ->
  zlen ops < 2 ^ 31 ->
  exists n' st',
    chat_run (chat_loop order tickMs) (n, ChatState_init count cap) ops = Some (n', st') /\
    chat_inv n' st'.
Proof.
  intros Hord Hn Hcnt Hops Hlen. destruct (ChatState_init_inv n count cap Hn Hcnt) as [Hinv Hc].
  destruct (chat_run_ok order tickMs ops n (ChatState_init count cap))
    as (n' & st' & Hrun & Hinv' & _); [done|done|done|lia|cbn; lia|]. by exists n', st'.
Qed.

(** C13: room membership.  In every state the server can reach, a room holds at most
    its capacity (one when the configured capacity is 0), nobody sits in a room
    twice, and nobody sits in two rooms. *)
Theorem room_membership order tickMs n ops count cap n' st' :
  order ≡ₚ chat_handlers -> Net_inv n -> 0 <= count < 2 ^ 16 ->
  Forall (fun op => op_client op < length (clients n))%nat ops -> zlen ops < 2 ^ 31 ->
  chat_run (chat_loop order tickMs) (n, ChatState_init count cap) ops = Some (n', st') ->
  (forall r, r ∈ _rooms (rooms st') ->
     zlen (r_users r) <= Z.max 1 cap /\ NoDup (_id <$> r_users r)) /\
  (forall r1 r2 u1 u2, r1 ∈ _rooms (rooms st') -> r2 ∈ _rooms (rooms st') ->
     u1 ∈ r_users r1 -> u2 ∈ r_users r2 -> _id u1 = _id u2 -> u1 = u2 /\ r_roomId r1 = r_roomId r2).
Proof.
  intros Hord Hn Hcnt Hops Hlen Hrun.
  destruct (ChatState_init_inv n count cap Hn Hcnt) as [Hinv Hc].
  destruct (chat_run_ok order tickMs ops n (ChatState_init count cap))
    as (n2 & st2 & Hrun2 & (_ & _ & _ & (_ & _ & _ & Hrooms)) & Hcap); [done|done|done|lia|cbn; lia|].
  rewrite Hrun in Hrun2. simplify_eq. split.
  - intros r Hr. destruct (Forall_elem _ _ _ Hrooms Hr) as (Hnd & _ & Hle). split; [|done].
    rewrite Hcap in Hle. cbn in Hle. unfold RoomManager_make in Hle.
    destruct (RoomManager_fill_inv ∅ (Z.to_nat (u16 count)) (mkRoomManager [] 0 cap)) as (_ & _ & Hm).
    { split_and!; try done; constructor. }
    { cbn. rewrite wrap_small by done. lia. }
    rewrite Hm in Hle. exact Hle.
  - intros r1 r2 u1 u2 Hr1 Hr2 Hu1 Hu2 Hid.
    destruct (Forall_elem _ _ _ Hrooms Hr1) as (_ & Hm1 & _).
    destruct (Forall_elem _ _ _ Hrooms Hr2) as (_ & Hm2 & _).
    destruct (Forall_elem _ _ _ Hm1 Hu1) as [Hk1 Hi1]. destruct (Forall_elem _ _ _ Hm2 Hu2) as [Hk2 Hi2].
    rewrite Hid, Hk2 in Hk1. simplify_eq. split; [done|congruence].
Qed.
End Run.
