(* ===== verification/ChatProps.v ===== *)
(** * Chat server: what clients observe

    Who receives which bytes when somebody joins, speaks or leaves; what a
    disconnection removes; and what it leaves behind for the next connection on
    the same slot. *)

From S2P Require Import Prelude Errors Platform FrameBuffer CommandQueue Protocol NetClient Net.
From S2P Require Import PacketDispatcher ChatSession ChatUser ChatRoom ChatHandlers ChatInvariant.
From S2P Require Import GameLoop ChatRun.
From coqutil Require Import Byte Datatypes.RecordSetters.
From stdpp Require Import base gmap list strings option.
Import DoubleBraceUpdate.
Open Scope Z_scope.

Section Props.
Context {OS W : Type} `{WinSock OS} `{FlatBuffers} `{UMapOrder}.
Implicit Types (n : Net OS W) (st : ChatState) (i : nat).

(** One frame to each user of a list, in order. *)
Definition frames_to n (p : Packet) (us : list User) : list syscall :=
  (fun u => SysWSASend (socket_of n (_tcpClient (_session u))) (frame_of (fb_finish p))) <$> us.

Definition reachable_user n (u : User) : Prop := socket_of n (_tcpClient (_session u)) <> InvalidSocket.

#[export] Instance reachable_user_dec n u : Decision (reachable_user n u).
Proof. unfold reachable_user. apply _. Defined.

(** A frame that fits a send buffer goes to the users of the list that are connected; one
    that does not goes to nobody. *)
Lemma broadcast_frames_filter n p us :
  broadcast_calls n p us =
    if zlen (frame_of (fb_finish p)) <=? sendBufferSize then frames_to n p (filter (reachable_user n) us) else [].
Proof.
  induction us as [|u us IH]; [by destruct (_ <=? _)|].
  unfold broadcast_calls in *. cbn [mbind list_bind]. rewrite IH. unfold send_calls. rewrite filter_cons.
  destruct (Z.eqb_spec (socket_of n (_tcpClient (_session u))) InvalidSocket) as [Hs|Hs];
    [rewrite decide_False by (intros Hr; by apply Hr)|rewrite decide_True by done]; by destruct (_ <=? _).
Qed.

Lemma broadcast_frames n p us :
  Forall (reachable_user n) us -> zlen (frame_of (fb_finish p)) <= sendBufferSize ->
  broadcast_calls n p us = frames_to n p us.
Proof.
  intros Hus Hfit. induction Hus as [|u us Hu _ IH]; [done|].
  unfold broadcast_calls, frames_to in *. cbn. rewrite IH. unfold send_calls.
  rewrite (proj2 (Z.eqb_neq _ _) Hu), (proj2 (Z.leb_le _ _) Hfit). done.
Qed.

(** C16: what becomes of a chat message.  In a consistent state, when the client that asks
    has a user, the handler returns and changes no session, user or room.  A message whose
    frame fits a send buffer is sent once, in room order, to each other member of the
    speaker's room that is connected, and to nobody else; in particular not to the speaker,
    although the client's ChatMessage.md says that the sender also receives what it sent.
    A message whose frame does not fit is sent to nobody.  What is sent carries the name
    and id the server stored for the speaker and the sequence number of the request,
    whatever room and name the request claims. *)
Theorem message_reaches_room n st i packet roomId name message u :
  chat_inv n st -> GetUserByClient n i (users st) = Some u ->
  let '(n1, p) := chat_packet u message (sequence packet) n in
  let others r := filter (reachable_user n) (erase_if (fun v => _id v =? _id u) (r_users r)) in
  exists r n', r ∈ _rooms (rooms st) /\ r_roomId r = _roomId u /\
    ChatMessageHandler_Handle i packet (SendMessageRequest roomId name message) (n, st) = Some (n', st) /\
    net_os n' = run_calls (if zlen (frame_of (fb_finish p)) <=? sendBufferSize then frames_to n p (others r) else [])
      (net_os n1).
Proof.
  intros Hinv Hu.
  destruct (Message_spec n st i packet roomId name message u Hinv Hu)
    as (r & n' & Hr & Hid & Hrun & _ & _ & Hos).
  destruct (chat_packet u message (sequence packet) n) as [n1 p].
  exists r, n'. split_and!; try done. by rewrite Hos, broadcast_frames_filter.
Qed.

(** A join is announced and acknowledged.  A connected client that has a session
    and no user becomes the last member of the first room with a free place (or of
    a new room); every earlier member is told once, in order, and the newcomer is
    sent the acknowledgement carrying the request's sequence number last. *)
Lemma join_announced n st i packet username rm j r s :
  chat_inv n st -> counters_free st ->
  GetOrCreateAvailableRoom (rooms st) = (rm, j) -> _rooms rm !! j = Some r ->
  GetSessionByClient n i (sessions st) = Some s -> GetUserByClient n i (users st) = None ->
  let u := mkUser s (_userIdCounter (users st)) (c_str username) (r_roomId r) in
  let joined := makeUserJoinedBroadcast (r_roomId r) (_id u) (_userName u) in
  let ack := makeJoinedRoomResponse (sequence packet) in
  Forall (reachable_user n) (r_users r ++ [u]) ->
  zlen (frame_of (fb_finish joined)) <= sendBufferSize ->
  zlen (frame_of (fb_finish ack)) <= sendBufferSize ->
  exists n' st',
    JoinRoomHandler_Handle i packet (JoinRoomRequest username) (n, st) = Some (n', st') /\
    _users (users st') = <[_id u := u]> (_users (users st)) /\
    _rooms (rooms st') = <[j := mkRoom (r_users r ++ [u]) (r_roomId r)]> (_rooms rm) /\
    net_os n' = run_calls (frames_to n joined (r_users r) ++ frames_to n ack [u]) (net_os n).
Proof.
  intros Hinv [Hrc Huc] Hgo Hj Hs Hu u joined ack Hreach Hfit1 Hfit2.
  destruct (Join_accepted n st i packet username rm j r s) as (n' & st' & Hrun & _ & _ & -> & Hos); [done..|].
  exists n'. eexists. split; [exact Hrun|]. split; [done|]. split; [done|]. rewrite Hos.
  apply Forall_app in Hreach as [Hr1 Hr2].
  rewrite broadcast_frames by done. f_equal. f_equal.
  rewrite <-(broadcast_frames n ack [u]) by done. unfold broadcast_calls. cbn. by rewrite app_nil_r.
Qed.

(** The user created by a join is the one found for that client afterwards. *)
Lemma GetUserByClient_joined n i st s u :
  _users (users st) !! _id u = None -> _session u = s -> IsSameSession n s i = true ->
  GetUserByClient n i (users st) = None ->
  forall um, _users um = <[_id u := u]> (_users (users st)) -> GetUserByClient n i um = Some u.
Proof.
  intros Hfresh Hs Hsame Hnone um Hum. rewrite GetUserByClient_None in Hnone.
  apply (GetUserByClient_unique n i um (_id u)).
  - rewrite Hum. apply lookup_insert_eq.
  - unfold IsSameClient. by rewrite Hs.
  - intros k v Hk Hv. rewrite Hum in Hk. apply lookup_insert_Some in Hk as [[_ <-]|[_ Hk]]; [done|].
    rewrite (Hnone _ _ Hk) in Hv. done.
Qed.

Lemma IsSameSession_same n n' s i : same_conns n n' -> IsSameSession n' s i = IsSameSession n s i.
Proof. intros Hs. unfold IsSameSession. by rewrite !(same_conns_socket n n'). Qed.

Lemma GetUserByClient_same n n' i um :
  same_conns n n' -> GetUserByClient n' i um = GetUserByClient n i um.
Proof.
  intros Hs. unfold GetUserByClient, IsSameClient.
  generalize (snd <$> umap_order (_users um)). intros l. induction l as [|u l IH]; [done|]. cbn.
  by rewrite (IsSameSession_same n n'), IH.
Qed.

Lemma erase_joined u (us : list User) :
  Forall (fun v => _id v < _id u) us -> erase_if (fun v => _id v =? _id u) (us ++ [u]) = us.
Proof.
  intros Hlt. unfold erase_if. rewrite List.filter_app. cbn. rewrite Z.eqb_refl. cbn. rewrite app_nil_r.
  apply erase_if_none. intros v Hv. apply Z.eqb_neq.
  pose proof (Forall_elem _ _ _ Hlt Hv). cbn in *. lia.
Qed.

(** C20: leaving undoes joining.  After a join that was accepted, the same client's
    leave request removes exactly what the join added: the user map and the
    members of every room are what they were, and the client may join again. *)
Theorem join_leave_roundtrip n st i p1 p2 username roomId rm j r s :
  chat_inv n st -> counters_free st ->
  GetOrCreateAvailableRoom (rooms st) = (rm, j) -> _rooms rm !! j = Some r ->
  GetSessionByClient n i (sessions st) = Some s -> GetUserByClient n i (users st) = None ->
  exists n1 st1 n2 st2,
    JoinRoomHandler_Handle i p1 (JoinRoomRequest username) (n, st) = Some (n1, st1) /\
    LeaveRoomHandler_Handle i p2 (LeaveRoomRequest roomId) (n1, st1) = Some (n2, st2) /\
    _users (users st2) = _users (users st) /\ _rooms (rooms st2) = _rooms rm /\
    sessions st2 = sessions st /\ GetUserByClient n2 i (users st2) = None.
Proof.
  intros Hinv [Hrc Huc] Hgo Hj Hs Hu.
  destruct (Join_accepted n st i p1 username rm j r s) as (n1 & st1 & Hjoin & Hinv1 & Hsame1 & -> & _);
    [done..|].
  set (u := mkUser s _ _ _) in *. exists n1. eexists. 
  assert (_users (users st) !! _id u = None) as Hfresh.
  { destruct (_users (users st) !! _id u) as [v|] eqn:Hv; [|done].
    destruct Hinv as (_ & _ & (_ & Hus) & _). destruct (Hus _ _ Hv) as (_ & ? & _). cbn in *. lia. }
  destruct (GetSessionByClient_Some _ _ _ _ Hs) as [_ Hss].
  set (um1 := mkUserManager (_userIdCounter (users st) + 1) (<[_id u := u]> (_users (users st)))) in *.
  set (rm1 := mkRoomManager (<[j := _]> (_rooms rm)) _ _) in *.
  assert (GetUserByClient n1 i um1 = Some u) as Hu1.
  { rewrite (GetUserByClient_same n n1) by done. by apply (GetUserByClient_joined n i st s u). }
  destruct (Leave_spec n1 (mkChatState (sessions st) um1 rm1) i p2 roomId u Hinv1 Hu1)
    as (k & r' & n2 & st2 & Hk & Hid & Hleave & _ & Hsame2 & -> & _).
  eexists n2, _. split; [exact Hjoin|]. split; [exact Hleave|].
  cbn [rooms users sessions] in Hk, Hid |- *. change (_roomId u) with (r_roomId r) in Hid.
  assert (_rooms rm1 !! j = Some (mkRoom (r_users r ++ [u]) (r_roomId r))) as Hj1.
  { apply list_lookup_insert_eq. by eapply lookup_lt_Some. }
  assert (k = j) as ->.
  { destruct Hinv1 as (_ & _ & _ & (Hnd & _)). cbn in Hnd.
    apply (NoDup_lookup (room_ids rm1) k j (r_roomId r)); [done|..]; unfold room_ids;
      rewrite list_lookup_fmap; [by rewrite Hk; cbn; rewrite Hid|by rewrite Hj1]. }
  rewrite Hj1 in Hk. injection Hk as <-. cbn [r_users r_roomId].
  assert (delete (_id u) (<[_id u := u]> (_users (users st))) = _users (users st)) as Hdel
    by (by apply delete_insert_id).
  split_and!; [done| |done|].
  - unfold rm1. cbn [_rooms]. rewrite list_insert_insert_eq. apply list_insert_id. rewrite Hj. f_equal.
    destruct (chat_inv_available n st rm j r Hinv Hrc Hgo Hj) as (Hinv' & _).
    destruct (members_ok _ _ r Hinv') as [_ Hlt]; [by eapply list_elem_of_lookup_2|].
    rewrite erase_joined by exact Hlt. by destruct r.
  - rewrite (GetUserByClient_same n n2) by (by etrans).
    unfold GetUserByClient, RemoveUserByUserId. cbn [_users um1]. rewrite Hdel. exact Hu.
Qed.

(** ** Disconnection *)

(** The slots other than [i] have other sockets. *)
Definition socket_unique n i : Prop := forall j, socket_of n j = socket_of n i -> j = i.

(** C21: a disconnection removes the client and nobody else.  When no other slot
    has the socket of [i], [Disconnect] removes exactly the sessions of slot [i],
    and from every room exactly the users of slot [i], keeping the order of the
    others. *)
Theorem disconnect_isolated n st i :
  socket_unique n i ->
  let st' := GameLoop_Disconnect i n st in
  (forall k s, _sessions (sessions st') !! k = Some s <->
     _sessions (sessions st) !! k = Some s /\ _tcpClient s <> i) /\
  _rooms (rooms st') =
    (fun r => mkRoom (erase_if (fun u => bool_decide (_tcpClient (_session u) = i)) (r_users r)) (r_roomId r))
      <$> _rooms (rooms st).
Proof.
  intros Huniq st'.
  assert (forall s, IsSameSession n s i = bool_decide (_tcpClient s = i)) as Hsame.
  { intros s. unfold IsSameSession. destruct (Z.eqb_spec (socket_of n (_tcpClient s)) (socket_of n i)) as [Heq|Hne].
    - symmetry. apply bool_decide_eq_true. by apply Huniq.
    - symmetry. apply bool_decide_eq_false. congruence. }
  split.
  - intros k s. cbn. rewrite map_lookup_filter_Some. cbn. rewrite Hsame, bool_decide_eq_false. done.
  - cbn. apply list_fmap_ext. intros _ r _. unfold KickByDisconnected, IsSameClient. f_equal.
    induction (r_users r) as [|u us IH]; [done|]. unfold erase_if in *. cbn. by rewrite Hsame, IH.
Qed.

(** closed connections are confused with each other.  Sessions are compared by
    socket, and every closed slot has the same one: a disconnection reported for a
    closed slot removes the sessions of all closed slots, and their users from all
    rooms. *)
Lemma closed_slots_alias n st i :
  socket_of n i = InvalidSocket ->
  let st' := GameLoop_Disconnect i n st in
  (forall k s, _sessions (sessions st') !! k = Some s -> socket_of n (_tcpClient s) <> InvalidSocket) /\
  (forall r u, r ∈ _rooms (rooms st') -> u ∈ r_users r -> reachable_user n u).
Proof.
  intros Hi st'. split.
  - cbn. intros k s [_ Hne]%map_lookup_filter_Some. cbn in Hne. unfold IsSameSession in Hne.
    rewrite Hi in Hne. by apply Z.eqb_neq.
  - cbn. intros r u Hr Hu. apply list_elem_of_fmap in Hr as (r0 & -> & _). cbn in Hu.
    apply elem_of_erase_if in Hu as [_ Hne]. unfold IsSameClient, IsSameSession in Hne.
    rewrite Hi in Hne. by apply Z.eqb_neq.
Qed.

(** ** The next connection on a slot *)

Lemma socket_of_insert n (os : OS) (w : W) i c j :
  (i < length (clients n))%nat ->
  socket_of (mkNet os w (<[i := c]> (clients n))) j = if decide (j = i) then socket c else socket_of n j.
Proof.
  intros Hi. unfold socket_of. cbn [clients]. case_decide as Hj.
  - subst j. by rewrite list_lookup_insert_eq.
  - by rewrite list_lookup_insert_ne.
Qed.

Lemma socket_of_clients (n n' : Net OS W) j : clients n' = clients n -> socket_of n' j = socket_of n j.
Proof. intros Hc. unfold socket_of. by rewrite Hc. Qed.

(** A peer disconnects and the slot is given to a new connection. *)
Lemma reconnected gl n st i sock :
  chat_inv n st -> (i < length (clients n))%nat ->
  exists n2, chat_run gl (n, st) [CDisconnect i; CAccept i sock] =
      Some (n2, GameLoop_Connect i gl (GameLoop_Disconnect i n st)) /\
    chat_inv n2 (GameLoop_Connect i gl (GameLoop_Disconnect i n st)) /\
    length (clients n2) = length (clients n) /\
    socket_of n2 i = sock /\ forall j, j <> i -> socket_of n2 j = socket_of n j.
Proof.
  intros Hinv Hi. destruct (lookup_lt_is_Some_2 _ _ Hi) as [c Hc].
  pose proof (disconnect_inv i n st Hinv) as Hinv1.
  destruct (Net_Close_spec n i true c) as (n1 & Hclose & Hn1 & Hcl1 & _); [done|by apply Hinv|].
  assert (length (clients n1) = length (clients n)) as Hl1 by (by rewrite Hcl1, length_insert).
  destruct (accept_ok i sock gl n1 (GameLoop_Disconnect i n st)) as ([n2 st2] & Hacc & Hinv2 & Hl2 & _).
  { by eapply chat_inv_clients. }
  { by rewrite Hl1. }
  cbn [fst snd] in *.
  assert (chat_step gl (n, st) (CDisconnect i) = Some (n1, GameLoop_Disconnect i n st)) as Hdis
    by (cbn [chat_step]; by rewrite Hclose).
  assert (clients n1 !! i = Some (closed c)) as Hi1 by (rewrite Hcl1; by apply list_lookup_insert_eq).
  pose proof Hacc as Hacc'. cbn [chat_step] in Hacc'. rewrite Hi1 in Hacc'. cbn [mbind option_bind] in Hacc'.
  set (c2 := (closed c) {{ socket := sock }}) in *.
  destruct (Net_Mark_spec (set_client i c2 n1) i c2) as (n3 & Hmark & _ & _ & Hcl3 & _).
  { by eapply set_client_lookup. }
  { apply set_client_inv; [done|]. by destruct (Net_inv_lookup n1 i _ Hn1 Hi1) as (?&?&?&?). }
  rewrite Hmark in Hacc'. cbn [mbind option_bind] in Hacc'. injection Hacc' as -> <-. exists n2.
  split; [cbn [chat_run]; rewrite Hdis; cbn [mbind option_bind]; by rewrite Hacc|].
  split; [done|]. split; [congruence|]. cbn [clients set_client] in Hcl3.
  rewrite list_insert_insert_eq, Hcl1, list_insert_insert_eq in Hcl3.
  set (c3 := c2 {{ _connectionEstablished := true; _connectionEventCounted := true }}) in Hcl3.
  assert (forall j, socket_of n2 j = if decide (j = i) then sock else socket_of n j) as Hsock.
  { intros j. rewrite <-(socket_of_clients n2 (mkNet (net_os n) (net_w n) (<[i := c3]> (clients n)))) by done.
    rewrite socket_of_insert by done. by case_decide. }
  split; [by rewrite Hsock, decide_True|]. intros j Hj. by rewrite Hsock, decide_False.
Qed.

(** a disconnection does not remove the user, and the next connection on the slot
    inherits it: its join request is silently refused (the user map does not
    change and nobody on the slot is in a room), for every request name and every
    order of the hash maps. *)
Lemma ghost_user_locks_out order tickMs n st i sock name seq k u :
  order ≡ₚ chat_handlers -> chat_inv n st -> counters_free st ->
  _users (users st) !! k = Some u -> _tcpClient (_session u) = i ->
  exists n' st',
    chat_run (chat_loop order tickMs) (n, st)
      [CDisconnect i; CAccept i sock; CPacket i (makeJoinRoomRequest name seq)] = Some (n', st') /\
    users st' = users st /\
    forall r v, r ∈ _rooms (rooms st') -> v ∈ r_users r -> _tcpClient (_session v) <> i.
Proof.
  intros Hord Hinv [Hrc _] Hk Hui.
  assert (i < length (clients n))%nat as Hi.
  { destruct Hinv as (_ & _ & (_ & Hus) & _). destruct (Hus _ _ Hk) as (_ & _ & Hok & _).
    unfold user_ok, session_ok in Hok. by rewrite Hui in Hok. }
  set (gl := chat_loop order tickMs).
  destruct (reconnected gl n st i sock Hinv Hi) as (n2 & Hrun & Hinv2 & Hl2 & _).
  set (st2 := GameLoop_Connect i gl (GameLoop_Disconnect i n st)) in *.
  assert (users st2 = users st /\ _rooms (rooms st2) = KickByDisconnected n i <$> _rooms (rooms st)
    /\ _roomCounter (rooms st2) = _roomCounter (rooms st)) as (Hu2 & Hr2 & Hc2) by done.
  destruct (GetOrCreateAvailableRoom_spec (_users (users st2)) (rooms st2))
    as (rm & j & r & Hgo & Hj & _); [by apply Hinv2|by rewrite Hc2|].
  set (p := makeJoinRoomRequest name seq).
  destruct (Join_refused n2 st2 i p name rm j) as [Hjoin _]; [done|by rewrite Hc2|done|right|].
  { destruct (GetUserByClient n2 i (users st2)) eqn:Hg; [done|]. rewrite GetUserByClient_None in Hg.
    rewrite Hu2 in Hg. specialize (Hg _ _ Hk). unfold IsSameClient, IsSameSession in Hg.
    rewrite Hui, Z.eqb_refl in Hg. done. }
  exists n2, (mkChatState (sessions st2) (users st2) rm).
  change [CDisconnect i; CAccept i sock; CPacket i p] with ([CDisconnect i; CAccept i sock] ++ [CPacket i p]).
  rewrite chat_run_app, Hrun. cbn [mbind option_bind chat_run].
  assert (chat_step gl (n2, st2) (CPacket i p) =
    JoinRoomHandler_Handle i p (JoinRoomRequest name) (n2, st2)) as Hstep.
  { apply (chat_step_packet order tickMs (n2, st2) i CS_JoinRoom (JoinRoomRequest name)); [done|].
    apply elem_of_cons. by left. }
  rewrite Hstep, Hjoin. cbn [mbind option_bind].
  split_and!; [done|done|]. cbn [rooms]. intros r0 v Hr0 Hv Hvi.
  destruct (GetOrCreateAvailableRoom_rooms _ _ _ _ Hgo Hr0) as [Hr0'|Hempty];
    [|rewrite Hempty in Hv; by apply not_elem_of_nil in Hv].
  rewrite Hr2 in Hr0'. apply list_elem_of_fmap in Hr0' as (r1 & -> & _). cbn in Hv.
  apply elem_of_erase_if in Hv as [_ Hv]. unfold IsSameClient, IsSameSession in Hv.
  by rewrite Hvi, Z.eqb_refl in Hv.
Qed.

(** C39: a connection can speak as the previous user of its slot.  After a disconnection
    and a new connection on the slot, a chat message of the newcomer, who never
    joined, is broadcast to the old user's room under the old user's name. *)
Theorem ghost_identity gl n st i sock packet roomId name message k u :
  chat_inv n st -> _users (users st) !! k = Some u -> _tcpClient (_session u) = i ->
  (forall k' u', _users (users st) !! k' = Some u' -> _tcpClient (_session u') = i -> u' = u) ->
  (forall j, j <> i -> socket_of n j <> sock) ->
  exists n2 st2 r n',
    chat_run gl (n, st) [CDisconnect i; CAccept i sock] = Some (n2, st2) /\
    r ∈ _rooms (rooms st2) /\ r_roomId r = _roomId u /\
    ChatMessageHandler_Handle i packet (SendMessageRequest roomId name message) (n2, st2) = Some (n', st2) /\
    let '(n3, p) := chat_packet u message (sequence packet) n2 in
    net_os n' = run_calls (broadcast_calls n2 p (erase_if (fun v => _id v =? _id u) (r_users r))) (net_os n3).
Proof.
  intros Hinv Hk Hui Huniq Hfresh.
  assert (i < length (clients n))%nat as Hi.
  { destruct Hinv as (_ & _ & (_ & Hus) & _). destruct (Hus _ _ Hk) as (_ & _ & Hok & _).
    unfold user_ok, session_ok in Hok. by rewrite Hui in Hok. }
  destruct (reconnected gl n st i sock Hinv Hi) as (n2 & Hrun & Hinv2 & Hl2 & Hsi & Hsj).
  set (st2 := GameLoop_Connect i gl (GameLoop_Disconnect i n st)) in *.
  assert (users st2 = users st) as Hu2 by (unfold st2, GameLoop_Connect; by destruct (gl_hasStopped gl)).
  assert (GetUserByClient n2 i (users st2) = Some u) as Hg.
  { rewrite Hu2. apply (GetUserByClient_unique n2 i (users st) k); [done| |].
    - unfold IsSameClient, IsSameSession. by rewrite Hui, Z.eqb_refl.
    - intros k' u' Hk' Hs'. unfold IsSameClient, IsSameSession in Hs'. zbool.
      destruct (decide (_tcpClient (_session u') = i)) as [He|Hne]; [by eapply Huniq|].
      rewrite Hsi, Hsj in Hs' by done. exfalso. by eapply Hfresh. }
  destruct (Message_spec n2 st2 i packet roomId name message u Hinv2 Hg)
    as (r & n' & Hr & Hid & Hm & _ & _ & Hos). exists n2, st2, r, n'. by split_and!.
Qed.
End Props.

(** ** Witnesses

    Two connected clients; alice and bob share room 0 in [pair_state], and nobody
    has joined yet in [lobby_state]. *)

#[local] Instance demo_chat_codec : FlatBuffers := book_codec [].

Definition pair_net : Net ScriptOS unit :=
  mkNet (script_of []) tt [Client_init {{ socket := 10 }}; Client_init {{ socket := 11 }}].

Definition alice : User := mkUser (mkSession 0 0) 0 "alice" 0.
Definition bob : User := mkUser (mkSession 1 1) 1 "bob" 0.

Definition pair_sessions : SessionManager :=
  mkSessionManager 2 (<[0 := mkSession 0 0]> (<[1 := mkSession 1 1]> ∅)).

Definition pair_state : ChatState :=
  mkChatState pair_sessions (mkUserManager 2 (<[0 := alice]> (<[1 := bob]> ∅)))
    (mkRoomManager [mkRoom [alice; bob] 0] 1 4).

Definition lobby_state : ChatState :=
  mkChatState pair_sessions UserManager_init (mkRoomManager [mkRoom [] 0] 1 4).

Lemma pair_net_inv : Net_inv pair_net.
Proof. by repeat constructor; apply Client_inv_socket, Client_init_inv. Qed.

Lemma pair_sessions_ok k s : _sessions pair_sessions !! k = Some s -> session_ok pair_net s.
Proof.
  cbn. intros Hk. repeat (apply lookup_insert_Some in Hk as [[_ <-]|[_ Hk]]; [by vm_compute; lia|]). done.
Qed.

Lemma pair_inv : chat_inv pair_net pair_state.
Proof.
  split; [exact pair_net_inv|]. split; [exact pair_sessions_ok|]. split; [split; [done|]|].
  - cbn. intros k u Hk.
    repeat (apply lookup_insert_Some in Hk as [[<- <-]|[_ Hk]];
      [split_and!; try done; [by vm_compute; lia|set_solver]|]). done.
  - split_and!; [by repeat constructor; set_solver|done|by repeat constructor|].
    constructor; [|constructor]. split_and!; [repeat constructor; set_solver|by repeat constructor|done].
Qed.

Lemma lobby_inv : chat_inv pair_net lobby_state.
Proof.
  split; [exact pair_net_inv|]. split; [exact pair_sessions_ok|]. split; [split; [done|]|].
  - by intros k u Hk.
  - split_and!; [by repeat constructor; set_solver|done|by repeat constructor|].
    constructor; [|constructor]. by split_and!; try constructor.
Qed.

Lemma message_reaches_room_witness :
  let '(n1, p) := chat_packet alice "hi" 7 pair_net in
  exists r n', r ∈ _rooms (rooms pair_state) /\ r_roomId r = 0 /\
    ChatMessageHandler_Handle 0 (makeSendMessageRequest 5 "mallory" "hi" 7)
      (SendMessageRequest 5 "mallory" "hi") (pair_net, pair_state) = Some (n', pair_state) /\
    net_os n' = run_calls
      (frames_to pair_net p (filter (reachable_user pair_net) (erase_if (fun v => _id v =? 0) (r_users r)))) (net_os n1).
Proof.
  pose proof (message_reaches_room pair_net pair_state 0
    (makeSendMessageRequest 5 "mallory" "hi" 7) 5 "mallory" "hi" alice pair_inv) as Hm.
  assert (GetUserByClient pair_net 0 (users pair_state) = Some alice) as Hu by (vm_compute; reflexivity).
  specialize (Hm Hu). change (sequence (makeSendMessageRequest 5 "mallory" "hi" 7)) with 7 in Hm.
  assert ((zlen (frame_of (fb_finish (chat_packet alice "hi" 7 pair_net).2)) <=? sendBufferSize) = true) as Hf
    by (vm_compute; reflexivity).
  destruct (chat_packet alice "hi" 7 pair_net) as [n1 p]. cbn [snd] in Hf. cbv zeta in Hm. rewrite Hf in Hm. exact Hm.
Defined.

Lemma join_announced_witness :
  exists n' st',
    JoinRoomHandler_Handle 0 (makeJoinRoomRequest "carol" 3) (JoinRoomRequest "carol")
      (pair_net, lobby_state) = Some (n', st') /\
    _users (users st') = <[0 := mkUser (mkSession 0 0) 0 "carol" 0]> ∅.
Proof.
  destruct (join_announced pair_net lobby_state 0 (makeJoinRoomRequest "carol" 3) "carol"
      (rooms lobby_state) 0 (mkRoom [] 0) (mkSession 0 0) lobby_inv)
    as (n' & st' & Hrun & Hus & _).
  - split; vm_compute; reflexivity.
  - vm_compute; reflexivity.
  - reflexivity.
  - vm_compute; reflexivity.
  - vm_compute; reflexivity.
  - repeat constructor; vm_compute; discriminate.
  - vm_compute; discriminate.
  - vm_compute; discriminate.
  - exists n', st'. split; [exact Hrun|exact Hus].
Defined.

Lemma join_leave_roundtrip_witness :
  exists n1 st1 n2 st2,
    JoinRoomHandler_Handle 0 (makeJoinRoomRequest "carol" 3) (JoinRoomRequest "carol")
      (pair_net, lobby_state) = Some (n1, st1) /\
    LeaveRoomHandler_Handle 0 (makeLeaveRoomRequest 0 4) (LeaveRoomRequest 0) (n1, st1) = Some (n2, st2) /\
    _users (users st2) = ∅ /\ _rooms (rooms st2) = [mkRoom [] 0] /\
    sessions st2 = pair_sessions /\ GetUserByClient n2 0 (users st2) = None.
Proof.
  refine (join_leave_roundtrip pair_net lobby_state 0 (makeJoinRoomRequest "carol" 3)
    (makeLeaveRoomRequest 0 4) "carol" 0 (rooms lobby_state) 0 (mkRoom [] 0) (mkSession 0 0)
    lobby_inv _ _ _ _ _).
  - split; vm_compute; reflexivity.
  - vm_compute; reflexivity.
  - reflexivity.
  - vm_compute; reflexivity.
  - vm_compute; reflexivity.
Defined.

Lemma pair_socket_unique : socket_unique pair_net 0.
Proof. intros [|[|j]] Hj; [done|vm_compute in Hj; discriminate|vm_compute in Hj; destruct j; discriminate]. Defined.

Lemma disconnect_isolated_witness :
  let st' := GameLoop_Disconnect 0 pair_net pair_state in
  (forall k s, _sessions (sessions st') !! k = Some s <->
     _sessions pair_sessions !! k = Some s /\ _tcpClient s <> 0%nat) /\
  _rooms (rooms st') = [mkRoom [bob] 0].
Proof. exact (disconnect_isolated pair_net pair_state 0 pair_socket_unique). Defined.

(** Both slots closed: a disconnection of slot 0 removes bob's session too. *)
Definition closed_net : Net ScriptOS unit := mkNet (script_of []) tt [Client_init; Client_init].

Lemma closed_slots_alias_witness :
  let st' := GameLoop_Disconnect 0 closed_net pair_state in
  (forall k s, _sessions (sessions st') !! k = Some s -> socket_of closed_net (_tcpClient s) <> InvalidSocket) /\
  (forall r u, r ∈ _rooms (rooms st') -> u ∈ r_users r -> reachable_user closed_net u).
Proof. exact (closed_slots_alias closed_net pair_state 0 eq_refl). Defined.

Lemma ghost_user_locks_out_witness :
  exists n' st',
    chat_run (chat_loop chat_handlers 50) (pair_net, pair_state)
      [CDisconnect 0; CAccept 0 12; CPacket 0 (makeJoinRoomRequest "dave" 1)] = Some (n', st') /\
    users st' = users pair_state /\
    forall r v, r ∈ _rooms (rooms st') -> v ∈ r_users r -> _tcpClient (_session v) <> 0%nat.
Proof.
  refine (ghost_user_locks_out chat_handlers 50 pair_net pair_state 0 12 "dave" 1 0 alice
    (Permutation_refl _) pair_inv _ _ _).
  - split; vm_compute; reflexivity.
  - reflexivity.
  - reflexivity.
Defined.

Lemma ghost_identity_witness :
  exists n2 st2 r n',
    chat_run (chat_loop chat_handlers 50) (pair_net, pair_state) [CDisconnect 0; CAccept 0 12] =
      Some (n2, st2) /\
    r ∈ _rooms (rooms st2) /\ r_roomId r = 0 /\
    ChatMessageHandler_Handle 0 (makeSendMessageRequest 0 "dave" "hi" 1)
      (SendMessageRequest 0 "dave" "hi") (n2, st2) = Some (n', st2) /\
    let '(n3, p) := chat_packet alice "hi" 1 n2 in
    net_os n' = run_calls (broadcast_calls n2 p (erase_if (fun v => _id v =? 0) (r_users r))) (net_os n3).
Proof.
  refine (ghost_identity (chat_loop chat_handlers 50) pair_net pair_state 0 12
    (makeSendMessageRequest 0 "dave" "hi" 1) 0 "dave" "hi" 0 alice pair_inv _ _ _ _).
  - reflexivity.
  - reflexivity.
  - intros k u Hk. cbn in Hk. apply lookup_insert_Some in Hk as [[_ <-]|[_ Hk]]; [reflexivity|].
    apply lookup_insert_Some in Hk as [[_ <-]|[_ Hk]]; [discriminate|discriminate].
  - intros [|[|j]] Hj; [contradiction|vm_compute; discriminate|].
    vm_compute. destruct j; discriminate.
Defined.

Definition demo_run : list ChatOp :=
  [CAccept 0 10; CAccept 1 11; CPacket 0 (makeJoinRoomRequest "alice" 1);
   CPacket 1 (makeJoinRoomRequest "bob" 1); CPacket 0 (makeSendMessageRequest 0 "x" "hi" 2);
   CPacket 1 (mkPacket 7 77 None 0); CDisconnect 0; CPacket 0 (makeLeaveRoomRequest 0 3); CClose 1].

Lemma demo_run_clients : Forall (fun op => op_client op < length (clients closed_net))%nat demo_run.
Proof. repeat constructor. Defined.

Lemma closed_net_inv : Net_inv closed_net.
Proof. by repeat constructor; apply Client_init_inv. Defined.

Lemma chat_server_safe_witness :
  exists n' st',
    chat_run (chat_loop chat_handlers 50) (closed_net, ChatState_init 2 4) demo_run = Some (n', st') /\
    chat_inv n' st'.
Proof.
  refine (chat_server_safe chat_handlers 50 closed_net demo_run 2 4 (Permutation_refl _)
    closed_net_inv _ demo_run_clients _).
  - split; [discriminate|reflexivity].
  - reflexivity.
Defined.

Lemma room_membership_witness :
  exists n' st',
    chat_run (chat_loop chat_handlers 50) (closed_net, ChatState_init 2 4) demo_run = Some (n', st') /\
    forall r, r ∈ _rooms (rooms st') -> zlen (r_users r) <= 4 /\ NoDup (_id <$> r_users r).
Proof.
  destruct (chat_run_ok chat_handlers 50 demo_run closed_net (ChatState_init 2 4))
    as (n' & st' & Hrun & _).
  - reflexivity.
  - apply ChatState_init_inv; [exact closed_net_inv|split; [discriminate|reflexivity]].
  - exact demo_run_clients.
  - reflexivity.
  - reflexivity.
  - exists n', st'. split; [exact Hrun|].
    refine (proj1 (room_membership chat_handlers 50 closed_net demo_run 2 4 n' st' (Permutation_refl _)
      closed_net_inv _ demo_run_clients _ Hrun)); [split; [discriminate|reflexivity]|reflexivity].
Defined.
