(* ===== verification/ChatSpec.v ===== *)
(** * Chat server: the abstract specification

    What the chat promises, without managers, hash maps, pointers, frames or
    counters: connections by pool slot, who is online, one person per slot, rooms
    as lists of slots in the order of arrival, and the packets each request makes
    the server send.  The transition system is non-deterministic where the code
    depends on the order of a hash map (a closed connection is confused with every
    other closed one) and on the clock; the theorem at the end is the simulation:
    every run of the server ([chat_run]) is a run of the specification, and the
    bytes handed to the system are the frames of the packets it outputs. *)

From S2P Require Import Prelude Errors Platform FrameBuffer CommandQueue Protocol NetClient Net.
From S2P Require Import PacketDispatcher ChatSession ChatUser ChatRoom ChatHandlers ChatInvariant GameLoop ChatRun ChatProps.
From coqutil Require Import Byte Datatypes.RecordSetters.
From stdpp Require Import base gmap list strings option.
Import DoubleBraceUpdate.
Open Scope Z_scope.

(** ** The abstract machine *)

(** A nickname in use: its number, its text and its room. *)
Record Person := mkPerson { p_id : Z; p_name : string; p_room : nat }.

Record Spec := mkSpec {
  sp_conns : list Z;             (** the socket of each slot *)
  sp_online : gset nat;          (** the slots that were accepted and not disconnected *)
  sp_people : gmap nat Person;   (** who joined on which slot *)
  sp_rooms : list (list nat);    (** the slots in each room, in the order of arrival *)
  sp_capacity : Z;
  sp_next : Z }.                 (** the number of the next person *)

(** A packet handed to the connection with that socket. *)
Abbreviation Output := (Z * Packet)%type.

Section Spec.
Implicit Types (σ : Spec) (i k : nat) (p : Packet).

Definition conn σ k : Z := default InvalidSocket (sp_conns σ !! k).

(** Connections are told apart by their sockets only. *)
Definition aliased σ i k : bool := conn σ k =? conn σ i.

Definition sends_to σ p (ks : list nat) : list Output := (fun k => (conn σ k, p)) <$> ks.

(** The others of a room. *)
Definition others k (ms : list nat) : list nat := erase_if (Nat.eqb k) ms.

(** The first room with a free place, or a new one at the end. *)
Definition room_for_one σ : list (list nat) * nat :=
  match find_if (fun ms => zlen ms <? sp_capacity σ) (sp_rooms σ) with
  | Some j => (sp_rooms σ, j)
  | None => (sp_rooms σ ++ [[]], length (sp_rooms σ))
  end.

Definition nobody σ i : Prop := forall k pr, sp_people σ !! k = Some pr -> aliased σ i k = false.
Definition offline σ i : Prop := forall k, k ∈ sp_online σ -> aliased σ i k = false.

(** The three requests; every other tag is refused. *)
Definition known_tag p : bool :=
  existsb (fun T => payload_type p =? PayloadTag T) [P_JoinRoomRequest; P_LeaveRoomRequest; P_SendMessageRequest].

Definition spec_close i σ : Spec := σ {{ sp_conns ::= <[i := InvalidSocket]> }}.

Inductive spec_step σ : ChatOp -> list Output -> Spec -> Prop :=
  | sp_accept i sock :
      spec_step σ (CAccept i sock) []
        (σ {{ sp_conns ::= <[i := sock]>; sp_online ::= fun o => {[i]} ∪ o }})
  (** The newcomer is announced to the room and acknowledged. *)
  | sp_join i p name k rooms j ms :
      payload_as P_JoinRoomRequest p = Some (JoinRoomRequest name) ->
      k ∈ sp_online σ -> aliased σ i k = true -> nobody σ i ->
      room_for_one σ = (rooms, j) -> rooms !! j = Some ms ->
      spec_step σ (CPacket i p)
        (sends_to σ (makeUserJoinedBroadcast (Z.of_nat j) (sp_next σ) (c_str name)) ms ++
         sends_to σ (makeJoinedRoomResponse (sequence p)) [k])
        (σ {{ sp_people ::= <[k := mkPerson (sp_next σ) (c_str name) j]>;
              sp_rooms := <[j := ms ++ [k]]> rooms;
              sp_next ::= Z.add 1 }})
  (** A refused join is not answered; it may leave a new empty room behind. *)
  | sp_join_refused i p name :
      payload_as P_JoinRoomRequest p = Some (JoinRoomRequest name) ->
      offline σ i \/ (exists k pr, sp_people σ !! k = Some pr /\ aliased σ i k = true) ->
      spec_step σ (CPacket i p) [] (σ {{ sp_rooms := (room_for_one σ).1 }})
  (** The room is told when the leaver is in it; the leaver always gets an answer. *)
  | sp_leave i p claimed k pr ms :
      payload_as P_LeaveRoomRequest p = Some (LeaveRoomRequest claimed) ->
      sp_people σ !! k = Some pr -> aliased σ i k = true -> sp_rooms σ !! p_room pr = Some ms ->
      spec_step σ (CPacket i p)
        ((if bool_decide (k ∈ ms)
          then sends_to σ (makeUserLeftBroadcast (p_id pr) (p_name pr)) (others k ms) else []) ++
         sends_to σ (makeLeftRoomResponse (sequence p)) [k])
        (σ {{ sp_people ::= delete k; sp_rooms ::= <[p_room pr := others k ms]> }})
  | sp_leave_nobody i p claimed :
      payload_as P_LeaveRoomRequest p = Some (LeaveRoomRequest claimed) -> nobody σ i ->
      spec_step σ (CPacket i p) [] σ
  (** A message goes to the others of the speaker's room, stamped with some time. *)
  | sp_say i p claimed claimedName msg k pr ms t :
      payload_as P_SendMessageRequest p = Some (SendMessageRequest claimed claimedName msg) ->
      sp_people σ !! k = Some pr -> aliased σ i k = true -> sp_rooms σ !! p_room pr = Some ms ->
      spec_step σ (CPacket i p)
        (sends_to σ (makeChatMessageBroadcast (u32 (p_id pr)) (p_name pr) msg t (sequence p)) (others k ms)) σ
  | sp_say_nobody i p claimed claimedName msg :
      payload_as P_SendMessageRequest p = Some (SendMessageRequest claimed claimedName msg) -> nobody σ i ->
      spec_step σ (CPacket i p) [] σ
  (** A request without the body its tag announces is ignored. *)
  | sp_bodyless i p :
      known_tag p = true ->
      (forall T, T ∈ [P_JoinRoomRequest; P_LeaveRoomRequest; P_SendMessageRequest] -> payload_as T p = None) ->
      spec_step σ (CPacket i p) [] σ
  | sp_unknown i p :
      known_tag p = false -> spec_step σ (CPacket i p) [] (spec_close i σ)
  (** Everyone with the socket of [i] goes offline and leaves the rooms silently;
      the people stay, so that the slot's next connection inherits them. *)
  | sp_disconnect i :
      spec_step σ (CDisconnect i) []
        (spec_close i (σ {{ sp_online ::= filter (fun k => aliased σ i k = false);
                            sp_rooms ::= fmap (erase_if (aliased σ i)) }}))
  | sp_close i : spec_step σ (CClose i) [] (spec_close i σ).
End Spec.

Inductive spec_run : Spec -> list ChatOp -> list Output -> Spec -> Prop :=
  | spec_run_nil σ : spec_run σ [] [] σ
  | spec_run_cons σ op ops out outs σ1 σ2 :
      spec_step σ op out σ1 -> spec_run σ1 ops outs σ2 -> spec_run σ (op :: ops) (out ++ outs) σ2.

(** Nobody has joined. *)
Definition spec_init (conns : list Z) (count : nat) (cap : Z) : Spec :=
  mkSpec conns ∅ ∅ (replicate count []) cap 0.

(** ** Replies *)

(** The sockets after an operation, and whether it is a request that is answered,
    with the sequence number [q], from the connection with socket [sock]. *)
Definition conns_after (op : ChatOp) (conns : list Z) : list Z :=
  match op with
  | CAccept i sock => <[i := sock]> conns
  | CPacket i p => if known_tag p then conns else <[i := InvalidSocket]> conns
  | CDisconnect i | CClose i => <[i := InvalidSocket]> conns
  end.

Definition is_request (sock q : Z) (op : ChatOp) (conns : list Z) : bool :=
  match op with
  | CPacket i p =>
      (default InvalidSocket (conns !! i) =? sock) && (sequence p =? q) &&
      ((payload_type p =? PayloadTag P_JoinRoomRequest) || (payload_type p =? PayloadTag P_LeaveRoomRequest))
  | _ => false
  end.

Fixpoint requests (sock q : Z) (ops : list ChatOp) (conns : list Z) : nat :=
  match ops with
  | [] => 0
  | op :: ops => (if is_request sock q op conns then 1 else 0) + requests sock q ops (conns_after op conns)
  end.

Definition is_reply (sock q : Z) (o : Output) : bool :=
  (o.1 =? sock) && (sequence o.2 =? q) &&
  ((type o.2 =? MessageType SC_JoinedRoom) || (type o.2 =? MessageType SC_LeftRoom)).

Definition replies (sock q : Z) (outs : list Output) : nat := length (List.filter (is_reply sock q) outs).

Lemma replies_app sock q outs outs' : replies sock q (outs ++ outs') = (replies sock q outs + replies sock q outs')%nat.
Proof. unfold replies. by rewrite List.filter_app, length_app. Qed.

(** Broadcasts are no replies. *)
Lemma replies_broadcast σ sock q p ks :
  type p <> MessageType SC_JoinedRoom -> type p <> MessageType SC_LeftRoom -> replies sock q (sends_to σ p ks) = 0%nat.
Proof.
  intros Hj Hl. unfold replies, sends_to. induction ks as [|k ks IH]; [done|]. cbn [fmap list_fmap List.filter].
  unfold is_reply at 1. cbn [snd]. rewrite (proj2 (Z.eqb_neq _ _) Hj), (proj2 (Z.eqb_neq _ _) Hl), andb_false_r.
  exact IH.
Qed.

Lemma payload_as_known T p b :
  T ∈ [P_JoinRoomRequest; P_LeaveRoomRequest; P_SendMessageRequest] -> payload_as T p = Some b ->
  known_tag p = true /\ (payload_type p =? PayloadTag T) = true.
Proof.
  intros HT Hb. apply payload_as_Some in Hb as (_ & _ & Ht). rewrite Z.eqb_eq. split; [|done].
  unfold known_tag. apply existsb_exists. exists T. rewrite <-list_elem_of_In. split; [done|by apply Z.eqb_eq].
Qed.

Lemma spec_step_conns σ op out σ' : spec_step σ op out σ' -> sp_conns σ' = conns_after op (sp_conns σ).
Proof.
  destruct 1 as [|i p name k rooms j ms Hp| i p name Hp| i p claimed k pr ms Hp | i p claimed Hp
    | i p claimed cn msg k pr ms t Hp | i p claimed cn msg Hp | i p Hk | i p Hk | |];
    cbn [conns_after]; try (apply payload_as_known in Hp as [Hp _]; [|set_solver]; rewrite Hp);
    try rewrite Hk; by destruct σ.
Qed.

(** An acknowledgement goes to the socket that asked, with its sequence number. *)
Lemma replies_ack σ sock q p i k T t b :
  aliased σ i k = true -> (payload_type p =? PayloadTag T) = true ->
  T = P_JoinRoomRequest \/ T = P_LeaveRoomRequest ->
  (replies sock q (sends_to σ (finishTypedPacket t b (sequence p)) [k]) <=
    if is_request sock q (CPacket i p) (sp_conns σ) then 1 else 0)%nat.
Proof.
  unfold aliased. intros Hal%Z.eqb_eq Ht HT. unfold replies, is_request, sends_to. cbn [fmap list_fmap List.filter].
  unfold is_reply. cbn [fst snd sequence finishTypedPacket]. rewrite Hal. unfold conn.
  replace ((payload_type p =? PayloadTag P_JoinRoomRequest) || (payload_type p =? PayloadTag P_LeaveRoomRequest)) with true
    by (symmetry; apply orb_true_iff; destruct HT as [-> | ->]; auto).
  rewrite andb_true_r. destruct (_ && (sequence p =? q)); cbn [andb]; [|done]. destruct (_ || _); cbn; lia.
Qed.

Lemma spec_step_replies σ op out σ' sock q :
  spec_step σ op out σ' -> (replies sock q out <= if is_request sock q op (sp_conns σ) then 1 else 0)%nat.
Proof.
  destruct 1 as [|i p name k rooms j ms Hp ? Hal| i p name Hp| i p claimed k pr ms Hp ? Hal | i p claimed Hp
    | i p claimed cn msg k pr ms t Hp | i p claimed cn msg Hp | i p Hk | i p Hk | |]; try (cbn; lia).
  - rewrite replies_app, replies_broadcast by done. apply payload_as_known in Hp as [_ Ht]; [|set_solver].
    eapply replies_ack; eauto.
  - apply payload_as_known in Hp as [_ Ht]; [|set_solver]. rewrite replies_app.
    case_bool_decide; [rewrite replies_broadcast by done|]; eapply replies_ack; eauto.
  - rewrite replies_broadcast by done. lia.
Qed.

(** Over a run, a connection is sent at most one reply per request it made with
    that sequence number. *)
Lemma spec_run_replies σ ops outs σ' sock q :
  spec_run σ ops outs σ' -> (replies sock q outs <= requests sock q ops (sp_conns σ))%nat.
Proof.
  induction 1 as [|σ op ops out outs σ1 σ2 Hstep _ IH]; [done|]. rewrite replies_app. cbn [requests].
  rewrite <-(spec_step_conns _ _ _ _ Hstep). pose proof (spec_step_replies _ _ _ _ sock q Hstep). lia.
Qed.

(** ** Words and names *)

(** Some client said [msg] with that sequence number. *)
Definition said (ops : list ChatOp) (msg : string) (q : Z) : Prop :=
  exists i p claimed claimedName, CPacket i p ∈ ops /\
    payload_as P_SendMessageRequest p = Some (SendMessageRequest claimed claimedName msg) /\ sequence p = q.

(** Some client asked to join under [name] (read up to its first null). *)
Definition chosen (ops : list ChatOp) (name : string) : Prop :=
  exists i p full, CPacket i p ∈ ops /\ payload_as P_JoinRoomRequest p = Some (JoinRoomRequest full) /\ name = c_str full.

Lemma said_cons op ops msg q : said ops msg q -> said (op :: ops) msg q.
Proof. intros (i & p & c & cn & Hin & Hp). exists i, p, c, cn. split; [by right|done]. Qed.

Lemma chosen_cons op ops name : chosen ops name -> chosen (op :: ops) name.
Proof. intros (i & p & full & Hin & Hp). exists i, p, full. split; [by right|done]. Qed.

Definition names_in (N : string -> Prop) σ : Prop := forall k pr, sp_people σ !! k = Some pr -> N (p_name pr).

Lemma elem_of_sends_to σ p ks o : o ∈ sends_to σ p ks -> o.2 = p.
Proof. unfold sends_to. rewrite list_elem_of_fmap. by intros (k & -> & _). Qed.

Lemma spec_step_names N σ op out σ' :
  spec_step σ op out σ' -> names_in N σ -> names_in (fun name => N name \/ chosen [op] name) σ'.
Proof.
  intros Hstep HN. assert (names_in (fun name => N name \/ chosen [op] name) σ) as HN'
    by (intros k pr Hk; left; by eapply HN).
  destruct Hstep as [|i p name k rooms j ms Hp| | i p claimed k pr ms Hp | | | | | | |];
    destruct σ; cbn in *; try exact HN'.
  - intros k' pr Hk'. cbn in Hk'. apply lookup_insert_Some in Hk' as [[_ <-]|[_ Hk']]; [|by eapply HN'].
    right. exists i, p, name. split; [by left|done].
  - intros k' pr' Hk'. cbn in Hk'. apply lookup_delete_Some in Hk' as [_ Hk']. by eapply HN'.
Qed.

Lemma spec_step_said N σ op out σ' sock sid name msg t q :
  spec_step σ op out σ' -> names_in N σ -> (sock, makeChatMessageBroadcast sid name msg t q) ∈ out ->
  said [op] msg q /\ N name.
Proof.
  intros Hstep HN Hin.
  destruct Hstep as [|i p nm k rooms j ms Hp| | i p claimed k pr ms Hp | | i p claimed cn m k pr ms t' Hp Hpr| | | | |];
    try (by apply not_elem_of_nil in Hin).
  - apply elem_of_app in Hin as [Hin|Hin]; by apply elem_of_sends_to in Hin.
  - apply elem_of_app in Hin as [Hin|Hin]; [case_bool_decide|]; try (by apply elem_of_sends_to in Hin).
    by apply not_elem_of_nil in Hin.
  - apply elem_of_sends_to in Hin. cbn in Hin. injection Hin as _ -> -> _ ->. split; [|by eapply HN].
    exists i, p, claimed, cn. split; [by left|done].
Qed.

(** Whatever anybody hears was said, and under a name somebody chose. *)
Lemma spec_run_said σ ops outs σ' N sock sid name msg t q :
  spec_run σ ops outs σ' -> names_in N σ -> (sock, makeChatMessageBroadcast sid name msg t q) ∈ outs ->
  said ops msg q /\ (N name \/ chosen ops name).
Proof.
  intros Hrun. revert N. induction Hrun as [|σ op ops out outs σ1 σ2 Hstep _ IH]; intros N HN Hin.
  { by apply not_elem_of_nil in Hin. }
  apply elem_of_app in Hin as [Hin|Hin].
  - destruct (spec_step_said _ _ _ _ _ _ _ _ _ _ _ Hstep HN Hin) as [(i & p & c & cn & Hin' & Hp) Hn].
    split; [|by left]. exists i, p, c, cn. apply list_elem_of_singleton in Hin' as ->. split; [by left|done].
  - destruct (IH _ (spec_step_names _ _ _ _ _ Hstep HN) Hin) as [Hs Hn]. split; [by apply said_cons|].
    destruct Hn as [[Hn|(i & p & full & Hin' & Hp)]|Hn]; [by left| |right; by apply chosen_cons].
    right. exists i, p, full. apply list_elem_of_singleton in Hin' as ->. split; [by left|done].
Qed.

(** ** The correspondence with the server *)

Section Refinement.
Context {OS W : Type} `{WinSock OS} `{FlatBuffers} `{UMapOrder}.
Implicit Types (n : Net OS W) (st : ChatState) (σ : Spec) (u : User).

(** An output on the wire: one frame, when the connection is open and the frame
    fits a send buffer; otherwise nothing. *)
Definition wire (o : Output) : list syscall :=
  if negb (o.1 =? InvalidSocket) && (zlen (frame_of (fb_finish o.2)) <=? sendBufferSize)
  then [SysWSASend o.1 (frame_of (fb_finish o.2))] else [].

(** The sends among some system calls (the others read clocks and close sockets). *)
Definition sends (cs : list syscall) : list syscall :=
  List.filter (fun c => match c with SysWSASend _ _ => true | _ => false end) cs.

Definition slot u : nat := _tcpClient (_session u).
Definition person u : Person := mkPerson (_id u) (_userName u) (Z.to_nat (_roomId u)).

Record abs n st σ : Prop := {
  ab_conns : sp_conns σ = socket <$> clients n;
  ab_online : forall k, k ∈ sp_online σ <-> exists id s, _sessions (sessions st) !! id = Some s /\ _tcpClient s = k;
  ab_logins : 0 <= _sessionCounter (sessions st);
  ab_fresh : forall id s, _sessions (sessions st) !! id = Some s -> 0 <= id < _sessionCounter (sessions st);
  ab_people : forall k pr, sp_people σ !! k = Some pr <->
    exists u, _users (users st) !! p_id pr = Some u /\ slot u = k /\ pr = person u;
  ab_rooms : sp_rooms σ = (fun r => slot <$> r_users r) <$> _rooms (rooms st);
  ab_ids : forall j r, _rooms (rooms st) !! j = Some r -> r_roomId r = Z.of_nat j;
  ab_counter : _roomCounter (rooms st) = zlen (_rooms (rooms st));
  ab_capacity : sp_capacity σ = _maxRoomCapacity (rooms st);
  ab_next : sp_next σ = _userIdCounter (users st) }.

(** What one operation of the server owes to the specification. *)
Definition simulates n st σ op (s' : Net OS W * ChatState) : Prop :=
  exists out σ' cs, spec_step σ op out σ' /\ abs s'.1 s'.2 σ' /\
    net_os s'.1 = run_calls cs (net_os n) /\ sends cs = (out ≫= wire) /\
    _sessionCounter (sessions s'.2) <= _sessionCounter (sessions st) + 1.

(** ** Lemmas on the correspondence *)

Lemma abs_conn n st σ k : abs n st σ -> conn σ k = socket_of n k.
Proof.
  intros Ha. unfold conn, socket_of. rewrite (ab_conns _ _ _ Ha), list_lookup_fmap. by destruct (clients n !! k).
Qed.

Lemma abs_aliased n st σ i k : abs n st σ -> aliased σ i k = (socket_of n k =? socket_of n i).
Proof. intros Ha. unfold aliased. by rewrite !(abs_conn n st). Qed.

Lemma abs_same_client n st σ u i : abs n st σ -> IsSameClient n u i = aliased σ i (slot u).
Proof. intros Ha. by rewrite (abs_aliased n st). Qed.

(** A stored user is the person of its slot. *)
Lemma abs_person n st σ id u :
  abs n st σ -> chat_inv n st -> _users (users st) !! id = Some u -> sp_people σ !! slot u = Some (person u).
Proof.
  intros Ha (_ & _ & (_ & Hus) & _) Hu. apply (ab_people _ _ _ Ha). exists u.
  destruct (Hus _ _ Hu) as (Hid & _). cbn. by rewrite Hid.
Qed.

Lemma abs_one_per_slot n st σ id1 id2 u1 u2 :
  abs n st σ -> chat_inv n st -> _users (users st) !! id1 = Some u1 -> _users (users st) !! id2 = Some u2 ->
  slot u1 = slot u2 -> u1 = u2.
Proof.
  intros Ha Hinv Hu1 Hu2 Hs. pose proof (abs_person _ _ _ _ _ Ha Hinv Hu1) as H1'.
  pose proof (abs_person _ _ _ _ _ Ha Hinv Hu2) as H2'. rewrite Hs, H2' in H1'. injection H1' as Hid _ _.
  destruct Hinv as (_ & _ & (_ & Hus) & _).
  destruct (Hus _ _ Hu1) as (E1 & _), (Hus _ _ Hu2) as (E2 & _). congruence.
Qed.

Lemma abs_nobody n st σ i :
  abs n st σ -> chat_inv n st -> GetUserByClient n i (users st) = None <-> nobody σ i.
Proof.
  intros Ha Hinv. rewrite GetUserByClient_None. split.
  - intros Hno k pr Hk. apply (ab_people _ _ _ Ha) in Hk as (u & Hu & <- & _).
    rewrite <-(abs_same_client n st) by done. by eapply Hno.
  - intros Hno k u Hk. rewrite (abs_same_client n st σ) by done. eapply Hno. by eapply abs_person.
Qed.

Lemma abs_user n st σ i u :
  abs n st σ -> chat_inv n st -> GetUserByClient n i (users st) = Some u ->
  sp_people σ !! slot u = Some (person u) /\ aliased σ i (slot u) = true.
Proof.
  intros Ha Hinv Hu. apply GetUserByClient_Some in Hu as [[k Hk] Hs].
  split; [by eapply abs_person|]. by rewrite <-(abs_same_client n st).
Qed.

Lemma abs_offline n st σ i :
  abs n st σ -> GetSessionByClient n i (sessions st) = None -> offline σ i.
Proof.
  intros Ha Hno k Hk. apply (ab_online _ _ _ Ha) in Hk as (id & s & Hs & <-).
  unfold GetSessionByClient in Hno. rewrite first_match_None in Hno.
  rewrite (abs_aliased n st) by done. apply Hno. apply list_elem_of_fmap. exists (id, s).
  split; [done|]. by apply elem_of_umap_order.
Qed.

Lemma abs_session n st σ i s :
  abs n st σ -> GetSessionByClient n i (sessions st) = Some s ->
  _tcpClient s ∈ sp_online σ /\ aliased σ i (_tcpClient s) = true.
Proof.
  intros Ha Hs. apply GetSessionByClient_Some in Hs as [[id Hid] Hs]. split.
  - apply (ab_online _ _ _ Ha). by exists id, s.
  - by rewrite (abs_aliased n st).
Qed.

Lemma find_if_fmap {A B} (f : B -> bool) (g : A -> B) l : find_if f (g <$> l) = find_if (fun x => f (g x)) l.
Proof. induction l as [|x l IH]; [done|]. cbn. by rewrite IH. Qed.

Lemma find_if_ext {A} (f g : A -> bool) l : (forall x, f x = g x) -> find_if f l = find_if g l.
Proof. intros Hfg. induction l as [|x l IH]; [done|]. cbn. by rewrite Hfg, IH. Qed.

Lemma erase_if_fmap {A B} (f : B -> bool) (g : A -> B) l :
  erase_if f (g <$> l) = g <$> erase_if (fun x => f (g x)) l.
Proof. induction l as [|x l IH]; [done|]. unfold erase_if in *. cbn. destruct (f (g x)); cbn; by rewrite IH. Qed.

Lemma erase_if_ext {A} (f g : A -> bool) l : (forall x, x ∈ l -> f x = g x) -> erase_if f l = erase_if g l.
Proof.
  unfold erase_if. induction l as [|x l IH]; intros Hfg; [done|]. cbn. rewrite Hfg, IH; [done| |left].
  intros y Hy. apply Hfg. by right.
Qed.

Lemma abs_room_for_one n st σ rm j :
  abs n st σ -> _roomCounter (rooms st) + 1 < 2 ^ 32 -> GetOrCreateAvailableRoom (rooms st) = (rm, j) ->
  room_for_one σ = ((fun r => slot <$> r_users r) <$> _rooms rm, j) /\
  (forall k r, _rooms rm !! k = Some r -> r_roomId r = Z.of_nat k) /\ _roomCounter rm = zlen (_rooms rm) /\
  _maxRoomCapacity rm = _maxRoomCapacity (rooms st).
Proof.
  intros Ha Hc. unfold GetOrCreateAvailableRoom, room_for_one.
  rewrite (ab_rooms _ _ _ Ha), (ab_capacity _ _ _ Ha), find_if_fmap.
  rewrite (find_if_ext (fun r => zlen (slot <$> r_users r) <? _maxRoomCapacity (rooms st))
    (fun r => Room_GetUserCount r <? _maxRoomCapacity (rooms st))).
  2:{ intros r. unfold Room_GetUserCount, zlen. by rewrite length_fmap. }
  pose proof (ab_counter _ _ _ Ha) as Hcnt. pose proof (zlen_nonneg (_rooms (rooms st))).
  destruct (find_if _ _) as [k|]; intros [= <- <-]; cbn [_rooms _roomCounter _maxRoomCapacity].
  - split_and!; [done|apply (ab_ids _ _ _ Ha)|done|done].
  - rewrite fmap_app, length_fmap. split_and!; [done| | |done].
    + intros k r [Hk|[Hge Hk]]%lookup_app_Some; [by eapply ab_ids|].
      apply list_lookup_singleton_Some in Hk as [Hk <-]. cbn. unfold zlen in Hcnt. lia.
    + rewrite wrap_small by lia. rewrite zlen_app, Hcnt. unfold zlen. cbn. lia.
Qed.

Lemma sends_app cs cs' : sends (cs ++ cs') = sends cs ++ sends cs'.
Proof. apply List.filter_app. Qed.

Lemma sends_wires outs : sends (outs ≫= wire) = outs ≫= wire.
Proof.
  induction outs as [|o outs IH]; [done|]. cbn [mbind list_bind]. rewrite sends_app. f_equal; [|exact IH].
  unfold wire. by destruct (_ && _).
Qed.

Lemma send_calls_wire n st σ p s : abs n st σ -> send_calls n p s = wire (conn σ (_tcpClient s), p).
Proof. intros Ha. unfold send_calls, wire. cbn [fst snd]. by rewrite (abs_conn n st). Qed.

Lemma broadcast_calls_wires n st σ p us :
  abs n st σ -> broadcast_calls n p us = sends_to σ p (slot <$> us) ≫= wire.
Proof.
  intros Ha. unfold broadcast_calls, sends_to. induction us as [|u us IH]; [done|]. cbn [mbind list_bind fmap list_fmap].
  by rewrite (send_calls_wire n st σ), IH.
Qed.

(** The members of a room by slot; the others by slot are the others by user id. *)
Lemma abs_others n st σ r u :
  abs n st σ -> chat_inv n st -> r ∈ _rooms (rooms st) -> _users (users st) !! _id u = Some u ->
  slot <$> erase_if (fun v => _id v =? _id u) (r_users r) = others (slot u) (slot <$> r_users r).
Proof.
  intros Ha Hinv Hr Hu. unfold others. rewrite erase_if_fmap. f_equal. apply erase_if_ext. intros v Hv.
  pose proof Hinv as (_ & _ & _ & (_ & _ & _ & Hrooms)).
  destruct (Forall_elem _ _ _ Hrooms Hr) as (_ & Hm & _). destruct (Forall_elem _ _ _ Hm Hv) as [Hv' _].
  destruct (Z.eqb_spec (_id v) (_id u)) as [Heq|Hne]; symmetry.
  - rewrite Heq, Hu in Hv'. injection Hv' as ->. apply Nat.eqb_refl.
  - apply Nat.eqb_neq. intros Heq. apply Hne. f_equal. symmetry. by eapply abs_one_per_slot.
Qed.

(** Sends keep the correspondence, which depends on the sockets alone. *)
Lemma abs_same n n' st σ : same_conns n n' -> abs n st σ -> abs n' st σ.
Proof.
  intros Hs []. constructor; try done. rewrite ab_conns0. symmetry. apply (list_eq_same_length _ _ (length (clients n)));
    rewrite ?length_fmap; [done|by apply same_conns_length|].
  intros k x y _. rewrite !list_lookup_fmap. destruct (clients n !! k) as [c|] eqn:Hc; [|done].
  destruct (Forall2_lookup_l _ _ _ _ _ Hs Hc) as (c' & -> & Hsock & _). cbn. congruence.
Qed.

(** ** Requests *)

Lemma sim_join_refused n st σ i p name rm j :
  abs n st σ -> _roomCounter (rooms st) + 1 < 2 ^ 32 ->
  payload_as P_JoinRoomRequest p = Some (JoinRoomRequest name) ->
  GetOrCreateAvailableRoom (rooms st) = (rm, j) ->
  offline σ i \/ (exists k pr, sp_people σ !! k = Some pr /\ aliased σ i k = true) ->
  simulates n st σ (CPacket i p) (n, mkChatState (sessions st) (users st) rm).
Proof.
  intros Ha Hrc Hp Hgo Hno. destruct (abs_room_for_one n st σ rm j Ha Hrc Hgo) as (Hroom & Hids & Hcnt & Hcap).
  eexists [], _, []. split; [by eapply sp_join_refused|]. split; [|split_and!; [done|done|cbn; lia]].
  rewrite Hroom. destruct Ha. constructor; try done; cbn; by rewrite ?Hcap.
Qed.

(** The people after a newcomer took the free slot [k]. *)
Lemma people_insert (um : gmap Z User) (ppl : gmap nat Person) u :
  (forall k pr, ppl !! k = Some pr <-> exists v, um !! p_id pr = Some v /\ slot v = k /\ pr = person v) ->
  um !! _id u = None -> (forall id v, um !! id = Some v -> slot v <> slot u) ->
  forall k pr, <[slot u := person u]> ppl !! k = Some pr <->
    exists v, <[_id u := u]> um !! p_id pr = Some v /\ slot v = k /\ pr = person v.
Proof.
  intros Hppl Hfresh Hslot k pr. rewrite lookup_insert_Some, Hppl. split.
  - intros [[<- <-]|[Hne (v & Hv & <- & ->)]].
    + exists u. by rewrite lookup_insert_eq.
    + exists v. split_and!; try done. rewrite lookup_insert_ne; [done|]. cbn in *. congruence.
  - intros (v & [[_ <-]|[_ Hv]]%lookup_insert_Some & <- & ->); [by left|]. right. split; [|by eexists].
    intros Heq. by eapply Hslot.
Qed.

Lemma people_delete (um : gmap Z User) (ppl : gmap nat Person) u :
  (forall k pr, ppl !! k = Some pr <-> exists v, um !! p_id pr = Some v /\ slot v = k /\ pr = person v) ->
  um !! _id u = Some u -> (forall id v, um !! id = Some v -> _id v = id) ->
  forall k pr, delete (slot u) ppl !! k = Some pr <->
    exists v, delete (_id u) um !! p_id pr = Some v /\ slot v = k /\ pr = person v.
Proof.
  intros Hppl Hu Hid k pr. rewrite lookup_delete_Some, Hppl. split.
  - intros [Hne (v & Hv & <- & ->)]. exists v. split_and!; try done. apply lookup_delete_Some. split; [|done].
    intros Heq. cbn in *. rewrite <-Heq, Hu in Hv. injection Hv as ->. done.
  - intros (v & [Hne Hv]%lookup_delete_Some & <- & ->). split; [|by eexists]. intros Heq. apply Hne. cbn.
    assert (ppl !! slot u = Some (person u)) as H1' by (apply Hppl; by exists u).
    assert (ppl !! slot u = Some (person v)) as H2' by (apply Hppl; by exists v).
    rewrite H1' in H2'. injection H2' as E _ _. congruence.
Qed.

Lemma ids_insert (rs : list Room) j r r' :
  (forall k x, rs !! k = Some x -> r_roomId x = Z.of_nat k) -> rs !! j = Some r -> r_roomId r' = r_roomId r ->
  forall k x, <[j := r']> rs !! k = Some x -> r_roomId x = Z.of_nat k.
Proof.
  intros Hids Hj Hid k x [(<- & <- & _)|[_ Hk]]%list_lookup_insert_Some; [rewrite Hid; by apply Hids|by apply Hids].
Qed.

Lemma sim_join n st σ i p name :
  abs n st σ -> chat_inv n st -> counters_free st ->
  payload_as P_JoinRoomRequest p = Some (JoinRoomRequest name) ->
  exists s', JoinRoomHandler_Handle i p (JoinRoomRequest name) (n, st) = Some s' /\ simulates n st σ (CPacket i p) s'.
Proof.
  intros Ha Hinv [Hrc Huc] Hp.
  destruct (GetOrCreateAvailableRoom_spec (_users (users st)) (rooms st))
    as (rm & j & r & Hgo & Hj & _); [by apply Hinv|done|].
  destruct (GetSessionByClient n i (sessions st)) as [s|] eqn:Hs;
    [destruct (GetUserByClient n i (users st)) as [u|] eqn:Hu|].
  - destruct (Join_refused n st i p name rm j) as [Hrun _]; [done..|rewrite Hu; eauto|].
    eexists; split; [exact Hrun|]. eapply sim_join_refused; [done..|]. right.
    destruct (abs_user _ _ _ _ _ Ha Hinv Hu). by eexists _, _.
  - destruct (Join_accepted n st i p name rm j r s) as (n' & st' & Hrun & _ & Hsame & -> & Hos); [done..|].
    eexists; split; [exact Hrun|]. destruct (abs_session _ _ _ _ _ Ha Hs) as [Hon Hal].
    destruct (abs_room_for_one n st σ rm j Ha Hrc Hgo) as (Hroom & Hids & Hcnt & Hcap).
    set (u := mkUser s _ _ _) in *.
    eexists _, _, (broadcast_calls n _ _ ++ send_calls n _ _). split; [|split; [|split; [exact Hos|split]]].
    + eapply (sp_join σ i p name (_tcpClient s) _ j); [done..|by eapply abs_nobody|exact Hroom|].
      by rewrite list_lookup_fmap, Hj.
    + apply (abs_same n); [done|]. pose proof (ab_next _ _ _ Ha) as Hnext.
      destruct Ha, σ. constructor; cbn in *; try done.
      * replace (mkPerson _ _ _) with (person u)
          by (unfold person; cbn; by rewrite Hnext, (Hids _ _ Hj), Nat2Z.id).
        change (_tcpClient s) with (slot u). apply people_insert; [done| |].
        -- destruct (_users (users st) !! _id u) as [v|] eqn:Hv; [|done].
           destruct Hinv as (_ & _ & (_ & Hus) & _). destruct (Hus _ _ Hv) as (_ & ? & _). cbn in *. lia.
        -- intros id v Hv Heq. rewrite GetUserByClient_None in Hu. specialize (Hu _ _ Hv).
           destruct (GetSessionByClient_Some _ _ _ _ Hs) as [_ Hsame'].
           unfold IsSameClient, IsSameSession in *. unfold slot in Heq. cbn in Heq. rewrite Heq in Hu. congruence.
      * rewrite list_fmap_insert. cbn [r_users]. by rewrite fmap_app.
      * by eapply ids_insert.
      * unfold zlen in *. by rewrite length_insert.
      * by rewrite Hcap.
      * rewrite Hnext. lia.
    + rewrite sends_app, bind_app, (broadcast_calls_wires n st σ), (send_calls_wire n st σ) by done.
      rewrite sends_wires. cbn. rewrite app_nil_r. f_equal; [|].
      * by rewrite (ab_next _ _ _ Ha), (Hids _ _ Hj).
      * unfold wire. by destruct (_ && _).
    + cbn. lia.
  - destruct (Join_refused n st i p name rm j) as [Hrun _]; [done..|by left|].
    eexists; split; [exact Hrun|]. eapply sim_join_refused; [done..|]. left. by eapply abs_offline.
Qed.

Lemma sim_leave n st σ i p claimed :
  abs n st σ -> chat_inv n st -> payload_as P_LeaveRoomRequest p = Some (LeaveRoomRequest claimed) ->
  exists s', LeaveRoomHandler_Handle i p (LeaveRoomRequest claimed) (n, st) = Some s' /\
    simulates n st σ (CPacket i p) s'.
Proof.
  intros Ha Hinv Hp. destruct (GetUserByClient n i (users st)) as [u|] eqn:Hu.
  2:{ exists (n, st). unfold LeaveRoomHandler_Handle. rewrite Hu. split; [done|].
      eexists [], _, []. split; [eapply sp_leave_nobody; [done|by eapply abs_nobody]|]. split_and!; [done..|cbn; lia]. }
  destruct (Leave_spec n st i p claimed u Hinv Hu) as (j & r & n' & st' & Hj & Hid & Hrun & _ & Hsame & -> & Hos).
  eexists; split; [exact Hrun|]. destruct (abs_user _ _ _ _ _ Ha Hinv Hu) as [Hpr Hal].
  pose proof (list_elem_of_lookup_2 _ _ _ Hj) as Hr.
  assert (_users (users st) !! _id u = Some u /\ p_room (person u) = j) as [Hstored Hpj].
  { pose proof Hinv as (_ & _ & (_ & Hus) & _). apply GetUserByClient_Some in Hu as [[k Hk] _].
    destruct (Hus _ _ Hk) as (-> & _). split; [done|]. cbn. rewrite <-Hid, (ab_ids _ _ _ Ha _ _ Hj). lia. }
  pose proof (abs_others n st σ r u Ha Hinv Hr Hstored) as Hothers.
  assert (sp_rooms σ !! p_room (person u) = Some (slot <$> r_users r)) as Hms
    by (by rewrite Hpj, (ab_rooms _ _ _ Ha), list_lookup_fmap, Hj).
  eexists _, _, (leave_calls n u r ++ send_calls n _ _). split; [|split; [|split; [exact Hos|split]]].
  - by eapply (sp_leave σ i p claimed (slot u) (person u)).
  - apply (abs_same n); [done|]. rewrite Hpj. destruct Ha, σ. constructor; cbn in *; try done.
    + apply people_delete; [done|done|]. intros id v Hv. destruct Hinv as (_ & _ & (_ & Hus) & _). by apply Hus.
    + rewrite ab_rooms0, list_fmap_insert. cbn [r_users]. by rewrite Hothers.
    + by eapply ids_insert.
    + unfold zlen in *. by rewrite length_insert.
  - rewrite sends_app, bind_app, (send_calls_wire n st σ) by done. f_equal.
    2:{ cbn. rewrite app_nil_r. unfold wire. by destruct (_ && _). }
    unfold leave_calls. rewrite (bool_decide_ext (slot u ∈ slot <$> r_users r) (u ∈ r_users r)).
    + case_bool_decide; [|done]. rewrite (broadcast_calls_wires n st σ), sends_wires, Hothers by done. done.
    + rewrite list_elem_of_fmap. split; [|by eexists]. intros (v & Heq & Hv).
      pose proof Hinv as (_ & _ & _ & (_ & _ & _ & Hrooms)).
      destruct (Forall_elem _ _ _ Hrooms Hr) as (_ & Hm & _). destruct (Forall_elem _ _ _ Hm Hv) as [Hv' _].
      by rewrite (abs_one_per_slot n st σ _ _ u v Ha Hinv Hstored Hv' Heq).
  - cbn. lia.
Qed.

(** The clock readings of a message leave the connections alone. *)
Lemma chat_packet_calls n u msg seq :
  exists t, let '(n1, p) := chat_packet u msg seq n in
    p = makeChatMessageBroadcast (u32 (_id u)) (_userName u) msg t seq /\ clients n1 = clients n /\
    net_os n1 = run_calls [SysSteadyClockNow; SysSteadyClockNow] (net_os n).
Proof.
  unfold chat_packet, NowInSec, NowInNs. cbn [run_calls foldl].
  destruct (os_call SysSteadyClockNow (net_os n)) as [os1 r1] eqn:E1. cbn [fst].
  destruct (os_call SysSteadyClockNow os1) as [os2 r2] eqn:E2. eexists. by split_and!.
Qed.

Lemma sim_say n st σ i p claimed claimedName msg :
  abs n st σ -> chat_inv n st ->
  payload_as P_SendMessageRequest p = Some (SendMessageRequest claimed claimedName msg) ->
  exists s', ChatMessageHandler_Handle i p (SendMessageRequest claimed claimedName msg) (n, st) = Some s' /\
    simulates n st σ (CPacket i p) s'.
Proof.
  intros Ha Hinv Hp. destruct (GetUserByClient n i (users st)) as [u|] eqn:Hu.
  2:{ exists (n, st). unfold ChatMessageHandler_Handle. rewrite Hu. split; [done|].
      eexists [], _, []. split; [eapply sp_say_nobody; [done|by eapply abs_nobody]|]. split_and!; [done..|cbn; lia]. }
  destruct (Message_spec n st i p claimed claimedName msg u Hinv Hu) as (r & n' & Hr & Hid & Hrun & _ & Hsame & Hos).
  eexists; split; [exact Hrun|]. destruct (abs_user _ _ _ _ _ Ha Hinv Hu) as [Hpr Hal].
  destruct (chat_packet_calls n u msg (sequence p)) as [t Ht].
  destruct (chat_packet u msg (sequence p) n) as [n1 pk]. destruct Ht as (-> & Hcl1 & Hos1). rewrite Hos1 in Hos.
  assert (_users (users st) !! _id u = Some u) as Hstored.
  { pose proof Hinv as (_ & _ & (_ & Hus) & _). apply GetUserByClient_Some in Hu as [[k Hk] _].
    by destruct (Hus _ _ Hk) as (-> & _). }
  apply list_elem_of_lookup in Hr as Hj. destruct Hj as [j Hj].
  assert (sp_rooms σ !! p_room (person u) = Some (slot <$> r_users r)) as Hms.
  { cbn. rewrite <-Hid, (ab_ids _ _ _ Ha _ _ Hj), Nat2Z.id. by rewrite (ab_rooms _ _ _ Ha), list_lookup_fmap, Hj. }
  eexists _, _, ([SysSteadyClockNow; SysSteadyClockNow] ++ _).
  split; [|split; [|split; [rewrite run_calls_app; exact Hos|split]]].
  - by eapply (sp_say σ i p claimed claimedName msg (slot u) (person u) _ t).
  - by apply (abs_same n).
  - rewrite sends_app. cbn [sends List.filter app]. change (List.filter _ ?l) with (sends l).
    rewrite (broadcast_calls_wires n st σ), sends_wires by done.
    by rewrite (abs_others n st σ r u Ha Hinv Hr Hstored).
  - cbn. lia.
Qed.

(** ** Dispatch *)

Lemma known_tag_true p :
  known_tag p = true <->
  exists T, T ∈ [P_JoinRoomRequest; P_LeaveRoomRequest; P_SendMessageRequest] /\ payload_type p = PayloadTag T.
Proof.
  unfold known_tag. rewrite existsb_exists. setoid_rewrite <-list_elem_of_In. setoid_rewrite Z.eqb_eq. done.
Qed.

(** A tag names at most one request. *)
Lemma payload_as_other p T T' b : payload_type p = PayloadTag T -> payload_as T' p = Some b -> T' = T.
Proof. intros Ht Hb. apply payload_as_Some in Hb as (_ & _ & Ht'). rewrite Ht in Ht'. by apply (inj PayloadTag) in Ht'. Qed.

Lemma sim_dispatch T h n st σ i p :
  (T, h) ∈ chat_handlers -> payload_type p = PayloadTag T ->
  abs n st σ -> chat_inv n st -> counters_free st ->
  exists s', dispatch_of T h i p (n, st) = Some s' /\ simulates n st σ (CPacket i p) s'.
Proof.
  intros Hin Htag Ha Hinv Hfree. unfold dispatch_of. destruct (payload_as T p) as [b|] eqn:Hb.
  - pose proof (payload_as_Some _ _ _ Hb) as (_ & Hname & _).
    unfold chat_handlers in Hin. rewrite !elem_of_cons, elem_of_nil in Hin.
    destruct Hin as [[= -> ->]|[[= -> ->]|[[= -> ->]|[]]]]; destruct b; try done.
    + by apply sim_join.
    + by apply sim_leave.
    + by apply sim_say.
  - exists (n, st). split; [done|]. eexists [], _, []. split; [|split_and!; [done..|cbn; lia]].
    apply sp_bodyless.
    + apply known_tag_true. exists T. split; [|done].
      unfold chat_handlers in Hin. rewrite !elem_of_cons, elem_of_nil in Hin. set_solver.
    + intros T' _. destruct (payload_as T' p) eqn:Hb'; [|done].
      rewrite (payload_as_other _ _ _ _ Htag Hb') in Hb'. congruence.
Qed.

Lemma chat_handlers_tags T : T ∈ [P_JoinRoomRequest; P_LeaveRoomRequest; P_SendMessageRequest] ->
  exists h, (T, h) ∈ chat_handlers (OS:=OS) (W:=W).
Proof.
  intros HT. unfold chat_handlers. rewrite !elem_of_cons, elem_of_nil in HT.
  destruct HT as [->|[->|[->|[]]]]; eexists; rewrite !elem_of_cons; eauto.
Qed.

(** ** Connections *)

(** Closing a connection sends nothing. *)
Lemma Net_Close_calls i b n n' :
  Net_Close i b n = Some n' -> exists cs, net_os n' = run_calls cs (net_os n) /\ sends cs = [].
Proof.
  unfold Net_Close. destruct (clients n !! i) as [c|]; [|done]. cbn [mbind option_bind].
  unfold Close. rewrite EmitDisconnectedEvent_spec.
  generalize (c {{ _connectionEstablished := false; _connectionEventCounted := false }}). intros c1.
  destruct (socket c1 =? InvalidSocket); [intros [= <-]; by exists []|].
  exists [SysShutdown (socket c1); SysClosesocket (socket c1)]. unfold run_calls. cbn [foldl].
  destruct (os_call (SysShutdown (socket c1)) (net_os n)) as [os1 r1]. cbn [fst].
  destruct (os_call (SysClosesocket (socket c1)) os1) as [os2 r2]. match goal with H2 : _ = Some n' |- _ => revert H2 end.
  by intros [= <-].
Qed.

Lemma abs_set_socket n n' st σ i sock :
  (socket <$> clients n') = <[i := sock]> (socket <$> clients n) -> abs n st σ ->
  abs n' st (σ {{ sp_conns ::= <[i := sock]> }}).
Proof. intros Hc []. destruct σ. constructor; cbn in *; try done. by rewrite Hc, ab_conns0. Qed.

Lemma sim_closing i n st σ :
  abs n st σ -> Net_inv n -> (i < length (clients n))%nat ->
  exists n' cs, Net_Close i true n = Some n' /\ abs n' st (spec_close i σ) /\
    net_os n' = run_calls cs (net_os n) /\ sends cs = [].
Proof.
  intros Ha Hn Hi. destruct (lookup_lt_is_Some_2 _ _ Hi) as [c Hc].
  destruct (Net_Close_spec n i true c Hc Hn) as (n' & Hcl & _ & Hcs & _).
  destruct (Net_Close_calls i true n n' Hcl) as (cs & Hos & Hno). exists n', cs. split_and!; try done.
  apply (abs_set_socket n); [|done]. rewrite Hcs, list_fmap_insert. by destruct c.
Qed.

Lemma abs_disconnect i n st σ :
  abs n st σ ->
  abs n (GameLoop_Disconnect i n st)
    (σ {{ sp_online ::= filter (fun k => aliased σ i k = false);
          sp_rooms ::= fmap (erase_if (aliased σ i)) }}).
Proof.
  intros Ha. pose proof (abs_aliased n st σ i) as Hal. pose proof (fun k => Hal k Ha) as Hal'. clear Hal.
  remember (aliased σ i) as al eqn:E. clear E. destruct Ha, σ. constructor; cbn in *; try done.
  - intros k. rewrite elem_of_filter, ab_online0, Hal'. split.
    + intros [Hne (id & s & Hs & <-)]. exists id, s. split; [|done]. by apply map_lookup_filter_Some.
    + intros (id & s & [Hs Hne]%map_lookup_filter_Some & <-). split; [exact Hne|]. by exists id, s.
  - intros id s [Hs _]%map_lookup_filter_Some. by eapply ab_fresh0.
  - rewrite ab_rooms0, <-!list_fmap_compose. apply list_fmap_ext. intros _ r _.
    change (erase_if al (slot <$> r_users r) = slot <$> erase_if (fun u => IsSameClient n u i) (r_users r)).
    rewrite erase_if_fmap. f_equal. apply erase_if_ext. intros u _. apply Hal'.
  - intros j r. rewrite list_lookup_fmap. destruct (_rooms (rooms st) !! j) eqn:Hj; [|done]. cbn.
    intros [= <-]. cbn. by apply ab_ids0.
  - rewrite ab_counter0. unfold zlen. by rewrite length_fmap.
Qed.

Lemma abs_connect i gl n st σ :
  gl_hasStopped gl = false -> _sessionCounter (sessions st) + 1 < 2 ^ 64 ->
  abs n st σ -> abs n (GameLoop_Connect (OS:=OS) (W:=W) i gl st) (σ {{ sp_online ::= fun o => {[i]} ∪ o }}).
Proof.
  intros Hgl Hc Ha. pose proof (ab_logins _ _ _ Ha) as Hc0. unfold GameLoop_Connect. rewrite Hgl. cbn.
  assert (_sessions (sessions st) !! _sessionCounter (sessions st) = None) as Hfresh.
  { destruct (_ !! _) as [s|] eqn:Hs; [|done]. apply (ab_fresh _ _ _ Ha) in Hs. lia. }
  destruct Ha, σ. constructor; cbn in *; try done.
  - intros k. rewrite elem_of_union, elem_of_singleton, ab_online0. split.
    + intros [->|(id & s & Hs & <-)].
      * eexists _, _. split; [by apply lookup_insert_eq|done].
      * exists id, s. split; [|done]. rewrite lookup_insert_ne; [done|]. intros <-. congruence.
    + intros (id & s & [[_ <-]|[_ Hs]]%lookup_insert_Some & <-); [by left|]. right. by exists id, s.
  - rewrite wrap_small by lia. lia.
  - intros id s [[<- _]|[_ Hs]]%lookup_insert_Some; rewrite wrap_small by lia; [lia|].
    apply ab_fresh0 in Hs. lia.
Qed.

(** ** The simulation *)

(** Every operation of the server is a step of the specification. *)
Lemma sim_step order tickMs n st σ op :
  order ≡ₚ chat_handlers -> abs n st σ -> chat_inv n st -> counters_free st ->
  _sessionCounter (sessions st) + 1 < 2 ^ 64 ->
  (op_client op < length (clients n))%nat ->
  exists s', chat_step (chat_loop order tickMs) (n, st) op = Some s' /\ simulates n st σ op s'.
Proof.
  intros Hord Ha Hinv Hfree Hc Hi. pose proof (ab_logins _ _ _ Ha) as Hc0. destruct op as [i sock|i p|i|i]; cbn [op_client] in Hi.
  - destruct (lookup_lt_is_Some_2 _ _ Hi) as [c Hcl]. cbn [chat_step]. rewrite Hcl. cbn [mbind option_bind].
    destruct (Net_Mark_spec (set_client i (c {{ socket := sock }}) n) i (c {{ socket := sock }}))
      as (n' & -> & _ & Hos & Hcs & _).
    { by eapply set_client_lookup. }
    { apply set_client_inv; [by apply Hinv|]. by destruct (Net_inv_lookup n i c) as (?&?&?&?); [apply Hinv|..]. }
    cbn [mbind option_bind]. eexists; split; [done|].
    eexists [], _, []. split; [apply sp_accept|]. split; [|split_and!; [exact Hos|done|]].
    + apply abs_connect with (gl := chat_loop order tickMs) (i := i) in Ha; [|done..].
      apply (abs_set_socket n n' _ _ i sock) in Ha; [by destruct σ|].
      rewrite Hcs. cbn [clients set_client]. rewrite list_insert_insert_eq, list_fmap_insert. by destruct c.
    + cbn. rewrite wrap_small by lia. done.
  - cbn [chat_step]. destruct (known_tag p) eqn:Hk.
    + apply known_tag_true in Hk as (T & HT & Htag). destruct (chat_handlers_tags T HT) as [h Hin].
      assert (_handlers (_dispatcher (chat_loop order tickMs)) !! payload_type p = Some (dispatch_of T h)) as Hh.
      { rewrite Htag. apply static_registry_handlers; [|by rewrite Hord]. rewrite Hord. cbn.
        repeat constructor; set_solver. }
      rewrite (DispatchPacket_handler i p _ _ _ Hh).
      destruct (sim_dispatch T h n st σ i p Hin Htag Ha Hinv Hfree) as ([n' st'] & -> & Hsim). cbn. by eexists.
    + unfold DispatchPacket. destruct (_handlers (_dispatcher (chat_loop order tickMs)) !! payload_type p) as [fn|] eqn:Hfn.
      { apply static_registry_only in Hfn as (T & h & Hin & Htag & _). rewrite Hord in Hin.
        assert (known_tag p = true); [|congruence]. apply known_tag_true. exists T. split; [|done].
        unfold chat_handlers in Hin. rewrite !elem_of_cons, elem_of_nil in Hin. set_solver. }
      cbn [mbind option_bind HasErr Err _hasError].
      destruct (sim_closing i n st σ Ha) as (n' & cs & -> & Ha' & Hos & Hno); [apply Hinv|done|]. cbn.
      eexists; split; [done|]. eexists [], _, cs. split; [by apply sp_unknown|]. split_and!; [done..|cbn; lia].
  - cbn [chat_step].
    destruct (sim_closing i n _ _ (abs_disconnect i n st σ Ha)) as (n' & cs & -> & Ha' & Hos & Hno);
      [apply Hinv|done|]. cbn [mbind option_bind]. eexists; split; [done|]. eexists [], _, cs.
    split; [apply sp_disconnect|]. split_and!; [done..|cbn; lia].
  - cbn [chat_step].
    destruct (sim_closing i n st σ Ha) as (n' & cs & -> & Ha' & Hos & Hno); [apply Hinv|done|]. cbn.
    eexists; split; [done|]. eexists [], _, cs. split; [apply sp_close|]. split_and!; [done..|cbn; lia].
Qed.

Lemma abs_fill k st σ n :
  abs n st σ -> 0 <= _roomCounter (rooms st) -> _roomCounter (rooms st) + Z.of_nat k < 2 ^ 32 ->
  abs n (mkChatState (sessions st) (users st) (RoomManager_fill k (rooms st)))
    (σ {{ sp_rooms ::= fun rs => rs ++ replicate k [] }}).
Proof.
  revert st σ. induction k as [|k IH]; intros st σ Ha Hc0 Hk.
  { destruct Ha, σ. constructor; cbn in *; try done. by rewrite app_nil_r. }
  cbn [RoomManager_fill]. set (rm := mkRoomManager _ _ _).
  specialize (IH (mkChatState (sessions st) (users st) rm) (σ {{ sp_rooms ::= fun rs => rs ++ [[]] }})).
  cbn [sessions users rooms] in IH.
  assert (_roomCounter rm = _roomCounter (rooms st) + 1) as Hrm by (unfold rm; cbn; apply wrap_small; lia).
  replace (σ {{ sp_rooms ::= fun rs => rs ++ replicate (S k) [] }}) with
    (σ {{ sp_rooms ::= fun rs => rs ++ [[]] }} {{ sp_rooms ::= fun rs => rs ++ replicate k [] }})
    by (destruct σ; cbn; by rewrite <-app_assoc).
  apply IH; [|lia|lia]. clear IH.
  destruct Ha, σ. constructor; cbn in *; try done.
  - by rewrite ab_rooms0, fmap_app.
  - intros j r [Hj|[Hge Hj]]%lookup_app_Some; [by apply ab_ids0|].
    apply list_lookup_singleton_Some in Hj as [Hj <-]. cbn. unfold zlen in ab_counter0. lia.
  - rewrite zlen_app. unfold rm in Hrm. cbn in Hrm. rewrite Hrm, ab_counter0. unfold zlen at 3. cbn. lia.
Qed.

Lemma abs_init n count cap :
  0 <= count < 2 ^ 16 ->
  abs n (ChatState_init count cap) (spec_init (socket <$> clients n) (Z.to_nat count) cap).
Proof.
  intros Hc. unfold ChatState_init, RoomManager_make. rewrite wrap_small by done.
  refine (abs_fill (Z.to_nat count) (mkChatState SessionManager_init UserManager_init (mkRoomManager [] 0 cap))
    (mkSpec (socket <$> clients n) ∅ ∅ [] cap 0) n _ _ _); [|done|cbn; lia].
  constructor; cbn; try done.
  - intros k. split; [set_solver|]. by intros (? & ? & ? & _).
  - intros k pr. split; [done|]. by intros (? & ? & _).
Qed.

(** The simulation along a run; counters grow by at most one a step. *)
Lemma sim_run order tickMs ops n st σ :
  order ≡ₚ chat_handlers -> abs n st σ -> chat_inv n st ->
  Forall (fun op => op_client op < length (clients n))%nat ops ->
  _roomCounter (rooms st) + zlen ops + 1 < 2 ^ 32 -> _userIdCounter (users st) + zlen ops + 1 < 2 ^ 64 ->
  _sessionCounter (sessions st) + zlen ops + 1 < 2 ^ 64 ->
  exists n' st' outs σ' cs, chat_run (chat_loop order tickMs) (n, st) ops = Some (n', st') /\
    spec_run σ ops outs σ' /\ abs n' st' σ' /\
    net_os n' = run_calls cs (net_os n) /\ sends cs = (outs ≫= wire).
Proof.
  intros Hord. revert n st σ. induction ops as [|op ops IH]; intros n st σ Ha Hinv Hops Hrc Huc Hsc.
  { exists n, st, [], σ, []. by split_and!; [|constructor|..]. }
  rewrite zlen_cons in *. pose proof (zlen_nonneg ops). inversion Hops; subst.
  destruct (chat_step_ok order tickMs n st op) as ([n1 st1] & Hs & Hinv1 & Hl & Hu1 & Hr1 & _);
    [done|done|split; lia|done|]. cbn [fst snd] in *.
  destruct (sim_step order tickMs n st σ op) as (s' & Hs' & out & σ1 & cs1 & Hstep & Ha1 & Hos1 & Hw1 & Hsc1);
    [done..|split; lia|lia|done|]. rewrite Hs in Hs'. injection Hs' as <-. cbn [fst snd] in *.
  destruct (IH n1 st1 σ1) as (n2 & st2 & outs & σ2 & cs & Hrun & Hspec & Ha2 & Hos2 & Hw2);
    [done|done|by rewrite Hl|lia|lia|lia|].
  exists n2, st2, (out ++ outs), σ2, (cs1 ++ cs). cbn [chat_run]. rewrite Hs. cbn [mbind option_bind].
  split; [done|]. split; [by econstructor|]. split; [done|].
  split; [by rewrite run_calls_app, Hos2, Hos1|]. by rewrite sends_app, bind_app, Hw1, Hw2.
Qed.

(** C3: the chat server implements its specification.  From the initial state, every
    run of the server over connections, packets (hostile ones included), refusals
    and disconnections is a run of the abstract machine, and what it hands to the
    system for sending is exactly the frames of the packets that machine outputs,
    in order, to open connections and when the frame fits a send buffer. *)
Theorem chat_refines_spec order tickMs n ops count cap :
  order ≡ₚ chat_handlers -> Net_inv n -> 0 <= count < 2 ^ 16 ->
  Forall (fun op => op_client op < length (clients n))%nat ops -> zlen ops < 2 ^ 31 ->
  exists n' st' outs σ' cs,
    chat_run (chat_loop order tickMs) (n, ChatState_init count cap) ops = Some (n', st') /\
    spec_run (spec_init (socket <$> clients n) (Z.to_nat count) cap) ops outs σ' /\ abs n' st' σ' /\
    net_os n' = run_calls cs (net_os n) /\ sends cs = (outs ≫= wire).
Proof.
  intros Hord Hn Hcnt Hops Hlen. destruct (ChatState_init_inv n count cap Hn Hcnt) as [Hinv Hc].
  apply sim_run; try done; [by apply abs_init|rewrite Hc; lia|cbn; lia..].
Qed.

(** C19: nobody is answered without asking.  Over any run of the server, a socket is
    sent at most as many acknowledgements with a sequence number as join and leave
    requests with that number were handled for connections with that socket. *)
Theorem replies_answer_requests order tickMs n ops count cap :
  order ≡ₚ chat_handlers -> Net_inv n -> 0 <= count < 2 ^ 16 ->
  Forall (fun op => op_client op < length (clients n))%nat ops -> zlen ops < 2 ^ 31 ->
  exists n' st' outs cs,
    chat_run (chat_loop order tickMs) (n, ChatState_init count cap) ops = Some (n', st') /\
    net_os n' = run_calls cs (net_os n) /\ sends cs = (outs ≫= wire) /\
    forall sock q, (replies sock q outs <= requests sock q ops (socket <$> clients n))%nat.
Proof.
  intros Hord Hn Hcnt Hops Hlen. destruct (ChatState_init_inv n count cap Hn Hcnt) as [Hinv Hc].
  destruct (sim_run order tickMs ops n (ChatState_init count cap) (spec_init (socket <$> clients n) (Z.to_nat count) cap))
    as (n' & st' & outs & σ' & cs & Hrun & Hspec & _ & Hos & Hsends);
    try done; [by apply abs_init|rewrite Hc; lia|cbn; lia..|].
  exists n', st', outs, cs. split_and!; try done. intros sock q. by apply (spec_run_replies _ _ _ _ sock q) in Hspec.
Qed.

(** C18: what is heard was said.  Over any run of the server, every chat message sent
    to anybody carries the text and the sequence number of a message request that
    was handled, and a name that somebody gave in a join request. *)
Theorem heard_was_said order tickMs n ops count cap :
  order ≡ₚ chat_handlers -> Net_inv n -> 0 <= count < 2 ^ 16 ->
  Forall (fun op => op_client op < length (clients n))%nat ops -> zlen ops < 2 ^ 31 ->
  exists n' st' outs cs,
    chat_run (chat_loop order tickMs) (n, ChatState_init count cap) ops = Some (n', st') /\
    net_os n' = run_calls cs (net_os n) /\ sends cs = (outs ≫= wire) /\
    forall sock sid name msg t q, (sock, makeChatMessageBroadcast sid name msg t q) ∈ outs ->
      said ops msg q /\ chosen ops name.
Proof.
  intros Hord Hn Hcnt Hops Hlen. destruct (ChatState_init_inv n count cap Hn Hcnt) as [Hinv Hc].
  destruct (sim_run order tickMs ops n (ChatState_init count cap) (spec_init (socket <$> clients n) (Z.to_nat count) cap))
    as (n' & st' & outs & σ' & cs & Hrun & Hspec & _ & Hos & Hsends);
    try done; [by apply abs_init|rewrite Hc; lia|cbn; lia..|].
  exists n', st', outs, cs. split_and!; try done. intros sock sid name msg t q Hin.
  destruct (spec_run_said _ _ _ _ (fun _ => False) _ _ _ _ _ _ Hspec ltac:(done) Hin) as [Hs [[]|Hn']]. done.
Qed.
End Refinement.

(** ** Witnesses

    Alice joins, bob joins, alice speaks; then hostile packets and departures
    ([demo_run]), on two slots that are closed at first. *)

#[local] Instance spec_codec : FlatBuffers := book_codec [].

Lemma chat_refines_spec_witness :
  exists n' st' outs σ' cs,
    chat_run (chat_loop chat_handlers 50) (closed_net, ChatState_init 2 4) demo_run = Some (n', st') /\
    spec_run (spec_init [InvalidSocket; InvalidSocket] 2 4) demo_run outs σ' /\ abs n' st' σ' /\
    net_os n' = run_calls cs (net_os closed_net) /\ sends cs = (outs ≫= wire).
Proof.
  refine (chat_refines_spec chat_handlers 50 closed_net demo_run 2 4 (Permutation_refl _)
    closed_net_inv _ demo_run_clients _); [split; [discriminate|reflexivity]|reflexivity].
Defined.

Lemma replies_answer_requests_witness :
  exists n' st' outs cs,
    chat_run (chat_loop chat_handlers 50) (closed_net, ChatState_init 2 4) demo_run = Some (n', st') /\
    net_os n' = run_calls cs (net_os closed_net) /\ sends cs = (outs ≫= wire) /\
    (replies 10 1 outs <= 1)%nat /\ (replies 10 2 outs <= 0)%nat.
Proof.
  destruct (replies_answer_requests chat_handlers 50 closed_net demo_run 2 4 (Permutation_refl _)
    closed_net_inv ltac:(split; [discriminate|reflexivity]) demo_run_clients eq_refl)
    as (n' & st' & outs & cs & Hrun & Hos & Hs & Hle).
  exists n', st', outs, cs. split; [exact Hrun|]. split; [exact Hos|]. split; [exact Hs|].
  split; [exact (Hle 10 1)|exact (Hle 10 2)].
Defined.

Lemma heard_was_said_witness :
  exists n' st' outs cs,
    chat_run (chat_loop chat_handlers 50) (closed_net, ChatState_init 2 4) demo_run = Some (n', st') /\
    net_os n' = run_calls cs (net_os closed_net) /\ sends cs = (outs ≫= wire) /\
    forall sock sid name msg t q, (sock, makeChatMessageBroadcast sid name msg t q) ∈ outs ->
      said demo_run msg q /\ chosen demo_run name.
Proof.
  refine (heard_was_said chat_handlers 50 closed_net demo_run 2 4 (Permutation_refl _)
    closed_net_inv _ demo_run_clients _); [split; [discriminate|reflexivity]|reflexivity].
Defined.

(** The specification, run on the same operations, lets bob hear alice once. *)
Lemma spec_run_step σ op ops out outs all σ1 σ2 :
  spec_step σ op out σ1 -> all = out ++ outs -> spec_run σ1 ops outs σ2 -> spec_run σ (op :: ops) all σ2.
Proof. intros ? -> ?. by econstructor. Qed.

Lemma spec_demo t :
  exists σ', spec_run (spec_init [InvalidSocket; InvalidSocket] 2 4) (take 5 demo_run)
    [(10, makeJoinedRoomResponse 1); (10, makeUserJoinedBroadcast 0 1 "bob"); (11, makeJoinedRoomResponse 1);
     (11, makeChatMessageBroadcast 0 "alice" "hi" t 2)] σ'.
Proof.
  eexists. cbn [take demo_run].
  eapply spec_run_step; [apply sp_accept|reflexivity|]. eapply spec_run_step; [apply sp_accept|reflexivity|].
  eapply spec_run_step.
  { apply (sp_join _ 0 (makeJoinRoomRequest "alice" 1) "alice" 0 [[]; []] 0 []); try reflexivity. by intros ??. }
  { reflexivity. }
  eapply spec_run_step.
  { apply (sp_join _ 1 (makeJoinRoomRequest "bob" 1) "bob" 1 [[0%nat]; []] 0 [0%nat]); try reflexivity.
    intros k pr Hk. cbn in Hk. by apply lookup_insert_Some in Hk as [[<- <-]|[_ Hk]]. }
  { reflexivity. }
  eapply spec_run_step; [|shelve|apply spec_run_nil].
  - apply (sp_say _ 0 (makeSendMessageRequest 0 "x" "hi" 2) 0 "x" "hi" 0 (mkPerson 0 "alice" 0) [0%nat; 1%nat] t);
      reflexivity.
  Unshelve. reflexivity.
Qed.
