(* ===== verification/ChatTick.v ===== *)
(** * ChatTick: the server's threads and the specification

    ChatSpec.v relates the operations of the chat to an abstract machine.  Here the code
    around them is related to it: [PacketDispatcher::Tick] and the turns of
    [GameLoop::Update] on the logic thread, with their clocks and callbacks, and
    [GameLoop::Receive] on the I/O workers.  A turn is a run of the specification over the
    packets in the queue; a worker that assembles frames is silent. *)

From S2P Require Import Prelude Errors Platform FrameBuffer CommandQueue Protocol NetClient Net.
From S2P Require Import PacketDispatcher Framing Tick ChatSession ChatUser ChatRoom ChatHandlers ChatInvariant.
From S2P Require Import GameLoop ChatSteps ChatRun ChatProps ChatSpec.
From coqutil Require Import Byte Datatypes.RecordSetters.
From stdpp Require Import base gmap list strings option.
Import DoubleBraceUpdate.
Open Scope Z_scope.

Section ChatTick.
Context {OS W : Type} `{WinSock OS} `{FlatBuffers} `{UMapOrder}.
Abbreviation Dispatcher := (PacketDispatcher OS W ChatState).
Implicit Types (n : Net OS W) (st : ChatState) (σ : Spec) (d : Dispatcher) (i m : nat).

(** ** What is sent *)

(** The calls that lead from one state to another send the frames of [outs]. *)
Definition emits (outs : list Output) n n' : Prop :=
  exists cs, net_os n' = run_calls cs (net_os n) /\ sends cs = (outs ≫= wire).

Lemma emits_refl n n' : net_os n' = net_os n -> emits [] n n'.
Proof. intros Ho. by exists []. Qed.

Lemma emits_app outs outs' n1 n2 n3 : emits outs n1 n2 -> emits outs' n2 n3 -> emits (outs ++ outs') n1 n3.
Proof.
  intros (cs & Ho & Hs) (cs' & Ho' & Hs'). exists (cs ++ cs').
  split; [by rewrite run_calls_app, <-Ho|]. by rewrite sends_app, bind_app, Hs, Hs'.
Qed.

(** Work that changes no connection and sends nothing. *)
Definition quiet n n' : Prop := clients n' = clients n /\ emits [] n n'.

#[export] Instance quiet_preorder : PreOrder quiet.
Proof.
  split; [intros n; by split; [|apply emits_refl]|].
  intros n1 n2 n3 [Hc1 He1] [Hc2 He2]. split; [congruence|]. by apply (emits_app [] [] n1 n2 n3).
Qed.

Lemma quiet_w f n : quiet n (with_w f n).
Proof. by split; [|apply emits_refl]. Qed.

Lemma quiet_clock n os t : NowInNs64 (net_os n) = (os, t) -> quiet n (mkNet os (net_w n) (clients n)).
Proof.
  intros Ho. split; [done|]. exists [SysSteadyClockNow]. split; [|done]. cbn [run_calls foldl net_os]. unfold NowInNs64 in Ho.
  destruct (os_call _ _). by injection Ho as <- _.
Qed.

Lemma silent_clock n st : exists n' t, net_now (n, st) = (n', st, t) /\ quiet n n'.
Proof.
  unfold net_now. cbn [fst snd]. destruct (NowInNs64 (net_os n)) as [os t] eqn:Ho.
  eexists _, t. split; [done|]. by eapply quiet_clock.
Qed.

Lemma quiet_same n n' : quiet n n' -> same_conns n n'.
Proof. intros [Hc _]. unfold same_conns. rewrite Hc. apply Forall_Forall2_diag, Forall_true, same_conn_refl. Qed.

(** ** The state between two operations *)

(** The state corresponds to the specification's, is consistent, and the counters can
    grow [m] times before one of them wraps. *)
Record ready m n st σ : Prop := {
  rd_abs : abs n st σ;
  rd_inv : chat_inv n st;
  rd_rooms : _roomCounter (rooms st) + Z.of_nat m + 1 < 2 ^ 32;
  rd_users : _userIdCounter (users st) + Z.of_nat m + 1 < 2 ^ 64;
  rd_sessions : _sessionCounter (sessions st) + Z.of_nat m + 1 < 2 ^ 64 }.

Lemma ready_le m m' n st σ : (m' <= m)%nat -> ready m n st σ -> ready m' n st σ.
Proof. intros Hm []. constructor; try done; lia. Qed.

Lemma ready_same m n n' st σ : same_conns n n' -> Net_inv n' -> ready m n st σ -> ready m n' st σ.
Proof. intros Hs Hn []. constructor; try done; [by apply (abs_same n)|by apply (chat_inv_same n)]. Qed.

Lemma ready_quiet m n n' st σ : quiet n n' -> ready m n st σ -> ready m n' st σ.
Proof.
  intros Hq Hr. apply (ready_same m n); [by apply quiet_same| |done]. unfold Net_inv. rewrite (proj1 Hq). by apply Hr.
Qed.

(** ** Dispatch *)

(** The three handlers are registered, in some order, and nothing else. *)
Definition chat_dispatcher d : Prop :=
  exists order, order ≡ₚ chat_handlers /\ _handlers d = _handlers (_dispatcher (chat_loop order 0)).

Lemma chat_dispatcher_known d p :
  chat_dispatcher d -> known_tag p = true ->
  exists T h, (T, h) ∈ chat_handlers /\ payload_type p = PayloadTag T /\
    _handlers d !! payload_type p = Some (dispatch_of T h).
Proof.
  intros (order & Hord & Hd) Hk. apply known_tag_true in Hk as (T & HT & Htag).
  destruct (chat_handlers_tags (OS:=OS) (W:=W) T HT) as [h Hin]. exists T, h. split_and!; [done..|].
  rewrite Hd, Htag. apply static_registry_handlers; [|by rewrite Hord]. rewrite Hord. cbn. repeat constructor; set_solver.
Qed.

Lemma chat_dispatcher_handles d ps :
  chat_dispatcher d -> Forall (fun p => known_tag p = true) ps -> Forall (fun p => _handlers d !! payload_type p <> None) ps.
Proof.
  intros Hd Hps. eapply Forall_weaken; [exact Hps|]. intros p Hp.
  destruct (chat_dispatcher_known d p Hd Hp) as (T & h & _ & _ & Hh). by rewrite Hh.
Qed.

Lemma chat_dispatcher_unknown d p :
  chat_dispatcher d -> known_tag p = false -> _handlers d !! payload_type p = None.
Proof.
  intros (order & Hord & Hd) Hk. rewrite Hd. destruct (_handlers _ !! payload_type p) as [fn|] eqn:Hfn; [|done].
  apply static_registry_only in Hfn as (T & h & Hin & Htag & _). rewrite Hord in Hin.
  assert (known_tag p = true); [|congruence]. apply known_tag_true. exists T. split; [|done].
  unfold chat_handlers in Hin. rewrite !elem_of_cons, elem_of_nil in Hin. set_solver.
Qed.

(** The three handlers keep the contract of [Tick] (Tick.v) in every state of the chat. *)
Lemma chat_handling d : chat_dispatcher d -> Handling (_handlers d) chat_ok.
Proof.
  intros (order & Hord & Hd) t fn i p n st Hfn Hn Hst _. rewrite Hd in Hfn.
  apply static_registry_only in Hfn as (T & h & Hin & _ & ->). rewrite Hord in Hin.
  destruct (dispatch_sound (fun _ => True) T h i p n st Hin Hn Hst) as (n' & st' & Hrun & (_ & Hn' & _) & Hst').
  exists n', st'. split_and!; [done|done|by eapply dispatch_keeps|done].
Qed.

(** What one command owes to the specification. *)
Definition refined m n st σ (ops : list ChatOp) (s' : Net OS W * ChatState) : Prop :=
  exists outs σ', spec_run σ ops outs σ' /\ ready m s'.1 s'.2 σ' /\ emits outs n s'.1.

Lemma spec_run_one σ op out σ' : spec_step σ op out σ' -> spec_run σ [op] out σ'.
Proof. intros. rewrite <-(app_nil_r out). econstructor; [done|constructor]. Qed.

Lemma spec_run_app σ ops ops' outs outs' σ1 σ2 :
  spec_run σ ops outs σ1 -> spec_run σ1 ops' outs' σ2 -> spec_run σ (ops ++ ops') (outs ++ outs') σ2.
Proof. induction 1; intros; [done|]. rewrite <-app_assoc. cbn [app]. econstructor; [done|]. auto. Qed.

Lemma refined_quiet m n n1 st σ : quiet n n1 -> ready m n st σ -> refined m n st σ [] (n1, st).
Proof. intros Hq Hr. eexists [], σ. split; [constructor|]. split; [by apply (ready_quiet m n)|apply Hq]. Qed.

Lemma refined_app m m' n st σ ops s1 ops' s2 :
  refined m n st σ ops s1 -> (forall σ1, ready m s1.1 s1.2 σ1 -> refined m' s1.1 s1.2 σ1 ops' s2) ->
  refined m' n st σ (ops ++ ops') s2.
Proof.
  intros (outs & σ1 & Hrun & Hr & He) Hnext. destruct (Hnext σ1 Hr) as (outs' & σ2 & Hrun' & Hr' & He').
  eexists _, _. split; [by eapply spec_run_app|]. split; [done|]. by eapply emits_app.
Qed.

Lemma DispatchPacket_known d i p n st σ m :
  chat_dispatcher d -> known_tag p = true -> ready (S m) n st σ -> (i < length (clients n))%nat ->
  exists n' st', DispatchPacket i p d (n, st) = Some (n', st', OkVoid) /\ refined m n st σ [CPacket i p] (n', st') /\
    same_conns n n'.
Proof.
  intros Hd Hk [Ha Hinv Hr Hu Hs] Hi. assert (counters_free st) as Hfree by (split; lia).
  destruct (chat_dispatcher_known d p Hd Hk) as (T & h & Hin & Htag & Hh).
  rewrite (DispatchPacket_handler i p _ _ _ Hh).
  destruct (sim_dispatch T h n st σ i p Hin Htag Ha Hinv Hfree) as ([n' st'] & Hrun & out & σ' & cs & Hstep & Ha' & Hos & Hw & Hc).
  destruct (dispatch_ok T h i p n st Hin Hinv Hfree) as (s' & Hrun' & Hinv' & _ & Hu' & Hr' & _).
  rewrite Hrun in Hrun'. injection Hrun' as <-. cbn [fst snd] in *. rewrite Hrun. cbn [mbind option_bind].
  exists n', st'. split; [done|]. split; [|by eapply dispatch_keeps].
  exists out, σ'. split; [by apply spec_run_one|]. split; [constructor; cbn; try done; lia|by exists cs].
Qed.

Lemma DispatchPacket_unknown d i p n st :
  chat_dispatcher d -> known_tag p = false ->
  DispatchPacket i p d (n, st) = Some (n, st, Err FbPayloadTypeNotFound).
Proof.
  intros Hd Hk. pose proof (chat_dispatcher_unknown d p Hd Hk) as Hh. unfold DispatchPacket, DispatchFn in *. by rewrite Hh.
Qed.

(** The refused connection is closed. *)
Lemma close_refined m n st σ i p :
  known_tag p = false -> ready m n st σ -> (i < length (clients n))%nat ->
  exists n', Net_Close i true n = Some n' /\ refined m n st σ [CPacket i p] (n', st) /\
    length (clients n') = length (clients n).
Proof.
  intros Hk [Ha Hinv Hr Hu Hs] Hi.
  destruct (sim_closing i n st σ Ha) as (n' & cs & Hcl & Ha' & Hos & Hno); [apply Hinv|done|].
  destruct (close_ok i n st Hinv Hi) as (n2 & Hcl2 & Hinv' & Hl & _). rewrite Hcl in Hcl2. injection Hcl2 as <-.
  exists n'. split; [done|]. split; [|done]. exists [], (spec_close i σ).
  split; [by apply spec_run_one, sp_unknown|]. split; [by constructor|]. by exists cs.
Qed.

(** ** [Tick] *)

(** The packets in some commands; the specification does not see bytes that are none. *)
Definition packets_of (cmds : list PacketCommand) : list ChatOp :=
  cmds ≫= fun cmd => match fb_get (cmd_data cmd) with Some p => [CPacket (cmd_client cmd) p] | None => [] end.

(** A packet with a handler, or no packet. *)
Definition cmd_known (cmd : PacketCommand) : Prop :=
  forall p, fb_get (cmd_data cmd) = Some p -> known_tag p = true.

Lemma Tick_wait d cmd n st :
  exists n1, quiet n n1 /\
    (if cmd_enqueuedAtNs cmd >? 0 then
       let '(s, t) := net_now (n, st) in
       (with_w (emit1 (onQueueWait (pd_callbacks d)) (i64 (t - cmd_enqueuedAtNs cmd))) s.1, s.2)
     else (n, st)) = (n1, st).
Proof.
  destruct (_ >? 0); [|by exists n]. destruct (silent_clock n st) as (n1 & t & -> & Hq).
  eexists. split; [|done]. etrans; [exact Hq|apply quiet_w].
Qed.

Lemma Tick_observe d (t0 : Z) n st :
  exists n1, quiet n n1 /\
    match onDispatchProcess (pd_callbacks d) with
    | Some f => let '(s, t) := net_now (n, st) in (with_w (f (i64 (t - t0))) s.1, s.2)
    | None => (n, st)
    end = (n1, st).
Proof.
  destruct (onDispatchProcess _); [|by exists n]. destruct (silent_clock n st) as (n1 & t & -> & Hq).
  eexists. split; [|done]. etrans; [exact Hq|apply quiet_w].
Qed.

Lemma Tick_command_refined d cmd n st σ m :
  chat_dispatcher d -> ready (S m) n st σ -> (cmd_client cmd < length (clients n))%nat ->
  exists n' st', Tick_command d cmd (n, st) = Some (n', st') /\ refined m n st σ (packets_of [cmd]) (n', st') /\
    length (clients n') = length (clients n) /\ (cmd_known cmd -> same_conns n n').
Proof.
  intros Hd Hr Hi. unfold Tick_command, packets_of. cbn [mbind list_bind]. rewrite app_nil_r.
  destruct (Tick_wait d cmd n st) as (n1 & Hq1 & ->).
  destruct (fb_get (cmd_data cmd)) as [p|] eqn:Hp.
  2:{ exists n1, st. split; [done|]. split; [apply (ready_le _ m) in Hr; [by apply refined_quiet|lia]|].
      split; [by rewrite (proj1 Hq1)|intros _; by apply quiet_same]. }
  destruct (silent_clock n1 st) as (n2 & t2 & -> & Hq2). assert (quiet n n2) as Hq by (by etrans).
  pose proof (ready_quiet _ _ _ _ _ Hq Hr) as Hr2. pose proof (proj1 Hq) as Hc2.
  assert (forall n' s, refined m n2 st σ [CPacket (cmd_client cmd) p] (n', s) ->
    refined m n st σ [CPacket (cmd_client cmd) p] (n', s)) as Hpre.
  { intros n' s (outs & σ' & ? & ? & He). exists outs, σ'. split_and!; [done..|]. apply (emits_app [] outs n n2 n'); [apply Hq|exact He]. }
  destruct (known_tag p) eqn:Hk.
  - destruct (DispatchPacket_known d (cmd_client cmd) p n2 st σ m) as (n3 & st3 & -> & Hr3 & Hs3); [done..|by rewrite Hc2|].
    cbn [mbind option_bind HasErr OkVoid Ok _hasError].
    destruct (Tick_observe d t2 n3 st3) as (n4 & Hq4 & ->). exists n4, st3. split; [done|].
    assert (same_conns n n4) as Hs by (etrans; [by apply quiet_same|]; etrans; [exact Hs3|by apply quiet_same]).
    split; [|by split; [apply same_conns_length|]]. apply Hpre.
    rewrite <-(app_nil_r [_]). eapply refined_app; [exact Hr3|]. intros σ1 Hr1. by apply refined_quiet.
  - rewrite DispatchPacket_unknown by done. cbn [mbind option_bind HasErr Err _hasError].
    destruct (Tick_observe d t2 n2 st) as (n4 & Hq4 & ->). cbn [fst snd].
    assert (quiet n n4) as Hq' by (by etrans).
    destruct (close_refined m n4 st σ (cmd_client cmd) p Hk) as (n5 & -> & Hr5 & Hl5).
    { apply (ready_quiet m n); [done|]. by apply (ready_le (S m)); [lia|]. }
    { by rewrite (proj1 Hq'). }
    exists n5, st. split; [done|]. split; [|split; [by rewrite Hl5, (proj1 Hq')|]].
    + destruct Hr5 as (outs & σ' & ? & ? & He). exists outs, σ'. split_and!; [done..|]. apply (emits_app [] outs n n4 n5); [apply Hq'|exact He].
    + intros Hkn. specialize (Hkn p Hp). congruence.
Qed.

Lemma Tick_commands_refined d m cmds : forall n st σ,
  chat_dispatcher d -> ready (length cmds + m) n st σ ->
  Forall (fun cmd => cmd_client cmd < length (clients n))%nat cmds ->
  exists n' st', Tick_commands d cmds (n, st) = Some (n', st') /\ refined m n st σ (packets_of cmds) (n', st') /\
    length (clients n') = length (clients n) /\ (Forall cmd_known cmds -> same_conns n n').
Proof.
  induction cmds as [|cmd cmds IH]; intros n st σ Hd Hr Hc.
  { exists n, st. split; [done|]. split; [by apply refined_quiet|]. done. }
  inversion Hc as [|?? Hi Hc']; subst. cbn [Tick_commands].
  destruct (Tick_command_refined d cmd n st σ (length cmds + m) Hd Hr Hi) as (n1 & st1 & -> & Href & Hl & Hsame).
  cbn [mbind option_bind].
  destruct Href as (outs & σ1 & Hrun & Hr1 & He).
  destruct (IH n1 st1 σ1 Hd Hr1) as (n2 & st2 & Hrun2 & Href2 & Hl2 & Hsame2); [by rewrite Hl|].
  exists n2, st2. split; [done|]. split; [|split; [congruence|]].
  - destruct Href2 as (outs' & σ2 & Hspec2 & Hr2 & He2).
    exists (outs ++ outs'), σ2. split; [|split; [done|by eapply emits_app]].
    unfold packets_of in *. cbn [mbind list_bind] in *. rewrite app_nil_r in Hrun. by eapply spec_run_app.
  - intros Hk. inversion Hk; subst. etrans; [by apply Hsame|by apply Hsame2].
Qed.

(** ** A turn of the loop *)

Implicit Types (gl : GameLoop OS W).

Definition loop_queue gl : list PacketCommand := _writeQueue (_commandQueue (_dispatcher gl)).

(** The queue is drained, and what was in it is handled. *)
Lemma Update_turn_refined gl n st σ m :
  chat_dispatcher (_dispatcher gl) -> ready (length (loop_queue gl) + m) n st σ ->
  Forall (fun cmd => cmd_client cmd < length (clients n))%nat (loop_queue gl) ->
  exists gl' n' st' late, Update_turn gl (n, st) = Some (gl', (n', st'), late) /\
    refined m n st σ (packets_of (loop_queue gl)) (n', st') /\
    loop_queue gl' = [] /\ _handlers (_dispatcher gl') = _handlers (_dispatcher gl) /\
    gl_hasStopped gl' = gl_hasStopped gl /\ length (clients n') = length (clients n) /\
    (Forall cmd_known (loop_queue gl) -> same_conns n n').
Proof.
  intros Hd Hr Hc. unfold Update_turn.
  destruct (silent_clock n st) as (n1 & t1 & -> & Hq1). unfold Tick, MPSCCommandQueue_DrainTo, MPSCCommandQueue_swap.
  cbn [fst snd]. set (batch := _writeQueue _). set (d := _ {{ _commandQueue := _; _tickBatch := _ }}).
  set (n2 := with_w _ n1). assert (quiet n n2) as Hq2 by (etrans; [exact Hq1|apply quiet_w]).
  assert (_handlers d = _handlers (_dispatcher gl) /\ _writeQueue (_commandQueue d) = []) as [Hh Hdq]
    by (by destruct gl as [? []]).
  destruct (Tick_commands_refined d m batch n2 st σ) as (n3 & st3 & -> & Href & Hl & Hsame).
  - destruct Hd as (order & ? & ?). exists order. by rewrite Hh.
  - by apply (ready_quiet _ n).
  - by rewrite (proj1 Hq2).
  - cbn [mbind option_bind]. destruct (silent_clock n3 st3) as (n4 & t4 & -> & Hq4). cbn [fst snd].
    eexists _, _, st3, _. split; [reflexivity|].
    match goal with |- context [with_w ?f (with_w ?g n4)] => set (n5 := with_w f (with_w g n4)) end.
    assert (quiet n3 n5) as Hq5 by (etrans; [exact Hq4|]; etrans; apply quiet_w).
    split; [|split; [exact Hdq|split; [exact Hh|split; [by destruct gl|split]]]].
    + destruct Href as (outs & σ' & ? & Hr' & He). exists outs, σ'. split; [done|]. split; [by apply (ready_quiet m n3)|].
      rewrite <-(app_nil_r outs). apply (emits_app [] (outs ++ []) n n2); [apply Hq2|]. by eapply emits_app, Hq5.
    + by rewrite (proj1 Hq5), Hl, (proj1 Hq2).
    + intros Hk. etrans; [by apply quiet_same|]. etrans; [by apply Hsame|by apply quiet_same].
Qed.

(** ** [Receive] *)

Lemma close_emits i n n' : Net_Close i true n = Some n' -> emits [] n n'.
Proof. apply Net_Close_calls. Qed.

Lemma consume_emits i k n n' : Net_Consume i k n = Some n' -> emits [] n n'.
Proof.
  unfold Net_Consume. destruct (clients n !! i) as [c|]; [|done]. cbn [mbind option_bind].
  destruct (FrameBuffer_Consume _ _); [|done]. cbn. intros [= <-]. by apply emits_refl.
Qed.

Lemma emits_silent n1 n2 n3 : emits [] n1 n2 -> emits [] n2 n3 -> emits [] n1 n3.
Proof. apply (emits_app [] []). Qed.

Lemma Receive_loop_emits fuel : forall d i n d' n', Receive_loop fuel d i n = Some (d', n') -> emits [] n n'.
Proof.
  induction fuel as [|fuel IH]; intros d i n d' n'; [done|]. cbn [Receive_loop].
  destruct (clients n !! i) as [c|]; [|done]. cbn [mbind option_bind].
  destruct (_ <? kHeaderSize); [intros [= _ <-]; by apply emits_refl|].
  destruct (_ >? maxFrameSize).
  { set (n1 := with_w _ n). destruct (Net_Close i true n1) as [n2|] eqn:Hc; [|done]. cbn. intros [= _ <-].
    by apply close_emits in Hc. }
  destruct (_ <? u64 _); [intros [= _ <-]; by apply emits_refl|]. destruct (HasErr _).
  - set (n1 := with_w _ n). destruct (Net_Close i true n1) as [n2|] eqn:Hc; [|done]. cbn [mbind option_bind].
    destruct (Net_Consume i _ n2) as [n3|] eqn:Hk; [|done]. cbn. intros [= _ <-].
    apply close_emits in Hc. apply consume_emits in Hk. by eapply emits_silent.
  - destruct (_data _) as [packet|]; [|done]. cbn [mbind option_bind]. set (n1 := with_w _ n).
    unfold PushCommand. destruct (NowInNs64 (net_os n1)) as [os t] eqn:Ho.
    destruct (quiet_clock n1 os t Ho) as [_ Hq].
    match goal with |- context [Net_Consume i ?k ?n2] => set (n2' := n2); destruct (Net_Consume i k n2') as [n3|] eqn:Hk; [|done] end.
    cbn [mbind option_bind]. intros Hrun%IH. apply consume_emits in Hk.
    eapply emits_silent; [|exact Hrun]. eapply emits_silent; [|exact Hk]. exact Hq.
Qed.

Lemma Receive_emits d i data n d' n' : Receive d i data n = Some (d', n') -> emits [] n n'.
Proof.
  unfold Receive. destruct (clients n !! i) as [c|]; [|done]. cbn [mbind option_bind].
  destruct (FrameBuffer_Append _ _) as [[fb ok]|]; [|done]. cbn [mbind option_bind]. case_bool.
  - match goal with |- context [Net_Close i true ?n1] => destruct (Net_Close i true n1) as [n2|] eqn:Hc; [|done] end.
    intros [= _ <-]. by apply close_emits in Hc.
  - by intros ?%Receive_loop_emits.
Qed.
End ChatTick.

(** ** A join and a message, end to end

    Two clients have a session (ChatProps.v).  The bytes of client 0's two packets arrive,
    cut in the middle of the first header; the next [Tick] gives the first packet to
    [JoinRoomHandler], which answers, and the second to [ChatMessageHandler]. *)

Section Witness.
#[local] Instance wire_codec : FlatBuffers := book_codec [demo_p1; demo_p2; makeJoinedRoomResponse 1].

Definition chat_demo_dispatcher : PacketDispatcher ScriptOS unit ChatState := _dispatcher (chat_loop chat_handlers 50).

Lemma chat_demo_ok : chat_dispatcher chat_demo_dispatcher.
Proof. exists chat_handlers. by split. Qed.

Definition wire_chunks : list (list byte) := [take 3 (stream [demo_p1; demo_p2]); drop 3 (stream [demo_p1; demo_p2])].

Lemma lobby_ok : chat_ok 2 lobby_state.
Proof.
  constructor; cbn [lobby_state sessions users rooms].
  - intros id s Hs. by apply (pair_sessions_ok id s).
  - by intros id u Hu.
  - constructor; [|constructor]. split; [done|constructor].
  - done.
Qed.

Lemma end_to_end_delivery_witness :
  exists d1 n1 d2 n2 st2,
    receive_all chat_demo_dispatcher 0 wire_chunks pair_net = Some (d1, n1) /\
    Tick d1 (n1, lobby_state) = Some (d2, (n2, st2)) /\ queued d2 = [] /\
    handled (_handlers chat_demo_dispatcher) 0 [demo_p1; demo_p2] (n1, lobby_state) (n2, st2) /\
    same_conns n1 n2 /\ chat_ok 2 st2.
Proof.
  destruct (end_to_end_delivery chat_demo_dispatcher chat_ok 0 pair_net (Client_init {{ socket := 10 }})
      [demo_p1; demo_p2] wire_chunks lobby_state)
    as (d1 & n1 & d2 & [n2 st2] & fb' & Hrun & _ & _ & Htick & Hq & Hhand & Hok & Hsame).
  - exact (chat_handling _ chat_demo_ok).
  - exact pair_net_inv.
  - exact lobby_ok.
  - reflexivity.
  - reflexivity.
  - repeat constructor; by vm_compute.
  - repeat constructor; by vm_compute.
  - reflexivity.
  - reflexivity.
  - exists d1, n1, d2, n2, st2. split_and!; [exact Hrun|exact Htick|exact Hq|exact Hhand| |exact Hok].
    apply Hsame, (chat_dispatcher_handles _ _ chat_demo_ok). repeat constructor.
Defined.

(** What that leads to: alice is in the room, and her reply is the one frame sent. *)
Example end_to_end_run :
  option_map (fun '(_, (n, st)) => (sends (calls (net_os n)), (fun r => _userName <$> r_users r) <$> _rooms (rooms st)))
    ('(d1, n1) ← receive_all chat_demo_dispatcher 0 wire_chunks pair_net; Tick d1 (n1, lobby_state)) =
  Some ([SysWSASend 10 (frame_of (fb_finish (makeJoinedRoomResponse 1)))], [["alice"%string]]).
Proof. vm_compute. reflexivity. Qed.
End Witness.
