(* ===== verification/ChatHearing.v ===== *)
(** * ChatHearing: what is said is heard

    The other half of [heard_was_said] (ChatSpec.v): as long as two people stay in a room,
    every message of the one reaches the other, once and in the order it was said,
    whatever everybody else does meanwhile. *)

From S2P Require Import Prelude Errors Platform FrameBuffer CommandQueue Protocol NetClient Net.
From S2P Require Import PacketDispatcher ChatSession ChatUser ChatRoom ChatHandlers ChatInvariant GameLoop ChatRun ChatProps ChatSpec ChatTick.
From coqutil Require Import Byte Datatypes.RecordSetters.
From stdpp Require Import base gmap list strings option.
Import DoubleBraceUpdate.
Open Scope Z_scope.

(** The messages a packet carries, from a client and from the server, with their sequence numbers. *)
Definition message_in (p : Packet) : list (string * Z) :=
  match payload_as P_SendMessageRequest p with
  | Some (SendMessageRequest _ _ msg) => [(msg, sequence p)]
  | _ => []
  end.

Definition message_by (sid : Z) (p : Packet) : list (string * Z) :=
  match payload_as P_ChatMessageBroadcast p with
  | Some (ChatMessageBroadcast sender _ msg _) => if sender =? sid then [(msg, sequence p)] else []
  | _ => []
  end.

(** What slot [a] says, and what the connection with socket [sock] hears of sender [sid]. *)
Definition said_by (a : nat) (ops : list ChatOp) : list (string * Z) :=
  ops ≫= fun op => match op with CPacket i p => if (i =? a)%nat then message_in p else [] | _ => [] end.

Definition heard_of (sock sid : Z) (outs : list Output) : list (string * Z) :=
  outs ≫= fun o => if o.1 =? sock then message_by sid o.2 else [].

Lemma heard_of_app sock sid outs outs' : heard_of sock sid (outs ++ outs') = heard_of sock sid outs ++ heard_of sock sid outs'.
Proof. apply bind_app. Qed.

(** The people [a] and [b] stay: neither leaves, is refused or disconnects, and no other
    connection gets their sockets. *)
Definition stays (a b : nat) (sa sb : Z) (op : ChatOp) : Prop :=
  match op with
  | CAccept i s => i <> a /\ i <> b /\ s <> sa /\ s <> sb
  | CPacket i p => i = a \/ i = b -> known_tag p = true /\ payload_as P_LeaveRoomRequest p = None
  | CDisconnect i | CClose i => i <> a /\ i <> b
  end.

Section Hearing.
Implicit Types (σ : Spec) (i k j : nat) (ms : list nat).

(** *** People and rooms *)

(** Numbers are given once; who is in a room is a person of that room, and there once. *)
Record spec_ok σ : Prop := {
  so_next : 0 <= sp_next σ;
  so_ids : forall k pr, sp_people σ !! k = Some pr -> 0 <= p_id pr < sp_next σ;
  so_once : forall k k' pr pr', sp_people σ !! k = Some pr -> sp_people σ !! k' = Some pr' -> p_id pr = p_id pr' -> k = k';
  so_rooms : forall j ms, sp_rooms σ !! j = Some ms ->
    NoDup ms /\ forall k, k ∈ ms -> exists pr, sp_people σ !! k = Some pr /\ p_room pr = j }.

Lemma others_spec k ms : forall x, x ∈ others k ms <-> x <> k /\ x ∈ ms.
Proof.
  intros x. unfold others. rewrite elem_of_erase_if, Nat.eqb_neq. naive_solver.
Qed.

Lemma NoDup_erase_if (f : nat -> bool) ms : NoDup ms -> NoDup (erase_if f ms).
Proof. intros Hnd. eapply sublist_NoDup; [exact Hnd|apply erase_if_sublist]. Qed.

(** Room [j] is there after a room was looked for. *)
Lemma room_for_one_lookup σ rooms j i ms :
  room_for_one σ = (rooms, j) -> sp_rooms σ !! i = Some ms -> rooms !! i = Some ms.
Proof.
  unfold room_for_one. destruct (find_if _ _); intros [= <- _] Hi; [done|]. by apply lookup_app_l_Some.
Qed.

Lemma room_for_one_rooms σ rooms j i ms :
  room_for_one σ = (rooms, j) -> rooms !! i = Some ms -> sp_rooms σ !! i = Some ms \/ ms = [].
Proof.
  unfold room_for_one. destruct (find_if _ _); intros [= <- _] Hi; [by left|].
  apply lookup_app_Some in Hi as [Hi|[_ Hi]]; [by left|]. right. apply list_lookup_singleton_Some in Hi. by destruct Hi.
Qed.

Lemma spec_ok_rooms σ rooms j :
  room_for_one σ = (rooms, j) -> spec_ok σ -> spec_ok (σ {{ sp_rooms := rooms }}).
Proof.
  intros Hroom []. destruct σ. constructor; cbn in *; try done. intros i ms Hi.
  destruct (room_for_one_rooms _ _ _ _ _ Hroom Hi) as [Hi'| ->]; [by apply so_rooms0|].
  split; [constructor|]. intros k Hk. by apply not_elem_of_nil in Hk.
Qed.

Lemma nobody_free σ i k : nobody σ i -> aliased σ i k = true -> sp_people σ !! k = None.
Proof. intros Hno Hal. destruct (sp_people σ !! k) as [pr|] eqn:Hk; [|done]. specialize (Hno k pr Hk). congruence. Qed.

Lemma spec_ok_join σ rooms j ms k name :
  spec_ok σ -> sp_people σ !! k = None -> room_for_one σ = (rooms, j) -> rooms !! j = Some ms ->
  spec_ok (σ {{ sp_people ::= <[k := mkPerson (sp_next σ) name j]>; sp_rooms := <[j := ms ++ [k]]> rooms; sp_next ::= Z.add 1 }}).
Proof.
  intros Hok Hk Hroom Hj. pose proof (spec_ok_rooms _ _ _ Hroom Hok) as [_ _ _ Hrooms]. destruct Hok as [Hn Hids Honce _].
  destruct σ as [conns online people rs cap next]. cbn in *. constructor; cbn.
  - lia.
  - intros k' pr [[_ <-]|[_ Hk']]%lookup_insert_Some; cbn; [lia|]. apply Hids in Hk'. lia.
  - intros k1 k2 pr1 pr2 [[<- <-]|[_ H1]]%lookup_insert_Some [[<- <-]|[_ H2]]%lookup_insert_Some; cbn; intros Heq; try done;
      [apply Hids in H2; lia|apply Hids in H1; lia|by eapply Honce].
  - intros i ms' Hi. apply list_lookup_insert_Some in Hi as [(<- & <- & _)|[Hne Hi]].
    + destruct (Hrooms j ms Hj) as [Hnd Hin]. split.
      * apply NoDup_snoc; [done|]. intros Hx. destruct (Hin k Hx) as (pr & Hpr & _). congruence.
      * intros x [Hx| ->%list_elem_of_singleton]%elem_of_app.
        -- destruct (Hin x Hx) as (pr & Hpr & Hj'). exists pr. split; [|done]. apply lookup_insert_Some. right.
           split; [congruence|done].
        -- eexists. by rewrite lookup_insert_eq.
    + destruct (Hrooms i ms' Hi) as [Hnd Hin]. split; [done|]. intros x Hx. destruct (Hin x Hx) as (pr & Hpr & Hj').
      exists pr. split; [|done]. apply lookup_insert_Some. right. split; [congruence|done].
Qed.

Lemma spec_ok_leave σ k pr ms :
  spec_ok σ -> sp_people σ !! k = Some pr -> sp_rooms σ !! p_room pr = Some ms ->
  spec_ok (σ {{ sp_people ::= delete k; sp_rooms ::= <[p_room pr := others k ms]> }}).
Proof.
  intros [Hn Hids Honce Hrooms] Hk Hms. destruct σ as [conns online people rs cap next]. cbn in *. constructor; cbn; [done|..].
  - intros k' pr' [_ Hk']%lookup_delete_Some. by eapply Hids.
  - intros k1 k2 pr1 pr2 [_ H1]%lookup_delete_Some [_ H2]%lookup_delete_Some. by eapply Honce.
  - intros i ms' Hi. apply list_lookup_insert_Some in Hi as [(<- & <- & _)|[Hne Hi]].
    + destruct (Hrooms _ _ Hms) as [Hnd Hin]. split; [by apply NoDup_erase_if|]. intros x [Hx Hin']%others_spec.
      destruct (Hin x Hin') as (pr' & Hpr' & Hj). exists pr'. split; [|done]. by rewrite lookup_delete_ne.
    + destruct (Hrooms _ _ Hi) as [Hnd Hin]. split; [done|]. intros x Hx. destruct (Hin x Hx) as (pr' & Hpr' & Hj).
      exists pr'. split; [|done]. rewrite lookup_delete_ne; [done|]. intros ->. rewrite Hk in Hpr'. by injection Hpr' as <-.
Qed.

Lemma spec_ok_erase σ (f : nat -> bool) (f' : gset nat -> gset nat) :
  spec_ok σ -> spec_ok (σ {{ sp_online ::= f'; sp_rooms ::= fmap (erase_if f) }}).
Proof.
  intros [Hn Hids Honce Hrooms]. destruct σ. constructor; cbn in *; try done. intros j ms Hj. rewrite list_lookup_fmap in Hj.
  destruct (sp_rooms !! j) as [ms0|] eqn:Hj0; [|done]. injection Hj as <-. destruct (Hrooms j ms0 Hj0) as [Hnd Hin].
  split; [by apply NoDup_erase_if|]. intros k [Hk _]%elem_of_erase_if. by apply Hin.
Qed.

Lemma spec_ok_close i σ : spec_ok σ -> spec_ok (spec_close i σ).
Proof. intros []. destruct σ. by constructor. Qed.

Lemma spec_step_ok σ op out σ' : spec_step σ op out σ' -> spec_ok σ -> spec_ok σ'.
Proof.
  intros Hstep Hok. destruct Hstep as [i sock|i p name k rooms j ms Hp Hon Hal Hno Hroom Hj|i p name Hp _|i p claimed k pr ms Hp Hk Hal Hms| | | | |i p Hk|i|i].
  - destruct Hok, σ. by constructor.
  - eapply spec_ok_join; try done. by eapply nobody_free.
  - eapply spec_ok_rooms; [|done]. apply surjective_pairing.
  - by apply spec_ok_leave.
  - done.
  - done.
  - done.
  - done.
  - by apply spec_ok_close.
  - by apply spec_ok_close, spec_ok_erase.
  - by apply spec_ok_close.
Qed.

Lemma spec_run_ok σ ops outs σ' : spec_run σ ops outs σ' -> spec_ok σ -> spec_ok σ'.
Proof. induction 1; [done|]. eauto using spec_step_ok. Qed.

Lemma spec_init_ok conns count cap : spec_ok (spec_init conns count cap).
Proof.
  constructor; cbn; try done. intros j ms [-> _]%lookup_replicate. split; [constructor|]. intros k Hk. by apply not_elem_of_nil in Hk.
Qed.

(** *** Connections *)

(** The connection of slot [k] has the socket [s], and no other has it. *)
Definition sole σ k (s : Z) : Prop := conn σ k = s /\ s <> InvalidSocket /\ forall k', conn σ k' = s -> k' = k.

Lemma sole_insert σ k s i s' : sole σ k s -> i <> k -> s' <> s -> sole (σ {{ sp_conns ::= <[i := s']> }}) k s.
Proof.
  intros (Hc & Hs & Hall) Hi Hs'. unfold sole, conn in *. destruct σ. cbn in *. split; [by rewrite list_lookup_insert_ne|].
  split; [done|]. intros k'. destruct (decide (k' = i)) as [->|Hne]; [|rewrite list_lookup_insert_ne by done; apply Hall].
  destruct (decide (i < length sp_conns)%nat).
  - rewrite list_lookup_insert_eq by done. cbn. congruence.
  - rewrite list_insert_ge by lia. apply Hall.
Qed.

Lemma sole_conns σ σ' k s : sp_conns σ' = sp_conns σ -> sole σ k s -> sole σ' k s.
Proof. unfold sole, conn. by intros ->. Qed.

Lemma sole_aliased σ k s i : sole σ k s -> aliased σ i k = true -> i = k.
Proof. intros (Hc & _ & Hall) Hal. apply Z.eqb_eq in Hal. apply Hall. congruence. Qed.

Lemma sole_aliased_r σ k s i : sole σ k s -> aliased σ k i = true -> i = k.
Proof. intros (Hc & _ & Hall) Hal. apply Z.eqb_eq in Hal. apply Hall. congruence. Qed.

(** One packet to each of some connections is heard once by each. *)
Lemma heard_sends_none σ b s sid p ks : sole σ b s -> b ∉ ks \/ message_by sid p = [] -> heard_of s sid (sends_to σ p ks) = [].
Proof.
  intros Hb Hno. induction ks as [|k ks IH]; [done|]. unfold heard_of, sends_to in *. cbn [fmap list_fmap mbind list_bind fst snd].
  rewrite IH by set_solver. rewrite app_nil_r. destruct (Z.eqb_spec (conn σ k) s) as [Heq|]; [|done].
  destruct Hno as [Hno|Hno]; [|done]. apply Hb in Heq as ->. set_solver.
Qed.

Lemma heard_sends_once σ b s sid p ks :
  sole σ b s -> NoDup ks -> b ∈ ks -> heard_of s sid (sends_to σ p ks) = message_by sid p.
Proof.
  intros Hb Hnd. induction Hnd as [|k ks Hk Hnd IH]; [by intros ?%not_elem_of_nil|]. intros Hin.
  change (sends_to σ p (k :: ks)) with ([(conn σ k, p)] ++ sends_to σ p ks). rewrite heard_of_app.
  unfold heard_of at 1. cbn [mbind list_bind fst snd]. rewrite app_nil_r. destruct (Z.eqb_spec (conn σ k) s) as [Heq|Hne].
  - apply Hb in Heq as ->. rewrite (heard_sends_none σ b s sid p ks) by auto. by rewrite app_nil_r.
  - apply elem_of_cons in Hin as [->|Hin]; [by destruct Hb|]. by apply IH.
Qed.

(** *** Staying together *)

(** The person [pa] at slot [a] belongs to a room that [b] sits in. *)
Record together σ (a b : nat) (sa sb : Z) (pa : Person) : Prop := {
  tg_person : sp_people σ !! a = Some pa;
  tg_room : exists ms, sp_rooms σ !! p_room pa = Some ms /\ b ∈ ms;
  tg_a : sole σ a sa;
  tg_b : sole σ b sb }.

Context (a b : nat) (sa sb : Z) (pa : Person).
Abbreviation meet σ := (together σ a b sa sb pa).
Abbreviation hears outs := (heard_of sb (u32 (p_id pa)) outs).

Lemma message_in_known p : message_in p <> [] -> known_tag p = true.
Proof.
  unfold message_in. destruct (payload_as P_SendMessageRequest p) as [body|] eqn:Hp; [|done].
  intros _. apply payload_as_known in Hp as [Hk _]; [done|set_solver].
Qed.

(** A request of another type is no message. *)
Lemma message_in_other T p body : T <> P_SendMessageRequest -> payload_as T p = Some body -> message_in p = [].
Proof.
  intros HT Hp. unfold message_in. destruct (payload_as P_SendMessageRequest p) as [body'|] eqn:Hp'; [|done].
  apply payload_as_Some in Hp as (_ & _ & Ht). pose proof (payload_as_other _ _ _ _ Ht Hp'). congruence.
Qed.

(** A step that sends no chat messages and in which [a] says nothing. *)
Lemma silent_step op outs :
  (forall p, op = CPacket a p -> message_in p = []) ->
  (forall s sid p, (s, p) ∈ outs -> message_by sid p = []) -> hears outs = said_by a [op].
Proof.
  intros Hop Houts. transitivity (@nil (string * Z)).
  - induction outs as [|[s p] outs IH]; [done|]. unfold heard_of in *. cbn [mbind list_bind fst snd].
    rewrite IH by (intros; eapply Houts; by right). rewrite (Houts s _ p) by left. by case_match.
  - unfold said_by. cbn [mbind list_bind]. rewrite app_nil_r. destruct op as [|i p| |]; try done.
    destruct (Nat.eqb_spec i a) as [->|]; [|done]. symmetry. by apply Hop.
Qed.

Lemma no_message_sends σ p ks s q sid : (forall sid, message_by sid p = []) -> (s, q) ∈ sends_to σ p ks -> message_by sid q = [].
Proof. intros Hp (k & [= -> ->] & _)%list_elem_of_fmap. apply Hp. Qed.

(** A message of somebody: [b] hears it when it is [a]'s. *)
Lemma say_step σ i p claimed claimedName msg k pr ms t :
  spec_ok σ -> sp_next σ <= 2 ^ 32 -> meet σ -> a <> b ->
  payload_as P_SendMessageRequest p = Some (SendMessageRequest claimed claimedName msg) ->
  sp_people σ !! k = Some pr -> aliased σ i k = true -> sp_rooms σ !! p_room pr = Some ms ->
  hears (sends_to σ (makeChatMessageBroadcast (u32 (p_id pr)) (p_name pr) msg t (sequence p)) (others k ms)) = said_by a [CPacket i p].
Proof.
  intros [Hn Hids Honce Hrooms] Hnext [Hpa (msa & Hmsa & Hb) Ha Hsb] Hab Hp Hk Hal Hms.
  unfold said_by. cbn [mbind list_bind]. rewrite app_nil_r. unfold message_in. rewrite Hp.
  set (pk := makeChatMessageBroadcast _ _ _ _ _).
  assert (forall sid, message_by sid pk = if u32 (p_id pr) =? sid then [(msg, sequence p)] else []) as Hmsg by done.
  pose proof (Hids _ _ Hk). pose proof (Hids _ _ Hpa). destruct (Nat.eqb_spec i a) as [->|Hne].
  - apply (sole_aliased_r _ _ _ _ Ha) in Hal as ->. rewrite Hpa in Hk. injection Hk as <-.
    rewrite Hmsa in Hms. injection Hms as <-. destruct (Hrooms _ _ Hmsa) as [Hnd _].
    rewrite (heard_sends_once σ b); [by rewrite Hmsg, Z.eqb_refl|done|by apply NoDup_erase_if|]. apply others_spec. done.
  - rewrite (heard_sends_none σ b); [done|done|]. right. rewrite Hmsg. rewrite !wrap_small by lia.
    destruct (Z.eqb_spec (p_id pr) (p_id pa)) as [Heq|]; [|done]. pose proof (Honce _ _ _ _ Hk Hpa Heq) as ->.
    by apply (sole_aliased _ _ _ _ Ha) in Hal.
Qed.

(** Somebody else joins: rooms only grow. *)
Lemma together_join σ rooms j ms k name :
  meet σ -> sp_people σ !! k = None -> room_for_one σ = (rooms, j) -> rooms !! j = Some ms ->
  meet (σ {{ sp_people ::= <[k := mkPerson (sp_next σ) name j]>; sp_rooms := <[j := ms ++ [k]]> rooms; sp_next ::= Z.add 1 }}).
Proof.
  intros [Hpa (msa & Hmsa & Hb) Ha Hsb] Hk Hroom Hj. pose proof (room_for_one_lookup _ _ _ _ _ Hroom Hmsa) as Hmsa'.
  destruct σ as [conns online people rs cap next]. cbn in *. constructor; cbn; [|clear Hroom; unfold constant|done..].
  - rewrite lookup_insert_ne; [done|]. intros ->. congruence.
  - destruct (decide (j = p_room pa)) as [->|Hne].
    + rewrite list_lookup_insert_eq by (by eapply lookup_lt_Some). eexists; split; [done|].
      rewrite Hmsa' in Hj. injection Hj as <-. apply elem_of_app. by left.
    + rewrite list_lookup_insert_ne by done. by exists msa.
Qed.

(** Somebody else leaves. *)
Lemma together_leave σ k pr ms :
  meet σ -> k <> a -> k <> b -> sp_rooms σ !! p_room pr = Some ms ->
  meet (σ {{ sp_people ::= delete k; sp_rooms ::= <[p_room pr := others k ms]> }}).
Proof.
  intros [Hpa (msa & Hmsa & Hb) Ha Hsb] Hka Hkb Hms. destruct σ as [conns online people rs cap next]. cbn in *.
  constructor; cbn; [by rewrite lookup_delete_ne| |done..]. destruct (decide (p_room pr = p_room pa)) as [Heq|Hne].
  - rewrite Heq, list_lookup_insert_eq by (by eapply lookup_lt_Some). eexists; split; [done|].
    rewrite Heq, Hmsa in Hms. injection Hms as <-. by apply others_spec.
  - rewrite list_lookup_insert_ne by done. by exists msa.
Qed.

(** Another connection is gone. *)
Lemma together_close σ i : meet σ -> i <> a -> i <> b -> meet (spec_close i σ).
Proof.
  intros [Hpa Hroom Ha Hb] Hia Hib. destruct (proj2 Ha) as [Hsa _], (proj2 Hb) as [Hsb _].
  assert (sole (spec_close i σ) a sa /\ sole (spec_close i σ) b sb) as [? ?]
    by (split; apply sole_insert; [done|done|congruence|done|done|congruence]).
  destruct σ. by constructor.
Qed.

Lemma together_erase σ i :
  meet σ -> i <> b -> meet (σ {{ sp_online ::= filter (fun k => aliased σ i k = false); sp_rooms ::= fmap (erase_if (aliased σ i)) }}).
Proof.
  intros [Hpa (msa & Hmsa & Hin) Ha Hb] Hib. pose proof (sole_aliased σ b sb i Hb) as Hal.
  assert (aliased σ i b = false) as Hf by (destruct (aliased σ i b); [exfalso; auto|done]).
  revert Hf. generalize (aliased σ i). intros al Hf. destruct σ. constructor; cbn in *; try done.
  exists (erase_if al msa). rewrite list_lookup_fmap, Hmsa. split; [done|]. by apply elem_of_erase_if.
Qed.

Lemma together_step σ op out σ' :
  spec_ok σ -> sp_next σ <= 2 ^ 32 -> meet σ -> a <> b -> stays a b sa sb op -> spec_step σ op out σ' ->
  meet σ' /\ hears out = said_by a [op].
Proof.
  intros Hok Hnext Hm Hab Hst Hstep. pose proof (tg_a _ _ _ _ _ _ Hm) as Ha. pose proof (tg_b _ _ _ _ _ _ Hm) as Hb.
  assert (forall i k, k = a \/ k = b -> aliased σ i k = true -> i = k) as Hmine
    by (intros i k [->| ->]; by eapply sole_aliased).
  destruct (tg_room _ _ _ _ _ _ Hm) as (msa & Hmsa & Hbin).
  assert (exists pb, sp_people σ !! b = Some pb) as [pb Hpb]
    by (destruct (so_rooms _ Hok _ _ Hmsa) as [_ Hin]; destruct (Hin b Hbin) as (pb & ? & _); by exists pb).
  destruct Hstep as [i sock|i p name k rooms j ms Hp Hon Hal Hno Hroom Hj|i p name Hp _|i p claimed k pr ms Hp Hk Hal Hms
    |i p claimed Hp Hno|i p claimed cn msg k pr ms t Hp Hk Hal Hms|i p claimed cn msg Hp Hno|i p Hk Hp|i p Hk|i|i]; cbn [stays] in Hst.
  - destruct Hst as (? & ? & ? & ?). split; [|done].
    pose proof (sole_insert _ _ _ i sock Ha ltac:(done) ltac:(done)). pose proof (sole_insert _ _ _ i sock Hb ltac:(done) ltac:(done)).
    destruct Hm, σ. by constructor.
  - split; [eapply together_join; try done; by eapply nobody_free|]. apply silent_step.
    + intros q [= _ <-]. eapply message_in_other; [|exact Hp]; done.
    + intros s sid q [Hin|Hin]%elem_of_app; (eapply no_message_sends; [|exact Hin]; done).
  - split; [|apply silent_step; [intros q [= _ <-]; eapply message_in_other; [|exact Hp]; done|by intros ??? ?%not_elem_of_nil]].
    destruct (room_for_one σ) as [rooms j] eqn:Hroom. pose proof (room_for_one_lookup _ _ _ _ _ Hroom Hmsa) as Hmsa'.
    destruct Hm, σ. constructor; cbn in *; try done. by exists msa.
  - assert (forall x, x = a \/ x = b -> k <> x) as Hkx.
    { intros x Hx ->. pose proof (Hmine i x Hx Hal) as ->. destruct (Hst Hx) as [_ Hnone]. congruence. }
    split; [apply together_leave; auto|]. apply silent_step; [intros q [= _ <-]; eapply message_in_other; [|exact Hp]; done|].
    intros s sid q [Hin|Hin]%elem_of_app; [case_bool_decide; [|by apply not_elem_of_nil in Hin]|]; (eapply no_message_sends; [|exact Hin]; done).
  - split; [done|]. apply silent_step; [intros q [= _ <-]; eapply message_in_other; [|exact Hp]; done|by intros ??? ?%not_elem_of_nil].
  - split; [done|]. by eapply say_step.
  - split; [done|]. apply silent_step; [|by intros ??? ?%not_elem_of_nil]. intros q [= -> _].
    specialize (Hno a pa (tg_person _ _ _ _ _ _ Hm)). unfold aliased in Hno. by rewrite Z.eqb_refl in Hno.
  - split; [done|]. apply silent_step; [|by intros ??? ?%not_elem_of_nil]. intros q [= _ <-].
    unfold message_in. by rewrite Hp by set_solver.
  - assert (i <> a /\ i <> b) as [? ?].
    { split; intros ->; (destruct Hst as [Hk' _]; [by auto|congruence]). }
    split; [by apply together_close|]. apply silent_step; [by intros q [= -> _]|by intros ??? ?%not_elem_of_nil].
  - destruct Hst. split; [by apply together_close; [apply together_erase|..]|done].
  - destruct Hst. split; [by apply together_close|done].
Qed.

(** Over a run, [b] hears of [a] what [a] says, in order. *)
Lemma spec_run_hears σ ops outs σ' :
  spec_run σ ops outs σ' -> spec_ok σ -> sp_next σ + zlen ops <= 2 ^ 32 -> meet σ -> a <> b -> Forall (stays a b sa sb) ops ->
  hears outs = said_by a ops.
Proof.
  induction 1 as [|σ op ops out outs σ1 σ2 Hstep Hrun IH]; [done|]. intros Hok Hnext Hm Hab Hst.
  rewrite zlen_cons in Hnext. pose proof (zlen_nonneg ops). inversion Hst as [|?? Hs Hst']; subst.
  destruct (together_step σ op out σ1) as [Hm1 Hh]; [done|lia|done..|].
  assert (sp_next σ1 <= sp_next σ + 1) as Hn1 by (destruct Hstep, σ; cbn; lia).
  rewrite heard_of_app, Hh, IH; [|by eapply spec_step_ok|lia|done..]. symmetry. apply (bind_app _ [op] ops).
Qed.
End Hearing.

(** ** On the server *)

Section Server.
Context {OS W : Type} `{WinSock OS} `{FlatBuffers} `{UMapOrder}.
Implicit Types (n : Net OS W) (st : ChatState) (σ : Spec).

(** A run of the server from any state that corresponds to one of the specification. *)
Lemma chat_run_refined order tickMs m ops : forall n st σ,
  order ≡ₚ chat_handlers -> ready (length ops + m) n st σ -> Forall (fun op => op_client op < length (clients n))%nat ops ->
  exists n' st', chat_run (chat_loop order tickMs) (n, st) ops = Some (n', st') /\ refined m n st σ ops (n', st') /\
    length (clients n') = length (clients n).
Proof.
  induction ops as [|op ops IH]; intros n st σ Hord Hr Hops.
  { exists n, st. split; [done|]. split; [by apply refined_quiet|done]. }
  inversion Hops as [|?? Hop Hops']; subst. destruct Hr as [Ha Hinv Hrc Huc Hsc]. cbn [length] in *.
  destruct (chat_step_ok order tickMs n st op Hord Hinv) as ([n1 st1] & Hs & Hinv1 & Hl & Hu1 & Hr1 & _); [split; lia|done|].
  destruct (sim_step order tickMs n st σ op Hord Ha Hinv) as (s' & Hs' & out & σ1 & cs1 & Hstep & Ha1 & Hos1 & Hw1 & Hsc1);
    [split; lia|lia|done|]. rewrite Hs in Hs'. injection Hs' as <-. cbn [fst snd] in *.
  destruct (IH n1 st1 σ1 Hord) as (n2 & st2 & Hrun & (outs & σ2 & Hspec & Hr2 & He) & Hl2);
    [constructor; try done; lia|by rewrite Hl|].
  exists n2, st2. cbn [chat_run]. rewrite Hs. cbn [mbind option_bind]. split; [done|]. split; [|congruence].
  exists (out ++ outs), σ2. split; [by econstructor|]. split; [done|]. apply (emits_app out outs n n1); [by exists cs1|exact He].
Qed.

Lemma ready_init n count cap m :
  Net_inv n -> 0 <= count < 2 ^ 16 -> Z.of_nat m < 2 ^ 31 ->
  ready m n (ChatState_init count cap) (spec_init (socket <$> clients n) (Z.to_nat count) cap).
Proof.
  intros Hn Hcnt Hm. destruct (ChatState_init_inv n count cap Hn Hcnt) as [Hinv Hc].
  constructor; [by apply abs_init|done|rewrite Hc; lia|cbn; lia..].
Qed.

(** The socket of slot [i] is open and nobody else's. *)
Definition sole_socket n i : Prop := socket_of n i <> InvalidSocket /\ forall k, socket_of n k = socket_of n i -> k = i.

Lemma sole_socket_spec n st σ i : abs n st σ -> sole_socket n i -> sole σ i (socket_of n i).
Proof. intros Ha [Hs Hk]. split; [by apply (abs_conn n st)|]. split; [done|]. intros k. rewrite (abs_conn n st) by done. apply Hk. Qed.

(** C17: What is said is heard.  After any run of the server, let [ua] be a registered user
    and [ub] somebody else in that user's room, both on open connections of their own.
    While neither of them leaves, is refused or disconnects, and nobody is given their
    sockets, whatever connections, packets and disconnections of others come in between,
    the connection of [ub] is sent every message of [ua], once and in the order said, and no
    others under that sender's number (a frame that exceeds a send buffer excepted). *)
Theorem said_is_heard order tickMs n ops1 ops2 count cap n1 st1 ua ub r :
  order ≡ₚ chat_handlers -> Net_inv n -> 0 <= count < 2 ^ 16 ->
  Forall (fun op => op_client op < length (clients n))%nat (ops1 ++ ops2) -> zlen (ops1 ++ ops2) < 2 ^ 31 ->
  chat_run (chat_loop order tickMs) (n, ChatState_init count cap) ops1 = Some (n1, st1) ->
  _users (users st1) !! _id ua = Some ua -> r ∈ _rooms (rooms st1) -> r_roomId r = _roomId ua -> ub ∈ r_users r ->
  slot ua <> slot ub -> sole_socket n1 (slot ua) -> sole_socket n1 (slot ub) ->
  Forall (stays (slot ua) (slot ub) (socket_of n1 (slot ua)) (socket_of n1 (slot ub))) ops2 ->
  exists n2 st2 outs cs, chat_run (chat_loop order tickMs) (n1, st1) ops2 = Some (n2, st2) /\
    net_os n2 = run_calls cs (net_os n1) /\ sends cs = (outs ≫= wire) /\
    heard_of (socket_of n1 (slot ub)) (u32 (_id ua)) outs = said_by (slot ua) ops2.
Proof.
  intros Hord Hn Hcnt [Hops1 Hops2]%Forall_app Hlen Hrun1 Hua Hr Hrid Hub Hne Hsa Hsb Hst. rewrite zlen_app in Hlen.
  unfold zlen in Hlen.
  destruct (chat_run_refined order tickMs (length ops2) ops1 n (ChatState_init count cap) _ Hord (ready_init n count cap (length ops1 + length ops2) Hn Hcnt ltac:(lia)) Hops1)
    as (n1' & st1' & Hrun & (outs1 & σ1 & Hspec1 & Hr1 & _) & Hl). rewrite Hrun1 in Hrun. injection Hrun as <- <-. cbn [fst snd] in Hr1.
  rewrite <-(Nat.add_0_r (length ops2)) in Hr1.
  destruct (chat_run_refined order tickMs 0 ops2 n1 st1 σ1 Hord Hr1) as (n2 & st2 & Hrun2 & (outs & σ2 & Hspec2 & Hr2 & cs & Hos & Hcs) & _);
    [by rewrite Hl|].
  exists n2, st2, outs, cs. split; [done|]. split; [done|]. split; [done|].
  destruct Hr1 as [Ha Hinv _ Huc _]. apply list_elem_of_lookup in Hr as [j Hj]. pose proof (ab_ids _ _ _ Ha _ _ Hj) as Hid.
  eapply (spec_run_hears (slot ua) (slot ub) _ _ (person ua)); [exact Hspec2| | | |done|done].
  - eapply spec_run_ok; [exact Hspec1|apply spec_init_ok].
  - rewrite (ab_next _ _ _ Ha). unfold zlen.
    assert (forall σ ops outs σ', spec_run σ ops outs σ' -> sp_next σ' <= sp_next σ + zlen ops) as Hgrow.
    { clear. intros σ ops outs σ'. induction 1 as [|σ op ops out outs σ1 σ2 Hstep _ IH]; [unfold zlen; cbn; lia|].
      rewrite zlen_cons. assert (sp_next σ1 <= sp_next σ + 1) by (destruct Hstep, σ; cbn; lia). lia. }
    apply Hgrow in Hspec1. rewrite (ab_next _ _ _ Ha) in Hspec1. cbn [sp_next spec_init] in Hspec1. unfold zlen in Hspec1. lia.
  - constructor; [|exists (slot <$> r_users r)|by apply (sole_socket_spec n1 st1)..].
    + by eapply abs_person.
    + split; [|apply list_elem_of_fmap; by exists ub]. cbn [person p_room].
      rewrite <-Hrid, Hid, Nat2Z.id, (ab_rooms _ _ _ Ha), list_lookup_fmap, Hj. done.
Qed.
End Server.

(** ** Alice, bob and carol

    Alice and bob join; alice says two things, while carol comes, joins and goes. *)

Section Witness.
#[local] Instance hearing_codec : FlatBuffers := book_codec [].

Definition three_slots : Net ScriptOS unit := mkNet (script_of []) tt [Client_init; Client_init; Client_init].

Definition both_join : list ChatOp :=
  [CAccept 0 10; CAccept 1 11; CPacket 0 (makeJoinRoomRequest "alice" 1); CPacket 1 (makeJoinRoomRequest "bob" 1)].

Definition alice_talks : list ChatOp :=
  [CPacket 0 (makeSendMessageRequest 0 "x" "hi" 2); CAccept 2 12; CPacket 2 (makeJoinRoomRequest "carol" 1);
   CPacket 1 (makeSendMessageRequest 0 "bob" "hello" 2); CPacket 0 (makeSendMessageRequest 0 "alice" "bye" 3);
   CPacket 0 (makeJoinRoomRequest "again" 4); CDisconnect 2].

Definition both_there : Net ScriptOS unit * ChatState :=
  default (three_slots, ChatState_init 1 4) (chat_run (chat_loop chat_handlers 50) (three_slots, ChatState_init 1 4) both_join).

Definition the_alice : User := mkUser (mkSession 0 0) 0 "alice" 0.
Definition the_bob : User := mkUser (mkSession 1 1) 1 "bob" 0.

Lemma both_there_run :
  chat_run (chat_loop chat_handlers 50) (three_slots, ChatState_init 1 4) both_join = Some (both_there.1, both_there.2).
Proof.
  unfold both_there. destruct (chat_run_refined (OS:=ScriptOS) (W:=unit) chat_handlers 50 0 both_join three_slots (ChatState_init 1 4)
    (spec_init (socket <$> clients three_slots) 1 4)) as (n1 & st1 & -> & _); try done.
  - apply ready_init; [repeat constructor; apply Client_init_inv|lia|done].
  - repeat constructor.
Qed.

Lemma both_there_sockets k : socket_of both_there.1 k = match k with O => 10 | S O => 11 | _ => InvalidSocket end.
Proof. destruct k as [|[|[|k]]]; vm_compute; reflexivity. Qed.

Lemma said_is_heard_witness :
  exists n2 st2 outs cs, chat_run (chat_loop chat_handlers 50) both_there alice_talks = Some (n2, st2) /\
    net_os n2 = run_calls cs (net_os both_there.1) /\ sends cs = (outs ≫= wire) /\
    heard_of 11 0 outs = [("hi"%string, 2); ("bye"%string, 3)].
Proof.
  destruct (said_is_heard chat_handlers 50 three_slots both_join alice_talks 1 4 both_there.1 both_there.2 the_alice the_bob
    (mkRoom [the_alice; the_bob] 0)) as (n2 & st2 & outs & cs & Hrun & Hos & Hcs & Hheard).
  - reflexivity.
  - repeat constructor; apply Client_init_inv.
  - split; [discriminate|reflexivity].
  - repeat constructor.
  - reflexivity.
  - exact both_there_run.
  - vm_compute; reflexivity.
  - apply list_elem_of_lookup. exists 0%nat. vm_compute; reflexivity.
  - reflexivity.
  - apply list_elem_of_lookup. by exists 1%nat.
  - discriminate.
  - split; [rewrite both_there_sockets; discriminate|]. intros k. rewrite !both_there_sockets. by destruct k as [|[|k]].
  - split; [rewrite both_there_sockets; discriminate|]. intros k. rewrite !both_there_sockets. by destruct k as [|[|k]].
  - rewrite !both_there_sockets. unfold alice_talks. repeat constructor; try discriminate; intros [Hk|Hk]; discriminate.
  - exists n2, st2, outs, cs. rewrite both_there_sockets in Hheard.
    split; [exact Hrun|]. split; [exact Hos|]. split; [exact Hcs|exact Hheard].
Defined.
End Witness.
