(* ===== verification/Conversation.v ===== *)
(** * Conversation: users, clients and the server

    Several chat clients (ChatClient.v) connected to one chat server.  What the users type
    is cut into chunks by the transport and arrives in any interleaving with the turns of
    the logic thread; what the server hands to the system for a socket is what the client
    at its other end receives. *)

From S2P Require Import Prelude Errors Platform FrameBuffer CommandQueue Protocol Logger Console TcpClient ClientMetrics ChatClient.
From S2P Require Import NetClient Net PacketDispatcher Framing ClientServer.
From S2P Require Import ChatSession ChatUser ChatRoom ChatHandlers ChatInvariant GameLoop ChatRun ChatSpec ChatTick.
From Stdlib Require Import Ascii String.
From stdpp Require Import base gmap list strings option.
From coqutil Require Import Byte Word.LittleEndianList Datatypes.RecordSetters.
Import DoubleBraceUpdate.
Open Scope Z_scope.

(** ** The server between its threads *)

(** A worker hands over the bytes of a completed receive, or the logic thread turns. *)
Inductive Event := Arrives (i : nat) (bytes : list byte) | LogicTurn.

(** The bytes that arrive on a slot. *)
Definition arrived (i : nat) (evs : list Event) : list byte :=
  evs ≫= fun ev => match ev with Arrives j bs => if (j =? i)%nat then bs else [] | LogicTurn => [] end.

Lemma arrived_here i bs evs : arrived i (Arrives i bs :: evs) = bs ++ arrived i evs.
Proof. unfold arrived. cbn [mbind list_bind]. by rewrite Nat.eqb_refl. Qed.

Lemma arrived_elsewhere i k bs evs : k <> i -> arrived k (Arrives i bs :: evs) = arrived k evs.
Proof. intros Hne. unfold arrived. cbn [mbind list_bind]. by rewrite (proj2 (Nat.eqb_neq i k)). Qed.

Definition event_ok (k : nat) (ev : Event) : Prop :=
  match ev with Arrives i bs => (i < k)%nat /\ zlen bs <= recvBufferSize | LogicTurn => True end.

(** The packets of one slot among some operations. *)
Definition packets_from (i : nat) (ops : list ChatOp) : list Packet :=
  ops ≫= fun op => match op with CPacket j p => if (j =? i)%nat then [p] else [] | _ => [] end.

Lemma packets_from_app i ops ops' : packets_from i (ops ++ ops') = packets_from i ops ++ packets_from i ops'.
Proof. apply bind_app. Qed.

Lemma packets_from_slot i j ps : packets_from i (CPacket j <$> ps) = if (j =? i)%nat then ps else [].
Proof.
  induction ps as [|p ps IH]; [by destruct (j =? i)%nat|]. unfold packets_from in *. cbn [fmap list_fmap mbind list_bind].
  rewrite IH. by destruct (j =? i)%nat.
Qed.

Lemma concat_insert {A} (xss : list (list A)) i xs ys :
  xss !! i = Some (xs ++ ys) -> (length (concat xss) = length xs + length (concat (<[i := ys]> xss)))%nat.
Proof.
  revert i. induction xss as [|x xss IH]; intros i; [done|]. destruct i as [|i]; simpl.
  - intros [= ->]. rewrite !length_app. lia.
  - intros Hi. rewrite !length_app, (IH i Hi). lia.
Qed.

Section Serving.
Context {OS W : Type} `{WinSock OS} `{FlatBuffers} `{UMapOrder}.
Implicit Types (gl : GameLoop OS W) (n : Net OS W) (st : ChatState) (σ : Spec) (pss : list (list Packet)).
Abbreviation Chat := (GameLoop OS W * (Net OS W * ChatState))%type.

Definition serve_event (ev : Event) (s : Chat) : ub Chat :=
  let '(gl, (n, st)) := s in
  match ev with
  | Arrives i bytes => '(gl, n) ← GameLoop_Receive i bytes gl n; Some (gl, (n, st))
  | LogicTurn => '(gl, s, _) ← Update_turn gl (n, st); Some (gl, s)
  end.

Fixpoint serve (evs : list Event) (s : Chat) : ub Chat :=
  match evs with
  | [] => Some s
  | ev :: evs => s ← serve_event ev s; serve evs s
  end.

Lemma serve_app evs evs' s : serve (evs ++ evs') s = (s ← serve evs s; serve evs' s).
Proof.
  revert s. induction evs as [|ev evs IH]; intros s; [done|]. cbn [serve app].
  destruct (serve_event ev s) as [s'|]; cbn [mbind option_bind]; [apply IH|done].
Qed.

(** A request a chat client can make. *)
Definition request (p : Packet) : Prop := sendable p /\ known_tag p = true.

(** On a slot: what has arrived and is no whole frame, with what is still to come, is the
    stream of the packets [ps]. *)
Definition slot_ok (ps : list Packet) (c : Client W) (coming : list byte) : Prop :=
  let buf := FrameBuffer_Data (_frameBuf c) in
  Forall request ps /\ buf ++ coming = stream ps /\ decodes buf [] buf false /\ zlen buf + recvBufferSize <= maxFrameSize.

(** [pss]: the packets of each slot that are not in the queue yet. *)
Record serving pss (evs : list Event) gl n st σ : Prop := {
  sv_dispatcher : chat_dispatcher (_dispatcher gl);
  sv_running : gl_hasStopped gl = false;
  sv_queue : Forall (fun cmd => (cmd_client cmd < length (clients n))%nat /\ cmd_known cmd) (loop_queue gl);
  sv_length : length pss = length (clients n);
  sv_slots : forall i c ps, clients n !! i = Some c -> pss !! i = Some ps -> slot_ok ps c (arrived i evs);
  sv_ready : ready (length (loop_queue gl) + length (concat pss)) n st σ }.

(** What is left of slot [i]: in the queue, and not yet there. *)
Definition left_of i gl pss : list Packet := packets_from i (packets_of (loop_queue gl)) ++ default [] (pss !! i).

(** [abs] sees the sockets alone. *)
Lemma abs_sockets n n' st σ : socket <$> clients n' = socket <$> clients n -> abs n st σ -> abs n' st σ.
Proof. intros Hs []. constructor; try done. by rewrite Hs. Qed.

Lemma ready_sockets m n n' st σ :
  socket <$> clients n' = socket <$> clients n -> Net_inv n' -> ready m n st σ -> ready m n' st σ.
Proof.
  intros Hs Hn []. constructor; try done; [by eapply abs_sockets|]. eapply chat_inv_clients; [|done..].
  apply (f_equal length) in Hs. by rewrite !length_fmap in Hs.
Qed.

Lemma same_conns_sockets n n' : same_conns n n' -> socket <$> clients n' = socket <$> clients n.
Proof.
  unfold same_conns. generalize (clients n), (clients n'). intros cs cs' Hs.
  induction Hs as [|c c' cs cs' (Hc & _) _ IH]; [done|]. cbn. by rewrite Hc, IH.
Qed.

(** The packets and the clients of some commands, by their views. *)
Lemma packets_of_view cmds cmds' i ps :
  cmd_view <$> cmds' = (cmd_view <$> cmds) ++ view_of i (accepted_as <$> ps) -> Forall request ps ->
  packets_of cmds' = packets_of cmds ++ (CPacket i <$> ps).
Proof.
  intros Hv Hps.
  assert (forall cs, packets_of cs = (cmd_view <$> cs) ≫= (fun '(j, _, bs) =>
    match fb_get bs with Some p => [CPacket j p] | None => [] end)) as Hview.
  { intros cs. unfold packets_of. induction cs as [|[] cs IH]; [done|]. cbn [mbind list_bind fmap list_fmap].
    by rewrite IH. }
  rewrite !Hview, Hv, bind_app. f_equal. clear Hv. induction Hps as [|p ps [[[_ Hp] _] _] _ IH]; [done|].
  unfold view_of in *. cbn [fmap list_fmap mbind list_bind accepted_as]. rewrite Hp. cbn [app]. by f_equal.
Qed.

Lemma queue_view k cmds cmds' i ps :
  cmd_view <$> cmds' = (cmd_view <$> cmds) ++ view_of i (accepted_as <$> ps) -> Forall request ps -> (i < k)%nat ->
  Forall (fun cmd => (cmd_client cmd < k)%nat /\ cmd_known cmd) cmds ->
  Forall (fun cmd => (cmd_client cmd < k)%nat /\ cmd_known cmd) cmds'.
Proof.
  intros Hv Hps Hi Hc.
  set (ok := fun v : nat * Z * list byte => (v.1.1 < k)%nat /\ forall p, fb_get v.2 = Some p -> known_tag p = true).
  assert (Forall ok (cmd_view <$> cmds')) as Hall; [|by apply Forall_fmap in Hall].
  rewrite Hv. apply Forall_app. split; [by apply Forall_fmap|]. unfold view_of. rewrite <-list_fmap_compose. apply Forall_fmap.
  eapply Forall_weaken; [exact Hps|]. intros p [[[_ Hp] _] Hk]. split; [exact Hi|].
  intros q Hq. change (fb_get (fb_finish p) = Some q) in Hq. congruence.
Qed.

(** Bytes that arrive: the whole frames are queued, in order, and nothing else happens. *)
Lemma Arrives_serving pss i bs evs gl n st σ :
  serving pss (Arrives i bs :: evs) gl n st σ -> (i < length (clients n))%nat -> zlen bs <= recvBufferSize ->
  exists gl' n' pss', serve_event (Arrives i bs) (gl, (n, st)) = Some (gl', (n', st)) /\
    serving pss' evs gl' n' st σ /\ emits [] n n' /\ socket <$> clients n' = socket <$> clients n /\
    forall k, left_of k gl' pss' = left_of k gl pss.
Proof.
  intros [Hd Hrun Hq Hlen Hslots Hready] Hi Hbs. destruct (lookup_lt_is_Some_2 _ _ Hi) as [c Hc].
  destruct (lookup_lt_is_Some_2 pss i) as [ps Hps]; [by rewrite Hlen|].
  destruct (Hslots i c ps Hc Hps) as (Hreq & Hst & Hdec & Hroom).
  rewrite arrived_here, app_assoc in Hst.
  assert (Net_inv n) as Hn by apply Hready.
  destruct (decodes_prefix ps _ _ (Forall_weaken _ _ _ Hreq (fun p Hp => proj1 Hp)) (eq_sym Hst))
    as (ps1 & ps2 & rest & -> & Heq & Hd1 & Hrm & _).
  destruct (Receive_fits (_dispatcher gl) i n c bs Hn Hc) as (acc & rest' & rej & d' & n' & Hd2 & Hrecv & Hrec); [lia|].
  destruct (decodes_det _ _ _ _ _ _ _ Hd2 Hd1) as (-> & -> & ->).
  pose proof (Receive_emits _ _ _ _ _ _ Hrecv) as He.
  destruct Hrec as (Hn' & _ & Hh & _ & Hqueued & (fb & Hfb & Hcl) & _).
  set (c' := c {{ _frameBuf := fb }}) in Hcl. assert (_frameBuf c' = fb /\ socket c' = socket c) as [Hfb' Hsock] by (by destruct c).
  apply Forall_app in Hreq as [Hreq1 Hreq2].
  assert (socket <$> clients n' = socket <$> clients n) as Hsocks.
  { rewrite Hcl, list_fmap_insert, Hsock, list_insert_id; [done|]. by rewrite list_lookup_fmap, Hc. }
  assert (length (clients n') = length (clients n)) as Hl by (by rewrite Hcl, length_insert).
  set (gl' := gl {{ _dispatcher := d' }}).
  assert (_dispatcher gl' = d' /\ gl_hasStopped gl' = gl_hasStopped gl) as [Hgd Hgs] by (by destruct gl).
  assert (cmd_view <$> loop_queue gl' = (cmd_view <$> loop_queue gl) ++ view_of i (accepted_as <$> ps1)) as Hview
    by (unfold loop_queue; by rewrite Hgd).
  exists gl', n', (<[i := ps2]> pss). split.
  { cbn [serve_event]. unfold GameLoop_Receive. rewrite Hrun, Hrecv. done. }
  split; [constructor|split; [done|split; [done|]]].
  - rewrite Hgd. destruct Hd as (order & ? & ?). exists order. by rewrite Hh.
  - by rewrite Hgs.
  - rewrite Hl. by eapply queue_view.
  - by rewrite Hl, length_insert.
  - intros k ck psk. rewrite Hcl. destruct (decide (k = i)) as [->|Hne].
    + rewrite !list_lookup_insert_eq by (rewrite ?Hlen; done). intros [= <-] [= <-]. unfold slot_ok. rewrite Hfb', Hfb.
      split; [done|]. split; [|split; [by eapply decodes_rest|done]].
      rewrite stream_app, Heq, <-app_assoc in Hst. by apply app_inv_head in Hst.
    + rewrite !list_lookup_insert_ne by done. intros Hck Hpsk.
      rewrite <-(arrived_elsewhere i k bs) by done. by apply Hslots.
  - apply (ready_sockets _ n); [done|done|]. eapply ready_le; [|exact Hready]. apply concat_insert in Hps.
    apply (f_equal length) in Hview. unfold view_of in Hview. rewrite length_app, !length_fmap in Hview. lia.
  - intros k. unfold left_of. rewrite (packets_of_view _ _ _ _ Hview Hreq1), packets_from_app, packets_from_slot, <-app_assoc.
    f_equal. destruct (Nat.eqb_spec i k) as [<-|Hne].
    + by rewrite list_lookup_insert_eq, Hps by (by rewrite Hlen).
    + by rewrite list_lookup_insert_ne.
Qed.

(** A turn: the packets in the queue are a run of the specification. *)
Lemma LogicTurn_serving pss evs gl n st σ :
  serving pss (LogicTurn :: evs) gl n st σ ->
  exists gl' n' st' outs σ', serve_event LogicTurn (gl, (n, st)) = Some (gl', (n', st')) /\
    spec_run σ (packets_of (loop_queue gl)) outs σ' /\ emits outs n n' /\ serving pss evs gl' n' st' σ' /\
    socket <$> clients n' = socket <$> clients n /\ loop_queue gl' = [].
Proof.
  intros [Hd Hrun Hq Hlen Hslots Hready].
  destruct (Update_turn_refined gl n st σ (length (concat pss)) Hd Hready) as
    (gl' & n' & st' & late & Hturn & (outs & σ' & Hspec & Hr & He) & Hempty & Hh & Hs & Hl & Hsame).
  { eapply Forall_weaken; [exact Hq|]. by intros cmd [? _]. }
  assert (same_conns n n') as Hsc.
  { apply Hsame. eapply Forall_weaken; [exact Hq|]. by intros cmd [_ ?]. }
  exists gl', n', st', outs, σ'. cbn [serve_event]. rewrite Hturn. split; [done|]. split; [done|]. split; [done|].
  split; [constructor|split; [by apply same_conns_sockets|done]].
  - destruct Hd as (order & ? & ?). exists order. by rewrite Hh.
  - by rewrite Hs.
  - by rewrite Hempty.
  - by rewrite Hl.
  - intros i c' ps Hc' Hps. destruct (Forall2_lookup_r _ _ _ _ _ Hsc Hc') as (c & Hc & _ & Hfb & _).
    specialize (Hslots i c ps Hc Hps). unfold slot_ok in *. rewrite Hfb. exact Hslots.
  - rewrite Hempty. exact Hr.
Qed.

(** Any interleaving: nothing fails, no connection is closed, what is sent is what the
    specification outputs, and the packets of each slot keep their order. *)
Lemma serve_serving evs : forall pss gl n st σ,
  serving pss evs gl n st σ -> Forall (event_ok (length (clients n))) evs ->
  exists gl' n' st' pss' ops outs σ', serve evs (gl, (n, st)) = Some (gl', (n', st')) /\
    spec_run σ ops outs σ' /\ emits outs n n' /\ serving pss' [] gl' n' st' σ' /\
    socket <$> clients n' = socket <$> clients n /\
    forall i, packets_from i ops ++ left_of i gl' pss' = left_of i gl pss.
Proof.
  induction evs as [|ev evs IH]; intros pss gl n st σ Hsv Hev.
  { exists gl, n, st, pss, [], [], σ. split; [done|]. split; [constructor|]. by split_and!; [apply emits_refl|..]. }
  inversion Hev as [|?? Hev1 Hev2]; subst. cbn [serve]. destruct ev as [i bs|].
  - destruct (Arrives_serving pss i bs evs gl n st σ Hsv) as (gl1 & n1 & pss1 & -> & Hsv1 & He1 & Hs1 & Hleft1); [apply Hev1..|].
    assert (length (clients n1) = length (clients n)) as Hl
      by (apply (f_equal length) in Hs1; by rewrite !length_fmap in Hs1).
    destruct (IH pss1 gl1 n1 st σ Hsv1) as (gl2 & n2 & st2 & pss2 & ops & outs & σ2 & Hrun & Hspec & He2 & Hsv2 & Hs2 & Hleft2);
      [by rewrite Hl|].
    exists gl2, n2, st2, pss2, ops, outs, σ2. cbn [mbind option_bind].
    split_and!; [done|done|by apply (emits_app [] outs n n1)|done|congruence|]. intros k. by rewrite Hleft2.
  - destruct (LogicTurn_serving pss evs gl n st σ Hsv) as (gl1 & n1 & st1 & outs1 & σ1 & -> & Hspec1 & He1 & Hsv1 & Hs1 & Hempty).
    assert (length (clients n1) = length (clients n)) as Hl
      by (apply (f_equal length) in Hs1; by rewrite !length_fmap in Hs1).
    destruct (IH pss gl1 n1 st1 σ1 Hsv1) as (gl2 & n2 & st2 & pss2 & ops & outs & σ2 & Hrun & Hspec & He2 & Hsv2 & Hs2 & Hleft2);
      [by rewrite Hl|].
    exists gl2, n2, st2, pss2, (packets_of (loop_queue gl) ++ ops), (outs1 ++ outs), σ2. cbn [mbind option_bind].
    split_and!; [done|by eapply spec_run_app|by eapply emits_app|done|congruence|].
    intros k. rewrite packets_from_app, <-app_assoc, Hleft2. unfold left_of. by rewrite Hempty.
Qed.

(** Nothing more arrives: nothing is left on any slot. *)
Lemma serving_done pss gl n st σ : serving pss [] gl n st σ -> forall i, default [] (pss !! i) = [].
Proof.
  intros [_ _ _ Hlen Hslots _] i. destruct (pss !! i) as [ps|] eqn:Hps; [|done].
  destruct (lookup_lt_is_Some_2 (clients n) i) as [c Hc]; [rewrite <-Hlen; by eapply lookup_lt_Some|].
  destruct (Hslots i c ps Hc Hps) as (Hreq & Hst & Hdec & _). cbn [arrived mbind list_bind] in Hst.
  destruct (decodes_prefix ps _ _ (Forall_weaken _ _ _ Hreq (fun p Hp => proj1 Hp)) (eq_sym Hst))
    as (ps1 & ps2 & rest & -> & _ & Hd & _ & Hnil).
  destruct (decodes_det _ _ _ _ _ _ _ Hdec Hd) as (Ha & _). symmetry in Ha. apply fmap_nil_inv in Ha as ->.
  by rewrite (Hnil eq_refl).
Qed.

(** When everything has arrived and the logic thread has turned once more, the packets of
    every slot have been handled, in order. *)
Lemma serve_all evs pss gl n st σ :
  chat_dispatcher (_dispatcher gl) -> gl_hasStopped gl = false -> loop_queue gl = [] -> length pss = length (clients n) ->
  Forall (fun c => FrameBuffer_Data (_frameBuf c) = []) (clients n) -> Forall (Forall request) pss ->
  ready (length (concat pss)) n st σ -> Forall (event_ok (length (clients n))) evs ->
  (forall i ps, pss !! i = Some ps -> arrived i evs = stream ps) ->
  exists gl' n' st' ops outs σ', serve (evs ++ [LogicTurn]) (gl, (n, st)) = Some (gl', (n', st')) /\
    spec_run σ ops outs σ' /\ emits outs n n' /\ ready 0 n' st' σ' /\ socket <$> clients n' = socket <$> clients n /\
    forall i, packets_from i ops = default [] (pss !! i).
Proof.
  intros Hd Hrun Hq Hlen Hfb Hreq Hready Hev Harr.
  destruct (serve_serving evs pss gl n st σ) as (gl1 & n1 & st1 & pss1 & ops & outs & σ1 & Hs1 & Hspec1 & He1 & Hsv1 & Hk1 & Hleft1).
  { constructor; try done; [by rewrite Hq| |by rewrite Hq]. intros i c ps Hc Hps. unfold slot_ok.
    rewrite (Forall_lookup_1 _ _ _ _ Hfb Hc). split; [by eapply Forall_lookup_1|]. split; [by apply Harr|].
    by split; [constructor|]. }
  { done. }
  pose proof (serving_done _ _ _ _ _ Hsv1) as Hdone.
  destruct (LogicTurn_serving pss1 [] gl1 n1 st1 σ1) as (gl2 & n2 & st2 & outs2 & σ2 & Hs2 & Hspec2 & He2 & Hsv2 & Hk2 & _).
  { destruct Hsv1. constructor; try done. }
  exists gl2, n2, st2, (ops ++ packets_of (loop_queue gl1)), (outs ++ outs2), σ2.
  rewrite serve_app, Hs1. cbn [mbind option_bind serve]. rewrite Hs2. cbn [mbind option_bind].
  split; [done|]. split; [by eapply spec_run_app|]. split; [by eapply emits_app|].
  split; [eapply ready_le; [|by apply Hsv2]; lia|]. split; [congruence|].
  intros i. specialize (Hleft1 i). unfold left_of in Hleft1. rewrite Hdone, Hq, app_nil_r in Hleft1.
  by rewrite packets_from_app.
Qed.
End Serving.

(** ** What is heard *)

(** The packets for a socket that go on the wire, and the bytes sent to it. *)
Definition heard `{FlatBuffers} (sock : Z) (outs : list Output) : list Packet :=
  outs ≫= fun o => if (o.1 =? sock) && (zlen (frame_of (fb_finish o.2)) <=? sendBufferSize) then [o.2] else [].

Definition bytes_to (sock : Z) (cs : list syscall) : list byte :=
  cs ≫= fun c => match c with SysWSASend s data => if s =? sock then data else [] | _ => [] end.

(** What a codec promises of the packets the server makes: one that fits a send buffer can
    be received. *)
Definition lossless `{FlatBuffers} : Prop :=
  forall p, server_packet p -> zlen (frame_of (fb_finish p)) <= sendBufferSize -> receivable p.

Section Heard.
Context `{FlatBuffers}.
Implicit Types (σ : Spec).

Lemma bytes_to_sends sock cs : bytes_to sock (sends cs) = bytes_to sock cs.
Proof.
  unfold bytes_to, sends. induction cs as [|c cs IH]; [done|]. cbn [List.filter mbind list_bind].
  destruct c; cbn [mbind list_bind app]; try exact IH. by rewrite IH.
Qed.

Lemma bytes_to_wire sock outs :
  sock <> InvalidSocket -> bytes_to sock (outs ≫= wire) = frames (fb_finish <$> heard sock outs).
Proof.
  intros Hs. unfold bytes_to, heard, frames. induction outs as [|[s p] outs IH]; [done|].
  cbn [mbind list_bind]. rewrite bind_app, fmap_app, fmap_app, concat_app, IH. f_equal. unfold wire. cbn [fst snd].
  destruct (Z.eqb_spec s sock) as [->|Hne].
  - rewrite (proj2 (Z.eqb_neq sock _) Hs). cbn [negb andb].
    destruct (_ <=? _); [|done]. cbn. by rewrite Z.eqb_refl, !app_nil_r.
  - destruct (_ && _); [|done]. cbn. by rewrite (proj2 (Z.eqb_neq s sock) Hne).
Qed.

(** Whatever the specification outputs is a packet the server makes. *)
Lemma sends_to_server_packet σ p ks : server_packet p -> Forall (fun o => server_packet o.2) (sends_to σ p ks).
Proof. intros Hp. apply Forall_fmap, Forall_true. by intros k. Qed.

Lemma spec_run_server_packets σ ops outs σ' :
  spec_run σ ops outs σ' -> Forall (fun o => server_packet o.2) outs.
Proof.
  induction 1 as [|σ op ops out outs σ1 σ2 Hstep _ IH]; [constructor|]. apply Forall_app. split; [|exact IH].
  destruct Hstep; repeat (apply Forall_app; split); try case_bool_decide;
    solve [constructor|apply sends_to_server_packet; constructor].
Qed.

Lemma heard_server_packets sock outs :
  Forall (fun o => server_packet o.2) outs -> lossless -> Forall server_packet (heard sock outs) /\ Forall receivable (heard sock outs).
Proof.
  intros Ho Hl. unfold heard. induction Ho as [|o outs Hp _ [IH1 IH2]]; [done|]. cbn [mbind list_bind].
  rewrite !Forall_app. destruct (_ && _) eqn:Hfit; [|done]. apply andb_true_iff in Hfit as [_ Hfit]. zbool.
  split; (split; [|done]); repeat constructor; [done|by apply Hl..].
Qed.

(** A client makes requests only: a join under its nickname, a leave, or a line that was typed. *)
Lemma typed_cases p nick : forall joined seq input,
  p ∈ typed nick joined seq input ->
  (exists q, p = makeJoinRoomRequest nick q) \/ (exists q, p = makeLeaveRoomRequest 0 q) \/
  (exists line q, line ∈ input /\ p = makeSendMessageRequest 0 nick line q).
Proof.
  intros joined seq input. revert joined seq. induction input as [|line input IH]; intros joined seq Hp; [by apply not_elem_of_nil in Hp|].
  assert (forall joined seq, p ∈ typed nick joined seq input ->
    (exists q, p = makeJoinRoomRequest nick q) \/ (exists q, p = makeLeaveRoomRequest 0 q) \/
    (exists l q, l ∈ line :: input /\ p = makeSendMessageRequest 0 nick l q)) as Hrest.
  { intros j s Hin. destruct (IH j s Hin) as [?|[?|(l & q & Hl & ->)]]; [by left|by right; left|].
    right; right. exists l, q. split; [by right|done]. }
  cbn [typed] in Hp. destruct line as [|first line']; [by eapply Hrest|].
  destruct (Ascii.eqb first "/"%char).
  - destruct (parseCommand _); [by apply not_elem_of_nil in Hp|by eapply Hrest| | |by eapply Hrest];
      destruct joined; try (by eapply Hrest); apply elem_of_cons in Hp as [->|Hp]; try (by eapply Hrest); eauto.
  - destruct joined; [|by eapply Hrest]. apply elem_of_cons in Hp as [->|Hp]; [|by eapply Hrest].
    right; right. eexists _, _. split; [by left|done].
Qed.

Lemma typed_known p nick joined seq input : p ∈ typed nick joined seq input -> known_tag p = true.
Proof. by intros [[q ->]|[[q ->]|(l & q & _ & ->)]]%typed_cases. Qed.

Lemma elem_of_packets_from i p ops : CPacket i p ∈ ops -> p ∈ packets_from i ops.
Proof. intros Hin. unfold packets_from. apply list_elem_of_bind. exists (CPacket i p). by rewrite Nat.eqb_refl; split; [left|]. Qed.
End Heard.

(** ** A conversation *)

(** A user at a client: the command line, the client, the state it runs in, and the lines
    that will be typed. *)
Record Talker (M COS : Type) := mkTalker {
  tk_cli : ChatCli; tk_client : ChatClient; tk_state : M * COS; tk_input : list string }.
Arguments mkTalker {M COS}. Arguments tk_cli {M COS}. Arguments tk_client {M COS}.
Arguments tk_state {M COS}. Arguments tk_input {M COS}.

Section Conversation.
Context {M COS : Type} `{QuietMetrics M COS} {OS W T : Type} `{!WinSock OS} `{FlatBuffers} `{UMapOrder} `{ConsoleApi} `{ILogger T}.
Context (EnumNameErrorCode EnumNameMessageType : Z -> string) (hasMetrics : bool).
Implicit Types (t : Talker M COS) (ts : list (Talker M COS)) (gl : GameLoop OS W) (n : Net OS W) (st : ChatState) (σ : Spec) (c : ChatClient) (s : M * COS) (l : T).

Abbreviation line_of := (packet_line EnumNameErrorCode EnumNameMessageType).

(** The requests the typed lines stand for. *)
Definition says t : list Packet := typed (_nickname (tk_cli t)) (_joined (tk_cli t)) (_nextSequence (tk_client t)) (tk_input t).

Definition talker_ok t : Prop :=
  connected_client (tk_client t) /\ outgoing (tk_state t).2 = [] /\ Forall sendable (says t).

(** The user's loop of a client. *)
Definition talks t (r : ChatCli * ChatClient * (M * COS)) : Prop :=
  ChatCli_Run hasMetrics (tk_input t) (tk_cli t) (tk_client t) (tk_state t) = Some r.

Lemma talkers_talk ts :
  Forall talker_ok ts ->
  exists runs, Forall2 (fun t r => talks t r /\ outgoing r.2.2 = stream (says t)) ts runs.
Proof.
  induction 1 as [|t ts (Hcl & Hout & Hs) _ [runs IH]]; [by exists []|].
  destruct (ChatCli_Run_stream hasMetrics (tk_input t) (tk_cli t) (tk_client t) (tk_state t) Hcl) as (cli' & c' & s' & Hrun & Ho).
  { eapply Forall_weaken; [exact Hs|]. intros p [_ Hp]. cbn in Hp |- *.
    assert (maxFrameSize = 65536 /\ 0 <= kHeaderSize /\ 0 <= recvBufferSize) by done. lia. }
  exists ((cli', c', s') :: runs). constructor; [|exact IH]. split; [exact Hrun|].
  cbn [snd]. by rewrite Ho, Hout, app_nil_l, <-stream_frames.
Qed.

Lemma says_request t : talker_ok t -> Forall request (says t).
Proof.
  intros (_ & _ & Hs). apply Forall_intro. intros p Hp. split; [by apply (Forall_elem _ _ _ Hs)|]. by eapply typed_known.
Qed.

(** What is said, among the operations of a conversation, was typed by a user; a name that
    is chosen is a user's nickname. *)
Lemma said_typed ts ops msg q :
  (forall i, packets_from i ops = default [] ((says <$> ts) !! i)) -> said ops msg q -> exists t, t ∈ ts /\ msg ∈ tk_input t.
Proof.
  intros Hfrom (i & p & claimed & cn & Hin%elem_of_packets_from & Hp & _). rewrite Hfrom, list_lookup_fmap in Hin.
  destruct (ts !! i) as [t|] eqn:Ht; [|by apply not_elem_of_nil in Hin].
  exists t. split; [by eapply list_elem_of_lookup_2|].
  apply typed_cases in Hin as [[q' ->]|[[q' ->]|(line & q' & Hline & ->)]]; try done.
  change (Some (SendMessageRequest 0 (_nickname (tk_cli t)) line) = Some (SendMessageRequest claimed cn msg)) in Hp.
  by injection Hp as _ _ <-.
Qed.

Lemma chosen_nickname ts ops name :
  (forall i, packets_from i ops = default [] ((says <$> ts) !! i)) -> chosen ops name ->
  exists t, t ∈ ts /\ name = c_str (_nickname (tk_cli t)).
Proof.
  intros Hfrom (i & p & full & Hin%elem_of_packets_from & Hp & ->). rewrite Hfrom, list_lookup_fmap in Hin.
  destruct (ts !! i) as [t|] eqn:Ht; [|by apply not_elem_of_nil in Hin].
  exists t. split; [by eapply list_elem_of_lookup_2|].
  apply typed_cases in Hin as [[q' ->]|[[q' ->]|(line & q' & Hline & ->)]]; try done.
  change (Some (JoinRoomRequest (_nickname (tk_cli t))) = Some (JoinRoomRequest full)) in Hp.
  by injection Hp as <-.
Qed.

(** The receiving thread of a client whose stream is what the server sent to its socket. *)
Lemma listener_shows sock cs outs c s l :
  lossless -> Forall (fun o => server_packet o.2) outs -> sends cs = (outs ≫= wire) -> sock <> InvalidSocket ->
  receiving c -> incoming s.2 = bytes_to sock cs ->
  exists s' lines,
    recv_turns EnumNameErrorCode EnumNameMessageType hasMetrics (length (heard sock outs)) c s l = Some (c, s', log_lines lines l) /\
    incoming s'.2 = [] /\ Forall2 (fun p line => line_of p = Some (Some line)) (heard sock outs) lines.
Proof.
  intros Hl Ho Hcs Hsock Hc Hin. destruct (heard_server_packets sock outs Ho Hl) as [Hsp Hr].
  apply recv_turns_lines; try done. by rewrite app_nil_r, Hin, <-bytes_to_sends, Hcs, bytes_to_wire.
Qed.

(** C4: A conversation from keyboard to screen.  Nobody is registered yet, no bytes and no
    commands are waiting, and the counters are far from wrapping.  Users at connected
    clients type lines that stand for packets of at most 61436 bytes, and FlatBuffers reads
    back these and what the server makes; what the clients send arrives at the server in chunks of any sizes, interleaved in any way
    with each other and with the turns of the logic thread.  Then every client's loop
    returns, the server fails nowhere and closes no connection, and handles, for each
    client, exactly the requests its lines stand for, in the order typed; all of it is a
    run of the specification of the chat.  At the other end of each socket, the receiving
    thread of the client, when it receives exactly the bytes that were posted to that
    socket (each post with its own data: [PostSend] reuses one buffer, SendBuffer.v), shows,
    one line each and in order, the packets the specification sends to that socket, as far
    as they fit a send buffer; and a chat message among them was typed by a user, and bears
    the nickname of one. *)
Theorem conversation ts gl n st σ :
  chat_dispatcher (_dispatcher gl) -> gl_hasStopped gl = false -> loop_queue gl = [] ->
  Forall (fun e => FrameBuffer_Data (_frameBuf e) = []) (clients n) -> length ts = length (clients n) ->
  Forall talker_ok ts -> ready (length (concat (says <$> ts))) n st σ -> sp_people σ = ∅ -> lossless ->
  exists runs, Forall2 talks ts runs /\
  forall evs, Forall (event_ok (length ts)) evs -> (forall i r, runs !! i = Some r -> arrived i evs = outgoing r.2.2) ->
  exists gl' n' st' ops outs σ' cs,
    serve (evs ++ [LogicTurn]) (gl, (n, st)) = Some (gl', (n', st')) /\
    spec_run σ ops outs σ' /\ abs n' st' σ' /\ net_os n' = run_calls cs (net_os n) /\
    socket <$> clients n' = socket <$> clients n /\
    (forall i t, ts !! i = Some t -> packets_from i ops = says t) /\
    (forall sock c s l, sock <> InvalidSocket -> receiving c -> incoming s.2 = bytes_to sock cs ->
      exists s' lines,
        recv_turns EnumNameErrorCode EnumNameMessageType hasMetrics (length (heard sock outs)) c s l = Some (c, s', log_lines lines l) /\
        incoming s'.2 = [] /\ Forall2 (fun p line => line_of p = Some (Some line)) (heard sock outs) lines) /\
    (forall sock sid name msg time q, (sock, makeChatMessageBroadcast sid name msg time q) ∈ outs ->
      (exists t, t ∈ ts /\ msg ∈ tk_input t) /\ (exists t, t ∈ ts /\ name = c_str (_nickname (tk_cli t)))).
Proof.
  intros Hd Hrun Hq Hfb Hlen Hts Hready Hnobody Hlossless.
  destruct (talkers_talk ts Hts) as [runs Hruns]. exists runs.
  split; [eapply Forall2_impl; [|exact Hruns]; by intros t r [? _]|]. intros evs Hev Harr.
  destruct (serve_all evs (says <$> ts) gl n st σ) as (gl' & n' & st' & ops & outs & σ' & Hserve & Hspec & (cs & Hos & Hcs) & Hr & Hsock & Hfrom);
    try done.
  { by rewrite length_fmap. }
  { apply Forall_fmap. eapply Forall_weaken; [exact Hts|]. apply says_request. }
  { by rewrite <-Hlen. }
  { intros i ps Hps. rewrite list_lookup_fmap in Hps. destruct (ts !! i) as [t|] eqn:Ht; [|done]. injection Hps as <-.
    destruct (Forall2_lookup_l _ _ _ _ _ Hruns Ht) as (r & Hri & _ & <-). by apply Harr. }
  exists gl', n', st', ops, outs, σ', cs. split; [done|]. split; [done|]. split; [apply Hr|]. split; [done|]. split; [done|].
  split; [intros i t Ht; by rewrite Hfrom, list_lookup_fmap, Ht|].
  split; [intros sock c s l; apply listener_shows; [done|by eapply spec_run_server_packets|done]|].
  intros sock sid name msg time q Hin.
  assert (names_in (fun _ => False) σ) as Hno by (intros k pr Hk; by rewrite Hnobody in Hk).
  destruct (spec_run_said _ _ _ _ _ _ _ _ _ _ _ Hspec Hno Hin) as [Hsaid [[]|Hname]].
  split; [by eapply said_typed|by eapply chosen_nickname].
Qed.
End Conversation.

(** ** Two users

    Alice and bob join, alice says hello, bob answers; the bytes of alice are cut in the
    middle, and the logic thread turns in between. *)

Section Witness.
#[local] Instance conv_codec : FlatBuffers := number_codec.
#[local] Instance conv_console : ConsoleApi := redirected.

Definition talker (nickname : string) (input : list string) : Talker NoopClientMetrics StreamOS :=
  mkTalker (PromptNickname (Some nickname) (ChatCli_make ConsoleState_init))
    (mkChatClient 1000 None (Some demo_socket) (Some (mkPacketStream maxFrameSize)) RTop false true 1)
    (Noop, mkStreamOS [] [] [2; 0; 5]%nat) input.

Definition alice : Talker NoopClientMetrics StreamOS := talker "alice" ["/join"; "hello"; "/quit"]%string.
Definition bob : Talker NoopClientMetrics StreamOS := talker "bob" ["/join"; "hi alice"]%string.

Definition table_loop : GameLoop ScriptOS unit := GameLoop_Start (chat_loop chat_handlers 50).
Definition table_net : Net ScriptOS unit :=
  mkNet (script_of []) tt [Client_init {{ socket := 10 }}; Client_init {{ socket := 11 }}].
Definition table_state : ChatState :=
  GameLoop_Connect (OS:=ScriptOS) (W:=unit) 1 table_loop (GameLoop_Connect 0 table_loop (ChatState_init 2 4)).
Definition table_spec : Spec := (spec_init [10; 11] 2 4) {{ sp_online := {[1%nat; 0%nat]} }}.

Definition table_events : list Event :=
  [Arrives 0 (take 30 (stream (says alice))); Arrives 1 (take 60 (stream (says bob))); LogicTurn;
   Arrives 0 (drop 30 (stream (says alice))); LogicTurn; Arrives 1 (drop 60 (stream (says bob)))].

Definition listener : ChatClient := mkChatClient 1000 None (Some demo_socket) (Some (mkPacketStream maxFrameSize)) RTop false true 1.

(** What is on alice's and on bob's screen. *)
Definition screen (sock : Z) : option string :=
  '(_, (n, _)) ← serve (table_events ++ [LogicTurn]) (table_loop, (table_net, table_state));
  let bytes := bytes_to sock (calls (net_os n)) in
  '(_, _, k) ← recv_turns (fun _ => ""%string) (fun _ => ""%string) true 3 listener (Noop, mkStreamOS bytes [] [2; 0; 1]%nat) ConsoleState_init;
  Some (put_texts (_written k)).

Lemma conversation_on_screen :
  screen 10 = Some ("[INFO] [JoinedRoom] ok" +:+ nl +:+ "[INFO] [Chat] 0[bob]: hi alice" +:+ nl)%string /\
  screen 11 = Some ("[INFO] [JoinedRoom] ok" +:+ nl +:+ "[INFO] [UserJoined] user=alice roomId=0" +:+ nl +:+
    "[INFO] [Chat] 1[alice]: hello" +:+ nl)%string.
Proof. split; vm_compute; reflexivity. Qed.

Lemma number_lossless : lossless.
Proof.
  intros p _ Hfit. split; [apply number_codec_ok|]. rewrite zlen_frame_of in Hfit.
  assert (sendBufferSize = 1024 /\ maxFrameSize = 65536 /\ 0 <= kHeaderSize) as (? & ? & ?) by done. split; [|lia].
  cbn [fb_finish conv_codec number_codec]. unfold number_finish, zlen. rewrite length_le_split. lia.
Qed.

Lemma table_net_inv : Net_inv table_net.
Proof. repeat constructor; by apply Client_inv_socket, Client_init_inv. Qed.

Lemma table_ready : ready 4 table_net table_state table_spec.
Proof.
  destruct (ChatState_init_inv table_net 2 4 table_net_inv ltac:(done)) as [Hinv _].
  pose proof (abs_init table_net 2 4 ltac:(done)) as Ha.
  apply (abs_connect 0 table_loop) in Ha; [|done..]. apply (abs_connect 1 table_loop) in Ha; [|done..].
  constructor; [|by do 2 (apply connect_inv; [|cbn; lia])|done..].
  exact Ha.
Qed.

Lemma listener_receiving : receiving listener.
Proof. split_and!; [reflexivity..|exists demo_socket; split; reflexivity|reflexivity]. Qed.

Lemma talkers_ok : Forall talker_ok [alice; bob].
Proof.
  repeat constructor; try (exists demo_socket; split; reflexivity); try (eexists; reflexivity); try (vm_compute; congruence).
Qed.

Lemma conversation_witness :
  exists runs gl' n' st' ops outs σ' cs s' lines, Forall2 (talks true) [alice; bob] runs /\
    serve (table_events ++ [LogicTurn]) (table_loop, (table_net, table_state)) = Some (gl', (n', st')) /\
    spec_run table_spec ops outs σ' /\ net_os n' = run_calls cs (net_os table_net) /\
    packets_from 0 ops = says alice /\ packets_from 1 ops = says bob /\
    recv_turns (fun _ => ""%string) (fun _ => ""%string) true (length (heard 11 outs)) listener
      (Noop, mkStreamOS (bytes_to 11 cs) [] [2; 0; 1]%nat) ConsoleState_init = Some (listener, s', log_lines lines ConsoleState_init) /\
    Forall2 (fun p line => packet_line (fun _ => ""%string) (fun _ => ""%string) p = Some (Some line)) (heard 11 outs) lines.
Proof.
  destruct (conversation (T:=ConsoleState) (fun _ => ""%string) (fun _ => ""%string) true [alice; bob] table_loop table_net table_state table_spec)
    as (runs & Hruns & Hall).
  - exists chat_handlers. split; reflexivity.
  - reflexivity.
  - reflexivity.
  - repeat constructor.
  - reflexivity.
  - exact talkers_ok.
  - exact table_ready.
  - reflexivity.
  - exact number_lossless.
  - destruct (Hall table_events) as (gl' & n' & st' & ops & outs & σ' & cs & Hserve & Hspec & _ & Hos & _ & Hfrom & Hshow & _).
    + unfold table_events. repeat constructor; vm_compute; congruence.
    + assert (forall i r, runs !! i = Some r -> arrived i table_events = outgoing r.2.2) as Harr; [|exact Harr].
      intros i r Hr. destruct (Forall2_lookup_r _ _ _ _ _ Hruns Hr) as (t & Ht & Hrun). unfold talks in Hrun.
      destruct i as [|[|i]]; [injection Ht as <-|injection Ht as <-|done]; vm_compute in Hrun; injection Hrun as <-; vm_compute; reflexivity.
    + destruct (Hshow 11 listener (Noop, mkStreamOS (bytes_to 11 cs) [] [2; 0; 1]%nat) ConsoleState_init) as (s' & lines & Hrecv & _ & Hlines);
        [discriminate|exact listener_receiving|reflexivity|].
      exists runs, gl', n', st', ops, outs, σ', cs, s', lines.
      split; [exact Hruns|]. split; [exact Hserve|]. split; [exact Hspec|]. split; [exact Hos|].
      split; [exact (Hfrom 0%nat alice eq_refl)|]. split; [exact (Hfrom 1%nat bob eq_refl)|]. split; [exact Hrecv|exact Hlines].
Defined.
End Witness.
