(* ===== verification/ChatTypes.v ===== *)
(** * Chat server: the types of its state and of its packets

    The integers of the model are unbounded and the code's wrap-around is written out
    where the code has it.  Here is what that amounts to: in every state the server
    reaches, however long it runs and whichever counters have wrapped, each field holds
    a value of its C++ type, and each packet it hands to the system holds values of the
    types of the schema, so that nothing is cut when it is built. *)

From S2P Require Import Prelude Errors Platform FrameBuffer CommandQueue Protocol NetClient Net.
From S2P Require Import PacketDispatcher NetSteps ChatSession ChatUser ChatRoom ChatHandlers ChatInvariant GameLoop.
From S2P Require Import ChatSteps ChatRun ChatProps.
From coqutil Require Import Byte Datatypes.RecordSetters.
From stdpp Require Import base gmap list strings option.
Import DoubleBraceUpdate.
Open Scope Z_scope.

(** ** Types *)

(** A value of the unsigned type of [w] bits. *)
Definition uint (w z : Z) : Prop := 0 <= z < 2 ^ w.

Class WellTyped (A : Type) := well_typed : A -> Prop.

#[export] Instance Session_typed : WellTyped Session := fun s => uint 64 (_sessionId s).

#[export] Instance User_typed : WellTyped User := fun u =>
  well_typed (_session u) /\ uint 64 (_id u) /\ uint 32 (_roomId u).

#[export] Instance Room_typed : WellTyped Room := fun r => uint 64 (r_roomId r) /\ Forall well_typed (r_users r).

#[export] Instance SessionManager_typed : WellTyped SessionManager := fun sm =>
  uint 64 (_sessionCounter sm) /\ forall id s, _sessions sm !! id = Some s -> well_typed s /\ _sessionId s = id.

#[export] Instance UserManager_typed : WellTyped UserManager := fun um =>
  uint 64 (_userIdCounter um) /\ forall id u, _users um !! id = Some u -> well_typed u /\ _id u = id.

#[export] Instance RoomManager_typed : WellTyped RoomManager := fun rm =>
  uint 32 (_roomCounter rm) /\ uint 32 (_maxRoomCapacity rm) /\ Forall well_typed (_rooms rm).

#[export] Instance ChatState_typed : WellTyped ChatState := fun st =>
  well_typed (sessions st) /\ well_typed (users st) /\ well_typed (rooms st).

(** The fields of the schema's tables. *)
#[export] Instance UserTable_typed : WellTyped UserTable := fun t => uint 32 (ut_id t) /\ -128 <= ut_status t < 128.

#[export] Instance Timestamp_typed : WellTyped Timestamp := fun t => uint 64 (seconds t) /\ uint 32 (nanos t).

#[export] Instance ErrorTable_typed : WellTyped ErrorTable := fun e => uint 16 (err_code e).

#[export] Instance option_typed {A} `{WellTyped A} : WellTyped (option A) := fun o =>
  match o with Some a => well_typed a | None => True end.

#[export] Instance PayloadBody_typed : WellTyped PayloadBody := fun b =>
  match b with
  | JoinRoomRequest _ => True
  | LeaveRoomRequest room_id | SendMessageRequest room_id _ _ => uint 32 room_id
  | JoinedRoomResponse error | LeftRoomResponse error => well_typed error
  | UserJoinedBroadcast room_id user => uint 32 room_id /\ well_typed user
  | UserLeftBroadcast user_id _ => uint 32 user_id
  | ChatMessageBroadcast sender_id _ _ timestamp => uint 32 sender_id /\ well_typed timestamp
  | ErrorResponse error_code _ _ => uint 16 error_code
  end.

#[export] Instance Packet_typed : WellTyped Packet := fun p =>
  uint 16 (type p) /\ uint 8 (payload_type p) /\ well_typed (payload p) /\ uint 32 (sequence p).

Create HintDb typed.

Lemma uint_wrap w z : 0 <= w -> uint w (wrap w z).
Proof. apply wrap_range. Qed.

#[export] Hint Resolve uint_wrap : typed.

Lemma uint_wider w w' z : 0 <= w <= w' -> uint w z -> uint w' z.
Proof. unfold uint. intros Hw Hz. pose proof (Z.pow_le_mono_r 2 w w'). lia. Qed.

Lemma finishTypedPacket_typed t b seq : well_typed b -> uint 32 seq -> well_typed (finishTypedPacket t b seq).
Proof. intros Hb Hs. split; [by destruct t|]. split; [by destruct b|]. by split. Qed.

(** ** Packets *)

Lemma makeUserJoinedBroadcast_typed r id name : uint 32 r -> well_typed (makeUserJoinedBroadcast r id name).
Proof. intros Hr. apply finishTypedPacket_typed; [|done]. split; [done|]. split; [by apply uint_wrap|done]. Qed.

Lemma makeUserLeftBroadcast_typed id name : well_typed (makeUserLeftBroadcast id name).
Proof. apply finishTypedPacket_typed; [by apply uint_wrap|done]. Qed.

Lemma makeJoinedRoomResponse_typed seq : uint 32 seq -> well_typed (makeJoinedRoomResponse seq).
Proof. by apply finishTypedPacket_typed. Qed.

Lemma makeLeftRoomResponse_typed seq : uint 32 seq -> well_typed (makeLeftRoomResponse seq).
Proof. by apply finishTypedPacket_typed. Qed.

Lemma makeChatMessageBroadcast_typed id name msg sec ns seq :
  uint 32 seq -> well_typed (makeChatMessageBroadcast (u32 id) name msg (now sec ns) seq).
Proof.
  intros Hs. apply finishTypedPacket_typed; [|done]. split; [by apply uint_wrap|]. by split; apply uint_wrap.
Qed.

(** ** State *)

Section State.
Context {OS W : Type} `{WinSock OS} `{FlatBuffers} `{UMapOrder}.
Implicit Types (n : Net OS W) (st : ChatState) (u : User).

Lemma CreateSession_typed i (sm : SessionManager) : well_typed sm -> well_typed (CreateSession i sm).1.
Proof.
  intros [Hc Hs]. split; [by apply uint_wrap|]. cbn. intros id s [[<- <-]|[_ Hl]]%lookup_insert_Some; [|by apply Hs].
  by split.
Qed.

Lemma RemoveByClient_typed n i (sm : SessionManager) : well_typed sm -> well_typed (RemoveByClient n i sm).1.
Proof. intros [Hc Hs]. split; [done|]. cbn. intros id s [Hl _]%map_lookup_filter_Some. by apply Hs. Qed.

Lemma CreateUser_typed n i name roomId (sm : SessionManager) (um : UserManager) :
  well_typed sm -> well_typed um ->
  well_typed (CreateUser n i name roomId sm um).1 /\ well_typed (CreateUser n i name roomId sm um).2.
Proof.
  intros [_ Hs] [Hc Hu]. unfold CreateUser. destruct (GetSessionByClient n i sm) as [s|] eqn:Hg; [|done].
  destruct (GetUserByClient n i um); [done|]. apply GetSessionByClient_Some in Hg as [[k Hk] _].
  destruct (Hs _ _ Hk) as [Hts _].
  assert (well_typed (User_make s (_userIdCounter um) name roomId)) as Hnew
    by (split; [done|]; split; [done|by apply uint_wrap]).
  split; [|done]. split; [by apply uint_wrap|]. cbn.
  intros id u [[<- <-]|[_ Hl]]%lookup_insert_Some; [by split|by apply Hu].
Qed.

Lemma RemoveUser_typed id (um : UserManager) : well_typed um -> well_typed (RemoveUserByUserId id um).
Proof. intros [Hc Hu]. split; [done|]. cbn. intros k u [_ Hl]%lookup_delete_Some. by apply Hu. Qed.

Lemma Room_make_typed id : uint 32 id -> well_typed (Room_make id).
Proof. intros Hid. split; [by apply (uint_wider 32)|constructor]. Qed.

Lemma available_typed (rm : RoomManager) : well_typed rm -> well_typed (GetOrCreateAvailableRoom rm).1.
Proof.
  intros (Hc & Hm & Hr). unfold GetOrCreateAvailableRoom. destruct (find_if _ _); [done|].
  split; [by apply uint_wrap|]. split; [done|]. apply Forall_app. split; [done|]. constructor; [by apply Room_make_typed|constructor].
Qed.

Lemma fill_typed k (rm : RoomManager) : well_typed rm -> well_typed (RoomManager_fill k rm).
Proof.
  revert rm. induction k as [|k IH]; intros rm Hrm; [done|]. apply IH. destruct Hrm as (Hc & Hm & Hr).
  split; [by apply uint_wrap|]. split; [done|]. apply Forall_app. split; [done|]. constructor; [by apply Room_make_typed|constructor].
Qed.

Lemma rooms_insert_typed j r (rm : RoomManager) :
  well_typed rm -> well_typed r -> well_typed (mkRoomManager (<[j := r]> (_rooms rm)) (_roomCounter rm) (_maxRoomCapacity rm)).
Proof. intros (Hc & Hm & Hr) Ht. split; [done|]. split; [done|]. by apply Forall_insert. Qed.

Lemma erase_typed f r : well_typed r -> well_typed (mkRoom (erase_if f (r_users r)) (r_roomId r)).
Proof. intros [Hid Hu]. split; [done|]. by apply Forall_erase_if. Qed.

Lemma disconnect_typed i n st : well_typed st -> well_typed (GameLoop_Disconnect i n st).
Proof.
  intros (Hs & Hu & (Hc & Hm & Hr)). split; [by apply (RemoveByClient_typed n i)|]. split; [done|].
  split; [done|]. split; [done|]. apply Forall_fmap. eapply Forall_weaken; [exact Hr|]. intros r. apply erase_typed.
Qed.

Lemma connect_typed i gl st : well_typed st -> well_typed (GameLoop_Connect (OS:=OS) (W:=W) i gl st).
Proof.
  intros (Hs & Hu & Hr). unfold GameLoop_Connect. destruct (gl_hasStopped gl); [done|].
  split; [by apply (CreateSession_typed i)|]. by split.
Qed.

Lemma stored_typed st k u : well_typed st -> _users (users st) !! k = Some u -> well_typed u.
Proof. intros (_ & [_ Hu] & _) Hk. by apply (Hu k). Qed.
End State.

(** ** Sends *)

Section Sends.
Context {OS W : Type} `{WinSock OS} `{FlatBuffers} `{UMapOrder}.
Implicit Types (n : Net OS W) (st : ChatState) (u : User) (p : Packet).

(** What is handed to the system for sending is the frame of a packet that has the
    types of the schema. *)
Definition typed_call (c : syscall) : Prop :=
  match c with SysWSASend _ data => exists p, well_typed p /\ data = frame_of (fb_finish p) | _ => True end.

Definition typed_sends n n' : Prop := exists cs, net_os n' = run_calls cs (net_os n) /\ Forall typed_call cs.

Lemma typed_sends_refl n n' : net_os n' = net_os n -> typed_sends n n'.
Proof. intros Ho. by exists []. Qed.

Lemma typed_sends_trans n1 n2 n3 : typed_sends n1 n2 -> typed_sends n2 n3 -> typed_sends n1 n3.
Proof.
  intros (cs & Ho & Hc) (cs' & Ho' & Hc'). exists (cs ++ cs'). split; [by rewrite run_calls_app, <-Ho|].
  apply Forall_app. by split.
Qed.

(** A sound state of the network with [k] slots. *)
Definition net_ok (k : nat) n : Prop := Net_inv n /\ length (clients n) = k.

Definition sends_ok (k : nat) n n' : Prop := net_ok k n' /\ typed_sends n n'.

Lemma sends_ok_trans k n1 n2 n3 : sends_ok k n1 n2 -> sends_ok k n2 n3 -> sends_ok k n1 n3.
Proof. intros [_ H1'] [H2' H3']. split; [done|]. by eapply typed_sends_trans. Qed.

Lemma Session_Send_typed k s p n :
  net_ok k n -> (_tcpClient s < k)%nat -> well_typed p ->
  exists n', Session_Send s p n = Some n' /\ sends_ok k n n'.
Proof.
  intros [Hn <-] Hs Hp. destruct (Session_Send_spec s p n Hn Hs) as (n' & Heq & Hn' & Hsame & Hos). exists n'.
  split; [done|]. split; [split; [done|by apply same_conns_length]|]. eexists. split; [exact Hos|].
  unfold send_calls. destruct (_ && _); [|constructor]. repeat constructor. by exists p.
Qed.

Lemma send_all_typed k us p n :
  net_ok k n -> Forall (member_ok k) us -> well_typed p -> exists n', send_all p us n = Some n' /\ sends_ok k n n'.
Proof.
  revert n. induction us as [|u us IH]; intros n Hn Hus Hp.
  { exists n. split; [done|]. split; [done|by apply typed_sends_refl]. }
  inversion Hus as [|?? Hu Hus']; subst. cbn [send_all]. unfold User_Send.
  destruct (Session_Send_typed k (_session u) p n Hn Hu Hp) as (n1 & -> & Hs1). cbn [mbind option_bind].
  destruct (IH n1 (proj1 Hs1) Hus' Hp) as (n2 & -> & Hs2). exists n2. split; [done|]. by eapply sends_ok_trans.
Qed.

(** ** Handlers *)

Definition state_ok (k : nat) st : Prop := chat_ok k st /\ well_typed st.

Definition handled_typed k n (r : ub (Net OS W * ChatState)) : Prop :=
  exists n' st', r = Some (n', st') /\ sends_ok k n n' /\ state_ok k st'.

(** The state part of a handler is [ChatSteps]'s; the rest is what it sends. *)
Lemma handled_split k n (r : ub (Net OS W * ChatState)) :
  length (clients n) = k -> handled_ok (fun _ => True) n r ->
  (forall n' st', r = Some (n', st') -> typed_sends n n' /\ well_typed st') -> handled_typed k n r.
Proof.
  intros <- (n' & st' & Hr & (_ & Hn' & Hl) & Hok) Hall. destruct (Hall _ _ Hr) as [Hs Ht].
  exists n', st'. split; [done|]. by split_and!.
Qed.

Lemma room_of k st j r : state_ok k st -> _rooms (rooms st) !! j = Some r ->
  well_typed r /\ uint 32 (r_roomId r) /\ Forall (member_ok k) (r_users r).
Proof.
  intros [Hok (_ & _ & (_ & _ & Hr))] Hj. pose proof (list_elem_of_lookup_2 _ _ _ Hj) as Hin.
  destruct (Forall_elem _ _ _ (co_rooms _ _ Hok) Hin) as [Hid Hm]. split_and!; try done. by apply (Forall_elem _ _ _ Hr).
Qed.

Lemma join_typed k i p name n st :
  net_ok k n -> state_ok k st -> well_typed p ->
  handled_typed k n (JoinRoomHandler_Handle i p (JoinRoomRequest name) (n, st)).
Proof.
  intros Hnet [Hok Ht] (_ & _ & _ & Hseq). pose proof Hnet as [Hn <-].
  apply handled_split; [done|by apply join_sound|]. intros n' st'. unfold JoinRoomHandler_Handle.
  pose proof (available_typed (rooms st) ltac:(apply Ht)) as Hrm.
  destruct (GetOrCreateAvailableRoom (rooms st)) as [rm j] eqn:Hgo. cbn [fst] in Hrm.
  destruct (available_ok _ st rm j Hok Hgo) as (r & Hj & Hok'). rewrite Hj. cbn [mbind option_bind].
  destruct (CreateUser_typed n i (c_str name) (r_roomId r) (sessions st) (users st)) as [Hum Hnew]; [apply Ht..|].
  destruct Ht as (Hts & Htu & Htr). destruct (room_of _ _ j r (conj Hok' (conj Hts (conj Htu Hrm))) Hj) as (Htr' & Hrid & Hmem).
  revert Hum Hnew. unfold CreateUser. destruct (GetSessionByClient n i (sessions st)) as [s|] eqn:Hs.
  2:{ intros _ _ [= <- <-]. split; [by apply typed_sends_refl|]. by split_and!. }
  destruct (GetUserByClient n i (users st)).
  { intros _ _ [= <- <-]. split; [by apply typed_sends_refl|]. by split_and!. }
  cbn [fst snd]. set (u := User_make s _ _ _). intros Hum Hu. unfold on_room. rewrite Hj. cbn [mbind option_bind]. unfold Room_Join.
  destruct (send_all_typed _ (r_users r) (makeUserJoinedBroadcast (r_roomId r) (_id u) (_userName u)) n Hnet Hmem)
    as (n1 & -> & Hs1); [by apply makeUserJoinedBroadcast_typed|]. cbn [mbind option_bind].
  assert (_tcpClient s < length (clients n))%nat as Hlt.
  { apply GetSessionByClient_Some in Hs as [[id Hid] _]. by eapply co_sessions. }
  destruct (Session_Send_typed _ s (makeJoinedRoomResponse (sequence p)) n1 (proj1 Hs1) Hlt)
    as (n2 & Hsend & Hs2); [by apply makeJoinedRoomResponse_typed|].
  unfold User_Send. change (_session u) with s. rewrite Hsend. cbn [mbind option_bind]. intros [= <- <-].
  split; [apply (sends_ok_trans _ _ _ _ Hs1 Hs2)|]. split; [done|]. split; [done|].
  apply rooms_insert_typed; [done|]. split; [by apply (uint_wider 32)|].
  apply Forall_app. split; [apply Htr'|]. constructor; [exact Hu|constructor].
Qed.

Lemma Room_Leave_typed k userId r n :
  net_ok k n -> well_typed r -> Forall (member_ok k) (r_users r) ->
  exists r' n', Room_Leave userId r n = Some (r', n') /\ sends_ok k n n' /\ well_typed r'.
Proof.
  intros Hn Ht Hm. assert (sends_ok k n n) as Hrefl by (split; [done|by apply typed_sends_refl]).
  unfold Room_Leave. case_bool_decide; [by eexists _, _|].
  destruct (find_if _ _) as [j|] eqn:Hf; [|by eexists _, _].
  apply find_if_Some in Hf as (u & Hj & _). rewrite Hj. cbn [mbind option_bind].
  assert (erase_at j (r_users r) `sublist_of` r_users r) as Hsub by apply erase_at_sublist.
  assert (forall P : User -> Prop, Forall P (r_users r) -> Forall P (erase_at j (r_users r))) as Herase.
  { intros P HP. apply Forall_intro. intros v Hv. eapply Forall_elem; [exact HP|]. by eapply (elem_of_sublist _ _ v Hv). }
  destruct (send_all_typed k (erase_if (fun v => _id v =? userId) (erase_at j (r_users r)))
    (makeUserLeftBroadcast userId (_userName u)) n Hn) as (n' & -> & Hs);
    [by apply Forall_erase_if, Herase|apply makeUserLeftBroadcast_typed|].
  eexists _, _. split; [done|]. split; [done|]. destruct Ht as [Hid Hu]. split; [done|]. by apply Herase.
Qed.

Lemma leave_typed k i p claimed n st :
  net_ok k n -> state_ok k st -> well_typed p ->
  handled_typed k n (LeaveRoomHandler_Handle i p (LeaveRoomRequest claimed) (n, st)).
Proof.
  intros Hnet Hst (_ & _ & _ & Hseq). pose proof Hnet as [Hn <-]. pose proof Hst as [Hok Ht].
  apply handled_split; [done|by apply leave_sound|]. intros n' st'. unfold LeaveRoomHandler_Handle.
  destruct (GetUserByClient n i (users st)) as [u|] eqn:Hu.
  2:{ intros [= <- <-]. split; [by apply typed_sends_refl|done]. }
  apply GetUserByClient_Some in Hu as [[id Hu] _]. destruct (co_users _ _ Hok id u Hu) as [Hlt Hroom].
  destruct (GetRoom_spec _ _ Hroom) as (j & r & -> & Hj & Hid). cbn [mbind option_bind].
  unfold on_room. rewrite Hj. cbn [mbind option_bind].
  destruct (room_of _ _ j r Hst Hj) as (Htr & _ & Hmem).
  destruct (Room_Leave_typed _ (_id u) r n Hnet Htr Hmem) as (r' & n1 & -> & Hs1 & Htr'). cbn [mbind option_bind].
  destruct (Session_Send_typed _ (_session u) (makeLeftRoomResponse (sequence p)) n1 (proj1 Hs1) Hlt)
    as (n2 & Hsend & Hs2); [by apply makeLeftRoomResponse_typed|].
  unfold User_Send. rewrite Hsend. cbn [mbind option_bind]. intros [= <- <-].
  split; [apply (sends_ok_trans _ _ _ _ Hs1 Hs2)|]. destruct Ht as (Hts & Htu & Htrm). split; [done|].
  split; [by apply RemoveUser_typed|]. by apply rooms_insert_typed.
Qed.

Lemma message_typed k i p claimed name msg n st :
  net_ok k n -> state_ok k st -> well_typed p ->
  handled_typed k n (ChatMessageHandler_Handle i p (SendMessageRequest claimed name msg) (n, st)).
Proof.
  intros Hnet Hst (_ & _ & _ & Hseq). pose proof Hnet as [Hn <-]. pose proof Hst as [Hok Ht].
  apply handled_split; [done|by apply message_sound|]. intros n' st'. unfold ChatMessageHandler_Handle.
  assert (typed_sends n n /\ well_typed st) as Hsame by (split; [by apply typed_sends_refl|done]).
  destruct (GetUserByClient n i (users st)) as [u|] eqn:Hu; [|by intros [= <- <-]].
  destruct (GetRoom (_roomId u) (rooms st)) as [j|] eqn:Hg; [|by intros [= <- <-]].
  apply find_if_Some in Hg as (r & Hj & _). rewrite Hj. cbn [mbind option_bind].
  destruct (room_of _ _ j r Hst Hj) as (_ & _ & Hmem).
  unfold BroadcastChatMessage, NowInSec, NowInNs.
  destruct (os_call SysSteadyClockNow (net_os n)) as [os1 r1] eqn:Ho1.
  destruct (os_call SysSteadyClockNow os1) as [os2 r2] eqn:Ho2.
  set (n1 := mkNet os2 (net_w n) (clients n)).
  assert (typed_sends n n1) as Hs1.
  { exists [SysSteadyClockNow; SysSteadyClockNow]. split; [|by repeat constructor]. unfold run_calls. cbn. by rewrite Ho1; cbn; rewrite Ho2. }
  set (pk := makeChatMessageBroadcast _ _ _ _ _).
  assert (well_typed pk) as Hpk by (by apply makeChatMessageBroadcast_typed).
  destruct (send_all_typed (length (clients n)) (erase_if (fun v => _id v =? _id u) (r_users r)) pk n1)
    as (n2 & Hsend & Hs2); [done|by apply Forall_erase_if|done|].
  rewrite Hsend. cbn [mbind option_bind]. intros [= <- <-]. split; [|done].
  eapply typed_sends_trans; [exact Hs1|apply Hs2].
Qed.

(** ** The server *)

Lemma dispatch_typed k T h i p n st :
  (T, h) ∈ chat_handlers -> net_ok k n -> state_ok k st -> well_typed p ->
  handled_typed k n (dispatch_of T h i p (n, st)).
Proof.
  intros Hin Hn Hst Hp. unfold dispatch_of. destruct (payload_as T p) as [b|] eqn:Hb.
  2:{ exists n, st. split; [done|]. split; [|done]. split; [done|by apply typed_sends_refl]. }
  apply payload_as_Some in Hb as (_ & Hname & _).
  unfold chat_handlers in Hin. rewrite !elem_of_cons, elem_of_nil in Hin.
  destruct Hin as [[= -> ->]|[[= -> ->]|[[= -> ->]|[]]]]; destruct b; try done.
  - by apply join_typed.
  - by apply leave_typed.
  - by apply message_typed.
Qed.

Lemma close_typed k i n :
  net_ok k n -> (i < k)%nat -> exists n', Net_Close i true n = Some n' /\ sends_ok k n n'.
Proof.
  intros [Hn <-] Hi. destruct (lookup_lt_is_Some_2 _ _ Hi) as [c Hc].
  destruct (Net_Close_spec n i true c Hc Hn) as (n' & Hcl & Hn' & Hcs & _). exists n'. split; [done|].
  split; [split; [done|by rewrite Hcs, length_insert]|].
  revert Hcl. unfold Net_Close. rewrite Hc. cbn [mbind option_bind]. unfold Close. rewrite EmitDisconnectedEvent_spec.
  generalize (c {{ _connectionEstablished := false; _connectionEventCounted := false }}). intros c1.
  destruct (socket c1 =? InvalidSocket); [intros [= <-]; by apply typed_sends_refl|].
  unfold typed_sends. destruct (os_call (SysShutdown (socket c1)) (net_os n)) as [os1 r1] eqn:E1.
  destruct (os_call (SysClosesocket (socket c1)) os1) as [os2 r2] eqn:E2. intros [= <-].
  exists [SysShutdown (socket c1); SysClosesocket (socket c1)]. split; [|by repeat constructor].
  unfold run_calls. cbn. by rewrite E1; cbn; rewrite E2.
Qed.

(** An operation whose packet has the types of the schema, as one read from a verified
    buffer has. *)
Definition op_ok (k : nat) (op : ChatOp) : Prop :=
  (op_client op < k)%nat /\ match op with CPacket _ p => well_typed p | _ => True end.

Lemma step_typed order tickMs k n st op :
  order ≡ₚ chat_handlers -> net_ok k n -> state_ok k st -> op_ok k op ->
  handled_typed k n (chat_step (chat_loop order tickMs) (n, st) op).
Proof.
  intros Hord Hnet [Hok Ht] [Hi Hp]. pose proof Hnet as [Hn Hl]. destruct op as [i sock|i p|i|i]; cbn [op_client] in Hi; cbn [chat_step].
  - destruct (lookup_lt_is_Some_2 (clients n) i) as [c Hc]; [by rewrite Hl|]. rewrite Hc. cbn [mbind option_bind].
    destruct (Net_Mark_spec (set_client i (c {{ socket := sock }}) n) i (c {{ socket := sock }}))
      as (n' & -> & Hn' & Hos & Hcs & _).
    { by eapply set_client_lookup. }
    { apply set_client_inv; [done|]. by destruct (Net_inv_lookup n i c) as (?&?&?&?). }
    cbn [mbind option_bind]. eexists n', _. split; [done|]. split.
    + split; [|by apply typed_sends_refl]. split; [done|]. rewrite Hcs. cbn. by rewrite !length_insert.
    + split; [by apply connect_chat_ok|by apply connect_typed].
  - destruct (_handlers (_dispatcher (chat_loop order tickMs)) !! payload_type p) as [fn|] eqn:Hfn.
    + rewrite (DispatchPacket_handler i p _ _ _ Hfn). apply static_registry_only in Hfn as (T & h & Hin & _ & ->).
      rewrite Hord in Hin. destruct (dispatch_typed k T h i p n st Hin Hnet (conj Hok Ht) Hp) as (n' & st' & -> & Hs & Hst').
      by eexists n', st'.
    + unfold DispatchPacket. unfold DispatchFn in *. rewrite Hfn. cbn [mbind option_bind HasErr Err _hasError].
      destruct (close_typed k i n Hnet Hi) as (n' & -> & Hs). by eexists n', st.
  - destruct (close_typed k i n Hnet Hi) as (n' & -> & Hs). cbn [mbind option_bind]. eexists n', _. split; [done|].
    split; [done|]. split; [by apply disconnect_chat_ok|by apply disconnect_typed].
  - destruct (close_typed k i n Hnet Hi) as (n' & -> & Hs). by eexists n', st.
Qed.

Lemma run_typed order tickMs k ops n st :
  order ≡ₚ chat_handlers -> net_ok k n -> state_ok k st -> Forall (op_ok k) ops ->
  handled_typed k n (chat_run (chat_loop order tickMs) (n, st) ops).
Proof.
  intros Hord. revert n st. induction ops as [|op ops IH]; intros n st Hn Hst Hops.
  { exists n, st. split; [done|]. split; [|done]. split; [done|by apply typed_sends_refl]. }
  inversion Hops as [|?? Hop Hops']; subst. cbn [chat_run].
  destruct (step_typed order tickMs k n st op Hord Hn Hst Hop) as (n1 & st1 & -> & Hs1 & Hst1). cbn [mbind option_bind].
  destruct (IH n1 st1 (proj1 Hs1) Hst1 Hops') as (n2 & st2 & -> & Hs2 & Hst2).
  exists n2, st2. split; [done|]. split; [|done]. by eapply sends_ok_trans.
Qed.

Lemma ChatState_init_ok k count cap : uint 32 cap -> state_ok k (ChatState_init count cap).
Proof.
  intros Hcap. assert (well_typed (ChatState_init count cap)) as Ht.
  { split; [by split|]. split; [by split|]. apply fill_typed. by split_and!. }
  split; [|done]. destruct Ht as (_ & _ & (Hc & _ & Hr)). constructor; try done.
  cbn [rooms ChatState_init] in *. unfold RoomManager_make.
  assert (forall j rm, Forall (fun r => 0 <= r_roomId r < 2 ^ 32 /\ r_users r = []) (_rooms rm) -> uint 32 (_roomCounter rm) ->
    Forall (fun r => 0 <= r_roomId r < 2 ^ 32 /\ r_users r = []) (_rooms (RoomManager_fill j rm))) as Hfill.
  { induction j as [|j IH]; intros rm Hrm Hcnt; [done|]. apply IH; [|by apply uint_wrap].
    apply Forall_app. split; [done|]. constructor; [by split|constructor]. }
  eapply Forall_weaken; [by apply Hfill; [constructor|]|]. intros r [Hid Hu]. split; [exact Hid|]. by rewrite Hu.
Qed.

(** C10: the chat server keeps to its types.  On every run from the initial state, of any
    length, so also past the point where the counters of rooms, users and sessions have
    wrapped, every operation is defined; every field of the sessions, users and rooms
    holds a value of its C++ type and every session and user is stored under its own
    id; and every frame handed to the system carries a packet whose fields have the
    types of the schema. *)
Theorem chat_well_typed order tickMs n ops count cap :
  order ≡ₚ chat_handlers -> Net_inv n -> uint 32 cap -> Forall (op_ok (length (clients n))) ops ->
  exists n' st', chat_run (chat_loop order tickMs) (n, ChatState_init count cap) ops = Some (n', st') /\
    well_typed st' /\ typed_sends n n'.
Proof.
  intros Hord Hn Hcap Hops.
  destruct (run_typed order tickMs (length (clients n)) ops n (ChatState_init count cap))
    as (n' & st' & Hrun & [_ Hs] & [_ Ht]); [done|done|by apply ChatState_init_ok|done|]. by exists n', st'.
Qed.
End Sends.

(** ** Witness *)

#[local] Instance typed_codec : FlatBuffers := book_codec [].

Lemma demo_run_typed : Forall (op_ok 2) demo_run.
Proof. repeat constructor; cbn; lia. Defined.

Lemma chat_well_typed_witness :
  exists n' st', chat_run (chat_loop chat_handlers 50) (closed_net, ChatState_init 2 4) demo_run = Some (n', st') /\
    well_typed st' /\ typed_sends closed_net n'.
Proof.
  refine (chat_well_typed chat_handlers 50 closed_net demo_run 2 4 (Permutation_refl _) closed_net_inv _ demo_run_typed).
  split; [discriminate|reflexivity].
Defined.
