(* ===== verification/ChatConcurrent.v ===== *)
(** * Chat server: the logic thread and the I/O workers, lock by lock

    [ChatRun] takes each handler, connection and disconnection as one step.  In the
    program the handlers run on the logic thread, [GameLoop::Connect] and
    [GameLoop::Disconnect] on I/O workers, and what keeps them apart is one mutex per
    manager and per room.  Here a step is what happens under one lock (or, for the
    users, which have none, what only the logic thread does), and the steps of the
    threads come in any order.  The sockets the comparisons read are those of the
    moment: the code reads them without synchronisation. *)

From S2P Require Import Prelude Errors Platform FrameBuffer CommandQueue Protocol NetClient Net.
From S2P Require Import PacketDispatcher ChatSession ChatUser ChatRoom ChatHandlers ChatInvariant GameLoop ChatRun ChatProps.
From coqutil Require Import Byte Datatypes.RecordSetters.
From stdpp Require Import base gmap list strings option.
Import DoubleBraceUpdate.
Open Scope Z_scope.

(** Where the logic thread is: between packets, or inside a handler after one of its
    locks; a pointer to a room is its position. *)
Inductive Phase :=
  | Idle
  | JoinCreate (i : nat) (seq : Z) (username : string) (room : nat)
  | JoinEnter (seq : Z) (room : nat) (user : User)
  | JoinReply (seq : Z) (user : User)
  | LeaveEnter (seq : Z) (room : nat) (user : User)
  | LeaveReply (seq : Z) (user : User)
  | Say (seq : Z) (room : nat) (user : User) (message : string).

(** [LBegin]: the logic thread takes a packet and runs its handler up to the first room;
    [LStep]: it goes on.  The others are the steps of the workers; [WKickRoom i j] is what
    the walk of [RoomManager::KickDisconnected] does in room [j], [WKick i] is that walk when
    no other step falls in it ([kick_walk]). *)
Inductive ConcEvent :=
  | LBegin (i : nat) (p : Packet) | LStep
  | WAccept (i : nat) (sock : Z) | WConnect (i : nat)
  | WKickRoom (i j : nat) | WKick (i : nat) | WRemove (i : nat) | WClose (i : nat).

Definition event_client (e : ConcEvent) : option nat :=
  match e with
  | LBegin i _ | WAccept i _ | WConnect i | WKickRoom i _ | WKick i | WRemove i | WClose i => Some i
  | LStep => None
  end.

Section Concurrent.
Context {OS W : Type} `{WinSock OS} `{FlatBuffers} `{UMapOrder}.
Implicit Types (n : Net OS W) (st : ChatState) (ph : Phase) (i : nat).

Abbreviation Conc := (Net OS W * ChatState * Phase)%type.

Definition with_rooms (rm : RoomManager) st : ChatState := mkChatState (sessions st) (users st) rm.

(** The parts of the handlers before their first lock is released. *)
Definition logic_begin i (p : Packet) n st : ub Conc :=
  if payload_type p =? PayloadTag P_JoinRoomRequest then
    match payload_as P_JoinRoomRequest p with
    | Some (JoinRoomRequest username) =>
        let '(rm, room) := GetOrCreateAvailableRoom (rooms st) in
        Some (n, with_rooms rm st, JoinCreate i (sequence p) username room)
    | _ => Some (n, st, Idle)
    end
  else if payload_type p =? PayloadTag P_LeaveRoomRequest then
    match payload_as P_LeaveRoomRequest p with
    | Some (LeaveRoomRequest _) =>
        match GetUserByClient n i (users st) with
        | None => Some (n, st, Idle)
        | Some user => room ← GetRoom (_roomId user) (rooms st); Some (n, st, LeaveEnter (sequence p) room user)
        end
    | _ => Some (n, st, Idle)
    end
  else if payload_type p =? PayloadTag P_SendMessageRequest then
    match payload_as P_SendMessageRequest p with
    | Some (SendMessageRequest _ _ message) =>
        match GetUserByClient n i (users st) with
        | None => Some (n, st, Idle)
        | Some user =>
            match GetRoom (_roomId user) (rooms st) with
            | None => Some (n, st, Idle)
            | Some room => Some (n, st, Say (sequence p) room user message)
            end
        end
    | _ => Some (n, st, Idle)
    end
  else n ← Net_Close i true n; Some (n, st, Idle).

(** The rest, lock by lock. *)
Definition logic_step ph n st : ub Conc :=
  match ph with
  | Idle => Some (n, st, Idle)
  | JoinCreate i seq username room =>
      r ← _rooms (rooms st) !! room;
      let '(um, newUser) := CreateUser n i (c_str username) (r_roomId r) (sessions st) (users st) in
      let st := mkChatState (sessions st) um (rooms st) in
      Some (n, st, match newUser with None => Idle | Some user => JoinEnter seq room user end)
  | JoinEnter seq room user =>
      '(rm, n) ← on_room room (Room_Join (Some user)) (rooms st) n;
      Some (n, with_rooms rm st, JoinReply seq user)
  | JoinReply seq user =>
      n ← User_Send user (makeJoinedRoomResponse seq) n;
      Some (n, st, Idle)
  | LeaveEnter seq room user =>
      '(rm, n) ← on_room room (Room_Leave (_id user)) (rooms st) n;
      Some (n, with_rooms rm st, LeaveReply seq user)
  | LeaveReply seq user =>
      n ← User_Send user (makeLeftRoomResponse seq) n;
      Some (n, mkChatState (sessions st) (RemoveUserByUserId (_id user) (users st)) (rooms st), Idle)
  | Say seq room user message =>
      r ← _rooms (rooms st) !! room;
      n ← BroadcastChatMessage (u32 (_id user)) (_id user) (_userName user) message seq r n;
      Some (n, st, Idle)
  end.

(** One round of the loop of [RoomManager::KickDisconnected]. *)
(** @src exec/chat/chat-server/chat-server/room/RoomManager.cpp 87-89 RoomManager::KickDisconnected *)
Definition kick_room n i (j : nat) (rm : RoomManager) : RoomManager :=
  mkRoomManager (alter (KickByDisconnected n i) j (_rooms rm)) (_roomCounter rm) (_maxRoomCapacity rm).

Definition conc_step (gl : GameLoop OS W) (e : ConcEvent) (s : Conc) : ub Conc :=
  let '(n, st, ph) := s in
  match e with
  | LBegin i p => match ph with Idle => logic_begin i p n st | _ => Some s end
  | LStep => logic_step ph n st
  | WAccept i sock =>
      c ← clients n !! i; n ← Net_Mark i (set_client i (c {{ socket := sock }}) n); Some (n, st, ph)
  | WConnect i => Some (n, GameLoop_Connect i gl st, ph)
  | WKickRoom i j =>
      Some (n, with_rooms (kick_room n i j (rooms st)) st, ph)
  | WKick i => Some (n, with_rooms (KickDisconnected n i (rooms st)) st, ph)
  | WRemove i => Some (n, mkChatState (RemoveByClient n i (sessions st)).1 (users st) (rooms st), ph)
  | WClose i => n ← Net_Close i true n; Some (n, st, ph)
  end.

Fixpoint conc_run gl (es : list ConcEvent) (s : Conc) : ub Conc :=
  match es with [] => Some s | e :: es => s ← conc_step gl e s; conc_run gl es s end.

Lemma conc_run_app gl es es' s : conc_run gl (es ++ es') s = (s ← conc_run gl es s; conc_run gl es' s).
Proof.
  revert s. induction es as [|e es IH]; intros s; [done|]. cbn [conc_run app].
  destruct (conc_step gl e s); cbn [mbind option_bind]; [apply IH|done].
Qed.

(** [KickDisconnected] is its walk, undisturbed. *)
Lemma kick_walk gl i n st ph :
  conc_run gl (WKickRoom i <$> seq 0 (length (_rooms (rooms st)))) (n, st, ph) = conc_step gl (WKick i) (n, st, ph).
Proof.
  assert (forall suf pre,
    conc_run gl (WKickRoom i <$> seq (length pre) (length suf))
      (n, with_rooms (mkRoomManager (pre ++ suf) (_roomCounter (rooms st)) (_maxRoomCapacity (rooms st))) st, ph)
    = Some (n, with_rooms (mkRoomManager (pre ++ (KickByDisconnected n i <$> suf)) (_roomCounter (rooms st))
                             (_maxRoomCapacity (rooms st))) st, ph)) as Hwalk.
  { intros suf. induction suf as [|r suf IH]; intros pre; [done|]. cbn [length seq fmap list_fmap conc_run].
    cbn [conc_step mbind option_bind]. unfold with_rooms, kick_room in IH |- *.
    cbn [rooms sessions users _rooms _roomCounter _maxRoomCapacity] in IH |- *.
    assert (alter (KickByDisconnected n i) (length pre) (pre ++ r :: suf) = (pre ++ [KickByDisconnected n i r]) ++ suf) as ->.
    { rewrite <-(Nat.add_0_r (length pre)), alter_app_r, <-app_assoc. done. }
    specialize (IH (pre ++ [KickByDisconnected n i r])).
    rewrite length_app, Nat.add_1_r, <-!app_assoc in IH. rewrite <-app_assoc. exact IH. }
  specialize (Hwalk (_rooms (rooms st)) []). destruct st as [? ? []]. exact Hwalk.
Qed.

(** ** The steps of [ChatRun] are runs of these *)

Definition expand (op : ChatOp) : list ConcEvent :=
  match op with
  | CAccept i sock => [WAccept i sock; WConnect i]
  | CPacket i p => [LBegin i p; LStep; LStep; LStep]
  | CDisconnect i => [WKick i; WRemove i; WClose i]
  | CClose i => [WClose i]
  end.

Definition at_rest (s : Net OS W * ChatState) : Conc := (s, Idle).

Lemma join_expand gl i p name n st :
  payload_as P_JoinRoomRequest p = Some (JoinRoomRequest name) ->
  conc_run gl [LBegin i p; LStep; LStep; LStep] (n, st, Idle) =
    at_rest <$> JoinRoomHandler_Handle i p (JoinRoomRequest name) (n, st).
Proof.
  intros Hp. pose proof (payload_as_Some _ _ _ Hp) as (_ & _ & Ht).
  cbn [conc_run conc_step]. unfold logic_begin, JoinRoomHandler_Handle. rewrite Ht, Z.eqb_refl, Hp.
  destruct (GetOrCreateAvailableRoom (rooms st)) as [rm room]. cbn [mbind option_bind conc_step logic_step rooms with_rooms].
  destruct (_rooms rm !! room) as [r|] eqn:Hr; cbn [mbind option_bind]; [|done].
  change (sessions (with_rooms rm st)) with (sessions st). change (users (with_rooms rm st)) with (users st).
  destruct (CreateUser n i (c_str name) (r_roomId r) (sessions st) (users st)) as [um [u|]]; [|done].
  cbn [mbind option_bind conc_step logic_step rooms sessions users]. destruct (on_room room (Room_Join (Some u)) rm n) as [[rm' n']|]; [|done].
  cbn [mbind option_bind conc_step logic_step]. by destruct (User_Send u (makeJoinedRoomResponse (sequence p)) n').
Qed.

Lemma leave_expand gl i p claimed n st :
  payload_as P_LeaveRoomRequest p = Some (LeaveRoomRequest claimed) ->
  conc_run gl [LBegin i p; LStep; LStep; LStep] (n, st, Idle) =
    at_rest <$> LeaveRoomHandler_Handle i p (LeaveRoomRequest claimed) (n, st).
Proof.
  intros Hp. pose proof (payload_as_Some _ _ _ Hp) as (_ & _ & Ht).
  cbn [conc_run conc_step]. unfold logic_begin, LeaveRoomHandler_Handle. rewrite Ht, Hp. cbn.
  destruct (GetUserByClient n i (users st)) as [u|]; [|done].
  destruct (GetRoom (_roomId u) (rooms st)) as [room|]; [|done]. cbn [mbind option_bind conc_step logic_step].
  destruct (on_room room (Room_Leave (_id u)) (rooms st) n) as [[rm' n']|]; [|done]. cbn [mbind option_bind conc_step logic_step].
  by destruct (User_Send u (makeLeftRoomResponse (sequence p)) n').
Qed.

Lemma say_expand gl i p claimed claimedName msg n st :
  payload_as P_SendMessageRequest p = Some (SendMessageRequest claimed claimedName msg) ->
  conc_run gl [LBegin i p; LStep; LStep; LStep] (n, st, Idle) =
    at_rest <$> ChatMessageHandler_Handle i p (SendMessageRequest claimed claimedName msg) (n, st).
Proof.
  intros Hp. pose proof (payload_as_Some _ _ _ Hp) as (_ & _ & Ht).
  cbn [conc_run conc_step]. unfold logic_begin, ChatMessageHandler_Handle. rewrite Ht, Hp. cbn.
  destruct (GetUserByClient n i (users st)) as [u|]; [|done].
  destruct (GetRoom (_roomId u) (rooms st)) as [room|]; [|done]. cbn [mbind option_bind conc_step logic_step].
  destruct (_rooms (rooms st) !! room) as [r|]; [|done]. cbn [mbind option_bind].
  by destruct (BroadcastChatMessage _ _ _ _ _ r n).
Qed.

Lemma chat_step_dispatch order tickMs (s : Net OS W * ChatState) i p T h :
  order ≡ₚ chat_handlers -> (T, h) ∈ chat_handlers -> payload_type p = PayloadTag T ->
  chat_step (chat_loop order tickMs) s (CPacket i p) = dispatch_of T h i p s.
Proof.
  intros Hord Hin Ht. destruct s as [n st].
  assert (_handlers (_dispatcher (chat_loop order tickMs)) !! payload_type p = Some (dispatch_of T h)) as Hh.
  { rewrite Ht. apply static_registry_handlers; [|by rewrite Hord]. rewrite Hord. cbn. repeat constructor; set_solver. }
  cbn [chat_step]. rewrite (DispatchPacket_handler i p _ _ _ Hh). by destruct (dispatch_of T h i p (n, st)) as [[n' st']|].
Qed.

(** A request without its body, and a packet that is no request. *)
Lemma bodyless_expand gl i p T n st :
  T ∈ [P_JoinRoomRequest; P_LeaveRoomRequest; P_SendMessageRequest] -> payload_type p = PayloadTag T ->
  payload_as T p = None -> conc_run gl [LBegin i p; LStep; LStep; LStep] (n, st, Idle) = Some (n, st, Idle).
Proof.
  intros HT Ht Hp. cbn [conc_run conc_step]. unfold logic_begin. rewrite !elem_of_cons, elem_of_nil in HT.
  destruct HT as [->|[->|[->|[]]]]; rewrite Ht, Hp; reflexivity.
Qed.

Lemma expand_step order tickMs op n st :
  order ≡ₚ chat_handlers ->
  conc_run (chat_loop order tickMs) (expand op) (n, st, Idle) =
    at_rest <$> chat_step (chat_loop order tickMs) (n, st) op.
Proof.
  intros Hord. destruct op as [i sock|i p|i|i]; cbn [expand].
  - cbn [conc_run conc_step chat_step]. destruct (clients n !! i) as [c|]; [|done]. cbn [mbind option_bind].
    by destruct (Net_Mark i _).
  - destruct (decide (payload_type p = PayloadTag P_JoinRoomRequest)) as [Ht|Hj].
    { rewrite (chat_step_dispatch order tickMs _ i p _ JoinRoomHandler_Handle Hord) by (exact Ht || apply elem_of_cons; auto).
      unfold dispatch_of. destruct (payload_as P_JoinRoomRequest p) as [b|] eqn:Hb; [|by apply (bodyless_expand _ i p P_JoinRoomRequest); [set_solver|..]].
      pose proof (payload_as_Some _ _ _ Hb) as (_ & Hn & _). destruct b; try done. by apply join_expand. }
    destruct (decide (payload_type p = PayloadTag P_LeaveRoomRequest)) as [Ht|Hl].
    { rewrite (chat_step_dispatch order tickMs _ i p _ LeaveRoomHandler_Handle Hord) by
        (exact Ht || (unfold chat_handlers; rewrite !elem_of_cons; auto)).
      unfold dispatch_of. destruct (payload_as P_LeaveRoomRequest p) as [b|] eqn:Hb; [|by apply (bodyless_expand _ i p P_LeaveRoomRequest); [set_solver|..]].
      pose proof (payload_as_Some _ _ _ Hb) as (_ & Hn & _). destruct b; try done. by eapply leave_expand. }
    destruct (decide (payload_type p = PayloadTag P_SendMessageRequest)) as [Ht|Hm].
    { rewrite (chat_step_dispatch order tickMs _ i p _ ChatMessageHandler_Handle Hord) by
        (exact Ht || (unfold chat_handlers; rewrite !elem_of_cons; auto)).
      unfold dispatch_of. destruct (payload_as P_SendMessageRequest p) as [b|] eqn:Hb; [|by apply (bodyless_expand _ i p P_SendMessageRequest); [set_solver|..]].
      pose proof (payload_as_Some _ _ _ Hb) as (_ & Hn & _). destruct b; try done. by eapply say_expand. }
    cbn [chat_step]. unfold DispatchPacket.
    destruct (_handlers (_dispatcher (chat_loop order tickMs)) !! payload_type p) as [fn|] eqn:Hfn.
    { apply static_registry_only in Hfn as (T & h & Hin & Htag & _). rewrite Hord in Hin. exfalso.
      unfold chat_handlers in Hin. rewrite !elem_of_cons, elem_of_nil in Hin.
      destruct Hin as [[= -> _]|[[= -> _]|[[= -> _]|[]]]]; done. }
    cbn [conc_run conc_step]. unfold logic_begin.
    rewrite (proj2 (Z.eqb_neq _ _) Hj), (proj2 (Z.eqb_neq _ _) Hl), (proj2 (Z.eqb_neq _ _) Hm).
    cbn [mbind option_bind HasErr Err _hasError]. by destruct (Net_Close i true n).
  - cbn [conc_run conc_step chat_step mbind option_bind]. by destruct (Net_Close i true n).
  - cbn [conc_run conc_step chat_step]. by destruct (Net_Close i true n).
Qed.

(** Every run of [ChatRun] is a run of the finer machine. *)
Lemma expand_run order tickMs ops n st :
  order ≡ₚ chat_handlers ->
  conc_run (chat_loop order tickMs) (ops ≫= expand) (n, st, Idle) =
    at_rest <$> chat_run (chat_loop order tickMs) (n, st) ops.
Proof.
  intros Hord. revert n st. induction ops as [|op ops IH]; intros n st; [done|]. cbn [mbind list_bind].
  rewrite conc_run_app, expand_step by done. cbn [chat_run].
  destruct (chat_step (chat_loop order tickMs) (n, st) op) as [[n' st']|]; [|done]. cbn. apply IH.
Qed.

(** ** The invariant between steps *)

(** A user that is stored but sits in no room. *)
Definition seated (rm : RoomManager) (id : Z) : Prop := exists r v, r ∈ _rooms rm /\ v ∈ r_users r /\ _id v = id.

Definition stored st (u : User) : Prop := _users (users st) !! _id u = Some u.

Definition room_at st (room : nat) (r : Room) : Prop := _rooms (rooms st) !! room = Some r.

Definition has_place st (r : Room) : Prop := zlen (r_users r) + 1 <= Z.max 1 (_maxRoomCapacity (rooms st)).

(** What a handler relies on after it released a lock. *)
Definition phase_ok st ph : Prop :=
  match ph with
  | Idle => True
  | JoinCreate _ _ _ room => exists r, room_at st room r /\ has_place st r
  | JoinEnter _ room u =>
      exists r, room_at st room r /\ has_place st r /\ stored st u /\ _roomId u = r_roomId r /\ ~ seated (rooms st) (_id u)
  | JoinReply _ u => stored st u
  | LeaveEnter _ room u => exists r, room_at st room r /\ stored st u /\ r_roomId r = _roomId u
  | LeaveReply _ u => stored st u /\ ~ seated (rooms st) (_id u)
  | Say _ room _ _ => exists r, room_at st room r
  end.

Definition conc_inv (s : Conc) : Prop := let '(n, st, ph) := s in chat_inv n st /\ phase_ok st ph.

(** Rooms that only lost members. *)
Definition shrunk (rm rm' : RoomManager) : Prop :=
  _maxRoomCapacity rm' = _maxRoomCapacity rm /\
  Forall2 (fun r r' => r_roomId r' = r_roomId r /\ r_users r' `sublist_of` r_users r) (_rooms rm) (_rooms rm').

Lemma shrunk_refl rm : shrunk rm rm.
Proof. split; [done|]. by apply Forall_Forall2_diag, Forall_true. Qed.

Lemma shrunk_seated rm rm' id : shrunk rm rm' -> seated rm' id -> seated rm id.
Proof.
  intros [_ Hs] (r' & v & Hr' & Hv & Hid). apply list_elem_of_lookup in Hr' as [j Hj].
  destruct (Forall2_lookup_r _ _ _ _ _ Hs Hj) as (r & Hr & _ & Hsub). exists r, v.
  split; [by eapply list_elem_of_lookup_2|]. split; [by eapply elem_of_sublist|done].
Qed.

(** The workers do not disturb a handler. *)
Lemma phase_ok_shrunk st st' ph :
  users st' = users st -> shrunk (rooms st) (rooms st') -> phase_ok st ph -> phase_ok st' ph.
Proof.
  intros Hu Hs. pose proof Hs as [Hcap Hrs].
  assert (forall room r, room_at st room r ->
    exists r', room_at st' room r' /\ r_roomId r' = r_roomId r /\ (has_place st r -> has_place st' r')) as Hroom.
  { intros room r Hr. destruct (Forall2_lookup_l _ _ _ _ _ Hrs Hr) as (r' & Hr' & Hid & Hsub). exists r'.
    split; [done|]. split; [done|]. unfold has_place. rewrite Hcap. apply sublist_length in Hsub. unfold zlen. lia. }
  unfold stored. destruct ph; cbn [phase_ok]; unfold stored; rewrite ?Hu; try done.
  - intros (r & Hr & Hp). destruct (Hroom _ _ Hr) as (r' & ? & ? & ?). exists r'. auto.
  - intros (r & Hr & Hp & Hst & Hid & Hseat). destruct (Hroom _ _ Hr) as (r' & ? & Hid' & ?). exists r'.
    split_and!; try done; [auto|congruence|]. contradict Hseat. by eapply shrunk_seated.
  - intros (r & Hr & Hst & Hid). destruct (Hroom _ _ Hr) as (r' & ? & Hid' & ?). exists r'. split_and!; congruence.
  - intros [Hst Hseat]. split; [done|]. contradict Hseat. by eapply shrunk_seated.
  - intros (r & Hr). destruct (Hroom _ _ Hr) as (r' & ? & _). by exists r'.
Qed.

(** *** The workers *)

Lemma kick_shrunk n i rm : shrunk rm (KickDisconnected n i rm).
Proof.
  split; [done|]. cbn. apply Forall2_fmap_r, Forall_Forall2_diag, Forall_true. intros r. split; [done|].
  apply erase_if_sublist.
Qed.

Lemma kick_inv i n st : chat_inv n st -> chat_inv n (with_rooms (KickDisconnected n i (rooms st)) st).
Proof.
  intros (Hn & Hsess & (Hc & Hu) & Hr).
  destruct (rooms_inv_fmap (_users (users st)) (rooms st) (KickByDisconnected n i)) as [Hr' Hids];
    [done|intros r; apply room_inv_erase|done|].
  split; [done|]. split; [done|]. split; [split; [done|]|done].
  intros k u Hk. destruct (Hu k u Hk) as (? & ? & ? & Hin). rewrite <-Hids in Hin. do 3 (split; [done|]). exact Hin.
Qed.

Lemma remove_inv i n st :
  chat_inv n st -> chat_inv n (mkChatState (RemoveByClient n i (sessions st)).1 (users st) (rooms st)).
Proof.
  intros (Hn & Hsess & Hu & Hr). split; [done|]. split; [|done].
  intros k s Hk. apply map_lookup_filter_Some in Hk as [Hk _]. by eapply Hsess.
Qed.

(** *** The handlers *)

Lemma send_inv n st (s : Session) p :
  chat_inv n st -> session_ok n s -> exists n', Session_Send s p n = Some n' /\ chat_inv n' st /\ same_conns n n'.
Proof.
  intros Hinv Hs. destruct (Session_Send_spec s p n) as (n' & Heq & Hn' & Hsame & _); [apply Hinv|done|].
  exists n'. split; [done|]. split; [by eapply chat_inv_same|done].
Qed.

Lemma stored_ok n st u :
  chat_inv n st -> stored st u -> user_ok n u /\ _roomId u ∈ room_ids (rooms st).
Proof. intros (_ & _ & (_ & Hus) & _) Hu. by destruct (Hus _ _ Hu) as (_ & _ & ? & ?). Qed.

Lemma users_inv_ids n rm rm' um : room_ids rm' = room_ids rm -> users_inv n rm um -> users_inv n rm' um.
Proof. intros Hids [Hc Hu]. split; [done|]. intros k u Hk. destruct (Hu k u Hk) as (? & ? & ? & ?). rewrite Hids. done. Qed.

(** Replacing one room by one that satisfies its invariant. *)
Lemma room_inv_set n st room r r' :
  chat_inv n st -> room_at st room r -> r_roomId r' = r_roomId r ->
  room_inv (_users (users st)) (_maxRoomCapacity (rooms st)) r' ->
  chat_inv n (with_rooms (mkRoomManager (<[room := r']> (_rooms (rooms st))) (_roomCounter (rooms st)) (_maxRoomCapacity (rooms st))) st).
Proof.
  intros (Hn & Hs & Hu & Hr) Hat Hid Hinv. split; [done|]. split; [done|].
  split; [|by eapply rooms_inv_insert]. eapply users_inv_ids; [|done]. by eapply room_ids_insert.
Qed.

Lemma kick_room_inv i j n st :
  chat_inv n st -> chat_inv n (with_rooms (kick_room n i j (rooms st)) st).
Proof.
  intros Hinv. unfold kick_room. destruct (_rooms (rooms st) !! j) as [r|] eqn:Hj.
  - rewrite (list_alter_ext (KickByDisconnected n i) (fun _ => KickByDisconnected n i r) (_rooms (rooms st)) (_rooms (rooms st)) j)
      by (done || intros; simplify_eq; done).
    rewrite <-(list_insert_alter (_rooms (rooms st))). eapply room_inv_set; [done|done|done|]. apply room_inv_erase.
    destruct Hinv as (_ & _ & _ & (_ & _ & _ & Hrs)). by eapply (Forall_elem _ _ _ Hrs), list_elem_of_lookup_2.
  - rewrite (list_alter_ext (KickByDisconnected n i) id (_rooms (rooms st)) (_rooms (rooms st)) j), list_alter_id
      by (done || intros; simplify_eq; done).
    by destruct st as [? ? []].
Qed.

Lemma kick_room_shrunk n i j rm : shrunk rm (kick_room n i j rm).
Proof.
  destruct (shrunk_refl rm) as [Hc Hr]. split; [done|]. cbn [kick_room _rooms]. apply Forall2_alter_r; [done|].
  intros x y Hx Hy [? ?]. simplify_eq. split; [done|]. apply erase_if_sublist.
Qed.

Lemma create_inv n st room r s i name :
  chat_inv n st -> counters_free st -> room_at st room r -> has_place st r ->
  GetSessionByClient n i (sessions st) = Some s -> GetUserByClient n i (users st) = None ->
  let u := User_make s (_userIdCounter (users st)) name (r_roomId r) in
  let st' := mkChatState (sessions st)
    (mkUserManager (u64 (_userIdCounter (users st) + 1)) (<[_userIdCounter (users st) := u]> (_users (users st)))) (rooms st) in
  chat_inv n st' /\ phase_ok st' (JoinEnter 0 room u).
Proof.
  intros Hinv [Hrc Huc] Hat Hplace Hs Hnone u st'. pose proof Hinv as (Hn & Hsess & (Hc & Hus) & Hrooms).
  assert (_users (users st) !! _id u = None) as Hfresh.
  { destruct (_users (users st) !! _id u) as [v|] eqn:Hv; [|done]. destruct (Hus _ _ Hv) as (_ & ? & _). cbn in *. lia. }
  assert (0 <= r_roomId r < 2 ^ 32) as Hid.
  { destruct Hrooms as (_ & _ & Hids & _). pose proof (Forall_elem _ _ _ Hids (list_elem_of_lookup_2 _ _ _ Hat)). cbn in *. lia. }
  assert (_roomId u = r_roomId r) as Hru by (cbn; by apply wrap_small).
  assert (rooms_inv (<[_id u := u]> (_users (users st))) (rooms st)) as Hrooms'.
  { eapply rooms_inv_mono; [|exact Hrooms]. intros k v Hk. rewrite lookup_insert_ne; [done|congruence]. }
  split.
  - split; [done|]. split; [done|]. split; [split|exact Hrooms'].
    + apply wrap_range. lia.
    + cbn [users _users _userIdCounter rooms st']. rewrite wrap_small by lia.
      intros k v [[<- <-]|[_ Hk]]%lookup_insert_Some.
      * split; [done|]. split; [lia|]. split.
        -- apply GetSessionByClient_Some in Hs as [[id Hid'] _]. by apply (Hsess id).
        -- rewrite Hru. unfold room_ids. apply list_elem_of_fmap. exists r. split; [done|]. by eapply list_elem_of_lookup_2.
      * destruct (Hus _ _ Hk) as (? & ? & ? & ?). split_and!; try done; lia.
  - exists r. split; [done|]. split; [done|]. split; [apply lookup_insert_eq|]. split; [done|].
    intros (r1 & v & Hr1 & Hv & Heq). destruct Hrooms as (_ & _ & _ & Hrs).
    destruct (Forall_elem _ _ _ Hrs Hr1) as (_ & Hm & _). destruct (Forall_elem _ _ _ Hm Hv) as [Hst _].
    rewrite Heq in Hst. congruence.
Qed.

(** What survives a step: the invariant, the slots, and counters that grow by at most one. *)
Definition conc_ok (s s' : Conc) : Prop :=
  conc_inv s' /\ length (clients s'.1.1) = length (clients s.1.1) /\
  _userIdCounter (users s'.1.2) <= _userIdCounter (users s.1.2) + 1 /\
  _roomCounter (rooms s'.1.2) <= _roomCounter (rooms s.1.2) + 1 /\
  _maxRoomCapacity (rooms s'.1.2) = _maxRoomCapacity (rooms s.1.2).

Lemma conc_ok_intro n st ph n' st' ph' :
  chat_inv n' st' -> phase_ok st' ph' -> length (clients n') = length (clients n) ->
  _userIdCounter (users st') <= _userIdCounter (users st) + 1 ->
  _roomCounter (rooms st') <= _roomCounter (rooms st) + 1 ->
  _maxRoomCapacity (rooms st') = _maxRoomCapacity (rooms st) -> conc_ok (n, st, ph) (n', st', ph').
Proof. intros. split; [by split|]. by do 3 (split; [done|]). Qed.

Ltac conc_done := apply conc_ok_intro; cbn [rooms users with_rooms _roomCounter _maxRoomCapacity _userIdCounter KickDisconnected kick_room RemoveUserByUserId];
  try done; try lia; try (by apply same_conns_length).

Lemma begin_ok i p n st :
  chat_inv n st -> counters_free st -> (i < length (clients n))%nat ->
  exists s', logic_begin i p n st = Some s' /\ conc_ok (n, st, Idle) s'.
Proof.
  intros Hinv [Hrc Huc] Hi. assert (conc_ok (n, st, Idle) (n, st, Idle)) as Hsame by conc_done.
  assert (forall u, GetUserByClient n i (users st) = Some u -> stored st u /\ _roomId u ∈ room_ids (rooms st)) as Huser.
  { intros u Hu. apply GetUserByClient_Some in Hu as [[k Hk] _]. pose proof Hinv as (_ & _ & (_ & Hus) & _).
    destruct (Hus _ _ Hk) as (<- & _ & _ & ?). by split. }
  unfold logic_begin. case_bool.
  { destruct (payload_as P_JoinRoomRequest p) as [[]|]; try by eexists.
    destruct (GetOrCreateAvailableRoom_spec (_users (users st)) (rooms st))
      as (rm & j & r & Hgo & Hj & _ & Hfree & _ & Hcap & Hcs); [by apply Hinv|done|].
    destruct (chat_inv_available n st rm j r Hinv Hrc Hgo Hj) as (Hinv' & _). rewrite Hgo. eexists; split; [done|].
    conc_done. by exists r. }
  case_bool.
  { destruct (payload_as P_LeaveRoomRequest p) as [[]|]; try by eexists.
    destruct (GetUserByClient n i (users st)) as [u|] eqn:Hu; [|by eexists]. destruct (Huser u eq_refl) as [Hst Hroom].
    destruct (GetRoom_spec _ _ Hroom) as (j & r & -> & Hj & Hid). cbn [mbind option_bind].
    eexists; split; [done|]. conc_done. by exists r. }
  case_bool.
  { destruct (payload_as P_SendMessageRequest p) as [[]|]; try by eexists.
    destruct (GetUserByClient n i (users st)) as [u|] eqn:Hu; [|by eexists]. destruct (Huser u eq_refl) as [Hst Hroom].
    destruct (GetRoom_spec _ _ Hroom) as (j & r & -> & Hj & Hid).
    eexists; split; [done|]. conc_done. by exists r. }
  destruct (close_ok i n st Hinv Hi) as (n' & -> & Hok). cbn [mbind option_bind]. eexists; split; [done|].
  destruct Hok as (? & ? & _). by conc_done.
Qed.

(** A member of another room than its own would be stored with both rooms' ids. *)
Lemma own_room n st u room r v r' :
  chat_inv n st -> stored st u -> room_at st room r -> r_roomId r = _roomId u ->
  r' ∈ _rooms (rooms st) -> v ∈ r_users r' -> _id v = _id u -> r' = r /\ v = u.
Proof.
  intros (_ & _ & _ & (Hnd & _ & _ & Hrs)) Hst Hat Hid Hr' Hv Heq.
  destruct (Forall_elem _ _ _ Hrs Hr') as (_ & Hm & _). destruct (Forall_elem _ _ _ Hm Hv) as [Hv1 Hv2].
  unfold stored in Hst. rewrite Heq, Hst in Hv1. injection Hv1 as ->. split; [|done].
  apply list_elem_of_lookup in Hr' as [k Hk].
  assert (k = room) as ->; [|congruence]. apply (NoDup_lookup (room_ids (rooms st)) k room (r_roomId r)); [done|..];
    unfold room_ids; rewrite list_lookup_fmap; [rewrite Hk; cbn; congruence|by rewrite Hat].
Qed.

Lemma enter_spec seq room u n st :
  chat_inv n st -> phase_ok st (JoinEnter seq room u) ->
  exists n1 rm r, logic_step (JoinEnter seq room u) n st = Some (n1, with_rooms rm st, JoinReply seq u) /\
    conc_ok (n, st, JoinEnter seq room u) (n1, with_rooms rm st, JoinReply seq u) /\
    same_conns n n1 /\ r ∈ _rooms rm /\ u ∈ r_users r.
Proof.
  intros Hinv (r & Hat & Hplace & Hst & Hid & Hseat).
  destruct (members_ok _ _ r Hinv) as [Hmok _]; [by eapply list_elem_of_lookup_2|].
  pose proof Hinv as (Hn & _ & _ & (_ & _ & _ & Hrs)). pose proof (list_elem_of_lookup_2 _ _ _ Hat) as Hr.
  destruct (Room_Join_spec (_users (users st)) (_maxRoomCapacity (rooms st)) u r n)
    as (r' & n1 & Hj & Hru & Hrid & Hr' & Hn1 & Hsame1 & _); [done|done|by apply (Forall_elem _ _ _ Hrs)|done|done| |done|].
  { apply Forall_intro. intros v Hv Heq. apply Hseat. by exists r, v. }
  pose proof (room_inv_set n st room r r' Hinv Hat Hrid Hr') as Hinv1.
  apply (chat_inv_same n n1) in Hinv1; [|done|done].
  cbn [logic_step]. unfold on_room. unfold room_at in Hat. rewrite Hat. cbn [mbind option_bind]. rewrite Hj.
  cbn [mbind option_bind]. eexists n1, _, r'. split; [done|]. split; [by conc_done|]. split; [done|]. split; [|rewrite Hru, elem_of_app, list_elem_of_singleton; auto].
  apply list_elem_of_lookup. exists room. cbn [_rooms]. apply list_lookup_insert_eq. by eapply lookup_lt_Some.
Qed.

Lemma welcome_spec seq u n st :
  chat_inv n st -> phase_ok st (JoinReply seq u) ->
  exists n1, logic_step (JoinReply seq u) n st = Some (n1, st, Idle) /\
    conc_ok (n, st, JoinReply seq u) (n1, st, Idle) /\ same_conns n n1.
Proof.
  intros Hinv Hst. destruct (stored_ok n st u Hinv Hst) as [Hok _].
  destruct (send_inv n st (_session u) (makeJoinedRoomResponse seq) Hinv Hok) as (n' & Hsend & Hinv' & Hsame).
  cbn [logic_step]. unfold User_Send. rewrite Hsend. cbn [mbind option_bind]. exists n'. split; [done|]. split; [by conc_done|done].
Qed.

Lemma leave_ok' seq room u n st :
  chat_inv n st -> phase_ok st (LeaveEnter seq room u) ->
  exists s', logic_step (LeaveEnter seq room u) n st = Some s' /\ conc_ok (n, st, LeaveEnter seq room u) s'.
Proof.
  intros Hinv (r & Hat & Hst & Hid). pose proof (list_elem_of_lookup_2 _ _ _ Hat) as Hr.
  destruct (members_ok _ _ r Hinv Hr) as [Hmok _]. pose proof Hinv as (Hn & _ & _ & (_ & _ & _ & Hrs)).
  pose proof (Forall_elem _ _ _ Hrs Hr) as Hri.
  destruct (Room_Leave_spec (_users (users st)) (_maxRoomCapacity (rooms st)) u r n)
    as (n1 & Hl & Hn1 & Hsame & _); [done..|].
  pose proof (room_inv_set n st room r (mkRoom (erase_if (fun v => _id v =? _id u) (r_users r)) (r_roomId r))
    Hinv Hat eq_refl ltac:(by apply room_inv_erase)) as Hinv1.
  cbn [logic_step]. unfold on_room. pose proof Hat as Hat'. unfold room_at in Hat'. rewrite Hat'. cbn [mbind option_bind].
  rewrite Hl. cbn [mbind option_bind]. eexists; split; [done|]. conc_done; [by eapply chat_inv_same|].
  split; [done|]. intros (r1 & v & Hr1 & Hv & Heq). cbn [rooms with_rooms _rooms] in Hr1.
  apply list_elem_of_lookup in Hr1 as [k Hk]. destruct (decide (k = room)) as [->|Hne].
  - rewrite list_lookup_insert_eq in Hk by (by eapply lookup_lt_Some). injection Hk as <-. cbn in Hv.
    apply elem_of_erase_if in Hv as [_ Hv]. zbool. done.
  - rewrite list_lookup_insert_ne in Hk by done.
    destruct (own_room n st u room r v r1 Hinv Hst Hat Hid) as [-> ->]; [by eapply list_elem_of_lookup_2|done|done|].
    apply Hne. destruct Hinv as (_ & _ & _ & (Hnd & _)).
    apply (NoDup_lookup (room_ids (rooms st)) k room (r_roomId r)); [done|..]; unfold room_ids; rewrite list_lookup_fmap;
      [by rewrite Hk|by rewrite Hat'].
Qed.

Lemma reply_ok seq u n st :
  chat_inv n st -> phase_ok st (LeaveReply seq u) ->
  exists s', logic_step (LeaveReply seq u) n st = Some s' /\ conc_ok (n, st, LeaveReply seq u) s'.
Proof.
  intros Hinv [Hst Hseat]. destruct (stored_ok n st u Hinv Hst) as [Hok _].
  destruct (send_inv n st (_session u) (makeLeftRoomResponse seq) Hinv Hok) as (n' & Hsend & Hinv' & Hsame).
  cbn [logic_step]. unfold User_Send. rewrite Hsend. cbn [mbind option_bind]. eexists; split; [done|].
  conc_done. destruct Hinv' as (Hn & Hs & (Hc & Hus) & Hr). split; [done|]. split; [done|]. split; [split; [done|]|].
  - cbn [users rooms RemoveUserByUserId _users _userIdCounter]. intros k v [_ Hv]%lookup_delete_Some. by apply Hus.
  - cbn [users rooms RemoveUserByUserId _users]. apply rooms_inv_delete; [|done].
    intros r1 v Hr1 Hv Heq. apply Hseat. by exists r1, v.
Qed.

Lemma say_ok seq room u msg n st :
  chat_inv n st -> phase_ok st (Say seq room u msg) ->
  exists s', logic_step (Say seq room u msg) n st = Some s' /\ conc_ok (n, st, Say seq room u msg) s'.
Proof.
  intros Hinv (r & Hat). destruct (members_ok _ _ r Hinv) as [Hmok _]; [by eapply list_elem_of_lookup_2|].
  cbn [logic_step]. unfold room_at in Hat. rewrite Hat. cbn [mbind option_bind]. unfold BroadcastChatMessage.
  destruct (NowInSec (net_os n)) as [os1 sec]. destruct (NowInNs os1) as [os2 ns].
  set (n1 := mkNet os2 (net_w n) (clients n)). set (p := makeChatMessageBroadcast _ _ _ _ _).
  destruct (send_all_spec p (erase_if (fun v => _id v =? _id u) (r_users r)) n1)
    as (n' & -> & Hn' & Hs & _); [apply Hinv|by apply Forall_erase_if|]. cbn [mbind option_bind].
  eexists; split; [done|]. conc_done. by apply (chat_inv_same n n').
Qed.

Lemma create_ok i seq name room n st :
  chat_inv n st -> counters_free st -> phase_ok st (JoinCreate i seq name room) ->
  exists s', logic_step (JoinCreate i seq name room) n st = Some s' /\ conc_ok (n, st, JoinCreate i seq name room) s'.
Proof.
  intros Hinv Hfree (r & Hat & Hplace). cbn [logic_step]. pose proof Hat as Hat'. unfold room_at in Hat'. rewrite Hat'.
  cbn [mbind option_bind]. unfold CreateUser.
  assert (conc_ok (n, st, JoinCreate i seq name room) (n, mkChatState (sessions st) (users st) (rooms st), Idle)) as Href
    by (destruct st; conc_done).
  destruct (GetSessionByClient n i (sessions st)) as [s|] eqn:Hs; [|by eexists].
  destruct (GetUserByClient n i (users st)) eqn:Hu; [by eexists|].
  destruct (create_inv n st room r s i (c_str name) Hinv Hfree Hat Hplace Hs Hu) as [Hinv' Hph].
  eexists; split; [done|]. conc_done. rewrite wrap_small; [lia|]. destruct Hinv as (_ & _ & (Hc & _) & _), Hfree. lia.
Qed.

(** Every step of either thread is defined and keeps the invariant. *)
Lemma conc_step_ok gl e n st ph :
  chat_inv n st -> phase_ok st ph -> counters_free st ->
  (forall i, event_client e = Some i -> (i < length (clients n))%nat) ->
  exists s', conc_step gl e (n, st, ph) = Some s' /\ conc_ok (n, st, ph) s'.
Proof.
  intros Hinv Hph Hfree Hi.
  assert (conc_ok (n, st, ph) (n, st, ph)) as Hsame by conc_done.
  destruct e as [i p| |i sock|i|i j|i|i|i]; cbn [event_client conc_step] in *.
  - destruct ph; try by eexists. apply begin_ok; auto.
  - destruct ph; [by eexists|by apply create_ok| | |by apply leave_ok'|by apply reply_ok|by apply say_ok].
    + destruct (enter_spec seq room user n st Hinv Hph) as (? & ? & ? & ? & ? & _). by eexists.
    + destruct (welcome_spec seq user n st Hinv Hph) as (? & ? & ? & _). by eexists.
  - destruct (lookup_lt_is_Some_2 (clients n) i) as [c Hc]; [auto|]. rewrite Hc. cbn [mbind option_bind].
    destruct (Net_Mark_spec (set_client i (c {{ socket := sock }}) n) i (c {{ socket := sock }}))
      as (n' & -> & Hn' & _ & Hcl & _).
    { by eapply set_client_lookup. }
    { apply set_client_inv; [by apply Hinv|]. by destruct (Net_inv_lookup n i c) as (?&?&?&?); [apply Hinv|..]. }
    cbn [mbind option_bind]. eexists; split; [done|].
    assert (length (clients n') = length (clients n)) as Hl by (rewrite Hcl; cbn; by rewrite !length_insert).
    conc_done. by eapply chat_inv_clients.
  - eexists; split; [done|]. assert (users (GameLoop_Connect i gl st) = users st /\ rooms (GameLoop_Connect i gl st) = rooms st)
      as [Eu Er] by (unfold GameLoop_Connect; by destruct (gl_hasStopped gl)).
    apply conc_ok_intro; rewrite ?Eu, ?Er; try done; try lia; [apply connect_inv; auto|].
    eapply phase_ok_shrunk; [exact Eu|rewrite Er; apply shrunk_refl|done].
  - eexists; split; [done|]. apply conc_ok_intro; try done; [by apply kick_room_inv| |cbn; lia..]. by eapply phase_ok_shrunk; [|apply kick_room_shrunk|].
  - eexists; split; [done|]. conc_done; [by apply kick_inv|]. by eapply phase_ok_shrunk; [|apply kick_shrunk|].
  - eexists; split; [done|]. conc_done. by apply remove_inv.
  - destruct (close_ok i n st Hinv (Hi i eq_refl)) as (n' & -> & (Hinv' & Hl & _)). cbn [mbind option_bind].
    eexists; split; [done|]. by conc_done.
Qed.

Lemma conc_run_ok gl es n st ph :
  chat_inv n st -> phase_ok st ph ->
  Forall (fun e => forall i, event_client e = Some i -> (i < length (clients n))%nat) es ->
  _roomCounter (rooms st) + zlen es + 1 < 2 ^ 32 -> _userIdCounter (users st) + zlen es + 1 < 2 ^ 64 ->
  exists n' st' ph', conc_run gl es (n, st, ph) = Some (n', st', ph') /\ chat_inv n' st' /\
    _maxRoomCapacity (rooms st') = _maxRoomCapacity (rooms st).
Proof.
  revert n st ph. induction es as [|e es IH]; intros n st ph Hinv Hph Hes Hrc Huc; [by exists n, st, ph|].
  rewrite zlen_cons in *. pose proof (zlen_nonneg es). inversion Hes as [|?? He Hes']; subst. cbn [conc_run].
  destruct (conc_step_ok gl e n st ph Hinv Hph) as ([[n1 st1] ph1] & -> & ((Hinv1 & Hph1) & Hl & Hu1 & Hr1 & Hcap1));
    [split; lia|done|]. cbn [mbind option_bind fst snd] in *.
  destruct (IH n1 st1 ph1) as (n2 & st2 & ph2 & Hrun & Hinv2 & Hcap2); [done|done|by rewrite Hl|lia|lia|].
  exists n2, st2, ph2. split_and!; [done|done|congruence].
Qed.

(** C9: the chat server is safe however its threads interleave.  Take the handlers of the
    logic thread apart where they release a lock, and let the steps of connections and
    disconnections on the I/O workers come in between, in any order and for any clients:
    from the initial state, every such run is defined (in particular a room pointer that
    [LeaveRoomHandler] uses without a test is never null, and no room goes over its
    capacity although it is looked up and entered under different locks), and sessions,
    users and rooms are consistent after every step. *)
Theorem chat_concurrent_safe gl es n count cap :
  Net_inv n -> 0 <= count < 2 ^ 16 ->
  Forall (fun e => forall i, event_client e = Some i -> (i < length (clients n))%nat) es -> zlen es < 2 ^ 31 ->
  exists n' st' ph', conc_run gl es (n, ChatState_init count cap, Idle) = Some (n', st', ph') /\ chat_inv n' st' /\
    Forall (fun r => zlen (r_users r) <= Z.max 1 cap) (_rooms (rooms st')).
Proof.
  intros Hn Hcnt Hes Hlen. destruct (ChatState_init_inv n count cap Hn Hcnt) as [Hinv Hc].
  destruct (conc_run_ok gl es n (ChatState_init count cap) Idle) as (n' & st' & ph' & Hrun & Hinv' & Hcap);
    [done|done|done|lia|cbn; lia|].
  exists n', st', ph'. split; [done|]. split; [done|].
  destruct Hinv' as (_ & _ & _ & (_ & _ & _ & Hrs)). eapply Forall_weaken; [exact Hrs|]. intros r (_ & _ & Hle).
  rewrite Hcap in Hle. cbn in Hle. unfold RoomManager_make in Hle.
  destruct (RoomManager_fill_inv ∅ (Z.to_nat (u16 count)) (mkRoomManager [] 0 cap)) as (_ & _ & Hm).
  { split_and!; try done; constructor. }
  { cbn. rewrite wrap_small by done. lia. }
  by rewrite Hm in Hle.
Qed.

(** A member whose client is gone. *)
Definition stale_member n st i u : Prop :=
  (exists r, r ∈ _rooms (rooms st) /\ u ∈ r_users r) /\ _tcpClient (_session u) = i /\
  (forall k s, _sessions (sessions st) !! k = Some s -> _tcpClient s <> i) /\ socket_of n i = InvalidSocket.

(** What disconnections do to it. *)
Lemma stale_disconnect n st i u j :
  stale_member n st i u -> socket_of n j <> InvalidSocket ->
  exists r, r ∈ _rooms (rooms (GameLoop_Disconnect j n st)) /\ u ∈ r_users r.
Proof.
  intros ((r & Hr & Hu) & Hui & _ & Hi) Hj. exists (KickByDisconnected n j r). split.
  - by apply list_elem_of_fmap_2.
  - apply elem_of_erase_if. split; [done|]. unfold IsSameClient, IsSameSession. rewrite Hui, Hi. by apply Z.eqb_neq.
Qed.

Lemma slot_disconnect n st i u r :
  _tcpClient (_session u) = i -> r ∈ _rooms (rooms (GameLoop_Disconnect i n st)) -> u ∉ r_users r.
Proof.
  intros Hui (r0 & -> & _)%list_elem_of_fmap_1 [_ Hk]%elem_of_erase_if.
  unfold IsSameClient, IsSameSession in Hk. by rewrite Hui, Z.eqb_refl in Hk.
Qed.

(** C40: a client that disconnects while its join request is handled stays in the room.
    [JoinRoomHandler] only expects the disconnection before it asks for the user.  In a
    consistent state whose counters are not about to wrap, let a client with a session and
    no user ask to join, with a socket of its own, and let its disconnection run after the user was created and before the room takes it in: kicking
    finds nobody to remove, and when everything is over the room has a member without a
    session, on a closed socket.  The disconnection of a connected client does not remove
    it; the next disconnection of the same slot, which is another client's, does. *)
Theorem join_races_disconnect gl n st i p name s :
  chat_inv n st -> _roomCounter (rooms st) + 2 < 2 ^ 32 -> _userIdCounter (users st) + 1 < 2 ^ 64 -> socket_unique n i ->
  payload_as P_JoinRoomRequest p = Some (JoinRoomRequest name) ->
  GetSessionByClient n i (sessions st) = Some s -> GetUserByClient n i (users st) = None ->
  exists n' st' u,
    conc_run gl [LBegin i p; LStep; WKick i; WRemove i; WClose i; LStep; LStep] (n, st, Idle) = Some (n', st', Idle) /\
    stale_member n' st' i u /\ _userName u = c_str name /\
    (forall j, socket_of n' j <> InvalidSocket ->
       exists r, r ∈ _rooms (rooms (GameLoop_Disconnect j n' st')) /\ u ∈ r_users r) /\
    (forall n2 r, r ∈ _rooms (rooms (GameLoop_Disconnect i n2 st')) -> u ∉ r_users r).
Proof.
  intros Hinv Hrc Huc Huniq Hp Hs Hnone. pose proof (payload_as_Some _ _ _ Hp) as (_ & _ & Ht).
  assert (_tcpClient s = i) as Hsi.
  { apply GetSessionByClient_Some in Hs as [_ Hsame]. unfold IsSameSession in Hsame. zbool. by apply Huniq. }
  assert (i < length (clients n))%nat as Hi.
  { apply GetSessionByClient_Some in Hs as [[k Hk] _]. destruct Hinv as (_ & Hss & _). rewrite <-Hsi. by apply (Hss k). }
  destruct (GetOrCreateAvailableRoom_spec (_users (users st)) (rooms st))
    as (rm & j & r & Hgo & Hj & _ & Hplace & _ & Hcap & Hcs); [by apply Hinv|lia|].
  destruct (chat_inv_available n st rm j r Hinv) as (Hinv1 & _); [lia|done|done|].
  change (mkChatState _ _ rm) with (with_rooms rm st) in Hinv1.
  destruct (create_inv n (with_rooms rm st) j r s i (c_str name)) as [Hinv2 Hph2]; [done|split; cbn; lia|done|done|done|done|].
  set (u := User_make s (_userIdCounter (users (with_rooms rm st))) (c_str name) (r_roomId r)) in *.
  set (st2 := mkChatState _ _ _) in *.
  pose proof (kick_inv i n st2 Hinv2) as Hinv3. pose proof (remove_inv i n _ Hinv3) as Hinv4.
  set (st4 := mkChatState (RemoveByClient n i (sessions (with_rooms (KickDisconnected n i (rooms st2)) st2))).1 _ _) in *.
  destruct (lookup_lt_is_Some_2 _ _ Hi) as [c Hc].
  destruct (Net_Close_spec n i true c) as (n1 & Hclose & Hn1 & Hcl & _); [done|by apply Hinv|].
  assert (chat_inv n1 st4) as Hinv5.
  { eapply chat_inv_clients; [|done|exact Hinv4]. by rewrite Hcl, length_insert. }
  assert (phase_ok st4 (JoinEnter (sequence p) j u)) as Hph4
    by (apply (phase_ok_shrunk st2); [done|apply kick_shrunk|exact Hph2]).
  destruct (enter_spec (sequence p) j u n1 st4 Hinv5 Hph4) as (n2 & rm5 & r5 & Henter & [[Hinv6 Hph6] _] & Hsame1 & Hr5 & Hu5).
  destruct (welcome_spec (sequence p) u n2 _ Hinv6 Hph6) as (n3 & Hwelcome & _ & Hsame2).
  assert (_tcpClient (_session u) = i) as Hui by done.
  exists n3, (with_rooms rm5 st4), u.
  enough (stale_member n3 (with_rooms rm5 st4) i u) as Hstale.
  { split; [|split; [done|split; [done|split; [by intros j0; eapply stale_disconnect|by intros n0 r0; apply slot_disconnect]]]].
    cbn [conc_run conc_step]. unfold logic_begin. rewrite Ht, Z.eqb_refl, Hp, Hgo. cbn [mbind option_bind conc_step].
    assert (logic_step (JoinCreate i (sequence p) name j) n (with_rooms rm st) = Some (n, st2, JoinEnter (sequence p) j u)) as ->.
    { cbn [logic_step with_rooms rooms]. rewrite Hj. cbn [mbind option_bind]. unfold CreateUser. cbn [sessions users with_rooms].
      by rewrite Hs, Hnone. }
    cbn [mbind option_bind conc_step]. rewrite Hclose. cbn [mbind option_bind conc_step].
    change (mkChatState _ _ _) with st4. rewrite Henter. cbn [mbind option_bind conc_step]. by rewrite Hwelcome. }
  split; [by exists r5|]. split; [done|]. split.
  - intros k s' [_ Hk]%map_lookup_filter_Some Hs'. cbn in Hk. unfold IsSameSession in Hk. rewrite Hs', Z.eqb_refl in Hk. done.
  - rewrite (same_conns_socket n1 n3) by (by etrans). unfold socket_of. rewrite Hcl, list_lookup_insert_eq by done. done.
Qed.
End Concurrent.

(** ** Witnesses *)

#[local] Instance conc_codec : FlatBuffers := book_codec [].

(** Two clients join and talk; client 0 disconnects while client 1 speaks, its slot is
    taken again, and the newcomer's join meets the disconnection of the same slot. *)
Definition demo_schedule : list ConcEvent :=
  [WAccept 0 10; WConnect 0; LBegin 0 (makeJoinRoomRequest "alice" 1); WAccept 1 11; LStep; WConnect 1; LStep; LStep;
   LBegin 1 (makeJoinRoomRequest "bob" 1); LStep; LStep; LStep;
   LBegin 1 (makeSendMessageRequest 0 "bob" "hi" 2); WKickRoom 0 0; LStep; WKickRoom 0 1; WRemove 0; WClose 0;
   WAccept 0 12; WConnect 0; LBegin 0 (makeJoinRoomRequest "dave" 1); LStep; WKick 0; WRemove 0; LStep; WClose 0; LStep;
   LBegin 1 (makeLeaveRoomRequest 0 3); LStep; WKick 1; LStep; WRemove 1; WClose 1].

Lemma demo_schedule_clients :
  Forall (fun e => forall i, event_client e = Some i -> (i < length (clients closed_net))%nat) demo_schedule.
Proof. unfold demo_schedule. repeat (apply List.Forall_cons; [intros i Hi; cbn in Hi; simplify_eq; cbn; lia|]). apply List.Forall_nil. Defined.

Lemma chat_concurrent_safe_witness :
  exists n' st' ph',
    conc_run (chat_loop chat_handlers 50) demo_schedule (closed_net, ChatState_init 2 4, Idle) = Some (n', st', ph') /\
    chat_inv n' st' /\ Forall (fun r => zlen (r_users r) <= 4) (_rooms (rooms st')).
Proof.
  refine (chat_concurrent_safe (chat_loop chat_handlers 50) demo_schedule closed_net 2 4 closed_net_inv _
    demo_schedule_clients _); [split; [discriminate|reflexivity]|reflexivity].
Defined.

Lemma join_races_disconnect_witness :
  exists n' st' u,
    conc_run (chat_loop chat_handlers 50)
      [LBegin 0 (makeJoinRoomRequest "carol" 3); LStep; WKick 0; WRemove 0; WClose 0; LStep; LStep]
      (pair_net, lobby_state, Idle) = Some (n', st', Idle) /\
    stale_member n' st' 0 u /\ _userName u = "carol"%string /\
    (forall j, socket_of n' j <> InvalidSocket ->
       exists r, r ∈ _rooms (rooms (GameLoop_Disconnect j n' st')) /\ u ∈ r_users r) /\
    (forall (n2 : Net ScriptOS unit) r, r ∈ _rooms (rooms (GameLoop_Disconnect 0 n2 st')) -> u ∉ r_users r).
Proof.
  refine (join_races_disconnect (chat_loop chat_handlers 50) pair_net lobby_state 0 (makeJoinRoomRequest "carol" 3)
    "carol" (mkSession 0 0) lobby_inv _ _ pair_socket_unique _ _ _); vm_compute; reflexivity.
Defined.
