(* ===== verification/ChatServer.v ===== *)
(** * Chat server: Server and its wiring

    [exec/chat/chat-server/chat-server/Server.{h,cpp}], [MetricsCallbacksFactory.cpp],
    [main.cpp].

    [Server] implements [ISessionEventReceiver] for the lifecycle it owns and passes
    every event to the game loop.  The metrics writer, which runs its own thread, is a
    parameter: what its three methods do to the state [M] of the metrics. *)

From S2P Require Import Prelude Errors Platform FrameBuffer NetworkCfg SocketSetup Scope Pools CommandQueue Protocol.
From S2P Require Import ServerMetrics NetClient Net Ledger IoMultiplexer Acceptor MetricsCallbacks PacketDispatcher.
From S2P Require Import NetSteps Lifecycle LifecycleProps LifecycleRun Framing.
From S2P Require Import ChatSession ChatUser ChatRoom ChatHandlers ChatInvariant GameLoop ChatSteps ChatRun.
From coqutil Require Import Byte Datatypes.RecordSetters.
From stdpp Require Import base gmap list strings option relations.
Import DoubleBraceUpdate.
Open Scope Z_scope.

(** ** Callbacks *)

(** @src exec/chat/chat-server/chat-server/Server.h 19-23 Server::EventCallbacks *)
Record ServerCallbacks (M : Type) := mkServerCallbacks {
  svcb_lifecycle : LifeCycleCallbacks M; onStarted : option (M -> M); onStopping : option (M -> M) }.

Arguments mkServerCallbacks {M}.
Arguments svcb_lifecycle {M}.
Arguments onStarted {M}.
Arguments onStopping {M}.

(** @src exec/chat/chat-server/chat-server/MetricsCallbacksFactory.h 12-15 MetricsCallbacksBundle *)
Record MetricsCallbacksBundle (M : Type) := mkBundle {
  bundle_gameLoop : GameLoopCallbacks M; bundle_server : ServerCallbacks M }.

Arguments mkBundle {M}.
Arguments bundle_gameLoop {M}.
Arguments bundle_server {M}.

(** The methods of a [ServerMetricsWriter]; [Start] says whether it succeeded. *)
Record WriterMethods (M : Type) := mkWriterMethods {
  SetLogicThreadId : Z -> M -> M; Writer_Start : M -> M * bool; Writer_Stop : M -> M }.

Arguments mkWriterMethods {M}.
Arguments SetLogicThreadId {M}.
Arguments Writer_Start {M}.
Arguments Writer_Stop {M}.

Section Factory.
Context {M Mx : Type} `{IServerMetrics Mx}.

(** @src exec/chat/chat-server/chat-server/MetricsCallbacksFactory.cpp 10-21 MakePacketDispatcherCallbacks *)
Definition MakePacketDispatcherCallbacks (callbacks : DispatcherMetricsCallbacks M) : PacketDispatcherCallbacks M := {|
  onPacketValidationSucceeded := mc_onPacketValidationSucceeded callbacks;
  onPacketValidationFailed := mc_onPacketValidationFailed callbacks;
  onQueuePushed := mc_onQueuePushed callbacks;
  onQueueDrained := mc_onQueueDrained callbacks;
  onQueueWait := mc_observeQueueWait callbacks;
  onDispatchProcess := mc_observeDispatchProcess callbacks |}.

(** @src exec/chat/chat-server/chat-server/MetricsCallbacksFactory.cpp 23-48 MakeLifeCycleCallbacks *)
Definition MakeLifeCycleCallbacks (callbacks : ServerMetricsCallbacks M) : LifeCycleCallbacks M := {|
  lcb_client := {|
    onConnected := mc_onClientConnected (smc_connection callbacks);
    onDisconnected := mc_onClientDisconnected (smc_connection callbacks);
    onRecvPosted := mc_onRecvPosted (smc_connection callbacks);
    onRecvPostFailed := mc_onRecvPostFailed (smc_connection callbacks);
    onSendPosted := mc_onSendPosted (smc_connection callbacks);
    onSendPostFailed := mc_onSendPostFailed (smc_connection callbacks) |};
  lcb_acceptor := {|
    onAcceptPosted := mc_onAcceptPosted (smc_acceptor callbacks);
    onAcceptPostFailed := mc_onAcceptPostFailed (smc_acceptor callbacks);
    onAcceptCompleted := mc_onAcceptCompleted (smc_acceptor callbacks);
    onAcceptCompletionFailed := mc_onAcceptCompletionFailed (smc_acceptor callbacks) |};
  lcb_iocp := {|
    onWorkerDispatchBegin := mc_onWorkerDispatchBegin (smc_worker callbacks);
    onWorkerDispatchEnd := mc_onWorkerDispatchEnd (smc_worker callbacks) |};
  onRecvCompleted := mc_onRecvCompleted (smc_connection callbacks);
  onSendCompleted := mc_onSendCompleted (smc_connection callbacks) |}.

(** @src exec/chat/chat-server/chat-server/MetricsCallbacksFactory.cpp 51-85 MakeMetricsCallbacksBundle *)
Definition MakeMetricsCallbacksBundle (metrics : option ((Mx -> Mx) -> M -> M))
    (metricsWriter : option (WriterMethods M)) : MetricsCallbacksBundle M :=
  let metricsCallbacks := BindServerMetricsCallbacks metrics in
  {| bundle_gameLoop := {|
       glcb_dispatcher := MakePacketDispatcherCallbacks (smc_dispatcher metricsCallbacks);
       onTickDuration := mc_observeTickDuration (smc_logic metricsCallbacks);
       onTickLag := mc_observeTickLag (smc_logic metricsCallbacks);
       onLogicThreadStarted := Some (fun threadId m =>
         match metricsWriter with Some w => SetLogicThreadId w threadId m | None => m end) |};
     bundle_server := {|
       svcb_lifecycle := MakeLifeCycleCallbacks metricsCallbacks;
       onStarted := Some (fun m => match metricsWriter with Some w => (Writer_Start w m).1 | None => m end);
       onStopping := Some (fun m => match metricsWriter with Some w => Writer_Stop w m | None => m end) |} |}.
End Factory.

(** ** Server *)

(** [_gameLoop] and the managers it shares with the handlers. *)
Record ServerApp (OS M : Type) := mkServerApp {
  _gameLoop : option (GameLoop OS (LcShared M)); app_chat : ChatState }.

Arguments mkServerApp {OS M}.
Arguments _gameLoop {OS M}.
Arguments app_chat {OS M}.

(** @src exec/chat/chat-server/chat-server/Server.h 45-55 Server *)
Record Server (M : Type) := mkServer {
  sv_config : NetworkCfg;
  _lifecycle : option (ServerLifeCycle M);
  sv_hasStopped : bool;
  sv_callbacks : ServerCallbacks M }.

Arguments mkServer {M}.
Arguments sv_config {M}.
Arguments _lifecycle {M}.
Arguments sv_hasStopped {M}.
Arguments sv_callbacks {M}.

Section Server.
Context {OS M : Type} `{WinSock OS} `{FlatBuffers} `{UMapOrder}.
Abbreviation W := (LcShared M).
Abbreviation A := (ServerApp OS M).
Abbreviation X := (Net OS W * ServerApp OS M)%type.
Implicit Types (sv : Server M) (m : AcceptMem) (n : Net OS W) (x : X) (client : nat).

(** @src exec/chat/chat-server/chat-server/Server.cpp 7-16 Server::Server *)
Definition Server_make (networkCfg : NetworkCfg) : Server M :=
  mkServer networkCfg None false (mkServerCallbacks LifeCycleCallbacks_none None None).

(** @src exec/chat/chat-server/chat-server/Server.cpp 24-26 Server::UseCallbacks *)
Definition Server_UseCallbacks (callbacks : ServerCallbacks M) sv : Server M := sv {{ sv_callbacks := callbacks }}.

(** A null [_gameLoop] is dereferenced. *)
(** @src exec/chat/chat-server/chat-server/Server.cpp 69-72 Server::OnAccept *)
Definition Server_OnAccept client x : ub X :=
  gl ← _gameLoop x.2;
  Some (x.1, mkServerApp (Some gl) (GameLoop_Connect client gl (app_chat x.2))).

(** @src exec/chat/chat-server/chat-server/Server.cpp 74-79 Server::OnRecv *)
Definition Server_OnRecv client (data : list byte) x : ub X :=
  gl ← _gameLoop x.2;
  '(gl, n) ← GameLoop_Receive client data gl x.1;
  Some (n, mkServerApp (Some gl) (app_chat x.2)).

(** Only a log line. *)
(** @src exec/chat/chat-server/chat-server/Server.cpp 81-84 Server::OnSend *)
Definition Server_OnSend client (bytesTransferred : Z) x : ub X := Some x.

(** @src exec/chat/chat-server/chat-server/Server.cpp 86-89 Server::OnDisconnect *)
Definition Server_OnDisconnect client x : ub X :=
  gl ← _gameLoop x.2;
  Some (x.1, mkServerApp (Some gl) (GameLoop_Disconnect client x.1 (app_chat x.2))).

(** @src exec/chat/chat-server/chat-server/Server.h 36-40 Server *)
Definition Server_receiver : ISessionEventReceiver X :=
  mkReceiver Server_OnAccept Server_OnRecv Server_OnSend Server_OnDisconnect.

(** The clients that objects of the game loop point to: commands, sessions, the users'
    sessions, and those of the users in the rooms. *)
Definition app_clients (app : A) : list nat :=
  match _gameLoop app with
  | None => []
  | Some gl =>
      let d := _dispatcher gl in
      let st := app_chat app in
      (cmd_client <$> _writeQueue (_commandQueue d) ++ _tickBatch d) ++
      (_tcpClient ∘ snd <$> umap_order (_sessions (sessions st))) ++
      (_tcpClient ∘ _session <$> GetAllUsers (users st) ++ (_rooms (rooms st) ≫= r_users))
  end.

Definition app_holds (app : A) (client : nat) : bool := bool_decide (client ∈ app_clients app).

(** @src exec/chat/chat-server/chat-server/Server.cpp 28-47 Server::Start *)
Definition Server_Start (listenSocket : option WindowsAsyncSocket) sv m x
    : ub (Server M * AcceptMem * X * ResultVoid ENetworkError) :=
  let '(n, app) := x in
  '(m, n) ← fresh_lifecycle (app_holds app) (_lifecycle sv) m n;
  let '(lifecycle, n) := LifeCycle_UseCallbacks (svcb_lifecycle (sv_callbacks sv)) LifeCycle_make n in
  '(lifecycle, m, n, lifecycleStartRes) ← LifeCycle_Start listenSocket (sv_config sv) lifecycle m n;
  let sv := sv {{ _lifecycle := Some lifecycle }} in
  if HasErr lifecycleStartRes then Some (sv, m, (n, app), lifecycleStartRes)
  else
    let n := with_w (on_metrics (emit (onStarted (sv_callbacks sv)))) n in
    gl ← _gameLoop app;
    Some (sv, m, (n, mkServerApp (Some (GameLoop_Start gl)) (app_chat app)), OkVoid).

(** [reset] runs the destructors.  The lifecycle goes first, with the clients nobody else
    points to; a client the game loop points to goes with it, at the latest, when the
    closures it was given dangle.  [turns] is how often the logic thread still works
    after the lifecycle is gone. *)
(** @src exec/chat/chat-server/chat-server/Server.cpp 49-67 Server::Stop *)
Definition Server_Stop (turns : nat) sv m x : ub (Server M * AcceptMem * X) :=
  let '(n, app) := x in
  '(m, n) ← match _lifecycle sv with
            | Some lifecycle =>
                '(lifecycle, m, n) ← LifeCycle_Stop (app_holds app) lifecycle m n;
                LifeCycle_destroy (app_holds app) lifecycle m n
            | None => Some (m, n)
            end;
  '(n, st) ← match _gameLoop app with
             | Some gl =>
                 '(_, (n, st)) ← GameLoop_join turns gl (n, app_chat app);
                 n ← clear_pool (fun _ => false) (app_clients app) n;
                 Some (n, st)
             | None => Some (n, app_chat app)
             end;
  let n := with_w (on_metrics (emit (onStopping (sv_callbacks sv)))) n in
  if GetConnectedClientCount n =? freed_used then None
  else Some (sv {{ _lifecycle := None; sv_hasStopped := true }}, m, (n, mkServerApp None st)).

(** @src exec/chat/chat-server/chat-server/Server.cpp 18-22 Server::~Server *)
Definition Server_destroy (turns : nat) sv m x : ub (Server M * AcceptMem * X) :=
  if negb (sv_hasStopped sv) then Server_Stop turns sv m x else Some (sv, m, x).

(** The game loop's callbacks, seen from the state the lifecycle adds. *)
Definition lift_dispatcher (cb : PacketDispatcherCallbacks M) : PacketDispatcherCallbacks W := {|
  onPacketValidationSucceeded := on_metrics <$> onPacketValidationSucceeded cb;
  onPacketValidationFailed := on_metrics <$> onPacketValidationFailed cb;
  onQueuePushed := (fun f k => on_metrics (f k)) <$> onQueuePushed cb;
  onQueueDrained := (fun f k => on_metrics (f k)) <$> onQueueDrained cb;
  onQueueWait := (fun f k => on_metrics (f k)) <$> onQueueWait cb;
  onDispatchProcess := (fun f k => on_metrics (f k)) <$> onDispatchProcess cb |}.

Definition lift_gameLoop (cb : GameLoopCallbacks M) : GameLoopCallbacks W := {|
  glcb_dispatcher := lift_dispatcher (glcb_dispatcher cb);
  onTickDuration := (fun f k => on_metrics (f k)) <$> onTickDuration cb;
  onTickLag := (fun f k => on_metrics (f k)) <$> onTickLag cb;
  onLogicThreadStarted := (fun f k => on_metrics (f k)) <$> onLogicThreadStarted cb |}.

(** The objects [main] builds before it starts the server: the handlers registered in
    some order, the bundle of callbacks, one room. *)
(** @src exec/chat/chat-server/chat-server/main.cpp 58-76 main *)
Definition main_build (c : NetworkCfg) (order : list (PayloadName * _)) (bundle : MetricsCallbacksBundle M)
    : Server M * A :=
  let gameLoop := GameLoop_make PacketDispatcher_init (static_registry order) (tickMs (cfg_server c)) in
  let gameLoop := GameLoop_UseCallbacks (lift_gameLoop (bundle_gameLoop bundle)) gameLoop in
  let chat := mkChatState SessionManager_init UserManager_init (RoomManager_make 1 (maxCapacity (cfg_room c))) in
  (Server_UseCallbacks (bundle_server bundle) (Server_make c), mkServerApp (Some gameLoop) chat).

(** The listening socket is passed on without a test. *)
(** @src exec/chat/chat-server/chat-server/main.cpp 81-90 main *)
Definition main_start (c : NetworkCfg) (order : list (PayloadName * _)) (bundle : MetricsCallbacksBundle M)
    (os : OS) (metrics : M) : ub (Server M * AcceptMem * X * ResultVoid ENetworkError) :=
  let '(s, app) := main_build c order bundle in
  let '(listenSocket, os) := MakeDefaultListener TCP c os in
  let n := mkNet os (mkLcShared 0 LifeCycleCallbacks_none metrics) [] in
  Server_Start listenSocket s AcceptMem_init (n, app).

(** After the wait for the console, or when the start failed: what [main] deferred, and the
    destructor. *)
(** @src exec/chat/chat-server/chat-server/main.cpp 77-79 main *)
Definition main_stop (turns : nat) sv m x : ub (Server M * AcceptMem * X) :=
  '(sv, m, x) ← Server_Stop turns sv m x; Server_destroy turns sv m x.
End Server.
