(* ===== verification/ChatServerProps.v ===== *)
(** * Chat server: the server keeps to the interface of the network layer

    [Server] discharges [ReceiverOk] and the logic thread [LogicOk]; the theorems of
    the network layer then hold of the whole chat server, from [main]. *)

From S2P Require Import Prelude Errors Platform FrameBuffer NetworkCfg SocketSetup Scope Pools CommandQueue Protocol.
From S2P Require Import ServerMetrics NetClient Net Ledger IoMultiplexer Acceptor MetricsCallbacks PacketDispatcher.
From S2P Require Import NetSteps Lifecycle LifecycleProps LifecycleRun Framing.
From S2P Require Import ChatSession ChatUser ChatRoom ChatHandlers ChatInvariant GameLoop ChatSteps ChatRun ChatServer.
From coqutil Require Import Byte Datatypes.RecordSetters.
From stdpp Require Import base gmap list strings option relations.
Import DoubleBraceUpdate.
Open Scope Z_scope.

Section ServerProps.
Context {OS M : Type} `{Traced OS} `{FlatBuffers} `{UMapOrder}.
Abbreviation W := (LcShared M).
Abbreviation X := (Net OS W * ServerApp OS M)%type.
Implicit Types (n : Net OS W) (app : ServerApp OS M) (k : nat).

(** The heap has [size] slots. *)
Definition app_ok (size : nat) k app : Prop :=
  k = size /\ exists gl, _gameLoop app = Some gl /\ loop_ok keeps_count k gl /\ chat_ok k (app_chat app).

#[export] Instance Server_ReceiverOk size : ReceiverOk (app_ok size) (fun _ => True) Server_receiver.
Proof.
  constructor; cbn.
  - intros i n [gl' st] Hi Hok (Hsize & gl & Hgl & Hl & Hst). cbn in Hgl, Hst. subst gl'. unfold Server_OnAccept. cbn.
    eexists _, _. split; [done|]. split; [done|]. split; [done|]. exists gl. split_and!; [done..|]. by apply connect_chat_ok.
  - intros i data n [gl' st] _ Hi Hok (Hsize & gl & Hgl & Hl & Hst). cbn in Hgl, Hst. subst gl'. unfold Server_OnRecv.
    cbn [_gameLoop fst snd mbind option_bind].
    destruct (GameLoop_Receive_sound keeps_count gl i data n Hl) as (gl1 & n1 & -> & Hs & Hl1); [apply Hok|done|].
    cbn [mbind option_bind]. eexists _, _. split; [done|]. split; [apply Hs|]. split; [done|]. by exists gl1.
  - intros i bytes n app Hi Hok Happ. by eexists _, _.
  - intros i n [gl' st] Hi Hok (Hsize & gl & Hgl & Hl & Hst). cbn in Hgl, Hst. subst gl'. unfold Server_OnDisconnect. cbn.
    eexists _, _. split; [done|]. split; [done|]. split; [done|]. exists gl. split_and!; [done..|]. by apply disconnect_chat_ok.
Qed.

(** One turn of the logic thread. *)
Definition Server_logic (x : X) : ub X :=
  gl ← _gameLoop x.2;
  '(gl, (n, st), _) ← Update_turn gl (x.1, app_chat x.2);
  Some (n, mkServerApp (Some gl) st).

#[export] Instance Server_LogicOk size : LogicOk Server_logic (app_ok size).
Proof.
  intros n [gl' st] Hok (Hsize & gl & Hgl & Hl & Hst). cbn in Hgl, Hst. subst gl'. unfold Server_logic.
  cbn [_gameLoop app_chat fst snd mbind option_bind].
  destruct (Update_turn_sound keeps_count gl n st Hl) as (gl1 & n1 & st1 & late & -> & Hs & Hl1 & Hst1);
    [apply Hok|done|]. cbn [mbind option_bind].
  eexists _, _. split; [done|]. split; [apply Hs|]. split; [done|]. by exists gl1.
Qed.

(** ** What [main] builds *)

Lemma emit1_lift_keeps (f : option (Z -> M -> M)) (v : Z) :
  keeps_count (emit1 (option_map (fun f t => on_metrics (f t)) f) v).
Proof. destruct f; [apply on_metrics_keeps|by intros w]. Qed.

Lemma main_build_ok c order bundle k :
  order ≡ₚ chat_handlers -> app_ok k k (main_build (OS:=OS) c order bundle).2.
Proof.
  intros Hord. split; [done|]. eexists. split; [done|]. split.
  - constructor.
    + constructor.
      * constructor; intros; cbn; first [apply emit_lift_keeps|apply emit1_lift_keeps].
      * cbn. intros t fn Hfn. apply static_registry_only in Hfn as (T & h & Hin & _ & ->).
        rewrite Hord in Hin. by exists T, h.
      * change (Forall (fun cmd => (cmd_client cmd < k)%nat) (_writeQueue (_commandQueue
          (Registry_RegisterAll (OS:=OS) (W:=W) PacketDispatcher_init (static_registry order))))).
        rewrite static_registry_queue. constructor.
      * change (Forall (fun cmd => (cmd_client cmd < k)%nat)
          (_tickBatch (Registry_RegisterAll (OS:=OS) (W:=W) PacketDispatcher_init (static_registry order)))).
        rewrite static_registry_batch. constructor.
    + intros t. apply emit1_lift_keeps.
    + intros t. apply emit1_lift_keeps.
  - constructor; cbn; try done. repeat constructor; cbn; try done; lia.
Qed.

Lemma LifeCycle_UseCallbacks_fresh (cb : LifeCycleCallbacks M) n :
  clients n = [] ->
  LifeCycle_UseCallbacks cb LifeCycle_make n = (LifeCycle_make, with_w (fun w => w {{ lc_callbacks := cb }}) n).
Proof. done. Qed.

(** Every run from [main] on. *)
Lemma main_run c order bundle (os : OS) (metrics : M) sv m x r lc evs :
  order ≡ₚ chat_handlers -> maxClients (cfg_server c) <= INT_MAX ->
  main_start c order bundle os metrics = Some (sv, m, x, r) -> HasErr r = false -> _lifecycle sv = Some lc ->
  let size := Z.to_nat (maxClients (cfg_server c)) in
  exists s, lc_run Server_receiver Server_logic (lc, m, x) evs = Some s /\ server_inv (app_ok size) s /\
    _clientPool s.1.1 = seq 0 size /\ sv_hasStopped sv = false /\
    forall sock, sock <> InvalidSocket -> unowned s sock = os_balance (MakeDefaultListener TCP c os).2 sock.
Proof.
  intros Hord Hmax Hmain Hr Hlc size. unfold main_start in Hmain.
  pose proof (main_build_ok c order bundle size Hord) as Happ.
  destruct (main_build c order bundle) as [s0 app0] eqn:Hbuild.
  assert (sv_config s0 = c /\ _lifecycle s0 = None /\ sv_hasStopped s0 = false) as (Hcfg & Hl0 & Hst0)
    by (by injection Hbuild as <- _).
  destruct (MakeDefaultListener TCP c os) as [listener os1]. cbn [snd] in *.
  unfold Server_Start, fresh_lifecycle in Hmain. rewrite Hl0 in Hmain. cbn [mbind option_bind] in Hmain.
  rewrite LifeCycle_UseCallbacks_fresh in Hmain by done. set (n0 := with_w _ (with_w _ _)) in *.
  destruct (LifeCycle_Start listener (sv_config s0) LifeCycle_make AcceptMem_init n0)
    as [[[[lc1 m1] n1] r1]|] eqn:Hstart; [|done]. cbn [mbind option_bind] in Hmain.
  destruct (HasErr r1) eqn:Hr1; [injection Hmain as <- <- <- <-; congruence|].
  destruct (_gameLoop app0) as [gl|] eqn:Hgl; [|done]. cbn [mbind option_bind] in Hmain.
  injection Hmain as <- <- <- <-.
  change (Some lc1 = Some lc) in Hlc. injection Hlc as ->. rewrite Hcfg in Hstart.
  destruct (started_run Server_receiver Server_logic (app_ok size) (fun _ => True) size listener c n0 app0 lc m1 n1 r1
    (on_metrics (emit (onStarted (sv_callbacks s0)))) (mkServerApp (Some (GameLoop_Start gl)) (app_chat app0)) evs)
    as (s & Hrun & Hinv & Hpool & Hun); try done; [by intros k app [? _]| | |].
  - destruct Happ as (Hsz & gl' & Hgl' & Hlo & Hch). rewrite Hgl in Hgl'. injection Hgl' as <-. split; [done|].
    exists (GameLoop_Start gl). split_and!; [done| |done]. destruct Hlo. by constructor; destruct gl.
  - apply Forall_intro. by intros [| ? [] | |].
  - exists s. split_and!; [done..|by destruct s0|done].
Qed.

(** C6: the whole chat server accounts for its connections.  Once [main] has started
    the server, whatever accepts, receives and sends complete with whatever results
    and bytes, interleaved with the logic thread in any order, every operation is
    defined; the counter of connected clients is the number of slots that announced a
    connection; and a socket that the server opened is still open exactly when one
    slot or one accept under way holds it. *)
Theorem chat_server_accounting c order bundle (os : OS) (metrics : M) sv m x r lc evs :
  order ≡ₚ chat_handlers -> maxClients (cfg_server c) <= INT_MAX ->
  main_start c order bundle os metrics = Some (sv, m, x, r) -> HasErr r = false -> _lifecycle sv = Some lc ->
  exists lc' m' n' app', lc_run Server_receiver Server_logic (lc, m, x) evs = Some (lc', m', (n', app')) /\
    GetConnectedClientCount n' = zsum counted (clients n') /\
    zlen (clients n') = Z.max 0 (maxClients (cfg_server c)) /\
    exists a, _acceptor lc' = Some a /\ forall s, s <> InvalidSocket ->
      os_balance (net_os n') s =
        os_balance (MakeDefaultListener TCP c os).2 s + slots n' s + held a m' s.
Proof.
  intros Hord Hmax Hmain Hr Hlc.
  destruct (main_run c order bundle os metrics sv m x r lc evs Hord Hmax Hmain Hr Hlc)
    as ([[lc' m'] [n' app']] & Hrun & Hinv & _ & _ & Hun).
  destruct (server_inv_accounts (app_ok (Z.to_nat (maxClients (cfg_server c)))) _ _ _ (fun k d => @proj1 _ _) Hinv Hun)
    as (Hk & Hlen & Hacc).
  exists lc', m', n', app'. split; [done|]. split; [done|]. split; [|done]. unfold zlen. cbn [fst snd] in Hlen. lia.
Qed.

(** ** A connection the dispatcher refuses *)

Lemma PostRecv_socket i n n' r : Net_PostRecv i n = Some (n', r) -> forall j, socket_of n' j = socket_of n j.
Proof.
  unfold Net_PostRecv. destruct (clients n !! i) as [c|] eqn:Hi; [|done]. cbn [mbind option_bind].
  pose proof (PostRecv_client c (net_os n) (net_w n)) as Hc.
  destruct (PostRecv c (net_os n) (net_w n)) as [[[c' os'] w'] r']. cbn [fst] in Hc. intros [= <- <-] j.
  unfold socket_of. cbn [clients]. destruct (decide (j = i)) as [->|Hne]; [|by rewrite list_lookup_insert_ne].
  rewrite list_lookup_insert_eq by (by eapply lookup_lt_Some). rewrite Hi, Hc. by destruct c.
Qed.

Lemma Close_socket i b n n' : Net_Close i b n = Some n' -> socket_of n' i = InvalidSocket.
Proof.
  unfold Net_Close. destruct (clients n !! i) as [c|] eqn:Hi; [|done]. cbn [mbind option_bind].
  pose proof (Close_client b c (net_os n) (net_w n)) as Hc.
  destruct (Close b c (net_os n) (net_w n)) as [[c' os'] w']. cbn [fst] in Hc. intros [= <-].
  unfold socket_of. cbn [clients]. rewrite list_lookup_insert_eq by (by eapply lookup_lt_Some).
  rewrite Hc. by destruct c.
Qed.

(** a client the dispatcher refuses is never disconnected from the chat.  When
    the bytes of a receive make [Receive] refuse the stream, the completion closes the
    socket, but the application is not told: the session, the user and the place in
    the room all stay. *)
Lemma refused_client_keeps_place i c gl st n bytes data acc rest :
  lc_ok n -> clients n !! i = Some c -> loop_ok keeps_count (length (clients n)) gl ->
  gl_hasStopped gl = false ->
  0 < bytes <= recvBufferSize -> data = take (Z.to_nat bytes) (recv_buf (recvOverlapped c)) ->
  zlen (FrameBuffer_Data (_frameBuf c)) + zlen data <= maxFrameSize ->
  decodes (FrameBuffer_Data (_frameBuf c) ++ data) acc rest true ->
  exists n' app', HandleRecv (Some Server_receiver)
      (mkCompletionEvent IoRecv (Some i) (Some (OvRecv i)) bytes true 0) (n, mkServerApp (Some gl) st)
      = Some (n', app') /\ app_chat app' = st /\ socket_of n' i = InvalidSocket.
Proof.
  intros Hok Hi Hl Hrun Hb Hdata Hfit Hdec. unfold HandleRecv.
  cbn [ev_target ev_success ev_bytesTransferred ev_overlapped mbind option_bind negb orb].
  destruct (Z.eqb_spec bytes 0); [lia|]. set (n1 := with_w _ n).
  assert (clients n1 !! i = Some c) as Hi1 by done. rewrite Hi1. cbn [fmap option_fmap option_map mbind option_bind].
  pose proof (lc_inv_client _ _ _ _ Hok Hi) as Hci.
  unfold compose. rewrite (proj1 Hci), (proj2 (Z.ltb_ge _ _)) by lia. rewrite <-Hdata.
  cbn [OnRecv Server_receiver]. unfold Server_OnRecv, GameLoop_Receive.
  cbn [_gameLoop app_chat fst snd mbind option_bind]. rewrite Hrun.
  assert (Net_inv n1) as Hn1 by apply Hok.
  destruct (Receive_fits (_dispatcher gl) i n1 c data Hn1 Hi1 Hfit)
    as (acc' & rest' & rej & d' & n2 & Hdec' & -> & Hrec).
  destruct (decodes_det _ _ _ _ _ _ _ Hdec Hdec') as (_ & _ & <-). cbn [mbind option_bind].
  destruct Hrec as (_ & _ & _ & _ & _ & (fb & _ & Hcl2) & _).
  assert (clients n2 !! i = Some (closed (c {{ _frameBuf := fb }}))) as Hi2.
  { rewrite Hcl2. apply list_lookup_insert_eq. by eapply lookup_lt_Some. }
  assert (socket_of n2 i = InvalidSocket) as Hs2 by (unfold socket_of; rewrite Hi2; by destruct c).
  destruct (PostRecv_returns n2 i _ Hi2) as (n3 & r & Hpost). rewrite Hpost. cbn [mbind option_bind].
  pose proof (PostRecv_socket i n2 n3 r Hpost i) as Hs3. rewrite Hs2 in Hs3.
  destruct (HasErr r); [|by eexists _, _]. unfold CloseClient.
  destruct (clients n3 !! i) as [c3|] eqn:Hi3; cbn [mbind option_bind].
  - unfold socket_of in Hs3. rewrite Hi3 in Hs3. rewrite Hs3. cbn [negb Z.eqb].
    replace (negb (InvalidSocket =? InvalidSocket)) with false by done. cbn [mbind option_bind].
    eexists _, _. split; [done|]. split; [done|]. unfold socket_of. by rewrite Hi3.
  - exfalso. unfold Net_PostRecv in Hpost. rewrite Hi2 in Hpost. cbn [mbind option_bind] in Hpost.
    destruct (PostRecv _ _ _) as [[[c' os'] w'] r']. injection Hpost as <- _. cbn in Hi3.
    rewrite list_lookup_insert_eq in Hi3 by (by eapply lookup_lt_Some). done.
Qed.

(** [main] does not survive a listening socket that cannot be made.  When
    [MakeDefaultListener] gives up it returns a null pointer, which [Start]
    dereferences as soon as the completion port exists: starting the server is then
    undefined instead of an error. *)
Lemma start_without_listener c order bundle (os os1 os2 os3 : OS) (metrics : M) hw iocp :
  MakeDefaultListener TCP c os = (None, os1) ->
  os_call SysHardwareConcurrency os1 = (os2, hw) ->
  os_call (SysCreateIoCompletionPort INVALID_HANDLE_VALUE 0 0) os2 = (os3, iocp) -> ret iocp <> 0 ->
  main_start c order bundle os metrics = None.
Proof.
  intros Hl Hhw Hiocp Hne. unfold main_start. rewrite Hl.
  change (main_build c order bundle) with ((main_build c order bundle).1, (main_build (OS:=OS) c order bundle).2).
  unfold Server_Start, fresh_lifecycle. change (_lifecycle (main_build c order bundle).1) with (@None (ServerLifeCycle M)).
  cbn [mbind option_bind]. rewrite LifeCycle_UseCallbacks_fresh by done. unfold LifeCycle_Start.
  cbn [with_w net_os]. change (_iocp (LifeCycle_make {{ lc_config := _ }})) with
    (@None (IocpIoMultiplexer W LcHandler)). cbv iota. rewrite Hhw. unfold Iocp_Initialize. rewrite Hiocp.
  case_bool; [apply Z.eqb_eq in Hb; by destruct Hne|]. done.
Qed.
End ServerProps.

(** *** A concrete server

    Two slots and one accept; the metrics are the atomic ones. *)

#[local] Existing Instance demo_codec.

Definition demo_cfg : NetworkCfg :=
  mkNetworkCfg (mkServerCfg 8080 2 1 16) (mkRoomCfg 10) (mkThreadCfg 2 2 (-1)).

Definition demo_bundle : MetricsCallbacksBundle AtomicServerMetrics :=
  MakeMetricsCallbacksBundle (Some (fun f m => f m)) None.

Definition io_pending : sysret := mkSysret 0 ERROR_IO_PENDING [].

(** The listener (socket 5), the completion port (7), the first accept (socket 100);
    then its completion, and the accept that follows (socket 101). *)
Definition demo_os : TraceOS ScriptOS :=
  mkTraceOS (script_of
    ([sysok; sysval 5; sysok; sysok; sysok; sysok] ++ [sysval 2; sysval 7; sysval 7; sysok; sysok] ++
     [sysval 100; io_pending] ++ [sysok; sysval 7; sysok; sysval 101; io_pending])) [].

Abbreviation demo_main :=
  (main_start demo_cfg chat_handlers demo_bundle demo_os AtomicServerMetrics_init).

(** A client connects, sends a request to join, the logic thread runs, and the peer
    goes away. *)
Definition demo_events : list LcEvent :=
  [LAccept 1 0; LRecv 0 true (stream [demo_p1]); LLogic; LSend 0 true 20; LRecv 0 false []].

Lemma demo_main_started :
  match demo_main with
  | Some (sv, _, _, r) => negb (HasErr r) && bool_decide (is_Some (_lifecycle sv))
  | None => false
  end = true.
Proof. vm_compute. reflexivity. Qed.

Lemma chat_server_accounting_witness :
  exists sv m x r lc, demo_main = Some (sv, m, x, r) /\
  exists lc' m' n' app',
    lc_run Server_receiver Server_logic (lc, m, x) demo_events = Some (lc', m', (n', app')) /\
    GetConnectedClientCount n' = zsum counted (clients n') /\
    zlen (clients n') = Z.max 0 (maxClients (cfg_server demo_cfg)) /\
    exists a, _acceptor lc' = Some a /\ forall s, s <> InvalidSocket ->
      os_balance (net_os n') s =
        os_balance (MakeDefaultListener TCP demo_cfg demo_os).2 s + slots n' s + held a m' s.
Proof.
  pose proof demo_main_started as Hs. destruct demo_main as [[[[sv m] x] r]|] eqn:Hmain; [|discriminate Hs].
  apply andb_true_iff in Hs as [Hr Hlc]. apply negb_true_iff in Hr. apply bool_decide_eq_true in Hlc as [lc Hlc]. exists sv, m, x, r, lc. split; [reflexivity|].
  apply (chat_server_accounting demo_cfg chat_handlers demo_bundle demo_os AtomicServerMetrics_init sv m x r lc demo_events).
  - reflexivity.
  - vm_compute; discriminate.
  - exact Hmain.
  - exact Hr.
  - exact Hlc.
Defined.

(** The peer sends a header that announces 4294967295 bytes. *)
Definition hostile_client : Client (LcShared AtomicServerMetrics) :=
  fresh_client {{ recvOverlapped := mkRecvOverlapped IoRecv recvBufferSize
    (replicate 4 Byte.xff ++ replicate (Z.to_nat recvBufferSize - 4) Byte.x00) }}.

Definition hostile_net : Net (TraceOS ScriptOS) (LcShared AtomicServerMetrics) :=
  mkNet (mkTraceOS (script_of []) []) (mkLcShared 0 LifeCycleCallbacks_none AtomicServerMetrics_init) [hostile_client].

Lemma hostile_net_ok : lc_ok hostile_net.
Proof.
  split_and!; [| |vm_compute; reflexivity|vm_compute; reflexivity]; (constructor; [|constructor]).
  - split_and!; [vm_compute; reflexivity|vm_compute; reflexivity|apply FrameBuffer_init_inv|done].
  - reflexivity.
Qed.

Lemma refused_client_keeps_place_witness :
  exists gl n' app', HandleRecv (Some Server_receiver)
      (mkCompletionEvent IoRecv (Some 0%nat) (Some (OvRecv 0)) 4 true 0)
      (hostile_net, mkServerApp (Some gl) (ChatState_init 1 10)) = Some (n', app') /\
    app_chat app' = ChatState_init 1 10 /\ socket_of n' 0 = InvalidSocket.
Proof.
  destruct (main_build_ok (OS:=TraceOS ScriptOS) demo_cfg chat_handlers demo_bundle 1 (reflexivity _))
    as (_ & gl & Hgl & Hlo & _).
  exists gl. apply (refused_client_keeps_place 0 hostile_client gl (ChatState_init 1 10) hostile_net 4
                      (replicate 4 Byte.xff) [] (replicate 4 Byte.xff)).
  - exact hostile_net_ok.
  - reflexivity.
  - exact Hlo.
  - injection Hgl as <-. reflexivity.
  - split; [lia|vm_compute; discriminate].
  - reflexivity.
  - vm_compute; discriminate.
  - apply dec_oversize; vm_compute; [discriminate|reflexivity].
Defined.

(** [WSAStartup] fails. *)
Lemma start_without_listener_witness :
  main_start demo_cfg chat_handlers demo_bundle
    (mkTraceOS (script_of [sysval 10091; sysval 4; sysval 7]) []) AtomicServerMetrics_init = None.
Proof.
  eapply (start_without_listener demo_cfg chat_handlers demo_bundle
           (mkTraceOS (script_of [sysval 10091; sysval 4; sysval 7]) [])
           (MakeDefaultListener TCP demo_cfg (mkTraceOS (script_of [sysval 10091; sysval 4; sysval 7]) [])).2
           _ _ AtomicServerMetrics_init (sysval 4) (sysval 7)).
  - reflexivity.
  - reflexivity.
  - reflexivity.
  - discriminate.
Defined.
