(* ===== verification/ChatStop.v ===== *)
(** * Chat server: stopping

    [Server::Stop] destroys the lifecycle before the game loop, whose sessions still point
    to clients, and these clients call the lifecycle back when they are closed.  What that
    means for a server that has run is proved here. *)

From S2P Require Import Prelude Errors Platform FrameBuffer NetworkCfg SocketSetup Scope Pools CommandQueue Protocol.
From S2P Require Import ServerMetrics NetClient Net Ledger IoMultiplexer Acceptor MetricsCallbacks PacketDispatcher.
From S2P Require Import NetSteps Lifecycle LifecycleProps LifecycleRun Framing.
From S2P Require Import ChatSession ChatUser ChatRoom ChatHandlers ChatInvariant GameLoop ChatSteps ChatRun ChatServer ChatServerProps.
From coqutil Require Import Byte Datatypes.RecordSetters.
From stdpp Require Import base gmap list strings option relations.
Import DoubleBraceUpdate.
Open Scope Z_scope.

(** ** A server whose clients are all closed sends nothing *)

Section Still.
Context {OS W : Type} `{WinSock OS} `{FlatBuffers} `{UMapOrder}.
Implicit Types (n : Net OS W) (st : ChatState).

Definition shut (c : Client W) : Prop := socket c = InvalidSocket /\ _connectionEventCounted c = false.

(** When every client is shut, neither a client nor the state of the callbacks changes. *)
Definition still n n' : Prop := Forall shut (clients n) -> clients n' = clients n /\ net_w n' = net_w n.

#[export] Instance still_preorder : PreOrder still.
Proof.
  split; [by intros n|]. intros n1 n2 n3 H12 H23 Hs. destruct (H12 Hs) as [Hc Hw]. rewrite <-Hc, <-Hw. apply H23. by rewrite Hc.
Qed.







End Still.

Section Quiet.
Context {OS M : Type} `{WinSock OS} `{FlatBuffers} `{UMapOrder}.
Abbreviation W := (LcShared M).
Implicit Types (n : Net OS W) (st : ChatState) (gl : GameLoop OS W) (d : PacketDispatcher OS W ChatState).

(** When every client is shut, it stays so, and the counter is what it was. *)
Definition quiet n n' : Prop :=
  Forall shut (clients n) -> Forall shut (clients n') /\ _connectedClientCount (net_w n') = _connectedClientCount (net_w n).

#[export] Instance quiet_preorder : PreOrder quiet.
Proof. split; [by intros n|]. intros n1 n2 n3 H12 H23 Hs. destruct (H12 Hs) as [Hc <-]. by apply H23. Qed.









End Quiet.

(** ** Clients whose lifecycle is gone *)

Section Dangling.
Context {OS M : Type} `{Traced OS}.
Abbreviation W := (LcShared M).
Implicit Types (n : Net OS W) (c : Client W) (i : nat).




(** The slot has announced a connection. *)
Definition live_at n i : Prop :=
  exists c, clients n !! i = Some c /\ _connectionEstablished c = true /\ _connectionEventCounted c = true.

(** Either freed memory is used, or the counter and the connections are what they were. *)
Definition uses_or_keeps n n' : Prop :=
  GetConnectedClientCount n' = freed_used \/
  (GetConnectedClientCount n' = GetConnectedClientCount n /\ forall i, live_at n i -> live_at n' i).

#[export] Instance uses_or_keeps_preorder : PreOrder uses_or_keeps.
Proof.
  split; [intros n; by right|]. intros n1 n2 n3 [H1|[H1 L1]] [H2|[H2 L2]]; [by left|left; congruence|by left|].
  right. split; [congruence|auto].
Qed.






End Dangling.

(** ** Stopping the lifecycle *)

Section StopLifecycle.
Context {OS M : Type} `{Traced OS} `{UMapOrder}.
Abbreviation W := (LcShared M).
Implicit Types (n : Net OS W) (lc : ServerLifeCycle M) (m : AcceptMem) (holds : nat -> bool).







End StopLifecycle.

(** ** Stopping the server *)

Section StopServer.
Context {OS M : Type} `{Traced OS} `{FlatBuffers} `{UMapOrder}.
Abbreviation W := (LcShared M).
Abbreviation X := (Net OS W * ServerApp OS M)%type.
Implicit Types (n : Net OS W) (app : ServerApp OS M) (sv : Server M) (lc : ServerLifeCycle M) (m : AcceptMem).






Section Stopping.
Context (size turns : nat) (sv : Server M) (lc : ServerLifeCycle M) (m : AcceptMem) (n : Net OS W) (app : ServerApp OS M).
Context (Hinv : server_inv (app_ok size) (lc, m, (n, app))) (Hpool : _clientPool lc = seq 0 size) (Hlc : _lifecycle sv = Some lc).



End Stopping.

End StopServer.

(** *** A concrete server, with and without a client at the end *)

#[local] Existing Instance demo_codec.






